(* ===== verification/_CoqProject ===== *)
-Q . S2P
Prelude.v
PjTime.v
Base64.v
TimerHeap.v
SipTypes.v
TsxData.v
TsxOps.v
TsxHandlers.v
TsxInv.v
TsxSend.v
TsxSafe.v
TsxEqs.v
TsxProps.v
JbList.v
JbRefine.v
JBuf.v
JbProps.v
Rtp.v
Hash.v
TsxLayer.v
PjStr.v
Sdp.v
SdpNeg.v
SdpProps.v
SdpAnswer.v
SdpMachine.v
SdpTotal.v
SdpSamples.v
Words.v
Crc32.v
Digest.v
Sha1.v
Sha1Props.v
Md5.v
Md5Props.v
Stun.v
StunWire.v
StunMsg.v
StunProps.v
StunSafe.v
StunBounds.v
StunAuth.v
StunAuthProps.v
SipTargets.v
SipTargetProps.v
InvData.v
InvNeg.v
InvExt.v
InvOps.v
InvCalls.v
InvHandlers.v
InvCreate.v
InvSafe.v
InvSafeExt.v
InvSafeOps.v
InvSafeCalls.v
InvSafeRequests.v
InvSafeUpdate.v
InvSafeStates.v
InvSafeModule.v
InvSafeRun.v
InvFunc.v
InvSamples.v
InvVerify.v
InvProps.v
InvWitness.v
SessTimer.v
SessTimerProps.v
SipAuth.v
SipAuthProps.v
SipUri.v
SipReg.v
SipRegSafe.v
SipRegProps.v
