(* ===== verification/Prelude.v ===== *)
(** * Verification library of the SIP/RTP stack under QtSipPhone/PJSIP

    The program is the phone QtSipPhone, whose protocol work is done by the C
    libraries under src/QtSipPhone/PJSIP.  Paths below are relative to that
    directory.  The library models the parts that carry the protocol logic and
    the data structures under them:

    - Base64.v: the codec of pjlib-util/src/pjlib-util/base64.c.
    - PjTime.v: time values, pjlib/src/pj/types.c and the macros of pj/types.h.
    - TimerHeap.v: the timer heap, pjlib/src/pj/timer.c.
    - Hash.v: the hash table, pjlib/src/pj/hash.c.
    - SipTypes.v: the roles, methods, transaction states and status classes of SIP.
    - PjStr.v: the string functions of pjlib/src/pj/string.c, with the class [PjString]
      of those that pj/string_i.h inlines.
    - TsxData.v, TsxOps.v, TsxHandlers.v: one SIP transaction,
      pjsip/src/pjsip/sip_transaction.c: its record and the monad its operations
      run in; timers, state changes, sending and its callbacks; the ten state
      handlers and the public functions.  TsxInv.v, TsxSend.v, TsxSafe.v prove its
      invariant, TsxEqs.v and TsxProps.v its behaviour.
    - TsxLayer.v: the transaction layer of the same file: keys, the table of
      transactions, creation, and dispatch of received messages.
    - JbList.v, JbRefine.v, JBuf.v, JbProps.v: the jitter buffer,
      pjmedia/src/pjmedia/jbuf.c: the circular frame list, its refinement of a
      queue of slots, the adaptive part, and the theorems.
    - Rtp.v: RTP packets and sequence control, pjmedia/src/pjmedia/rtp.c.
    - Sdp.v, SdpNeg.v: session descriptions (of pjmedia/src/pjmedia/sdp.c their data,
      attributes and validation) and the offer/answer negotiator,
      pjmedia/src/pjmedia/sdp_neg.c.  SdpProps.v has the directions and the formats of
      one line, SdpAnswer.v and SdpTotal.v the making of an answer, SdpMachine.v the
      state machine, SdpSamples.v concrete descriptions.
    - Words.v, Crc32.v, Digest.v, Sha1.v, Md5.v: 32-bit words and bytes, the CRC-32, the
      hashing by blocks that the two digests share, SHA-1 and MD5 with their HMACs, from
      pjlib-util/src/pjlib-util (crc32.c, sha1.c, md5.c, hmac_sha1.c, hmac_md5.c); Sha1Props.v
      and Md5Props.v compare them with FIPS 180-1, RFC 1321 and RFC 2104.
    - Stun.v: STUN messages, pjnath/src/pjnath/stun_msg.c.  StunWire.v has lemmas of its
      buffers, StunMsg.v of its attributes; StunProps.v the round trip, StunSafe.v the decoder,
      StunBounds.v the bounds of the encoder.
    - StunAuth.v, StunAuthProps.v: the authentication of STUN messages, stun_auth.c.
    - SipTargets.v, SipTargetProps.v: the target sets of pjsip/src/pjsip/sip_util.c.
    - InvData.v, InvOps.v, InvCalls.v, InvHandlers.v, InvCreate.v: INVITE sessions,
      pjsip/src/pjsip-ua/sip_inv.c: messages, sessions and the world they live in; offers
      and answers in messages; ending, sending and acknowledging, redirection and the
      functions that make requests; the handlers of the seven states and the callbacks of
      the module; the creation and verification of sessions.  InvExt.v stands for the
      functions of other modules, InvNeg.v makes the negotiator of SdpNeg.v the one that
      sessions use.  InvSafe.v is a program logic of postconditions with the invariant;
      InvSafeExt.v, InvSafeOps.v, InvSafeCalls.v, InvSafeRequests.v, InvSafeUpdate.v,
      InvSafeStates.v and InvSafeModule.v prove that every function keeps it, in the order
      of the code, and InvSafeRun.v that every session that is reached has it.  InvFunc.v
      is a logic of total correctness, InvSamples.v has two concrete calls, InvVerify.v,
      InvProps.v and InvWitness.v the theorems and their instances.
    - SessTimer.v, SessTimerProps.v: the session timers of RFC 4028,
      pjsip/src/pjsip-ua/sip_timer.c.
    - SipAuth.v, SipAuthProps.v: digest authentication, sip_auth_client.c and
      sip_auth_server.c of pjsip/src/pjsip.
    - SipUri.v: the comparison of SIP URIs, pjsip/src/pjsip/sip_uri.c.
    - SipReg.v: client registrations, pjsip/src/pjsip-ua/sip_reg.c.  SipRegSafe.v proves the
      invariant of its functions, SipRegProps.v the theorems.

    Definitions have the names of the C functions and types, a few auxiliary ones
    name the part of a function they stand for (PROJECT.json gives the lines).

    ** How the parts interact

    Received packets enter by Rtp and are stored in the jitter buffer.  A SIP
    message is dispatched by TsxLayer to the transaction under its key, which it
    finds with Hash; the transaction of TsxHandlers changes state, sends through
    the transports and arms its two timers in the timer heap, which call it back.
    TsxLayer uses the theorems of Hash (the table [holds] a map) and of TsxSafe
    (every operation on a transaction is [good]) and nothing of their inside.
    A transaction uses two entries of the timer heap through the contract that
    TimerHeap proves: scheduling, cancelling, and firing what is due.  Its model
    keeps the two entries in the transaction record, without the heap.
    The negotiator stands beside the transactions: it is driven by the descriptions
    in the bodies of the messages, and its result configures the media; it asks the
    string functions of pjlib through the class [PjString] and calls the format match
    callbacks of codecs, which are a parameter.
    STUN messages end in a FINGERPRINT, a CRC-32, and a MESSAGE-INTEGRITY, an HMAC of SHA-1;
    the key of a long-term credential is an MD5.  The theorems about messages use of the
    digests only their lengths and bounds.
    An INVITE session gets the events of its transactions and the messages of its dialog,
    carries the descriptions of their bodies to the negotiator, and calls the application.
    It uses the negotiator through the class [Negotiator] of InvData.v, whose laws say that
    the operations keep a well-formedness and what state they leave; InvNeg.v derives them
    from the theorems of SdpMachine.  A redirected INVITE takes its next URI from SipTargets.
    The session timers stand beside the session: sip_inv.c calls them for each message, and
    their model sees of a session its options, whether an offer may be made, and the INVITE
    that is under way as parts of its state; the two entries they arm in the timer heap are
    two times of expiry, and the calls of the session they make go into a log.  The theorems
    about two parties put two such states at both ends of an exchange.
    A client answers 401 and 407 with SipAuth, which computes the digest with Md5; the theorem
    that an answer is accepted runs the client's definitions and the server's on one request.
    A registration makes its requests with an authentication session of SipAuth and answers
    its challenges with it; the bounds and totality that SipAuthProps proves of it are what
    SipRegSafe uses.  Its refresh timer is one time of expiry.  The comparison of the URIs of
    contacts is a parameter of its safety and its refreshes; the theorem about its bindings
    uses that of SipUri.

    ** How the code is translated

    - An integer is a [Z]; where C can wrap, [u8], [u16], [u32], [i16] or [i32]
      says so.  Sums of [int]s whose overflow C leaves undefined are unbounded.
    - A struct is a record, an enum an inductive type or its numbers, an array a
      list.  An access outside an array, a NULL dereference and a loop out of fuel
      are [None]; theorems that an operation returns [Some] exclude all three.
      Fuel is bounded by the data (the size of a heap or of a queue, the number of
      digits or bits), and the theorems show that it is enough.
    - Shared objects live in a store: timer entries and group locks by address,
      messages with their reference counters in the world of a transaction,
      transactions in the layer.  Each transaction has its own view of messages.
    - Calls to the transaction user and to transports go into a log; what lower
      layers answer is an argument (a [send_env], the status of tsx_create, of
      pjsip_get_request_dest and pjsip_get_response_addr).  [async_report] says of a
      report what sip_util.c guarantees; [sync_report], and so [env_ok], adds a condition
      on the transports that nothing guarantees: one that has just sent a message does not
      refuse, within the same call, the one queued behind it.  TsxProps.failed_resend_reopens
      is what happens when it does.  [op_ok] has the conditions on an operation.
    - INVITE sessions call functions of the dialog, of transactions, of the 100rel and timer
      extensions, and the application, and these call the session again: a transaction that
      sends changes its state, an application ends the call inside of a callback.  A world
      holds a list of answers; each such call takes one, which gives its status and names the
      state changes and the calls of the session to be done before it returns.  These run
      with the fuel [run_fuel], twice the number of calls named plus two, as every nesting
      uses up a call.  What InvExt.v says of the dialog (CSeq numbers, tags, the transaction
      a request gets) is what the sessions read; [legal_upd] says which states may follow in
      a transaction, as tsx_states_legal proves for TsxHandlers under its conditions.  [arrival_ok] says of what
      arrives that it is such a change, that a call is ended with a status from 100 and
      terminated with one from 300, and that a caller gets no INVITE in its dialog before
      it has sent its own.
    - Registrations are called back in the same way: a world has a list of answers, of which
      each call of the endpoint and of the application takes one, and the calls and the event
      it names run inside with the fuel [run_fuel], one more than the number of answers.
      Freed memory that is read or written is a stop, [Freed]; so is an application that uses
      a registration it has destroyed, [Misuse].  The flag [watch] makes a run that ends when
      the application sends out of a callback of a call that fails; SipRegSafe proves that it
      is the run of the code otherwise, and theorems are about the runs of the code.
    - A NULL pointer used by a session stops it, with the world it has then: a [crash] names
      the place in the source, one constructor for each, and [stops_at] of InvSafe.v says what
      is known of the world at this place (an INVITE transaction that is gone, a transaction
      without data, an ACK that could not be made, and so on).
    - The machine is little-endian.  The texts of pj_strerror, the conversion of addresses and
      the comparison of strings are parameters.
    - PJ_ASSERT_RETURN returns its status, pj_assert does nothing.  Locks exclude
      each other and are not modelled, their reference counters are.

    ** What the theorems show

    - Base64: decoding inverts encoding, the decoder stays in its buffer, the
      length bounds hold.
    - Timer heap: any sequence of calls, callbacks included, is memory safe and
      keeps the heap invariant; schedule, cancel and poll are operations on the
      set of armed entries.
    - Hash table: it is a finite map, and creation ends for sizes up to 2^31.
    - Transactions: in every reachable state every event is handled without
      getting stuck, but for a retransmission that is asked for before anything was sent;
      states change only along the edges of RFC 3261, under [sync_report]; failures are
      acknowledged, retransmissions answered, timers started and stopped as the
      states require; a transaction that times out or loses its transport ends, and one that
      times out gives back every reference it held.
    - Transaction layer: it is a map from keys to transactions; messages go to
      their transaction and to no other; keys fit their buffers and identify role,
      method and branch; creation registers or leaves everything as it was; a stop
      ends all transactions.
    - Jitter buffer: any sequence of calls terminates inside the arrays; the frame
      list is a queue of numbered slots; what put, get, peek and remove return; the
      progressive discard drops at most one frame per gap.
    - SDP negotiation: an answer has one line per offered line, refused or with agreeing
      codecs and direction, and can always be made in the default configuration;
      processing an answer leaves formats that agree one by one, when no format of the answer
      matches two of the offer; a modified offer
      follows RFC 3264; in every reachable state the negotiator holds what it needs,
      and a failed or cancelled negotiation leaves the agreed session alone.
    - INVITE sessions: whatever arrives is handled, and the nested calls end, or the program
      stops at one of 18 named places, with what is known there; a session that is
      disconnected has a cause, it is destroyed once, and what it points to is there, the
      pending BYE being a BYE; CANCELs wait for a response, a BYE of the callee waits for the
      ACK and is sent then; a 2xx that brings no description to an early call is acknowledged,
      and the same 2xx with the same ACK; an INVITE that is accepted has what RFC 3261 and
      the extensions ask for, the responses to all others have one of six codes.
    - Session timers: the interval is at least 90 seconds and the minimum of both parties, a
      timer is armed exactly when it has an id, unless a request that takes the refresh over
      is refused or answered later, where an example shows what goes wrong; an exchange makes both parties use one interval
      and exactly one of them the refresher, or is refused with 422 and works with the minimum
      the second time; between parties that agree no refresh comes too late.
    - Authentication: a server accepts exactly the digests of RFC 2617 by accounts it knows,
      a client answers its challenges with them, counts its uses of each nonce from 1, and
      gives up after three answers.
    - Registrations: whatever the application calls, out of the callbacks too, nothing is used
      after it is freed and the memory is freed once; the next REGISTER makes the contacts the
      bindings at the registrar; a registration is refreshed before it expires, for any number
      of grants longer than the delay.  An application that sends a request out of the callback
      of one that fails breaks the first, contacts with display names or x-uid the second, and
      a grant shorter than the delay the third: examples show each.
    - Target sets: they are ordered by q-value without duplicates, and the next target is
      the best one untried.
    - STUN: a message is decoded to what was encoded, up to the padding of old strings, with
      its integrity and fingerprint;
      the decoder reads at most four bytes behind a packet and the encoder writes at most
      two behind its buffer; decoded attributes have the structure of their type; a request
      is accepted exactly with the credential, the nonce and the HMAC of the server.
    - Digests: SHA-1, MD5 and their HMACs are those of the standards for any division of the
      input; the two variants of the CRC-32 agree and detect bursts.
    - RTP: a packet round trip, the bounds of the decoder, and the equivalence of
      the sequence control with a 32-bit packet counter.

    ** What is not modelled

    Of the modelled files: the mean and the variance of the jitter buffer's
    statistics (floating point, only reported); nested calls of the transaction
    user out of a callback; the destruction of a message or of a transaction when
    its counter reaches zero; the pools; logging; the registration of the modules
    at the endpoint.  An iterator of a hash table is used on a table that does not
    change meanwhile; pjsip_tsx's stop reads the next entry before it removes one,
    which is the same.  The string functions inlined from pj/string_i.h, which
    is not in the repository, are parameters.  Of sdp.c the parser, the printer and
    the attributes fmtp, rtcp and ssrc; cloning is the identity on values.

    Of stun_msg.c the dump; of sip_inv.c the texts of the log and the pools of a session,
    and the locks of its dialog; a session is not used by the application after its last
    reference is dropped.  What a body is parsed to is part of the body.  Of sip_timer.c the
    printing and parsing of its headers and the registration of its module; of the
    authentication its headers, AKA, the cache of headers that config.h turns off, and the
    pools; a URI is given as it is printed.  Of sip_reg.c the transport selector and the address
    of the Via header, which only go into the request, and the texts of the log.

    Of the system: the operating system layer, sockets, TLS, devices and codecs are
    calls of external code; the message parser, endpoint and transports are glue around
    them.  Dialogs, the 100rel extension and
    presence of pjsip, the transactions and sessions of STUN, TURN and ICE in pjnath, the
    DNS resolver, RTCP and the comparison of descriptions are protocol logic that may be
    added on top of these files.  PJSUA and the Qt application are glue over them.
*)

From stdpp Require Export prelude gmap list.
From Stdlib Require Export ZArith Lia.

#[global] Open Scope Z_scope.

(** ** Status codes of pjlib (pjlib/include/pj/errno.h) *)

Definition PJ_SUCCESS : Z := 0.
Definition PJ_EUNKNOWN : Z := 70001.
Definition PJ_EPENDING : Z := 70002.
Definition PJ_EINVAL : Z := 70004.
Definition PJ_ENOTFOUND : Z := 70006.
Definition PJ_ENOMEM : Z := 70007.
Definition PJ_EBUG : Z := 70008.
Definition PJ_ETOOMANY : Z := 70010.
Definition PJ_EINVALIDOP : Z := 70013.
Definition PJ_EEXISTS : Z := 70015.
Definition PJ_ETOOBIG : Z := 70017.
Definition PJ_ERESOLVE : Z := 70018.
Definition PJ_ETOOSMALL : Z := 70019.
Definition PJ_EIGNORED : Z := 70020.

(** ** Machine integers: a w-bit value is a [Z] and every place where the C
    code can wrap writes the wrap-around out with one of these. *)

Definition u8 (x : Z) : Z := x mod 256.
Definition u16 (x : Z) : Z := x mod 65536.
Definition u32 (x : Z) : Z := x mod 4294967296.
Definition i16 (x : Z) : Z := (x + 32768) mod 65536 - 32768.
Definition i32 (x : Z) : Z := (x + 2147483648) mod 4294967296 - 2147483648.

Definition is_byte (x : Z) : Prop := 0 <= x < 256.
Definition is_u16 (x : Z) : Prop := 0 <= x < 65536.
Definition is_u32 (x : Z) : Prop := 0 <= x < 4294967296.

#[global] Instance is_byte_dec x : Decision (is_byte x).
Proof. unfold is_byte; apply _. Defined.
#[global] Instance is_u16_dec x : Decision (is_u16 x).
Proof. unfold is_u16; apply _. Defined.
#[global] Instance is_u32_dec x : Decision (is_u32 x).
Proof. unfold is_u32; apply _. Defined.

Lemma u8_range x : 0 <= u8 x < 256.
Proof. apply Z.mod_pos_bound; lia. Qed.
Lemma u16_range x : 0 <= u16 x < 65536.
Proof. apply Z.mod_pos_bound; lia. Qed.
Lemma u32_range x : 0 <= u32 x < 4294967296.
Proof. apply Z.mod_pos_bound; lia. Qed.
Lemma i32_range x : -2147483648 <= i32 x < 2147483648.
Proof. unfold i32. pose proof (Z.mod_pos_bound (x + 2147483648) 4294967296). lia. Qed.
Lemma u8_id x : is_byte x -> u8 x = x.
Proof. apply Z.mod_small. Qed.
Lemma u16_id x : is_u16 x -> u16 x = x.
Proof. apply Z.mod_small. Qed.
Lemma u32_id x : is_u32 x -> u32 x = x.
Proof. apply Z.mod_small. Qed.
Lemma i32_id x : -2147483648 <= x < 2147483648 -> i32 x = x.
Proof. intros. unfold i32. rewrite Z.mod_small by lia. lia. Qed.

(** ** Arrays indexed by a C integer: a read outside the list gives [0], so
    the theorems that use [zget] bound the index. *)

Definition zlen {A} (l : list A) : Z := Z.of_nat (length l).

Definition zget (l : list Z) (i : Z) : Z := default 0 (l !! Z.to_nat i).

(** Induction three elements at a time. *)
Lemma list_ind3 {A} (P : list A -> Prop) :
  P [] -> (forall a, P [a]) -> (forall a b, P [a; b]) ->
  (forall a b c l, P l -> P (a :: b :: c :: l)) -> forall l, P l.
Proof.
  intros H0 H1 H2 H3. fix IH 1. intros [|a [|b [|c l]]]; [done|apply H1|apply H2|apply H3, IH].
Qed.

(** ** Statements over all bytes are checked by computation. *)

Definition bytes : list Z := map Z.of_nat (seq 0 256).

Lemma bytes_spec b : is_byte b -> In b bytes.
Proof.
  intros Hb. apply in_map_iff. exists (Z.to_nat b). unfold is_byte in Hb.
  split; [lia|]. apply in_seq. lia.
Qed.

Lemma forall_bytes (P : Z -> bool) :
  forallb P bytes = true -> forall b, is_byte b -> P b = true.
Proof. intros H b Hb. rewrite forallb_forall in H. by apply H, bytes_spec. Qed.

(** ** Bit-level reasoning *)

Lemma u8_testbit x i : 0 <= i -> Z.testbit (u8 x) i = (i <? 8) && Z.testbit x i.
Proof.
  intros Hi. unfold u8. change 256 with (2 ^ 8).
  destruct (Z.ltb_spec i 8).
  - by rewrite Z.mod_pow2_bits_low.
  - by rewrite Z.mod_pow2_bits_high by lia.
Qed.

Lemma testbit_high x n i : 0 <= x < 2 ^ n -> 0 <= n <= i -> Z.testbit x i = false.
Proof. intros Hx Hi. rewrite <- (Z.mod_small x (2 ^ n)) by lia. by apply Z.mod_pow2_bits_high. Qed.

Lemma byte_testbit_high b i : is_byte b -> 8 <= i -> Z.testbit b i = false.
Proof. intros. apply (testbit_high b 8); [exact H|lia]. Qed.

Lemma lor_range n x y : 0 <= n -> 0 <= x < 2 ^ n -> 0 <= y < 2 ^ n -> 0 <= Z.lor x y < 2 ^ n.
Proof.
  intros Hn Hx Hy. assert (0 <= Z.lor x y) by (apply Z.lor_nonneg; lia).
  split; [done|]. rewrite <- (Z.mod_small x (2 ^ n)), <- (Z.mod_small y (2 ^ n)) by lia.
  rewrite <- !Z.land_ones, <- Z.land_lor_distr_l, Z.land_ones by lia.
  apply Z.mod_pos_bound; lia.
Qed.

(** Equality of two terms built with [lor]/[land]/[shiftl]/[shiftr] from
    bytes: bits 0..7 one by one, then the bits above. *)
Ltac bits_simpl :=
  repeat match goal with
  | |- context [Z.testbit (Z.lor ?a ?b) ?i] => rewrite (Z.lor_spec a b i)
  | |- context [Z.testbit (Z.land ?a ?b) ?i] => rewrite (Z.land_spec a b i)
  | |- context [Z.testbit (Z.lxor ?a ?b) ?i] => rewrite (Z.lxor_spec a b i)
  | |- context [Z.testbit (Z.shiftr ?a ?n) ?i] => rewrite (Z.shiftr_spec a n i) by lia
  | |- context [Z.testbit (Z.shiftl ?a ?n) ?i] => rewrite (Z.shiftl_spec a n i) by lia
  | |- context [Z.testbit (u8 ?a) ?i] => rewrite (u8_testbit a i) by lia
  | |- context [Z.testbit ?a ?i] => rewrite (Z.testbit_neg_r a i) by lia
  end.

Ltac bits8 :=
  apply Z.bits_inj'; intros ?i ?Hi;
  lazymatch goal with i : Z |- _ =>
    destruct (decide (i < 8));
    [ assert (i = 0 \/ i = 1 \/ i = 2 \/ i = 3 \/ i = 4 \/ i = 5 \/ i = 6 \/ i = 7) by lia;
      destruct_or!; subst i; bits_simpl; cbn -[Z.testbit];
      repeat match goal with |- context [Z.testbit (Zpos ?p) ?k] =>
        let b := eval vm_compute in (Z.testbit (Zpos p) k) in
        change (Z.testbit (Zpos p) k) with b end;
      rewrite ?andb_true_r, ?andb_false_r, ?orb_false_r; reflexivity
    | bits_simpl ] end.

(** ** Memory: stores, memset and memcpy into an array; [None] when they would
    leave it. *)

Definition lwrite {A} (l : list A) (i : nat) (x : A) : option (list A) :=
  if decide (i < length l)%nat then Some (<[i := x]> l) else None.

Definition lfill {A} (l : list A) (i n : nat) (x : A) : option (list A) :=
  if decide (i + n <= length l)%nat then Some (take i l ++ replicate n x ++ drop (i + n) l) else None.

Definition lcopy {A} (l : list A) (i : nat) (src : list A) : option (list A) :=
  if decide (i + length src <= length l)%nat
  then Some (take i l ++ src ++ drop (i + length src) l) else None.

Definition lslice {A} (l : list A) (i n : nat) : option (list A) :=
  if decide (i + n <= length l)%nat then Some (take n (drop i l)) else None.

Lemma lwrite_eq {A} (l : list A) i x : (i < length l)%nat -> lwrite l i x = Some (<[i := x]> l).
Proof. intros. unfold lwrite. by rewrite decide_True. Qed.

Lemma lcopy_spec {A} (l : list A) i src :
  (i + length src <= length l)%nat ->
  exists l', lcopy l i src = Some l' /\ length l' = length l /\
    forall k, l' !! k = if decide (i <= k < i + length src)%nat then src !! (k - i)%nat else l !! k.
Proof.
  intros H. unfold lcopy. rewrite decide_True by done. eexists. split; [done|]. split.
  - rewrite !length_app, length_take, length_drop. lia.
  - intros k. rewrite lookup_app, length_take, (Nat.min_l i) by lia.
    destruct (decide (k < i)%nat) as [Hk|Hk].
    + rewrite decide_False by lia. rewrite lookup_take, decide_True by done.
      destruct (l !! k) eqn:E; [done|]. apply lookup_ge_None in E. lia.
    + rewrite lookup_take, decide_False by lia. rewrite lookup_app. case_decide.
      * destruct (src !! _) eqn:E; [done|]. apply lookup_ge_None in E. lia.
      * destruct (src !! _) eqn:E; [apply lookup_lt_Some in E; lia|]. rewrite lookup_drop. f_equal. lia.
Qed.

Lemma lfill_spec {A} (l : list A) i n x :
  (i + n <= length l)%nat ->
  exists l', lfill l i n x = Some l' /\ length l' = length l /\
    forall k, l' !! k = if decide (i <= k < i + n)%nat then Some x else l !! k.
Proof.
  intros H. destruct (lcopy_spec l i (replicate n x)) as (l' & Hc & Hl & Hk); rewrite ?length_replicate in *; [done|].
  exists l'. unfold lcopy in Hc. rewrite length_replicate in Hc. split; [exact Hc|]. split; [done|].
  intros k. rewrite Hk. destruct (decide (i <= k < i + n)%nat); [|done]. apply lookup_replicate_2. lia.
Qed.

(** ** Shared automation *)

Create Rewrite HintDb csem.
#[export] Hint Rewrite u8_id u16_id u32_id i32_id using (unfold is_byte, is_u16, is_u32 in *; lia) : csem.

(** [zbool] turns the boolean comparisons of the code into propositions. *)
Ltac zbool :=
  repeat match goal with
  | H : context [Z.ltb ?a ?b] |- _ => destruct (Z.ltb_spec a b)
  | H : context [Z.leb ?a ?b] |- _ => destruct (Z.leb_spec a b)
  | H : context [Z.eqb ?a ?b] |- _ => destruct (Z.eqb_spec a b)
  | |- context [Z.ltb ?a ?b] => destruct (Z.ltb_spec a b)
  | |- context [Z.leb ?a ?b] => destruct (Z.leb_spec a b)
  | |- context [Z.eqb ?a ?b] => destruct (Z.eqb_spec a b)
  end.
