(* ===== verification/PjTime.v ===== *)
(** * Time values (pjlib/src/pj/types.c, the PJ_TIME_VAL macros of types.h)

    [pj_time_val] with its normalisation, arithmetic and comparisons.  The
    comparisons are the lexicographic ones of the macros; [normalize_canonical]
    shows that normalisation computes the canonical quotient and remainder by
    1000, so that on normalised values comparing is comparing milliseconds. *)

From S2P Require Import Prelude.

Record pj_time_val := mk_tv { sec : Z; msec : Z }.

#[global] Instance pj_time_val_eq_dec : EqDecision pj_time_val.
Proof. solve_decision. Defined.

Definition PJ_TIME_VAL_MSEC (t : pj_time_val) : Z := sec t * 1000 + msec t.

Definition PJ_TIME_VAL_EQ (t1 t2 : pj_time_val) : bool :=
  (sec t1 =? sec t2) && (msec t1 =? msec t2).
Definition PJ_TIME_VAL_GT (t1 t2 : pj_time_val) : bool :=
  (sec t2 <? sec t1) || ((sec t1 =? sec t2) && (msec t2 <? msec t1)).
Definition PJ_TIME_VAL_GTE (t1 t2 : pj_time_val) : bool :=
  PJ_TIME_VAL_GT t1 t2 || PJ_TIME_VAL_EQ t1 t2.
Definition PJ_TIME_VAL_LT (t1 t2 : pj_time_val) : bool := negb (PJ_TIME_VAL_GTE t1 t2).
Definition PJ_TIME_VAL_LTE (t1 t2 : pj_time_val) : bool := negb (PJ_TIME_VAL_GT t1 t2).

(** [do { t->sec--; t->msec += 1000; } while (t->msec <= -1000);] *)
Fixpoint borrow_loop (fuel : nat) (t : pj_time_val) : pj_time_val :=
  match fuel with
  | O => t
  | S fuel' =>
      let t' := mk_tv (sec t - 1) (msec t + 1000) in
      if msec t' <=? -1000 then borrow_loop fuel' t' else t'
  end.

Definition pj_time_val_normalize (t : pj_time_val) : pj_time_val :=
  let t1 :=
    if 1000 <=? msec t then mk_tv (sec t + msec t `quot` 1000) (msec t `rem` 1000)
    else if msec t <=? -1000 then borrow_loop (Z.to_nat (- msec t)) t
    else t in
  if (1 <=? sec t1) && (msec t1 <? 0) then mk_tv (sec t1 - 1) (msec t1 + 1000)
  else if (sec t1 <? 0) && (0 <? msec t1) then mk_tv (sec t1 + 1) (msec t1 - 1000)
  else t1.

Definition PJ_TIME_VAL_ADD (t1 t2 : pj_time_val) : pj_time_val :=
  pj_time_val_normalize (mk_tv (sec t1 + sec t2) (msec t1 + msec t2)).
Definition PJ_TIME_VAL_SUB (t1 t2 : pj_time_val) : pj_time_val :=
  pj_time_val_normalize (mk_tv (sec t1 - sec t2) (msec t1 - msec t2)).

(** ** The order of the comparisons *)

Definition tv_le (a b : pj_time_val) : Prop :=
  sec a < sec b \/ (sec a = sec b /\ msec a <= msec b).

Lemma PJ_TIME_VAL_LT_spec a b : reflect (~ tv_le b a) (PJ_TIME_VAL_LT a b).
Proof.
  apply iff_reflect. unfold PJ_TIME_VAL_LT, PJ_TIME_VAL_GTE, PJ_TIME_VAL_GT,
    PJ_TIME_VAL_EQ, tv_le. zbool; simpl; split; intros; try done; lia.
Qed.

Lemma PJ_TIME_VAL_LTE_spec a b : reflect (tv_le a b) (PJ_TIME_VAL_LTE a b).
Proof.
  apply iff_reflect. unfold PJ_TIME_VAL_LTE, PJ_TIME_VAL_GT, tv_le.
  zbool; simpl; split; intros; try done; lia.
Qed.

Lemma PJ_TIME_VAL_GTE_spec a b : reflect (tv_le b a) (PJ_TIME_VAL_GTE a b).
Proof.
  apply iff_reflect. unfold PJ_TIME_VAL_GTE, PJ_TIME_VAL_GT, PJ_TIME_VAL_EQ, tv_le.
  zbool; simpl; split; intros; try done; lia.
Qed.

#[global] Instance tv_le_preorder : PreOrder tv_le.
Proof. split; red; unfold tv_le; intros; lia. Qed.

Lemma tv_le_total a b : tv_le a b \/ tv_le b a.
Proof. unfold tv_le; lia. Qed.

Lemma tv_not_le a b : ~ tv_le a b -> tv_le b a.
Proof. unfold tv_le; lia. Qed.

Lemma tv_le_stable a b : ~ ~ tv_le a b -> tv_le a b.
Proof. unfold tv_le; lia. Qed.

(** ** Normalisation *)

Lemma borrow_loop_spec fuel t :
  (0 < fuel)%nat -> - msec t <= Z.of_nat fuel -> msec t <= -1000 ->
  PJ_TIME_VAL_MSEC (borrow_loop fuel t) = PJ_TIME_VAL_MSEC t /\
  -1000 < msec (borrow_loop fuel t) <= 0.
Proof.
  unfold PJ_TIME_VAL_MSEC. revert t.
  induction fuel as [|fuel IH]; intros t Hf Hm Hb; [lia|]. cbn [borrow_loop].
  destruct (Z.leb_spec (msec (mk_tv (sec t - 1) (msec t + 1000))) (-1000)); simpl in *; [|lia].
  destruct (IH (mk_tv (sec t - 1) (msec t + 1000))) as [-> ?]; simpl in *; lia.
Qed.

(** Normalising yields the quotient and remainder of the value in milliseconds:
    the value is unchanged and [sec], [msec] have the same sign. *)
Lemma normalize_canonical t :
  pj_time_val_normalize t =
  mk_tv (Z.quot (PJ_TIME_VAL_MSEC t) 1000) (Z.rem (PJ_TIME_VAL_MSEC t) 1000).
Proof.
  unfold pj_time_val_normalize.
  set (t1 := if 1000 <=? msec t then _ else _).
  assert (H1 : PJ_TIME_VAL_MSEC t1 = PJ_TIME_VAL_MSEC t /\ -1000 < msec t1 < 1000).
  { unfold t1. destruct (Z.leb_spec 1000 (msec t)).
    - unfold PJ_TIME_VAL_MSEC; simpl. pose proof (Z.quot_rem' (msec t) 1000).
      pose proof (Z.rem_bound_pos (msec t) 1000). lia.
    - destruct (Z.leb_spec (msec t) (-1000)); [|done].
      destruct (borrow_loop_spec (Z.to_nat (- msec t)) t) as [? ?]; lia. }
  destruct H1 as [<- Hm]. clearbody t1. destruct t1 as [s m].
  unfold PJ_TIME_VAL_MSEC in *; simpl in *.
  assert (Huniq : forall q r, s * 1000 + m = q * 1000 + r ->
     (0 <= q * 1000 + r /\ 0 <= r < 1000) \/ (q * 1000 + r <= 0 /\ -1000 < r <= 0) ->
     mk_tv q r = mk_tv (Z.quot (s * 1000 + m) 1000) (Z.rem (s * 1000 + m) 1000)).
  { intros q r -> Hr. pose proof (Z.quot_rem' (q * 1000 + r) 1000).
    assert (r = Z.rem (q * 1000 + r) 1000).
    { destruct Hr as [Hr|Hr]; [apply (Z.rem_unique _ _ q); lia|].
      rewrite <- (Z.opp_involutive (q * 1000 + r)), Z.rem_opp_l by lia.
      rewrite <- (Z.rem_unique (- (q * 1000 + r)) 1000 (- q) (- r)); lia. }
    f_equal; lia. }
  destruct (Z.leb_spec 1 s), (Z.ltb_spec m 0), (Z.ltb_spec s 0), (Z.ltb_spec 0 m);
    simpl; apply Huniq; lia.
Qed.

Lemma normalize_msec t : PJ_TIME_VAL_MSEC (pj_time_val_normalize t) = PJ_TIME_VAL_MSEC t.
Proof.
  rewrite normalize_canonical. unfold PJ_TIME_VAL_MSEC at 1; simpl.
  pose proof (Z.quot_rem' (PJ_TIME_VAL_MSEC t) 1000). lia.
Qed.

(** On normalised values the macros compare milliseconds. *)
Definition normalized (t : pj_time_val) : Prop := pj_time_val_normalize t = t.

Lemma tv_le_msec a b :
  normalized a -> normalized b -> tv_le a b <-> PJ_TIME_VAL_MSEC a <= PJ_TIME_VAL_MSEC b.
Proof.
  unfold normalized. rewrite !normalize_canonical. intros Ha Hb.
  assert (forall t, mk_tv (Z.quot (PJ_TIME_VAL_MSEC t) 1000) (Z.rem (PJ_TIME_VAL_MSEC t) 1000) = t ->
     (0 <= sec t /\ 0 <= msec t < 1000) \/ (sec t <= 0 /\ -1000 < msec t <= 0)) as Hs.
  { intros t Ht. rewrite <- Ht. simpl.
    destruct (Z.le_gt_cases 0 (PJ_TIME_VAL_MSEC t)).
    - left. pose proof (Z.rem_bound_pos (PJ_TIME_VAL_MSEC t) 1000 ltac:(lia) ltac:(lia)).
      split; [apply Z.quot_pos; lia|lia].
    - right. pose proof (Z.rem_bound_pos_neg (PJ_TIME_VAL_MSEC t) 1000 ltac:(lia) ltac:(lia)).
      pose proof (Z.quot_rem' (PJ_TIME_VAL_MSEC t) 1000). split; lia. }
  apply Hs in Ha, Hb. unfold tv_le, PJ_TIME_VAL_MSEC. lia.
Qed.

Lemma normalize_normalized t : normalized (pj_time_val_normalize t).
Proof.
  unfold normalized. rewrite (normalize_canonical (pj_time_val_normalize t)), normalize_msec.
  by rewrite normalize_canonical.
Qed.
