(* ===== verification/Base64.v ===== *)
(** * Base64 (pjlib-util/src/pjlib-util/base64.c)

    Bytes and characters are [Z] in [0,256).  The encoder consumes its input
    three bytes at a time as the [while] loop of [pj_base64_encode] does; the
    decoder keeps the code's three layers: the [do .. while] that skips invalid
    characters ([next_char]), the [for] that fills [c[0..3]] ([fill]) and the
    outer [for] ([decode_loop]).  [PJ_ASSERT_RETURN] returns its status, as in
    a release build. *)

From S2P Require Import Prelude.

Definition INV : Z := -1.
Definition PADDING : Z := 61.

Definition PJ_BASE256_TO_BASE64_LEN (len : Z) : Z := Z.quot (len * 4) 3 + 3.
Definition PJ_BASE64_TO_BASE256_LEN (len : Z) : Z := Z.quot (len * 3) 4.

(** 'A'..'Z', 'a'..'z', '0'..'9', '+', '/' *)
Definition base64_char : list Z :=
  [65;66;67;68;69;70;71;72;73;74;75;76;77;78;79;80;81;82;83;84;85;86;87;88;89;90;
   97;98;99;100;101;102;103;104;105;106;107;108;109;110;111;112;113;114;115;116;
   117;118;119;120;121;122;48;49;50;51;52;53;54;55;56;57;43;47].

Definition base256_char (c : Z) : Z :=
  if (65 <=? c) && (c <=? 90) then c - 65
  else if (97 <=? c) && (c <=? 122) then c - 97 + 26
  else if (48 <=? c) && (c <=? 57) then c - 48 + 52
  else if c =? 43 then 62
  else if c =? 47 then 63
  else INV.

Definition base256to64 (c1 c2 c3 padding : Z) : list Z :=
  let o1 := zget base64_char (Z.shiftr c1 2) in
  let o2 := zget base64_char
              (Z.lor (Z.shiftl (Z.land c1 3) 4) (Z.shiftr (Z.land c2 240) 4)) in
  let o3 := zget base64_char
              (Z.lor (Z.shiftl (Z.land c2 15) 2) (Z.shiftr (Z.land c3 192) 6)) in
  let o4 := zget base64_char (Z.land c3 63) in
  if padding =? 0 then [o1; o2; o3; o4]
  else if padding =? 1 then [o1; o2; o3; PADDING]
  else [o1; o2; PADDING; PADDING].

Fixpoint encode_loop (input : list Z) : list Z :=
  match input with
  | [] => []
  | [c1] => base256to64 c1 0 0 2
  | [c1; c2] => base256to64 c1 c2 0 1
  | c1 :: c2 :: c3 :: rest => base256to64 c1 c2 c3 0 ++ encode_loop rest
  end.

(** [(status, output)]; [out_len] is the capacity the caller passes in
    [*out_len], and the new [*out_len] is the length of the output. *)
Definition pj_base64_encode (input : list Z) (out_len : Z) : Z * list Z :=
  if out_len <? PJ_BASE256_TO_BASE64_LEN (zlen input) then (PJ_ETOOSMALL, [])
  else (PJ_SUCCESS, encode_loop input).

(** [while (len && buf[len-1] == '=') --len;] *)
Fixpoint drop_padding (rbuf : list Z) : list Z :=
  match rbuf with
  | c :: r => if c =? PADDING then drop_padding r else rbuf
  | [] => []
  end.

Definition strip_padding (buf : list Z) : list Z := reverse (drop_padding (reverse buf)).

(** [do { c[k] = base256_char(buf[i++]); } while (c[k]==INV && i<len);] from a
    position with [i < len]: the value left in [c[k]] and what is unread. *)
Fixpoint next_char (c : Z) (rest : list Z) : Z * list Z :=
  match rest with
  | c' :: rest' => if base256_char c =? INV then next_char c' rest'
                   else (base256_char c, rest)
  | [] => (base256_char c, [])
  end.

(** [for (k=0; k<4 && i<len; ++k) ...]: the filled prefix of [c]. *)
Fixpoint fill (k : nat) (buf : list Z) : list Z * list Z :=
  match k, buf with
  | S k', c :: rest =>
      let '(v, rest1) := next_char c rest in
      let '(vs, rest2) := fill k' rest1 in
      (v :: vs, rest2)
  | _, _ => ([], buf)
  end.

Definition dec1 (c0 c1 : Z) : Z :=
  u8 (Z.lor (Z.shiftl c0 2) (Z.shiftr (Z.land c1 48) 4)).
Definition dec2 (c1 c2 : Z) : Z :=
  u8 (Z.lor (Z.shiftl (Z.land c1 15) 4) (Z.shiftr (Z.land c2 60) 2)).
Definition dec3 (c2 c3 : Z) : Z :=
  u8 (Z.lor (Z.shiftl (Z.land c2 3) 6) (Z.land c3 63)).

(** [None] only when the fuel runs out. *)
Fixpoint decode_loop (fuel : nat) (buf : list Z) : option (list Z) :=
  match fuel with
  | O => None
  | S fuel' =>
      match buf with
      | [] => Some []
      | _ =>
          match fill 4 buf with
          | ([c0; c1; c2; c3], rest) =>
              out ← decode_loop fuel' rest;
              Some (dec1 c0 c1 :: dec2 c1 c2 :: dec3 c2 c3 :: out)
          | ([c0; c1; c2], _) => Some [dec1 c0 c1; dec2 c1 c2]
          | ([c0; c1], _) => Some [dec1 c0 c1]
          | _ => Some []
          end
      end
  end.

Definition pj_base64_decode (input : list Z) (out_len : Z) : option (Z * list Z) :=
  let buf := strip_padding input in
  if out_len <? PJ_BASE64_TO_BASE256_LEN (zlen buf) then Some (PJ_ETOOSMALL, [])
  else out ← decode_loop (S (length buf)) buf; Some (PJ_SUCCESS, out).

Example encode_abc : encode_loop [97; 98; 99; 100] = [89;87;74;106;90;65;61;61].
Proof. reflexivity. Qed.
Example decode_abc :
  pj_base64_decode [89;87;74;106;90;65;61;61] 10 = Some (PJ_SUCCESS, [97; 98; 99; 100]).
Proof. reflexivity. Qed.

(** ** The six-bit values *)

Lemma base256_char_table i :
  0 <= i < 64 -> base256_char (zget base64_char i) = i.
Proof.
  intros Hi.
  assert (H : (if i <? 64 then base256_char (zget base64_char i) =? i else true) = true).
  { revert i Hi. intros i Hi. pattern i.
    apply (forall_bytes (fun i => if i <? 64 then base256_char (zget base64_char i) =? i
                                  else true)); [by vm_compute|].
    unfold is_byte; lia. }
  zbool; lia.
Qed.

Lemma base256_char_range c : base256_char c = INV \/ 0 <= base256_char c < 64.
Proof.
  unfold base256_char, INV.
  repeat case_match; zbool; simpl in *; try discriminate; lia.
Qed.

(** The four six-bit groups of three bytes. *)
Definition sx1 c1 := Z.shiftr c1 2.
Definition sx2 c1 c2 := Z.lor (Z.shiftl (Z.land c1 3) 4) (Z.shiftr (Z.land c2 240) 4).
Definition sx3 c2 c3 := Z.lor (Z.shiftl (Z.land c2 15) 2) (Z.shiftr (Z.land c3 192) 6).
Definition sx4 c3 := Z.land c3 63.

Definition in64 (x : Z) : bool := (0 <=? x) && (x <? 64).

Lemma parts_range a :
  is_byte a ->
  in64 (sx1 a) && in64 (sx4 a) && in64 (Z.shiftl (Z.land a 3) 4) &&
  in64 (Z.shiftr (Z.land a 240) 4) && in64 (Z.shiftl (Z.land a 15) 2) &&
  in64 (Z.shiftr (Z.land a 192) 6) = true.
Proof.
  intros Ha. pattern a.
  by apply (forall_bytes (fun a => in64 (sx1 a) && in64 (sx4 a) &&
    in64 (Z.shiftl (Z.land a 3) 4) && in64 (Z.shiftr (Z.land a 240) 4) &&
    in64 (Z.shiftl (Z.land a 15) 2) && in64 (Z.shiftr (Z.land a 192) 6))).
Qed.

Lemma sextets_range a b :
  is_byte a -> is_byte b ->
  0 <= sx1 a < 64 /\ 0 <= sx2 a b < 64 /\ 0 <= sx3 a b < 64 /\ 0 <= sx4 a < 64.
Proof.
  intros Ha Hb. pose proof (parts_range a Ha) as H1. pose proof (parts_range b Hb) as H2.
  unfold in64 in *. rewrite !andb_true_iff, !Z.leb_le, !Z.ltb_lt in H1, H2.
  unfold sx2, sx3. split_and!; try lia; apply (lor_range 6); lia.
Qed.

Lemma sx12_first a b : is_byte a -> dec1 (sx1 a) (sx2 a b) = a.
Proof.
  intros Ha. unfold dec1, sx1, sx2. bits8.
  destruct (Z.ltb_spec i 8); [lia|]. by rewrite (byte_testbit_high a i) by (done || lia).
Qed.

Lemma sx23_middle a b c : is_byte b -> dec2 (sx2 a b) (sx3 b c) = b.
Proof.
  intros Hb. unfold dec2, sx2, sx3. bits8.
  destruct (Z.ltb_spec i 8); [lia|]. by rewrite (byte_testbit_high b i) by (done || lia).
Qed.

Lemma sx34_last b c : is_byte c -> dec3 (sx3 b c) (sx4 c) = c.
Proof.
  intros Hc. unfold dec3, sx3, sx4. bits8.
  destruct (Z.ltb_spec i 8); [lia|]. by rewrite (byte_testbit_high c i) by (done || lia).
Qed.

(** The decoder undoes the encoder on three bytes. *)
Lemma sextets_decode a b c :
  is_byte a -> is_byte b -> is_byte c ->
  dec1 (sx1 a) (sx2 a b) = a /\ dec2 (sx2 a b) (sx3 b c) = b /\ dec3 (sx3 b c) (sx4 c) = c.
Proof.
  intros. auto using sx12_first, sx23_middle, sx34_last.
Qed.

(** ** Encoder output without its padding *)

Fixpoint body (input : list Z) : list Z :=
  match input with
  | [] => []
  | [c1] => [sx1 c1; sx2 c1 0]
  | [c1; c2] => [sx1 c1; sx2 c1 c2; sx3 c2 0]
  | c1 :: c2 :: c3 :: rest => [sx1 c1; sx2 c1 c2; sx3 c2 c3; sx4 c3] ++ body rest
  end.

Definition npad (n : nat) : nat :=
  match n mod 3 with 0 => 0 | 1 => 2 | _ => 1 end%nat.

Lemma npad_add3 n : npad (3 + n) = npad n.
Proof. unfold npad. rewrite (Nat.add_comm 3), Nat.Div0.add_mod. by rewrite Nat.add_0_r, Nat.Div0.mod_mod. Qed.

Lemma encode_loop_body l :
  encode_loop l = map (zget base64_char) (body l) ++ replicate (npad (length l)) PADDING.
Proof.
  induction l as [| | |a b c l IH] using list_ind3; try done.
  change (encode_loop (a :: b :: c :: l)) with (base256to64 a b c 0 ++ encode_loop l).
  rewrite IH. change (length (a :: b :: c :: l)) with (3 + length l)%nat.
  by rewrite npad_add3.
Qed.

Lemma byte_zero : is_byte 0.
Proof. unfold is_byte; lia. Qed.
#[local] Hint Resolve byte_zero : core.

Lemma body_range l : Forall is_byte l -> Forall (fun x => 0 <= x < 64) (body l).
Proof.
  induction l as [|a|a b|a b c l IH] using list_ind3; intros H; simpl; [done| | |].
  - rewrite Forall_singleton in H. destruct (sextets_range a 0) as (?&?&?&?); repeat apply Forall_cons_2; auto using Forall_nil_2.
  - rewrite Forall_cons, Forall_singleton in H; destruct H as [Ha Hb].
    destruct (sextets_range a b) as (?&?&?&?), (sextets_range b 0) as (?&?&?&?); repeat apply Forall_cons_2; auto using Forall_nil_2.
  - rewrite !Forall_cons in H; destruct H as (Ha & Hb & Hc & Hl).
    destruct (sextets_range a b) as (?&?&?&?), (sextets_range b c) as (?&?&?&?),
      (sextets_range c 0) as (?&?&?&?); repeat apply Forall_cons_2; auto using Forall_nil_2.
Qed.

Lemma body_length l : Z.quot (zlen (body l) * 3) 4 = zlen l.
Proof.
  unfold zlen. rewrite Z.quot_div_nonneg by lia.
  induction l as [| | |a b c l IH] using list_ind3; [reflexivity..|].
  cbn [body length app]. rewrite !Nat2Z.inj_succ.
  replace (Z.succ (Z.succ (Z.succ (Z.succ (Z.of_nat (length (body l)))))) * 3)
    with (Z.of_nat (length (body l)) * 3 + 3 * 4) by lia.
  rewrite Z.div_add by lia. lia.
Qed.

(** ** Stripping the padding *)

Lemma drop_padding_replicate n l :
  drop_padding (replicate n PADDING ++ l) = drop_padding l.
Proof. by induction n. Qed.

Lemma strip_padding_spec buf n :
  Forall (fun c => c <> PADDING) buf ->
  strip_padding (buf ++ replicate n PADDING) = buf.
Proof.
  intros H. unfold strip_padding.
  rewrite reverse_app, reverse_replicate, drop_padding_replicate.
  rewrite <- (reverse_involutive buf) at 2. f_equal.
  apply Forall_reverse in H. destruct H as [|c r Hc]; [done|]. simpl. zbool; done.
Qed.

Lemma table_not_padding x : 0 <= x < 64 -> zget base64_char x <> PADDING.
Proof.
  intros Hx E. pose proof (base256_char_table x Hx) as H. rewrite E in H.
  change (base256_char PADDING) with INV in H. unfold INV in H. lia.
Qed.

Lemma strip_encode_loop l :
  Forall is_byte l ->
  strip_padding (encode_loop l) = map (zget base64_char) (body l).
Proof.
  intros H. rewrite encode_loop_body. apply strip_padding_spec.
  apply Forall_map, (Forall_impl _ _ _ (body_range l H)), table_not_padding.
Qed.

(** ** The decoder on valid characters *)

Lemma next_char_valid x rest :
  0 <= x < 64 -> next_char (zget base64_char x) rest = (x, rest).
Proof.
  intros Hx. destruct rest as [|c r]; cbn [next_char];
    rewrite base256_char_table by done; [done|].
  unfold INV. destruct (Z.eqb_spec x (-1)); [lia|done].
Qed.

Lemma fill_valid k vs rest :
  Forall (fun x => 0 <= x < 64) vs -> length vs = k ->
  fill k (map (zget base64_char) vs ++ rest) = (vs, rest).
Proof.
  intros H. revert k. induction H as [|v vs Hv Hvs IH]; intros k <-; [done|].
  cbn [fill map app length]. rewrite next_char_valid by done. by rewrite IH.
Qed.

Lemma fill_short k vs :
  Forall (fun x => 0 <= x < 64) vs -> (length vs <= k)%nat ->
  fill k (map (zget base64_char) vs) = (vs, []).
Proof.
  intros H. revert k. induction H as [|v vs Hv Hvs IH]; intros [|k] Hk;
    cbn [fill map length] in *; try done; [lia|].
  rewrite next_char_valid by done. by rewrite IH by lia.
Qed.

Lemma decode_loop_body l fuel :
  Forall is_byte l -> (length (body l) < fuel)%nat ->
  decode_loop fuel (map (zget base64_char) (body l)) = Some l.
Proof.
  revert fuel. induction l as [|a|a b|a b c l IH] using list_ind3; intros [|fuel] H Hf;
    try (cbn [body length] in Hf; lia); [done| | |]; cbn [decode_loop].
  - pose proof (body_range _ H) as Hr. rewrite Forall_singleton in H.
    rewrite fill_short by (auto; simpl; lia). cbn.
    by destruct (sextets_decode a 0 0) as (->&_&_); auto.
  - pose proof (body_range _ H) as Hr. rewrite Forall_cons, Forall_singleton in H; destruct H as [Ha Hb].
    rewrite fill_short by (auto; simpl; lia). cbn.
    by destruct (sextets_decode a b 0) as (->&->&_); auto.
  - pose proof (body_range _ H) as Hr.
    rewrite !Forall_cons in H; destruct H as (Ha & Hb & Hc & Hl).
    cbn [body] in *. apply Forall_app in Hr as [Hr _].
    rewrite map_app, fill_valid by done. cbn.
    rewrite IH by (auto; rewrite length_app in Hf; simpl in Hf; lia). cbn.
    by destruct (sextets_decode a b c) as (->&->&->); auto.
Qed.

(** Decoding the output of the encoder gives back the input, for every
    byte string, whenever the caller's buffer holds the input's length. *)
Theorem decode_encode bs cap cap' :
  Forall is_byte bs -> zlen bs <= cap ->
  PJ_BASE256_TO_BASE64_LEN (zlen bs) <= cap' ->
  exists out, pj_base64_encode bs cap' = (PJ_SUCCESS, out) /\
              pj_base64_decode out cap = Some (PJ_SUCCESS, bs).
Proof.
  intros Hb Hc Hc'. exists (encode_loop bs). split.
  - unfold pj_base64_encode. by destruct (Z.ltb_spec cap' (PJ_BASE256_TO_BASE64_LEN (zlen bs))); [lia|].
  - unfold pj_base64_decode. rewrite strip_encode_loop by done.
    unfold PJ_BASE64_TO_BASE256_LEN, zlen at 1. rewrite length_map.
    fold (zlen (body bs)). rewrite body_length.
    destruct (Z.ltb_spec cap (zlen bs)); [lia|].
    by rewrite decode_loop_body by (auto; rewrite length_map; lia).
Qed.

Lemma decode_encode_witness :
  exists out, pj_base64_encode [0; 255; 16; 131] 8 = (PJ_SUCCESS, out) /\
              pj_base64_decode out 4 = Some (PJ_SUCCESS, [0; 255; 16; 131]).
Proof.
  apply (decode_encode [0; 255; 16; 131] 4 8); [by apply (bool_decide_unpack _)|by vm_compute..].
Defined.

(** ** Memory safety of the decoder on arbitrary input *)

Lemma next_char_length c rest : (length (next_char c rest).2 <= length rest)%nat.
Proof.
  revert c. induction rest as [|c' r IH]; intros c; cbn [next_char]; [done|].
  case_match; [|done]. specialize (IH c'). simpl. lia.
Qed.

Lemma fill_length k buf vs rest :
  fill k buf = (vs, rest) ->
  (length vs <= k /\ length vs + length rest <= length buf)%nat /\
  (buf <> [] -> k <> 0%nat -> vs <> []).
Proof.
  revert buf vs rest. induction k as [|k IH]; intros [|c buf] vs rest H;
    cbn [fill] in H; [injection H as <- <-; simpl; split; [lia|congruence]..|].
  pose proof (next_char_length c buf). destruct (next_char c buf) as [v r1].
  destruct (fill k r1) as [vs' r2] eqn:E. simplify_eq/=.
  apply IH in E. simpl in *. split; [lia|done].
Qed.

Lemma decode_loop_safe fuel buf :
  (length buf < fuel)%nat ->
  exists out, decode_loop fuel buf = Some out /\
    zlen out <= PJ_BASE64_TO_BASE256_LEN (zlen buf) /\ Forall is_byte out.
Proof.
  unfold PJ_BASE64_TO_BASE256_LEN, zlen.
  revert buf. induction fuel as [|fuel IH]; intros buf Hf; [lia|].
  cbn [decode_loop]. destruct buf as [|c0 buf]; [by exists []|].
  destruct (fill 4 (c0 :: buf)) as [vs rest] eqn:E.
  apply fill_length in E as [[Hk Hl] _].
  assert (Hu : forall x, is_byte (u8 x)) by (intros; apply u8_range).
  rewrite Z.quot_div_nonneg by lia.
  assert (forall n, Z.of_nat (length (c0 :: buf)) >= n -> 0 <= n ->
            n * 3 / 4 <= Z.of_nat (length (c0 :: buf)) * 3 / 4)
    by (intros; apply Z.div_le_mono; lia).
  destruct vs as [|v0 [|v1 [|v2 [|v3 [|? ?]]]]]; simpl in Hk; try lia.
  - exists []. split_and!; [done|simpl; apply Z.div_pos; lia|done].
  - exists []. split_and!; [done|simpl; apply Z.div_pos; lia|done].
  - eexists. split_and!; [done| |unfold dec1; auto].
    specialize (H 2 ltac:(cbn [length] in *; lia) ltac:(lia)). change (2 * 3 / 4) with 1 in H. cbn [length] in *; lia.
  - eexists. split_and!; [done| |unfold dec1, dec2; auto].
    specialize (H 3 ltac:(cbn [length] in *; lia) ltac:(lia)). change (3 * 3 / 4) with 2 in H. cbn [length] in *; lia.
  - destruct (IH rest) as (out & -> & Ho & Hb); [simpl in *; lia|].
    eexists. split_and!; [done| |unfold dec1, dec2, dec3; auto].
    rewrite Z.quot_div_nonneg in Ho by lia.
    specialize (H (Z.of_nat (length rest) + 1 * 4)).
    rewrite Z.mul_add_distr_r, <- Z.mul_assoc, (Z.mul_comm 4 3), Z.mul_assoc, Z.div_add in H by lia.
    cbn [length] in *. lia.
Qed.

(** The decoder terminates on every input, whatever characters it holds,
    and when it succeeds it has stored only bytes and no more of them than the
    caller's buffer holds. *)
Theorem decode_safe input cap :
  exists st out, pj_base64_decode input cap = Some (st, out) /\
    Forall is_byte out /\
    ((st = PJ_ETOOSMALL /\ out = []) \/ (st = PJ_SUCCESS /\ zlen out <= cap)).
Proof.
  unfold pj_base64_decode.
  destruct (Z.ltb_spec cap (PJ_BASE64_TO_BASE256_LEN (zlen (strip_padding input)))).
  - exists PJ_ETOOSMALL, []. auto.
  - destruct (decode_loop_safe (S (length (strip_padding input))) (strip_padding input))
      as (out & -> & Ho & Hb); [lia|].
    exists PJ_SUCCESS, out. split_and!; [done..|]. right. split; [done|lia].
Qed.

(** ** Bounds of the encoder *)

Lemma encode_loop_length l : zlen (encode_loop l) = (zlen l + 2) / 3 * 4.
Proof.
  unfold zlen. induction l as [| | |a b c l IH] using list_ind3; [reflexivity..|].
  change (encode_loop (a :: b :: c :: l)) with (base256to64 a b c 0 ++ encode_loop l).
  rewrite length_app, Nat2Z.inj_add, IH.
  replace (Z.of_nat (length (a :: b :: c :: l)) + 2)
    with (Z.of_nat (length l) + 2 + 1 * 3) by (simpl; lia).
  rewrite Z.div_add by lia. change (Z.of_nat (length (base256to64 a b c 0))) with 4. lia.
Qed.

(** C30: for a non-negative length the encoder refuses exactly the buffers
    shorter than [PJ_BASE256_TO_BASE64_LEN] and otherwise writes
    [4*ceil(n/3)] characters, which never overrun the buffer. *)
Theorem encode_bounds bs cap st out :
  pj_base64_encode bs cap = (st, out) ->
  (st = PJ_ETOOSMALL <-> cap < PJ_BASE256_TO_BASE64_LEN (zlen bs)) /\
  (st = PJ_SUCCESS -> zlen out = (zlen bs + 2) / 3 * 4 /\ zlen out <= cap).
Proof.
  unfold pj_base64_encode, PJ_BASE256_TO_BASE64_LEN.
  assert (0 <= zlen bs) by (unfold zlen; lia).
  rewrite Z.quot_div_nonneg by lia.
  destruct (Z.ltb_spec cap (zlen bs * 4 / 3 + 3)); intros [= <- <-].
  - split; [done|]. discriminate.
  - split; [split; [discriminate|lia]|]. intros _. rewrite encode_loop_length.
    split; [done|]. Z.div_mod_to_equations. lia.
Qed.

Lemma encode_bounds_witness :
  (PJ_SUCCESS = PJ_ETOOSMALL <-> 5 < PJ_BASE256_TO_BASE64_LEN 2) /\
  (PJ_SUCCESS = PJ_SUCCESS -> zlen [84; 87; 69; 61] = (2 + 2) / 3 * 4 /\ 4 <= 5).
Proof. apply (encode_bounds [77; 97] 5 PJ_SUCCESS [84; 87; 69; 61]). reflexivity. Defined.

(** An invalid character that ends the input is not ignored: it is stored in
    [c[k]] as [INV] and adds a byte to the output. *)
Lemma decode_trailing_invalid b :
  is_byte b ->
  pj_base64_decode (encode_loop [b] ++ [10]) 3 = Some (PJ_SUCCESS, [b; 15]).
Proof.
  intros Hb.
  destruct (sextets_range b 0) as (H1 & H2 & _); [done|done|].
  unfold pj_base64_decode.
  assert (E : strip_padding (encode_loop [b] ++ [10])
    = map (zget base64_char) [sx1 b; sx2 b 0] ++ [61; 61; 10]) by reflexivity.
  rewrite E. cbn [map app length zlen].
  change (3 <? PJ_BASE64_TO_BASE256_LEN (Z.of_nat 5)) with false. cbn iota.
  cbn [decode_loop fill]. rewrite !next_char_valid by done.
  cbn. f_equal. f_equal. f_equal; [apply (sx12_first b 0 Hb)|].
  f_equal. unfold dec2, sx2. pattern b.
  enough (forall b, is_byte b -> (u8 (Z.lor (Z.shiftl (Z.land (Z.lor (Z.shiftl (Z.land b 3) 4)
     (Z.shiftr (Z.land 0 240) 4)) 15) 4) (Z.shiftr (Z.land (-1) 60) 2)) =? 15) = true) as H
    by (apply Z.eqb_eq, H, Hb).
  by apply forall_bytes.
Qed.
