(* ===== verification/TimerHeap.v ===== *)
(** * Timer heap (pjlib/src/pj/timer.c)

    The heap array and the parallel [timer_ids] array are lists indexed by
    slot, the timer entries live in a store indexed by their address because
    the heap and the caller share them, and the reference counters of the group
    locks are part of the store.  Every array access that C leaves undefined
    out of range is an [option]: [None] is undefined behaviour (or a loop that
    ran out of fuel), so a theorem that an operation returns [Some] states
    memory safety and termination at once. *)

From S2P Require Import Prelude PjTime.

(** ** Data *)

Record pj_timer_entry := mk_te {
  te_timer_id : Z;                  (* _timer_id *)
  te_value : pj_time_val;           (* _timer_value *)
  te_id : Z;                        (* id *)
  te_cb : bool;                     (* cb != NULL *)
  te_grp_lock : option Z            (* _grp_lock *)
}.

Record pj_timer_heap_t := mk_th {
  max_size : nat;
  cur_size : nat;
  max_entries_per_poll : nat;
  heap : list Z;
  timer_ids : list Z;
  timer_ids_freelist : Z
}.

Record store := mk_st {
  ht : pj_timer_heap_t;
  entries : gmap Z pj_timer_entry;
  lock_refs : gmap Z Z
}.

Definition DEFAULT_MAX_TIMED_OUT_PER_POLL : nat := 64.
Definition PJ_MAXINT32 : Z := 2147483647.
Definition F_SET_ID : Z := 4.

Definition HEAP_PARENT (x : nat) : nat := match x with O => O | S y => (y / 2)%nat end.
Definition HEAP_LEFT (x : nat) : nat := (x + x + 1)%nat.

(** ** Array accesses *)

Definition zread (l : list Z) (i : Z) : option Z :=
  if decide (0 <= i) then l !! Z.to_nat i else None.

Definition write (l : list Z) (i : nat) (x : Z) : option (list Z) :=
  if decide (i < length l)%nat then Some (<[i := x]> l) else None.

Definition zwrite (l : list Z) (i x : Z) : option (list Z) :=
  if decide (0 <= i) then write l (Z.to_nat i) x else None.

Definition set_arrays (h : pj_timer_heap_t) (hp ids : list Z) : pj_timer_heap_t :=
  mk_th (max_size h) (cur_size h) (max_entries_per_poll h) hp ids (timer_ids_freelist h).
Definition set_cur_size (h : pj_timer_heap_t) (n : nat) : pj_timer_heap_t :=
  mk_th (max_size h) n (max_entries_per_poll h) (heap h) (timer_ids h) (timer_ids_freelist h).
Definition set_ids (h : pj_timer_heap_t) (ids : list Z) (free : Z) : pj_timer_heap_t :=
  mk_th (max_size h) (cur_size h) (max_entries_per_poll h) (heap h) ids free.
Definition set_timer_id (e : pj_timer_entry) (i : Z) : pj_timer_entry :=
  mk_te i (te_value e) (te_id e) (te_cb e) (te_grp_lock e).
Definition set_id (e : pj_timer_entry) (i : Z) : pj_timer_entry :=
  mk_te (te_timer_id e) (te_value e) i (te_cb e) (te_grp_lock e).
Definition set_grp_lock (e : pj_timer_entry) (l : option Z) : pj_timer_entry :=
  mk_te (te_timer_id e) (te_value e) (te_id e) (te_cb e) l.
Definition with_ht (s : store) (h : pj_timer_heap_t) : store :=
  mk_st h (entries s) (lock_refs s).
Definition with_entry (s : store) (p : Z) (e : pj_timer_entry) : store :=
  mk_st (ht s) (<[p := e]> (entries s)) (lock_refs s).

(** [pj_grp_lock_add_ref] / [pj_grp_lock_dec_ref] of an optional lock *)
Definition ref_lock (s : store) (l : option Z) (d : Z) : store :=
  match l with
  | Some k => mk_st (ht s) (entries s) (<[k := default 0 (lock_refs s !! k) + d]> (lock_refs s))
  | None => s
  end.

(** ** Heap operations *)

Definition copy_node (s : store) (slot : nat) (moved : Z) : option store :=
  e ← entries s !! moved;
  hp ← write (heap (ht s)) slot moved;
  ids ← zwrite (timer_ids (ht s)) (te_timer_id e) (Z.of_nat slot);
  Some (with_ht s (set_arrays (ht s) hp ids)).

Definition pop_freelist (s : store) : option (Z * store) :=
  let new_id := timer_ids_freelist (ht s) in
  v ← zread (timer_ids (ht s)) new_id;
  Some (new_id, with_ht s (set_ids (ht s) (timer_ids (ht s)) (- v))).

Definition push_freelist (s : store) (old_id : Z) : option store :=
  ids ← zwrite (timer_ids (ht s)) old_id (- timer_ids_freelist (ht s));
  Some (with_ht s (set_ids (ht s) ids old_id)).

Definition value_of (s : store) (p : Z) : option pj_time_val := te_value <$> entries s !! p.

(** "Choose the smaller of the two children." *)
Definition smaller_child (s : store) (child : nat) : option nat :=
  if decide (child + 1 < cur_size (ht s))%nat then
    c1 ← heap (ht s) !! (child + 1)%nat; v1 ← value_of s c1;
    c0 ← heap (ht s) !! child; v0 ← value_of s c0;
    Some (if PJ_TIME_VAL_LT v1 v0 then (child + 1)%nat else child)
  else Some child.

Fixpoint reheap_down (fuel : nat) (s : store) (moved : Z) (slot child : nat) : option store :=
  match fuel with
  | O => None
  | S fuel' =>
      if decide (child < cur_size (ht s))%nat then
        child' ← smaller_child s child;
        c ← heap (ht s) !! child'; vc ← value_of s c; vm ← value_of s moved;
        if PJ_TIME_VAL_LT vc vm then
          s' ← copy_node s slot c;
          reheap_down fuel' s' moved child' (HEAP_LEFT child')
        else copy_node s slot moved
      else copy_node s slot moved
  end.

Fixpoint reheap_up (fuel : nat) (s : store) (moved : Z) (slot parent : nat) : option store :=
  match fuel with
  | O => None
  | S fuel' =>
      if decide (0 < slot)%nat then
        c ← heap (ht s) !! parent; vc ← value_of s c; vm ← value_of s moved;
        if PJ_TIME_VAL_LT vm vc then
          s' ← copy_node s slot c;
          reheap_up fuel' s' moved parent (HEAP_PARENT parent)
        else copy_node s slot moved
      else copy_node s slot moved
  end.

Definition remove_node (s : store) (slot : nat) : option (Z * store) :=
  removed ← heap (ht s) !! slot;
  e ← entries s !! removed;
  s1 ← push_freelist s (te_timer_id e);
  let s2 := with_ht s1 (set_cur_size (ht s1) (cur_size (ht s1) - 1)) in
  let s3 := with_entry s2 removed (set_timer_id e (-1)) in
  let n := cur_size (ht s3) in
  if decide (slot < n)%nat then
    moved ← heap (ht s3) !! n;
    s4 ← copy_node s3 slot moved;
    let parent := HEAP_PARENT slot in
    p ← heap (ht s4) !! parent; vp ← value_of s4 p; vm ← value_of s4 moved;
    s5 ← (if PJ_TIME_VAL_GTE vm vp then reheap_down (S n) s4 moved slot (HEAP_LEFT slot)
          else reheap_up (S n) s4 moved slot parent);
    Some (removed, s5)
  else Some (removed, s3).

(** The grown arrays keep their contents; the new part of [heap] is
    uninitialised pool memory, [junk] here. *)
Definition grow_heap (junk : list Z) (h : pj_timer_heap_t) : pj_timer_heap_t :=
  let new_size := (max_size h * 2)%nat in
  mk_th new_size (cur_size h) (max_entries_per_poll h)
    (heap h ++ resize (max_size h) 0 junk)
    (timer_ids h ++ map (fun i => - Z.of_nat (i + 1)) (seq (max_size h) (max_size h)))
    (timer_ids_freelist h).

Definition insert_node (junk : list Z) (s : store) (p : Z) : option store :=
  let s1 := if decide (max_size (ht s) <= cur_size (ht s) + 2)%nat
            then with_ht s (grow_heap junk (ht s)) else s in
  let n := cur_size (ht s1) in
  s2 ← reheap_up (S n) s1 p n (HEAP_PARENT n);
  Some (with_ht s2 (set_cur_size (ht s2) (cur_size (ht s2) + 1))).

Definition schedule_entry (junk : list Z) (s : store) (p : Z) (future_time : pj_time_val) :
    option (Z * store) :=
  if decide (cur_size (ht s) < max_size (ht s))%nat then
    '(new_id, s1) ← pop_freelist s;
    e ← entries s1 !! p;
    let e' := mk_te new_id future_time (te_id e) (te_cb e) (te_grp_lock e) in
    s2 ← insert_node junk (with_entry s1 p e') p;
    Some (0, s2)
  else Some (-1, s).

(** [cancel] is only called with [F_DONT_CALL] set, so the close hook
    [ht->callback], which nothing ever assigns, is not reached. *)
Definition cancel (s : store) (p : Z) : option (Z * store) :=
  e ← entries s !! p;
  if decide (te_timer_id e < 0 \/ Z.of_nat (max_size (ht s)) < te_timer_id e) then
    Some (0, with_entry s p (set_timer_id e (-1)))
  else
    timer_node_slot ← zread (timer_ids (ht s)) (te_timer_id e);
    if decide (timer_node_slot < 0) then Some (0, with_entry s p (set_timer_id e (-1)))
    else
      q ← zread (heap (ht s)) timer_node_slot;
      if decide (p <> q) then Some (0, with_entry s p (set_timer_id e (-1)))
      else
        '(_, s') ← remove_node s (Z.to_nat timer_node_slot);
        Some (1, s').

Definition pj_timer_heap_create (junk : list Z) (size : nat) : pj_timer_heap_t :=
  let size := (size + 2)%nat in
  mk_th size 0 DEFAULT_MAX_TIMED_OUT_PER_POLL (resize size 0 junk)
    (map (fun i => - Z.of_nat (i + 1)) (seq 0 size)) 1.

Definition pj_timer_heap_set_max_timed_out_per_poll (h : pj_timer_heap_t) (count : nat) :
    nat * pj_timer_heap_t :=
  (max_entries_per_poll h,
   mk_th (max_size h) (cur_size h) count (heap h) (timer_ids h) (timer_ids_freelist h)).

Definition pj_timer_entry_init (e : pj_timer_entry) (id : Z) : pj_timer_entry :=
  mk_te (-1) (te_value e) id true None.

Definition pj_timer_entry_running (e : pj_timer_entry) : bool := 1 <=? te_timer_id e.

(** [now] is what [pj_gettickcount] returns. *)
Definition schedule_w_grp_lock (junk : list Z) (s : store) (p : Z) (delay now : pj_time_val)
    (set_id_flag : bool) (id_val : Z) (grp_lock : option Z) : option (Z * store) :=
  e ← entries s !! p;
  if negb (te_cb e) then Some (PJ_EINVAL, s)
  else if 1 <=? te_timer_id e then Some (PJ_EINVALIDOP, s)
  else
    let expires := PJ_TIME_VAL_ADD now delay in
    '(status, s1) ← schedule_entry junk s p expires;
    if status =? PJ_SUCCESS then
      e1 ← entries s1 !! p;
      let e2 := set_grp_lock (if set_id_flag then set_id e1 id_val else e1) grp_lock in
      Some (status, ref_lock (with_entry s1 p e2) grp_lock 1)
    else Some (status, s1).

Definition pj_timer_heap_schedule (junk : list Z) (s : store) (p : Z) (delay now : pj_time_val) :=
  schedule_w_grp_lock junk s p delay now false 1 None.
Definition pj_timer_heap_schedule_w_grp_lock (junk : list Z) (s : store) (p : Z)
    (delay now : pj_time_val) (id_val : Z) (grp_lock : option Z) :=
  schedule_w_grp_lock junk s p delay now true id_val grp_lock.

Definition cancel_timer (s : store) (p : Z) (set_id_flag : bool) (id_val : Z) :
    option (Z * store) :=
  '(count, s1) ← cancel s p;
  e ← entries s1 !! p;
  let e1 := if set_id_flag then set_id e id_val else e in
  Some (count, ref_lock (with_entry s1 p (set_grp_lock e1 None)) (te_grp_lock e1) (-1)).

Definition pj_timer_heap_cancel (s : store) (p : Z) := cancel_timer s p false 0.
Definition pj_timer_heap_cancel_if_active (s : store) (p id_val : Z) := cancel_timer s p true id_val.

Definition pj_timer_heap_count (s : store) : nat := cur_size (ht s).

Definition pj_timer_heap_earliest_time (s : store) : option (Z * option pj_time_val) :=
  if decide (cur_size (ht s) = 0)%nat then Some (PJ_ENOTFOUND, None)
  else p ← heap (ht s) !! 0%nat; v ← value_of s p; Some (PJ_SUCCESS, Some v).

(** ** Polling *)

(** A timer callback acts on the heap through the API: the commands it issues,
    with the clock it reads when it does. *)
Inductive timer_cmd :=
  | Cmd_schedule (p : Z) (delay now : pj_time_val)
  | Cmd_schedule_w_grp_lock (p : Z) (delay now : pj_time_val) (id : Z) (lock : option Z)
  | Cmd_cancel (p : Z)
  | Cmd_cancel_if_active (p : Z) (id : Z).

Definition run_cmd (junk : list Z) (s : store) (c : timer_cmd) : option store :=
  snd <$> match c with
  | Cmd_schedule p delay now => pj_timer_heap_schedule junk s p delay now
  | Cmd_schedule_w_grp_lock p delay now id lock =>
      pj_timer_heap_schedule_w_grp_lock junk s p delay now id lock
  | Cmd_cancel p => pj_timer_heap_cancel s p
  | Cmd_cancel_if_active p id => pj_timer_heap_cancel_if_active s p id
  end.

Fixpoint run_cmds (junk : list Z) (s : store) (cs : list timer_cmd) : option store :=
  match cs with
  | [] => Some s
  | c :: cs' => s' ← run_cmd junk s c; run_cmds junk s' cs'
  end.

(** The third component lists the entries whose callback ran, in order. *)
Fixpoint poll_loop (junk : list Z) (script : Z -> list timer_cmd) (fuel : nat) (s : store)
    (now : pj_time_val) (count : nat) : option (nat * store * list Z) :=
  if decide (cur_size (ht s) = 0)%nat then Some (count, s, [])
  else
    top ← heap (ht s) !! 0%nat; v ← value_of s top;
    if PJ_TIME_VAL_LTE v now && bool_decide (count < max_entries_per_poll (ht s))%nat then
      match fuel with
      | O => None
      | S fuel' =>
          '(node, s1) ← remove_node s 0;
          e ← entries s1 !! node;
          let s2 := with_entry s1 node (set_grp_lock e None) in
          s3 ← (if te_cb e then run_cmds junk s2 (script node) else Some s2);
          '(c, s4, fired) ← poll_loop junk script fuel' (ref_lock s3 (te_grp_lock e) (-1)) now (S count);
          Some (c, s4, node :: fired)
      end
    else Some (count, s, []).

Definition next_delay_of (s : store) (now : pj_time_val) : option pj_time_val :=
  if decide (cur_size (ht s) = 0)%nat then Some (mk_tv PJ_MAXINT32 PJ_MAXINT32)
  else
    top ← heap (ht s) !! 0%nat; v ← value_of s top;
    let d := PJ_TIME_VAL_SUB v now in
    Some (if (sec d <? 0) || (msec d <? 0) then mk_tv 0 0 else d).

(** [want_delay] is [next_delay != NULL]. *)
Definition pj_timer_heap_poll (junk : list Z) (script : Z -> list timer_cmd) (s : store)
    (now : pj_time_val) (want_delay : bool) : option (nat * option pj_time_val * store * list Z) :=
  if bool_decide (cur_size (ht s) = 0)%nat && want_delay then
    Some (0%nat, Some (mk_tv PJ_MAXINT32 PJ_MAXINT32), s, [])
  else
    '(count, s1, fired) ← poll_loop junk script (max_entries_per_poll (ht s)) s now 0;
    if want_delay then d ← next_delay_of s1 now; Some (count, Some d, s1, fired)
    else Some (count, None, s1, fired).

(** ** The heap with a hole

    While a node moves, its slot holds a stale pointer: [hole_inv] describes
    the array as if [moved] were to be stored in [slot]. *)

Lemma parent_spec i : (0 < i)%nat -> (2 * HEAP_PARENT i + 1 <= i <= 2 * HEAP_PARENT i + 2)%nat.
Proof.
  destruct i as [|i]; [lia|]. intros _. cbn [HEAP_PARENT].
  pose proof (Nat.div_mod i 2). pose proof (Nat.mod_upper_bound i 2). lia.
Qed.

Definition tval (E : gmap Z pj_timer_entry) (p : Z) : pj_time_val :=
  default (mk_tv 0 0) (te_value <$> E !! p).

Definition node_at (E : gmap Z pj_timer_entry) (ids : list Z) (i : nat) (p : Z) : Prop :=
  exists e, E !! p = Some e /\ 1 <= te_timer_id e /\
            ids !! Z.to_nat (te_timer_id e) = Some (Z.of_nat i).

Definition linked (E : gmap Z pj_timer_entry) (h ids : list Z) (n slot : nat) : Prop :=
  forall i, (i < n)%nat -> i <> slot -> exists p, h !! i = Some p /\ node_at E ids i p.

Record hole_inv (E : gmap Z pj_timer_entry) (h ids : list Z) (n slot : nat) (moved : Z) : Prop := {
  hi_len : (n <= length h)%nat;
  hi_slot : (slot < n)%nat;
  hi_moved : exists e, E !! moved = Some e /\ 1 <= te_timer_id e /\
                       (Z.to_nat (te_timer_id e) < length ids)%nat;
  hi_linked : linked E h ids n slot;
  hi_fresh : forall i p e e', (i < n)%nat -> i <> slot -> h !! i = Some p ->
     E !! p = Some e -> E !! moved = Some e' -> te_timer_id e <> te_timer_id e'
}.

Definition elems (h : list Z) (n slot : nat) (moved p : Z) : Prop :=
  p = moved \/ exists i, (i < n)%nat /\ i <> slot /\ h !! i = Some p.

(** What moving a node leaves alone. *)
Record frame (n slot : nat) (moved : Z) (s s' : store) : Prop := {
  fr_entries : entries s' = entries s;
  fr_refs : lock_refs s' = lock_refs s;
  fr_ht : exists hp ids, ht s' = set_arrays (ht s) hp ids /\
            length hp = length (heap (ht s)) /\ length ids = length (timer_ids (ht s));
  fr_elems : forall p, elems (heap (ht s)) n slot moved p <->
                       exists i, (i < n)%nat /\ heap (ht s') !! i = Some p;
  fr_ids : forall x, (forall p e, elems (heap (ht s)) n slot moved p ->
               entries s !! p = Some e -> Z.to_nat (te_timer_id e) <> x) ->
             timer_ids (ht s') !! x = timer_ids (ht s) !! x
}.

Lemma node_at_inj E ids i j p : node_at E ids i p -> node_at E ids j p -> i = j.
Proof. intros (e & He & _ & H1) (e' & He' & _ & H2). simplify_eq. lia. Qed.

Lemma copy_node_step s slot c e :
  entries s !! c = Some e -> (slot < length (heap (ht s)))%nat ->
  0 <= te_timer_id e -> (Z.to_nat (te_timer_id e) < length (timer_ids (ht s)))%nat ->
  copy_node s slot c = Some (with_ht s (set_arrays (ht s) (<[slot := c]> (heap (ht s)))
     (<[Z.to_nat (te_timer_id e) := Z.of_nat slot]> (timer_ids (ht s))))).
Proof.
  intros He Hs H0 Hl. unfold copy_node, zwrite, write. rewrite He. simpl.
  by rewrite !decide_True by done.
Qed.

(** The node [c] of slot [j] moves into the hole, which is now at [j]. *)
Lemma hole_step E h ids n slot moved j c e :
  hole_inv E h ids n slot moved -> (j < n)%nat -> j <> slot ->
  h !! j = Some c -> E !! c = Some e ->
  hole_inv E (<[slot := c]> h) (<[Z.to_nat (te_timer_id e) := Z.of_nat slot]> ids) n j moved.
Proof.
  intros [Hl Hs (em & Hm & Hm1 & Hml) Hk Hf] Hj Hjs Hc He.
  destruct (Hk j Hj Hjs) as (c' & Hc' & (e' & He' & H1 & Hid)). simplify_eq.
  pose proof (lookup_lt_Some _ _ _ Hid) as Hlt.
  split; rewrite ?length_insert; try done; [by eauto| |].
  - intros i Hi Hij. destruct (decide (i = slot)) as [->|Hne].
    + exists c. split; [by rewrite list_lookup_insert_eq by lia|].
      exists e. split_and!; [done..|]. by rewrite list_lookup_insert_eq.
    + destruct (Hk i Hi Hne) as (p & Hp & (ep & Hep & Hp1 & Hpid)).
      exists p. split; [by rewrite list_lookup_insert_ne by done|].
      exists ep. split_and!; [done..|].
      rewrite list_lookup_insert_ne; [done|]. intros E'. rewrite E' in Hid. by simplify_eq.
  - intros i p e1 e2 Hi Hij Hp He1 He2. destruct (decide (i = slot)) as [->|Hne].
    + rewrite list_lookup_insert_eq in Hp by lia. injection Hp as <-. by apply (Hf j c e1 e2).
    + rewrite list_lookup_insert_ne in Hp by done. by apply (Hf i p e1 e2).
Qed.

(** [moved] fills the hole. *)
Lemma hole_fill E h ids n slot moved e :
  hole_inv E h ids n slot moved -> E !! moved = Some e ->
  linked E (<[slot := moved]> h) (<[Z.to_nat (te_timer_id e) := Z.of_nat slot]> ids) n n.
Proof.
  intros [Hl Hs (em & Hm & Hm1 & Hml) Hk Hf] He. simplify_eq.
  intros i Hi _. destruct (decide (i = slot)) as [->|Hne].
  - exists moved. split; [by rewrite list_lookup_insert_eq by lia|].
    exists em. split_and!; [done..|]. by rewrite list_lookup_insert_eq.
  - destruct (Hk i Hi Hne) as (p & Hp & (ep & Hep & Hp1 & Hpid)).
    exists p. split; [by rewrite list_lookup_insert_ne by done|].
    exists ep. split_and!; [done..|]. rewrite list_lookup_insert_ne; [done|].
    pose proof (Hf i p ep em Hi Hne Hp Hep Hm). lia.
Qed.

Lemma elems_step h n slot j moved c p :
  (n <= length h)%nat -> (slot < n)%nat -> (j < n)%nat -> j <> slot -> h !! j = Some c ->
  elems (<[slot := c]> h) n j moved p <-> elems h n slot moved p.
Proof.
  intros Hl Hs Hj Hjs Hc. unfold elems. split; (intros [->|(i & Hi & Hne & Hp)]; [by left|right]).
  - destruct (decide (i = slot)) as [->|Hs'].
    + rewrite list_lookup_insert_eq in Hp by lia. simplify_eq. eauto.
    + rewrite list_lookup_insert_ne in Hp by done. eauto.
  - destruct (decide (i = j)) as [->|Hj'].
    + simplify_eq. exists slot. split_and!; [lia..|by rewrite list_lookup_insert_eq by lia].
    + exists i. split_and!; [lia..|by rewrite list_lookup_insert_ne by done].
Qed.

Definition after_copy (s : store) (slot : nat) (c : Z) (e : pj_timer_entry) : store :=
  with_ht s (set_arrays (ht s) (<[slot := c]> (heap (ht s)))
     (<[Z.to_nat (te_timer_id e) := Z.of_nat slot]> (timer_ids (ht s)))).

Lemma frame_step s s' n slot j moved c e :
  hole_inv (entries s) (heap (ht s)) (timer_ids (ht s)) n slot moved ->
  (j < n)%nat -> j <> slot -> heap (ht s) !! j = Some c -> entries s !! c = Some e ->
  frame n j moved (after_copy s slot c e) s' -> frame n slot moved s s'.
Proof.
  intros Hh Hj Hjs Hc He [F1 F2 (hp & ids & F3 & F4 & F5) F6 F7].
  assert (Hel : forall p, elems (<[slot := c]> (heap (ht s))) n j moved p <->
                elems (heap (ht s)) n slot moved p)
    by (intros p; apply elems_step; try done; apply Hh).
  simpl in *. split; [done|done| | |].
  - exists hp, ids. rewrite F3, F4, F5, !length_insert. done.
  - intros p. by rewrite <- Hel, F6.
  - intros x Hx. rewrite F7.
    + rewrite list_lookup_insert_ne; [done|]. apply (Hx c e); [|done].
      right; eauto.
    + intros p e' Hp. apply Hx. by apply Hel.
Qed.

Lemma frame_fill s n slot moved e :
  hole_inv (entries s) (heap (ht s)) (timer_ids (ht s)) n slot moved ->
  entries s !! moved = Some e -> frame n slot moved s (after_copy s slot moved e).
Proof.
  intros Hh He. destruct Hh as [Hl Hs Hm Hk Hf]. split; simpl; [done|done| | |].
  - eexists _, _. split; [done|]. by rewrite !length_insert.
  - intros p. unfold elems. split.
    + intros [->|(i & Hi & Hne & Hp)].
      * exists slot. by rewrite list_lookup_insert_eq by lia.
      * exists i. by rewrite list_lookup_insert_ne by done.
    + intros (i & Hi & Hp). destruct (decide (i = slot)) as [->|Hne].
      * rewrite list_lookup_insert_eq in Hp by lia. left; congruence.
      * rewrite list_lookup_insert_ne in Hp by done. right; eauto.
  - intros x Hx. rewrite list_lookup_insert_ne; [done|]. apply (Hx moved e); [by left|done].
Qed.

(** ** Heap order *)

(** Expiry of the node in slot [i]. *)
Definition kv (E : gmap Z pj_timer_entry) (h : list Z) (i : nat) : pj_time_val :=
  tval E (default 0 (h !! i)).

Definition ordered (E : gmap Z pj_timer_entry) (h : list Z) (n : nat) : Prop :=
  forall i, (0 < i < n)%nat -> tv_le (kv E h (HEAP_PARENT i)) (kv E h i).

(** [H] is the array with [moved] in its hole; [up_ok] lets only the pair
    (parent of the hole, hole) be out of order, [down_ok] only the pairs
    (hole, child of the hole). *)
Definition grandparent_ok (E : gmap Z pj_timer_entry) (H : list Z) (n slot : nat) : Prop :=
  forall i, (0 < i < n)%nat -> HEAP_PARENT i = slot -> (0 < slot)%nat ->
    tv_le (kv E H (HEAP_PARENT slot)) (kv E H i).

Definition up_ok (E : gmap Z pj_timer_entry) (H : list Z) (n slot : nat) : Prop :=
  (forall i, (0 < i < n)%nat -> i <> slot -> tv_le (kv E H (HEAP_PARENT i)) (kv E H i)) /\
  grandparent_ok E H n slot.

Definition down_ok (E : gmap Z pj_timer_entry) (H : list Z) (n slot : nat) : Prop :=
  (forall i, (0 < i < n)%nat -> HEAP_PARENT i <> slot ->
     tv_le (kv E H (HEAP_PARENT i)) (kv E H i)) /\
  grandparent_ok E H n slot.

(** The effect of one move on the completed array. *)
Lemma kv_step E h n slot j moved c i :
  (n <= length h)%nat -> (slot < n)%nat -> (j < n)%nat -> j <> slot -> h !! j = Some c ->
  kv E (<[j := moved]> (<[slot := c]> h)) i =
  if decide (i = j) then tval E moved
  else if decide (i = slot) then kv E (<[slot := moved]> h) j
  else kv E (<[slot := moved]> h) i.
Proof.
  intros Hl Hs Hj Hjs Hc. unfold kv. destruct (decide (i = j)) as [->|Hij].
  - by rewrite list_lookup_insert_eq by (rewrite length_insert; lia).
  - rewrite list_lookup_insert_ne by done. destruct (decide (i = slot)) as [->|His].
    + rewrite list_lookup_insert_eq by lia.
      by rewrite list_lookup_insert_ne, Hc by done.
    + by rewrite !list_lookup_insert_ne by done.
Qed.

Lemma kv_hole E h slot moved : (slot < length h)%nat -> kv E (<[slot := moved]> h) slot = tval E moved.
Proof. intros. unfold kv. by rewrite list_lookup_insert_eq. Qed.

Ltac parent_facts i := let P := fresh "P" in pose proof (parent_spec i) as P.

Lemma up_ok_step E h n slot moved c :
  (n <= length h)%nat -> (0 < slot < n)%nat -> h !! HEAP_PARENT slot = Some c ->
  ~ tv_le (tval E c) (tval E moved) ->
  up_ok E (<[slot := moved]> h) n slot ->
  up_ok E (<[HEAP_PARENT slot := moved]> (<[slot := c]> h)) n (HEAP_PARENT slot).
Proof.
  intros Hl Hs Hc Hlt [Ho Hg]. parent_facts slot.
  set (j := HEAP_PARENT slot) in *. set (H := <[slot := moved]> h) in *.
  assert (Hjc : kv E H j = tval E c)
    by (unfold kv, H; by rewrite list_lookup_insert_ne, Hc by lia).
  assert (Hstep : forall i, kv E (<[j := moved]> (<[slot := c]> h)) i =
            if decide (i = j) then tval E moved else if decide (i = slot) then kv E H j else kv E H i)
    by (intros; apply (kv_step E h n); lia || done).
  assert (Hmj : tv_le (tval E moved) (kv E H j)) by (rewrite Hjc; by apply tv_not_le).
  split; [intros i Hi Hne|intros i Hi Hpar Hj]; rewrite !Hstep; parent_facts i.
  - rewrite (decide_False (P := i = j)) by done.
    destruct (decide (i = slot)) as [->|His]; [by rewrite decide_True|].
    pose proof (Ho i Hi His) as Hi'.
    destruct (decide (HEAP_PARENT i = j)) as [Ej|_]; [rewrite Ej in Hi'; by etrans|].
    destruct (decide (HEAP_PARENT i = slot)) as [Es|_]; [|done].
    rewrite Es in Hi'. apply (Hg i Hi Es). lia.
  - parent_facts j. rewrite !decide_False by lia.
    pose proof (Ho j ltac:(lia) ltac:(lia)) as Hjj.
    destruct (decide (i = slot)) as [->|His]; [done|].
    pose proof (Ho i Hi His) as Hi'. rewrite Hpar in Hi'. by etrans.
Qed.

Lemma up_ok_done E h n slot moved :
  (n <= length h)%nat -> (slot < n)%nat ->
  (slot = 0%nat \/ tv_le (kv E (<[slot := moved]> h) (HEAP_PARENT slot)) (tval E moved)) ->
  up_ok E (<[slot := moved]> h) n slot -> ordered E (<[slot := moved]> h) n.
Proof.
  intros Hl Hs Hd [Ho _] i Hi. destruct (decide (i = slot)) as [->|His]; [|by apply Ho].
  destruct Hd as [->|Hd]; [lia|]. by rewrite kv_hole by lia.
Qed.

Lemma down_ok_step E h n slot j moved c :
  (n <= length h)%nat -> (slot < n)%nat -> (0 < j < n)%nat -> HEAP_PARENT j = slot ->
  h !! j = Some c -> ~ tv_le (tval E moved) (tval E c) ->
  (forall i, (0 < i < n)%nat -> HEAP_PARENT i = slot -> tv_le (tval E c) (kv E h i)) ->
  down_ok E (<[slot := moved]> h) n slot ->
  down_ok E (<[j := moved]> (<[slot := c]> h)) n j.
Proof.
  intros Hl Hs Hj Hpj Hc Hlt Hmin [Ho Hg]. parent_facts j.
  set (H := <[slot := moved]> h) in *.
  assert (HH : forall i, i <> slot -> kv E H i = kv E h i)
    by (intros i Hi; unfold kv, H; by rewrite list_lookup_insert_ne by done).
  assert (Hjc : kv E H j = tval E c) by (rewrite HH by lia; unfold kv; by rewrite Hc).
  assert (Hstep : forall i, kv E (<[j := moved]> (<[slot := c]> h)) i =
            if decide (i = j) then tval E moved else if decide (i = slot) then kv E H j else kv E H i)
    by (intros; apply (kv_step E h n); lia || done).
  split; [intros i Hi Hne|intros i Hi Hpar _]; rewrite !Hstep; parent_facts i.
  - rewrite (decide_False (P := HEAP_PARENT i = j)) by done.
    destruct (decide (i = j)) as [->|Hij].
    + rewrite Hpj, decide_True, Hjc by done. by apply tv_not_le.
    + destruct (decide (i = slot)) as [->|His].
      * rewrite decide_False by lia. apply (Hg j Hj Hpj). lia.
      * destruct (decide (HEAP_PARENT i = slot)) as [Es|Es]; [|by apply Ho].
        rewrite Hjc, HH by done. by apply Hmin.
  - rewrite Hpj, (decide_False (P := slot = j)), (decide_True (P := slot = slot)) by (done || lia).
    rewrite !decide_False by lia. rewrite <- Hpar. apply Ho; lia.
Qed.

Lemma down_ok_done E h n slot moved :
  (n <= length h)%nat -> (slot < n)%nat ->
  (forall i, (0 < i < n)%nat -> HEAP_PARENT i = slot -> tv_le (tval E moved) (kv E h i)) ->
  down_ok E (<[slot := moved]> h) n slot -> ordered E (<[slot := moved]> h) n.
Proof.
  intros Hl Hs Hd [Ho _] i Hi. parent_facts i.
  destruct (decide (HEAP_PARENT i = slot)) as [Es|Es]; [|by apply Ho].
  rewrite Es, kv_hole by lia. unfold kv at 1. rewrite list_lookup_insert_ne by lia.
  by apply Hd.
Qed.

(** A completed move: the node is in place, linked and in heap order. *)
Definition settled (n slot : nat) (moved : Z) (s s' : store) : Prop :=
  frame n slot moved s s' /\
  linked (entries s') (heap (ht s')) (timer_ids (ht s')) n n /\
  ordered (entries s') (heap (ht s')) n.

Lemma value_of_tval s p e : entries s !! p = Some e -> value_of s p = Some (tval (entries s) p).
Proof. intros He. unfold value_of, tval. by rewrite He. Qed.

Lemma hole_lookup E h ids n slot moved j :
  hole_inv E h ids n slot moved -> (j < n)%nat -> j <> slot ->
  exists c e, h !! j = Some c /\ E !! c = Some e /\ 0 <= te_timer_id e /\
              (Z.to_nat (te_timer_id e) < length ids)%nat.
Proof.
  intros Hh Hj Hne. destruct (hi_linked _ _ _ _ _ _ Hh j Hj Hne) as (c & Hc & (e & He & H1 & Hid)).
  exists c, e. split_and!; [done|done|lia|by eapply lookup_lt_Some].
Qed.

(** Filling the hole when the order is right there. *)
Lemma settle s n slot moved :
  hole_inv (entries s) (heap (ht s)) (timer_ids (ht s)) n slot moved ->
  ordered (entries s) (<[slot := moved]> (heap (ht s))) n ->
  exists s', copy_node s slot moved = Some s' /\ settled n slot moved s s'.
Proof.
  intros Hh Ho. pose proof Hh as Hh'. destruct Hh as [Hl Hs (e & He & H1 & Hlt) Hk Hf].
  exists (after_copy s slot moved e). split; [apply copy_node_step; (done || lia)|].
  split; [by apply frame_fill|]. split; [|done].
  simpl. by apply (hole_fill _ _ _ _ _ moved).
Qed.

Lemma settle_step s s' n slot j moved c e :
  hole_inv (entries s) (heap (ht s)) (timer_ids (ht s)) n slot moved ->
  (j < n)%nat -> j <> slot -> heap (ht s) !! j = Some c -> entries s !! c = Some e ->
  settled n j moved (after_copy s slot c e) s' -> settled n slot moved s s'.
Proof. intros ????? (Hf & ? & ?). split; [by eapply frame_step|done]. Qed.

Lemma reheap_up_spec fuel s moved slot n :
  (slot < fuel)%nat ->
  hole_inv (entries s) (heap (ht s)) (timer_ids (ht s)) n slot moved ->
  up_ok (entries s) (<[slot := moved]> (heap (ht s))) n slot ->
  exists s', reheap_up fuel s moved slot (HEAP_PARENT slot) = Some s' /\
             settled n slot moved s s'.
Proof.
  revert s slot. induction fuel as [|fuel IH]; intros s slot Hfuel Hh Hu; [lia|].
  cbn [reheap_up]. destruct (hi_moved _ _ _ _ _ _ Hh) as (em & Hem & _).
  pose proof (hi_len _ _ _ _ _ _ Hh) as Hlen. pose proof (hi_slot _ _ _ _ _ _ Hh) as Hsl.
  destruct (decide (0 < slot)%nat) as [Hs|Hs].
  2:{ apply settle; [done|]. apply up_ok_done; [done|done|left; lia|done]. }
  parent_facts slot.
  destruct (hole_lookup _ _ _ _ _ _ (HEAP_PARENT slot) Hh) as (c & e & Hc & He & He0 & Hel); [lia..|].
  rewrite Hc. simpl. rewrite (value_of_tval _ _ _ He), (value_of_tval _ _ _ Hem). simpl.
  destruct (PJ_TIME_VAL_LT_spec (tval (entries s) moved) (tval (entries s) c)) as [Hlt|Hlt].
  - rewrite (copy_node_step _ _ _ _ He) by (done || lia). simpl.
    destruct (IH (after_copy s slot c e) (HEAP_PARENT slot)) as (s' & Hs' & Hset).
    + lia.
    + simpl. eapply hole_step; eauto; lia.
    + simpl. apply up_ok_step; (done || lia).
    + exists s'. split; [exact Hs'|].
      apply (settle_step s s' n slot (HEAP_PARENT slot) moved c e); (done || lia).
  - apply settle; [done|]. apply up_ok_done; [done|done| |done]. right.
    unfold kv. rewrite list_lookup_insert_ne, Hc by lia. simpl.
    by apply tv_le_stable.
Qed.

Lemma child_spec i : HEAP_PARENT (HEAP_LEFT i) = i /\ HEAP_PARENT (HEAP_LEFT i + 1) = i.
Proof.
  unfold HEAP_LEFT. parent_facts (i + i + 1)%nat. parent_facts (i + i + 1 + 1)%nat. lia.
Qed.

Lemma smaller_child_spec s slot moved :
  hole_inv (entries s) (heap (ht s)) (timer_ids (ht s)) (cur_size (ht s)) slot moved ->
  (HEAP_LEFT slot < cur_size (ht s))%nat ->
  exists j, smaller_child s (HEAP_LEFT slot) = Some j /\ (0 < j < cur_size (ht s))%nat /\
    HEAP_PARENT j = slot /\
    forall i, (0 < i < cur_size (ht s))%nat -> HEAP_PARENT i = slot ->
      tv_le (kv (entries s) (heap (ht s)) j) (kv (entries s) (heap (ht s)) i).
Proof.
  intros Hh Hl. destruct (child_spec slot) as [P1 P2].
  assert (Hch : forall i, (0 < i)%nat -> HEAP_PARENT i = slot ->
            i = HEAP_LEFT slot \/ i = (HEAP_LEFT slot + 1)%nat)
    by (intros i Hi Hp; parent_facts i; unfold HEAP_LEFT; lia).
  assert (HL : (0 < HEAP_LEFT slot)%nat) by (unfold HEAP_LEFT; lia).
  assert (HLs : (slot < HEAP_LEFT slot)%nat) by (unfold HEAP_LEFT; lia).
  unfold smaller_child. destruct (decide _) as [Hr|Hr].
  - destruct (hole_lookup _ _ _ _ _ _ (HEAP_LEFT slot) Hh) as (c0 & e0 & Hc0 & He0 & _); [lia..|].
    destruct (hole_lookup _ _ _ _ _ _ (HEAP_LEFT slot + 1) Hh) as (c1 & e1 & Hc1 & He1 & _); [lia..|].
    rewrite Hc1. simpl. rewrite (value_of_tval _ _ _ He1). simpl.
    rewrite Hc0. simpl. rewrite (value_of_tval _ _ _ He0). simpl.
    destruct (PJ_TIME_VAL_LT_spec (tval (entries s) c1) (tval (entries s) c0)) as [Hlt|Hlt];
      eexists; (split_and!; [done|lia|lia|done|]);
      intros i Hi Hp; destruct (Hch i ltac:(lia) Hp) as [->| ->]; try done;
      unfold kv; rewrite Hc0, Hc1; simpl; [by apply tv_not_le|by apply tv_le_stable].
  - eexists. split_and!; [done|lia|lia|done|].
    intros i Hi Hp. destruct (Hch i ltac:(lia) Hp) as [->| ->]; [done|lia].
Qed.

Lemma reheap_down_spec fuel s moved slot :
  (cur_size (ht s) < slot + fuel)%nat ->
  hole_inv (entries s) (heap (ht s)) (timer_ids (ht s)) (cur_size (ht s)) slot moved ->
  down_ok (entries s) (<[slot := moved]> (heap (ht s))) (cur_size (ht s)) slot ->
  exists s', reheap_down fuel s moved slot (HEAP_LEFT slot) = Some s' /\
             settled (cur_size (ht s)) slot moved s s'.
Proof.
  revert s slot. induction fuel as [|fuel IH]; intros s slot Hfuel Hh Hd;
    pose proof (hi_len _ _ _ _ _ _ Hh) as Hlen; pose proof (hi_slot _ _ _ _ _ _ Hh) as Hsl; [lia|].
  cbn [reheap_down]. destruct (hi_moved _ _ _ _ _ _ Hh) as (em & Hem & _).
  destruct (decide _) as [Hs|Hs].
  2:{ apply settle; [done|]. apply down_ok_done; [done|done| |done].
      intros i Hi Hp. parent_facts i. unfold HEAP_LEFT in Hs. lia. }
  destruct (smaller_child_spec s slot moved Hh Hs) as (j & -> & Hj & Hpj & Hmin). simpl.
  parent_facts j.
  destruct (hole_lookup _ _ _ _ _ _ j Hh) as (c & e & Hc & He & He0 & Hel); [lia..|].
  rewrite Hc. simpl. rewrite (value_of_tval _ _ _ He), (value_of_tval _ _ _ Hem). simpl.
  assert (Hkc : kv (entries s) (heap (ht s)) j = tval (entries s) c) by (unfold kv; by rewrite Hc).
  rewrite Hkc in Hmin.
  destruct (PJ_TIME_VAL_LT_spec (tval (entries s) c) (tval (entries s) moved)) as [Hlt|Hlt].
  - rewrite (copy_node_step _ _ _ _ He) by (done || lia). simpl.
    destruct (IH (after_copy s slot c e) j) as (s' & Hs' & Hset).
    + simpl. lia.
    + simpl. eapply hole_step; eauto; lia.
    + simpl. by apply (down_ok_step _ _ _ slot); try lia.
    + exists s'. split; [exact Hs'|].
      apply (settle_step s s' _ slot j moved c e); (done || lia).
  - apply settle; [done|]. apply down_ok_done; [done|done| |done].
    intros i Hi Hp. etrans; [by apply tv_le_stable|]. by apply Hmin.
Qed.

(** ** The invariant of the whole structure *)

(** The free list threaded through [timer_ids]: [L] are its ids, in order. *)
Fixpoint chain (ids : list Z) (f : Z) (L : list Z) (stop : Z) : Prop :=
  match L with
  | [] => f = stop
  | x :: L' => f = x /\ 1 <= x /\
               exists v, ids !! Z.to_nat x = Some v /\ v < 0 /\ chain ids (- v) L' stop
  end.

Record heap_inv (s : store) : Prop := {
  hv_heap_len : length (heap (ht s)) = max_size (ht s);
  hv_ids_len : length (timer_ids (ht s)) = max_size (ht s);
  hv_room : (cur_size (ht s) + 2 <= max_size (ht s))%nat;
  hv_linked : linked (entries s) (heap (ht s)) (timer_ids (ht s)) (cur_size (ht s)) (cur_size (ht s));
  hv_ordered : ordered (entries s) (heap (ht s)) (cur_size (ht s));
  hv_sched : forall p e, entries s !! p = Some e -> 1 <= te_timer_id e ->
     exists i, (i < cur_size (ht s))%nat /\ heap (ht s) !! i = Some p;
  hv_zero : exists v, timer_ids (ht s) !! 0%nat = Some v /\ v < 0;
  hv_free : exists L, chain (timer_ids (ht s)) (timer_ids_freelist (ht s)) L (Z.of_nat (max_size (ht s)))
     /\ NoDup L /\ (forall x, x ∈ L -> x < Z.of_nat (max_size (ht s)))
     /\ (length L + cur_size (ht s) + 1 = max_size (ht s))%nat
}.

Lemma chain_neg ids f L stop x :
  chain ids f L stop -> x ∈ L -> 1 <= x /\ exists v, ids !! Z.to_nat x = Some v /\ v < 0.
Proof.
  revert f. induction L as [|y L IH]; intros f; [by intros _ ?%elem_of_nil|].
  intros (-> & Hy & v & Hv & Hneg & Hc) [->|Hx]%elem_of_cons; [eauto|by eapply IH].
Qed.

Lemma chain_ext ids ids' f L stop :
  (forall x, x ∈ L -> ids' !! Z.to_nat x = ids !! Z.to_nat x) ->
  chain ids f L stop -> chain ids' f L stop.
Proof.
  revert f. induction L as [|y L IH]; intros f He; [done|].
  intros (-> & Hy & v & Hv & Hneg & Hc). split_and!; [done..|].
  exists v. rewrite He by set_solver. split_and!; [done..|]. apply IH; [|done].
  intros x Hx. apply He. set_solver.
Qed.

Lemma chain_app ids f L1 L2 mid stop :
  chain ids f L1 mid -> chain ids mid L2 stop -> chain ids f (L1 ++ L2) stop.
Proof.
  revert f. induction L1 as [|y L IH]; intros f; [by intros ->|].
  intros (-> & Hy & v & Hv & Hneg & Hc) H2. simpl. eauto 10.
Qed.

Lemma chain_first ids f L stop : chain ids f L stop -> 1 <= stop -> 1 <= f.
Proof. destruct L as [|x L]; simpl; [lia|]. intros (-> & ? & _). lia. Qed.

(** Fresh ids [lo .. lo+n-1] as [pj_timer_heap_create] and [grow_heap] thread them. *)
Definition fresh_ids (lo n : nat) : list Z := map (fun i => - Z.of_nat (i + 1)) (seq lo n).

Lemma fresh_ids_lookup lo n i :
  (i < n)%nat -> fresh_ids lo n !! i = Some (- Z.of_nat (lo + i + 1)).
Proof.
  intros Hi. unfold fresh_ids. rewrite list_lookup_fmap, lookup_seq_lt by done. done.
Qed.

Lemma chain_fresh ids lo n :
  (1 <= lo)%nat ->
  (forall i, (i < n)%nat -> ids !! (lo + i)%nat = Some (- Z.of_nat (lo + i + 1))) ->
  chain ids (Z.of_nat lo) (Z.of_nat <$> seq lo n) (Z.of_nat (lo + n)).
Proof.
  revert lo. induction n as [|n IH]; intros lo Hlo Hi; simpl; [f_equal; lia|].
  split_and!; [done|lia|]. exists (- Z.of_nat (lo + 1)). rewrite Nat2Z.id.
  split_and!.
  - rewrite <- (Nat.add_0_r lo) at 1. rewrite Hi by lia. do 2 f_equal; lia.
  - lia.
  - rewrite Z.opp_involutive. replace (lo + S n)%nat with (S lo + n)%nat by lia.
    replace (lo + 1)%nat with (S lo) by lia. apply IH; [lia|].
    intros i Hi'. replace (S lo + i)%nat with (lo + S i)%nat by lia. apply Hi; lia.
Qed.

(** Nodes of the heap: different slots hold different entries with different ids,
    and none of them is on the free list. *)
Lemma linked_node E h ids n i p :
  linked E h ids n n -> (i < n)%nat -> h !! i = Some p -> node_at E ids i p.
Proof. intros Hl Hi Hp. destruct (Hl i Hi ltac:(lia)) as (p' & ? & ?). by simplify_eq. Qed.

Lemma linked_inj E h ids n i j p :
  linked E h ids n n -> (i < n)%nat -> (j < n)%nat -> h !! i = Some p -> h !! j = Some p -> i = j.
Proof. intros. eapply node_at_inj; eapply linked_node; eauto. Qed.

Lemma node_tid_ne E ids i j p q e e' :
  node_at E ids i p -> node_at E ids j q -> i <> j -> E !! p = Some e -> E !! q = Some e' ->
  Z.to_nat (te_timer_id e) <> Z.to_nat (te_timer_id e').
Proof.
  intros (e1 & He1 & _ & H1) (e2 & He2 & _ & H2) Hij ?? Heq. simplify_eq.
  rewrite Heq in H1. simplify_eq; lia.
Qed.

Lemma node_not_free E ids i p e f L stop x :
  node_at E ids i p -> E !! p = Some e -> chain ids f L stop -> x ∈ L ->
  Z.to_nat (te_timer_id e) <> Z.to_nat x.
Proof.
  intros (e1 & He1 & _ & H1) He Hc Hx Heq. simplify_eq.
  destruct (chain_neg _ _ _ _ _ Hc Hx) as (_ & v & Hv & Hneg).
  rewrite Heq, Hv in H1. simplify_eq; lia.
Qed.

Lemma tval_insert E p e e' q :
  E !! p = Some e -> te_value e' = te_value e -> tval (<[p := e']> E) q = tval E q.
Proof.
  intros He Hv. unfold tval. destruct (decide (p = q)) as [->|Hne].
  - rewrite lookup_insert_eq, He. by simpl.
  - by rewrite lookup_insert_ne.
Qed.

(** The free-list part of the invariant, for a given number of used ids. *)
Definition free_ok (ids : list Z) (f : Z) (used max : nat) (L : list Z) : Prop :=
  chain ids f L (Z.of_nat max) /\ NoDup L /\ (forall x, x ∈ L -> x < Z.of_nat max) /\
  (length L + used + 1 = max)%nat.

Definition resized (s : store) (n : nat) : store := with_ht s (set_cur_size (ht s) n).

Lemma resized_id s n : cur_size (ht s) = n -> resized s n = s.
Proof. destruct s as [[]]. simpl. by intros ->. Qed.

(** A completed move re-establishes the invariant for [n] nodes. *)
Lemma settled_inv s s' n slot moved L :
  hole_inv (entries s) (heap (ht s)) (timer_ids (ht s)) n slot moved ->
  settled n slot moved s s' ->
  length (heap (ht s)) = max_size (ht s) -> length (timer_ids (ht s)) = max_size (ht s) ->
  (n + 2 <= max_size (ht s))%nat ->
  (forall q e, entries s !! q = Some e -> 1 <= te_timer_id e -> elems (heap (ht s)) n slot moved q) ->
  (exists v, timer_ids (ht s) !! 0%nat = Some v /\ v < 0) ->
  free_ok (timer_ids (ht s)) (timer_ids_freelist (ht s)) n (max_size (ht s)) L ->
  (forall x q e, x ∈ L -> elems (heap (ht s)) n slot moved q -> entries s !! q = Some e ->
     Z.to_nat (te_timer_id e) <> Z.to_nat x) ->
  heap_inv (resized s' n).
Proof.
  intros Hh ([F1 F2 (hp & ids & F3 & F4 & F5) F6 F7] & Hlk & Ho) Hhl Hil Hroom Hs Hz
    (Hc & Hnd & Hb & Hn) Hfree.
  assert (Hel : forall q e, elems (heap (ht s)) n slot moved q -> entries s !! q = Some e ->
                  1 <= te_timer_id e).
  { intros q e [->|(i & Hi & Hne & Hq)] He.
    - destruct (hi_moved _ _ _ _ _ _ Hh) as (e' & ? & ? & _). by simplify_eq.
    - destruct (hi_linked _ _ _ _ _ _ Hh i Hi Hne) as (q' & ? & e' & ? & ? & _). by simplify_eq. }
  split; simpl in *; rewrite ?F3 in *; simpl in *; try done; try lia.
  - intros q e He H1. rewrite F1 in He. apply F6. eauto.
  - destruct Hz as (v & Hv & Hneg). exists v. split; [|done]. rewrite F7; [done|].
    intros q e Hq He. specialize (Hel q e Hq He). lia.
  - exists L. split_and!; [|done|done|lia]. apply (chain_ext (timer_ids (ht s))); [|done].
    intros x Hx. apply F7. intros q e Hq He. by apply (Hfree x q e).
Qed.

(** [remove_node] up to the point where the last node is moved. *)
Definition detached (s : store) (p : Z) (e : pj_timer_entry) : store :=
  with_entry (with_ht s (set_cur_size (set_ids (ht s)
     (<[Z.to_nat (te_timer_id e) := - timer_ids_freelist (ht s)]> (timer_ids (ht s)))
     (te_timer_id e)) (cur_size (ht s) - 1))) p (set_timer_id e (-1)).

Section Removing.
Context (s : store) (slot : nat) (p : Z) (e : pj_timer_entry).
Context (Hinv : heap_inv s) (Hslot : (slot < cur_size (ht s))%nat).
Context (Hp : heap (ht s) !! slot = Some p) (He : entries s !! p = Some e).

Let n := (cur_size (ht s) - 1)%nat.

Lemma removed_id :
  1 <= te_timer_id e /\ timer_ids (ht s) !! Z.to_nat (te_timer_id e) = Some (Z.of_nat slot).
Proof.
  destruct (linked_node _ _ _ _ _ _ (hv_linked _ Hinv) Hslot Hp) as (e' & ? & ? & ?).
  by simplify_eq.
Qed.

Lemma removed_push :
  push_freelist s (te_timer_id e) =
  Some (with_ht s (set_ids (ht s)
    (<[Z.to_nat (te_timer_id e) := - timer_ids_freelist (ht s)]> (timer_ids (ht s)))
    (te_timer_id e))).
Proof.
  destruct removed_id as [H1 Hid]. apply lookup_lt_Some in Hid.
  unfold push_freelist, zwrite, write. by rewrite !decide_True by (done || lia).
Qed.

(** The other nodes are untouched by the detachment. *)
Lemma detached_node i q :
  (i < cur_size (ht s))%nat -> i <> slot -> heap (ht s) !! i = Some q ->
  q <> p /\ node_at (entries (detached s p e)) (timer_ids (ht (detached s p e))) i q.
Proof.
  intros Hi Hne Hq. pose proof (linked_node _ _ _ _ _ _ (hv_linked _ Hinv) Hi Hq) as Hnd.
  pose proof (linked_node _ _ _ _ _ _ (hv_linked _ Hinv) Hslot Hp) as Hnp.
  assert (q <> p) as Hqp.
  { intros ->. apply Hne. by eapply node_at_inj. }
  split; [done|]. pose proof Hnd as (eq' & Heq & H1 & Hid).
  exists eq'. simpl. rewrite lookup_insert_ne by done. split_and!; [done..|].
  rewrite list_lookup_insert_ne; [done|].
  by apply (node_tid_ne (entries s) (timer_ids (ht s)) slot i p q).
Qed.

Lemma detached_sched q eq :
  entries (detached s p e) !! q = Some eq -> 1 <= te_timer_id eq ->
  exists i, (i < cur_size (ht s))%nat /\ i <> slot /\ heap (ht s) !! i = Some q.
Proof.
  simpl. intros Hq H1. destruct (decide (p = q)) as [<-|Hne].
  - rewrite lookup_insert_eq in Hq. simplify_eq/=. lia.
  - rewrite lookup_insert_ne in Hq by done.
    destruct (hv_sched _ Hinv q eq Hq H1) as (i & Hi & Hqi). exists i. split_and!; [done| |done].
    intros ->. by simplify_eq.
Qed.

Lemma detached_zero : exists v, timer_ids (ht (detached s p e)) !! 0%nat = Some v /\ v < 0.
Proof.
  destruct removed_id as [H1 _]. destruct (hv_zero _ Hinv) as (v & Hv & Hneg).
  exists v. simpl. rewrite list_lookup_insert_ne by lia. done.
Qed.

Lemma detached_free :
  exists L, free_ok (timer_ids (ht (detached s p e))) (timer_ids_freelist (ht (detached s p e)))
              n (max_size (ht s)) L /\
    forall x q i eq, x ∈ L -> (i < cur_size (ht s))%nat -> i <> slot -> heap (ht s) !! i = Some q ->
      entries (detached s p e) !! q = Some eq -> Z.to_nat (te_timer_id eq) <> Z.to_nat x.
Proof.
  destruct (hv_free _ Hinv) as (L & Hc & Hnd & Hb & Hlen). destruct removed_id as [H1 Hid].
  pose proof (linked_node _ _ _ _ _ _ (hv_linked _ Hinv) Hslot Hp) as Hnp.
  assert (Hnot : forall x, x ∈ L -> Z.to_nat (te_timer_id e) <> Z.to_nat x)
    by (intros x Hx; by eapply node_not_free).
  pose proof (lookup_lt_Some _ _ _ Hid) as Hlt. rewrite (hv_ids_len _ Hinv) in Hlt.
  exists (te_timer_id e :: L). split; [split_and!|].
  - simpl. split_and!; [done|done|]. exists (- timer_ids_freelist (ht s)).
    rewrite list_lookup_insert_eq by (rewrite (hv_ids_len _ Hinv); lia).
    pose proof (chain_first _ _ _ _ Hc ltac:(lia)). split_and!; [done|lia|].
    rewrite Z.opp_involutive. apply (chain_ext (timer_ids (ht s))); [|done].
    intros x Hx. rewrite list_lookup_insert_ne; [done|by apply Hnot].
  - constructor; [|done]. intros Hin. by apply (Hnot _ Hin).
  - intros x [->|Hx]%elem_of_cons; [lia|by apply Hb].
  - simpl. pose proof (hv_room _ Hinv). unfold n. lia.
  - intros x q i eq Hx Hi Hne Hq Heq.
    destruct (detached_node i q Hi Hne Hq) as [Hqp _].
    simpl in Heq. rewrite lookup_insert_ne in Heq by done.
    pose proof (linked_node _ _ _ _ _ _ (hv_linked _ Hinv) Hi Hq) as Hnq.
    apply elem_of_cons in Hx as [->|Hx].
    + by apply (node_tid_ne (entries s) (timer_ids (ht s)) i slot q p).
    + by eapply (node_not_free (entries s)).
Qed.
End Removing.

(** What removing the node [p] does to the rest of the structure. *)
Record removed_from (s s' : store) (p : Z) (e : pj_timer_entry) : Prop := {
  rm_inv : heap_inv s';
  rm_entries : entries s' = <[p := set_timer_id e (-1)]> (entries s);
  rm_refs : lock_refs s' = lock_refs s;
  rm_size : (cur_size (ht s') + 1 = cur_size (ht s))%nat;
  rm_max : max_size (ht s') = max_size (ht s) /\
           max_entries_per_poll (ht s') = max_entries_per_poll (ht s)
}.

Lemma detached_tval s p e q :
  entries s !! p = Some e -> tval (entries (detached s p e)) q = tval (entries s) q.
Proof. intros He. simpl. by apply (tval_insert _ _ e). Qed.

(** Removing the last node needs no move. *)
Lemma detached_last s p e n :
  heap_inv s -> (cur_size (ht s) = n + 1)%nat -> heap (ht s) !! n = Some p ->
  entries s !! p = Some e -> heap_inv (detached s p e).
Proof.
  intros Hinv Hn Hp He. assert (Hslot : (n < cur_size (ht s))%nat) by lia.
  destruct (detached_free s n p e Hinv Hslot Hp He) as (L & (Hc & Hnd & Hb & Hl) & _).
  pose proof (hv_heap_len _ Hinv). pose proof (hv_ids_len _ Hinv). pose proof (hv_room _ Hinv).
  split; simpl; try (rewrite ?length_insert; done || lia).
  - intros i Hi Hne. destruct (hv_linked _ Hinv i ltac:(lia) ltac:(lia)) as (q & Hq & _).
    exists q. split; [done|]. apply (detached_node s n p e Hinv Hslot Hp He); (done || lia).
  - intros i Hi. pose proof (hv_ordered _ Hinv i ltac:(lia)) as Ho.
    unfold kv in *. by rewrite !(tval_insert _ _ e).
  - intros q eq Hq Hq1. destruct (detached_sched s n p e Hinv Hslot Hp q eq Hq Hq1) as (i & Hi & Hne & Hqi).
    exists i. split; [lia|done].
  - by apply (detached_zero s n p e Hinv Hslot Hp He).
  - exists L. simpl in *. split_and!; [done|done|done|lia].
Qed.

(** Otherwise the last node goes to the freed slot, where it may violate the
    order upwards or downwards but not both. *)
Section RemovingInside.
Context (s : store) (slot n : nat) (p moved : Z) (e em : pj_timer_entry).
Context (Hinv : heap_inv s) (Hn : (cur_size (ht s) = n + 1)%nat) (Hslot : (slot < n)%nat).
Context (Hp : heap (ht s) !! slot = Some p) (He : entries s !! p = Some e).
Context (Hm : heap (ht s) !! n = Some moved) (Hem : entries (detached s p e) !! moved = Some em).

Let s4 := after_copy (detached s p e) slot moved em.

Lemma moved_node : moved <> p /\ node_at (entries (detached s p e)) (timer_ids (ht (detached s p e))) n moved.
Proof. apply (detached_node s slot p e Hinv ltac:(lia) Hp He); (done || lia). Qed.

Lemma inside_hole : hole_inv (entries s4) (heap (ht s4)) (timer_ids (ht s4)) n slot moved.
Proof.
  pose proof (hv_heap_len _ Hinv) as Hl. pose proof (hv_room _ Hinv) as Hr.
  destruct moved_node as [Hmp (em' & Hem' & H1 & Hid)]. simplify_eq.
  pose proof (lookup_lt_Some _ _ _ Hid) as Hlt.
  assert (Hother : forall i q, (i < n)%nat -> i <> slot -> heap (ht s) !! i = Some q ->
    exists eq, entries (detached s p e) !! q = Some eq /\ 1 <= te_timer_id eq /\
      timer_ids (ht (detached s p e)) !! Z.to_nat (te_timer_id eq) = Some (Z.of_nat i) /\
      Z.to_nat (te_timer_id eq) <> Z.to_nat (te_timer_id em)).
  { intros i q Hi Hne Hq.
    destruct (detached_node s slot p e Hinv ltac:(lia) Hp He i q ltac:(lia) Hne Hq) as [_ Hnd].
    pose proof Hnd as (eq & Heq & Hq1 & Hqi). exists eq. split_and!; [done..|].
    apply (node_tid_ne _ _ i n q moved _ _ Hnd); [|lia|done|done].
    exists em. done. }
  split; simpl.
  - rewrite length_insert. lia.
  - done.
  - exists em. split_and!; [done..|]. by rewrite length_insert.
  - intros i Hi Hne. destruct (hv_linked _ Hinv i ltac:(lia) ltac:(lia)) as (q & Hq & _).
    destruct (Hother i q Hi Hne Hq) as (eq & Heq & Hq1 & Hqi & Hd).
    exists q. split; [by rewrite list_lookup_insert_ne|].
    exists eq. split_and!; [done..|]. by rewrite list_lookup_insert_ne.
  - intros i q e1 e2 Hi Hne Hq H1q H2q. rewrite list_lookup_insert_ne in Hq by done.
    destruct (Hother i q Hi Hne Hq) as (eq & Heq & Hq1 & Hqi & Hd).
    simpl in Heq, Hem. simplify_eq. congruence.
Qed.

Lemma inside_kv i :
  kv (entries s4) (heap (ht s4)) i =
  if decide (i = slot) then tval (entries s) moved else kv (entries s) (heap (ht s)) i.
Proof.
  unfold kv, s4. simpl. rewrite (tval_insert _ _ e) by done.
  pose proof (hv_heap_len _ Hinv). pose proof (hv_room _ Hinv).
  case_decide as Hi; [subst; by rewrite list_lookup_insert_eq by lia|].
  by rewrite list_lookup_insert_ne.
Qed.

Lemma inside_grandparent : grandparent_ok (entries s4) (heap (ht s4)) n slot.
Proof.
  intros i Hi Hpar H0. parent_facts i. parent_facts slot.
  rewrite !inside_kv, !decide_False by lia.
  pose proof (hv_ordered _ Hinv i ltac:(lia)) as H1. rewrite Hpar in H1.
  etrans; [|exact H1]. apply (hv_ordered _ Hinv). lia.
Qed.

Lemma inside_down :
  tv_le (kv (entries s4) (heap (ht s4)) (HEAP_PARENT slot)) (tval (entries s) moved) ->
  down_ok (entries s4) (heap (ht s4)) n slot.
Proof.
  intros Hle. split; [|apply inside_grandparent].
  intros i Hi Hne. destruct (decide (i = slot)) as [->|His].
  - by rewrite (inside_kv slot), decide_True.
  - rewrite !inside_kv, !decide_False by done. apply (hv_ordered _ Hinv). lia.
Qed.

Lemma inside_up :
  ~ tv_le (kv (entries s4) (heap (ht s4)) (HEAP_PARENT slot)) (tval (entries s) moved) ->
  (0 < slot)%nat /\ up_ok (entries s4) (heap (ht s4)) n slot.
Proof.
  intros Hle. assert (H0 : (0 < slot)%nat).
  { destruct (decide (0 < slot)%nat) as [|H0]; [done|]. destruct Hle. rewrite inside_kv.
    replace (HEAP_PARENT slot) with slot by (destruct slot; [done|lia]). by rewrite decide_True. }
  split; [done|]. split; [|apply inside_grandparent].
  intros i Hi His. rewrite (inside_kv i), (decide_False (P := i = slot)) by done.
  pose proof (hv_ordered _ Hinv i ltac:(lia)) as H1.
  rewrite inside_kv. case_decide as Hpar; [|done]. rewrite Hpar in H1.
  parent_facts slot. rewrite inside_kv, decide_False in Hle by lia.
  etrans; [by apply tv_not_le|]. etrans; [|exact H1].
  apply (hv_ordered _ Hinv). lia.
Qed.
End RemovingInside.

(** Both moves of [remove_node] start from the same situation. *)
Lemma inside_settled s slot n p moved e em s5 :
  heap_inv s -> cur_size (ht s) = (n + 1)%nat -> (slot < n)%nat ->
  heap (ht s) !! slot = Some p -> entries s !! p = Some e ->
  heap (ht s) !! n = Some moved -> entries (detached s p e) !! moved = Some em ->
  settled n slot moved (after_copy (detached s p e) slot moved em) s5 ->
  removed_from s s5 p e.
Proof.
  intros Hinv Hn Hslot Hp He Hm Hem Hset. assert (Hsl : (slot < cur_size (ht s))%nat) by lia.
  pose proof (inside_hole s slot n p moved e em Hinv Hn Hslot Hp He Hm Hem) as Hh.
  pose proof (hv_heap_len _ Hinv) as Hl. pose proof (hv_ids_len _ Hinv) as Hil.
  pose proof (hv_room _ Hinv) as Hr.
  destruct (detached_free s slot p e Hinv Hsl Hp He) as (L & (Hc & Hnd & Hb & HL) & Hdis).
  destruct (detached_zero s slot p e Hinv Hsl Hp He) as (v & Hv & Hneg).
  pose proof (moved_node s slot n p moved e Hinv Hn Hslot Hp He Hm) as [Hmp (em' & Hem' & H1 & Hid)].
  simpl in Hem, Hem'. simplify_eq.
  assert (Hels : forall q, elems (heap (ht (after_copy (detached s p e) slot moved em))) n slot moved q ->
            exists i, (i < cur_size (ht s))%nat /\ i <> slot /\ heap (ht s) !! i = Some q).
  { intros q [->|(i & Hi & Hne & Hq)]; [exists n; split_and!; [lia..|done]|].
    simpl in Hq. rewrite list_lookup_insert_ne in Hq by done. exists i. split_and!; [lia..|done]. }
  assert (Hfree : forall x q eq, x ∈ L ->
     (exists i, (i < cur_size (ht s))%nat /\ i <> slot /\ heap (ht s) !! i = Some q) ->
     entries (detached s p e) !! q = Some eq -> Z.to_nat (te_timer_id eq) <> Z.to_nat x).
  { intros x q eq Hx (i & Hi & Hne & Hq). by apply (Hdis x q i). }
  pose proof Hset as ([F1 F2 (hp & ids & F3 & F4 & F5) F6 F7] & _). 
  assert (Hinv5 : heap_inv (resized s5 n)).
  { apply (settled_inv _ _ n slot moved L Hh Hset); simpl; rewrite ?length_insert; try (done || lia).
    - intros q eq Hq Hq1.
      destruct (detached_sched s slot p e Hinv Hsl Hp q eq Hq Hq1) as (i & Hi & Hne & Hqi).
      destruct (decide (i = n)) as [->|Hin]; [left; congruence|right].
      exists i. split_and!; [lia|done|by rewrite list_lookup_insert_ne].
    - exists v. split; [|done]. rewrite list_lookup_insert_ne by lia. done.
    - split_and!; [|done|done|lia]. apply (chain_ext _ _ _ _ _) with (2 := Hc).
      intros x Hx. simpl. rewrite list_lookup_insert_ne; [done|].
      apply (Hfree x moved em); [done| |done]. exists n. split_and!; [lia..|done].
    - intros x q eq Hx Hq Heq. apply (Hfree x q eq); [done|by apply Hels|done]. }
  rewrite resized_id in Hinv5 by (rewrite F3; simpl; lia).
  split; [done|by rewrite F1|by rewrite F2|rewrite F3; simpl; lia|by rewrite F3].
Qed.

Lemma remove_node_eq s slot p e :
  heap_inv s -> (slot < cur_size (ht s))%nat -> heap (ht s) !! slot = Some p ->
  entries s !! p = Some e ->
  remove_node s slot =
    let s3 := detached s p e in let n := (cur_size (ht s) - 1)%nat in
    if decide (slot < n)%nat then
      moved ← heap (ht s) !! n;
      s4 ← copy_node s3 slot moved;
      let parent := HEAP_PARENT slot in
      q ← heap (ht s4) !! parent; vp ← value_of s4 q; vm ← value_of s4 moved;
      s5 ← (if PJ_TIME_VAL_GTE vm vp then reheap_down (S n) s4 moved slot (HEAP_LEFT slot)
            else reheap_up (S n) s4 moved slot parent);
      Some (p, s5)
    else Some (p, s3).
Proof.
  intros Hinv Hsl Hp He. unfold remove_node. rewrite Hp. simpl. rewrite He. simpl.
  by rewrite (removed_push s slot p e Hinv Hsl Hp He).
Qed.

Lemma remove_node_spec s slot p e :
  heap_inv s -> (slot < cur_size (ht s))%nat -> heap (ht s) !! slot = Some p ->
  entries s !! p = Some e ->
  exists s', remove_node s slot = Some (p, s') /\ removed_from s s' p e.
Proof.
  intros Hinv Hsl Hp He. rewrite (remove_node_eq s slot p e) by done. cbv zeta.
  set (n := (cur_size (ht s) - 1)%nat).
  assert (Hn : cur_size (ht s) = (n + 1)%nat) by lia.
  destruct (decide (slot < n)%nat) as [Hin|Hin].
  2:{ eexists; split; [done|]. assert (slot = n) as -> by lia.
      split; [by eapply detached_last|done|done|simpl; lia|done]. }
  destruct (hv_linked _ Hinv n ltac:(lia) ltac:(lia)) as (moved & Hm & _).
  pose proof (moved_node s slot n p moved e Hinv Hn Hin Hp He Hm) as [Hmp (em & Hem & H1 & Hid)].
  pose proof (hv_heap_len _ Hinv) as Hl. pose proof (hv_room _ Hinv) as Hr.
  rewrite Hm. cbn [mbind option_bind].
  rewrite (copy_node_step (detached s p e) slot moved em Hem);
    [|simpl; lia|lia|by eapply lookup_lt_Some]. cbn [mbind option_bind].
  change (with_ht _ _) with (after_copy (detached s p e) slot moved em).
  set (s4 := after_copy (detached s p e) slot moved em).
  pose proof (inside_hole s slot n p moved e em Hinv Hn Hin Hp He Hm Hem) as Hh.
  pose proof (inside_kv s slot n p moved e em Hinv Hn Hin He) as Hkv.
  pose proof (inside_up s slot n p moved e em Hinv Hn Hin Hp He) as Hup.
  pose proof (inside_down s slot n p moved e em Hinv Hn Hin He) as Hdown.
  fold s4 in Hh, Hkv, Hup, Hdown.
  assert (Hfix : <[slot := moved]> (heap (ht s4)) = heap (ht s4))
    by (unfold s4; simpl; by rewrite list_insert_insert_eq).
  assert (Hpar : exists q eq, heap (ht s4) !! HEAP_PARENT slot = Some q /\ entries s4 !! q = Some eq).
  { destruct (decide (HEAP_PARENT slot = slot)) as [->|Hne].
    - exists moved, em. split; [|done]. unfold s4; simpl. apply list_lookup_insert_eq. lia.
    - destruct (decide (0 < slot)%nat); [|destruct slot; [done|lia]]. parent_facts slot.
      destruct (hole_lookup _ _ _ _ _ _ (HEAP_PARENT slot) Hh) as (q & eq & ? & ? & _); [lia|done|].
      eauto. }
  destruct Hpar as (q & eq & Hq & Heq). rewrite Hq. cbn [mbind option_bind].
  rewrite (value_of_tval s4 q eq Heq), (value_of_tval s4 moved em Hem). cbn [mbind option_bind].
  assert (Hkq : kv (entries s4) (heap (ht s4)) (HEAP_PARENT slot) = tval (entries s4) q)
    by (unfold kv; by rewrite Hq).
  assert (Htm : tval (entries s4) moved = tval (entries s) moved)
    by (unfold s4; simpl; by apply (tval_insert _ _ e)).
  assert (Hcs : cur_size (ht s4) = n) by done.
  rewrite Hkq, <- Htm in Hup, Hdown. rewrite <- Hfix in Hup, Hdown.
  destruct (PJ_TIME_VAL_GTE_spec (tval (entries s4) moved) (tval (entries s4) q)) as [Hle|Hle].
  - destruct (reheap_down_spec (S n) s4 moved slot) as (s5 & -> & Hset); 
      [rewrite Hcs; lia|by rewrite Hcs|rewrite Hcs; by apply Hdown|].
    eexists; split; [done|]. rewrite Hcs in Hset. by eapply inside_settled.
  - destruct (Hup Hle) as [_ Hu].
    destruct (reheap_up_spec (S n) s4 moved slot n) as (s5 & -> & Hset); [lia|done|done|].
    eexists; split; [done|]. by eapply inside_settled.
Qed.

(** ** Insertion *)

(** The state in which [insert_node] is called: the entry [p] has got its id
    from the free list and is not in the array yet. *)
Record ready (s : store) (p : Z) (e : pj_timer_entry) (L : list Z) : Prop := {
  rd_heap_len : length (heap (ht s)) = max_size (ht s);
  rd_ids_len : length (timer_ids (ht s)) = max_size (ht s);
  rd_linked : linked (entries s) (heap (ht s)) (timer_ids (ht s)) (cur_size (ht s)) (cur_size (ht s));
  rd_ordered : ordered (entries s) (heap (ht s)) (cur_size (ht s));
  rd_entry : entries s !! p = Some e /\ 1 <= te_timer_id e < Z.of_nat (max_size (ht s));
  rd_sched : forall q eq, q <> p -> entries s !! q = Some eq -> 1 <= te_timer_id eq ->
     exists i, (i < cur_size (ht s))%nat /\ heap (ht s) !! i = Some q;
  rd_zero : exists v, timer_ids (ht s) !! 0%nat = Some v /\ v < 0;
  rd_free : free_ok (timer_ids (ht s)) (timer_ids_freelist (ht s)) (cur_size (ht s) + 1)
              (max_size (ht s)) L;
  rd_own : forall x, x ∈ L -> Z.to_nat (te_timer_id e) <> Z.to_nat x;
  rd_own_node : forall i q eq, (i < cur_size (ht s))%nat -> heap (ht s) !! i = Some q ->
     entries s !! q = Some eq -> te_timer_id eq <> te_timer_id e
}.

Lemma ready_insert s p e L :
  ready s p e L -> (cur_size (ht s) + 3 <= max_size (ht s))%nat ->
  let n := cur_size (ht s) in
  exists s', reheap_up (S n) s p n (HEAP_PARENT n) = Some s' /\
    heap_inv (resized s' (n + 1)) /\ frame (n + 1) n p s s'.
Proof.
  intros [R1 R2 R3 R4 [R5 R5'] R6 R7 R8 R9 R10] Hroom n.
  assert (Hnode : forall i q, (i < n)%nat -> heap (ht s) !! i = Some q ->
            node_at (entries s) (timer_ids (ht s)) i q) by (intros; by eapply linked_node).
  assert (Hh : hole_inv (entries s) (heap (ht s)) (timer_ids (ht s)) (n + 1) n p).
  { split; [lia|lia|exists e; split_and!; [done|lia|lia]| |].
    - intros i Hi Hne. destruct (R3 i ltac:(lia) ltac:(lia)) as (q & ? & ?). eauto.
    - intros i q e1 e2 Hi Hne Hq He1 He2. simplify_eq. apply (R10 i q e1); [lia|done..]. }
  assert (Hu : up_ok (entries s) (<[n := p]> (heap (ht s))) (n + 1) n).
  { split; intros i Hi Hne; parent_facts i; [|lia].
    unfold kv. rewrite !list_lookup_insert_ne by lia. apply R4. lia. }
  destruct (reheap_up_spec (S n) s p n (n + 1) ltac:(lia) Hh Hu) as (s' & Hs' & Hset).
  exists s'. split_and!; [done| |apply Hset].
  apply (settled_inv s s' (n + 1) n p L Hh Hset); [done|done|lia| |done|done|].
  - intros q eq Hq Hq1. destruct (decide (q = p)) as [->|Hqp]; [by left|right].
    destruct (R6 q eq Hqp Hq Hq1) as (i & Hi & ?). exists i. split_and!; [lia..|done].
  - intros x q eq Hx [->|(i & Hi & Hne & Hq)] Heq; [simplify_eq; by apply R9|].
    eapply node_not_free; [apply (Hnode i q); [lia|done]|done|apply R8|done].
Qed.

Lemma fresh_app_lookup ids n i :
  length ids = n -> (i < n)%nat ->
  (ids ++ fresh_ids n n) !! (n + i)%nat = Some (- Z.of_nat (n + i + 1)).
Proof.
  intros Hl Hi. rewrite lookup_app_r by lia. replace (n + i - length ids)%nat with i by lia.
  by rewrite fresh_ids_lookup.
Qed.

(** Growing the arrays changes nothing but the room. *)
Lemma ready_grow junk s p e L :
  ready s p e L -> (1 <= max_size (ht s))%nat ->
  exists L', ready (with_ht s (grow_heap junk (ht s))) p e L'.
Proof.
  intros [R1 R2 R3 R4 [R5 R5'] R6 R7 (Rc & Rnd & Rb & Rl) R9 R10] Hmax.
  set (m := max_size (ht s)) in *.
  exists (L ++ (Z.of_nat <$> seq m m)).
  pose proof (length_seq m m) as Hsl.
  assert (Hlow : forall A (l l' : list A) i x, l !! i = Some x -> (l ++ l') !! i = Some x)
    by (intros; by apply lookup_app_l_Some).
  assert (Hheap : forall i q, (i < cur_size (ht s))%nat ->
     (heap (ht s) ++ resize m 0 junk) !! i = Some q -> heap (ht s) !! i = Some q).
  { intros i q Hi Hq. rewrite lookup_app_l in Hq; [done|].
    destruct (R3 i Hi ltac:(lia)) as (q' & Hq' & _). by apply lookup_lt_Some in Hq'. }
  split; simpl; fold m.
  - rewrite length_app, length_resize. lia.
  - rewrite length_app, length_map, Hsl. lia.
  - intros i Hi Hne. destruct (R3 i Hi Hne) as (q & Hq & eq & Heq & Hq1 & Hid).
    exists q. split; [by apply Hlow|]. exists eq. split_and!; [done|done|by apply Hlow].
  - intros i Hi. parent_facts i. destruct (R3 i ltac:(lia) ltac:(lia)) as (q & Hq & _).
    destruct (R3 (HEAP_PARENT i) ltac:(lia) ltac:(lia)) as (q' & Hq' & _).
    pose proof (R4 i Hi) as Ho. unfold kv in *. rewrite Hq, Hq' in Ho.
    by rewrite (Hlow _ _ _ _ _ Hq), (Hlow _ _ _ _ _ Hq').
  - split; [done|lia].
  - intros q eq Hne Hq Hq1. destruct (R6 q eq Hne Hq Hq1) as (i & Hi & Hqi). eauto.
  - destruct R7 as (v & Hv & Hneg). eauto.
  - split_and!.
    + eapply chain_app; [eapply chain_ext; [|exact Rc]|].
      * intros x Hx. destruct (chain_neg _ _ _ _ _ Rc Hx) as (_ & v & Hv & _).
        by rewrite Hv, (Hlow _ _ _ _ _ Hv).
      * replace (m * 2)%nat with (m + m)%nat by lia. apply chain_fresh; [lia|].
        intros i Hi. by apply (fresh_app_lookup (timer_ids (ht s)) m i).
    + apply NoDup_app. split_and!; [done| |by apply NoDup_fmap_2; [intros ???; lia|apply NoDup_seq]].
      intros x Hx (k & -> & Hk%elem_of_seq)%list_elem_of_fmap. specialize (Rb _ Hx). lia.
    + intros x [Hx|(k & -> & Hk%elem_of_seq)%list_elem_of_fmap]%elem_of_app; [specialize (Rb _ Hx)|]; lia.
    + rewrite length_app, length_fmap, Hsl. lia.
  - intros x [Hx|(k & -> & Hk%elem_of_seq)%list_elem_of_fmap]%elem_of_app; [by apply R9|lia].
  - intros i q eq Hi Hq Heq. by apply (R10 i q eq Hi); [apply Hheap|].
Qed.

(** What scheduling the entry [p] does. *)
Record added_to (s s' : store) (p : Z) (e' : pj_timer_entry) : Prop := {
  ad_inv : heap_inv s';
  ad_entries : entries s' = <[p := e']> (entries s);
  ad_id : 1 <= te_timer_id e';
  ad_refs : lock_refs s' = lock_refs s;
  ad_size : cur_size (ht s') = (cur_size (ht s) + 1)%nat;
  ad_max : max_entries_per_poll (ht s') = max_entries_per_poll (ht s)
}.

(** [pop_freelist] and the assignments of [schedule_entry]. *)
Lemma ready_popped s p e e' id L :
  heap_inv s -> entries s !! p = Some e -> te_timer_id e < 1 -> te_timer_id e' = id ->
  chain (timer_ids (ht s)) (timer_ids_freelist (ht s)) (id :: L) (Z.of_nat (max_size (ht s))) ->
  NoDup (id :: L) -> (forall x, x ∈ id :: L -> x < Z.of_nat (max_size (ht s))) ->
  (length (id :: L) + cur_size (ht s) + 1 = max_size (ht s))%nat ->
  exists s0, pop_freelist s = Some (id, s0) /\ entries s0 = entries s /\
    lock_refs s0 = lock_refs s /\ cur_size (ht s0) = cur_size (ht s) /\
    max_size (ht s0) = max_size (ht s) /\
    max_entries_per_poll (ht s0) = max_entries_per_poll (ht s) /\
    ready (with_entry s0 p e') p e' L.
Proof.
  intros Hinv He Hid Hide Hc Hnd Hb Hl. pose proof Hc as (Hf & Hid1 & v & Hv & Hneg & Hc').
  apply NoDup_cons in Hnd as [Hnin Hnd].
  unfold pop_freelist, zread. rewrite Hf, decide_True, Hv by lia. simpl.
  eexists; split_and!; [done..|].
  assert (Hnode : forall i q, (i < cur_size (ht s))%nat -> heap (ht s) !! i = Some q ->
            q <> p /\ node_at (entries s) (timer_ids (ht s)) i q).
  { intros i q Hi Hq. pose proof (linked_node _ _ _ _ _ _ (hv_linked _ Hinv) Hi Hq) as Hnq.
    split; [|done]. destruct Hnq as (e2 & ? & ? & _). intros ->. simplify_eq. lia. }
  assert (Hidlt : id < Z.of_nat (max_size (ht s))) by (apply Hb, elem_of_cons; by left).
  split; simpl; [apply Hinv|apply Hinv| | | | |apply Hinv| | |].
  - intros i Hi Hne. destruct (hv_linked _ Hinv i Hi Hne) as (q & Hq & eq & Heq & ? & ?).
    destruct (Hnode i q Hi Hq) as [Hqp _]. exists q. split; [done|]. exists eq.
    by rewrite lookup_insert_ne by done.
  - intros i Hi. parent_facts i. pose proof (hv_ordered _ Hinv i Hi) as Ho.
    destruct (hv_linked _ Hinv i ltac:(lia) ltac:(lia)) as (q & Hq & _).
    destruct (hv_linked _ Hinv (HEAP_PARENT i) ltac:(lia) ltac:(lia)) as (q' & Hq' & _).
    destruct (Hnode i q ltac:(lia) Hq) as [Hqp _].
    destruct (Hnode (HEAP_PARENT i) q' ltac:(lia) Hq') as [Hqp' _].
    unfold kv, tval in *. rewrite Hq, Hq' in *. simpl in *. by rewrite !lookup_insert_ne by done.
  - split; [by rewrite lookup_insert_eq|lia].
  - intros q eq Hne Hq Hq1. rewrite lookup_insert_ne in Hq by done. by eapply hv_sched.
  - split_and!; [done|done| |simpl in Hl; lia]. intros x Hx. apply Hb, elem_of_cons. by right.
  - intros x Hx Hxe. destruct (chain_neg _ _ _ _ _ Hc' Hx) as [? _].
    assert (x = id) as -> by lia. done.
  - intros i q eq Hi Hq Heq. destruct (Hnode i q Hi Hq) as [Hqp Hnd'].
    rewrite lookup_insert_ne in Heq by done.
    pose proof (node_not_free _ _ _ _ _ _ _ _ id Hnd' Heq Hc ltac:(apply elem_of_cons; by left)). lia.
Qed.

Lemma insert_node_spec junk s p e L :
  ready s p e L -> (cur_size (ht s) + 2 <= max_size (ht s))%nat ->
  exists s', insert_node junk s p = Some s' /\ heap_inv s' /\ entries s' = entries s /\
    lock_refs s' = lock_refs s /\ cur_size (ht s') = (cur_size (ht s) + 1)%nat /\
    max_entries_per_poll (ht s') = max_entries_per_poll (ht s).
Proof.
  intros Hr Hroom. unfold insert_node. set (s2 := if decide _ then _ else _).
  assert (exists L2, ready s2 p e L2 /\ (cur_size (ht s2) + 3 <= max_size (ht s2))%nat)
    as (L2 & Hr2 & Hroom2).
  { unfold s2. case_decide; [|exists L; split; [done|lia]].
    destruct (ready_grow junk s p e L Hr) as (L2 & HL2); [lia|].
    exists L2. split; [done|simpl; lia]. }
  assert (Hsame : entries s2 = entries s /\ lock_refs s2 = lock_refs s /\
     cur_size (ht s2) = cur_size (ht s) /\
     max_entries_per_poll (ht s2) = max_entries_per_poll (ht s))
    by (unfold s2; by case_decide).
  destruct Hsame as (E1 & E2 & E3 & E4).
  destruct (ready_insert s2 p e L2 Hr2 Hroom2) as (s3 & -> & Hinv3 & [F1 F2 (hp & ids & F3 & _) _ _]).
  simpl. eexists. split; [done|].
  assert (Hcs : cur_size (ht s3) = cur_size (ht s2)) by by rewrite F3.
  unfold resized in Hinv3. rewrite <- Hcs in Hinv3.
  split_and!; simpl; [done|congruence|congruence|lia|rewrite F3; simpl; congruence].
Qed.

Lemma schedule_entry_spec junk s p t e :
  heap_inv s -> entries s !! p = Some e -> te_timer_id e < 1 ->
  exists id s', schedule_entry junk s p t = Some (0, s') /\
    added_to s s' p (mk_te id t (te_id e) (te_cb e) (te_grp_lock e)).
Proof.
  intros Hinv He Hid. pose proof (hv_room _ Hinv) as Hroom.
  destruct (hv_free _ Hinv) as ([|id L] & Hc & Hnd & Hb & Hl); [simpl in Hl; lia|].
  set (e' := mk_te id t (te_id e) (te_cb e) (te_grp_lock e)).
  destruct (ready_popped s p e e' id L) as (s0 & Hpop & E0 & R0 & C0 & M0 & P0 & Hr); try done.
  destruct (insert_node_spec junk _ p e' L Hr) as (s' & Hs' & Hi & E1 & R1 & C1 & P1);
    [simpl; lia|].
  exists id, s'. split.
  - unfold schedule_entry. rewrite decide_True, Hpop by lia. simpl. rewrite E0, He. simpl.
    unfold e' in Hs'. by rewrite Hs'.
  - pose proof (rd_entry _ _ _ _ Hr) as [_ H1].
    split; simpl in *; [done|by rewrite E1, E0|lia|congruence|lia|congruence].
Qed.

(** ** The abstract view: which entries are armed, and for when *)

Definition armed (e : pj_timer_entry) : option pj_time_val :=
  if 1 <=? te_timer_id e then Some (te_value e) else None.

Definition view (s : store) : gmap Z pj_time_val := omap armed (entries s).

Lemma view_lookup s p : view s !! p = entries s !! p ≫= armed.
Proof. apply lookup_omap. Qed.

Lemma armed_Some e v : armed e = Some v <-> 1 <= te_timer_id e /\ te_value e = v.
Proof. unfold armed. destruct (Z.leb_spec 1 (te_timer_id e)); split.
  - by intros [= <-].
  - by intros [_ <-].
  - done.
  - lia.
Qed.

Lemma view_insert s s' p e :
  entries s' = <[p := e]> (entries s) ->
  view s' = match armed e with Some v => <[p := v]> (view s) | None => delete p (view s) end.
Proof.
  intros He. unfold view. rewrite He. apply map_eq. intros q.
  rewrite lookup_omap. destruct (decide (p = q)) as [->|Hne].
  - rewrite lookup_insert_eq. simpl. destruct (armed e); [by rewrite lookup_insert_eq|].
    by rewrite lookup_delete_eq.
  - rewrite lookup_insert_ne by done. destruct (armed e).
    + by rewrite lookup_insert_ne, lookup_omap.
    + by rewrite lookup_delete_ne, lookup_omap.
Qed.

(** Changing an entry without arming, disarming or moving it in time. *)
Definition same_timing (e e' : pj_timer_entry) : Prop :=
  (te_timer_id e' = te_timer_id e /\ te_value e' = te_value e) \/
  (te_timer_id e < 1 /\ te_timer_id e' < 1).

Lemma same_timing_armed e e' : same_timing e e' -> armed e' = armed e.
Proof. unfold armed. intros [[-> ->]|?]; [done|]. zbool; lia || done. Qed.

Lemma same_timing_view s p e e' :
  entries s !! p = Some e -> same_timing e e' -> view (with_entry s p e') = view s.
Proof.
  intros He Hs. apply map_eq. intros q. rewrite !view_lookup. simpl.
  destruct (decide (p = q)) as [->|Hne]; [|by rewrite lookup_insert_ne].
  rewrite lookup_insert_eq, He. simpl. by apply same_timing_armed.
Qed.

Lemma inv_with_entry s p e e' :
  heap_inv s -> entries s !! p = Some e -> same_timing e e' -> heap_inv (with_entry s p e').
Proof.
  intros Hinv He Hs.
  assert (Hnode : forall i q, (i < cur_size (ht s))%nat -> heap (ht s) !! i = Some q ->
     exists eq, <[p := e']> (entries s) !! q = Some eq /\ 1 <= te_timer_id eq /\
       timer_ids (ht s) !! Z.to_nat (te_timer_id eq) = Some (Z.of_nat i) /\
       tval (<[p := e']> (entries s)) q = tval (entries s) q).
  { intros i q Hi Hq.
    destruct (linked_node _ _ _ _ _ _ (hv_linked _ Hinv) Hi Hq) as (eq & Heq & H1 & Hid).
    destruct (decide (p = q)) as [->|Hne].
    - simplify_eq. destruct Hs as [[Hs1 Hs2]|?]; [|lia]. exists e'.
      rewrite lookup_insert_eq, Hs1. split_and!; [done..|]. by apply (tval_insert _ _ e).
    - exists eq. unfold tval. by rewrite lookup_insert_ne. }
  split; simpl; try apply Hinv.
  - intros i Hi Hne. destruct (hv_linked _ Hinv i Hi Hne) as (q & Hq & _).
    destruct (Hnode i q Hi Hq) as (eq & ? & ? & ? & _). exists q. split; [done|]. by exists eq.
  - intros i Hi. parent_facts i. pose proof (hv_ordered _ Hinv i Hi) as Ho.
    destruct (hv_linked _ Hinv i ltac:(lia) ltac:(lia)) as (q & Hq & _).
    destruct (hv_linked _ Hinv (HEAP_PARENT i) ltac:(lia) ltac:(lia)) as (q' & Hq' & _).
    destruct (Hnode i q ltac:(lia) Hq) as (_ & _ & _ & _ & Hv).
    destruct (Hnode (HEAP_PARENT i) q' ltac:(lia) Hq') as (_ & _ & _ & _ & Hv').
    unfold kv in *. rewrite Hq, Hq' in *. simpl in *. by rewrite Hv, Hv'.
  - intros q eq Hq Hq1. destruct (decide (p = q)) as [->|Hne].
    + rewrite lookup_insert_eq in Hq. simplify_eq. destruct Hs as [[Hs1 _]|?]; [|lia].
      apply (hv_sched _ Hinv q e He). lia.
    + rewrite lookup_insert_ne in Hq by done. by eapply hv_sched.
Qed.

(** Only [heap] and [entries] matter to the invariant. *)
Lemma inv_refs s s' : heap_inv s -> ht s' = ht s -> entries s' = entries s -> heap_inv s'.
Proof. intros [] Hh He. split; rewrite ?Hh, ?He; done. Qed.

Lemma ref_lock_same s l d : ht (ref_lock s l d) = ht s /\ entries (ref_lock s l d) = entries s.
Proof. by destruct l. Qed.

Lemma inv_ref_lock s l d : heap_inv s -> heap_inv (ref_lock s l d).
Proof. intros H. destruct (ref_lock_same s l d). by eapply inv_refs. Qed.

Lemma view_ref_lock s l d : view (ref_lock s l d) = view s.
Proof. unfold view. by destruct (ref_lock_same s l d) as [_ ->]. Qed.

(** ** The operations *)

Definition schedule_result (s : store) (p : Z) (e : pj_timer_entry) : Z :=
  if negb (te_cb e) then PJ_EINVAL
  else if 1 <=? te_timer_id e then PJ_EINVALIDOP else PJ_SUCCESS.

(** What an API call leaves alone. *)
Record api_frame (s s' : store) : Prop := {
  af_inv : heap_inv s';
  af_dom : dom (entries s') = dom (entries s);
  af_max : max_entries_per_poll (ht s') = max_entries_per_poll (ht s)
}.

Lemma api_frame_refl s : heap_inv s -> api_frame s s.
Proof. done. Qed.

Lemma api_frame_trans s1 s2 s3 : api_frame s1 s2 -> api_frame s2 s3 -> api_frame s1 s3.
Proof. intros [? ? ?] [? ? ?]. split; [done|congruence..]. Qed.

Lemma dom_insert_present {A} (m : gmap Z A) p x y :
  m !! p = Some x -> dom (<[p := y]> m) = dom m.
Proof. intros H. apply elem_of_dom_2 in H. rewrite dom_insert_L.
  apply subseteq_union_1_L. by apply singleton_subseteq_l.
Qed.

Lemma schedule_spec junk s p delay now sid id_val lock e :
  heap_inv s -> entries s !! p = Some e ->
  exists s', schedule_w_grp_lock junk s p delay now sid id_val lock = Some (schedule_result s p e, s') /\
    api_frame s s' /\
    if schedule_result s p e =? PJ_SUCCESS then
      exists tid, 1 <= tid /\
        entries s' = <[p := mk_te tid (PJ_TIME_VAL_ADD now delay)
                       (if sid then id_val else te_id e) (te_cb e) lock]> (entries s) /\
        lock_refs s' = lock_refs (ref_lock s lock 1)
    else s' = s.
Proof.
  intros Hinv He. unfold schedule_w_grp_lock, schedule_result. rewrite He. simpl.
  destruct (te_cb e) eqn:Hcb; simpl; [|eexists; split_and!; [done|by apply api_frame_refl|done]].
  destruct (Z.leb_spec 1 (te_timer_id e)) as [H1|H1];
    [eexists; split_and!; [done|by apply api_frame_refl|done]|].
  destruct (schedule_entry_spec junk s p (PJ_TIME_VAL_ADD now delay) e Hinv He H1)
    as (tid & s1 & -> & [Hi1 He1 Hid Hr1 Hs1 Hm1]). simpl in Hid |- *.
  rewrite He1, lookup_insert_eq. simpl. rewrite Hcb.
  set (e2 := set_grp_lock _ lock).
  assert (He2 : e2 = mk_te tid (PJ_TIME_VAL_ADD now delay) (if sid then id_val else te_id e) true lock)
    by (unfold e2; by destruct sid).
  eexists; split; [done|].
  destruct (ref_lock_same (with_entry s1 p e2) lock 1) as [R1 R2].
  split; [split|].
  - apply inv_ref_lock. eapply inv_with_entry; [done|by rewrite He1, lookup_insert_eq|].
    left. by rewrite He2.
  - rewrite R2. simpl. by rewrite He1, !(dom_insert_present _ p _ _ (lookup_insert_eq _ _ _)),
      (dom_insert_present _ p e _ He).
  - rewrite R1. simpl. done.
  - exists tid. split; [done|]. rewrite R2. simpl. rewrite He1, insert_insert_eq, He2.
    split; [done|]. destruct lock; simpl; by rewrite Hr1.
Qed.

Lemma cancel_spec s p e :
  heap_inv s -> entries s !! p = Some e ->
  exists s', cancel s p = Some (if 1 <=? te_timer_id e then 1 else 0, s') /\
    api_frame s s' /\ entries s' = <[p := set_timer_id e (-1)]> (entries s) /\
    lock_refs s' = lock_refs s.
Proof.
  intros Hinv He. unfold cancel. rewrite He. simpl.
  assert (Hquiet : te_timer_id e < 1 -> api_frame s (with_entry s p (set_timer_id e (-1)))).
  { intros Hid. split; [|simpl; by apply (dom_insert_present _ _ e)|done].
    eapply inv_with_entry; [done|done|]. right. simpl. lia. }
  destruct (Z.leb_spec 1 (te_timer_id e)) as [H1|H1].
  - destruct (hv_sched _ Hinv p e He H1) as (i & Hi & Hp).
    destruct (linked_node _ _ _ _ _ _ (hv_linked _ Hinv) Hi Hp) as (e' & He' & _ & Hid). simplify_eq.
    pose proof (lookup_lt_Some _ _ _ Hid) as Hlt. rewrite (hv_ids_len _ Hinv) in Hlt.
    rewrite decide_False by lia. unfold zread. rewrite decide_True, Hid by lia. simpl.
    rewrite decide_False, decide_True, Nat2Z.id, Hp by lia. simpl.
    rewrite decide_False by auto.
    destruct (remove_node_spec s i p e Hinv Hi Hp He) as (s' & -> & [R1 R2 R3 R4 [R5 R6]]).
    simpl. exists s'. split_and!; [done| |done|done].
    split; [done| |done]. rewrite R2. by apply (dom_insert_present _ _ e).
  - case_decide as Hb; [by eexists; split_and!; [|apply Hquiet; lia|..]|].
    destruct (hv_zero _ Hinv) as (v & Hv & Hneg).
    unfold zread. rewrite decide_True by lia. replace (te_timer_id e) with 0 by lia.
    change (Z.to_nat 0) with 0%nat. rewrite Hv. simpl. rewrite decide_True by lia.
    by eexists; split_and!; [|apply Hquiet; lia|..].
Qed.

Lemma cancel_timer_spec s p sid id_val e :
  heap_inv s -> entries s !! p = Some e ->
  exists s', cancel_timer s p sid id_val = Some (if 1 <=? te_timer_id e then 1 else 0, s') /\
    api_frame s s' /\
    entries s' = <[p := mk_te (-1) (te_value e) (if sid then id_val else te_id e) (te_cb e) None]>
                   (entries s) /\
    lock_refs s' = lock_refs (ref_lock s (te_grp_lock e) (-1)).
Proof.
  intros Hinv He. unfold cancel_timer.
  destruct (cancel_spec s p e Hinv He) as (s1 & -> & Hf & He1 & Hr1). simpl.
  rewrite He1, lookup_insert_eq. simpl.
  eexists; split; [done|].
  set (e1 := if sid then _ else _).
  destruct (ref_lock_same (with_entry s1 p (set_grp_lock e1 None)) (te_grp_lock e1) (-1)) as [R1 R2].
  assert (Hg : te_grp_lock e1 = te_grp_lock e) by (unfold e1; by destruct sid).
  split_and!.
  - apply (api_frame_trans _ _ _ Hf). split.
    + apply inv_ref_lock. eapply inv_with_entry; [apply Hf|by rewrite He1, lookup_insert_eq|].
      left. unfold e1. by destruct sid.
    + rewrite R2. simpl. rewrite He1. by rewrite (dom_insert_present _ p _ _ (lookup_insert_eq _ _ _)).
    + by rewrite R1.
  - rewrite R2. simpl. rewrite He1, insert_insert_eq. unfold e1. by destruct sid.
  - rewrite Hg. destruct (te_grp_lock e); simpl; by rewrite Hr1.
Qed.

(** ** Group-lock references *)

(** The entries that hold a reference on the group lock [k]. *)
Definition holders (s : store) (k : Z) : gmap Z pj_timer_entry :=
  filter (fun pe => te_grp_lock (snd pe) = Some k) (entries s).

(** Besides the references of the rest of the program, [base], a lock has one
    per entry that names it, and only armed entries name one. *)
Record lock_inv (base : Z -> Z) (s : store) : Prop := {
  lk_idle : forall p e, entries s !! p = Some e -> te_timer_id e < 1 -> te_grp_lock e = None;
  lk_refs : forall k, default 0 (lock_refs s !! k) = base k + Z.of_nat (size (holders s k))
}.

Definition holds (l : option Z) (k : Z) : Z := if decide (l = Some k) then 1 else 0.

Lemma size_filter_insert {A} (P : Z * A -> Prop) `{!forall x, Decision (P x)} (m : gmap Z A) p x :
  Z.of_nat (size (filter P (<[p := x]> m))) =
  Z.of_nat (size (filter P (delete p m))) + (if decide (P (p, x)) then 1 else 0).
Proof.
  rewrite map_filter_insert, map_filter_delete. case_decide; [|lia].
  rewrite <- insert_delete_eq, map_size_insert_None by apply lookup_delete_eq. lia.
Qed.

Lemma holders_insert s s' p e e' k :
  entries s !! p = Some e -> entries s' = <[p := e']> (entries s) ->
  Z.of_nat (size (holders s' k)) =
  Z.of_nat (size (holders s k)) - holds (te_grp_lock e) k + holds (te_grp_lock e') k.
Proof.
  intros He Hs'. unfold holders. rewrite Hs', size_filter_insert.
  rewrite <- (insert_id _ _ _ He) at 2. rewrite size_filter_insert.
  unfold holds. simpl. do 2 case_decide; lia.
Qed.

Lemma ref_lock_lookup s l d k :
  default 0 (lock_refs (ref_lock s l d) !! k) = default 0 (lock_refs s !! k) + d * holds l k.
Proof.
  unfold holds. destruct l as [j|]; simpl; [|lia]. case_decide as Hj; simplify_eq/=.
  - rewrite lookup_insert_eq. simpl. lia.
  - rewrite lookup_insert_ne by congruence. lia.
Qed.

(** The entry [p] is overwritten and the counters move by the difference. *)
Lemma lock_inv_update base base' s s' p e e' :
  lock_inv base s -> entries s !! p = Some e -> entries s' = <[p := e']> (entries s) ->
  (te_timer_id e' < 1 -> te_grp_lock e' = None) ->
  (forall k, default 0 (lock_refs s' !! k) - default 0 (lock_refs s !! k) =
             base' k - base k + holds (te_grp_lock e') k - holds (te_grp_lock e) k) ->
  lock_inv base' s'.
Proof.
  intros [L1 L2] He Hs' Hidle Hrefs. split.
  - intros q eq. rewrite Hs'. destruct (decide (p = q)) as [->|Hne].
    + rewrite lookup_insert_eq. intros [= <-]. done.
    + rewrite lookup_insert_ne by done. apply L1.
  - intros k. rewrite (holders_insert s s' p e e' k He Hs').
    specialize (Hrefs k). specialize (L2 k). lia.
Qed.

(** ** Commands of a callback *)

Definition cmd_entry (c : timer_cmd) : Z :=
  match c with
  | Cmd_schedule p _ _ | Cmd_schedule_w_grp_lock p _ _ _ _ | Cmd_cancel p
  | Cmd_cancel_if_active p _ => p
  end.

(** The command names an entry that exists. *)
Definition valid_cmd (s : store) (c : timer_cmd) : Prop := cmd_entry c ∈ dom (entries s).

Lemma schedule_safe junk s p delay now sid id_val lock base e :
  heap_inv s -> lock_inv base s -> entries s !! p = Some e ->
  exists r s', schedule_w_grp_lock junk s p delay now sid id_val lock = Some (r, s') /\
    api_frame s s' /\ lock_inv base s'.
Proof.
  intros Hinv Hl He.
  destruct (schedule_spec junk s p delay now sid id_val lock e Hinv He) as (s' & Hs' & Hf & Hr).
  eexists _, s'. split_and!; [done|done|]. unfold schedule_result in Hr.
  destruct (negb (te_cb e)); [by simpl in Hr; subst|].
  destruct (Z.leb_spec 1 (te_timer_id e)); [by simpl in Hr; subst|].
  destruct Hr as (tid & Htid & He' & Hrefs).
  eapply (lock_inv_update base base s); [done|done|exact He'|simpl; lia|].
  intros k. rewrite Hrefs, ref_lock_lookup, (lk_idle _ _ Hl p e) by done. simpl. unfold holds at 3. simpl. lia.
Qed.

Lemma cancel_safe s p sid id_val base e :
  heap_inv s -> lock_inv base s -> entries s !! p = Some e ->
  exists r s', cancel_timer s p sid id_val = Some (r, s') /\ api_frame s s' /\ lock_inv base s'.
Proof.
  intros Hinv Hl He.
  destruct (cancel_timer_spec s p sid id_val e Hinv He) as (s' & Hs' & Hf & He' & Hr).
  eexists _, s'. split_and!; [done|done|].
  eapply (lock_inv_update base base s); [done|done|exact He'|done|].
  intros k. rewrite Hr, ref_lock_lookup. unfold holds at 2. simpl. lia.
Qed.

Lemma run_cmd_safe junk s c base :
  heap_inv s -> lock_inv base s -> valid_cmd s c ->
  exists s', run_cmd junk s c = Some s' /\ api_frame s s' /\ lock_inv base s'.
Proof.
  intros Hinv Hl [e He]%elem_of_dom.
  destruct c as [p delay now|p delay now id l|p|p id]; simpl in He; unfold run_cmd.
  - destruct (schedule_safe junk s p delay now false 1 None base e) as (r & s' & Hs & ?); try done.
    exists s'. unfold pj_timer_heap_schedule. by rewrite Hs.
  - destruct (schedule_safe junk s p delay now true id l base e) as (r & s' & Hs & ?); try done.
    exists s'. unfold pj_timer_heap_schedule_w_grp_lock. by rewrite Hs.
  - destruct (cancel_safe s p false 0 base e) as (r & s' & Hs & ?); try done.
    exists s'. unfold pj_timer_heap_cancel. by rewrite Hs.
  - destruct (cancel_safe s p true id base e) as (r & s' & Hs & ?); try done.
    exists s'. unfold pj_timer_heap_cancel_if_active. by rewrite Hs.
Qed.

Lemma run_cmds_safe junk cs s base :
  heap_inv s -> lock_inv base s -> Forall (valid_cmd s) cs ->
  exists s', run_cmds junk s cs = Some s' /\ api_frame s s' /\ lock_inv base s'.
Proof.
  revert s. induction cs as [|c cs IH]; intros s Hinv Hl Hv; simpl.
  { exists s. by split_and!; [|apply api_frame_refl|]. }
  apply Forall_cons in Hv as [Hc Hv].
  destruct (run_cmd_safe junk s c base Hinv Hl Hc) as (s1 & -> & Hf1 & Hl1). simpl.
  destruct (IH s1) as (s2 & -> & Hf2 & Hl2); [apply Hf1|done| |].
  - eapply Forall_impl; [exact Hv|]. intros x. unfold valid_cmd. by rewrite (af_dom _ _ Hf1).
  - exists s2. split_and!; [done|by eapply api_frame_trans|done].
Qed.

(** ** The root is the earliest armed entry *)

Lemma ordered_root E h n i : ordered E h n -> (i < n)%nat -> tv_le (kv E h 0) (kv E h i).
Proof.
  intros Ho. induction (lt_wf i) as [i _ IH]. intros Hi.
  destruct (decide (0 < i)%nat) as [H0|H0]; [|by replace i with 0%nat by lia].
  parent_facts i. etrans; [apply (IH (HEAP_PARENT i)); lia|]. by apply Ho.
Qed.

Lemma view_node s p v :
  heap_inv s -> view s !! p = Some v <->
  exists i, (i < cur_size (ht s))%nat /\ heap (ht s) !! i = Some p /\ kv (entries s) (heap (ht s)) i = v.
Proof.
  intros Hinv. rewrite view_lookup. split.
  - intros (e & He & [H1 <-]%armed_Some)%bind_Some.
    destruct (hv_sched _ Hinv p e He H1) as (i & Hi & Hp). exists i. split_and!; [done..|].
    unfold kv, tval. by rewrite Hp; simpl; rewrite He.
  - intros (i & Hi & Hp & <-).
    destruct (linked_node _ _ _ _ _ _ (hv_linked _ Hinv) Hi Hp) as (e & He & H1 & _).
    rewrite He. simpl. apply armed_Some. split; [done|]. unfold kv, tval. by rewrite Hp; simpl; rewrite He.
Qed.

Lemma heap_root s :
  heap_inv s -> (0 < cur_size (ht s))%nat ->
  exists p e, heap (ht s) !! 0%nat = Some p /\ entries s !! p = Some e /\ 1 <= te_timer_id e /\
    value_of s p = Some (te_value e) /\ view s !! p = Some (te_value e) /\
    forall q v, view s !! q = Some v -> tv_le (te_value e) v.
Proof.
  intros Hinv Hn.
  destruct (hv_linked _ Hinv 0%nat Hn ltac:(lia)) as (p & Hp & e & He & H1 & _).
  exists p, e. split_and!; [done|done|done| | |].
  - unfold value_of. by rewrite He.
  - rewrite view_lookup, He. simpl. by apply armed_Some.
  - intros q v (i & Hi & Hq & <-)%view_node; [|done].
    replace (te_value e) with (kv (entries s) (heap (ht s)) 0)
      by (unfold kv, tval; by rewrite Hp; simpl; rewrite He).
    apply (ordered_root _ _ _ _ (hv_ordered _ Hinv) Hi).
Qed.

Lemma view_empty s : heap_inv s -> view s = ∅ <-> cur_size (ht s) = 0%nat.
Proof.
  intros Hinv. split.
  - intros Hv. destruct (decide (0 < cur_size (ht s))%nat) as [Hn|]; [|lia].
    destruct (heap_root s Hinv Hn) as (p & e & _ & _ & _ & _ & Hp & _).
    rewrite Hv, lookup_empty in Hp. done.
  - intros H0. apply map_eq. intros q. rewrite lookup_empty.
    destruct (view s !! q) eqn:Hq; [|done]. apply view_node in Hq as (i & ? & _); [lia|done].
Qed.

(** ** Polling *)

(** One iteration up to the callback. *)
Lemma poll_step s base :
  heap_inv s -> lock_inv base s -> (0 < cur_size (ht s))%nat ->
  exists p e s1, heap (ht s) !! 0%nat = Some p /\ entries s !! p = Some e /\
    value_of s p = Some (te_value e) /\ view s !! p = Some (te_value e) /\
    (forall q v, view s !! q = Some v -> tv_le (te_value e) v) /\
    remove_node s 0 = Some (p, s1) /\ entries s1 !! p = Some (set_timer_id e (-1)) /\
    let s2 := with_entry s1 p (set_grp_lock (set_timer_id e (-1)) None) in
    api_frame s s2 /\ view s2 = delete p (view s) /\
    lock_inv (fun k => base k + holds (te_grp_lock e) k) s2.
Proof.
  intros Hinv Hl Hn. destruct (heap_root s Hinv Hn) as (p & e & Hp & He & H1 & Hv & Hvp & Hmin).
  destruct (remove_node_spec s 0 p e Hinv Hn Hp He) as (s1 & Hs1 & [R1 R2 R3 R4 [R5 R6]]).
  assert (He1 : entries s1 !! p = Some (set_timer_id e (-1))) by by rewrite R2, lookup_insert_eq.
  exists p, e, s1. split_and!; try done.
  assert (Hent : entries (with_entry s1 p (set_grp_lock (set_timer_id e (-1)) None)) =
            <[p := set_grp_lock (set_timer_id e (-1)) None]> (entries s))
    by (simpl; by rewrite R2, insert_insert_eq).
  split_and!.
  - split; [|rewrite Hent; by apply (dom_insert_present _ _ e)|done].
    eapply inv_with_entry; [done|done|by left].
  - by rewrite (view_insert s _ _ _ Hent).
  - eapply (lock_inv_update base _ s); [done|done|exact Hent|done|].
    intros k. simpl. rewrite R3. unfold holds at 2. simpl. lia.
Qed.

Lemma lock_inv_release base s l :
  lock_inv (fun k => base k + holds l k) s -> lock_inv base (ref_lock s l (-1)).
Proof.
  intros [L1 L2]. destruct (ref_lock_same s l (-1)) as [_ He]. split; [by rewrite He|].
  intros k. rewrite ref_lock_lookup, L2. unfold holders. rewrite He. lia.
Qed.

Lemma api_frame_ref_lock s s' l d : api_frame s s' -> api_frame s (ref_lock s' l d).
Proof.
  intros [H1 H2 H3]. destruct (ref_lock_same s' l d) as [Hh He].
  split; [by apply inv_ref_lock|by rewrite He|by rewrite Hh].
Qed.

Lemma poll_loop_safe junk script fuel s now count base :
  heap_inv s -> lock_inv base s ->
  (forall p, Forall (valid_cmd s) (script p)) ->
  (max_entries_per_poll (ht s) <= fuel + count)%nat ->
  exists c s' fired, poll_loop junk script fuel s now count = Some (c, s', fired) /\
    api_frame s s' /\ lock_inv base s' /\ c = (count + length fired)%nat /\
    (length fired <= max_entries_per_poll (ht s) - count)%nat.
Proof.
  revert s count. induction fuel as [|fuel IH]; intros s count Hinv Hl Hs Hfuel;
    cbn [poll_loop]; (case_decide as H0;
      [exists count, s, []; split_and!; [done|by apply api_frame_refl|done|simpl; lia|simpl; lia]|]);
    destruct (poll_step s base Hinv Hl ltac:(lia))
      as (p & e & s1 & -> & He & Hv & Hvp & Hmin & Hrm & He1 & Hf & _ & Hl2);
    cbn [mbind option_bind]; rewrite Hv; cbn [mbind option_bind];
    (destruct (PJ_TIME_VAL_LTE (te_value e) now && bool_decide _) eqn:Hgo;
      [|exists count, s, []; split_and!; [done|by apply api_frame_refl|done|simpl; lia|simpl; lia]]);
    apply andb_true_iff in Hgo as [_ Hlt%bool_decide_eq_true]; [lia|].
  rewrite Hrm. cbn [mbind option_bind]. rewrite He1. cbn [mbind option_bind].
  set (s2 := with_entry _ _ _) in *.
  assert (Hv2 : Forall (valid_cmd s2) (script p)).
  { eapply Forall_impl; [apply Hs|]. intros c. unfold valid_cmd. by rewrite (af_dom _ _ Hf). }
  assert (exists s3, (if te_cb (set_timer_id e (-1)) then run_cmds junk s2 (script p) else Some s2) = Some s3 /\
            api_frame s2 s3 /\ lock_inv (fun k => base k + holds (te_grp_lock e) k) s3)
    as (s3 & -> & Hf3 & Hl3).
  { destruct (te_cb _); [apply run_cmds_safe; [apply Hf|done|done]|].
    exists s2. split_and!; [done|apply api_frame_refl, Hf|done]. }
  cbn [mbind option_bind].
  assert (Hf4 : api_frame s (ref_lock s3 (te_grp_lock e) (-1)))
    by (apply api_frame_ref_lock; by eapply api_frame_trans).
  destruct (IH (ref_lock s3 (te_grp_lock e) (-1)) (S count)) as (c & s5 & fired & Heq & Hf5 & Hl5 & Hc & Hlen).
  - apply Hf4.
  - by apply lock_inv_release.
  - intros q. eapply Forall_impl; [apply Hs|]. intros x. unfold valid_cmd. by rewrite (af_dom _ _ Hf4).
  - rewrite (af_max _ _ Hf4). lia.
  - simpl in Heq. simpl. rewrite Heq. cbn [mbind option_bind].
    rewrite (af_max _ _ Hf4) in Hlen.
    exists c, s5, (p :: fired). split_and!; [done|by eapply api_frame_trans|done|simpl; lia|simpl; lia].
Qed.

Lemma next_delay_spec s now :
  heap_inv s ->
  exists d, next_delay_of s now = Some d /\
    ((view s = ∅ /\ d = mk_tv PJ_MAXINT32 PJ_MAXINT32) \/
     exists p v, view s !! p = Some v /\ (forall q w, view s !! q = Some w -> tv_le v w) /\
       PJ_TIME_VAL_MSEC d = Z.max 0 (PJ_TIME_VAL_MSEC v - PJ_TIME_VAL_MSEC now)).
Proof.
  intros Hinv. unfold next_delay_of. case_decide as H0.
  { eexists; split; [done|]. left. split; [by apply view_empty|done]. }
  destruct (heap_root s Hinv ltac:(lia)) as (p & e & -> & He & H1 & Hv & Hvp & Hmin).
  simpl. rewrite Hv. simpl. eexists; split; [done|]. right. exists p, (te_value e). split_and!; [done..|].
  unfold PJ_TIME_VAL_SUB. set (v := te_value e). rewrite normalize_canonical.
  set (d := PJ_TIME_VAL_MSEC (mk_tv (sec v - sec now) (msec v - msec now))).
  replace (PJ_TIME_VAL_MSEC v - PJ_TIME_VAL_MSEC now) with d
    by (unfold d, PJ_TIME_VAL_MSEC; simpl; lia).
  simpl. pose proof (Z.quot_rem' d 1000).
  destruct (Z.le_gt_cases 0 d) as [Hd|Hd].
  - pose proof (Z.rem_bound_pos d 1000 ltac:(lia) ltac:(lia)).
    pose proof (Z.quot_pos d 1000 ltac:(lia) ltac:(lia)).
    destruct (Z.ltb_spec (Z.quot d 1000) 0), (Z.ltb_spec (Z.rem d 1000) 0); simpl;
      unfold PJ_TIME_VAL_MSEC; simpl; lia.
  - pose proof (Z.rem_bound_pos_neg d 1000 ltac:(lia) ltac:(lia)).
    destruct (Z.ltb_spec (Z.quot d 1000) 0), (Z.ltb_spec (Z.rem d 1000) 0); simpl;
      unfold PJ_TIME_VAL_MSEC; simpl; lia.
Qed.

(** ** Specification of a poll whose callbacks leave the heap alone *)

(** [fires now m l m']: from the armed entries [m], the entries [l] fire one
    after the other, each the earliest of those left and due at [now]. *)
Inductive fires (now : pj_time_val) : gmap Z pj_time_val -> list Z -> gmap Z pj_time_val -> Prop :=
  | fires_nil m : fires now m [] m
  | fires_cons m p v l m' :
      m !! p = Some v -> tv_le v now -> (forall q w, m !! q = Some w -> tv_le v w) ->
      fires now (delete p m) l m' -> fires now m (p :: l) m'.

Definition due (m : gmap Z pj_time_val) (p : Z) : pj_time_val := default (mk_tv 0 0) (m !! p).

Lemma fires_view now m l m' p :
  fires now m l m' -> m' !! p = if decide (p ∈ l) then None else m !! p.
Proof.
  induction 1 as [|m q v l m' Hq Hnow Hmin Hf IH]; [by rewrite decide_False by apply not_elem_of_nil|].
  rewrite IH. destruct (decide (p = q)) as [->|Hne].
  - rewrite (decide_True (P := q ∈ q :: l)) by (apply elem_of_cons; by left).
    case_decide; [done|]. apply lookup_delete_eq.
  - rewrite lookup_delete_ne by done. do 2 case_decide; try done; rewrite elem_of_cons in *; tauto.
Qed.

Lemma fires_armed now m l m' p :
  fires now m l m' -> p ∈ l -> exists v, m !! p = Some v /\ tv_le v now.
Proof.
  induction 1 as [|m q v l m' Hq Hnow Hmin Hf IH]; [by intros ?%elem_of_nil|].
  intros [->|Hp]%elem_of_cons; [eauto|]. destruct (IH Hp) as (w & Hw & ?).
  apply lookup_delete_Some in Hw as [_ Hw]. eauto.
Qed.

Lemma fires_nodup now m l m' : fires now m l m' -> NoDup l.
Proof.
  induction 1 as [|m q v l m' Hq Hnow Hmin Hf IH]; constructor; [|done].
  intros Hin. destruct (fires_armed _ _ _ _ _ Hf Hin) as (w & Hw & _).
  by rewrite lookup_delete_eq in Hw.
Qed.

Lemma fires_sorted now m l m' i j p q :
  fires now m l m' -> (i <= j)%nat -> l !! i = Some p -> l !! j = Some q ->
  tv_le (due m p) (due m q).
Proof.
  intros Hf. revert i j. induction Hf as [|m x v l m' Hx Hnow Hmin Hf IH]; intros i j Hij Hp Hq; [done|].
  pose proof (fires_nodup _ _ _ _ Hf) as _.
  assert (Hl : forall k y, l !! k = Some y -> exists w, delete x m !! y = Some w /\ due m y = w).
  { intros k y Hy%list_elem_of_lookup_2. destruct (fires_armed _ _ _ _ _ Hf Hy) as (w & Hw & _).
    exists w. split; [done|]. unfold due. apply lookup_delete_Some in Hw as [_ ->]. done. }
  assert (Hdx : due m x = v) by (unfold due; by rewrite Hx).
  destruct j as [|j]; simpl in Hq.
  { replace i with 0%nat in Hp by lia. simpl in Hp. by simplify_eq. }
  destruct (Hl j q Hq) as (wq & Hwq & Hdq). destruct i as [|i]; simpl in Hp.
  - injection Hp as ->. rewrite Hdx, Hdq. apply lookup_delete_Some in Hwq as [_ Hwq]. by eapply Hmin.
  - destruct (Hl i p Hp) as (wp & Hwp & Hdp). pose proof (IH i j ltac:(lia) Hp Hq) as Hle.
    unfold due in Hle at 1 2. rewrite Hwp, Hwq in Hle. simpl in Hle. by rewrite Hdp, Hdq.
Qed.

Lemma fires_before_rest now m l m' p q w :
  fires now m l m' -> p ∈ l -> m' !! q = Some w -> tv_le (due m p) w.
Proof.
  induction 1 as [|m x v l m' Hx Hnow Hmin Hf IH]; [by intros ?%elem_of_nil|].
  intros Hp Hq. pose proof (fires_view _ _ _ _ q Hf) as Hv. rewrite Hq in Hv.
  case_decide; [done|]. symmetry in Hv. pose proof Hv as [_ Hmq]%lookup_delete_Some.
  apply elem_of_cons in Hp as [->|Hp].
  - unfold due. rewrite Hx. by eapply Hmin.
  - destruct (fires_armed _ _ _ _ _ Hf Hp) as (wp & Hwp & _).
    pose proof (IH Hp Hq) as Hle. unfold due in *. rewrite Hwp in Hle.
    apply lookup_delete_Some in Hwp as [_ ->]. done.
Qed.

Lemma poll_loop_fires junk fuel s now count :
  heap_inv s -> (max_entries_per_poll (ht s) <= fuel + count)%nat ->
  (exists base, lock_inv base s) ->
  exists c s' fired, poll_loop junk (fun _ => []) fuel s now count = Some (c, s', fired) /\
    api_frame s s' /\ fires now (view s) fired (view s') /\ c = (count + length fired)%nat /\
    ((max_entries_per_poll (ht s) <= c)%nat \/ forall q w, view s' !! q = Some w -> ~ tv_le w now).
Proof.
  revert s count. induction fuel as [|fuel IH]; intros s count Hinv Hfuel [base Hl]; cbn [poll_loop];
    (case_decide as H0;
      [exists count, s, []; split_and!; [done|by apply api_frame_refl|constructor|simpl; lia|];
       right; intros q w; apply view_empty in H0 as ->; [by rewrite lookup_empty|done]|]);
    destruct (poll_step s base Hinv Hl ltac:(lia))
      as (p & e & s1 & -> & He & Hv & Hvp & Hmin & Hrm & He1 & Hf & Hview & Hl2);
    cbn [mbind option_bind]; rewrite Hv; cbn [mbind option_bind];
    destruct (PJ_TIME_VAL_LTE_spec (te_value e) now) as [Hle|Hle]; cbn [andb];
    try (exists count, s, []; split_and!; [done|by apply api_frame_refl|constructor|simpl; lia|];
         right; intros q w Hq Hw; apply Hle; etrans; [by eapply Hmin|done]);
    case_bool_decide as Hlt;
    try (exists count, s, []; split_and!; [done|by apply api_frame_refl|constructor|simpl; lia|]; left; lia);
    [lia|].
  rewrite Hrm. cbn [mbind option_bind]. rewrite He1. cbn [mbind option_bind].
  set (s2 := with_entry _ _ _) in *.
  replace (if te_cb _ then _ else _) with (Some s2) by (by destruct (te_cb _)).
  cbn [mbind option_bind]. set (s3 := ref_lock s2 _ (-1)).
  assert (Hf3 : api_frame s s3) by by apply api_frame_ref_lock.
  destruct (IH s3 (S count)) as (c & s4 & fired & -> & Hf4 & Hfi & Hc & Hd).
  - apply Hf3.
  - rewrite (af_max _ _ Hf3). lia.
  - exists base. by apply lock_inv_release.
  - cbn [mbind option_bind]. unfold s3 in Hfi. rewrite view_ref_lock, Hview in Hfi.
    rewrite (af_max _ _ Hf3) in Hd.
    exists c, s4, (p :: fired). split_and!; [done|by eapply api_frame_trans| |simpl; lia|done].
    by econstructor.
Qed.

(** ** Number of armed entries *)

Lemma view_size s : heap_inv s -> size (view s) = cur_size (ht s).
Proof.
  intros Hinv. pose proof (hv_heap_len _ Hinv) as Hl. pose proof (hv_room _ Hinv) as Hr.
  assert (Hlk : forall i p, take (cur_size (ht s)) (heap (ht s)) !! i = Some p <->
            (i < cur_size (ht s))%nat /\ heap (ht s) !! i = Some p)
    by (intros; rewrite lookup_take_Some; tauto).
  assert (Hdom : dom (view s) = list_to_set (take (cur_size (ht s)) (heap (ht s)))).
  { apply leibniz_equiv. intros p. rewrite elem_of_dom, elem_of_list_to_set, list_elem_of_lookup. split.
    - intros [v (i & Hi & Hp & _)%view_node]; [|done]. exists i. by apply Hlk.
    - intros (i & [Hi Hp]%Hlk). eexists. apply view_node; [done|]. eauto. }
  rewrite <- size_dom, Hdom, size_list_to_set.
  - rewrite length_take. lia.
  - apply NoDup_alt. intros i j p [Hi Hp]%Hlk [Hj Hq]%Hlk.
    by eapply linked_inj; [apply (hv_linked _ Hinv)|..].
Qed.

(** ** Creation, and programs using the heap *)

Lemma create_inv junk size es refs :
  (forall p e, es !! p = Some e -> te_timer_id e < 1) ->
  heap_inv (mk_st (pj_timer_heap_create junk size) es refs).
Proof.
  intros Hidle. unfold pj_timer_heap_create. set (n := (size + 2)%nat).
  assert (Hn : (2 <= n)%nat) by lia. clearbody n.
  assert (Hids : forall i, (i < n)%nat -> map (fun i => - Z.of_nat (i + 1)) (seq 0 n) !! i = Some (- Z.of_nat (i + 1)))
    by (intros; by apply (fresh_ids_lookup 0)).
  split; simpl; try lia.
  - apply length_resize.
  - by rewrite length_map, length_seq.
  - intros i; lia.
  - intros i; lia.
  - intros p e Hp H1. specialize (Hidle p e Hp). lia.
  - exists (-1). split; [|lia]. by rewrite Hids by lia.
  - exists (Z.of_nat <$> seq 1 (n - 1)). split_and!.
    + replace (Z.of_nat n) with (Z.of_nat (1 + (n - 1))) by lia. apply (chain_fresh _ 1); [lia|].
      intros i Hi. apply Hids. lia.
    + apply NoDup_fmap_2; [intros ???; lia|apply NoDup_seq].
    + intros x (k & -> & Hk%elem_of_seq)%list_elem_of_fmap. lia.
    + rewrite length_fmap, length_seq. lia.
Qed.

(** A program using the heap: API calls and polls, in any order. *)
Inductive heap_op :=
  | Op_cmd (c : timer_cmd)
  | Op_poll (script : Z -> list timer_cmd) (now : pj_time_val) (want_delay : bool).

Definition run_op (junk : list Z) (s : store) (o : heap_op) : option store :=
  match o with
  | Op_cmd c => run_cmd junk s c
  | Op_poll script now want =>
      '(_, _, s', _) ← pj_timer_heap_poll junk script s now want; Some s'
  end.

Fixpoint run_ops (junk : list Z) (s : store) (os : list heap_op) : option store :=
  match os with [] => Some s | o :: os' => s' ← run_op junk s o; run_ops junk s' os' end.

(** All the entries the operation names, its callbacks' included, exist. *)
Definition op_entries (D : gset Z) (o : heap_op) : Prop :=
  match o with
  | Op_cmd c => cmd_entry c ∈ D
  | Op_poll script _ _ => forall p, Forall (fun c => cmd_entry c ∈ D) (script p)
  end.

Lemma poll_safe junk script s now want base :
  heap_inv s -> lock_inv base s -> (forall p, Forall (valid_cmd s) (script p)) ->
  exists c d s' fired, pj_timer_heap_poll junk script s now want = Some (c, d, s', fired) /\
    api_frame s s' /\ lock_inv base s' /\ c = length fired /\
    (length fired <= max_entries_per_poll (ht s))%nat.
Proof.
  intros Hinv Hl Hs. unfold pj_timer_heap_poll.
  destruct (bool_decide _ && want).
  { eexists _, _, _, _. split_and!; [done|by apply api_frame_refl|done|done|simpl; lia]. }
  destruct (poll_loop_safe junk script (max_entries_per_poll (ht s)) s now 0 base)
    as (c & s' & fired & -> & Hf & Hl' & -> & Hlen); [done|done|done|lia|].
  simpl. destruct want.
  - destruct (next_delay_spec s' now) as (d & -> & _); [apply Hf|]. simpl.
    eexists _, _, _, _. split_and!; [done|done|done|done|lia].
  - eexists _, _, _, _. split_and!; [done|done|done|done|lia].
Qed.

Lemma run_op_safe junk s o base :
  heap_inv s -> lock_inv base s -> op_entries (dom (entries s)) o ->
  exists s', run_op junk s o = Some s' /\ api_frame s s' /\ lock_inv base s'.
Proof.
  intros Hinv Hl Ho. destruct o as [c|script now want]; simpl.
  - by apply run_cmd_safe.
  - destruct (poll_safe junk script s now want base Hinv Hl Ho) as (c & d & s' & f & -> & Hf & Hl' & _).
    simpl. by exists s'.
Qed.

Lemma run_ops_safe junk os s base :
  heap_inv s -> lock_inv base s -> Forall (op_entries (dom (entries s))) os ->
  exists s', run_ops junk s os = Some s' /\ heap_inv s' /\ lock_inv base s'.
Proof.
  revert s. induction os as [|o os IH]; intros s Hinv Hl Hd; simpl; [eauto|].
  apply Forall_cons in Hd as [Ho Hd].
  destruct (run_op_safe junk s o base Hinv Hl Ho) as (s' & -> & Hf & Hl'). simpl.
  apply (IH s'); [apply Hf|done|by rewrite (af_dom _ _ Hf)].
Qed.

Lemma create_lock_inv h es refs base :
  (forall p e, es !! p = Some e -> te_grp_lock e = None) ->
  (forall k, default 0 (refs !! k) = base k) -> lock_inv base (mk_st h es refs).
Proof.
  intros Hes Hrefs. split; simpl; [intros p e Hp _; by eapply Hes|].
  intros k. rewrite Hrefs. unfold holders. simpl.
  replace (filter _ es) with (∅ : gmap Z pj_timer_entry); [rewrite map_size_empty; lia|].
  symmetry. apply map_empty_filter_2. intros p e Hp. simpl. by rewrite (Hes p e Hp).
Qed.

(** A heap with three entries, two of them under the group lock 7; the initial
    size forces the arrays to grow. *)
Definition demo_entry : pj_timer_entry := pj_timer_entry_init (mk_te 0 (mk_tv 0 0) 0 false None) 0.
Definition demo_entries : gmap Z pj_timer_entry := {[ 10 := demo_entry; 20 := demo_entry; 30 := demo_entry ]}.
Definition demo_start : store := mk_st (pj_timer_heap_create [] 0) demo_entries ∅.
Definition demo_ops : list heap_op :=
  [ Op_cmd (Cmd_schedule_w_grp_lock 10 (mk_tv 5 500) (mk_tv 100 700) 1 (Some 7));
    Op_cmd (Cmd_schedule 20 (mk_tv 2 0) (mk_tv 101 0));
    Op_cmd (Cmd_schedule_w_grp_lock 30 (mk_tv 32 0) (mk_tv 101 0) 2 (Some 7)) ].
Definition demo_store : store := default demo_start (run_ops [] demo_start demo_ops).

Lemma demo_idle p e : demo_entries !! p = Some e -> te_timer_id e < 1 /\ te_grp_lock e = None.
Proof.
  unfold demo_entries. rewrite !lookup_insert_Some, lookup_singleton_Some.
  intros [[_ <-]|[_ [[_ <-]|[_ [_ <-]]]]]; done.
Qed.

Lemma demo_dom p : p = 10 \/ p = 20 \/ p = 30 -> p ∈ dom demo_entries.
Proof. unfold demo_entries. rewrite !dom_insert_L, dom_singleton_L. set_solver. Qed.

Lemma demo_valid o : o ∈ demo_ops -> op_entries (dom demo_entries) o.
Proof. unfold demo_ops. rewrite !elem_of_cons. intros [->|[->|[->|H]]];
  [apply demo_dom; simpl; tauto..|by apply not_elem_of_nil in H].
Qed.

Lemma demo_inv : heap_inv demo_store /\ lock_inv (fun _ => 0) demo_store.
Proof.
  destruct (run_ops_safe [] demo_ops demo_start (fun _ => 0)) as (s' & Hs & Hi & Hl).
  - apply create_inv. intros p e Hp. by apply (demo_idle p e).
  - apply create_lock_inv; [|done]. intros p e Hp. by apply (demo_idle p e).
  - apply Forall_forall. intros o Ho. apply demo_valid. done.
  - unfold demo_store. rewrite Hs. exact (conj Hi Hl).
Qed.

(** C36: a timer heap used through its API, with timer callbacks that schedule
    and cancel entries in the middle of a poll, never accesses an array out of
    bounds, never loops, keeps its invariant (heap order, [timer_ids] pointing
    back into the heap, the free list threaded through the unused ids), and
    holds exactly one reference on a group lock per entry scheduled with it. *)
Theorem heap_ops_safe junk n es refs os base :
  (forall p e, es !! p = Some e -> te_timer_id e < 1 /\ te_grp_lock e = None) ->
  (forall k, default 0 (refs !! k) = base k) ->
  Forall (op_entries (dom es)) os ->
  exists s', run_ops junk (mk_st (pj_timer_heap_create junk n) es refs) os = Some s' /\
    heap_inv s' /\
    forall k, default 0 (lock_refs s' !! k) = base k + Z.of_nat (size (holders s' k)).
Proof.
  intros Hes Hrefs Hos.
  destruct (run_ops_safe junk os (mk_st (pj_timer_heap_create junk n) es refs) base)
    as (s' & Hs & Hi & Hl).
  - apply create_inv. intros p e Hp. by destruct (Hes p e Hp).
  - apply create_lock_inv; [|done]. intros p e Hp. by destruct (Hes p e Hp).
  - done.
  - exists s'. split_and!; [done|done|apply Hl].
Qed.

Lemma heap_ops_safe_witness :
  exists s', run_ops [] demo_start (demo_ops ++ [Op_poll (fun p => if p =? 20 then
      [Cmd_cancel_if_active 10 0; Cmd_schedule 20 (mk_tv 60 0) (mk_tv 103 1)] else []) (mk_tv 103 0) true]) = Some s' /\
    heap_inv s' /\
    forall k, default 0 (lock_refs s' !! k) = 0 + Z.of_nat (size (holders s' k)).
Proof.
  apply (heap_ops_safe [] 0 demo_entries ∅ _ (fun _ => 0)).
  - exact demo_idle.
  - done.
  - apply Forall_app. split.
    + apply Forall_forall. exact demo_valid.
    + apply Forall_singleton. intros p. simpl. destruct (p =? 20);
        repeat constructor; apply demo_dom; simpl; tauto.
Defined.

(** Scheduling an entry refines insertion in the set of armed entries: a
    running entry is rejected with PJ_EINVALIDOP and one without callback with
    PJ_EINVAL, both leaving everything as it was; otherwise the entry is armed
    for [now + delay], with the given id and group lock, and no other entry
    changes. The heap grows when it is full, so scheduling never fails for
    lack of room. *)
Theorem schedule_refines junk s p delay now id_val lock e :
  heap_inv s -> entries s !! p = Some e ->
  exists r s', pj_timer_heap_schedule_w_grp_lock junk s p delay now id_val lock = Some (r, s') /\
    heap_inv s' /\
    (r = PJ_EINVAL /\ te_cb e = false /\ s' = s \/
     r = PJ_EINVALIDOP /\ te_cb e = true /\ is_Some (view s !! p) /\ s' = s \/
     r = PJ_SUCCESS /\ te_cb e = true /\ view s !! p = None /\
       view s' = <[p := PJ_TIME_VAL_ADD now delay]> (view s) /\
       (te_id <$> entries s' !! p) = Some id_val /\
       forall q, q <> p -> entries s' !! q = entries s !! q).
Proof.
  intros Hinv He. unfold pj_timer_heap_schedule_w_grp_lock.
  destruct (schedule_spec junk s p delay now true id_val lock e Hinv He) as (s' & -> & Hf & Hr).
  eexists _, s'. split; [done|]. split; [apply Hf|]. unfold schedule_result in *.
  rewrite view_lookup, He. simpl.
  destruct (te_cb e); simpl in *; [|by left]. right.
  unfold armed. destruct (Z.leb_spec 1 (te_timer_id e)); simpl in *; [left; split_and!; eauto|right].
  destruct Hr as (tid & Htid & Hent & _). split_and!; try done.
  - rewrite (view_insert s s' p _ Hent). unfold armed; simpl.
    by destruct (Z.leb_spec 1 tid); [|lia].
  - by rewrite Hent, lookup_insert_eq.
  - intros q Hq. by rewrite Hent, lookup_insert_ne.
Qed.

(** Cancelling an entry refines deletion from the set of armed entries; it
    reports 1 when the entry was armed and 0 when it was not, sets the id of
    the entry in both cases, and changes no other entry. *)
Theorem cancel_refines s p id_val e :
  heap_inv s -> entries s !! p = Some e ->
  exists s', pj_timer_heap_cancel_if_active s p id_val =
               Some (if decide (is_Some (view s !! p)) then 1 else 0, s') /\
    heap_inv s' /\ view s' = delete p (view s) /\
    (te_id <$> entries s' !! p) = Some id_val /\
    forall q, q <> p -> entries s' !! q = entries s !! q.
Proof.
  intros Hinv He. unfold pj_timer_heap_cancel_if_active.
  destruct (cancel_timer_spec s p true id_val e Hinv He) as (s' & -> & Hf & Hent & _).
  exists s'. split_and!.
  - rewrite view_lookup, He. simpl. unfold armed. destruct (Z.leb_spec 1 (te_timer_id e)).
    + by rewrite decide_True by eauto.
    + by rewrite decide_False by (intros [? ?]; done).
  - apply Hf.
  - by rewrite (view_insert s s' p _ Hent).
  - by rewrite Hent, lookup_insert_eq.
  - intros q Hq. by rewrite Hent, lookup_insert_ne.
Qed.

(** C37: a poll whose callbacks make no call of the heap fires distinct entries
    that were armed and due, in the order of their expiry times and before any
    entry it leaves armed; it leaves no due entry armed unless it has used up
    its budget of callbacks; the entries it does not fire stay armed; and the
    delay it reports is the time until the earliest of them. *)
Theorem poll_refines junk s now :
  heap_inv s -> (exists base, lock_inv base s) ->
  exists c d s' l, pj_timer_heap_poll junk (fun _ => []) s now true = Some (c, Some d, s', l) /\
    heap_inv s' /\ c = length l /\ NoDup l /\
    (forall p, p ∈ l -> exists v, view s !! p = Some v /\ tv_le v now) /\
    (forall i j p q, (i <= j)%nat -> l !! i = Some p -> l !! j = Some q ->
       tv_le (due (view s) p) (due (view s) q)) /\
    (forall p, view s' !! p = if decide (p ∈ l) then None else view s !! p) /\
    (forall p q w, p ∈ l -> view s' !! q = Some w -> tv_le (due (view s) p) w) /\
    ((max_entries_per_poll (ht s) <= c)%nat \/ forall q w, view s' !! q = Some w -> ~ tv_le w now) /\
    ((view s' = ∅ /\ d = mk_tv PJ_MAXINT32 PJ_MAXINT32) \/
     exists p v, view s' !! p = Some v /\ (forall q w, view s' !! q = Some w -> tv_le v w) /\
       PJ_TIME_VAL_MSEC d = Z.max 0 (PJ_TIME_VAL_MSEC v - PJ_TIME_VAL_MSEC now)).
Proof.
  intros Hinv Hl.
  assert (exists c d s' l, pj_timer_heap_poll junk (fun _ => []) s now true = Some (c, Some d, s', l) /\
     heap_inv s' /\ c = length l /\ fires now (view s) l (view s') /\ next_delay_of s' now = Some d /\
     ((max_entries_per_poll (ht s) <= c)%nat \/ forall q w, view s' !! q = Some w -> ~ tv_le w now))
    as (c & d & s' & l & -> & Hi & Hc & Hf & Hd & Hb).
  { unfold pj_timer_heap_poll. case_bool_decide as H0; simpl.
    - eexists _, _, s, []. split_and!; [done|done|done|constructor| |].
      + unfold next_delay_of. by rewrite decide_True.
      + right. intros q w. apply view_empty in H0 as ->; [by rewrite lookup_empty|done].
    - destruct (poll_loop_fires junk (max_entries_per_poll (ht s)) s now 0 Hinv ltac:(lia) Hl)
        as (c & s' & l & -> & Hfr & Hf & -> & Hb). simpl.
      destruct (next_delay_spec s' now) as (d & Hd & _); [apply Hfr|]. rewrite Hd. simpl.
      exists (length l), d, s', l. split_and!; [done|apply Hfr|done|done|done|done]. }
  destruct (next_delay_spec s' now Hi) as (d' & Hd' & Hdd). simplify_eq.
  eexists _, _, _, _. split_and!; [done|done|done|by eapply fires_nodup| | | | |done|done].
  - intros p. by eapply fires_armed.
  - intros i j p q. by apply (fires_sorted now _ _ (view s')).
  - intros p. by eapply fires_view.
  - intros p q w. by eapply fires_before_rest.
Qed.

(** The heap reports as earliest time the least expiry time of the armed
    entries, and PJ_ENOTFOUND exactly when there is none; its count is the
    number of armed entries. *)
Theorem earliest_time_refines s :
  heap_inv s ->
  pj_timer_heap_count s = size (view s) /\
  match pj_timer_heap_earliest_time s with
  | Some (r, None) => r = PJ_ENOTFOUND /\ view s = ∅
  | Some (r, Some v) => r = PJ_SUCCESS /\ (exists p, view s !! p = Some v) /\
      forall q w, view s !! q = Some w -> tv_le v w
  | None => False
  end.
Proof.
  intros Hinv. split; [by rewrite view_size|].
  unfold pj_timer_heap_earliest_time. case_decide as H0.
  - split; [done|]. by apply view_empty.
  - destruct (heap_root s Hinv ltac:(lia)) as (p & e & -> & He & H1 & Hv & Hvp & Hmin).
    simpl. rewrite Hv. simpl. eauto.
Qed.

Lemma schedule_refines_witness :
  exists r s', pj_timer_heap_schedule_w_grp_lock [] demo_start 10 (mk_tv 1 0) (mk_tv 5 0) 3 None = Some (r, s') /\
    heap_inv s' /\
    (r = PJ_EINVAL /\ te_cb demo_entry = false /\ s' = demo_start \/
     r = PJ_EINVALIDOP /\ te_cb demo_entry = true /\ is_Some (view demo_start !! 10) /\ s' = demo_start \/
     r = PJ_SUCCESS /\ te_cb demo_entry = true /\ view demo_start !! 10 = None /\
       view s' = <[10 := PJ_TIME_VAL_ADD (mk_tv 5 0) (mk_tv 1 0)]> (view demo_start) /\
       (te_id <$> entries s' !! 10) = Some 3 /\
       forall q, q <> 10 -> entries s' !! q = entries demo_start !! q).
Proof.
  apply (schedule_refines [] demo_start 10 _ _ 3 None demo_entry).
  - apply create_inv. intros p e Hp. by apply (demo_idle p e).
  - reflexivity.
Defined.

Lemma cancel_refines_witness :
  exists e, entries demo_store !! 10 = Some e /\
  exists s', pj_timer_heap_cancel_if_active demo_store 10 0 =
               Some (if decide (is_Some (view demo_store !! 10)) then 1 else 0, s') /\
    heap_inv s' /\ view s' = delete 10 (view demo_store) /\
    (te_id <$> entries s' !! 10) = Some 0 /\
    forall q, q <> 10 -> entries s' !! q = entries demo_store !! q.
Proof.
  eexists. split; [vm_compute; reflexivity|].
  eapply cancel_refines; [apply demo_inv|vm_compute; reflexivity].
Defined.

Lemma poll_refines_witness :
  exists c d s' l, pj_timer_heap_poll [] (fun _ => []) demo_store (mk_tv 103 100) true = Some (c, Some d, s', l) /\
    heap_inv s' /\ c = length l /\ NoDup l.
Proof.
  destruct (poll_refines [] demo_store (mk_tv 103 100)) as (c & d & s' & l & H1 & H2 & H3 & H4 & _).
  - apply demo_inv.
  - exists (fun _ => 0). apply demo_inv.
  - exists c, d, s', l. auto.
Defined.

Lemma earliest_time_refines_witness :
  pj_timer_heap_count demo_store = size (view demo_store).
Proof. apply earliest_time_refines, demo_inv. Defined.

(** The demonstration heap behaves as the theorems say: three entries armed,
    the one due at 103 fires first, and its lock count drops with it. *)
Example demo_poll :
  match pj_timer_heap_poll [] (fun _ => []) demo_store (mk_tv 107 0) true with
  | Some (c, d, s', l) => (c, d, l, lock_refs s' !! 7) = (2%nat, Some (mk_tv 26 0), [20; 10], Some 1)
  | None => False
  end.
Proof. vm_compute. reflexivity. Qed.
