(* ===== verification/SipTypes.v ===== *)
(** * Types shared by the transactions and the INVITE sessions

    Roles, methods and transaction states (pjsip/include/pjsip/sip_types.h,
    sip_msg.h, sip_transaction.h). *)

From S2P Require Import Prelude.

Inductive pjsip_role_e := PJSIP_ROLE_UAC | PJSIP_ROLE_UAS.

Inductive pjsip_method_e :=
  | PJSIP_INVITE_METHOD | PJSIP_CANCEL_METHOD | PJSIP_ACK_METHOD | PJSIP_BYE_METHOD
  | PJSIP_REGISTER_METHOD | PJSIP_OPTIONS_METHOD | PJSIP_OTHER_METHOD.

Inductive pjsip_tsx_state_e :=
  | PJSIP_TSX_STATE_NULL | PJSIP_TSX_STATE_CALLING | PJSIP_TSX_STATE_TRYING
  | PJSIP_TSX_STATE_PROCEEDING | PJSIP_TSX_STATE_COMPLETED | PJSIP_TSX_STATE_CONFIRMED
  | PJSIP_TSX_STATE_TERMINATED | PJSIP_TSX_STATE_DESTROYED.

#[global] Instance pjsip_role_eq_dec : EqDecision pjsip_role_e.
Proof. solve_decision. Defined.
#[global] Instance pjsip_method_eq_dec : EqDecision pjsip_method_e.
Proof. solve_decision. Defined.
#[global] Instance pjsip_tsx_state_eq_dec : EqDecision pjsip_tsx_state_e.
Proof. solve_decision. Defined.

Definition state_num (s : pjsip_tsx_state_e) : Z :=
  match s with
  | PJSIP_TSX_STATE_NULL => 0 | PJSIP_TSX_STATE_CALLING => 1 | PJSIP_TSX_STATE_TRYING => 2
  | PJSIP_TSX_STATE_PROCEEDING => 3 | PJSIP_TSX_STATE_COMPLETED => 4
  | PJSIP_TSX_STATE_CONFIRMED => 5 | PJSIP_TSX_STATE_TERMINATED => 6
  | PJSIP_TSX_STATE_DESTROYED => 7
  end.

(** [status_code/100 == code_class/100] *)
Definition PJSIP_IS_STATUS_IN_CLASS (code code_class : Z) : bool :=
  Z.quot code 100 =? Z.quot code_class 100.
