(* ===== verification/TsxData.v ===== *)
(** * Transactions: data (pjsip/src/pjsip/sip_transaction.c)

    The state of one transaction, the messages and transports it refers to, and
    the monad its operations run in.  A pointer that may be NULL is an option;
    [None] as the result of an operation is a NULL dereference or a call
    through a NULL handler.  Calls out of the transaction (to the transaction
    user and to the transport layer) are recorded in a log. *)

From S2P Require Import Prelude PjTime SipTypes.

(** ** Enumerations and constants *)

(** The values of the state handler pointer. *)
Inductive tsx_handler :=
  | tsx_on_state_null_h | tsx_on_state_calling_h | tsx_on_state_trying_h
  | tsx_on_state_proceeding_uas_h | tsx_on_state_proceeding_uac_h
  | tsx_on_state_completed_uas_h | tsx_on_state_completed_uac_h
  | tsx_on_state_confirmed_h | tsx_on_state_terminated_h | tsx_on_state_destroyed_h.

Definition tsx_state_handler_uac (s : pjsip_tsx_state_e) : option tsx_handler :=
  match s with
  | PJSIP_TSX_STATE_NULL => Some tsx_on_state_null_h
  | PJSIP_TSX_STATE_CALLING => Some tsx_on_state_calling_h
  | PJSIP_TSX_STATE_TRYING => None
  | PJSIP_TSX_STATE_PROCEEDING => Some tsx_on_state_proceeding_uac_h
  | PJSIP_TSX_STATE_COMPLETED => Some tsx_on_state_completed_uac_h
  | PJSIP_TSX_STATE_CONFIRMED => Some tsx_on_state_confirmed_h
  | PJSIP_TSX_STATE_TERMINATED => Some tsx_on_state_terminated_h
  | PJSIP_TSX_STATE_DESTROYED => Some tsx_on_state_destroyed_h
  end.

Definition tsx_state_handler_uas (s : pjsip_tsx_state_e) : option tsx_handler :=
  match s with
  | PJSIP_TSX_STATE_NULL => Some tsx_on_state_null_h
  | PJSIP_TSX_STATE_CALLING => None
  | PJSIP_TSX_STATE_TRYING => Some tsx_on_state_trying_h
  | PJSIP_TSX_STATE_PROCEEDING => Some tsx_on_state_proceeding_uas_h
  | PJSIP_TSX_STATE_COMPLETED => Some tsx_on_state_completed_uas_h
  | PJSIP_TSX_STATE_CONFIRMED => Some tsx_on_state_confirmed_h
  | PJSIP_TSX_STATE_TERMINATED => Some tsx_on_state_terminated_h
  | PJSIP_TSX_STATE_DESTROYED => Some tsx_on_state_destroyed_h
  end.

(** Transport flags *)
Definition TSX_HAS_PENDING_TRANSPORT : Z := 1.
Definition TSX_HAS_PENDING_RESCHED : Z := 2.
Definition TSX_HAS_PENDING_SEND : Z := 4.
Definition TSX_HAS_PENDING_DESTROY : Z := 8.
Definition TSX_HAS_RESOLVED_SERVER : Z := 16.

(** Timer ids *)
Definition TIMER_INACTIVE : Z := 0.
Definition RETRANSMIT_TIMER : Z := 1.
Definition TIMEOUT_TIMER : Z := 2.
Definition TRANSPORT_ERR_TIMER : Z := 3.

(** Flags of [tsx_set_state] *)
Definition NO_NOTIFY : Z := 1.
Definition NO_SCHEDULE_HANDLER : Z := 2.

Definition PJSIP_SC_TSX_TIMEOUT : Z := 408.
Definition PJSIP_SC_BAD_GATEWAY : Z := 502.
Definition PJSIP_SC_TSX_TRANSPORT_ERROR : Z := 503.
Definition PJSIP_ENOTREQUESTMSG : Z := 171021.
Definition PJSIP_ENOTRESPONSEMSG : Z := 171022.
Definition PJSIP_EINVALIDMETHOD : Z := 171055.
Definition PJLIB_UTIL_EDNS_NXDOMAIN : Z := 320053.
Definition PJSIP_TSX_1XX_RETRANS_DELAY : Z := 60.

(** ** Messages, transports, timers *)

(** A response also carries the method of its CSeq header. *)
Inductive pjsip_msg :=
  | Request (m : pjsip_method_e)
  | Response (code : Z) (cseq_method : pjsip_method_e).

Record pjsip_tx_data := mk_tdata {
  td_msg : pjsip_msg;
  td_ref : Z;             (* reference counter *)
  td_pending : bool;      (* is_pending *)
  td_mod : bool           (* mod_data[mod_tsx_layer.mod.id] = the transaction *)
}.

Record pjsip_rx_data := mk_rdata { rd_id : Z; rd_msg : pjsip_msg }.

Record pjsip_transport := mk_tp { tp_id : Z; tp_reliable : bool; tp_is_shutdown : bool }.

(** One of the two timer entries: its id and, while it is in the heap, the
    delay it was scheduled with. *)
Record tsx_timer := mk_timer { tm_id : Z; tm_due : option pj_time_val }.

Inductive timer_sel := Retransmit | Timeout.

(** The callbacks of the transaction user that are not NULL. *)
Record tsx_user_t := mk_user { has_on_rx_response : bool; has_on_tsx_state : bool }.

(** Values of pjsip_cfg()->tsx in milliseconds *)
Record tsx_cfg := mk_cfg { cfg_t1 : Z; cfg_t2 : Z; cfg_t4 : Z; cfg_td : Z }.

Inductive pjsip_event :=
  | Ev_rx_msg (rdata : pjsip_rx_data)
  | Ev_tx_msg (tdata : Z)
  | Ev_timer (entry : timer_sel).

(** The source of a state change given to [tsx_set_state]. *)
Inductive event_src :=
  | Src_timer (entry : timer_sel) | Src_rx (rdata : pjsip_rx_data) | Src_tx (tdata : Z)
  | Src_transport_error | Src_user | Src_unknown.

(** ** The transaction *)

Record pjsip_transaction := mk_tsx {
  role : pjsip_role_e;
  method : pjsip_method_e;
  state : pjsip_tsx_state_e;
  state_handler : option tsx_handler;
  status_code : Z;
  handle_200resp : bool;
  transport : option pjsip_transport;
  is_reliable : bool;
  addr_len : Z;
  res_transport : option pjsip_transport;
  res_addr_len : Z;
  transport_flag : Z;
  transport_err : Z;
  pending_tx : option Z;
  last_tx : option Z;
  retransmit_count : Z;
  retransmit_timer : tsx_timer;
  timeout_timer : tsx_timer;
  tsx_user : option tsx_user_t;
  terminating : bool;
  grp_ref : Z;
  registered : bool
}.

Definition set_state (v : pjsip_tsx_state_e) (t : pjsip_transaction) : pjsip_transaction :=
  mk_tsx (role t) (method t) v (state_handler t) (status_code t) (handle_200resp t)
    (transport t) (is_reliable t) (addr_len t) (res_transport t) (res_addr_len t)
    (transport_flag t) (transport_err t) (pending_tx t) (last_tx t) (retransmit_count
    t) (retransmit_timer t) (timeout_timer t) (tsx_user t) (terminating t) (grp_ref t)
    (registered t).
Definition set_state_handler (v : option tsx_handler) (t : pjsip_transaction) : pjsip_transaction :=
  mk_tsx (role t) (method t) (state t) v (status_code t) (handle_200resp t) (transport
    t) (is_reliable t) (addr_len t) (res_transport t) (res_addr_len t) (transport_flag
    t) (transport_err t) (pending_tx t) (last_tx t) (retransmit_count t)
    (retransmit_timer t) (timeout_timer t) (tsx_user t) (terminating t) (grp_ref t)
    (registered t).
Definition set_status_code (v : Z) (t : pjsip_transaction) : pjsip_transaction :=
  mk_tsx (role t) (method t) (state t) (state_handler t) v (handle_200resp t)
    (transport t) (is_reliable t) (addr_len t) (res_transport t) (res_addr_len t)
    (transport_flag t) (transport_err t) (pending_tx t) (last_tx t) (retransmit_count
    t) (retransmit_timer t) (timeout_timer t) (tsx_user t) (terminating t) (grp_ref t)
    (registered t).
Definition set_transport (v : option pjsip_transport) (t : pjsip_transaction) : pjsip_transaction :=
  mk_tsx (role t) (method t) (state t) (state_handler t) (status_code t)
    (handle_200resp t) v (is_reliable t) (addr_len t) (res_transport t) (res_addr_len
    t) (transport_flag t) (transport_err t) (pending_tx t) (last_tx t)
    (retransmit_count t) (retransmit_timer t) (timeout_timer t) (tsx_user t)
    (terminating t) (grp_ref t) (registered t).
Definition set_is_reliable (v : bool) (t : pjsip_transaction) : pjsip_transaction :=
  mk_tsx (role t) (method t) (state t) (state_handler t) (status_code t)
    (handle_200resp t) (transport t) v (addr_len t) (res_transport t) (res_addr_len t)
    (transport_flag t) (transport_err t) (pending_tx t) (last_tx t) (retransmit_count
    t) (retransmit_timer t) (timeout_timer t) (tsx_user t) (terminating t) (grp_ref t)
    (registered t).
Definition set_addr_len (v : Z) (t : pjsip_transaction) : pjsip_transaction :=
  mk_tsx (role t) (method t) (state t) (state_handler t) (status_code t)
    (handle_200resp t) (transport t) (is_reliable t) v (res_transport t) (res_addr_len
    t) (transport_flag t) (transport_err t) (pending_tx t) (last_tx t)
    (retransmit_count t) (retransmit_timer t) (timeout_timer t) (tsx_user t)
    (terminating t) (grp_ref t) (registered t).
Definition set_res_transport (v : option pjsip_transport) (t : pjsip_transaction) : pjsip_transaction :=
  mk_tsx (role t) (method t) (state t) (state_handler t) (status_code t)
    (handle_200resp t) (transport t) (is_reliable t) (addr_len t) v (res_addr_len t)
    (transport_flag t) (transport_err t) (pending_tx t) (last_tx t) (retransmit_count
    t) (retransmit_timer t) (timeout_timer t) (tsx_user t) (terminating t) (grp_ref t)
    (registered t).
Definition set_res_addr_len (v : Z) (t : pjsip_transaction) : pjsip_transaction :=
  mk_tsx (role t) (method t) (state t) (state_handler t) (status_code t)
    (handle_200resp t) (transport t) (is_reliable t) (addr_len t) (res_transport t) v
    (transport_flag t) (transport_err t) (pending_tx t) (last_tx t) (retransmit_count
    t) (retransmit_timer t) (timeout_timer t) (tsx_user t) (terminating t) (grp_ref t)
    (registered t).
Definition set_transport_flag (v : Z) (t : pjsip_transaction) : pjsip_transaction :=
  mk_tsx (role t) (method t) (state t) (state_handler t) (status_code t)
    (handle_200resp t) (transport t) (is_reliable t) (addr_len t) (res_transport t)
    (res_addr_len t) v (transport_err t) (pending_tx t) (last_tx t) (retransmit_count
    t) (retransmit_timer t) (timeout_timer t) (tsx_user t) (terminating t) (grp_ref t)
    (registered t).
Definition set_transport_err (v : Z) (t : pjsip_transaction) : pjsip_transaction :=
  mk_tsx (role t) (method t) (state t) (state_handler t) (status_code t)
    (handle_200resp t) (transport t) (is_reliable t) (addr_len t) (res_transport t)
    (res_addr_len t) (transport_flag t) v (pending_tx t) (last_tx t) (retransmit_count
    t) (retransmit_timer t) (timeout_timer t) (tsx_user t) (terminating t) (grp_ref t)
    (registered t).
Definition set_pending_tx (v : option Z) (t : pjsip_transaction) : pjsip_transaction :=
  mk_tsx (role t) (method t) (state t) (state_handler t) (status_code t)
    (handle_200resp t) (transport t) (is_reliable t) (addr_len t) (res_transport t)
    (res_addr_len t) (transport_flag t) (transport_err t) v (last_tx t)
    (retransmit_count t) (retransmit_timer t) (timeout_timer t) (tsx_user t)
    (terminating t) (grp_ref t) (registered t).
Definition set_last_tx (v : option Z) (t : pjsip_transaction) : pjsip_transaction :=
  mk_tsx (role t) (method t) (state t) (state_handler t) (status_code t)
    (handle_200resp t) (transport t) (is_reliable t) (addr_len t) (res_transport t)
    (res_addr_len t) (transport_flag t) (transport_err t) (pending_tx t) v
    (retransmit_count t) (retransmit_timer t) (timeout_timer t) (tsx_user t)
    (terminating t) (grp_ref t) (registered t).
Definition set_retransmit_count (v : Z) (t : pjsip_transaction) : pjsip_transaction :=
  mk_tsx (role t) (method t) (state t) (state_handler t) (status_code t)
    (handle_200resp t) (transport t) (is_reliable t) (addr_len t) (res_transport t)
    (res_addr_len t) (transport_flag t) (transport_err t) (pending_tx t) (last_tx t) v
    (retransmit_timer t) (timeout_timer t) (tsx_user t) (terminating t) (grp_ref t)
    (registered t).
Definition set_retransmit_timer (v : tsx_timer) (t : pjsip_transaction) : pjsip_transaction :=
  mk_tsx (role t) (method t) (state t) (state_handler t) (status_code t)
    (handle_200resp t) (transport t) (is_reliable t) (addr_len t) (res_transport t)
    (res_addr_len t) (transport_flag t) (transport_err t) (pending_tx t) (last_tx t)
    (retransmit_count t) v (timeout_timer t) (tsx_user t) (terminating t) (grp_ref t)
    (registered t).
Definition set_timeout_timer (v : tsx_timer) (t : pjsip_transaction) : pjsip_transaction :=
  mk_tsx (role t) (method t) (state t) (state_handler t) (status_code t)
    (handle_200resp t) (transport t) (is_reliable t) (addr_len t) (res_transport t)
    (res_addr_len t) (transport_flag t) (transport_err t) (pending_tx t) (last_tx t)
    (retransmit_count t) (retransmit_timer t) v (tsx_user t) (terminating t) (grp_ref
    t) (registered t).
Definition set_tsx_user (v : option tsx_user_t) (t : pjsip_transaction) : pjsip_transaction :=
  mk_tsx (role t) (method t) (state t) (state_handler t) (status_code t)
    (handle_200resp t) (transport t) (is_reliable t) (addr_len t) (res_transport t)
    (res_addr_len t) (transport_flag t) (transport_err t) (pending_tx t) (last_tx t)
    (retransmit_count t) (retransmit_timer t) (timeout_timer t) v (terminating t)
    (grp_ref t) (registered t).
Definition set_terminating (v : bool) (t : pjsip_transaction) : pjsip_transaction :=
  mk_tsx (role t) (method t) (state t) (state_handler t) (status_code t)
    (handle_200resp t) (transport t) (is_reliable t) (addr_len t) (res_transport t)
    (res_addr_len t) (transport_flag t) (transport_err t) (pending_tx t) (last_tx t)
    (retransmit_count t) (retransmit_timer t) (timeout_timer t) (tsx_user t) v
    (grp_ref t) (registered t).
Definition set_grp_ref (v : Z) (t : pjsip_transaction) : pjsip_transaction :=
  mk_tsx (role t) (method t) (state t) (state_handler t) (status_code t)
    (handle_200resp t) (transport t) (is_reliable t) (addr_len t) (res_transport t)
    (res_addr_len t) (transport_flag t) (transport_err t) (pending_tx t) (last_tx t)
    (retransmit_count t) (retransmit_timer t) (timeout_timer t) (tsx_user t)
    (terminating t) v (registered t).
Definition set_registered (v : bool) (t : pjsip_transaction) : pjsip_transaction :=
  mk_tsx (role t) (method t) (state t) (state_handler t) (status_code t)
    (handle_200resp t) (transport t) (is_reliable t) (addr_len t) (res_transport t)
    (res_addr_len t) (transport_flag t) (transport_err t) (pending_tx t) (last_tx t)
    (retransmit_count t) (retransmit_timer t) (timeout_timer t) (tsx_user t)
    (terminating t) (grp_ref t) v.

(** ** Calls out of the transaction *)

Inductive effect :=
  | E_on_rx_response (rdata : Z)
  | E_on_tsx_state (prev new : pjsip_tsx_state_e) (src : event_src)
  | E_transport_send (tp : Z) (tdata : Z)
  | E_send_request_stateless (tdata : Z)
  | E_send_response (tdata : Z)
  | E_create_ack (invite : Z) (rdata : Z)
  | E_transport_add_ref (tp : Z)
  | E_transport_dec_ref (tp : Z)
  | E_tpselector_dec_ref
  | E_unregister.

Record world := mk_world {
  w_tsx : pjsip_transaction;
  w_tds : gmap Z pjsip_tx_data;
  w_log : list effect;
  w_layer_up : bool           (* mod_tsx_layer.mod.id >= 0 *)
}.

(** ** The monad *)

Definition M (A : Type) : Type := world -> option (A * world).

Definition ret {A} (x : A) : M A := fun w => Some (x, w).
Definition bind {A B} (m : M A) (f : A -> M B) : M B := fun w =>
  match m w with Some (x, w') => f x w' | None => None end.

Declare Scope tsx_scope.
Notation "x ← y ; z" := (bind y (fun x => z))
  (at level 20, y at level 100, z at level 200, only parsing) : tsx_scope.
Notation "x ;; z" := (bind x (fun _ => z))
  (at level 100, z at level 200, only parsing, right associativity) : tsx_scope.
#[global] Open Scope tsx_scope.

Definition stuck {A} : M A := fun _ => None.
Definition get {A} (f : pjsip_transaction -> A) : M A := fun w => Some (f (w_tsx w), w).
Definition put (f : pjsip_transaction -> pjsip_transaction) : M unit := fun w =>
  Some (tt, mk_world (f (w_tsx w)) (w_tds w) (w_log w) (w_layer_up w)).
Definition log (e : effect) : M unit := fun w =>
  Some (tt, mk_world (w_tsx w) (w_tds w) (w_log w ++ [e]) (w_layer_up w)).
Definition layer_up : M bool := fun w => Some (w_layer_up w, w).
Definition skip : M unit := ret tt.

(** Dereferencing a [pjsip_tx_data] pointer *)
Definition td_get (td : Z) : M pjsip_tx_data := fun w =>
  match w_tds w !! td with Some d => Some (d, w) | None => None end.
Definition td_put (td : Z) (f : pjsip_tx_data -> pjsip_tx_data) : M unit := fun w =>
  match w_tds w !! td with
  | Some d => Some (tt, mk_world (w_tsx w) (<[td := f d]> (w_tds w)) (w_log w) (w_layer_up w))
  | None => None
  end.
Definition td_new (td : Z) (d : pjsip_tx_data) : M unit := fun w =>
  Some (tt, mk_world (w_tsx w) (<[td := d]> (w_tds w)) (w_log w) (w_layer_up w)).

Definition td_set_ref (d : pjsip_tx_data) (n : Z) : pjsip_tx_data :=
  mk_tdata (td_msg d) n (td_pending d) (td_mod d).
Definition td_set_mod (d : pjsip_tx_data) (b : bool) : pjsip_tx_data :=
  mk_tdata (td_msg d) (td_ref d) (td_pending d) b.

Definition pjsip_tx_data_add_ref (td : Z) : M unit := td_put td (fun d => td_set_ref d (td_ref d + 1)).
Definition pjsip_tx_data_dec_ref (td : Z) : M unit := td_put td (fun d => td_set_ref d (td_ref d - 1)).
Definition set_mod_data (td : Z) (b : bool) : M unit := td_put td (fun d => td_set_mod d b).

(** [p != NULL] and the dereference of a pointer just tested or known *)
Definition deref {A} (p : option A) : M A := match p with Some x => ret x | None => stuck end.

Definition when (b : bool) (m : M unit) : M unit := if b then m else skip.

(** ** Flags *)

Definition has_flag (flags f : Z) : bool := negb (Z.land flags f =? 0).
Definition set_flag (f : Z) : M unit := put (fun t => set_transport_flag (Z.lor (transport_flag t) f) t).
Definition clear_flag (f : Z) : M unit :=
  put (fun t => set_transport_flag (Z.land (transport_flag t) (Z.lnot f)) t).
Definition get_flag (f : Z) : M bool := get (fun t => has_flag (transport_flag t) f).
