(* ===== verification/TsxOps.v ===== *)
(** * Transactions: operations below the state handlers (sip_transaction.c)

    Timers, state changes, shutdown, transport binding, and sending with its
    two callbacks.  What the lower layers do during one event is the argument
    [send_env]: the result of pjsip_transport_send, and the reports
    pjsip_endpt_send_request_stateless / pjsip_endpt_send_response deliver
    through [send_msg_callback] before they return, with their own result.  A
    report also says what pjsip_transport_send answers if the callback sends
    the pending message at once.  Group-lock acquire and release are balanced
    and have no other effect here; pj_assert is a no-op and PJ_ASSERT_RETURN
    returns. *)

From S2P Require Import Prelude PjTime SipTypes TsxData.

Record send_report := mk_report {
  sr_sent : Z;                              (* sent *)
  sr_transport : option pjsip_transport;    (* send_state->cur_transport *)
  sr_addr_len : Z;                          (* length of the address in use *)
  sr_cont : bool;                           (* *cont: there is a next address *)
  sr_resend : Z                             (* see above *)
}.

Record send_env := mk_env {
  env_send : Z;
  env_reports : list send_report;
  env_status : Z;
  env_ack : Z + Z        (* pjsip_endpt_create_ack: error, or the new tdata *)
}.

Definition tv_zero : pj_time_val := mk_tv 0 0.
Definition tv_of_ms (ms : Z) : pj_time_val := mk_tv (ms / 1000) (ms mod 1000).

Definition tp_same (a b : option pjsip_transport) : bool :=
  match a, b with
  | Some x, Some y => tp_id x =? tp_id y
  | None, None => true
  | _, _ => false
  end.

(** ** Timers *)

Definition grp_lock_ref (d : Z) : M unit := put (fun t => set_grp_ref (grp_ref t + d) t).

Definition timer_of (entry : timer_sel) (t : pjsip_transaction) : tsx_timer :=
  match entry with Retransmit => retransmit_timer t | Timeout => timeout_timer t end.
Definition set_timer (entry : timer_sel) (v : tsx_timer) (t : pjsip_transaction) : pjsip_transaction :=
  match entry with Retransmit => set_retransmit_timer v t | Timeout => set_timeout_timer v t end.

Definition pj_timer_entry_running (v : tsx_timer) : bool :=
  match tm_due v with Some _ => true | None => false end.

(** pj_timer_heap_schedule_w_grp_lock *)
Definition tsx_schedule_timer (entry : timer_sel) (delay : pj_time_val) (active_id : Z) : M Z :=
  v ← get (timer_of entry);
  if pj_timer_entry_running v then ret PJ_EINVALIDOP
  else put (set_timer entry (mk_timer active_id (Some delay))) ;; grp_lock_ref 1 ;; ret PJ_SUCCESS.

(** pj_timer_heap_cancel_if_active with TIMER_INACTIVE *)
Definition tsx_cancel_timer (entry : timer_sel) : M Z :=
  v ← get (timer_of entry);
  put (set_timer entry (mk_timer TIMER_INACTIVE None)) ;;
  if pj_timer_entry_running v then grp_lock_ref (-1) ;; ret 1 else ret 0.

Definition cancel_timer_ (entry : timer_sel) : M unit := _ ← tsx_cancel_timer entry; skip.
Definition schedule_timer_ (entry : timer_sel) (delay : pj_time_val) (active_id : Z) : M unit :=
  _ ← tsx_schedule_timer entry delay active_id; skip.

(** ** Transport binding *)

Definition tsx_tp_state_callback (info_status : Z) : M unit :=
  put (set_transport_err info_status) ;;
  cancel_timer_ Timeout ;;
  schedule_timer_ Timeout tv_zero TRANSPORT_ERR_TIMER.

Definition tsx_update_transport (tp : option pjsip_transport) : M unit :=
  old ← get transport;
  match old with
  | Some o => log (E_transport_dec_ref (tp_id o)) ;; put (set_transport None)
  | None => skip
  end ;;
  match tp with
  | Some n =>
      put (set_transport (Some n)) ;; log (E_transport_add_ref (tp_id n)) ;;
      when (tp_is_shutdown n) (tsx_tp_state_callback PJSIP_SC_TSX_TRANSPORT_ERROR)
  | None => skip
  end.

(** ** Shutdown and state changes *)

Definition mod_tsx_layer_unregister_tsx : M unit :=
  up ← layer_up;
  when up (log E_unregister ;; put (set_registered false)).

Definition tsx_shutdown : M Z :=
  tsx_update_transport None ;;
  term ← get terminating;
  when (negb term) (log E_tpselector_dec_ref) ;;
  ltx ← get last_tx;
  match ltx with
  | Some td => pjsip_tx_data_dec_ref td ;; put (set_last_tx None)
  | None => skip
  end ;;
  cancel_timer_ Timeout ;;
  cancel_timer_ Retransmit ;;
  clear_flag (Z.lor TSX_HAS_PENDING_RESCHED TSX_HAS_PENDING_SEND) ;;
  pend ← get_flag TSX_HAS_PENDING_TRANSPORT;
  when pend (set_flag TSX_HAS_PENDING_DESTROY ;; put (set_tsx_user None)) ;;
  when (negb term) (put (set_terminating true) ;; grp_lock_ref (-1)) ;;
  ret PJ_SUCCESS.

Definition tsx_set_status_code (code : Z) : M unit := put (set_status_code code).

Definition notify_rx_response (src : event_src) : M unit :=
  match src with
  | Src_rx rdata =>
      user ← get tsx_user;
      match user, rd_msg rdata with
      | Some u, Response _ _ => when (has_on_rx_response u) (log (E_on_rx_response (rd_id rdata)))
      | _, _ => skip
      end
  | _ => skip
  end.

Definition notify_tsx_state (prev new : pjsip_tsx_state_e) (src : event_src) : M unit :=
  user ← get tsx_user;
  match user with
  | Some u => when (has_on_tsx_state u) (log (E_on_tsx_state prev new src))
  | None => skip
  end.

Definition tsx_set_state (new : pjsip_tsx_state_e) (src : event_src) (flag : Z) : M unit :=
  prev ← get state;
  put (set_state new) ;;
  r ← get role;
  put (set_state_handler (match r with
                          | PJSIP_ROLE_UAC => tsx_state_handler_uac new
                          | PJSIP_ROLE_UAS => tsx_state_handler_uas new
                          end)) ;;
  when (Z.land flag NO_NOTIFY =? 0) (notify_rx_response src) ;;
  when (Z.land flag NO_NOTIFY =? 0) (notify_tsx_state prev new src) ;;
  match new with
  | PJSIP_TSX_STATE_TERMINATED =>
      pend ← get_flag TSX_HAS_PENDING_TRANSPORT;
      when pend (
        ptx ← get pending_tx;
        match ptx with
        | Some td => set_mod_data td false ;; put (set_pending_tx None)
        | None => skip
        end ;;
        clear_flag TSX_HAS_PENDING_TRANSPORT) ;;
      cancel_timer_ Timeout ;;
      when (Z.land flag NO_SCHEDULE_HANDLER =? 0) (schedule_timer_ Timeout tv_zero TIMEOUT_TIMER)
  | PJSIP_TSX_STATE_DESTROYED =>
      mod_tsx_layer_unregister_tsx ;; _ ← tsx_shutdown; skip
  | _ => skip
  end.

(** ** Retransmission timer *)

Section Configured.
Context (cfg : tsx_cfg).

Definition t1_timer_val : pj_time_val := tv_of_ms (cfg_t1 cfg).
Definition t2_timer_val : pj_time_val := tv_of_ms (cfg_t2 cfg).
Definition t4_timer_val : pj_time_val := tv_of_ms (cfg_t4 cfg).
Definition td_timer_val : pj_time_val := tv_of_ms (cfg_td cfg).
(** pjsip_tsx_layer_init_module sets it to [td_timer_val]. *)
Definition timeout_timer_val : pj_time_val := td_timer_val.

(** [msec_time], a 32-bit unsigned. C leaves [1 << n] undefined from n = 31 on;
    the shift counts here are taken modulo 32, as the processors do. *)
Definition resched_delay (r : pjsip_role_e) (m : pjsip_method_e) (code count : Z) : Z :=
  let t2 := cfg_t2 cfg in
  let msec_time :=
    if bool_decide (r = PJSIP_ROLE_UAC) && (100 <=? code) then t2
    else u32 (Z.shiftl 1 (count mod 32) * cfg_t1 cfg) in
  match r with
  | PJSIP_ROLE_UAC =>
      if (t2 <? msec_time) && negb (bool_decide (m = PJSIP_INVITE_METHOD)) then t2 else msec_time
  | PJSIP_ROLE_UAS =>
      if code <? 200 then PJSIP_TSX_1XX_RETRANS_DELAY * 1000
      else if t2 <? msec_time then t2 else msec_time
  end.

Definition tsx_resched_retransmission : M unit :=
  msec_time ← get (fun t => resched_delay (role t) (method t) (status_code t) (retransmit_count t));
  when (negb (msec_time =? 0)) (schedule_timer_ Retransmit (tv_of_ms msec_time) RETRANSMIT_TIMER).

(** ** Sending *)

(** Sending on the transport in use; [sent] is the answer of
    pjsip_transport_send. *)
Definition send_on_transport (sent : Z) (tdata : Z) (t : pjsip_transport) : M Z :=
  grp_lock_ref 1 ;; set_flag TSX_HAS_PENDING_TRANSPORT ;;
  log (E_transport_send (tp_id t) tdata) ;;
  status ← (if sent =? PJ_EPENDING then ret PJ_SUCCESS
            else clear_flag TSX_HAS_PENDING_TRANSPORT ;; grp_lock_ref (-1) ;; ret sent);
  when (negb (status =? PJ_SUCCESS)) (
    tsx_update_transport None ;; put (set_addr_len 0) ;;
    put (set_res_transport None) ;; put (set_res_addr_len 0)) ;;
  ret status.

(** The body of [tsx_send_msg]; [stateless] is its last part, the resolution of
    the destination. *)
Definition send_core (stateless : Z -> M Z) (sent : Z) (tdata : Z) : M Z :=
  pend ← get_flag TSX_HAS_PENDING_TRANSPORT;
  if pend then set_flag TSX_HAS_PENDING_SEND ;; ret PJ_SUCCESS
  else
    d ← td_get tdata;
    if td_pending d then ret PJ_SUCCESS
    else
      tp ← get transport;
      status ← match tp with
               | Some t => send_on_transport sent tdata t
               | None => ret PJ_SUCCESS
               end;
      if bool_decide (is_Some tp) && (status =? PJ_SUCCESS) then ret PJ_SUCCESS
      else
        resolved ← get_flag TSX_HAS_RESOLVED_SERVER;
        if resolved then
          let status := if status =? PJ_SUCCESS then PJ_EUNKNOWN else status in
          tsx_set_status_code PJSIP_SC_TSX_TRANSPORT_ERROR ;;
          tsx_set_state PJSIP_TSX_STATE_TERMINATED Src_transport_error 0 ;;
          ret status
        else stateless tdata.

(** [tsx_send_msg] of a pointer that may be NULL *)
Definition send_opt (send : Z -> M Z) (tdata : option Z) : M Z :=
  match tdata with Some td => send td | None => ret PJ_EINVAL end.

(** [tsx_send_msg] as called by [send_msg_callback]: the callback has just set
    TSX_HAS_RESOLVED_SERVER, so the last part is not reached. *)
Definition tsx_send_pending (resend : Z) (tdata : option Z) : M Z :=
  send_opt (send_core (fun _ => stuck) resend) tdata.

(** "Update transport", "Update remote address", "Update is_reliable flag" *)
Definition callback_bind (r : send_report) : M unit :=
  old ← get transport;
  when (negb (tp_same old (sr_transport r))) (
    tsx_update_transport (sr_transport r) ;;
    put (set_addr_len (sr_addr_len r)) ;;
    tp ← get transport; t ← deref tp;
    put (set_is_reliable (tp_reliable t))).

(** "Need to reschedule retransmission?" *)
Definition callback_resched : M unit :=
  resched ← get_flag TSX_HAS_PENDING_RESCHED;
  pend ← get_flag TSX_HAS_PENDING_TRANSPORT;
  when (resched && negb pend) (
    clear_flag TSX_HAS_PENDING_RESCHED ;;
    rel ← get is_reliable;
    when (negb rel) tsx_resched_retransmission).

Definition callback_sent (r : send_report) : M unit :=
  callback_bind r ;;
  clear_flag TSX_HAS_PENDING_TRANSPORT ;;
  set_flag TSX_HAS_RESOLVED_SERVER ;;
  destroy ← get_flag TSX_HAS_PENDING_DESTROY;
  if destroy then tsx_set_state PJSIP_TSX_STATE_DESTROYED Src_unknown 0
  else
    send ← get_flag TSX_HAS_PENDING_SEND;
    when send (
      clear_flag TSX_HAS_PENDING_SEND ;;
      ltx ← get last_tx; _ ← tsx_send_pending (sr_resend r) ltx; skip) ;;
    callback_resched.

Definition failure_code (sent : Z) : Z :=
  if (- sent =? PJ_ERESOLVE) || (- sent =? PJLIB_UTIL_EDNS_NXDOMAIN)
  then PJSIP_SC_BAD_GATEWAY else PJSIP_SC_TSX_TRANSPORT_ERROR.

Definition callback_give_up (r : send_report) : M unit :=
  put (set_transport_err (- sr_sent r)) ;;
  clear_flag TSX_HAS_PENDING_TRANSPORT ;;
  set_flag TSX_HAS_RESOLVED_SERVER ;;
  tsx_set_status_code (failure_code (sr_sent r)).

(** "Temporary failure in sending, will try next server" *)
Definition callback_retry (tdata : Z) : M unit :=
  put (set_retransmit_count 0) ;;
  id ← get (fun t => tm_id (timeout_timer t));
  when (negb (id =? 0)) (
    cancel_timer_ Timeout ;; schedule_timer_ Timeout timeout_timer_val TIMEOUT_TIMER) ;;
  set_mod_data tdata true ;;
  put (set_pending_tx (Some tdata)) ;;
  grp_lock_ref 1.

Definition callback_failed (tdata : Z) (r : send_report) : M unit :=
  old ← get transport;
  when (tp_same (sr_transport r) old) (tsx_update_transport None) ;;
  destroy ← get_flag TSX_HAS_PENDING_DESTROY;
  if negb (sr_cont r) || destroy then
    callback_give_up r ;;
    s ← get state;
    if negb (bool_decide (s = PJSIP_TSX_STATE_TERMINATED)) &&
       negb (bool_decide (s = PJSIP_TSX_STATE_DESTROYED))
    then tsx_set_state PJSIP_TSX_STATE_TERMINATED Src_transport_error 0
    else when destroy (tsx_set_state PJSIP_TSX_STATE_DESTROYED Src_transport_error 0)
  else callback_retry tdata.

(** The result is the final value of [*cont]. *)
Definition send_msg_callback (tdata : Z) (r : send_report) : M bool :=
  up ← layer_up;
  if negb up then ret false
  else
    d ← td_get tdata;
    if negb (td_mod d) then grp_lock_ref (-1) ;; ret false
    else
      grp_lock_ref (-1) ;;
      set_mod_data tdata false ;;
      put (set_pending_tx None) ;;
      (if 0 <? sr_sent r then callback_sent r else callback_failed tdata r) ;;
      ret (sr_cont r).

(** The sending framework goes on to the next address while it is told to. *)
Fixpoint run_reports (tdata : Z) (rs : list send_report) : M unit :=
  match rs with
  | [] => skip
  | r :: rs' =>
      cont ← send_msg_callback tdata r;
      if cont && (sr_sent r <=? 0) then run_reports tdata rs' else skip
  end.

(** Attaching the transaction to the message being sent *)
Definition send_attach (tdata : Z) : M unit :=
  pjsip_tx_data_add_ref tdata ;;
  set_mod_data tdata true ;;
  put (set_pending_tx (Some tdata)) ;;
  grp_lock_ref 1.

(** Undoing it when the send function fails; in the branch for responses the
    reference on the group lock is not given back. *)
Definition send_detach (request : bool) (tdata : Z) : M unit :=
  when request (grp_lock_ref (-1)) ;;
  pjsip_tx_data_dec_ref tdata ;;
  set_mod_data tdata false ;;
  put (set_pending_tx None).

Definition send_stateless (env : send_env) (tdata : Z) : M Z :=
  send_attach tdata ;;
  d ← td_get tdata;
  let request := match td_msg d with Request _ => true | Response _ _ => false end in
  set_flag TSX_HAS_PENDING_TRANSPORT ;;
  log (if request then E_send_request_stateless tdata else E_send_response tdata) ;;
  run_reports tdata (env_reports env) ;;
  let status := if env_status env =? PJ_EPENDING then PJ_SUCCESS else env_status env in
  when (negb (status =? PJ_SUCCESS)) (send_detach request tdata) ;;
  s ← get state;
  if (status =? PJ_SUCCESS) && bool_decide (s = PJSIP_TSX_STATE_TERMINATED)
  then get transport_err else ret status.

Definition tsx_send_msg (env : send_env) (tdata : Z) : M Z :=
  send_core (send_stateless env) (env_send env) tdata.

(** The completion callback of pjsip_transport_send *)
Definition transport_callback (sent : Z) : M unit :=
  clear_flag TSX_HAS_PENDING_TRANSPORT ;;
  when (sent <? 0) (
    put (set_transport_err (- sent)) ;;
    cancel_timer_ Timeout ;;
    schedule_timer_ Timeout tv_zero TRANSPORT_ERR_TIMER) ;;
  grp_lock_ref (-1).

Definition tsx_retransmit (env : send_env) (resched : bool) : M Z :=
  rt ← get retransmit_timer;
  if resched && pj_timer_entry_running rt then ret PJ_SUCCESS
  else
    ltx ← get last_tx;
    match ltx with
    | None => ret PJ_EBUG
    | Some td =>
        put (fun t => set_retransmit_count (i32 (retransmit_count t + 1)) t) ;;
        when resched (
          pend ← get_flag TSX_HAS_PENDING_TRANSPORT;
          if pend then set_flag TSX_HAS_PENDING_RESCHED else tsx_resched_retransmission) ;;
        tsx_send_msg env td
    end.

End Configured.
