(* ===== verification/TsxHandlers.v ===== *)
(** * Transactions: state handlers and public functions (sip_transaction.c)

    The ten state handlers, the dispatch through [tsx->state_handler], the
    timer callback, the functions the transaction user and the endpoint call,
    and the initial states of pjsip_tsx_create_uac2 / pjsip_tsx_create_uas2. *)

From S2P Require Import Prelude PjTime SipTypes TsxData TsxOps.

Section Configured.
Context (cfg : tsx_cfg).

Definition is_invite : M bool := get (fun t => bool_decide (method t = PJSIP_INVITE_METHOD)).
Definition state_is (s : pjsip_tsx_state_e) : M bool := get (fun t => bool_decide (state t = s)).

(** [tsx_send_msg(...)] followed by [if (status != PJ_SUCCESS) return status;] *)
Definition then_ok (m : M Z) (k : M Z) : M Z :=
  status ← m; if status =? PJ_SUCCESS then k else ret status.

Definition restart_timeout (delay : pj_time_val) : M unit :=
  cancel_timer_ Timeout ;; schedule_timer_ Timeout delay TIMEOUT_TIMER.

(** Start the retransmission timer, or note that it is to be started. *)
Definition sched_or_pend (delay : pj_time_val) : M unit :=
  put (set_retransmit_count 0) ;;
  pend ← get_flag TSX_HAS_PENDING_TRANSPORT;
  if pend then set_flag TSX_HAS_PENDING_RESCHED
  else schedule_timer_ Retransmit delay RETRANSMIT_TIMER.

(** [if (tsx->last_tx && tsx->last_tx != tdata) { dec_ref; last_tx = NULL; }] *)
Definition drop_other_tx (tdata : Z) : M unit :=
  ltx ← get last_tx;
  match ltx with
  | Some td => when (negb (td =? tdata)) (pjsip_tx_data_dec_ref td ;; put (set_last_tx None))
  | None => skip
  end.

(** [if (tsx->last_tx != tdata) { last_tx = tdata; add_ref; }] *)
Definition save_tx (tdata : Z) : M unit :=
  ltx ← get last_tx;
  when (negb (bool_decide (ltx = Some tdata))) (
    put (set_last_tx (Some tdata)) ;; pjsip_tx_data_add_ref tdata).

Definition tsx_on_state_null (env : send_env) (event : pjsip_event) : M Z :=
  r ← get role;
  match r with
  | PJSIP_ROLE_UAS =>
      match event with
      | Ev_rx_msg rdata => tsx_set_state PJSIP_TSX_STATE_TRYING (Src_rx rdata) 0 ;; ret PJ_SUCCESS
      | _ => stuck   (* event->body.rx_msg of another event *)
      end
  | PJSIP_ROLE_UAC =>
      match event with
      | Ev_tx_msg tdata =>
          drop_other_tx tdata ;;
          save_tx tdata ;;
          then_ok (tsx_send_msg cfg env tdata) (
            restart_timeout (timeout_timer_val cfg) ;;
            rel ← get is_reliable;
            when (negb rel) (sched_or_pend (t1_timer_val cfg)) ;;
            tsx_set_state PJSIP_TSX_STATE_CALLING (Src_tx tdata) 0 ;;
            ret PJ_SUCCESS)
      | _ => ret PJ_EBUG
      end
  end.

(** "Generate and send ACK (for INVITE)": the error to return, or the ACK *)
Definition uac_send_ack (env : send_env) (rdata : pjsip_rx_data) : M (Z + option Z) :=
  inv ← is_invite;
  if inv then
    ltx ← get last_tx; invite_tx ← deref ltx;
    log (E_create_ack invite_tx (rd_id rdata)) ;;
    match env_ack env with
    | inl status => ret (inl status)
    | inr a =>
        td_new a (mk_tdata (Request PJSIP_ACK_METHOD) 1 false false) ;;
        status ← tsx_send_msg cfg env a;
        ret (if status =? PJ_SUCCESS then inr (Some a) else inl status)
    end
  else ret (inr None).

(** The ACK replaces the INVITE as the message to retransmit. *)
Definition uac_keep_ack (ack_tdata : option Z) : M unit :=
  inv ← is_invite;
  ltx ← get last_tx;
  when (inv && negb (bool_decide (ack_tdata = ltx))) (
    td ← deref ltx; pjsip_tx_data_dec_ref td ;; put (set_last_tx ack_tdata)).

(** The part of [tsx_on_state_proceeding_uac] for 3xx-6xx responses *)
Definition uac_final_failure (env : send_env) (rdata : pjsip_rx_data) : M Z :=
  cancel_timer_ Retransmit ;;
  cancel_timer_ Timeout ;;
  ack ← uac_send_ack env rdata;
  match ack with
  | inl status => ret status
  | inr ack_tdata =>
      tsx_set_state PJSIP_TSX_STATE_COMPLETED (Src_rx rdata) 0 ;;
      uac_keep_ack ack_tdata ;;
      rel ← get is_reliable;
      inv ← is_invite;
      restart_timeout (if rel then tv_zero
                       else if inv then td_timer_val cfg else t4_timer_val cfg) ;;
      ret PJ_SUCCESS
  end.

Definition uac_success (rdata : pjsip_rx_data) : M Z :=
  cancel_timer_ Timeout ;;
  inv ← is_invite;
  if inv then
    tsx_set_state PJSIP_TSX_STATE_TERMINATED (Src_rx rdata) 0 ;; ret PJ_SUCCESS
  else
    rel ← get is_reliable;
    schedule_timer_ Timeout (if rel then tv_zero else t4_timer_val cfg) TIMEOUT_TIMER ;;
    cancel_timer_ Retransmit ;;
    tsx_set_state PJSIP_TSX_STATE_COMPLETED (Src_rx rdata) 0 ;; ret PJ_SUCCESS.

Definition tsx_on_state_proceeding_uac (env : send_env) (event : pjsip_event) : M Z :=
  match event with
  | Ev_tx_msg _ => ret PJ_EINVALIDOP
  | Ev_rx_msg rdata =>
      match rd_msg rdata with
      | Request _ => ret PJSIP_ENOTRESPONSEMSG
      | Response code _ =>
          tsx_set_status_code code ;;
          if PJSIP_IS_STATUS_IN_CLASS code 100 then
            tsx_set_state PJSIP_TSX_STATE_PROCEEDING (Src_rx rdata) 0 ;; ret PJ_SUCCESS
          else if PJSIP_IS_STATUS_IN_CLASS code 200 then uac_success rdata
          else if (300 <=? code) && (code <=? 699) then uac_final_failure env rdata
          else ret PJ_EBUG
      end
  | Ev_timer Retransmit => tsx_retransmit cfg env true
  | Ev_timer Timeout =>
      tsx_set_status_code PJSIP_SC_TSX_TIMEOUT ;;
      tsx_set_state PJSIP_TSX_STATE_TERMINATED (Src_timer Timeout) 0 ;; ret PJ_SUCCESS
  end.

Definition tsx_on_state_calling (env : send_env) (event : pjsip_event) : M Z :=
  match event with
  | Ev_timer Retransmit => tsx_retransmit cfg env true
  | Ev_timer Timeout =>
      cancel_timer_ Retransmit ;;
      clear_flag TSX_HAS_PENDING_RESCHED ;;
      tsx_set_status_code PJSIP_SC_TSX_TIMEOUT ;;
      tsx_set_state PJSIP_TSX_STATE_TERMINATED (Src_timer Timeout) 0 ;; ret PJ_SUCCESS
  | Ev_rx_msg rdata =>
      match rd_msg rdata with
      | Request _ => ret PJSIP_ENOTRESPONSEMSG
      | Response code _ =>
          (if 200 <=? code then
             cancel_timer_ Retransmit ;;
             id ← get (fun t => tm_id (timeout_timer t));
             when (negb (id =? 0)) (cancel_timer_ Timeout)
           else
             cancel_timer_ Retransmit ;;
             inv ← is_invite;
             if inv then cancel_timer_ Timeout
             else
               rel ← get is_reliable;
               when (negb rel) (schedule_timer_ Retransmit (t2_timer_val cfg) RETRANSMIT_TIMER)) ;;
          clear_flag TSX_HAS_PENDING_RESCHED ;;
          _ ← tsx_on_state_proceeding_uac env event;
          ret PJ_SUCCESS
      end
  | Ev_tx_msg _ => ret PJ_EBUG
  end.

(** The parts of [tsx_on_state_proceeding_uas] after a response was sent *)
Definition uas_sent_provisional (tdata : Z) : M Z :=
  save_tx tdata ;;
  tsx_set_state PJSIP_TSX_STATE_PROCEEDING (Src_tx tdata) 0 ;;
  inv ← is_invite;
  code ← get status_code;
  when ((0 <? PJSIP_TSX_1XX_RETRANS_DELAY) && inv && (100 <? code)) (
    cancel_timer_ Retransmit ;;
    sched_or_pend (mk_tv PJSIP_TSX_1XX_RETRANS_DELAY 0)) ;;
  ret PJ_SUCCESS.

Definition uas_sent_success (tdata : Z) : M Z :=
  cancel_timer_ Retransmit ;;
  inv ← is_invite;
  h200 ← get handle_200resp;
  if inv && negb h200 then
    tsx_set_state PJSIP_TSX_STATE_TERMINATED (Src_tx tdata) 0 ;; ret PJ_SUCCESS
  else
    when inv (sched_or_pend (t1_timer_val cfg)) ;;
    save_tx tdata ;;
    rel ← get is_reliable;
    restart_timeout (if inv then timeout_timer_val cfg
                     else if negb rel then timeout_timer_val cfg else tv_zero) ;;
    tsx_set_state PJSIP_TSX_STATE_COMPLETED (Src_tx tdata) 0 ;; ret PJ_SUCCESS.

Definition uas_sent_failure (tdata : Z) (cseq_method : pjsip_method_e) : M Z :=
  cancel_timer_ Retransmit ;;
  save_tx tdata ;;
  inv ← is_invite;
  rel ← get is_reliable;
  restart_timeout (if inv then timeout_timer_val cfg
                   else if negb rel then timeout_timer_val cfg else tv_zero) ;;
  rel ← get is_reliable;
  when (negb rel && bool_decide (cseq_method = PJSIP_INVITE_METHOD))
    (sched_or_pend (t1_timer_val cfg)) ;;
  tsx_set_state PJSIP_TSX_STATE_COMPLETED (Src_tx tdata) 0 ;; ret PJ_SUCCESS.

Definition tsx_on_state_proceeding_uas (env : send_env) (event : pjsip_event) : M Z :=
  match event with
  | Ev_rx_msg _ =>
      ltx ← get last_tx;
      match ltx with
      | None => ret PJ_EBUG
      | Some td =>
          pend ← get_flag TSX_HAS_PENDING_TRANSPORT;
          if pend then set_flag TSX_HAS_PENDING_SEND ;; ret PJ_SUCCESS
          else tsx_send_msg cfg env td
      end
  | Ev_tx_msg tdata =>
      d ← td_get tdata;
      match td_msg d with
      | Request _ => ret PJSIP_ENOTRESPONSEMSG
      | Response code cseq_method =>
          tsx_set_status_code code ;;
          drop_other_tx tdata ;;
          then_ok (tsx_send_msg cfg env tdata) (
            code ← get status_code;
            if PJSIP_IS_STATUS_IN_CLASS code 100 then uas_sent_provisional tdata
            else if PJSIP_IS_STATUS_IN_CLASS code 200 then uas_sent_success tdata
            else if 300 <=? code then uas_sent_failure tdata cseq_method
            else ret PJ_SUCCESS)
      end
  | Ev_timer Retransmit => tsx_retransmit cfg env true
  | Ev_timer Timeout =>
      tsx_set_status_code PJSIP_SC_TSX_TIMEOUT ;;
      tsx_set_state PJSIP_TSX_STATE_TERMINATED (Src_timer Timeout) 0 ;; ret PJ_EBUG
  end.

Definition tsx_on_state_trying (env : send_env) (event : pjsip_event) : M Z :=
  match event with
  | Ev_tx_msg tdata =>
      status ← tsx_on_state_proceeding_uas env event;
      trying ← state_is PJSIP_TSX_STATE_TRYING;
      when ((status =? PJ_SUCCESS) && trying)
        (tsx_set_state PJSIP_TSX_STATE_PROCEEDING (Src_tx tdata) 0) ;;
      ret status
  | _ => ret PJ_SUCCESS
  end.

Definition tsx_on_state_completed_uas (env : send_env) (event : pjsip_event) : M Z :=
  match event with
  | Ev_rx_msg rdata =>
      match rd_msg rdata with
      | Response _ _ => ret PJSIP_ENOTREQUESTMSG
      | Request m =>
          if negb (bool_decide (m = PJSIP_ACK_METHOD)) then tsx_retransmit cfg env false
          else
            inv ← is_invite;
            if negb inv then ret PJSIP_EINVALIDMETHOD
            else
              cancel_timer_ Retransmit ;;
              clear_flag TSX_HAS_PENDING_RESCHED ;;
              rel ← get is_reliable;
              restart_timeout (if rel then tv_zero else t4_timer_val cfg) ;;
              tsx_set_state PJSIP_TSX_STATE_CONFIRMED (Src_rx rdata) 0 ;; ret PJ_SUCCESS
      end
  | Ev_timer Retransmit => tsx_retransmit cfg env true
  | Ev_timer Timeout =>
      inv ← is_invite;
      when inv (tsx_set_status_code PJSIP_SC_TSX_TIMEOUT) ;;
      tsx_set_state PJSIP_TSX_STATE_TERMINATED (Src_timer Timeout) 0 ;; ret PJ_SUCCESS
  | Ev_tx_msg tdata =>
      ltx ← get last_tx;
      ret (if bool_decide (ltx = Some tdata) then PJ_SUCCESS else PJ_EINVALIDOP)
  end.

Definition tsx_on_state_completed_uac (env : send_env) (event : pjsip_event) : M Z :=
  match event with
  | Ev_timer Retransmit => ret PJ_SUCCESS
  | Ev_timer Timeout =>
      tsx_set_state PJSIP_TSX_STATE_TERMINATED (Src_timer Timeout) 0 ;; ret PJ_SUCCESS
  | Ev_rx_msg rdata =>
      inv ← is_invite;
      match rd_msg rdata with
      | Response code _ =>
          if inv && (200 <=? code) then tsx_retransmit cfg env false else ret PJ_SUCCESS
      | Request _ => ret PJ_SUCCESS
      end
  | Ev_tx_msg _ => ret PJ_EINVALIDOP
  end.

Definition tsx_on_state_confirmed (event : pjsip_event) : M Z :=
  match event with
  | Ev_rx_msg rdata =>
      match rd_msg rdata with
      | Response _ _ => ret PJSIP_ENOTREQUESTMSG
      | Request _ => ret PJ_SUCCESS
      end
  | Ev_timer Retransmit => ret PJ_SUCCESS
  | Ev_timer Timeout =>
      tsx_set_state PJSIP_TSX_STATE_TERMINATED (Src_timer Timeout) 0 ;; ret PJ_SUCCESS
  | Ev_tx_msg _ => ret PJ_EBUG
  end.

Definition tsx_on_state_terminated (event : pjsip_event) : M Z :=
  match event with
  | Ev_timer entry =>
      tsx_set_state PJSIP_TSX_STATE_DESTROYED (Src_timer entry) 0 ;; ret PJ_SUCCESS
  | _ => ret PJ_EIGNORED
  end.

Definition tsx_on_state_destroyed (event : pjsip_event) : M Z := ret PJ_EIGNORED.

(** The call through the function pointer *)
Definition run_handler (h : tsx_handler) (env : send_env) (event : pjsip_event) : M Z :=
  match h with
  | tsx_on_state_null_h => tsx_on_state_null env event
  | tsx_on_state_calling_h => tsx_on_state_calling env event
  | tsx_on_state_trying_h => tsx_on_state_trying env event
  | tsx_on_state_proceeding_uas_h => tsx_on_state_proceeding_uas env event
  | tsx_on_state_proceeding_uac_h => tsx_on_state_proceeding_uac env event
  | tsx_on_state_completed_uas_h => tsx_on_state_completed_uas env event
  | tsx_on_state_completed_uac_h => tsx_on_state_completed_uac env event
  | tsx_on_state_confirmed_h => tsx_on_state_confirmed event
  | tsx_on_state_terminated_h => tsx_on_state_terminated event
  | tsx_on_state_destroyed_h => tsx_on_state_destroyed event
  end.

Definition dispatch (env : send_env) (event : pjsip_event) : M Z :=
  h ← get state_handler;
  match h with Some h => run_handler h env event | None => stuck end.

(** ** Timer callback *)

(** The event posted under TRANSPORT_ERR_TIMER: a silent state change, then the
    notification. *)
Definition transport_err_event : M unit :=
  prev ← get state;
  tsx_update_transport None ;;
  code ← get status_code;
  when (code <? 200) (tsx_set_status_code PJSIP_SC_TSX_TRANSPORT_ERROR) ;;
  tsx_set_state PJSIP_TSX_STATE_TERMINATED Src_transport_error
    (Z.lor NO_NOTIFY NO_SCHEDULE_HANDLER) ;;
  notify_tsx_state prev PJSIP_TSX_STATE_TERMINATED Src_transport_error ;;
  schedule_timer_ Timeout tv_zero TIMEOUT_TIMER.

Definition tsx_timer_callback (env : send_env) (entry : timer_sel) : M unit :=
  id ← get (fun t => tm_id (timer_of entry t));
  put (fun t => set_timer entry (mk_timer 0 (tm_due (timer_of entry t))) t) ;;
  if id =? TRANSPORT_ERR_TIMER then
    s ← get state;
    when (state_num s <? state_num PJSIP_TSX_STATE_TERMINATED) transport_err_event
  else _ ← dispatch env (Ev_timer entry); skip.

(** ** Public functions *)

Definition pjsip_tsx_send_msg (env : send_env) (tdata : option Z) : M Z :=
  ltx ← get last_tx;
  match (match tdata with Some td => Some td | None => ltx end) with
  | None => ret PJ_EINVALIDOP
  | Some td =>
      status ← dispatch env (Ev_tx_msg td);
      when (status =? PJ_SUCCESS) (pjsip_tx_data_dec_ref td) ;; ret status
  end.

Definition pjsip_tsx_recv_msg (env : send_env) (rdata : pjsip_rx_data) : M unit :=
  _ ← dispatch env (Ev_rx_msg rdata); skip.

Definition pjsip_tsx_terminate (code : Z) : M Z :=
  if 200 <=? code then
    s ← get state;
    when (state_num s <? state_num PJSIP_TSX_STATE_TERMINATED) (
      tsx_set_status_code code ;; tsx_set_state PJSIP_TSX_STATE_TERMINATED Src_user 0) ;;
    ret PJ_SUCCESS
  else ret PJ_EINVAL.

Definition uac_invite : M bool :=
  r ← get role; inv ← is_invite; ret (bool_decide (r = PJSIP_ROLE_UAC) && inv).

Definition pjsip_tsx_stop_retransmit : M Z :=
  ok ← uac_invite;
  if ok then cancel_timer_ Retransmit ;; ret PJ_SUCCESS else ret PJ_EINVALIDOP.

Definition pjsip_tsx_set_timeout (millisec : Z) : M Z :=
  ok ← uac_invite;
  if negb ok then ret PJ_EINVALIDOP
  else
    code ← get status_code; id ← get (fun t => tm_id (timeout_timer t));
    if (200 <=? code) && negb (id =? 0) then ret PJ_EEXISTS
    else
      cancel_timer_ Timeout ;;
      schedule_timer_ Timeout (pj_time_val_normalize (mk_tv 0 millisec)) TIMEOUT_TIMER ;;
      ret PJ_SUCCESS.

Definition pjsip_tsx_retransmit_no_state (env : send_env) (tdata : option Z) : M Z :=
  td ← (match tdata with
        | Some td => ret td
        | None => ltx ← get last_tx; td ← deref ltx; pjsip_tx_data_add_ref td ;; ret td
        end);
  status ← tsx_send_msg cfg env td;
  when (status =? PJ_SUCCESS) (pjsip_tx_data_dec_ref td) ;; ret status.

End Configured.

(** ** Creation *)

Definition timer_init : tsx_timer := mk_timer TIMER_INACTIVE None.

(** [tsx_create] and the rest of [pjsip_tsx_create_uac2] after the checks: the
    transaction is registered and holds [tdata]; [reliable] is the flag of the
    request's destination, [refs] the references of others on the lock. *)
Definition tsx_init_uac (user : option tsx_user_t) (m : pjsip_method_e) (tdata : Z)
    (reliable : bool) (refs : Z) : pjsip_transaction :=
  mk_tsx PJSIP_ROLE_UAC m PJSIP_TSX_STATE_NULL (Some tsx_on_state_null_h) 0 true None reliable 0
    None 0 0 0 None (Some tdata) 0 timer_init timer_init user false (refs + 1) true.

(** The same for [pjsip_tsx_create_uas2] before it binds the transport;
    [res_tp] is [tsx->res_addr.transport] and [dst_reliable] the flag of
    [tsx->res_addr.dst_host]. *)
Definition tsx_init_uas (user : option tsx_user_t) (m : pjsip_method_e)
    (res_tp : option pjsip_transport) (res_len : Z) (dst_reliable : bool) (refs : Z) :
    pjsip_transaction :=
  mk_tsx PJSIP_ROLE_UAS m PJSIP_TSX_STATE_NULL (Some tsx_on_state_null_h) 0 true None
    dst_reliable 0 res_tp res_len 0 0 None None 0 timer_init timer_init user false (refs + 1) true.

Definition uas_bind_transport : M unit :=
  rt ← get res_transport;
  match rt with
  | Some t =>
      tsx_update_transport (Some t) ;;
      put (fun x => set_addr_len (res_addr_len x) x) ;;
      put (set_is_reliable (tp_reliable t))
  | None => skip
  end.

(** ** What can happen to a transaction *)

(** [mod_tsx_layer_stop] for one transaction *)
Definition PJSIP_SC_SERVICE_UNAVAILABLE : Z := 503.

Definition mod_tsx_layer_stop : M unit :=
  _ ← pjsip_tsx_terminate PJSIP_SC_SERVICE_UNAVAILABLE;
  mod_tsx_layer_unregister_tsx ;; _ ← tsx_shutdown; skip.

(** A poll of the timer heap fires an entry: the entry leaves the heap, its
    callback runs, and the heap's reference on the lock is given back. *)
Definition fire_timer (cfg : tsx_cfg) (env : send_env) (entry : timer_sel) : M unit :=
  put (fun t => set_timer entry (mk_timer (tm_id (timer_of entry t)) None) t) ;;
  tsx_timer_callback cfg env entry ;;
  grp_lock_ref (-1).

Inductive tsx_op :=
  | Op_send_msg (env : send_env) (tdata : option Z)
  | Op_recv_msg (env : send_env) (rdata : pjsip_rx_data)
  | Op_timer (env : send_env) (entry : timer_sel)
  | Op_send_callback (tdata : Z) (r : send_report)
  | Op_transport_callback (sent : Z)
  | Op_tp_disconnected (status : Z)
  | Op_terminate (code : Z)
  | Op_stop_retransmit
  | Op_set_timeout (millisec : Z)
  | Op_retransmit_no_state (env : send_env) (tdata : option Z)
  | Op_layer_stop
  | Op_tdata (tdata : Z) (d : pjsip_tx_data).   (* a message is created or marked pending *)

Definition ignore (m : M Z) : M unit := _ ← m; skip.

Definition run_op (cfg : tsx_cfg) (op : tsx_op) : M unit :=
  match op with
  | Op_send_msg env td => ignore (pjsip_tsx_send_msg cfg env td)
  | Op_recv_msg env rd => pjsip_tsx_recv_msg cfg env rd
  | Op_timer env e => fire_timer cfg env e
  | Op_send_callback td r => _ ← send_msg_callback cfg td r; skip
  | Op_transport_callback sent => transport_callback sent
  | Op_tp_disconnected st => tsx_tp_state_callback st
  | Op_terminate code => ignore (pjsip_tsx_terminate code)
  | Op_stop_retransmit => ignore pjsip_tsx_stop_retransmit
  | Op_set_timeout ms => ignore (pjsip_tsx_set_timeout ms)
  | Op_retransmit_no_state env td => ignore (pjsip_tsx_retransmit_no_state cfg env td)
  | Op_layer_stop => mod_tsx_layer_stop
  | Op_tdata td d => td_new td d
  end.
