(* ===== verification/TsxInv.v ===== *)
(** * Transactions: invariant, legal state changes, and the operations' effect

    [tsx_ok] is the invariant of a transaction between the steps of its
    operations; [tsx_edge] the legal state changes.  An operation is [quiet]
    when it keeps the invariant and the state, and [legal] when it keeps the
    invariant and changes the state along legal edges only, each notified to
    the transaction user as such.  Both say that the operation returns: it
    neither dereferences a NULL pointer nor calls a NULL handler. *)

From S2P Require Import Prelude PjTime SipTypes TsxData TsxOps.

(** ** Flags *)

Lemma has_set_same x f : f <> 0 -> has_flag (Z.lor x f) f = true.
Proof.
  intros Hf. unfold has_flag.
  replace (Z.land (Z.lor x f) f) with f by (rewrite Z.land_comm, Z.lor_comm; apply Z.bits_inj';
    intros n _; rewrite Z.land_spec, Z.lor_spec; by destruct (Z.testbit f n)).
  by apply negb_true_iff, Z.eqb_neq.
Qed.

Lemma has_set_other x f g : Z.land f g = 0 -> has_flag (Z.lor x f) g = has_flag x g.
Proof. intros H. unfold has_flag. by rewrite Z.land_lor_distr_l, H, Z.lor_0_r. Qed.

Lemma has_clear_same x f : has_flag (Z.land x (Z.lnot f)) f = false.
Proof.
  unfold has_flag. rewrite <- Z.land_assoc, (Z.land_comm (Z.lnot f)), Z.land_lnot_diag. 
  by rewrite Z.land_0_r.
Qed.

Lemma has_clear_other x f g : Z.land f g = 0 -> has_flag (Z.land x (Z.lnot f)) g = has_flag x g.
Proof.
  intros H. unfold has_flag. rewrite <- Z.land_assoc. do 3 f_equal.
  apply Z.bits_inj'. intros n Hn. rewrite Z.land_spec, Z.lnot_spec by done.
  assert (Hb : Z.testbit (Z.land f g) n = false) by (by rewrite H, Z.bits_0).
  rewrite Z.land_spec in Hb. by destruct (Z.testbit f n), (Z.testbit g n).
Qed.

Lemma has_clear_imp x f g : has_flag (Z.land x (Z.lnot f)) g = true -> has_flag x g = true.
Proof.
  unfold has_flag. rewrite !negb_true_iff, !Z.eqb_neq. intros H E. apply H.
  by rewrite <- Z.land_assoc, (Z.land_comm (Z.lnot f)), Z.land_assoc, E.
Qed.

(** ** Weakest preconditions *)

Definition wp {A} (m : M A) (Q : A -> world -> Prop) (w : world) : Prop :=
  match m w with Some (a, w') => Q a w' | None => False end.

Lemma wp_bind {A B} (m : M A) (f : A -> M B) Q w :
  wp m (fun a w' => wp (f a) Q w') w -> wp (bind m f) Q w.
Proof. unfold wp, bind. by destruct (m w) as [[a w']|]. Qed.

Lemma wp_mono {A} (m : M A) (P Q : A -> world -> Prop) w :
  wp m P w -> (forall a w', P a w' -> Q a w') -> wp m Q w.
Proof. unfold wp. destruct (m w) as [[a w']|]; auto. Qed.

Lemma wp_run {A} (m : M A) Q w : wp m Q w -> exists a w', m w = Some (a, w') /\ Q a w'.
Proof. unfold wp. destruct (m w) as [[a w']|]; [eauto|done]. Qed.

(** ** Invariant *)

Definition valid_state (r : pjsip_role_e) (s : pjsip_tsx_state_e) : Prop :=
  match r, s with
  | PJSIP_ROLE_UAC, (PJSIP_TSX_STATE_TRYING | PJSIP_TSX_STATE_CONFIRMED) => False
  | PJSIP_ROLE_UAS, PJSIP_TSX_STATE_CALLING => False
  | _, _ => True
  end.

Definition handler_for (r : pjsip_role_e) (s : pjsip_tsx_state_e) : option tsx_handler :=
  match r with
  | PJSIP_ROLE_UAC => tsx_state_handler_uac s
  | PJSIP_ROLE_UAS => tsx_state_handler_uas s
  end.

(** What holds at every step, *)
Record core_ok (w : world) : Prop := {
  ok_valid : valid_state (role (w_tsx w)) (state (w_tsx w));
  ok_handler : state_handler (w_tsx w) = handler_for (role (w_tsx w)) (state (w_tsx w));
  ok_last : forall td, last_tx (w_tsx w) = Some td -> is_Some (w_tds w !! td);
  ok_pending : forall td, pending_tx (w_tsx w) = Some td -> is_Some (w_tds w !! td)
}.

(** and what holds outside a shutdown. *)
Record tsx_ok (w : world) : Prop := {
  ok_core : core_ok w;
  ok_uac_last : role (w_tsx w) = PJSIP_ROLE_UAC -> terminating (w_tsx w) = false ->
     is_Some (last_tx (w_tsx w));
  ok_term : terminating (w_tsx w) = true ->
     state_num PJSIP_TSX_STATE_TERMINATED <= state_num (state (w_tsx w)) /\
     has_flag (transport_flag (w_tsx w)) TSX_HAS_PENDING_SEND = false;
  ok_destroy : has_flag (transport_flag (w_tsx w)) TSX_HAS_PENDING_DESTROY = true ->
     terminating (w_tsx w) = true;
  ok_destroyed : state (w_tsx w) = PJSIP_TSX_STATE_DESTROYED -> terminating (w_tsx w) = true
}.
#[export] Hint Resolve ok_core : core.

(** ** Legal state changes *)

Inductive tsx_edge (r : pjsip_role_e) (m : pjsip_method_e) : pjsip_tsx_state_e -> pjsip_tsx_state_e -> Prop :=
  | edge_calling : r = PJSIP_ROLE_UAC -> tsx_edge r m PJSIP_TSX_STATE_NULL PJSIP_TSX_STATE_CALLING
  | edge_trying : r = PJSIP_ROLE_UAS -> tsx_edge r m PJSIP_TSX_STATE_NULL PJSIP_TSX_STATE_TRYING
  | edge_proceeding s :
      s = PJSIP_TSX_STATE_PROCEEDING \/ s = PJSIP_TSX_STATE_CALLING \/ s = PJSIP_TSX_STATE_TRYING ->
      tsx_edge r m s PJSIP_TSX_STATE_PROCEEDING
  | edge_completed s :
      s = PJSIP_TSX_STATE_PROCEEDING \/ s = PJSIP_TSX_STATE_CALLING \/ s = PJSIP_TSX_STATE_TRYING ->
      tsx_edge r m s PJSIP_TSX_STATE_COMPLETED
  | edge_confirmed : r = PJSIP_ROLE_UAS -> m = PJSIP_INVITE_METHOD ->
      tsx_edge r m PJSIP_TSX_STATE_COMPLETED PJSIP_TSX_STATE_CONFIRMED
  | edge_terminated s : s <> PJSIP_TSX_STATE_DESTROYED -> tsx_edge r m s PJSIP_TSX_STATE_TERMINATED
  | edge_destroyed s :
      s = PJSIP_TSX_STATE_TERMINATED \/ s = PJSIP_TSX_STATE_DESTROYED ->
      tsx_edge r m s PJSIP_TSX_STATE_DESTROYED.

Lemma tsx_edge_mono r m s s' : tsx_edge r m s s' -> state_num s <= state_num s'.
Proof. destruct 1; destruct_or?; subst; simpl; try lia; destruct s; simpl; lia || done. Qed.

Lemma tsx_edge_valid r m s s' : tsx_edge r m s s' -> valid_state r s -> valid_state r s'.
Proof. intros H. destruct r; destruct H; simpl; done. Qed.

(** A notification of a state change is that of an edge. *)
Definition legal_effect (r : pjsip_role_e) (m : pjsip_method_e) (e : effect) : Prop :=
  match e with E_on_tsx_state prev new _ => tsx_edge r m prev new | _ => True end.

Definition silent (e : effect) : Prop :=
  match e with E_on_tsx_state _ _ _ => False | _ => True end.

(** ** What operations leave alone *)

(** The state is the same and no state change was notified. *)
Record still (w w' : world) : Prop := {
  s_role : role (w_tsx w') = role (w_tsx w);
  s_method : method (w_tsx w') = method (w_tsx w);
  s_state : state (w_tsx w') = state (w_tsx w);
  s_layer : w_layer_up w' = w_layer_up w;
  s_dom : forall td, is_Some (w_tds w !! td) -> is_Some (w_tds w' !! td);
  s_log : exists l, w_log w' = w_log w ++ l /\ Forall silent l
}.

(** Moreover nothing changed that [tsx_ok] is about. *)
Record quiet (w w' : world) : Prop := {
  q_still : still w w';
  q_term : terminating (w_tsx w') = terminating (w_tsx w);
  q_last : is_Some (last_tx (w_tsx w)) -> is_Some (last_tx (w_tsx w'));
  q_send : has_flag (transport_flag (w_tsx w')) TSX_HAS_PENDING_SEND = true ->
           has_flag (transport_flag (w_tsx w)) TSX_HAS_PENDING_SEND = true;
  q_destroy : has_flag (transport_flag (w_tsx w')) TSX_HAS_PENDING_DESTROY = true ->
              has_flag (transport_flag (w_tsx w)) TSX_HAS_PENDING_DESTROY = true
}.

(** The state changed along legal edges, each notified as such. *)
Record ext (w w' : world) : Prop := {
  x_role : role (w_tsx w') = role (w_tsx w);
  x_method : method (w_tsx w') = method (w_tsx w);
  x_path : rtc (tsx_edge (role (w_tsx w)) (method (w_tsx w))) (state (w_tsx w)) (state (w_tsx w'));
  x_layer : w_layer_up w' = w_layer_up w;
  x_dom : forall td, is_Some (w_tds w !! td) -> is_Some (w_tds w' !! td);
  x_log : exists l, w_log w' = w_log w ++ l /\
            Forall (legal_effect (role (w_tsx w)) (method (w_tsx w))) l
}.

#[global] Instance still_preorder : PreOrder still.
Proof.
  split.
  - intros w. split; try done. exists []. by rewrite app_nil_r.
  - intros w1 w2 w3 [A1 A2 A3 A5 A6 (l & A7 & A8)] [B1 B2 B3 B5 B6 (l' & B7 & B8)].
    split; try congruence; [auto|]. exists (l ++ l'). rewrite B7, A7, app_assoc.
    split; [done|]. by apply Forall_app.
Qed.

#[global] Instance quiet_preorder : PreOrder quiet.
Proof.
  split.
  - intros w. by split.
  - intros w1 w2 w3 [A1 A2 A3 A4 A5] [B1 B2 B3 B4 B5].
    split; [by etrans|congruence|auto..].
Qed.

#[global] Instance ext_preorder : PreOrder ext.
Proof.
  split.
  - intros w. split; try done. exists []. by rewrite app_nil_r.
  - intros w1 w2 w3 [A1 A2 A3 A5 A6 (l & A7 & A8)] [B1 B2 B3 B5 B6 (l' & B7 & B8)].
    rewrite A1, A2 in *. split; try congruence; [by etrans|auto|].
    exists (l ++ l'). rewrite B7, A7, app_assoc. split; [done|]. by apply Forall_app.
Qed.

Lemma still_ext w w' : still w w' -> ext w w'.
Proof.
  intros [A1 A2 A3 A5 A6 (l & A7 & A8)]. split; try done; [by rewrite A3|].
  exists l. split; [done|]. eapply Forall_impl; [exact A8|]. by intros [].
Qed.

Lemma quiet_ext w w' : quiet w w' -> ext w w'.
Proof. intros []. by apply still_ext. Qed.

Lemma quiet_ok w w' : tsx_ok w -> core_ok w' -> quiet w w' -> tsx_ok w'.
Proof.
  intros [O1 O2 O3 O4 O5] Hc [[Q1 Q2 Q3 _ _ _] Q5 Q6 Q7 Q8].
  split; rewrite ?Q1, ?Q3, ?Q5; [done|by auto| |by auto|done].
  intros Ht. destruct (O3 Ht) as [Hs Hf]. split; [done|].
  destruct (has_flag (transport_flag (w_tsx w')) _) eqn:E; [|done]. by rewrite (Q7 eq_refl) in Hf.
Qed.

(** ** Operations related by a preorder *)

Definition rel_op (R : world -> world -> Prop) {A} (m : M A) : Prop :=
  forall w, core_ok w -> wp m (fun _ w' => core_ok w' /\ R w w') w.
Abbreviation quiet_op := (rel_op quiet).
Abbreviation still_op := (rel_op still).

Section RelOp.
Context (R : world -> world -> Prop) `{!PreOrder R}.

Lemma rel_bind {A B} (m : M A) (f : A -> M B) :
  rel_op R m -> (forall a, rel_op R (f a)) -> rel_op R (bind m f).
Proof.
  intros Hm Hf w Hw. apply wp_bind. eapply wp_mono; [by apply Hm|].
  intros a w1 [H1 Q1]. eapply wp_mono; [by apply Hf|].
  intros b w2 [H2 Q2]. split; [done|by etrans].
Qed.

Lemma rel_ret {A} (a : A) : rel_op R (ret a).
Proof. intros w Hw. by split. Qed.
Lemma rel_get {A} (f : pjsip_transaction -> A) : rel_op R (get f).
Proof. intros w Hw. by split. Qed.
Lemma rel_layer_up : rel_op R layer_up.
Proof. intros w Hw. by split. Qed.
Lemma rel_when b m : rel_op R m -> rel_op R (when b m).
Proof. intros. destruct b; [done|apply rel_ret]. Qed.
Lemma rel_if {A} (b : bool) (m1 m2 : M A) :
  rel_op R m1 -> rel_op R m2 -> rel_op R (if b then m1 else m2).
Proof. by destruct b. Qed.
End RelOp.

Lemma quiet_still {A} (m : M A) : quiet_op m -> still_op m.
Proof. intros Hm w Hw. eapply wp_mono; [by apply Hm|]. intros a w' [? []]. done. Qed.

(** A field update that neither relation mentions *)
Definition harmless (f : pjsip_transaction -> pjsip_transaction) : Prop := forall t,
  role (f t) = role t /\ method (f t) = method t /\ state (f t) = state t /\
  state_handler (f t) = state_handler t /\ last_tx (f t) = last_tx t /\
  (pending_tx (f t) = pending_tx t \/ pending_tx (f t) = None) /\ terminating (f t) = terminating t /\
  transport_flag (f t) = transport_flag t.

Lemma still_step w w' l :
  role (w_tsx w') = role (w_tsx w) -> method (w_tsx w') = method (w_tsx w) ->
  state (w_tsx w') = state (w_tsx w) -> w_layer_up w' = w_layer_up w ->
  (forall td, is_Some (w_tds w !! td) -> is_Some (w_tds w' !! td)) ->
  w_log w' = w_log w ++ l -> Forall silent l -> still w w'.
Proof. intros. split; try done. eauto. Qed.

Lemma quiet_put f : harmless f -> quiet_op (put f).
Proof.
  intros Hf w [W1 W2 W3 W4]. destruct (Hf (w_tsx w)) as (E1 & E2 & E3 & E4 & E5 & E6 & E7 & E8).
  split.
  - split; simpl; rewrite ?E1, ?E2, ?E3, ?E4, ?E5; try done.
    intros td. destruct E6 as [->| ->]; [apply W4|done].
  - split; simpl; rewrite ?E5, ?E7, ?E8; try done.
    apply (still_step _ _ []); simpl; rewrite ?app_nil_r; done.
Qed.

Lemma quiet_log e : silent e -> quiet_op (log e).
Proof.
  intros He w Hw. split; [by destruct Hw|]. split; simpl; try done.
  apply (still_step _ _ [e]); simpl; auto.
Qed.

Lemma insert_is_Some {A} (m : gmap Z A) td x y :
  is_Some (m !! x) -> is_Some (<[td := y]> m !! x).
Proof.
  intros Hx. destruct (decide (td = x)) as [->|Hne];
    [by rewrite lookup_insert_eq|by rewrite lookup_insert_ne].
Qed.

Lemma quiet_td_new td d : quiet_op (td_new td d).
Proof.
  intros w [W1 W2 W3 W4]. split; [split; simpl; eauto using insert_is_Some|].
  split; simpl; try done.
  apply (still_step _ _ []); simpl; rewrite ?app_nil_r; try done. intros. by apply insert_is_Some.
Qed.

Lemma quiet_td_put td f w :
  core_ok w -> is_Some (w_tds w !! td) -> wp (td_put td f) (fun _ w' => core_ok w' /\ quiet w w') w.
Proof.
  intros Hw [d Hd]. unfold wp, td_put. rewrite Hd. by apply (quiet_td_new td (f d) w).
Qed.

Lemma quiet_clear_flag f : quiet_op (clear_flag f).
Proof.
  intros w [W1 W2 W3 W4]. split; [by split|]. split; simpl; try done; try apply has_clear_imp.
  apply (still_step _ _ []); simpl; rewrite ?app_nil_r; done.
Qed.

Lemma quiet_set_flag f :
  Z.land f TSX_HAS_PENDING_SEND = 0 -> Z.land f TSX_HAS_PENDING_DESTROY = 0 -> quiet_op (set_flag f).
Proof.
  intros H1 H2 w [W1 W2 W3 W4]. split; [by split|]. split; simpl; rewrite ?has_set_other; try done.
  apply (still_step _ _ []); simpl; rewrite ?app_nil_r; done.
Qed.

Lemma still_put f :
  (forall t, role (f t) = role t /\ method (f t) = method t /\ state (f t) = state t /\
     state_handler (f t) = state_handler t /\ (last_tx (f t) = last_tx t \/ last_tx (f t) = None) /\
     pending_tx (f t) = pending_tx t) -> still_op (put f).
Proof.
  intros Hf w [W1 W2 W3 W4]. destruct (Hf (w_tsx w)) as (E1 & E2 & E3 & E4 & E5 & E6).
  split; [split; simpl; rewrite ?E1, ?E3, ?E4, ?E6; try done|].
  - intros td. destruct E5 as [->| ->]; [apply W3|done].
  - apply (still_step _ _ []); simpl; rewrite ?app_nil_r; done.
Qed.

Create HintDb quiet.
#[export] Hint Resolve rel_ret rel_get rel_layer_up rel_when rel_if quiet_log quiet_td_new
  quiet_clear_flag quiet_set_flag : quiet.
#[export] Hint Extern 1 (silent _) => exact I : quiet.
#[export] Hint Extern 1 (harmless _) => intros ?; simpl; tauto : quiet.
#[export] Hint Extern 1 (PreOrder _) => apply _ : quiet.
#[export] Hint Extern 1 (Z.land _ _ = 0) => reflexivity : quiet.
#[export] Hint Extern 1 (rel_op _ skip) => apply rel_ret : quiet.
#[export] Hint Extern 1 (rel_op _ (get_flag _)) => apply rel_get : quiet.
#[export] Hint Extern 2 (rel_op quiet (put _)) => apply quiet_put : quiet.
#[export] Hint Extern 3 (rel_op _ (bind _ _)) => apply rel_bind; [apply _| |intros ?] : quiet.
#[export] Hint Extern 4 (rel_op _ (match ?x with _ => _ end)) => destruct x : quiet.

(** [quiet_tac] unfolds the head operation and decomposes it. *)
Ltac quiet_tac := eauto 40 with quiet.

Lemma quiet_grp_lock_ref d : quiet_op (grp_lock_ref d).
Proof. unfold grp_lock_ref. quiet_tac. Qed.

Lemma harmless_set_timer e v : harmless (set_timer e v).
Proof. intros t. destruct e; simpl; tauto. Qed.
#[export] Hint Resolve quiet_grp_lock_ref harmless_set_timer : quiet.

Lemma quiet_cancel_timer e : quiet_op (cancel_timer_ e).
Proof. unfold cancel_timer_, tsx_cancel_timer. quiet_tac. Qed.

Lemma quiet_schedule_timer e d i : quiet_op (schedule_timer_ e d i).
Proof. unfold schedule_timer_, tsx_schedule_timer. quiet_tac. Qed.
#[export] Hint Resolve quiet_cancel_timer quiet_schedule_timer : quiet.

Lemma quiet_tp_state_callback st : quiet_op (tsx_tp_state_callback st).
Proof. unfold tsx_tp_state_callback. quiet_tac. Qed.
#[export] Hint Resolve quiet_tp_state_callback : quiet.

Lemma quiet_update_transport tp : quiet_op (tsx_update_transport tp).
Proof. unfold tsx_update_transport. quiet_tac. Qed.
#[export] Hint Resolve quiet_update_transport : quiet.

Lemma quiet_resched cfg : quiet_op (tsx_resched_retransmission cfg).
Proof. unfold tsx_resched_retransmission. quiet_tac. Qed.

Lemma quiet_status_code c : quiet_op (tsx_set_status_code c).
Proof. unfold tsx_set_status_code. quiet_tac. Qed.

Lemma quiet_notify_rx src : quiet_op (notify_rx_response src).
Proof. unfold notify_rx_response. quiet_tac. Qed.

Lemma quiet_unregister : quiet_op mod_tsx_layer_unregister_tsx.
Proof. unfold mod_tsx_layer_unregister_tsx. quiet_tac. Qed.
#[export] Hint Resolve quiet_resched quiet_status_code quiet_notify_rx quiet_unregister : quiet.

(** Running an operation that is known to be quiet or still *)
Lemma wp_quiet {A} (m : M A) (Q : A -> world -> Prop) w :
  quiet_op m -> tsx_ok w ->
  (forall a w', tsx_ok w' -> quiet w w' -> Q a w') -> wp m Q w.
Proof.
  intros Hm Hw HQ. eapply wp_mono; [apply Hm; auto|]. intros a w' [H1 H2].
  apply HQ; [by eapply quiet_ok|done].
Qed.

Lemma wp_core (R : world -> world -> Prop) {A} (m : M A) (Q : A -> world -> Prop) w :
  rel_op R m -> core_ok w -> (forall a w', core_ok w' -> R w w' -> Q a w') -> wp m Q w.
Proof. intros Hm Hw HQ. eapply wp_mono; [by apply Hm|]. intros a w' []. auto. Qed.

(** ** Shutdown *)

Lemma wp_get {A B} (f : pjsip_transaction -> A) (k : A -> M B) Q w :
  wp (k (f (w_tsx w))) Q w -> wp (bind (get f) k) Q w.
Proof. intros H. by apply wp_bind. Qed.

Lemma wp_put {B} f (k : unit -> M B) Q w :
  wp (k tt) Q (mk_world (f (w_tsx w)) (w_tds w) (w_log w) (w_layer_up w)) -> wp (bind (put f) k) Q w.
Proof. intros H. by apply wp_bind. Qed.

Lemma shutdown_last_tx w :
  core_ok w ->
  wp (match last_tx (w_tsx w) with
      | Some td => pjsip_tx_data_dec_ref td ;; put (set_last_tx None)
      | None => skip
      end)
    (fun _ w' => core_ok w' /\ still w w' /\ terminating (w_tsx w') = terminating (w_tsx w)) w.
Proof.
  intros Hw. destruct (last_tx (w_tsx w)) eqn:E; [|by split].
  apply wp_bind. eapply wp_mono; [apply quiet_td_put; [done|by eapply ok_last]|].
  intros _ w1 [H1 Q1].
  destruct (still_put (set_last_tx None) ltac:(intros; simpl; tauto) w1 H1) as [H2 Q2].
  split; [done|]. split; [etrans; [apply Q1|done]|]. apply Q1.
Qed.

Lemma has_clear_sub x f g : Z.land f g = g -> has_flag (Z.land x (Z.lnot f)) g = false.
Proof.
  intros H. unfold has_flag. rewrite <- H, <- Z.land_assoc, (Z.land_assoc (Z.lnot f)).
  by rewrite (Z.land_comm (Z.lnot f)), Z.land_lnot_diag, Z.land_0_l, Z.land_0_r.
Qed.

(** The end of [tsx_shutdown], after the timers are cancelled *)
Lemma shutdown_tail term w :
  core_ok w -> state_num PJSIP_TSX_STATE_TERMINATED <= state_num (state (w_tsx w)) ->
  terminating (w_tsx w) = term ->
  wp (clear_flag (Z.lor TSX_HAS_PENDING_RESCHED TSX_HAS_PENDING_SEND) ;;
      pend ← get_flag TSX_HAS_PENDING_TRANSPORT;
      when pend (set_flag TSX_HAS_PENDING_DESTROY ;; put (set_tsx_user None)) ;;
      when (negb term) (put (set_terminating true) ;; grp_lock_ref (-1)) ;;
      ret PJ_SUCCESS)
    (fun _ w' => tsx_ok w' /\ still w w' /\ terminating (w_tsx w') = true) w.
Proof.
  intros Hw Hs Ht. unfold clear_flag. apply wp_put. cbv beta.
  set (t1 := set_transport_flag _ (w_tsx w)).
  assert (Hsend : has_flag (transport_flag t1) TSX_HAS_PENDING_SEND = false) by by apply has_clear_sub.
  set (w1 := mk_world t1 _ _ _).
  assert (H1 : core_ok w1) by (by destruct Hw).
  assert (Q1 : still w w1) by (apply (still_step _ _ []); rewrite ?app_nil_r; done).
  assert (Hs1 : state_num PJSIP_TSX_STATE_TERMINATED <= state_num (state t1)) by done.
  assert (Ht1 : terminating t1 = term) by done.
  assert (Hfin : forall t, role t = role t1 -> method t = method t1 -> state t = state t1 ->
     state_handler t = state_handler t1 -> last_tx t = last_tx t1 -> pending_tx t = pending_tx t1 ->
     terminating t = true -> has_flag (transport_flag t) TSX_HAS_PENDING_SEND = false ->
     let w' := mk_world t (w_tds w) (w_log w) (w_layer_up w) in
     tsx_ok w' /\ still w w' /\ terminating t = true).
  { intros t E1 E2 E3 E4 E5 E6 E7 E8 w'. destruct H1 as [W1 W2 W3 W4].
    split_and!; [|etrans; [exact Q1|]; apply (still_step _ _ []); rewrite ?app_nil_r; done|done].
    split; simpl; rewrite ?E7; [|done|by rewrite E3|done|done].
    split; simpl; rewrite ?E1, ?E3, ?E4, ?E5, ?E6; done. }
  apply wp_get. cbn [w_tsx]. change (w_tsx w1) with t1.
  destruct (has_flag (transport_flag t1) TSX_HAS_PENDING_TRANSPORT), term; apply Hfin; try done;
    cbn -[has_flag]; by rewrite ?has_set_other.
Qed.

Lemma shutdown_spec w :
  core_ok w -> state_num PJSIP_TSX_STATE_TERMINATED <= state_num (state (w_tsx w)) ->
  wp tsx_shutdown (fun _ w' => tsx_ok w' /\ still w w' /\ terminating (w_tsx w') = true) w.
Proof.
  intros Hw Hs. unfold tsx_shutdown.
  apply wp_bind. eapply (wp_core quiet); [auto with quiet|done|]. intros _ w1 H1 Q1.
  apply wp_get. set (term := terminating (w_tsx w1)).
  apply wp_bind. eapply (wp_core quiet); [quiet_tac|done|]. intros _ w2 H2 Q2.
  apply wp_get. apply wp_bind. eapply wp_mono; [by apply shutdown_last_tx|].
  intros _ w3 (H3 & Q3 & T3).
  apply wp_bind. eapply (wp_core quiet); [auto with quiet|done|]. intros _ w4 H4 Q4.
  apply wp_bind. eapply (wp_core quiet); [auto with quiet|done|]. intros _ w5 H5 Q5.
  assert (Hst : still w w5) by
    (etrans; [apply Q1|]; etrans; [apply Q2|]; etrans; [apply Q3|]; etrans; [apply Q4|apply Q5]).
  eapply wp_mono; [apply shutdown_tail; [done|by rewrite (s_state _ _ Hst)|]|].
  - by rewrite (q_term _ _ Q5), (q_term _ _ Q4), T3, (q_term _ _ Q2).
  - intros _ w6 (H6 & Q6 & T6). split_and!; [done|by etrans|done].
Qed.

(** ** State changes *)

(** The assignments of [tsx_set_state] and its notifications *)
Lemma set_state_head new w :
  core_ok w -> valid_state (role (w_tsx w)) new ->
  let w1 := mk_world (set_state_handler (handler_for (role (w_tsx w)) new) (set_state new (w_tsx w)))
              (w_tds w) (w_log w) (w_layer_up w) in
  core_ok w1.
Proof. intros [W1 W2 W3 W4] Hv. by split. Qed.

Lemma notify_spec prev new src w :
  core_ok w -> tsx_edge (role (w_tsx w)) (method (w_tsx w)) prev new ->
  wp (notify_tsx_state prev new src)
    (fun _ w' => w_tsx w' = w_tsx w /\ w_tds w' = w_tds w /\ w_layer_up w' = w_layer_up w /\
       exists l, w_log w' = w_log w ++ l /\
         Forall (legal_effect (role (w_tsx w)) (method (w_tsx w))) l) w.
Proof.
  intros Hw He. unfold notify_tsx_state. apply wp_get.
  assert (Hnil : exists l, w_log w = w_log w ++ l /\
     Forall (legal_effect (role (w_tsx w)) (method (w_tsx w))) l)
    by (exists []; by rewrite app_nil_r).
  destruct (tsx_user (w_tsx w)) as [u|]; [|by split_and!].
  destruct (has_on_tsx_state u); [|by split_and!]. split_and!; try done. eexists; split; [done|].
  by apply Forall_singleton.
Qed.

Lemma notify_when b prev new src w :
  core_ok w -> tsx_edge (role (w_tsx w)) (method (w_tsx w)) prev new ->
  wp (when b (notify_tsx_state prev new src))
    (fun _ w' => core_ok w' /\ ext w w' /\ w_tsx w' = w_tsx w) w.
Proof.
  intros Hw He. destruct b; [|by split_and!].
  eapply wp_mono; [by apply notify_spec|]. intros _ w' (E1 & E2 & E3 & l & E4 & E5).
  destruct Hw as [W1 W2 W3 W4].
  split_and!; [split; by rewrite ?E1, ?E2| |done].
  split; rewrite ?E1, ?E2; try done. eauto.
Qed.

(** The part of [tsx_set_state] specific to the new state *)
Definition state_entry (new : pjsip_tsx_state_e) (flag : Z) : M unit :=
  match new with
  | PJSIP_TSX_STATE_TERMINATED =>
      pend ← get_flag TSX_HAS_PENDING_TRANSPORT;
      when pend (
        ptx ← get pending_tx;
        match ptx with
        | Some td => set_mod_data td false ;; put (set_pending_tx None)
        | None => skip
        end ;;
        clear_flag TSX_HAS_PENDING_TRANSPORT) ;;
      cancel_timer_ Timeout ;;
      when (Z.land flag NO_SCHEDULE_HANDLER =? 0) (schedule_timer_ Timeout tv_zero TIMEOUT_TIMER)
  | PJSIP_TSX_STATE_DESTROYED =>
      mod_tsx_layer_unregister_tsx ;; _ ← tsx_shutdown; skip
  | _ => skip
  end.

Lemma quiet_terminated_entry flag : quiet_op (state_entry PJSIP_TSX_STATE_TERMINATED flag).
Proof.
  apply rel_bind; [apply _|quiet_tac|intros pend].
  apply rel_bind; [apply _| |intros; quiet_tac].
  apply rel_when; [apply _|]. intros w Hw. apply wp_get. apply wp_bind.
  eapply (wp_mono _ (fun _ w' => core_ok w' /\ quiet w w')).
  - destruct (pending_tx (w_tsx w)) eqn:E; [|by split].
    apply wp_bind. eapply wp_mono; [apply quiet_td_put; [done|by eapply ok_pending]|].
    intros _ w1 [H1 Q1]. eapply (wp_core quiet); [quiet_tac|done|].
    intros _ w2 H2 Q2. split; [done|by etrans].
  - intros _ w1 [H1 Q1]. eapply (wp_core quiet); [quiet_tac|done|].
    intros _ w2 H2 Q2. split; [done|by etrans].
Qed.

Lemma state_entry_spec new flag w :
  core_ok w -> state (w_tsx w) = new -> (new <> PJSIP_TSX_STATE_DESTROYED -> tsx_ok w) ->
  wp (state_entry new flag) (fun _ w' => tsx_ok w' /\ still w w') w.
Proof.
  intros Hc Hs Hw. destruct (decide (new = PJSIP_TSX_STATE_DESTROYED)) as [->|Hd].
  - apply wp_bind. eapply (wp_core quiet); [auto with quiet|done|]. intros _ w1 H1 Q1.
    apply wp_bind. eapply wp_mono.
    + apply shutdown_spec; [done|]. rewrite (s_state _ _ (q_still _ _ Q1)), Hs. simpl. lia.
    + intros _ w2 (H2 & Q2 & _). split; [done|]. etrans; [apply Q1|done].
  - specialize (Hw Hd).
    destruct (decide (new = PJSIP_TSX_STATE_TERMINATED)) as [->|Ht].
    + eapply wp_quiet; [apply quiet_terminated_entry|done|]. intros _ w' H' Q'. split; [done|apply Q'].
    + assert (Hskip : wp skip (fun _ w' => tsx_ok w' /\ still w w') w) by (split; [done|reflexivity]).
      by destruct new.
Qed.

Lemma set_state_spec new src flag w :
  tsx_ok w -> tsx_edge (role (w_tsx w)) (method (w_tsx w)) (state (w_tsx w)) new ->
  (terminating (w_tsx w) = true -> state_num PJSIP_TSX_STATE_TERMINATED <= state_num new) ->
  wp (tsx_set_state new src flag)
    (fun _ w' => tsx_ok w' /\ ext w w' /\ state (w_tsx w') = new) w.
Proof.
  intros Hw He Ht. pose proof Hw as [Hc O2 O3 O4 O5].
  pose proof (tsx_edge_valid _ _ _ _ He (ok_valid _ Hc)) as Hv.
  pose proof (set_state_head new w Hc Hv) as Hc1. cbv zeta in Hc1.
  set (w1 := mk_world _ _ _ _) in Hc1.
  assert (Hx1 : ext w w1).
  { split; simpl; try done; [by apply rtc_once|]. exists []. by rewrite app_nil_r. }
  assert (Hgo : wp (when (Z.land flag NO_NOTIFY =? 0) (notify_rx_response src) ;;
     when (Z.land flag NO_NOTIFY =? 0) (notify_tsx_state (state (w_tsx w)) new src) ;;
     state_entry new flag) (fun _ w' => tsx_ok w' /\ ext w w' /\ state (w_tsx w') = new) w1).
  { apply wp_bind. eapply (wp_core quiet); [quiet_tac|done|]. intros _ w2 H2 Q2.
    pose proof Q2 as [[S1 S2 S3 S4 S5 S6] T1 T2 T3 T4].
    apply wp_bind. eapply wp_mono; [apply notify_when; [done|by rewrite S1, S2]|].
    intros _ w3 (H3 & X3 & E3).
    eapply wp_mono; [apply state_entry_spec; [done|by rewrite E3, S3|]|].
    - intros Hd. split; rewrite ?E3, ?S1, ?S3, ?T1; simpl; [done| | | |intros E; by destruct (Hd E)].
      + intros Hr Hterm. apply T2. simpl. auto.
      + intros Hterm. split; [auto|]. destruct (O3 Hterm) as [_ Hf].
        destruct (has_flag (transport_flag (w_tsx w2)) TSX_HAS_PENDING_SEND) eqn:E; [|done].
        specialize (T3 eq_refl). simpl in T3. congruence.
      + intros Hf. apply O4. by apply T4.
    - intros _ w4 [H4 Q4]. split_and!; [done| |by rewrite (s_state _ _ Q4), E3, S3].
      etrans; [exact Hx1|]. etrans; [by apply quiet_ext|]. etrans; [exact X3|]. by apply still_ext. }
  unfold tsx_set_state. apply wp_get, wp_put, wp_get, wp_put. exact Hgo.
Qed.
