(* ===== verification/TsxSend.v ===== *)
(** * Transactions: sending never gets stuck and changes state legally

    Specifications of [tsx_send_msg], [send_msg_callback], [transport_callback]
    and [tsx_retransmit] with respect to the invariant and the legal state
    changes of TsxInv.v, for every behaviour of the lower layers that the
    environment conditions [sync_report] and [async_report] admit. *)

From S2P Require Import Prelude PjTime SipTypes TsxData TsxOps TsxInv.

(** ** What the lower layers do *)

(** The callback gets the number of bytes sent, and a transport with it, or a
    negative error code. *)
Definition async_report (r : send_report) : Prop :=
  sr_sent r <> 0 /\ (0 < sr_sent r -> is_Some (sr_transport r)).

(** A transport that has just delivered a message does not refuse the next one
    within the same call: a condition on the transports, which the source does not
    check ([TsxProps.failed_resend_reopens] shows what happens without it). *)
Definition sync_report (r : send_report) : Prop :=
  async_report r /\ (0 < sr_sent r -> sr_resend r = PJ_SUCCESS \/ sr_resend r = PJ_EPENDING).

Definition env_ok (env : send_env) : Prop := Forall sync_report (env_reports env).

(** ** Fields that an operation keeps *)

Definition frame {B} (f : pjsip_transaction -> B) {A} (m : M A) : Prop :=
  forall w a w', m w = Some (a, w') -> f (w_tsx w') = f (w_tsx w).

Section Frame.
Context {B : Type} (f : pjsip_transaction -> B).

Lemma frame_bind {A C} (m : M A) (k : A -> M C) :
  frame f m -> (forall a, frame f (k a)) -> frame f (bind m k).
Proof.
  intros Hm Hk w c w' E. unfold bind in E. destruct (m w) as [[a w1]|] eqn:E1; [|done].
  rewrite (Hk a w1 c w' E). by eapply Hm.
Qed.
Lemma frame_ret {A} (a : A) : frame f (ret a).
Proof. by intros w b w' [= _ <-]. Qed.
Lemma frame_stuck {A} : frame f (stuck (A := A)).
Proof. by intros w b w'. Qed.
Lemma frame_get {A} (g : pjsip_transaction -> A) : frame f (get g).
Proof. by intros w b w' [= _ <-]. Qed.
Lemma frame_layer : frame f layer_up.
Proof. by intros w b w' [= _ <-]. Qed.
Lemma frame_put g : (forall t, f (g t) = f t) -> frame f (put g).
Proof. intros Hg w b w' [= _ <-]. apply Hg. Qed.
Lemma frame_log e : frame f (log e).
Proof. by intros w b w' [= _ <-]. Qed.
Lemma frame_td_put td g : frame f (td_put td g).
Proof. intros w b w'. unfold td_put. destruct (w_tds w !! td); [|done]. by intros [= _ <-]. Qed.
Lemma frame_td_get td : frame f (td_get td).
Proof. intros w b w'. unfold td_get. destruct (w_tds w !! td); [|done]. by intros [= _ <-]. Qed.
Lemma frame_td_new td d : frame f (td_new td d).
Proof. by intros w b w' [= _ <-]. Qed.
Lemma frame_when b m : frame f m -> frame f (when b m).
Proof. intros. destruct b; [done|apply frame_ret]. Qed.

Lemma wp_frame {A} (m : M A) (Q : A -> world -> Prop) w :
  frame f m -> wp m Q w -> wp m (fun a w' => Q a w' /\ f (w_tsx w') = f (w_tsx w)) w.
Proof.
  intros Hf. unfold wp. destruct (m w) as [[a w']|] eqn:E; [|done]. intros. by split; [|eapply Hf].
Qed.
End Frame.

Create HintDb frame.
#[export] Hint Resolve frame_ret frame_stuck frame_get frame_layer frame_log frame_td_put frame_td_get frame_td_new
  frame_when : frame.
#[export] Hint Extern 1 (frame _ skip) => apply frame_ret : frame.
#[export] Hint Extern 1 (frame _ (get_flag _)) => apply frame_get : frame.
#[export] Hint Extern 2 (frame _ (put _)) => apply frame_put; (reflexivity || (intros; reflexivity)) : frame.
#[export] Hint Extern 3 (frame _ (bind _ _)) => apply frame_bind; [|intros ?] : frame.
#[export] Hint Extern 4 (frame _ (match ?x with _ => _ end)) => destruct x : frame.
#[export] Hint Extern 2 (frame _ (set_flag _)) => unfold set_flag : frame.
#[export] Hint Extern 2 (frame _ (clear_flag _)) => unfold clear_flag : frame.
#[export] Hint Extern 2 (frame _ (grp_lock_ref _)) => unfold grp_lock_ref : frame.

Ltac frame_tac := eauto 60 with frame.

Lemma frame_set_timer {B} (f : pjsip_transaction -> B) e :
  (forall v t, f (set_retransmit_timer v t) = f t) -> (forall v t, f (set_timeout_timer v t) = f t) ->
  (forall n t, f (set_grp_ref n t) = f t) ->
  frame f (cancel_timer_ e) /\ forall d i, frame f (schedule_timer_ e d i).
Proof.
  intros H1 H2 H3.
  assert (Hp : forall v, frame f (put (set_timer e v)))
    by (intros; apply frame_put; intros; destruct e; simpl; auto).
  assert (Hg : forall d, frame f (grp_lock_ref d)) by (intros; apply frame_put; auto).
  unfold cancel_timer_, tsx_cancel_timer, schedule_timer_, tsx_schedule_timer. 
  split; [|intros]; frame_tac.
Qed.

Lemma frame_err_timers e :
  frame transport_err (cancel_timer_ e) /\ forall d i, frame transport_err (schedule_timer_ e d i).
Proof. by apply frame_set_timer. Qed.

Lemma frame_tp_timers e :
  frame transport (cancel_timer_ e) /\ forall d i, frame transport (schedule_timer_ e d i).
Proof. by apply frame_set_timer. Qed.

(** A state change to TERMINATED keeps the transport error code. *)
Lemma frame_err_terminated src flag :
  frame transport_err (tsx_set_state PJSIP_TSX_STATE_TERMINATED src flag).
Proof.
  destruct (frame_err_timers Timeout) as [Hc Hs].
  unfold tsx_set_state, notify_rx_response, notify_tsx_state, set_mod_data. frame_tac.
Qed.

Lemma update_transport_some n w :
  wp (tsx_update_transport (Some n)) (fun _ w' => transport (w_tsx w') = Some n) w.
Proof.
  unfold tsx_update_transport. apply wp_get, wp_bind.
  eapply (wp_mono _ (fun _ _ => True)); [by destruct (transport (w_tsx w))|]. intros _ w1 _.
  apply wp_put. apply wp_bind. unfold wp at 1; simpl.
  destruct (frame_tp_timers Timeout) as [Hc Hs].
  set (w2 := mk_world _ _ _ _). change (Some n) with (transport (w_tsx w2)).
  assert (Hf : frame transport (when (tp_is_shutdown n) (tsx_tp_state_callback PJSIP_SC_TSX_TRANSPORT_ERROR)))
    by (unfold tsx_tp_state_callback; frame_tac).
  unfold wp. destruct (when _ _ w2) as [[a w3]|] eqn:E; [by eapply Hf|].
  exfalso. destruct (tp_is_shutdown n); [|done]. revert E.
  unfold when, tsx_tp_state_callback, cancel_timer_, tsx_cancel_timer, schedule_timer_,
    tsx_schedule_timer, bind, put, get, grp_lock_ref, ret, skip; simpl.
  by repeat (destruct (pj_timer_entry_running _); simpl).
Qed.

(** ** tsx_send_msg *)

(** The outcome of sending: the invariant holds, and the state is the same
    unless an error is returned after the transaction was terminated. *)
Definition sent_ok (w : world) (a : Z) (w' : world) : Prop :=
  tsx_ok w' /\ ext w w' /\
  (state (w_tsx w') = state (w_tsx w) \/
   (a <> PJ_SUCCESS /\ state (w_tsx w') = PJSIP_TSX_STATE_TERMINATED)).

Lemma quiet_state w w' : quiet w w' -> state (w_tsx w') = state (w_tsx w).
Proof. intros []. by apply s_state. Qed.

Lemma sent_ok_trans w w1 a w' : quiet w w1 -> sent_ok w1 a w' -> sent_ok w a w'.
Proof.
  intros Q (H1 & H2 & H3). split; [done|]. split; [etrans; [by apply quiet_ext|done]|].
  by rewrite (quiet_state _ _ Q) in H3.
Qed.

Lemma sent_ok_quiet w a w' : tsx_ok w' -> quiet w w' -> sent_ok w a w'.
Proof.
  intros H Q. split; [done|]. split; [by apply quiet_ext|]. left. by apply quiet_state.
Qed.

Lemma set_send_flag_spec w :
  tsx_ok w -> terminating (w_tsx w) = false ->
  wp (set_flag TSX_HAS_PENDING_SEND) (fun _ w' => tsx_ok w' /\ still w w') w.
Proof.
  intros [[W1 W2 W3 W4] O2 O3 O4 O5] Ht. split.
  - split; simpl; rewrite ?Ht; [by split|by auto|done| |by rewrite <- Ht].
    rewrite has_set_other by done. by rewrite <- Ht.
  - apply (still_step _ _ []); simpl; rewrite ?app_nil_r; done.
Qed.

Lemma wp_td_get {B} td (k : pjsip_tx_data -> M B) Q w d :
  w_tds w !! td = Some d -> wp (k d) Q w -> wp (bind (td_get td) k) Q w.
Proof. intros Hd H. apply wp_bind. unfold wp, td_get. by rewrite Hd. Qed.

(** A live transaction may be terminated. *)
Lemma terminate_spec src flag w :
  tsx_ok w -> terminating (w_tsx w) = false ->
  wp (tsx_set_state PJSIP_TSX_STATE_TERMINATED src flag)
    (fun _ w' => tsx_ok w' /\ ext w w' /\ state (w_tsx w') = PJSIP_TSX_STATE_TERMINATED) w.
Proof.
  intros Hw Ht. apply set_state_spec; [done| |done]. apply edge_terminated.
  intros E. by rewrite (ok_destroyed _ Hw E) in Ht.
Qed.

Definition resolved (t : pjsip_transaction) : bool :=
  has_flag (transport_flag t) TSX_HAS_RESOLVED_SERVER.

Lemma frame_resolved_set f : Z.land f TSX_HAS_RESOLVED_SERVER = 0 -> frame resolved (set_flag f).
Proof. intros Hf. apply frame_put. intros t. unfold resolved. simpl. by apply has_set_other. Qed.

Lemma frame_resolved_clear f : Z.land f TSX_HAS_RESOLVED_SERVER = 0 -> frame resolved (clear_flag f).
Proof. intros Hf. apply frame_put. intros t. unfold resolved. simpl. by apply has_clear_other. Qed.

Lemma frame_resolved_update tp : frame resolved (tsx_update_transport tp).
Proof.
  destruct (frame_set_timer resolved Timeout) as [Hc Hs]; [done..|].
  unfold tsx_update_transport, tsx_tp_state_callback. frame_tac.
Qed.

Lemma frame_resolved_send sent td t : frame resolved (send_on_transport sent td t).
Proof.
  pose proof (frame_resolved_set TSX_HAS_PENDING_TRANSPORT eq_refl).
  pose proof (frame_resolved_clear TSX_HAS_PENDING_TRANSPORT eq_refl).
  pose proof (frame_resolved_update None).
  unfold send_on_transport. frame_tac.
Qed.

Lemma quiet_send_on_transport sent td t : quiet_op (send_on_transport sent td t).
Proof. unfold send_on_transport. quiet_tac. Qed.

Section SendCore.
Context (stateless : Z -> M Z) (sent td : Z).

Lemma send_core_spec w :
  tsx_ok w -> terminating (w_tsx w) = false -> is_Some (w_tds w !! td) ->
  (resolved (w_tsx w) = false -> forall w1, tsx_ok w1 -> quiet w w1 ->
     wp (stateless td) (sent_ok w1) w1) ->
  wp (send_core stateless sent td) (sent_ok w) w.
Proof.
  intros Hw Ht [d Hd] Hst. unfold send_core, get_flag at 1. apply wp_get.
  destruct (has_flag _ _).
  { apply wp_bind. eapply wp_mono; [by apply set_send_flag_spec|]. intros _ w' [H' Q'].
    split; [done|]. split; [by apply still_ext|]. left. apply Q'. }
  apply (wp_td_get _ _ _ _ d Hd). destruct (td_pending d); [by apply sent_ok_quiet|].
  apply wp_get. apply wp_bind.
  assert (Hmid : wp match transport (w_tsx w) with
       | Some t => send_on_transport sent td t | None => ret PJ_SUCCESS end
     (fun _ w1 => (tsx_ok w1 /\ quiet w w1) /\ resolved (w_tsx w1) = resolved (w_tsx w)) w).
  { apply wp_frame; destruct (transport (w_tsx w)); auto using frame_resolved_send, frame_ret.
    - by eapply wp_quiet; [apply quiet_send_on_transport|..].
    - by split. }
  eapply wp_mono; [exact Hmid|]. intros status w1 [[H1 Q1] R1].
  destruct (_ && _); [by apply sent_ok_quiet|].
  apply wp_get. destruct (has_flag _ _) eqn:Hres.
  - apply wp_bind. eapply wp_quiet; [auto with quiet|done|]. intros _ w2 H2 Q2.
    assert (Q12 : quiet w w2) by by etrans.
    apply wp_bind. eapply wp_mono; [apply terminate_spec; [done|by rewrite (q_term _ _ Q12)]|].
    intros _ w3 (H3 & X3 & S3). apply (sent_ok_trans w w2); [done|].
    split; [done|]. split; [done|]. right. split; [|done].
    by destruct (Z.eqb_spec status PJ_SUCCESS).
  - eapply wp_mono; [apply Hst; [by rewrite <- R1|done|done]|]. intros a w' Hs.
    by apply (sent_ok_trans w w1).
Qed.

(** With a transport that accepts the message the state stays. *)
Lemma send_core_accepted w :
  tsx_ok w -> terminating (w_tsx w) = false -> is_Some (w_tds w !! td) ->
  is_Some (transport (w_tsx w)) -> sent = PJ_SUCCESS \/ sent = PJ_EPENDING ->
  wp (send_core stateless sent td) (fun _ w' => tsx_ok w' /\ still w w') w.
Proof.
  intros Hw Ht [d Hd] [t Htp] Hs. unfold send_core, get_flag at 1. apply wp_get.
  destruct (has_flag _ _).
  { apply wp_bind. by eapply wp_mono; [by apply set_send_flag_spec|]. }
  apply (wp_td_get _ _ _ _ d Hd). destruct (td_pending d); [by split|].
  apply wp_get. rewrite Htp. apply wp_bind.
  assert (Hst : wp (send_on_transport sent td t) (fun a _ => a = PJ_SUCCESS) w)
    by (by destruct Hs as [->| ->]).
  assert (Hq : wp (send_on_transport sent td t) (fun _ w' => tsx_ok w' /\ quiet w w') w)
    by (eapply wp_quiet; [apply quiet_send_on_transport|done|done]).
  unfold wp in Hst, Hq |- * at 1. destruct (send_on_transport sent td t w) as [[a w1]|]; [|done].
  subst a. split; [apply Hq|apply Hq].
Qed.
End SendCore.

(** ** The pending message sent from [send_msg_callback] *)

Lemma send_pending_spec resend w :
  tsx_ok w -> terminating (w_tsx w) = false -> resolved (w_tsx w) = true ->
  wp (tsx_send_pending resend (last_tx (w_tsx w))) (sent_ok w) w.
Proof.
  intros Hw Ht Hres. unfold tsx_send_pending, send_opt.
  destruct (last_tx (w_tsx w)) as [td|] eqn:El; [|by apply sent_ok_quiet].
  apply send_core_spec; [done|done|by eapply ok_last; [apply Hw|]|congruence].
Qed.

Lemma send_pending_accepted resend w :
  tsx_ok w -> terminating (w_tsx w) = false -> is_Some (transport (w_tsx w)) ->
  resend = PJ_SUCCESS \/ resend = PJ_EPENDING ->
  wp (tsx_send_pending resend (last_tx (w_tsx w))) (fun _ w' => tsx_ok w' /\ still w w') w.
Proof.
  intros Hw Ht Htp Hr. unfold tsx_send_pending, send_opt.
  destruct (last_tx (w_tsx w)) as [td|] eqn:El; [|by split].
  apply send_core_accepted; [done|done|by eapply ok_last; [apply Hw|]|done|done].
Qed.

(** ** send_msg_callback *)

Section Configured.
Context (cfg : tsx_cfg).

Lemma bind_spec r w :
  tsx_ok w -> is_Some (sr_transport r) ->
  wp (callback_bind r) (fun _ w' => (tsx_ok w' /\ quiet w w') /\ is_Some (transport (w_tsx w'))) w.
Proof.
  intros Hw [n Hn]. unfold callback_bind. apply wp_get. rewrite Hn.
  destruct (tp_same (transport (w_tsx w)) (Some n)) eqn:Es; simpl.
  { split; [by split|]. by destruct (transport (w_tsx w)). }
  assert (Hu : wp (tsx_update_transport (Some n))
     (fun _ w' => (tsx_ok w' /\ quiet w w') /\ transport (w_tsx w') = Some n) w).
  { assert (H1 : wp (tsx_update_transport (Some n)) (fun _ w' => tsx_ok w' /\ quiet w w') w)
      by (by eapply wp_quiet; [auto with quiet|..]).
    pose proof (update_transport_some n w) as H2. unfold wp in *.
    by destruct (tsx_update_transport (Some n) w) as [[a w']|]. }
  apply wp_bind. eapply wp_mono; [exact Hu|]. intros _ w1 [[H1 Q1] T1].
  apply wp_put. apply wp_get. cbn [w_tsx transport set_addr_len]. rewrite T1.
  apply wp_bind. unfold deref, ret, wp at 1.
  destruct (quiet_put (set_addr_len (sr_addr_len r)) ltac:(intros ?; simpl; tauto) w1 (ok_core _ H1))
    as [C2 Q2].
  destruct (quiet_put (set_is_reliable (tp_reliable n)) ltac:(intros ?; simpl; tauto) _ C2) as [C3 Q3].
  assert (Q : quiet w1 (mk_world (set_is_reliable (tp_reliable n) (set_addr_len (sr_addr_len r) (w_tsx w1)))
                          (w_tds w1) (w_log w1) (w_layer_up w1))) by (etrans; [exact Q2|exact Q3]).
  split; [split; [by eapply quiet_ok|by etrans]|]. simpl. by rewrite T1.
Qed.

Lemma quiet_callback_resched : quiet_op (callback_resched cfg).
Proof. unfold callback_resched. quiet_tac. Qed.

(** A terminated state stays one. *)
Lemma shut_state w : tsx_ok w -> terminating (w_tsx w) = true ->
  state (w_tsx w) = PJSIP_TSX_STATE_TERMINATED \/ state (w_tsx w) = PJSIP_TSX_STATE_DESTROYED.
Proof.
  intros Hw Ht. destruct (ok_term _ Hw Ht) as [Hs _].
  destruct (state (w_tsx w)); simpl in Hs; auto; lia.
Qed.

Lemma destroy_spec src w :
  tsx_ok w -> terminating (w_tsx w) = true ->
  wp (tsx_set_state PJSIP_TSX_STATE_DESTROYED src 0) (fun _ w' => tsx_ok w' /\ ext w w') w.
Proof.
  intros Hw Ht. eapply wp_mono.
  - apply set_state_spec; [done|apply edge_destroyed; by apply shut_state|by intros].
  - intros _ w' (? & ? & _). done.
Qed.

(** The last part of [callback_sent], given what the pending message does *)
Lemma send_then_resched r w (R : world -> world -> Prop) `{!PreOrder R} :
  (forall w1 w2, quiet w1 w2 -> R w1 w2) -> tsx_ok w ->
  (has_flag (transport_flag (w_tsx w)) TSX_HAS_PENDING_SEND = true -> forall w1, tsx_ok w1 -> quiet w w1 ->
     transport (w_tsx w1) = transport (w_tsx w) -> resolved (w_tsx w1) = resolved (w_tsx w) ->
     wp (tsx_send_pending (sr_resend r) (last_tx (w_tsx w1))) (fun _ w' => tsx_ok w' /\ R w1 w') w1) ->
  wp (send ← get_flag TSX_HAS_PENDING_SEND;
      when send (
        clear_flag TSX_HAS_PENDING_SEND ;;
        ltx ← get last_tx; _ ← tsx_send_pending (sr_resend r) ltx; skip) ;;
      callback_resched cfg) (fun _ w' => tsx_ok w' /\ R w w') w.
Proof.
  intros HR Hw Hsend. apply wp_get. apply wp_bind.
  apply (wp_mono _ (fun _ w' => tsx_ok w' /\ R w w')).
  - destruct (has_flag _ _) eqn:Hf; [|by split]. specialize (Hsend eq_refl).
    apply wp_bind.
    assert (Hc : wp (clear_flag TSX_HAS_PENDING_SEND) (fun _ w1 => ((tsx_ok w1 /\ quiet w w1) /\
       transport (w_tsx w1) = transport (w_tsx w)) /\ resolved (w_tsx w1) = resolved (w_tsx w)) w).
    { apply wp_frame; [by apply frame_resolved_clear|].
      apply wp_frame; [frame_tac|]. by eapply wp_quiet; [auto with quiet|..]. }
    eapply wp_mono; [exact Hc|]. intros _ w1 [[[H1 Q1] T1] R1].
    apply wp_get, wp_bind. eapply wp_mono; [by apply Hsend|].
    intros _ w2 [H2 Q2]. split; [done|]. etrans; [by apply HR|done].
  - intros _ w1 [H1 Q1]. eapply wp_quiet; [apply quiet_callback_resched|done|].
    intros _ w2 H2 Q2. split; [done|]. etrans; [done|by apply HR].
Qed.

(** The part of [callback_sent] before the pending message *)
Lemma callback_sent_head r w (Q : unit -> world -> Prop) k :
  tsx_ok w -> is_Some (sr_transport r) ->
  (forall w1, tsx_ok w1 -> quiet w w1 -> is_Some (transport (w_tsx w1)) -> resolved (w_tsx w1) = true ->
     wp k Q w1) ->
  wp (callback_bind r ;; clear_flag TSX_HAS_PENDING_TRANSPORT ;; set_flag TSX_HAS_RESOLVED_SERVER ;; k) Q w.
Proof.
  intros Hw Htp Hk. apply wp_bind. eapply wp_mono; [by apply bind_spec|]. intros _ w1 [[H1 Q1] T1].
  apply wp_bind.
  assert (Hc : wp (clear_flag TSX_HAS_PENDING_TRANSPORT)
    (fun _ w2 => (tsx_ok w2 /\ quiet w1 w2) /\ transport (w_tsx w2) = transport (w_tsx w1)) w1)
    by (apply wp_frame; [frame_tac|]; by eapply wp_quiet; [auto with quiet|..]).
  eapply wp_mono; [exact Hc|]. intros _ w2 [[H2 Q2] T2]. apply wp_put.
  destruct (quiet_set_flag TSX_HAS_RESOLVED_SERVER eq_refl eq_refl w2 (ok_core _ H2)) as [C3 Q3].
  apply Hk; [by eapply quiet_ok|by do 2 (etrans; [done|])| |].
  - simpl. by rewrite T2.
  - unfold resolved. simpl. by apply has_set_same.
Qed.

(** Successful report: at any time, *)
Lemma callback_sent_spec r w :
  tsx_ok w -> is_Some (sr_transport r) ->
  wp (callback_sent cfg r) (fun _ w' => tsx_ok w' /\ ext w w') w.
Proof.
  intros Hw Htp. unfold callback_sent. apply callback_sent_head; [done|done|].
  intros w1 H1 Q1 T1 R1. apply wp_get. destruct (has_flag _ _) eqn:Hd.
  - eapply wp_mono; [apply destroy_spec; [done|by apply ok_destroy]|].
    intros _ w2 [H2 X2]. split; [done|]. etrans; [by apply quiet_ext|done].
  - eapply wp_mono; [apply (send_then_resched r w1 ext); [by apply quiet_ext|done|]|].
    + intros Hs w2 H2 Q2 T2 R2. eapply wp_mono; [apply send_pending_spec; [done| |congruence]|].
      * rewrite (q_term _ _ Q2). destruct (terminating (w_tsx w1)) eqn:Ht; [|done].
        destruct (ok_term _ H1 Ht) as [_ Hf]. congruence.
      * intros a w3 (? & ? & _). done.
    + intros _ w2 [H2 X2]. split; [done|]. etrans; [by apply quiet_ext|done].
Qed.

(** and within the call that sent the message. *)
Lemma callback_sent_sync r w :
  tsx_ok w -> terminating (w_tsx w) = false -> sync_report r -> 0 < sr_sent r ->
  wp (callback_sent cfg r) (fun _ w' => tsx_ok w' /\ still w w') w.
Proof.
  intros Hw Ht [[_ Htp] Hre] Hs. unfold callback_sent. apply callback_sent_head; [done|auto|].
  intros w1 H1 Q1 T1 R1. apply wp_get. destruct (has_flag _ _) eqn:Hd.
  - pose proof (ok_destroy _ H1 Hd) as E. rewrite (q_term _ _ Q1) in E. congruence.
  - eapply wp_mono; [apply (send_then_resched r w1 still); [by intros ?? []|done|]|].
    + intros _ w2 H2 Q2 T2 R2. apply send_pending_accepted; [done| |by rewrite T2|auto].
      rewrite (q_term _ _ Q2), (q_term _ _ Q1). done.
    + intros _ w2 [H2 X2]. split; [done|]. etrans; [apply Q1|done].
Qed.
(** What a report does to a transaction that is not terminated yet *)
Definition reported (r : send_report) (w w' : world) : Prop :=
  state (w_tsx w') = state (w_tsx w) \/
  (state (w_tsx w') = PJSIP_TSX_STATE_TERMINATED /\ transport_err (w_tsx w') <> 0 /\ sr_cont r = false).

Lemma quiet_callback_retry td w :
  tsx_ok w -> is_Some (w_tds w !! td) ->
  wp (callback_retry cfg td) (fun _ w' => tsx_ok w' /\ quiet w w') w.
Proof.
  intros Hw Htd. unfold callback_retry. apply wp_bind. eapply wp_quiet; [quiet_tac|done|]. intros _ w1 H1 Q1.
  apply wp_get, wp_bind. eapply wp_quiet; [quiet_tac|done|]. intros _ w2 H2 Q2.
  assert (Q02 : quiet w w2) by by etrans.
  pose proof (s_dom _ _ (q_still _ _ Q02) td Htd) as Htd2.
  apply wp_bind. eapply wp_mono; [by apply quiet_td_put; [apply H2|]|]. intros _ w3 [C3 Q3].
  pose proof (s_dom _ _ (q_still _ _ Q3) td Htd2) as Htd3.
  apply wp_put. set (w4 := mk_world _ _ _ _).
  assert (C4 : core_ok w4).
  { destruct C3 as [W1 W2 W3 W4]. split; simpl; try done. by intros x [= <-]. }
  assert (Q4 : quiet w3 w4)
    by (split; simpl; try done; apply (still_step _ _ []); simpl; rewrite ?app_nil_r; done).
  assert (Q04 : quiet w w4) by (do 2 (etrans; [done|]); done).
  eapply wp_quiet; [auto with quiet|by eapply quiet_ok; [exact Hw|..]|].
  intros _ w5 H5 Q5. split; [done|by etrans].
Qed.

Lemma quiet_callback_give_up r : quiet_op (callback_give_up r).
Proof. unfold callback_give_up. quiet_tac. Qed.

Lemma give_up_spec r w :
  tsx_ok w ->
  wp (callback_give_up r) (fun _ w' => (tsx_ok w' /\ quiet w w') /\ transport_err (w_tsx w') = - sr_sent r) w.
Proof.
  intros Hw.
  assert (H1 : wp (callback_give_up r) (fun _ w' => tsx_ok w' /\ quiet w w') w)
    by (by eapply wp_quiet; [apply quiet_callback_give_up|..]).
  assert (H2 : wp (callback_give_up r) (fun _ w' => transport_err (w_tsx w') = - sr_sent r) w) by done.
  unfold wp in *. by destruct (callback_give_up r w) as [[a w']|].
Qed.

Lemma callback_failed_spec td r w :
  tsx_ok w -> is_Some (w_tds w !! td) -> sr_sent r <> 0 ->
  wp (callback_failed cfg td r) (fun _ w' => tsx_ok w' /\ ext w w' /\
     (terminating (w_tsx w) = false -> state (w_tsx w) <> PJSIP_TSX_STATE_TERMINATED -> reported r w w')) w.
Proof.
  intros Hw Htd Hs. unfold callback_failed. apply wp_get, wp_bind.
  eapply wp_quiet; [auto with quiet|done|]. intros _ w1 H1 Q1. apply wp_get.
  set (destroy := has_flag _ _).
  destruct (negb (sr_cont r) || destroy) eqn:Hc.
  2:{ eapply wp_mono; [apply quiet_callback_retry; [done|by apply (s_dom _ _ (q_still _ _ Q1))]|].
      intros _ w2 [H2 Q2]. assert (Q : quiet w w2) by by etrans.
      split_and!; [done|by apply quiet_ext|]. intros _ _. left. by apply quiet_state. }
  apply wp_bind. eapply wp_mono; [by apply give_up_spec|]. intros _ w2 [[H2 Q2] E2].
  assert (Q : quiet w w2) by by etrans. rewrite <- (quiet_state _ _ Q) in *.
  assert (Hcont : terminating (w_tsx w) = false -> sr_cont r = false).
  { intros Ht. destruct destroy eqn:Hd; [|by destruct (sr_cont r)].
    pose proof (ok_destroy _ H1 Hd) as E. rewrite (q_term _ _ Q1) in E. congruence. }
  apply wp_get. destruct (_ && _) eqn:Hst.
  - apply andb_true_iff in Hst as [S1%negb_true_iff%bool_decide_eq_false S2%negb_true_iff%bool_decide_eq_false].
    assert (wp (tsx_set_state PJSIP_TSX_STATE_TERMINATED Src_transport_error 0)
      (fun _ w' => (tsx_ok w' /\ ext w2 w' /\ state (w_tsx w') = PJSIP_TSX_STATE_TERMINATED) /\
         transport_err (w_tsx w') = transport_err (w_tsx w2)) w2) as Hgo.
    { apply wp_frame; [apply frame_err_terminated|].
      apply set_state_spec; [done|by apply edge_terminated|done]. }
    eapply wp_mono; [exact Hgo|]. intros _ w3 [(H3 & X3 & S3) E3].
    split_and!; [done|etrans; [by apply quiet_ext|done]|].
    intros Ht _. right. split_and!; [done|rewrite E3, E2; lia|auto].
  - apply andb_false_iff in Hst. destruct destroy eqn:Hd; simpl.
    + pose proof (ok_destroy _ H1 Hd) as E. rewrite (q_term _ _ Q1) in E.
      eapply wp_mono; [apply destroy_spec; [done|by rewrite (q_term _ _ Q)]|].
      intros _ w3 [H3 X3]. split_and!; [done|etrans; [by apply quiet_ext|done]|congruence].
    + split_and!; [done|by apply quiet_ext|]. intros _ _. left. by apply quiet_state.
Qed.

Lemma send_msg_callback_spec td r w :
  tsx_ok w -> is_Some (w_tds w !! td) -> async_report r ->
  wp (send_msg_callback cfg td r) (fun cont w' => tsx_ok w' /\ ext w w' /\
     (state_num (state (w_tsx w)) < state_num PJSIP_TSX_STATE_TERMINATED -> sync_report r ->
      reported r w w' /\ (cont = true -> sr_cont r = true))) w.
Proof.
  intros Hw [d Hd] [Hr1 Hr2]. unfold send_msg_callback. apply wp_bind. unfold wp at 1; simpl.
  destruct (w_layer_up w); simpl.
  2:{ split_and!; [done|done|]. intros _ _. split; [by left|done]. }
  apply (wp_td_get _ _ _ _ d Hd). destruct (td_mod d); simpl.
  2:{ apply wp_bind. eapply wp_quiet; [auto with quiet|done|]. intros _ w1 H1 Q1.
      split_and!; [done|by apply quiet_ext|]. intros _ _. split; [|done]. left. by apply quiet_state. }
  apply wp_bind. eapply wp_quiet; [auto with quiet|done|]. intros _ w1 H1 Q1.
  pose proof (s_dom _ _ (q_still _ _ Q1) td ltac:(by eexists)) as Htd1.
  apply wp_bind. eapply wp_mono; [by apply quiet_td_put; [apply H1|]|]. intros _ w2 [C2 Q2].
  assert (H2 : tsx_ok w2) by by eapply quiet_ok.
  pose proof (s_dom _ _ (q_still _ _ Q2) td Htd1) as Htd2.
  apply wp_bind. eapply wp_quiet; [quiet_tac|done|]. intros _ w3 H3 Q3.
  pose proof (s_dom _ _ (q_still _ _ Q3) td Htd2) as Htd3.
  assert (Q : quiet w w3) by (do 2 (etrans; [done|]); done).
  assert (Hlive : state_num (state (w_tsx w)) < state_num PJSIP_TSX_STATE_TERMINATED ->
     terminating (w_tsx w3) = false /\ state (w_tsx w3) <> PJSIP_TSX_STATE_TERMINATED).
  { intros Hl. rewrite <- (quiet_state _ _ Q) in Hl. split; [|intros E; rewrite E in Hl; simpl in Hl; lia].
    destruct (terminating (w_tsx w3)) eqn:Ht; [|done]. destruct (ok_term _ H3 Ht). lia. }
  assert (Hx : forall w4, ext w3 w4 -> ext w w4) by (intros; etrans; [by apply quiet_ext|done]).
  assert (Hrep : forall w4, reported r w3 w4 -> reported r w w4)
    by (unfold reported; by rewrite (quiet_state _ _ Q)).
  apply wp_bind. destruct (Z.ltb_spec 0 (sr_sent r)) as [Hs|Hs].
  - destruct (decide (state_num (state (w_tsx w)) < state_num PJSIP_TSX_STATE_TERMINATED /\
                      (sr_resend r = PJ_SUCCESS \/ sr_resend r = PJ_EPENDING))) as [[Hl Hre]|Hn].
    + eapply wp_mono; [apply (callback_sent_sync r w3 H3); [by apply Hlive|by split|done]|].
      intros _ w4 [H4 Q4]. split_and!; [done|by apply Hx, still_ext|].
      intros _ _. split; [|done]. apply Hrep. left. apply Q4.
    + eapply wp_mono; [apply (callback_sent_spec r w3 H3); auto|].
      intros _ w4 [H4 X4]. split_and!; [done|auto|]. intros Hl [_ Hre]. tauto.
  - eapply wp_mono; [by apply callback_failed_spec|].
    intros _ w4 (H4 & X4 & S4). split_and!; [done|auto|].
    intros Hl _. destruct (Hlive Hl). split; [|done]. apply Hrep. auto.
Qed.

(** ** tsx_send_msg in a live transaction *)

Definition live (w : world) : Prop :=
  state_num (state (w_tsx w)) < state_num PJSIP_TSX_STATE_TERMINATED.

Lemma live_terminating w : tsx_ok w -> live w -> terminating (w_tsx w) = false.
Proof.
  intros Hw Hl. destruct (terminating (w_tsx w)) eqn:Ht; [|done].
  destruct (ok_term _ Hw Ht). unfold live in Hl. lia.
Qed.

Lemma run_reports_spec td rs w :
  tsx_ok w -> is_Some (w_tds w !! td) -> live w -> Forall sync_report rs ->
  wp (run_reports cfg td rs) (fun _ w' => tsx_ok w' /\ ext w w' /\
     (state (w_tsx w') = state (w_tsx w) \/
      (state (w_tsx w') = PJSIP_TSX_STATE_TERMINATED /\ transport_err (w_tsx w') <> 0))) w.
Proof.
  revert w. induction rs as [|r rs IH]; intros w Hw Htd Hl Hrs.
  { split_and!; [done|done|by left]. }
  apply Forall_cons in Hrs as [Hr Hrs]. cbn [run_reports]. apply wp_bind.
  eapply wp_mono; [apply send_msg_callback_spec; [done|done|apply Hr]|].
  intros cont w1 (H1 & X1 & S1). destruct (S1 Hl Hr) as [Hrep Hcont].
  destruct (cont && _) eqn:Hc.
  - apply andb_true_iff in Hc as [-> _]. destruct Hrep as [E|(_ & _ & E)];
      [|by rewrite (Hcont eq_refl) in E].
    eapply wp_mono; [apply IH; [done|by apply (x_dom _ _ X1)|by unfold live; rewrite E|done]|].
    intros _ w2 (H2 & X2 & S2). split_and!; [done|by etrans|]. by rewrite E in S2.
  - split_and!; [done|done|]. destruct Hrep as [E|(E1 & E2 & _)]; auto.
Qed.

Lemma send_detach_spec request td w :
  core_ok w -> is_Some (w_tds w !! td) ->
  wp (send_detach request td) (fun _ w' => core_ok w' /\ quiet w w') w.
Proof.
  intros Hw Htd. unfold send_detach.
  apply wp_bind. eapply (wp_core quiet); [quiet_tac|done|]. intros _ w1 H1 Q1.
  pose proof (s_dom _ _ (q_still _ _ Q1) td Htd) as Htd1.
  apply wp_bind. eapply wp_mono; [by apply quiet_td_put|]. intros _ w2 [H2 Q2].
  pose proof (s_dom _ _ (q_still _ _ Q2) td Htd1) as Htd2.
  apply wp_bind. eapply wp_mono; [by apply quiet_td_put|]. intros _ w3 [H3 Q3].
  eapply (wp_core quiet); [quiet_tac|done|]. intros _ w4 H4 Q4.
  split; [done|]. do 3 (etrans; [done|]). done.
Qed.

Lemma send_attach_spec td w :
  tsx_ok w -> is_Some (w_tds w !! td) ->
  wp (send_attach td) (fun _ w' => tsx_ok w' /\ quiet w w') w.
Proof.
  intros Hw Htd. unfold send_attach.
  apply wp_bind. eapply wp_mono; [by apply quiet_td_put; [apply Hw|]|]. intros _ w1 [C1 Q1].
  pose proof (s_dom _ _ (q_still _ _ Q1) td Htd) as Htd1.
  apply wp_bind. eapply wp_mono; [by apply quiet_td_put|]. intros _ w2 [C2 Q2].
  pose proof (s_dom _ _ (q_still _ _ Q2) td Htd1) as Htd2.
  apply wp_put. set (w3 := mk_world _ _ _ _).
  assert (C3 : core_ok w3).
  { destruct C2 as [W1 W2 W3 W4]. split; simpl; try done. by intros x [= <-]. }
  assert (Q3 : quiet w2 w3)
    by (split; simpl; try done; apply (still_step _ _ []); simpl; rewrite ?app_nil_r; done).
  eapply (wp_core quiet); [auto with quiet|done|]. intros _ w4 C4 Q4.
  assert (Q : quiet w w4) by (do 3 (etrans; [done|]); done).
  split; [by eapply quiet_ok|done].
Qed.

Lemma send_stateless_spec env td w :
  tsx_ok w -> is_Some (w_tds w !! td) -> live w -> env_ok env ->
  wp (send_stateless cfg env td) (sent_ok w) w.
Proof.
  intros Hw Htd Hl He. unfold send_stateless.
  apply wp_bind. eapply wp_mono; [by apply send_attach_spec|]. intros _ w1 [H1 Q1].
  pose proof (s_dom _ _ (q_still _ _ Q1) td Htd) as [d Hd].
  apply (wp_td_get _ _ _ _ d Hd).
  apply wp_bind. eapply wp_quiet; [auto with quiet|done|]. intros _ w2 H2 Q2.
  apply wp_bind. eapply wp_quiet; [apply quiet_log; by destruct (td_msg d)|done|]. intros _ w3 H3 Q3.
  assert (Q : quiet w w3) by (do 2 (etrans; [done|]); done).
  apply wp_bind. eapply wp_mono.
  { apply run_reports_spec; [done|by apply (s_dom _ _ (q_still _ _ Q))| |exact He].
    unfold live. by rewrite (quiet_state _ _ Q). }
  intros _ w4 (H4 & X4 & S4). cbv zeta. set (status := if env_status env =? PJ_EPENDING then PJ_SUCCESS else env_status env).
  pose proof (x_dom _ _ X4 td (s_dom _ _ (q_still _ _ Q) td Htd)) as Htd4.
  apply wp_bind.
  apply (wp_mono _ (fun (_ : unit) w5 => (tsx_ok w5 /\ quiet w4 w5) /\ transport_err (w_tsx w5) = transport_err (w_tsx w4))).
  { apply wp_frame; [unfold send_detach, set_mod_data, pjsip_tx_data_dec_ref; frame_tac|].
    destruct (negb _); [|by split].
    eapply wp_mono; [apply send_detach_spec; [apply H4|done]|]. intros _ w5 [C5 Q5].
    split; [by eapply quiet_ok|done]. }
  intros _ w5 [[H5 Q5] E5].
  assert (X5 : ext w w5) by (etrans; [by apply quiet_ext|]; etrans; [done|by apply quiet_ext]).
  rewrite (quiet_state _ _ Q) in S4.
  assert (S5 : state (w_tsx w5) = state (w_tsx w) \/
     (state (w_tsx w5) = PJSIP_TSX_STATE_TERMINATED /\ transport_err (w_tsx w5) <> 0))
    by (by rewrite (quiet_state _ _ Q5), E5).
  assert (Hnt : state (w_tsx w) <> PJSIP_TSX_STATE_TERMINATED)
    by (intros E; unfold live in Hl; rewrite E in Hl; simpl in Hl; lia).
  apply wp_get. destruct (Z.eqb_spec status PJ_SUCCESS) as [Es|Es]; simpl.
  - case_bool_decide as Eb.
    + split_and!; [done|done|]. right. destruct S5 as [E|[_ E]]; [congruence|done].
    + split_and!; [done|done|]. left. by destruct S5 as [E|[E _]].
  - split_and!; [done|done|]. destruct S5 as [E|[E _]]; auto.
Qed.

Lemma tsx_send_msg_spec env td w :
  tsx_ok w -> is_Some (w_tds w !! td) -> live w -> env_ok env ->
  wp (tsx_send_msg cfg env td) (sent_ok w) w.
Proof.
  intros Hw Htd Hl He. unfold tsx_send_msg.
  apply send_core_spec; [done|by apply live_terminating|done|].
  intros _ w1 H1 Q1. apply send_stateless_spec; [done|by apply (s_dom _ _ (q_still _ _ Q1))| |done].
  unfold live. by rewrite (quiet_state _ _ Q1).
Qed.

Lemma quiet_transport_callback sent : quiet_op (transport_callback sent).
Proof. unfold transport_callback. quiet_tac. Qed.

Lemma tsx_retransmit_spec env resched w :
  tsx_ok w -> live w -> env_ok env -> wp (tsx_retransmit cfg env resched) (sent_ok w) w.
Proof.
  intros Hw Hl He. unfold tsx_retransmit. apply wp_get.
  destruct (resched && _); [by apply sent_ok_quiet|]. apply wp_get.
  destruct (last_tx (w_tsx w)) as [td|] eqn:El; [|by apply sent_ok_quiet].
  pose proof (ok_last _ (ok_core _ Hw) _ El) as Htd.
  apply wp_bind. eapply wp_quiet; [quiet_tac|done|]. intros _ w1 H1 Q1.
  apply wp_bind. eapply wp_quiet; [quiet_tac|done|]. intros _ w2 H2 Q2.
  assert (Q : quiet w w2) by by etrans.
  eapply wp_mono; [apply tsx_send_msg_spec; [done|by apply (s_dom _ _ (q_still _ _ Q))| |done]|].
  - unfold live. by rewrite (quiet_state _ _ Q).
  - intros a w3. by apply sent_ok_trans.
Qed.

End Configured.
