(* ===== verification/TsxSafe.v ===== *)
(** * Transactions: every event is handled, with legal state changes only

    The state handlers keep the invariant of TsxInv.v and move the state along
    legal edges, whatever message or timer event they get and whatever the
    lower layers do; the same for the functions of the transaction user, the
    callbacks and the timers, and so for every execution of a transaction. *)

From S2P Require Import Prelude PjTime SipTypes TsxData TsxOps TsxHandlers TsxInv TsxSend.

(** ** Reasoning from a known state *)

Definition good {A} (w : world) : A -> world -> Prop := fun _ w' => tsx_ok w' /\ ext w w'.

Record at_state (r : pjsip_role_e) (s : pjsip_tsx_state_e) (w : world) : Prop := {
  at_ok : tsx_ok w;
  at_role : role (w_tsx w) = r;
  at_st : state (w_tsx w) = s
}.

Lemma at_quiet r s w w' : at_state r s w -> tsx_ok w' -> quiet w w' -> at_state r s w'.
Proof.
  intros [A1 A2 A3] H Q. destruct Q as [[Q1 Q2 Q3 Q4 Q5 Q6] _ _ _ _]. split; [done|congruence..].
Qed.

Lemma at_live r s w : at_state r s w -> state_num s < 6 -> live w.
Proof. intros [_ _ E]. unfold live. by rewrite E. Qed.

Lemma good_trans {A} w w1 a w' : ext w w1 -> good (A := A) w1 a w' -> good w a w'.
Proof. intros X [H X']. split; [done|by etrans]. Qed.

Section At.
Context {A B : Type} (r : pjsip_role_e) (s : pjsip_tsx_state_e) (w : world).

Lemma at_wp_bind (m : M A) (k : A -> M B) :
  wp m (fun _ w1 => tsx_ok w1 /\ quiet w w1) w -> at_state r s w ->
  (forall a w1, at_state r s w1 -> quiet w w1 -> wp (k a) (good w1) w1) -> wp (bind m k) (good w) w.
Proof.
  intros Hm Hat Hk. apply wp_bind. eapply wp_mono; [exact Hm|]. intros a w1 [H1 Q1].
  eapply wp_mono; [apply Hk; [by eapply at_quiet|done]|]. intros b w2. apply good_trans. by apply quiet_ext.
Qed.

Lemma at_bind (m : M A) (k : A -> M B) :
  quiet_op m -> at_state r s w ->
  (forall a w1, at_state r s w1 -> quiet w w1 -> wp (k a) (good w1) w1) -> wp (bind m k) (good w) w.
Proof.
  intros Hm Hat. apply at_wp_bind; [|done]. eapply wp_quiet; [done|apply Hat|done].
Qed.

Lemma at_get (f : pjsip_transaction -> A) (k : A -> M B) :
  wp (k (f (w_tsx w))) (good w) w -> wp (bind (get f) k) (good w) w.
Proof. apply wp_get. Qed.

Lemma at_ret (a : A) : at_state r s w -> wp (ret a) (good w) w.
Proof. intros Hat. split; [apply Hat|done]. Qed.

Lemma at_set_state new src flag (k : unit -> M B) :
  at_state r s w -> state_num s < 6 -> tsx_edge r (method (w_tsx w)) s new ->
  (forall u w1, at_state r new w1 -> ext w w1 -> wp (k u) (good w1) w1) ->
  wp (bind (tsx_set_state new src flag) k) (good w) w.
Proof.
  intros Hat Hl He Hk. apply wp_bind. destruct Hat as [H1 H2 H3].
  assert (Hlive : live w) by (unfold live; by rewrite H3).
  eapply wp_mono; [apply set_state_spec; [done|by rewrite H2, H3|]|].
  - intros Ht. rewrite (live_terminating _ H1 Hlive) in Ht. done.
  - intros u w1 (H4 & X4 & S4). eapply wp_mono; [apply Hk; [|done]|].
    + split; [done|by rewrite (x_role _ _ X4)|done].
    + intros b w2. by apply good_trans.
Qed.
End At.

Lemma at_set_state_last r s w new src flag :
  at_state r s w -> state_num s < 6 -> tsx_edge r (method (w_tsx w)) s new ->
  wp (tsx_set_state new src flag) (good w) w.
Proof.
  intros Hat Hl He. assert (H : wp (bind (tsx_set_state new src flag) ret) (good w) w).
  { eapply at_set_state; [done|done|done|]. intros [] w1 Hat1 X1. by eapply at_ret. }
  unfold wp, bind in *. by destruct (tsx_set_state new src flag w) as [[[] w']|].
Qed.

Section Configured.
Context (cfg : tsx_cfg).

(** ** Sending, then going on when it worked *)

Lemma at_then_ok r s w env td (k : M Z) :
  at_state r s w -> state_num s < 6 -> is_Some (w_tds w !! td) -> env_ok env ->
  (forall w1, at_state r s w1 -> ext w w1 -> wp k (good w1) w1) ->
  wp (then_ok (tsx_send_msg cfg env td) k) (good w) w.
Proof.
  intros Hat Hl Htd He Hk. unfold then_ok. apply wp_bind.
  eapply wp_mono; [apply tsx_send_msg_spec; [apply Hat|done|by eapply at_live|done]|].
  intros a w1 (H1 & X1 & S1). destruct (Z.eqb_spec a PJ_SUCCESS) as [->|Ha]; [|by split].
  destruct S1 as [S1|[? _]]; [|done].
  eapply wp_mono; [apply Hk; [|done]|intros b w2; by apply good_trans].
  destruct Hat as [_ A2 A3]. split; [done|by rewrite (x_role _ _ X1)|congruence].
Qed.

Lemma at_retransmit r s w env resched :
  at_state r s w -> state_num s < 6 -> env_ok env -> wp (tsx_retransmit cfg env resched) (good w) w.
Proof.
  intros Hat Hl He. eapply wp_mono; [apply tsx_retransmit_spec; [apply Hat|by eapply at_live|done]|].
  intros a w1 (H1 & X1 & _). by split.
Qed.

Lemma at_send r s w env td :
  at_state r s w -> state_num s < 6 -> is_Some (w_tds w !! td) -> env_ok env ->
  wp (tsx_send_msg cfg env td) (good w) w.
Proof.
  intros Hat Hl Htd He. eapply wp_mono; [apply tsx_send_msg_spec; [apply Hat|done|by eapply at_live|done]|].
  intros a w1 (H1 & X1 & _). by split.
Qed.

(** ** Quiet steps of the handlers *)

Lemma quiet_restart d : quiet_op (restart_timeout d).
Proof. unfold restart_timeout. quiet_tac. Qed.

Lemma quiet_sched_or_pend d : quiet_op (sched_or_pend d).
Proof. unfold sched_or_pend. quiet_tac. Qed.

Lemma quiet_is_invite : quiet_op is_invite.
Proof. apply rel_get; apply _. Qed.
#[local] Hint Resolve quiet_restart quiet_sched_or_pend quiet_is_invite : quiet.

Lemma save_tx_spec td w :
  tsx_ok w -> is_Some (w_tds w !! td) -> wp (save_tx td) (fun _ w' => tsx_ok w' /\ quiet w w') w.
Proof.
  intros Hw Htd. unfold save_tx. apply wp_get. destruct (negb _); [|by split].
  unfold when. apply wp_put. set (w1 := mk_world _ _ _ _).
  assert (C1 : core_ok w1).
  { destruct Hw as [[W1 W2 W3 W4] _ _ _ _]. split; simpl; try done. by intros x [= <-]. }
  assert (Q1 : quiet w w1)
    by (split; simpl; try done; apply (still_step _ _ []); simpl; rewrite ?app_nil_r; done).
  eapply wp_mono; [by apply quiet_td_put|]. intros _ w2 [C2 Q2].
  assert (Q : quiet w w2) by by etrans. split; [by eapply quiet_ok|done].
Qed.

(** Dropping the old message leaves [last_tx] NULL for a while; only a server
    transaction may stay so. *)
Lemma drop_other_tx_spec td w :
  core_ok w ->
  wp (drop_other_tx td) (fun _ w' => core_ok w' /\ still w w' /\
     terminating (w_tsx w') = terminating (w_tsx w) /\
     transport_flag (w_tsx w') = transport_flag (w_tsx w)) w.
Proof.
  intros Hw. unfold drop_other_tx. apply wp_get.
  destruct (last_tx (w_tsx w)) as [x|] eqn:El; [|by split_and!].
  destruct (negb _); [|by split_and!]. unfold when. apply wp_bind.
  apply (wp_mono _ (fun (_ : unit) w1 => ((core_ok w1 /\ quiet w w1) /\
     terminating (w_tsx w1) = terminating (w_tsx w)) /\ transport_flag (w_tsx w1) = transport_flag (w_tsx w))).
  { apply wp_frame; [apply frame_td_put|]. apply wp_frame; [apply frame_td_put|].
    apply quiet_td_put; [done|by eapply ok_last]. }
  intros _ w1 [[[C1 Q1] T1] F1].
  destruct (still_put (set_last_tx None) ltac:(intros; simpl; tauto) w1 C1) as [C2 Q2].
  split_and!; [done|etrans; [apply Q1|done]|done|done].
Qed.

Lemma drop_other_tx_uas td w :
  tsx_ok w -> role (w_tsx w) = PJSIP_ROLE_UAS ->
  wp (drop_other_tx td) (fun _ w' => tsx_ok w' /\ still w w') w.
Proof.
  intros Hw Hr. eapply wp_mono; [apply drop_other_tx_spec, Hw|].
  intros _ w1 (C1 & [S1 S2 S3 S4 S5 S6] & T1 & F1). destruct Hw as [_ O2 O3 O4 O5].
  split; [|by split]. split; rewrite ?S1, ?S3, ?T1, ?F1; try done. congruence.
Qed.

Lemma replace_tx_spec td w :
  tsx_ok w -> is_Some (w_tds w !! td) ->
  wp (drop_other_tx td ;; save_tx td) (fun _ w' => tsx_ok w' /\ quiet w w') w.
Proof.
  intros Hw Htd. apply wp_bind. eapply wp_mono; [apply drop_other_tx_spec, Hw|].
  intros _ w1 (C1 & S1 & T1 & F1). unfold save_tx. apply wp_get.
  assert (Hgo : forall w2, core_ok w2 -> still w1 w2 -> terminating (w_tsx w2) = terminating (w_tsx w1) ->
     transport_flag (w_tsx w2) = transport_flag (w_tsx w1) -> is_Some (last_tx (w_tsx w2)) ->
     tsx_ok w2 /\ quiet w w2).
  { intros w2 C2 S2 T2 F2 L2.
    assert (Q : quiet w w2) by (split; [by etrans|congruence|by intros|by rewrite F2, F1|by rewrite F2, F1]).
    split; [by eapply quiet_ok|done]. }
  destruct (bool_decide _) eqn:Eb; simpl.
  { apply bool_decide_eq_true in Eb. apply Hgo; (done || by rewrite Eb). }
  unfold when. apply wp_put. set (w2 := mk_world _ _ _ _).
  pose proof (s_dom _ _ S1 td Htd) as Htd1.
  assert (C2 : core_ok w2).
  { destruct C1 as [W1 W2 W3 W4]. split; simpl; try done. by intros x [= <-]. }
  assert (S2 : still w1 w2) by (apply (still_step _ _ []); simpl; rewrite ?app_nil_r; done).
  apply (wp_mono _ (fun (_ : unit) w3 => (core_ok w3 /\ quiet w2 w3) /\
     (terminating (w_tsx w3), transport_flag (w_tsx w3), last_tx (w_tsx w3)) =
     (terminating (w_tsx w2), transport_flag (w_tsx w2), last_tx (w_tsx w2)))).
  { apply (wp_frame (fun t => (terminating t, transport_flag t, last_tx t))); [apply frame_td_put|].
    by apply quiet_td_put. }
  intros _ w3 [[C3 Q3] [= T3 F3 L3]].
  apply Hgo; [done|etrans; [done|apply Q3]|by rewrite T3|by rewrite F3|by rewrite L3].
Qed.

(** ** The handlers *)

Lemma null_good env w r :
  at_state r PJSIP_TSX_STATE_NULL w -> env_ok env ->
  (forall td, r = PJSIP_ROLE_UAC -> is_Some (w_tds w !! td) ->
     wp (tsx_on_state_null cfg env (Ev_tx_msg td)) (good w) w) /\
  (forall rd, wp (tsx_on_state_null cfg env (Ev_rx_msg rd)) (good w) w) /\
  (forall e, r = PJSIP_ROLE_UAC -> wp (tsx_on_state_null cfg env (Ev_timer e)) (good w) w).
Proof.
  intros Hat He. pose proof (at_role _ _ _ Hat) as Hr. split_and!.
  - intros td -> Htd. unfold tsx_on_state_null. apply wp_get. rewrite Hr.
    assert (Hrep := replace_tx_spec td w (at_ok _ _ _ Hat) Htd).
    unfold wp in Hrep; unfold bind at 1 in Hrep.
    unfold wp; unfold bind at 1.
    destruct (drop_other_tx td w) as [[[] w1]|] eqn:E1; [|done].
    change (wp (bind (save_tx td) (fun _ => then_ok (tsx_send_msg cfg env td) (
      restart_timeout (timeout_timer_val cfg) ;; rel ← get is_reliable;
      when (negb rel) (sched_or_pend (t1_timer_val cfg)) ;;
      tsx_set_state PJSIP_TSX_STATE_CALLING (Src_tx td) 0 ;; ret PJ_SUCCESS))) (good w) w1).
    apply wp_bind. unfold wp at 1. destruct (save_tx td w1) as [[[] w2]|]; [|done].
    destruct Hrep as [H2 Q2].
    eapply wp_mono; [|intros ? ?; apply good_trans; by apply quiet_ext].
    assert (Hat2 : at_state PJSIP_ROLE_UAC PJSIP_TSX_STATE_NULL w2) by by eapply at_quiet.
    eapply at_then_ok; [exact Hat2|simpl; lia|by apply (s_dom _ _ (q_still _ _ Q2))|done|].
    intros w3 Hat3 X3.
    eapply at_bind; [auto with quiet|exact Hat3|]. intros _ w4 Hat4 _. apply at_get.
    eapply at_bind; [auto with quiet|exact Hat4|]. intros _ w5 Hat5 _.
    eapply at_set_state; [exact Hat5|simpl; lia|by constructor|].
    intros _ w6 Hat6 _. by eapply at_ret.
  - intros rd. unfold tsx_on_state_null. apply wp_get. rewrite Hr.
    destruct r; [by eapply at_ret|].
    eapply at_set_state; [exact Hat|simpl; lia|by constructor|]. intros _ w1 Hat1 _. by eapply at_ret.
  - intros e ->. unfold tsx_on_state_null. apply wp_get. rewrite Hr. by eapply at_ret.
Qed.

(** [astep] runs the next quiet step, [aset] the next state change. *)
Ltac astep :=
  eapply at_bind; [quiet_tac|eassumption|];
  let Hat := fresh "Hat" in let Q := fresh "Q" in intros ? ?w Hat Q.
Ltac aset edge :=
  eapply at_set_state; [eassumption|simpl; lia|edge|];
  let Hat := fresh "Hat" in let X := fresh "X" in intros ? ?w Hat X.
Ltac adone := by (eapply at_ret; eassumption).

Definition uac_early (s : pjsip_tsx_state_e) : Prop :=
  s = PJSIP_TSX_STATE_PROCEEDING \/ s = PJSIP_TSX_STATE_CALLING.

Lemma uac_early_live s : uac_early s -> state_num s < 6.
Proof. intros [->| ->]; simpl; lia. Qed.

Lemma uac_success_good r s w rd :
  at_state r s w -> uac_early s -> wp (uac_success cfg rd) (good w) w.
Proof.
  intros Hat Hs. pose proof (uac_early_live s Hs). unfold uac_success, is_invite.
  astep. apply at_get. case_bool_decide.
  - eapply at_set_state; [exact Hat0|done|constructor; by destruct Hs as [->| ->]|]. intros _ w1 Hat1 _. adone.
  - apply at_get. astep. astep.
    eapply at_set_state; [exact Hat2|done|constructor; unfold uac_early in Hs; tauto|]. intros _ w3 Hat3 _. adone.
Qed.
(** The ACK: created and sent without a state change, or an error *)
Definition ack_sent (w : world) (a : Z + option Z) (w' : world) : Prop :=
  good w a w' /\
  match a with
  | inl _ => True
  | inr x => state (w_tsx w') = state (w_tsx w) /\
             (method (w_tsx w) = PJSIP_INVITE_METHOD -> exists td, x = Some td /\ is_Some (w_tds w' !! td))
  end.

Lemma uac_send_ack_good s w env rd :
  at_state PJSIP_ROLE_UAC s w -> state_num s < 6 -> env_ok env ->
  wp (uac_send_ack cfg env rd) (ack_sent w) w.
Proof.
  intros Hat Hl He. unfold uac_send_ack, is_invite. apply wp_get. case_bool_decide as Hm.
  2:{ split; [by split; [apply Hat|]|]. by split. }
  apply wp_get. destruct Hat as [Hw Hr Hst].
  assert (Hlive : live w) by (unfold live; by rewrite Hst).
  destruct (ok_uac_last _ Hw Hr (live_terminating _ Hw Hlive)) as [td Htd]. rewrite Htd.
  apply wp_bind. unfold wp at 1, deref, ret.
  apply wp_bind. eapply wp_quiet; [auto with quiet|done|]. intros _ w1 H1 Q1.
  destruct (env_ack env) as [e|a].
  { split; [split; [done|by apply quiet_ext]|done]. }
  apply wp_bind.
  assert (Hn : wp (td_new a (mk_tdata (Request PJSIP_ACK_METHOD) 1 false false))
     (fun _ w2 => (tsx_ok w2 /\ quiet w1 w2) /\ is_Some (w_tds w2 !! a)) w1).
  { assert (H := quiet_td_new a (mk_tdata (Request PJSIP_ACK_METHOD) 1 false false) w1 (ok_core _ H1)).
    unfold wp, td_new in *. destruct H as [C2 Q2]. split; [split; [by eapply quiet_ok|done]|].
    simpl. by rewrite lookup_insert_eq. }
  eapply wp_mono; [exact Hn|]. intros _ w2 [[H2 Q2] Ha].
  assert (Q : quiet w w2) by by etrans.
  apply wp_bind. eapply wp_mono; [apply tsx_send_msg_spec; [done|done| |done]|].
  { unfold live. by rewrite (quiet_state _ _ Q). }
  intros status w3 (H3 & X3 & S3). rewrite (quiet_state _ _ Q) in S3.
  assert (X : ext w w3) by (etrans; [by apply quiet_ext|done]).
  destruct (Z.eqb_spec status PJ_SUCCESS) as [->|Hs]; (split; [by split|]); [|done].
  destruct S3 as [S3|[? _]]; [|done]. split; [done|]. intros _. exists a. split; [done|].
  by apply (x_dom _ _ X3).
Qed.

Lemma uac_keep_ack_quiet s w ack :
  at_state PJSIP_ROLE_UAC s w -> state_num s < 6 ->
  (method (w_tsx w) = PJSIP_INVITE_METHOD -> exists td, ack = Some td /\ is_Some (w_tds w !! td)) ->
  wp (uac_keep_ack ack) (fun _ w' => tsx_ok w' /\ quiet w w') w.
Proof.
  intros [Hw Hr Hst] Hl Hack. unfold uac_keep_ack, is_invite. apply wp_get, wp_get.
  case_bool_decide as Hm; [|by split]. destruct (negb _); [|by split].
  destruct (Hack Hm) as (a & -> & Ha).
  assert (Hlive : live w) by (unfold live; by rewrite Hst).
  destruct (ok_uac_last _ Hw Hr (live_terminating _ Hw Hlive)) as [td Htd]. rewrite Htd.
  apply wp_bind. unfold wp at 1, deref, ret, when.
  apply wp_bind. eapply wp_mono; [apply quiet_td_put; [apply Hw|by eapply ok_last; [apply Hw|]]|].
  intros _ w1 [C1 Q1]. pose proof (s_dom _ _ (q_still _ _ Q1) a Ha) as Ha1.
  unfold wp, put. set (w2 := mk_world _ _ _ _).
  assert (C2 : core_ok w2).
  { destruct C1 as [W1 W2 W3 W4]. split; simpl; try done. by intros x [= <-]. }
  assert (Q2 : quiet w1 w2)
    by (split; simpl; try done; apply (still_step _ _ []); simpl; rewrite ?app_nil_r; done).
  assert (Q : quiet w w2) by by etrans. split; [by eapply quiet_ok|done].
Qed.

Lemma uac_final_failure_good s w env rd :
  at_state PJSIP_ROLE_UAC s w -> uac_early s -> env_ok env ->
  wp (uac_final_failure cfg env rd) (good w) w.
Proof.
  intros Hat Hs He. pose proof (uac_early_live s Hs) as Hl. unfold uac_final_failure. astep. astep.
  apply wp_bind. eapply wp_mono; [by eapply uac_send_ack_good|].
  intros ack w2 [Hg Ha]. eapply wp_mono; [|intros b w3; apply good_trans, Hg].
  destruct ack as [status|x]; [by split; [apply Hg|]|]. destruct Ha as [S2 Hdom].
  assert (Hat2 : at_state PJSIP_ROLE_UAC s w2).
  { destruct Hg as [H2 X2], Hat1 as [_ A2 A3]. split; [done|by rewrite (x_role _ _ X2)|congruence]. }
  eapply at_set_state; [exact Hat2|done|constructor; unfold uac_early in Hs; tauto|].
  intros _ w3 Hat3 X3.
  eapply at_wp_bind; [eapply uac_keep_ack_quiet; [exact Hat3|simpl; lia|]|exact Hat3|].
  { intros Hm. rewrite (x_method _ _ X3), (x_method _ _ (proj2 Hg)) in Hm.
    destruct (Hdom Hm) as (td & -> & Htd). exists td. split; [done|]. by apply (x_dom _ _ X3). }
  intros _ w4 Hat4 _. apply at_get. unfold is_invite. apply at_get. astep. adone.
Qed.

Lemma proceeding_uac_good s w env ev :
  at_state PJSIP_ROLE_UAC s w -> uac_early s -> env_ok env ->
  wp (tsx_on_state_proceeding_uac cfg env ev) (good w) w.
Proof.
  intros Hat Hs He. pose proof (uac_early_live s Hs) as Hl.
  destruct ev as [rd|td|[]]; unfold tsx_on_state_proceeding_uac; cbv beta iota.
  - destruct (rd_msg rd) as [m|code m]; [adone|]. astep.
    destruct (PJSIP_IS_STATUS_IN_CLASS code 100).
    { eapply at_set_state; [eassumption|done|constructor; unfold uac_early in Hs; tauto|].
      intros _ w1 Hat1 _. adone. }
    destruct (PJSIP_IS_STATUS_IN_CLASS code 200); [by eapply uac_success_good|].
    destruct (_ && _); [by eapply uac_final_failure_good|adone].
  - adone.
  - by eapply at_retransmit.
  - astep. eapply at_set_state; [eassumption|done|constructor; by destruct Hs as [->| ->]|].
    intros _ w1 Hat1 _. adone.
Qed.

Lemma calling_good w env ev :
  at_state PJSIP_ROLE_UAC PJSIP_TSX_STATE_CALLING w -> env_ok env ->
  wp (tsx_on_state_calling cfg env ev) (good w) w.
Proof.
  intros Hat He. destruct ev as [rd|td|[]]; unfold tsx_on_state_calling; cbv beta iota.
  - destruct (rd_msg rd) as [m|code m] eqn:Em; [adone|]. unfold is_invite. astep. astep.
    apply wp_bind. eapply wp_mono; [eapply proceeding_uac_good; [eassumption|by right|done]|].
    intros st w2 H2. exact H2.
  - adone.
  - by eapply at_retransmit.
  - astep. astep. astep. aset ltac:(by constructor). adone.
Qed.

Definition uas_early (s : pjsip_tsx_state_e) : Prop :=
  s = PJSIP_TSX_STATE_PROCEEDING \/ s = PJSIP_TSX_STATE_TRYING.

Lemma uas_early_live s : uas_early s -> state_num s < 6.
Proof. intros [->| ->]; simpl; lia. Qed.

Lemma at_save_tx {B} r s w td (k : unit -> M B) :
  at_state r s w -> is_Some (w_tds w !! td) ->
  (forall u w1, at_state r s w1 -> quiet w w1 -> wp (k u) (good w1) w1) ->
  wp (bind (save_tx td) k) (good w) w.
Proof. intros Hat Htd Hk. eapply at_wp_bind; [by apply save_tx_spec; [apply Hat|]|exact Hat|done]. Qed.

Lemma sent_provisional_good s w td :
  at_state PJSIP_ROLE_UAS s w -> uas_early s -> is_Some (w_tds w !! td) ->
  wp (uas_sent_provisional td) (good w) w.
Proof.
  intros Hat Hs Htd. pose proof (uas_early_live s Hs). unfold uas_sent_provisional, is_invite.
  eapply at_save_tx; [done|done|]. intros _ w1 Hat1 Q1.
  eapply at_set_state; [eassumption|done|constructor; unfold uas_early in Hs; tauto|].
  intros _ w2 Hat2 _. apply at_get, at_get. astep. adone.
Qed.

Lemma sent_success_good s w td :
  at_state PJSIP_ROLE_UAS s w -> uas_early s -> is_Some (w_tds w !! td) ->
  wp (uas_sent_success cfg td) (good w) w.
Proof.
  intros Hat Hs Htd. pose proof (uas_early_live s Hs). unfold uas_sent_success, is_invite.
  astep. apply at_get, at_get. destruct (_ && _).
  - eapply at_set_state; [eassumption|done|constructor; by destruct Hs as [->| ->]|].
    intros _ w1 Hat1 _. adone.
  - eapply at_bind; [quiet_tac|exact Hat0|]. intros _ w1 Hat1 Q1.
    eapply at_save_tx; [exact Hat1| |].
    { apply (s_dom _ _ (q_still _ _ Q1)), (s_dom _ _ (q_still _ _ Q)), Htd. }
    intros _ w2 Hat2 _. apply at_get. astep.
    eapply at_set_state; [eassumption|done|constructor; unfold uas_early in Hs; tauto|].
    intros _ w9 Hat9 _. adone.
Qed.

Lemma sent_failure_good s w td m :
  at_state PJSIP_ROLE_UAS s w -> uas_early s -> is_Some (w_tds w !! td) ->
  wp (uas_sent_failure cfg td m) (good w) w.
Proof.
  intros Hat Hs Htd. pose proof (uas_early_live s Hs). unfold uas_sent_failure, is_invite.
  astep. eapply at_save_tx; [eassumption|apply (s_dom _ _ (q_still _ _ Q)), Htd|].
  intros _ w1 Hat1 _. apply at_get, at_get. astep. apply at_get. astep.
  eapply at_set_state; [eassumption|done|constructor; unfold uas_early in Hs; tauto|].
  intros _ w9 Hat9 _. adone.
Qed.
(** The event of a transmission carries a message that exists. *)
Definition event_ok (w : world) (ev : pjsip_event) : Prop :=
  match ev with Ev_tx_msg td => is_Some (w_tds w !! td) | _ => True end.

Lemma proceeding_uas_good s w env ev :
  at_state PJSIP_ROLE_UAS s w -> uas_early s -> env_ok env -> event_ok w ev ->
  wp (tsx_on_state_proceeding_uas cfg env ev) (good w) w.
Proof.
  intros Hat Hs He Hev. pose proof (uas_early_live s Hs) as Hl.
  destruct ev as [rd|td|[]]; unfold tsx_on_state_proceeding_uas; cbv beta iota.
  - apply at_get. destruct (last_tx (w_tsx w)) as [td|] eqn:El; [|adone].
    apply at_get. destruct (has_flag _ _).
    + apply wp_bind. eapply wp_mono; [apply set_send_flag_spec; [apply Hat|]|].
      * eapply live_terminating; [apply Hat|by eapply at_live].
      * intros _ w1 [H1 Q1]. split; [done|by apply still_ext].
    + eapply at_send; [done|done| |done]. eapply ok_last; [apply Hat|done].
  - destruct Hev as [d Hd]. apply (wp_td_get _ _ _ _ d Hd).
    destruct (td_msg d) as [m|code m]; [adone|]. astep.
    pose proof (s_dom _ _ (q_still _ _ Q) td ltac:(by eexists)) as Htd0.
    apply wp_bind. eapply wp_mono; [apply drop_other_tx_uas; apply Hat0|].
    intros _ w1 [H1 S1]. pose proof (s_dom _ _ S1 td Htd0) as Htd1.
    eapply wp_mono; [|intros b w2; apply good_trans; by apply still_ext].
    assert (Hat1 : at_state PJSIP_ROLE_UAS s w1).
    { destruct Hat0 as [_ A2 A3], S1. split; [done|congruence|congruence]. }
    eapply at_then_ok; [exact Hat1|done|done|done|]. intros w2 Hat2 X2. apply at_get.
    pose proof (x_dom _ _ X2 td Htd1) as Htd2.
    destruct (PJSIP_IS_STATUS_IN_CLASS _ 100); [by eapply sent_provisional_good|].
    destruct (PJSIP_IS_STATUS_IN_CLASS _ 200); [by eapply sent_success_good|].
    destruct (300 <=? _); [by eapply sent_failure_good|adone].
  - by eapply at_retransmit.
  - astep. eapply at_set_state; [eassumption|done|constructor; by destruct Hs as [->| ->]|].
    intros _ w1 Hat1 _. adone.
Qed.

Lemma ok_at w : tsx_ok w -> at_state (role (w_tsx w)) (state (w_tsx w)) w.
Proof. by split. Qed.

Lemma trying_good w env ev :
  at_state PJSIP_ROLE_UAS PJSIP_TSX_STATE_TRYING w -> env_ok env -> event_ok w ev ->
  wp (tsx_on_state_trying cfg env ev) (good w) w.
Proof.
  intros Hat He Hev. destruct ev as [rd|td|e]; [adone| |adone].
  unfold tsx_on_state_trying. apply wp_bind.
  eapply wp_mono; [eapply proceeding_uas_good; [exact Hat|by right|done|done]|].
  intros status w1 [H1 X1]. unfold state_is. apply wp_get.
  destruct (status =? PJ_SUCCESS); simpl; [|by split].
  case_bool_decide as Ht; [|by split]. unfold when.
  eapply wp_mono; [|intros b w2; by apply good_trans].
  eapply at_set_state; [by apply ok_at|rewrite Ht; simpl; lia|rewrite Ht; constructor; tauto|].
  intros _ w2 Hat2 _. adone.
Qed.

Lemma completed_uas_good w env ev :
  at_state PJSIP_ROLE_UAS PJSIP_TSX_STATE_COMPLETED w -> env_ok env ->
  wp (tsx_on_state_completed_uas cfg env ev) (good w) w.
Proof.
  intros Hat He. destruct ev as [rd|td|[]]; unfold tsx_on_state_completed_uas; cbv beta iota.
  - destruct (rd_msg rd) as [m|code m]; [|adone].
    destruct (negb _); [by eapply at_retransmit|]. unfold is_invite. apply at_get.
    case_bool_decide as Hm; simpl; [|adone]. astep. astep. apply at_get. astep.
    assert (Hmw : method (w_tsx w2) = PJSIP_INVITE_METHOD)
      by (rewrite (s_method _ _ (q_still _ _ Q1)), (s_method _ _ (q_still _ _ Q0)),
            (s_method _ _ (q_still _ _ Q)); exact Hm).
    aset ltac:(by apply edge_confirmed). adone.
  - apply at_get. adone.
  - by eapply at_retransmit.
  - unfold is_invite. apply at_get. astep. aset ltac:(by constructor). adone.
Qed.

Lemma completed_uac_good w env ev :
  at_state PJSIP_ROLE_UAC PJSIP_TSX_STATE_COMPLETED w -> env_ok env ->
  wp (tsx_on_state_completed_uac cfg env ev) (good w) w.
Proof.
  intros Hat He. destruct ev as [rd|td|[]]; unfold tsx_on_state_completed_uac; cbv beta iota.
  - unfold is_invite. apply at_get. destruct (rd_msg rd) as [m|code m]; [adone|].
    destruct (_ && _); [by eapply at_retransmit|adone].
  - adone.
  - adone.
  - aset ltac:(by constructor). adone.
Qed.

Lemma confirmed_good w ev :
  at_state PJSIP_ROLE_UAS PJSIP_TSX_STATE_CONFIRMED w -> wp (tsx_on_state_confirmed ev) (good w) w.
Proof.
  intros Hat. destruct ev as [rd|td|[]]; unfold tsx_on_state_confirmed; cbv beta iota;
    [destruct (rd_msg rd); adone|adone|adone|]. aset ltac:(by constructor). adone.
Qed.

Lemma terminated_good r w ev :
  at_state r PJSIP_TSX_STATE_TERMINATED w -> wp (tsx_on_state_terminated ev) (good w) w.
Proof.
  intros Hat. destruct ev as [rd|td|e]; [adone|adone|].
  unfold tsx_on_state_terminated. destruct Hat as [H1 H2 H3].
  apply wp_bind. eapply wp_mono; [apply set_state_spec; [done|rewrite H3; constructor; by left|done]|].
  intros _ w1 (H4 & X4 & _). by split.
Qed.

(** The event a transaction that has just been created waits for *)
Definition first_event (w : world) (ev : pjsip_event) : Prop :=
  role (w_tsx w) = PJSIP_ROLE_UAS -> state (w_tsx w) = PJSIP_TSX_STATE_NULL ->
  exists rd, ev = Ev_rx_msg rd.

Lemma dispatch_good env ev w :
  tsx_ok w -> env_ok env -> event_ok w ev -> first_event w ev -> wp (dispatch cfg env ev) (good w) w.
Proof.
  intros Hw He Hev Hf. unfold dispatch. apply wp_get.
  pose proof (ok_at _ Hw) as Hat. pose proof (ok_valid _ (ok_core _ Hw)) as Hv.
  rewrite (ok_handler _ (ok_core _ Hw)). unfold first_event in Hf.
  destruct (role (w_tsx w)) eqn:Er, (state (w_tsx w)) eqn:Es; try (exfalso; exact Hv);
    cbn [handler_for tsx_state_handler_uac tsx_state_handler_uas run_handler];
    try (by eapply terminated_good); try (by split).
  - destruct (null_good env w _ Hat He) as (N1 & N2 & N3). destruct ev; auto.
  - by apply calling_good.
  - by eapply proceeding_uac_good; [|left|].
  - by apply completed_uac_good.
  - destruct (null_good env w _ Hat He) as (N1 & N2 & N3). destruct (Hf eq_refl eq_refl) as [rd ->]. auto.
  - by apply trying_good.
  - by eapply proceeding_uas_good; [|left| |].
  - by apply completed_uas_good.
  - by apply confirmed_good.
Qed.

(** ** The functions called from outside *)

Lemma transport_err_event_good w :
  tsx_ok w -> live w -> wp transport_err_event (good w) w.
Proof.
  intros Hw Hl. pose proof (ok_at _ Hw) as Hat. unfold transport_err_event.
  apply at_get. astep. apply at_get. astep.
  assert (Hs : forall x, x = state (w_tsx w) -> tsx_edge (role (w_tsx w)) (method (w_tsx w)) x PJSIP_TSX_STATE_TERMINATED).
  { intros x ->. constructor. intros E. unfold live in Hl. rewrite E in Hl. simpl in Hl. lia. }
  eapply at_set_state; [eassumption|exact Hl|constructor; intros E; unfold live in Hl; rewrite E in Hl; simpl in Hl; lia|].
  intros _ w2 Hat2 X2.
  apply wp_bind. eapply wp_mono; [apply (notify_when true)|].
  - apply Hat2.
  - destruct Hat2 as [_ R2 _]. rewrite R2, (x_method _ _ X2).
    constructor. intros E. unfold live in Hl. rewrite E in Hl. simpl in Hl. lia.
  - intros u w3 (C3 & X3 & E3).
    assert (H3 : tsx_ok w3).
    { destruct Hat2 as [[O1 O2 O3 O4 O5] _ _]. split; rewrite ?E3; done. }
    eapply wp_quiet; [auto with quiet|exact H3|].
    intros u4 w4 H4 Q4. split; [done|]. etrans; [done|by apply quiet_ext].
Qed.

Lemma timer_callback_good env e w :
  tsx_ok w -> env_ok env -> (role (w_tsx w) = PJSIP_ROLE_UAS -> state (w_tsx w) <> PJSIP_TSX_STATE_NULL \/
     tm_id (timer_of e (w_tsx w)) = TRANSPORT_ERR_TIMER) ->
  wp (tsx_timer_callback cfg env e) (good w) w.
Proof.
  intros Hw He Hn. unfold tsx_timer_callback. apply at_get.
  set (id := tm_id _) in *. pose proof (ok_at _ Hw) as Hat.
  eapply at_bind; [apply quiet_put; intros t; destruct e; simpl; tauto|exact Hat|].
  intros _ w1 Hat1 Q1. destruct (Z.eqb_spec id TRANSPORT_ERR_TIMER).
  - apply at_get. destruct (Z.ltb_spec (state_num (state (w_tsx w1))) (state_num PJSIP_TSX_STATE_TERMINATED));
      [|by split; [apply Hat1|]]. apply transport_err_event_good; [apply Hat1|done].
  - apply wp_bind. eapply wp_mono; [apply dispatch_good; [apply Hat1|done|done|]|].
    + destruct Hat1 as [_ R1 S1]. intros Hr Hs. rewrite R1 in Hr. rewrite S1 in Hs. destruct (Hn Hr); done.
    + intros st w2 H2. exact H2.
Qed.
(** When an operation may happen: messages exist, the lower layers report as
    they do, a timer that fires was armed, a server transaction starts with the
    request, and a transaction that is over is not asked to retransmit. *)
Definition started (w : world) : Prop :=
  role (w_tsx w) = PJSIP_ROLE_UAS -> state (w_tsx w) <> PJSIP_TSX_STATE_NULL.

Definition op_ok (w : world) (op : tsx_op) : Prop :=
  match op with
  | Op_send_msg env td => env_ok env /\ started w /\ (forall x, td = Some x -> is_Some (w_tds w !! x))
  | Op_recv_msg env _ => env_ok env
  | Op_timer env e => env_ok env /\ is_Some (tm_due (timer_of e (w_tsx w))) /\
      (started w \/ tm_id (timer_of e (w_tsx w)) = TRANSPORT_ERR_TIMER)
  | Op_send_callback td r => is_Some (w_tds w !! td) /\ async_report r
  | Op_retransmit_no_state env td => env_ok env /\ live w /\ (forall x, td = Some x -> is_Some (w_tds w !! x))
  | _ => True
  end.

(** pjsip_tsx_retransmit_no_state without a message, in a transaction that has
    sent none: the source takes a reference on the message at NULL. *)
Definition retransmits_nothing (w : world) (op : tsx_op) : Prop :=
  exists env, op = Op_retransmit_no_state env None /\ last_tx (w_tsx w) = None.

Lemma retransmits_nothing_dec w op : retransmits_nothing w op \/ ~ retransmits_nothing w op.
Proof.
  destruct op as [| | | | | | | | |env [td|]| |]; try (right; by intros (? & [=] & _)).
  destruct (last_tx (w_tsx w)) eqn:E; [right; intros (? & _ & ?); congruence|left; by eexists].
Qed.

Lemma retransmits_nothing_stuck w op : retransmits_nothing w op -> run_op cfg op w = None.
Proof.
  intros (env & -> & E). cbn [run_op]. unfold ignore, pjsip_tsx_retransmit_no_state, bind, get, deref, stuck.
  by rewrite E.
Qed.

Lemma good_bind_skip {A} (m : M A) w : wp m (good w) w -> wp (_ ← m; skip) (good w) w.
Proof. intros H. apply wp_bind. eapply wp_mono; [exact H|]. intros a w1 H1. exact H1. Qed.

Lemma quiet_good {A} (m : M A) w : quiet_op m -> tsx_ok w -> wp m (good w) w.
Proof. intros Hm Hw. eapply wp_quiet; [done|done|]. intros a w' H' Q'. split; [done|by apply quiet_ext]. Qed.

Lemma dec_ref_good td w0 w status :
  good w0 status w -> is_Some (w_tds w !! td) ->
  wp (when (status =? PJ_SUCCESS) (pjsip_tx_data_dec_ref td) ;; ret status) (good w0) w.
Proof.
  intros [H X] Htd. apply wp_bind. destruct (status =? PJ_SUCCESS); [|by split].
  eapply wp_mono; [apply quiet_td_put; [apply H|done]|]. intros _ w1 [C1 Q1].
  split; [by eapply quiet_ok|]. etrans; [done|by apply quiet_ext].
Qed.

Lemma send_msg_good env td w :
  tsx_ok w -> op_ok w (Op_send_msg env td) -> wp (pjsip_tsx_send_msg cfg env td) (good w) w.
Proof.
  intros Hw (He & Hst & Htd). unfold pjsip_tsx_send_msg. apply wp_get.
  assert (Hx : forall x, (match td with Some y => Some y | None => last_tx (w_tsx w) end) = Some x ->
     is_Some (w_tds w !! x)).
  { intros x. destruct td; [apply Htd|]. intros E. eapply ok_last; [apply Hw|done]. }
  destruct (match td with Some y => Some y | None => last_tx (w_tsx w) end) as [x|]; [|by split].
  specialize (Hx x eq_refl). apply wp_bind. eapply wp_mono.
  { apply dispatch_good; [done|done|exact Hx|]. intros Hr Hs. by destruct (Hst Hr). }
  intros status w1 H1. apply dec_ref_good; [done|]. by apply (x_dom _ _ (proj2 H1)).
Qed.

Lemma terminate_good code w : tsx_ok w -> wp (pjsip_tsx_terminate code) (good w) w.
Proof.
  intros Hw. unfold pjsip_tsx_terminate. destruct (200 <=? code); [|by split].
  apply at_get. apply wp_bind. eapply (wp_mono _ (good w)).
  - destruct (Z.ltb_spec (state_num (state (w_tsx w))) (state_num PJSIP_TSX_STATE_TERMINATED)) as [Hl|];
      [|by split]. unfold when.
    pose proof (ok_at _ Hw) as Hat. astep. destruct Hat0 as [H0 R0 S0].
    eapply at_set_state_last; [split; [exact H0|exact R0|exact S0]|exact Hl|].
    constructor. intros E. rewrite E in Hl. simpl in Hl. lia.
  - intros u w1 H1. exact H1.
Qed.

Lemma no_state_good env td w :
  tsx_ok w -> op_ok w (Op_retransmit_no_state env td) -> ~ retransmits_nothing w (Op_retransmit_no_state env td) ->
  wp (pjsip_tsx_retransmit_no_state cfg env td) (good w) w.
Proof.
  intros Hw (He & Hl & Hd) Hn.
  assert (exists x, match td with Some y => x = y | None => last_tx (w_tsx w) = Some x end /\
         is_Some (w_tds w !! x)) as (x & Hx & Htd).
  { destruct td as [y|]; [exists y; auto|]. destruct (last_tx (w_tsx w)) as [x|] eqn:E; [|by destruct Hn; eexists].
    exists x. split; [done|]. by apply (ok_last _ (ok_core _ Hw)). }
  unfold pjsip_tsx_retransmit_no_state.
  pose proof (ok_at _ Hw) as Hat.
  assert (Hpre : wp (match td with
        | Some td => ret td
        | None => ltx ← get last_tx; td ← deref ltx; pjsip_tx_data_add_ref td ;; ret td
        end) (fun a w1 => a = x /\ tsx_ok w1 /\ quiet w w1) w).
  { destruct td as [y|]; [by subst|]. apply wp_get. rewrite Hx. apply wp_bind. unfold wp at 1, deref, ret.
    apply wp_bind. eapply wp_mono; [apply quiet_td_put; [apply Hw|done]|]. intros _ w1 [C1 Q1].
    split; [done|]. split; [by eapply quiet_ok|done]. }
  apply wp_bind. eapply wp_mono; [exact Hpre|]. intros a w1 (-> & H1 & Q1).
  eapply (at_quiet _ _ _ _ Hat H1) in Q1 as Hat1. apply wp_bind.
  pose proof (s_dom _ _ (q_still _ _ Q1) x Htd) as Htd1.
  eapply wp_mono; [by eapply at_send|]. intros status w2 [H2 X2].
  apply dec_ref_good; [|by apply (x_dom _ _ X2)]. split; [done|]. etrans; [by apply quiet_ext|done].
Qed.

Lemma terminate_over code w :
  tsx_ok w -> 200 <= code ->
  wp (pjsip_tsx_terminate code) (fun _ w' => state_num PJSIP_TSX_STATE_TERMINATED <= state_num (state (w_tsx w'))) w.
Proof.
  intros Hw Hc. unfold pjsip_tsx_terminate. destruct (Z.leb_spec 200 code); [|lia].
  apply wp_get. apply wp_bind.
  destruct (Z.ltb_spec (state_num (state (w_tsx w))) (state_num PJSIP_TSX_STATE_TERMINATED)) as [Hl|Hl];
    [|exact Hl]. unfold when. apply wp_bind.
  eapply wp_quiet; [auto with quiet|exact Hw|]. intros u w1 H1 Q1.
  assert (Hl1 : live w1) by (unfold live; by rewrite (quiet_state _ _ Q1)).
  eapply wp_mono; [apply terminate_spec; [exact H1|by apply live_terminating]|].
  intros u' w2 (_ & _ & E). cbn. by rewrite E.
Qed.

Lemma layer_stop_good w : tsx_ok w -> wp mod_tsx_layer_stop (good w) w.
Proof.
  intros Hw. unfold mod_tsx_layer_stop. apply wp_bind.
  pose proof (terminate_good PJSIP_SC_SERVICE_UNAVAILABLE w Hw) as H1.
  pose proof (terminate_over PJSIP_SC_SERVICE_UNAVAILABLE w Hw ltac:(done)) as H2.
  unfold wp at 1. unfold wp in H1, H2. destruct (pjsip_tsx_terminate _ w) as [[a w1]|]; [|done].
  destruct H1 as [H1 X1]. apply wp_bind.
  eapply wp_quiet; [auto with quiet|exact H1|]. intros u w2 H3 Q3.
  apply wp_bind. eapply wp_mono; [apply shutdown_spec; [apply H3|by rewrite (quiet_state _ _ Q3)]|].
  intros st w3 (H4 & S4 & _). split; [done|].
  etrans; [done|]. etrans; [by apply quiet_ext|by apply still_ext].
Qed.

Lemma fire_timer_good env e w :
  tsx_ok w -> op_ok w (Op_timer env e) -> wp (fire_timer cfg env e) (good w) w.
Proof.
  intros Hw (He & _ & Hst). unfold fire_timer. apply wp_put. set (w1 := mk_world _ _ _ _).
  destruct (quiet_put (fun t => set_timer e (mk_timer (tm_id (timer_of e t)) None) t)
     ltac:(intros t; destruct e; simpl; tauto) w (ok_core _ Hw)) as [C1 Q1]. fold w1 in C1, Q1.
  assert (H1 : tsx_ok w1) by by eapply quiet_ok.
  apply wp_bind. eapply wp_mono; [apply timer_callback_good; [exact H1|exact He|]|].
  - intros Hr. assert (Hid : tm_id (timer_of e (w_tsx w1)) = tm_id (timer_of e (w_tsx w))) by by destruct e.
    rewrite Hid, (quiet_state _ _ Q1). rewrite (s_role _ _ (q_still _ _ Q1)) in Hr.
    destruct Hst as [Hst|Hst]; [left; by apply Hst|by right].
  - intros u w2 [H2 X2]. eapply wp_quiet; [auto with quiet|exact H2|]. intros u' w3 H3 Q3.
    split; [done|]. etrans; [by apply quiet_ext|]. etrans; [done|by apply quiet_ext].
Qed.

Lemma run_op_good w op : tsx_ok w -> op_ok w op -> ~ retransmits_nothing w op -> wp (run_op cfg op) (good w) w.
Proof.
  intros Hw Hop Hn. destruct op; cbn [run_op]; unfold ignore.
  - by apply good_bind_skip, send_msg_good.
  - apply good_bind_skip. apply dispatch_good; [done|exact Hop|done|]. by eexists.
  - by apply fire_timer_good.
  - apply wp_bind. destruct Hop as [H1 H2]. eapply wp_mono; [by apply send_msg_callback_spec|].
    intros c w1 (H3 & X3 & _). by split.
  - by apply quiet_good; [apply quiet_transport_callback|].
  - by apply quiet_good; [auto with quiet|].
  - by apply good_bind_skip, terminate_good.
  - apply good_bind_skip, quiet_good; [|done].
    unfold pjsip_tsx_stop_retransmit, uac_invite, is_invite. quiet_tac.
  - apply good_bind_skip, quiet_good; [|done].
    unfold pjsip_tsx_set_timeout, uac_invite, is_invite. quiet_tac.
  - by apply good_bind_skip, no_state_good.
  - by apply layer_stop_good.
  - by apply quiet_good; [auto with quiet|].
Qed.

(** ** Executions *)

Inductive tsx_step : world -> world -> Prop :=
  | step_op w op w' : op_ok w op -> run_op cfg op w = Some (tt, w') -> tsx_step w w'.

Lemma runs_something w op u w' : run_op cfg op w = Some (u, w') -> ~ retransmits_nothing w op.
Proof. intros Hrun Hn. by rewrite (retransmits_nothing_stuck _ _ Hn) in Hrun. Qed.

Inductive created : world -> Prop :=
  | created_uac user m td rel refs tds up :
      is_Some (tds !! td) -> created (mk_world (tsx_init_uac user m td rel refs) tds [] up)
  | created_uas user m rt len rel refs tds up w :
      uas_bind_transport (mk_world (tsx_init_uas user m rt len rel refs) tds [] up) = Some (tt, w) ->
      created w.

Lemma created_ok w :
  created w -> tsx_ok w /\ state (w_tsx w) = PJSIP_TSX_STATE_NULL /\ Forall silent (w_log w).
Proof.
  destruct 1 as [user m td rel refs tds up [d Hd]|user m rt len rel refs tds up w Hb].
  { split; [|done]. split; simpl; try done. split; simpl; try done. intros x [= <-]. by eexists. }
  set (w0 := mk_world _ _ _ _) in Hb.
  assert (H0 : tsx_ok w0) by (split; simpl; try done; split; simpl; done).
  assert (Hq : wp uas_bind_transport (fun _ w' => tsx_ok w' /\ quiet w0 w') w0)
    by (eapply wp_quiet; [unfold uas_bind_transport; quiet_tac|done|done]).
  unfold wp in Hq. rewrite Hb in Hq. destruct Hq as [H1 Q1].
  split; [done|]. split; [by rewrite (quiet_state _ _ Q1)|].
  destruct (s_log _ _ (q_still _ _ Q1)) as (l & -> & Hl). done.
Qed.

Lemma reachable_good w0 w :
  created w0 -> rtc tsx_step w0 w -> tsx_ok w /\ ext w0 w.
Proof.
  intros Hc Hr. apply created_ok in Hc as (H0 & _ & _). revert H0.
  induction Hr as [w|w w1 w2 Hs Hr IH]; intros H0; [done|].
  destruct Hs as [w op w1 Hop Hrun]. pose proof (run_op_good w op H0 Hop (runs_something _ _ _ _ Hrun)) as Hg.
  unfold wp in Hg. rewrite Hrun in Hg. destruct Hg as [H1 X1].
  destruct (IH H1) as [H2 X2]. split; [done|by etrans].
Qed.
End Configured.
