(* ===== verification/TsxEqs.v ===== *)
(** * Transactions: what the basic operations compute

    Equations of the timer operations and state changes, and rules that run an
    operation symbolically; the functional properties are computed with them. *)

From S2P Require Import Prelude PjTime SipTypes TsxData TsxOps TsxHandlers TsxInv TsxSend TsxSafe.

Definition upd (f : pjsip_transaction -> pjsip_transaction) (w : world) : world :=
  mk_world (f (w_tsx w)) (w_tds w) (w_log w) (w_layer_up w).

Definition timer_off : tsx_timer := mk_timer TIMER_INACTIVE None.

(** The effect of cancelling and of scheduling a timer that is off *)
Definition cancelled (e : timer_sel) (t : pjsip_transaction) : pjsip_transaction :=
  set_timer e timer_off
    (set_grp_ref (grp_ref t + (if pj_timer_entry_running (timer_of e t) then -1 else 0)) t).

Definition scheduled (e : timer_sel) (d : pj_time_val) (i : Z) (t : pjsip_transaction) : pjsip_transaction :=
  set_timer e (mk_timer i (Some d)) (set_grp_ref (grp_ref t + 1) t).

Lemma cancel_eq e w : cancel_timer_ e w = Some (tt, upd (cancelled e) w).
Proof.
  unfold cancel_timer_, tsx_cancel_timer, cancelled, upd, bind, get, put, grp_lock_ref, skip, ret.
  destruct w as [t tds lg up]; cbn. destruct (pj_timer_entry_running (timer_of e t)), e; cbn;
    unfold put; cbn; rewrite ?Z.add_0_r; by destruct t.
Qed.

Lemma schedule_eq e d i w :
  tm_due (timer_of e (w_tsx w)) = None -> schedule_timer_ e d i w = Some (tt, upd (scheduled e d i) w).
Proof.
  intros H. unfold schedule_timer_, tsx_schedule_timer, scheduled, upd, bind, get, put, grp_lock_ref, skip, ret.
  unfold pj_timer_entry_running. rewrite H. by destruct e.
Qed.

Lemma restart_eq d w :
  restart_timeout d w = Some (tt, upd (fun t => scheduled Timeout d TIMEOUT_TIMER (cancelled Timeout t)) w).
Proof. unfold restart_timeout, bind. by rewrite cancel_eq, schedule_eq. Qed.

(** What the transaction user is told by [tsx_set_state] *)
Definition notes (user : option tsx_user_t) (prev new : pjsip_tsx_state_e) (src : event_src) : list effect :=
  match user with
  | Some u =>
      match src with
      | Src_rx rd => match rd_msg rd with
                     | Response _ _ => if has_on_rx_response u then [E_on_rx_response (rd_id rd)] else []
                     | Request _ => []
                     end
      | _ => []
      end ++ (if has_on_tsx_state u then [E_on_tsx_state prev new src] else [])
  | None => []
  end.

Definition entered (new : pjsip_tsx_state_e) (t : pjsip_transaction) : pjsip_transaction :=
  set_state_handler (handler_for (role t) new) (set_state new t).

(** A state change to a state other than TERMINATED and DESTROYED *)
Lemma set_state_eq new src w :
  new <> PJSIP_TSX_STATE_TERMINATED -> new <> PJSIP_TSX_STATE_DESTROYED ->
  tsx_set_state new src 0 w =
  Some (tt, mk_world (entered new (w_tsx w)) (w_tds w)
              (w_log w ++ notes (tsx_user (w_tsx w)) (state (w_tsx w)) new src) (w_layer_up w)).
Proof.
  intros H1 H2.
  destruct w as [[ro me st ha sc h2 tp re al rt rl tf te pt lt rc rtm ttm us tm gr rg] tds lg up].
  unfold tsx_set_state, notify_rx_response, notify_tsx_state, notes, entered, handler_for.
  change (Z.land 0 NO_NOTIFY =? 0) with true.
  unfold bind, get, put, log, when, skip, ret.
  destruct us as [[a b]|]; destruct src as [|[rid [m|c m]]| | | |]; cbn;
    try destruct a; try destruct b; cbn; destruct new; try congruence;
    cbn; by rewrite <- ?app_assoc, ?app_nil_r.
Qed.

(** Every result of the operation satisfies [P]. *)
Definition post {A} (m : M A) (P : pjsip_transaction -> Prop) : Prop :=
  forall w a w', m w = Some (a, w') -> P (w_tsx w').

Lemma post_bind {A B} (m : M A) (k : A -> M B) P : (forall a, post (k a) P) -> post (bind m k) P.
Proof. intros Hk w b w' E. unfold bind in E. destruct (m w) as [[a w1]|]; [|done]. by eapply Hk. Qed.

Lemma post_wp {A} (m : M A) P Q w : post m P -> wp m Q w -> wp m (fun a w' => P (w_tsx w') /\ Q a w') w.
Proof. intros Hp. unfold wp. destruct (m w) as [[a w']|] eqn:E; [|done]. intros. split; [by eapply Hp|done]. Qed.

Lemma bind_inv {A B} (m : M A) (k : A -> M B) w b w' :
  bind m k w = Some (b, w') -> exists a w1, m w = Some (a, w1) /\ k a w1 = Some (b, w').
Proof. unfold bind. destruct (m w) as [[a w1]|]; [eauto|done]. Qed.

(** A state change to TERMINATED arms the timeout timer to fire at once, unless
    the flag says not to. *)
Definition terminated_timeout (flag : Z) : tsx_timer :=
  if Z.land flag NO_SCHEDULE_HANDLER =? 0 then mk_timer TIMEOUT_TIMER (Some tv_zero) else timer_off.

Lemma terminated_timer src flag :
  post (tsx_set_state PJSIP_TSX_STATE_TERMINATED src flag)
    (fun t => timeout_timer t = terminated_timeout flag /\
              has_flag (transport_flag t) TSX_HAS_PENDING_TRANSPORT = false).
Proof.
  unfold tsx_set_state. do 6 (apply post_bind; intros ?).
  intros w r w' (pend & w1 & [= <- <-] & E)%bind_inv.
  apply bind_inv in E as ([] & w1 & E1 & E). apply bind_inv in E as ([] & w2 & E2 & E3).
  rewrite cancel_eq in E2. injection E2 as <-. unfold terminated_timeout.
  assert (E4 : timeout_timer (w_tsx w') = (if Z.land flag NO_SCHEDULE_HANDLER =? 0
     then mk_timer TIMEOUT_TIMER (Some tv_zero) else timer_off) /\
     transport_flag (w_tsx w') = transport_flag (w_tsx w1)).
  { destruct (Z.land flag NO_SCHEDULE_HANDLER =? 0); cbn [when] in E3;
      [rewrite schedule_eq in E3 by done|]; by injection E3 as _ <-. }
  destruct E4 as [-> ->]. split; [done|]. clear E3.
  destruct (has_flag (transport_flag (w_tsx w)) TSX_HAS_PENDING_TRANSPORT) eqn:Ef; cbn [when] in E1.
  - apply bind_inv in E1 as (p & w3 & _ & E1). apply bind_inv in E1 as (p' & w4 & _ & E1).
    unfold clear_flag, put in E1. injection E1 as <-. apply has_clear_same.
  - unfold skip, ret in E1. by injection E1 as <-.
Qed.

(** and keeps these fields. *)
Lemma terminated_frame src flag :
  frame (fun t => (role t, method t, status_code t, retransmit_timer t, last_tx t, is_reliable t, transport t, tsx_user t))
    (tsx_set_state PJSIP_TSX_STATE_TERMINATED src flag).
Proof.
  assert (Hc : frame (fun t => (role t, method t, status_code t, retransmit_timer t, last_tx t, is_reliable t, transport t, tsx_user t))
    (cancel_timer_ Timeout)) by (intros w a w'; rewrite cancel_eq; by intros [= _ <-]).
  assert (Hs : forall d i, frame (fun t => (role t, method t, status_code t, retransmit_timer t, last_tx t, is_reliable t, transport t, tsx_user t))
    (schedule_timer_ Timeout d i)).
  { intros d i. unfold schedule_timer_, tsx_schedule_timer, grp_lock_ref, set_timer. frame_tac. }
  unfold tsx_set_state, notify_rx_response, notify_tsx_state, set_mod_data. frame_tac.
Qed.

Lemma terminated_facts src flag w :
  tsx_ok w -> live w ->
  wp (tsx_set_state PJSIP_TSX_STATE_TERMINATED src flag) (fun _ w' =>
    state (w_tsx w') = PJSIP_TSX_STATE_TERMINATED /\
    timeout_timer (w_tsx w') = terminated_timeout flag /\
    (role (w_tsx w'), method (w_tsx w'), status_code (w_tsx w'), retransmit_timer (w_tsx w'),
     last_tx (w_tsx w'), is_reliable (w_tsx w'), transport (w_tsx w'), tsx_user (w_tsx w')) =
    (role (w_tsx w), method (w_tsx w), status_code (w_tsx w), retransmit_timer (w_tsx w),
     last_tx (w_tsx w), is_reliable (w_tsx w), transport (w_tsx w), tsx_user (w_tsx w)) /\
    tsx_ok w' /\ has_flag (transport_flag (w_tsx w')) TSX_HAS_PENDING_TRANSPORT = false /\ ext w w') w.
Proof.
  intros Hw Hl. eapply wp_mono.
  - eapply post_wp; [apply terminated_timer|]. eapply wp_frame; [apply terminated_frame|].
    apply terminate_spec; [done|by apply live_terminating].
  - intros u w' ([T1 T2] & (H & X & S) & F). split_and!; done.
Qed.

(** ** Rules that run an operation *)

Lemma run_eq {A B} (m : M A) (k : A -> M B) Q w a w1 :
  m w = Some (a, w1) -> wp (k a) Q w1 -> wp (bind m k) Q w.
Proof. intros E H. apply wp_bind. unfold wp. by rewrite E. Qed.

Lemma run_last {A} (m : M A) (Q : A -> world -> Prop) w a w1 : m w = Some (a, w1) -> Q a w1 -> wp m Q w.
Proof. intros E H. unfold wp. by rewrite E. Qed.

Lemma get_is {A B} (f : pjsip_transaction -> A) (k : A -> M B) v Q w :
  f (w_tsx w) = v -> wp (k v) Q w -> wp (bind (get f) k) Q w.
Proof. by intros <-. Qed.

(** [run1] runs the next operation; what is left to show about a timer that is
    scheduled is that it is off. *)
Ltac run1 :=
  lazymatch goal with
  | |- wp (bind (get _) _) _ _ => apply wp_get
  | |- wp (bind (get_flag _) _) _ _ => apply wp_get
  | |- wp (bind is_invite _) _ _ => apply wp_get
  | |- wp (bind (state_is _) _) _ _ => apply wp_get
  | |- wp (bind (put _) _) _ _ => apply wp_put
  | |- wp (bind (clear_flag _) _) _ _ => apply wp_put
  | |- wp (bind (set_flag _) _) _ _ => apply wp_put
  | |- wp (bind (tsx_set_status_code _) _) _ _ => apply wp_put
  | |- wp (bind (cancel_timer_ _) _) _ _ => eapply run_eq; [apply cancel_eq|]
  | |- wp (bind (restart_timeout _) _) _ _ => eapply run_eq; [apply restart_eq|]
  | |- wp (bind (schedule_timer_ _ _ _) _) _ _ => eapply run_eq; [apply schedule_eq; cbn; try done|]
  | |- wp (bind (tsx_set_state _ _ _) _) _ _ => eapply run_eq; [apply set_state_eq; done|]
  | |- wp (bind (when true _) _) _ _ => unfold when at 1
  | |- wp (bind skip _) _ _ => eapply run_eq; [reflexivity|]
  | |- wp (bind (when false _) _) _ _ => eapply run_eq; [reflexivity|]
  | |- wp (bind (bind _ _) _) _ _ => apply wp_bind
  | |- wp (cancel_timer_ _) _ _ => eapply run_last; [apply cancel_eq|]
  | |- wp (schedule_timer_ _ _ _) _ _ => eapply run_last; [apply schedule_eq; cbn; try done|]
  | |- wp skip _ _ => eapply run_last; [reflexivity|]
  | |- wp (ret _) _ _ => eapply run_last; [reflexivity|]
  end.

Lemma status_class code k : 0 <= k -> k * 100 <= code < k * 100 + 100 -> Z.quot code 100 = k.
Proof. intros Hk Hc. rewrite Z.quot_div_nonneg by lia. symmetry. apply (Z.div_unique _ _ _ (code - k * 100)); lia. Qed.

Lemma class_true k code c :
  c = k * 100 -> 0 <= k -> k * 100 <= code < k * 100 + 100 -> PJSIP_IS_STATUS_IN_CLASS code c = true.
Proof.
  intros -> Hk Hc. unfold PJSIP_IS_STATUS_IN_CLASS. rewrite (status_class code k), (status_class (k * 100) k) by lia.
  apply Z.eqb_refl.
Qed.

Lemma class_false k j code c :
  c = k * 100 -> 0 <= k -> 0 <= j -> j <> k -> j * 100 <= code < j * 100 + 100 ->
  PJSIP_IS_STATUS_IN_CLASS code c = false.
Proof.
  intros -> Hk Hj Hne Hc. unfold PJSIP_IS_STATUS_IN_CLASS.
  rewrite (status_class code j), (status_class (k * 100) k) by lia. by apply Z.eqb_neq.
Qed.

(** From the rules to a statement about the result of the operation *)
Lemma wp_result (m : M unit) (Q : world -> Prop) w :
  wp m (fun _ w' => Q w') w -> exists w', m w = Some (tt, w') /\ Q w'.
Proof. intros ([] & w' & Hrun & H)%wp_run. eauto. Qed.

(** ** Sending on the transport the transaction is bound to *)

(** The transport accepts message [td] at once. *)
Record sendable (env : send_env) (td : Z) (tp : pjsip_transport) (w : world) : Prop := {
  se_flag : has_flag (transport_flag (w_tsx w)) TSX_HAS_PENDING_TRANSPORT = false;
  se_tp : transport (w_tsx w) = Some tp;
  se_td : exists d, w_tds w !! td = Some d /\ td_pending d = false;
  se_env : env_send env = PJ_SUCCESS
}.

Lemma flag_set_clear x f : has_flag x f = false -> Z.land (Z.lor x f) (Z.lnot f) = x.
Proof.
  unfold has_flag. intros H. apply negb_false_iff, Z.eqb_eq in H.
  apply Z.bits_inj'. intros n Hn.
  rewrite Z.land_spec, Z.lor_spec, Z.lnot_spec by done.
  apply (f_equal (fun y => Z.testbit y n)) in H. rewrite Z.land_spec, Z.bits_0 in H.
  destruct (Z.testbit x n), (Z.testbit f n); simpl in *; congruence.
Qed.

Definition logged (l : list effect) (w : world) : world :=
  mk_world (w_tsx w) (w_tds w) (w_log w ++ l) (w_layer_up w).

Lemma send_now_eq cfg env td tp w :
  sendable env td tp w ->
  tsx_send_msg cfg env td w = Some (PJ_SUCCESS, logged [E_transport_send (tp_id tp) td] w).
Proof.
  intros [Hf Ht (d & Hd & Hp) He].
  unfold tsx_send_msg, send_core, get_flag, bind, get. rewrite Hf. unfold td_get. rewrite Hd, Hp, Ht.
  unfold send_on_transport. rewrite He. change (PJ_SUCCESS =? PJ_EPENDING) with false. cbv iota.
  rewrite bool_decide_eq_true_2 by by eexists.
  destruct w as [t tds lg up]. cbn [w_tsx] in Hf. destruct t. cbn in Hf.
  cbv -[Z.land Z.lor Z.lnot Z.add app env_send]. do 4 f_equal; [by apply flag_set_clear|lia].
Qed.

(** ** Updates that keep the invariant *)

Lemma upd_harmless f w : harmless f -> tsx_ok w -> tsx_ok (upd f w).
Proof.
  intros Hf Hw. destruct (quiet_put f Hf w (ok_core _ Hw)) as [C Q]. by eapply quiet_ok.
Qed.

Lemma upd_clear f w :
  tsx_ok w -> tsx_ok (upd (fun t => set_transport_flag (Z.land (transport_flag t) (Z.lnot f)) t) w).
Proof.
  intros Hw. destruct (quiet_clear_flag f w (ok_core _ Hw)) as [C Q]. by eapply quiet_ok.
Qed.

Lemma harmless_cancelled e : harmless (cancelled e).
Proof. intros t. unfold cancelled. destruct e; simpl; tauto. Qed.

Lemma harmless_scheduled e d i : harmless (scheduled e d i).
Proof. intros t. unfold scheduled. destruct e; simpl; tauto. Qed.

(** ** Keeping the last message *)

Definition drop_last (td : Z) (t : pjsip_transaction) : pjsip_transaction :=
  set_last_tx (if bool_decide (last_tx t = Some td) then Some td else None) t.

Lemma drop_eq td w :
  core_ok w -> exists tds, drop_other_tx td w =
    Some (tt, mk_world (drop_last td (w_tsx w)) tds (w_log w) (w_layer_up w)) /\
    tds !! td = w_tds w !! td.
Proof.
  intros Hw. unfold drop_other_tx, drop_last, bind, get. pose proof (ok_last _ Hw) as Hl.
  destruct (last_tx (w_tsx w)) as [x|] eqn:E.
  2:{ exists (w_tds w). split; [|done]. unfold skip, ret.
      destruct w as [t tds lg up]. cbn in *. destruct t. cbn in *. by subst. }
  destruct (Z.eqb_spec x td) as [->|Hne].
  - rewrite bool_decide_eq_true_2 by done. exists (w_tds w). split; [|done].
    unfold skip, ret, when. cbn. destruct w as [t tds lg up]. cbn in *. destruct t. cbn in *. by subst.
  - rewrite bool_decide_eq_false_2 by congruence. destruct (Hl x eq_refl) as [d Hd].
    cbn [negb when]. unfold pjsip_tx_data_dec_ref, td_put, put. rewrite Hd.
    eexists. split; [done|]. cbn [w_tds]. rewrite lookup_insert_ne; congruence.
Qed.

Lemma save_eq td w :
  is_Some (w_tds w !! td) -> exists tds, save_tx td w =
    Some (tt, mk_world (set_last_tx (Some td) (w_tsx w)) tds (w_log w) (w_layer_up w)) /\
    is_Some (tds !! td).
Proof.
  intros [d Hd]. unfold save_tx, bind, get. case_bool_decide as E; cbn [negb when].
  - exists (w_tds w). split; [|by eexists]. unfold skip, ret.
    destruct w as [t tds lg up]. cbn in *. destruct t. cbn in *. by subst.
  - unfold put, pjsip_tx_data_add_ref, td_put. cbn [w_tds]. rewrite Hd. eexists. split; [done|].
    cbn [w_tds]. rewrite lookup_insert_eq. by eexists.
Qed.

Lemma sched_or_pend_eq d w :
  has_flag (transport_flag (w_tsx w)) TSX_HAS_PENDING_TRANSPORT = false ->
  tm_due (retransmit_timer (w_tsx w)) = None ->
  sched_or_pend d w =
    Some (tt, upd (fun t => scheduled Retransmit d RETRANSMIT_TIMER (set_retransmit_count 0 t)) w).
Proof.
  intros Hf Ht. unfold sched_or_pend, bind, put, get_flag, get. cbn [w_tsx transport_flag set_retransmit_count].
  rewrite Hf. by rewrite schedule_eq.
Qed.

Lemma dec_ref_eq td w : is_Some (w_tds w !! td) ->
  exists tds, pjsip_tx_data_dec_ref td w = Some (tt, mk_world (w_tsx w) tds (w_log w) (w_layer_up w)).
Proof. intros [d Hd]. unfold pjsip_tx_data_dec_ref, td_put. rewrite Hd. by eexists. Qed.

Lemma logged_ok l w : tsx_ok w -> tsx_ok (logged l w).
Proof. by intros [[] ? ? ? ?]. Qed.

(** ** Destruction *)

(** The destroyed transaction holds nothing any more; [given_back] below says
    what became of it. *)
Definition released (t : pjsip_transaction) : Prop :=
  retransmit_timer t = timer_off /\ timeout_timer t = timer_off /\ transport t = None /\
  last_tx t = None /\ terminating t = true.

Lemma shutdown_post : post tsx_shutdown released.
Proof.
  unfold tsx_shutdown. intros w a w' E.
  apply bind_inv in E as (u1 & w1 & E1 & E). apply bind_inv in E as (term & w2 & [= <- <-] & E).
  apply bind_inv in E as (u3 & w3 & E3 & E). apply bind_inv in E as (ltx & w4 & [= <- <-] & E).
  apply bind_inv in E as (u5 & w5 & E5 & E). apply bind_inv in E as (u6 & w6 & E6 & E).
  apply bind_inv in E as (u7 & w7 & E7 & E).
  rewrite cancel_eq in E6, E7. injection E6 as <- <-. injection E7 as <- <-.
  assert (T1 : transport (w_tsx w1) = None /\ terminating (w_tsx w1) = terminating (w_tsx w)).
  { unfold tsx_update_transport, bind, get, log, put, skip, ret in E1.
    destruct (transport (w_tsx w)) eqn:Ht; injection E1 as _ <-; by cbn. }
  assert (T3 : w_tsx w3 = w_tsx w1 /\ w_tds w3 = w_tds w1).
  { unfold when, log, skip, ret in E3. by destruct (negb _); injection E3 as _ <-. }
  assert (T5 : transport (w_tsx w5) = None /\ terminating (w_tsx w5) = terminating (w_tsx w1) /\
     last_tx (w_tsx w5) = None).
  { destruct T1 as [T1 _], T3 as [T3 _]. destruct (last_tx (w_tsx w3)) as [td|] eqn:El.
    - unfold bind, pjsip_tx_data_dec_ref, td_put, put in E5. destruct (w_tds w3 !! td); [|done].
      injection E5 as _ <-. cbn. by rewrite T3.
    - unfold skip, ret in E5. injection E5 as _ <-. rewrite T3 in *. by split_and!. }
  destruct T5 as (A & B & C). rewrite <- B in E. clear - E A C.
  destruct w5 as [t tds lg up]. destruct t as [? ? ? ? ? ? tp ? ? ? ? ? ? ? lt ? rt tt us tm ? ?].
  cbn in A, C. subst. unfold released, bind, clear_flag, set_flag, get_flag, put, get in *. cbn in E.
  destruct (has_flag _ _), tm; cbn in E; unfold bind, put, skip, ret, grp_lock_ref in E; cbn in E;
    unfold put, skip, ret in E; cbn in E; injection E as _ <-; cbn; done.
Qed.

Lemma frame_shutdown : frame registered tsx_shutdown.
Proof.
  unfold tsx_shutdown, pjsip_tx_data_dec_ref. 
  assert (frame registered (tsx_update_transport None))
    by (unfold tsx_update_transport, tsx_tp_state_callback; frame_tac).
  assert (forall e, frame registered (cancel_timer_ e)) by (intros e w a w'; rewrite cancel_eq; by intros [= _ <-]; destruct e).
  frame_tac.
Qed.

Lemma destroyed_facts src w :
  tsx_ok w -> state (w_tsx w) = PJSIP_TSX_STATE_TERMINATED -> w_layer_up w = true ->
  wp (tsx_set_state PJSIP_TSX_STATE_DESTROYED src 0) (fun _ w' =>
    tsx_ok w' /\ state (w_tsx w') = PJSIP_TSX_STATE_DESTROYED /\ released (w_tsx w') /\
    registered (w_tsx w') = false) w.
Proof.
  intros Hw Hs Hup. pose proof Hw as [Hc _ _ _ _].
  pose proof (set_state_head PJSIP_TSX_STATE_DESTROYED w Hc ltac:(by destruct (role (w_tsx w)))) as Hc1. cbv zeta in Hc1.
  unfold tsx_set_state. apply wp_get, wp_put, wp_get, wp_put.
  change (Z.land 0 NO_NOTIFY =? 0) with true. cbn [when]. cbv zeta in Hc1.
  set (w1 := mk_world _ _ _ _) in Hc1 |- *.
  apply wp_bind. eapply (wp_core quiet); [apply quiet_notify_rx|exact Hc1|]. intros u2 w2 H2 Q2.
  pose proof Q2 as [[S1 S2 S3 S4 _ _] _ _ _ _].
  apply wp_bind. eapply wp_mono; [apply (notify_when true); [done|]|].
  { rewrite S1, S2, Hs. constructor. by left. }
  intros u3 w3 (H3 & X3 & E3). pose proof (x_layer _ _ X3) as L3. cbv iota.
  assert (Hun : exists w4, mod_tsx_layer_unregister_tsx w3 = Some (tt, w4) /\
     w_tsx w4 = set_registered false (w_tsx w3) /\ w_tds w4 = w_tds w3).
  { unfold mod_tsx_layer_unregister_tsx, bind, layer_up. rewrite L3, S4.
    change (w_layer_up w1) with (w_layer_up w). rewrite Hup. by eexists. }
  destruct Hun as (w4 & Hun & T4 & D4). eapply run_eq; [exact Hun|]. apply wp_bind.
  apply (wp_mono _ (fun _ w' => released (w_tsx w') /\ (tsx_ok w' /\ still w4 w' /\ terminating (w_tsx w') = true) /\
     registered (w_tsx w') = registered (w_tsx w4))).
  - eapply post_wp; [apply shutdown_post|]. eapply wp_frame; [apply frame_shutdown|].
    destruct H3 as [W1 W2 W3 W4]. apply shutdown_spec; [|rewrite T4; cbn; rewrite E3, S3; cbn; lia].
    split; rewrite T4, ?D4; done.
  - intros a w5 (R5 & (H5 & St5 & _) & G5). unfold skip, ret.
    split_and!; [done| |done|by rewrite G5, T4].
    rewrite (s_state _ _ St5), T4. cbn. by rewrite E3, S3.
Qed.

(** ** What the transaction holds, and gives back

    A reference on its group lock, one more for each timer entry in the heap, a
    reference on its transport, one on the messages' selector of transports, and
    one on the message it may repeat. *)

Definition armed (v : tsx_timer) : Z := if pj_timer_entry_running v then 1 else 0.

(** The reference counters of the messages *)
Definition td_refs (w : world) : gmap Z Z := td_ref <$> w_tds w.

Definition dropped_last (t : pjsip_transaction) (refs : gmap Z Z) : gmap Z Z :=
  match last_tx t with Some td => alter Z.pred td refs | None => refs end.

Definition release_log (t : pjsip_transaction) : list effect :=
  [E_unregister] ++ match transport t with Some tp => [E_transport_dec_ref (tp_id tp)] | None => [] end
  ++ (if terminating t then [] else [E_tpselector_dec_ref]).

Record given_back (src : event_src) (w w' : world) : Prop := {
  gb_lock : grp_ref (w_tsx w') = grp_ref (w_tsx w) - armed (retransmit_timer (w_tsx w)) -
     armed (timeout_timer (w_tsx w)) - (if terminating (w_tsx w) then 0 else 1);
  gb_refs : td_refs w' = dropped_last (w_tsx w) (td_refs w);
  gb_log : w_log w' = w_log w ++
     notes (tsx_user (w_tsx w)) (state (w_tsx w)) PJSIP_TSX_STATE_DESTROYED src ++ release_log (w_tsx w)
}.

Lemma wp_also {A} (m : M A) (R : world -> Prop) Q w :
  (forall a w', m w = Some (a, w') -> R w') -> wp m Q w -> wp m (fun a w' => R w' /\ Q a w') w.
Proof. intros Hr. unfold wp. destruct (m w) as [[a w']|] eqn:E; [|done]. intros H. split; [by eapply Hr|done]. Qed.

(** Telling the user changes only the log. *)
Lemma notify_eq prev new src w :
  (notify_rx_response src ;; notify_tsx_state prev new src) w =
  Some (tt, logged (notes (tsx_user (w_tsx w)) prev new src) w).
Proof.
  unfold notify_rx_response, notify_tsx_state, notes, logged, bind, get, log, when, skip, ret.
  destruct w as [[ro me st ha sc h2 tp re al rt rl tf te pt lt rc rtm ttm us tm gr rg] tds lg up]; cbn.
  destruct us as [[a b]|]; destruct src as [|[rid [m|c m]]| | | |]; cbn;
    try destruct a; try destruct b; cbn; by rewrite <- ?app_assoc, ?app_nil_r.
Qed.

(** A state change to TERMINATED takes one reference on the group lock, for its
    timeout entry, in place of that of an armed one; the messages keep their
    references. *)
Lemma terminated_ledger src w a w' :
  tsx_set_state PJSIP_TSX_STATE_TERMINATED src 0 w = Some (a, w') ->
  grp_ref (w_tsx w') = grp_ref (w_tsx w) - armed (timeout_timer (w_tsx w)) + 1 /\
  td_refs w' = td_refs w /\
  w_log w' = w_log w ++ notes (tsx_user (w_tsx w)) (state (w_tsx w)) PJSIP_TSX_STATE_TERMINATED src /\
  terminating (w_tsx w') = terminating (w_tsx w).
Proof.
  unfold tsx_set_state. intros E.
  apply bind_inv in E as (prev & w1 & [= <- <-] & E). apply bind_inv in E as (u2 & w2 & [= <- <-] & E).
  apply bind_inv in E as (r & w3 & [= <- <-] & E). apply bind_inv in E as (u4 & w4 & [= <- <-] & E).
  change (Z.land 0 NO_NOTIFY =? 0) with true in E. cbn [when] in E.
  set (w5 := mk_world _ _ _ _) in E.
  assert (E' : bind (notify_rx_response src ;; notify_tsx_state (state (w_tsx w)) PJSIP_TSX_STATE_TERMINATED src)
    (fun _ => pend ← get_flag TSX_HAS_PENDING_TRANSPORT;
      when pend (ptx ← get pending_tx;
        match ptx with Some td => set_mod_data td false ;; put (set_pending_tx None) | None => skip end ;;
        clear_flag TSX_HAS_PENDING_TRANSPORT) ;;
      cancel_timer_ Timeout ;; schedule_timer_ Timeout tv_zero TIMEOUT_TIMER) w5 = Some (a, w')).
  { revert E. unfold bind. destruct (notify_rx_response src w5) as [[? ?]|]; done. }
  clear E. rename E' into E. apply bind_inv in E as (u6 & w6 & E6 & E). rewrite notify_eq in E6.
  injection E6 as _ <-.
  apply bind_inv in E as (pend & w7 & [= <- <-] & E). apply bind_inv in E as (u8 & w8 & E8 & E).
  apply bind_inv in E as (u9 & w9 & E9 & E). rewrite cancel_eq in E9. injection E9 as _ <-.
  rewrite schedule_eq in E by done. injection E as _ <-.
  assert (H8 : grp_ref (w_tsx w8) = grp_ref (w_tsx w) /\ timeout_timer (w_tsx w8) = timeout_timer (w_tsx w) /\
     td_refs w8 = td_refs w /\
     w_log w8 = w_log w ++ notes (tsx_user (w_tsx w)) (state (w_tsx w)) PJSIP_TSX_STATE_TERMINATED src /\
     terminating (w_tsx w8) = terminating (w_tsx w)).
  { subst w5. revert E8. unfold logged; cbn. destruct (has_flag _ _); cbn [when]; [|by intros [= _ <-]].
    unfold bind, get, put, clear_flag, set_mod_data, td_put, skip, ret; cbn.
    destruct (pending_tx (w_tsx w)) as [td|]; cbn; [|by intros [= _ <-]].
    destruct (w_tds w !! td) as [d|] eqn:Ed; cbn; [|done]. intros [= _ <-]. split_and!; try done.
    unfold td_refs. cbn. rewrite fmap_insert. cbn. apply insert_id. by rewrite lookup_fmap, Ed. }
  destruct H8 as (G & T & D & L & N). unfold upd, scheduled, cancelled, armed. cbn. rewrite G, T.
  split_and!; [|exact D|exact L|exact N]. destruct (pj_timer_entry_running _); lia.
Qed.

Lemma shutdown_ledger w a w' :
  tsx_shutdown w = Some (a, w') ->
  grp_ref (w_tsx w') = grp_ref (w_tsx w) - armed (retransmit_timer (w_tsx w)) -
     armed (timeout_timer (w_tsx w)) - (if terminating (w_tsx w) then 0 else 1) /\
  td_refs w' = dropped_last (w_tsx w) (td_refs w) /\
  w_log w' = w_log w ++ match transport (w_tsx w) with Some tp => [E_transport_dec_ref (tp_id tp)] | None => [] end
    ++ (if terminating (w_tsx w) then [] else [E_tpselector_dec_ref]).
Proof.
  destruct w as [[ro me st ha sc h2 tp re al rt rl tf te pt lt rc rtm ttm us tm gr rg] tds lg up].
  unfold tsx_shutdown, tsx_update_transport, dropped_last, td_refs, armed; cbn. intros E.
  apply bind_inv in E as (u1 & w1 & E1 & E).
  assert (E1' : w1 = mk_world (mk_tsx ro me st ha sc h2 None re al rt rl tf te pt lt rc rtm ttm us tm gr rg) tds
    (lg ++ match tp with Some o => [E_transport_dec_ref (tp_id o)] | None => [] end) up).
  { revert E1. unfold bind, get, log, put, skip, ret. destruct tp; cbn; intros [= _ <-]; by rewrite ?app_nil_r. }
  subst w1. clear E1.
  apply bind_inv in E as (term & w2 & [= <- <-] & E). cbn in E.
  apply bind_inv in E as (u3 & w3 & E3 & E).
  assert (E3' : w3 = mk_world (mk_tsx ro me st ha sc h2 None re al rt rl tf te pt lt rc rtm ttm us tm gr rg) tds
    (lg ++ match tp with Some o => [E_transport_dec_ref (tp_id o)] | None => [] end ++
       (if tm then [] else [E_tpselector_dec_ref])) up).
  { revert E3. unfold log, skip, ret. destruct tm; cbn; intros [= _ <-]; by rewrite ?app_nil_r, <- ?app_assoc. }
  subst w3. clear E3. set (log' := lg ++ _) in E |- *. clearbody log'.
  apply bind_inv in E as (ltx & w4 & [= <- <-] & E). cbn in E.
  apply bind_inv in E as (u5 & w5 & E5 & E).
  assert (E5' : exists tds', w5 = mk_world (mk_tsx ro me st ha sc h2 None re al rt rl tf te pt None rc rtm ttm us tm gr rg)
     tds' log' up /\ td_ref <$> tds' = dropped_last (mk_tsx ro me st ha sc h2 tp re al rt rl tf te pt lt rc rtm ttm us tm gr rg) (td_ref <$> tds)).
  { revert E5. unfold pjsip_tx_data_dec_ref, td_put, bind, put, skip, ret, dropped_last. destruct lt as [td|]; cbn.
    - destruct (tds !! td) as [d|] eqn:Ed; cbn; [|done]. intros [= _ <-]. eexists. split; [done|].
      rewrite fmap_insert. cbn. apply map_eq. intros i. destruct (decide (i = td)) as [->|Hi].
      + rewrite lookup_insert_eq, lookup_alter_eq, lookup_fmap, Ed. done.
      + by rewrite lookup_insert_ne, lookup_alter_ne by congruence.
    - intros [= _ <-]. by eexists. }
  destruct E5' as (tds' & -> & R5). clear E5.
  apply bind_inv in E as (u6 & w6 & E6 & E). apply bind_inv in E as (u7 & w7 & E7 & E).
  rewrite cancel_eq in E6, E7. injection E6 as _ <-. injection E7 as _ <-.
  unfold dropped_last in R5. cbn in R5.
  unfold upd, cancelled in E. cbn in E. revert E.
  unfold bind, get_flag, set_flag, clear_flag, get, put, skip, ret, when, grp_lock_ref; cbn.
  destruct (has_flag _ _), tm; cbn; unfold bind, put, skip, ret; cbn; intros [= _ <-]; cbn;
    (split_and!; [|exact R5|done]);
    destruct (pj_timer_entry_running rtm), (pj_timer_entry_running ttm); lia.
Qed.

(** A state change to DESTROYED gives back everything. *)
Lemma destroyed_ledger src w a w' :
  w_layer_up w = true -> tsx_set_state PJSIP_TSX_STATE_DESTROYED src 0 w = Some (a, w') -> given_back src w w'.
Proof.
  unfold tsx_set_state. intros Hup E.
  apply bind_inv in E as (prev & w1 & [= <- <-] & E). apply bind_inv in E as (u2 & w2 & [= <- <-] & E).
  apply bind_inv in E as (r & w3 & [= <- <-] & E). apply bind_inv in E as (u4 & w4 & [= <- <-] & E).
  change (Z.land 0 NO_NOTIFY =? 0) with true in E. cbn [when] in E.
  set (w5 := mk_world _ _ _ _) in E.
  assert (E' : bind (notify_rx_response src ;; notify_tsx_state (state (w_tsx w)) PJSIP_TSX_STATE_DESTROYED src)
    (fun _ => mod_tsx_layer_unregister_tsx ;; _ ← tsx_shutdown; skip) w5 = Some (a, w')).
  { revert E. unfold bind. destruct (notify_rx_response src w5) as [[? ?]|]; done. }
  clear E. rename E' into E. apply bind_inv in E as (u6 & w6 & E6 & E). rewrite notify_eq in E6.
  injection E6 as _ <-. apply bind_inv in E as (u7 & w7 & E7 & E).
  apply bind_inv in E as (u8 & w8 & E8 & E). injection E as _ <-.
  apply shutdown_ledger in E8. revert E7. unfold mod_tsx_layer_unregister_tsx, bind, layer_up, logged, when.
  subst w5. cbn. rewrite Hup. unfold log, put; cbn. intros [= _ <-].
  unfold dropped_last, td_refs in E8. cbn in E8. destruct E8 as (G & D & L).
  split; [exact G|exact D|]. rewrite L. unfold release_log. by rewrite <- !app_assoc.
Qed.
