(* ===== verification/TsxProps.v ===== *)
(** * Transactions: the properties

    Safety and legality of every execution, the responses of each state to
    messages and timers with the timers they leave running, and three
    behaviours of the code that its comments do not intend. *)

From S2P Require Import Prelude PjTime SipTypes TsxData TsxOps TsxHandlers TsxInv TsxSend TsxSafe TsxEqs.

(** ** A client transaction for the witnesses *)

Definition demo_cfg : tsx_cfg := mk_cfg 500 4000 5000 32000.
Definition demo_tp : pjsip_transport := mk_tp 1 false false.
Definition demo_user : tsx_user_t := mk_user true true.
Definition demo_tds : gmap Z pjsip_tx_data :=
  {[ 10 := mk_tdata (Request PJSIP_INVITE_METHOD) 1 false false;
     11 := mk_tdata (Response 180 PJSIP_INVITE_METHOD) 1 false false;
     12 := mk_tdata (Response 200 PJSIP_INVITE_METHOD) 1 false false;
     13 := mk_tdata (Response 486 PJSIP_INVITE_METHOD) 1 false false ]}.
Definition demo_uac : world :=
  mk_world (tsx_init_uac (Some demo_user) PJSIP_INVITE_METHOD 10 false 0) demo_tds [] true.

(** The environment in which the first message goes out on [demo_tp], and later
    ones are accepted by it; the ACK is message 20. *)
Definition demo_env : send_env :=
  mk_env PJ_SUCCESS [mk_report 400 (Some demo_tp) 16 false PJ_SUCCESS] PJ_SUCCESS (inr 20).

Lemma demo_env_ok : env_ok demo_env.
Proof. repeat constructor; simpl; try lia; eauto. Qed.

Lemma demo_created : created demo_uac.
Proof. constructor. by eexists. Qed.

(** ** Every execution *)



(** C4: under the conditions of C1, the state of a transaction changes only along
    the edges of the state diagram ([tsx_edge]), so it never goes back to an earlier
    state, and every state change the transaction user is told about is one of these
    edges.  One of the conditions is not guaranteed by the sending functions of
    sip_util.c: that a transport that has just sent a message does not refuse,
    within the same call, the message queued behind it ([sync_report]).  When it
    does, a server transaction can go from Terminated back to Completed:
    [failed_resend_reopens] below. *)
Theorem tsx_states_legal cfg w0 w w' :
  created w0 -> rtc (tsx_step cfg) w0 w -> rtc (tsx_step cfg) w w' ->
  rtc (tsx_edge (role (w_tsx w)) (method (w_tsx w))) (state (w_tsx w)) (state (w_tsx w')) /\
  state_num (state (w_tsx w)) <= state_num (state (w_tsx w')) /\
  forall prev new src, E_on_tsx_state prev new src ∈ w_log w' ->
    tsx_edge (role (w_tsx w)) (method (w_tsx w)) prev new.
Proof.
  intros Hc Hr Hr'. destruct (reachable_good cfg w0 w Hc Hr) as [Hw X].
  destruct (reachable_good cfg w0 w' Hc ltac:(by etrans)) as [_ X0].
  assert (X' : ext w w').
  { clear - Hw Hr'. revert Hw. induction Hr' as [w|w w1 w2 Hs Hr IH]; intros Hw; [done|].
    destruct Hs as [w op w1 Hop Hrun].
    pose proof (run_op_good cfg w op Hw Hop (runs_something cfg _ _ _ _ Hrun)) as Hg. unfold wp in Hg. rewrite Hrun in Hg.
    destruct Hg as [H1 X1]. etrans; [exact X1|by apply IH]. }
  split_and!; [apply X'| |].
  - pose proof (x_path _ _ X') as Hp. clear - Hp. induction Hp as [|s s1 s2 He Hp IH]; [lia|].
    apply tsx_edge_mono in He. lia.
  - intros prev new src Hin. destruct (created_ok _ Hc) as (_ & _ & Hsil).
    destruct (x_log _ _ X0) as (l & Hl & Hleg). rewrite Hl in Hin.
    rewrite (x_role _ _ X), (x_method _ _ X).
    apply elem_of_app in Hin as [Hin|Hin]; [by apply (proj1 (Forall_forall _ _) Hsil) in Hin|].
    by apply (proj1 (Forall_forall _ _) Hleg) in Hin.
Qed.

Lemma tsx_states_legal_witness :
  rtc (tsx_edge PJSIP_ROLE_UAC PJSIP_INVITE_METHOD) PJSIP_TSX_STATE_NULL PJSIP_TSX_STATE_CALLING.
Proof.
  assert (Hrun : exists w', run_op demo_cfg (Op_send_msg demo_env (Some 10)) demo_uac = Some (tt, w') /\
     state (w_tsx w') = PJSIP_TSX_STATE_CALLING) by (eexists; split; [vm_compute; reflexivity|reflexivity]).
  destruct Hrun as (w' & Hrun & Hs). rewrite <- Hs.
  apply (tsx_states_legal demo_cfg demo_uac demo_uac w' demo_created (rtc_refl _ _)).
  apply rtc_once. econstructor; [|exact Hrun].
  split; [exact demo_env_ok|]. split; [by intros|]. intros x [= <-]. by eexists.
Defined.

(** ** Responses to a client transaction *)

Section Responses.
Context (cfg : tsx_cfg) (env : send_env) (rd : pjsip_rx_data) (code : Z) (cm : pjsip_method_e).
Context (Hrd : rd_msg rd = Response code cm).

Lemma dispatch_handler h ev (Q : Z -> world -> Prop) w :
  state_handler (w_tsx w) = Some h -> wp (run_handler cfg h env ev) Q w -> wp (dispatch cfg env ev) Q w.
Proof. intros Hh H. unfold dispatch. apply wp_get. by rewrite Hh. Qed.

(** What handling the response in state Calling adds to state Proceeding *)
Definition calling_timers (t : pjsip_transaction) : pjsip_transaction :=
  let t1 := cancelled Retransmit t in
  if 200 <=? code then
    if tm_id (timeout_timer t) =? 0 then t1 else cancelled Timeout t1
  else if bool_decide (method t = PJSIP_INVITE_METHOD) then cancelled Timeout t1
  else if is_reliable t then t1
  else scheduled Retransmit (t2_timer_val cfg) RETRANSMIT_TIMER t1.

Lemma calling_response Q w :
  wp (tsx_on_state_proceeding_uac cfg env (Ev_rx_msg rd)) (fun _ w' => Q PJ_SUCCESS w')
    (upd (fun t => set_transport_flag (Z.land (transport_flag t) (Z.lnot TSX_HAS_PENDING_RESCHED)) t)
      (upd calling_timers w)) ->
  wp (tsx_on_state_calling cfg env (Ev_rx_msg rd)) Q w.
Proof.
  intros H. unfold tsx_on_state_calling. cbv beta iota. rewrite Hrd.
  apply wp_bind. unfold upd in H at 2. unfold calling_timers in H at 1.
  destruct (200 <=? code).
  - run1. run1. cbn [w_tsx upd]. change (tm_id (timeout_timer (cancelled Retransmit (w_tsx w))))
      with (tm_id (timeout_timer (w_tsx w))).
    destruct (tm_id (timeout_timer (w_tsx w)) =? 0); cbn [negb when].
    + run1. run1. apply wp_bind. exact H.
    + run1. run1. apply wp_bind. exact H.
  - run1. run1. change (method (w_tsx (upd (cancelled Retransmit) w))) with (method (w_tsx w)).
    destruct (bool_decide _).
    + run1. run1. apply wp_bind. exact H.
    + run1. change (is_reliable (w_tsx (upd (cancelled Retransmit) w))) with (is_reliable (w_tsx w)).
      destruct (is_reliable (w_tsx w)); cbn [negb when].
      * run1. run1. apply wp_bind. exact H.
      * run1. run1. apply wp_bind. exact H.
Qed.
(** Provisional responses *)
Lemma proceeding_provisional w :
  100 <= code <= 199 ->
  wp (tsx_on_state_proceeding_uac cfg env (Ev_rx_msg rd)) (fun a w' => a = PJ_SUCCESS /\
    w_tsx w' = entered PJSIP_TSX_STATE_PROCEEDING (set_status_code code (w_tsx w)) /\
    w_log w' = w_log w ++ notes (tsx_user (w_tsx w)) (state (w_tsx w)) PJSIP_TSX_STATE_PROCEEDING (Src_rx rd)) w.
Proof.
  intros Hc. unfold tsx_on_state_proceeding_uac. cbv beta iota. rewrite Hrd. run1.
  rewrite (class_true 1 code 100) by lia. run1. run1. done.
Qed.

Definition final_timer (t : pjsip_transaction) : tsx_timer :=
  mk_timer TIMEOUT_TIMER (Some (if is_reliable t then tv_zero
    else if bool_decide (method t = PJSIP_INVITE_METHOD) then td_timer_val cfg else t4_timer_val cfg)).

(** Final responses to other requests than INVITE *)
Lemma proceeding_final w :
  200 <= code <= 699 -> method (w_tsx w) <> PJSIP_INVITE_METHOD ->
  wp (tsx_on_state_proceeding_uac cfg env (Ev_rx_msg rd)) (fun a w' => a = PJ_SUCCESS /\
    state (w_tsx w') = PJSIP_TSX_STATE_COMPLETED /\ status_code (w_tsx w') = code /\
    retransmit_timer (w_tsx w') = timer_off /\ timeout_timer (w_tsx w') = final_timer (w_tsx w) /\
    w_log w' = w_log w ++ notes (tsx_user (w_tsx w)) (state (w_tsx w)) PJSIP_TSX_STATE_COMPLETED (Src_rx rd)) w.
Proof.
  intros Hc Hm. unfold tsx_on_state_proceeding_uac, final_timer. cbv beta iota. rewrite Hrd. run1.
  rewrite (bool_decide_eq_false_2 _ Hm).
  destruct (decide (code < 300)) as [H2|H3].
  - rewrite (class_false 1 2 code 100), (class_true 2 code 200) by lia. unfold uac_success.
    run1. run1. cbn [w_tsx upd]. rewrite bool_decide_eq_false_2 by exact Hm.
    run1. run1. run1. run1. run1. by split_and!.
  - rewrite (class_false 1 (code / 100) code 100), (class_false 2 (code / 100) code 200)
      by (pose proof (Z.div_mod code 100); pose proof (Z.mod_pos_bound code 100); lia).
    destruct (Z.leb_spec 300 code); [|lia]. destruct (Z.leb_spec code 699); [|lia]. cbn [andb].
    unfold uac_final_failure. run1. run1. apply wp_bind. unfold uac_send_ack. run1. cbn [w_tsx upd].
    rewrite bool_decide_eq_false_2 by exact Hm. run1. cbv beta iota. run1.
    apply wp_bind. unfold uac_keep_ack. run1. run1. cbn [w_tsx upd].
    rewrite bool_decide_eq_false_2 by exact Hm. cbn [andb when]. run1. run1. run1. cbn [w_tsx upd].
    rewrite bool_decide_eq_false_2 by exact Hm. run1. run1. by split_and!.
Qed.

(** 2xx responses to INVITE *)
Lemma proceeding_invite_2xx w :
  200 <= code <= 299 -> method (w_tsx w) = PJSIP_INVITE_METHOD -> tsx_ok w -> live w ->
  wp (tsx_on_state_proceeding_uac cfg env (Ev_rx_msg rd)) (fun a w' => a = PJ_SUCCESS /\
    state (w_tsx w') = PJSIP_TSX_STATE_TERMINATED /\ status_code (w_tsx w') = code /\
    retransmit_timer (w_tsx w') = retransmit_timer (w_tsx w) /\
    timeout_timer (w_tsx w') = mk_timer TIMEOUT_TIMER (Some tv_zero)) w.
Proof.
  intros Hc Hm Hw Hl. unfold tsx_on_state_proceeding_uac. cbv beta iota. rewrite Hrd.
  apply wp_bind. eapply wp_mono; [apply (post_wp _ (fun t => status_code t = code));
    [by intros ?? ? [= _ <-]|]; eapply wp_frame; [|eapply wp_quiet; [auto with quiet|exact Hw|]]|].
  all: try (intros ? ? H1 Q1; exact (conj H1 Q1)).
  { apply (frame_put (fun t => (method t, retransmit_timer t))). done. }
  intros u w1 (C1 & [H1 Q1] & [= M1 R1]).
  rewrite (class_false 1 2 code 100), (class_true 2 code 200) by lia. unfold uac_success.
  apply wp_bind. eapply wp_mono; [eapply (wp_frame (fun t => (method t, retransmit_timer t, status_code t)));
     [|eapply wp_quiet; [apply quiet_cancel_timer|exact H1|intros ? ? H2 Q2; exact (conj H2 Q2)]]|].
  { intros x y z. rewrite cancel_eq. by intros [= _ <-]. }
  intros u2 w2 ([H2 Q2] & [= M2 R2 C2]). run1.
  rewrite bool_decide_eq_true_2 by congruence.
  apply wp_bind. eapply wp_mono; [apply terminated_facts; [exact H2|]|].
  { unfold live. by rewrite (quiet_state _ _ Q2), (quiet_state _ _ Q1). }
  intros u3 w3 (S3 & T3 & [= _ _ C3 R3 _ _ _ _] & _). run1. split_and!; try done; congruence.
Qed.
End Responses.

(** The client transaction waits for a response. *)
Definition uac_waiting (w : world) : Prop :=
  tsx_ok w /\ role (w_tsx w) = PJSIP_ROLE_UAC /\
  (state (w_tsx w) = PJSIP_TSX_STATE_CALLING \/ state (w_tsx w) = PJSIP_TSX_STATE_PROCEEDING).

(** Both handlers, from what [tsx_on_state_proceeding_uac] does *)
Lemma uac_response cfg env rd code cm (Q : world -> Prop) w :
  rd_msg rd = Response code cm -> uac_waiting w ->
  (forall f, (f = (fun t => t) /\ state (w_tsx w) = PJSIP_TSX_STATE_PROCEEDING \/
      f = (fun t => set_transport_flag (Z.land (transport_flag t) (Z.lnot TSX_HAS_PENDING_RESCHED)) t)
            ∘ calling_timers cfg code /\ state (w_tsx w) = PJSIP_TSX_STATE_CALLING) ->
     wp (tsx_on_state_proceeding_uac cfg env (Ev_rx_msg rd)) (fun _ w' => Q w') (upd f w)) ->
  wp (run_op cfg (Op_recv_msg env rd)) (fun _ w' => Q w') w.
Proof.
  intros Hrd (Hw & Hr & Hs) H. cbn [run_op]. unfold pjsip_tsx_recv_msg. apply wp_bind.
  pose proof (ok_handler _ (ok_core _ Hw)) as Hh. rewrite Hr in Hh.
  destruct Hs as [Hs|Hs]; rewrite Hs in Hh; (eapply dispatch_handler; [exact Hh|]); cbn [run_handler].
  - eapply calling_response; [exact Hrd|]. eapply wp_mono; [|intros a w' HQ; exact HQ].
    apply (H (_ ∘ calling_timers cfg code)). by right.
  - eapply wp_mono; [|intros a w' HQ; exact HQ].
    replace w with (upd (fun t => t) w) by by destruct w. apply H. by left.
Qed.

(** ** Properties of the responses to a client transaction *)

(** What a provisional response leaves of the timers: in state Calling, an INVITE
    stops both and another request slows retransmission down to T2. *)
Definition after_provisional (cfg : tsx_cfg) (t : pjsip_transaction) : tsx_timer * tsx_timer :=
  if bool_decide (state t = PJSIP_TSX_STATE_CALLING) then
    if bool_decide (method t = PJSIP_INVITE_METHOD) then (timer_off, timer_off)
    else if is_reliable t then (timer_off, timeout_timer t)
    else (mk_timer RETRANSMIT_TIMER (Some (t2_timer_val cfg)), timeout_timer t)
  else (retransmit_timer t, timeout_timer t).

(** A provisional response moves a client transaction in state Calling or
    Proceeding to Proceeding, with its code as the status; in Calling it stops
    the timers of an INVITE and slows the retransmission of other requests to T2;
    the transaction user gets the response and the state change, in this order. *)
Theorem uac_provisional cfg env rd code cm w :
  rd_msg rd = Response code cm -> uac_waiting w -> 100 <= code <= 199 ->
  exists w', run_op cfg (Op_recv_msg env rd) w = Some (tt, w') /\
    state (w_tsx w') = PJSIP_TSX_STATE_PROCEEDING /\ status_code (w_tsx w') = code /\
    (retransmit_timer (w_tsx w'), timeout_timer (w_tsx w')) = after_provisional cfg (w_tsx w) /\
    w_log w' = w_log w ++
      notes (tsx_user (w_tsx w)) (state (w_tsx w)) PJSIP_TSX_STATE_PROCEEDING (Src_rx rd).
Proof.
  intros Hrd Hw Hc.
  apply wp_result. eapply uac_response; [exact Hrd|exact Hw|]. intros f Hf. eapply wp_mono; [by eapply proceeding_provisional|].
  intros a w1 (_ & -> & ->). unfold after_provisional. destruct Hf as [[-> Hs]|[-> Hs]]; rewrite Hs.
  - split_and!; cbn; rewrite ?Hs; done.
  - rewrite bool_decide_eq_true_2 by done. cbn [compose w_tsx upd w_log]. unfold calling_timers.
    destruct (Z.leb_spec 200 code); [lia|].
    destruct (bool_decide (method (w_tsx w) = _)); [|destruct (is_reliable (w_tsx w))].
    all: split_and!; cbn; rewrite ?Hs; done.
Qed.

(** A client transaction that has sent its request over UDP *)
Definition demo_waiting (m : pjsip_method_e) (s : pjsip_tsx_state_e) : world :=
  mk_world (mk_tsx PJSIP_ROLE_UAC m s (tsx_state_handler_uac s) 0 true (Some demo_tp) false 16
    None 0 TSX_HAS_RESOLVED_SERVER 0 None (Some 10) 0 (mk_timer RETRANSMIT_TIMER (Some (mk_tv 0 500)))
    (mk_timer TIMEOUT_TIMER (Some (mk_tv 32 0))) (Some demo_user) false 3 true) demo_tds [] true.

Lemma demo_waiting_ok m s :
  s = PJSIP_TSX_STATE_CALLING \/ s = PJSIP_TSX_STATE_PROCEEDING -> uac_waiting (demo_waiting m s).
Proof.
  intros Hs. assert (H : is_Some (demo_tds !! 10)) by by eexists.
  destruct Hs as [-> | ->]; (split; [|split; [done|by (left + right)]]).
  all: split; [split; try done; intros td [= <-]; exact H|by eexists|done..].
Qed.

Lemma uac_provisional_witness :
  exists w', run_op demo_cfg (Op_recv_msg demo_env (mk_rdata 7 (Response 180 PJSIP_INVITE_METHOD)))
     (demo_waiting PJSIP_INVITE_METHOD PJSIP_TSX_STATE_CALLING) = Some (tt, w') /\
    state (w_tsx w') = PJSIP_TSX_STATE_PROCEEDING /\ status_code (w_tsx w') = 180 /\
    (retransmit_timer (w_tsx w'), timeout_timer (w_tsx w')) = (timer_off, timer_off) /\
    w_log w' = [E_on_rx_response 7; E_on_tsx_state PJSIP_TSX_STATE_CALLING PJSIP_TSX_STATE_PROCEEDING
                  (Src_rx (mk_rdata 7 (Response 180 PJSIP_INVITE_METHOD)))].
Proof.
  apply (uac_provisional demo_cfg demo_env (mk_rdata 7 (Response 180 PJSIP_INVITE_METHOD)) 180
           PJSIP_INVITE_METHOD (demo_waiting PJSIP_INVITE_METHOD PJSIP_TSX_STATE_CALLING)).
  - reflexivity.
  - apply demo_waiting_ok. by left.
  - lia.
Defined.

(** C21: a final response completes a client transaction of a request other than
    INVITE: it goes to Completed, stops retransmitting and waits T4 for
    retransmissions of the response (nothing on a reliable transport). *)
Theorem uac_final_completes cfg env rd code cm w :
  rd_msg rd = Response code cm -> uac_waiting w -> 200 <= code <= 699 ->
  method (w_tsx w) <> PJSIP_INVITE_METHOD ->
  exists w', run_op cfg (Op_recv_msg env rd) w = Some (tt, w') /\
    state (w_tsx w') = PJSIP_TSX_STATE_COMPLETED /\ status_code (w_tsx w') = code /\
    retransmit_timer (w_tsx w') = timer_off /\
    timeout_timer (w_tsx w') =
      mk_timer TIMEOUT_TIMER (Some (if is_reliable (w_tsx w) then tv_zero else t4_timer_val cfg)) /\
    w_log w' = w_log w ++
      notes (tsx_user (w_tsx w)) (state (w_tsx w)) PJSIP_TSX_STATE_COMPLETED (Src_rx rd).
Proof.
  intros Hrd Hw Hc Hm.
  apply wp_result. eapply uac_response; [exact Hrd|exact Hw|]. intros f Hf. assert (Hf' : forall t, method (f t) = method t /\ state (f t) = state t /\
    tsx_user (f t) = tsx_user t /\ is_reliable (f t) = is_reliable t).
  { intros t. destruct Hf as [[-> _]|[-> _]]; [done|]. cbn [compose]. unfold calling_timers.
    destruct (Z.leb_spec 200 code); [|lia]. by destruct (tm_id _ =? 0). }
  destruct (Hf' (w_tsx w)) as (M1 & S1 & U1 & R1).
  eapply wp_mono; [eapply proceeding_final; [exact Hrd|exact Hc|]|].
  - cbn [w_tsx upd]. by rewrite M1.
  - intros a w1 (_ & A1 & A2 & A3 & A4 & A5). unfold final_timer in A4. cbn [w_tsx w_log upd] in A4, A5.
    rewrite M1, R1, (bool_decide_eq_false_2 _ Hm) in A4. rewrite U1, S1 in A5. by split_and!.
Qed.

Lemma uac_final_completes_witness :
  exists w', run_op demo_cfg (Op_recv_msg demo_env (mk_rdata 7 (Response 404 PJSIP_BYE_METHOD)))
     (demo_waiting PJSIP_BYE_METHOD PJSIP_TSX_STATE_CALLING) = Some (tt, w') /\
    state (w_tsx w') = PJSIP_TSX_STATE_COMPLETED /\ status_code (w_tsx w') = 404 /\
    retransmit_timer (w_tsx w') = timer_off /\
    timeout_timer (w_tsx w') = mk_timer TIMEOUT_TIMER (Some (t4_timer_val demo_cfg)) /\
    w_log w' = notes (Some demo_user) PJSIP_TSX_STATE_CALLING PJSIP_TSX_STATE_COMPLETED
       (Src_rx (mk_rdata 7 (Response 404 PJSIP_BYE_METHOD))).
Proof.
  apply (uac_final_completes demo_cfg demo_env (mk_rdata 7 (Response 404 PJSIP_BYE_METHOD)) 404
           PJSIP_BYE_METHOD (demo_waiting PJSIP_BYE_METHOD PJSIP_TSX_STATE_CALLING)).
  - reflexivity.
  - apply demo_waiting_ok. by left.
  - lia.
  - discriminate.
Defined.

(** The world in which [tsx_on_state_proceeding_uac] runs still waits. *)
Lemma waiting_upd cfg code f w :
  uac_waiting w ->
  f = (fun t => t) \/
  f = (fun t => set_transport_flag (Z.land (transport_flag t) (Z.lnot TSX_HAS_PENDING_RESCHED)) t)
        ∘ calling_timers cfg code ->
  uac_waiting (upd f w) /\ forall t, method (f t) = method t /\ state (f t) = state t /\
    tsx_user (f t) = tsx_user t /\ is_reliable (f t) = is_reliable t /\ transport (f t) = transport t /\
    last_tx (f t) = last_tx t /\ role (f t) = role t /\
    has_flag (transport_flag (f t)) TSX_HAS_PENDING_TRANSPORT = has_flag (transport_flag t) TSX_HAS_PENDING_TRANSPORT.
Proof.
  intros (Hw & Hr & Hs) [->| ->].
  - split; [|done]. by destruct w.
  - assert (Hh : harmless (calling_timers cfg code)).
    { intros t. unfold calling_timers. repeat case_match; simpl; tauto. }
    split.
    + split; [|split].
      * apply (upd_clear TSX_HAS_PENDING_RESCHED (upd (calling_timers cfg code) w)). by apply upd_harmless.
      * cbn. destruct (Hh (w_tsx w)) as (-> & _). done.
      * cbn. destruct (Hh (w_tsx w)) as (_ & _ & -> & _). done.
    + intros t. cbn [compose transport_flag set_transport_flag]. rewrite has_clear_other by done.
      unfold calling_timers. by repeat case_match.
Qed.

Definition td_is_msg (td : Z) (w : world) : Prop := is_Some (w_tds w !! td).

Section InviteFailure.
Context (cfg : tsx_cfg) (env : send_env) (rd : pjsip_rx_data) (code : Z) (cm : pjsip_method_e).
Context (Hrd : rd_msg rd = Response code cm).

Lemma final_failure_start (Q : Z -> world -> Prop) w :
  300 <= code <= 699 ->
  wp (uac_final_failure cfg env rd) Q (upd (set_status_code code) w) ->
  wp (tsx_on_state_proceeding_uac cfg env (Ev_rx_msg rd)) Q w.
Proof.
  intros Hc H. unfold tsx_on_state_proceeding_uac. cbv beta iota. rewrite Hrd. run1.
  rewrite (class_false 1 (code / 100) code 100), (class_false 2 (code / 100) code 200)
    by (pose proof (Z.div_mod code 100); pose proof (Z.mod_pos_bound code 100); lia).
  destruct (Z.leb_spec 300 code); [|lia]. destruct (Z.leb_spec code 699); [|lia]. exact H.
Qed.

Lemma send_ack_now tp a td w :
  method (w_tsx w) = PJSIP_INVITE_METHOD -> last_tx (w_tsx w) = Some td -> transport (w_tsx w) = Some tp ->
  has_flag (transport_flag (w_tsx w)) TSX_HAS_PENDING_TRANSPORT = false ->
  env_ack env = inr a -> env_send env = PJ_SUCCESS ->
  uac_send_ack cfg env rd w = Some (inr (Some a),
    mk_world (w_tsx w) (<[a := mk_tdata (Request PJSIP_ACK_METHOD) 1 false false]> (w_tds w))
      (w_log w ++ [E_create_ack td (rd_id rd); E_transport_send (tp_id tp) a]) (w_layer_up w)).
Proof.
  intros Hm Hl Ht Hf Ha He. unfold uac_send_ack, is_invite, bind, get. rewrite Hm, bool_decide_eq_true_2, Hl by done.
  unfold deref, ret, log, td_new. cbv beta iota. rewrite Ha. cbv beta iota. cbn [w_tsx w_tds w_log w_layer_up].
  rewrite (send_now_eq cfg env a tp).
  - unfold logged. cbn. by rewrite <- app_assoc.
  - split; [done|done| |done]. exists (mk_tdata (Request PJSIP_ACK_METHOD) 1 false false).
    cbn [w_tds]. by rewrite lookup_insert_eq.
Qed.

Lemma keep_ack_eq a td w :
  method (w_tsx w) = PJSIP_INVITE_METHOD -> last_tx (w_tsx w) = Some td -> td_is_msg td w ->
  exists tds, uac_keep_ack (Some a) w =
    Some (tt, mk_world (set_last_tx (Some a) (w_tsx w)) tds (w_log w) (w_layer_up w)).
Proof.
  intros Hm Hl [d Hd]. unfold uac_keep_ack, is_invite, bind, get. rewrite Hm, Hl, bool_decide_eq_true_2 by done.
  destruct (bool_decide_reflect (Some a = Some td)) as [[= ->]|Hne]; cbn [negb andb when].
  - exists (w_tds w). unfold skip, ret. destruct w as [t tds lg up]. cbn in *. destruct t. cbn in *. by subst.
  - unfold deref, ret, pjsip_tx_data_dec_ref, td_put, put. rewrite Hd. by eexists.
Qed.
End InviteFailure.

(** C38: a failure response (3xx to 6xx) to an INVITE is acknowledged: the ACK is
    created from the INVITE and the response and sent on the transport in use,
    the transaction goes to Completed, keeps the ACK as the message to repeat,
    stops retransmitting the INVITE and waits for the time of timer D (nothing on
    a reliable transport). *)
Theorem uac_invite_failure_acked cfg env rd code cm tp td a w :
  rd_msg rd = Response code cm -> uac_waiting w -> 300 <= code <= 699 ->
  method (w_tsx w) = PJSIP_INVITE_METHOD -> last_tx (w_tsx w) = Some td -> transport (w_tsx w) = Some tp ->
  has_flag (transport_flag (w_tsx w)) TSX_HAS_PENDING_TRANSPORT = false ->
  env_ack env = inr a -> env_send env = PJ_SUCCESS ->
  exists w', run_op cfg (Op_recv_msg env rd) w = Some (tt, w') /\
    state (w_tsx w') = PJSIP_TSX_STATE_COMPLETED /\ status_code (w_tsx w') = code /\
    last_tx (w_tsx w') = Some a /\ retransmit_timer (w_tsx w') = timer_off /\
    timeout_timer (w_tsx w') =
      mk_timer TIMEOUT_TIMER (Some (if is_reliable (w_tsx w) then tv_zero else td_timer_val cfg)) /\
    w_log w' = w_log w ++ [E_create_ack td (rd_id rd); E_transport_send (tp_id tp) a] ++
      notes (tsx_user (w_tsx w)) (state (w_tsx w)) PJSIP_TSX_STATE_COMPLETED (Src_rx rd).
Proof.
  intros Hrd Hw Hc Hm Hl Ht Hf Ha He. apply wp_result.
  eapply uac_response; [exact Hrd|exact Hw|]. intros f Hf'.
  destruct (waiting_upd cfg code f w Hw) as [(Hok & _ & _) Hfr]; [tauto|].
  destruct (Hfr (w_tsx w)) as (F1 & F2 & F3 & F4 & F5 & F6 & F7 & F8). clear Hf' Hfr Hw.
  pose proof (ok_last _ (ok_core _ Hok) td) as Htd. cbn [w_tsx upd] in Htd. rewrite F6 in Htd.
  rewrite <- F1 in Hm. rewrite <- F5 in Ht. rewrite <- F8 in Hf. rewrite <- F2, <- F3, <- F4.
  rewrite <- F6 in Hl. change (w_log w) with (w_log (upd f w)). change (w_tsx (upd f w)) with (f (w_tsx w)) in *.
  change (f (w_tsx w)) with (w_tsx (upd f w)) in *. specialize (Htd ltac:(congruence)).
  remember (upd f w) as v. clear Heqv F1 F2 F3 F4 F5 F6 F7 F8 w f.
  eapply final_failure_start; [exact Hrd|exact Hc|]. unfold uac_final_failure. run1. run1.
  eapply run_eq; [by eapply send_ack_now|]. cbv beta iota. run1.
  edestruct (keep_ack_eq a td) as [tds Hk]; [| | |eapply run_eq; [exact Hk|]]; [exact Hm|exact Hl| |].
  { cbn. by apply insert_is_Some. }
  run1. run1. cbn [w_tsx upd]. rewrite (bool_decide_eq_true_2 _ Hm). run1. run1.
  split_and!; try done. cbn. by rewrite <- app_assoc.
Qed.

Definition demo_486 : pjsip_rx_data := mk_rdata 7 (Response 486 PJSIP_INVITE_METHOD).

Lemma uac_invite_failure_acked_witness :
  exists w', run_op demo_cfg (Op_recv_msg demo_env demo_486)
     (demo_waiting PJSIP_INVITE_METHOD PJSIP_TSX_STATE_CALLING) = Some (tt, w') /\
    state (w_tsx w') = PJSIP_TSX_STATE_COMPLETED /\ status_code (w_tsx w') = 486 /\
    last_tx (w_tsx w') = Some 20 /\ retransmit_timer (w_tsx w') = timer_off /\
    timeout_timer (w_tsx w') = mk_timer TIMEOUT_TIMER (Some (td_timer_val demo_cfg)) /\
    w_log w' = [E_create_ack 10 7; E_transport_send 1 20; E_on_rx_response 7;
                E_on_tsx_state PJSIP_TSX_STATE_CALLING PJSIP_TSX_STATE_COMPLETED (Src_rx demo_486)].
Proof.
  apply (uac_invite_failure_acked demo_cfg demo_env demo_486 486 PJSIP_INVITE_METHOD demo_tp 10 20
           (demo_waiting PJSIP_INVITE_METHOD PJSIP_TSX_STATE_CALLING)); try reflexivity.
  - apply demo_waiting_ok. by left.
  - lia.
Defined.

(** When the ACK for a failure response cannot be created, the transaction
    stays in its state with both timers off, and the transaction user is not told:
    only another response, or a call of the user, can still finish it. *)
Theorem uac_ack_failure_stops_timers cfg env rd code cm status w :
  rd_msg rd = Response code cm -> uac_waiting w -> 300 <= code <= 699 ->
  method (w_tsx w) = PJSIP_INVITE_METHOD -> env_ack env = inl status ->
  exists w', run_op cfg (Op_recv_msg env rd) w = Some (tt, w') /\
    state (w_tsx w') = state (w_tsx w) /\ status_code (w_tsx w') = code /\
    retransmit_timer (w_tsx w') = timer_off /\ timeout_timer (w_tsx w') = timer_off /\
    exists td, w_log w' = w_log w ++ [E_create_ack td (rd_id rd)].
Proof.
  intros Hrd Hw Hc Hm Ha. apply wp_result.
  eapply uac_response; [exact Hrd|exact Hw|]. intros f Hf'.
  destruct (waiting_upd cfg code f w Hw) as [(Hok & Hr & Hs) Hfr]; [tauto|].
  destruct (Hfr (w_tsx w)) as (F1 & F2 & _ & _ & _ & F6 & _ & _).
  destruct (ok_uac_last _ Hok Hr) as [td Htd].
  { apply live_terminating; [done|]. unfold live. destruct Hs as [-> | ->]; simpl; lia. }
  eapply final_failure_start; [exact Hrd|exact Hc|]. unfold uac_final_failure. run1. run1.
  apply wp_bind. unfold uac_send_ack, is_invite.
  eapply get_is; [apply bool_decide_eq_true_2; cbn; congruence|]. cbv iota.
  eapply get_is; [exact Htd|]. eapply run_eq; [reflexivity|]. eapply run_eq; [reflexivity|]. rewrite Ha. cbv beta iota.
  run1. cbv beta iota. run1. cbv beta. split_and!; try done. by exists td.
Qed.

Lemma uac_ack_failure_stops_timers_witness :
  exists w', run_op demo_cfg (Op_recv_msg (mk_env PJ_SUCCESS [] PJ_SUCCESS (inl PJ_ENOMEM)) demo_486)
     (demo_waiting PJSIP_INVITE_METHOD PJSIP_TSX_STATE_CALLING) = Some (tt, w') /\
    state (w_tsx w') = PJSIP_TSX_STATE_CALLING /\ status_code (w_tsx w') = 486 /\
    retransmit_timer (w_tsx w') = timer_off /\ timeout_timer (w_tsx w') = timer_off /\
    exists td, w_log w' = [E_create_ack td 7].
Proof.
  apply (uac_ack_failure_stops_timers demo_cfg (mk_env PJ_SUCCESS [] PJ_SUCCESS (inl PJ_ENOMEM)) demo_486 486
    PJSIP_INVITE_METHOD PJ_ENOMEM (demo_waiting PJSIP_INVITE_METHOD PJSIP_TSX_STATE_CALLING)); try reflexivity.
  - apply demo_waiting_ok. by left.
  - lia.
Defined.

(** A 2xx response to an INVITE terminates the client transaction; the ACK is
    left to the transaction user, and the timeout timer is armed to destroy the
    transaction at the next poll. *)
Theorem uac_invite_success_terminates cfg env rd code cm w :
  rd_msg rd = Response code cm -> uac_waiting w -> 200 <= code <= 299 ->
  method (w_tsx w) = PJSIP_INVITE_METHOD ->
  exists w', run_op cfg (Op_recv_msg env rd) w = Some (tt, w') /\
    state (w_tsx w') = PJSIP_TSX_STATE_TERMINATED /\ status_code (w_tsx w') = code /\
    (state (w_tsx w) = PJSIP_TSX_STATE_CALLING -> retransmit_timer (w_tsx w') = timer_off) /\
    timeout_timer (w_tsx w') = mk_timer TIMEOUT_TIMER (Some tv_zero).
Proof.
  intros Hrd Hw Hc Hm. apply wp_result. eapply uac_response; [exact Hrd|exact Hw|]. intros f Hf.
  destruct (waiting_upd cfg code f w Hw) as [(Hok & _ & Hs) Hfr]; [tauto|].
  destruct (Hfr (w_tsx w)) as (F1 & F2 & _). eapply wp_mono.
  - eapply proceeding_invite_2xx; [exact Hrd|exact Hc|by cbn; rewrite F1|exact Hok|].
    unfold live. destruct Hs as [-> | ->]; simpl; lia.
  - intros a w' (_ & S1 & C1 & R1 & T1). split_and!; try done. intros Hcall. rewrite R1.
    destruct Hf as [[_ Hp]|[-> _]]; [congruence|]. cbn [compose w_tsx upd].
    unfold calling_timers. destruct (Z.leb_spec 200 code); [|lia]. by destruct (tm_id _ =? 0).
Qed.

Lemma uac_invite_success_terminates_witness :
  exists w', run_op demo_cfg (Op_recv_msg demo_env (mk_rdata 7 (Response 200 PJSIP_INVITE_METHOD)))
     (demo_waiting PJSIP_INVITE_METHOD PJSIP_TSX_STATE_CALLING) = Some (tt, w') /\
    state (w_tsx w') = PJSIP_TSX_STATE_TERMINATED /\ status_code (w_tsx w') = 200 /\
    (PJSIP_TSX_STATE_CALLING = PJSIP_TSX_STATE_CALLING -> retransmit_timer (w_tsx w') = timer_off) /\
    timeout_timer (w_tsx w') = mk_timer TIMEOUT_TIMER (Some tv_zero).
Proof.
  apply (uac_invite_success_terminates demo_cfg demo_env (mk_rdata 7 (Response 200 PJSIP_INVITE_METHOD)) 200
           PJSIP_INVITE_METHOD (demo_waiting PJSIP_INVITE_METHOD PJSIP_TSX_STATE_CALLING)); try reflexivity.
  - apply demo_waiting_ok. by left.
  - lia.
Defined.

(** A client transaction in Completed absorbs responses: a retransmitted final
    response to an INVITE has the ACK sent again; nothing else happens, and the
    transaction user is not told. *)
Theorem uac_completed_absorbs cfg env rd code cm tp a w :
  rd_msg rd = Response code cm -> tsx_ok w -> role (w_tsx w) = PJSIP_ROLE_UAC ->
  state (w_tsx w) = PJSIP_TSX_STATE_COMPLETED -> last_tx (w_tsx w) = Some a -> sendable env a tp w ->
  run_op cfg (Op_recv_msg env rd) w = Some (tt,
    if bool_decide (method (w_tsx w) = PJSIP_INVITE_METHOD) && (200 <=? code)
    then logged [E_transport_send (tp_id tp) a]
           (upd (fun t => set_retransmit_count (i32 (retransmit_count t + 1)) t) w)
    else w).
Proof.
  intros Hrd Hw Hr Hs Hl Hse. cbn [run_op]. unfold pjsip_tsx_recv_msg, dispatch, bind, get.
  rewrite (ok_handler _ (ok_core _ Hw)), Hr, Hs. cbn [handler_for tsx_state_handler_uac run_handler].
  unfold tsx_on_state_completed_uac, is_invite, bind, get. rewrite Hrd.
  destruct (bool_decide _ && _); [|done].
  unfold tsx_retransmit, bind, get. cbn [andb]. rewrite Hl. unfold put, when, skip, ret.
  rewrite (send_now_eq cfg env a tp); [done|]. by destruct Hse; split.
Qed.

Definition demo_completed (r : pjsip_role_e) (m : pjsip_method_e) : world :=
  mk_world (mk_tsx r m PJSIP_TSX_STATE_COMPLETED (handler_for r PJSIP_TSX_STATE_COMPLETED) 486 true (Some demo_tp)
    false 16 None 0 TSX_HAS_RESOLVED_SERVER 0 None (Some 13) 0 timer_off
    (mk_timer TIMEOUT_TIMER (Some (mk_tv 32 0))) (Some demo_user) false 3 true) demo_tds [] true.

Lemma demo_completed_ok r m : tsx_ok (demo_completed r m).
Proof.
  assert (H : is_Some (demo_tds !! 13)) by by eexists.
  split; [split| | | |]; try done; [by destruct r|by intros td [= <-]].
Qed.

Lemma demo_completed_sendable r m : sendable demo_env 13 demo_tp (demo_completed r m).
Proof. split; [reflexivity..| |reflexivity]. by eexists. Qed.

Lemma uac_completed_absorbs_witness :
  run_op demo_cfg (Op_recv_msg demo_env demo_486) (demo_completed PJSIP_ROLE_UAC PJSIP_INVITE_METHOD) = Some (tt,
    logged [E_transport_send 1 13]
      (upd (set_retransmit_count 1) (demo_completed PJSIP_ROLE_UAC PJSIP_INVITE_METHOD))).
Proof.
  apply (uac_completed_absorbs demo_cfg demo_env demo_486 486 PJSIP_INVITE_METHOD demo_tp 13
           (demo_completed PJSIP_ROLE_UAC PJSIP_INVITE_METHOD)); try reflexivity.
  - apply demo_completed_ok.
  - apply demo_completed_sendable.
Defined.

(** ** Server transactions *)

Definition uas_answering (w : world) : Prop :=
  tsx_ok w /\ role (w_tsx w) = PJSIP_ROLE_UAS /\
  (state (w_tsx w) = PJSIP_TSX_STATE_TRYING \/ state (w_tsx w) = PJSIP_TSX_STATE_PROCEEDING).

(** A retransmitted request makes a server transaction in Proceeding or
    Completed send its last response again, and changes nothing else than the
    count of retransmissions in Completed. *)
Theorem uas_retransmits_response cfg env rd m tp td w :
  rd_msg rd = Request m -> m <> PJSIP_ACK_METHOD -> tsx_ok w -> role (w_tsx w) = PJSIP_ROLE_UAS ->
  state (w_tsx w) = PJSIP_TSX_STATE_PROCEEDING \/ state (w_tsx w) = PJSIP_TSX_STATE_COMPLETED ->
  last_tx (w_tsx w) = Some td -> sendable env td tp w ->
  run_op cfg (Op_recv_msg env rd) w = Some (tt, logged [E_transport_send (tp_id tp) td]
    (upd (fun t => if bool_decide (state t = PJSIP_TSX_STATE_COMPLETED)
                   then set_retransmit_count (i32 (retransmit_count t + 1)) t else t) w)).
Proof.
  intros Hrd Hm Hw Hr Hs Hl Hse. cbn [run_op]. unfold pjsip_tsx_recv_msg, dispatch, bind, get.
  rewrite (ok_handler _ (ok_core _ Hw)), Hr. unfold upd.
  destruct Hs as [Hs|Hs]; rewrite Hs; cbn [handler_for tsx_state_handler_uas run_handler].
  - rewrite bool_decide_eq_false_2 by done. unfold tsx_on_state_proceeding_uas, bind, get, get_flag, get.
    rewrite Hl, (se_flag _ _ _ _ Hse), (send_now_eq cfg env td tp) by done. by destruct w.
  - rewrite bool_decide_eq_true_2 by done. unfold tsx_on_state_completed_uas. rewrite Hrd.
    rewrite (bool_decide_eq_false_2 (m = _)) by done. cbn [negb].
    unfold tsx_retransmit, bind, get. cbn [andb]. rewrite Hl. unfold put, when, skip, ret.
    rewrite (send_now_eq cfg env td tp); [done|]. by destruct Hse; split.
Qed.

Lemma uas_retransmits_response_witness :
  run_op demo_cfg (Op_recv_msg demo_env (mk_rdata 7 (Request PJSIP_INVITE_METHOD)))
    (demo_completed PJSIP_ROLE_UAS PJSIP_INVITE_METHOD) = Some (tt,
    logged [E_transport_send 1 13]
      (upd (fun t => if bool_decide (state t = PJSIP_TSX_STATE_COMPLETED)
                     then set_retransmit_count (i32 (retransmit_count t + 1)) t else t)
         (demo_completed PJSIP_ROLE_UAS PJSIP_INVITE_METHOD))).
Proof.
  apply (uas_retransmits_response demo_cfg demo_env (mk_rdata 7 (Request PJSIP_INVITE_METHOD))
           PJSIP_INVITE_METHOD demo_tp 13 (demo_completed PJSIP_ROLE_UAS PJSIP_INVITE_METHOD)).
  - reflexivity.
  - discriminate.
  - apply demo_completed_ok.
  - reflexivity.
  - right. reflexivity.
  - reflexivity.
  - apply demo_completed_sendable.
Defined.

(** The ACK for a final response to an INVITE stops its retransmission and
    moves the server transaction to Confirmed, where it absorbs further ACKs for
    T4 (nothing on a reliable transport). *)
Theorem uas_ack_confirms cfg env rd w :
  rd_msg rd = Request PJSIP_ACK_METHOD -> tsx_ok w -> role (w_tsx w) = PJSIP_ROLE_UAS ->
  state (w_tsx w) = PJSIP_TSX_STATE_COMPLETED -> method (w_tsx w) = PJSIP_INVITE_METHOD ->
  exists w', run_op cfg (Op_recv_msg env rd) w = Some (tt, w') /\
    state (w_tsx w') = PJSIP_TSX_STATE_CONFIRMED /\ status_code (w_tsx w') = status_code (w_tsx w) /\
    retransmit_timer (w_tsx w') = timer_off /\
    has_flag (transport_flag (w_tsx w')) TSX_HAS_PENDING_RESCHED = false /\
    timeout_timer (w_tsx w') =
      mk_timer TIMEOUT_TIMER (Some (if is_reliable (w_tsx w) then tv_zero else t4_timer_val cfg)) /\
    w_log w' = w_log w ++ notes (tsx_user (w_tsx w)) PJSIP_TSX_STATE_COMPLETED PJSIP_TSX_STATE_CONFIRMED (Src_rx rd).
Proof.
  intros Hrd Hw Hr Hs Hm. apply wp_result. cbn [run_op]. unfold pjsip_tsx_recv_msg. apply wp_bind.
  eapply dispatch_handler; [by rewrite (ok_handler _ (ok_core _ Hw)), Hr, Hs|].
  cbn [run_handler]. unfold tsx_on_state_completed_uas. rewrite Hrd. cbv beta iota.
  rewrite bool_decide_eq_true_2 by done. cbn [negb]. unfold is_invite. run1.
  rewrite (bool_decide_eq_true_2 _ Hm). cbn [negb]. run1. run1. run1. run1. run1. run1.
  cbv beta. run1. cbv beta. split_and!; try done; [apply has_clear_same|]. cbn. by rewrite Hs.
Qed.

Lemma uas_ack_confirms_witness :
  exists w', run_op demo_cfg (Op_recv_msg demo_env (mk_rdata 7 (Request PJSIP_ACK_METHOD)))
      (demo_completed PJSIP_ROLE_UAS PJSIP_INVITE_METHOD) = Some (tt, w') /\
    state (w_tsx w') = PJSIP_TSX_STATE_CONFIRMED /\ status_code (w_tsx w') = 486 /\
    retransmit_timer (w_tsx w') = timer_off /\
    has_flag (transport_flag (w_tsx w')) TSX_HAS_PENDING_RESCHED = false /\
    timeout_timer (w_tsx w') = mk_timer TIMEOUT_TIMER (Some (t4_timer_val demo_cfg)) /\
    w_log w' = notes (Some demo_user) PJSIP_TSX_STATE_COMPLETED PJSIP_TSX_STATE_CONFIRMED
                 (Src_rx (mk_rdata 7 (Request PJSIP_ACK_METHOD))).
Proof.
  apply (uas_ack_confirms demo_cfg demo_env (mk_rdata 7 (Request PJSIP_ACK_METHOD))
           (demo_completed PJSIP_ROLE_UAS PJSIP_INVITE_METHOD)); try reflexivity.
  apply demo_completed_ok.
Defined.

(** The timers and the state after a server transaction has sent response [code]
    to a request whose CSeq method is [cm] *)
Definition uas_next_state (code : Z) (t : pjsip_transaction) : pjsip_tsx_state_e :=
  if code <? 200 then PJSIP_TSX_STATE_PROCEEDING
  else if (code <? 300) && bool_decide (method t = PJSIP_INVITE_METHOD) && negb (handle_200resp t)
  then PJSIP_TSX_STATE_TERMINATED else PJSIP_TSX_STATE_COMPLETED.

Definition uas_next_timers (cfg : tsx_cfg) (code : Z) (cm : pjsip_method_e) (t : pjsip_transaction) :
    tsx_timer * tsx_timer :=
  let inv := bool_decide (method t = PJSIP_INVITE_METHOD) in
  let timeout := mk_timer TIMEOUT_TIMER
    (Some (if inv then timeout_timer_val cfg else if is_reliable t then tv_zero else timeout_timer_val cfg)) in
  if code <? 200 then
    (if inv && (100 <? code) then mk_timer RETRANSMIT_TIMER (Some (mk_tv PJSIP_TSX_1XX_RETRANS_DELAY 0))
     else retransmit_timer t, timeout_timer t)
  else if code <? 300 then
    if inv && negb (handle_200resp t) then (timer_off, mk_timer TIMEOUT_TIMER (Some tv_zero))
    else (if inv then mk_timer RETRANSMIT_TIMER (Some (t1_timer_val cfg)) else timer_off, timeout)
  else (if negb (is_reliable t) && bool_decide (cm = PJSIP_INVITE_METHOD)
        then mk_timer RETRANSMIT_TIMER (Some (t1_timer_val cfg)) else timer_off, timeout).

Section UasResponse.
Context (cfg : tsx_cfg) (code : Z) (cm : pjsip_method_e) (td : Z).

Definition no_pending (w : world) : Prop :=
  has_flag (transport_flag (w_tsx w)) TSX_HAS_PENDING_TRANSPORT = false.

(** What was sent is kept and the transaction is in the state and has the timers
    of the table for the world [w]. *)
Definition answered (w w' : world) : Prop :=
  state (w_tsx w') = uas_next_state code (w_tsx w) /\ status_code (w_tsx w') = status_code (w_tsx w) /\
  (retransmit_timer (w_tsx w'), timeout_timer (w_tsx w')) = uas_next_timers cfg code cm (w_tsx w) /\
  is_Some (w_tds w' !! td) /\
  (state (w_tsx w') <> PJSIP_TSX_STATE_TERMINATED -> last_tx (w_tsx w') = Some td /\
     w_log w' = w_log w ++ notes (tsx_user (w_tsx w)) (state (w_tsx w)) (uas_next_state code (w_tsx w)) (Src_tx td)).

Lemma sent_provisional_eq w :
  100 <= code <= 199 -> status_code (w_tsx w) = code -> no_pending w -> is_Some (w_tds w !! td) ->
  wp (uas_sent_provisional td) (fun a w' => a = PJ_SUCCESS /\ answered w w') w.
Proof.
  intros Hc Hst Hf Htd. unfold answered, uas_next_state, uas_next_timers.
  destruct (Z.ltb_spec code 200); [|lia]. unfold uas_sent_provisional, is_invite.
  destruct (save_eq td w Htd) as (tds & Hsv & Htds). eapply run_eq; [exact Hsv|]. run1.
  run1. run1. cbn [w_tsx entered set_state_handler set_state set_last_tx method status_code]. rewrite Hst.
  change (0 <? PJSIP_TSX_1XX_RETRANS_DELAY) with true. cbn [andb].
  destruct (bool_decide _ && _); cbn [when].
  - run1. run1. eapply run_last; [apply sched_or_pend_eq; [exact Hf|done]|]. run1. by split_and!.
  - run1. run1. by split_and!.
Qed.

Lemma sent_failure_eq w :
  300 <= code -> no_pending w -> is_Some (w_tds w !! td) ->
  wp (uas_sent_failure cfg td cm) (fun a w' => a = PJ_SUCCESS /\ answered w w') w.
Proof.
  intros Hc Hf Htd. unfold answered, uas_next_state, uas_next_timers.
  destruct (Z.ltb_spec code 200); [lia|]. destruct (Z.ltb_spec code 300); [lia|]. cbn [andb].
  unfold uas_sent_failure, is_invite. run1.
  destruct (save_eq td (upd (cancelled Retransmit) w) Htd) as (tds & Hsv & Htds). eapply run_eq; [exact Hsv|].
  run1. run1. run1. run1. cbn [w_tsx w_tds w_log w_layer_up upd cancelled scheduled set_timer set_grp_ref
    set_last_tx set_retransmit_timer set_timeout_timer method is_reliable].
  destruct (is_reliable (w_tsx w)) eqn:Er; cbn [negb andb];
    [|destruct (bool_decide (cm = _)); cbn [when]];
    [run1|eapply run_eq; [apply sched_or_pend_eq; [exact Hf|done]|]|run1]; run1; run1; cbn [cancelled scheduled set_timer set_grp_ref
    set_last_tx set_retransmit_timer set_timeout_timer method is_reliable];
    split_and!; cbn; rewrite ?Er; by try destruct (bool_decide (method (w_tsx w) = _)).
Qed.

Lemma sent_success_eq w :
  200 <= code <= 299 -> tsx_ok w -> live w -> no_pending w -> is_Some (w_tds w !! td) ->
  wp (uas_sent_success cfg td) (fun a w' => a = PJ_SUCCESS /\ answered w w') w.
Proof.
  intros Hc Hw Hl Hf Htd. unfold answered, uas_next_state, uas_next_timers.
  destruct (Z.ltb_spec code 200); [lia|]. destruct (Z.ltb_spec code 300); [|lia]. cbn [andb].
  unfold uas_sent_success, is_invite. run1. run1. run1.
  cbn [w_tsx upd cancelled set_timer set_grp_ref set_retransmit_timer method handle_200resp].
  destruct (bool_decide _) eqn:Em; [destruct (handle_200resp (w_tsx w)) eqn:Eh|]; cbn [andb negb when].
  - eapply run_eq; [apply sched_or_pend_eq; [exact Hf|done]|].
    edestruct (save_eq td) as (tds & Hsv & Htds); [|eapply run_eq; [exact Hsv|]]; [exact Htd|].
    run1. run1. run1. run1. by split_and!.
  - apply wp_bind. eapply wp_mono; [apply terminated_facts|].
    + apply (upd_harmless _ w (harmless_cancelled Retransmit) Hw).
    + exact Hl.
    + intros u w' (S' & T' & [= _ _ C' R' _ _ _ _] & _ & _ & X'). run1. split_and!; try done.
      * by rewrite R', T'.
      * by apply (x_dom _ _ X').
  - run1. edestruct (save_eq td) as (tds & Hsv & Htds); [|eapply run_eq; [exact Hsv|]]; [exact Htd|].
    run1. run1. run1. run1. cbn [w_tsx is_reliable upd cancelled set_timer set_grp_ref set_last_tx set_retransmit_timer].
    split_and!; try done. cbn. by destruct (is_reliable (w_tsx w)).
Qed.
End UasResponse.

Lemma uas_proceeding_sends cfg env code cm tp td d w :
  tsx_ok w -> role (w_tsx w) = PJSIP_ROLE_UAS -> live w ->
  w_tds w !! td = Some d -> td_msg d = Response code cm -> 100 <= code <= 699 -> sendable env td tp w ->
  wp (tsx_on_state_proceeding_uas cfg env (Ev_tx_msg td)) (fun a w' => a = PJ_SUCCESS /\
    answered cfg code cm td (logged [E_transport_send (tp_id tp) td] (upd (set_status_code code) w)) w') w.
Proof.
  intros Hw Hr Hl Hd Hmsg Hc Hse. unfold tsx_on_state_proceeding_uas.
  apply (wp_td_get _ _ _ _ d Hd). rewrite Hmsg. cbv beta iota. run1.
  set (w1 := mk_world _ _ _ _).
  assert (H1 : tsx_ok w1) by (apply (upd_harmless (set_status_code code)); [intros ?; simpl; tauto|done]).
  destruct (drop_eq td w1 (ok_core _ H1)) as (tds & Hdrop & Htds).
  pose proof (drop_other_tx_uas td w1 H1 Hr) as H2. unfold wp in H2. rewrite Hdrop in H2. destruct H2 as [H2 _].
  eapply run_eq; [exact Hdrop|]. set (w2 := mk_world _ tds _ _) in *.
  assert (Hd2 : w_tds w2 !! td = Some d) by (etrans; [exact Htds|exact Hd]).
  unfold then_ok. eapply run_eq; [apply (send_now_eq cfg env td tp)|].
  { destruct Hse as [S1 S2 (d' & S3 & S4) S5]. split; [done..| |done]. exists d. split; congruence. }
  cbv beta iota. change (PJ_SUCCESS =? PJ_SUCCESS) with true. cbv iota. run1.
  change (status_code (w_tsx (logged _ w2))) with code.
  assert (Hd3 : is_Some (w_tds (logged [E_transport_send (tp_id tp) td] w2) !! td)) by by eexists.
  assert (Hf : no_pending (logged [E_transport_send (tp_id tp) td] w2)) by apply Hse.
  destruct (decide (code < 200)) as [H100|H100]; [|destruct (decide (code < 300)) as [H200|H200]].
  - rewrite (class_true 1 code 100) by lia. eapply wp_mono; [apply (sent_provisional_eq cfg code cm td); [lia|done|exact Hf|exact Hd3]|done].
  - rewrite (class_false 1 2 code 100), (class_true 2 code 200) by lia.
    eapply wp_mono; [apply (sent_success_eq cfg code cm td); [lia|by apply logged_ok|exact Hl|exact Hf|exact Hd3]|done].
  - rewrite (class_false 1 (code / 100) code 100), (class_false 2 (code / 100) code 200)
      by (pose proof (Z.div_mod code 100); pose proof (Z.mod_pos_bound code 100); lia).
    destruct (Z.leb_spec 300 code); [|lia].
    eapply wp_mono; [apply (sent_failure_eq cfg code cm td); [lia|exact Hf|exact Hd3]|done].
Qed.

(** Sending a response from Trying or Proceeding: the response goes out on the
    transport, its code is the status, and the transaction is in the state and has
    the timers of the table: Proceeding for 1xx (an INVITE repeats it every minute),
    Terminated for 2xx to an INVITE whose user retransmits them itself, Completed
    otherwise (final responses to an INVITE repeat after T1).  Unless it
    terminates, the response is kept for retransmission. *)
Theorem uas_sends_response cfg env code cm tp td d w :
  uas_answering w -> w_tds w !! td = Some d -> td_msg d = Response code cm -> 100 <= code <= 699 ->
  sendable env td tp w ->
  exists w', run_op cfg (Op_send_msg env (Some td)) w = Some (tt, w') /\
    state (w_tsx w') = uas_next_state code (w_tsx w) /\ status_code (w_tsx w') = code /\
    (retransmit_timer (w_tsx w'), timeout_timer (w_tsx w')) = uas_next_timers cfg code cm (w_tsx w) /\
    (state (w_tsx w') <> PJSIP_TSX_STATE_TERMINATED -> last_tx (w_tsx w') = Some td /\
       w_log w' = w_log w ++ E_transport_send (tp_id tp) td ::
         notes (tsx_user (w_tsx w)) (state (w_tsx w)) (uas_next_state code (w_tsx w)) (Src_tx td)).
Proof.
  intros (Hw & Hr & Hs) Hd Hmsg Hc Hse. apply wp_result. cbn [run_op]. unfold ignore, pjsip_tsx_send_msg.
  assert (Hl : live w) by (unfold live; destruct Hs as [-> | ->]; simpl; lia).
  assert (Hdone : forall w', answered cfg code cm td
     (logged [E_transport_send (tp_id tp) td] (upd (set_status_code code) w)) w' ->
     wp (when true (pjsip_tx_data_dec_ref td) ;; ret PJ_SUCCESS) (fun _ w2 =>
        state (w_tsx w2) = uas_next_state code (w_tsx w) /\ status_code (w_tsx w2) = code /\
        (retransmit_timer (w_tsx w2), timeout_timer (w_tsx w2)) = uas_next_timers cfg code cm (w_tsx w) /\
        (state (w_tsx w2) <> PJSIP_TSX_STATE_TERMINATED -> last_tx (w_tsx w2) = Some td /\
           w_log w2 = w_log w ++ E_transport_send (tp_id tp) td ::
             notes (tsx_user (w_tsx w)) (state (w_tsx w)) (uas_next_state code (w_tsx w)) (Src_tx td))) w').
  { intros w' (A1 & A2 & A3 & A4 & A5). destruct (dec_ref_eq td w' A4) as [tds Hdec].
    eapply run_eq; [exact Hdec|]. run1. split_and!; try done.
    intros Hnt. destruct (A5 Hnt) as [B1 B2]. split; [done|]. cbn. rewrite B2. cbn. by rewrite <- app_assoc. }
  apply wp_bind. run1. apply wp_bind.
  assert (Hp := uas_proceeding_sends cfg env code cm tp td d w Hw Hr Hl Hd Hmsg Hc Hse).
  destruct Hs as [Hs|Hs]; (eapply dispatch_handler;
    [by rewrite (ok_handler _ (ok_core _ Hw)), Hr, Hs|]); cbn [run_handler].
  - unfold tsx_on_state_trying. apply wp_bind. eapply wp_mono; [exact Hp|]. intros a w1 [-> Ha].
    unfold state_is. eapply get_is.
    { apply bool_decide_eq_false_2. rewrite (proj1 Ha). unfold uas_next_state.
      destruct (code <? 200); [discriminate|]. destruct (_ && _ && _); discriminate. }
    change ((PJ_SUCCESS =? PJ_SUCCESS) && false) with false. run1. run1. by apply Hdone.
  - eapply wp_mono; [exact Hp|]. intros a w1 [-> Ha]. by apply Hdone.
Qed.

Definition demo_answering (m : pjsip_method_e) : world :=
  mk_world (mk_tsx PJSIP_ROLE_UAS m PJSIP_TSX_STATE_TRYING (Some tsx_on_state_trying_h) 0 true (Some demo_tp)
    false 16 None 0 0 0 None None 0 timer_off timer_off (Some demo_user) false 1 true) demo_tds [] true.

Lemma demo_answering_ok m : uas_answering (demo_answering m).
Proof. split; [|split; [done|by left]]. by split; [split| | | |]. Qed.

Lemma uas_sends_response_witness :
  exists w', run_op demo_cfg (Op_send_msg demo_env (Some 13)) (demo_answering PJSIP_INVITE_METHOD) = Some (tt, w') /\
    state (w_tsx w') = PJSIP_TSX_STATE_COMPLETED /\ status_code (w_tsx w') = 486 /\
    (retransmit_timer (w_tsx w'), timeout_timer (w_tsx w')) =
      (mk_timer RETRANSMIT_TIMER (Some (t1_timer_val demo_cfg)),
       mk_timer TIMEOUT_TIMER (Some (timeout_timer_val demo_cfg))) /\
    (state (w_tsx w') <> PJSIP_TSX_STATE_TERMINATED -> last_tx (w_tsx w') = Some 13 /\
       w_log w' = [E_transport_send 1 13;
                   E_on_tsx_state PJSIP_TSX_STATE_TRYING PJSIP_TSX_STATE_COMPLETED (Src_tx 13)]).
Proof.
  apply (uas_sends_response demo_cfg demo_env 486 PJSIP_INVITE_METHOD demo_tp 13
           (mk_tdata (Response 486 PJSIP_INVITE_METHOD) 1 false false) (demo_answering PJSIP_INVITE_METHOD)).
  - apply demo_answering_ok.
  - reflexivity.
  - reflexivity.
  - lia.
  - split; [reflexivity..| |reflexivity]. by eexists.
Defined.

(** ** Timeouts *)

(** A poll of the timer heap, with the handler of the state *)
Lemma fire_timeout cfg env h (Q : world -> Prop) w :
  state_handler (w_tsx w) = Some h -> tm_id (timeout_timer (w_tsx w)) <> TRANSPORT_ERR_TIMER ->
  wp (run_handler cfg h env (Ev_timer Timeout))
     (fun _ w' => Q (upd (fun t => set_grp_ref (grp_ref t + -1) t) w')) (upd (set_timeout_timer timer_off) w) ->
  wp (run_op cfg (Op_timer env Timeout)) (fun _ w' => Q w') w.
Proof.
  intros Hh Hid H. cbn [run_op]. unfold fire_timer. run1. unfold tsx_timer_callback. run1. run1. run1.
  cbn [timer_of w_tsx set_timer set_timeout_timer timeout_timer tm_id].
  rewrite (proj2 (Z.eqb_neq _ _) Hid). apply wp_bind. eapply dispatch_handler; [exact Hh|].
  exact H.
Qed.

(** A poll in Calling: Terminated with 408, and what the transaction still holds *)
Lemma calling_timeout_fires cfg env d w :
  tsx_ok w -> role (w_tsx w) = PJSIP_ROLE_UAC -> state (w_tsx w) = PJSIP_TSX_STATE_CALLING ->
  timeout_timer (w_tsx w) = mk_timer TIMEOUT_TIMER (Some d) ->
  exists w1, run_op cfg (Op_timer env Timeout) w = Some (tt, w1) /\ (tsx_ok w1 /\
    w_layer_up w1 = w_layer_up w /\
    (state (w_tsx w1), status_code (w_tsx w1), retransmit_timer (w_tsx w1), timeout_timer (w_tsx w1)) =
      (PJSIP_TSX_STATE_TERMINATED, PJSIP_SC_TSX_TIMEOUT, timer_off, mk_timer TIMEOUT_TIMER (Some tv_zero)) /\
    (role (w_tsx w1), transport (w_tsx w1), last_tx (w_tsx w1), tsx_user (w_tsx w1), terminating (w_tsx w1)) =
      (role (w_tsx w), transport (w_tsx w), last_tx (w_tsx w), tsx_user (w_tsx w), terminating (w_tsx w)) /\
    grp_ref (w_tsx w1) = grp_ref (w_tsx w) - armed (retransmit_timer (w_tsx w)) /\
    td_refs w1 = td_refs w /\
    w_log w1 = w_log w ++ notes (tsx_user (w_tsx w)) PJSIP_TSX_STATE_CALLING PJSIP_TSX_STATE_TERMINATED
                            (Src_timer Timeout)).
Proof.
  intros Hw Hr Hs Ht. apply wp_result.
  eapply fire_timeout; [by rewrite (ok_handler _ (ok_core _ Hw)), Hr, Hs|by rewrite Ht|].
  cbn [run_handler]. unfold tsx_on_state_calling. run1. run1. run1. apply wp_bind.
  eapply wp_mono; [eapply wp_also; [intros a' w' E'; exact (terminated_ledger _ _ _ _ E')|apply terminated_facts]|].
  - apply (upd_harmless (fun t => set_status_code _ t) (upd _ _)); [intros ?; simpl; tauto|].
    apply (upd_clear TSX_HAS_PENDING_RESCHED (upd (cancelled Retransmit) (upd (set_timeout_timer timer_off) w))).
    apply upd_harmless; [apply harmless_cancelled|].
    apply upd_harmless; [apply (harmless_set_timer Timeout)|exact Hw].
  - unfold live. cbn. rewrite Hs. cbn. lia.
  - intros u w' ((G' & D' & N' & M') & S' & T' & [= R' _ C' Rt' Lt' _ Tp' U'] & H' & _ & X'). run1. cbv beta.
    pose proof (x_layer _ _ X') as L'. cbn in G', D', N', M', L'. rewrite Hs in N'.
    split; [apply (upd_harmless (fun t => set_grp_ref _ t)); [intros ?; simpl; tauto|done]|].
    cbn. rewrite L', S', C', Rt', T', R', Tp', Lt', U', M', G'. split_and!; try done.
    unfold armed. destruct (pj_timer_entry_running (retransmit_timer (w_tsx w))); cbn; lia.
Qed.

(** A poll in Terminated: destroyed, and everything given back *)
Lemma terminated_timeout_fires cfg env d w :
  tsx_ok w -> state (w_tsx w) = PJSIP_TSX_STATE_TERMINATED ->
  timeout_timer (w_tsx w) = mk_timer TIMEOUT_TIMER (Some d) -> w_layer_up w = true ->
  exists w1, run_op cfg (Op_timer env Timeout) w = Some (tt, w1) /\
    (state (w_tsx w1) = PJSIP_TSX_STATE_DESTROYED /\ registered (w_tsx w1) = false /\ released (w_tsx w1) /\
     given_back (Src_timer Timeout) w w1).
Proof.
  intros Hw Hs Ht Hup. apply wp_result.
  eapply fire_timeout; [by rewrite (ok_handler _ (ok_core _ Hw)), Hs; destruct (role (w_tsx w))|by rewrite Ht|].
  cbn [run_handler]. unfold tsx_on_state_terminated. apply wp_bind.
  eapply wp_mono; [eapply wp_also; [intros a' w' E'; refine (destroyed_ledger _ _ _ _ _ E'); exact Hup|
    apply destroyed_facts; [|exact Hs|exact Hup]]|].
  - apply upd_harmless; [apply (harmless_set_timer Timeout)|exact Hw].
  - intros u w' ([G D L] & _ & S' & R' & G'). run1. split_and!; [done..|]. split; [|exact D|exact L].
    cbn in G |- *. rewrite G, Ht. unfold armed. cbn.
    destruct (pj_timer_entry_running _), (terminating _); lia.
Qed.

(** C39: when timer B or F expires in Calling, the client transaction stops
    retransmitting and terminates with status 408, and the next expiry of its
    timeout timer destroys it: it leaves the table of transactions, its timers are
    off, and it has given back one reference on its group lock, one more for each
    timer that was armed, one on the message it repeated and no other message, its
    transport and its selector; its user was told of the two state changes. *)
Theorem calling_timeout_destroys cfg env env' d w :
  tsx_ok w -> role (w_tsx w) = PJSIP_ROLE_UAC -> state (w_tsx w) = PJSIP_TSX_STATE_CALLING ->
  timeout_timer (w_tsx w) = mk_timer TIMEOUT_TIMER (Some d) -> w_layer_up w = true ->
  exists w1 w2, run_op cfg (Op_timer env Timeout) w = Some (tt, w1) /\
    state (w_tsx w1) = PJSIP_TSX_STATE_TERMINATED /\ status_code (w_tsx w1) = PJSIP_SC_TSX_TIMEOUT /\
    retransmit_timer (w_tsx w1) = timer_off /\
    timeout_timer (w_tsx w1) = mk_timer TIMEOUT_TIMER (Some tv_zero) /\
    run_op cfg (Op_timer env' Timeout) w1 = Some (tt, w2) /\
    state (w_tsx w2) = PJSIP_TSX_STATE_DESTROYED /\ registered (w_tsx w2) = false /\ released (w_tsx w2) /\
    grp_ref (w_tsx w2) = grp_ref (w_tsx w) - armed (retransmit_timer (w_tsx w)) - 2 /\
    td_refs w2 = dropped_last (w_tsx w) (td_refs w) /\
    w_log w2 = w_log w ++
      notes (tsx_user (w_tsx w)) PJSIP_TSX_STATE_CALLING PJSIP_TSX_STATE_TERMINATED (Src_timer Timeout) ++
      notes (tsx_user (w_tsx w)) PJSIP_TSX_STATE_TERMINATED PJSIP_TSX_STATE_DESTROYED (Src_timer Timeout) ++
      release_log (w_tsx w).
Proof.
  intros Hw Hr Hs Ht Hup.
  assert (Hterm : terminating (w_tsx w) = false).
  { destruct (terminating (w_tsx w)) eqn:E; [|done]. apply (ok_term _ Hw) in E as [E _].
    rewrite Hs in E. cbn in E. lia. }
  destruct (calling_timeout_fires cfg env d w Hw Hr Hs Ht) as
    (w1 & Hrun1 & H1 & U1 & [= S1 C1 Rt1 T1] & [= R1 Tp1 Lt1 Us1 Tm1] & G1 & D1 & L1).
  destruct (terminated_timeout_fires cfg env' tv_zero w1 H1 S1 T1) as (w2 & Hrun2 & S2 & Rg2 & Rl2 & [G D L]);
    [congruence|].
  exists w1, w2. split_and!; try done.
  - rewrite G, Rt1, T1, Tm1, Hterm, G1. unfold armed. cbn. lia.
  - rewrite D. unfold dropped_last. by rewrite Lt1, D1.
  - rewrite L, L1, S1, Us1, <- !app_assoc. unfold release_log. by rewrite Tp1, Tm1.
Qed.

Lemma calling_timeout_destroys_witness :
  let w := demo_waiting PJSIP_INVITE_METHOD PJSIP_TSX_STATE_CALLING in
  exists w1 w2, run_op demo_cfg (Op_timer demo_env Timeout) w = Some (tt, w1) /\
    state (w_tsx w1) = PJSIP_TSX_STATE_TERMINATED /\ status_code (w_tsx w1) = PJSIP_SC_TSX_TIMEOUT /\
    retransmit_timer (w_tsx w1) = timer_off /\
    timeout_timer (w_tsx w1) = mk_timer TIMEOUT_TIMER (Some tv_zero) /\
    run_op demo_cfg (Op_timer demo_env Timeout) w1 = Some (tt, w2) /\
    state (w_tsx w2) = PJSIP_TSX_STATE_DESTROYED /\ registered (w_tsx w2) = false /\ released (w_tsx w2) /\
    grp_ref (w_tsx w2) = grp_ref (w_tsx w) - armed (retransmit_timer (w_tsx w)) - 2 /\
    td_refs w2 = dropped_last (w_tsx w) (td_refs w) /\
    w_log w2 = w_log w ++
      notes (tsx_user (w_tsx w)) PJSIP_TSX_STATE_CALLING PJSIP_TSX_STATE_TERMINATED (Src_timer Timeout) ++
      notes (tsx_user (w_tsx w)) PJSIP_TSX_STATE_TERMINATED PJSIP_TSX_STATE_DESTROYED (Src_timer Timeout) ++
      release_log (w_tsx w).
Proof.
  apply (calling_timeout_destroys demo_cfg demo_env demo_env (mk_tv 32 0)
           (demo_waiting PJSIP_INVITE_METHOD PJSIP_TSX_STATE_CALLING)); try reflexivity.
  apply demo_waiting_ok. by left.
Defined.

(** The timeout timer as the transport layer's notice leaves it *)
Lemma disconnected_eq cfg st w :
  run_op cfg (Op_tp_disconnected st) w = Some (tt, upd (fun t =>
    scheduled Timeout tv_zero TRANSPORT_ERR_TIMER (cancelled Timeout (set_transport_err st t))) w).
Proof. cbn [run_op]. unfold tsx_tp_state_callback, bind, put. by rewrite cancel_eq, schedule_eq. Qed.

Lemma disconnected_ok st w : tsx_ok w -> tsx_ok (upd (fun t =>
    scheduled Timeout tv_zero TRANSPORT_ERR_TIMER (cancelled Timeout (set_transport_err st t))) w).
Proof.
  intros Hw. change (tsx_ok (upd (scheduled Timeout tv_zero TRANSPORT_ERR_TIMER)
    (upd (cancelled Timeout) (upd (set_transport_err st) w)))).
  apply upd_harmless; [apply harmless_scheduled|].
  apply upd_harmless; [apply harmless_cancelled|]. apply upd_harmless; [intros ?; simpl; tauto|done].
Qed.

Lemma update_none_eq w : exists l, tsx_update_transport None w =
  Some (tt, logged l (upd (set_transport None) w)) /\ Forall silent l.
Proof.
  unfold tsx_update_transport, bind, get, log, put, skip, ret, logged, upd.
  destruct (transport (w_tsx w)) as [o|] eqn:Et.
  - exists [E_transport_dec_ref (tp_id o)]. split; [done|by repeat constructor].
  - exists []. split; [|done]. rewrite app_nil_r. do 2 f_equal.
    destruct w as [t tds lg up]. cbn in *. destruct t. cbn in *. by subst.
Qed.

(** The expiry of the transport-error timer *)
Lemma fire_transport_err cfg env (Q : world -> Prop) w :
  tm_id (timeout_timer (w_tsx w)) = TRANSPORT_ERR_TIMER ->
  wp (s ← get state; when (state_num s <? state_num PJSIP_TSX_STATE_TERMINATED) transport_err_event)
     (fun _ w' => Q (upd (fun t => set_grp_ref (grp_ref t + -1) t) w')) (upd (set_timeout_timer timer_off) w) ->
  wp (run_op cfg (Op_timer env Timeout)) (fun _ w' => Q w') w.
Proof.
  intros Hid H. cbn [run_op]. unfold fire_timer. run1. unfold tsx_timer_callback. run1. run1. run1.
  cbn [timer_of w_tsx set_timer set_timeout_timer timeout_timer tm_id].
  rewrite Hid. change (TRANSPORT_ERR_TIMER =? TRANSPORT_ERR_TIMER) with true. exact H.
Qed.

Definition err_status (code : Z) : Z := if code <? 200 then PJSIP_SC_TSX_TRANSPORT_ERROR else code.

Definition told (user : option tsx_user_t) (prev new : pjsip_tsx_state_e) (src : event_src) : list effect :=
  match user with Some u => if has_on_tsx_state u then [E_on_tsx_state prev new src] else [] | None => [] end.

Lemma transport_err_spec w :
  tsx_ok w -> live w ->
  wp transport_err_event (fun _ w2 =>
    state (w_tsx w2) = PJSIP_TSX_STATE_TERMINATED /\
    status_code (w_tsx w2) = err_status (status_code (w_tsx w)) /\
    transport (w_tsx w2) = None /\ timeout_timer (w_tsx w2) = mk_timer TIMEOUT_TIMER (Some tv_zero) /\
    exists l, w_log w2 = l ++
      told (tsx_user (w_tsx w)) (state (w_tsx w)) PJSIP_TSX_STATE_TERMINATED Src_transport_error) w.
Proof.
  intros Hw Hl. unfold transport_err_event. run1.
  destruct (update_none_eq w) as (l & Hupd & Hsil). eapply run_eq; [exact Hupd|]. run1.
  assert (H3 : tsx_ok (logged l (upd (set_transport None) w)))
    by (apply logged_ok, upd_harmless; [intros ?; simpl; tauto|done]).
  change (status_code (w_tsx (logged l (upd (set_transport None) w)))) with (status_code (w_tsx w)).
  eapply (run_eq _ _ _ _ tt (upd (set_status_code (err_status (status_code (w_tsx w))))
    (logged l (upd (set_transport None) w)))).
  { unfold err_status. by destruct (status_code (w_tsx w) <? 200). }
  set (code := err_status _). clearbody code.
  assert (H4 : tsx_ok (upd (set_status_code code) (logged l (upd (set_transport None) w))))
    by (apply upd_harmless; [intros ?; simpl; tauto|done]).
  apply wp_bind. eapply wp_mono; [apply terminated_facts; [exact H4|exact Hl]|].
  intros u w5 (S5 & T5 & [= _ _ C5 _ _ _ P5 U5] & _). unfold notify_tsx_state. apply wp_bind.
  eapply get_is; [exact U5|]. unfold told. cbn [w_tsx upd logged tsx_user set_status_code set_transport].
  destruct (tsx_user (w_tsx w)) as [[a []]|]; cbn [when has_on_tsx_state].
  all: unfold wp, log, skip, ret; rewrite schedule_eq by (cbn; by rewrite T5); cbn.
  all: split_and!; try done; (exists (w_log w5)); by rewrite ?app_nil_r.
Qed.

Lemma two_steps (m1 m2 : M unit) (Q : world -> Prop) w w1 :
  m1 w = Some (tt, w1) -> wp m2 (fun _ w2 => Q w2) w1 ->
  exists w1 w2, m1 w = Some (tt, w1) /\ m2 w1 = Some (tt, w2) /\ Q w2.
Proof. intros H1 H2. destruct (wp_result _ _ _ H2) as (w2 & ? & ?). eauto. Qed.

(** C25: when the transport in use is disconnected, the next poll terminates a
    transaction that was not over yet: the status becomes 503 unless a final
    response was seen, the transport is released, the transaction user is told,
    and the timeout timer is armed to destroy the transaction. *)
Theorem disconnect_terminates cfg env st w :
  tsx_ok w -> live w ->
  exists w1 w2, run_op cfg (Op_tp_disconnected st) w = Some (tt, w1) /\
    run_op cfg (Op_timer env Timeout) w1 = Some (tt, w2) /\
    state (w_tsx w2) = PJSIP_TSX_STATE_TERMINATED /\
    status_code (w_tsx w2) = err_status (status_code (w_tsx w)) /\
    transport (w_tsx w2) = None /\ timeout_timer (w_tsx w2) = mk_timer TIMEOUT_TIMER (Some tv_zero) /\
    exists l, w_log w2 = l ++
      told (tsx_user (w_tsx w)) (state (w_tsx w)) PJSIP_TSX_STATE_TERMINATED Src_transport_error.
Proof.
  intros Hw Hl. eapply two_steps; [apply disconnected_eq|].
  apply fire_transport_err; [done|]. apply wp_get.
  change (state (w_tsx (upd _ (upd _ w)))) with (state (w_tsx w)).
  unfold live in Hl. rewrite (proj2 (Z.ltb_lt _ _) Hl). cbn [when].
  eapply wp_mono; [apply transport_err_spec|].
  - apply upd_harmless; [apply (harmless_set_timer Timeout)|by apply disconnected_ok].
  - exact Hl.
  - by intros u w2.
Qed.

Lemma disconnect_terminates_witness :
  let w := demo_waiting PJSIP_INVITE_METHOD PJSIP_TSX_STATE_PROCEEDING in
  exists w1 w2, run_op demo_cfg (Op_tp_disconnected 120104) w = Some (tt, w1) /\
    run_op demo_cfg (Op_timer demo_env Timeout) w1 = Some (tt, w2) /\
    state (w_tsx w2) = PJSIP_TSX_STATE_TERMINATED /\
    status_code (w_tsx w2) = PJSIP_SC_TSX_TRANSPORT_ERROR /\
    transport (w_tsx w2) = None /\ timeout_timer (w_tsx w2) = mk_timer TIMEOUT_TIMER (Some tv_zero) /\
    exists l, w_log w2 = l ++
      [E_on_tsx_state PJSIP_TSX_STATE_PROCEEDING PJSIP_TSX_STATE_TERMINATED Src_transport_error].
Proof.
  apply (disconnect_terminates demo_cfg demo_env 120104
           (demo_waiting PJSIP_INVITE_METHOD PJSIP_TSX_STATE_PROCEEDING)).
  - apply demo_waiting_ok. by right.
  - reflexivity.
Defined.

(** A disconnection that comes while the transaction waits in Terminated for
    its last timer replaces this timer by a transport-error timer, whose expiry does
    nothing in Terminated: the transaction stays registered, keeps its transport and
    its message, and no timer is left to destroy it. *)
Theorem terminated_disconnect_stuck cfg env st w :
  tsx_ok w -> state (w_tsx w) = PJSIP_TSX_STATE_TERMINATED -> retransmit_timer (w_tsx w) = timer_off ->
  exists w1 w2, run_op cfg (Op_tp_disconnected st) w = Some (tt, w1) /\
    run_op cfg (Op_timer env Timeout) w1 = Some (tt, w2) /\
    state (w_tsx w2) = PJSIP_TSX_STATE_TERMINATED /\
    retransmit_timer (w_tsx w2) = timer_off /\ timeout_timer (w_tsx w2) = timer_off /\
    (registered (w_tsx w2), transport (w_tsx w2), last_tx (w_tsx w2), terminating (w_tsx w2)) =
      (registered (w_tsx w), transport (w_tsx w), last_tx (w_tsx w), terminating (w_tsx w)) /\
    w_log w2 = w_log w.
Proof.
  intros Hw Hs Hr. eapply two_steps; [apply disconnected_eq|].
  apply fire_transport_err; [done|]. apply wp_get.
  change (state (w_tsx (upd _ (upd _ w)))) with (state (w_tsx w)). rewrite Hs. by split_and!.
Qed.

Definition demo_terminated : world :=
  mk_world (mk_tsx PJSIP_ROLE_UAC PJSIP_INVITE_METHOD PJSIP_TSX_STATE_TERMINATED
    (Some tsx_on_state_terminated_h) 200 true (Some demo_tp) false 16 None 0 TSX_HAS_RESOLVED_SERVER 0 None (Some 10) 0
    timer_off (mk_timer TIMEOUT_TIMER (Some tv_zero)) (Some demo_user) false 2 true) demo_tds [] true.

Lemma terminated_disconnect_stuck_witness :
  exists w1 w2, run_op demo_cfg (Op_tp_disconnected 120104) demo_terminated = Some (tt, w1) /\
    run_op demo_cfg (Op_timer demo_env Timeout) w1 = Some (tt, w2) /\
    state (w_tsx w2) = PJSIP_TSX_STATE_TERMINATED /\
    retransmit_timer (w_tsx w2) = timer_off /\ timeout_timer (w_tsx w2) = timer_off /\
    (registered (w_tsx w2), transport (w_tsx w2), last_tx (w_tsx w2), terminating (w_tsx w2)) =
      (true, Some demo_tp, Some 10, false) /\
    w_log w2 = [].
Proof.
  apply (terminated_disconnect_stuck demo_cfg demo_env 120104 demo_terminated); try reflexivity.
  split; [split| | | |]; try done. intros td [= <-]. by eexists.
Defined.

(** ** Retransmission *)

Lemma resched_u32 n t1 : 0 <= n < 32 -> 0 <= t1 -> 2 ^ n * t1 < 4294967296 ->
  u32 (Z.shiftl 1 (n mod 32) * t1) = 2 ^ n * t1.
Proof.
  intros Hn H1 H2. rewrite Z.mod_small by done. rewrite Z.shiftl_1_l. apply u32_id. unfold is_u32. nia.
Qed.

(** When the retransmission timer of a client transaction that has had no
    response fires, its request is sent again and the timer is started with the
    next interval: T1 doubled for every retransmission so far, without limit for an
    INVITE and up to T2 for other requests. *)
Theorem calling_retransmits cfg env tp td w :
  tsx_ok w -> role (w_tsx w) = PJSIP_ROLE_UAC -> state (w_tsx w) = PJSIP_TSX_STATE_CALLING ->
  status_code (w_tsx w) < 100 -> last_tx (w_tsx w) = Some td -> sendable env td tp w ->
  tm_id (retransmit_timer (w_tsx w)) = RETRANSMIT_TIMER ->
  let n := retransmit_count (w_tsx w) + 1 in
  0 < n < 32 -> 0 < cfg_t1 cfg -> 2 ^ n * cfg_t1 cfg < 4294967296 -> 0 < cfg_t2 cfg ->
  exists w', run_op cfg (Op_timer env Retransmit) w = Some (tt, w') /\
    state (w_tsx w') = PJSIP_TSX_STATE_CALLING /\ retransmit_count (w_tsx w') = n /\
    retransmit_timer (w_tsx w') = mk_timer RETRANSMIT_TIMER (Some (tv_of_ms
      (if bool_decide (method (w_tsx w) = PJSIP_INVITE_METHOD) then 2 ^ n * cfg_t1 cfg
       else Z.min (2 ^ n * cfg_t1 cfg) (cfg_t2 cfg)))) /\
    timeout_timer (w_tsx w') = timeout_timer (w_tsx w) /\
    w_log w' = w_log w ++ [E_transport_send (tp_id tp) td].
Proof.
  intros Hw Hr Hs Hc Hl Hse Hid n Hn H1 Hov H2. apply wp_result. cbn [run_op]. unfold fire_timer. run1.
  unfold tsx_timer_callback. run1. run1. run1. cbn [timer_of w_tsx set_timer set_retransmit_timer retransmit_timer tm_id].
  rewrite Hid. apply wp_bind. eapply dispatch_handler; [exact (eq_trans (ok_handler _ (ok_core _ Hw)) ltac:(by rewrite Hr, Hs))|].
  cbn [handler_for tsx_state_handler_uac run_handler]. unfold tsx_on_state_calling, tsx_retransmit. run1.
  eapply get_is; [exact Hl|]. cbv beta iota. run1. run1. cbv iota. run1. run1. cbn [w_tsx transport_flag set_retransmit_count set_retransmit_timer].
  rewrite (se_flag _ _ _ _ Hse). unfold tsx_resched_retransmission. run1.
  cbn [w_tsx role method status_code retransmit_count set_retransmit_count set_retransmit_timer].
  set (ms := resched_delay cfg _ _ _ _).
  assert (Hms : ms = if bool_decide (method (w_tsx w) = PJSIP_INVITE_METHOD) then 2 ^ n * cfg_t1 cfg
       else Z.min (2 ^ n * cfg_t1 cfg) (cfg_t2 cfg)).
  { unfold ms. rewrite i32_id by lia. fold n. unfold resched_delay. rewrite Hr.
    rewrite (proj2 (Z.leb_gt 100 _) Hc), andb_false_r, resched_u32 by lia.
    destruct (bool_decide _); [by rewrite andb_false_r|]. rewrite andb_true_r.
    destruct (Z.ltb_spec (cfg_t2 cfg) (2 ^ n * cfg_t1 cfg)); lia. }
  assert (Hpos : 0 < ms).
  { rewrite Hms. pose proof (Z.pow_pos_nonneg 2 n). destruct (bool_decide _); nia. }
  destruct (Z.eqb_spec ms 0); [lia|]. cbn [negb when]. rewrite <- Hms. clearbody ms. clear Hms.
  eapply run_last; [by apply schedule_eq|]. eapply run_last; [apply (send_now_eq cfg env td tp); by destruct Hse; split|].
  split_and!; try done. cbn. apply i32_id. lia.
Qed.

Lemma calling_retransmits_witness :
  let w := demo_waiting PJSIP_INVITE_METHOD PJSIP_TSX_STATE_CALLING in
  exists w', run_op demo_cfg (Op_timer demo_env Retransmit) w = Some (tt, w') /\
    state (w_tsx w') = PJSIP_TSX_STATE_CALLING /\ retransmit_count (w_tsx w') = 1 /\
    retransmit_timer (w_tsx w') = mk_timer RETRANSMIT_TIMER (Some (mk_tv 1 0)) /\
    timeout_timer (w_tsx w') = timeout_timer (w_tsx w) /\
    w_log w' = [E_transport_send 1 10].
Proof.
  apply (calling_retransmits demo_cfg demo_env demo_tp 10 (demo_waiting PJSIP_INVITE_METHOD PJSIP_TSX_STATE_CALLING));
    try reflexivity; [apply demo_waiting_ok; by left|split; [reflexivity..| |reflexivity]; by eexists|by split].
Defined.

(** ** Behaviours the comments do not intend, on concrete executions *)

(** The 180 of a server transaction goes out asynchronously: its completion callback
    clears the pending flag, but the minute timer that TSX_HAS_PENDING_RESCHED
    stands for is never started. *)
Example transport_callback_forgets_resched :
  exists w1 w2,
    run_op demo_cfg (Op_send_msg (mk_env PJ_EPENDING [] PJ_SUCCESS (inr 20)) (Some 11))
      (demo_answering PJSIP_INVITE_METHOD) = Some (tt, w1) /\
    run_op demo_cfg (Op_transport_callback 1) w1 = Some (tt, w2) /\
    has_flag (transport_flag (w_tsx w2)) TSX_HAS_PENDING_TRANSPORT = false /\
    has_flag (transport_flag (w_tsx w2)) TSX_HAS_PENDING_RESCHED = true /\
    retransmit_timer (w_tsx w2) = timer_off.
Proof. do 2 eexists. split_and!; vm_compute; reflexivity. Qed.

(** The resolution of a response's destination fails at once: the pending flag stays
    set, so that later responses wait for a completion that never comes, and the
    reference taken on the group lock is not given back. *)
Example failed_response_leaves_pending :
  let w := upd (set_transport None) (demo_answering PJSIP_INVITE_METHOD) in
  exists w1,
    run_op demo_cfg (Op_send_msg (mk_env PJ_SUCCESS [] PJ_EINVAL (inr 20)) (Some 13)) w = Some (tt, w1) /\
    has_flag (transport_flag (w_tsx w1)) TSX_HAS_PENDING_TRANSPORT = true /\
    pending_tx (w_tsx w1) = None /\ grp_ref (w_tsx w1) = grp_ref (w_tsx w) + 1.
Proof. eexists. split_and!; vm_compute; reflexivity. Qed.

(** Without [sync_report] C4 does not hold.  The 180 of an INVITE is being sent when
    the INVITE is received again, so that a resend is pending; the application sends
    the 180 again, the transport of the request fails, the next one takes the
    message and then refuses the pending resend.  The user is told that the
    transaction terminated with 503, and then that it is completed. *)
Definition reopening (resend : Z) : M unit :=
  let tp2 := mk_tp 2 false false in
  let env st := mk_env st [mk_report 300 (Some tp2) 16 false resend] PJ_SUCCESS (inr 20) in
  uas_bind_transport ;;
  run_op demo_cfg (Op_recv_msg (env PJ_SUCCESS) (mk_rdata 7 (Request PJSIP_INVITE_METHOD))) ;;
  run_op demo_cfg (Op_send_msg (env PJ_EPENDING) (Some 11)) ;;
  run_op demo_cfg (Op_recv_msg (env PJ_SUCCESS) (mk_rdata 8 (Request PJSIP_INVITE_METHOD))) ;;
  run_op demo_cfg (Op_transport_callback 300) ;;
  run_op demo_cfg (Op_send_msg (env PJ_EUNKNOWN) (Some 11)).

Example failed_resend_reopens :
  let w0 := mk_world (tsx_init_uas (Some demo_user) PJSIP_INVITE_METHOD (Some demo_tp) 16 false 0) demo_tds [] true in
  (exists w, reopening PJ_SUCCESS w0 = Some (tt, w) /\ state (w_tsx w) = PJSIP_TSX_STATE_PROCEEDING) /\
  (exists w, reopening PJ_EUNKNOWN w0 = Some (tt, w) /\ state (w_tsx w) = PJSIP_TSX_STATE_COMPLETED /\
     drop 9 (w_log w) =
       [E_transport_dec_ref 2;
        E_on_tsx_state PJSIP_TSX_STATE_PROCEEDING PJSIP_TSX_STATE_TERMINATED Src_transport_error;
        E_on_tsx_state PJSIP_TSX_STATE_TERMINATED PJSIP_TSX_STATE_COMPLETED (Src_tx 11)]).
Proof. split; eexists; split_and!; vm_compute; reflexivity. Qed.
