(* ===== verification/JbList.v ===== *)
(** * Jitter buffer: the frame list (pjmedia/src/pjmedia/jbuf.c)

    A circular buffer of frames kept in parallel arrays, with the frame bytes in
    one flat array.  Slots are addressed relative to [head]; a slot holds a
    frame, is missing, or holds a discarded frame that is skipped.  The frame
    list refines a queue of slots numbered from [origin].  Reads and writes
    outside an array are [None]. *)

From S2P Require Import Prelude.

(** ** Data *)

Definition INVALID_OFFSET : Z := -9999.
Definition PJMEDIA_JB_MISSING_FRAME : Z := 0.
Definition PJMEDIA_JB_NORMAL_FRAME : Z := 1.
Definition PJMEDIA_JB_ZERO_PREFETCH_FRAME : Z := 2.
Definition PJMEDIA_JB_ZERO_EMPTY_FRAME : Z := 3.
Definition PJMEDIA_JB_DISCARDED_FRAME : Z := 1024.
Definition MAX_MISORDER : Z := 100.
Definition MAX_DROPOUT : Z := 3000.

Record jb_framelist_t := mk_fl {
  frame_size : nat;
  max_count : nat;
  content : list Z;
  frame_type : list Z;
  content_len : list nat;
  bit_info : list Z;
  ts : list Z;
  head : nat;
  size : nat;
  discarded_num : Z;
  origin : Z
}.

(** What is stored through the pointer arguments of a read *)
Record frame_out := mk_out {
  o_data : list Z;
  o_type : Z;
  o_len : nat;
  o_bit : Z;
  o_ts : Z;
  o_seq : Z
}.

(** ** Operations *)

Definition jb_framelist_reset (f : jb_framelist_t) : jb_framelist_t :=
  mk_fl (frame_size f) (max_count f) (content f)
    (replicate (max_count f) PJMEDIA_JB_MISSING_FRAME) (replicate (max_count f) 0%nat)
    (bit_info f) (ts f) 0 0 0 INVALID_OFFSET.

(** The arrays are uninitialised pool memory, given by the arguments. *)
Definition jb_framelist_init (jc jb jt : list Z) (fsize maxc : nat) : jb_framelist_t :=
  jb_framelist_reset (mk_fl fsize maxc (resize (fsize * maxc) 0 jc) [] []
    (resize maxc 0 jb) (resize maxc 0 jt) 0 0 0 0).

Definition jb_framelist_size (f : jb_framelist_t) : nat := size f.

Definition jb_framelist_eff_size (f : jb_framelist_t) : Z :=
  u32 (Z.of_nat (size f) - discarded_num f).

Definition jb_framelist_origin (f : jb_framelist_t) : Z := origin f.

(** Counting the discarded frames out, from slot [i] on *)
Fixpoint uncount (types : list Z) (i n : nat) (d : Z) : option Z :=
  match n with
  | O => Some d
  | S n' =>
      t ← types !! i;
      uncount types (S i) n' (if t =? PJMEDIA_JB_DISCARDED_FRAME then u32 (d - 1) else d)
  end.

(** One step of removal: count out, and clear the types and lengths *)
Definition remove_step (f : jb_framelist_t) (i n : nat) : option jb_framelist_t :=
  d ← uncount (frame_type f) i n (discarded_num f);
  tys ← lfill (frame_type f) i n PJMEDIA_JB_MISSING_FRAME;
  lens ← lfill (content_len f) i n 0%nat;
  Some (mk_fl (frame_size f) (max_count f) (content f) tys lens (bit_info f) (ts f)
          (head f) (size f) d (origin f)).

Definition jb_framelist_remove_head (f : jb_framelist_t) (count : nat) :
    option (nat * jb_framelist_t) :=
  let count := if decide (size f < count)%nat then size f else count in
  if decide (count = 0)%nat then Some (0%nat, f)
  else
    let tmp := (head f + count)%nat in
    let step1 := if decide (max_count f < tmp)%nat then (max_count f - head f)%nat else count in
    let step2 := (count - step1)%nat in
    f1 ← remove_step f (head f) step1;
    f2 ← (if decide (step2 = 0)%nat then Some f1 else remove_step f1 0 step2);
    Some (count, mk_fl (frame_size f2) (max_count f2) (content f2) (frame_type f2) (content_len f2)
                   (bit_info f2) (ts f2) ((head f2 + count) mod max_count f2) (size f2 - count)
                   (discarded_num f2) (origin f2 + Z.of_nat count)).

(** "Skip discarded frames": [fuel] bounds the loop. *)
Fixpoint skip_discarded (fuel : nat) (f : jb_framelist_t) (prev : bool) :
    option (jb_framelist_t * bool) :=
  match fuel with
  | O => None
  | S fuel' =>
      t ← frame_type f !! head f;
      if t =? PJMEDIA_JB_DISCARDED_FRAME then
        '(_, f1) ← jb_framelist_remove_head f 1; skip_discarded fuel' f1 true
      else Some (f, prev)
  end.

(** The head slot is handed out and cleared. *)
Definition take_head (f : jb_framelist_t) (prev_discarded : bool) :
    option (frame_out * jb_framelist_t) :=
  data ← lslice (content f) (head f * frame_size f) (frame_size f);
  ty ← frame_type f !! head f;
  len ← content_len f !! head f;
  bi ← bit_info f !! head f;
  t ← ts f !! head f;
  tys ← lwrite (frame_type f) (head f) PJMEDIA_JB_MISSING_FRAME;
  lens ← lwrite (content_len f) (head f) 0%nat;
  bis ← lwrite (bit_info f) (head f) 0;
  tss ← lwrite (ts f) (head f) 0;
  Some (if prev_discarded then mk_out [] PJMEDIA_JB_MISSING_FRAME 0 0 t (origin f)
        else mk_out data ty len bi t (origin f),
        mk_fl (frame_size f) (max_count f) (content f) tys lens bis tss
          ((head f + 1) mod max_count f) (size f - 1) (discarded_num f) (origin f + 1)).

(** [None] in the result is PJ_FALSE. *)
Definition jb_framelist_get (f : jb_framelist_t) : option (option frame_out * jb_framelist_t) :=
  if decide (size f = 0)%nat then Some (None, f)
  else
    '(f1, prev) ← skip_discarded (S (size f)) f false;
    if decide (size f1 = 0)%nat then Some (None, f1)
    else '(o, f2) ← take_head f1 prev; Some (Some o, f2).

(** The loop that finds the slot; [fuel] bounds it. *)
Fixpoint peek_pos (fuel : nat) (f : jb_framelist_t) (pos idx : nat) : option nat :=
  match fuel with
  | O => None
  | S fuel' =>
      t ← frame_type f !! pos;
      if t =? PJMEDIA_JB_DISCARDED_FRAME
      then peek_pos fuel' f ((pos + 1) mod max_count f) idx
      else match idx with
           | O => Some pos
           | S idx' => peek_pos fuel' f ((pos + 1) mod max_count f) idx'
           end
  end.

Definition jb_framelist_peek (f : jb_framelist_t) (offset : nat) : option (option frame_out) :=
  if jb_framelist_eff_size f <=? Z.of_nat offset then Some None
  else
    pos ← peek_pos (size f) f (head f) offset;
    data ← lslice (content f) (pos * frame_size f) (frame_size f);
    ty ← frame_type f !! pos;
    len ← content_len f !! pos;
    bi ← bit_info f !! pos;
    t ← ts f !! pos;
    Some (Some (mk_out data ty len bi t (origin f + Z.of_nat offset))).

Definition set_origin (o : Z) (f : jb_framelist_t) : jb_framelist_t :=
  mk_fl (frame_size f) (max_count f) (content f) (frame_type f) (content_len f) (bit_info f) (ts f)
    (head f) (size f) (discarded_num f) o.

(** Storing the frame in its slot, "get the slot position" and after *)
Definition store_at (f : jb_framelist_t) (index distance : Z) (frame : list Z) (fsize : nat)
    (bi t ty : Z) : option (Z * jb_framelist_t) :=
  let pos := ((head f + Z.to_nat distance) mod max_count f)%nat in
  old ← frame_type f !! pos;
  if negb (old =? PJMEDIA_JB_MISSING_FRAME) then Some (PJ_EEXISTS, f)
  else
    tys ← lwrite (frame_type f) pos ty;
    lens ← lwrite (content_len f) pos fsize;
    bis ← lwrite (bit_info f) pos bi;
    tss ← lwrite (ts f) pos t;
    let sz := if origin f + Z.of_nat (size f) <=? index then Z.to_nat (distance + 1) else size f in
    cont ← (if ty =? PJMEDIA_JB_NORMAL_FRAME
            then src ← lslice frame 0 fsize; lcopy (content f) (pos * frame_size f) src
            else Some (content f));
    Some (PJ_SUCCESS, mk_fl (frame_size f) (max_count f) cont tys lens bis tss
                        (head f) sz (discarded_num f) (origin f)).

Definition jb_framelist_put_at (f : jb_framelist_t) (index : Z) (frame : list Z) (fsize : nat)
    (bi t ty : Z) : option (Z * jb_framelist_t) :=
  if decide (frame_size f < fsize)%nat then Some (PJ_EINVAL, f)
  else if (index <? origin f) && (origin f - index <? MAX_MISORDER) then Some (PJ_ETOOSMALL, f)
  else
    let f1 := if index <? origin f then set_origin (index - Z.of_nat (size f)) f else f in
    let f2 := if decide (size f1 = 0)%nat then set_origin index f1 else f1 in
    let distance := index - origin f2 in
    if Z.of_nat (max_count f2) <=? distance then
      if MAX_DROPOUT <? distance then
        store_at (set_origin index (jb_framelist_reset f2)) index 0 frame fsize bi t ty
      else Some (PJ_ETOOMANY, f2)
    else store_at f2 index distance frame fsize bi t ty.

Definition jb_framelist_discard (f : jb_framelist_t) (index : Z) : option (Z * jb_framelist_t) :=
  if (origin f <=? index) && (index <? origin f + Z.of_nat (size f)) then
    let pos := ((head f + Z.to_nat (index - origin f)) mod max_count f)%nat in
    tys ← lwrite (frame_type f) pos PJMEDIA_JB_DISCARDED_FRAME;
    Some (PJ_SUCCESS, mk_fl (frame_size f) (max_count f) (content f) tys (content_len f) (bit_info f)
                        (ts f) (head f) (size f) (u32 (discarded_num f + 1)) (origin f))
  else Some (PJ_EINVAL, f).
