(* ===== verification/JbRefine.v ===== *)
(** * Jitter buffer: the frame list refines a queue of slots

    [frames] reads the circular arrays of a frame list as the list of its slots,
    head first; every operation of JbList is shown to be an operation on this
    list, and to stay inside the arrays. *)

From S2P Require Import Prelude JbList.

(** ** The queue *)

Inductive slot := Missing | Discarded | Filled (data : list Z) (bi t : Z).

#[global] Instance slot_eq_dec : EqDecision slot.
Proof. solve_decision. Defined.

Definition is_discarded (s : slot) : bool := match s with Discarded => true | _ => false end.

Fixpoint count_true (l : list bool) : nat :=
  match l with [] => 0 | b :: l' => (if b then 1 else 0) + count_true l' end.

Definition n_discarded (l : list slot) : nat := count_true (map is_discarded l).

Lemma count_true_app l k : count_true (l ++ k) = (count_true l + count_true k)%nat.
Proof. induction l as [|[] l IH]; simpl; lia. Qed.

Lemma count_true_le l : (count_true l <= length l)%nat.
Proof. induction l as [|[] l IH]; simpl; lia. Qed.

Lemma n_discarded_app l k : n_discarded (l ++ k) = (n_discarded l + n_discarded k)%nat.
Proof. unfold n_discarded. by rewrite map_app, count_true_app. Qed.

Lemma n_discarded_le l : (n_discarded l <= length l)%nat.
Proof. unfold n_discarded. rewrite <- (length_map is_discarded l). apply count_true_le. Qed.

(** ** Reading a frame list *)

Definition phys (f : jb_framelist_t) (i : nat) : nat := ((head f + i) mod max_count f)%nat.

Definition slot_at (f : jb_framelist_t) (k : nat) : slot :=
  match frame_type f !! k, content_len f !! k, bit_info f !! k, ts f !! k with
  | Some ty, Some len, Some bi, Some t =>
      if ty =? PJMEDIA_JB_NORMAL_FRAME
      then Filled (take len (drop (k * frame_size f) (content f))) bi t
      else if ty =? PJMEDIA_JB_DISCARDED_FRAME then Discarded else Missing
  | _, _, _, _ => Missing
  end.

Definition frames (f : jb_framelist_t) : list slot := map (fun i => slot_at f (phys f i)) (seq 0 (size f)).

Definition type_ok (ty : Z) : Prop :=
  ty = PJMEDIA_JB_MISSING_FRAME \/ ty = PJMEDIA_JB_NORMAL_FRAME \/ ty = PJMEDIA_JB_DISCARDED_FRAME.

(** The arrays have the sizes they were allocated with, and what is outside the
    window of [size] slots from [head] on is missing. *)
Record shape_ok (f : jb_framelist_t) : Prop := {
  ok_max : (0 < max_count f)%nat;
  ok_max31 : Z.of_nat (max_count f) < 2147483648;
  ok_head : (head f < max_count f)%nat;
  ok_size : (size f <= max_count f)%nat;
  ok_content : length (content f) = (frame_size f * max_count f)%nat;
  ok_types_len : length (frame_type f) = max_count f;
  ok_lens_len : length (content_len f) = max_count f;
  ok_bits_len : length (bit_info f) = max_count f;
  ok_ts_len : length (ts f) = max_count f;
  ok_types : forall k ty, frame_type f !! k = Some ty -> type_ok ty;
  ok_lens : forall k n, content_len f !! k = Some n -> (n <= frame_size f)%nat;
  ok_out : forall i, (size f <= i < max_count f)%nat ->
     frame_type f !! phys f i = Some PJMEDIA_JB_MISSING_FRAME
}.

Record fl_ok (f : jb_framelist_t) : Prop := {
  ok_shape : shape_ok f;
  ok_disc : discarded_num f = Z.of_nat (n_discarded (frames f))
}.
#[export] Hint Resolve ok_shape : core.

Lemma mod_wrap a n : (0 < n)%nat -> (a < 2 * n)%nat ->
  (a mod n)%nat = if decide (a < n)%nat then a else (a - n)%nat.
Proof.
  intros Hn Ha. case_decide; [by apply Nat.mod_small|].
  symmetry. apply (Nat.mod_unique a n 1); lia.
Qed.

Lemma phys_eq f i : shape_ok f -> (i <= max_count f)%nat ->
  phys f i = if decide (head f + i < max_count f)%nat then (head f + i)%nat
             else (head f + i - max_count f)%nat.
Proof. intros H Hi. apply mod_wrap; [apply H|]. pose proof (ok_head f H). lia. Qed.

Lemma phys_lt f i : shape_ok f -> (phys f i < max_count f)%nat.
Proof. intros H. apply Nat.mod_upper_bound. pose proof (ok_max f H). lia. Qed.

Lemma phys_inj f i j : shape_ok f -> (i < max_count f)%nat -> (j < max_count f)%nat ->
  phys f i = phys f j -> i = j.
Proof.
  intros H Hi Hj. rewrite !phys_eq by (done || lia). pose proof (ok_head f H).
  repeat case_decide; lia.
Qed.

Lemma length_frames f : length (frames f) = size f.
Proof. unfold frames. by rewrite length_map, length_seq. Qed.

Lemma frames_lookup f i : (i < size f)%nat -> frames f !! i = Some (slot_at f (phys f i)).
Proof.
  intros Hi. unfold frames. rewrite list_lookup_fmap, lookup_seq_lt by done. done.
Qed.

Lemma frames_eq f l :
  length l = size f -> (forall i, (i < size f)%nat -> l !! i = Some (slot_at f (phys f i))) -> frames f = l.
Proof.
  intros Hl H. apply list_eq. intros i. destruct (decide (i < size f)%nat).
  - by rewrite frames_lookup, H.
  - rewrite !lookup_ge_None_2; [done|lia|rewrite length_frames; lia].
Qed.

(** The fields of a slot that is inside the arrays *)
Lemma slot_fields f k : shape_ok f -> (k < max_count f)%nat ->
  exists ty len bi t, frame_type f !! k = Some ty /\ content_len f !! k = Some len /\
    bit_info f !! k = Some bi /\ ts f !! k = Some t /\ type_ok ty /\ (len <= frame_size f)%nat.
Proof.
  intros H Hk.
  destruct (lookup_lt_is_Some_2 (frame_type f) k) as [ty Hty]; [rewrite ok_types_len; [lia|done]|].
  destruct (lookup_lt_is_Some_2 (content_len f) k) as [len Hlen]; [rewrite ok_lens_len; [lia|done]|].
  destruct (lookup_lt_is_Some_2 (bit_info f) k) as [bi Hbi]; [rewrite ok_bits_len; [lia|done]|].
  destruct (lookup_lt_is_Some_2 (ts f) k) as [t Ht]; [rewrite ok_ts_len; [lia|done]|].
  exists ty, len, bi, t. split_and!; try done; [by eapply ok_types|by eapply ok_lens].
Qed.

Lemma slot_discarded f k ty : shape_ok f -> frame_type f !! k = Some ty ->
  is_discarded (slot_at f k) = (ty =? PJMEDIA_JB_DISCARDED_FRAME).
Proof.
  intros H Hty. assert (Hk : (k < max_count f)%nat)
    by (rewrite <- (ok_types_len f H); by eapply lookup_lt_Some).
  destruct (slot_fields f k H Hk) as (ty' & len & bi & t & E & E1 & E2 & E3 & Ht & _).
  rewrite Hty in E. injection E as <-. unfold slot_at. rewrite Hty, E1, E2, E3.
  by destruct Ht as [-> | [-> | ->]].
Qed.

(** A slot depends on its place in each array only. *)
Lemma slot_at_ext f f' k :
  frame_size f' = frame_size f -> frame_type f' !! k = frame_type f !! k ->
  content_len f' !! k = content_len f !! k -> bit_info f' !! k = bit_info f !! k ->
  ts f' !! k = ts f !! k ->
  take (frame_size f) (drop (k * frame_size f) (content f')) = take (frame_size f) (drop (k * frame_size f) (content f)) ->
  (forall n, content_len f !! k = Some n -> (n <= frame_size f)%nat) ->
  slot_at f' k = slot_at f k.
Proof.
  intros E1 E2 E3 E4 E5 E6 Hn. unfold slot_at. rewrite E1, E2, E3, E4, E5.
  destruct (frame_type f !! k), (content_len f !! k) as [n|], (bit_info f !! k), (ts f !! k); try done.
  destruct (_ =? PJMEDIA_JB_NORMAL_FRAME); [|done]. f_equal.
  specialize (Hn n eq_refl). apply (f_equal (take n)) in E6. by rewrite !take_take, !Nat.min_l in E6 by lia.
Qed.

(** ** Removing from the head *)

Definition discs (l : list Z) : nat := count_true (map (fun ty => ty =? PJMEDIA_JB_DISCARDED_FRAME) l).

Lemma uncount_spec types n : forall i d,
  (i + n <= length types)%nat -> Z.of_nat (discs (take n (drop i types))) <= d < 4294967296 ->
  uncount types i n d = Some (d - Z.of_nat (discs (take n (drop i types)))).
Proof.
  induction n as [|n IH]; intros i d Hl Hd; cbn [uncount].
  { f_equal. change (take 0 (drop i types)) with (@nil Z). unfold discs. simpl. lia. }
  destruct (lookup_lt_is_Some_2 types i) as [ty Hty]; [lia|]. rewrite Hty. cbn [mbind option_bind].
  rewrite (drop_S types ty i Hty) in *. change (take (S n) (ty :: drop (S i) types))
    with (ty :: take n (drop (S i) types)) in *. unfold discs in *. cbn [map count_true] in *.
  destruct (ty =? PJMEDIA_JB_DISCARDED_FRAME).
  - rewrite u32_id by (unfold is_u32; lia). rewrite IH by lia. f_equal. lia.
  - rewrite IH by lia. f_equal.
Qed.

(** The window of the types array, head first *)
Definition types_from (f : jb_framelist_t) : list Z := drop (head f) (frame_type f) ++ take (head f) (frame_type f).

Lemma types_from_lookup f i : shape_ok f -> (i < max_count f)%nat ->
  types_from f !! i = frame_type f !! phys f i.
Proof.
  intros H Hi. unfold types_from. rewrite phys_eq by (done || lia).
  pose proof (ok_head f H). pose proof (ok_types_len f H). case_decide.
  - rewrite lookup_app_l by (rewrite length_drop; lia). by rewrite lookup_drop.
  - rewrite lookup_app_r by (rewrite length_drop; lia). rewrite length_drop, lookup_take.
    rewrite decide_True by lia. f_equal. lia.
Qed.

Lemma discarded_frames f c : shape_ok f -> (c <= size f)%nat ->
  n_discarded (take c (frames f)) = discs (take c (types_from f)).
Proof.
  intros H Hc. pose proof (ok_size f H). unfold n_discarded, discs. f_equal.
  apply list_eq. intros i. rewrite !list_lookup_fmap, !lookup_take.
  case_decide as Hi; [|done]. rewrite frames_lookup, types_from_lookup by (done || lia). cbn.
  destruct (slot_fields f (phys f i) H (phys_lt f i H)) as (ty & _ & _ & _ & Hty & _).
  rewrite Hty. cbn. by rewrite (slot_discarded f _ ty H Hty).
Qed.

Lemma discs_app l k : discs (l ++ k) = (discs l + discs k)%nat.
Proof. unfold discs. by rewrite map_app, count_true_app. Qed.

(** Both steps of a removal *)
Lemma remove_step_spec f i n :
  shape_ok f -> (i + n <= max_count f)%nat ->
  Z.of_nat (discs (take n (drop i (frame_type f)))) <= discarded_num f < 4294967296 ->
  exists tys lens, remove_step f i n =
    Some (mk_fl (frame_size f) (max_count f) (content f) tys lens (bit_info f) (ts f) (head f) (size f)
            (discarded_num f - Z.of_nat (discs (take n (drop i (frame_type f))))) (origin f)) /\
    length tys = max_count f /\ length lens = max_count f /\
    (forall k, tys !! k = if decide (i <= k < i + n)%nat then Some PJMEDIA_JB_MISSING_FRAME else frame_type f !! k) /\
    (forall k, lens !! k = if decide (i <= k < i + n)%nat then Some 0%nat else content_len f !! k).
Proof.
  intros H Hi Hd. pose proof (ok_types_len f H) as Ht. pose proof (ok_lens_len f H) as Hn.
  destruct (lfill_spec (frame_type f) i n PJMEDIA_JB_MISSING_FRAME) as (tys & E1 & L1 & K1); [lia|].
  destruct (lfill_spec (content_len f) i n 0%nat) as (lens & E2 & L2 & K2); [lia|].
  exists tys, lens. unfold remove_step. rewrite uncount_spec by (done || lia). cbn [mbind option_bind].
  rewrite E1, E2. split_and!; try done; congruence.
Qed.

(** The slots [0..c) of the window are cleared, the others stay. *)
Definition cleared {A} (f : jb_framelist_t) (c : nat) (x : A) (l l' : list A) : Prop :=
  length l' = max_count f /\
  forall i, (i < max_count f)%nat -> l' !! phys f i = if decide (i < c)%nat then Some x else l !! phys f i.

Lemma remove_head_raw f c :
  shape_ok f -> (0 < c <= size f)%nat ->
  Z.of_nat (discs (take c (types_from f))) <= discarded_num f < 4294967296 ->
  exists tys lens, jb_framelist_remove_head f c =
    Some (c, mk_fl (frame_size f) (max_count f) (content f) tys lens (bit_info f) (ts f) (phys f c)
            (size f - c) (discarded_num f - Z.of_nat (discs (take c (types_from f)))) (origin f + Z.of_nat c)) /\
    cleared f c PJMEDIA_JB_MISSING_FRAME (frame_type f) tys /\ cleared f c 0%nat (content_len f) lens.
Proof.
  intros H Hc Hd. unfold jb_framelist_remove_head.
  replace (if decide (size f < c)%nat then size f else c) with c by (case_decide; lia).
  rewrite (decide_False (P := c = 0%nat)) by lia. cbv zeta.
  pose proof (ok_head f H) as Hh. pose proof (ok_size f H) as Hs. pose proof (ok_types_len f H) as Ht.
  unfold types_from in *.
  destruct (decide (max_count f < head f + c)%nat) as [Hov|Hov].
  - assert (Ec : take c (drop (head f) (frame_type f) ++ take (head f) (frame_type f)) =
       drop (head f) (frame_type f) ++ take (c - (max_count f - head f)) (take (head f) (frame_type f))).
    { rewrite take_app, length_drop, Ht. f_equal. apply take_ge. rewrite length_drop. lia. }
    rewrite Ec in *. rewrite discs_app in *. rewrite take_take, Nat.min_l in * by lia.
    assert (E1 : take (max_count f - head f) (drop (head f) (frame_type f)) = drop (head f) (frame_type f))
      by (apply take_ge; rewrite length_drop; lia).
    destruct (remove_step_spec f (head f) (max_count f - head f)) as (tys & lens & -> & L1 & L2 & K1 & K2);
      [done|lia|rewrite E1; lia|]. rewrite E1. cbn [mbind option_bind].
    rewrite decide_False by lia.
    set (f1 := mk_fl _ _ _ tys lens _ _ _ _ _ _).
    assert (T1 : take (c - (max_count f - head f)) tys = take (c - (max_count f - head f)) (frame_type f)).
    { apply list_eq. intros k. rewrite !lookup_take. case_decide; [|done]. rewrite K1, decide_False by lia. done. }
    assert (Hun : uncount tys 0 (c - (max_count f - head f)) (discarded_num f1) =
      Some (discarded_num f1 - Z.of_nat (discs (take (c - (max_count f - head f)) (frame_type f))))).
    { rewrite uncount_spec; change (drop 0 tys) with tys; rewrite ?T1; [done|lia|]. cbn. lia. }
    destruct (lfill_spec tys 0 (c - (max_count f - head f)) PJMEDIA_JB_MISSING_FRAME) as (tys2 & F1 & M1 & N1); [lia|].
    destruct (lfill_spec lens 0 (c - (max_count f - head f)) 0%nat) as (lens2 & F2 & M2 & N2); [lia|].
    exists tys2, lens2. unfold remove_step. cbn [frame_type content_len f1]. rewrite Hun, F1, F2.
    cbn [mbind option_bind]. split; [|split].
    + do 3 f_equal. cbn. lia.
    + split; [congruence|]. intros i Hi. rewrite N1, K1, phys_eq by (done || lia). repeat case_decide; (done || lia).
    + split; [congruence|]. intros i Hi. rewrite N2, K2, phys_eq by (done || lia). repeat case_decide; (done || lia).
  - assert (Ec : take c (drop (head f) (frame_type f) ++ take (head f) (frame_type f)) =
       take c (drop (head f) (frame_type f))) by (rewrite take_app_le; [done|rewrite length_drop; lia]).
    rewrite Ec in *.
    destruct (remove_step_spec f (head f) c) as (tys & lens & -> & L1 & L2 & K1 & K2); [done|lia|done|].
    cbn [mbind option_bind]. rewrite decide_True by lia. cbn [mbind option_bind].
    exists tys, lens. split; [done|]. split; (split; [done|]); intros i Hi; [rewrite K1|rewrite K2];
      rewrite phys_eq by (done || lia); repeat case_decide; (done || lia).
Qed.

(** Every slot is in the window of [max_count] slots from the head. *)
Lemma phys_surj f k : shape_ok f -> (k < max_count f)%nat -> exists i, (i < max_count f)%nat /\ phys f i = k.
Proof.
  intros H Hk. pose proof (ok_head f H).
  exists (if decide (head f <= k)%nat then (k - head f)%nat else (max_count f - head f + k)%nat).
  case_decide; (split; [lia|]); rewrite phys_eq by (done || lia); case_decide; lia.
Qed.

Lemma cleared_lookup {A} f c x (l l' : list A) (P : A -> Prop) :
  shape_ok f -> cleared f c x l l' -> P x -> (forall k y, l !! k = Some y -> P y) ->
  forall k y, l' !! k = Some y -> P y.
Proof.
  intros H [Hl Hk] Hx Hp k y Hy. assert (Hlt : (k < max_count f)%nat)
    by (rewrite <- Hl; by eapply lookup_lt_Some).
  destruct (phys_surj f k H Hlt) as (i & Hi & <-). rewrite Hk in Hy by done.
  case_decide; [by injection Hy as <-|by eapply Hp].
Qed.

(** Moving the head [c] slots on *)
Lemma advance f c tys lens bis tss d :
  fl_ok f -> (c <= size f)%nat ->
  cleared f c PJMEDIA_JB_MISSING_FRAME (frame_type f) tys -> cleared f c 0%nat (content_len f) lens ->
  length bis = max_count f -> length tss = max_count f ->
  (forall i, (c <= i < max_count f)%nat -> bis !! phys f i = bit_info f !! phys f i) ->
  (forall i, (c <= i < max_count f)%nat -> tss !! phys f i = ts f !! phys f i) ->
  d = discarded_num f - Z.of_nat (n_discarded (take c (frames f))) ->
  let f' := mk_fl (frame_size f) (max_count f) (content f) tys lens bis tss (phys f c) (size f - c) d
              (origin f + Z.of_nat c) in
  fl_ok f' /\ frames f' = drop c (frames f).
Proof.
  intros [H Hdisc] Hc Ct Cl Lb Lt Hb Htt -> f'. pose proof (ok_size f H) as Hs. pose proof (ok_head f H) as Hh.
  pose proof (ok_max f H) as Hm.
  assert (Hp : forall i, phys f' i = phys f (c + i)).
  { intros i. unfold phys. cbn [head max_count f']. unfold phys.
    rewrite Nat.Div0.add_mod_idemp_l by lia. f_equal. lia. }
  assert (Hw : forall i, (max_count f <= i < 2 * max_count f)%nat -> phys f i = phys f (i - max_count f)%nat).
  { intros i Hi. unfold phys. replace (head f + i)%nat with (head f + (i - max_count f) + 1 * max_count f)%nat by lia.
    by rewrite Nat.Div0.mod_add. }
  assert (Hfr : frames f' = drop c (frames f)).
  { apply frames_eq; [by rewrite length_drop, length_frames|]. intros i Hi. cbn [size f'] in Hi.
    rewrite lookup_drop, frames_lookup by lia. f_equal. rewrite Hp. symmetry.
    destruct Ct as [_ Ct], Cl as [_ Cl].
    apply slot_at_ext; cbn [frame_size frame_type content_len bit_info ts content f']; try done.
    - by rewrite Ct, decide_False by lia.
    - by rewrite Cl, decide_False by lia.
    - apply Hb; lia.
    - apply Htt; lia.
    - apply (ok_lens f H). }
  split; [|exact Hfr]. split.
  - split; try done; try (by apply H); try (by apply Ct); try (by apply Cl); cbn [head size max_count f'].
    + apply phys_lt, H.
    + lia.
    + intros k ty. apply (cleared_lookup f c _ _ _ type_ok H Ct); [by left|apply (ok_types f H)].
    + intros k n. apply (cleared_lookup f c _ _ _ (fun m => (m <= frame_size f)%nat) H Cl); [lia|apply (ok_lens f H)].
    + intros i Hi. rewrite Hp. cbn [frame_type f']. destruct Ct as [_ Ct].
      destruct (decide (c + i < max_count f)%nat).
      * rewrite Ct, decide_False by lia. apply (ok_out f H). lia.
      * rewrite Hw, Ct, decide_True by lia. done.
  - rewrite Hfr. cbn [discarded_num f']. rewrite Hdisc.
    rewrite <- (take_drop c (frames f)) at 1. rewrite n_discarded_app. lia.
Qed.

Lemma discarded_bound f : fl_ok f -> 0 <= discarded_num f < 2147483648.
Proof.
  intros [H ->]. pose proof (n_discarded_le (frames f)) as Hn. rewrite length_frames in Hn.
  pose proof (ok_size f H). pose proof (ok_max31 f H). lia.
Qed.

(** Removing [c] frames drops them from the queue. *)
Lemma remove_head_spec f c : fl_ok f ->
  exists f', jb_framelist_remove_head f c = Some (Nat.min c (size f), f') /\ fl_ok f' /\
    frames f' = drop c (frames f) /\ origin f' = origin f + Z.of_nat (Nat.min c (size f)) /\
    size f' = (size f - c)%nat /\ max_count f' = max_count f /\ frame_size f' = frame_size f.
Proof.
  intros Hf. pose proof Hf as [H Hdisc].
  assert (Hmin : jb_framelist_remove_head f c = jb_framelist_remove_head f (Nat.min c (size f))).
  { unfold jb_framelist_remove_head. rewrite (decide_False (P := (size f < c `min` size f)%nat)) by lia.
    destruct (decide (size f < c)%nat); [by rewrite Nat.min_r by lia|by rewrite Nat.min_l by lia]. }
  rewrite Hmin. assert (Hdr : drop c (frames f) = drop (Nat.min c (size f)) (frames f)).
  { destruct (decide (size f < c)%nat); [|by rewrite Nat.min_l by lia].
    rewrite !drop_ge; [done|rewrite length_frames; lia..]. }
  rewrite Hdr. replace (size f - c)%nat with (size f - c `min` size f)%nat by lia.
  assert (Hle : (c `min` size f <= size f)%nat) by lia. revert Hle. generalize (c `min` size f)%nat.
  clear c Hmin Hdr. intros c Hc.
  destruct (decide (c = 0)%nat) as [->|Hc0].
  { exists f. split; [unfold jb_framelist_remove_head; by destruct (decide (size f < 0)%nat); [lia|]|].
    split_and!; try done; cbn; lia. }
  pose proof (discarded_bound f Hf) as Hb.
  assert (Hn : (n_discarded (take c (frames f)) <= n_discarded (frames f))%nat).
  { rewrite <- (take_drop c (frames f)) at 2. rewrite n_discarded_app. lia. }
  rewrite discarded_frames in Hn by done.
  destruct (remove_head_raw f c) as (tys & lens & -> & Ct & Cl); [done|lia|lia|].
  rewrite <- discarded_frames by done.
  destruct (advance f c tys lens (bit_info f) (ts f) _ Hf Hc Ct Cl (ok_bits_len f H) (ok_ts_len f H)
    (fun _ _ => eq_refl) (fun _ _ => eq_refl) eq_refl) as [H1 H2].
  eexists. by split_and!.
Qed.

(** ** Taking the next frame *)

(** The discarded frames at the head, counted, and what follows them *)
Fixpoint skip (l : list slot) : nat * list slot :=
  match l with
  | Discarded :: l' => let '(n, r) := skip l' in (S n, r)
  | _ => (0%nat, l)
  end.

Lemma skip_length l : (fst (skip l) + length (snd (skip l)) = length l)%nat.
Proof. induction l as [|[] l IH]; try done. simpl. destruct (skip l). simpl in *. lia. Qed.

Lemma head_phys f : shape_ok f -> phys f 0 = head f.
Proof. intros H. rewrite phys_eq by (done || lia). pose proof (ok_head f H). case_decide; lia. Qed.

Lemma head_slot f s l : shape_ok f -> frames f = s :: l -> (0 < size f)%nat /\ slot_at f (head f) = s.
Proof.
  intros H E. assert (Hl : length (frames f) = S (length l)) by by rewrite E.
  rewrite length_frames in Hl. split; [lia|].
  assert (H0 : frames f !! 0%nat = Some s) by by rewrite E. rewrite frames_lookup, head_phys in H0 by (done || lia).
  by injection H0.
Qed.

Lemma head_type f : shape_ok f -> exists ty, frame_type f !! head f = Some ty /\ type_ok ty /\
  (ty =? PJMEDIA_JB_DISCARDED_FRAME) = match frames f with Discarded :: _ => true | _ => false end.
Proof.
  intros H. destruct (slot_fields f (head f) H (ok_head f H)) as (ty & _ & _ & _ & Hty & _ & _ & _ & Hok & _).
  exists ty. split_and!; [done|done|]. destruct (frames f) as [|s l] eqn:E.
  - assert (Hs : size f = 0%nat) by (rewrite <- length_frames, E; done).
    pose proof (ok_max f H). assert (Ho : frame_type f !! phys f 0 = Some PJMEDIA_JB_MISSING_FRAME)
      by (apply ok_out; [done|lia]).
    rewrite head_phys, Hty in Ho by done. by injection Ho as ->.
  - destruct (head_slot f s l H E) as [_ Hs]. rewrite <- (slot_discarded f _ ty H Hty), Hs. by destruct s.
Qed.

Lemma skip_discarded_spec fuel : forall f prev, fl_ok f -> (size f < fuel)%nat ->
  exists f', skip_discarded fuel f prev = Some (f', prev || (0 <? Z.of_nat (fst (skip (frames f))))) /\
    fl_ok f' /\ frames f' = snd (skip (frames f)) /\
    origin f' = origin f + Z.of_nat (fst (skip (frames f))) /\
    max_count f' = max_count f /\ frame_size f' = frame_size f.
Proof.
  induction fuel as [|fuel IH]; intros f prev Hf Hs; [lia|]. cbn [skip_discarded].
  destruct (head_type f (ok_shape f Hf)) as (ty & -> & _ & Hd). cbn [mbind option_bind]. rewrite Hd.
  destruct (frames f) as [|[] l] eqn:E;
    try (exists f; cbn; rewrite orb_false_r; by split_and!; try lia).
  destruct (head_slot f _ _ (ok_shape f Hf) E) as [Hsz _].
  destruct (remove_head_spec f 1 Hf) as (f1 & -> & Hf1 & Hfr & Ho & Hs1 & Hm & Hz). cbn [mbind option_bind].
  rewrite E in Hfr. change (frames f1 = l) in Hfr. destruct (IH f1 true Hf1) as (f' & -> & Hf' & Hfr' & Ho' & Hm' & Hz'); [lia|].
  exists f'. rewrite Hfr in *. cbn [skip]. destruct (skip l) as [n r]. cbn [fst snd] in *.
  split_and!; try done; try congruence; try lia.
  destruct (Z.ltb_spec 0 (Z.of_nat (S n))); [|lia]. by rewrite orb_true_r.
Qed.

(** What a read stores for a slot *)
Definition reads (s : slot) (o : frame_out) : Prop :=
  match s with
  | Filled data bi t => o_type o = PJMEDIA_JB_NORMAL_FRAME /\ o_len o = length data /\
      take (o_len o) (o_data o) = data /\ o_bit o = bi /\ o_ts o = t
  | Missing => o_type o = PJMEDIA_JB_MISSING_FRAME
  | Discarded => False
  end.

Lemma slice_at f k : shape_ok f -> (k < max_count f)%nat ->
  lslice (content f) (k * frame_size f) (frame_size f) =
    Some (take (frame_size f) (drop (k * frame_size f) (content f))).
Proof. intros H Hk. unfold lslice. rewrite decide_True; [done|]. rewrite (ok_content f H). nia. Qed.

Lemma slot_read f k ty len bi t seq : shape_ok f -> (k < max_count f)%nat -> slot_at f k <> Discarded ->
  frame_type f !! k = Some ty -> content_len f !! k = Some len -> bit_info f !! k = Some bi -> ts f !! k = Some t ->
  reads (slot_at f k) (mk_out (take (frame_size f) (drop (k * frame_size f) (content f))) ty len bi t seq).
Proof.
  intros H Hk Hd E1 E2 E3 E4. pose proof (ok_lens f H _ _ E2) as Hl. pose proof (ok_content f H) as Hcl.
  pose proof (ok_types f H _ _ E1) as Hty. revert Hd. unfold slot_at. rewrite E1, E2, E3, E4.
  destruct Hty as [-> | [-> | ->]]; cbn; [done| |done]. intros _.
  assert (Hlen : length (take len (drop (k * frame_size f) (content f))) = len)
    by (rewrite length_take, length_drop, Hcl; nia).
  split_and!; try done. by rewrite take_take, Nat.min_l.
Qed.

Lemma skip_not_discarded l s r : snd (skip l) = s :: r -> s <> Discarded.
Proof.
  induction l as [|[] l IH]; simpl; intros E; try (by injection E as <- _); [done|].
  destruct (skip l). simpl in *. by apply IH.
Qed.

Lemma take_head_spec f s l prev : fl_ok f -> frames f = s :: l -> s <> Discarded ->
  exists o f', take_head f prev = Some (o, f') /\ fl_ok f' /\ frames f' = l /\
    origin f' = origin f + 1 /\ o_seq o = origin f /\
    max_count f' = max_count f /\ frame_size f' = frame_size f /\ reads (if prev then Missing else s) o.
Proof.
  intros Hf E Hd. pose proof Hf as [H Hdisc]. destruct (head_slot f s l H E) as [Hs Hslot].
  pose proof (ok_head f H) as Hh.
  destruct (slot_fields f (head f) H Hh) as (ty & len & bi & t & E1 & E2 & E3 & E4 & Hty & _).
  unfold take_head. rewrite slice_at by done. cbn [mbind option_bind]. rewrite E1, E2, E3, E4. cbn [mbind option_bind].
  rewrite !lwrite_eq by (rewrite ?ok_types_len, ?ok_lens_len, ?ok_bits_len, ?ok_ts_len; done).
  cbn [mbind option_bind].
  assert (Hclr : forall {A} (x : A) (a : list A), length a = max_count f -> cleared f 1 x a (<[head f := x]> a)).
  { intros A x a Ha. split; [by rewrite length_insert|]. intros i Hi. case_decide.
    - replace i with 0%nat by lia. rewrite head_phys, list_lookup_insert_eq by (done || lia). done.
    - rewrite list_lookup_insert_ne; [done|]. rewrite <- (head_phys f H). intros Ep.
      apply phys_inj in Ep; (done || lia). }
  destruct (advance f 1 (<[head f := PJMEDIA_JB_MISSING_FRAME]> (frame_type f)) (<[head f := 0%nat]> (content_len f))
     (<[head f := 0]> (bit_info f)) (<[head f := 0]> (ts f)) (discarded_num f)) as [H1 H2];
    [done|lia|apply Hclr, ok_types_len, H|apply Hclr, ok_lens_len, H| | | | | |].
  - by rewrite length_insert, ok_bits_len.
  - by rewrite length_insert, ok_ts_len.
  - intros i Hi. apply list_lookup_insert_ne. rewrite <- (head_phys f H). intros Ep. apply phys_inj in Ep; (done || lia).
  - intros i Hi. apply list_lookup_insert_ne. rewrite <- (head_phys f H). intros Ep. apply phys_inj in Ep; (done || lia).
  - rewrite E. assert (En : n_discarded (take 1 (s :: l)) = 0%nat) by by destruct s. lia.
  - eexists _, _. split; [done|]. rewrite E in H2. split_and!; try done; destruct prev; try done.
    rewrite <- Hslot. apply (slot_read f (head f)); (done || congruence).
Qed.

(** A read takes the first frame that was not discarded; after discarded frames it
    is reported as missing. *)
Lemma get_spec f : fl_ok f ->
  exists r f', jb_framelist_get f = Some (r, f') /\ fl_ok f' /\
    max_count f' = max_count f /\ frame_size f' = frame_size f /\
    match snd (skip (frames f)) with
    | [] => r = None /\ frames f' = [] /\ origin f' = origin f + Z.of_nat (fst (skip (frames f)))
    | s :: l => exists o, r = Some o /\ frames f' = l /\
        o_seq o = origin f + Z.of_nat (fst (skip (frames f))) /\ origin f' = o_seq o + 1 /\
        reads (if decide (fst (skip (frames f)) = 0)%nat then s else Missing) o
    end.
Proof.
  intros Hf. unfold jb_framelist_get. case_decide as Hs.
  - exists None, f. assert (E : frames f = []) by (apply length_zero_iff_nil; by rewrite length_frames).
    rewrite E. cbn. split_and!; try done; lia.
  - destruct (skip_discarded_spec (S (size f)) f false Hf) as (f1 & -> & Hf1 & Hfr & Ho & Hm & Hz); [lia|].
    cbn [mbind option_bind]. case_decide as Hs1.
    + exists None, f1. assert (E : frames f1 = []) by (apply length_zero_iff_nil; by rewrite length_frames).
      rewrite <- Hfr, E. by split_and!.
    + destruct (snd (skip (frames f))) as [|s l] eqn:Esk.
      { rewrite <- length_frames, Hfr in Hs1. by destruct Hs1. }
      destruct (take_head_spec f1 s l (false || (0 <? Z.of_nat (fst (skip (frames f)))))) as
        (o & f2 & -> & Hf2 & Hfr2 & Ho2 & Hq & Hm2 & Hz2 & Hr); [done|done|by eapply skip_not_discarded|].
      exists (Some o), f2. cbn [mbind option_bind]. split_and!; try done; try congruence.
      exists o. split_and!; try done; try congruence; try lia.
      case_decide as En; destruct (Z.ltb_spec 0 (Z.of_nat (fst (skip (frames f))))); try lia; exact Hr.
Qed.

(** ** Storing a frame *)

(** The queue numbered from [o], its frame number [index] set to [s] *)
Definition q_store (o : Z) (l : list slot) (index : Z) (s : slot) : Z * (Z * list slot) :=
  let d := Z.to_nat (index - o) in
  match l !! d with
  | Some Missing => (PJ_SUCCESS, (o, <[d := s]> l))
  | Some _ => (PJ_EEXISTS, (o, l))
  | None => (PJ_SUCCESS, (o, l ++ replicate (d - length l) Missing ++ [s]))
  end.

(** A queue of at most [cap] slots receives frame number [index]. *)
Definition q_put (cap : nat) (o : Z) (l : list slot) (index : Z) (s : slot) : Z * (Z * list slot) :=
  if (index <? o) && (o - index <? MAX_MISORDER) then (PJ_ETOOSMALL, (o, l))
  else
    let o1 := if index <? o then index - Z.of_nat (length l) else o in
    let o2 := if decide (l = []) then index else o1 in
    if Z.of_nat cap <=? index - o2 then
      if MAX_DROPOUT <? index - o2 then (PJ_SUCCESS, (index, [s])) else (PJ_ETOOMANY, (o2, l))
    else q_store o2 l index s.

Lemma n_discarded_insert l : forall d x s, l !! d = Some x ->
  (n_discarded (<[d := s]> l) + (if is_discarded x then 1 else 0) =
   n_discarded l + (if is_discarded s then 1 else 0))%nat.
Proof.
  induction l as [|y l IH]; intros [|d] x s E; try done; cbn in E.
  - injection E as ->. unfold n_discarded. cbn. destruct (is_discarded x), (is_discarded s); lia.
  - specialize (IH d x s E). change (<[S d := s]> (y :: l)) with (y :: <[d := s]> l).
    unfold n_discarded in *. cbn [map count_true]. lia.
Qed.

Lemma n_discarded_missing n : n_discarded (replicate n Missing) = 0%nat.
Proof. induction n; done. Qed.

Lemma slot_missing f k : shape_ok f -> (k < max_count f)%nat ->
  (frame_type f !! k = Some PJMEDIA_JB_MISSING_FRAME <-> slot_at f k = Missing).
Proof.
  intros H Hk. destruct (slot_fields f k H Hk) as (ty & len & bi & t & E1 & E2 & E3 & E4 & Hty & _).
  unfold slot_at. rewrite E1, E2, E3, E4. by destruct Hty as [-> | [-> | ->]].
Qed.

(** A frame written in slot [k] leaves the bytes of the others alone. *)
Lemma copy_other (fs : nat) (c c' src : list Z) pos k :
  (length src <= fs)%nat -> k <> pos ->
  (forall j, c' !! j = if decide (pos * fs <= j < pos * fs + length src)%nat
                       then src !! (j - pos * fs)%nat else c !! j) ->
  take fs (drop (k * fs) c') = take fs (drop (k * fs) c).
Proof.
  intros Hs Hk Hc. apply list_eq. intros j. rewrite !lookup_take. case_decide; [|done].
  rewrite !lookup_drop, Hc, decide_False; [done|]. intros Hj.
  destruct (decide (k < pos)%nat); [assert (k * fs + fs <= pos * fs)%nat by nia|
    assert (pos * fs + fs <= k * fs)%nat by nia]; lia.
Qed.

Lemma copy_same (fs : nat) (c c' src : list Z) pos :
  (pos * fs + length src <= length c')%nat ->
  (forall j, c' !! j = if decide (pos * fs <= j < pos * fs + length src)%nat
                       then src !! (j - pos * fs)%nat else c !! j) ->
  take (length src) (drop (pos * fs) c') = src.
Proof.
  intros Hl Hc. apply list_eq. intros j. rewrite lookup_take. case_decide.
  - rewrite lookup_drop, Hc, decide_True by lia. f_equal. lia.
  - symmetry. apply lookup_ge_None_2. lia.
Qed.

Section Store.
Context (f : jb_framelist_t) (d fsize : nat) (frame : list Z) (bi t : Z).
Context (Hf : fl_ok f) (Hd : (d < max_count f)%nat).
Context (Hfs : (fsize <= frame_size f)%nat) (Hlen : (fsize <= length frame)%nat).

(** The frame list after a store *)
Definition stored (cont : list Z) : jb_framelist_t :=
  let pos := phys f d in
  mk_fl (frame_size f) (max_count f) cont (<[pos := PJMEDIA_JB_NORMAL_FRAME]> (frame_type f))
    (<[pos := fsize]> (content_len f)) (<[pos := bi]> (bit_info f)) (<[pos := t]> (ts f))
    (head f) (Nat.max (size f) (S d)) (discarded_num f) (origin f).

Lemma store_at_eq : exists cont, length cont = length (content f) /\
  (forall j, cont !! j = if decide (phys f d * frame_size f <= j < phys f d * frame_size f + fsize)%nat
                         then take fsize frame !! (j - phys f d * frame_size f)%nat else content f !! j) /\
  store_at f (origin f + Z.of_nat d) (Z.of_nat d) frame fsize bi t PJMEDIA_JB_NORMAL_FRAME =
    Some (if bool_decide (frame_type f !! phys f d = Some PJMEDIA_JB_MISSING_FRAME)
          then (PJ_SUCCESS, stored cont) else (PJ_EEXISTS, f)).
Proof.
  pose proof (ok_shape f Hf) as H. pose proof (phys_lt f d H) as Hp.
  assert (Hsrc : length (take fsize frame) = fsize) by (rewrite length_take; lia).
  destruct (lcopy_spec (content f) (phys f d * frame_size f) (take fsize frame)) as (cont & Hc & Hcl & Hck).
  { rewrite Hsrc, (ok_content f H). nia. }
  rewrite Hsrc in Hck. exists cont. split_and!; [done|done|].
  unfold store_at. rewrite Nat2Z.id. fold (phys f d).
  destruct (slot_fields f (phys f d) H Hp) as (ty & _ & _ & _ & Hty & _). rewrite Hty. cbn [mbind option_bind].
  destruct (Z.eqb_spec ty PJMEDIA_JB_MISSING_FRAME) as [->|Hne]; cbn [negb].
  2:{ rewrite bool_decide_eq_false_2; [done|congruence]. }
  rewrite bool_decide_eq_true_2 by done.
  rewrite !lwrite_eq by (rewrite ?ok_types_len, ?ok_lens_len, ?ok_bits_len, ?ok_ts_len; done).
  cbn [mbind option_bind]. change (PJMEDIA_JB_NORMAL_FRAME =? PJMEDIA_JB_NORMAL_FRAME) with true.
  unfold lslice. rewrite decide_True by lia. cbn [mbind option_bind]. change (drop 0 frame) with frame. rewrite Hc. cbn [mbind option_bind].
  unfold stored. do 4 f_equal. destruct (Z.leb_spec (origin f + Z.of_nat (size f)) (origin f + Z.of_nat d)); lia.
Qed.

Lemma stored_phys cont i : phys (stored cont) i = phys f i.
Proof. done. Qed.

Lemma stored_slot cont i : (i < max_count f)%nat ->
  length cont = length (content f) ->
  (forall j, cont !! j = if decide (phys f d * frame_size f <= j < phys f d * frame_size f + fsize)%nat
                         then take fsize frame !! (j - phys f d * frame_size f)%nat else content f !! j) ->
  slot_at (stored cont) (phys f i) =
    if decide (i = d) then Filled (take fsize frame) bi t else slot_at f (phys f i).
Proof.
  intros Hi Hcl Hck. pose proof (ok_shape f Hf) as H. pose proof (phys_lt f d H) as Hp.
  assert (Hsrc : length (take fsize frame) = fsize) by (rewrite length_take; lia).
  case_decide as E; [subst i|].
  - unfold slot_at, stored. cbn [frame_type content_len bit_info ts frame_size content].
    rewrite !list_lookup_insert_eq by (rewrite ?ok_types_len, ?ok_lens_len, ?ok_bits_len, ?ok_ts_len; done).
    change (PJMEDIA_JB_NORMAL_FRAME =? PJMEDIA_JB_NORMAL_FRAME) with true. cbv iota. f_equal.
    rewrite <- Hsrc at 1. apply (copy_same _ (content f)); rewrite Hsrc; [|exact Hck].
    rewrite Hcl, (ok_content f H). nia.
  - assert (Hne : phys f d <> phys f i) by (intros Ep; apply phys_inj in Ep; (done || lia)).
    apply slot_at_ext; unfold stored; cbn [frame_type content_len bit_info ts frame_size content];
      rewrite ?list_lookup_insert_ne by done; try done; [|apply (ok_lens f H)].
    eapply (copy_other _ _ _ (take fsize frame)); [lia|by apply not_eq_sym|by rewrite Hsrc].
Qed.

Lemma stored_ok cont :
  length cont = length (content f) ->
  (forall j, cont !! j = if decide (phys f d * frame_size f <= j < phys f d * frame_size f + fsize)%nat
                         then take fsize frame !! (j - phys f d * frame_size f)%nat else content f !! j) ->
  frame_type f !! phys f d = Some PJMEDIA_JB_MISSING_FRAME ->
  fl_ok (stored cont) /\
  (origin f, frames (stored cont)) =
    snd (q_store (origin f) (frames f) (origin f + Z.of_nat d) (Filled (take fsize frame) bi t)) /\
  fst (q_store (origin f) (frames f) (origin f + Z.of_nat d) (Filled (take fsize frame) bi t)) = PJ_SUCCESS.
Proof.
  intros Hcl Hck Hmiss. pose proof (ok_shape f Hf) as H. pose proof (phys_lt f d H) as Hp. pose proof (ok_size f H) as Hsz.
  set (s := Filled _ _ _).
  assert (Hsh : shape_ok (stored cont)).
  { unfold stored. split; cbn [frame_type content_len bit_info ts frame_size content head size max_count];
      rewrite ?length_insert; try (by apply H); try lia.
    - by rewrite Hcl, ok_content.
    - intros k ty E. apply list_lookup_insert_Some in E as [(_ & <- & _)|[_ E]]; [by right; left|by eapply ok_types].
    - intros k n E. apply list_lookup_insert_Some in E as [(_ & <- & _)|[_ E]]; [done|by eapply ok_lens].
    - intros i Hi. change (phys _ i) with (phys f i). rewrite list_lookup_insert_ne; [apply (ok_out f H); lia|].
      intros Ep. apply phys_inj in Ep; (done || lia). }
  assert (Hq : exists l, q_store (origin f) (frames f) (origin f + Z.of_nat d) s = (PJ_SUCCESS, (origin f, l)) /\
     n_discarded l = n_discarded (frames f) /\ frames (stored cont) = l).
  { unfold q_store. replace (Z.to_nat (origin f + Z.of_nat d - origin f)) with d by lia.
    destruct (decide (d < size f)%nat) as [Hlt|Hge].
    - rewrite frames_lookup by done. rewrite (proj1 (slot_missing f _ H Hp) Hmiss). eexists. split_and!; [done| |].
      + pose proof (n_discarded_insert (frames f) d Missing s) as Hn.
        rewrite frames_lookup, (proj1 (slot_missing f _ H Hp) Hmiss) in Hn by done. specialize (Hn eq_refl). cbn in Hn. lia.
      + apply frames_eq; [rewrite length_insert, length_frames; cbn; lia|]. intros i Hi. cbn [size stored] in Hi.
        change (phys (stored cont) i) with (phys f i). rewrite stored_slot by (done || lia). case_decide; subst.
        * by rewrite list_lookup_insert_eq by (rewrite length_frames; lia).
        * rewrite list_lookup_insert_ne, frames_lookup by (done || lia). done.
    - rewrite lookup_ge_None_2 by (rewrite length_frames; lia). eexists. split_and!; [done| |].
      + rewrite !n_discarded_app, n_discarded_missing. unfold n_discarded at 2. cbn. lia.
      + apply frames_eq; [rewrite !length_app, length_replicate, length_frames; cbn; lia|].
        intros i Hi. cbn [size stored] in Hi. change (phys (stored cont) i) with (phys f i).
        rewrite stored_slot by (done || lia). destruct (decide (i < size f)%nat).
        * rewrite lookup_app_l, frames_lookup, decide_False by (rewrite ?length_frames; lia). done.
        * rewrite lookup_app_r, length_frames by (rewrite length_frames; lia). case_decide; subst.
          -- rewrite lookup_app_r by (rewrite length_replicate; lia). by rewrite length_replicate, Nat.sub_diag.
          -- rewrite lookup_app_l, lookup_replicate_2 by (rewrite ?length_replicate; lia).
             f_equal. symmetry. apply slot_missing; [done|by apply phys_lt|]. apply (ok_out f H). lia. }
  destruct Hq as (l & Hq & Hn & Hfr). rewrite Hq. split; [|by rewrite Hfr]. split; [done|].
  rewrite Hfr, Hn. apply Hf.
Qed.
End Store.

Lemma set_origin_ok f o : fl_ok f -> fl_ok (set_origin o f) /\ frames (set_origin o f) = frames f.
Proof. intros [H Hd]. by split; [split; [by destruct H|]|]. Qed.

(** Only what is allocated matters for a reset. *)
Lemma reset_alloc f : (0 < max_count f)%nat -> Z.of_nat (max_count f) < 2147483648 ->
  length (content f) = (frame_size f * max_count f)%nat -> length (bit_info f) = max_count f ->
  length (ts f) = max_count f -> fl_ok (jb_framelist_reset f) /\ frames (jb_framelist_reset f) = [].
Proof.
  intros Hm Hm31 Hc Hb Ht. split; [|done]. split; [|done].
  split; cbn [jb_framelist_reset frame_type content_len bit_info ts frame_size content head size max_count];
    rewrite ?length_replicate; try done; try lia.
  - intros k ty E. apply lookup_replicate in E as [-> _]. by left.
  - intros k n E. apply lookup_replicate in E as [-> _]. lia.
  - intros i Hi. unfold phys. cbn. apply lookup_replicate_2. apply Nat.mod_upper_bound. lia.
Qed.

Lemma reset_ok f : shape_ok f -> fl_ok (jb_framelist_reset f) /\ frames (jb_framelist_reset f) = [].
Proof. intros H. apply reset_alloc; apply H. Qed.

Lemma init_ok jc jb jt fsize maxc : (0 < maxc)%nat -> Z.of_nat maxc < 2147483648 ->
  fl_ok (jb_framelist_init jc jb jt fsize maxc) /\ frames (jb_framelist_init jc jb jt fsize maxc) = [].
Proof. intros Hm Hm31. apply reset_alloc; cbn; by rewrite ?length_resize. Qed.

Lemma store_at_spec f index fsize frame bi t : fl_ok f ->
  (fsize <= frame_size f)%nat -> (fsize <= length frame)%nat ->
  origin f <= index < origin f + Z.of_nat (max_count f) ->
  exists st f', store_at f index (index - origin f) frame fsize bi t PJMEDIA_JB_NORMAL_FRAME = Some (st, f') /\
    fl_ok f' /\ max_count f' = max_count f /\ frame_size f' = frame_size f /\
    (st, (origin f', frames f')) = q_store (origin f) (frames f) index (Filled (take fsize frame) bi t).
Proof.
  intros Hf Hfs Hlen Hi. pose proof (ok_shape f Hf) as H.
  set (d := Z.to_nat (index - origin f)). assert (Hd : (d < max_count f)%nat) by lia.
  replace index with (origin f + Z.of_nat d) by lia.
  replace (origin f + Z.of_nat d - origin f) with (Z.of_nat d) by lia.
  destruct (store_at_eq f d fsize frame bi t Hf Hd Hfs Hlen) as (cont & Hcl & Hck & ->).
  destruct (bool_decide_reflect (frame_type f !! phys f d = Some PJMEDIA_JB_MISSING_FRAME)) as [Hm|Hm].
  - destruct (stored_ok f d fsize frame bi t Hf Hd Hfs Hlen cont Hcl Hck Hm) as (H1 & H2 & H3).
    eexists _, _. split; [done|]. split_and!; try done.
    destruct (q_store _ _ _ _) as [st r]. cbn in H2, H3. by rewrite H3, <- H2.
  - exists PJ_EEXISTS, f. split_and!; try done. unfold q_store.
    replace (Z.to_nat (origin f + Z.of_nat d - origin f)) with d by lia.
    destruct (decide (d < size f)%nat) as [Hlt|Hge].
    + rewrite frames_lookup by done. pose proof (slot_missing f _ H (phys_lt f d H)) as Hsm.
      destruct (slot_at f (phys f d)); try done. by destruct Hm; apply Hsm.
    + destruct Hm. apply (ok_out f H). lia.
Qed.

(** Storing a frame in the list stores it in the queue. *)
Lemma put_at_spec f index fsize frame bi t : fl_ok f ->
  (fsize <= frame_size f)%nat -> (fsize <= length frame)%nat ->
  exists st f', jb_framelist_put_at f index frame fsize bi t PJMEDIA_JB_NORMAL_FRAME = Some (st, f') /\
    fl_ok f' /\ max_count f' = max_count f /\ frame_size f' = frame_size f /\
    (st, (origin f', frames f')) =
      q_put (max_count f) (origin f) (frames f) index (Filled (take fsize frame) bi t).
Proof.
  intros Hf Hfs Hlen. unfold jb_framelist_put_at, q_put. rewrite decide_False by lia.
  destruct (_ && _) eqn:Elate; [by exists PJ_ETOOSMALL, f|].
  set (f1 := if index <? origin f then _ else f).
  assert (H1 : fl_ok f1 /\ frames f1 = frames f /\ max_count f1 = max_count f /\ frame_size f1 = frame_size f /\
    size f1 = size f /\ origin f1 = if index <? origin f then index - Z.of_nat (length (frames f)) else origin f).
  { unfold f1. rewrite length_frames. destruct (index <? origin f); [|done].
    destruct (set_origin_ok f (index - Z.of_nat (size f)) Hf). by split_and!. }
  clearbody f1. destruct H1 as (Hf1 & Hfr1 & Hm1 & Hz1 & Hs1 & Ho1). rewrite <- Ho1.
  set (f2 := if decide (size f1 = 0)%nat then _ else f1).
  assert (H2 : fl_ok f2 /\ frames f2 = frames f /\ max_count f2 = max_count f /\ frame_size f2 = frame_size f /\
    origin f2 = if decide (frames f = []) then index else origin f1).
  { assert (Hnil : (size f1 = 0)%nat <-> frames f = []).
    { rewrite <- length_zero_iff_nil, length_frames. by rewrite Hs1. }
    unfold f2. destruct (decide (size f1 = 0)%nat), (decide (frames f = [])); try tauto; try by split_and!.
    destruct (set_origin_ok f1 index Hf1) as [? E]. by split_and!. }
  clearbody f2. destruct H2 as (Hf2 & Hfr2 & Hm2 & Hz2 & Ho2). rewrite <- Ho2, Hm2.
  assert (Hge : origin f2 <= index).
  { rewrite Ho2. case_decide; [lia|]. rewrite Ho1. destruct (Z.ltb_spec index (origin f)); lia. }
  clear Ho1 Ho2. destruct (Z.leb_spec (Z.of_nat (max_count f)) (index - origin f2)) as [Hfar|Hnear].
  - destruct (MAX_DROPOUT <? _); [|exists PJ_ETOOMANY, f2; rewrite <- Hfr2; by split_and!].
    destruct (reset_ok f2 (ok_shape f2 Hf2)) as [H3 Hfr3].
    destruct (set_origin_ok _ index H3) as [H4 Hfr4]. rewrite Hfr3 in Hfr4.
    set (f4 := set_origin index (jb_framelist_reset f2)) in *.
    pose proof (ok_max f4 (ok_shape f4 H4)).
    destruct (store_at_spec f4 index fsize frame bi t H4) as (st & f' & E & Hf' & Hm' & Hz' & Hq);
      [cbn; lia|done|cbn in *; lia|].
    change (origin f4) with index in *. rewrite Z.sub_diag in E. rewrite E.
    exists st, f'. split_and!; try done; try (cbn in *; congruence).
    rewrite Hq, Hfr4. unfold q_store. by rewrite Z.sub_diag.
  - destruct (store_at_spec f2 index fsize frame bi t Hf2) as (st & f' & E & Hf' & Hm' & Hz' & Hq); [lia|done|lia|].
    exists st, f'. rewrite E. split_and!; try done; try congruence.
Qed.

(** ** Discarding *)

Lemma discard_spec f index : fl_ok f ->
  origin f <= index < origin f + Z.of_nat (size f) ->
  frames f !! Z.to_nat (index - origin f) <> Some Discarded ->
  exists f', jb_framelist_discard f index = Some (PJ_SUCCESS, f') /\ fl_ok f' /\
    frames f' = <[Z.to_nat (index - origin f) := Discarded]> (frames f) /\
    origin f' = origin f /\ max_count f' = max_count f /\ frame_size f' = frame_size f.
Proof.
  intros Hf Hi Hnd. pose proof (ok_shape f Hf) as H. pose proof (ok_size f H) as Hsz.
  unfold jb_framelist_discard. destruct (Z.leb_spec (origin f) index); [|lia].
  destruct (Z.ltb_spec index (origin f + Z.of_nat (size f))); [|lia]. cbn [andb].
  set (d := Z.to_nat (index - origin f)) in *. fold (phys f d).
  assert (Hd : (d < size f)%nat) by lia. pose proof (phys_lt f d H) as Hp.
  rewrite lwrite_eq by (rewrite ok_types_len; done). cbn [mbind option_bind].
  pose proof (discarded_bound f Hf) as Hb.
  assert (Hn : (n_discarded (frames f) < size f)%nat).
  { pose proof (n_discarded_insert (frames f) d (slot_at f (phys f d)) Discarded) as Hni.
    rewrite frames_lookup in Hni, Hnd by done. specialize (Hni eq_refl).
    pose proof (n_discarded_le (<[d:=Discarded]> (frames f))) as Hle. rewrite length_insert, length_frames in Hle.
    destruct (slot_at f (phys f d)); cbn in Hni; try done; lia. }
  assert (Hu : u32 (discarded_num f + 1) = discarded_num f + 1) by (apply u32_id; unfold is_u32; lia).
  rewrite Hu. set (f' := mk_fl _ _ _ (<[phys f d := _]> _) _ _ _ _ _ _ _). exists f'. split; [done|].
  assert (Hsh : shape_ok f').
  { split; cbn; rewrite ?length_insert; try (by apply H).
    - intros k ty E. apply list_lookup_insert_Some in E as [(_ & <- & _)|[_ E]]; [by right; right|by eapply ok_types].
    - intros i Hi'. change (phys f' i) with (phys f i).
      rewrite list_lookup_insert_ne; [apply (ok_out f H); lia|]. intros Ep. apply phys_inj in Ep; (done || lia). }
  assert (Hfr : frames f' = <[d := Discarded]> (frames f)).
  { apply frames_eq; [by rewrite length_insert, length_frames|]. intros i Hi'. cbn [size f'] in Hi'.
    change (phys f' i) with (phys f i). destruct (decide (i = d)) as [->|Hne].
    - rewrite list_lookup_insert_eq by (rewrite length_frames; lia). f_equal.
      destruct (slot_fields f (phys f d) H Hp) as (ty & len & bi & t & _ & E2 & E3 & E4 & _).
      unfold slot_at. cbn. rewrite list_lookup_insert_eq by (rewrite ok_types_len; done). by rewrite E2, E3, E4.
    - rewrite list_lookup_insert_ne, frames_lookup by (done || lia). f_equal. symmetry.
      apply slot_at_ext; cbn; try done; [|apply (ok_lens f H)].
      apply list_lookup_insert_ne. intros Ep. apply phys_inj in Ep; (done || lia). }
  split_and!; try done. split; [done|]. rewrite Hfr. cbn [discarded_num f']. rewrite (ok_disc f Hf).
  pose proof (n_discarded_insert (frames f) d (slot_at f (phys f d)) Discarded) as Hni.
  rewrite frames_lookup in Hni, Hnd by done. specialize (Hni eq_refl).
  destruct (slot_at f (phys f d)); cbn in Hni; try done; lia.
Qed.

Lemma discard_out f index : ~ (origin f <= index < origin f + Z.of_nat (size f)) ->
  jb_framelist_discard f index = Some (PJ_EINVAL, f).
Proof.
  intros Hi. unfold jb_framelist_discard. destruct (Z.leb_spec (origin f) index); [|done].
  destruct (Z.ltb_spec index (origin f + Z.of_nat (size f))); [lia|done].
Qed.

(** ** Peeking *)

(** Slot number [n] among those not discarded *)
Fixpoint nth_kept (l : list slot) (n : nat) : option slot :=
  match l with
  | [] => None
  | Discarded :: l' => nth_kept l' n
  | s :: l' => match n with O => Some s | S n' => nth_kept l' n' end
  end.

Lemma nth_kept_Some l : forall n, is_Some (nth_kept l n) <-> (n + n_discarded l < length l)%nat.
Proof.
  induction l as [|s l IH]; intros n; cbn [nth_kept length].
  - split; [intros [? [=]]|lia].
  - change (n_discarded (s :: l)) with ((if is_discarded s then 1 else 0) + n_discarded l)%nat.
    pose proof (n_discarded_le l). destruct s; cbn [is_discarded]; [destruct n|rewrite IH; lia|destruct n].
    all: try (split; [intros _; lia|intros _; by eexists]). all: rewrite IH; lia.
Qed.

Lemma nth_kept_not_discarded l : forall n, nth_kept l n <> Some Discarded.
Proof. induction l as [|[] l IH]; intros n; cbn; try done; destruct n; done. Qed.

Lemma eff_size_eq f : fl_ok f ->
  jb_framelist_eff_size f = Z.of_nat (size f - n_discarded (frames f)).
Proof.
  intros Hf. unfold jb_framelist_eff_size. rewrite (ok_disc f Hf).
  pose proof (n_discarded_le (frames f)) as Hn. rewrite length_frames in Hn.
  pose proof (ok_size f (ok_shape f Hf)). pose proof (ok_max31 f (ok_shape f Hf)).
  rewrite u32_id; unfold is_u32; lia.
Qed.

Lemma phys_next f j : shape_ok f -> ((phys f j + 1) mod max_count f)%nat = phys f (S j).
Proof.
  intros H. unfold phys. rewrite Nat.Div0.add_mod_idemp_l. f_equal. lia.
Qed.

Lemma peek_pos_spec f s : fl_ok f -> forall fuel j idx, (size f - j <= fuel)%nat ->
  nth_kept (drop j (frames f)) idx = Some s ->
  exists i, peek_pos fuel f (phys f j) idx = Some (phys f i) /\ slot_at f (phys f i) = s.
Proof.
  intros Hf. pose proof (ok_shape f Hf) as H. induction fuel as [|fuel IH]; intros j idx Hj Hn.
  { rewrite drop_ge in Hn by (rewrite length_frames; lia). done. }
  destruct (decide (j < size f)%nat) as [Hlt|Hge];
    [|rewrite drop_ge in Hn by (rewrite length_frames; lia); done].
  rewrite (drop_S _ _ _ (frames_lookup f j Hlt)) in Hn. cbn [peek_pos].
  destruct (slot_fields f (phys f j) H (phys_lt f j H)) as (ty & _ & _ & _ & Hty & _).
  rewrite Hty. cbn [mbind option_bind]. pose proof (slot_discarded f _ ty H Hty) as Hd. rewrite <- Hd.
  rewrite phys_next by done.
  destruct (slot_at f (phys f j)) as [| |data bi t] eqn:Es; cbn [is_discarded nth_kept] in *.
  - destruct idx; [|by apply IH; [lia|]]. injection Hn as <-. by exists j.
  - apply IH; [lia|done].
  - destruct idx; [|by apply IH; [lia|]]. injection Hn as <-. by exists j.
Qed.

Lemma peek_spec f off : fl_ok f ->
  exists r, jb_framelist_peek f off = Some r /\
    match nth_kept (frames f) off with
    | None => r = None
    | Some s => exists o, r = Some o /\ reads s o /\ o_seq o = origin f + Z.of_nat off
    end.
Proof.
  intros Hf. pose proof (ok_shape f Hf) as H. unfold jb_framelist_peek. rewrite eff_size_eq by done.
  pose proof (nth_kept_Some (frames f) off) as Hk. rewrite length_frames in Hk.
  destruct (Z.leb_spec (Z.of_nat (size f - n_discarded (frames f))) (Z.of_nat off)).
  - exists None. split; [done|]. destruct (nth_kept (frames f) off); [|done].
    assert (off + n_discarded (frames f) < size f)%nat by (apply Hk; by eexists). lia.
  - assert (Hs : is_Some (nth_kept (frames f) off)) by (apply Hk; lia). destruct Hs as [s Hs]. rewrite Hs.
    destruct (peek_pos_spec f s Hf (size f) 0 off) as (i & Hpos & Hi); [lia|done|].
    rewrite head_phys in Hpos by done. rewrite Hpos. cbn [mbind option_bind].
    rewrite slice_at by (done || by apply phys_lt). cbn [mbind option_bind].
    destruct (slot_fields f (phys f i) H (phys_lt f i H)) as (ty & len & bi & t & E1 & E2 & E3 & E4 & _).
    rewrite E1, E2, E3, E4. cbn [mbind option_bind]. eexists. split; [done|]. eexists. split; [done|]. split; [|done].
    rewrite <- Hi. apply slot_read; try done; [by apply phys_lt|].
    rewrite Hi. intros ->. by eapply nth_kept_not_discarded.
Qed.
