(* ===== verification/JBuf.v ===== *)
(** * Jitter buffer (pjmedia/src/pjmedia/jbuf.c)

    The adaptive part around the frame list: the prefetch state, the burst level
    with its history, the two discard algorithms, and the public functions.  Of
    the statistics only the integer part is modelled (the mean and the variance
    are floating point and nothing depends on them); [jb_level] and the counters
    of calls are not bounded by a width here. *)

From S2P Require Import Prelude JbList JbRefine.

(** ** Data *)

Definition MAX_BURST_MSEC : Z := 1000.
Definition INIT_CYCLE : Z := 10.
Definition STA_DISC_SAFE_SHRINKING_DIFF : Z := 1.
Definition STABLE_HISTORY_LIMIT : Z := 20.
Definition PJMEDIA_JB_DEFAULT_INIT_DELAY : Z := 15.
Definition PJMEDIA_JBUF_DISC_MIN_GAP : Z := 200.
Definition PJMEDIA_JBUF_PRO_DISC_MIN_BURST : Z := 1.
Definition PJMEDIA_JBUF_PRO_DISC_MAX_BURST : Z := 100.
Definition PJMEDIA_JBUF_PRO_DISC_T1 : Z := 2000.
Definition PJMEDIA_JBUF_PRO_DISC_T2 : Z := 10000.
Definition JB_STATUS_INITIALIZING : Z := 0.
Definition JB_STATUS_PROCESSING : Z := 1.

Inductive pjmedia_jb_op := JB_OP_INIT | JB_OP_PUT | JB_OP_GET.
Inductive pjmedia_jb_discard_algo :=
  | PJMEDIA_JB_DISCARD_NONE | PJMEDIA_JB_DISCARD_STATIC | PJMEDIA_JB_DISCARD_PROGRESSIVE.

#[global] Instance jb_op_eq_dec : EqDecision pjmedia_jb_op.
Proof. solve_decision. Defined.
#[global] Instance jb_algo_eq_dec : EqDecision pjmedia_jb_discard_algo.
Proof. solve_decision. Defined.

(** pjlib/include/pj/math.h, without the mean and the variance *)
Record pj_math_stat := mk_stat { st_n : Z; st_max : Z; st_min : Z; st_last : Z }.
Definition pj_math_stat_init : pj_math_stat := mk_stat 0 0 0 0.
Definition pj_math_stat_update (s : pj_math_stat) (val : Z) : pj_math_stat :=
  if st_n s =? 0 then mk_stat 1 val val val
  else mk_stat (i32 (st_n s + 1)) (if st_max s <? val then val else st_max s)
         (if val <? st_min s then val else st_min s) val.

Record pjmedia_jbuf := mk_jb {
  jb_frame_size : nat;
  jb_frame_ptime : Z;
  jb_max_count : nat;
  jb_init_prefetch : Z;
  jb_min_prefetch : Z;
  jb_max_prefetch : Z;
  jb_max_burst : Z;
  jb_min_shrink_gap : Z;
  jb_discard_algo : pjmedia_jb_discard_algo;
  jb_framelist : jb_framelist_t;
  jb_level : Z;
  jb_max_hist_level : Z;
  jb_stable_hist : Z;
  jb_last_op : pjmedia_jb_op;
  jb_eff_level : Z;
  jb_prefetch : Z;
  jb_prefetching : bool;
  jb_status : Z;
  jb_init_cycle_cnt : Z;
  jb_discard_ref : Z;
  jb_discard_dist : Z;
  jb_delay : pj_math_stat;
  jb_burst : pj_math_stat;
  jb_lost : Z;
  jb_discard : Z;
  jb_empty : Z
}.

Definition set_jb_init_prefetch (v : Z) (j : pjmedia_jbuf) : pjmedia_jbuf :=
  mk_jb (jb_frame_size j) (jb_frame_ptime j) (jb_max_count j) v (jb_min_prefetch j)
    (jb_max_prefetch j) (jb_max_burst j) (jb_min_shrink_gap j) (jb_discard_algo j) (jb_framelist
    j) (jb_level j) (jb_max_hist_level j) (jb_stable_hist j) (jb_last_op j) (jb_eff_level j)
    (jb_prefetch j) (jb_prefetching j) (jb_status j) (jb_init_cycle_cnt j) (jb_discard_ref j)
    (jb_discard_dist j) (jb_delay j) (jb_burst j) (jb_lost j) (jb_discard j) (jb_empty j).
Definition set_jb_min_prefetch (v : Z) (j : pjmedia_jbuf) : pjmedia_jbuf :=
  mk_jb (jb_frame_size j) (jb_frame_ptime j) (jb_max_count j) (jb_init_prefetch j) v
    (jb_max_prefetch j) (jb_max_burst j) (jb_min_shrink_gap j) (jb_discard_algo j) (jb_framelist
    j) (jb_level j) (jb_max_hist_level j) (jb_stable_hist j) (jb_last_op j) (jb_eff_level j)
    (jb_prefetch j) (jb_prefetching j) (jb_status j) (jb_init_cycle_cnt j) (jb_discard_ref j)
    (jb_discard_dist j) (jb_delay j) (jb_burst j) (jb_lost j) (jb_discard j) (jb_empty j).
Definition set_jb_max_prefetch (v : Z) (j : pjmedia_jbuf) : pjmedia_jbuf :=
  mk_jb (jb_frame_size j) (jb_frame_ptime j) (jb_max_count j) (jb_init_prefetch j)
    (jb_min_prefetch j) v (jb_max_burst j) (jb_min_shrink_gap j) (jb_discard_algo j)
    (jb_framelist j) (jb_level j) (jb_max_hist_level j) (jb_stable_hist j) (jb_last_op j)
    (jb_eff_level j) (jb_prefetch j) (jb_prefetching j) (jb_status j) (jb_init_cycle_cnt j)
    (jb_discard_ref j) (jb_discard_dist j) (jb_delay j) (jb_burst j) (jb_lost j) (jb_discard j)
    (jb_empty j).
Definition set_jb_discard_algo (v : pjmedia_jb_discard_algo) (j : pjmedia_jbuf) : pjmedia_jbuf :=
  mk_jb (jb_frame_size j) (jb_frame_ptime j) (jb_max_count j) (jb_init_prefetch j)
    (jb_min_prefetch j) (jb_max_prefetch j) (jb_max_burst j) (jb_min_shrink_gap j) v
    (jb_framelist j) (jb_level j) (jb_max_hist_level j) (jb_stable_hist j) (jb_last_op j)
    (jb_eff_level j) (jb_prefetch j) (jb_prefetching j) (jb_status j) (jb_init_cycle_cnt j)
    (jb_discard_ref j) (jb_discard_dist j) (jb_delay j) (jb_burst j) (jb_lost j) (jb_discard j)
    (jb_empty j).
Definition set_jb_framelist (v : jb_framelist_t) (j : pjmedia_jbuf) : pjmedia_jbuf :=
  mk_jb (jb_frame_size j) (jb_frame_ptime j) (jb_max_count j) (jb_init_prefetch j)
    (jb_min_prefetch j) (jb_max_prefetch j) (jb_max_burst j) (jb_min_shrink_gap j)
    (jb_discard_algo j) v (jb_level j) (jb_max_hist_level j) (jb_stable_hist j) (jb_last_op j)
    (jb_eff_level j) (jb_prefetch j) (jb_prefetching j) (jb_status j) (jb_init_cycle_cnt j)
    (jb_discard_ref j) (jb_discard_dist j) (jb_delay j) (jb_burst j) (jb_lost j) (jb_discard j)
    (jb_empty j).
Definition set_jb_level (v : Z) (j : pjmedia_jbuf) : pjmedia_jbuf :=
  mk_jb (jb_frame_size j) (jb_frame_ptime j) (jb_max_count j) (jb_init_prefetch j)
    (jb_min_prefetch j) (jb_max_prefetch j) (jb_max_burst j) (jb_min_shrink_gap j)
    (jb_discard_algo j) (jb_framelist j) v (jb_max_hist_level j) (jb_stable_hist j) (jb_last_op
    j) (jb_eff_level j) (jb_prefetch j) (jb_prefetching j) (jb_status j) (jb_init_cycle_cnt j)
    (jb_discard_ref j) (jb_discard_dist j) (jb_delay j) (jb_burst j) (jb_lost j) (jb_discard j)
    (jb_empty j).
Definition set_jb_max_hist_level (v : Z) (j : pjmedia_jbuf) : pjmedia_jbuf :=
  mk_jb (jb_frame_size j) (jb_frame_ptime j) (jb_max_count j) (jb_init_prefetch j)
    (jb_min_prefetch j) (jb_max_prefetch j) (jb_max_burst j) (jb_min_shrink_gap j)
    (jb_discard_algo j) (jb_framelist j) (jb_level j) v (jb_stable_hist j) (jb_last_op j)
    (jb_eff_level j) (jb_prefetch j) (jb_prefetching j) (jb_status j) (jb_init_cycle_cnt j)
    (jb_discard_ref j) (jb_discard_dist j) (jb_delay j) (jb_burst j) (jb_lost j) (jb_discard j)
    (jb_empty j).
Definition set_jb_stable_hist (v : Z) (j : pjmedia_jbuf) : pjmedia_jbuf :=
  mk_jb (jb_frame_size j) (jb_frame_ptime j) (jb_max_count j) (jb_init_prefetch j)
    (jb_min_prefetch j) (jb_max_prefetch j) (jb_max_burst j) (jb_min_shrink_gap j)
    (jb_discard_algo j) (jb_framelist j) (jb_level j) (jb_max_hist_level j) v (jb_last_op j)
    (jb_eff_level j) (jb_prefetch j) (jb_prefetching j) (jb_status j) (jb_init_cycle_cnt j)
    (jb_discard_ref j) (jb_discard_dist j) (jb_delay j) (jb_burst j) (jb_lost j) (jb_discard j)
    (jb_empty j).
Definition set_jb_last_op (v : pjmedia_jb_op) (j : pjmedia_jbuf) : pjmedia_jbuf :=
  mk_jb (jb_frame_size j) (jb_frame_ptime j) (jb_max_count j) (jb_init_prefetch j)
    (jb_min_prefetch j) (jb_max_prefetch j) (jb_max_burst j) (jb_min_shrink_gap j)
    (jb_discard_algo j) (jb_framelist j) (jb_level j) (jb_max_hist_level j) (jb_stable_hist j) v
    (jb_eff_level j) (jb_prefetch j) (jb_prefetching j) (jb_status j) (jb_init_cycle_cnt j)
    (jb_discard_ref j) (jb_discard_dist j) (jb_delay j) (jb_burst j) (jb_lost j) (jb_discard j)
    (jb_empty j).
Definition set_jb_eff_level (v : Z) (j : pjmedia_jbuf) : pjmedia_jbuf :=
  mk_jb (jb_frame_size j) (jb_frame_ptime j) (jb_max_count j) (jb_init_prefetch j)
    (jb_min_prefetch j) (jb_max_prefetch j) (jb_max_burst j) (jb_min_shrink_gap j)
    (jb_discard_algo j) (jb_framelist j) (jb_level j) (jb_max_hist_level j) (jb_stable_hist j)
    (jb_last_op j) v (jb_prefetch j) (jb_prefetching j) (jb_status j) (jb_init_cycle_cnt j)
    (jb_discard_ref j) (jb_discard_dist j) (jb_delay j) (jb_burst j) (jb_lost j) (jb_discard j)
    (jb_empty j).
Definition set_jb_prefetch (v : Z) (j : pjmedia_jbuf) : pjmedia_jbuf :=
  mk_jb (jb_frame_size j) (jb_frame_ptime j) (jb_max_count j) (jb_init_prefetch j)
    (jb_min_prefetch j) (jb_max_prefetch j) (jb_max_burst j) (jb_min_shrink_gap j)
    (jb_discard_algo j) (jb_framelist j) (jb_level j) (jb_max_hist_level j) (jb_stable_hist j)
    (jb_last_op j) (jb_eff_level j) v (jb_prefetching j) (jb_status j) (jb_init_cycle_cnt j)
    (jb_discard_ref j) (jb_discard_dist j) (jb_delay j) (jb_burst j) (jb_lost j) (jb_discard j)
    (jb_empty j).
Definition set_jb_prefetching (v : bool) (j : pjmedia_jbuf) : pjmedia_jbuf :=
  mk_jb (jb_frame_size j) (jb_frame_ptime j) (jb_max_count j) (jb_init_prefetch j)
    (jb_min_prefetch j) (jb_max_prefetch j) (jb_max_burst j) (jb_min_shrink_gap j)
    (jb_discard_algo j) (jb_framelist j) (jb_level j) (jb_max_hist_level j) (jb_stable_hist j)
    (jb_last_op j) (jb_eff_level j) (jb_prefetch j) v (jb_status j) (jb_init_cycle_cnt j)
    (jb_discard_ref j) (jb_discard_dist j) (jb_delay j) (jb_burst j) (jb_lost j) (jb_discard j)
    (jb_empty j).
Definition set_jb_status (v : Z) (j : pjmedia_jbuf) : pjmedia_jbuf :=
  mk_jb (jb_frame_size j) (jb_frame_ptime j) (jb_max_count j) (jb_init_prefetch j)
    (jb_min_prefetch j) (jb_max_prefetch j) (jb_max_burst j) (jb_min_shrink_gap j)
    (jb_discard_algo j) (jb_framelist j) (jb_level j) (jb_max_hist_level j) (jb_stable_hist j)
    (jb_last_op j) (jb_eff_level j) (jb_prefetch j) (jb_prefetching j) v (jb_init_cycle_cnt j)
    (jb_discard_ref j) (jb_discard_dist j) (jb_delay j) (jb_burst j) (jb_lost j) (jb_discard j)
    (jb_empty j).
Definition set_jb_init_cycle_cnt (v : Z) (j : pjmedia_jbuf) : pjmedia_jbuf :=
  mk_jb (jb_frame_size j) (jb_frame_ptime j) (jb_max_count j) (jb_init_prefetch j)
    (jb_min_prefetch j) (jb_max_prefetch j) (jb_max_burst j) (jb_min_shrink_gap j)
    (jb_discard_algo j) (jb_framelist j) (jb_level j) (jb_max_hist_level j) (jb_stable_hist j)
    (jb_last_op j) (jb_eff_level j) (jb_prefetch j) (jb_prefetching j) (jb_status j) v
    (jb_discard_ref j) (jb_discard_dist j) (jb_delay j) (jb_burst j) (jb_lost j) (jb_discard j)
    (jb_empty j).
Definition set_jb_discard_ref (v : Z) (j : pjmedia_jbuf) : pjmedia_jbuf :=
  mk_jb (jb_frame_size j) (jb_frame_ptime j) (jb_max_count j) (jb_init_prefetch j)
    (jb_min_prefetch j) (jb_max_prefetch j) (jb_max_burst j) (jb_min_shrink_gap j)
    (jb_discard_algo j) (jb_framelist j) (jb_level j) (jb_max_hist_level j) (jb_stable_hist j)
    (jb_last_op j) (jb_eff_level j) (jb_prefetch j) (jb_prefetching j) (jb_status j)
    (jb_init_cycle_cnt j) v (jb_discard_dist j) (jb_delay j) (jb_burst j) (jb_lost j)
    (jb_discard j) (jb_empty j).
Definition set_jb_discard_dist (v : Z) (j : pjmedia_jbuf) : pjmedia_jbuf :=
  mk_jb (jb_frame_size j) (jb_frame_ptime j) (jb_max_count j) (jb_init_prefetch j)
    (jb_min_prefetch j) (jb_max_prefetch j) (jb_max_burst j) (jb_min_shrink_gap j)
    (jb_discard_algo j) (jb_framelist j) (jb_level j) (jb_max_hist_level j) (jb_stable_hist j)
    (jb_last_op j) (jb_eff_level j) (jb_prefetch j) (jb_prefetching j) (jb_status j)
    (jb_init_cycle_cnt j) (jb_discard_ref j) v (jb_delay j) (jb_burst j) (jb_lost j) (jb_discard
    j) (jb_empty j).
Definition set_jb_delay (v : pj_math_stat) (j : pjmedia_jbuf) : pjmedia_jbuf :=
  mk_jb (jb_frame_size j) (jb_frame_ptime j) (jb_max_count j) (jb_init_prefetch j)
    (jb_min_prefetch j) (jb_max_prefetch j) (jb_max_burst j) (jb_min_shrink_gap j)
    (jb_discard_algo j) (jb_framelist j) (jb_level j) (jb_max_hist_level j) (jb_stable_hist j)
    (jb_last_op j) (jb_eff_level j) (jb_prefetch j) (jb_prefetching j) (jb_status j)
    (jb_init_cycle_cnt j) (jb_discard_ref j) (jb_discard_dist j) v (jb_burst j) (jb_lost j)
    (jb_discard j) (jb_empty j).
Definition set_jb_burst (v : pj_math_stat) (j : pjmedia_jbuf) : pjmedia_jbuf :=
  mk_jb (jb_frame_size j) (jb_frame_ptime j) (jb_max_count j) (jb_init_prefetch j)
    (jb_min_prefetch j) (jb_max_prefetch j) (jb_max_burst j) (jb_min_shrink_gap j)
    (jb_discard_algo j) (jb_framelist j) (jb_level j) (jb_max_hist_level j) (jb_stable_hist j)
    (jb_last_op j) (jb_eff_level j) (jb_prefetch j) (jb_prefetching j) (jb_status j)
    (jb_init_cycle_cnt j) (jb_discard_ref j) (jb_discard_dist j) (jb_delay j) v (jb_lost j)
    (jb_discard j) (jb_empty j).
Definition set_jb_lost (v : Z) (j : pjmedia_jbuf) : pjmedia_jbuf :=
  mk_jb (jb_frame_size j) (jb_frame_ptime j) (jb_max_count j) (jb_init_prefetch j)
    (jb_min_prefetch j) (jb_max_prefetch j) (jb_max_burst j) (jb_min_shrink_gap j)
    (jb_discard_algo j) (jb_framelist j) (jb_level j) (jb_max_hist_level j) (jb_stable_hist j)
    (jb_last_op j) (jb_eff_level j) (jb_prefetch j) (jb_prefetching j) (jb_status j)
    (jb_init_cycle_cnt j) (jb_discard_ref j) (jb_discard_dist j) (jb_delay j) (jb_burst j) v
    (jb_discard j) (jb_empty j).
Definition set_jb_discard (v : Z) (j : pjmedia_jbuf) : pjmedia_jbuf :=
  mk_jb (jb_frame_size j) (jb_frame_ptime j) (jb_max_count j) (jb_init_prefetch j)
    (jb_min_prefetch j) (jb_max_prefetch j) (jb_max_burst j) (jb_min_shrink_gap j)
    (jb_discard_algo j) (jb_framelist j) (jb_level j) (jb_max_hist_level j) (jb_stable_hist j)
    (jb_last_op j) (jb_eff_level j) (jb_prefetch j) (jb_prefetching j) (jb_status j)
    (jb_init_cycle_cnt j) (jb_discard_ref j) (jb_discard_dist j) (jb_delay j) (jb_burst j)
    (jb_lost j) v (jb_empty j).
Definition set_jb_empty (v : Z) (j : pjmedia_jbuf) : pjmedia_jbuf :=
  mk_jb (jb_frame_size j) (jb_frame_ptime j) (jb_max_count j) (jb_init_prefetch j)
    (jb_min_prefetch j) (jb_max_prefetch j) (jb_max_burst j) (jb_min_shrink_gap j)
    (jb_discard_algo j) (jb_framelist j) (jb_level j) (jb_max_hist_level j) (jb_stable_hist j)
    (jb_last_op j) (jb_eff_level j) (jb_prefetch j) (jb_prefetching j) (jb_status j)
    (jb_init_cycle_cnt j) (jb_discard_ref j) (jb_discard_dist j) (jb_delay j) (jb_burst j)
    (jb_lost j) (jb_discard j) v.

Definition PJ_MAX (x y : Z) : Z := if y <? x then x else y.
Definition PJ_MIN (x y : Z) : Z := if x <? y then x else y.

(** ** Creation and settings *)

Definition pjmedia_jbuf_reset (j : pjmedia_jbuf) : pjmedia_jbuf :=
  set_jb_framelist (jb_framelist_reset (jb_framelist j))
    (set_jb_discard_dist 0 (set_jb_prefetching (negb (jb_prefetch j =? 0))
      (set_jb_max_hist_level 0 (set_jb_init_cycle_cnt 0 (set_jb_status JB_STATUS_INITIALIZING
        (set_jb_stable_hist 0 (set_jb_last_op JB_OP_INIT (set_jb_level 0 j)))))))).

Definition pjmedia_jbuf_set_discard (j : pjmedia_jbuf) (algo : pjmedia_jb_discard_algo) : pjmedia_jbuf :=
  set_jb_discard_algo algo j.

(** [ptime] divides: zero is a division by zero in C. *)
Definition pjmedia_jbuf_create (jc jb jt : list Z) (fsize : nat) (ptime : Z) (maxc : nat) :
    option pjmedia_jbuf :=
  if ptime =? 0 then None
  else
    let m := Z.of_nat maxc in
    Some (pjmedia_jbuf_reset (pjmedia_jbuf_set_discard
      (mk_jb fsize ptime maxc 0 0 (u32 (m * 4) / 5)
         (PJ_MAX (MAX_BURST_MSEC / ptime) (u32 (m * 3) / 4)) (PJMEDIA_JBUF_DISC_MIN_GAP / ptime)
         PJMEDIA_JB_DISCARD_NONE (jb_framelist_init jc jb jt fsize maxc) 0 0 0 JB_OP_INIT 0
         (PJ_MIN PJMEDIA_JB_DEFAULT_INIT_DELAY (u32 (m * 4) / 5)) false 0 0 0 0
         pj_math_stat_init pj_math_stat_init 0 0 0)
      PJMEDIA_JB_DISCARD_PROGRESSIVE)).

Definition pjmedia_jbuf_set_fixed (j : pjmedia_jbuf) (prefetch : Z) : Z * pjmedia_jbuf :=
  if prefetch <=? Z.of_nat (jb_max_count j) then
    (PJ_SUCCESS, pjmedia_jbuf_set_discard
       (set_jb_init_prefetch prefetch (set_jb_prefetch prefetch
          (set_jb_max_prefetch prefetch (set_jb_min_prefetch prefetch j)))) PJMEDIA_JB_DISCARD_NONE)
  else (PJ_EINVAL, j).

Definition pjmedia_jbuf_set_adaptive (j : pjmedia_jbuf) (prefetch min_prefetch max_prefetch : Z) :
    Z * pjmedia_jbuf :=
  if (min_prefetch <=? max_prefetch) && (prefetch <=? max_prefetch) &&
     (max_prefetch <=? Z.of_nat (jb_max_count j)) then
    (PJ_SUCCESS, set_jb_max_prefetch max_prefetch (set_jb_min_prefetch min_prefetch
       (set_jb_init_prefetch prefetch (set_jb_prefetch prefetch j))))
  else (PJ_EINVAL, j).

Definition pjmedia_jbuf_is_full (j : pjmedia_jbuf) : bool :=
  bool_decide (size (jb_framelist j) = max_count (jb_framelist j)).

(** ** Burst level *)

Definition jbuf_calculate_jitter (j : pjmedia_jbuf) : pjmedia_jbuf :=
  let j := set_jb_burst (pj_math_stat_update (jb_burst j) (jb_level j)) j in
  let j := set_jb_max_hist_level (PJ_MAX (jb_max_hist_level j) (jb_level j)) j in
  if jb_level j <? jb_eff_level j then
    let j := set_jb_stable_hist (jb_stable_hist j + 1) j in
    if STABLE_HISTORY_LIMIT <? jb_stable_hist j then
      let diff := Z.quot (jb_eff_level j - jb_max_hist_level j) 3 in
      let diff := if diff <? 1 then 1 else diff in
      let j := set_jb_eff_level (jb_eff_level j - diff) j in
      let j :=
        if jb_init_prefetch j =? 0 then j
        else
          let p := jb_eff_level j in
          let p := if p <? jb_min_prefetch j then jb_min_prefetch j else p in
          let p := if jb_max_prefetch j <? p then jb_max_prefetch j else p in
          set_jb_prefetch p j in
      set_jb_stable_hist 0 (set_jb_max_hist_level 0 j)
    else j
  else if jb_eff_level j <? jb_level j then
    let j := set_jb_eff_level (PJ_MIN (jb_max_hist_level j) (Z.of_nat (jb_max_count j) * 4 / 5)) j in
    let j :=
      if jb_init_prefetch j =? 0 then j
      else
        let p := jb_eff_level j in
        let p := if jb_max_prefetch j <? p then jb_max_prefetch j else p in
        let p := if p <? jb_min_prefetch j then jb_min_prefetch j else p in
        set_jb_prefetch p j in
    set_jb_stable_hist 0 j
  else set_jb_stable_hist 0 j.

(** ** Discard algorithms *)

Definition jbuf_discard_static (j : pjmedia_jbuf) : option pjmedia_jbuf :=
  let burst_level := PJ_MAX (jb_eff_level j) (jb_level j) in
  let diff := i32 (jb_framelist_eff_size (jb_framelist j) - burst_level * 2) in
  if STA_DISC_SAFE_SHRINKING_DIFF <=? diff then
    let seq_origin := jb_framelist_origin (jb_framelist j) in
    let j := if seq_origin <? jb_discard_ref j then set_jb_discard_ref seq_origin j else j in
    if jb_min_shrink_gap j <=? seq_origin - jb_discard_ref j then
      '(n, f) ← jb_framelist_remove_head (jb_framelist j) 1;
      Some (set_jb_discard (u32 (jb_discard j + Z.of_nat n))
              (set_jb_discard_ref (jb_framelist_origin f) (set_jb_framelist f j)))
    else Some j
  else Some j.

(** "Estimate discard duration needed for adjusting latency" *)
Definition discard_duration (burst_level : Z) : Z :=
  if burst_level <=? PJMEDIA_JBUF_PRO_DISC_MIN_BURST then PJMEDIA_JBUF_PRO_DISC_T1
  else if PJMEDIA_JBUF_PRO_DISC_MAX_BURST <=? burst_level then PJMEDIA_JBUF_PRO_DISC_T2
  else PJMEDIA_JBUF_PRO_DISC_T1 +
       (PJMEDIA_JBUF_PRO_DISC_T2 - PJMEDIA_JBUF_PRO_DISC_T1) *
       (burst_level - PJMEDIA_JBUF_PRO_DISC_MIN_BURST) /
       (PJMEDIA_JBUF_PRO_DISC_MAX_BURST - PJMEDIA_JBUF_PRO_DISC_MIN_BURST).

(** The schedule: the reference and the distance of the next discard *)
Definition schedule_discard (last_seq dist : Z) (j : pjmedia_jbuf) : pjmedia_jbuf :=
  let j := if (jb_discard_dist j =? 0) || (last_seq <? jb_discard_ref j)
           then set_jb_discard_ref last_seq j else j in
  set_jb_discard_dist (PJ_MAX (jb_min_shrink_gap j) dist) j.

Definition jbuf_discard_progressive (j : pjmedia_jbuf) : option pjmedia_jbuf :=
  if negb (bool_decide (jb_last_op j = JB_OP_PUT)) then Some j
  else
    let cur_size := jb_framelist_eff_size (jb_framelist j) in
    let burst_level := PJ_MAX (jb_eff_level j) (jb_level j) in
    if cur_size <=? burst_level then Some (set_jb_discard_dist 0 j)
    else
      let overflow := cur_size - burst_level in
      let discard_dist := discard_duration burst_level / overflow / jb_frame_ptime j in
      let last_seq := jb_framelist_origin (jb_framelist j) +
                      Z.of_nat (jb_framelist_size (jb_framelist j)) - 1 in
      let j := schedule_discard last_seq discard_dist j in
      if jb_discard_ref j + jb_discard_dist j <=? last_seq then
        let discard_seq := jb_discard_ref j + jb_discard_dist j in
        let discard_seq := if discard_seq <? jb_framelist_origin (jb_framelist j)
                           then jb_framelist_origin (jb_framelist j) else discard_seq in
        '(_, f) ← jb_framelist_discard (jb_framelist j) discard_seq;
        Some (set_jb_discard_ref discard_seq (set_jb_framelist f j))
      else Some j.

(** ** Update after an operation *)

Definition run_discard (j : pjmedia_jbuf) : option pjmedia_jbuf :=
  if jb_status j =? JB_STATUS_PROCESSING then
    match jb_discard_algo j with
    | PJMEDIA_JB_DISCARD_NONE => Some j
    | PJMEDIA_JB_DISCARD_STATIC => jbuf_discard_static j
    | PJMEDIA_JB_DISCARD_PROGRESSIVE => jbuf_discard_progressive j
    end
  else Some j.

(** The part for a switch of operations; the flag says that it returned. *)
Definition switch_op (j : pjmedia_jbuf) (oper : pjmedia_jb_op) : bool * pjmedia_jbuf :=
  let j := set_jb_last_op oper j in
  let '(returned, j) :=
    if jb_status j =? JB_STATUS_INITIALIZING then
      let j := set_jb_init_cycle_cnt (jb_init_cycle_cnt j + 1) j in
      if (INIT_CYCLE <=? jb_init_cycle_cnt j) && bool_decide (oper = JB_OP_GET) then
        (false, set_jb_level (PJ_MIN (jb_level j) (jb_max_burst j)) (set_jb_status JB_STATUS_PROCESSING j))
      else (true, set_jb_level 0 j)
    else (false, j) in
  if returned then (true, j)
  else
    let j := if bool_decide (oper = JB_OP_GET) && (jb_level j <=? jb_max_burst j)
             then jbuf_calculate_jitter j else j in
    (false, set_jb_level 0 j).

Definition jbuf_update (j : pjmedia_jbuf) (oper : pjmedia_jb_op) : option pjmedia_jbuf :=
  let '(returned, j) := if bool_decide (jb_last_op j = oper) then (false, j) else switch_op j oper in
  if returned then Some j else run_discard j.

(** ** Putting a frame *)

(** The loop that removes old frames while the buffer is full; [fuel] bounds it. *)
Fixpoint make_room (fuel : nat) (f : jb_framelist_t) (maxc : nat) (frame : list Z) (fsize : nat)
    (bi seq t status discard : Z) : option (Z * jb_framelist_t * Z) :=
  if status =? PJ_ETOOMANY then
    match fuel with
    | O => None
    | S fuel' =>
        let distance := seq - jb_framelist_origin f - Z.of_nat maxc + 1 in
        '(removed, f1) ← jb_framelist_remove_head f (Z.to_nat (u32 distance));
        '(status', f2) ← jb_framelist_put_at f1 seq frame fsize bi t PJMEDIA_JB_NORMAL_FRAME;
        make_room fuel' f2 maxc frame fsize bi seq t status' (u32 (discard + Z.of_nat removed))
    end
  else Some (status, f, discard).

(** Storing the frame: the status, the frame list and the count of discarded frames *)
Definition put_in (j : pjmedia_jbuf) (frame : list Z) (frame_size : nat) (bi seq t : Z) :
    option (Z * jb_framelist_t * Z) :=
  let min_frame_size := Nat.min frame_size (jb_frame_size j) in
  '(status, f) ← jb_framelist_put_at (jb_framelist j) seq frame min_frame_size bi t PJMEDIA_JB_NORMAL_FRAME;
  make_room 1 f (jb_max_count j) frame min_frame_size bi seq t status (jb_discard j).

(** The result is what is stored through [discarded]. *)
Definition pjmedia_jbuf_put_frame3 (j : pjmedia_jbuf) (frame : list Z) (frame_size : nat)
    (bi seq t : Z) : option (bool * pjmedia_jbuf) :=
  let cur_size := jb_framelist_eff_size (jb_framelist j) in
  '(status, f, disc) ← put_in j frame frame_size bi seq t;
  let j := set_jb_discard disc (set_jb_framelist f j) in
  let new_size := jb_framelist_eff_size f in
  if status =? PJ_SUCCESS then
    let j := if jb_prefetching j && (jb_prefetch j <=? new_size) then set_jb_prefetching false j else j in
    let j := set_jb_level (jb_level j + (if cur_size <? new_size then new_size - cur_size else 1)) j in
    j ← jbuf_update j JB_OP_PUT;
    Some (false, j)
  else Some (true, set_jb_discard (u32 (jb_discard j + 1)) j).

Definition pjmedia_jbuf_put_frame2 (j : pjmedia_jbuf) (frame : list Z) (frame_size : nat) (bi seq : Z) :=
  pjmedia_jbuf_put_frame3 j frame frame_size bi seq 0.

Definition pjmedia_jbuf_put_frame (j : pjmedia_jbuf) (frame : list Z) (frame_size : nat) (seq : Z) :=
  pjmedia_jbuf_put_frame3 j frame frame_size 0 seq 0.

(** ** Getting a frame *)

(** The frame type stored through [p_frame_type] and, for a frame, what is read *)
Definition pjmedia_jbuf_get_frame3 (j : pjmedia_jbuf) : option (Z * option frame_out * pjmedia_jbuf) :=
  '(ty, o, j) ←
    (if jb_prefetching j then
       Some (PJMEDIA_JB_ZERO_PREFETCH_FRAME, None, set_jb_empty (u32 (jb_empty j + 1)) j)
     else
       '(r, f) ← jb_framelist_get (jb_framelist j);
       let j := set_jb_framelist f j in
       match r with
       | Some o =>
           let '(ty, j) :=
             if o_type o =? PJMEDIA_JB_NORMAL_FRAME then (PJMEDIA_JB_NORMAL_FRAME, j)
             else (PJMEDIA_JB_MISSING_FRAME, set_jb_lost (u32 (jb_lost j + 1)) j) in
           let j := if bool_decide (jb_last_op j = JB_OP_PUT)
                    then set_jb_delay (pj_math_stat_update (jb_delay j)
                           (i32 (u32 ((jb_framelist_eff_size f + 1) * jb_frame_ptime j)))) j
                    else j in
           Some (ty, Some o, j)
       | None =>
           let j := if jb_prefetch j =? 0 then j else set_jb_prefetching true j in
           Some (PJMEDIA_JB_ZERO_EMPTY_FRAME, None, set_jb_empty (u32 (jb_empty j + 1)) j)
       end);
  j ← jbuf_update (set_jb_level (jb_level j + 1) j) JB_OP_GET;
  Some (ty, o, j).

(** ** Peeking and removing *)

Definition pjmedia_jbuf_peek_frame (j : pjmedia_jbuf) (offset : nat) : option (Z * option frame_out) :=
  r ← jb_framelist_peek (jb_framelist j) offset;
  Some (match r with
        | None => PJMEDIA_JB_ZERO_EMPTY_FRAME
        | Some o => if o_type o =? PJMEDIA_JB_NORMAL_FRAME then PJMEDIA_JB_NORMAL_FRAME
                    else PJMEDIA_JB_MISSING_FRAME
        end, r).

(** "Remove some more when there were discarded frames included" *)
Fixpoint remove_more (fuel : nat) (f : jb_framelist_t) (last_discard_num count : Z) :
    option (Z * jb_framelist_t) :=
  if discarded_num f <? last_discard_num then
    match fuel with
    | O => None
    | S fuel' =>
        let frame_cnt := last_discard_num - discarded_num f in
        '(n, f') ← jb_framelist_remove_head f (Z.to_nat frame_cnt);
        remove_more fuel' f' (discarded_num f) (u32 (u32 (count - frame_cnt) + Z.of_nat n))
    end
  else Some (count, f).

Definition pjmedia_jbuf_remove_frame (j : pjmedia_jbuf) (frame_cnt : nat) : option (Z * pjmedia_jbuf) :=
  let last := discarded_num (jb_framelist j) in
  '(n, f) ← jb_framelist_remove_head (jb_framelist j) frame_cnt;
  '(count, f) ← remove_more (size (jb_framelist j)) f last (Z.of_nat n);
  Some (count, set_jb_framelist f j).

(** The integer part of the state *)
Record pjmedia_jb_state := mk_jb_state {
  js_frame_size : nat; js_min_prefetch : Z; js_max_prefetch : Z; js_burst : Z; js_prefetch : Z;
  js_size : Z; js_min_delay : Z; js_max_delay : Z; js_empty : Z; js_discard : Z; js_lost : Z
}.

Definition pjmedia_jbuf_get_state (j : pjmedia_jbuf) : pjmedia_jb_state :=
  mk_jb_state (jb_frame_size j) (jb_min_prefetch j) (jb_max_prefetch j) (jb_eff_level j) (jb_prefetch j)
    (jb_framelist_eff_size (jb_framelist j)) (st_min (jb_delay j)) (st_max (jb_delay j))
    (jb_empty j) (jb_discard j) (jb_lost j).
