(* ===== verification/JbProps.v ===== *)
(** * Jitter buffer: invariant and theorems

    The invariant of a jitter buffer, kept by every public function, and what
    the functions do to the queue of slots of JbRefine. *)

From S2P Require Import Prelude JbList JbRefine JBuf.

(** ** Putting a frame in the queue *)

Definition removed_for (cap : nat) (o : Z) (l : list slot) (index : Z) : nat :=
  Nat.min (Z.to_nat (index - o - Z.of_nat cap + 1)) (length l).

(** The queue after a put, making room when it is full: the status, the queue
    and the number of slots removed *)
Definition q_put_room (cap : nat) (o : Z) (l : list slot) (index : Z) (s : slot) : Z * (Z * list slot) * nat :=
  let '(st, (o1, l1)) := q_put cap o l index s in
  if st =? PJ_ETOOMANY then
    let n := removed_for cap o1 l1 index in
    (q_put cap (o1 + Z.of_nat n) (drop n l1) index s, n)
  else (st, (o1, l1), 0%nat).

Lemma q_store_status o l index s : fst (q_store o l index s) = PJ_SUCCESS \/ fst (q_store o l index s) = PJ_EEXISTS.
Proof. unfold q_store. destruct (l !! _) as [[]|]; auto. Qed.

(** A full queue: the frame is further than the capacity but not too far. *)
Lemma q_put_toomany cap o l index s o1 l1 : q_put cap o l index s = (PJ_ETOOMANY, (o1, l1)) ->
  l1 = l /\ Z.of_nat cap <= index - o1 <= MAX_DROPOUT /\ o1 <= index.
Proof.
  unfold q_put. destruct (_ && _) eqn:E; [done|].
  set (o2 := if decide (l = []) then _ else _).
  assert (Ho : o2 <= index).
  { unfold o2. case_decide; [lia|]. destruct (Z.ltb_spec index o); lia. }
  clearbody o2. destruct (Z.leb_spec (Z.of_nat cap) (index - o2)) as [Hc|Hc].
  - destruct (Z.ltb_spec MAX_DROPOUT (index - o2)); [done|]. intros [= <- <-]. split_and!; (done || lia).
  - intros Hq. pose proof (q_store_status o2 l index s) as Hs. rewrite Hq in Hs. by destruct Hs.
Qed.

(** Once room is made the frame is stored behind the last slot. *)
Lemma q_put_again cap o l index s : (length l <= cap)%nat -> (0 < cap)%nat ->
  Z.of_nat cap <= index - o <= MAX_DROPOUT ->
  let n := removed_for cap o l index in
  let o' := if decide (drop n l = []) then index else o + Z.of_nat n in
  q_put cap (o + Z.of_nat n) (drop n l) index s =
    (PJ_SUCCESS, (o', drop n l ++ replicate (Z.to_nat (index - o') - length (drop n l)) Missing ++ [s])).
Proof.
  intros Hl Hcap Hd n o'. assert (Hn : (n <= length l)%nat) by (unfold n, removed_for; lia).
  assert (Hlen : length (drop n l) = (length l - n)%nat) by apply length_drop.
  assert (Hi : o + Z.of_nat n <= index) by (unfold n, removed_for in *; lia).
  unfold q_put. destruct (Z.ltb_spec index (o + Z.of_nat n)); [lia|]. cbn [andb].
  fold o'. assert (Hfin : 0 <= index - o' < Z.of_nat cap /\ Z.of_nat (length (drop n l)) <= index - o').
  { unfold o'. case_decide as En; [rewrite En; cbn; lia|].
    assert (length (drop n l) <> 0%nat) by (intros E; by apply length_zero_iff_nil in E).
    unfold n, removed_for in *. lia. }
  destruct (Z.leb_spec (Z.of_nat cap) (index - o')); [lia|].
  unfold q_store. rewrite lookup_ge_None_2 by lia. done.
Qed.

(** The loop that makes room turns at most once, and the frame is then stored. *)
Lemma put_in_spec j frame fsize bi index t :
  let f := jb_framelist j in
  fl_ok f -> max_count f = jb_max_count j -> frame_size f = jb_frame_size j -> (fsize <= length frame)%nat ->
  exists st f' n, put_in j frame fsize bi index t =
      Some (st, f', if decide (st = PJ_SUCCESS /\ n <> 0%nat) then u32 (jb_discard j + Z.of_nat n) else jb_discard j) /\
    fl_ok f' /\ max_count f' = max_count f /\ frame_size f' = frame_size f /\
    q_put_room (max_count f) (origin f) (frames f) index (Filled (take (Nat.min fsize (jb_frame_size j)) frame) bi t)
      = (st, (origin f', frames f'), n).
Proof.
  intros f Hf Hm Hz Hlen. unfold put_in. fold f. rewrite <- Hz, <- Hm. set (fsz := Nat.min fsize (frame_size f)).
  set (s := Filled (take fsz frame) bi t).
  destruct (put_at_spec f index fsz frame bi t Hf) as (st & f1 & -> & Hf1 & Hm1 & Hz1 & Hq); [lia..|].
  cbn [mbind option_bind]. fold s in Hq. unfold q_put_room. rewrite <- Hq.
  destruct (Z.eqb_spec st PJ_ETOOMANY) as [->|Hne].
  - destruct (q_put_toomany _ _ _ _ _ _ _ (eq_sym Hq)) as (Hl & Hd & Hi).
    pose proof (ok_max f (ok_shape f Hf)) as Hpos. pose proof (ok_size f1 (ok_shape f1 Hf1)) as Hsz1.
    assert (Hl1 : (length (frames f1) <= max_count f)%nat) by (rewrite length_frames; congruence).
    cbn [make_room]. rewrite Z.eqb_refl. cbv zeta. set (dist := index - origin f1 - Z.of_nat (max_count f) + 1).
    assert (Hu : u32 dist = dist) by (apply u32_id; unfold is_u32, MAX_DROPOUT in *; lia). unfold jb_framelist_origin. fold dist. rewrite Hu.
    destruct (remove_head_spec f1 (Z.to_nat dist) Hf1) as (f2 & -> & Hf2 & Hfr2 & Ho2 & Hs2 & Hm2 & Hz2).
    cbn [mbind option_bind].
    destruct (put_at_spec f2 index fsz frame bi t Hf2) as (st2 & f3 & -> & Hf3 & Hm3 & Hz3 & Hq3); [lia..|].
    cbn [mbind option_bind]. fold s in Hq3. rewrite Hm2, Hm1 in Hq3.
    assert (En : Nat.min (Z.to_nat dist) (size f1) = removed_for (max_count f) (origin f1) (frames f1) index).
    { unfold removed_for. by rewrite length_frames. }
    assert (Hdr : frames f2 = drop (removed_for (max_count f) (origin f1) (frames f1) index) (frames f1)).
    { rewrite Hfr2, <- En. destruct (decide (Z.to_nat dist <= size f1)%nat); [by rewrite Nat.min_l|].
      rewrite !drop_ge; rewrite ?length_frames; (done || lia). }
    assert (Hoo : origin f2 = origin f1 + Z.of_nat (removed_for (max_count f) (origin f1) (frames f1) index)) by congruence.
    rewrite Hdr, Hoo in Hq3.
    pose proof (q_put_again (max_count f) (origin f1) (frames f1) index s Hl1 Hpos Hd) as Hag. cbv zeta in Hag.
    assert (Est : st2 = PJ_SUCCESS) by (rewrite Hag in Hq3; by injection Hq3). subst st2.
    exists PJ_SUCCESS, f3, (removed_for (max_count f) (origin f1) (frames f1) index).
    split; [|split_and!; try done; try congruence; by rewrite Hq3].
    cbn -[Z.eqb]. rewrite En. destruct (decide (_ /\ _)) as [Hc|Hc]; [done|].
    destruct (decide (removed_for (max_count f) (origin f1) (frames f1) index = 0%nat)) as [E0|E0]; [|by destruct Hc].
    exfalso. unfold removed_for in E0. assert (length (frames f1) <> 0%nat); [|lia].
    rewrite Hl. intros E. apply length_zero_iff_nil in E.
    unfold q_put in Hq. rewrite E in Hq. cbn [length] in Hq. destruct (_ && _); [done|].
    rewrite decide_True in Hq by done. rewrite Z.sub_diag in Hq.
    destruct (Z.leb_spec (Z.of_nat (max_count f)) 0); [lia|done].
  - exists st, f1, 0%nat. cbn [make_room]. destruct (Z.eqb_spec st PJ_ETOOMANY); [done|].
    rewrite decide_False by tauto. by split_and!.
Qed.

(** Frames that were discarded keep their numbers, or get lower ones when the
    sequence restarts. *)
Lemma q_put_discarded cap o l index s st o' l' : s <> Discarded ->
  q_put cap o l index s = (st, (o', l')) -> forall i, l' !! i = Some Discarded ->
  exists k, l !! k = Some Discarded /\ o' + Z.of_nat i <= o + Z.of_nat k.
Proof.
  intros Hs Hq i Hi. unfold q_put in Hq. destruct (_ && _); [injection Hq as <- <- <-; by exists i; split|].
  set (o2 := if decide (l = []) then _ else _) in Hq.
  assert (Hle : l <> [] -> o2 <= o).
  { intros Hl. unfold o2. rewrite decide_False by done. destruct (Z.ltb_spec index o); lia. }
  clearbody o2. destruct (_ <=? _).
  - destruct (_ <? _); injection Hq as <- <- <-.
    + destruct i; cbn in Hi; [by injection Hi as ->|done].
    + exists i. split; [done|]. assert (o2 <= o) by (apply Hle; intros ->; done). lia.
  - unfold q_store in Hq. set (d := Z.to_nat (index - o2)) in Hq.
    assert (Hcase : forall k, l !! k = Some Discarded -> o2 <= o) by (intros k Hk; apply Hle; intros ->; done).
    destruct (l !! d) as [[]|] eqn:Ed; injection Hq as <- <- <-.
    + apply list_lookup_insert_Some in Hi as [(_ & Es & _)|[_ Hi]]; [by destruct Hs|]. exists i. pose proof (Hcase i Hi). split; [done|lia].
    + exists i. pose proof (Hcase i Hi). split; [done|lia].
    + exists i. pose proof (Hcase i Hi). split; [done|lia].
    + apply lookup_app_Some in Hi as [Hi|[_ Hi]]; [exists i; pose proof (Hcase i Hi); split; [done|lia]|].
      apply lookup_app_Some in Hi as [Hi|[_ Hi]]; [by apply lookup_replicate in Hi as [? _]|].
      destruct (i - length l - length (replicate (d - length l) Missing))%nat; cbn in Hi; [by injection Hi as Es; destruct Hs|done].
Qed.

Lemma q_put_room_discarded cap o l index s st o' l' n : s <> Discarded ->
  q_put_room cap o l index s = (st, (o', l'), n) -> forall i, l' !! i = Some Discarded ->
  exists k, l !! k = Some Discarded /\ o' + Z.of_nat i <= o + Z.of_nat k.
Proof.
  intros Hs Hq i Hi. unfold q_put_room in Hq. destruct (q_put cap o l index s) as [st1 [o1 l1]] eqn:E.
  destruct (st1 =? PJ_ETOOMANY).
  - injection Hq as Hq En. destruct (q_put_discarded _ _ _ _ _ _ _ _ Hs Hq i Hi) as (k & Hk & Hle).
    rewrite lookup_drop in Hk. destruct (q_put_discarded _ _ _ _ _ _ _ _ Hs E _ Hk) as (k' & Hk' & Hle').
    exists k'. split; [done|lia].
  - injection Hq as <- <- <- <-. by eapply q_put_discarded.
Qed.

(** ** The invariant *)

Definition slots (j : pjmedia_jbuf) : list slot := frames (jb_framelist j).
Definition first_seq (j : pjmedia_jbuf) : Z := origin (jb_framelist j).

(** What the scheduled discards rely on: no frame after the reference has been
    discarded. *)
Definition sched_ok (o : Z) (l : list slot) (ref dist : Z) : Prop :=
  dist <> 0 -> forall i, l !! i = Some Discarded -> o + Z.of_nat i <= ref.

Record jb_ok (j : pjmedia_jbuf) : Prop := {
  jo_list : fl_ok (jb_framelist j);
  jo_max : max_count (jb_framelist j) = jb_max_count j;
  jo_fsize : frame_size (jb_framelist j) = jb_frame_size j;
  jo_ptime : 0 < jb_frame_ptime j;
  jo_gap : 1 <= jb_min_shrink_gap j;
  jo_level : 0 <= jb_level j;
  jo_hist : 0 <= jb_max_hist_level j;
  jo_eff : 0 <= jb_eff_level j <= Z.of_nat (jb_max_count j) * 4 / 5;
  jo_prefetch : 0 <= jb_prefetch j <= jb_max_prefetch j;
  jo_limits : 0 <= jb_min_prefetch j <= jb_max_prefetch j;
  jo_capacity : jb_max_prefetch j <= Z.of_nat (jb_max_count j);
  jo_burst : 0 <= jb_max_burst j;
  jo_static : jb_discard_algo j = PJMEDIA_JB_DISCARD_STATIC -> n_discarded (slots j) = 0%nat;
  jo_sched : sched_ok (first_seq j) (slots j) (jb_discard_ref j) (jb_discard_dist j)
}.

(** The updates of the fields the list does not depend on *)
Ltac jb_fields H := destruct H; split; cbn; try done; try lia.

Lemma PJ_MAX_spec x y : PJ_MAX x y = Z.max x y.
Proof. unfold PJ_MAX. destruct (Z.ltb_spec y x); lia. Qed.
Lemma PJ_MIN_spec x y : PJ_MIN x y = Z.min x y.
Proof. unfold PJ_MIN. destruct (Z.ltb_spec x y); lia. Qed.

Lemma reset_jb_ok j : jb_ok j -> jb_ok (pjmedia_jbuf_reset j) /\ slots (pjmedia_jbuf_reset j) = [].
Proof.
  intros H. destruct (reset_ok (jb_framelist j) (ok_shape _ (jo_list j H))) as [Hf Hs]. split; [|exact Hs].
  jb_fields H.
Qed.

Lemma u32_le x : 0 <= x -> u32 x <= x.
Proof. intros H. apply Z.mod_le; lia. Qed.

Lemma create_ok jc jb jt fsize ptime maxc j :
  0 < ptime <= PJMEDIA_JBUF_DISC_MIN_GAP -> (0 < maxc)%nat -> Z.of_nat maxc < 2147483648 ->
  pjmedia_jbuf_create jc jb jt fsize ptime maxc = Some j -> jb_ok j /\ slots j = [].
Proof.
  intros Hp Hm Hm31. unfold pjmedia_jbuf_create. destruct (Z.eqb_spec ptime 0); [lia|]. intros [= <-].
  apply reset_jb_ok. destruct (init_ok jc jb jt fsize maxc Hm Hm31) as [Hf Hs].
  assert (Hu : 0 <= u32 (Z.of_nat maxc * 4) / 5 <= Z.of_nat maxc).
  { pose proof (u32_le (Z.of_nat maxc * 4)). pose proof (u32_range (Z.of_nat maxc * 4)).
    split; [apply Z.div_pos; lia|]. apply Z.div_le_upper_bound; lia. }
  assert (Hu3 : 0 <= u32 (Z.of_nat maxc * 3) / 4) by (apply Z.div_pos; [apply u32_range|lia]).
  split; cbn -[jb_framelist_init]; rewrite ?PJ_MIN_spec, ?PJ_MAX_spec; try done; try lia.
  - unfold PJMEDIA_JBUF_DISC_MIN_GAP in *. apply Z.div_le_lower_bound; lia.
  - split; [done|]. apply Z.div_pos; lia.
  - unfold PJMEDIA_JB_DEFAULT_INIT_DELAY. lia.
Qed.

Lemma set_discard_ok j a : jb_ok j -> a <> PJMEDIA_JB_DISCARD_STATIC -> jb_ok (pjmedia_jbuf_set_discard j a).
Proof. intros H Ha. jb_fields H. Qed.

Lemma set_fixed_ok j p : jb_ok j -> 0 <= p -> jb_ok (snd (pjmedia_jbuf_set_fixed j p)).
Proof.
  intros H Hp. unfold pjmedia_jbuf_set_fixed. destruct (Z.leb_spec p (Z.of_nat (jb_max_count j))); [|done].
  apply set_discard_ok; [jb_fields H|done].
Qed.

Lemma set_adaptive_ok j p mn mx : jb_ok j -> 0 <= p -> 0 <= mn -> jb_ok (snd (pjmedia_jbuf_set_adaptive j p mn mx)).
Proof.
  intros H Hp Hmn. unfold pjmedia_jbuf_set_adaptive. destruct (_ && _) eqn:E; [|done].
  apply andb_prop in E as [E E3]. apply andb_prop in E as [E1 E2].
  apply Z.leb_le in E1, E2, E3. jb_fields H.
Qed.

(** ** The burst level *)

(** What the level calculation leaves alone *)
Definition same_list (j j' : pjmedia_jbuf) : Prop :=
  jb_framelist j' = jb_framelist j /\ jb_discard_algo j' = jb_discard_algo j /\
  jb_max_count j' = jb_max_count j /\ jb_frame_size j' = jb_frame_size j /\ jb_lost j' = jb_lost j /\
  jb_empty j' = jb_empty j /\ jb_discard j' = jb_discard j /\ jb_prefetching j' = jb_prefetching j /\
  jb_discard_ref j' = jb_discard_ref j /\ jb_discard_dist j' = jb_discard_dist j /\
  jb_min_shrink_gap j' = jb_min_shrink_gap j.

(** The level and the prefetch after a calculation *)
Lemma calculate_jitter_ok j : jb_ok j -> jb_ok (jbuf_calculate_jitter j) /\ same_list j (jbuf_calculate_jitter j).
Proof.
  intros H. unfold jbuf_calculate_jitter. cbn [jb_level jb_eff_level set_jb_burst set_jb_max_hist_level].
  rewrite PJ_MAX_spec. pose proof (jo_level j H). pose proof (jo_hist j H). pose proof (jo_eff j H) as He.
  pose proof (jo_limits j H). pose proof (jo_prefetch j H).
  destruct (Z.ltb_spec (jb_level j) (jb_eff_level j)) as [Hlt|Hge]; [|destruct (Z.ltb_spec (jb_eff_level j) (jb_level j)) as [Hlt|Heq]].
  - cbn -[Z.quot Z.mul Z.div]. destruct (_ <? jb_stable_hist j + 1); [|by split; [jb_fields H|]].
    set (diff := Z.quot _ 3).
    assert (Hd : 1 <= (if diff <? 1 then 1 else diff) <= jb_eff_level j).
    { assert (Hdd : diff <= jb_eff_level j \/ diff <= 0); [|destruct (Z.ltb_spec diff 1); lia].
      unfold diff. destruct (decide (0 <= jb_eff_level j - Z.max (jb_max_hist_level j) (jb_level j))).
      - left. rewrite Z.quot_div_nonneg by lia. apply Z.div_le_upper_bound; lia.
      - right. pose proof (Z.quot_opp_l (jb_eff_level j - Z.max (jb_max_hist_level j) (jb_level j)) 3) as Ho.
        rewrite Z.quot_div_nonneg in Ho by lia. pose proof (Z.div_pos (- (jb_eff_level j - Z.max (jb_max_hist_level j) (jb_level j))) 3). lia. }
    set (d := if diff <? 1 then 1 else diff) in *. clearbody d. clear diff.
    destruct (jb_init_prefetch j =? 0); (split; [jb_fields H|done]).
    zbool; lia.
  - cbn -[Z.quot Z.mul Z.div]. rewrite PJ_MIN_spec.
    destruct (jb_init_prefetch j =? 0); (split; [jb_fields H|done]). zbool; lia.
  - split; [jb_fields H|done].
Qed.

(** ** The discard algorithms *)

Definition counters (j : pjmedia_jbuf) : bool * Z * Z * pjmedia_jb_discard_algo :=
  (jb_prefetching j, jb_lost j, jb_empty j, jb_discard_algo j).

Lemma no_discarded l i : n_discarded l = 0%nat -> l !! i <> Some Discarded.
Proof.
  intros Hn Hi. pose proof (n_discarded_insert l i Discarded Missing Hi) as E. cbn in E. lia.
Qed.

Lemma n_discarded_drop l c : (n_discarded (drop c l) <= n_discarded l)%nat.
Proof. rewrite <- (take_drop c l) at 2. rewrite n_discarded_app. lia. Qed.

Lemma sched_drop o l ref dist c : sched_ok o l ref dist ->
  sched_ok (o + Z.of_nat (Nat.min c (length l))) (drop c l) ref dist.
Proof.
  intros H Hd i Hi. rewrite lookup_drop in Hi. specialize (H Hd _ Hi).
  apply lookup_lt_Some in Hi. lia.
Qed.

Lemma discard_static_ok j : jb_ok j -> jb_discard_algo j = PJMEDIA_JB_DISCARD_STATIC ->
  exists j', jbuf_discard_static j = Some j' /\ jb_ok j' /\ counters j' = counters j /\
    (slots j' = slots j /\ first_seq j' = first_seq j \/
     slots j' = drop 1 (slots j) /\ first_seq j' = first_seq j + Z.of_nat (Nat.min 1 (length (slots j)))).
Proof.
  intros H Ha. pose proof (jo_static j H Ha) as Hn. unfold jbuf_discard_static.
  destruct (_ <=? _); [|by exists j; split_and!; try done; left].
  set (j1 := if _ <? jb_discard_ref j then _ else j).
  assert (H1 : jb_ok j1 /\ jb_framelist j1 = jb_framelist j /\ jb_discard_algo j1 = PJMEDIA_JB_DISCARD_STATIC /\
    counters j1 = counters j).
  { unfold j1. destruct (_ <? _); [|done]. split_and!; try done. jb_fields H.
    intros _ i Hi. by apply no_discarded in Hi. }
  clearbody j1. destruct H1 as (H1 & E1 & Ha1 & Hp1).
  destruct (_ <=? _); [|exists j1; split_and!; try done; left; unfold slots, first_seq; by rewrite E1].
  destruct (remove_head_spec (jb_framelist j1) 1 (jo_list j1 H1)) as (f & -> & Hf & Hfr & Ho & _ & Hm & Hz).
  cbn [mbind option_bind]. eexists. split; [done|]. split; [|split; [done|right]].
  2: { unfold slots, first_seq. cbn -[drop]. rewrite Hfr, Ho, E1, length_frames. by split. }
  assert (Hnf : n_discarded (frames f) = 0%nat).
  { rewrite Hfr, E1. pose proof (n_discarded_drop (slots j) 1). unfold slots in *. lia. }
  jb_fields H1; try congruence. intros _ i Hi. by apply no_discarded in Hi.
Qed.

Lemma last_slot l o i : l !! i = Some Discarded -> o + Z.of_nat i <= o + Z.of_nat (length l) - 1.
Proof. intros Hi. apply lookup_lt_Some in Hi. lia. Qed.

(** A schedule has a reference after every discarded frame. *)
Lemma schedule_ok j last_seq dist : jb_ok j -> last_seq = first_seq j + Z.of_nat (length (slots j)) - 1 ->
  let j' := schedule_discard last_seq dist j in
  jb_ok j' /\ jb_framelist j' = jb_framelist j /\ jb_discard_dist j' = PJ_MAX (jb_min_shrink_gap j) dist /\
  1 <= jb_discard_dist j' /\ jb_discard_ref j' <= last_seq /\ counters j' = counters j /\
  jb_min_shrink_gap j' = jb_min_shrink_gap j /\
  (jb_discard_ref j' = last_seq \/ jb_discard_ref j' = jb_discard_ref j /\ jb_discard_dist j <> 0).
Proof.
  intros H Hl j'. pose proof (jo_gap j H) as Hg. pose proof (jo_sched j H) as Hs.
  unfold j', schedule_discard. rewrite !PJ_MAX_spec.
  assert (Hlast : forall i, slots j !! i = Some Discarded -> first_seq j + Z.of_nat i <= last_seq).
  { intros i Hi. rewrite Hl. by apply last_slot. }
  destruct (Z.eqb_spec (jb_discard_dist j) 0) as [E|E]; [|destruct (Z.ltb_spec last_seq (jb_discard_ref j)) as [E1|E1]];
    cbn [orb]; (split; [jb_fields H|split_and!; cbn; try done; try lia]).
  - intros _. exact Hlast.
  - intros _. exact Hlast.
  - intros _. exact (Hs E).
Qed.

(** What a progressive discard does to the queue: it marks one slot behind the
    reference, at least [jb_min_shrink_gap] frames further, and moves the
    reference there. *)
Definition progressive_effect (j j' : pjmedia_jbuf) : Prop :=
  slots j' = slots j \/
  exists i, slots j' = <[i := Discarded]> (slots j) /\ (i < length (slots j))%nat /\
    slots j !! i <> Some Discarded /\ jb_discard_ref j' = first_seq j + Z.of_nat i /\
    jb_discard_dist j <> 0 /\ jb_discard_ref j + jb_min_shrink_gap j <= jb_discard_ref j'.

Lemma discard_progressive_ok j : jb_ok j -> jb_discard_algo j <> PJMEDIA_JB_DISCARD_STATIC ->
  exists j', jbuf_discard_progressive j = Some j' /\ jb_ok j' /\ first_seq j' = first_seq j /\
    counters j' = counters j /\ progressive_effect j j'.
Proof.
  intros H Ha. unfold jbuf_discard_progressive. destruct (negb _); [by exists j; split_and!; try done; left|].
  rewrite PJ_MAX_spec. pose proof (jo_level j H) as Hlv. pose proof (jo_eff j H) as Hev.
  rewrite eff_size_eq by apply H. set (burst := Z.max _ _).
  destruct (Z.leb_spec (Z.of_nat (size (jb_framelist j) - n_discarded (frames (jb_framelist j)))) burst) as [Hle|Hgt].
  { eexists. split; [done|]. split; [jb_fields H; by intros ?|]. split_and!; try done. by left. }
  set (last := _ - 1). set (dist := _ / jb_frame_ptime j).
  assert (Hlast : last = first_seq j + Z.of_nat (length (slots j)) - 1)
    by (unfold last, slots; by rewrite length_frames).
  destruct (schedule_ok j last dist H Hlast) as (H1 & Ef & Ed & Hd & Hr & Hp & Hg & Hcase).
  assert (Ha1 : jb_discard_algo (schedule_discard last dist j) <> PJMEDIA_JB_DISCARD_STATIC)
    by (unfold schedule_discard; by destruct (_ || _)).
  set (j1 := schedule_discard last dist j) in *. clearbody j1. rewrite PJ_MAX_spec in Ed.
  destruct (Z.leb_spec (jb_discard_ref j1 + jb_discard_dist j1) last) as [Hnow|Hlater];
    [|exists j1; split_and!; try done; [by unfold first_seq; rewrite Ef|left; by unfold slots; rewrite Ef]].
  rewrite !Ef. fold (first_seq j). change (jb_framelist_origin (jb_framelist j)) with (first_seq j).
  assert (Hsz : length (slots j) = size (jb_framelist j)) by apply length_frames.
  set (dseq := if _ <? first_seq j then _ else _).
  assert (Hds : jb_discard_ref j1 + jb_discard_dist j1 <= dseq /\ first_seq j <= dseq <= last).
  { unfold dseq. destruct (Z.ltb_spec (jb_discard_ref j1 + jb_discard_dist j1) (first_seq j)); lia. }
  clearbody dseq.
  assert (Hnd : slots j !! Z.to_nat (dseq - first_seq j) <> Some Discarded).
  { intros Hi. pose proof (jo_sched j1 H1) as Hs. unfold first_seq, slots in Hs. rewrite Ef in Hs.
    specialize (Hs ltac:(lia) _ Hi). fold (first_seq j) in Hs. lia. }
  destruct (discard_spec (jb_framelist j) dseq (jo_list j H)) as (f & -> & Hf & Hfr & Ho & Hm & Hz);
    [fold (first_seq j); lia|done|].
  cbn [mbind option_bind]. fold (first_seq j) in *. fold (slots j) in Hfr. eexists. split; [done|].
  split; [|split; [exact Ho|split; [exact Hp|right; exists (Z.to_nat (dseq - first_seq j)); cbn]]].
  - pose proof (jo_sched j1 H1) as Hs. jb_fields H1; try congruence.
    intros _ i Hi. unfold slots, first_seq in *. cbn in *. rewrite Hfr in Hi. rewrite Ho. rewrite Ef in *.
    apply list_lookup_insert_Some in Hi as [(<- & _ & _)|[_ Hi]]; [lia|].
    specialize (Hs ltac:(lia) _ Hi). lia.
  - split_and!; [exact Hfr|lia|done|lia|lia|lia].
Qed.

(** ** The update after an operation *)

(** What the update does to the queue: the discard algorithm takes at most one
    frame out, the progressive one after a put only. *)
Definition update_effect (j j' : pjmedia_jbuf) (oper : pjmedia_jb_op) : Prop :=
  match jb_discard_algo j with
  | PJMEDIA_JB_DISCARD_NONE => slots j' = slots j /\ first_seq j' = first_seq j
  | PJMEDIA_JB_DISCARD_STATIC =>
      slots j' = slots j /\ first_seq j' = first_seq j \/
      slots j' = drop 1 (slots j) /\ first_seq j' = first_seq j + Z.of_nat (Nat.min 1 (length (slots j)))
  | PJMEDIA_JB_DISCARD_PROGRESSIVE =>
      first_seq j' = first_seq j /\ progressive_effect j j' /\ (oper <> JB_OP_PUT -> slots j' = slots j)
  end.

Lemma update_effect_refl j oper : update_effect j j oper.
Proof. unfold update_effect. destruct (jb_discard_algo j); [done|by left|split_and!; try done; by left]. Qed.

Lemma effect_ext j j1 j' oper : jb_framelist j1 = jb_framelist j -> jb_discard_algo j1 = jb_discard_algo j ->
  jb_discard_ref j1 = jb_discard_ref j -> jb_discard_dist j1 = jb_discard_dist j ->
  jb_min_shrink_gap j1 = jb_min_shrink_gap j -> update_effect j1 j' oper -> update_effect j j' oper.
Proof.
  intros Ef Ea Er Ed Eg. unfold update_effect, progressive_effect, first_seq, slots. by rewrite Ef, Ea, Er, Ed, Eg.
Qed.

Lemma same_list_effect j j1 j' oper : same_list j j1 -> update_effect j1 j' oper -> update_effect j j' oper.
Proof. intros (Ef & Ea & _ & _ & _ & _ & _ & _ & Er & Ed & Eg). by apply effect_ext. Qed.

Lemma switch_op_ok j oper : jb_ok j ->
  jb_ok (snd (switch_op j oper)) /\ same_list j (snd (switch_op j oper)) /\ jb_last_op (snd (switch_op j oper)) = oper.
Proof.
  intros H. unfold switch_op. set (j1 := set_jb_last_op oper j).
  assert (H1 : jb_ok j1 /\ same_list j j1 /\ jb_last_op j1 = oper) by (split_and!; try done; jb_fields H).
  clearbody j1.
  set (p := if jb_status j1 =? JB_STATUS_INITIALIZING then _ else _).
  assert (Hp : jb_ok (snd p) /\ same_list j (snd p) /\ jb_last_op (snd p) = oper).
  { destruct H1 as (H1 & Hs & Hl). unfold p. destruct (_ =? _); [|done]. cbn zeta.
    destruct (_ && _); cbn [snd]; (split_and!; [jb_fields H1|done|done]). rewrite PJ_MIN_spec. lia. }
  clear H1. destruct p as [[|] j2]; cbn [snd] in Hp; [done|]. destruct Hp as (H2 & Hs & Hl).
  cbn [snd]. set (j3 := if bool_decide _ && _ then _ else j2).
  assert (H3 : jb_ok j3 /\ same_list j j3 /\ jb_last_op j3 = oper).
  { unfold j3. destruct (_ && _); [|done]. destruct (calculate_jitter_ok j2 H2) as [Hc Hsc]. split_and!; [done| |].
    - destruct Hs as (? & ? & ? & ? & ? & ? & ? & ? & ? & ? & ?), Hsc as (? & ? & ? & ? & ? & ? & ? & ? & ? & ? & ?).
      split_and!; congruence.
    - rewrite <- Hl. unfold jbuf_calculate_jitter. destruct (_ <? _); [destruct (_ <? _)|destruct (_ <? _)]; cbn zeta;
        try destruct (_ =? 0); done. }
  clearbody j3. destruct H3 as (H3 & Hs3 & Hl3). split_and!; try done. jb_fields H3.
Qed.

Lemma run_discard_ok j : jb_ok j ->
  exists j', run_discard j = Some j' /\ jb_ok j' /\ counters j' = counters j /\ update_effect j j' (jb_last_op j).
Proof.
  intros H. unfold run_discard. destruct (_ =? _); [|by exists j; split_and!; try done; apply update_effect_refl].
  unfold update_effect. destruct (jb_discard_algo j) eqn:Ea.
  - by exists j.
  - destruct (discard_static_ok j H Ea) as (j' & -> & Hj & Hc & Hs). by exists j'.
  - destruct (discard_progressive_ok j H) as (j' & E & Hj & Ho & Hc & Hs); [congruence|].
    exists j'. split_and!; try done. intros Hop. unfold jbuf_discard_progressive in E.
    rewrite bool_decide_false in E by done. by injection E as <-.
Qed.

Lemma update_ok j oper : jb_ok j ->
  exists j', jbuf_update j oper = Some j' /\ jb_ok j' /\ counters j' = counters j /\ update_effect j j' oper.
Proof.
  intros H. unfold jbuf_update. destruct (bool_decide_reflect (jb_last_op j = oper)) as [<-|Hne];
    [by apply run_discard_ok|].
  destruct (switch_op_ok j oper H) as (H1 & Hs & Hl). destruct (switch_op j oper) as [[|] j1]; cbn [snd] in *.
  - exists j1. split; [done|]. split; [done|]. split.
    + unfold counters. destruct Hs as (_ & -> & _ & _ & -> & -> & _ & -> & _). done.
    + eapply same_list_effect; [done|]. apply update_effect_refl.
  - destruct (run_discard_ok j1 H1) as (j' & -> & Hj' & Hc & He). exists j'. split_and!; try done.
    + rewrite Hc. unfold counters. destruct Hs as (_ & -> & _ & _ & -> & -> & _ & -> & _). done.
    + rewrite Hl in He. by eapply same_list_effect.
Qed.

(** ** The public functions *)

Lemma discarded_exists l : n_discarded l <> 0%nat -> exists i, l !! i = Some Discarded.
Proof.
  induction l as [|s l IH]; [done|]. intros Hn. destruct (decide (s = Discarded)) as [->|Hs]; [by exists 0%nat|].
  destruct IH as [i Hi]; [|by exists (S i)]. intros E. apply Hn.
  change (n_discarded (s :: l)) with ((if is_discarded s then 1 else 0) + n_discarded l)%nat. rewrite E.
  by destruct s; [|destruct Hs|].
Qed.

Lemma put_frame_ok j frame fsize bi seq t : jb_ok j -> (fsize <= length frame)%nat ->
  exists st o1 l1 n j1 j',
    pjmedia_jbuf_put_frame3 j frame fsize bi seq t = Some (negb (st =? PJ_SUCCESS), j') /\ jb_ok j' /\
    q_put_room (jb_max_count j) (first_seq j) (slots j) seq
      (Filled (take (Nat.min fsize (jb_frame_size j)) frame) bi t) = (st, (o1, l1), n) /\
    slots j1 = l1 /\ first_seq j1 = o1 /\ jb_discard_algo j1 = jb_discard_algo j /\
    jb_prefetching j' = jb_prefetching j &&
      negb ((st =? PJ_SUCCESS) && (jb_prefetch j <=? Z.of_nat (length l1 - n_discarded l1))) /\
    if st =? PJ_SUCCESS then update_effect j1 j' JB_OP_PUT else j' = j1.
Proof.
  intros H Hlen. unfold pjmedia_jbuf_put_frame3.
  destruct (put_in_spec j frame fsize bi seq t (jo_list j H) (jo_max j H) (jo_fsize j H) Hlen)
    as (st & f' & n & -> & Hf & Hm & Hz & Hq).
  cbn [mbind option_bind]. rewrite (jo_max j H) in Hq. set (disc := if decide _ then _ else _).
  rewrite (eff_size_eq f') by done. rewrite eff_size_eq by apply H.
  set (j1 := set_jb_discard disc (set_jb_framelist f' j)).
  assert (H1 : jb_ok j1 /\ slots j1 = frames f' /\ first_seq j1 = origin f' /\ counters j1 = counters j /\
    jb_prefetch j1 = jb_prefetch j).
  { assert (Hs0 : forall d b u, Filled d b u <> Discarded) by done. split_and!; try done. pose proof (jo_static j H) as Hst. pose proof (jo_sched j H) as Hsc.
    jb_fields H; try congruence.
    - intros Ha. specialize (Hst Ha). destruct (decide (n_discarded (frames f') = 0%nat)) as [|Hn]; [done|].
      exfalso. destruct (discarded_exists _ Hn) as [i Hi].
      destruct (q_put_room_discarded _ _ _ _ _ _ _ _ _ (Hs0 _ _ _) Hq i Hi) as (k & Hk & _).
      by eapply no_discarded.
    - intros Hd i Hi. destruct (q_put_room_discarded _ _ _ _ _ _ _ _ _ (Hs0 _ _ _) Hq i Hi) as (k & Hk & Hle).
      specialize (Hsc Hd k Hk). unfold first_seq in *. cbn in *. lia. }
  clearbody j1. destruct H1 as (H1 & Hs1 & Ho1 & Hc1 & Hpf).
  assert (Hp1 : jb_prefetching j1 = jb_prefetching j) by by injection Hc1.
  assert (Ha1 : jb_discard_algo j1 = jb_discard_algo j) by by injection Hc1.
  assert (Hsz : length (frames f') = size f') by apply length_frames.
  unfold slots at 1, first_seq at 1. rewrite Hq.
  destruct (Z.eqb_spec st PJ_SUCCESS) as [->|Hne].
  - set (j2 := if _ && _ then _ else j1).
    assert (H2 : jb_ok j2 /\ jb_framelist j2 = jb_framelist j1 /\ jb_discard_ref j2 = jb_discard_ref j1 /\
      jb_discard_dist j2 = jb_discard_dist j1 /\ jb_min_shrink_gap j2 = jb_min_shrink_gap j1 /\
      jb_discard_algo j2 = jb_discard_algo j1 /\
      jb_prefetching j2 = jb_prefetching j && negb (jb_prefetch j1 <=? Z.of_nat (size f' - n_discarded (frames f')))).
    { unfold j2. rewrite Hp1. destruct (jb_prefetching j) eqn:Ep, (_ <=? _); cbn [andb negb]; (split; [try done|done]).
      jb_fields H1. }
    clearbody j2. destruct H2 as (H2 & Ef & Er & Ed & Eg & Ea & Ep).
    set (lv := _ + _).
    destruct (update_ok (set_jb_level lv j2) JB_OP_PUT) as (j' & -> & Hj' & Hc & He).
    { pose proof (jo_level j2 H2). unfold lv. jb_fields H2. destruct (Z.ltb_spec
        (Z.of_nat (size (jb_framelist j) - n_discarded (frames (jb_framelist j)))) (Z.of_nat (size f' - n_discarded (frames f')))); lia. }
    cbn [mbind option_bind]. exists PJ_SUCCESS, (origin f'), (frames f'), n, j1, j'.
    split_and!; try done; [|by eapply effect_ext; [..|exact He]].
    injection Hc as -> _ _ _. rewrite Ep, Hsz, Hpf. done.
  - exists st, (origin f'), (frames f'), n, (set_jb_discard (u32 (jb_discard j1 + 1)) j1), (set_jb_discard (u32 (jb_discard j1 + 1)) j1).
    destruct (Z.eqb_spec st PJ_SUCCESS); [done|]. cbn [negb andb]. rewrite andb_true_r.
    split_and!; try done. jb_fields H1.
Qed.

(** The queue after a read and its update: the static discard may take one more
    frame out. *)
Definition after_get (a : pjmedia_jb_discard_algo) (o : Z) (l : list slot) (j' : pjmedia_jbuf) : Prop :=
  slots j' = l /\ first_seq j' = o \/
  a = PJMEDIA_JB_DISCARD_STATIC /\ slots j' = drop 1 l /\ first_seq j' = o + Z.of_nat (Nat.min 1 (length l)).

Lemma update_get j j' : update_effect j j' JB_OP_GET -> after_get (jb_discard_algo j) (first_seq j) (slots j) j'.
Proof.
  unfold update_effect, after_get. destruct (jb_discard_algo j).
  - by left.
  - intros [H|H]; [by left|by right].
  - intros (Ho & _ & Hs). left. by split; [apply Hs|].
Qed.

(** What a read returns for the queue [l] numbered from [o], and the queue it
    leaves: the head frame, a missing frame when the head is missing or follows
    discarded frames, or nothing. *)
Definition get_table (o : Z) (l : list slot) (ty : Z) (out : option frame_out) (o' : Z) (l' : list slot) : Prop :=
  let '(n, rest) := skip l in
  match rest with
  | [] => ty = PJMEDIA_JB_ZERO_EMPTY_FRAME /\ out = None /\ o' = o + Z.of_nat n /\ l' = []
  | s :: r => exists fo, out = Some fo /\ o_seq fo = o + Z.of_nat n /\ o' = o + Z.of_nat n + 1 /\ l' = r /\
      reads (if decide (n = 0)%nat then s else Missing) fo /\ ty = o_type fo
  end.

Lemma reads_type s o : reads s o -> o_type o = PJMEDIA_JB_NORMAL_FRAME \/ o_type o = PJMEDIA_JB_MISSING_FRAME.
Proof. destruct s; cbn; [by right|done|intros [? _]; by left]. Qed.

Lemma skip_drop l : snd (skip l) = drop (fst (skip l)) l.
Proof. induction l as [|[] l IH]; try done. simpl. destruct (skip l). simpl in *. done. Qed.

(** A read drops slots from the head. *)
Lemma get_drop (r : option frame_out) o l o' l' :
  match snd (skip l) with
  | [] => r = None /\ l' = [] /\ o' = o + Z.of_nat (fst (skip l))
  | s :: q => exists fo, r = Some fo /\ l' = q /\ o_seq fo = o + Z.of_nat (fst (skip l)) /\ o' = o_seq fo + 1 /\
      reads (if decide (fst (skip l) = 0)%nat then s else Missing) fo
  end -> exists k, l' = drop k l /\ o' = o + Z.of_nat (Nat.min k (length l)).
Proof.
  pose proof (skip_length l) as Hl. pose proof (skip_drop l) as Hd.
  destruct (snd (skip l)) as [|s q] eqn:E; cbn [length] in Hl.
  - intros (_ & -> & ->). exists (length l). rewrite drop_ge by done. split; [done|]. lia.
  - intros (fo & _ & -> & Hq & -> & _). exists (S (fst (skip l))). split; [|lia].
    replace (S (fst (skip l))) with (fst (skip l) + 1)%nat by lia. by rewrite <- drop_drop, <- Hd.
Qed.

Lemma get_finish j : jb_ok j ->
  exists j', jbuf_update (set_jb_level (jb_level j + 1) j) JB_OP_GET = Some j' /\ jb_ok j' /\
    counters j' = counters j /\ after_get (jb_discard_algo j) (first_seq j) (slots j) j'.
Proof.
  intros H. destruct (update_ok (set_jb_level (jb_level j + 1) j) JB_OP_GET) as (j' & E & Hj' & Hc & He); [jb_fields H|].
  exists j'. split_and!; try done. by apply update_get in He.
Qed.

Lemma get_frame_ok j : jb_ok j ->
  exists ty out o' l' j', pjmedia_jbuf_get_frame3 j = Some (ty, out, j') /\ jb_ok j' /\
    after_get (jb_discard_algo j) o' l' j' /\
    if jb_prefetching j
    then ty = PJMEDIA_JB_ZERO_PREFETCH_FRAME /\ out = None /\ o' = first_seq j /\ l' = slots j /\
         jb_prefetching j' = true /\ jb_lost j' = jb_lost j /\ jb_empty j' = u32 (jb_empty j + 1)
    else get_table (first_seq j) (slots j) ty out o' l' /\
         jb_prefetching j' = (ty =? PJMEDIA_JB_ZERO_EMPTY_FRAME) && negb (jb_prefetch j =? 0) /\
         jb_lost j' = (if ty =? PJMEDIA_JB_MISSING_FRAME then u32 (jb_lost j + 1) else jb_lost j) /\
         jb_empty j' = (if ty =? PJMEDIA_JB_ZERO_EMPTY_FRAME then u32 (jb_empty j + 1) else jb_empty j).
Proof.
  intros H. unfold pjmedia_jbuf_get_frame3. destruct (jb_prefetching j) eqn:Epf.
  - cbn [mbind option_bind]. set (j1 := set_jb_empty _ j).
    destruct (get_finish j1) as (j' & -> & Hj' & Hc & He); [jb_fields H|].
    cbn [mbind option_bind]. exists PJMEDIA_JB_ZERO_PREFETCH_FRAME, None, (first_seq j), (slots j), j'.
    injection Hc as -> -> -> _. by split_and!.
  - destruct (get_spec (jb_framelist j) (jo_list j H)) as (r & f & -> & Hf & Hm & Hz & Hr). cbn [mbind option_bind].
    fold (slots j) in Hr. fold (first_seq j) in Hr.
    assert (Hok : jb_ok (set_jb_framelist f j)).
    { destruct (get_drop _ _ _ _ _ Hr) as (k & Hk & Ho). pose proof (jo_sched j H) as Hs.
      pose proof (jo_static j H) as Hst. jb_fields H; try congruence.
      - intros Ha. specialize (Hst Ha). pose proof (n_discarded_drop (slots j) k). unfold slots in *. cbn. rewrite Hk. lia.
      - unfold slots, first_seq. cbn. rewrite Hk, Ho. by apply sched_drop. }
    destruct r as [fo|].
    + destruct (snd (skip (slots j))) as [|s q] eqn:Esk; [by destruct Hr|].
      destruct Hr as (fo' & [= <-] & Hfr & Hq & Ho & Hrd).
      set (p := if o_type fo =? _ then _ else _). set (j2 := set_jb_framelist f j) in *.
      assert (Hp : fst p = o_type fo /\ jb_ok (snd p) /\ jb_framelist (snd p) = f /\ jb_discard_algo (snd p) = jb_discard_algo j /\
        counters (snd p) = (false, (if o_type fo =? PJMEDIA_JB_MISSING_FRAME then u32 (jb_lost j + 1) else jb_lost j),
           jb_empty j, jb_discard_algo j) /\ (o_type fo =? PJMEDIA_JB_ZERO_EMPTY_FRAME) = false).
      { unfold p, counters. destruct (reads_type _ _ Hrd) as [-> | ->]; cbn; rewrite Epf; split_and!; try done. jb_fields Hok. }
      clearbody p. destruct p as [ty j3]. cbn [fst snd] in Hp. destruct Hp as (-> & H3 & Ef3 & Ea3 & Hc3 & Hne).
      set (j4 := if bool_decide _ then _ else _).
      assert (H4 : jb_ok j4 /\ jb_framelist j4 = f /\ jb_discard_algo j4 = jb_discard_algo j /\ counters j4 = counters j3).
      { unfold j4. destruct (bool_decide _); [|done]. split_and!; try done. jb_fields H3. }
      clearbody j4. destruct H4 as (H4 & Ef4 & Ea4 & Hc4). cbn [mbind option_bind].
      destruct (get_finish j4 H4) as (j' & -> & Hj' & Hc & He). cbn [mbind option_bind].
      exists (o_type fo), (Some fo), (origin f), (frames f), j'. rewrite Hc4, Hc3 in Hc. injection Hc as -> -> -> _.
      rewrite Ea4 in He. unfold first_seq, slots in He. rewrite Ef4 in He. rewrite Hne. split_and!; try done.
      unfold get_table. destruct (skip (slots j)) as [n rest]. cbn [fst snd] in *. subst rest.
      exists fo. split_and!; try done; lia.
    + destruct (snd (skip (slots j))) as [|s q] eqn:Esk; [|by destruct Hr as (? & ? & _)].
      destruct Hr as (_ & Hfr & Ho). cbn [mbind option_bind].
      set (j2 := if _ =? 0 then _ else _).
      set (j3 := set_jb_empty _ j2).
      assert (H3 : jb_ok j3 /\ jb_framelist j3 = f /\ counters j3 =
        (negb (jb_prefetch j =? 0), jb_lost j, u32 (jb_empty j + 1), jb_discard_algo j)).
      { unfold j3, j2. cbn [jb_prefetch set_jb_framelist]. unfold counters.
        destruct (jb_prefetch j =? 0); cbn; rewrite ?Epf; (split_and!; try done; jb_fields Hok). }
      clearbody j3. destruct H3 as (H3 & Ef3 & Hc3).
      destruct (get_finish j3 H3) as (j' & -> & Hj' & Hc & He). cbn [mbind option_bind].
      assert (Ea : jb_discard_algo j3 = jb_discard_algo j) by by injection Hc3.
      exists PJMEDIA_JB_ZERO_EMPTY_FRAME, None, (origin f), (frames f), j'. rewrite Hc3 in Hc. injection Hc as -> -> -> _.
      rewrite Ea in He. unfold first_seq, slots in He. rewrite Ef3 in He. split_and!; try done.
      unfold get_table. destruct (skip (slots j)) as [n rest]. cbn [fst snd] in *. subst rest. by split_and!.
Qed.

(** ** Removing frames *)

Definition kept (l : list slot) : nat := (length l - n_discarded l)%nat.

Lemma kept_app l k : kept (l ++ k) = (kept l + kept k)%nat.
Proof.
  unfold kept. rewrite length_app, n_discarded_app. pose proof (n_discarded_le l). pose proof (n_discarded_le k). lia.
Qed.

(** Removing [c] slots and then as many kept frames as discarded ones were among
    them removes [c] kept frames. *)
Lemma kept_step l c : let e := n_discarded (take c l) in
  (Nat.min c (length l) - e + Nat.min e (kept (drop c l)) = Nat.min c (kept l) /\ e <= Nat.min c (length l) /\
   kept (drop c l) - Nat.min e (kept (drop c l)) = kept l - Nat.min c (kept l) /\
   n_discarded l = e + n_discarded (drop c l))%nat.
Proof.
  intros e. pose proof (kept_app (take c l) (drop c l)) as Hk. pose proof (n_discarded_app (take c l) (drop c l)) as Hn.
  rewrite take_drop in Hk, Hn. pose proof (n_discarded_le (take c l)) as Hl. fold e in Hn, Hl.
  assert (Ht : kept (take c l) = (Nat.min c (length l) - e)%nat) by (unfold kept; by rewrite length_take).
  rewrite length_take in Hl. destruct (decide (c <= length l)%nat).
  - lia.
  - assert (kept (drop c l) = 0%nat) by (by rewrite drop_ge by lia). lia.
Qed.

Lemma remove_more_spec fuel : forall f last count, fl_ok f ->
  let d := Z.of_nat (n_discarded (frames f)) in
  d <= last -> last - d <= count -> count + Z.of_nat (size f) < 4294967296 -> last = d \/ (size f < fuel)%nat ->
  exists k f', remove_more fuel f last count =
      Some (count - (last - d) + Z.min (last - d) (Z.of_nat (kept (frames f))), f') /\
    fl_ok f' /\ max_count f' = max_count f /\ frame_size f' = frame_size f /\
    frames f' = drop k (frames f) /\ origin f' = origin f + Z.of_nat (Nat.min k (length (frames f))) /\
    kept (frames f') = (kept (frames f) - Nat.min (Z.to_nat (last - d)) (kept (frames f)))%nat.
Proof.
  induction fuel as [|fuel IH]; intros f last count Hf d Hd Hc Hmax Hfuel; cbn [remove_more];
    rewrite (ok_disc f Hf); fold d; destruct (Z.ltb_spec d last) as [Hlt|Hge]; try lia.
  1, 3: exists 0%nat, f; replace (last - d) with 0 by lia; split_and!; try done; try lia; by rewrite Z.min_l, Z.sub_0_r, Z.add_0_r by lia.
  destruct (remove_head_spec f (Z.to_nat (last - d)) Hf) as (f1 & -> & Hf1 & Hfr & Ho & Hs & Hm & Hz).
  cbn [mbind option_bind].
  pose proof (length_frames f) as Hlen. set (c := Z.to_nat (last - d)) in *.
  pose proof (kept_step (frames f) c) as Hk. cbv zeta in Hk. set (e := n_discarded (take c (frames f))) in *.
  rewrite <- Hfr, Hlen in Hk. destruct Hk as (Hk1 & Hk2 & Hk3 & Hk4).
  assert (Hu : u32 (u32 (count - (last - d)) + Z.of_nat (c `min` size f)) = count - (last - d) + Z.of_nat (c `min` size f)).
  { rewrite (u32_id (count - _)) by (unfold is_u32; lia). apply u32_id. unfold is_u32. lia. }
  rewrite Hu. set (count1 := _ + _).
  destruct (IH f1 d count1 Hf1) as (k & f' & -> & Hf' & Hm' & Hz' & Hfr' & Ho' & Hk'); [lia|lia| | |].
  - unfold count1. lia.
  - destruct (decide (size f = 0)%nat); [left|right]; lia.
  - exists (c + k)%nat, f'. split_and!; try congruence; try done.
    + do 2 f_equal. unfold count1. lia.
    + by rewrite Hfr', Hfr, drop_drop.
    + rewrite Ho', Ho, Hfr, length_drop, Hlen. lia.
    + rewrite Hk'. lia.
Qed.

Lemma remove_frame_ok j cnt : jb_ok j ->
  exists j' k, pjmedia_jbuf_remove_frame j cnt = Some (Z.of_nat (Nat.min cnt (kept (slots j))), j') /\ jb_ok j' /\
    slots j' = drop k (slots j) /\ first_seq j' = first_seq j + Z.of_nat (Nat.min k (length (slots j))) /\
    kept (slots j') = (kept (slots j) - cnt)%nat /\ counters j' = counters j.
Proof.
  intros H. unfold pjmedia_jbuf_remove_frame. pose proof (jo_list j H) as Hf. set (f := jb_framelist j) in *.
  destruct (remove_head_spec f cnt Hf) as (f1 & -> & Hf1 & Hfr & Ho & Hs & Hm & Hz). cbn [mbind option_bind].
  pose proof (length_frames f) as Hlen.
  pose proof (kept_step (frames f) cnt) as Hk. cbv zeta in Hk. set (e := n_discarded (take cnt (frames f))) in *.
  rewrite <- Hfr, Hlen in Hk. destruct Hk as (Hk1 & Hk2 & Hk3 & Hk4).
  pose proof (ok_size f (ok_shape f Hf)). pose proof (ok_max31 f (ok_shape f Hf)).
  rewrite (ok_disc f Hf).
  destruct (remove_more_spec (size f) f1 (Z.of_nat (n_discarded (frames f))) (Z.of_nat (cnt `min` size f)) Hf1)
    as (k & f' & -> & Hf' & Hm' & Hz' & Hfr' & Ho' & Hk'); [lia|lia|lia| |].
  { destruct (decide (e = 0)%nat); [left|right]; lia. }
  cbn [mbind option_bind]. eexists _, (cnt + k)%nat. split; [do 2 f_equal; unfold slots; fold f; lia|].
  assert (Hfr2 : frames f' = drop (cnt + k) (slots j)) by (unfold slots; fold f; by rewrite Hfr', Hfr, drop_drop).
  assert (Ho2 : origin f' = first_seq j + Z.of_nat (Nat.min (cnt + k) (length (slots j)))).
  { unfold first_seq, slots. fold f. rewrite Ho', Ho, Hfr, length_drop, Hlen. lia. }
  split; [|split_and!; try done; unfold slots; cbn; fold f; lia].
  pose proof (jo_sched j H) as Hsc. pose proof (jo_static j H) as Hst. jb_fields H; try (unfold f in *; congruence).
  - intros Ha. specialize (Hst Ha). unfold slots at 1. cbn. rewrite Hfr2.
    pose proof (n_discarded_drop (slots j) (cnt + k)). lia.
  - unfold slots, first_seq. cbn. rewrite Hfr2, Ho2. by apply sched_drop.
Qed.

(** ** Sequences of calls *)

Inductive jb_call :=
  | Put (frame : list Z) (fsize : nat) (bi seq t : Z)
  | Get
  | Peek (offset : nat)
  | Remove (cnt : nat)
  | Reset_jb
  | Set_discard (a : pjmedia_jb_discard_algo)
  | Set_fixed (p : Z)
  | Set_adaptive (p mn mx : Z).

Definition run_call (j : pjmedia_jbuf) (c : jb_call) : option pjmedia_jbuf :=
  match c with
  | Put frame fsize bi seq t => r ← pjmedia_jbuf_put_frame3 j frame fsize bi seq t; Some (snd r)
  | Get => r ← pjmedia_jbuf_get_frame3 j; Some (snd r)
  | Peek off => _ ← pjmedia_jbuf_peek_frame j off; Some j
  | Remove cnt => r ← pjmedia_jbuf_remove_frame j cnt; Some (snd r)
  | Reset_jb => Some (pjmedia_jbuf_reset j)
  | Set_discard a => Some (pjmedia_jbuf_set_discard j a)
  | Set_fixed p => Some (snd (pjmedia_jbuf_set_fixed j p))
  | Set_adaptive p mn mx => Some (snd (pjmedia_jbuf_set_adaptive j p mn mx))
  end.

Fixpoint run_calls (j : pjmedia_jbuf) (cs : list jb_call) : option pjmedia_jbuf :=
  match cs with [] => Some j | c :: cs' => j' ← run_call j c; run_calls j' cs' end.

(** What a caller owes: the frame has the bytes it announces, the prefetch
    arguments are unsigned, and the static algorithm is not selected on a buffer
    where the progressive one has already discarded frames. *)
Definition call_ok (c : jb_call) : Prop :=
  match c with
  | Put frame fsize _ _ _ => (fsize <= length frame)%nat
  | Set_discard a => a <> PJMEDIA_JB_DISCARD_STATIC
  | Set_fixed p => 0 <= p
  | Set_adaptive p mn _ => 0 <= p /\ 0 <= mn
  | _ => True
  end.

Lemma run_call_ok j c : jb_ok j -> call_ok c -> exists j', run_call j c = Some j' /\ jb_ok j'.
Proof.
  intros H Hc. destruct c; cbn in Hc |- *; try (eexists; split; [done|]).
  - destruct (put_frame_ok j frame fsize bi seq t H Hc) as (? & ? & ? & ? & ? & j' & -> & Hj' & _). by exists j'.
  - destruct (get_frame_ok j H) as (? & ? & ? & ? & j' & -> & Hj' & _). by exists j'.
  - unfold pjmedia_jbuf_peek_frame. destruct (peek_spec (jb_framelist j) offset (jo_list j H)) as (r & -> & _). by exists j.
  - destruct (remove_frame_ok j cnt H) as (j' & ? & -> & Hj' & _). by exists j'.
  - by apply reset_jb_ok.
  - by apply set_discard_ok.
  - by apply set_fixed_ok.
  - destruct Hc. by apply set_adaptive_ok.
Qed.

Lemma run_calls_ok cs : forall j, jb_ok j -> Forall call_ok cs -> exists j', run_calls j cs = Some j' /\ jb_ok j'.
Proof.
  induction cs as [|c cs IH]; intros j H Hcs; [by exists j|].
  apply Forall_cons_1 in Hcs as [Hc Hcs]. destruct (run_call_ok j c H Hc) as (j1 & E & H1). cbn. rewrite E. by apply IH.
Qed.

(** C25: from creation on, with any discard algorithm, every sequence of calls runs
    without an access outside the arrays of the frame list and without looping
    for ever, and keeps the invariant: the arrays keep their sizes, the count of
    discarded frames is right, the burst level stays within four fifths of the
    capacity, the prefetch within its limits and the limits within the capacity.
    The conditions: a packet time from 1 to 200 ms (PJMEDIA_JBUF_DISC_MIN_GAP) and a
    capacity from 1 to 2^31 - 1; and in each call ([call_ok]) the frame that is put
    has as many bytes as its size says, prefetch values are not negative, and the
    static discard algorithm is chosen, if at all, before the first call. *)
Theorem jbuf_safe jc jb jt fsize ptime maxc a cs :
  0 < ptime <= PJMEDIA_JBUF_DISC_MIN_GAP -> (0 < maxc)%nat -> Z.of_nat maxc < 2147483648 ->
  Forall call_ok cs ->
  exists j0 j, pjmedia_jbuf_create jc jb jt fsize ptime maxc = Some j0 /\
    run_calls (pjmedia_jbuf_set_discard j0 a) cs = Some j /\ jb_ok j.
Proof.
  intros Hp Hm Hm31 Hcs. destruct (pjmedia_jbuf_create jc jb jt fsize ptime maxc) as [j0|] eqn:E.
  2: { unfold pjmedia_jbuf_create in E. by destruct (Z.eqb_spec ptime 0); [lia|]. }
  destruct (create_ok _ _ _ _ _ _ _ Hp Hm Hm31 E) as [H0 Hs].
  destruct (run_calls_ok cs (pjmedia_jbuf_set_discard j0 a)) as (j & Hr & Hj); [|done|by exists j0, j].
  jb_fields H0. intros _. change (slots (pjmedia_jbuf_set_discard j0 a)) with (slots j0). by rewrite Hs.
Qed.

(** A buffer of four frames of two bytes, 20 ms each, to run things on *)
Definition jb_example : pjmedia_jbuf :=
  default (mk_jb 0 0 0 0 0 0 0 0 PJMEDIA_JB_DISCARD_NONE (mk_fl 0 0 [] [] [] [] [] 0 0 0 0) 0 0 0 JB_OP_INIT 0 0 false
    0 0 0 0 pj_math_stat_init pj_math_stat_init 0 0 0) (pjmedia_jbuf_create [] [] [] 2 20 4).

Lemma jb_example_ok : jb_ok jb_example.
Proof.
  apply (create_ok [] [] [] 2 20 4); [unfold PJMEDIA_JBUF_DISC_MIN_GAP; lia|lia|lia|reflexivity].
Qed.

Definition put_n (n : Z) : jb_call := Put [n; n + 1] 2 0 n 0.

Lemma jbuf_safe_witness :
  exists j0 j, pjmedia_jbuf_create [] [] [] 2 20 4 = Some j0 /\
    run_calls (pjmedia_jbuf_set_discard j0 PJMEDIA_JB_DISCARD_PROGRESSIVE)
      [put_n 10; put_n 12; Get; put_n 11; Get; put_n 40; Peek 0; Remove 3; Set_fixed 2; put_n 5] = Some j /\ jb_ok j.
Proof.
  apply (jbuf_safe [] [] [] 2 20 4 PJMEDIA_JB_DISCARD_PROGRESSIVE); [unfold PJMEDIA_JBUF_DISC_MIN_GAP; lia|lia|lia|].
  repeat constructor; discriminate.
Defined.

(** ** The frame list is a queue *)

(** C26: the circular frame list implements a queue of numbered slots: storing a
    frame, reading, removing and discarding act on the list of slots as the
    operations of the queue do, with the status of the queue operation, and
    leave a well-formed frame list of the same capacity. *)
Theorem framelist_refines_queue f : fl_ok f ->
  (forall index fsize frame bi t, (fsize <= frame_size f)%nat -> (fsize <= length frame)%nat ->
     exists st f', jb_framelist_put_at f index frame fsize bi t PJMEDIA_JB_NORMAL_FRAME = Some (st, f') /\ fl_ok f' /\
       (st, (origin f', frames f')) =
         q_put (max_count f) (origin f) (frames f) index (Filled (take fsize frame) bi t)) /\
  (exists r f' ty, jb_framelist_get f = Some (r, f') /\ fl_ok f' /\
     get_table (origin f) (frames f) ty r (origin f') (frames f')) /\
  (forall c, exists f', jb_framelist_remove_head f c = Some (Nat.min c (length (frames f)), f') /\ fl_ok f' /\
     frames f' = drop c (frames f) /\ origin f' = origin f + Z.of_nat (Nat.min c (length (frames f)))) /\
  (forall i, (i < length (frames f))%nat -> frames f !! i <> Some Discarded ->
     exists f', jb_framelist_discard f (origin f + Z.of_nat i) = Some (PJ_SUCCESS, f') /\ fl_ok f' /\
       frames f' = <[i := Discarded]> (frames f) /\ origin f' = origin f) /\
  jb_framelist_eff_size f = Z.of_nat (kept (frames f)).
Proof.
  intros Hf. pose proof (length_frames f) as Hlen. split_and!.
  - intros index fsize frame bi t Hfs Hl.
    destruct (put_at_spec f index fsize frame bi t Hf Hfs Hl) as (st & f' & E & Hf' & _ & _ & Hq). by exists st, f'.
  - destruct (get_spec f Hf) as (r & f' & E & Hf' & _ & _ & Hr). unfold get_table.
    destruct (skip (frames f)) as [n rest]. cbn [fst snd] in Hr. destruct rest as [|s q].
    + destruct Hr as (-> & Hfr & Ho). exists None, f', PJMEDIA_JB_ZERO_EMPTY_FRAME. by split_and!.
    + destruct Hr as (o & -> & Hfr & Hq & Ho & Hrd). exists (Some o), f', (o_type o). split_and!; try done.
      exists o. split_and!; (done || lia).
  - intros c. destruct (remove_head_spec f c Hf) as (f' & E & Hf' & Hfr & Ho & _). rewrite Hlen. by exists f'.
  - intros i Hi Hnd. destruct (discard_spec f (origin f + Z.of_nat i) Hf) as (f' & E & Hf' & Hfr & Ho & _).
    + lia.
    + by replace (Z.to_nat (origin f + Z.of_nat i - origin f)) with i by lia.
    + replace (Z.to_nat (origin f + Z.of_nat i - origin f)) with i in Hfr by lia. by exists f'.
  - rewrite eff_size_eq by done. unfold kept. by rewrite Hlen.
Qed.

(** Calls on the example buffer, for the witnesses *)
Definition jb_after (cs : list jb_call) : pjmedia_jbuf := default jb_example (run_calls jb_example cs).

Lemma jb_after_ok cs : Forall call_ok cs -> jb_ok (jb_after cs).
Proof.
  intros H. unfold jb_after. destruct (run_calls_ok cs jb_example jb_example_ok H) as (j & -> & Hj). done.
Qed.

Ltac calls_ok := repeat (apply Forall_cons_2; [cbn; first [lia | discriminate | exact I]|]); apply Forall_nil_2.

Lemma framelist_refines_queue_witness :
  fl_ok (jb_framelist (jb_after [put_n 10; put_n 12])) /\
  exists f', jb_framelist_remove_head (jb_framelist (jb_after [put_n 10; put_n 12])) 2 = Some (2%nat, f') /\
    frames f' = [Filled [12; 13] 0 0].
Proof.
  assert (Hf : fl_ok (jb_framelist (jb_after [put_n 10; put_n 12])))
    by (apply jo_list, jb_after_ok; calls_ok).
  split; [exact Hf|]. destruct (framelist_refines_queue _ Hf) as (_ & _ & Hr & _).
  destruct (Hr 2%nat) as (f' & E & _ & Hfr & _). exists f'. split; [exact E|]. rewrite Hfr. vm_compute. reflexivity.
Defined.

(** ** Putting a frame *)

Definition late (o seq : Z) : Prop := seq < o < seq + MAX_MISORDER.

(** An occupied slot *)
Definition taken (o : Z) (l : list slot) (seq : Z) : Prop :=
  o <= seq /\ exists s, l !! Z.to_nat (seq - o) = Some s /\ s <> Missing.

Lemma q_put_outcome cap o l index s st o1 l1 : (length l <= cap)%nat -> (0 < cap)%nat ->
  q_put cap o l index s = (st, (o1, l1)) ->
  (st = PJ_SUCCESS /\ ~ late o index /\ o1 <= index < o1 + Z.of_nat cap /\ l1 !! Z.to_nat (index - o1) = Some s) \/
  (st = PJ_ETOOMANY /\ ~ late o index) \/
  (st <> PJ_SUCCESS /\ st <> PJ_ETOOMANY /\ o1 = o /\ l1 = l /\ (late o index \/ taken o l index)).
Proof.
  intros Hl Hcap. unfold q_put, late. destruct ((index <? o) && _) eqn:E.
  { intros [= <- <- <-]. right. right. split_and!; try done. left. apply andb_prop in E as [E1 E2]. lia. }
  set (o2 := if decide (l = []) then _ else _).
  assert (Ho : o2 <= index /\ (o <= index -> l <> [] -> o2 = o) /\
    (index < o -> (length l <= Z.to_nat (index - o2))%nat)).
  { unfold o2. case_decide as En; [subst l; cbn; split_and!; (lia || done)|]. destruct (Z.ltb_spec index o); lia. }
  assert (Hnl : ~ index < o < index + MAX_MISORDER).
  { apply andb_false_iff in E as [E|E]; apply Z.ltb_ge in E; lia. }
  clearbody o2. destruct Ho as (Ho & Ho1 & Ho2). clear E.
  destruct (Z.leb_spec (Z.of_nat cap) (index - o2)) as [Hc|Hc].
  - destruct (MAX_DROPOUT <? _); intros [= <- <- <-]; [left|right; by left]. rewrite Z.sub_diag. split_and!; (done || lia).
  - unfold q_store. destruct (l !! _) as [s'|] eqn:El.
    + pose proof (lookup_lt_Some _ _ _ El) as Hlt. assert (Hnn : l <> []) by (intros ->; done).
      assert (Eo : o <= index) by (destruct (decide (index < o)) as [Hn|]; [specialize (Ho2 Hn); lia|lia]).
      rewrite (Ho1 Eo Hnn) in *.
      assert (Ht : s' <> Missing -> taken o l index) by (intros; split; [done|by eexists]).
      destruct s'; intros [= <- <- <-]; [left|right; right; split_and!; try done; right; by apply Ht..].
      rewrite list_lookup_insert_eq by done. split_and!; (done || lia).
    + intros [= <- <- <-]. left. apply lookup_ge_None in El. rewrite lookup_app_r by done.
      rewrite lookup_app_r by (rewrite length_replicate; lia). rewrite length_replicate, Nat.sub_diag.
      split_and!; (done || lia).
Qed.

Lemma q_put_room_outcome cap o l index s st o1 l1 n : (length l <= cap)%nat -> (0 < cap)%nat ->
  q_put_room cap o l index s = (st, (o1, l1), n) ->
  (st = PJ_SUCCESS /\ ~ late o index /\ o1 <= index < o1 + Z.of_nat cap /\ l1 !! Z.to_nat (index - o1) = Some s) \/
  (st <> PJ_SUCCESS /\ o1 = o /\ l1 = l /\ (late o index \/ taken o l index)).
Proof.
  intros Hl Hcap Hq. unfold q_put_room in Hq. destruct (q_put cap o l index s) as [st0 [o0 l0]] eqn:E0.
  destruct (q_put_outcome _ _ _ _ _ _ _ _ Hl Hcap E0) as [(-> & H)|[(-> & Hnl)|(Hs & Hm & H)]].
  - injection Hq as <- <- <- _. by left.
  - destruct (q_put_toomany _ _ _ _ _ _ _ E0) as (-> & Hd & Hi). rewrite Z.eqb_refl in Hq.
    set (k := removed_for cap o0 l index) in *. injection Hq as Hq _.
    assert (Hld : (length (drop k l) <= cap)%nat) by (rewrite length_drop; lia).
    destruct (q_put_outcome _ _ _ _ _ _ _ _ Hld Hcap Hq) as [(-> & _ & H)|H]; [left; exact (conj eq_refl (conj Hnl H))|].
    pose proof (q_put_again cap o0 l index s Hl Hcap Hd) as Hag. cbv zeta in Hag. fold k in Hag. rewrite Hag in Hq.
    injection Hq as <- _ _. destruct H as [(? & _)|(? & _)]; done.
  - destruct (Z.eqb_spec st0 PJ_ETOOMANY); [done|]. injection Hq as <- <- <- _. right. exact (conj Hs H).
Qed.

(** Putting a frame always returns, the loop that makes room turning at most
    once.  The frame is reported discarded exactly when it is late (less than 100
    numbers behind the first slot) or its slot is taken, and then the queue is
    unchanged; otherwise the queue holds it under its number before the discard
    algorithm runs. *)
Theorem put_frame_outcome j frame fsize bi seq t : jb_ok j -> (fsize <= length frame)%nat ->
  exists discarded j', pjmedia_jbuf_put_frame3 j frame fsize bi seq t = Some (discarded, j') /\ jb_ok j' /\
  if discarded
  then slots j' = slots j /\ first_seq j' = first_seq j /\ (late (first_seq j) seq \/ taken (first_seq j) (slots j) seq)
  else ~ late (first_seq j) seq /\
       exists j1, update_effect j1 j' JB_OP_PUT /\ jb_discard_algo j1 = jb_discard_algo j /\
         first_seq j1 <= seq < first_seq j1 + Z.of_nat (jb_max_count j) /\
         slots j1 !! Z.to_nat (seq - first_seq j1) =
           Some (Filled (take (Nat.min fsize (jb_frame_size j)) frame) bi t).
Proof.
  intros H Hl. destruct (put_frame_ok j frame fsize bi seq t H Hl)
    as (st & o1 & l1 & n & j1 & j' & E & Hj' & Hq & Hs & Ho & Ha & _ & He).
  pose proof (ok_size _ (ok_shape _ (jo_list j H))) as Hsz. pose proof (ok_max _ (ok_shape _ (jo_list j H))) as Hm.
  rewrite <- length_frames in Hsz. rewrite (jo_max j H) in Hsz, Hm.
  destruct (q_put_room_outcome _ _ _ _ _ _ _ _ _ Hsz Hm Hq) as [(-> & Hnl & Hr & Hk)|(Hne & -> & -> & Hc)].
  - exists false, j'. split_and!; try done. exists j1. rewrite Ho, Hs. exact (conj He (conj Ha (conj Hr Hk))).
  - exists true, j'. destruct (Z.eqb_spec st PJ_SUCCESS); [done|]. cbn in E, He. subst j'. by split_and!.
Qed.

Lemma put_frame_outcome_witness :
  exists j', pjmedia_jbuf_put_frame3 (jb_after [put_n 10; put_n 12]) [7; 8; 9] 3 5 11 160 = Some (false, j').
Proof.
  assert (H : jb_ok (jb_after [put_n 10; put_n 12])) by (apply jb_after_ok; calls_ok).
  destruct (put_frame_outcome _ [7; 8; 9] 3 5 11 160 H (le_n 3)) as ([|] & j' & E & _ & Hc); [|exists j'; exact E].
  destruct Hc as (_ & _ & [Hc|(_ & s & Hs & Hn)]).
  - destruct Hc as [Hc _]. vm_compute in Hc. discriminate Hc.
  - vm_compute in Hs. injection Hs as <-. by destruct Hn.
Defined.

(** A get while prefetching returns ZERO_PREFETCH and takes nothing.
    Otherwise it skips the discarded frames and returns the next slot: the frame
    as stored if it holds one and nothing was skipped, MISSING (counted as lost)
    if it is missing or follows discarded frames, under its sequence number in
    both cases; an empty queue gives ZERO_EMPTY, counted, and restarts the
    prefetch when there is one. *)
Theorem get_frame_functional j : jb_ok j ->
  exists ty out o' l' j', pjmedia_jbuf_get_frame3 j = Some (ty, out, j') /\ jb_ok j' /\
    after_get (jb_discard_algo j) o' l' j' /\
    if jb_prefetching j
    then ty = PJMEDIA_JB_ZERO_PREFETCH_FRAME /\ out = None /\ o' = first_seq j /\ l' = slots j /\
         jb_prefetching j' = true /\ jb_lost j' = jb_lost j /\ jb_empty j' = u32 (jb_empty j + 1)
    else get_table (first_seq j) (slots j) ty out o' l' /\
         jb_prefetching j' = (ty =? PJMEDIA_JB_ZERO_EMPTY_FRAME) && negb (jb_prefetch j =? 0) /\
         jb_lost j' = (if ty =? PJMEDIA_JB_MISSING_FRAME then u32 (jb_lost j + 1) else jb_lost j) /\
         jb_empty j' = (if ty =? PJMEDIA_JB_ZERO_EMPTY_FRAME then u32 (jb_empty j + 1) else jb_empty j).
Proof. apply get_frame_ok. Qed.

Lemma get_frame_functional_witness :
  exists out j', pjmedia_jbuf_get_frame3 (jb_after [Set_fixed 2; put_n 10; put_n 11]) = Some (PJMEDIA_JB_NORMAL_FRAME, Some out, j') /\
    o_seq out = 10 /\ take (o_len out) (o_data out) = [10; 11].
Proof.
  assert (H : jb_ok (jb_after [Set_fixed 2; put_n 10; put_n 11])) by (apply jb_after_ok; calls_ok).
  destruct (get_frame_functional _ H) as (ty & out & o' & l' & j' & E & _ & _ & Ht).
  assert (Hp : jb_prefetching (jb_after [Set_fixed 2; put_n 10; put_n 11]) = false) by (vm_compute; reflexivity).
  assert (Hs : slots (jb_after [Set_fixed 2; put_n 10; put_n 11]) = [Filled [10; 11] 0 0; Filled [11; 12] 0 0])
    by (vm_compute; reflexivity).
  assert (Ho : first_seq (jb_after [Set_fixed 2; put_n 10; put_n 11]) = 10) by (vm_compute; reflexivity).
  rewrite Hp, Hs, Ho in Ht. destruct Ht as ((fo & -> & Hq & _ & _ & (Hty & _ & Hd & _) & ->) & _).
  rewrite Hty in E. exists fo, j'. exact (conj E (conj Hq Hd)).
Defined.

(** Removing [cnt] frames terminates, removes the [cnt] oldest frames that
    were not discarded, or all of them when there are fewer, and returns their
    number, however the discarded frames are spread among them. *)
Theorem remove_frame_functional j cnt : jb_ok j ->
  exists j' k, pjmedia_jbuf_remove_frame j cnt = Some (Z.of_nat (Nat.min cnt (kept (slots j))), j') /\ jb_ok j' /\
    slots j' = drop k (slots j) /\ first_seq j' = first_seq j + Z.of_nat (Nat.min k (length (slots j))) /\
    kept (slots j') = (kept (slots j) - cnt)%nat.
Proof.
  intros H. destruct (remove_frame_ok j cnt H) as (j' & k & E & Hj' & Hs & Ho & Hk & _). exists j', k. by split_and!.
Qed.

Lemma remove_frame_functional_witness : exists j' k,
  pjmedia_jbuf_remove_frame (jb_after [put_n 10; put_n 12]) 2 = Some (2, j') /\ slots j' = drop k (slots (jb_after [put_n 10; put_n 12])).
Proof.
  assert (H : jb_ok (jb_after [put_n 10; put_n 12])) by (apply jb_after_ok; calls_ok).
  destruct (remove_frame_functional _ 2 H) as (j' & k & E & _ & Hs & _ & _). exists j', k. split; [|exact Hs].
  assert (Hk : kept (slots (jb_after [put_n 10; put_n 12])) = 3%nat) by (vm_compute; reflexivity).
  rewrite Hk in E. exact E.
Defined.

(** ** Progressive discard *)

Definition burst_of (j : pjmedia_jbuf) : Z := Z.max (jb_eff_level j) (jb_level j).

(** The progressive algorithm discards at most one frame per put, only while
    more frames wait than the burst level needs, only after the distance was
    scheduled by an earlier put, and at least the minimal gap behind the
    previous reference; it never discards a frame twice, so the count of
    discarded frames stays exact. *)
Theorem progressive_discard j : jb_ok j -> jb_discard_algo j = PJMEDIA_JB_DISCARD_PROGRESSIVE ->
  exists j', jbuf_discard_progressive j = Some j' /\ jb_ok j' /\ first_seq j' = first_seq j /\
    (slots j' = slots j \/
     jb_last_op j = JB_OP_PUT /\ burst_of j < Z.of_nat (kept (slots j)) /\
     exists i, slots j' = <[i := Discarded]> (slots j) /\ (i < length (slots j))%nat /\
       slots j !! i <> Some Discarded /\ jb_discard_ref j' = first_seq j + Z.of_nat i /\
       jb_discard_dist j <> 0 /\ jb_discard_ref j + jb_min_shrink_gap j <= jb_discard_ref j').
Proof.
  intros H Ha. destruct (discard_progressive_ok j H) as (j' & E & Hj' & Ho & _ & He); [congruence|].
  exists j'. split_and!; try done. destruct He as [He|He]; [by left|].
  unfold jbuf_discard_progressive in E. destruct (bool_decide_reflect (jb_last_op j = JB_OP_PUT)) as [Hop|Hop];
    cbn [negb] in E; [|left; by injection E as <-].
  rewrite eff_size_eq, PJ_MAX_spec in E by apply H. fold (slots j) (burst_of j) in E. rewrite <- length_frames in E.
  fold (slots j) (kept (slots j)) in E.
  destruct (Z.leb_spec (Z.of_nat (kept (slots j))) (burst_of j)); [left; by injection E as <-|right; by split_and!].
Qed.

(** A buffer with a scheduled discard that is due *)
Definition jb_due : pjmedia_jbuf :=
  set_jb_discard_dist 108 (set_jb_discard_ref (-97) (set_jb_last_op JB_OP_PUT
    (jb_after [put_n 10; put_n 11; put_n 12; put_n 13]))).

Lemma jb_due_ok : jb_ok jb_due.
Proof.
  assert (H0 : jb_ok (jb_after [put_n 10; put_n 11; put_n 12; put_n 13])) by (apply jb_after_ok; calls_ok).
    assert (Hs : slots (jb_after [put_n 10; put_n 11; put_n 12; put_n 13]) =
      [Filled [10; 11] 0 0; Filled [11; 12] 0 0; Filled [12; 13] 0 0; Filled [13; 14] 0 0]) by (vm_compute; reflexivity).
    unfold jb_due. revert H0 Hs. generalize (jb_after [put_n 10; put_n 11; put_n 12; put_n 13]). intros j H0 Hs.
    jb_fields H0. intros _ i Hi. change (slots j !! i = Some Discarded) in Hi.
    rewrite Hs in Hi. do 4 (destruct i as [|i]; [discriminate Hi|]). discriminate Hi.
Qed.

Lemma progressive_discard_witness : exists j', jbuf_discard_progressive jb_due = Some j' /\ jb_ok j'.
Proof.
  destruct (progressive_discard jb_due jb_due_ok eq_refl) as (j' & E & Hj' & _). exists j'. exact (conj E Hj').
Defined.

(** ** Peeking *)

(** The place of the kept slot number [n] *)
Fixpoint kept_index (l : list slot) (n : nat) : option nat :=
  match l with
  | [] => None
  | Discarded :: l' => S <$> kept_index l' n
  | _ :: l' => match n with O => Some 0%nat | S n' => S <$> kept_index l' n' end
  end.

Lemma kept_index_spec l : forall n,
  match kept_index l n with
  | Some i => nth_kept l n = l !! i /\ (i < length l)%nat /\ i = (n + n_discarded (take i l))%nat
  | None => nth_kept l n = None
  end.
Proof.
  induction l as [|s l IH]; intros n; [done|].
  assert (Hn : forall i, n_discarded (take (S i) (s :: l)) =
    ((if is_discarded s then 1 else 0) + n_discarded (take i l))%nat) by done.
  assert (H0 : n_discarded (take 0 (s :: l)) = 0%nat) by done.
  cbn [kept_index nth_kept]. destruct s as [| |d b t]; [destruct n as [|n]|specialize (IH n)|destruct n as [|n]]; try specialize (IH n);
    try (split_and!; [done|cbn; lia|rewrite H0; lia]);
    (destruct (kept_index l n) as [i|]; cbn [fmap option_fmap option_map];
      [destruct IH as (E & Hi & Ei); rewrite Hn; cbn [is_discarded]; split_and!; [exact E|cbn; lia|lia]|exact IH]).
Qed.

(** C34: peeking at offset [off] returns the slot number [off] among those not
    discarded, without changing the queue, and nothing when there are not so
    many.  The sequence number it reports is the one of that slot exactly when no
    discarded frame lies before it. *)
Theorem peek_functional f off : fl_ok f ->
  exists r, jb_framelist_peek f off = Some r /\
    match kept_index (frames f) off with
    | None => r = None
    | Some i => exists s o, frames f !! i = Some s /\ r = Some o /\ reads s o /\
        (o_seq o = origin f + Z.of_nat i <-> n_discarded (take i (frames f)) = 0%nat)
    end.
Proof.
  intros Hf. destruct (peek_spec f off Hf) as (r & E & Hr). exists r. split; [done|].
  pose proof (kept_index_spec (frames f) off) as Hk. destruct (kept_index (frames f) off) as [i|].
  - destruct Hk as (Hn & Hi & Ei). destruct (lookup_lt_is_Some_2 _ _ Hi) as [s Hs]. rewrite Hn, Hs in Hr.
    destruct Hr as (o & -> & Hrd & Hq). exists s, o. split_and!; try done; lia.
  - by rewrite Hk in Hr.
Qed.

(** The second frame of three is discarded: peeking at offset 1 returns the frame
    stored under 12 and reports 11. *)
Definition jb_peeked : pjmedia_jbuf := default jb_due (jbuf_discard_progressive jb_due).

Lemma jb_peeked_ok : fl_ok (jb_framelist jb_peeked).
Proof.
  unfold jb_peeked. destruct (discard_progressive_ok jb_due jb_due_ok) as (j' & -> & Hj' & _); [by vm_compute|].
  apply (jo_list j' Hj').
Qed.

Lemma peek_functional_witness : exists o, jb_framelist_peek (jb_framelist jb_peeked) 1 = Some (Some o) /\
  reads (Filled [12; 13] 0 0) o /\ o_seq o <> 12.
Proof.
  destruct (peek_functional (jb_framelist jb_peeked) 1 jb_peeked_ok) as (r & E & Hr).
  assert (Hs : frames (jb_framelist jb_peeked) = [Filled [10; 11] 0 0; Discarded; Filled [12; 13] 0 0; Filled [13; 14] 0 0])
    by (vm_compute; reflexivity).
  assert (Ho : origin (jb_framelist jb_peeked) = 10) by (vm_compute; reflexivity).
  rewrite Hs, Ho in Hr. destruct Hr as (s & o & [= <-] & -> & Hrd & Hq). exists o.
  split; [exact E|]. split; [exact Hrd|]. intros Hn. by apply Hq in Hn.
Defined.
