(* ===== verification/Rtp.v ===== *)
(** * RTP sessions (pjmedia/src/pjmedia/rtp.c)

    Headers, encoding and decoding of packets, and the sequence number control
    of a session.  A header in memory is the packed little-endian structure;
    its multi-byte fields hold values in network order. *)

From S2P Require Import Prelude.

(** ** Data (pjmedia/include/pjmedia/rtp.h) *)

Definition RTP_VERSION : Z := 2.
Definition RTP_SEQ_MOD : Z := Z.shiftl 1 16.
Definition MAX_DROPOUT : Z := 3000.
Definition MAX_MISORDER : Z := 100.
Definition MIN_SEQUENTIAL : Z := 2.
Definition PJMEDIA_RTP_EINVER : Z := 220122.
Definition PJMEDIA_RTP_EINLEN : Z := 220125.

Record pjmedia_rtp_hdr := mk_hdr {
  h_cc : Z; h_x : Z; h_p : Z; h_v : Z; h_pt : Z; h_m : Z; h_seq : Z; h_ts : Z; h_ssrc : Z
}.

Record pjmedia_rtp_seq_session := mk_seq {
  max_seq : Z; cycles : Z; base_seq : Z; bad_seq : Z; probation : Z
}.

Record pjmedia_rtp_session := mk_ses {
  out_hdr : pjmedia_rtp_hdr;
  seq_ctrl : pjmedia_rtp_seq_session;
  out_pt : Z;
  out_extseq : Z;
  peer_ssrc : Z;
  received : Z
}.

(** The flags are one-bit fields over one 16-bit value. *)
Record rtp_flag := mk_flag {
  f_bad : bool; f_badpt : bool; f_badssrc : bool; f_dup : bool; f_outorder : bool;
  f_probation : bool; f_restart : bool
}.

Record pjmedia_rtp_status := mk_st { st_flag : rtp_flag; st_diff : Z }.

Definition no_flag : rtp_flag := mk_flag false false false false false false false.

Record pjmedia_rtp_session_setting := mk_setting {
  set_flags : Z; set_default_pt : Z; set_sender_ssrc : Z; set_seq : Z; set_ts : Z
}.

(** ** Memory *)

(** Byte order conversion on a little-endian machine *)
Definition pj_htons (x : Z) : Z := (x mod 256) * 256 + x / 256 mod 256.
Definition pj_htonl (x : Z) : Z :=
  (x mod 256) * 16777216 + (x / 256 mod 256) * 65536 + (x / 65536 mod 256) * 256 + x / 16777216 mod 256.
Definition pj_ntohs : Z -> Z := pj_htons.
Definition pj_ntohl : Z -> Z := pj_htonl.

Definition load16 (b0 b1 : Z) : Z := b0 + 256 * b1.
Definition load32 (b0 b1 b2 b3 : Z) : Z := b0 + 256 * b1 + 65536 * b2 + 16777216 * b3.

(** The structure read at the start of a packet; [None] leaves the memory. *)
Definition hdr_at (pkt : list Z) : option pjmedia_rtp_hdr :=
  match pkt with
  | b0 :: b1 :: b2 :: b3 :: b4 :: b5 :: b6 :: b7 :: b8 :: b9 :: b10 :: b11 :: _ =>
      Some (mk_hdr (b0 mod 16) (b0 / 16 mod 2) (b0 / 32 mod 2) (b0 / 64) (b1 mod 128) (b1 / 128)
              (load16 b2 b3) (load32 b4 b5 b6 b7) (load32 b8 b9 b10 b11))
  | _ => None
  end.

(** The bytes of the structure, as they are sent *)
Definition hdr_bytes (h : pjmedia_rtp_hdr) : list Z :=
  [h_cc h + 16 * h_x h + 32 * h_p h + 64 * h_v h; h_pt h + 128 * h_m h;
   h_seq h mod 256; h_seq h / 256;
   h_ts h mod 256; h_ts h / 256 mod 256; h_ts h / 65536 mod 256; h_ts h / 16777216;
   h_ssrc h mod 256; h_ssrc h / 256 mod 256; h_ssrc h / 65536 mod 256; h_ssrc h / 16777216].

(** ** Session *)

Definition set_hdr_ts (t : Z) (h : pjmedia_rtp_hdr) : pjmedia_rtp_hdr :=
  mk_hdr (h_cc h) (h_x h) (h_p h) (h_v h) (h_pt h) (h_m h) (h_seq h) t (h_ssrc h).
Definition set_hdr_seq (s : Z) (h : pjmedia_rtp_hdr) : pjmedia_rtp_hdr :=
  mk_hdr (h_cc h) (h_x h) (h_p h) (h_v h) (h_pt h) (h_m h) s (h_ts h) (h_ssrc h).

(** [rand1] and [rand2] are what the two calls of pj_rand return. *)
Definition pjmedia_rtp_session_init (rand1 rand2 default_pt sender_ssrc : Z) : pjmedia_rtp_session :=
  let ssrc := if (sender_ssrc =? 0) || (sender_ssrc =? u32 (-1)) then pj_htonl (u32 rand1)
              else pj_htonl sender_ssrc in
  let extseq := Z.land rand2 32767 in
  mk_ses (mk_hdr 0 0 0 RTP_VERSION (u8 default_pt mod 128) 0 (pj_htons (u16 extseq)) 0 ssrc)
    (mk_seq 0 0 0 0 0) (u16 default_pt) extseq 0 0.

Definition pjmedia_rtp_session_init2 (rand1 rand2 : Z) (s : pjmedia_rtp_session_setting) : pjmedia_rtp_session :=
  let pt := if Z.testbit (set_flags s) 0 then set_default_pt s else 0 in
  let sender_ssrc := if Z.testbit (set_flags s) 1 then set_sender_ssrc s else 0 in
  let ses := pjmedia_rtp_session_init rand1 rand2 pt sender_ssrc in
  let ses := if Z.testbit (set_flags s) 2
             then mk_ses (set_hdr_seq (pj_htons (u16 (set_seq s))) (out_hdr ses)) (seq_ctrl ses) (out_pt ses)
                    (set_seq s) (peer_ssrc ses) (received ses)
             else ses in
  if Z.testbit (set_flags s) 3
  then mk_ses (set_hdr_ts (pj_htonl (set_ts s)) (out_hdr ses)) (seq_ctrl ses) (out_pt ses) (out_extseq ses)
         (peer_ssrc ses) (received ses)
  else ses.

(** ** Encoding and decoding *)

(** The header stored through [rtphdr], if any, and the session *)
Definition pjmedia_rtp_encode_rtp (ses : pjmedia_rtp_session) (pt m payload_len ts_len : Z) :
    option pjmedia_rtp_hdr * pjmedia_rtp_session :=
  let h := set_hdr_ts (pj_htonl (u32 (pj_ntohl (h_ts (out_hdr ses)) + ts_len))) (out_hdr ses) in
  if payload_len =? 0
  then (None, mk_ses h (seq_ctrl ses) (out_pt ses) (out_extseq ses) (peer_ssrc ses) (received ses))
  else
    let extseq := u32 (out_extseq ses + 1) in
    let h := mk_hdr (h_cc h) (h_x h) (h_p h) (h_v h) (u8 (if pt =? -1 then out_pt ses else pt) mod 128)
               (u16 m mod 2) (pj_htons (u16 extseq)) (h_ts h) (h_ssrc h) in
    (Some h, mk_ses h (seq_ctrl ses) (out_pt ses) extseq (peer_ssrc ses) (received ses)).

(** What a decoder stores through its arguments: the pointers are offsets in the
    packet. *)
Record rtp_decoded := mk_dec {
  d_hdr : pjmedia_rtp_hdr;
  d_ext : option (nat * Z);       (** where the words of the extension are, and their number *)
  d_payload : nat;
  d_payloadlen : Z
}.

(** The extension: where its words start and their number, and the offset after it *)
Definition decode_ext (h : pjmedia_rtp_hdr) (pkt : list Z) (offset : nat) : option (option (nat * Z) * nat) :=
  if h_x h =? 0 then Some (None, offset)
  else
    l0 ← pkt !! (offset + 2)%nat;
    l1 ← pkt !! (offset + 3)%nat;
    let ext_len := pj_ntohs (load16 l0 l1) in
    Some (Some ((offset + 4)%nat, ext_len), (offset + Z.to_nat ((ext_len + 1) * 4))%nat).

(** [pkt] is the buffer of the packet, [pkt_len] the bytes received in it;
    [None] is a read outside the buffer, [inl] an error status. *)
Definition pjmedia_rtp_decode_rtp2 (pkt : list Z) (pkt_len : Z) : option (Z + rtp_decoded) :=
  h ← hdr_at pkt;
  if negb (h_v h =? RTP_VERSION) then Some (inl PJMEDIA_RTP_EINVER)
  else
    '(ext, offset) ← decode_ext h pkt (12 + Z.to_nat (h_cc h * 4));
    if pkt_len <? Z.of_nat offset then Some (inl PJMEDIA_RTP_EINLEN)
    else
      let len := u32 (pkt_len - Z.of_nat offset) in
      if negb (h_p h =? 0) && (0 <? len) then
        pad_len ← pkt !! (offset + Z.to_nat (len - 1))%nat;
        Some (inr (mk_dec h ext offset (if pad_len <=? len then len - pad_len else len)))
      else Some (inr (mk_dec h ext offset len)).

Definition pjmedia_rtp_decode_rtp (pkt : list Z) (pkt_len : Z) : option (Z + (pjmedia_rtp_hdr * nat * Z)) :=
  r ← pjmedia_rtp_decode_rtp2 pkt pkt_len;
  Some (match r with
        | inl e => inl e
        | inr d => inr (d_hdr d, d_payload d, d_payloadlen d)
        end).

(** ** Sequence numbers *)

Definition pjmedia_rtp_seq_restart (s : pjmedia_rtp_seq_session) (seq : Z) : pjmedia_rtp_seq_session :=
  mk_seq seq 0 seq (RTP_SEQ_MOD + 1) (probation s).

Definition pjmedia_rtp_seq_init (s : pjmedia_rtp_seq_session) (seq : Z) : pjmedia_rtp_seq_session :=
  let s := pjmedia_rtp_seq_restart s seq in
  mk_seq (u16 (seq - 1)) (cycles s) (base_seq s) (bad_seq s) MIN_SEQUENTIAL.

(** [seq == sess->max_seq + 1] is compared after promotion to [int]. *)
Definition pjmedia_rtp_seq_update (s : pjmedia_rtp_seq_session) (seq : Z) :
    pjmedia_rtp_seq_session * pjmedia_rtp_status :=
  let udelta := u16 (seq - max_seq s) in
  if negb (probation s =? 0) then
    if seq =? max_seq s + 1 then
      let prob := u32 (probation s - 1) in
      (mk_seq seq (cycles s) (base_seq s) (bad_seq s) prob,
       mk_st (mk_flag false false false false false (negb (prob =? 0)) false) 1)
    else
      (mk_seq seq (cycles s) (base_seq s) (bad_seq s) (MIN_SEQUENTIAL - 1),
       mk_st (mk_flag true false false (seq =? max_seq s) (negb (seq =? max_seq s)) true false) 0)
  else if udelta =? 0 then (s, mk_st (mk_flag false false false true false false false) 0)
  else if udelta <? MAX_DROPOUT then
    (mk_seq seq (if seq <? max_seq s then u32 (cycles s + RTP_SEQ_MOD) else cycles s) (base_seq s) (bad_seq s)
       (probation s), mk_st no_flag udelta)
  else if udelta <=? RTP_SEQ_MOD - MAX_MISORDER then
    if seq =? bad_seq s then
      (pjmedia_rtp_seq_restart s seq, mk_st (mk_flag false false false false false true true) 1)
    else
      (mk_seq (max_seq s) (cycles s) (base_seq s) (Z.land (seq + 1) (RTP_SEQ_MOD - 1)) (probation s),
       mk_st (mk_flag true false false false true false false) 0)
  else (s, mk_st (mk_flag false false false false true false false) 0).

Definition set_peer_ssrc (v : Z) (s : pjmedia_rtp_session) : pjmedia_rtp_session :=
  mk_ses (out_hdr s) (seq_ctrl s) (out_pt s) (out_extseq s) v (received s).

(** [st0] is what [p_seq_st] points to before the call. *)
Definition pjmedia_rtp_session_update2 (ses : pjmedia_rtp_session) (hdr : pjmedia_rtp_hdr)
    (st0 : pjmedia_rtp_status) (check_pt : bool) : pjmedia_rtp_session * pjmedia_rtp_status :=
  let ses := if peer_ssrc ses =? 0 then set_peer_ssrc (pj_ntohl (h_ssrc hdr)) ses else ses in
  let badssrc := negb (pj_ntohl (h_ssrc hdr) =? peer_ssrc ses) in
  let ses := if badssrc then set_peer_ssrc (pj_ntohl (h_ssrc hdr)) ses else ses in
  if check_pt && negb (h_pt hdr =? out_pt ses)
  then (ses, mk_st (mk_flag true true badssrc false false false false) (st_diff st0))
  else
    let sc := if received ses =? 0 then pjmedia_rtp_seq_init (seq_ctrl ses) (pj_ntohs (h_seq hdr)) else seq_ctrl ses in
    let '(sc, st) := pjmedia_rtp_seq_update sc (pj_ntohs (h_seq hdr)) in
    (mk_ses (out_hdr ses) sc (out_pt ses) (out_extseq ses) (peer_ssrc ses)
       (if f_restart (st_flag st) then u32 (received ses + 1)
        else if negb (f_bad (st_flag st)) then u32 (received ses + 1) else received ses), st).

Definition pjmedia_rtp_session_update (ses : pjmedia_rtp_session) (hdr : pjmedia_rtp_hdr) (st0 : pjmedia_rtp_status) :=
  pjmedia_rtp_session_update2 ses hdr st0 true.

(** ** Headers in memory *)

Record hdr_ok (h : pjmedia_rtp_hdr) : Prop := {
  hk_cc : 0 <= h_cc h < 16;
  hk_x : 0 <= h_x h < 2;
  hk_p : 0 <= h_p h < 2;
  hk_v : 0 <= h_v h < 4;
  hk_pt : 0 <= h_pt h < 128;
  hk_m : 0 <= h_m h < 2;
  hk_seq : is_u16 (h_seq h);
  hk_ts : is_u32 (h_ts h);
  hk_ssrc : is_u32 (h_ssrc h)
}.

Ltac divlia := Z.to_euclidean_division_equations; lia.

Lemma load16_bytes x : is_u16 x -> load16 (x mod 256) (x / 256) = x.
Proof. unfold is_u16, load16. intros. divlia. Qed.

Lemma load32_bytes x : load32 (x mod 256) (x / 256 mod 256) (x / 65536 mod 256) (x / 16777216) = x.
Proof. unfold load32. divlia. Qed.

Lemma hdr_roundtrip h rest : hdr_ok h -> hdr_at (hdr_bytes h ++ rest) = Some h.
Proof.
  intros []. unfold hdr_at, hdr_bytes. cbn [app]. rewrite load16_bytes, !load32_bytes by done.
  destruct h as [cc x p v pt m sq t ss]. cbn in *. do 2 f_equal; divlia.
Qed.

Lemma ntohs_htons x : is_u16 x -> pj_ntohs (pj_htons x) = x.
Proof. unfold is_u16, pj_ntohs, pj_htons. intros. divlia. Qed.

Lemma htonl_eq x : pj_htonl x =
  load32 (x / 16777216 mod 256) (x / 65536 mod 256) (x / 256 mod 256) (x mod 256).
Proof. unfold pj_htonl, load32. lia. Qed.

Lemma load32_parts a b c d : 0 <= a < 256 -> 0 <= b < 256 -> 0 <= c < 256 -> 0 <= d < 256 ->
  let x := load32 a b c d in
  x mod 256 = a /\ x / 256 mod 256 = b /\ x / 65536 mod 256 = c /\ x / 16777216 mod 256 = d.
Proof. unfold load32. intros. split_and!; divlia. Qed.

Lemma ntohl_htonl x : is_u32 x -> pj_ntohl (pj_htonl x) = x.
Proof.
  intros Hx. unfold pj_ntohl. rewrite (htonl_eq (pj_htonl x)), htonl_eq.
  destruct (load32_parts (x / 16777216 mod 256) (x / 65536 mod 256) (x / 256 mod 256) (x mod 256)) as (-> & -> & -> & ->);
    try (apply Z.mod_pos_bound; lia).
  unfold load32, is_u32 in *. divlia.
Qed.

Lemma htons_range x : is_u16 (pj_htons x).
Proof. unfold is_u16, pj_htons. divlia. Qed.

Lemma htonl_range x : is_u32 (pj_htonl x).
Proof.
  unfold is_u32, pj_htonl. pose proof (Z.mod_pos_bound x 256). pose proof (Z.mod_pos_bound (x / 256) 256).
  pose proof (Z.mod_pos_bound (x / 65536) 256). pose proof (Z.mod_pos_bound (x / 16777216) 256). lia.
Qed.

Lemma mod_mod x a b : 0 < a -> 0 < b -> x mod (a * b) mod a = x mod a.
Proof. intros Ha Hb. apply Z.mod_mod_divide. exists b. lia. Qed.

Lemma u16_u32 x : u16 (u32 x) = u16 x.
Proof. exact (mod_mod x 65536 65536 eq_refl eq_refl). Qed.

(** ** Encoding and decoding *)

(** What the session keeps of its header between packets *)
Record ses_ok (s : pjmedia_rtp_session) : Prop := {
  sk_hdr : hdr_ok (out_hdr s);
  sk_v : h_v (out_hdr s) = RTP_VERSION;
  sk_p : h_p (out_hdr s) = 0;
  sk_x : h_x (out_hdr s) = 0;
  sk_cc : h_cc (out_hdr s) = 0;
  sk_ext : is_u32 (out_extseq s);
  sk_pt : is_u16 (out_pt s)
}.

Lemma session_init_ok r1 r2 pt ssrc : is_u32 ssrc -> ses_ok (pjmedia_rtp_session_init r1 r2 pt ssrc).
Proof.
  intros Hs. assert (Hl : 0 <= Z.land r2 32767 < 32768).
  { change 32767 with (Z.ones 15). rewrite Z.land_ones by lia. apply Z.mod_pos_bound. lia. }
  split; try done; [|unfold is_u32; cbn -[Z.land]; lia|apply u16_range].
  split; cbn -[Z.land pj_htonl pj_htons]; unfold RTP_VERSION; try lia; [..|destruct (_ || _); apply htonl_range].
  - apply Z.mod_pos_bound. lia.
  - apply htons_range.
  - unfold is_u32. lia.
Qed.

(** C32: a packet built from the header the session encodes and a payload decodes,
    without error, to that header and that payload.  The header carries the next
    sequence number (16 bits of a counter of 32), the timestamp advanced by
    [ts_len] modulo 2^32, the payload type or the default one, and the marker. *)
Theorem encode_decode ses pt m ts_len payload :
  ses_ok ses -> payload <> [] -> 12 + zlen payload < 2147483648 ->
  exists h ses', pjmedia_rtp_encode_rtp ses pt m (zlen payload) ts_len = (Some h, ses') /\ ses_ok ses' /\
    pjmedia_rtp_decode_rtp2 (hdr_bytes h ++ payload) (12 + zlen payload) =
      Some (inr (mk_dec h None 12 (zlen payload))) /\
    drop 12 (hdr_bytes h ++ payload) = payload /\
    pj_ntohs (h_seq h) = u16 (out_extseq ses + 1) /\ out_extseq ses' = u32 (out_extseq ses + 1) /\
    pj_ntohl (h_ts h) = u32 (pj_ntohl (h_ts (out_hdr ses)) + ts_len) /\
    h_pt h = (if pt =? -1 then out_pt ses else pt) mod 128 /\ h_m h = m mod 2 /\ h_ssrc h = h_ssrc (out_hdr ses).
Proof.
  intros H Hne Hlen. unfold pjmedia_rtp_encode_rtp, zlen in *.
  assert (Hl : length payload <> 0%nat) by (intros E; by apply length_zero_iff_nil in E).
  destruct (Z.eqb_spec (Z.of_nat (length payload)) 0); [lia|]. eexists _, _. split; [reflexivity|].
  set (h := mk_hdr _ _ _ _ _ _ _ _ _). pose proof H as [Hh Hv Hp Hx Hcc Hext Hpt].
  assert (Hok : hdr_ok h).
  { destruct Hh. split; try done; cbn -[pj_htons pj_htonl]; try (apply Z.mod_pos_bound; lia);
      [apply htons_range|apply htonl_range]. }
  split; [split; try done; apply u32_range|]. split; [|split; [done|]].
  - unfold pjmedia_rtp_decode_rtp2, decode_ext. rewrite hdr_roundtrip by done. cbn [mbind option_bind].
    change (h_v h) with (h_v (out_hdr ses)). change (h_x h) with (h_x (out_hdr ses)).
    change (h_cc h) with (h_cc (out_hdr ses)). change (h_p h) with (h_p (out_hdr ses)).
    rewrite Hv, Hx, Hcc, Hp. change (12 + Z.to_nat (0 * 4))%nat with 12%nat. cbn [negb Z.eqb mbind option_bind RTP_VERSION Pos.eqb].
    change (Z.of_nat 12) with 12. destruct (Z.ltb_spec (12 + Z.of_nat (length payload)) 12); [lia|].
    do 3 f_equal. cbn [andb]. rewrite u32_id; unfold is_u32; lia.
  - split_and!; try done.
    + change (h_seq h) with (pj_htons (u16 (u32 (out_extseq ses + 1)))). rewrite u16_u32. apply ntohs_htons, u16_range.
    + change (h_ts h) with (pj_htonl (u32 (pj_ntohl (h_ts (out_hdr ses)) + ts_len))). apply ntohl_htonl, u32_range.
    + exact (mod_mod _ 128 2 eq_refl eq_refl).
    + exact (mod_mod _ 2 32768 eq_refl eq_refl).
Qed.

Lemma encode_decode_witness : exists h ses',
  pjmedia_rtp_encode_rtp (pjmedia_rtp_session_init 7 65535 0 5) (-1) 1 3 160 = (Some h, ses') /\
  pjmedia_rtp_decode_rtp2 (hdr_bytes h ++ [1; 2; 3]) 15 = Some (inr (mk_dec h None 12 3)) /\ pj_ntohs (h_seq h) = 32768.
Proof.
  destruct (encode_decode (pjmedia_rtp_session_init 7 65535 0 5) (-1) 1 160 [1; 2; 3]) as
    (h & ses' & E & _ & Ed & _ & Hs & _); [apply session_init_ok; unfold is_u32; lia|discriminate|unfold zlen; cbn; lia|].
  exists h, ses'. exact (conj E (conj Ed Hs)).
Defined.

(** The bytes of a packet the decoder reads before it looks at the length *)
Definition reads_up_to (h : pjmedia_rtp_hdr) : Z := 12 + h_cc h * 4 + (if h_x h =? 0 then 0 else 4).

(** Where the payload starts; [l0] and [l1] are the bytes of the extension's length *)
Definition payload_start (h : pjmedia_rtp_hdr) (l0 l1 : Z) : Z :=
  12 + h_cc h * 4 + (if h_x h =? 0 then 0 else (256 * l0 + l1 + 1) * 4).

Definition ext_length (pkt : list Z) (h : pjmedia_rtp_hdr) (l0 l1 : Z) : Prop :=
  h_x h <> 0 -> pkt !! Z.to_nat (14 + h_cc h * 4) = Some l0 /\ pkt !! Z.to_nat (15 + h_cc h * 4) = Some l1.

Lemma hdr_at_Some pkt : Forall is_byte pkt -> (12 <= length pkt)%nat -> exists h, hdr_at pkt = Some h /\ hdr_ok h.
Proof.
  intros Hb Hl. do 12 (destruct pkt as [|? pkt]; [cbn in Hl; lia|]). eexists. split; [reflexivity|].
  repeat match goal with H : Forall is_byte (_ :: _) |- _ => apply Forall_cons_1 in H as [? H] end.
  unfold is_byte in *. split; cbn; unfold is_u16, is_u32, load16, load32; divlia.
Qed.

(** What the decoder answers, when the buffer holds what it reads *)
Lemma decode_cases pkt pkt_len h : Forall is_byte pkt -> hdr_at pkt = Some h -> hdr_ok h ->
  0 <= pkt_len <= zlen pkt -> zlen pkt < 2147483648 -> reads_up_to h <= zlen pkt -> h_v h = RTP_VERSION ->
  exists l0 l1 ext, is_byte l0 /\ is_byte l1 /\ ext_length pkt h l0 l1 /\
    let off := payload_start h l0 l1 in
    pjmedia_rtp_decode_rtp2 pkt pkt_len =
      (if pkt_len <? off then Some (inl PJMEDIA_RTP_EINLEN)
       else if negb (h_p h =? 0) && (0 <? pkt_len - off)
       then pad ← pkt !! Z.to_nat (pkt_len - 1);
            Some (inr (mk_dec h ext (Z.to_nat off) (if pad <=? pkt_len - off then pkt_len - off - pad else pkt_len - off)))
       else Some (inr (mk_dec h ext (Z.to_nat off) (pkt_len - off)))) /\
    match ext with
    | Some (p, n) => h_x h <> 0 /\ Z.of_nat p + 4 * n = off /\ 0 <= n
    | None => h_x h = 0
    end.
Proof.
  intros Hb Eh Hh Hl Hmax Hr Hv. unfold pjmedia_rtp_decode_rtp2, reads_up_to, zlen in *. rewrite Eh. cbn [mbind option_bind]. rewrite Hv. cbn [negb Z.eqb RTP_VERSION Pos.eqb].
  pose proof (hk_cc h Hh) as Hcc. pose proof (hk_x h Hh) as Hx.
  set (o := (12 + Z.to_nat (h_cc h * 4))%nat). assert (Ho : Z.of_nat o = 12 + h_cc h * 4) by lia.
  assert (Hfin : forall ext off off', off' = Z.of_nat off -> 12 <= off' ->
    (if pkt_len <? Z.of_nat off then Some (inl PJMEDIA_RTP_EINLEN)
     else let len := u32 (pkt_len - Z.of_nat off) in
       if negb (h_p h =? 0) && (0 <? len)
       then pad_len ← pkt !! (off + Z.to_nat (len - 1))%nat;
            Some (inr (mk_dec h ext off (if pad_len <=? len then len - pad_len else len)))
       else Some (inr (mk_dec h ext off len))) =
    (if pkt_len <? off' then Some (inl PJMEDIA_RTP_EINLEN)
     else if negb (h_p h =? 0) && (0 <? pkt_len - off')
     then pad ← pkt !! Z.to_nat (pkt_len - 1);
          Some (inr (mk_dec h ext (Z.to_nat off') (if pad <=? pkt_len - off' then pkt_len - off' - pad else pkt_len - off')))
     else Some (inr (mk_dec h ext (Z.to_nat off') (pkt_len - off'))))).
  { intros ext off off' -> Hoff. rewrite Nat2Z.id. destruct (Z.ltb_spec pkt_len (Z.of_nat off)) as [|Hge]; [done|].
    cbv zeta. rewrite u32_id by (unfold is_u32; lia). destruct (Z.ltb_spec 0 (pkt_len - Z.of_nat off)); [|by rewrite andb_false_r].
    replace (off + Z.to_nat (pkt_len - Z.of_nat off - 1))%nat with (Z.to_nat (pkt_len - 1)) by lia. done. }
  unfold decode_ext, payload_start. fold o. destruct (Z.eqb_spec (h_x h) 0) as [Hx0|Hx1].
  - exists 0, 0, None. split; [done|]. split; [done|]. split; [by intros ?|]. cbn zeta. split; [|done]. apply Hfin; lia.
  - destruct (lookup_lt_is_Some_2 pkt (o + 2)) as [l0 E0]; [lia|]. destruct (lookup_lt_is_Some_2 pkt (o + 3)) as [l1 E1]; [lia|].
    rewrite E0, E1. cbn [mbind option_bind].
    assert (B0 : is_byte l0) by (eapply Forall_lookup_1; [exact Hb|exact E0]).
    assert (B1 : is_byte l1) by (eapply Forall_lookup_1; [exact Hb|exact E1]).
    assert (En : pj_ntohs (load16 l0 l1) = 256 * l0 + l1).
    { unfold pj_ntohs, pj_htons, load16, is_byte in *. divlia. }
    rewrite En. exists l0, l1, (Some ((o + 4)%nat, 256 * l0 + l1)). split; [done|]. split; [done|]. split.
    { intros _. replace (Z.to_nat (14 + h_cc h * 4)) with (o + 2)%nat by lia. by replace (Z.to_nat (15 + h_cc h * 4)) with (o + 3)%nat by lia. }
    cbn zeta.
    unfold is_byte in *. split; [apply Hfin; lia|lia].
Qed.

(** On a buffer with the bytes it reads (the header, the CSRC list and the
    head of the extension), the decoder refuses exactly the wrong version and
    the packets shorter than their header with its extension; otherwise the
    extension and the payload lie in the received bytes, in this order, the
    payload reaching their end less a padding whose length fits. *)
Theorem decode_bounds pkt pkt_len h : Forall is_byte pkt -> hdr_at pkt = Some h ->
  0 <= pkt_len <= zlen pkt -> zlen pkt < 2147483648 -> reads_up_to h <= zlen pkt ->
  exists r l0 l1, pjmedia_rtp_decode_rtp2 pkt pkt_len = Some r /\
    match r with
    | inl e => e = PJMEDIA_RTP_EINVER /\ h_v h <> RTP_VERSION \/
               e = PJMEDIA_RTP_EINLEN /\ h_v h = RTP_VERSION /\ ext_length pkt h l0 l1 /\ pkt_len < payload_start h l0 l1
    | inr d => h_v h = RTP_VERSION /\ ext_length pkt h l0 l1 /\ d_hdr d = h /\ Z.of_nat (d_payload d) = payload_start h l0 l1 /\
        0 <= d_payloadlen d /\ Z.of_nat (d_payload d) + d_payloadlen d <= pkt_len /\
        (h_p h = 0 -> Z.of_nat (d_payload d) + d_payloadlen d = pkt_len) /\
        match d_ext d with
        | Some (p, n) => h_x h <> 0 /\ Z.of_nat p + 4 * n = Z.of_nat (d_payload d) /\ 0 <= n
        | None => h_x h = 0
        end
    end.
Proof.
  intros Hb Eh Hl Hmax Hr. assert (Hh : hdr_ok h).
  { destruct (hdr_at_Some pkt Hb) as (h' & E & Hh); [|congruence].
    destruct (decide (12 <= length pkt)%nat); [done|]. exfalso.
    do 12 (destruct pkt as [|? pkt]; [discriminate Eh|]). cbn in n. lia. }
  destruct (Z.eqb_spec (h_v h) RTP_VERSION) as [Hv|Hv].
  - destruct (decode_cases pkt pkt_len h Hb Eh Hh Hl Hmax Hr Hv) as (l0 & l1 & ext & B0 & B1 & Hel & E & Hext).
    set (off := payload_start h l0 l1) in *. assert (Hoff : 12 <= off).
    { unfold off, payload_start, is_byte in *. pose proof (hk_cc h Hh). destruct (h_x h =? 0); lia. }
    rewrite E. destruct (Z.ltb_spec pkt_len off); [exists (inl PJMEDIA_RTP_EINLEN), l0, l1; split_and!; auto|].
    assert (Hx : match ext with Some (p, n) => h_x h <> 0 /\ Z.of_nat p + 4 * n = Z.of_nat (Z.to_nat off) /\ 0 <= n
                 | None => h_x h = 0 end).
    { destruct ext as [[p n]|]; [|exact Hext]. destruct Hext as (Hx1 & Hext). split; [exact Hx1|]. cbv zeta in Hext. fold off in Hext. lia. }
    destruct (Z.eqb_spec (h_p h) 0) as [Hp|Hp]; cbn [negb andb]; [|destruct (Z.ltb_spec 0 (pkt_len - off))].
    + eexists (inr _), l0, l1. split; [reflexivity|]. cbn [d_hdr d_payload d_payloadlen d_ext]. split_and!; (done || lia).
    + unfold zlen in *. destruct (lookup_lt_is_Some_2 pkt (Z.to_nat (pkt_len - 1))) as [pad Epad]; [lia|].
      rewrite Epad. assert (Bp : is_byte pad) by (eapply Forall_lookup_1; [exact Hb|exact Epad]). unfold is_byte in Bp.
      eexists (inr _), l0, l1. split; [reflexivity|]. cbn [d_hdr d_payload d_payloadlen d_ext].
      destruct (Z.leb_spec pad (pkt_len - off)); split_and!; (done || lia).
    + eexists (inr _), l0, l1. split; [reflexivity|]. cbn [d_hdr d_payload d_payloadlen d_ext]. split_and!; (done || lia).
  - exists (inl PJMEDIA_RTP_EINVER), 0, 0. split_and!; try done; [|by left].
    unfold pjmedia_rtp_decode_rtp2. rewrite Eh. cbn [mbind option_bind]. by destruct (Z.eqb_spec (h_v h) RTP_VERSION).
Qed.

Lemma decode_bounds_witness : exists d, pjmedia_rtp_decode_rtp2
    [176; 0; 0; 1; 0; 0; 0; 0; 0; 0; 0; 5; 190; 222; 0; 1; 1; 2; 3; 4; 77; 88; 0; 2] 24 = Some (inr d) /\
  d_ext d = Some (16%nat, 1) /\ d_payload d = 20%nat /\ d_payloadlen d = 2.
Proof.
  destruct (decode_bounds [176; 0; 0; 1; 0; 0; 0; 0; 0; 0; 0; 5; 190; 222; 0; 1; 1; 2; 3; 4; 77; 88; 0; 2] 24
    (mk_hdr 0 1 1 2 0 0 256 0 83886080)) as (r & l0 & l1 & E & _).
  - repeat (apply Forall_cons_2; [unfold is_byte; lia|]). apply Forall_nil_2.
  - reflexivity.
  - unfold zlen. cbn. lia.
  - unfold zlen. cbn. lia.
  - unfold reads_up_to, zlen. cbn. lia.
  - vm_compute in E. injection E as <-. eexists. vm_compute. repeat split.
Defined.

(** A packet whose extension bit is set but that ends before the length of
    the extension makes the decoder read outside the buffer: the received length
    is compared only afterwards. *)
Theorem decode_short_reads_outside pkt pkt_len h : hdr_at pkt = Some h -> 0 <= h_cc h -> h_v h = RTP_VERSION ->
  h_x h <> 0 -> zlen pkt < reads_up_to h -> pjmedia_rtp_decode_rtp2 pkt pkt_len = None.
Proof.
  intros Eh Hcc Hv Hx Hr. unfold pjmedia_rtp_decode_rtp2, reads_up_to, decode_ext, zlen in *. rewrite Eh.
  cbn [mbind option_bind]. rewrite Hv. cbn [negb Z.eqb RTP_VERSION Pos.eqb]. destruct (Z.eqb_spec (h_x h) 0); [done|].
  destruct (pkt !! (12 + Z.to_nat (h_cc h * 4) + 2)%nat); [|done]. cbn [mbind option_bind].
  by rewrite (lookup_ge_None_2 pkt (12 + Z.to_nat (h_cc h * 4) + 3)) by lia.
Qed.

Lemma decode_short_reads_outside_witness :
  pjmedia_rtp_decode_rtp2 [144; 0; 0; 1; 0; 0; 0; 0; 0; 0; 0; 5] 12 = None.
Proof.
  apply (decode_short_reads_outside _ _ (mk_hdr 0 1 0 2 0 0 256 0 83886080)); [reflexivity|cbn; lia|reflexivity|discriminate|].
  unfold zlen, reads_up_to. cbn. lia.
Defined.

(** ** Sequence numbers *)

Record seq_ok (s : pjmedia_rtp_seq_session) : Prop := {
  qk_max : is_u16 (max_seq s);
  qk_cycles : 0 <= cycles s <= 4294901760 /\ cycles s mod 65536 = 0
}.

(** The extended sequence number *)
Definition ext_seq (s : pjmedia_rtp_seq_session) : Z := cycles s + max_seq s.

Lemma ext_seq_range s : seq_ok s -> is_u32 (ext_seq s) /\ ext_seq s mod 65536 = max_seq s.
Proof.
  intros [Hm [Hc Hd]]. unfold ext_seq, is_u16, is_u32 in *. split; [lia|].
  divlia.
Qed.

(** The distance of a packet [d] numbers ahead *)
Lemma udelta_ahead s d : seq_ok s -> 0 <= d < 65536 -> u16 (u16 (max_seq s + d) - max_seq s) = d.
Proof. intros [Hm _] Hd. unfold u16, is_u16 in *. divlia. Qed.

Lemma cycles_carry c m d : 0 <= c <= 4294901760 -> c mod 65536 = 0 -> 0 <= m < 65536 -> 1 <= d < 3000 ->
  let m' := (m + d) mod 65536 in
  let c' := if m' <? m then (c + 65536) mod 4294967296 else c in
  0 <= c' <= 4294901760 /\ c' mod 65536 = 0 /\ c' + m' = (c + m + d) mod 4294967296.
Proof. intros Hc Hd Hm H1. cbv zeta. destruct (Z.ltb_spec ((m + d) mod 65536) m); split_and!; divlia. Qed.

(** A packet ahead by less than the permissible gap *)
Lemma seq_in_order s d : seq_ok s -> probation s = 0 -> 1 <= d < MAX_DROPOUT ->
  let '(s', st) := pjmedia_rtp_seq_update s (u16 (max_seq s + d)) in
  seq_ok s' /\ probation s' = 0 /\ ext_seq s' = u32 (ext_seq s + d) /\ st = mk_st no_flag d /\
  base_seq s' = base_seq s /\ bad_seq s' = bad_seq s.
Proof.
  intros H Hp Hd. unfold pjmedia_rtp_seq_update, MAX_DROPOUT in *. rewrite Hp, udelta_ahead by (done || lia).
  cbn [negb Z.eqb]. destruct (Z.eqb_spec d 0); [lia|]. destruct (Z.ltb_spec d 3000); [|lia].
  pose proof (u16_range (max_seq s + d)) as Hu. destruct H as [Hm [Hc Hz]]. unfold is_u16 in Hm.
  destruct (cycles_carry (cycles s) (max_seq s) d Hc Hz Hm ltac:(lia)) as (H1 & H2 & H3).
  split_and!; done.
Qed.

Fixpoint seq_run (s : pjmedia_rtp_seq_session) (seqs : list Z) : pjmedia_rtp_seq_session * list pjmedia_rtp_status :=
  match seqs with
  | [] => (s, [])
  | q :: qs => let '(s1, st) := pjmedia_rtp_seq_update s q in
               let '(s2, sts) := seq_run s1 qs in (s2, st :: sts)
  end.

(** The 16-bit numbers of packets, each [d] ahead of the one before *)
Fixpoint numbers (m : Z) (ds : list Z) : list Z :=
  match ds with [] => [] | d :: ds' => u16 (m + d) :: numbers (u16 (m + d)) ds' end.

Definition sum (ds : list Z) : Z := foldr Z.add 0 ds.

(** C33: for a valid source, a stream of packets in order with gaps below 3000 is
    accepted packet by packet, each with its distance and no flag, and the
    extended sequence number (cycles and highest number) advances by the sum of
    the distances modulo 2^32, through any number of wraps of the 16-bit
    numbers. *)
Theorem seq_stream ds : forall s, seq_ok s -> probation s = 0 -> Forall (fun d => 1 <= d < MAX_DROPOUT) ds ->
  let '(s', sts) := seq_run s (numbers (max_seq s) ds) in
  seq_ok s' /\ probation s' = 0 /\ ext_seq s' = u32 (ext_seq s + sum ds) /\ sts = map (mk_st no_flag) ds.
Proof.
  induction ds as [|d ds IH]; intros s H Hp Hds; cbn [seq_run numbers map].
  - split_and!; try done. change (sum []) with 0. rewrite Z.add_0_r. symmetry. by apply u32_id, ext_seq_range.
  - apply Forall_cons_1 in Hds as [Hd Hds]. pose proof (seq_in_order s d H Hp Hd) as Hs.
    assert (Em : max_seq (fst (pjmedia_rtp_seq_update s (u16 (max_seq s + d)))) = u16 (max_seq s + d)).
    { unfold pjmedia_rtp_seq_update, MAX_DROPOUT in *. rewrite Hp, udelta_ahead by (done || lia). cbn [negb Z.eqb].
      destruct (Z.eqb_spec d 0); [lia|]. by destruct (Z.ltb_spec d 3000); [|lia]. }
    destruct (pjmedia_rtp_seq_update s (u16 (max_seq s + d))) as [s1 st]. cbn [fst] in Em.
    destruct Hs as (H1 & Hp1 & He & -> & _). specialize (IH s1 H1 Hp1 Hds). rewrite Em in IH.
    destruct (seq_run s1 _) as [s2 sts]. destruct IH as (H2 & Hp2 & He2 & ->). split_and!; try done.
    rewrite He2, He. change (sum (d :: ds)) with (d + sum ds). unfold u32. rewrite Z.add_mod_idemp_l by lia.
    f_equal. lia.
Qed.

Lemma seq_stream_witness :
  let '(s', sts) := seq_run (mk_seq 65533 0 10 65537 0) [65534; 65535; 3; 4] in
  ext_seq s' = 65540 /\ sts = [mk_st no_flag 1; mk_st no_flag 1; mk_st no_flag 4; mk_st no_flag 1].
Proof.
  assert (H : seq_ok (mk_seq 65533 0 10 65537 0)) by (split; [unfold is_u16|split]; cbn [max_seq cycles]; (lia || reflexivity)).
  assert (Hd : Forall (fun d => 1 <= d < MAX_DROPOUT) [1; 1; 4; 1])
    by (repeat (apply Forall_cons_2; [unfold MAX_DROPOUT; lia|]); apply Forall_nil_2).
  pose proof (seq_stream [1; 1; 4; 1] _ H eq_refl Hd) as Hs.
  change (numbers (max_seq (mk_seq 65533 0 10 65537 0)) [1; 1; 4; 1]) with [65534; 65535; 3; 4] in Hs.
  destruct (seq_run _ _) as [s' sts]. destruct Hs as (_ & _ & He & Hst). exact (conj He Hst).
Defined.

(** For a valid source, a repeated number is a duplicate and one less than
    100 behind is out of order, both without effect on the session.  A jump in
    between is refused as bad and remembered; the packet after it in sequence
    restarts the session at its own number. *)
Theorem seq_reorder_restart s : seq_ok s -> probation s = 0 ->
  pjmedia_rtp_seq_update s (max_seq s) = (s, mk_st (mk_flag false false false true false false false) 0) /\
  (forall d, 1 <= d < MAX_MISORDER -> pjmedia_rtp_seq_update s (u16 (max_seq s - d)) =
     (s, mk_st (mk_flag false false false false true false false) 0)) /\
  (forall d, MAX_DROPOUT <= d < RTP_SEQ_MOD - MAX_MISORDER -> u16 (max_seq s + d) <> bad_seq s ->
     let q := u16 (max_seq s + d) in
     let '(s1, st1) := pjmedia_rtp_seq_update s q in
     ext_seq s1 = ext_seq s /\ st1 = mk_st (mk_flag true false false false true false false) 0 /\
     pjmedia_rtp_seq_update s1 (u16 (q + 1)) =
       (mk_seq (u16 (q + 1)) 0 (u16 (q + 1)) 65537 0, mk_st (mk_flag false false false false false true true) 1)).
Proof.
  intros H Hp. unfold MAX_MISORDER, MAX_DROPOUT. split_and!.
  - unfold pjmedia_rtp_seq_update. rewrite Hp, Z.sub_diag. done.
  - intros d Hd. assert (Hu : u16 (u16 (max_seq s - d) - max_seq s) = 65536 - d).
    { destruct H as [Hm _]. unfold u16, is_u16 in *. divlia. }
    unfold pjmedia_rtp_seq_update. rewrite Hp, Hu. change RTP_SEQ_MOD with 65536. unfold MAX_DROPOUT, MAX_MISORDER. cbn [negb Z.eqb].
    destruct (Z.eqb_spec (65536 - d) 0); [lia|]. destruct (Z.ltb_spec (65536 - d) 3000); [lia|].
    by destruct (Z.leb_spec (65536 - d) (65536 - 100)); [lia|].
  - intros d Hd Hbad. set (q := u16 (max_seq s + d)) in *. change RTP_SEQ_MOD with 65536 in Hd.
    assert (Hu1 : u16 (q - max_seq s) = d) by (apply udelta_ahead; (done || lia)).
    assert (Hu2 : u16 (u16 (q + 1) - max_seq s) = d + 1).
    { unfold q. destruct H as [Hm _]. unfold u16, is_u16 in *. divlia. }
    assert (Hland : Z.land (q + 1) (RTP_SEQ_MOD - 1) = u16 (q + 1)).
    { change (RTP_SEQ_MOD - 1) with (Z.ones 16). by rewrite Z.land_ones by lia. }
    unfold pjmedia_rtp_seq_update at 1. rewrite Hp, Hu1, Hland. change RTP_SEQ_MOD with 65536. unfold MAX_DROPOUT, MAX_MISORDER.
    cbn [negb Z.eqb]. destruct (Z.eqb_spec d 0); [lia|]. destruct (Z.ltb_spec d 3000); [lia|].
    destruct (Z.leb_spec d (65536 - 100)); [|lia]. destruct (Z.eqb_spec q (bad_seq s)); [done|].
    split_and!; try done. unfold pjmedia_rtp_seq_update. cbn [probation max_seq bad_seq]. rewrite ?Hp, Hu2.
    change RTP_SEQ_MOD with 65536. unfold MAX_DROPOUT, MAX_MISORDER. cbn [negb Z.eqb].
    destruct (Z.eqb_spec (d + 1) 0); [lia|]. destruct (Z.ltb_spec (d + 1) 3000); [lia|].
    destruct (Z.leb_spec (d + 1) (65536 - 100)); [|lia]. rewrite Z.eqb_refl. unfold pjmedia_rtp_seq_restart. cbn [probation]. by rewrite ?Hp.
Qed.

Lemma seq_reorder_restart_witness :
  pjmedia_rtp_seq_update (mk_seq 5 0 1 65537 0) 65535 =
    (mk_seq 5 0 1 65537 0, mk_st (mk_flag false false false false true false false) 0).
Proof.
  assert (H : seq_ok (mk_seq 5 0 1 65537 0)) by (split; [unfold is_u16|split]; cbn [max_seq cycles]; (lia || reflexivity)).
  destruct (seq_reorder_restart _ H eq_refl) as (_ & Ho & _). exact (Ho 6 ltac:(unfold MAX_MISORDER; lia)).
Defined.

(** C36: the first two packets of a source, numbered in sequence, make it valid:
    none is refused unless the sequence passes from 65535 to 0 there, since the
    comparison with the next number is not done modulo 2^16: the packet numbered
    0 is then reported bad and out of order, and probation starts again. *)
Theorem seq_first_packets s q : is_u16 q ->
  let '(s2, sts) := seq_run (pjmedia_rtp_seq_init s q) [q; u16 (q + 1)] in
  max_seq s2 = u16 (q + 1) /\
  if decide (q = 0) then probation s2 = 0 /\ map (fun st => f_bad (st_flag st)) sts = [true; false]
  else if decide (q = 65535) then probation s2 = 1 /\ map (fun st => f_bad (st_flag st)) sts = [false; true]
  else probation s2 = 0 /\ map (fun st => f_bad (st_flag st)) sts = [false; false] /\ ext_seq s2 = q + 1.
Proof.
  intros Hq. unfold is_u16 in Hq. unfold pjmedia_rtp_seq_init. cbn [seq_run].
  set (s0 := mk_seq _ _ _ _ _). unfold pjmedia_rtp_seq_update at 1.
  change (probation s0) with 2. change (max_seq s0) with (u16 (q - 1)). cbn [negb Z.eqb].
  change (u32 (2 - 1)) with 1.
  destruct (decide (q = 0)) as [->|H0]; [by vm_compute|].
  assert (E1 : u16 (q - 1) = q - 1) by (apply u16_id; unfold is_u16; lia). rewrite E1.
  destruct (Z.eqb_spec q (q - 1 + 1)); [|lia]. unfold pjmedia_rtp_seq_update. cbn [probation max_seq negb Z.eqb].
  destruct (decide (q = 65535)) as [->|H1]; [by vm_compute|].
  rewrite (u16_id (q + 1)) by (unfold is_u16; lia). rewrite Z.eqb_refl. cbn. unfold ext_seq. split_and!; cbn; done.
Qed.

Lemma seq_first_packets_witness :
  let '(s2, sts) := seq_run (pjmedia_rtp_seq_init (mk_seq 0 0 0 0 0) 41) [41; 42] in
  max_seq s2 = 42 /\ probation s2 = 0 /\ map (fun st => f_bad (st_flag st)) sts = [false; false].
Proof.
  pose proof (seq_first_packets (mk_seq 0 0 0 0 0) 41 ltac:(unfold is_u16; lia)) as H.
  change (u16 (41 + 1)) with 42 in H. destruct (seq_run _ _) as [s2 sts]. destruct H as (Hm & Hp & Hb & _).
  exact (conj Hm (conj Hp Hb)).
Defined.

(** ** The update of a session by a received header *)

Definition source_changed (ses : pjmedia_rtp_session) (hdr : pjmedia_rtp_hdr) : bool :=
  negb (peer_ssrc ses =? 0) && negb (pj_ntohl (h_ssrc hdr) =? peer_ssrc ses).

(** The status of the sequence number control never has the flags of the caller. *)
Lemma seq_update_flags s q : let st := snd (pjmedia_rtp_seq_update s q) in
  f_badssrc (st_flag st) = false /\ f_badpt (st_flag st) = false /\
  (f_restart (st_flag st) = true -> f_bad (st_flag st) = false).
Proof.
  unfold pjmedia_rtp_seq_update. destruct (negb _); [by destruct (_ =? max_seq s + 1)|].
  destruct (_ =? 0); [done|]. destruct (_ <? _); [done|]. destruct (_ <=? _); [|done]. by destruct (_ =? bad_seq s).
Qed.

(** C37: after any packet the session follows its source.  A packet with another
    payload type than the session's leaves the sequence control and the count
    alone and is reported bad.  Any other packet is checked by the sequence
    control (started afresh for the first one), and counted exactly when it is
    not bad; a change of source is then not reported, because the status of the
    sequence control replaces the flag. *)
Theorem session_update_functional ses hdr st0 check_pt :
  let '(ses', st) := pjmedia_rtp_session_update2 ses hdr st0 check_pt in
  peer_ssrc ses' = pj_ntohl (h_ssrc hdr) /\ out_hdr ses' = out_hdr ses /\ out_extseq ses' = out_extseq ses /\
  if check_pt && negb (h_pt hdr =? out_pt ses)
  then seq_ctrl ses' = seq_ctrl ses /\ received ses' = received ses /\
       st_flag st = mk_flag true true (source_changed ses hdr) false false false false
  else let q := pj_ntohs (h_seq hdr) in
       let sc := if received ses =? 0 then pjmedia_rtp_seq_init (seq_ctrl ses) q else seq_ctrl ses in
       (seq_ctrl ses', st) = pjmedia_rtp_seq_update sc q /\
       received ses' = (if f_bad (st_flag st) then received ses else u32 (received ses + 1)) /\
       f_badssrc (st_flag st) = false.
Proof.
  unfold pjmedia_rtp_session_update2, source_changed.
  set (s1 := if peer_ssrc ses =? 0 then _ else ses).
  assert (H1 : peer_ssrc s1 = (if peer_ssrc ses =? 0 then pj_ntohl (h_ssrc hdr) else peer_ssrc ses) /\
    seq_ctrl s1 = seq_ctrl ses /\ received s1 = received ses /\ out_pt s1 = out_pt ses /\ out_hdr s1 = out_hdr ses /\
    out_extseq s1 = out_extseq ses) by (unfold s1; by destruct (_ =? 0)).
  clearbody s1. destruct H1 as (Hp & Hc & Hr & Ho & Hh & He). rewrite Hp.
  set (changed := negb (pj_ntohl _ =? _)).
  assert (Hch : changed = negb (peer_ssrc ses =? 0) && negb (pj_ntohl (h_ssrc hdr) =? peer_ssrc ses)).
  { unfold changed. destruct (peer_ssrc ses =? 0); [by rewrite Z.eqb_refl|done]. }
  set (s2 := if changed then _ else s1).
  assert (H2 : peer_ssrc s2 = pj_ntohl (h_ssrc hdr) /\
    seq_ctrl s2 = seq_ctrl ses /\ received s2 = received ses /\ out_pt s2 = out_pt ses /\ out_hdr s2 = out_hdr ses /\
    out_extseq s2 = out_extseq ses).
  { unfold s2, changed. destruct (Z.eqb_spec (pj_ntohl (h_ssrc hdr)) (if peer_ssrc ses =? 0 then pj_ntohl (h_ssrc hdr) else peer_ssrc ses)) as [E|E];
      cbn [negb]; split_and!; try done. by rewrite Hp. }
  rewrite <- Hch. clearbody s2 changed. destruct H2 as (Hp2 & Hc2 & Hr2 & Ho2 & Hh2 & He2). rewrite Ho2, Hr2, Hc2.
  destruct (check_pt && _); [by split_and!|]. cbv zeta.
  set (sc := if received ses =? 0 then _ else _).
  pose proof (seq_update_flags sc (pj_ntohs (h_seq hdr))) as Hf.
  destruct (pjmedia_rtp_seq_update sc _) as [sc' st]. cbn [snd] in Hf. cbv zeta in Hf. destruct Hf as (Hf1 & _ & Hf2).
  cbn [peer_ssrc out_hdr out_extseq seq_ctrl received]. split_and!; try done.
  destruct (f_restart (st_flag st)) eqn:Er; [by rewrite Hf2|]. by destruct (f_bad (st_flag st)).
Qed.
