(* ===== verification/Hash.v ===== *)
(** * Hash table (pjlib/src/pj/hash.c)

    The table is an array of chains; a chain is the list of its entries.  Keys
    are byte strings, compared as they are or in lower case; a value is never
    NULL, and [None] stands for NULL.  The table used with one kind of
    comparison is shown to be a finite map. *)

From S2P Require Import Prelude.

(** ** Data *)

Definition PJ_HASH_MULTIPLIER : Z := 33.

Record pj_hash_entry (A : Type) := mk_entry {
  he_key : list Z; he_hash : Z; he_keylen : nat; he_value : A
}.
Arguments mk_entry {A} _ _ _ _.
Arguments he_key {A} _.
Arguments he_hash {A} _.
Arguments he_keylen {A} _.
Arguments he_value {A} _.

Record pj_hash_table_t (A : Type) := mk_table {
  ht_table : list (list (pj_hash_entry A)); ht_count : Z; ht_rows : Z
}.
Arguments mk_table {A} _ _ _.
Arguments ht_table {A} _.
Arguments ht_count {A} _.
Arguments ht_rows {A} _.

(** ** Standard library *)

(** tolower of the C locale (pj/ctype.h) *)
Definition pj_tolower (c : Z) : Z := if (65 <=? c) && (c <=? 90) then c + 32 else c.

(** strncasecmp gives zero: equal up to [n] characters or the first NUL. *)
Fixpoint strnicmp_eq (a b : list Z) (n : nat) : bool :=
  match n, a, b with
  | O, _, _ => true
  | S n', x :: a', y :: b' =>
      if pj_tolower x =? pj_tolower y then (if x =? 0 then true else strnicmp_eq a' b' n') else false
  | S _, _, _ => false
  end.

Fixpoint strlen (s : list Z) : nat :=
  match s with [] => 0 | c :: s' => if c =? 0 then 0 else S (strlen s') end.

(** ** Hash values *)

(** [keylen] is [None] for PJ_HASH_KEY_STRING. *)
Definition key_bytes (key : list Z) (keylen : option nat) : list Z :=
  match keylen with Some n => take n key | None => take (strlen key) key end.

Definition hash_step (lower : bool) (hash c : Z) : Z :=
  u32 (hash * PJ_HASH_MULTIPLIER + (if lower then pj_tolower c else c)).

Definition pj_hash_calc (hash : Z) (key : list Z) (keylen : option nat) : Z :=
  fold_left (hash_step false) (key_bytes key keylen) hash.

(** The hash value and the lower-case bytes *)
Definition pj_hash_calc_tolower (hval : Z) (key : list Z) : Z * list Z :=
  (fold_left (hash_step true) key hval, map pj_tolower key).

(** ** Creation *)

(** The loop that doubles the size; [fuel] bounds it. *)
Fixpoint table_size_for (fuel : nat) (table_size size : Z) : option Z :=
  match fuel with
  | O => None
  | S fuel' =>
      let table_size := u32 (Z.shiftl table_size 1) in
      if table_size <? size then table_size_for fuel' table_size size else Some table_size
  end.

Definition pj_hash_create (A : Type) (size : Z) : option (pj_hash_table_t A) :=
  table_size ← table_size_for 32 8 size;
  let table_size := u32 (table_size - 1) in
  Some (mk_table (replicate (Z.to_nat (table_size + 1)) []) 0 table_size).

Section Table.
Context {A : Type}.
Implicit Types (ht : pj_hash_table_t A) (e : pj_hash_entry A).

(** ** Entries *)

Definition entry_matches (lower : bool) (hash : Z) (key : list Z) e : bool :=
  (he_hash e =? hash) && bool_decide (he_keylen e = length key) &&
  (if lower then strnicmp_eq (he_key e) key (length key) else bool_decide (he_key e = key)).

(** The place of the entry in its chain, or its end *)
Fixpoint scan (lower : bool) (hash : Z) (key : list Z) (chain : list (pj_hash_entry A)) : nat :=
  match chain with
  | [] => 0
  | e :: chain' => if entry_matches lower hash key e then 0 else S (scan lower hash key chain')
  end.

(** The hash value: given, or computed from the key *)
Definition entry_hash (lower : bool) (key : list Z) (hval : Z) : Z :=
  if hval =? 0 then fold_left (hash_step lower) key 0 else hval.

(** The chain, the place in it and the table, to which a new entry is added when
    there is none and [val] is not NULL; [None] is an access outside the table. *)
Definition find_entry ht (key : list Z) (keylen : option nat) (val : option A) (hval : Z) (lower : bool) :
    option (nat * nat * pj_hash_table_t A) :=
  let key := key_bytes key keylen in
  let hash := entry_hash lower key hval in
  let idx := Z.to_nat (Z.land hash (ht_rows ht)) in
  chain ← ht_table ht !! idx;
  let pos := scan lower hash key chain in
  match chain !! pos, val with
  | None, Some v =>
      tab ← lwrite (ht_table ht) idx (chain ++ [mk_entry key hash (length key) v]);
      Some (idx, pos, mk_table tab (u32 (ht_count ht + 1)) (ht_rows ht))
  | _, _ => Some (idx, pos, ht)
  end.

Definition hash_get ht (key : list Z) (keylen : option nat) (hval : Z) (lower : bool) : option (option A) :=
  '(idx, pos, ht) ← find_entry ht key keylen None hval lower;
  chain ← ht_table ht !! idx;
  Some (he_value <$> chain !! pos).

Definition pj_hash_get ht key keylen hval := hash_get ht key keylen hval false.
Definition pj_hash_get_lower ht key keylen hval := hash_get ht key keylen hval true.

Definition set_value (v : A) e : pj_hash_entry A := mk_entry (he_key e) (he_hash e) (he_keylen e) v.

Definition hash_set ht (key : list Z) (keylen : option nat) (hval : Z) (value : option A) (lower : bool) :
    option (pj_hash_table_t A) :=
  '(idx, pos, ht) ← find_entry ht key keylen value hval lower;
  chain ← ht_table ht !! idx;
  match chain !! pos with
  | None => Some ht
  | Some e =>
      match value with
      | None =>
          tab ← lwrite (ht_table ht) idx (take pos chain ++ drop (S pos) chain);
          Some (mk_table tab (u32 (ht_count ht - 1)) (ht_rows ht))
      | Some v =>
          tab ← lwrite (ht_table ht) idx (<[pos := set_value v e]> chain);
          Some (mk_table tab (ht_count ht) (ht_rows ht))
      end
  end.

Definition pj_hash_set ht key keylen hval value := hash_set ht key keylen hval value false.
Definition pj_hash_set_lower ht key keylen hval value := hash_set ht key keylen hval value true.

Definition pj_hash_count ht : Z := ht_count ht.

(** ** Iteration *)

(** An iterator: the row, and the place of its entry in the chain *)
Record pj_hash_iterator_t := mk_it { it_index : nat; it_entry : nat }.

(** The first entry of the rows from [index] on; [n] rows are left. *)
Fixpoint next_row ht (n index : nat) : option pj_hash_iterator_t :=
  match n with
  | O => None
  | S n' => match ht_table ht !! index with
            | Some (_ :: _) => Some (mk_it index 0)
            | _ => next_row ht n' (S index)
            end
  end.

Definition pj_hash_first ht : option pj_hash_iterator_t := next_row ht (Z.to_nat (ht_rows ht + 1)) 0.

Definition pj_hash_next ht (it : pj_hash_iterator_t) : option pj_hash_iterator_t :=
  match ht_table ht !! it_index it ≫= (fun chain => chain !! S (it_entry it)) with
  | Some _ => Some (mk_it (it_index it) (S (it_entry it)))
  | None => next_row ht (Z.to_nat (ht_rows ht) - it_index it) (S (it_index it))
  end.

Definition pj_hash_this ht (it : pj_hash_iterator_t) : option A :=
  chain ← ht_table ht !! it_index it;
  he_value <$> chain !! it_entry it.
End Table.

(** ** Keys *)

(** Keys are equal for the table when their canonical forms are. *)
Definition canon (lower : bool) (k : list Z) : list Z := if lower then map pj_tolower k else k.

(** In lower-case tables a NUL may only end a key. *)
Definition key_ok (lower : bool) (k : list Z) : Prop :=
  if lower then Forall (fun c => c <> 0) (removelast k) else True.

Definition key_hash (lower : bool) (k : list Z) : Z := fold_left (hash_step lower) k 0.

(** A hash value a caller may give: none, or the one of the key *)
Definition hval_ok (lower : bool) (k : list Z) (hval : Z) : Prop := hval = 0 \/ hval = key_hash lower k.

Lemma key_hash_canon lower k k' : canon lower k = canon lower k' -> key_hash lower k = key_hash lower k'.
Proof.
  destruct lower; [|by intros E; cbn in E; rewrite E]. unfold key_hash, canon. generalize 0. revert k'.
  induction k as [|c k IH]; intros [|c' k'] h E; try done. cbn in *. injection E as Ec E.
  unfold hash_step at 2 4. rewrite Ec. by apply IH.
Qed.

Lemma entry_hash_ok lower k hval : hval_ok lower k hval -> entry_hash lower k hval = key_hash lower k.
Proof.
  unfold entry_hash, hval_ok. intros [->| ->]; [done|]. by destruct (_ =? 0).
Qed.

Lemma key_hash_range lower k : 0 <= key_hash lower k < 4294967296.
Proof.
  assert (H : forall h, 0 <= h < 4294967296 -> 0 <= fold_left (hash_step lower) k h < 4294967296); [|by apply H].
  induction k as [|c k IH]; intros h Hh; [done|]. cbn. apply IH. apply u32_range.
Qed.

(** pj_hash_calc and pj_hash_calc_tolower agree with the table. *)
Lemma hash_calc_agrees key : pj_hash_calc 0 key (Some (length key)) = key_hash false key /\
  fst (pj_hash_calc_tolower 0 key) = key_hash true key.
Proof. split; [|done]. unfold pj_hash_calc, key_bytes. by rewrite firstn_all. Qed.

Lemma tolower_0 c : pj_tolower c = 0 <-> c = 0.
Proof. unfold pj_tolower. destruct (Z.leb_spec 65 c), (Z.leb_spec c 90); cbn [andb]; lia. Qed.

Lemma strnicmp_spec a : forall b, length a = length b -> key_ok true a ->
  strnicmp_eq a b (length b) = bool_decide (map pj_tolower a = map pj_tolower b).
Proof.
  induction a as [|x a IH]; intros [|y b] Hl Hk; try done. cbn [length strnicmp_eq map].
  destruct (Z.eqb_spec (pj_tolower x) (pj_tolower y)) as [E|E].
  - destruct (Z.eqb_spec x 0) as [->|Hx].
    + destruct a as [|x' a]; [|by apply Forall_cons_1 in Hk as [? _]]. destruct b; [|done].
      rewrite bool_decide_true; [done|]. cbn [map]. by rewrite E.
    + rewrite IH; [|by injection Hl|].
      * apply bool_decide_ext. rewrite E. split; [by intros ->|by intros [=]].
      * unfold key_ok in *. destruct a; [done|]. by apply Forall_cons_1 in Hk as [_ Hk].
  - rewrite bool_decide_false; [done|]. by intros [=].
Qed.

(** ** The table is a finite map *)

Section Model.
Context {A : Type} (lower : bool).
Implicit Types (ht : pj_hash_table_t A) (e : pj_hash_entry A) (m : gmap (list Z) A).

Definition kv e : list Z * A := (canon lower (he_key e), he_value e).

Definition entry_ok (rows : Z) (i : nat) e : Prop :=
  he_hash e = key_hash lower (he_key e) /\ he_keylen e = length (he_key e) /\ key_ok lower (he_key e) /\
  Z.to_nat (Z.land (he_hash e) rows) = i.

(** The table [ht] holds the map [m]. *)
Record holds ht m : Prop := {
  ho_rows : exists n, 0 <= n <= 31 /\ ht_rows ht = Z.ones n;
  ho_len : Z.of_nat (length (ht_table ht)) = ht_rows ht + 1;
  ho_entries : forall i chain, ht_table ht !! i = Some chain -> Forall (entry_ok (ht_rows ht) i) chain;
  ho_nodup : NoDup (map kv (concat (ht_table ht))).*1;
  ho_map : m = list_to_map (map kv (concat (ht_table ht)));
  ho_count : ht_count ht = u32 (Z.of_nat (length (concat (ht_table ht))))
}.

Lemma row_lt ht m h : holds ht m -> 0 <= h -> (Z.to_nat (Z.land h (ht_rows ht)) < length (ht_table ht))%nat.
Proof.
  intros H Hh. destruct (ho_rows ht m H) as (n & Hn & Er). pose proof (ho_len ht m H) as Hl. rewrite Er in *.
  rewrite Z.land_ones by lia. pose proof (Z.mod_pos_bound h (2 ^ n)). rewrite Z.ones_equiv in Hl. lia.
Qed.

Lemma matches_spec rows i e key : entry_ok rows i e -> 
  entry_matches lower (key_hash lower key) key e = bool_decide (canon lower (he_key e) = canon lower key).
Proof.
  intros (Hh & Hl & Hk & _). unfold entry_matches. rewrite Hh, Hl. unfold canon.
  destruct (bool_decide_reflect ((if lower then map pj_tolower (he_key e) else he_key e) = (if lower then map pj_tolower key else key))) as [E|E].
  - assert (El : length (he_key e) = length key).
    { destruct lower; [|by rewrite E]. apply (f_equal length) in E. by rewrite !length_map in E. }
    rewrite (key_hash_canon lower (he_key e) key) by done. rewrite Z.eqb_refl, bool_decide_true by done. cbn [andb].
    destruct lower; [rewrite strnicmp_spec by done|]; by apply bool_decide_true.
  - apply andb_false_iff. destruct (decide (length (he_key e) = length key)) as [El|El];
      [|left; rewrite bool_decide_false by done; apply andb_false_r]. right.
    destruct lower; [rewrite strnicmp_spec by done|]; by apply bool_decide_false.
Qed.

Lemma scan_spec rows i chain key : Forall (entry_ok rows i) chain ->
  let pos := scan lower (key_hash lower key) key chain in
  match chain !! pos with
  | Some e => canon lower (he_key e) = canon lower key
  | None => pos = length chain /\ Forall (fun e => canon lower (he_key e) <> canon lower key) chain
  end.
Proof.
  induction chain as [|e chain IH]; intros H; cbn [scan]; [done|].
  apply Forall_cons_1 in H as [He H]. rewrite (matches_spec rows i) by done.
  destruct (bool_decide_reflect (canon lower (he_key e) = canon lower key)) as [E|E]; cbn [lookup list_lookup]; [done|].
  specialize (IH H). cbn zeta in IH. destruct (chain !! _); [done|]. destruct IH as [-> IH]. split; [done|]. by constructor.
Qed.

(** A chain in its table *)
Lemma concat_split (tab : list (list (pj_hash_entry A))) i c c' : tab !! i = Some c ->
  concat tab = concat (take i tab) ++ c ++ concat (drop (S i) tab) /\
  concat (<[i := c']> tab) = concat (take i tab) ++ c' ++ concat (drop (S i) tab).
Proof.
  intros Hi. split.
  - rewrite <- (take_drop_middle tab i c Hi) at 1. by rewrite concat_app.
  - rewrite insert_take_drop by (by eapply lookup_lt_Some). by rewrite concat_app.
Qed.

(** The key is in no other chain. *)
Lemma other_chains ht m key : holds ht m ->
  let i := Z.to_nat (Z.land (key_hash lower key) (ht_rows ht)) in
  forall chain e, ht_table ht !! i = Some chain -> e ∈ concat (ht_table ht) ->
  canon lower (he_key e) = canon lower key -> e ∈ chain.
Proof.
  intros H i chain e Hi He Hk. apply list_elem_of_In, in_concat in He as (c & Hc & He).
  apply list_elem_of_In, list_elem_of_lookup_1 in Hc as [j Hj]. apply list_elem_of_In in He.
  pose proof (ho_entries ht m H j c Hj) as Hf. rewrite Forall_forall in Hf. destruct (Hf e He) as (Hh & _ & _ & Hidx).
  rewrite Hh, (key_hash_canon _ _ _ Hk) in Hidx. fold i in Hidx. subst j. congruence.
Qed.

(** What a search finds *)
Lemma search_spec ht m key : holds ht m ->
  exists chain, ht_table ht !! Z.to_nat (Z.land (key_hash lower key) (ht_rows ht)) = Some chain /\
    match chain !! scan lower (key_hash lower key) key chain with
    | Some e => canon lower (he_key e) = canon lower key /\ m !! canon lower key = Some (he_value e)
    | None => scan lower (key_hash lower key) key chain = length chain /\ m !! canon lower key = None
    end.
Proof.
  intros H. pose proof (key_hash_range lower key) as Hr.
  destruct (lookup_lt_is_Some_2 _ _ (row_lt ht m (key_hash lower key) H ltac:(lia))) as [chain Hc].
  exists chain. split; [exact Hc|].
  pose proof (scan_spec (ht_rows ht) _ chain key (ho_entries ht m H _ _ Hc)) as Hs. cbn zeta in Hs.
  destruct (chain !! _) as [e|] eqn:Ee.
  - split; [done|]. rewrite (ho_map ht m H). apply elem_of_list_to_map_1; [apply H|].
    rewrite <- Hs. change (canon lower (he_key e), he_value e) with (kv e). apply list_elem_of_fmap_2.
    apply list_elem_of_In, in_concat. exists chain. split; apply list_elem_of_In; by eapply list_elem_of_lookup_2.
  - destruct Hs as [-> Hs]. split; [done|]. rewrite (ho_map ht m H). apply not_elem_of_list_to_map_1.
    intros Hin. apply list_elem_of_fmap in Hin as ([ck v] & Eck & Hin). apply list_elem_of_fmap in Hin as (e & Ekv & He).
    cbn in Eck. injection Ekv as Ek _. rewrite Forall_forall in Hs.
    apply (Hs e); [|congruence]. eapply other_chains; [exact H|exact Hc|exact He|congruence].
Qed.

Lemma hash_get_spec ht m key keylen hval : holds ht m -> hval_ok lower (key_bytes key keylen) hval ->
  hash_get ht key keylen hval lower = Some (m !! canon lower (key_bytes key keylen)).
Proof.
  intros H Hv. unfold hash_get, find_entry. cbv zeta. rewrite entry_hash_ok by done.
  destruct (search_spec ht m (key_bytes key keylen) H) as (chain & Hc & Hs). rewrite Hc. cbn [mbind option_bind].
  destruct (chain !! _) as [e|] eqn:Ee.
  - cbn [mbind option_bind]. rewrite Hc. cbn [mbind option_bind]. rewrite Ee. by destruct Hs as [_ ->].
  - cbn [mbind option_bind]. rewrite Hc. cbn [mbind option_bind]. rewrite Ee. by destruct Hs as [_ ->].
Qed.

(** Replacing a chain *)
Lemma replace_chain ht m i c c' n m' :
  holds ht m -> ht_table ht !! i = Some c -> Forall (entry_ok (ht_rows ht) i) c' ->
  NoDup (map kv (concat (take i (ht_table ht)) ++ c' ++ concat (drop (S i) (ht_table ht)))).*1 ->
  m' = list_to_map (map kv (concat (take i (ht_table ht)) ++ c' ++ concat (drop (S i) (ht_table ht)))) ->
  n = u32 (Z.of_nat (length (concat (ht_table ht))) + Z.of_nat (length c') - Z.of_nat (length c)) ->
  holds (mk_table (<[i := c']> (ht_table ht)) n (ht_rows ht)) m'.
Proof.
  intros H Hc Hf Hn Hm Hl. destruct (concat_split (ht_table ht) i c c' Hc) as [E1 E2].
  split; cbn [ht_table ht_rows ht_count]; try (by apply H); rewrite ?E2; try done.
  - rewrite length_insert. apply H.
  - intros j ch Hj. apply list_lookup_insert_Some in Hj as [(<- & <- & _)|[_ Hj]]; [done|by apply (ho_entries ht m H)].
  - rewrite Hl. f_equal. apply (f_equal length) in E1. rewrite !length_app in *. lia.
Qed.

(** One entry taken out of the list of all *)
Lemma perm_middle (pre c1 c2 post : list (pj_hash_entry A)) e :
  pre ++ (c1 ++ e :: c2) ++ post ≡ₚ e :: pre ++ (c1 ++ c2) ++ post.
Proof. rewrite <- !app_assoc. cbn. rewrite (app_assoc pre c1), <- Permutation_middle. by rewrite <- !app_assoc. Qed.

Lemma nodup_perm (l l' : list (list Z * A)) : l ≡ₚ l' -> NoDup l.*1 -> NoDup l'.*1.
Proof. intros Hp. by rewrite Hp. Qed.

Lemma holds_middle ht m i c1 e c2 : holds ht m -> ht_table ht !! i = Some (c1 ++ e :: c2) ->
  let rest := concat (take i (ht_table ht)) ++ (c1 ++ c2) ++ concat (drop (S i) (ht_table ht)) in
  NoDup (kv e :: map kv rest).*1 /\ m = <[canon lower (he_key e) := he_value e]> (list_to_map (map kv rest)).
Proof.
  intros H Hc rest. destruct (concat_split (ht_table ht) i (c1 ++ e :: c2) [] Hc) as [E _].
  pose proof (perm_middle (concat (take i (ht_table ht))) c1 c2 (concat (drop (S i) (ht_table ht))) e) as Hp.
  fold rest in Hp. rewrite <- E in Hp. pose proof (Permutation_map kv Hp) as Hpk. cbn [map] in Hpk.
  pose proof (ho_nodup ht m H) as Hn. split.
  - exact (nodup_perm _ _ Hpk Hn).
  - rewrite (ho_map ht m H). by rewrite (list_to_map_proper _ _ Hn Hpk).
Qed.

Lemma set_entry ht m i c1 e c2 e' : holds ht m -> ht_table ht !! i = Some (c1 ++ e :: c2) ->
  entry_ok (ht_rows ht) i e' -> canon lower (he_key e') = canon lower (he_key e) ->
  holds (mk_table (<[i := c1 ++ e' :: c2]> (ht_table ht)) (ht_count ht) (ht_rows ht))
    (<[canon lower (he_key e) := he_value e']> m).
Proof.
  intros H Hc He' Hk. destruct (holds_middle ht m i c1 e c2 H Hc) as [Hn Hm].
  pose proof (Permutation_map kv (perm_middle (concat (take i (ht_table ht))) c1 c2 (concat (drop (S i) (ht_table ht))) e')) as Hp.
  set (rest := concat (take i (ht_table ht)) ++ (c1 ++ c2) ++ concat (drop (S i) (ht_table ht))) in *.
  cbn [map] in Hp. assert (Hn' : NoDup (kv e' :: map kv rest).*1) by (cbn in *; by rewrite Hk).
  eapply replace_chain; [exact H|exact Hc| | | |].
  - pose proof (ho_entries ht m H i _ Hc) as Hf. apply Forall_app in Hf as [Hf1 Hf2]. apply Forall_cons_1 in Hf2 as [_ Hf2].
    apply Forall_app. split; [done|]. by constructor.
  - exact (nodup_perm _ _ (symmetry Hp) Hn').
  - rewrite (list_to_map_proper _ (kv e' :: map kv rest)); [|exact (nodup_perm _ _ (symmetry Hp) Hn')|exact Hp].
    rewrite Hm. cbn. by rewrite insert_insert_eq, Hk.
  - rewrite (ho_count ht m H). f_equal. rewrite !length_app. cbn. lia.
Qed.

Lemma del_entry ht m i c1 e c2 : holds ht m -> ht_table ht !! i = Some (c1 ++ e :: c2) ->
  holds (mk_table (<[i := c1 ++ c2]> (ht_table ht)) (u32 (ht_count ht - 1)) (ht_rows ht))
    (delete (canon lower (he_key e)) m).
Proof.
  intros H Hc. destruct (holds_middle ht m i c1 e c2 H Hc) as [Hn Hm].
  set (rest := concat (take i (ht_table ht)) ++ (c1 ++ c2) ++ concat (drop (S i) (ht_table ht))) in *.
  cbn in Hn. apply NoDup_cons in Hn as [Hni Hn].
  eapply replace_chain; [exact H|exact Hc| |exact Hn| |].
  - pose proof (ho_entries ht m H i _ Hc) as Hf. apply Forall_app in Hf as [Hf1 Hf2]. apply Forall_cons_1 in Hf2 as [_ Hf2].
    by apply Forall_app.
  - rewrite Hm. rewrite delete_insert_id; [done|]. by apply not_elem_of_list_to_map_1.
  - rewrite (ho_count ht m H). unfold u32. rewrite Zminus_mod_idemp_l. f_equal. rewrite !length_app. cbn. lia.
Qed.

Lemma add_entry ht m i c e : holds ht m -> ht_table ht !! i = Some c -> entry_ok (ht_rows ht) i e ->
  m !! canon lower (he_key e) = None ->
  holds (mk_table (<[i := c ++ [e]]> (ht_table ht)) (u32 (ht_count ht + 1)) (ht_rows ht))
    (<[canon lower (he_key e) := he_value e]> m).
Proof.
  intros H Hc He Hnone. destruct (concat_split (ht_table ht) i c [] Hc) as [E _].
  set (pre := concat (take i (ht_table ht))) in *. set (post := concat (drop (S i) (ht_table ht))) in *.
  pose proof (Permutation_map kv (perm_middle pre c [] post e)) as Hp. rewrite app_nil_r, <- E in Hp. cbn [map] in Hp.
  assert (Hn : NoDup (kv e :: map kv (concat (ht_table ht))).*1).
  { cbn. apply NoDup_cons. split; [|apply H]. rewrite (ho_map ht m H) in Hnone. by apply not_elem_of_list_to_map_2 in Hnone. }
  assert (Hn2 : NoDup (map kv (pre ++ (c ++ [e]) ++ post)).*1).
  { exact (nodup_perm _ _ (symmetry Hp) Hn). }
  eapply replace_chain; [exact H|exact Hc| |exact Hn2| |].
  - apply Forall_app. split; [by apply (ho_entries ht m H)|by constructor].
  - rewrite (list_to_map_proper _ _ Hn2 Hp). cbn. by rewrite (ho_map ht m H).
  - rewrite (ho_count ht m H). unfold u32. rewrite Zplus_mod_idemp_l. f_equal. rewrite !length_app. cbn. lia.
Qed.

Lemma hash_set_spec ht m key keylen hval value : holds ht m ->
  let k := key_bytes key keylen in hval_ok lower k hval -> key_ok lower k ->
  exists ht', hash_set ht key keylen hval value lower = Some ht' /\
    holds ht' (match value with Some v => <[canon lower k := v]> m | None => delete (canon lower k) m end).
Proof.
  intros H k Hv Hk. unfold hash_set, find_entry. cbv zeta. fold k. rewrite entry_hash_ok by done.
  destruct (search_spec ht m k H) as (chain & Hc & Hs). pose proof (lookup_lt_Some _ _ _ Hc) as Hlt.
  set (i := Z.to_nat (Z.land (key_hash lower k) (ht_rows ht))) in *. rewrite Hc. cbn [mbind option_bind].
  set (pos := scan lower (key_hash lower k) k chain) in *.
  destruct (chain !! pos) as [e|] eqn:Ee.
  - destruct Hs as [Hck Hm]. cbn [mbind option_bind]. rewrite Hc. cbn [mbind option_bind]. rewrite Ee.
    pose proof (take_drop_middle chain pos e Ee) as Hch. rewrite <- Hch in Hc.
    pose proof (lookup_lt_Some _ _ _ Ee) as Hpos.
    destruct value as [v|]; rewrite lwrite_eq by done; cbn [mbind option_bind]; (eexists; split; [done|]).
    + rewrite (insert_take_drop chain pos) by done. rewrite <- Hck.
      apply (set_entry ht m i (take pos chain) e (drop (S pos) chain) (set_value v e) H Hc); [|done].
      pose proof (ho_entries ht m H i _ Hc) as Hf. apply Forall_app in Hf as [_ Hf]. by apply Forall_cons_1 in Hf as [Hf _].
    + rewrite <- Hck. by apply (del_entry ht m i (take pos chain) e (drop (S pos) chain) H Hc).
  - destruct Hs as [Hpos Hm]. destruct value as [v|].
    + rewrite lwrite_eq by done. cbn [mbind option_bind ht_table]. rewrite list_lookup_insert_eq by done. cbn [mbind option_bind].
      rewrite lookup_app_r, Hpos, Nat.sub_diag by lia. cbn [lookup list_lookup].
      rewrite lwrite_eq by (by rewrite length_insert). cbn [mbind option_bind ht_count ht_rows]. eexists. split; [done|].
      rewrite list_insert_insert_eq. rewrite insert_app_r_alt, Nat.sub_diag by lia. cbn.
      apply (add_entry ht m i chain (mk_entry k (key_hash lower k) (length k) v) H Hc); [|done]. by split_and!.
    + cbn [mbind option_bind]. rewrite Hc. cbn [mbind option_bind]. rewrite Ee. exists ht. split; [done|].
      by rewrite delete_id.
Qed.

(** ** Walking the table *)

(** The entries from an iterator on *)
Definition rest ht (it : pj_hash_iterator_t) : list (pj_hash_entry A) :=
  match ht_table ht !! it_index it with
  | Some chain => drop (it_entry it) chain ++ concat (drop (S (it_index it)) (ht_table ht))
  | None => []
  end.

Definition it_valid ht (it : pj_hash_iterator_t) : Prop :=
  exists chain e, ht_table ht !! it_index it = Some chain /\ chain !! it_entry it = Some e.

Lemma next_row_spec ht n : forall i, (i + n = length (ht_table ht))%nat ->
  match next_row ht n i with
  | None => concat (drop i (ht_table ht)) = []
  | Some it => it_valid ht it /\ rest ht it = concat (drop i (ht_table ht))
  end.
Proof.
  induction n as [|n IH]; intros i Hi; cbn [next_row].
  { by rewrite drop_ge by lia. }
  destruct (lookup_lt_is_Some_2 (ht_table ht) i) as [chain Hc]; [lia|]. rewrite Hc.
  rewrite (drop_S _ _ _ Hc). cbn [concat]. destruct chain as [|e chain]; [apply IH; lia|].
  unfold it_valid, rest. cbn [it_index it_entry]. rewrite Hc. split; [by eexists _, e|done].
Qed.

Lemma first_spec ht m : holds ht m ->
  match pj_hash_first ht with
  | None => concat (ht_table ht) = []
  | Some it => it_valid ht it /\ rest ht it = concat (ht_table ht)
  end.
Proof.
  intros H. pose proof (ho_len ht m H). apply (next_row_spec ht (Z.to_nat (ht_rows ht + 1)) 0). lia.
Qed.

Lemma next_spec ht m it : holds ht m -> it_valid ht it ->
  exists e l, rest ht it = e :: l /\ pj_hash_this ht it = Some (he_value e) /\
    match pj_hash_next ht it with
    | None => l = []
    | Some it' => it_valid ht it' /\ rest ht it' = l
    end.
Proof.
  intros H (chain & e & Hc & He). unfold rest, pj_hash_this, pj_hash_next. rewrite Hc. cbn [mbind option_bind].
  rewrite He, (drop_S _ _ _ He). exists e, (drop (S (it_entry it)) chain ++ concat (drop (S (it_index it)) (ht_table ht))).
  split_and!; [done|done|]. destruct (chain !! S (it_entry it)) as [e'|] eqn:He'.
  - unfold it_valid, rest. cbn [it_index it_entry]. rewrite Hc. split; [by eexists _, e'|done].
  - apply lookup_ge_None in He'. rewrite (drop_ge chain) by done.
    pose proof (ho_len ht m H). pose proof (lookup_lt_Some _ _ _ Hc).
    pose proof (next_row_spec ht (Z.to_nat (ht_rows ht) - it_index it) (S (it_index it)) ltac:(lia)) as Hn.
    destruct (next_row _ _ _); exact Hn.
Qed.

(** The values a loop over the table sees *)
Fixpoint walk ht (fuel : nat) (it : option pj_hash_iterator_t) : list A :=
  match fuel, it with
  | S fuel', Some it =>
      match pj_hash_this ht it with Some v => v :: walk ht fuel' (pj_hash_next ht it) | None => [] end
  | _, _ => []
  end.

Lemma walk_spec ht m fuel : holds ht m -> forall it, it_valid ht it -> (length (rest ht it) <= fuel)%nat ->
  walk ht fuel (Some it) = map he_value (rest ht it).
Proof.
  intros H. induction fuel as [|fuel IH]; intros it Hv Hl.
  { destruct (next_spec ht m it H Hv) as (e & l & Hr & _). rewrite Hr in Hl. cbn in Hl. lia. }
  destruct (next_spec ht m it H Hv) as (e & l & Hr & Ht & Hn). cbn [walk]. rewrite Ht, Hr in *. cbn [map]. f_equal.
  destruct (pj_hash_next ht it) as [it'|]; [|rewrite Hn; by destruct fuel].
  destruct Hn as [Hv' Hr']. rewrite <- Hr'. apply IH; [done|]. rewrite Hr'. cbn in Hl. lia.
Qed.
End Model.

(** ** Creation *)

Lemma table_size_for_ok fuel : forall k size, 0 <= k -> 31 <= k + Z.of_nat fuel -> k < 31 -> size <= 2 ^ 31 ->
  exists j, table_size_for fuel (2 ^ k) size = Some (2 ^ j) /\ k < j <= 31 /\ size <= 2 ^ j.
Proof.
  induction fuel as [|fuel IH]; intros k size Hk Hf Hk31 Hs; [lia|]. cbn [table_size_for].
  rewrite Z.shiftl_mul_pow2, <- Z.pow_add_r by lia.
  assert (Hp : 2 ^ (k + 1) <= 2 ^ 31) by (apply Z.pow_le_mono_r; lia).
  pose proof (Z.pow_pos_nonneg 2 (k + 1)). rewrite u32_id by (unfold is_u32; lia).
  destruct (Z.ltb_spec (2 ^ (k + 1)) size).
  - destruct (decide (k + 1 < 31)) as [Hlt|Hge].
    + destruct (IH (k + 1) size) as (j & E & Hj & Hsz); try lia. exists j. split_and!; (done || lia).
    + replace (k + 1) with 31 in * by lia. lia.
  - exists (k + 1). split_and!; (done || lia).
Qed.

Lemma table_size_for_0 fuel size : 0 < size -> table_size_for fuel 0 size = None.
Proof.
  intros Hs. induction fuel as [|fuel IH]; [done|]. cbn [table_size_for]. change (u32 (Z.shiftl 0 1)) with 0.
  by destruct (Z.ltb_spec 0 size); [|lia].
Qed.

Lemma table_size_for_big fuel size : 2 ^ 31 < size -> forall k, 0 <= k <= 31 -> table_size_for fuel (2 ^ k) size = None.
Proof.
  intros Hs. induction fuel as [|fuel IH]; intros k Hk; [done|]. cbn [table_size_for].
  rewrite Z.shiftl_mul_pow2, <- Z.pow_add_r by lia. destruct (decide (k = 31)) as [->|Hne].
  - change (u32 (2 ^ (31 + 1))) with 0. destruct (Z.ltb_spec 0 size); [|lia]. apply table_size_for_0. lia.
  - assert (Hp : 2 ^ (k + 1) <= 2 ^ 31) by (apply Z.pow_le_mono_r; lia).
    pose proof (Z.pow_pos_nonneg 2 (k + 1)). rewrite u32_id by (unfold is_u32; lia).
    destruct (Z.ltb_spec (2 ^ (k + 1)) size); [apply IH; lia|lia].
Qed.

Lemma holds_empty {A} lower n : 0 <= n <= 31 ->
  holds lower (mk_table (replicate (Z.to_nat (Z.ones n + 1)) []) 0 (Z.ones n)) (∅ : gmap (list Z) A).
Proof.
  intros Hn. assert (Hc : forall k, concat (replicate k (@nil (pj_hash_entry A))) = []) by (induction k; done).
  split; cbn [ht_table ht_rows ht_count]; rewrite ?Hc; try done.
  - by exists n.
  - rewrite length_replicate, Z.ones_equiv. pose proof (Z.pow_pos_nonneg 2 n). lia.
  - intros i chain Hi. apply lookup_replicate in Hi as [-> _]. constructor.
  - constructor.
Qed.

Lemma create_spec (A : Type) size : 0 <= size <= 2 ^ 31 ->
  exists ht j, pj_hash_create A size = Some ht /\ (forall lower, holds lower ht ∅) /\
    ht_rows ht + 1 = 2 ^ j /\ 4 <= j <= 31 /\ size <= 2 ^ j.
Proof.
  intros Hs. unfold pj_hash_create. change 8 with (2 ^ 3).
  destruct (table_size_for_ok 32 3 size) as (j & -> & Hj & Hsz); [lia..|]. cbn [mbind option_bind].
  assert (Hp : 2 ^ j <= 2 ^ 31) by (apply Z.pow_le_mono_r; lia). pose proof (Z.pow_pos_nonneg 2 j).
  rewrite (u32_id (2 ^ j - 1)) by (unfold is_u32; lia). eexists _, j. split; [done|]. cbn [ht_rows].
  split_and!; try lia. intros lower. replace (2 ^ j - 1) with (Z.ones j) by (rewrite Z.ones_equiv; lia).
  apply holds_empty. lia.
Qed.

(** Creating a table for at most 2^31 entries returns an empty table whose
    number of rows is a power of two of at least that size; above, the doubled
    size wraps to zero and the loop never ends. *)
Theorem create_terminates (A : Type) size : 0 <= size ->
  if size <=? 2 ^ 31
  then exists ht j, pj_hash_create A size = Some ht /\ (forall lower, holds lower ht ∅) /\
         ht_rows ht + 1 = 2 ^ j /\ 4 <= j <= 31 /\ size <= 2 ^ j
  else forall fuel, table_size_for fuel 8 size = None.
Proof.
  intros Hs. destruct (Z.leb_spec size (2 ^ 31)) as [Hle|Hgt]; [by apply create_spec|].
  intros fuel. change 8 with (2 ^ 3). apply table_size_for_big; lia.
Qed.

Lemma create_terminates_witness : exists ht : pj_hash_table_t Z, pj_hash_create Z 100 = Some ht /\ ht_rows ht = 127.
Proof.
  pose proof (create_terminates Z 100 ltac:(lia)) as H. cbn [Z.leb Z.compare] in H.
  destruct H as (ht & j & E & _ & Hr & Hj & Hs). exists ht. split; [exact E|].
  vm_compute in E. injection E as <-. reflexivity.
Defined.

(** A loop with the iterator sees every value once. *)
Lemma walk_all {A} lower (ht : pj_hash_table_t A) m : holds lower ht m ->
  base.size m = length (concat (ht_table ht)) /\ walk ht (base.size m) (pj_hash_first ht) ≡ₚ (map_to_list m).*2.
Proof.
  intros H.
  assert (Hp : map_to_list m ≡ₚ map (kv lower) (concat (ht_table ht))).
  { rewrite (ho_map lower ht m H). apply map_to_list_to_map, H. }
  assert (Hsz : base.size m = length (concat (ht_table ht))).
  { rewrite <- length_map_to_list, Hp. by rewrite length_map. }
  split; [exact Hsz|].
  rewrite Hp, Hsz. replace (map (kv lower) (concat (ht_table ht))).*2 with (map he_value (concat (ht_table ht)))
    by (rewrite <- list_fmap_compose; done).
  pose proof (first_spec lower ht m H) as Hf. destruct (pj_hash_first ht) as [it|].
  - destruct Hf as [Hv Hr]. rewrite (walk_spec lower ht m _ H it Hv) by (by rewrite Hr). by rewrite Hr.
  - rewrite Hf. done.
Qed.

Lemma count_spec {A} lower (ht : pj_hash_table_t A) m : holds lower ht m ->
  pj_hash_count ht = u32 (Z.of_nat (base.size m)).
Proof.
  intros H. unfold pj_hash_count. rewrite (ho_count lower ht m H). by rewrite (proj1 (walk_all lower ht m H)).
Qed.

(** ** The properties *)

(** C34: a table used with one kind of comparison is a finite map over the keys up
    to that comparison: a search returns the value of the map, setting a value
    inserts or overwrites it, setting NULL deletes it, the count is the size of
    the map, and a loop with the iterator sees every value exactly once.  The
    caller may give the hash value of the key or none. *)
Theorem hash_refines_map {A} (lower : bool) (ht : pj_hash_table_t A) (m : gmap (list Z) A) : holds lower ht m ->
  (forall key keylen hval, let k := key_bytes key keylen in hval_ok lower k hval ->
     hash_get ht key keylen hval lower = Some (m !! canon lower k)) /\
  (forall key keylen hval value, let k := key_bytes key keylen in hval_ok lower k hval -> key_ok lower k ->
     exists ht', hash_set ht key keylen hval value lower = Some ht' /\
       holds lower ht' (match value with Some v => <[canon lower k := v]> m | None => delete (canon lower k) m end)) /\
  pj_hash_count ht = u32 (Z.of_nat (base.size m)) /\
  walk ht (base.size m) (pj_hash_first ht) ≡ₚ (map_to_list m).*2.
Proof.
  intros H. split_and!.
  - intros key keylen hval k Hv. by apply hash_get_spec.
  - intros key keylen hval value k Hv Hk. by apply hash_set_spec.
  - by apply (count_spec lower).
  - by apply (walk_all lower).
Qed.

(** A table with two keys, one found in other case *)
Lemma hash_refines_map_witness : exists ht : pj_hash_table_t Z,
  holds true ht (<[[107; 50] := 2]> (<[[107; 49] := 1]> ∅)) /\
  pj_hash_get_lower ht [75; 49] (Some 2%nat) 0 = Some (Some 1).
Proof.
  destruct (hash_refines_map true (mk_table (replicate 16 []) 0 15) (∅ : gmap (list Z) Z) (holds_empty true 4 ltac:(lia)))
    as (_ & Hset & _).
  destruct (Hset [107; 49] (Some 2%nat) 0 (Some 1)) as (h1 & _ & H1); [by left|repeat constructor; discriminate|].
  destruct (hash_refines_map true h1 _ H1) as (_ & Hset1 & _).
  destruct (Hset1 [75; 50] (Some 2%nat) 0 (Some 2)) as (h2 & _ & H2); [by left|repeat constructor; discriminate|].
  exists h2. split; [exact H2|]. destruct (hash_refines_map true h2 _ H2) as (Hget & _).
  etransitivity; [exact (Hget [75; 49] (Some 2%nat) 0 ltac:(by left))|].
  cbn [key_bytes take canon map]. f_equal.
Defined.
