(* ===== verification/TsxLayer.v ===== *)
(** * Transactions: keys and the transaction layer (pjsip/src/pjsip/sip_transaction.c)

    The hash table of all transactions under their keys, and the dispatch of
    received messages to them.  The table is the one of Hash, a transaction the
    one of TsxData with its own messages; where a transaction unregisters itself
    (an effect of its log) the layer removes its key.  Functions of pjlib that are
    inlined from a header not in the repository are parameters. *)

From S2P Require Import Prelude PjTime Hash SipTypes TsxData TsxOps TsxHandlers TsxInv TsxSend TsxSafe.

(** ** The calls of the layer on a transaction it found *)

Definition tsx_find_refs (add_ref : bool) : M unit := grp_lock_ref 1 ;; when (negb add_ref) (grp_lock_ref (-1)).

Definition tsx_take_msg (cfg : tsx_cfg) (env : send_env) (rdata : pjsip_rx_data) : M unit :=
  grp_lock_ref 1 ;; pjsip_tsx_recv_msg cfg env rdata ;; grp_lock_ref (-1).

Delimit Scope tsx_scope with tsx.
#[local] Close Scope tsx_scope.

(** ** Data *)

Definition PJ_EBUSY : Z := 70011.
Definition PJSIP_EMISSINGHDR : Z := 171050.
Definition PJSIP_EINVALIDHDR : Z := 171051.
Definition PJSIP_RFC3261_BRANCH_LEN : nat := 7.
(** z9hG4bK *)
Definition PJSIP_RFC3261_BRANCH_ID : list Z := [122; 57; 104; 71; 52; 98; 75].
Definition SEPARATOR : Z := 36.

Record pjsip_method := mk_method { m_id : pjsip_method_e; m_name : list Z }.

Record pjsip_via_hdr := mk_via { via_branch : list Z; via_host : list Z; via_port : Z }.

(** The headers of a received message the layer looks at; [None] is NULL. *)
Record rx_msg_info := mk_info {
  mi_via : option pjsip_via_hdr;
  mi_cseq : option (Z * pjsip_method);
  mi_from_tag : option (list Z);
  mi_call_id : option (list Z);
  mi_req_method : pjsip_method
}.

Record tsx_obj := mk_obj { to_key : list Z; to_hashed_key : Z; to_world : world }.

(** mod_tsx_layer *)
Record mod_tsx_layer := mk_layer {
  l_htable : pj_hash_table_t Z;
  l_objs : gmap Z tsx_obj
}.

(** ** Printing numbers (pjlib/src/pj/string.c) *)

(** The digits, last one first; [fuel] bounds the loop. *)
Fixpoint utoa_digits (fuel : nat) (val : Z) : list Z :=
  match fuel with
  | O => []
  | S fuel' => (val mod 10 + 48) :: (if 0 <? val / 10 then utoa_digits fuel' (val / 10) else [])
  end.

(** At most twenty digits for 64 bits; they are reversed in place. *)
Definition pj_utoa (val : Z) : list Z := rev (utoa_digits 20 val).

(** ** Keys *)

Definition role_char (r : pjsip_role_e) : Z := match r with PJSIP_ROLE_UAC => 99 | PJSIP_ROLE_UAS => 115 end.

(** "Add method, except when method is INVITE or ACK." *)
Definition key_method (m : pjsip_method) : list Z :=
  if bool_decide (m_id m = PJSIP_INVITE_METHOD) || bool_decide (m_id m = PJSIP_ACK_METHOD) then []
  else m_name m ++ [SEPARATOR].

(** A key written into a buffer of [len_required] bytes; [None] is an overflow. *)
Definition in_buffer (len_required : Z) (key : list Z) : option (list Z) :=
  if zlen key <=? len_required then Some key else None.

Definition len_required_2543 (m : pjsip_method) (tag cid host : list Z) : Z :=
  zlen (m_name m) + 11 + zlen tag + zlen cid + zlen host + 11 + 16.

(** The status of an error, or the key; [None] follows a NULL pointer or leaves
    the buffer. *)
Definition create_tsx_key_2543 (r : pjsip_role_e) (m : pjsip_method) (i : rx_msg_info) : option (Z + list Z) :=
  match mi_via i, mi_cseq i, mi_from_tag i with
  | Some via, Some (cseq, _), Some tag =>
      cid ← mi_call_id i;
      key ← in_buffer (len_required_2543 m tag cid (via_host via))
        ([role_char r; SEPARATOR] ++ key_method m ++ pj_utoa cseq ++ [SEPARATOR] ++ tag ++ [SEPARATOR] ++
         cid ++ [SEPARATOR] ++ via_host via ++ [58] ++ pj_utoa (via_port via) ++ [SEPARATOR; 0]);
      Some (inr key)
  | _, _, _ => Some (inl PJSIP_EMISSINGHDR)
  end.

Definition create_tsx_key_3261 (r : pjsip_role_e) (m : pjsip_method) (branch : list Z) : option (list Z) :=
  in_buffer (zlen branch + zlen (m_name m) + 4) ([role_char r; SEPARATOR] ++ key_method m ++ branch).

(** ** The layer *)

Section Layer.
(** pj_strnicmp and pj_strcmp of pjlib (string_i.h) *)
Context (pj_strnicmp : list Z -> list Z -> nat -> Z) (pj_strcmp : list Z -> list Z -> Z).
Context (cfg : tsx_cfg).

Definition pjsip_tsx_create_key (r : pjsip_role_e) (m : pjsip_method) (i : rx_msg_info) : option (Z + list Z) :=
  via ← mi_via i;
  if pj_strnicmp (via_branch via) PJSIP_RFC3261_BRANCH_ID PJSIP_RFC3261_BRANCH_LEN =? 0
  then key ← create_tsx_key_3261 r m (via_branch via); Some (inr key)
  else create_tsx_key_2543 r m i.

(** pjsip_method_cmp gives zero (pjsip/src/pjsip/sip_msg.c) *)
Definition pjsip_method_eq (m1 m2 : pjsip_method) : bool :=
  if bool_decide (m_id m1 = m_id m2)
  then negb (bool_decide (m_id m1 = PJSIP_OTHER_METHOD)) || (pj_strcmp (m_name m1) (m_name m2) =? 0)
  else false.

(** pjsip_tsx_layer_init_module: the table *)
Definition layer_init (max_count : Z) : option mod_tsx_layer :=
  t ← pj_hash_create Z max_count; Some (mk_layer t ∅).

Definition mod_tsx_layer_register_tsx (l : mod_tsx_layer) (id : Z) (key : list Z) (hashed : Z) :
    option (Z * mod_tsx_layer) :=
  found ← pj_hash_get_lower (l_htable l) key (Some (length key)) 0;
  match found with
  | Some _ => Some (PJ_EEXISTS, l)
  | None =>
      t ← pj_hash_set_lower (l_htable l) key (Some (length key)) hashed (Some id);
      Some (PJ_SUCCESS, mk_layer t (l_objs l))
  end.

(** mod_tsx_layer_unregister_tsx, on the table *)
Definition unregister_key (l : mod_tsx_layer) (o : tsx_obj) : option mod_tsx_layer :=
  t ← pj_hash_set_lower (l_htable l) (to_key o) (Some (length (to_key o))) (to_hashed_key o) None;
  Some (mk_layer t (l_objs l)).

Definition pjsip_tsx_layer_get_tsx_count (l : mod_tsx_layer) : Z := pj_hash_count (l_htable l).

Definition is_unregister (e : effect) : bool := match e with E_unregister => true | _ => false end.

(** An operation on one transaction; [None] when it gets stuck or there is no
    such transaction. *)
Definition on_tsx (l : mod_tsx_layer) (id : Z) (m : M unit) : option mod_tsx_layer :=
  o ← l_objs l !! id;
  '(_, w) ← m (to_world o);
  let l := mk_layer (l_htable l) (<[id := mk_obj (to_key o) (to_hashed_key o) w]> (l_objs l)) in
  if existsb is_unregister (drop (length (w_log (to_world o))) (w_log w)) then unregister_key l o else Some l.

(** [find_tsx]: the transaction, with one reference more when [add_ref] *)
Definition find_tsx (l : mod_tsx_layer) (key : list Z) (add_ref : bool) : option (option Z * mod_tsx_layer) :=
  found ← pj_hash_get_lower (l_htable l) key (Some (length key)) 0;
  match found with
  | None => Some (None, l)
  | Some id => l ← on_tsx l id (tsx_find_refs add_ref); Some (Some id, l)
  end.
Definition pjsip_tsx_layer_find_tsx (l : mod_tsx_layer) (key : list Z) := find_tsx l key false.
Definition pjsip_tsx_layer_find_tsx2 (l : mod_tsx_layer) (key : list Z) (add_ref : bool) := find_tsx l key add_ref.

(** What mod_tsx_layer_on_rx_request and mod_tsx_layer_on_rx_response share: the
    flag says that a transaction took the message. *)
Definition on_rx (r : pjsip_role_e) (l : mod_tsx_layer) (i : rx_msg_info) (env : send_env) (rdata : pjsip_rx_data) :
    option (bool * mod_tsx_layer) :=
  cseq ← mi_cseq i;
  key ← pjsip_tsx_create_key r (snd cseq) i;
  match key with
  | inl _ => None     (* the key is not set *)
  | inr key =>
      found ← pj_hash_get_lower (l_htable l) key (Some (length key)) 0;
      match found with
      | None => Some (false, l)
      | Some id =>
          o ← l_objs l !! id;
          if bool_decide (state (w_tsx (to_world o)) = PJSIP_TSX_STATE_TERMINATED) then Some (false, l)
          else
            l ← on_tsx l id (tsx_take_msg cfg env rdata);
            Some (true, l)
      end
  end.

Definition mod_tsx_layer_on_rx_request := on_rx PJSIP_ROLE_UAS.
Definition mod_tsx_layer_on_rx_response := on_rx PJSIP_ROLE_UAC.

(** What the functions that create a transaction return: the status, the layer
    and the messages. *)
Definition created_tsx : Type := Z * mod_tsx_layer * gmap Z pjsip_tx_data.

(** A transaction that is given up *)
Definition give_up_tsx (status : Z) (l : mod_tsx_layer) (w : world) : option created_tsx :=
  '(_, w) ← tsx_shutdown w; Some (status, l, w_tds w).

(** The last step of both functions *)
Definition register_new (l : mod_tsx_layer) (id : Z) (key : list Z) (w : world) : option created_tsx :=
  let hashed := fst (pj_hash_calc_tolower 0 key) in
  '(status, l) ← mod_tsx_layer_register_tsx l id key hashed;
  if status =? PJ_SUCCESS
  then Some (status, mk_layer (l_htable l) (<[id := mk_obj key hashed w]> (l_objs l)), w_tds w)
  else give_up_tsx status l w.

(** [id] is the address of the new transaction, [branch] the one of the Via
    header (empty when there is none), [unique] the generated string;
    [create_status] is what tsx_create returns, [dest] what
    pjsip_get_request_dest returns with the reliability flag. *)
Definition pjsip_tsx_create_uac2 (l : mod_tsx_layer) (id : Z) (user : option tsx_user_t) (m : pjsip_method)
    (is_request : bool) (cseq : option Z) (branch unique : list Z) (tdata : Z) (tds : gmap Z pjsip_tx_data)
    (refs create_status : Z) (dest : Z * bool) : option created_tsx :=
  if negb is_request then Some (PJSIP_ENOTREQUESTMSG, l, tds)
  else if bool_decide (m_id m = PJSIP_ACK_METHOD) then Some (PJ_EINVALIDOP, l, tds)
  else
    match cseq with
    | None => Some (PJSIP_EMISSINGHDR, l, tds)
    | Some _ =>
        if negb (create_status =? PJ_SUCCESS) then Some (create_status, l, tds)
        else
          let branch := match branch with [] => PJSIP_RFC3261_BRANCH_ID ++ [80; 106] ++ unique | _ => branch end in
          key ← create_tsx_key_3261 PJSIP_ROLE_UAC m branch;
          '(_, w) ← pjsip_tx_data_add_ref tdata
                      (mk_world (tsx_init_uac user (m_id m) tdata (snd dest) refs) tds [] true);
          if negb (fst dest =? PJ_SUCCESS) then give_up_tsx (fst dest) l w
          else register_new l id key w
    end.

(** [addr] is what pjsip_get_response_addr returns, with the transport and the
    length of the address and the reliability of the destination. *)
Definition pjsip_tsx_create_uas2 (l : mod_tsx_layer) (id : Z) (user : option tsx_user_t) (is_request : bool)
    (i : rx_msg_info) (tds : gmap Z pjsip_tx_data) (refs create_status : Z)
    (addr : Z * option pjsip_transport * Z * bool) : option created_tsx :=
  let m := mi_req_method i in
  if negb is_request then Some (PJSIP_ENOTREQUESTMSG, l, tds)
  else if bool_decide (m_id m = PJSIP_ACK_METHOD) then Some (PJ_EINVALIDOP, l, tds)
  else
    match mi_cseq i, mi_via i with
    | Some (_, cm), Some via =>
        if negb (pjsip_method_eq m cm) then Some (PJSIP_EINVALIDHDR, l, tds)
        else if negb (create_status =? PJ_SUCCESS) then Some (create_status, l, tds)
        else
          let '(st, tp, len, rel) := addr in
          let w0 := mk_world (tsx_init_uas user (m_id m) tp len rel refs) tds [] true in
          key ← pjsip_tsx_create_key PJSIP_ROLE_UAS m i;
          match key with
          | inl e => give_up_tsx e l w0
          | inr key =>
              if negb (st =? PJ_SUCCESS) then give_up_tsx st l w0
              else '(_, w) ← uas_bind_transport w0; register_new l id key w
          end
    | _, _ => Some (PJSIP_EMISSINGHDR, l, tds)
    end.

(** mod_tsx_layer_stop: the transactions of the table one after the other *)
Fixpoint stop_all (l : mod_tsx_layer) (ids : list Z) : option mod_tsx_layer :=
  match ids with
  | [] => Some l
  | id :: ids' => l ← on_tsx l id mod_tsx_layer_stop; stop_all l ids'
  end.

Definition layer_stop (l : mod_tsx_layer) : option mod_tsx_layer :=
  stop_all l (walk (l_htable l) (Z.to_nat (ht_count (l_htable l))) (pj_hash_first (l_htable l))).

(** mod_tsx_layer_unload: the table is destroyed now only when it is empty. *)
Definition mod_tsx_layer_unload (l : mod_tsx_layer) : Z :=
  if negb (pj_hash_count (l_htable l) =? 0) then PJ_EBUSY else PJ_SUCCESS.
End Layer.

(** ** Numbers *)

Lemma utoa_digits_spec fuel : forall val n, 0 <= val < 10 ^ Z.of_nat n -> (n <= fuel)%nat -> (0 < n)%nat ->
  (length (utoa_digits fuel val) <= n)%nat /\ Forall (fun c => 48 <= c <= 57) (utoa_digits fuel val).
Proof.
  induction fuel as [|fuel IH]; intros val n Hv Hn Hp; [lia|]. cbn [utoa_digits].
  assert (Hd : 48 <= val mod 10 + 48 <= 57) by (pose proof (Z.mod_pos_bound val 10); lia).
  destruct (Z.ltb_spec 0 (val / 10)) as [Hq|Hq]; [|cbn; split; [lia|by apply Forall_singleton]].
  destruct n as [|[|n]]; [lia| |].
  { exfalso. change (10 ^ Z.of_nat 1) with 10 in Hv. rewrite Z.div_small in Hq; lia. }
  destruct (IH (val / 10) (S n)) as [IH1 IH2]; [|lia..|cbn; split; [lia|by constructor]].
  split; [lia|]. apply Z.div_lt_upper_bound; [lia|].
  rewrite <- Z.pow_succ_r by lia. replace (Z.succ (Z.of_nat (S n))) with (Z.of_nat (S (S n))) by lia. lia.
Qed.

Lemma pj_utoa_spec val n : 0 <= val < 10 ^ Z.of_nat n -> (0 < n <= 20)%nat ->
  zlen (pj_utoa val) <= Z.of_nat n /\ Forall (fun c => 48 <= c <= 57) (pj_utoa val).
Proof.
  intros Hv Hn. destruct (utoa_digits_spec 20 val n Hv) as [H1 H2]; [lia..|].
  unfold pj_utoa, zlen. rewrite length_rev. split; [lia|]. by apply Forall_rev.
Qed.

(** ** Keys *)

(** Messages of one transaction have the same method, ACK and INVITE apart. *)
Definition invite_or_ack (m : pjsip_method) : bool :=
  bool_decide (m_id m = PJSIP_INVITE_METHOD) || bool_decide (m_id m = PJSIP_ACK_METHOD).

Definition lowercase (s : list Z) : list Z := map pj_tolower s.

Definition same_method (m1 m2 : pjsip_method) : Prop :=
  if invite_or_ack m1 then invite_or_ack m2 = true
  else invite_or_ack m2 = false /\ lowercase (m_name m1) = lowercase (m_name m2).

(** What the parser leaves in a method name and in a branch *)
Definition key_part (s : list Z) : Prop := Forall (fun c => c <> SEPARATOR /\ c <> 0) s.

Lemma zlen_app {A} (l1 l2 : list A) : zlen (l1 ++ l2) = zlen l1 + zlen l2.
Proof. unfold zlen. rewrite length_app. lia. Qed.
Lemma zlen_cons {A} (x : A) l : zlen (x :: l) = 1 + zlen l.
Proof. unfold zlen. cbn. lia. Qed.
Lemma zlen_nonneg {A} (l : list A) : 0 <= zlen l.
Proof. unfold zlen. lia. Qed.

Lemma key_method_len m : zlen (key_method m) <= zlen (m_name m) + 1.
Proof.
  unfold key_method. destruct (_ || _); rewrite ?zlen_app; pose proof (zlen_nonneg (m_name m));
    change (zlen [SEPARATOR]) with 1; change (zlen (@nil Z)) with 0; lia.
Qed.

Definition key_3261 (r : pjsip_role_e) (m : pjsip_method) (branch : list Z) : list Z :=
  [role_char r; SEPARATOR] ++ key_method m ++ branch.

Lemma key_3261_eq r m branch : create_tsx_key_3261 r m branch = Some (key_3261 r m branch).
Proof.
  unfold create_tsx_key_3261, in_buffer, key_3261. rewrite (proj2 (Z.leb_le _ _)); [done|].
  rewrite !zlen_app. pose proof (key_method_len m). change (zlen [_; _]) with 2. lia.
Qed.

Lemma key_2543_eq r m i via cseq cm tag cid :
  mi_via i = Some via -> mi_cseq i = Some (cseq, cm) -> mi_from_tag i = Some tag -> mi_call_id i = Some cid ->
  is_u32 cseq -> is_u16 (via_port via) ->
  create_tsx_key_2543 r m i = Some (inr (
    [role_char r; SEPARATOR] ++ key_method m ++ pj_utoa cseq ++ [SEPARATOR] ++ tag ++ [SEPARATOR] ++
    cid ++ [SEPARATOR] ++ via_host via ++ [58] ++ pj_utoa (via_port via) ++ [SEPARATOR; 0])).
Proof.
  intros Hv Hc Ht Hi Hcs Hp. unfold create_tsx_key_2543. rewrite Hv, Hc, Ht, Hi. cbn [mbind option_bind].
  unfold in_buffer. rewrite (proj2 (Z.leb_le _ _)); [done|]. unfold len_required_2543, is_u32, is_u16 in *.
  destruct (pj_utoa_spec cseq 10) as [H1 _]; [change (10 ^ Z.of_nat 10) with 10000000000; lia|lia|].
  destruct (pj_utoa_spec (via_port via) 5) as [H2 _]; [change (10 ^ Z.of_nat 5) with 100000; lia|lia|].
  rewrite !zlen_app. pose proof (key_method_len m). change (zlen [_; _]) with 2. change (zlen [_]) with 1. lia.
Qed.

Lemma tolower_sep c : pj_tolower c = SEPARATOR <-> c = SEPARATOR.
Proof. unfold pj_tolower, SEPARATOR. destruct (Z.leb_spec 65 c), (Z.leb_spec c 90); cbn [andb]; lia. Qed.

Lemma lowercase_sep s : key_part s -> Forall (fun c => c <> SEPARATOR) (lowercase s).
Proof.
  intros H. apply Forall_map. eapply Forall_impl; [exact H|]. cbn. intros c [Hc _] E. by apply Hc, tolower_sep.
Qed.

(** What precedes the first separator is determined. *)
Lemma sep_inj a : forall b (s t : list Z), Forall (fun c => c <> SEPARATOR) a -> Forall (fun c => c <> SEPARATOR) b ->
  a ++ SEPARATOR :: s = b ++ SEPARATOR :: t -> a = b /\ s = t.
Proof.
  induction a as [|x a IH]; intros [|y b] s t Ha Hb E; cbn in E.
  - by injection E.
  - injection E as E _. apply Forall_cons_1 in Hb as [Hb _]. congruence.
  - injection E as E _. apply Forall_cons_1 in Ha as [Ha _]. congruence.
  - injection E as -> E. apply Forall_cons_1 in Ha as [_ Ha], Hb as [_ Hb].
    destruct (IH b s t Ha Hb E) as [-> ->]. done.
Qed.

Lemma no_sep_app a (s : list Z) : ~ Forall (fun c => c <> SEPARATOR) (a ++ SEPARATOR :: s).
Proof. intros H. apply Forall_app in H as [_ H]. by apply Forall_cons_1 in H as [H _]. Qed.

Lemma key_3261_canon r m b :
  lowercase (key_3261 r m b) =
  role_char r :: SEPARATOR :: (if invite_or_ack m then [] else lowercase (m_name m) ++ [SEPARATOR]) ++ lowercase b.
Proof.
  unfold key_3261, key_method, invite_or_ack. destruct r, (_ || _); unfold lowercase; rewrite ?map_app; done.
Qed.

Lemma key_3261_same r1 m1 b1 r2 m2 b2 : key_part (m_name m1) -> key_part (m_name m2) -> key_part b1 -> key_part b2 ->
  lowercase (key_3261 r1 m1 b1) = lowercase (key_3261 r2 m2 b2) <->
  r1 = r2 /\ same_method m1 m2 /\ lowercase b1 = lowercase b2.
Proof.
  intros Hm1 Hm2 Hb1 Hb2. rewrite !key_3261_canon. unfold same_method.
  apply lowercase_sep in Hm1, Hm2, Hb1, Hb2. split.
  - intros E. injection E as Er E. assert (Err : r1 = r2) by (destruct r1, r2; done). split; [done|].
    destruct (invite_or_ack m1), (invite_or_ack m2); cbn [app] in E; rewrite <- ?app_assoc in E; cbn [app] in E.
    + done.
    + rewrite E in Hb1. by apply no_sep_app in Hb1.
    + rewrite <- E in Hb2. by apply no_sep_app in Hb2.
    + apply sep_inj in E as [E1 E2]; [|done..]. done.
  - intros (-> & Hs & Eb). rewrite Eb. do 3 f_equal.
    destruct (invite_or_ack m1); [by rewrite Hs|]. destruct Hs as [-> Hs]. by rewrite Hs.
Qed.

(** ** Transactions that are given up *)

(** The messages and the transaction's reference to one stay as they are. *)
Definition tds_kept (w w' : world) : Prop := w_tds w' = w_tds w /\ last_tx (w_tsx w') = last_tx (w_tsx w) /\
  w_layer_up w' = w_layer_up w.

#[local] Instance tds_kept_preorder : PreOrder tds_kept.
Proof.
  split; [by split|]. intros w1 w2 w3 (A1 & A2 & A3) (B1 & B2 & B3). split_and!; congruence.
Qed.

(** A quiet operation that also keeps the messages *)
Lemma kept_put f : harmless f -> rel_op tds_kept (put f).
Proof.
  intros Hf w Hw. split; [by apply (quiet_put f Hf)|]. split; [done|]. cbn. by destruct (Hf (w_tsx w)) as (_ & _ & _ & _ & -> & _).
Qed.

Lemma kept_log e : rel_op tds_kept (log e).
Proof. intros w Hw. split; [by destruct Hw|done]. Qed.

Lemma kept_flags f : (forall t, f t = set_transport_flag (transport_flag (f t)) t) -> rel_op tds_kept (put f).
Proof.
  intros Hf w [W1 W2 W3 W4]. unfold wp, put. rewrite Hf. by split.
Qed.

Lemma kept_user_flag b : rel_op tds_kept
  (when b (set_flag TSX_HAS_PENDING_DESTROY ;; put (set_tsx_user None))%tsx).
Proof.
  intros w Hw. destruct b; [|by split]. destruct Hw. by split.
Qed.

Lemma kept_terminating b : rel_op tds_kept (when b (put (set_terminating true) ;; grp_lock_ref (-1))%tsx).
Proof. intros w Hw. destruct b; [|by split]. destruct Hw. by split. Qed.

Create HintDb kept.
#[local] Hint Resolve rel_ret rel_get rel_layer_up rel_when rel_if kept_log harmless_set_timer
  kept_user_flag kept_terminating : kept.
#[local] Hint Extern 1 (harmless _) => intros ?; simpl; tauto : kept.
#[local] Hint Extern 1 (PreOrder _) => apply _ : kept.
#[local] Hint Extern 1 (rel_op _ skip) => apply rel_ret : kept.
#[local] Hint Extern 1 (rel_op _ (get_flag _)) => apply rel_get : kept.
#[local] Hint Extern 1 (rel_op _ (clear_flag _)) => by apply kept_flags : kept.
#[local] Hint Extern 2 (rel_op tds_kept (put _)) => apply kept_put : kept.
#[local] Hint Extern 3 (rel_op _ (bind _ _)) => apply rel_bind; [apply _| |intros ?] : kept.
#[local] Hint Extern 4 (rel_op _ (match ?x with _ => _ end)) => destruct x : kept.

Lemma kept_update_transport tp : rel_op tds_kept (tsx_update_transport tp).
Proof.
  unfold tsx_update_transport, tsx_tp_state_callback, cancel_timer_, tsx_cancel_timer, schedule_timer_,
    tsx_schedule_timer, grp_lock_ref. eauto 40 with kept.
Qed.

Lemma kept_shutdown_end term : rel_op tds_kept (
  cancel_timer_ Timeout ;; cancel_timer_ Retransmit ;;
  clear_flag (Z.lor TSX_HAS_PENDING_RESCHED TSX_HAS_PENDING_SEND) ;;
  bind (get_flag TSX_HAS_PENDING_TRANSPORT) (fun pend =>
  when pend (set_flag TSX_HAS_PENDING_DESTROY ;; put (set_tsx_user None)) ;;
  when (negb term) (put (set_terminating true) ;; grp_lock_ref (-1)) ;;
  ret PJ_SUCCESS))%tsx.
Proof. unfold cancel_timer_, tsx_cancel_timer, grp_lock_ref. eauto 40 with kept. Qed.

(** The reference to the last message is given back. *)
Definition release_td (td : option Z) (tds : gmap Z pjsip_tx_data) : gmap Z pjsip_tx_data :=
  match td with Some td => alter (fun d => td_set_ref d (td_ref d - 1)) td tds | None => tds end.

Lemma give_up_tsx_spec status l w : core_ok w ->
  give_up_tsx status l w = Some (status, l, release_td (last_tx (w_tsx w)) (w_tds w)).
Proof.
  intros Hw. enough (H : wp tsx_shutdown (fun _ w' => w_tds w' = release_td (last_tx (w_tsx w)) (w_tds w)) w).
  { apply wp_run in H as (a & w' & E & Ht). unfold give_up_tsx. rewrite E. cbn. by rewrite Ht. }
  unfold tsx_shutdown. apply wp_bind. eapply (wp_core tds_kept); [apply kept_update_transport|done|].
  intros _ w1 H1 (T1 & L1 & _). apply wp_get. apply wp_bind. eapply (wp_core tds_kept); [eauto with kept|done|].
  intros _ w2 H2 (T2 & L2 & _). apply wp_get. rewrite L2, L1. apply wp_bind.
  eapply (wp_mono _ (fun _ w3 => core_ok w3 /\ w_tds w3 = release_td (last_tx (w_tsx w)) (w_tds w))).
  - destruct (last_tx (w_tsx w)) as [td|] eqn:El; [|split; [done|by rewrite T2, T1]].
    destruct (ok_last _ Hw td El) as [d Hd]. unfold wp, bind, pjsip_tx_data_dec_ref, td_put.
    rewrite T2, T1, Hd. cbn. split.
    + destruct H2 as [C1 C2 C3 C4]. split; cbn; try done. intros td' E. rewrite <- T1, <- T2. by apply insert_is_Some, C4.
    + apply map_eq. intros k. destruct (decide (td = k)) as [<-|Hne];
        [by rewrite lookup_insert_eq, lookup_alter_eq, Hd|by rewrite lookup_insert_ne, lookup_alter_ne].
  - intros _ w3 [H3 E3]. eapply (wp_core tds_kept); [apply kept_shutdown_end|done|].
    intros _ w4 _ [T4 _]. by rewrite T4.
Qed.

(** ** The layer is a finite map from keys to transactions *)

(** A transaction object: its hash value is that of its key, its state is that
    of a transaction. *)
Record obj_ok (o : tsx_obj) : Prop := {
  oo_hash : to_hashed_key o = key_hash true (to_key o);
  oo_key : key_ok true (to_key o);
  oo_tsx : tsx_ok (to_world o);
  oo_up : w_layer_up (to_world o) = true
}.

(** [m] maps the keys in lower case to the registered transactions. *)
Record layer_rep (l : mod_tsx_layer) (m : gmap (list Z) Z) : Prop := {
  lr_table : holds true (l_htable l) m;
  lr_named : forall ck id, m !! ck = Some id -> exists o, l_objs l !! id = Some o /\ lowercase (to_key o) = ck;
  lr_objs : forall id o, l_objs l !! id = Some o -> obj_ok o
}.

Lemma layer_init_spec max_count : 0 <= max_count <= 2 ^ 31 ->
  exists l, layer_init max_count = Some l /\ layer_rep l ∅.
Proof.
  intros Hs. unfold layer_init. destruct (create_spec Z max_count Hs) as (ht & j & -> & Hh & _).
  eexists. split; [done|]. split; [apply Hh|done|done].
Qed.

(** The transaction unregistered itself during an operation that led to [w]. *)
Definition unregisters (o : tsx_obj) (w : world) : bool :=
  existsb is_unregister (drop (length (w_log (to_world o))) (w_log w)).

Definition set_obj_world (o : tsx_obj) (w : world) : tsx_obj := mk_obj (to_key o) (to_hashed_key o) w.

Lemma full_key (k : list Z) : key_bytes k (Some (length k)) = k.
Proof. cbn. by rewrite firstn_all. Qed.

Lemma layer_get l m key hval : layer_rep l m -> hval_ok true key hval ->
  pj_hash_get_lower (l_htable l) key (Some (length key)) hval = Some (m !! lowercase key).
Proof.
  intros H Hv. unfold pj_hash_get_lower. rewrite (hash_get_spec true _ m); [|apply H|by rewrite full_key].
  by rewrite full_key.
Qed.

Lemma layer_set l m key hval v : layer_rep l m -> hval_ok true key hval -> key_ok true key ->
  exists t, pj_hash_set_lower (l_htable l) key (Some (length key)) hval v = Some t /\
    holds true t (match v with Some v => <[lowercase key := v]> m | None => delete (lowercase key) m end).
Proof.
  intros H Hv Hk. pose proof (hash_set_spec true (l_htable l) m key (Some (length key)) hval v (lr_table _ _ H)) as Hs.
  cbv zeta in Hs. rewrite full_key in Hs. by apply Hs.
Qed.

(** A transaction changes its state. *)
Lemma layer_update l m id o w : layer_rep l m -> l_objs l !! id = Some o -> tsx_ok w ->
  w_layer_up w = w_layer_up (to_world o) -> layer_rep (mk_layer (l_htable l) (<[id := set_obj_world o w]> (l_objs l))) m.
Proof.
  intros H Ho Hw Hup. split; cbn [l_htable l_objs]; [apply H| |].
  - intros ck id' Hck. destruct (lr_named _ _ H ck id' Hck) as (o' & Ho' & Ek).
    destruct (decide (id = id')) as [<-|Hne]; [|rewrite lookup_insert_ne by done; eauto].
    rewrite lookup_insert_eq. eexists. split; [done|]. assert (o' = o) as -> by congruence. exact Ek.
  - intros id' o' Ho'. destruct (decide (id = id')) as [<-|Hne].
    + rewrite lookup_insert_eq in Ho'. injection Ho' as <-. destruct (lr_objs _ _ H id o Ho) as [H1 H2 _ H3]. split; try done. cbn. by rewrite Hup.
    + rewrite lookup_insert_ne in Ho' by done. by eapply lr_objs.
Qed.

Lemma unregister_spec l m o : layer_rep l m -> obj_ok o ->
  exists l', unregister_key l o = Some l' /\ l_objs l' = l_objs l /\ layer_rep l' (delete (lowercase (to_key o)) m).
Proof.
  intros H [Hh Hk _ _]. unfold unregister_key.
  destruct (layer_set l m (to_key o) (to_hashed_key o) None H) as (t & Ht & Hm); [by right|done|].
  rewrite Ht. cbn. eexists. split; [done|]. split; [done|]. split; [exact Hm| |by apply H].
  intros ck id Hck. apply lookup_delete_Some in Hck as [_ Hck]. by apply H.
Qed.

(** An operation on a transaction *)
Lemma on_tsx_spec l m id o (p : M unit) : layer_rep l m -> l_objs l !! id = Some o ->
  wp p (good (to_world o)) (to_world o) ->
  exists w l', p (to_world o) = Some (tt, w) /\ ext (to_world o) w /\ on_tsx l id p = Some l' /\
    l_objs l' = <[id := set_obj_world o w]> (l_objs l) /\
    layer_rep l' (if unregisters o w then delete (lowercase (to_key o)) m else m).
Proof.
  intros H Ho Hp. apply wp_run in Hp as ([] & w & Ep & Hw & Hx).
  pose proof (layer_update l m id o w H Ho Hw (x_layer _ _ Hx)) as H1. exists w.
  unfold on_tsx. rewrite Ho. cbn [mbind option_bind]. rewrite Ep. cbn [mbind option_bind]. fold (set_obj_world o w).
  fold (unregisters o w). destruct (unregisters o w).
  - destruct (unregister_spec _ m o H1 (lr_objs _ _ H id o Ho)) as (l' & El & Eo & Hl). exists l'.
    split; [done|]. split; [done|]. split; [done|]. split; [exact Eo|exact Hl].
  - eexists. done.
Qed.

(** A new transaction *)
Lemma register_new_spec l m id key w : layer_rep l m -> key_ok true key -> tsx_ok w -> w_layer_up w = true ->
  (forall ck, m !! ck <> Some id) ->
  match m !! lowercase key with
  | Some _ => register_new l id key w = Some (PJ_EEXISTS, l, release_td (last_tx (w_tsx w)) (w_tds w))
  | None => exists l', register_new l id key w = Some (PJ_SUCCESS, l', w_tds w) /\
      l_objs l' = <[id := mk_obj key (key_hash true key) w]> (l_objs l) /\
      layer_rep l' (<[lowercase key := id]> m)
  end.
Proof.
  intros H Hk Hw Hup Hid. unfold register_new. cbv zeta. rewrite (proj2 (hash_calc_agrees key)).
  unfold mod_tsx_layer_register_tsx. rewrite (layer_get l m) by (done || by left). cbn [mbind option_bind].
  destruct (m !! lowercase key) as [x|] eqn:Em; [cbn; by apply give_up_tsx_spec, Hw|].
  destruct (layer_set l m key (key_hash true key) (Some id) H) as (t & Ht & Hm); [by right|done|].
  rewrite Ht. cbn. eexists. split; [done|]. split; [done|]. split; cbn [l_htable l_objs].
  - exact Hm.
  - intros ck id' Hck. destruct (decide (lowercase key = ck)) as [<-|Hne].
    + rewrite lookup_insert_eq in Hck. injection Hck as <-. rewrite lookup_insert_eq. by eexists.
    + rewrite lookup_insert_ne in Hck by done. destruct (decide (id = id')) as [<-|Hn]; [by apply Hid in Hck|].
      rewrite lookup_insert_ne by done. by apply H.
  - intros id' o' Ho'. destruct (decide (id = id')) as [<-|Hne].
    + rewrite lookup_insert_eq in Ho'. injection Ho' as <-. by split.
    + rewrite lookup_insert_ne in Ho' by done. by eapply lr_objs.
Qed.

(** ** Creating transactions *)

Definition no_nul (s : list Z) : Prop := Forall (fun c => c <> 0) s.

Lemma key_part_no_nul s : key_part s -> no_nul s.
Proof. intros H. eapply Forall_impl; [exact H|]. by intros c []. Qed.

Lemma forall_removelast {A} (P : A -> Prop) (l : list A) : Forall P l -> Forall P (removelast l).
Proof.
  induction 1 as [|x l Hx Hl IH]; [constructor|]. destruct l; [constructor|]. by constructor.
Qed.

Lemma key_method_no_nul m : no_nul (m_name m) -> no_nul (key_method m).
Proof.
  intros H. unfold key_method, no_nul. destruct (_ || _); [constructor|].
  apply Forall_app. split; [exact H|by apply Forall_singleton].
Qed.

Lemma role_no_nul r : no_nul [role_char r; SEPARATOR].
Proof. apply Forall_cons. split; [by destruct r|by apply Forall_singleton]. Qed.

Lemma key_3261_ok r m branch : no_nul (m_name m) -> no_nul branch ->
  key_ok true (key_3261 r m branch).
Proof.
  intros Hm Hb. apply forall_removelast, Forall_app. split; [apply role_no_nul|].
  apply Forall_app. split; [by apply key_method_no_nul|done].
Qed.

Lemma digits_no_nul s : Forall (fun c => 48 <= c <= 57) s -> no_nul s.
Proof. intros H. eapply Forall_impl; [exact H|]. cbn. lia. Qed.

(** The headers the layer looks at are there, and as the parser leaves them. *)
Record info_ok (i : rx_msg_info) (via : pjsip_via_hdr) (cseq : Z) (cm : pjsip_method) (tag cid : list Z) : Prop := {
  io_via : mi_via i = Some via;
  io_cseq : mi_cseq i = Some (cseq, cm);
  io_tag : mi_from_tag i = Some tag;
  io_cid : mi_call_id i = Some cid;
  io_seq : is_u32 cseq;
  io_port : is_u16 (via_port via);
  io_name : key_part (m_name cm);
  io_req : key_part (m_name (mi_req_method i));
  io_branch : key_part (via_branch via);
  io_text : no_nul tag /\ no_nul cid /\ no_nul (via_host via)
}.

Section LayerProofs.
Context (pj_strnicmp : list Z -> list Z -> nat -> Z) (pj_strcmp : list Z -> list Z -> Z).
Context (cfg : tsx_cfg).
Abbreviation create_key := (pjsip_tsx_create_key pj_strnicmp).

Lemma create_key_ok r m i via cseq cm tag cid : info_ok i via cseq cm tag cid -> key_part (m_name m) ->
  exists key, create_key r m i = Some (inr key) /\ key_ok true key.
Proof.
  intros [Hv Hc Ht Hi Hs Hp Hn _ Hb (H1 & H2 & H3)] Hm. unfold pjsip_tsx_create_key. rewrite Hv. cbn [mbind option_bind].
  apply key_part_no_nul in Hm, Hb. destruct (_ =? 0).
  - rewrite key_3261_eq. cbn. eexists. split; [done|]. by apply key_3261_ok.
  - erewrite key_2543_eq by eassumption. eexists. split; [done|].
    unfold is_u32, is_u16 in *.
    destruct (pj_utoa_spec cseq 10) as [_ D1]; [change (10 ^ Z.of_nat 10) with 10000000000; lia|lia|].
    destruct (pj_utoa_spec (via_port via) 5) as [_ D2]; [change (10 ^ Z.of_nat 5) with 100000; lia|lia|].
    rewrite !app_assoc. unfold key_ok. rewrite removelast_app by done. cbn [removelast].
    rewrite !Forall_app. repeat match goal with |- _ /\ _ => split end;
      try (by apply Forall_singleton); try done; try (by apply digits_no_nul); try (by apply role_no_nul).
    by apply key_method_no_nul.
Qed.

(** The branch a client transaction has *)
Definition uac_branch (branch unique : list Z) : list Z :=
  match branch with [] => PJSIP_RFC3261_BRANCH_ID ++ [80; 106] ++ unique | _ => branch end.

(** The new transaction of a client *)
Definition new_uac (user : option tsx_user_t) (m : pjsip_method) (tdata : Z) (tds : gmap Z pjsip_tx_data) (refs : Z)
    (rel : bool) : world :=
  mk_world (tsx_init_uac user (m_id m) tdata rel refs)
    (alter (fun d => td_set_ref d (td_ref d + 1)) tdata tds) [] true.

Lemma new_uac_ok user m tdata tds refs rel : is_Some (tds !! tdata) -> tsx_ok (new_uac user m tdata tds refs rel).
Proof.
  intros [d Hd]. apply created_ok. constructor. rewrite lookup_alter_eq, Hd. by eexists.
Qed.

Lemma add_release td tds d : tds !! td = Some d ->
  release_td (Some td) (alter (fun d => td_set_ref d (td_ref d + 1)) td tds) = tds.
Proof.
  intros Hd. cbn [release_td]. apply map_eq. intros k. destruct (decide (td = k)) as [<-|Hne].
  - rewrite !lookup_alter_eq, Hd. cbn. f_equal. destruct d as [msg n p mo]. unfold td_set_ref. cbn. f_equal. lia.
  - by rewrite !lookup_alter_ne.
Qed.

(** A request that may start a client transaction *)
Definition uac_valid (m : pjsip_method) (is_request : bool) (cseq : option Z) : Prop :=
  is_request = true /\ m_id m <> PJSIP_ACK_METHOD /\ is_Some cseq.

Lemma create_uac_valid l m id user mt cseq branch unique tdata tds d refs dest :
  layer_rep l m -> no_nul (m_name mt) -> no_nul (uac_branch branch unique) -> tds !! tdata = Some d ->
  (forall ck, m !! ck <> Some id) -> uac_valid mt true cseq ->
  let key := key_3261 PJSIP_ROLE_UAC mt (uac_branch branch unique) in
  let w := new_uac user mt tdata tds refs (snd dest) in
  if fst dest =? PJ_SUCCESS then
    match m !! lowercase key with
    | Some _ => pjsip_tsx_create_uac2 l id user mt true cseq branch unique tdata tds refs PJ_SUCCESS dest =
                  Some (PJ_EEXISTS, l, tds)
    | None => exists l',
        pjsip_tsx_create_uac2 l id user mt true cseq branch unique tdata tds refs PJ_SUCCESS dest =
          Some (PJ_SUCCESS, l', w_tds w) /\
        l_objs l' = <[id := mk_obj key (key_hash true key) w]> (l_objs l) /\ layer_rep l' (<[lowercase key := id]> m)
    end
  else pjsip_tsx_create_uac2 l id user mt true cseq branch unique tdata tds refs PJ_SUCCESS dest =
         Some (fst dest, l, tds).
Proof.
  intros H Hn Hb Hd Hid (_ & Ha & [cs ->]) key w. unfold pjsip_tsx_create_uac2. cbn [negb].
  rewrite bool_decide_false by done. rewrite Z.eqb_refl. cbn [negb]. fold (uac_branch branch unique).
  rewrite key_3261_eq. cbn [mbind option_bind]. fold key.
  assert (Ew : pjsip_tx_data_add_ref tdata (mk_world (tsx_init_uac user (m_id mt) tdata (snd dest) refs) tds [] true) =
               Some (tt, w)).
  { unfold pjsip_tx_data_add_ref, td_put. cbn. rewrite Hd. do 2 f_equal. unfold w, new_uac. f_equal.
    apply map_eq. intros k. destruct (decide (tdata = k)) as [<-|Hne];
      [by rewrite lookup_insert_eq, lookup_alter_eq, Hd|by rewrite lookup_insert_ne, lookup_alter_ne]. }
  rewrite Ew. cbn [mbind option_bind]. pose proof (new_uac_ok user mt tdata tds refs (snd dest) ltac:(by eexists)) as Hw.
  fold w in Hw.
  destruct (fst dest =? PJ_SUCCESS); cbn [negb].
  - pose proof (register_new_spec l m id key w H (key_3261_ok PJSIP_ROLE_UAC mt _ Hn Hb) Hw eq_refl Hid) as Hr.
    destruct (m !! lowercase key); [rewrite Hr|exact Hr]. do 2 f_equal. by eapply add_release.
  - rewrite give_up_tsx_spec by apply Hw. do 2 f_equal. by eapply add_release.
Qed.

(** The new transaction of a server *)
Definition new_uas (user : option tsx_user_t) (m : pjsip_method) (tds : gmap Z pjsip_tx_data) (refs : Z)
    (tp : option pjsip_transport) (len : Z) (rel : bool) : world :=
  mk_world (tsx_init_uas user (m_id m) tp len rel refs) tds [] true.

Lemma bind_transport_ok user m tds refs tp len rel :
  exists w, uas_bind_transport (new_uas user m tds refs tp len rel) = Some (tt, w) /\ tsx_ok w /\ w_tds w = tds /\
    last_tx (w_tsx w) = None /\ w_layer_up w = true /\ state (w_tsx w) = PJSIP_TSX_STATE_NULL.
Proof.
  assert (H0 : core_ok (new_uas user m tds refs tp len rel)) by (split; cbn; done).
  assert (Hk : rel_op tds_kept uas_bind_transport).
  { unfold uas_bind_transport. eauto 20 using kept_update_transport with kept. }
  specialize (Hk _ H0). apply wp_run in Hk as ([] & w & E & Hw & Ht & Hl & Hu). exists w.
  assert (Hc : created w) by by econstructor. apply created_ok in Hc as (H1 & H2 & _). split; [exact E|]. done.
Qed.

(** A request that may start a server transaction *)
Definition uas_valid (i : rx_msg_info) (is_request : bool) (cm : pjsip_method) : Prop :=
  is_request = true /\ m_id (mi_req_method i) <> PJSIP_ACK_METHOD /\
  pjsip_method_eq pj_strcmp (mi_req_method i) cm = true.

Abbreviation create_uas := (pjsip_tsx_create_uas2 pj_strnicmp pj_strcmp).

Lemma create_uas_valid l m id user i via cseq cm tag cid tds refs st tp len rel :
  layer_rep l m -> info_ok i via cseq cm tag cid -> (forall ck, m !! ck <> Some id) -> uas_valid i true cm ->
  exists key, create_key PJSIP_ROLE_UAS (mi_req_method i) i = Some (inr key) /\
  if st =? PJ_SUCCESS then
    match m !! lowercase key with
    | Some _ => create_uas l id user true i tds refs PJ_SUCCESS (st, tp, len, rel) = Some (PJ_EEXISTS, l, tds)
    | None => exists l' w, create_uas l id user true i tds refs PJ_SUCCESS (st, tp, len, rel) =
          Some (PJ_SUCCESS, l', tds) /\
        uas_bind_transport (new_uas user (mi_req_method i) tds refs tp len rel) = Some (tt, w) /\
        l_objs l' = <[id := mk_obj key (key_hash true key) w]> (l_objs l) /\ layer_rep l' (<[lowercase key := id]> m)
    end
  else create_uas l id user true i tds refs PJ_SUCCESS (st, tp, len, rel) = Some (st, l, tds).
Proof.
  intros H Hi Hid (_ & Ha & Hm). destruct (create_key_ok PJSIP_ROLE_UAS (mi_req_method i) i via cseq cm tag cid Hi) as (key & Ek & Hk);
    [by apply Hi|]. exists key. split; [exact Ek|].
  unfold pjsip_tsx_create_uas2. cbv zeta. cbn [negb]. rewrite bool_decide_false by done.
  rewrite (io_cseq _ _ _ _ _ _ Hi), (io_via _ _ _ _ _ _ Hi), Hm, Z.eqb_refl. cbn [negb]. rewrite Ek. cbn [mbind option_bind].
  fold (new_uas user (mi_req_method i) tds refs tp len rel).
  destruct (st =? PJ_SUCCESS); cbn [negb].
  - destruct (bind_transport_ok user (mi_req_method i) tds refs tp len rel) as (w & Ew & Hw & Et & El & Eu & Es).
    rewrite Ew. cbn [mbind option_bind]. pose proof (register_new_spec l m id key w H Hk Hw Eu Hid) as Hr.
    rewrite El, Et in Hr. destruct (m !! lowercase key); [exact Hr|]. destruct Hr as (l' & E & Ho & Hl).
    by exists l', w.
  - rewrite give_up_tsx_spec by (split; cbn; done). done.
Qed.

(** ** Finding and dispatching *)

Lemma find_refs_good b w : tsx_ok w -> wp (tsx_find_refs b) (good w) w.
Proof.
  intros Hw. unfold tsx_find_refs. apply quiet_good; [|done]. destruct b; cbn [negb]; quiet_tac.
Qed.

Lemma take_msg_good env rdata w : tsx_ok w -> env_ok env -> wp (tsx_take_msg cfg env rdata) (good w) w.
Proof.
  intros Hw He. unfold tsx_take_msg. apply wp_bind. eapply wp_quiet; [quiet_tac|exact Hw|]. intros u1 w1 H1 Q1.
  apply wp_bind. eapply wp_mono; [refine (run_op_good cfg w1 (Op_recv_msg env rdata) H1 He _); by intros (? & [=] & _)|]. intros u2 w2 [H2 X2].
  eapply wp_quiet; [quiet_tac|exact H2|]. intros u3 w3 H3 Q3. split; [done|].
  etrans; [by apply quiet_ext|]. etrans; [done|by apply quiet_ext].
Qed.

Lemma find_refs_log b w w' : tsx_find_refs b w = Some (tt, w') -> w_log w' = w_log w.
Proof. by destruct b; intros [= <-]. Qed.

Lemma find_spec l m key b : layer_rep l m ->
  match m !! lowercase key with
  | None => find_tsx l key b = Some (None, l)
  | Some id => exists o w l', l_objs l !! id = Some o /\ find_tsx l key b = Some (Some id, l') /\
      tsx_find_refs b (to_world o) = Some (tt, w) /\ l_objs l' = <[id := set_obj_world o w]> (l_objs l) /\ layer_rep l' m
  end.
Proof.
  intros H. unfold find_tsx. rewrite (layer_get l m) by (done || by left). cbn [mbind option_bind].
  destruct (m !! lowercase key) as [id|] eqn:Em; [|done].
  destruct (lr_named _ _ H _ _ Em) as (o & Ho & Ek).
  destruct (on_tsx_spec l m id o (tsx_find_refs b) H Ho) as (w & l' & Ew & Hx & El & Eo & Hl);
    [apply find_refs_good, (lr_objs _ _ H id o Ho)|].
  exists o, w, l'. rewrite El. unfold unregisters in Hl. rewrite (find_refs_log b _ _ Ew), drop_all in Hl. done.
Qed.

Lemma rx_spec r l m i via cseq cm tag cid env rdata : layer_rep l m -> info_ok i via cseq cm tag cid -> env_ok env ->
  exists key, create_key r cm i = Some (inr key) /\
  match m !! lowercase key with
  | None => on_rx pj_strnicmp cfg r l i env rdata = Some (false, l)
  | Some id => exists o, l_objs l !! id = Some o /\ lowercase (to_key o) = lowercase key /\
      if bool_decide (state (w_tsx (to_world o)) = PJSIP_TSX_STATE_TERMINATED)
      then on_rx pj_strnicmp cfg r l i env rdata = Some (false, l)
      else exists w l', tsx_take_msg cfg env rdata (to_world o) = Some (tt, w) /\ ext (to_world o) w /\
             on_rx pj_strnicmp cfg r l i env rdata = Some (true, l') /\
             l_objs l' = <[id := set_obj_world o w]> (l_objs l) /\
             layer_rep l' (if unregisters o w then delete (lowercase key) m else m)
  end.
Proof.
  intros H Hi He. destruct (create_key_ok r cm i via cseq cm tag cid Hi) as (key & Ek & Hk); [by apply Hi|].
  exists key. split; [exact Ek|]. unfold on_rx. rewrite (io_cseq _ _ _ _ _ _ Hi). cbn [mbind option_bind snd].
  rewrite Ek. cbn [mbind option_bind]. rewrite (layer_get l m) by (done || by left). cbn [mbind option_bind].
  destruct (m !! lowercase key) as [id|] eqn:Em; [|done].
  destruct (lr_named _ _ H _ _ Em) as (o & Ho & Eo). exists o. rewrite Ho. cbn [mbind option_bind].
  split; [done|]. split; [done|]. destruct (bool_decide _); [done|].
  destruct (on_tsx_spec l m id o (tsx_take_msg cfg env rdata) H Ho) as (w & l' & Ew & Hx & El & Eob & Hl);
    [apply take_msg_good; [apply (lr_objs _ _ H id o Ho)|done]|].
  exists w, l'. rewrite El. rewrite Eo in Hl. done.
Qed.

(** ** Stopping the layer *)

Lemma stop_spec w : tsx_ok w -> w_layer_up w = true ->
  wp mod_tsx_layer_stop (fun _ w' => good w tt w' /\
    existsb is_unregister (drop (length (w_log w)) (w_log w')) = true /\
    state_num PJSIP_TSX_STATE_TERMINATED <= state_num (state (w_tsx w')) /\ terminating (w_tsx w') = true) w.
Proof.
  intros Hw Hup. unfold TsxHandlers.mod_tsx_layer_stop. apply wp_bind.
  pose proof (terminate_good PJSIP_SC_SERVICE_UNAVAILABLE w Hw) as H1.
  pose proof (terminate_over PJSIP_SC_SERVICE_UNAVAILABLE w Hw ltac:(done)) as H2.
  unfold wp at 1. unfold wp in H1, H2. destruct (pjsip_tsx_terminate _ w) as [[a w1]|]; [|done].
  destruct H1 as [H1 X1]. apply wp_bind.
  pose proof (quiet_unregister w1 (ok_core _ H1)) as Hq.
  unfold wp at 1. unfold wp in Hq. unfold mod_tsx_layer_unregister_tsx, bind, layer_up, when, log, put in Hq |- *.
  rewrite (x_layer _ _ X1), Hup in Hq |- *. destruct Hq as [C2 Q2]. set (w2 := mk_world _ _ _ _) in *.
  assert (H3 : tsx_ok w2) by by eapply quiet_ok.
  apply wp_bind. eapply wp_mono; [apply shutdown_spec; [apply H3|by rewrite (quiet_state _ _ Q2)]|].
  intros st w3 (H4 & S4 & T4). destruct (x_log _ _ X1) as (l1 & E1 & _). destruct (s_log _ _ S4) as (l3 & E3 & _).
  split; [split; [done|]|].
  - etrans; [done|]. etrans; [by apply quiet_ext|by apply still_ext].
  - split; [|split; [by rewrite (s_state _ _ S4), (quiet_state _ _ Q2)|done]].
    rewrite E3. cbn [w_log w2]. rewrite E1, <- !app_assoc, drop_app_length.
    rewrite !existsb_app. cbn. apply orb_true_r.
Qed.

(** The transactions of the table are distinct. *)
Lemma named_inj l m ck1 ck2 id : layer_rep l m -> m !! ck1 = Some id -> m !! ck2 = Some id -> ck1 = ck2.
Proof.
  intros H H1 H2. destruct (lr_named _ _ H _ _ H1) as (o1 & E1 & <-). destruct (lr_named _ _ H _ _ H2) as (o2 & E2 & <-).
  congruence.
Qed.

(** What a stop leaves of a transaction *)
Definition stopped (o : tsx_obj) : Prop :=
  state_num PJSIP_TSX_STATE_TERMINATED <= state_num (state (w_tsx (to_world o))) /\ terminating (w_tsx (to_world o)) = true.

Lemma stop_all_spec ids : forall l m, layer_rep l m -> ids ≡ₚ (map_to_list m).*2 ->
  exists l', stop_all l ids = Some l' /\ layer_rep l' ∅ /\
    (forall id, id ∈ ids -> exists o, l_objs l' !! id = Some o /\ stopped o) /\
    (forall id, id ∉ ids -> l_objs l' !! id = l_objs l !! id).
Proof.
  induction ids as [|id ids IH]; intros l m H Hp.
  { apply Permutation_nil_l, eq_sym, fmap_nil_inv in Hp. apply map_to_list_empty_iff in Hp as ->.
    exists l. split; [done|]. split; [done|]. split; [|done]. by intros id Hin%elem_of_nil. }
  assert (Hin : exists ck, m !! ck = Some id).
  { assert (Hin : id ∈ (map_to_list m).*2) by (rewrite <- Hp; left).
    apply list_elem_of_fmap in Hin as ([ck id'] & -> & Hin). exists ck. by apply elem_of_map_to_list in Hin. }
  destruct Hin as [ck Hck]. destruct (lr_named _ _ H _ _ Hck) as (o & Ho & Ek).
  destruct (lr_objs _ _ H id o Ho) as [_ _ Hok Hup]. pose proof (stop_spec _ Hok Hup) as Hs.
  destruct (on_tsx_spec l m id o TsxHandlers.mod_tsx_layer_stop H Ho) as (w & l1 & Ew & _ & El & Eo & Hl).
  { eapply wp_mono; [exact Hs|]. by intros [] w' [? _]. }
  unfold wp in Hs. rewrite Ew in Hs. destruct Hs as (_ & Hu & Ht). unfold unregisters in Hl. rewrite Hu, Ek in Hl.
  assert (Hp1 : ids ≡ₚ (map_to_list (delete ck m)).*2).
  { apply (Permutation_cons_inv (a := id)). rewrite Hp, <- (map_to_list_delete m ck id Hck). done. }
  destruct (IH l1 (delete ck m) Hl Hp1) as (l' & E & Hl' & Hst & Hout).
  assert (Hni : id ∉ ids).
  { rewrite Hp1. intros Hin. apply list_elem_of_fmap in Hin as ([ck' id'] & -> & Hin). cbn in *.
    apply elem_of_map_to_list, lookup_delete_Some in Hin as [Hne Hin]. apply Hne. exact (named_inj l m _ _ _ H Hck Hin). }
  exists l'. cbn [stop_all]. rewrite El. split; [exact E|]. split; [done|]. split.
  - intros id' Hid. apply elem_of_cons in Hid as [->|Hid]; [|by apply Hst].
    rewrite (Hout id Hni), Eo, lookup_insert_eq. by exists (set_obj_world o w).
  - intros id' Hid. rewrite not_elem_of_cons in Hid. destruct Hid as [Hne Hid].
    rewrite (Hout id' Hid), Eo. by apply lookup_insert_ne.
Qed.

Lemma create_uas_inv l id user isreq i via cseq cm tag cid tds refs cst addr l' tds' :
  info_ok i via cseq cm tag cid ->
  create_uas l id user isreq i tds refs cst addr = Some (PJ_SUCCESS, l', tds') ->
  uas_valid i isreq cm /\ cst = PJ_SUCCESS /\ fst (fst (fst addr)) = PJ_SUCCESS.
Proof.
  intros Hi. pose proof (create_key_ok PJSIP_ROLE_UAS (mi_req_method i) i via cseq cm tag cid Hi (io_req _ _ _ _ _ _ Hi))
    as (key & Ek & _).
  unfold pjsip_tsx_create_uas2, uas_valid. cbv zeta. destruct isreq; cbn [negb]; [|discriminate].
  destruct (bool_decide_reflect (m_id (mi_req_method i) = PJSIP_ACK_METHOD)) as [Ea|Ea]; [discriminate|].
  rewrite (io_cseq _ _ _ _ _ _ Hi), (io_via _ _ _ _ _ _ Hi).
  destruct (pjsip_method_eq pj_strcmp (mi_req_method i) cm); cbn [negb]; [|discriminate].
  destruct (Z.eqb_spec cst PJ_SUCCESS) as [Ec|Ec]; cbn [negb]; [|intros E; by injection E as E _ _].
  destruct addr as [[[st tp] len] rel]. rewrite Ek. cbn [mbind option_bind fst].
  destruct (Z.eqb_spec st PJ_SUCCESS) as [Es|Es]; cbn [negb]; [done|].
  rewrite give_up_tsx_spec by (split; cbn; done). intros E. by injection E as E _ _.
Qed.

(** ** The properties *)

(** The keys never leave the buffers allocated for them, and two keys made
    from RFC 3261 branches are the same for the table exactly when they are for
    the same role, the same branch up to case and the same method, where ACK
    belongs to INVITE. *)
Theorem transaction_keys r1 m1 b1 r2 m2 b2 i via cseq cm tag cid :
  key_part (m_name m1) -> key_part (m_name m2) -> key_part b1 -> key_part b2 -> info_ok i via cseq cm tag cid ->
  (exists k1 k2, create_tsx_key_3261 r1 m1 b1 = Some k1 /\ create_tsx_key_3261 r2 m2 b2 = Some k2 /\
     (canon true k1 = canon true k2 <-> r1 = r2 /\ same_method m1 m2 /\ lowercase b1 = lowercase b2)) /\
  exists k, create_tsx_key_2543 r1 m1 i = Some (inr k) /\
    zlen k <= len_required_2543 m1 tag cid (via_host via) /\ last k = Some 0.
Proof.
  intros H1 H2 H3 H4 Hi. split.
  - exists (key_3261 r1 m1 b1), (key_3261 r2 m2 b2). rewrite !key_3261_eq. split; [done|]. split; [done|].
    by apply key_3261_same.
  - pose proof (key_2543_eq r1 m1 i via cseq cm tag cid (io_via _ _ _ _ _ _ Hi) (io_cseq _ _ _ _ _ _ Hi)
      (io_tag _ _ _ _ _ _ Hi) (io_cid _ _ _ _ _ _ Hi) (io_seq _ _ _ _ _ _ Hi) (io_port _ _ _ _ _ _ Hi)) as E.
    rewrite E. eexists. split; [done|]. split; [|by rewrite !app_assoc, last_app].
    unfold create_tsx_key_2543 in E.
    rewrite (io_via _ _ _ _ _ _ Hi), (io_cseq _ _ _ _ _ _ Hi), (io_tag _ _ _ _ _ _ Hi), (io_cid _ _ _ _ _ _ Hi) in E.
    cbn [mbind option_bind] in E. unfold in_buffer in E at 1.
    destruct (Z.leb_spec (zlen ([role_char r1; SEPARATOR] ++ key_method m1 ++ pj_utoa cseq ++ [SEPARATOR] ++ tag ++
      [SEPARATOR] ++ cid ++ [SEPARATOR] ++ via_host via ++ [58] ++ pj_utoa (via_port via) ++ [SEPARATOR; 0]))
      (len_required_2543 m1 tag cid (via_host via))); [done|]. discriminate E.
Qed.

(** C21: the layer implements a map from keys to transactions: a search returns
    the transaction of the key and does not change the map, the count is the
    map's, every operation on a transaction returns, and takes its key out of the
    map when it unregisters the transaction and leaves the map alone otherwise.
    A received message goes to the transaction of its key, if there is one and it
    is not terminated, and to no other; else it is left to the other modules and
    nothing changes. *)
Theorem layer_refines_map l m : layer_rep l m ->
  (forall key add_ref, exists l', find_tsx l key add_ref = Some (m !! lowercase key, l') /\ layer_rep l' m) /\
  pjsip_tsx_layer_get_tsx_count l = u32 (Z.of_nat (base.size m)) /\
  (forall id o op, l_objs l !! id = Some o -> op_ok (to_world o) op -> ~ retransmits_nothing (to_world o) op ->
     exists w l', run_op cfg op (to_world o) = Some (tt, w) /\ on_tsx l id (run_op cfg op) = Some l' /\
       l_objs l' = <[id := set_obj_world o w]> (l_objs l) /\
       layer_rep l' (if unregisters o w then delete (lowercase (to_key o)) m else m)) /\
  (forall r i via cseq cm tag cid env rdata, info_ok i via cseq cm tag cid -> env_ok env ->
     exists key, create_key r cm i = Some (inr key) /\
     match m !! lowercase key with
     | None => on_rx pj_strnicmp cfg r l i env rdata = Some (false, l)
     | Some id => exists o, l_objs l !! id = Some o /\ lowercase (to_key o) = lowercase key /\
         if bool_decide (state (w_tsx (to_world o)) = PJSIP_TSX_STATE_TERMINATED)
         then on_rx pj_strnicmp cfg r l i env rdata = Some (false, l)
         else exists w l', tsx_take_msg cfg env rdata (to_world o) = Some (tt, w) /\ ext (to_world o) w /\
                on_rx pj_strnicmp cfg r l i env rdata = Some (true, l') /\
                l_objs l' = <[id := set_obj_world o w]> (l_objs l) /\
                layer_rep l' (if unregisters o w then delete (lowercase key) m else m)
     end).
Proof.
  intros H. split; [|split; [|split]].
  - intros key b. pose proof (find_spec l m key b H) as Hf. destruct (m !! lowercase key) as [id|]; [|eauto].
    destruct Hf as (o & w & l' & _ & E & _ & _ & Hl). eauto.
  - by apply (count_spec true), H.
  - intros id o op Ho Hop Hn.
    destruct (on_tsx_spec l m id o (run_op cfg op) H Ho) as (w & l' & E & _ & El & Eo & Hl);
      [apply run_op_good; [apply (lr_objs _ _ H id o Ho)|done|done]|]. by exists w, l'.
  - intros r i via cseq cm tag cid env rdata. by apply rx_spec.
Qed.

(** Creating a client transaction registers it under the key of its branch,
    unless there is a transaction with that key or the destination cannot be
    found; then the status is an error, the layer is as before and so are the
    messages, the reference on the request given back. *)
Theorem create_uac_functional l m id user mt cseq branch unique tdata tds d refs dest :
  layer_rep l m -> no_nul (m_name mt) -> no_nul (uac_branch branch unique) -> tds !! tdata = Some d ->
  (forall ck, m !! ck <> Some id) -> uac_valid mt true cseq ->
  let key := key_3261 PJSIP_ROLE_UAC mt (uac_branch branch unique) in
  let w := new_uac user mt tdata tds refs (snd dest) in
  let created := pjsip_tsx_create_uac2 l id user mt true cseq branch unique tdata tds refs PJ_SUCCESS dest in
  match fst dest =? PJ_SUCCESS, m !! lowercase key with
  | true, None => exists l', created = Some (PJ_SUCCESS, l', w_tds w) /\ layer_rep l' (<[lowercase key := id]> m) /\
      l_objs l' = <[id := mk_obj key (key_hash true key) w]> (l_objs l)
  | true, Some _ => created = Some (PJ_EEXISTS, l, tds)
  | false, _ => created = Some (fst dest, l, tds)
  end.
Proof.
  intros H Hn Hb Hd Hid Hv key w created.
  pose proof (create_uac_valid l m id user mt cseq branch unique tdata tds d refs dest H Hn Hb Hd Hid Hv) as Hc.
  cbv zeta in Hc. fold key w created in Hc. destruct (fst dest =? PJ_SUCCESS); [|exact Hc].
  destruct (m !! lowercase key); [exact Hc|]. destruct Hc as (l' & H1 & H2 & H3). by exists l'.
Qed.

(** pj_strnicmp gives zero when the strings are equal up to [n] characters,
    whatever the case (pj/string.h). *)
Definition strnicmp_documented : Prop :=
  forall a b n, pj_strnicmp a b n = 0 <-> lowercase (take n a) = lowercase (take n b).

Definition rfc3261 (via : pjsip_via_hdr) : Prop :=
  lowercase (take PJSIP_RFC3261_BRANCH_LEN (via_branch via)) = lowercase PJSIP_RFC3261_BRANCH_ID.

Lemma create_key_3261 r m i via : strnicmp_documented -> mi_via i = Some via -> rfc3261 via ->
  create_key r m i = Some (inr (key_3261 r m (via_branch via))).
Proof.
  intros Hd Hv Hr. unfold pjsip_tsx_create_key. rewrite Hv. cbn [mbind option_bind].
  rewrite (proj2 (Z.eqb_eq _ _)); [by rewrite key_3261_eq|]. by apply Hd.
Qed.

(** C20: after a request has started a server transaction, a request that comes in
    with the same branch and method, or with ACK for INVITE, is given to that
    transaction, and any other request leaves it alone. *)
Theorem uas_matching l m id user isreq i via cseq cm tag cid tds refs cst addr l' tds' :
  strnicmp_documented -> layer_rep l m -> info_ok i via cseq cm tag cid -> rfc3261 via ->
  (forall ck, m !! ck <> Some id) ->
  create_uas l id user isreq i tds refs cst addr = Some (PJ_SUCCESS, l', tds') ->
  forall i2 via2 cseq2 cm2 tag2 cid2 env rdata, info_ok i2 via2 cseq2 cm2 tag2 cid2 -> rfc3261 via2 -> env_ok env ->
  exists b l2, mod_tsx_layer_on_rx_request pj_strnicmp cfg l' i2 env rdata = Some (b, l2) /\
    (same_method (mi_req_method i) cm2 /\ lowercase (via_branch via) = lowercase (via_branch via2) ->
       b = true /\ exists o w, l_objs l' !! id = Some o /\ tsx_take_msg cfg env rdata (to_world o) = Some (tt, w) /\
         l_objs l2 = <[id := set_obj_world o w]> (l_objs l')) /\
    (~ (same_method (mi_req_method i) cm2 /\ lowercase (via_branch via) = lowercase (via_branch via2)) ->
       l_objs l2 !! id = l_objs l' !! id).
Proof.
  intros Hd H Hi Hr Hid Hc i2 via2 cseq2 cm2 tag2 cid2 env rdata Hi2 Hr2 He.
  destruct (create_uas_inv _ _ _ _ _ _ _ _ _ _ _ _ _ _ _ _ Hi Hc) as (Hv & -> & Hst).
  destruct addr as [[[st tp] len] rel]. cbn in Hst. subst st.
  pose proof (proj1 Hv) as ->.
  destruct (create_uas_valid l m id user i via cseq cm tag cid tds refs PJ_SUCCESS tp len rel H Hi Hid Hv) as (key & Ek & Hcr).
  rewrite (create_key_3261 _ _ _ via Hd (io_via _ _ _ _ _ _ Hi) Hr) in Ek. injection Ek as <-.
  cbn [Z.eqb PJ_SUCCESS] in Hcr. rewrite Hc in Hcr.
  set (key := key_3261 PJSIP_ROLE_UAS (mi_req_method i) (via_branch via)) in *.
  destruct (m !! lowercase key) eqn:Em; [discriminate|].
  destruct Hcr as (l1 & w & E & Ew & Eo & Hl). injection E as <- ->.
  destruct (bind_transport_ok user (mi_req_method i) tds refs tp len rel) as (w' & Ew' & _ & _ & _ & _ & Es).
  rewrite Ew in Ew'. injection Ew' as <-.
  destruct (rx_spec PJSIP_ROLE_UAS l' _ i2 via2 cseq2 cm2 tag2 cid2 env rdata Hl Hi2 He) as (key2 & Ek2 & Hrx).
  rewrite (create_key_3261 _ _ _ via2 Hd (io_via _ _ _ _ _ _ Hi2) Hr2) in Ek2. injection Ek2 as <-.
  pose proof (key_3261_same PJSIP_ROLE_UAS (mi_req_method i) (via_branch via) PJSIP_ROLE_UAS cm2 (via_branch via2)
    (io_req _ _ _ _ _ _ Hi) (io_name _ _ _ _ _ _ Hi2) (io_branch _ _ _ _ _ _ Hi) (io_branch _ _ _ _ _ _ Hi2)) as Hsame.
  fold key in Hsame. unfold mod_tsx_layer_on_rx_request.
  destruct (decide (lowercase key = lowercase (key_3261 PJSIP_ROLE_UAS cm2 (via_branch via2)))) as [Ekk|Ekk].
  - rewrite <- Ekk, lookup_insert_eq in Hrx. destruct Hrx as (o & Ho & _ & Hrx).
    assert (Eow : to_world o = w) by (rewrite Eo, lookup_insert_eq in Ho; by injection Ho as <-).
    rewrite bool_decide_false in Hrx by (by rewrite Eow, Es).
    destruct Hrx as (w2 & l2 & E2 & _ & E3 & Eo2 & _). exists true, l2. split; [exact E3|]. split.
    + intros _. split; [done|]. by exists o, w2.
    + intros Hn. destruct Hn. by apply Hsame in Ekk as (_ & ? & ?).
  - rewrite lookup_insert_ne in Hrx by done.
    assert (Hno : ~ (same_method (mi_req_method i) cm2 /\ lowercase (via_branch via) = lowercase (via_branch via2)))
      by (intros [A1 A2]; apply Ekk; by apply Hsame).
    destruct (m !! lowercase (key_3261 PJSIP_ROLE_UAS cm2 (via_branch via2))) as [id2|] eqn:Em2.
    + destruct Hrx as (o & Ho & _ & Hrx). assert (Hne : id2 <> id) by (intros ->; by apply Hid in Em2).
      destruct (bool_decide _); [exists false, l'; split; [exact Hrx|]; split; [by intros ?%Hno|done]|].
      destruct Hrx as (w2 & l2 & _ & _ & E3 & Eo2 & _). exists true, l2. split; [exact E3|].
      split; [by intros ?%Hno|]. intros _. rewrite Eo2. by apply lookup_insert_ne.
    + exists false, l'. split; [exact Hrx|]. split; [by intros ?%Hno|done].
Qed.

(** C40: stopping the layer terminates every transaction in the table, shuts each
    down and leaves the table empty, so that the module can be unloaded. *)
Theorem layer_stop_empties l m : layer_rep l m -> Z.of_nat (base.size m) < 2 ^ 32 ->
  exists l', layer_stop l = Some l' /\ layer_rep l' ∅ /\ mod_tsx_layer_unload l' = PJ_SUCCESS /\
    (forall ck id, m !! ck = Some id -> exists o, l_objs l' !! id = Some o /\ stopped o) /\
    (forall id, (forall ck, m !! ck <> Some id) -> l_objs l' !! id = l_objs l !! id).
Proof.
  intros H Hsz. unfold layer_stop. pose proof (count_spec true _ _ (lr_table _ _ H)) as Hc.
  unfold pj_hash_count in Hc. rewrite Hc, u32_id by (unfold is_u32; lia). rewrite Nat2Z.id.
  destruct (walk_all true _ _ (lr_table _ _ H)) as [_ Hw].
  destruct (stop_all_spec _ l m H Hw) as (l' & E & Hl & Hs & Ho). exists l'. split; [exact E|]. split; [done|].
  assert (Hids : forall id, id ∈ walk (l_htable l) (base.size m) (pj_hash_first (l_htable l)) <-> exists ck, m !! ck = Some id).
  { intros id. rewrite Hw. split.
    - intros Hin. apply list_elem_of_fmap in Hin as ([ck id'] & -> & Hin). exists ck. by apply elem_of_map_to_list in Hin.
    - intros [ck Hck]. apply list_elem_of_fmap. exists (ck, id). split; [done|]. by apply elem_of_map_to_list. }
  split; [|split].
  - unfold mod_tsx_layer_unload. by rewrite (count_spec true _ _ (lr_table _ _ Hl)).
  - intros ck id Hck. apply Hs, Hids. by exists ck.
  - intros id Hid. apply Ho. rewrite Hids. intros [ck Hck]. by apply Hid in Hck.
Qed.
End LayerProofs.

(** ** Witnesses *)

Definition demo_strnicmp (a b : list Z) (n : nat) : Z :=
  if bool_decide (lowercase (take n a) = lowercase (take n b)) then 0 else 1.
Definition demo_strcmp (a b : list Z) : Z := if bool_decide (a = b) then 0 else 1.

Lemma demo_strnicmp_ok : strnicmp_documented demo_strnicmp.
Proof.
  intros a b n. unfold demo_strnicmp.
  destruct (bool_decide_reflect (lowercase (take n a) = lowercase (take n b))); by split.
Qed.

(** INVITE, and the ACK of it with the branch in other case *)
Definition demo_invite : pjsip_method := mk_method PJSIP_INVITE_METHOD [73; 78; 86; 73; 84; 69].
Definition demo_ack : pjsip_method := mk_method PJSIP_ACK_METHOD [65; 67; 75].
Definition demo_via (c : Z) : pjsip_via_hdr := mk_via (PJSIP_RFC3261_BRANCH_ID ++ [c]) [104] 5060.
Definition demo_info (m : pjsip_method) (c : Z) : rx_msg_info :=
  mk_info (Some (demo_via c)) (Some (7, m)) (Some [116]) (Some [99; 105]) m.

Definition demo_layer : mod_tsx_layer := default (mk_layer (mk_table [] 0 0) ∅) (layer_init 10).

Lemma demo_layer_rep : layer_rep demo_layer ∅.
Proof.
  destruct (layer_init_spec 10 ltac:(lia)) as (l & E & H). unfold demo_layer. by rewrite E.
Qed.

Lemma key_part_dec s : forallb (fun c => negb (c =? SEPARATOR) && negb (c =? 0)) s = true -> key_part s.
Proof.
  rewrite forallb_forall. intros H. apply Forall_forall. intros c Hc%list_elem_of_In. specialize (H c Hc).
  apply andb_true_iff in H as [H1 H2]. by rewrite negb_true_iff, Z.eqb_neq in H1, H2.
Qed.

Lemma demo_info_ok m c : key_part (m_name m) -> c = 97 \/ c = 65 ->
  info_ok (demo_info m c) (demo_via c) 7 m [116] [99; 105].
Proof.
  intros Hm Hc. split; try done; try (by split).
  - apply key_part_dec. by destruct Hc as [-> | ->].
  - split; [|split]; apply key_part_no_nul; by apply key_part_dec.
Qed.

Lemma transaction_keys_witness : exists k1 k2,
  create_tsx_key_3261 PJSIP_ROLE_UAS demo_invite (via_branch (demo_via 97)) = Some k1 /\
  create_tsx_key_3261 PJSIP_ROLE_UAS demo_ack (via_branch (demo_via 65)) = Some k2 /\ canon true k1 = canon true k2.
Proof.
  destruct (transaction_keys PJSIP_ROLE_UAS demo_invite (via_branch (demo_via 97)) PJSIP_ROLE_UAS demo_ack
    (via_branch (demo_via 65)) (demo_info demo_invite 97) (demo_via 97) 7 demo_invite [116] [99; 105])
    as [(k1 & k2 & E1 & E2 & Hk) _]; [by apply key_part_dec..|apply demo_info_ok; [by apply key_part_dec|by left]|].
  exists k1, k2. split; [exact E1|]. split; [exact E2|]. apply Hk. split; [reflexivity|]. split; reflexivity.
Defined.

Definition demo_tdata : pjsip_tx_data := mk_tdata (Request PJSIP_INVITE_METHOD) 1 false false.

Lemma create_uac_functional_witness : exists l',
  pjsip_tsx_create_uac2 demo_layer 1 None demo_invite true (Some 7) [] [97; 98] 10 {[ 10 := demo_tdata ]} 0 PJ_SUCCESS
    (PJ_SUCCESS, false) = Some (PJ_SUCCESS, l', {[ 10 := td_set_ref demo_tdata 2 ]}).
Proof.
  pose proof (create_uac_functional demo_layer ∅ 1 None demo_invite (Some 7) [] [97; 98] 10 {[ 10 := demo_tdata ]}
    demo_tdata 0 (PJ_SUCCESS, false) demo_layer_rep) as H.
  destruct H as (l' & E & _); [by apply key_part_no_nul, key_part_dec..|reflexivity|done|by split|].
  exists l'. etransitivity; [exact E|]. reflexivity.
Defined.

(** The layer with one server transaction *)
Lemma demo_uas : exists l' tds', pjsip_tsx_create_uas2 demo_strnicmp demo_strcmp demo_layer 1 None true
  (demo_info demo_invite 97) ∅ 0 PJ_SUCCESS (PJ_SUCCESS, None, 0, false) = Some (PJ_SUCCESS, l', tds') /\
  exists ck, layer_rep l' {[ ck := 1 ]}.
Proof.
  destruct (create_uas_valid demo_strnicmp demo_strcmp demo_layer ∅ 1 None (demo_info demo_invite 97) (demo_via 97) 7
    demo_invite [116] [99; 105] ∅ 0 PJ_SUCCESS None 0 false demo_layer_rep) as (key & _ & l' & w & E & _ & _ & H).
  - apply demo_info_ok; [by apply key_part_dec|by left].
  - done.
  - by split.
  - exists l', ∅. split; [exact E|]. by eexists.
Qed.

Lemma uas_matching_witness : exists l' tds' l2 w,
  pjsip_tsx_create_uas2 demo_strnicmp demo_strcmp demo_layer 1 None true
    (demo_info demo_invite 97) ∅ 0 PJ_SUCCESS (PJ_SUCCESS, None, 0, false) = Some (PJ_SUCCESS, l', tds') /\
  mod_tsx_layer_on_rx_request demo_strnicmp (mk_cfg 500 4000 5000 32000) l' (demo_info demo_ack 65)
    (mk_env PJ_SUCCESS [] PJ_SUCCESS (inl PJ_ENOMEM)) (mk_rdata 3 (Request PJSIP_ACK_METHOD)) = Some (true, l2) /\
  exists o, l_objs l2 = <[1 := set_obj_world o w]> (l_objs l').
Proof.
  destruct demo_uas as (l' & tds' & E & _).
  pose proof (uas_matching demo_strnicmp demo_strcmp (mk_cfg 500 4000 5000 32000) demo_layer ∅ 1 None true
    (demo_info demo_invite 97) (demo_via 97) 7 demo_invite [116] [99; 105] ∅ 0 PJ_SUCCESS (PJ_SUCCESS, None, 0, false)
    l' tds' demo_strnicmp_ok demo_layer_rep (demo_info_ok demo_invite 97 ltac:(by apply key_part_dec) ltac:(by left))
    eq_refl ltac:(done) E (demo_info demo_ack 65) (demo_via 65) 7 demo_ack [116] [99; 105]
    (mk_env PJ_SUCCESS [] PJ_SUCCESS (inl PJ_ENOMEM)) (mk_rdata 3 (Request PJSIP_ACK_METHOD))
    (demo_info_ok demo_ack 65 ltac:(by apply key_part_dec) ltac:(by right)) eq_refl) as H.
  destruct H as (b & l2 & E2 & Hyes & _); [by vm_compute|].
  destruct Hyes as (-> & o & w & _ & _ & Eo); [by split|].
  exists l', tds', l2, w. split; [exact E|]. split; [exact E2|]. by exists o.
Defined.

Lemma tolower_idem c : pj_tolower (pj_tolower c) = pj_tolower c.
Proof.
  unfold pj_tolower. destruct (Z.leb_spec 65 c), (Z.leb_spec c 90); cbn [andb];
    repeat (match goal with |- context [?a <=? ?b] => destruct (Z.leb_spec a b) end; cbn [andb]); lia.
Qed.

Lemma layer_refines_map_witness : exists l ck l',
  layer_rep l {[ ck := 1 ]} /\ find_tsx l ck true = Some (Some 1, l') /\ pjsip_tsx_layer_get_tsx_count l' = 1.
Proof.
  destruct demo_uas as (l & _ & _ & ck & H).
  assert (Hck : lowercase ck = ck).
  { destruct (lr_named _ _ H ck 1) as (o & _ & <-); [apply lookup_singleton_eq|]. unfold lowercase. rewrite map_map.
    apply map_ext. intros c. apply tolower_idem. }
  destruct (layer_refines_map demo_strnicmp (mk_cfg 500 4000 5000 32000) l _ H) as (Hf & _).
  destruct (Hf ck true) as (l' & E & H'). rewrite Hck, lookup_singleton_eq in E.
  exists l, ck, l'. split; [exact H|]. split; [exact E|].
  destruct (layer_refines_map demo_strnicmp (mk_cfg 500 4000 5000 32000) l' _ H') as (_ & Hn & _).
  rewrite Hn, map_size_singleton. reflexivity.
Defined.

Lemma layer_stop_empties_witness : exists l ck l', layer_rep l {[ ck := 1 ]} /\ layer_stop l = Some l' /\
  mod_tsx_layer_unload l' = PJ_SUCCESS /\ exists o, l_objs l' !! 1 = Some o /\ terminating (w_tsx (to_world o)) = true.
Proof.
  destruct demo_uas as (l & _ & _ & ck & H).
  destruct (layer_stop_empties l _ H) as (l' & E & _ & Hu & Hs & _); [by rewrite map_size_singleton|].
  destruct (Hs ck 1) as (o & Ho & _ & Ht); [apply lookup_singleton_eq|].
  exists l, ck, l'. split; [exact H|]. split; [exact E|]. split; [exact Hu|]. exists o. split; [exact Ho|exact Ht].
Defined.
