(* ===== verification/PjStr.v ===== *)
(** * Strings of pjlib (pjlib/src/pj/string.c)

    A string is the list of its bytes.  The comparisons and the trimming are inlined
    from a header that is not in the repository: they are the operations of the class
    [PjString], with the laws that pj/string.h documents. *)

From Stdlib Require Strings.String Strings.Ascii.
From S2P Require Import Prelude Hash.
Import Strings.String.StringSyntax.

(** ** Strings as bytes *)

Definition lit (s : String.string) : list Z :=
  map (fun c => Z.of_N (Ascii.N_of_ascii c)) (String.list_ascii_of_string s).

Arguments lit s%_string_scope.

Definition pj_isspace (c : Z) : bool := (c =? 32) || ((9 <=? c) && (c <=? 13)).

Class PjString := {
  pj_strcmp : list Z -> list Z -> Z;
  pj_stricmp : list Z -> list Z -> Z;
  pj_strltrim : list Z -> list Z;
  pj_strcmp_0 : forall a b, pj_strcmp a b = 0 <-> a = b;
  pj_stricmp_0 : forall a b, pj_stricmp a b = 0 <-> map pj_tolower a = map pj_tolower b;
  pj_strltrim_none : forall c s, pj_isspace c = false -> pj_strltrim (c :: s) = c :: s
}.

Definition pj_isdigit (c : Z) : bool := (48 <=? c) && (c <=? 57).

(** The digits a string starts with, and their value *)
Fixpoint digits_value (value : Z) (s : list Z) : Z :=
  match s with
  | c :: s' => if pj_isdigit c then digits_value (value * 10 + (c - 48)) s' else value
  | [] => value
  end.

(** The result as an [unsigned]; the wraps of [unsigned long] agree modulo 2^32. *)
Definition pj_strtoul (s : list Z) : Z := u32 (digits_value 0 s).
(** [pj_strtoul2] with base 10 *)
Definition pj_strtoul2 (s : list Z) : Z := u32 (digits_value 0 s).

(** [pj_strtoul3] with base 10: the status, and the value when it is PJ_SUCCESS *)
Definition pj_strtoul3 `{PjString} (maxulong : Z) (s : list Z) : Z * Z :=
  match pj_strltrim s with
  | c :: s' =>
      if pj_isdigit c then
        let v := digits_value 0 (c :: s') in
        if maxulong <? v then (PJ_ETOOBIG, maxulong) else (PJ_SUCCESS, v)
      else (PJ_EINVAL, 0)
  | [] => (PJ_EINVAL, 0)
  end.

Definition first_is_digit (fmt : list Z) : bool := match fmt with c :: _ => pj_isdigit c | [] => false end.

(** An implementation of the class *)

Definition exact_cmp (a b : list Z) : Z := if bool_decide (a = b) then 0 else 1.
Definition fold_cmp (a b : list Z) : Z := if bool_decide (map pj_tolower a = map pj_tolower b) then 0 else 1.

Lemma exact_cmp_0 a b : exact_cmp a b = 0 <-> a = b.
Proof. unfold exact_cmp. by case_bool_decide. Qed.
Lemma fold_cmp_0 a b : fold_cmp a b = 0 <-> map pj_tolower a = map pj_tolower b.
Proof. unfold fold_cmp. by case_bool_decide. Qed.

Fixpoint trim (s : list Z) : list Z := match s with c :: s' => if pj_isspace c then trim s' else s | [] => [] end.

Lemma trim_none c s : pj_isspace c = false -> trim (c :: s) = c :: s.
Proof. cbn. by intros ->. Qed.

Definition plain_strings : PjString :=
  {| pj_strcmp := exact_cmp; pj_stricmp := fold_cmp; pj_strltrim := trim; pj_strcmp_0 := exact_cmp_0;
     pj_stricmp_0 := fold_cmp_0; pj_strltrim_none := trim_none |}.
