(* ===== verification/Sdp.v ===== *)
(** * SDP descriptions (pjmedia/src/pjmedia/sdp.c)

    Session and media descriptions, their attributes, the parsing of rtpmap,
    validation, deactivation and the comparison of transports.  A description is a value: the code
    clones every description it keeps, and a clone has the same value.  An array
    with its counter is a list; an attribute is identified by its index.
    Strings hold no NUL, formats are not empty. *)

From Stdlib Require Strings.String Strings.Ascii.
From S2P Require Import Prelude Hash PjStr.
Import Strings.String.StringSyntax.

(** ** Status codes (pjmedia/errno.h) *)

Definition PJMEDIA_SDP_EINORIGIN : Z := 220022.
Definition PJMEDIA_SDP_EINNAME : Z := 220024.
Definition PJMEDIA_SDP_EINCONN : Z := 220025.
Definition PJMEDIA_SDP_EMISSINGCONN : Z := 220026.
Definition PJMEDIA_SDP_EINATTR : Z := 220027.
Definition PJMEDIA_SDP_EINRTPMAP : Z := 220028.
Definition PJMEDIA_SDP_EMISSINGRTPMAP : Z := 220030.
Definition PJMEDIA_SDP_EINMEDIA : Z := 220031.
Definition PJMEDIA_SDP_ENOFMT : Z := 220032.
Definition PJMEDIA_SDP_EINPT : Z := 220033.
Definition PJMEDIA_SDP_ETPORTNOTEQUAL : Z := 220062.

(** ** Data (pjmedia/sdp.h) *)

Definition PJMEDIA_MAX_SDP_FMT : nat := 32.
Definition PJMEDIA_MAX_SDP_ATTR : nat := 68.
Definition PJMEDIA_MAX_SDP_MEDIA : nat := 16.

Record pjmedia_sdp_attr := mk_attr { a_name : list Z; a_value : list Z }.

Record pjmedia_sdp_rtpmap := mk_rtpmap {
  rm_pt : list Z; rm_enc_name : list Z; rm_clock_rate : Z; rm_param : list Z
}.

Record pjmedia_sdp_conn := mk_conn { net_type : list Z; addr_type : list Z; addr : list Z }.

Record pjmedia_sdp_bandw := mk_bandw { bw_modifier : list Z; bw_value : Z }.

Record pjmedia_sdp_media := mk_media {
  m_media : list Z; m_port : Z; m_port_count : Z; m_transport : list Z; m_fmt : list (list Z);
  m_conn : option pjmedia_sdp_conn; m_bandw : list pjmedia_sdp_bandw; m_attr : list pjmedia_sdp_attr
}.

Record sdp_origin := mk_origin {
  o_user : list Z; o_id : Z; o_version : Z; o_net_type : list Z; o_addr_type : list Z; o_addr : list Z
}.

Record pjmedia_sdp_session := mk_session {
  s_origin : sdp_origin; s_name : list Z; s_conn : option pjmedia_sdp_conn; s_bandw : list pjmedia_sdp_bandw;
  s_time : Z * Z; s_attr : list pjmedia_sdp_attr; s_media : list pjmedia_sdp_media
}.

Definition set_m_fmt (f : list (list Z)) (m : pjmedia_sdp_media) : pjmedia_sdp_media :=
  mk_media (m_media m) (m_port m) (m_port_count m) (m_transport m) f (m_conn m) (m_bandw m) (m_attr m).
Definition set_m_attr (a : list pjmedia_sdp_attr) (m : pjmedia_sdp_media) : pjmedia_sdp_media :=
  mk_media (m_media m) (m_port m) (m_port_count m) (m_transport m) (m_fmt m) (m_conn m) (m_bandw m) a.
Definition set_m_conn (c : option pjmedia_sdp_conn) (m : pjmedia_sdp_media) : pjmedia_sdp_media :=
  mk_media (m_media m) (m_port m) (m_port_count m) (m_transport m) (m_fmt m) c (m_bandw m) (m_attr m).
Definition set_s_origin (o : sdp_origin) (s : pjmedia_sdp_session) : pjmedia_sdp_session :=
  mk_session o (s_name s) (s_conn s) (s_bandw s) (s_time s) (s_attr s) (s_media s).
Definition set_s_media (m : list pjmedia_sdp_media) (s : pjmedia_sdp_session) : pjmedia_sdp_session :=
  mk_session (s_origin s) (s_name s) (s_conn s) (s_bandw s) (s_time s) (s_attr s) m.
Definition set_o_version (v : Z) (o : sdp_origin) : sdp_origin :=
  mk_origin (o_user o) (o_id o) v (o_net_type o) (o_addr_type o) (o_addr o).
Definition set_o_id (v : Z) (o : sdp_origin) : sdp_origin :=
  mk_origin (o_user o) v (o_version o) (o_net_type o) (o_addr_type o) (o_addr o).

(** ** The scanner (pjlib-util/src/pjlib-util/scanner.c) as rtpmap uses it: the
    rest of the input, white space skipped; [None] is a syntax error. *)

Fixpoint skip_ws (s : list Z) : list Z :=
  match s with c :: s' => if (c =? 32) || (c =? 9) then skip_ws s' else s | [] => [] end.

Fixpoint span (spec : Z -> bool) (s : list Z) : list Z * list Z :=
  match s with
  | c :: s' => if spec c then let '(out, rest) := span spec s' in (c :: out, rest) else ([], s)
  | [] => ([], [])
  end.

Definition pj_scan_get (spec : Z -> bool) (s : list Z) : option (list Z * list Z) :=
  match span spec s with
  | ([], _) => None
  | (out, rest) => Some (out, skip_ws rest)
  end.

Definition pj_scan_get_char (s : list Z) : option (Z * list Z) :=
  match s with c :: s' => Some (c, skip_ws s') | [] => None end.

Definition cs_digit (c : Z) : bool := pj_isdigit c.
Definition cs_token (c : Z) : bool :=
  pj_isdigit c || ((65 <=? c) && (c <=? 90)) || ((97 <=? c) && (c <=? 122)) ||
  existsb (Z.eqb c) (lit "!#$%&'*+-.^_`{|}~").

Section Strings.
Context {Str : PjString}.

Definition str_eq (a b : list Z) : bool := pj_strcmp a b =? 0.
Definition str_ieq (a b : list Z) : bool := pj_stricmp a b =? 0.

(** ** Attributes *)

Definition attr_matches (name : list Z) (c_fmt : option (list Z)) (a : pjmedia_sdp_attr) : bool :=
  str_eq (a_name a) name &&
  match c_fmt with Some fmt => pj_strtoul2 (a_value a) =? pj_strtoul fmt | None => true end.

(** The index of the first match *)
Fixpoint pjmedia_sdp_attr_find (attrs : list pjmedia_sdp_attr) (name : list Z) (c_fmt : option (list Z)) : option nat :=
  match attrs with
  | [] => None
  | a :: attrs' => if attr_matches name c_fmt a then Some 0%nat else S <$> pjmedia_sdp_attr_find attrs' name c_fmt
  end.

Definition pjmedia_sdp_media_find_attr (m : pjmedia_sdp_media) (name : list Z) (fmt : option (list Z)) : option nat :=
  pjmedia_sdp_attr_find (m_attr m) name fmt.

(** The attribute at an index that was found *)
Definition find_attr_value (m : pjmedia_sdp_media) (name : list Z) (fmt : option (list Z)) : option pjmedia_sdp_attr :=
  i ← pjmedia_sdp_media_find_attr m name fmt; m_attr m !! i.

Definition has_attr (m : pjmedia_sdp_media) (name : list Z) : bool :=
  bool_decide (is_Some (pjmedia_sdp_media_find_attr m name None)).

(** The array is full: PJ_ETOOMANY, and nothing is added. *)
Definition pjmedia_sdp_media_add_attr (m : pjmedia_sdp_media) (a : pjmedia_sdp_attr) : Z * pjmedia_sdp_media :=
  if (length (m_attr m) <? PJMEDIA_MAX_SDP_ATTR)%nat then (PJ_SUCCESS, set_m_attr (m_attr m ++ [a]) m)
  else (PJ_ETOOMANY, m).

Definition pjmedia_sdp_media_remove_all_attr (m : pjmedia_sdp_media) (name : list Z) : pjmedia_sdp_media :=
  set_m_attr (List.filter (fun a => negb (str_eq (a_name a) name)) (m_attr m)) m.

(** [pj_array_erase] *)
Definition erase {A} (l : list A) (i : nat) : list A := take i l ++ drop (S i) l.

Definition pjmedia_sdp_media_remove_attr (m : pjmedia_sdp_media) (i : nat) : pjmedia_sdp_media :=
  set_m_attr (erase (m_attr m) i) m.

(** ** rtpmap *)

Definition rtpmap_init : pjmedia_sdp_rtpmap := mk_rtpmap [] [] 0 [].

(** What the exception handler leaves is what was parsed before; the two errors before the
    parsing leave the variable of the caller as it was, for which an empty one stands. *)
Definition pjmedia_sdp_attr_get_rtpmap (a : pjmedia_sdp_attr) : Z * pjmedia_sdp_rtpmap :=
  if negb (str_eq (a_name a) (lit "rtpmap")) then (PJ_EINVALIDOP, rtpmap_init)
  else
    match a_value a with
    | [] => (PJMEDIA_SDP_EINATTR, rtpmap_init)
    | _ =>
        match pj_scan_get cs_token (skip_ws (a_value a)) with
        | None => (PJMEDIA_SDP_EINRTPMAP, rtpmap_init)
        | Some (pt, s) =>
            match pj_scan_get cs_token s with
            | None => (PJMEDIA_SDP_EINRTPMAP, mk_rtpmap pt [] 0 [])
            | Some (enc, s) =>
                match pj_scan_get_char s with
                | Some (47, s) =>
                    match pj_scan_get cs_digit s with
                    | None => (PJMEDIA_SDP_EINRTPMAP, mk_rtpmap pt enc 0 [])
                    | Some (token, s) =>
                        let rate := pj_strtoul token in
                        match s with
                        | 47 :: s' => (PJ_SUCCESS, mk_rtpmap pt enc rate (skip_ws s'))
                        | _ => (PJ_SUCCESS, mk_rtpmap pt enc rate [])
                        end
                    end
                | _ => (PJMEDIA_SDP_EINRTPMAP, mk_rtpmap pt enc 0 [])
                end
            end
        end
    end.

(** ** Deactivation and comparison of transports *)

Definition pjmedia_sdp_media_deactivate (m : pjmedia_sdp_media) : pjmedia_sdp_media :=
  mk_media (m_media m) 0 (m_port_count m) (m_transport m) (m_fmt m) (m_conn m) (m_bandw m) [].

Definition pjmedia_sdp_media_clone_deactivate (m : pjmedia_sdp_media) : pjmedia_sdp_media :=
  pjmedia_sdp_media_deactivate m.

Definition rtp_transport (t : list Z) : bool := str_ieq t (lit "RTP/AVP") || str_ieq t (lit "RTP/SAVP").

Definition pjmedia_sdp_transport_cmp (t1 t2 : list Z) : Z :=
  if str_ieq t1 t2 then PJ_SUCCESS
  else if rtp_transport t1 && rtp_transport t2 then PJ_SUCCESS
  else PJMEDIA_SDP_ETPORTNOTEQUAL.

(** ** Validation *)

Definition validate_sdp_conn (c : pjmedia_sdp_conn) : Z :=
  if str_eq (net_type c) (lit "IN") && (str_eq (addr_type c) (lit "IP4") || str_eq (addr_type c) (lit "IP6")) &&
     negb (bool_decide (addr c = []))
  then PJ_SUCCESS else PJMEDIA_SDP_EINCONN.

(** The loop over the formats of a media line *)
Fixpoint validate_fmts (maxulong : Z) (m : pjmedia_sdp_media) (fmts : list (list Z)) : Z :=
  match fmts with
  | [] => PJ_SUCCESS
  | fmt :: fmts' =>
      if first_is_digit fmt then
        let '(status, pt) := pj_strtoul3 maxulong fmt in
        if negb ((status =? PJ_SUCCESS) && (pt <=? 127)) then PJMEDIA_SDP_EINPT
        else if negb (m_port m =? 0) && (96 <=? pt) &&
                negb (bool_decide (is_Some (pjmedia_sdp_media_find_attr m (lit "rtpmap") (Some fmt))))
        then PJMEDIA_SDP_EMISSINGRTPMAP
        else validate_fmts maxulong m fmts'
      else validate_fmts maxulong m fmts'
  end.

Definition validate_media (maxulong : Z) (sdp : pjmedia_sdp_session) (strict : bool) (m : pjmedia_sdp_media) : Z :=
  if bool_decide (m_media m = []) || bool_decide (m_transport m = []) then PJMEDIA_SDP_EINMEDIA
  else if bool_decide (m_fmt m = []) && negb (m_port m =? 0) then PJMEDIA_SDP_ENOFMT
  else
    let st := match m_conn m with Some c => validate_sdp_conn c | None => PJ_SUCCESS end in
    if negb (st =? PJ_SUCCESS) then st
    else if bool_decide (m_conn m = None) && bool_decide (s_conn sdp = None) && (strict || negb (m_port m =? 0))
    then PJMEDIA_SDP_EMISSINGCONN
    else validate_fmts maxulong m (m_fmt m).

Fixpoint validate_medias (maxulong : Z) (sdp : pjmedia_sdp_session) (strict : bool) (ms : list pjmedia_sdp_media) : Z :=
  match ms with
  | [] => PJ_SUCCESS
  | m :: ms' =>
      let st := validate_media maxulong sdp strict m in
      if negb (st =? PJ_SUCCESS) then st else validate_medias maxulong sdp strict ms'
  end.

(** [maxulong] is ULONG_MAX of the platform *)
Definition pjmedia_sdp_validate2 (maxulong : Z) (sdp : pjmedia_sdp_session) (strict : bool) : Z :=
  let o := s_origin sdp in
  if bool_decide (o_user o = []) || negb (str_eq (o_net_type o) (lit "IN")) ||
     negb (str_eq (o_addr_type o) (lit "IP4") || str_eq (o_addr_type o) (lit "IP6")) || bool_decide (o_addr o = [])
  then PJMEDIA_SDP_EINORIGIN
  else if bool_decide (s_name sdp = []) then PJMEDIA_SDP_EINNAME
  else
    let st := match s_conn sdp with Some c => validate_sdp_conn c | None => PJ_SUCCESS end in
    if negb (st =? PJ_SUCCESS) then st else validate_medias maxulong sdp strict (s_media sdp).

Definition pjmedia_sdp_validate (maxulong : Z) (sdp : pjmedia_sdp_session) : Z := pjmedia_sdp_validate2 maxulong sdp true.
End Strings.
