(* ===== verification/SdpNeg.v ===== *)
(** * SDP negotiator (pjmedia/src/pjmedia/sdp_neg.c)

    The offer/answer state machine, the creation of an answer and the processing
    of one, for the configuration of pjmedia/config.h (symmetric payload types,
    version incremented without comparison).  [None] is a NULL dereference or an
    access outside an array.  A format match callback sees both media and returns
    a status with the attributes it leaves in the answer; without the flag
    ALLOW_MODIFY_ANSWER it leaves them as they are. *)

From Stdlib Require Strings.String.
From S2P Require Import Prelude Hash PjStr Sdp.
Import Strings.String.StringSyntax.

(** ** Data *)

Definition PJMEDIA_SDPNEG_EINSTATE : Z := 220040.
Definition PJMEDIA_SDPNEG_ENOINITIAL : Z := 220041.
Definition PJMEDIA_SDPNEG_ENOACTIVE : Z := 220042.
Definition PJMEDIA_SDPNEG_ENONEG : Z := 220043.
Definition PJMEDIA_SDPNEG_EINVANSMEDIA : Z := 220045.
Definition PJMEDIA_SDPNEG_EINVANSTP : Z := 220046.
Definition PJMEDIA_SDPNEG_EANSNOMEDIA : Z := 220047.
Definition PJMEDIA_SDPNEG_ENOMEDIA : Z := 220048.
Definition PJMEDIA_SDPNEG_NOANSCODEC : Z := 220049.
Definition PJMEDIA_SDPNEG_NOANSUNKNOWN : Z := 220051.

Inductive pjmedia_sdp_neg_state :=
  | PJMEDIA_SDP_NEG_STATE_NULL | PJMEDIA_SDP_NEG_STATE_LOCAL_OFFER | PJMEDIA_SDP_NEG_STATE_REMOTE_OFFER
  | PJMEDIA_SDP_NEG_STATE_WAIT_NEGO | PJMEDIA_SDP_NEG_STATE_DONE.

#[global] Instance neg_state_eq_dec : EqDecision pjmedia_sdp_neg_state.
Proof. solve_decision. Defined.

Record pjmedia_sdp_neg := mk_neg {
  n_state : pjmedia_sdp_neg_state;
  prefer_remote_codec_order : bool;
  answer_with_multiple_codecs : bool;
  has_remote_answer : bool;
  answer_was_remote : bool;
  initial_sdp : option pjmedia_sdp_session;
  initial_sdp_tmp : option pjmedia_sdp_session;
  active_local_sdp : option pjmedia_sdp_session;
  active_remote_sdp : option pjmedia_sdp_session;
  neg_local_sdp : option pjmedia_sdp_session;
  neg_remote_sdp : option pjmedia_sdp_session
}.

Inductive pjmedia_dir := PJMEDIA_DIR_NONE | PJMEDIA_DIR_ENCODING | PJMEDIA_DIR_DECODING | PJMEDIA_DIR_ENCODING_DECODING.

#[global] Instance pjmedia_dir_eq_dec : EqDecision pjmedia_dir.
Proof. solve_decision. Defined.

Definition ALLOW_MODIFY_ANSWER : Z := 1.

(** The status, and the attributes of the answer afterwards *)
Definition pjmedia_sdp_neg_fmt_match_cb : Type :=
  pjmedia_sdp_media -> nat -> pjmedia_sdp_media -> nat -> Z -> Z * list pjmedia_sdp_attr.

(** The registered callbacks: format name and function *)
Definition fmt_match_cbs : Type := list (list Z * Z).

(** The index of the first element that satisfies a test *)
Fixpoint find_idx {A} (p : A -> bool) (l : list A) : option nat :=
  match l with [] => None | x :: l' => if p x then Some 0%nat else S <$> find_idx p l' end.

(** Exchanging two elements of an array; [None] is an index outside it. *)
Definition swap {A} (l : list A) (i j : nat) : option (list A) :=
  x ← l !! i; y ← l !! j; Some (<[j := x]> (<[i := y]> l)).

Section Negotiator.
Context {Str : PjString} (maxulong : Z).
Context (run_cb : Z -> pjmedia_sdp_neg_fmt_match_cb) (cbs : fmt_match_cbs).
Implicit Types (m : pjmedia_sdp_media) (fmt : list Z) (neg : pjmedia_sdp_neg) (s : pjmedia_sdp_session).

(** ** Custom format matching *)

Definition custom_fmt_match (fmt_name : list Z) (offer : pjmedia_sdp_media) (o_fmt_idx : nat) (answer : pjmedia_sdp_media)
    (a_fmt_idx : nat) (option : Z) : Z * list pjmedia_sdp_attr :=
  match find_idx (fun e => str_ieq fmt_name (fst e)) cbs ≫= (fun i => cbs !! i) with
  | Some (_, cb) => run_cb cb offer o_fmt_idx answer a_fmt_idx option
  | None => (PJ_SUCCESS, m_attr answer)
  end.

(** [cb] is [None] to unregister. *)
Definition pjmedia_sdp_neg_register_fmt_match_cb (table : fmt_match_cbs) (fmt_name : list Z) (cb : option Z) :
    Z * fmt_match_cbs :=
  match find_idx (fun e => str_ieq fmt_name (fst e)) table, cb with
  | None, None => (PJ_ENOTFOUND, table)
  | Some i, None => (PJ_SUCCESS, erase table i)
  | Some i, Some c =>
      if bool_decide (snd <$> table !! i = Some c) then (PJ_SUCCESS, table) else (PJ_EEXISTS, table)
  | None, Some c =>
      if (8 <=? length table)%nat then (PJ_ETOOMANY, table) else (PJ_SUCCESS, table ++ [(fmt_name, c)])
  end.

(** ** Helpers *)

Definition PJMEDIA_SDP_EFORMATNOTEQUAL : Z := 220063.

Definition default_conn : pjmedia_sdp_conn := mk_conn (lit "IN") (lit "IP4") (lit "127.0.0.1").

Definition sdp_media_clone_deactivate (rem_med : pjmedia_sdp_media) (local_med : pjmedia_sdp_media)
    (local_sess : pjmedia_sdp_session) : pjmedia_sdp_media :=
  let res := pjmedia_sdp_media_clone_deactivate rem_med in
  match m_conn res, s_conn local_sess with
  | None, None =>
      set_m_conn (Some (match m_conn local_med with Some c => c | None => default_conn end)) res
  | _, _ => res
  end.

(** The rtpmap of a format: the attribute found, parsed *)
Definition rtpmap_of m fmt : option pjmedia_sdp_rtpmap :=
  (fun a => snd (pjmedia_sdp_attr_get_rtpmap a)) <$> find_attr_value m (lit "rtpmap") (Some fmt).

(** Removing the attribute of a format if there is one *)
Definition remove_found m (name : list Z) fmt : pjmedia_sdp_media :=
  match pjmedia_sdp_media_find_attr m name (Some fmt) with
  | Some i => pjmedia_sdp_media_remove_attr m i
  | None => m
  end.

Definition remove_fmt_attrs m fmt : pjmedia_sdp_media := remove_found (remove_found m (lit "rtpmap") fmt) (lit "fmtp") fmt.

(** ** Directions *)

Definition remove_all_media_directions m : pjmedia_sdp_media :=
  let m := pjmedia_sdp_media_remove_all_attr m (lit "inactive") in
  let m := pjmedia_sdp_media_remove_all_attr m (lit "sendrecv") in
  let m := pjmedia_sdp_media_remove_all_attr m (lit "sendonly") in
  pjmedia_sdp_media_remove_all_attr m (lit "recvonly").

(** The direction of the local media *)
Definition local_dir m : pjmedia_dir :=
  if has_attr m (lit "sendonly") then PJMEDIA_DIR_ENCODING
  else if has_attr m (lit "recvonly") then PJMEDIA_DIR_DECODING
  else if has_attr m (lit "inactive") then PJMEDIA_DIR_NONE
  else PJMEDIA_DIR_ENCODING_DECODING.

(** "Adjust local media direction based on remote media direction" *)
Definition adjusted_dir (remote : pjmedia_sdp_media) (old_dir : pjmedia_dir) : pjmedia_dir :=
  if has_attr remote (lit "inactive") then PJMEDIA_DIR_NONE
  else if has_attr remote (lit "sendonly") then
    match old_dir with
    | PJMEDIA_DIR_ENCODING_DECODING | PJMEDIA_DIR_DECODING => PJMEDIA_DIR_DECODING
    | _ => PJMEDIA_DIR_NONE
    end
  else if has_attr remote (lit "recvonly") then
    match old_dir with
    | PJMEDIA_DIR_ENCODING_DECODING | PJMEDIA_DIR_ENCODING => PJMEDIA_DIR_ENCODING
    | _ => PJMEDIA_DIR_NONE
    end
  else old_dir.

Definition dir_attr (d : pjmedia_dir) : option pjmedia_sdp_attr :=
  match d with
  | PJMEDIA_DIR_NONE => Some (mk_attr (lit "inactive") [])
  | PJMEDIA_DIR_ENCODING => Some (mk_attr (lit "sendonly") [])
  | PJMEDIA_DIR_DECODING => Some (mk_attr (lit "recvonly") [])
  | PJMEDIA_DIR_ENCODING_DECODING => None
  end.

Definition update_media_direction (remote local : pjmedia_sdp_media) : pjmedia_sdp_media :=
  let old_dir := local_dir local in
  let new_dir := adjusted_dir remote old_dir in
  if bool_decide (new_dir = old_dir) then local
  else
    let local := remove_all_media_directions local in
    match dir_attr new_dir with
    | Some a => snd (pjmedia_sdp_media_add_attr local a)
    | None => local
    end.

(** ** Processing an answer *)

(** The common-format check of asymmetric media: it compares the answer with
    itself, up to the number of formats in the offer. *)
Fixpoint asym_row (answer_fmts : list (list Z)) fmt (j n : nat) : option bool :=
  match n with
  | O => Some false
  | S n' => f ← answer_fmts !! j; if str_eq fmt f then Some true else asym_row answer_fmts fmt (S j) n'
  end.

Fixpoint asym_common (answer_fmts : list (list Z)) (n_offer : nat) (fmts : list (list Z)) : option bool :=
  match fmts with
  | [] => Some false
  | fmt :: fmts' => found ← asym_row answer_fmts fmt 0 n_offer;
                    if found : bool then Some true else asym_common answer_fmts n_offer fmts'
  end.

(** "See if encoding name, clock rate, and channel count match" *)
Definition answer_rtpmap_match (or_ ar : pjmedia_sdp_rtpmap) : bool :=
  str_ieq (rm_enc_name or_) (rm_enc_name ar) && (rm_clock_rate or_ =? rm_clock_rate ar) &&
  (str_ieq (rm_param or_) (rm_param ar) || bool_decide (rm_param ar = [49])).

(** The first format of the answer that matches a dynamic one of the offer *)
Fixpoint find_dynamic (offer : pjmedia_sdp_media) (i : nat) (or_ : pjmedia_sdp_rtpmap) (answer : pjmedia_sdp_media)
    (fmts : list (list Z)) (j : nat) : option nat :=
  match fmts with
  | [] => None
  | f :: fmts' =>
      match rtpmap_of answer f with
      | Some ar =>
          if answer_rtpmap_match or_ ar && (fst (custom_fmt_match (rm_enc_name or_) offer i answer j 0) =? PJ_SUCCESS)
          then Some j else find_dynamic offer i or_ answer fmts' (S j)
      | None => find_dynamic offer i or_ answer fmts' (S j)
      end
  end.

(** The loop that removes the formats of the offer without match: [fmts] are the
    formats from [i] on; the result has the priority of every remaining one. *)
Fixpoint keep_matched (answer : pjmedia_sdp_media) (fmts : list (list Z)) (i : nat) (offer : pjmedia_sdp_media)
    (prior : list nat) : Z + (pjmedia_sdp_media * list nat) :=
  match fmts with
  | [] => inr (offer, prior)
  | fmt :: fmts' =>
      let found :=
        if pj_strtoul fmt <? 96 then inr (find_idx (str_eq fmt) (m_fmt answer))
        else match rtpmap_of offer fmt with
             | None => inl PJ_EBUG
             | Some or_ => inr (find_dynamic offer i or_ answer (m_fmt answer) 0)
             end in
      match found with
      | inl st => inl st
      | inr None =>
          let offer := remove_fmt_attrs offer fmt in
          keep_matched answer fmts' i (set_m_fmt (erase (m_fmt offer) i) offer) prior
      | inr (Some j) => keep_matched answer fmts' (S i) offer (prior ++ [j])
      end
  end.

(** One pass of the inner loop of the sort: [x] is at the place being filled. *)
Fixpoint exchange (x : nat * list Z) (l : list (nat * list Z)) : (nat * list Z) * list (nat * list Z) :=
  match l with
  | [] => (x, [])
  | y :: l' =>
      if (fst y <? fst x)%nat then let '(z, l'') := exchange y l' in (z, x :: l'')
      else let '(z, l'') := exchange x l' in (z, y :: l'')
  end.

Fixpoint resort (n : nat) (l : list (nat * list Z)) : list (nat * list Z) :=
  match n, l with
  | S n', x :: l' => let '(z, l'') := exchange x l' in z :: resort n' l''
  | _, _ => l
  end.

(** "Remove unmatched answer formats": [fmts] are the formats from [i] on. *)
Fixpoint prune_answer (prior : list nat) (fmts : list (list Z)) (i del_cnt : nat) (answer : pjmedia_sdp_media) :
    pjmedia_sdp_media :=
  match fmts with
  | [] => answer
  | fmt :: fmts' =>
      let keep := match prior !! i with
                  | Some p => u32 (Z.of_nat p - Z.of_nat del_cnt) =? Z.of_nat i
                  | None => false
                  end in
      if keep then prune_answer prior fmts' (S i) del_cnt answer
      else
        let answer := remove_fmt_attrs answer fmt in
        prune_answer prior fmts' i (S del_cnt) (set_m_fmt (erase (m_fmt answer) i) answer)
  end.

(** The symmetric case after the direction is set *)
Definition match_formats (offer answer : pjmedia_sdp_media) : Z * pjmedia_sdp_media * pjmedia_sdp_media :=
  match keep_matched answer (m_fmt offer) 0 offer [] with
  | inl st => (st, offer, answer)
  | inr (offer, prior) =>
      if bool_decide (m_fmt offer = []) then (PJMEDIA_SDPNEG_EANSNOMEDIA, offer, answer)
      else
        let sorted := resort (length prior) (zip prior (m_fmt offer)) in
        (PJ_SUCCESS, set_m_fmt (map snd sorted) offer, prune_answer (map fst sorted) (m_fmt answer) 0 0 answer)
  end.

Definition process_m_answer (offer answer : pjmedia_sdp_media) (allow_asym : bool) :
    option (Z * pjmedia_sdp_media * pjmedia_sdp_media) :=
  if negb (str_eq (m_media answer) (m_media offer)) then Some (PJMEDIA_SDPNEG_EINVANSMEDIA, offer, answer)
  else if negb (pjmedia_sdp_transport_cmp (m_transport answer) (m_transport offer) =? PJ_SUCCESS)
  then Some (PJMEDIA_SDPNEG_EINVANSTP, offer, answer)
  else if m_port answer =? 0 then Some (PJ_SUCCESS, pjmedia_sdp_media_deactivate offer, answer)
  else if m_port offer =? 0 then Some (PJ_SUCCESS, offer, answer)
  else
    let offer := update_media_direction answer offer in
    if allow_asym then
      common ← asym_common (m_fmt answer) (length (m_fmt offer)) (m_fmt answer);
      if common : bool then Some (PJ_SUCCESS, offer, answer) else Some (PJMEDIA_SDPNEG_EANSNOMEDIA, offer, answer)
    else Some (match_formats offer answer).

(** The loop of [process_answer]: [oms] are the media of the offer left, [ams]
    all media of the answer; the flag says whether some media is active. *)
Fixpoint process_medias (offer : pjmedia_sdp_session) (allow_asym : bool) (oms : list pjmedia_sdp_media) (ami : nat)
    (ams : list pjmedia_sdp_media) : option (Z + (list pjmedia_sdp_media * list pjmedia_sdp_media * bool)) :=
  match oms with
  | [] => Some (inr ([], ams, false))
  | om :: oms' =>
      match ams !! ami with
      | None =>
          if (PJMEDIA_MAX_SDP_MEDIA <=? length ams)%nat then None
          else
            let am := sdp_media_clone_deactivate om om offer in
            rest ← process_medias offer allow_asym oms' (S ami) (ams ++ [am]);
            Some (match rest with
                  | inl st => inl st
                  | inr (oms'', ams'', act) => inr (pjmedia_sdp_media_deactivate om :: oms'', ams'', act)
                  end)
      | Some am =>
          '(st, om, am) ← process_m_answer om am allow_asym;
          if st =? PJMEDIA_SDPNEG_EINVANSMEDIA then
            rest ← process_medias offer allow_asym oms' ami ams;
            Some (match rest with
                  | inl st => inl st
                  | inr (oms'', ams'', act) => inr (pjmedia_sdp_media_deactivate om :: oms'', ams'', act)
                  end)
          else if negb (st =? PJMEDIA_SDPNEG_EANSNOMEDIA) && negb (st =? PJ_SUCCESS) then Some (inl st)
          else
            let '(om, am) := if st =? PJMEDIA_SDPNEG_EANSNOMEDIA
                             then (pjmedia_sdp_media_deactivate om, pjmedia_sdp_media_deactivate am) else (om, am) in
            rest ← process_medias offer allow_asym oms' (S ami) (<[ami := am]> ams);
            Some (match rest with
                  | inl st => inl st
                  | inr (oms'', ams'', act) => inr (om :: oms'', ams'', negb (m_port om =? 0) || act)
                  end)
      end
  end.

(** The status and, unless the error ended the loop, both descriptions *)
Definition process_answer (offer answer : pjmedia_sdp_session) (allow_asym : bool) :
    option (Z * option (pjmedia_sdp_session * pjmedia_sdp_session)) :=
  r ← process_medias offer allow_asym (s_media offer) 0 (s_media answer);
  Some (match r with
        | inl st => (st, None)
        | inr (oms, ams, act) =>
            (if act : bool then PJ_SUCCESS else PJMEDIA_SDPNEG_ENOMEDIA,
             Some (set_s_media oms offer, set_s_media ams answer))
        end).

(** ** Matching an offer *)

(** The payload number of the code's [pt_offer] and [pt_answer] arrays: the
    format in the offer and the one in the answer *)
Record match_st := mk_match {
  master_has_codec : bool; master_has_other : bool;
  found_matching_codec : bool; found_matching_telephone_event : bool; found_matching_other : bool;
  pts : list (list Z * list Z);
  ms_preanswer : pjmedia_sdp_media     (* its attributes may be changed by callbacks *)
}.

Definition add_pt (p : list Z * list Z) (st : match_st) : match_st :=
  mk_match (master_has_codec st) (master_has_other st) (found_matching_codec st) (found_matching_telephone_event st)
    (found_matching_other st) (pts st ++ [p]) (ms_preanswer st).

Definition offer_rtpmap_match (or_ lr : pjmedia_sdp_rtpmap) : bool :=
  str_ieq (rm_enc_name or_) (rm_enc_name lr) && (rm_clock_rate or_ =? rm_clock_rate lr) &&
  (str_ieq (rm_param or_) (rm_param lr) || (bool_decide (rm_param lr = []) && bool_decide (rm_param or_ = [49])) ||
   (bool_decide (rm_param or_ = []) && bool_decide (rm_param lr = [49]))).

(** The status, and the attributes of the answer afterwards; [None] is a format index out of range. *)
Definition pjmedia_sdp_neg_fmt_match (offer : pjmedia_sdp_media) (o_fmt_idx : nat) (answer : pjmedia_sdp_media)
    (a_fmt_idx : nat) (opt : Z) : option (Z * list pjmedia_sdp_attr) :=
  o_fmt ← m_fmt offer !! o_fmt_idx;
  a_fmt ← m_fmt answer !! a_fmt_idx;
  let o_pt := pj_strtoul o_fmt in
  let a_pt := pj_strtoul a_fmt in
  Some (if (o_pt <? 96) || (a_pt <? 96) then (if o_pt =? a_pt then PJ_SUCCESS else PJMEDIA_SDP_EFORMATNOTEQUAL, m_attr answer)
        else match rtpmap_of offer o_fmt, rtpmap_of answer a_fmt with
             | Some o_rtpmap, Some a_rtpmap =>
                 if negb (offer_rtpmap_match o_rtpmap a_rtpmap) then (PJMEDIA_SDP_EFORMATNOTEQUAL, m_attr answer)
                 else custom_fmt_match (rm_enc_name o_rtpmap) offer o_fmt_idx answer a_fmt_idx opt
             | _, _ => (PJ_EBUG, m_attr answer)
             end).

Section Match.
Context (prefer_remote multiple : bool) (offer : pjmedia_sdp_media).

Definition master_of (pre : pjmedia_sdp_media) : pjmedia_sdp_media := if prefer_remote then offer else pre.
Definition slave_of (pre : pjmedia_sdp_media) : pjmedia_sdp_media := if prefer_remote then pre else offer.

(** The pair for format [x] of the master and [y] of the slave *)
Definition pt_pair (x y : list Z) : list Z * list Z := if prefer_remote then (x, y) else (y, x).

Definition match_static (fmt : list Z) (st : match_st) : match_st :=
  let st := mk_match true (master_has_other st) (found_matching_codec st) (found_matching_telephone_event st)
              (found_matching_other st) (pts st) (ms_preanswer st) in
  if negb multiple && found_matching_codec st then st
  else
    let slave := slave_of (ms_preanswer st) in
    match List.find (fun f => (pj_strtoul f =? pj_strtoul fmt) && first_is_digit f) (m_fmt slave) with
    | Some f =>
        add_pt (f, f) (mk_match true (master_has_other st) true (found_matching_telephone_event st)
                         (found_matching_other st) (pts st) (ms_preanswer st))
    | None => st
    end.

(** The loop over the formats of the slave for a dynamic format of the master *)
Fixpoint match_dynamic_slave (i : nat) (fmt : list Z) (or_ : pjmedia_sdp_rtpmap) (is_codec : bool)
    (fmts : list (list Z)) (j : nat) (st : match_st) : match_st :=
  match fmts with
  | [] => st
  | f :: fmts' =>
      let pre := ms_preanswer st in
      match rtpmap_of (slave_of pre) f with
      | Some lr =>
          if offer_rtpmap_match or_ lr then
            if is_codec then
              let '(oi, ai) := if prefer_remote then (i, j) else (j, i) in
              let '(status, attrs) := custom_fmt_match (rm_enc_name or_) offer oi pre ai ALLOW_MODIFY_ANSWER in
              let pre := set_m_attr attrs pre in
              if status =? PJ_SUCCESS then
                add_pt (pt_pair fmt f)
                  (mk_match (master_has_codec st) (master_has_other st) true (found_matching_telephone_event st)
                     (found_matching_other st) (pts st) pre)
              else
                match_dynamic_slave i fmt or_ is_codec fmts' (S j)
                  (mk_match (master_has_codec st) (master_has_other st) (found_matching_codec st)
                     (found_matching_telephone_event st) (found_matching_other st) (pts st) pre)
            else
              add_pt (pt_pair fmt f)
                (mk_match (master_has_codec st) (master_has_other st) (found_matching_codec st) true
                   (found_matching_other st) (pts st) pre)
          else match_dynamic_slave i fmt or_ is_codec fmts' (S j) st
      | None => match_dynamic_slave i fmt or_ is_codec fmts' (S j) st
      end
  end.

Definition match_dynamic (i : nat) (fmt : list Z) (st : match_st) : Z + match_st :=
  match rtpmap_of (master_of (ms_preanswer st)) fmt with
  | None => inl PJMEDIA_SDP_EMISSINGRTPMAP
  | Some or_ =>
      let fmts := m_fmt (slave_of (ms_preanswer st)) in
      if str_ieq (rm_enc_name or_) (lit "telephone-event") then
        if found_matching_telephone_event st then inr st
        else inr (match_dynamic_slave i fmt or_ false fmts 0 st)
      else
        let st := mk_match true (master_has_other st) (found_matching_codec st) (found_matching_telephone_event st)
                    (found_matching_other st) (pts st) (ms_preanswer st) in
        if negb multiple && found_matching_codec st then inr st
        else inr (match_dynamic_slave i fmt or_ true fmts 0 st)
  end.

(** A payload type that is not a number *)
Definition match_other (fmt : list Z) (st : match_st) : match_st :=
  let st := mk_match (master_has_codec st) true (found_matching_codec st) (found_matching_telephone_event st)
              (found_matching_other st) (pts st) (ms_preanswer st) in
  if found_matching_other st then st
  else
    match List.find (fun f => str_eq fmt f) (m_fmt (slave_of (ms_preanswer st))) with
    | Some f =>
        add_pt (pt_pair fmt f)
          (mk_match (master_has_codec st) true (found_matching_codec st) (found_matching_telephone_event st)
             true (pts st) (ms_preanswer st))
    | None => st
    end.

(** The loop over the formats of the master, [fmts] from [i] on *)
Fixpoint match_master (fmts : list (list Z)) (i : nat) (st : match_st) : Z + match_st :=
  match fmts with
  | [] => inr st
  | fmt :: fmts' =>
      let r :=
        if first_is_digit fmt then
          if pj_strtoul fmt <? 96 then inr (match_static fmt st) else match_dynamic i fmt st
        else inr (match_other fmt st) in
      match r with
      | inl e => inl e
      | inr st => match_master fmts' (S i) st
      end
  end.
End Match.

(** "Build the answer": the matched formats move to the front, in order. *)
Fixpoint place_formats (pts : list (list Z)) (i : nat) (fmts : list (list Z)) : option (list (list Z)) :=
  match pts with
  | [] => Some fmts
  | pt :: pts' =>
      j ← find_idx (fun f => str_eq f pt) (drop i fmts);
      fmts ← swap fmts i (i + j)%nat;
      place_formats pts' (S i) fmts
  end.

(** The payload type at the start of a value, which has as many characters as the format *)
Definition rewrite_pt (value old_pt new_pt : list Z) : list Z := new_pt ++ drop (length old_pt) value.

(** Taking the attribute of a format out, its payload type rewritten *)
Definition take_attr (name old_pt new_pt : list Z) (r : pjmedia_sdp_media * list pjmedia_sdp_attr) :
    pjmedia_sdp_media * list pjmedia_sdp_attr :=
  let '(m, tmp) := r in
  match pjmedia_sdp_media_find_attr m name (Some old_pt) with
  | Some k =>
      match m_attr m !! k with
      | Some a => (pjmedia_sdp_media_remove_attr m k, tmp ++ [mk_attr (a_name a) (rewrite_pt (a_value a) old_pt new_pt)])
      | None => (m, tmp)
      end
  | None => (m, tmp)
  end.

Fixpoint symmetric_pts (pts : list (list Z * list Z)) (i : nat) (r : pjmedia_sdp_media * list pjmedia_sdp_attr) :
    pjmedia_sdp_media * list pjmedia_sdp_attr :=
  match pts with
  | [] => r
  | (pt_offer, pt_answer) :: pts' =>
      if str_eq pt_answer pt_offer then symmetric_pts pts' (S i) r
      else
        let '(m, tmp) := r in
        let m := set_m_fmt (<[i := pt_offer]> (m_fmt m)) m in
        symmetric_pts pts' (S i) (take_attr (lit "fmtp") pt_answer pt_offer (take_attr (lit "rtpmap") pt_answer pt_offer (m, tmp)))
  end.

Definition apply_answer_symmetric_pt (answer : pjmedia_sdp_media) (pts : list (list Z * list Z)) : pjmedia_sdp_media :=
  let '(m, tmp) := symmetric_pts pts 0 (answer, []) in
  fold_left (fun m a => snd (pjmedia_sdp_media_add_attr m a)) tmp m.

(** The answer for the matched formats *)
Definition build_answer (offer pre : pjmedia_sdp_media) (pts : list (list Z * list Z)) : option pjmedia_sdp_media :=
  fmts ← place_formats (map snd pts) 0 (m_fmt pre);
  let answer := set_m_fmt fmts pre in
  let answer := fold_left remove_fmt_attrs (drop (length pts) fmts) answer in
  let answer := set_m_fmt (take (length pts) fmts) answer in
  Some (update_media_direction offer (apply_answer_symmetric_pt answer pts)).

(** The status with the answer, and the preanswer with the attributes the
    callbacks left *)
Definition match_offer (prefer_remote multiple : bool) (offer preanswer : pjmedia_sdp_media)
    (preanswer_sdp : pjmedia_sdp_session) : option ((Z + pjmedia_sdp_media) * pjmedia_sdp_media) :=
  if m_port offer =? 0 then Some (inr (sdp_media_clone_deactivate offer preanswer preanswer_sdp), preanswer)
  else if m_port preanswer =? 0 then Some (inr preanswer, preanswer)
  else
    match match_master prefer_remote multiple offer (m_fmt (if prefer_remote then offer else preanswer)) 0
            (mk_match false false false false false [] preanswer) with
    | inl e => Some (inl e, preanswer)
    | inr st =>
        if master_has_codec st && negb (found_matching_codec st)
        then Some (inl PJMEDIA_SDPNEG_NOANSCODEC, ms_preanswer st)
        else if master_has_other st && negb (found_matching_other st)
        then Some (inl PJMEDIA_SDPNEG_NOANSUNKNOWN, ms_preanswer st)
        else answer ← build_answer offer (ms_preanswer st) (pts st); Some (inr answer, ms_preanswer st)
    end.

(** ** Creating an answer *)

(** The search among the media of the initial description, each with the flag
    that says it is used: the answer if one matches, the media afterwards, and
    the last status. *)
Fixpoint find_media (neg : pjmedia_sdp_neg) (initial : pjmedia_sdp_session) (om : pjmedia_sdp_media)
    (ims : list (pjmedia_sdp_media * bool)) (status : Z) :
    option (option pjmedia_sdp_media * list (pjmedia_sdp_media * bool) * Z) :=
  match ims with
  | [] => Some (None, [], status)
  | (im, used) :: ims' =>
      if str_eq (m_media om) (m_media im) && str_eq (m_transport om) (m_transport im) && negb used then
        '(r, im) ← match_offer (prefer_remote_codec_order neg) (answer_with_multiple_codecs neg) om im initial;
        match r with
        | inr am => Some (Some am, (im, true) :: ims', status)
        | inl st => '(am, ims', status) ← find_media neg initial om ims' st; Some (am, (im, used) :: ims', status)
        end
      else '(am, ims', status) ← find_media neg initial om ims' status; Some (am, (im, used) :: ims', status)
  end.

Fixpoint answer_medias (neg : pjmedia_sdp_neg) (initial answer : pjmedia_sdp_session) (oms : list pjmedia_sdp_media)
    (ims : list (pjmedia_sdp_media * bool)) (status : Z) (has_active : bool) :
    option (list pjmedia_sdp_media * Z * bool) :=
  match oms with
  | [] => Some ([], status, has_active)
  | om :: oms' =>
      '(r, ims, status) ← find_media neg initial om ims status;
      let am := match r with Some am => am | None => sdp_media_clone_deactivate om om answer end in
      '(ams, status, act) ← answer_medias neg initial answer oms' ims status (has_active || negb (m_port am =? 0));
      Some (am :: ams, status, act)
  end.

(** [status] starts as the result of the validation, which is PJ_SUCCESS. *)
Definition create_answer (neg : pjmedia_sdp_neg) (initial offer : pjmedia_sdp_session) :
    option (Z * option pjmedia_sdp_session) :=
  let status := pjmedia_sdp_validate maxulong offer in
  if negb (status =? PJ_SUCCESS) then Some (status, None)
  else
    let answer := set_s_media [] initial in
    '(ams, status, has_active) ← answer_medias neg initial answer (s_media offer)
                                   (map (fun m => (m, false)) (s_media initial)) status false;
    Some (if has_active : bool then PJ_SUCCESS else status, Some (set_s_media ams answer)).

(** ** The negotiator *)

Definition set_n (state : pjmedia_sdp_neg_state) (init tmp aloc arem nloc nrem : option pjmedia_sdp_session)
    (hra : bool) neg : pjmedia_sdp_neg :=
  mk_neg state (prefer_remote_codec_order neg) (answer_with_multiple_codecs neg) hra (answer_was_remote neg)
    init tmp aloc arem nloc nrem.

Definition PJMEDIA_SDP_NEG_PREFER_REMOTE_CODEC_ORDER : bool := true.
Definition PJMEDIA_SDP_NEG_ANSWER_MULTIPLE_CODECS : bool := false.

(** The status, and the negotiator when it is created *)
Definition pjmedia_sdp_neg_create_w_local_offer (local : pjmedia_sdp_session) : Z * option pjmedia_sdp_neg :=
  let status := pjmedia_sdp_validate maxulong local in
  if negb (status =? PJ_SUCCESS) then (status, None)
  else (PJ_SUCCESS, Some (mk_neg PJMEDIA_SDP_NEG_STATE_LOCAL_OFFER PJMEDIA_SDP_NEG_PREFER_REMOTE_CODEC_ORDER
          PJMEDIA_SDP_NEG_ANSWER_MULTIPLE_CODECS false false (Some local) None None None (Some local) None)).

Definition pjmedia_sdp_neg_create_w_remote_offer (initial : option pjmedia_sdp_session) (remote : pjmedia_sdp_session) :
    Z * option pjmedia_sdp_neg :=
  let status := pjmedia_sdp_validate2 maxulong remote false in
  if negb (status =? PJ_SUCCESS) then (status, None)
  else
    let neg st i l := mk_neg st PJMEDIA_SDP_NEG_PREFER_REMOTE_CODEC_ORDER false false false i None None None l (Some remote) in
    match initial with
    | Some i =>
        let status := pjmedia_sdp_validate maxulong i in
        if negb (status =? PJ_SUCCESS) then (status, None)
        else (PJ_SUCCESS, Some (neg PJMEDIA_SDP_NEG_STATE_WAIT_NEGO (Some i) (Some i)))
    | None => (PJ_SUCCESS, Some (neg PJMEDIA_SDP_NEG_STATE_REMOTE_OFFER None None))
    end.

Definition pjmedia_sdp_neg_set_prefer_remote_codec_order neg (b : bool) : pjmedia_sdp_neg :=
  mk_neg (n_state neg) b (answer_with_multiple_codecs neg) (has_remote_answer neg) (answer_was_remote neg)
    (initial_sdp neg) (initial_sdp_tmp neg) (active_local_sdp neg) (active_remote_sdp neg) (neg_local_sdp neg)
    (neg_remote_sdp neg).
Definition pjmedia_sdp_neg_set_answer_multiple_codecs neg (b : bool) : pjmedia_sdp_neg :=
  mk_neg (n_state neg) (prefer_remote_codec_order neg) b (has_remote_answer neg) (answer_was_remote neg)
    (initial_sdp neg) (initial_sdp_tmp neg) (active_local_sdp neg) (active_remote_sdp neg) (neg_local_sdp neg)
    (neg_remote_sdp neg).

Definition active_or_error (s : option pjmedia_sdp_session) (e : Z) : Z + pjmedia_sdp_session :=
  match s with Some s => inr s | None => inl e end.
Definition pjmedia_sdp_neg_get_active_local neg := active_or_error (active_local_sdp neg) PJMEDIA_SDPNEG_ENOACTIVE.
Definition pjmedia_sdp_neg_get_active_remote neg := active_or_error (active_remote_sdp neg) PJMEDIA_SDPNEG_ENOACTIVE.
Definition pjmedia_sdp_neg_get_neg_local neg := active_or_error (neg_local_sdp neg) PJMEDIA_SDPNEG_ENONEG.
Definition pjmedia_sdp_neg_get_neg_remote neg := active_or_error (neg_remote_sdp neg) PJMEDIA_SDPNEG_ENONEG.
Definition pjmedia_sdp_neg_was_answer_remote neg : bool := answer_was_remote neg.
Definition pjmedia_sdp_neg_has_local_answer neg : bool := negb (has_remote_answer neg).

(** The loop that keeps the media lines of the old offer in place: [news] are the
    lines from the current one on, [done] the number of lines before. *)
Fixpoint fix_media (local : pjmedia_sdp_session) (olds : list pjmedia_sdp_media) (n_done : nat)
    (news : list pjmedia_sdp_media) : option (list pjmedia_sdp_media) :=
  match olds with
  | [] => Some news
  | om :: olds' =>
      match find_idx (fun nm => str_eq (m_media nm) (m_media om)) news with
      | Some ni =>
          nm ← news !! ni;
          rest ← fix_media local olds' (S n_done) (erase news ni);
          Some (nm :: rest)
      | None =>
          if (PJMEDIA_MAX_SDP_MEDIA <=? n_done + length news)%nat then None
          else
            rest ← fix_media local olds' (S n_done) news;
            Some (sdp_media_clone_deactivate om om local :: rest)
      end
  end.

(** With PJMEDIA_SDP_NEG_ALLOW_MEDIA_CHANGE the missing lines are only added. *)
Definition pad_media (local : pjmedia_sdp_session) (olds news : list pjmedia_sdp_media) : option (list pjmedia_sdp_media) :=
  if (PJMEDIA_MAX_SDP_MEDIA <? length olds)%nat && (length news <? length olds)%nat then None
  else Some (news ++ map (fun om => sdp_media_clone_deactivate om om local) (drop (length news) olds)).

Definition pjmedia_sdp_neg_modify_local_offer2 neg (allow_media_change : bool) (local : pjmedia_sdp_session) :
    option (Z * pjmedia_sdp_neg) :=
  if negb (bool_decide (n_state neg = PJMEDIA_SDP_NEG_STATE_DONE)) then Some (PJMEDIA_SDPNEG_EINSTATE, neg)
  else
    let status := pjmedia_sdp_validate maxulong local in
    if negb (status =? PJ_SUCCESS) then Some (status, neg)
    else
      old_offer ← active_local_sdp neg;
      let o := s_origin old_offer in
      media ← (if negb allow_media_change then fix_media local (s_media old_offer) 0 (s_media local)
               else pad_media local (s_media old_offer) (s_media local));
      let new_offer := set_s_media media (set_s_origin (set_o_version (u32 (o_version o + 1)) o) local) in
      Some (PJ_SUCCESS, set_n PJMEDIA_SDP_NEG_STATE_LOCAL_OFFER (Some new_offer) (initial_sdp neg) (active_local_sdp neg)
              (active_remote_sdp neg) (Some new_offer) (neg_remote_sdp neg) (has_remote_answer neg) neg).

Definition pjmedia_sdp_neg_modify_local_offer neg (local : pjmedia_sdp_session) : option (Z * pjmedia_sdp_neg) :=
  pjmedia_sdp_neg_modify_local_offer2 neg false local.

(** The status, the offer to send and the negotiator *)
Definition pjmedia_sdp_neg_send_local_offer neg : Z * option pjmedia_sdp_session * pjmedia_sdp_neg :=
  match n_state neg with
  | PJMEDIA_SDP_NEG_STATE_DONE =>
      match active_local_sdp neg with
      | None => (PJMEDIA_SDPNEG_ENOACTIVE, None, neg)
      | Some a =>
          let tmp := match initial_sdp neg with Some i => Some i | None => initial_sdp_tmp neg end in
          (PJ_SUCCESS, Some a, set_n PJMEDIA_SDP_NEG_STATE_LOCAL_OFFER (initial_sdp neg) tmp (Some a)
             (active_remote_sdp neg) (Some a) (neg_remote_sdp neg) (has_remote_answer neg) neg)
      end
  | PJMEDIA_SDP_NEG_STATE_LOCAL_OFFER => (PJ_SUCCESS, neg_local_sdp neg, neg)
  | _ => (PJMEDIA_SDPNEG_EINSTATE, None, neg)
  end.

Definition pjmedia_sdp_neg_set_remote_answer neg (remote : pjmedia_sdp_session) : Z * pjmedia_sdp_neg :=
  if bool_decide (n_state neg = PJMEDIA_SDP_NEG_STATE_LOCAL_OFFER) then
    (PJ_SUCCESS, set_n PJMEDIA_SDP_NEG_STATE_WAIT_NEGO (initial_sdp neg) (initial_sdp_tmp neg) (active_local_sdp neg)
       (active_remote_sdp neg) (neg_local_sdp neg) (Some remote) true neg)
  else (PJMEDIA_SDPNEG_EINSTATE, neg).

Definition pjmedia_sdp_neg_set_remote_offer neg (remote : pjmedia_sdp_session) : Z * pjmedia_sdp_neg :=
  if bool_decide (n_state neg = PJMEDIA_SDP_NEG_STATE_DONE) then
    (PJ_SUCCESS, set_n PJMEDIA_SDP_NEG_STATE_REMOTE_OFFER (initial_sdp neg) (initial_sdp_tmp neg) (active_local_sdp neg)
       (active_remote_sdp neg) (neg_local_sdp neg) (Some remote) (has_remote_answer neg) neg)
  else (PJMEDIA_SDPNEG_EINSTATE, neg).

(** [local] is not NULL: the code refuses NULL before it handles it. *)
Definition pjmedia_sdp_neg_set_local_answer neg (local : pjmedia_sdp_session) : Z * pjmedia_sdp_neg :=
  if bool_decide (n_state neg = PJMEDIA_SDP_NEG_STATE_REMOTE_OFFER) then
    match initial_sdp neg with
    | Some i =>
        (PJ_SUCCESS, set_n PJMEDIA_SDP_NEG_STATE_WAIT_NEGO (Some i) (Some i) (active_local_sdp neg)
           (active_remote_sdp neg) (Some (set_s_origin (set_o_id (o_id (s_origin i)) (s_origin local)) local))
           (neg_remote_sdp neg) (has_remote_answer neg) neg)
    | None =>
        (PJ_SUCCESS, set_n PJMEDIA_SDP_NEG_STATE_WAIT_NEGO (Some local) (initial_sdp_tmp neg) (active_local_sdp neg)
           (active_remote_sdp neg) (Some local) (neg_remote_sdp neg) (has_remote_answer neg) neg)
    end
  else (PJMEDIA_SDPNEG_EINSTATE, neg).

Definition bump_version (s : pjmedia_sdp_session) : pjmedia_sdp_session :=
  set_s_origin (set_o_version (u32 (o_version (s_origin s) + 1)) (s_origin s)) s.

Definition pjmedia_sdp_neg_cancel_offer neg : Z * pjmedia_sdp_neg :=
  match n_state neg with
  | PJMEDIA_SDP_NEG_STATE_LOCAL_OFFER =>
      (PJ_SUCCESS, set_n PJMEDIA_SDP_NEG_STATE_DONE (initial_sdp_tmp neg) None (bump_version <$> active_local_sdp neg)
         (active_remote_sdp neg) None None false neg)
  | PJMEDIA_SDP_NEG_STATE_REMOTE_OFFER =>
      (PJ_SUCCESS, set_n PJMEDIA_SDP_NEG_STATE_DONE (initial_sdp neg) None (active_local_sdp neg)
         (active_remote_sdp neg) None None false neg)
  | _ => (PJMEDIA_SDPNEG_EINSTATE, neg)
  end.

(** The status of the negotiation and the active descriptions after it *)
Definition run_negotiation neg (remote : pjmedia_sdp_session) (allow_asym : bool) :
    option (Z * option pjmedia_sdp_session * option pjmedia_sdp_session) :=
  let failed status := Some (status, active_local_sdp neg, active_remote_sdp neg) in
  match neg_local_sdp neg with
  | None =>
      failed (if has_remote_answer neg then PJ_EINVAL
              else if negb (pjmedia_sdp_validate maxulong remote =? PJ_SUCCESS) then pjmedia_sdp_validate maxulong remote
              else PJ_ENOMEM)
  | Some local =>
      if has_remote_answer neg then
        '(status, r) ← process_answer local remote allow_asym;
        match r with
        | Some (offer, answer) => if status =? PJ_SUCCESS then Some (status, Some offer, Some answer) else failed status
        | None => failed status
        end
      else
        '(status, r) ← create_answer neg local remote;
        if status =? PJ_SUCCESS then
          answer ← r;
          base ← match active_local_sdp neg with Some a => Some a | None => initial_sdp neg end;
          let ver := u32 (o_version (s_origin base) + 1) in
          Some (status, Some (set_s_origin (set_o_version ver (s_origin answer)) answer), Some remote)
        else failed status
  end.

Definition pjmedia_sdp_neg_negotiate neg (allow_asym : bool) : option (Z * pjmedia_sdp_neg) :=
  if negb (bool_decide (n_state neg = PJMEDIA_SDP_NEG_STATE_WAIT_NEGO)) then Some (PJMEDIA_SDPNEG_EINSTATE, neg)
  else
    match neg_remote_sdp neg with
    | None => Some (PJ_EBUG, neg)
    | Some remote =>
        '(status, aloc, arem) ← run_negotiation neg remote allow_asym;
        let init := if status =? PJ_SUCCESS then initial_sdp neg else initial_sdp_tmp neg in
        Some (status, mk_neg PJMEDIA_SDP_NEG_STATE_DONE (prefer_remote_codec_order neg) (answer_with_multiple_codecs neg)
                false (has_remote_answer neg) init None aloc arem None None)
    end.
End Negotiator.
