(* ===== verification/SdpProps.v ===== *)
(** * SDP negotiation: the properties

    Directions, the pairing of formats when an answer is processed, the answer
    made for an offer, the offers that modify a session, and the negotiator as a
    state machine. *)

From Stdlib Require Strings.String.
From stdpp Require Import sorting.
From S2P Require Import Prelude Hash PjStr Sdp SdpNeg.
Import Strings.String.StringSyntax.

Section Proofs.
Context {Str : PjString}.

(** ** Strings and attributes *)

Lemma str_eq_spec a b : reflect (a = b) (str_eq a b).
Proof.
  unfold str_eq. destruct (Z.eqb_spec (pj_strcmp a b) 0) as [E|E]; constructor.
  - by apply pj_strcmp_0.
  - intros ->. by apply E, pj_strcmp_0.
Qed.

Lemma str_eq_refl a : str_eq a a = true.
Proof. by destruct (str_eq_spec a a). Qed.

Definition same_fold (a b : list Z) : Prop := map pj_tolower a = map pj_tolower b.

Lemma str_ieq_spec a b : reflect (same_fold a b) (str_ieq a b).
Proof.
  unfold str_ieq, same_fold. destruct (Z.eqb_spec (pj_stricmp a b) 0) as [E|E]; constructor; by rewrite <- pj_stricmp_0.
Qed.

Definition named (name : list Z) (a : pjmedia_sdp_attr) : bool := str_eq (a_name a) name.

Lemma find_none attrs name : pjmedia_sdp_attr_find attrs name None = None <-> existsb (named name) attrs = false.
Proof.
  induction attrs as [|a attrs IH]; [done|]. cbn. unfold attr_matches, named. rewrite andb_true_r.
  destruct (str_eq (a_name a) name); cbn; [done|]. rewrite <- IH.
  by destruct (pjmedia_sdp_attr_find attrs name None).
Qed.

Lemma has_attr_eq m name : has_attr m name = existsb (named name) (m_attr m).
Proof.
  unfold has_attr, pjmedia_sdp_media_find_attr. pose proof (find_none (m_attr m) name) as H.
  destruct (pjmedia_sdp_attr_find (m_attr m) name None) as [i|] eqn:E.
  - rewrite bool_decide_true by by eexists. destruct (existsb (named name) (m_attr m)); [done|].
    destruct H as [_ H]. by specialize (H eq_refl).
  - rewrite bool_decide_false by (by intros []). symmetry. by apply H.
Qed.

Lemma named_filter name name' attrs :
  existsb (named name) (List.filter (fun a => negb (str_eq (a_name a) name')) attrs) =
  negb (str_eq name name') && existsb (named name) attrs.
Proof.
  induction attrs as [|a attrs IH]; [by rewrite andb_false_r|]. cbn.
  destruct (str_eq_spec (a_name a) name') as [E|E]; cbn.
  - rewrite IH. unfold named at 2. destruct (str_eq_spec (a_name a) name) as [E'|E']; [|done].
    replace (str_eq name name') with true; [done|]. rewrite <- E, <- E'. by rewrite str_eq_refl.
  - rewrite IH. unfold named at 1 3. destruct (str_eq_spec (a_name a) name) as [E'|E']; [|done]. cbn.
    destruct (str_eq_spec name name') as [->|E'']; [congruence|done].
Qed.

(** ** Directions *)

Definition dir_names : list (list Z) := [lit "inactive"; lit "sendrecv"; lit "sendonly"; lit "recvonly"].

Lemma directions_removed m name : existsb (named name) (m_attr (remove_all_media_directions m)) =
  negb (existsb (str_eq name) dir_names) && existsb (named name) (m_attr m).
Proof.
  unfold remove_all_media_directions, pjmedia_sdp_media_remove_all_attr, set_m_attr. cbn [m_attr].
  rewrite !named_filter. cbn [existsb dir_names].
  by destruct (str_eq name (lit "inactive")), (str_eq name (lit "sendrecv")), (str_eq name (lit "sendonly")),
    (str_eq name (lit "recvonly")).
Qed.

(** What an update of the direction leaves alone *)
Definition same_line (m m' : pjmedia_sdp_media) : Prop :=
  m_media m' = m_media m /\ m_port m' = m_port m /\ m_port_count m' = m_port_count m /\
  m_transport m' = m_transport m /\ m_fmt m' = m_fmt m /\ m_conn m' = m_conn m /\ m_bandw m' = m_bandw m.

Lemma add_attr_line m a : same_line m (snd (pjmedia_sdp_media_add_attr m a)).
Proof. unfold pjmedia_sdp_media_add_attr. by destruct (_ <? _)%nat. Qed.

Lemma update_direction_line remote m : same_line m (update_media_direction remote m).
Proof.
  unfold update_media_direction. destruct (bool_decide _); [done|].
  destruct (dir_attr _) as [a|]; [|done]. exact (add_attr_line (remove_all_media_directions m) a).
Qed.

Lemma filter_length {A} (p : A -> bool) (l : list A) : (length (List.filter p l) <= length l)%nat.
Proof. induction l as [|x l IH]; [done|]. cbn. destruct (p x); cbn; lia. Qed.

Lemma directions_length m : (length (m_attr (remove_all_media_directions m)) <= length (m_attr m))%nat.
Proof.
  unfold remove_all_media_directions, pjmedia_sdp_media_remove_all_attr, set_m_attr. cbn [m_attr].
  repeat (etransitivity; [apply filter_length|]). done.
Qed.

Lemma update_direction_dir remote m : (length (m_attr m) < PJMEDIA_MAX_SDP_ATTR)%nat ->
  local_dir (update_media_direction remote m) = adjusted_dir remote (local_dir m).
Proof.
  intros Hl. unfold update_media_direction.
  destruct (bool_decide_reflect (adjusted_dir remote (local_dir m) = local_dir m)) as [E|E]; [by rewrite E|].
  set (d := adjusted_dir remote (local_dir m)) in *.
  assert (Hr : forall name, In name dir_names -> existsb (named name) (m_attr (remove_all_media_directions m)) = false).
  { intros name Hin. rewrite directions_removed. replace (existsb (str_eq name) dir_names) with true; [done|].
    symmetry. apply existsb_exists. exists name. split; [done|apply str_eq_refl]. }
  assert (Ha : forall a, m_attr (snd (pjmedia_sdp_media_add_attr (remove_all_media_directions m) a)) =
     m_attr (remove_all_media_directions m) ++ [a]).
  { intros a. unfold pjmedia_sdp_media_add_attr. pose proof (directions_length m).
    rewrite (proj2 (Nat.ltb_lt _ _)); [done|]. lia. }
  assert (Hn : forall a name, In name dir_names ->
     has_attr (snd (pjmedia_sdp_media_add_attr (remove_all_media_directions m) a)) name = named name a).
  { intros a name Hin. rewrite has_attr_eq, Ha, existsb_app, Hr by done. cbn. by rewrite orb_false_r. }
  assert (Hdec : forall x y, x <> y -> str_eq x y = false) by (intros x y Hxy; by destruct (str_eq_spec x y)).
  unfold local_dir. destruct d eqn:Ed; cbn [dir_attr].
  - rewrite !Hn by (cbn; tauto). unfold named. cbn [a_name].
    rewrite !(Hdec (lit "inactive")) by done. by rewrite str_eq_refl.
  - rewrite !Hn by (cbn; tauto). unfold named. cbn [a_name]. by rewrite str_eq_refl.
  - rewrite !Hn by (cbn; tauto). unfold named. cbn [a_name].
    rewrite !(Hdec (lit "recvonly") (lit "sendonly")) by done. by rewrite str_eq_refl.
  - rewrite !has_attr_eq, !Hr by (cbn; tauto). done.
Qed.

(** ** Formats and their descriptions *)

(** The attributes of [m] describe a format as the rtpmap [r]. *)
Definition describes (m : pjmedia_sdp_media) (fmt : list Z) (r : pjmedia_sdp_rtpmap) : Prop :=
  exists a, In a (m_attr m) /\ attr_matches (lit "rtpmap") (Some fmt) a = true /\ r = snd (pjmedia_sdp_attr_get_rtpmap a).

Definition attrs_from (m m' : pjmedia_sdp_media) : Prop := incl (m_attr m') (m_attr m).

#[local] Instance attrs_from_preorder : PreOrder attrs_from.
Proof. split; [by intros m a|]. intros m1 m2 m3 H1 H2 a Ha. by apply H1, H2. Qed.

Lemma describes_from m m' fmt r : attrs_from m m' -> describes m' fmt r -> describes m fmt r.
Proof. intros H (a & Ha & Hm & ->). exists a. split; [by apply H|]. done. Qed.

Lemma attr_find_spec attrs name fmt i : pjmedia_sdp_attr_find attrs name fmt = Some i ->
  exists a, attrs !! i = Some a /\ attr_matches name fmt a = true.
Proof.
  revert i. induction attrs as [|a attrs IH]; intros i E; cbn in E; [done|].
  destruct (attr_matches name fmt a) eqn:Em; [injection E as <-; by exists a|].
  destruct (pjmedia_sdp_attr_find attrs name fmt) as [k|]; [|done]. injection E as <-. by apply IH.
Qed.

Lemma rtpmap_describes m fmt r : rtpmap_of m fmt = Some r -> describes m fmt r.
Proof.
  unfold rtpmap_of, find_attr_value, pjmedia_sdp_media_find_attr. intros E.
  destruct (pjmedia_sdp_attr_find (m_attr m) (lit "rtpmap") (Some fmt)) as [i|] eqn:Ei; [|done].
  destruct (attr_find_spec _ _ _ _ Ei) as (a & Ha & Hm). cbn in E. rewrite Ha in E. cbn in E. injection E as <-.
  exists a. split; [|done]. apply list_elem_of_In. by eapply list_elem_of_lookup_2.
Qed.

Lemma erase_incl {A} (l : list A) i : incl (erase l i) l.
Proof.
  intros x Hx. unfold erase in Hx. apply in_app_or in Hx. rewrite <- (take_drop i l). apply in_or_app.
  destruct Hx as [Hx|Hx]; [by left|right]. rewrite <- (take_drop 1 (drop i l)), drop_drop.
  apply in_or_app. right. by rewrite Nat.add_1_r.
Qed.

Lemma remove_found_spec m name fmt : attrs_from m (remove_found m name fmt) /\
  remove_found m name fmt = set_m_attr (m_attr (remove_found m name fmt)) m.
Proof.
  unfold remove_found. destruct (pjmedia_sdp_media_find_attr m name (Some fmt)) as [i|];
    [|by split; [apply incl_refl|destruct m]].
  split; [apply erase_incl|done].
Qed.

Lemma remove_fmt_attrs_spec m fmt : attrs_from m (remove_fmt_attrs m fmt) /\
  remove_fmt_attrs m fmt = set_m_attr (m_attr (remove_fmt_attrs m fmt)) m.
Proof.
  unfold remove_fmt_attrs. destruct (remove_found_spec m (lit "rtpmap") fmt) as [H1 E1].
  destruct (remove_found_spec (remove_found m (lit "rtpmap") fmt) (lit "fmtp") fmt) as [H2 E2].
  split; [by etrans|]. rewrite E2 at 1. rewrite E1 at 2. done.
Qed.

(** The format [f] of the offer and [g] of the answer are the same codec. *)
Definition pairs_with (offer answer : pjmedia_sdp_media) (f g : list Z) : Prop :=
  if pj_strtoul f <? 96 then g = f
  else exists or_ ar, describes offer f or_ /\ describes answer g ar /\ answer_rtpmap_match or_ ar = true.

Lemma pairs_from offer offer' answer f g : attrs_from offer offer' ->
  pairs_with offer' answer f g -> pairs_with offer answer f g.
Proof.
  intros H. unfold pairs_with. destruct (_ <? _); [done|]. intros (or_ & ar & H1 & H2).
  exists or_, ar. split; [by eapply describes_from|done].
Qed.

Lemma find_idx_spec {A} (p : A -> bool) (l : list A) i : find_idx p l = Some i -> exists x, l !! i = Some x /\ p x = true.
Proof.
  revert i. induction l as [|x l IH]; intros i E; cbn in E; [done|].
  destruct (p x) eqn:Ep; [injection E as <-; by exists x|].
  destruct (find_idx p l) as [k|]; [|done]. injection E as <-. by apply IH.
Qed.

Lemma find_idx_none {A} (p : A -> bool) (l : list A) : find_idx p l = None -> Forall (fun x => p x = false) l.
Proof.
  induction l as [|x l IH]; intros E; cbn in E; [constructor|]. destruct (p x) eqn:Ep; [done|].
  destruct (find_idx p l); [done|]. constructor; [done|by apply IH].
Qed.

Section Callbacks.
Context (run_cb : Z -> pjmedia_sdp_neg_fmt_match_cb) (cbs : fmt_match_cbs).

Lemma find_dynamic_spec offer i or_ answer : forall fmts j k,
  find_dynamic run_cb cbs offer i or_ answer fmts j = Some k ->
  exists g ar, fmts !! (k - j)%nat = Some g /\ (j <= k)%nat /\ describes answer g ar /\ answer_rtpmap_match or_ ar = true.
Proof.
  induction fmts as [|f fmts IH]; intros j k E; cbn in E; [done|].
  destruct (rtpmap_of answer f) as [ar|] eqn:Er.
  - destruct (answer_rtpmap_match or_ ar && _) eqn:Em.
    + injection E as <-. apply andb_true_iff in Em as [Em _]. exists f, ar. rewrite Nat.sub_diag.
      split; [done|]. split; [done|]. split; [by apply rtpmap_describes|done].
    + destruct (IH _ _ E) as (g & ar' & Hg & Hk & H). exists g, ar'.
      replace (k - j)%nat with (S (k - S j)) by lia. split; [done|]. split; [lia|done].
  - destruct (IH _ _ E) as (g & ar' & Hg & Hk & H). exists g, ar'.
    replace (k - j)%nat with (S (k - S j)) by lia. split; [done|]. split; [lia|done].
Qed.

Lemma erase_middle {A} (pre post : list A) x : erase (pre ++ x :: post) (length pre) = pre ++ post.
Proof.
  unfold erase. rewrite take_app_length. f_equal. change (x :: post) with ([x] ++ post). rewrite app_assoc, drop_app_length'; [done|].
  rewrite length_app. cbn. lia.
Qed.

(** What is left of the offer, with the matching format of the answer for each *)
Definition kept_ok (offer0 answer : pjmedia_sdp_media) (prior : list nat) (fmts : list (list Z)) : Prop :=
  Forall2 (fun j f => exists g, m_fmt answer !! j = Some g /\ pairs_with offer0 answer f g) prior fmts.

Lemma keep_matched_spec offer0 answer : forall fmts i offer prior pre offer' prior',
  keep_matched run_cb cbs answer fmts i offer prior = inr (offer', prior') ->
  m_fmt offer = pre ++ fmts -> i = length pre -> kept_ok offer0 answer prior pre -> attrs_from offer0 offer ->
  kept_ok offer0 answer prior' (m_fmt offer') /\ attrs_from offer0 offer' /\
  sublist (m_fmt offer') (pre ++ fmts) /\ offer' = set_m_fmt (m_fmt offer') (set_m_attr (m_attr offer') offer).
Proof.
  induction fmts as [|fmt fmts IH]; intros i offer prior pre offer' prior' E Hf Hi Hk Ha; cbn in E.
  { injection E as <- <-. rewrite app_nil_r in *. rewrite Hf. split; [done|]. split; [done|]. split; [done|].
    rewrite <- Hf. by destruct offer. }
  destruct (if pj_strtoul fmt <? 96 then _ else _) as [st|r] eqn:Er; [done|].
  assert (Hr : forall j, r = Some j -> exists g, m_fmt answer !! j = Some g /\ pairs_with offer0 answer fmt g).
  { intros j ->. unfold pairs_with. destruct (pj_strtoul fmt <? 96).
    - injection Er as Er. destruct (find_idx_spec _ _ _ Er) as (g & Hg & Heq). exists g. split; [done|].
      by destruct (str_eq_spec fmt g).
    - destruct (rtpmap_of offer fmt) as [or_|] eqn:Eo; [|done]. injection Er as Er.
      destruct (find_dynamic_spec _ _ _ _ _ _ _ Er) as (g & ar & Hg & _ & Hd & Hm). rewrite Nat.sub_0_r in Hg.
      exists g. split; [done|]. exists or_, ar. split; [|done]. eapply describes_from; [exact Ha|]. by apply rtpmap_describes. }
  destruct r as [j|].
  - specialize (Hr j eq_refl).
    destruct (IH (S i) offer (prior ++ [j]) (pre ++ [fmt]) offer' prior') as (H1 & H2 & H3 & H4); try done.
    + by rewrite <- app_assoc.
    + rewrite length_app. cbn. lia.
    + apply Forall2_app; [done|]. by constructor.
    + split; [done|]. split; [done|]. split; [by rewrite <- app_assoc in H3|done].
  - destruct (remove_fmt_attrs_spec offer fmt) as [Hs Es]. set (o1 := remove_fmt_attrs offer fmt) in *.
    assert (Hf1 : m_fmt o1 = pre ++ fmt :: fmts) by (rewrite Es; exact Hf).
    destruct (IH i (set_m_fmt (erase (m_fmt o1) i) o1) prior pre offer' prior') as (H1 & H2 & H3 & H4).
    + exact E.
    + cbn. by rewrite Hf1, Hi, erase_middle.
    + done.
    + done.
    + etrans; [exact Ha|exact Hs].
    + split; [done|]. split; [done|]. split.
      * etrans; [exact H3|]. apply sublist_app; [done|]. by apply sublist_cons.
      * rewrite H4 at 1. rewrite Es. done.
Qed.


(** *** The sort of the offer *)

Lemma exchange_spec x l z l' : exchange x l = (z, l') ->
  Permutation (x :: l) (z :: l') /\ Forall (fun y => (fst z <= fst y)%nat) l'.
Proof.
  revert x z l'. induction l as [|y l IH]; intros x z l' E; cbn [exchange] in E; [by injection E as <- <-|].
  destruct (Nat.ltb_spec (fst y) (fst x)) as [Hlt|Hge].
  - destruct (exchange y l) as [z1 l1] eqn:E1. injection E as <- <-. destruct (IH _ _ _ E1) as [Hp Hm].
    split; [rewrite Hp; constructor|]. constructor; [|done].
    assert (Hin : y ∈ z1 :: l1) by (rewrite <- Hp; left). apply elem_of_cons in Hin as [->|Hin]; [lia|].
    eapply Forall_forall in Hm; [|exact Hin]. cbn in Hm. lia.
  - destruct (exchange x l) as [z1 l1] eqn:E1. injection E as <- <-. destruct (IH _ _ _ E1) as [Hp Hm].
    split; [rewrite perm_swap, Hp; constructor|]. constructor; [|done].
    assert (Hin : x ∈ z1 :: l1) by (rewrite <- Hp; left). apply elem_of_cons in Hin as [->|Hin]; [lia|].
    eapply Forall_forall in Hm; [|exact Hin]. cbn in Hm. lia.
Qed.

Lemma resort_spec n l : (length l <= n)%nat ->
  Permutation l (resort n l) /\ StronglySorted (fun x y => (fst x <= fst y)%nat) (resort n l).
Proof.
  revert l. induction n as [|n IH]; intros [|x l] Hl; cbn [resort length] in *; [split; [done|apply SSorted_nil]|lia|split; [done|apply SSorted_nil]|].
  destruct (exchange x l) as [z l'] eqn:E. destruct (exchange_spec _ _ _ _ E) as [Hp Hm].
  assert (Hlen : length l' = length l) by (apply Permutation_length in Hp; cbn in Hp; lia).
  destruct (IH l') as [Hp' Hs]; [lia|]. split; [by rewrite Hp, Hp' at 1|]. constructor; [done|].
  by rewrite <- Hp'.
Qed.

(** *** The formats of the answer that are kept *)

Lemma prune_line answer : forall prior fmts i del, prune_answer prior fmts i del answer =
  set_m_fmt (m_fmt (prune_answer prior fmts i del answer)) (set_m_attr (m_attr (prune_answer prior fmts i del answer)) answer).
Proof.
  intros prior fmts. revert answer. induction fmts as [|f fmts IH]; intros answer i del; cbn; [by destruct answer|].
  destruct (match prior !! i with Some _ => _ | None => _ end); [apply IH|].
  rewrite IH at 1. destruct (remove_fmt_attrs_spec answer f) as [_ ->]. done.
Qed.

Lemma prune_attrs answer : forall prior fmts i del, attrs_from answer (prune_answer prior fmts i del answer).
Proof.
  intros prior fmts. revert answer. induction fmts as [|f fmts IH]; intros answer i del; cbn; [apply incl_refl|].
  destruct (match prior !! i with Some _ => _ | None => _ end); [apply IH|].
  etrans; [exact (proj1 (remove_fmt_attrs_spec answer f))|]. apply (IH (set_m_fmt _ _)).
Qed.

Lemma prune_answer_spec (all : list (list Z)) : forall fmts prior answer pre i del,
  m_fmt answer = pre ++ fmts -> length pre = i -> drop (i + del) all = fmts ->
  Z.of_nat (length all) < 2 ^ 32 ->
  StronglySorted lt (drop i prior) -> Forall (fun p => i + del <= p < length all)%nat (drop i prior) ->
  Forall2 (fun p f => all !! p = Some f) (take i prior) pre ->
  Forall2 (fun p f => all !! p = Some f) prior (m_fmt (prune_answer prior fmts i del answer)).
Proof.
  induction fmts as [|f fmts IH]; intros prior answer pre i del Hf Hi Hd Hb Hs Hr Hp; cbn.
  - destruct (drop i prior) as [|p ps] eqn:Ed.
    + rewrite app_nil_r in Hf. rewrite Hf. rewrite <- (take_drop i prior), Ed, app_nil_r. done.
    + inversion Hr as [|? ? Hp0 _]; subst. apply (f_equal length) in Hd. rewrite length_drop in Hd. cbn in Hd. lia.
  - assert (Hall : all !! (i + del)%nat = Some f).
    { rewrite <- (Nat.add_0_r (i + del)), <- lookup_drop, Hd. done. }
    assert (Hd' : drop (S (i + del)) all = fmts).
    { replace (S (i + del)) with ((i + del) + 1)%nat by lia. rewrite <- drop_drop, Hd. done. }
    assert (Hlk : prior !! i = head (drop i prior)).
    { rewrite <- (Nat.add_0_r i) at 1. rewrite <- lookup_drop. by destruct (drop i prior). }
    rewrite Hlk. destruct (drop i prior) as [|p ps] eqn:Ed; cbn [head].
    + apply IH with (pre := pre).
      * destruct (remove_fmt_attrs_spec answer f) as [_ ->]. cbn. by rewrite Hf, <- Hi, erase_middle.
      * done.
      * by rewrite Nat.add_succ_r.
      * done.
      * rewrite Ed. constructor.
      * rewrite Ed. constructor.
      * done.
    + apply Forall_cons in Hr as [Hp0 Hps]. apply StronglySorted_inv in Hs as [Hss Hlt].
      destruct (Z.eqb_spec (u32 (Z.of_nat p - Z.of_nat del)) (Z.of_nat i)) as [Eq|Ne].
      * assert (p = (i + del)%nat) as -> by (unfold u32 in Eq; rewrite Z.mod_small in Eq by lia; lia).
        assert (Eps : drop (S i) prior = ps) by (rewrite <- Nat.add_1_r, <- drop_drop, Ed; done).
        apply IH with (pre := pre ++ [f]).
        -- by rewrite <- app_assoc.
        -- rewrite length_app. cbn. lia.
        -- by rewrite Nat.add_succ_l.
        -- done.
        -- by rewrite Eps.
        -- rewrite Eps. apply Forall_forall. intros q Hq. pose proof (proj1 (Forall_forall _ _) Hps q Hq) as H1.
           pose proof (proj1 (Forall_forall _ _) Hlt q Hq) as H2. cbn in H1, H2. lia.
        -- rewrite (take_S_r _ _ (i + del)%nat) by exact Hlk. apply Forall2_app; [done|]. by constructor.
      * assert (p <> (i + del)%nat) by (intros ->; apply Ne; unfold u32; rewrite Z.mod_small by lia; lia).
        apply IH with (pre := pre).
        -- destruct (remove_fmt_attrs_spec answer f) as [_ ->]. cbn. by rewrite Hf, <- Hi, erase_middle.
        -- done.
        -- by rewrite Nat.add_succ_r.
        -- done.
        -- rewrite Ed. by apply SSorted_cons.
        -- rewrite Ed. constructor; [lia|]. apply Forall_forall. intros q Hq.
           pose proof (proj1 (Forall_forall _ _) Hps q Hq) as H1.
           pose proof (proj1 (Forall_forall _ _) Hlt q Hq) as H2. cbn in H1, H2. lia.
        -- done.
Qed.

(** *** Which formats survive *)

Lemma find_idx_in {A} (p : A -> bool) (l : list A) x : In x l -> p x = true -> find_idx p l <> None.
Proof.
  intros Hx Hp E. apply find_idx_none in E. apply list_elem_of_In in Hx.
  pose proof (proj1 (Forall_forall _ _) E x Hx) as H. cbn in H. congruence.
Qed.

(** A static format that both have is never removed. *)
Lemma keep_matched_static answer f : pj_strtoul f < 96 -> In f (m_fmt answer) ->
  forall fmts i offer prior pre offer' prior',
  keep_matched run_cb cbs answer fmts i offer prior = inr (offer', prior') ->
  m_fmt offer = pre ++ fmts -> i = length pre -> In f (pre ++ fmts) -> In f (m_fmt offer').
Proof.
  intros Hst Hin. induction fmts as [|fmt fmts IH]; intros i offer prior pre offer' prior' E Hf Hi Hx; cbn in E.
  { injection E as <- <-. by rewrite Hf. }
  destruct (if pj_strtoul fmt <? 96 then _ else _) as [st|[j|]] eqn:Er; [done| |].
  - eapply (IH _ _ _ (pre ++ [fmt])); [exact E| | |]; rewrite <- ?app_assoc; [done|rewrite length_app; cbn; lia|done].
  - destruct (remove_fmt_attrs_spec offer fmt) as [_ Es].
    eapply (IH _ _ _ pre); [exact E| |done|].
    + rewrite Es. cbn. by rewrite Hf, Hi, erase_middle.
    + apply in_app_or in Hx as [Hx|[->|Hx]]; apply in_or_app; [by left| |by right].
      exfalso. rewrite (proj2 (Z.ltb_lt _ _) Hst) in Er. injection Er as Er.
      revert Er. eapply find_idx_in; [exact Hin|]. apply str_eq_refl.
Qed.

(** No two formats of the offer are the same codec as one of the answer. *)
Definition distinct_matches (offer answer : pjmedia_sdp_media) : Prop :=
  ForallOrdPairs (fun f1 f2 => forall g, pairs_with offer answer f1 g -> pairs_with offer answer f2 g -> False) (m_fmt offer).

Lemma ord_pairs_sublist {A} (R : A -> A -> Prop) l1 l2 : sublist l1 l2 -> ForallOrdPairs R l2 -> ForallOrdPairs R l1.
Proof.
  induction 1 as [|x l1 l2 Hs IH|x l1 l2 Hs IH]; intros H; [constructor| |].
  - inversion H as [|? ? Hx Hr]; subst. constructor; [|by apply IH].
    apply Forall_forall. intros y Hy. apply (proj1 (Forall_forall _ _) Hx y). by eapply elem_of_sublist.
  - inversion H; subst. by apply IH.
Qed.

Lemma prior_nodup offer0 answer prior fmts : kept_ok offer0 answer prior fmts ->
  ForallOrdPairs (fun f1 f2 => forall g, pairs_with offer0 answer f1 g -> pairs_with offer0 answer f2 g -> False) fmts ->
  base.NoDup prior.
Proof.
  induction 1 as [|j f prior fmts (g & Hg & Hp) Hk IH]; intros H; [constructor|].
  inversion H as [|? ? Hf Hr]; subst. constructor; [|by apply IH]. intros Hin.
  apply list_elem_of_lookup in Hin as (n & Hn). destruct (Forall2_lookup_l _ _ _ _ _ Hk Hn) as (f' & Hf' & g' & Hg' & Hp').
  rewrite Hg in Hg'. injection Hg' as <-. apply list_elem_of_lookup_2 in Hf'.
  by apply (proj1 (Forall_forall _ _) Hf f' Hf' g).
Qed.

Lemma sorted_strict {A} (l : list (nat * A)) : StronglySorted (fun x y => (fst x <= fst y)%nat) l ->
  base.NoDup (map fst l) -> StronglySorted lt (map fst l).
Proof.
  induction 1 as [|x l Hs IH Hx]; intros Hn; cbn in *; [constructor|].
  apply NoDup_cons in Hn as [Hni Hn]. constructor; [by apply IH|]. apply Forall_forall. intros p Hp.
  assert (p <> fst x) by congruence. apply list_elem_of_fmap in Hp as (y & -> & Hy).
  pose proof (proj1 (Forall_forall _ _) Hx y Hy) as H1. cbn in H1. lia.
Qed.

Lemma picks_sublist {A} (all : list A) : forall ps fs k, StronglySorted lt ps -> Forall (fun p => k <= p)%nat ps ->
  Forall2 (fun p f => all !! p = Some f) ps fs -> sublist fs (drop k all).
Proof.
  induction ps as [|p ps IH]; intros fs k Hs Hk Hf; inversion Hf as [|? f ? fs' Hp Hfs]; subst; [apply sublist_nil_l|].
  apply StronglySorted_inv in Hs as [Hss Hlt]. apply Forall_cons in Hk as [Hkp _].
  replace p with (k + (p - k))%nat in Hp by lia. rewrite <- lookup_drop in Hp.
  rewrite <- (take_drop_middle _ _ _ Hp). apply sublist_inserts_l. constructor.
  rewrite drop_drop. apply IH; [done| |done].
  apply Forall_forall. intros q Hq. pose proof (proj1 (Forall_forall _ _) Hlt q Hq) as H. cbn in H. lia.
Qed.

Lemma zip_fst {A B} (l : list A) (k : list B) : length l = length k -> map fst (zip l k) = l.
Proof. revert k. induction l as [|x l IH]; intros [|y k] H; try done. cbn in *. by rewrite IH by lia. Qed.
Lemma zip_snd {A B} (l : list A) (k : list B) : length l = length k -> map snd (zip l k) = k.
Proof. revert k. induction l as [|x l IH]; intros [|y k] H; try done. cbn in *. by rewrite IH by lia. Qed.

Lemma forall_zip {A B} (P : A -> B -> Prop) (l : list (A * B)) :
  Forall2 P (map fst l) (map snd l) <-> Forall (fun x => P (fst x) (snd x)) l.
Proof.
  induction l as [|x l IH]; cbn; [by split; constructor|]. rewrite Forall_cons, <- IH.
  split; [intros H; by inversion H|intros []; by constructor].
Qed.

Lemma keep_matched_error answer : forall fmts i offer prior, keep_matched run_cb cbs answer fmts i offer prior <> inl PJ_SUCCESS.
Proof.
  induction fmts as [|fmt fmts IH]; intros i offer prior; cbn; [done|].
  destruct (pj_strtoul fmt <? 96); [by destruct (find_idx _ _)|].
  destruct (rtpmap_of offer fmt); [|done]. by destruct (find_dynamic _ _ _ _ _ _ _ _).
Qed.

Lemma match_formats_spec offer answer offer' answer' : match_formats run_cb cbs offer answer = (PJ_SUCCESS, offer', answer') ->
  distinct_matches offer answer -> Z.of_nat (length (m_fmt answer)) < 2 ^ 32 ->
  (m_fmt offer' <> [] /\ Forall2 (pairs_with offer answer) (m_fmt offer') (m_fmt answer')) /\
  m_fmt offer' ⊆+ m_fmt offer /\ sublist (m_fmt answer') (m_fmt answer) /\
  (forall f, pj_strtoul f < 96 -> In f (m_fmt offer) -> In f (m_fmt answer) -> In f (m_fmt offer')).
Proof.
  unfold match_formats. intros E Hd Hlen.
  destruct (keep_matched run_cb cbs answer (m_fmt offer) 0 offer []) as [st|[o prior]] eqn:Ek.
  { injection E as -> _ _. exfalso. revert Ek. apply keep_matched_error. }
  destruct (keep_matched_spec offer answer _ _ _ _ [] _ _ Ek) as (Hk & _ & Hsub & _); [reflexivity|reflexivity|apply Forall2_nil_2|reflexivity|].
  cbn [app] in Hsub. destruct (bool_decide_reflect (m_fmt o = [])) as [|Hne]; [done|]. injection E as <- <-.
  cbn [m_fmt set_m_fmt].
  assert (Hl : length prior = length (m_fmt o)) by (by eapply Forall2_length).
  set (z := zip prior (m_fmt o)). destruct (resort_spec (length prior) z) as [Hp Hs];
    [unfold z; rewrite length_zip_with; lia|].
  set (r := resort (length prior) z) in *.
  assert (Hkr : Forall (fun x => exists g, m_fmt answer !! fst x = Some g /\ pairs_with offer answer (snd x) g) r).
  { rewrite <- Hp. apply (forall_zip (fun j f => exists g, m_fmt answer !! j = Some g /\ pairs_with offer answer f g)).
    unfold z. by rewrite zip_fst, zip_snd. }
  assert (Hps : Permutation (m_fmt o) (map snd r)) by (rewrite <- Hp; unfold z; by rewrite zip_snd).
  assert (Hpf : Permutation prior (map fst r)) by (rewrite <- Hp; unfold z; by rewrite zip_fst).
  assert (Hss : StronglySorted lt (map fst r)).
  { apply sorted_strict; [done|]. rewrite <- Hpf. eapply prior_nodup; [exact Hk|]. by eapply ord_pairs_sublist. }
  assert (Hk2 : kept_ok offer answer (map fst r) (map snd r)) by (by apply forall_zip).
  assert (Hpr : Forall2 (fun p f => m_fmt answer !! p = Some f) (map fst r)
                  (m_fmt (prune_answer (map fst r) (m_fmt answer) 0 0 answer))).
  { apply prune_answer_spec with (pre := []); try done. apply Forall_forall. intros p Hin.
    apply list_elem_of_lookup in Hin as (n & Hn). destruct (Forall2_lookup_l _ _ _ _ _ Hk2 Hn) as (f & _ & g & Hg & _).
    split; [lia|]. by eapply lookup_lt_Some. }
  split; [split|split_and!].
  - intros Hn. apply Hne, Permutation_nil. by rewrite Hps, Hn.
  - apply Forall2_same_length_lookup_2.
    { rewrite <- (Forall2_length _ _ _ Hpr). by rewrite <- (Forall2_length _ _ _ Hk2). }
    intros i f g Hf Hg. destruct (Forall2_lookup_r _ _ _ _ _ Hpr Hg) as (p & Hp1 & Hp2).
    destruct (Forall2_lookup_l _ _ _ _ _ Hk2 Hp1) as (f' & Hf' & g' & Hg' & Hpw). congruence.
  - rewrite <- Hps. by apply sublist_submseteq.
  - apply (picks_sublist _ _ _ 0) in Hpr; [done|done|]. apply Forall_forall. intros. lia.
  - intros f Hst H1 H2. apply (Permutation_in _ Hps).
    eapply (keep_matched_static _ _ Hst H2 _ _ _ _ []); [exact Ek|done|done|done].
Qed.

Lemma erase_existsb {A} (p : A -> bool) (l : list A) i x : l !! i = Some x -> p x = false -> existsb p (erase l i) = existsb p l.
Proof.
  intros Hi Hp. unfold erase. rewrite <- (take_drop_middle _ _ _ Hi) at 3. rewrite !existsb_app. cbn. by rewrite Hp.
Qed.

Lemma remove_found_has m name fmt d : name <> d -> has_attr (remove_found m name fmt) d = has_attr m d.
Proof.
  intros Hn. unfold remove_found, pjmedia_sdp_media_find_attr.
  destruct (pjmedia_sdp_attr_find (m_attr m) name (Some fmt)) as [i|] eqn:Ei; [|done].
  destruct (attr_find_spec _ _ _ _ Ei) as (a & Ha & Hm). rewrite !has_attr_eq. cbn [pjmedia_sdp_media_remove_attr m_attr set_m_attr].
  eapply erase_existsb; [exact Ha|]. apply andb_true_iff in Hm as [Hm _].
  unfold named. destruct (str_eq_spec (a_name a) name) as [->|]; [|done]. by destruct (str_eq_spec name d).
Qed.

Lemma keep_matched_has answer d : d <> lit "rtpmap" -> d <> lit "fmtp" -> forall fmts i offer prior offer' prior',
  keep_matched run_cb cbs answer fmts i offer prior = inr (offer', prior') -> has_attr offer' d = has_attr offer d.
Proof.
  intros H1 H2. induction fmts as [|fmt fmts IH]; intros i offer prior offer' prior' E; cbn in E; [by injection E as <- <-|].
  destruct (if pj_strtoul fmt <? 96 then _ else _) as [st|[j|]]; [done|by eapply IH|].
  rewrite (IH _ _ _ _ _ E). unfold has_attr, pjmedia_sdp_media_find_attr at 1. cbn [m_attr set_m_fmt].
  change (has_attr (remove_fmt_attrs offer fmt) d = has_attr offer d).
  unfold remove_fmt_attrs. by rewrite !remove_found_has by congruence.
Qed.

Lemma local_dir_same m m' : (forall d, d <> lit "rtpmap" -> d <> lit "fmtp" -> has_attr m' d = has_attr m d) ->
  local_dir m' = local_dir m.
Proof. intros H. unfold local_dir. by rewrite !H. Qed.

Lemma match_formats_rest offer answer offer' answer' : match_formats run_cb cbs offer answer = (PJ_SUCCESS, offer', answer') ->
  same_line (set_m_fmt (m_fmt offer') offer) offer' /\ same_line (set_m_fmt (m_fmt answer') answer) answer' /\
  local_dir offer' = local_dir offer.
Proof.
  unfold match_formats. intros E.
  destruct (keep_matched run_cb cbs answer (m_fmt offer) 0 offer []) as [st|[o prior]] eqn:Ek.
  { injection E as -> _ _. exfalso. revert Ek. apply keep_matched_error. }
  destruct (keep_matched_spec offer answer _ _ _ _ [] _ _ Ek) as (_ & _ & _ & Eo);
    [reflexivity|reflexivity|apply Forall2_nil_2|reflexivity|].
  destruct (bool_decide (m_fmt o = [])); [done|]. injection E as <- <-. split; [|split].
  - rewrite Eo. unfold same_line. done.
  - rewrite prune_line. done.
  - apply local_dir_same. intros d H1 H2. exact (keep_matched_has _ _ H1 H2 _ _ _ _ _ _ Ek).
Qed.

Lemma update_describes remote m fmt r : describes (update_media_direction remote m) fmt r -> describes m fmt r.
Proof.
  unfold update_media_direction. destruct (bool_decide _); [done|].
  assert (H0 : attrs_from m (remove_all_media_directions m)).
  { unfold remove_all_media_directions, pjmedia_sdp_media_remove_all_attr, attrs_from. cbn [m_attr set_m_attr].
    intros x Hx. repeat (apply List.filter_In in Hx as [Hx _]). exact Hx. }
  destruct (dir_attr _) as [a|] eqn:Ea; [|by apply describes_from].
  intros (a' & Hin & Hm & ->). exists a'. split; [|done]. revert Hin.
  unfold pjmedia_sdp_media_add_attr. destruct (_ <? _)%nat; cbn [snd m_attr set_m_attr]; [|apply H0].
  intros Hin. apply in_app_or in Hin as [Hin|[<-|[]]]; [by apply H0|]. exfalso.
  apply andb_true_iff in Hm as [Hm _]. revert Hm.
  destruct (adjusted_dir _ _); cbn in Ea; try done; injection Ea as <-; cbn [a_name];
    match goal with |- context [str_eq ?x ?y] => by destruct (str_eq_spec x y) end.
Qed.
End Callbacks.

(** ** Directions: what each side sends and receives *)

Definition sends (d : pjmedia_dir) : bool :=
  match d with PJMEDIA_DIR_ENCODING | PJMEDIA_DIR_ENCODING_DECODING => true | _ => false end.
Definition receives (d : pjmedia_dir) : bool :=
  match d with PJMEDIA_DIR_DECODING | PJMEDIA_DIR_ENCODING_DECODING => true | _ => false end.

(** The direction of the remote media, as seen by the remote *)
Definition remote_dir (m : pjmedia_sdp_media) : pjmedia_dir :=
  if has_attr m (lit "inactive") then PJMEDIA_DIR_NONE
  else if has_attr m (lit "sendonly") then PJMEDIA_DIR_ENCODING
  else if has_attr m (lit "recvonly") then PJMEDIA_DIR_DECODING
  else PJMEDIA_DIR_ENCODING_DECODING.

(** We send what the other side receives, and the reverse. *)
Definition dir_agrees (remote : pjmedia_sdp_media) (old new : pjmedia_dir) : Prop :=
  sends new = sends old && receives (remote_dir remote) /\ receives new = receives old && sends (remote_dir remote).

Lemma adjusted_dir_agrees remote d : dir_agrees remote d (adjusted_dir remote d).
Proof.
  unfold dir_agrees, adjusted_dir, remote_dir.
  destruct (has_attr remote (lit "inactive")), (has_attr remote (lit "sendonly")), (has_attr remote (lit "recvonly")), d; done.
Qed.

(** After its direction is updated a media line sends exactly when it sent before and the
    other side receives, and receives exactly when it received before and the other side sends;
    nothing but attributes changes (when an attribute can still be added). *)
Theorem direction_agrees remote m : (length (m_attr m) < PJMEDIA_MAX_SDP_ATTR)%nat ->
  dir_agrees remote (local_dir m) (local_dir (update_media_direction remote m)) /\
  same_line m (update_media_direction remote m).
Proof.
  intros Hl. rewrite update_direction_dir by done. split; [apply adjusted_dir_agrees|apply update_direction_line].
Qed.

Section Answers.
Context (run_cb : Z -> pjmedia_sdp_neg_fmt_match_cb) (cbs : fmt_match_cbs).

(** C24: when both lines are active and no format of the answer matches two of the offer
    (else the lists may differ in length), the answer is processed without error only with
    formats left, and then the i-th format of our line and the i-th of the answer are the same
    codec, whatever the order and numbers before; the line of the offer has a free attribute; formats are only removed, the answer keeps its
    order, a static format both sides have is kept, and the direction agrees with the answer. *)
Theorem answer_processing offer answer offer' answer' :
  process_m_answer run_cb cbs offer answer false = Some (PJ_SUCCESS, offer', answer') ->
  m_port offer <> 0 -> m_port answer <> 0 -> distinct_matches offer answer ->
  (length (m_attr offer) < PJMEDIA_MAX_SDP_ATTR)%nat -> (length (m_fmt answer) <= PJMEDIA_MAX_SDP_FMT)%nat ->
  (m_fmt offer' <> [] /\ Forall2 (pairs_with offer answer) (m_fmt offer') (m_fmt answer')) /\
  (m_fmt offer' ⊆+ m_fmt offer /\ sublist (m_fmt answer') (m_fmt answer)) /\
  (forall f, pj_strtoul f < 96 -> In f (m_fmt offer) -> In f (m_fmt answer) -> In f (m_fmt offer')) /\
  dir_agrees answer (local_dir offer) (local_dir offer') /\
  (m_media offer' = m_media answer' /\ m_port offer' = m_port offer /\ m_port answer' = m_port answer).
Proof.
  unfold process_m_answer. intros E Ho Ha Hd Hl Hf.
  destruct (str_eq_spec (m_media answer) (m_media offer)) as [Em|]; [|done]. cbn [negb] in E.
  destruct (pjmedia_sdp_transport_cmp _ _ =? PJ_SUCCESS) eqn:Et; [|by injection E as E _ _]. cbn [negb] in E.
  rewrite !(proj2 (Z.eqb_neq _ _)) in E by done. injection E as E.
  set (o := update_media_direction answer offer) in *.
  assert (Hpair : forall f g, pairs_with o answer f g -> pairs_with offer answer f g).
  { intros f g. unfold pairs_with. destruct (_ <? _); [done|]. intros (or_ & ar & H1 & H2). exists or_, ar.
    split; [by apply update_describes in H1|done]. }
  destruct (update_direction_line answer offer) as (L1 & L2 & _ & _ & L5 & _). fold o in L1, L2, L5.
  destruct (match_formats_rest run_cb cbs _ _ _ _ E) as (Lo & La & Ed).
  destruct (match_formats_spec run_cb cbs _ _ _ _ E) as ((H1 & H2) & H3 & H4 & H5).
  { unfold distinct_matches in *. rewrite L5. revert Hd. generalize (m_fmt offer). induction 1 as [|x l Hx Hr IH]; constructor; [|done].
    eapply Forall_impl; [exact Hx|]. cbn. intros f2 Hf2 g G1 G2. by apply (Hf2 g); apply Hpair. }
  { unfold PJMEDIA_MAX_SDP_FMT in Hf. lia. }
  rewrite L5 in H3, H5. split; [split; [done|]|].
  { eapply Forall2_impl; [exact H2|exact Hpair]. }
  split; [done|]. split; [done|]. split.
  { rewrite Ed. unfold o. rewrite update_direction_dir by done. apply adjusted_dir_agrees. }
  destruct Lo as (M1 & M2 & _), La as (N1 & N2 & _). cbn in M1, M2, N1, N2. split; [congruence|]. split; congruence.
Qed.
End Answers.
End Proofs.
