(* ===== verification/SdpAnswer.v ===== *)
(** * SDP negotiation: the answer made for an offer

    The matching of one media line, the search among our media, and the whole
    answer.  pjmedia/sdp_neg.h lets the format match callbacks modify the fmtp of our
    media when an answer is made: they leave every other attribute as it is. *)

From Stdlib Require Strings.String.
From S2P Require Import Prelude Hash PjStr Sdp SdpNeg SdpProps.
Import Strings.String.StringSyntax.

Section Proofs.
Context {Str : PjString} (maxulong : Z) (run_cb : Z -> pjmedia_sdp_neg_fmt_match_cb) (cbs : fmt_match_cbs).

Definition not_fmtp (l : list pjmedia_sdp_attr) : list pjmedia_sdp_attr :=
  List.filter (fun a => negb (str_eq (a_name a) (lit "fmtp"))) l.

Definition callbacks_edit_fmtp : Prop := forall c offer i answer j opt,
  let attrs := snd (run_cb c offer i answer j opt) in
  not_fmtp attrs = not_fmtp (m_attr answer) /\ length attrs = length (m_attr answer).

Context (Hcb : callbacks_edit_fmtp).

(** ** What the callbacks may do to our media *)

Definition evolved (m m' : pjmedia_sdp_media) : Prop :=
  same_line m m' /\ not_fmtp (m_attr m') = not_fmtp (m_attr m) /\ length (m_attr m') = length (m_attr m).

#[export] Instance evolved_preorder : PreOrder evolved.
Proof.
  split; [by intros m|]. intros m1 m2 m3 (L1 & F1 & N1) (L2 & F2 & N2). split; [|split; congruence].
  unfold same_line in *. by intuition congruence.
Qed.

Lemma matches_named name fmt a : attr_matches name fmt a = true -> a_name a = name.
Proof. intros H. apply andb_true_iff in H as [H _]. by destruct (str_eq_spec (a_name a) name). Qed.

Lemma describes_evolved m m' fmt r : evolved m m' -> describes m' fmt r -> describes m fmt r.
Proof.
  intros (_ & H & _) (a & Ha & Hm & ->). exists a. split; [|done].
  assert (Hin : In a (not_fmtp (m_attr m'))).
  { apply List.filter_In. split; [done|]. rewrite (matches_named _ _ _ Hm). by destruct (str_eq_spec (lit "rtpmap") (lit "fmtp")). }
  rewrite H in Hin. by apply List.filter_In in Hin as [Hin _].
Qed.

Lemma evolved_has m m' d : evolved m m' -> d <> lit "fmtp" -> has_attr m' d = has_attr m d.
Proof.
  intros (_ & H & _) Hd. rewrite !has_attr_eq.
  pose proof (named_filter d (lit "fmtp") (m_attr m')) as E'. pose proof (named_filter d (lit "fmtp") (m_attr m)) as E.
  fold (not_fmtp (m_attr m')) in E'. fold (not_fmtp (m_attr m)) in E. rewrite H, E in E'.
  destruct (str_eq_spec d (lit "fmtp")); [done|]. by cbn in E'.
Qed.

Lemma custom_evolved name offer i m j opt : evolved m (set_m_attr (snd (custom_fmt_match run_cb cbs name offer i m j opt)) m).
Proof.
  unfold custom_fmt_match. split; [done|]. cbn [m_attr set_m_attr].
  destruct (find_idx _ cbs ≫= _) as [[n c]|]; cbn; [apply Hcb|done].
Qed.

(** ** Formats that are the same codec *)

(** A format of the offer or of our line, and what it stands for in the other: static payload
    types with the same number; dynamic ones with matching descriptions (rtpmap), whatever
    their numbers; other formats, which are not numbers, with the same name. *)
Inductive same_codec (om im : pjmedia_sdp_media) : list Z -> list Z -> Prop :=
  | sc_static o a f : In o (m_fmt om) -> In a (m_fmt im) -> pj_strtoul o = pj_strtoul f -> pj_strtoul a = pj_strtoul f ->
      pj_strtoul f < 96 -> first_is_digit f = true -> same_codec om im f f
  | sc_dynamic o a ro ra : In o (m_fmt om) -> In a (m_fmt im) -> describes om o ro -> describes im a ra ->
      offer_rtpmap_match ro ra = true -> same_codec om im o a
  | sc_other f : In f (m_fmt om) -> In f (m_fmt im) -> first_is_digit f = false -> same_codec om im f f.

Lemma str_ieq_sym a b : str_ieq a b = str_ieq b a.
Proof. destruct (str_ieq_spec a b) as [H|H], (str_ieq_spec b a) as [H'|H']; done || (by symmetry in H) || (by symmetry in H'). Qed.

Lemma rtpmap_match_sym r1 r2 : offer_rtpmap_match r1 r2 = offer_rtpmap_match r2 r1.
Proof.
  unfold offer_rtpmap_match. rewrite (str_ieq_sym (rm_enc_name r1)), (Z.eqb_sym (rm_clock_rate r1)), (str_ieq_sym (rm_param r1)).
  f_equal. rewrite <- !orb_assoc. f_equal. rewrite orb_comm. f_equal; apply andb_comm.
Qed.

(** ** Matching the formats of a line *)

Section Match.
Context (prefer multiple : bool) (om im : pjmedia_sdp_media).

Definition counted (st : match_st) : Prop := multiple = false ->
  length (pts st) = (Nat.b2n (found_matching_codec st) + Nat.b2n (found_matching_telephone_event st) +
                     Nat.b2n (found_matching_other st))%nat.

Definition st_ok (st : match_st) : Prop :=
  evolved im (ms_preanswer st) /\ Forall (fun p => same_codec om im (fst p) (snd p)) (pts st) /\ counted st.

Lemma evolved_fmt m : evolved im m -> m_fmt m = m_fmt im.
Proof. intros [L _]. apply L. Qed.

(** A format of the master with its description *)
Definition master_has (x : list Z) (r : pjmedia_sdp_rtpmap) : Prop :=
  In x (m_fmt (master_of prefer om im)) /\ describes (master_of prefer om im) x r.

Lemma pair_dynamic pre x y rx ry : evolved im pre -> master_has x rx -> In y (m_fmt (slave_of prefer om pre)) ->
  describes (slave_of prefer om pre) y ry -> offer_rtpmap_match rx ry = true ->
  same_codec om im (fst (pt_pair prefer x y)) (snd (pt_pair prefer x y)).
Proof.
  intros He [Hx Dx] Hy Dy Hm. pose proof (evolved_fmt _ He) as Hf. unfold master_of, slave_of, pt_pair in *.
  destruct prefer; cbn [fst snd].
  - rewrite Hf in Hy. eapply sc_dynamic; [done|done|exact Dx|eapply describes_evolved; [exact He|exact Dy]|done].
  - eapply sc_dynamic; [done|done|exact Dy|exact Dx|]. by rewrite rtpmap_match_sym.
Qed.

Lemma master_fmt pre : evolved im pre -> m_fmt (master_of prefer om pre) = m_fmt (master_of prefer om im).
Proof. intros He. unfold master_of. destruct prefer; [done|by apply evolved_fmt]. Qed.

Lemma slave_fmt pre : evolved im pre -> m_fmt (slave_of prefer om pre) = m_fmt (slave_of prefer om im).
Proof. intros He. unfold slave_of. destruct prefer; [by apply evolved_fmt|done]. Qed.

Lemma match_static_ok fmt st : In fmt (m_fmt (master_of prefer om im)) -> pj_strtoul fmt < 96 ->
  st_ok st -> st_ok (match_static prefer multiple om fmt st).
Proof.
  intros Hin Hst (He & Hp & Hc). unfold match_static. cbn [found_matching_codec ms_preanswer].
  destruct (negb multiple && found_matching_codec st) eqn:Eg; [by split_and!|].
  destruct (List.find _ _) as [f|] eqn:Ef; [|by split_and!].
  apply List.find_some in Ef as [Hf Ht]. apply andb_true_iff in Ht as [Ht Hd]. apply Z.eqb_eq in Ht.
  split; [done|]. split.
  - cbn. apply Forall_app. split; [done|]. constructor; [|constructor]. cbn.
    rewrite (slave_fmt _ He) in Hf. unfold master_of, slave_of in *.
    destruct prefer; [apply sc_static with fmt f|apply sc_static with f fmt]; done || lia.
  - intros Hmu. specialize (Hc Hmu). rewrite Hmu in Eg. cbn in Eg. rewrite Eg in Hc. cbn in *. rewrite length_app. cbn. lia.
Qed.

Lemma match_other_ok fmt st : In fmt (m_fmt (master_of prefer om im)) -> first_is_digit fmt = false ->
  st_ok st -> st_ok (match_other prefer om fmt st).
Proof.
  intros Hin Hdig (He & Hp & Hc). unfold match_other. cbn [found_matching_other ms_preanswer].
  destruct (found_matching_other st) eqn:Eg.
  { split; [done|]. split; [done|]. intros Hmu. specialize (Hc Hmu). cbn in *. rewrite Eg in *. exact Hc. }
  destruct (List.find _ _) as [f|] eqn:Ef.
  2:{ split; [done|]. split; [done|]. intros Hmu. specialize (Hc Hmu). cbn in *. rewrite Eg in *. exact Hc. }
  apply List.find_some in Ef as [Hf Ht]. destruct (str_eq_spec fmt f) as [<-|]; [|done].
  split; [done|]. split.
  - cbn. apply Forall_app. split; [done|]. constructor; [|constructor].
    rewrite (slave_fmt _ He) in Hf. unfold master_of, slave_of, pt_pair in *.
    destruct prefer; by apply sc_other.
  - intros Hmu. specialize (Hc Hmu). rewrite Eg in Hc. cbn in *. rewrite length_app. cbn. lia.
Qed.

Lemma match_slave_ok i fmt or_ is_codec : master_has fmt or_ -> forall fmts j st, st_ok st ->
  incl fmts (m_fmt (slave_of prefer om im)) ->
  (multiple = false -> (if is_codec : bool then found_matching_codec st else found_matching_telephone_event st) = false) ->
  st_ok (match_dynamic_slave run_cb cbs prefer om i fmt or_ is_codec fmts j st).
Proof.
  intros Hm. induction fmts as [|f fmts IH]; intros j st Hs Hi Hg; [done|].
  assert (Hrest : incl fmts (m_fmt (slave_of prefer om im))) by (intros x Hx; apply Hi; by right).
  pose proof Hs as (He & Hp & Hc). cbn [match_dynamic_slave].
  destruct (rtpmap_of (slave_of prefer om (ms_preanswer st)) f) as [lr|] eqn:Er; [|by apply IH].
  apply rtpmap_describes in Er.
  destruct (offer_rtpmap_match or_ lr) eqn:Em; [|by apply IH].
  assert (Hpair : same_codec om im (fst (pt_pair prefer fmt f)) (snd (pt_pair prefer fmt f))).
  { eapply pair_dynamic; [exact He|exact Hm| |exact Er|exact Em]. rewrite slave_fmt by done. apply Hi. by left. }
  assert (Hpts : Forall (fun p => same_codec om im (fst p) (snd p)) (pts st ++ [pt_pair prefer fmt f])).
  { apply Forall_app. by split; [|constructor]. }
  destruct is_codec.
  - destruct (if prefer then (i, j) else (j, i)) as [oi ai].
    pose proof (custom_evolved (rm_enc_name or_) om oi (ms_preanswer st) ai ALLOW_MODIFY_ANSWER) as Hev.
    destruct (custom_fmt_match run_cb cbs (rm_enc_name or_) om oi (ms_preanswer st) ai ALLOW_MODIFY_ANSWER) as [status attrs].
    cbn [snd] in Hev. assert (He' : evolved im (set_m_attr attrs (ms_preanswer st))) by (by etrans).
    destruct (status =? PJ_SUCCESS).
    + split; [done|]. split; [done|]. intros Hmu. specialize (Hc Hmu). rewrite (Hg Hmu) in Hc. cbn in *.
      rewrite length_app. cbn. lia.
    + apply IH; [|done|done]. by split.
  - split; [done|]. split; [done|]. intros Hmu. specialize (Hc Hmu). rewrite (Hg Hmu) in Hc. cbn in *.
    rewrite length_app. cbn. lia.
Qed.

Lemma match_dynamic_ok i fmt st st' : In fmt (m_fmt (master_of prefer om im)) -> st_ok st ->
  match_dynamic run_cb cbs prefer multiple om i fmt st = inr st' -> st_ok st'.
Proof.
  intros Hin Hs. pose proof Hs as (He & Hp & Hc). unfold match_dynamic.
  destruct (rtpmap_of _ fmt) as [or_|] eqn:Er; [|done].
  assert (Hm : master_has fmt or_).
  { split; [done|]. apply rtpmap_describes in Er. unfold master_of in *. destruct prefer; [done|by eapply describes_evolved]. }
  assert (Hi : incl (m_fmt (slave_of prefer om (ms_preanswer st))) (m_fmt (slave_of prefer om im)))
    by (rewrite slave_fmt by done; apply incl_refl).
  destruct (str_ieq _ _).
  - destruct (found_matching_telephone_event st) eqn:Eg; intros E; injection E as <-; [done|].
    by apply match_slave_ok.
  - cbn [found_matching_codec]. destruct (negb multiple && found_matching_codec st) eqn:Eg; intros E; injection E as <-; [done|].
    apply match_slave_ok; [done|done|done|]. intros Hmu. rewrite Hmu in Eg. exact Eg.
Qed.

Lemma match_master_ok : forall fmts i st st', incl fmts (m_fmt (master_of prefer om im)) -> st_ok st ->
  match_master run_cb cbs prefer multiple om fmts i st = inr st' -> st_ok st'.
Proof.
  induction fmts as [|fmt fmts IH]; intros i st st' Hi Hs E; cbn in E; [by injection E as <-|].
  assert (Hin : In fmt (m_fmt (master_of prefer om im))) by (apply Hi; by left).
  assert (Hr : incl fmts (m_fmt (master_of prefer om im))) by (intros x Hx; apply Hi; by right).
  destruct (first_is_digit fmt) eqn:Hdig.
  - destruct (Z.ltb_spec (pj_strtoul fmt) 96).
    + eapply IH; [exact Hr| |exact E]. by apply match_static_ok.
    + destruct (match_dynamic run_cb cbs prefer multiple om i fmt st) as [e|s1] eqn:Ed; [done|].
      eapply IH; [exact Hr| |exact E]. by eapply match_dynamic_ok.
  - eapply IH; [exact Hr| |exact E]. by apply match_other_ok.
Qed.
End Match.

Lemma erase_length {A} (l : list A) i : (length (erase l i) <= length l)%nat.
Proof. unfold erase. rewrite length_app, length_take, length_drop. lia. Qed.

Lemma remove_fmt_length m fmt : (length (m_attr (remove_fmt_attrs m fmt)) <= length (m_attr m))%nat.
Proof.
  assert (H : forall m name, (length (m_attr (remove_found m name fmt)) <= length (m_attr m))%nat).
  { intros m0 name. unfold remove_found. destruct (pjmedia_sdp_media_find_attr m0 name (Some fmt)); [apply erase_length|done]. }
  unfold remove_fmt_attrs. etrans; apply H.
Qed.

(** ** Building the line *)

(** What the building does not change *)
Definition line_of (m : pjmedia_sdp_media) :=
  (m_media m, m_port m, m_port_count m, m_transport m, m_conn m, m_bandw m).

(** [m'] has the line of [m] and, apart from the descriptions of formats, its attributes. *)
Definition rebuilt (m m' : pjmedia_sdp_media) : Prop :=
  line_of m' = line_of m /\ (forall d, d <> lit "rtpmap" -> d <> lit "fmtp" -> has_attr m' d = has_attr m d).

#[local] Instance rebuilt_preorder : PreOrder rebuilt.
Proof.
  split; [by intros m|]. intros m1 m2 m3 [L1 H1] [L2 H2]. split; [congruence|].
  intros d D1 D2. by rewrite H2, H1.
Qed.

Lemma set_fmt_rebuilt f m : rebuilt m (set_m_fmt f m).
Proof. done. Qed.

Lemma remove_fmt_rebuilt m fmt : rebuilt m (remove_fmt_attrs m fmt).
Proof.
  split; [destruct (remove_fmt_attrs_spec m fmt) as [_ ->]; done|]. intros d D1 D2.
  unfold remove_fmt_attrs. by rewrite !remove_found_has by congruence.
Qed.

Lemma remove_fmts_rebuilt fmts : forall m, rebuilt m (fold_left remove_fmt_attrs fmts m) /\
  m_fmt (fold_left remove_fmt_attrs fmts m) = m_fmt m /\
  (length (m_attr (fold_left remove_fmt_attrs fmts m)) <= length (m_attr m))%nat.
Proof.
  induction fmts as [|f fmts IH]; intros m; cbn [fold_left]; [done|].
  destruct (IH (remove_fmt_attrs m f)) as (H1 & H2 & H3). split; [etrans; [apply remove_fmt_rebuilt|done]|].
  split; [rewrite H2; destruct (remove_fmt_attrs_spec m f) as [_ ->]; done|].
  etrans; [exact H3|]. apply remove_fmt_length.
Qed.

Lemma place_formats_spec : forall pts i fmts fmts', place_formats pts i fmts = Some fmts' -> (i <= length fmts)%nat ->
  exists post, fmts' = take i fmts ++ pts ++ post.
Proof.
  induction pts as [|pt pts IH]; intros i fmts fmts' E Hi; cbn in E.
  { injection E as <-. exists (drop i fmts). by rewrite app_nil_l, take_drop. }
  destruct (find_idx _ (drop i fmts)) as [j|] eqn:Ej; [|done]. cbn in E.
  destruct (find_idx_spec _ _ _ Ej) as (x & Hx & Heq). destruct (str_eq_spec x pt) as [->|]; [|done].
  rewrite lookup_drop in Hx. unfold swap in E. destruct (fmts !! i) as [x0|] eqn:E0; [|done]. cbn in E.
  rewrite Hx in E. cbn in E. pose proof (lookup_lt_Some _ _ _ E0) as Hlt.
  destruct (IH _ _ _ E) as (post & ->); [rewrite !length_insert; lia|]. exists post.
  assert (Hl : <[(i + j)%nat := x0]> (<[i := pt]> fmts) !! i = Some pt).
  { destruct j as [|j].
    - rewrite Nat.add_0_r in *. rewrite list_lookup_insert_eq by (rewrite length_insert; lia). congruence.
    - rewrite list_lookup_insert_ne by lia. by rewrite list_lookup_insert_eq. }
  rewrite (take_S_r _ _ _ Hl), take_insert_ge, take_insert_ge by lia. by rewrite <- app_assoc.
Qed.

(** *** The payload types of the offer *)

Definition fmt_attr (a : pjmedia_sdp_attr) : Prop := a_name a = lit "rtpmap" \/ a_name a = lit "fmtp".

Definition held (r : pjmedia_sdp_media * list pjmedia_sdp_attr) : nat := (length (m_attr (fst r)) + length (snd r))%nat.

Lemma take_attr_spec name old_pt new_pt r : name = lit "rtpmap" \/ name = lit "fmtp" -> Forall fmt_attr (snd r) ->
  let r' := take_attr name old_pt new_pt r in
  rebuilt (fst r) (fst r') /\ m_fmt (fst r') = m_fmt (fst r) /\ Forall fmt_attr (snd r') /\ (held r' <= held r)%nat.
Proof.
  intros Hn Hf. destruct r as [m tmp]. unfold take_attr. cbn [fst snd] in *.
  destruct (pjmedia_sdp_media_find_attr m name (Some old_pt)) as [k|] eqn:Ek; [|done].
  destruct (attr_find_spec _ _ _ _ Ek) as (a & Ha & Hm). rewrite Ha. cbn [fst snd].
  split; [split; [done|]|split; [done|split]].
  - intros d D1 D2. rewrite !has_attr_eq. eapply erase_existsb; [exact Ha|].
    unfold named. rewrite (matches_named _ _ _ Hm). destruct (str_eq_spec name d) as [->|]; [|done]. by destruct Hn.
  - apply Forall_app. split; [done|]. constructor; [|constructor]. unfold fmt_attr. cbn [a_name].
    by rewrite (matches_named _ _ _ Hm).
  - unfold held. cbn [fst snd]. rewrite length_app. cbn [length pjmedia_sdp_media_remove_attr m_attr set_m_attr].
    apply lookup_lt_Some in Ha. unfold erase. rewrite length_app, length_take, length_drop. lia.
Qed.

Lemma symmetric_pts_spec : forall pts i r pre, m_fmt (fst r) = pre ++ map snd pts -> length pre = i -> Forall fmt_attr (snd r) ->
  let r' := symmetric_pts pts i r in
  rebuilt (fst r) (fst r') /\ m_fmt (fst r') = pre ++ map fst pts /\ Forall fmt_attr (snd r') /\ (held r' <= held r)%nat.
Proof.
  induction pts as [|[o a] pts IH]; intros i r pre Hf Hi Ht; cbn [symmetric_pts map fst snd] in *; [done|].
  destruct (str_eq_spec a o) as [->|Hne].
  - destruct (IH (S i) r (pre ++ [o])) as (H1 & H2 & H3 & H4).
    + by rewrite <- app_assoc.
    + rewrite length_app. cbn. lia.
    + done.
    + split; [done|]. split; [by rewrite H2, <- app_assoc|]. done.
  - destruct r as [m tmp]. cbn [fst snd] in *. set (m1 := set_m_fmt (<[i := o]> (m_fmt m)) m).
    destruct (take_attr_spec (lit "rtpmap") a o (m1, tmp)) as (A1 & A2 & A3 & A4); [by left|done|].
    destruct (take_attr_spec (lit "fmtp") a o (take_attr (lit "rtpmap") a o (m1, tmp))) as (B1 & B2 & B3 & B4); [by right|done|].
    set (r2 := take_attr (lit "fmtp") a o (take_attr (lit "rtpmap") a o (m1, tmp))) in *.
    destruct (IH (S i) r2 (pre ++ [o])) as (H1 & H2 & H3 & H4).
    + rewrite B2, A2. cbn [fst m1 m_fmt set_m_fmt]. rewrite Hf, <- app_assoc.
      rewrite <- (Nat.add_0_r i), <- Hi, insert_app_r. done.
    + rewrite length_app. cbn. lia.
    + done.
    + split; [|split; [by rewrite H2, <- app_assoc|]].
      * transitivity (fst (take_attr (lit "rtpmap") a o (m1, tmp))); [exact A1|]. by etrans.
      * split; [done|]. unfold held in *. cbn [fst snd m1 m_attr set_m_fmt] in *. lia.
Qed.

Lemma add_attrs_spec : forall tmp m, Forall fmt_attr tmp ->
  let m' := fold_left (fun m a => snd (pjmedia_sdp_media_add_attr m a)) tmp m in
  rebuilt m m' /\ m_fmt m' = m_fmt m /\ (length (m_attr m') <= length (m_attr m) + length tmp)%nat.
Proof.
  induction tmp as [|a tmp IH]; intros m Hf; cbn [fold_left].
  { split; [done|]. split; [done|]. lia. }
  apply Forall_cons in Hf as [Ha Hf].
  assert (H0 : rebuilt m (snd (pjmedia_sdp_media_add_attr m a)) /\ m_fmt (snd (pjmedia_sdp_media_add_attr m a)) = m_fmt m /\
    (length (m_attr (snd (pjmedia_sdp_media_add_attr m a))) <= S (length (m_attr m)))%nat).
  { unfold pjmedia_sdp_media_add_attr. destruct (_ <? _)%nat; cbn [snd]; [|split; [done|split; [done|lia]]].
    split; [split; [done|]|split; [done|cbn; rewrite length_app; cbn; lia]].
    intros d D1 D2. rewrite !has_attr_eq. cbn [m_attr set_m_attr]. rewrite existsb_app. cbn.
    replace (named d a) with false; [by rewrite !orb_false_r|]. unfold named.
    destruct (str_eq_spec (a_name a) d) as [E|]; [|done]. destruct Ha; congruence. }
  destruct H0 as (H1 & H2 & H3). destruct (IH (snd (pjmedia_sdp_media_add_attr m a)) Hf) as (I1 & I2 & I3).
  split; [by etrans|]. split; [congruence|]. cbn [length]. lia.
Qed.

Lemma symmetric_pt_spec answer ptl : m_fmt answer = map snd ptl ->
  let m' := apply_answer_symmetric_pt answer ptl in
  rebuilt answer m' /\ m_fmt m' = map fst ptl /\ (length (m_attr m') <= length (m_attr answer))%nat.
Proof.
  intros Hf. unfold apply_answer_symmetric_pt.
  destruct (symmetric_pts_spec ptl 0 (answer, []) []) as (H1 & H2 & H3 & H4); [done|done|constructor|].
  destruct (symmetric_pts ptl 0 (answer, [])) as [m tmp]. unfold held in H4. cbn [fst snd length] in *.
  destruct (add_attrs_spec tmp m H3) as (I1 & I2 & I3). split; [by etrans|]. split; [by rewrite I2|]. cbn in *. lia.
Qed.

Lemma local_dir_rebuilt m m' : rebuilt m m' -> local_dir m' = local_dir m.
Proof. intros [_ H]. by apply local_dir_same. Qed.

Lemma build_answer_spec om pre ptl am : build_answer om pre ptl = Some am ->
  line_of am = line_of pre /\ m_fmt am = map fst ptl /\
  ((length (m_attr pre) < PJMEDIA_MAX_SDP_ATTR)%nat -> dir_agrees om (local_dir pre) (local_dir am)).
Proof.
  unfold build_answer. intros E. destruct (place_formats (map snd ptl) 0 (m_fmt pre)) as [fmts|] eqn:Ef; [|done].
  cbn [mbind option_bind] in E. injection E as <-.
  destruct (place_formats_spec _ _ _ _ Ef) as (post & ->); [lia|]. rewrite take_0, app_nil_l in *.
  set (rest := drop (length ptl) _). destruct (remove_fmts_rebuilt rest (set_m_fmt (map snd ptl ++ post) pre)) as (H1 & _ & H3).
  set (a1 := fold_left remove_fmt_attrs rest _) in *.
  assert (Et : take (length ptl) (map snd ptl ++ post) = map snd ptl) by (apply take_app_length'; by rewrite length_map).
  rewrite Et. destruct (symmetric_pt_spec (set_m_fmt (map snd ptl) a1) ptl) as (I1 & I2 & I3); [done|].
  set (a2 := apply_answer_symmetric_pt _ _) in *. cbn [m_attr set_m_fmt] in H3, I3.
  assert (Hr : rebuilt pre a2).
  { transitivity a1; [exact H1|]. exact I1. }
  destruct (update_direction_line om a2) as (L1 & L2 & L3 & L4 & L5 & L6 & L7).
  split; [|split].
  - destruct Hr as [Hr _]. rewrite <- Hr. unfold line_of. congruence.
  - congruence.
  - intros Hl. rewrite update_direction_dir by lia. rewrite (local_dir_rebuilt _ _ Hr). apply adjusted_dir_agrees.
Qed.

(** ** One line of the answer *)

(** The line [am] of the answer for [om] of the offer, made from our media [im] *)
Definition answers (multiple : bool) (om im am : pjmedia_sdp_media) : Prop :=
  (m_media am = m_media om /\ m_transport am = m_transport om) /\ (m_port om = 0 -> m_port am = 0) /\
  (m_port am <> 0 ->
     m_port am = m_port im /\ Forall (fun f => exists a, same_codec om im f a) (m_fmt am) /\
     (multiple = false -> (length (m_fmt am) <= 3)%nat) /\
     ((length (m_attr im) < PJMEDIA_MAX_SDP_ATTR)%nat -> dir_agrees om (local_dir im) (local_dir am))).

Lemma same_codec_evolved om im im' f a : evolved im im' -> same_codec om im' f a -> same_codec om im f a.
Proof.
  intros He H. pose proof (evolved_fmt _ _ He) as Hf. destruct H as [o a f H1 H2 H3 H4 H5 H6|o a ro ra H1 H2 H3 H4 H5|f H1 H2 H3];
    rewrite Hf in H2.
  - by apply sc_static with o a.
  - eapply sc_dynamic; try done. by eapply describes_evolved.
  - by apply sc_other.
Qed.

Lemma local_dir_evolved m m' : evolved m m' -> local_dir m' = local_dir m.
Proof. intros He. apply local_dir_same. intros d _ Hd. by apply evolved_has. Qed.

Lemma answers_evolved multiple om im im' am : evolved im im' -> answers multiple om im' am -> answers multiple om im am.
Proof.
  intros He (H1 & H2 & H3). split; [done|]. split; [done|]. intros Hp. destruct (H3 Hp) as (P1 & P2 & P3 & P4).
  split; [rewrite P1; apply He|]. split; [|split; [done|]].
  - eapply Forall_impl; [exact P2|]. cbn. intros f (a & Ha). exists a. by eapply same_codec_evolved.
  - intros Hl. rewrite <- (local_dir_evolved _ _ He). apply P4. destruct He as (_ & _ & ->). done.
Qed.

Lemma match_offer_spec prefer multiple om im sdp r im' : match_offer run_cb cbs prefer multiple om im sdp = Some (r, im') ->
  m_media om = m_media im -> m_transport om = m_transport im ->
  evolved im im' /\ forall am, r = inr am -> answers multiple om im am.
Proof.
  unfold match_offer. intros E Hm Ht.
  destruct (Z.eqb_spec (m_port om) 0) as [Hp|Hp].
  { injection E as <- <-. split; [reflexivity|]. intros am Ea. injection Ea as <-.
    unfold answers, sdp_media_clone_deactivate. by destruct (m_conn _), (s_conn sdp). }
  destruct (Z.eqb_spec (m_port im) 0) as [Hi|Hi].
  { injection E as <- <-. split; [reflexivity|]. intros am Ea. injection Ea as <-. by unfold answers. }
  destruct (match_master _ _ _ _ _ _ _ _) as [e|st] eqn:Em; [injection E as <- <-; by split; [reflexivity|]|].
  assert (Hok : st_ok multiple om im st).
  { eapply (match_master_ok prefer); [|split; [|split]|exact Em]; cbn; [|done|constructor|done].
    unfold master_of. destruct prefer; apply incl_refl. }
  destruct Hok as (He & Hps & Hc).
  destruct (master_has_codec st && negb (found_matching_codec st)); [injection E as <- <-; by split|].
  destruct (master_has_other st && negb (found_matching_other st)); [injection E as <- <-; by split|].
  destruct (build_answer om (ms_preanswer st) (pts st)) as [am|] eqn:Eb; [|done]. cbn in E. injection E as <- <-.
  split; [done|]. intros am' Ea. injection Ea as <-.
  destruct (build_answer_spec om _ _ _ Eb) as (Hl & Hf & Hd). pose proof He as He0. destruct He as [(L1 & L2 & L3 & L4 & L5 & L6 & L7) [He1 He2]].
  unfold line_of in Hl. split; [split; congruence|]. split; [done|]. intros _.
  split; [congruence|]. split; [|split].
  - rewrite Hf. apply Forall_map. eapply Forall_impl; [exact Hps|]. cbn. intros [o a] Ho. by exists a.
  - intros Hmu. rewrite Hf, length_map, (Hc Hmu).
    destruct (found_matching_codec st), (found_matching_telephone_event st), (found_matching_other st); cbn; lia.
  - intros Hl'. rewrite <- (local_dir_evolved _ _ He0). apply Hd. by rewrite He2.
Qed.

(** ** The whole answer *)

(** The media line [slot] of our description is the one the answer [am] to [om] is made
    from; without one the line is refused. *)
Definition answer_of (multiple : bool) (ours : list pjmedia_sdp_media) (om am : pjmedia_sdp_media) (slot : option nat) : Prop :=
  match slot with
  | Some j => exists im, ours !! j = Some im /\ m_media im = m_media om /\ m_transport im = m_transport om /\
                answers multiple om im am
  | None => m_port am = 0 /\ m_media am = m_media om /\ m_transport am = m_transport om /\ m_fmt am = m_fmt om
  end.

Definition tracked (ours : list pjmedia_sdp_media) (ims : list (pjmedia_sdp_media * bool)) : Prop :=
  Forall2 (fun im x => evolved im (fst x)) ours ims.

Lemma tracked_start ours : tracked ours (map (fun m => (m, false)) ours).
Proof. unfold tracked. induction ours as [|m l IH]; constructor; [reflexivity|done]. Qed.

(** The flags after the line [slot] is used *)
Definition used_now (slot : option nat) (u : list bool) : list bool := match slot with Some j => <[j := true]> u | None => u end.

Lemma find_media_spec neg initial om : forall ours ims status r ims' status', tracked ours ims ->
  find_media run_cb cbs neg initial om ims status = Some (r, ims', status') ->
  tracked ours ims' /\ exists slot, map snd ims' = used_now slot (map snd ims) /\
    (forall j, slot = Some j -> map snd ims !! j = Some false) /\
    match r with
    | Some am => exists j, slot = Some j /\ answer_of (answer_with_multiple_codecs neg) ours om am (Some j)
    | None => slot = None
    end.
Proof.
  induction ours as [|im0 ours IH]; intros ims status r ims' status' Ht E; inversion Ht as [|? [im used] ? ims1 He Hs]; subst;
    cbn [find_media] in E.
  { injection E as <- <- <-. split; [done|]. by exists None. }
  assert (Hskip : forall im' st, evolved im0 im' ->
    ('(am, ims2, status2) ← find_media run_cb cbs neg initial om ims1 st; Some (am, (im', used) :: ims2, status2)) =
      Some (r, ims', status') ->
    tracked (im0 :: ours) ims' /\ exists slot, map snd ims' = used_now slot (map snd ((im, used) :: ims1)) /\
      (forall j, slot = Some j -> map snd ((im, used) :: ims1) !! j = Some false) /\
      match r with
      | Some am => exists j, slot = Some j /\ answer_of (answer_with_multiple_codecs neg) (im0 :: ours) om am (Some j)
      | None => slot = None
      end).
  { intros im' st He' E'. destruct (find_media run_cb cbs neg initial om ims1 st) as [[[r1 ims2] st2]|] eqn:Ef; [|done].
    cbn in E'. injection E' as <- <- <-. destruct (IH _ _ _ _ _ Hs Ef) as (Ht' & slot & H1 & H2 & H3).
    split; [by constructor|]. destruct slot as [j|].
    - exists (Some (S j)). split; [cbn; by rewrite H1|]. split; [intros k Ek; injection Ek as <-; by apply H2|].
      destruct r1 as [am|]; [|done]. destruct H3 as (k & Ek & H3). injection Ek as <-. by exists (S j).
    - exists None. split; [cbn; by rewrite H1|]. split; [done|]. destruct r1 as [am|]; [|done]. by destruct H3 as (k & ? & _). }
  destruct (str_eq_spec (m_media om) (m_media im)) as [Em|]; [|eapply Hskip; [exact He|exact E]].
  destruct (str_eq_spec (m_transport om) (m_transport im)) as [Etr|]; [|eapply Hskip; [exact He|exact E]].
  destruct used; [eapply Hskip; [exact He|exact E]|]. cbn [andb negb] in E.
  destruct (match_offer _ _ _ _ om im initial) as [[r1 im1]|] eqn:Eo; [|done]. cbn in E.
  destruct (match_offer_spec _ _ _ _ _ _ _ Eo Em Etr) as [He1 Ha].
  assert (He2 : evolved im0 im1) by (by etrans).
  destruct r1 as [st|am]; [eapply Hskip; [exact He2|exact E]|]. injection E as <- <- <-.
  split; [by constructor|]. exists (Some 0%nat). split; [done|]. split; [intros j Ej; by injection Ej as <-|].
  exists 0%nat. split; [done|]. exists im0. pose proof He as He0. destruct He as [(L1 & _ & _ & L4 & _) He3]. cbn [fst] in *.
  split; [done|]. split; [congruence|]. split; [congruence|].
  apply (answers_evolved _ _ _ im); [exact He0|by apply Ha].
Qed.

Lemma answer_medias_spec neg initial answer ours : forall oms ims status act ams status' act', tracked ours ims ->
  answer_medias run_cb cbs neg initial answer oms ims status act = Some (ams, status', act') ->
  exists slots, Forall3 (answer_of (answer_with_multiple_codecs neg) ours) oms ams slots /\ base.NoDup (omap id slots) /\
    (forall j, j ∈ omap id slots -> map snd ims !! j = Some false) /\
    act' = act || existsb (fun m => negb (m_port m =? 0)) ams.
Proof.
  induction oms as [|om oms IH]; intros ims status act ams status' act' Ht E; cbn [answer_medias] in E.
  { injection E as <- <- <-. exists []. split; [constructor|]. split; [constructor|]. split; [by intros j Hj; inversion Hj|].
    by rewrite orb_false_r. }
  destruct (find_media run_cb cbs neg initial om ims status) as [[[r ims1] st1]|] eqn:Ef; [|done]. cbn in E.
  destruct (find_media_spec _ _ _ _ _ _ _ _ _ Ht Ef) as (Ht1 & slot & Hu & Hfree & Hr).
  set (am := match r with Some am => am | None => _ end) in E.
  destruct (answer_medias _ _ _ _ _ _ _ _ _) as [[[ams1 st2] act2]|] eqn:Ea; [|done]. cbn in E. injection E as <- <- <-.
  destruct (IH _ _ _ _ _ _ Ht1 Ea) as (slots & H1 & H2 & H3 & H4). exists (slot :: slots).
  split; [|split; [|split]].
  - constructor; [|done]. destruct r as [am0|]; [by destruct Hr as (j & -> & Hr)|].
    subst slot am. unfold answer_of, sdp_media_clone_deactivate. by destruct (m_conn _), (s_conn answer).
  - destruct slot as [j|]; [|done]. cbn. constructor; [|done]. intros Hin. apply H3 in Hin.
    rewrite Hu in Hin. cbn in Hin. rewrite list_lookup_insert_eq in Hin; [done|].
    by eapply lookup_lt_Some, Hfree.
  - intros j Hj. destruct slot as [k|]; cbn in Hj.
    + apply elem_of_cons in Hj as [->|Hj]; [by apply Hfree|]. apply H3 in Hj. rewrite Hu in Hj. cbn in Hj.
      destruct (decide (j = k)) as [->|Hne]; [by apply Hfree|]. by rewrite list_lookup_insert_ne in Hj.
    + apply H3 in Hj. by rewrite Hu in Hj.
  - rewrite H4. cbn. by rewrite orb_assoc.
Qed.

End Proofs.
