(* ===== verification/SdpMachine.v ===== *)
(** * SDP negotiation: the negotiator as a state machine

    The offers that modify a session, the processing of a whole answer, and what the
    negotiator holds in each state. *)

From Stdlib Require Strings.String.
From S2P Require Import Prelude Hash PjStr Sdp SdpNeg SdpProps.
Import Strings.String.StringSyntax.

Section Proofs.
Context {Str : PjString} (maxulong : Z) (run_cb : Z -> pjmedia_sdp_neg_fmt_match_cb) (cbs : fmt_match_cbs).

(** ** The lines of an offer that modifies a session *)

Lemma clone_deactivate_spec om lm sess : let m := sdp_media_clone_deactivate om lm sess in
  m_media m = m_media om /\ m_port m = 0 /\ m_transport m = m_transport om.
Proof. unfold sdp_media_clone_deactivate. by destruct (m_conn _), (s_conn sess). Qed.

(** [news] keeps the lines of [olds] in their places and all lines of [mine]; the others
    are refused. *)
Definition keeps_lines (olds mine news : list pjmedia_sdp_media) : Prop :=
  (exists rest, Forall2 (fun om nm => m_media nm = m_media om) olds (take (length olds) news) /\
     drop (length olds) news = rest /\ sublist rest mine) /\
  exists added, Permutation news (mine ++ added) /\ Forall (fun m => m_port m = 0) added.

Lemma erase_perm {A} (l : list A) i x : l !! i = Some x -> Permutation l (x :: erase l i).
Proof. intros H. rewrite <- (take_drop_middle _ _ _ H) at 1. unfold erase. by rewrite Permutation_middle. Qed.

Lemma erase_sublist {A} (l : list A) i : sublist (erase l i) l.
Proof. unfold erase. rewrite <- (take_drop i l) at 3. apply sublist_app; [done|]. 
  rewrite <- Nat.add_1_r, <- drop_drop. apply sublist_drop. Qed.

Lemma fix_media_spec local : forall olds n mine news, fix_media local olds n mine = Some news ->
  keeps_lines olds mine news /\ (n + length mine <= PJMEDIA_MAX_SDP_MEDIA -> n + length news <= PJMEDIA_MAX_SDP_MEDIA)%nat.
Proof.
  induction olds as [|om olds IH]; intros n mine news E; cbn [fix_media] in E.
  { injection E as <-. split; [|done]. split; [exists mine; by split; [constructor|]|].
    exists []. by rewrite app_nil_r. }
  destruct (find_idx _ mine) as [ni|] eqn:Ei.
  - destruct (find_idx_spec _ _ _ Ei) as (nm & Hn & Hm). rewrite Hn in E. cbn in E.
    destruct (fix_media local olds (S n) (erase mine ni)) as [rest|] eqn:Ef; [|done]. cbn in E. injection E as <-.
    pose proof (erase_perm _ _ _ Hn) as Hp. destruct (IH _ _ _ Ef) as (((r & H1 & H2 & H3) & added & H4 & H5) & H6).
    split; [split|].
    + exists r. split; [|split; [done|]].
      * cbn. constructor; [|done]. by destruct (str_eq_spec (m_media nm) (m_media om)).
      * etrans; [exact H3|apply erase_sublist].
    + exists added. split; [|done]. by rewrite Hp, H4.
    + apply Permutation_length in Hp. cbn in *. lia.
  - destruct (Nat.leb_spec PJMEDIA_MAX_SDP_MEDIA (n + length mine)) as [|Hlt]; [done|].
    destruct (fix_media local olds (S n) mine) as [rest|] eqn:Ef; [|done]. cbn in E. injection E as <-.
    destruct (IH _ _ _ Ef) as (((r & H1 & H2 & H3) & added & H4 & H5) & H6).
    destruct (clone_deactivate_spec om om local) as (C1 & C2 & _). split; [split|].
    + exists r. split; [|done]. cbn. by constructor.
    + eexists. split; [|by constructor; [exact C2|exact H5]]. rewrite H4. apply Permutation_middle.
    + cbn. lia.
Qed.

(** ** Processing a whole answer *)

Lemma asym_row_found fmts f n : (0 < n)%nat -> fmts !! 0%nat = Some f -> asym_row fmts f 0 n = Some true.
Proof. intros Hn Hf. destruct n as [|n]; [lia|]. cbn. rewrite Hf. cbn. by rewrite str_eq_refl. Qed.

(** The check of asymmetric media accepts every answer that has a format. *)
Lemma asym_common_spec fmts n : asym_common fmts n fmts = Some (negb (bool_decide (fmts = [])) && (0 <? n)%nat).
Proof.
  destruct (Nat.ltb_spec 0 n) as [Hn|Hn].
  - rewrite andb_true_r. destruct fmts as [|f fmts]; [done|]. cbn [asym_common].
    rewrite (asym_row_found (f :: fmts) f n) by done. done.
  - assert (n = 0%nat) as -> by lia. rewrite andb_false_r. generalize fmts at 1. intros all.
    induction fmts as [|f fmts IH]; [done|]. cbn. exact IH.
Qed.

Lemma process_m_answer_total offer answer asym : exists r, process_m_answer run_cb cbs offer answer asym = Some r.
Proof.
  unfold process_m_answer. repeat (case_match; [by eexists|]). destruct asym; [|by eexists].
  match goal with |- context [length (m_fmt ?o)] => rewrite (asym_common_spec (m_fmt answer) (length (m_fmt o))) end.
  cbn. case_match; by eexists.
Qed.

(** As many lines as the offer has, or as the answer had if there were more *)
Lemma process_medias_total offer asym : forall oms ami ams, (ami <= length ams)%nat ->
  (ami + length oms <= PJMEDIA_MAX_SDP_MEDIA)%nat -> exists r, process_medias run_cb cbs offer asym oms ami ams = Some r.
Proof.
  induction oms as [|om oms IH]; intros ami ams Ha Hb; cbn [process_medias]; [by eexists|]. cbn [length] in Hb.
  destruct (ams !! ami) as [am|] eqn:El.
  - pose proof (lookup_lt_Some _ _ _ El) as Hlt.
    destruct (process_m_answer_total om am asym) as [[[st om'] am'] Ep]. rewrite Ep. cbn.
    destruct (st =? PJMEDIA_SDPNEG_EINVANSMEDIA).
    { destruct (IH ami ams) as [r Er]; [lia|lia|]. rewrite Er. cbn. by eexists. }
    destruct (negb _ && negb _); [by eexists|].
    destruct (if st =? PJMEDIA_SDPNEG_EANSNOMEDIA then _ else _) as [om2 am2].
    destruct (IH (S ami) (<[ami := am2]> ams)) as [r Er]; [rewrite length_insert; lia|lia|]. rewrite Er. cbn. by eexists.
  - apply lookup_ge_None in El. assert (ami = length ams) as -> by lia.
    rewrite (proj2 (Nat.leb_gt _ _)) by lia.
    match goal with |- context [process_medias _ _ _ _ _ ?i ?l] => destruct (IH i l) as [r Er] end;
      [rewrite length_app; cbn; lia|lia|]. rewrite Er. cbn. by eexists.
Qed.

Lemma rest_error {A B C D} (r : option (Z + (A * B * C))) (f : A -> B -> C -> D) : r <> Some (inl PJ_SUCCESS) ->
  (x ← r; Some (match x with inl st => inl st | inr (a, b, c) => inr (f a b c) end)) <> Some (inl PJ_SUCCESS).
Proof. destruct r as [[st|[[a b] c]]|]; cbn; congruence. Qed.

Lemma process_medias_error offer asym : forall oms ami ams,
  process_medias run_cb cbs offer asym oms ami ams <> Some (inl PJ_SUCCESS).
Proof.
  induction oms as [|om oms IH]; intros ami ams; cbn [process_medias]; [done|].
  destruct (ams !! ami) as [am|].
  - destruct (process_m_answer _ _ om am asym) as [[[st om'] am']|]; [|done]. cbn.
    destruct (st =? PJMEDIA_SDPNEG_EINVANSMEDIA); [by apply (rest_error _ (fun a b c => (_, b, _)))|].
    destruct (negb (st =? PJMEDIA_SDPNEG_EANSNOMEDIA) && negb (st =? PJ_SUCCESS)) eqn:Ee.
    { intros E. injection E as ->. by rewrite andb_comm in Ee. }
    destruct (if st =? PJMEDIA_SDPNEG_EANSNOMEDIA then _ else _) as [om2 am2]. by apply (rest_error _ (fun a b c => (_, b, _))).
  - case_match; [done|]. by apply (rest_error _ (fun a b c => (_, b, _))).
Qed.

Lemma process_answer_some offer answer asym : process_answer run_cb cbs offer answer asym <> Some (PJ_SUCCESS, None).
Proof.
  unfold process_answer. destruct (process_medias _ _ _ _ _ _ _) as [r|] eqn:Ep; [|done]. cbn.
  destruct r as [st|[[oms ams] act]]; [|done]. intros E. injection E as ->. by apply process_medias_error in Ep.
Qed.

Lemma process_answer_total offer answer asym : (length (s_media offer) <= PJMEDIA_MAX_SDP_MEDIA)%nat ->
  exists r, process_answer run_cb cbs offer answer asym = Some r.
Proof.
  intros Hl. unfold process_answer. destruct (process_medias_total offer asym (s_media offer) 0 (s_media answer)) as [r Er];
    [lia|lia|]. rewrite Er. cbn. by eexists.
Qed.

(** ** The calls of the application *)

Inductive neg_call :=
  | Modify_offer (allow : bool) (local : pjmedia_sdp_session) | Send_offer | Remote_answer (remote : pjmedia_sdp_session)
  | Remote_offer (remote : pjmedia_sdp_session) | Local_answer (local : pjmedia_sdp_session) | Cancel | Negotiate (asym : bool)
  | Prefer_remote (b : bool) | Multiple_codecs (b : bool).

Definition do_call (c : neg_call) (neg : pjmedia_sdp_neg) : option (Z * pjmedia_sdp_neg) :=
  match c with
  | Modify_offer allow local => pjmedia_sdp_neg_modify_local_offer2 maxulong neg allow local
  | Send_offer => let '(st, _, neg') := pjmedia_sdp_neg_send_local_offer neg in Some (st, neg')
  | Remote_answer r => Some (pjmedia_sdp_neg_set_remote_answer neg r)
  | Remote_offer r => Some (pjmedia_sdp_neg_set_remote_offer neg r)
  | Local_answer l => Some (pjmedia_sdp_neg_set_local_answer neg l)
  | Cancel => Some (pjmedia_sdp_neg_cancel_offer neg)
  | Negotiate asym => pjmedia_sdp_neg_negotiate maxulong run_cb cbs neg asym
  | Prefer_remote b => Some (PJ_SUCCESS, pjmedia_sdp_neg_set_prefer_remote_codec_order neg b)
  | Multiple_codecs b => Some (PJ_SUCCESS, pjmedia_sdp_neg_set_answer_multiple_codecs neg b)
  end.

(** The negotiators an application can have *)
Inductive reachable : pjmedia_sdp_neg -> Prop :=
  | reach_local local neg st : pjmedia_sdp_neg_create_w_local_offer maxulong local = (st, Some neg) -> reachable neg
  | reach_remote initial remote neg st :
      pjmedia_sdp_neg_create_w_remote_offer maxulong initial remote = (st, Some neg) -> reachable neg
  | reach_call c neg st neg' : reachable neg -> do_call c neg = Some (st, neg') -> reachable neg'.

(** What the negotiator holds in each state *)
Definition neg_ok (neg : pjmedia_sdp_neg) : Prop :=
  match n_state neg with
  | PJMEDIA_SDP_NEG_STATE_NULL => False
  | PJMEDIA_SDP_NEG_STATE_LOCAL_OFFER =>
      is_Some (neg_local_sdp neg) /\ neg_remote_sdp neg = None /\ has_remote_answer neg = false /\ is_Some (initial_sdp neg) /\
      (is_Some (active_local_sdp neg) -> is_Some (initial_sdp_tmp neg))
  | PJMEDIA_SDP_NEG_STATE_REMOTE_OFFER =>
      neg_local_sdp neg = None /\ is_Some (neg_remote_sdp neg) /\ has_remote_answer neg = false /\
      (is_Some (active_local_sdp neg) -> is_Some (initial_sdp neg)) /\ initial_sdp_tmp neg = None
  | PJMEDIA_SDP_NEG_STATE_WAIT_NEGO =>
      is_Some (neg_local_sdp neg) /\ is_Some (neg_remote_sdp neg) /\ is_Some (initial_sdp neg) /\
      (is_Some (active_local_sdp neg) -> is_Some (initial_sdp_tmp neg))
  | PJMEDIA_SDP_NEG_STATE_DONE =>
      neg_local_sdp neg = None /\ neg_remote_sdp neg = None /\ has_remote_answer neg = false /\ initial_sdp_tmp neg = None /\
      (is_Some (active_local_sdp neg) -> is_Some (initial_sdp neg))
  end /\ (is_Some (active_local_sdp neg) <-> is_Some (active_remote_sdp neg)).

(** The calls that leave the program: a session modified that has no active description,
    an array of lines that overflows, an answer whose formats are not found. *)
Definition stuck_call (c : neg_call) (neg : pjmedia_sdp_neg) : Prop :=
  match c with
  | Modify_offer allow local => n_state neg = PJMEDIA_SDP_NEG_STATE_DONE /\
      (active_local_sdp neg = None \/ exists old, active_local_sdp neg = Some old /\
         (if allow then pad_media local (s_media old) (s_media local) else fix_media local (s_media old) 0 (s_media local)) = None)
  | Negotiate asym => n_state neg = PJMEDIA_SDP_NEG_STATE_WAIT_NEGO /\ exists local remote,
      neg_local_sdp neg = Some local /\ neg_remote_sdp neg = Some remote /\
      if has_remote_answer neg then (PJMEDIA_MAX_SDP_MEDIA < length (s_media local))%nat
      else create_answer maxulong run_cb cbs neg local remote = None
  | _ => False
  end.

Lemma create_answer_some neg initial offer : create_answer maxulong run_cb cbs neg initial offer <> Some (PJ_SUCCESS, None).
Proof.
  unfold create_answer. destruct (Z.eqb_spec (pjmedia_sdp_validate maxulong offer) PJ_SUCCESS) as [|Hne]; cbn [negb];
    [|by intros E; injection E as E].
  by destruct (answer_medias _ _ _ _ _ _ _ _ _) as [[[ams st] act]|].
Qed.

Lemma modify_offer_ok allow local neg : neg_ok neg ->
  match pjmedia_sdp_neg_modify_local_offer2 maxulong neg allow local with
  | Some (_, neg') => neg_ok neg'
  | None => stuck_call (Modify_offer allow local) neg
  end.
Proof.
  intros Hn. unfold pjmedia_sdp_neg_modify_local_offer2.
  destruct (bool_decide_reflect (n_state neg = PJMEDIA_SDP_NEG_STATE_DONE)) as [Ed|]; [|done]. cbn [negb].
  destruct (negb _); [done|]. destruct (active_local_sdp neg) as [old|] eqn:Ea; cbn; [|split; [done|by left]].
  destruct (if negb allow then _ else _) as [media|] eqn:Em; cbn.
  - destruct Hn as [Hn Hact]. rewrite Ed, Ea in *. destruct Hn as (H1 & H2 & H3 & H4 & H5).
    split; [|done]. cbn. rewrite H3. specialize (H5 (mk_is_Some _ _ eq_refl)). done.
  - split; [done|]. right. exists old. split; [done|]. by destruct allow.
Qed.

Lemma negotiate_ok asym neg : neg_ok neg ->
  match pjmedia_sdp_neg_negotiate maxulong run_cb cbs neg asym with
  | Some (_, neg') => neg_ok neg'
  | None => stuck_call (Negotiate asym) neg
  end.
Proof.
  intros Hn. unfold pjmedia_sdp_neg_negotiate.
  destruct (bool_decide_reflect (n_state neg = PJMEDIA_SDP_NEG_STATE_WAIT_NEGO)) as [Ed|]; [|done]. cbn [negb].
  destruct Hn as [Hn Hact]. rewrite Ed in Hn. destruct Hn as ([local El] & [remote Er] & [i Ei] & Ht).
  rewrite Er. unfold run_negotiation. rewrite El.
  assert (Hdone : forall st aloc arem, (is_Some aloc <-> is_Some arem) ->
     (st = PJ_SUCCESS \/ aloc = active_local_sdp neg) ->
     neg_ok (mk_neg PJMEDIA_SDP_NEG_STATE_DONE (prefer_remote_codec_order neg) (answer_with_multiple_codecs neg) false
       (has_remote_answer neg) (if st =? PJ_SUCCESS then initial_sdp neg else initial_sdp_tmp neg) None aloc arem None None)).
  { intros st aloc arem Hi Ho. split; [|done]. cbn. split; [done|]. split; [done|]. split; [done|]. split; [done|].
    destruct (Z.eqb_spec st PJ_SUCCESS); [by rewrite Ei; eexists|]. destruct Ho as [?|Ho]; [|rewrite Ho]; [done|exact Ht]. }
  destruct (has_remote_answer neg) eqn:Eh.
  - destruct (process_answer run_cb cbs local remote asym) as [[st r]|] eqn:Ep; cbn.
    + destruct r as [[offer answer]|]; cbn; [|by apply Hdone; [|right]].
      destruct (Z.eqb_spec st PJ_SUCCESS) as [->|Hne]; cbn; [by refine (Hdone PJ_SUCCESS (Some _) (Some _) _ (or_introl eq_refl))|].
      pose proof (Hdone st _ _ Hact (or_intror eq_refl)) as Hd. by rewrite (proj2 (Z.eqb_neq _ _) Hne) in *.
    + split; [done|]. exists local, remote. split; [done|]. split; [done|]. rewrite Eh.
      destruct (le_lt_dec (length (s_media local)) PJMEDIA_MAX_SDP_MEDIA) as [Hl|]; [|done].
      destruct (process_answer_total local remote asym Hl) as [r Er']. by rewrite Er' in Ep.
  - destruct (create_answer maxulong run_cb cbs neg local remote) as [[st r]|] eqn:Ec; cbn.
    + destruct (Z.eqb_spec st PJ_SUCCESS) as [->|Hne]; cbn.
      * destruct r as [answer|]; cbn.
        -- rewrite Ei in Hdone |- *. assert (Hb : exists b, match active_local_sdp neg with Some a => Some a | None => Some i end = Some b)
             by (destruct (active_local_sdp neg); by eexists).
           destruct Hb as [b Hb]. rewrite Hb. cbn. by refine (Hdone PJ_SUCCESS (Some _) (Some _) _ (or_introl eq_refl)).
        -- exfalso. revert Ec. apply create_answer_some.
      * pose proof (Hdone st _ _ Hact (or_intror eq_refl)) as Hd. by rewrite (proj2 (Z.eqb_neq _ _) Hne) in *.
    + split; [done|]. exists local, remote. by rewrite Eh.
Qed.

Lemma do_call_ok c neg : neg_ok neg ->
  match do_call c neg with Some (_, neg') => neg_ok neg' | None => stuck_call c neg end.
Proof.
  intros Hn. destruct c as [allow local| |r|r|l| |asym|b|b]; cbn [do_call];
    [by apply modify_offer_ok| | | | | |by apply negotiate_ok|done|done]; destruct Hn as [Hn Hact].
  - unfold pjmedia_sdp_neg_send_local_offer. destruct (n_state neg) eqn:Es; try by (split; [rewrite Es|]).
    destruct (active_local_sdp neg) as [a|] eqn:Ea; [|by (split; [rewrite Es|]; rewrite ?Ea)].
    destruct Hn as (H1 & H2 & H3 & H4 & H5). destruct (H5 (mk_is_Some _ _ eq_refl)) as [i Ei].
    split; [|done]. cbn. rewrite Ei, H3. split_and!; try done; by eexists.
  - unfold pjmedia_sdp_neg_set_remote_answer.
    destruct (bool_decide_reflect (n_state neg = PJMEDIA_SDP_NEG_STATE_LOCAL_OFFER)) as [Ed|]; [|by split].
    rewrite Ed in Hn. destruct Hn as (H1 & H2 & H3 & H4 & H5). split; [|done]. cbn. split_and!; try done; by eexists.
  - unfold pjmedia_sdp_neg_set_remote_offer.
    destruct (bool_decide_reflect (n_state neg = PJMEDIA_SDP_NEG_STATE_DONE)) as [Ed|]; [|by split].
    rewrite Ed in Hn. destruct Hn as (H1 & H2 & H3 & H4 & H5). split; [|done]. cbn. split_and!; try done; by eexists.
  - unfold pjmedia_sdp_neg_set_local_answer.
    destruct (bool_decide_reflect (n_state neg = PJMEDIA_SDP_NEG_STATE_REMOTE_OFFER)) as [Ed|]; [|by split].
    rewrite Ed in Hn. destruct Hn as (H1 & H2 & H3 & H4 & H5).
    destruct (initial_sdp neg) as [i|] eqn:Ei; (split; [|done]); cbn; split_and!; try done; try by eexists.
    intros Ha. by destruct (H4 Ha).
  - unfold pjmedia_sdp_neg_cancel_offer. destruct (n_state neg) eqn:Es; try by (split; [rewrite Es|]).
    + destruct Hn as (H1 & H2 & H3 & H4 & H5). split; cbn; [split_and!; try done|]; by rewrite fmap_is_Some.
    + destruct Hn as (H1 & H2 & H3 & H4 & H5). by split.
Qed.

Lemma neg_reachable_ok neg : reachable neg -> neg_ok neg.
Proof.
  induction 1 as [local neg st E|initial remote neg st E|c neg st neg' Hr IH E].
  - unfold pjmedia_sdp_neg_create_w_local_offer in E. destruct (negb _); [done|]. injection E as _ <-.
    split; [|done]. cbn. split_and!; try done; by eexists.
  - unfold pjmedia_sdp_neg_create_w_remote_offer in E. destruct (negb _); [done|].
    destruct initial as [i|]; [destruct (negb _); [done|]|]; injection E as _ <-;
      (split; [|done]); cbn; split_and!; try done; by eexists.
  - pose proof (do_call_ok c neg IH) as H. by rewrite E in H.
Qed.

(** C23: in every state the application can bring the negotiator to, the local and remote
    descriptions under negotiation are there exactly when the state needs them, the last agreed
    description can always be reverted to, and both active descriptions are there or neither;
    and the only calls that leave the program are the named ones. *)
Theorem neg_reachable_safe neg : reachable neg -> neg_ok neg /\ forall c, do_call c neg = None -> stuck_call c neg.
Proof.
  intros Hr. pose proof (neg_reachable_ok neg Hr) as Hn.
  split; [done|]. intros c E. pose proof (do_call_ok c neg Hn) as H. by rewrite E in H.
Qed.

(** ** What each call does *)

Lemma pad_media_spec local olds mine news : pad_media local olds mine = Some news ->
  exists added, news = mine ++ added /\ Forall (fun m => m_port m = 0) added /\
    Forall2 (fun om nm => m_media nm = m_media om) (drop (length mine) olds) added.
Proof.
  unfold pad_media. destruct (_ && _); [done|]. intros E. injection E as <-. eexists. split; [done|].
  induction (drop (length mine) olds) as [|om l [IH1 IH2]]; cbn; [by split; constructor|].
  destruct (clone_deactivate_spec om om local) as (C1 & C2 & _). by split; constructor.
Qed.

(** The "o=" line is the old one, its version one more. *)
Definition next_origin (old new : sdp_origin) : Prop :=
  o_version new = u32 (o_version old + 1) /\ set_o_version 0 new = set_o_version 0 old.

(** An offer that modifies the session (RFC 3264, section 8) has the old "o=" line with the
    version one higher (modulo 2^32), keeps every media line of the active description in its
    place with its type, contains every line of the new description, and only adds refused lines;
    it never has more than 16 lines. Cancelling it restores the negotiator, but for the version. *)
Theorem modified_offer neg local neg' : neg_ok neg -> (length (s_media local) <= PJMEDIA_MAX_SDP_MEDIA)%nat ->
  pjmedia_sdp_neg_modify_local_offer maxulong neg local = Some (PJ_SUCCESS, neg') ->
  exists old new, active_local_sdp neg = Some old /\ neg_local_sdp neg' = Some new /\ initial_sdp neg' = Some new /\
    n_state neg' = PJMEDIA_SDP_NEG_STATE_LOCAL_OFFER /\
    next_origin (s_origin old) (s_origin new) /\ keeps_lines (s_media old) (s_media local) (s_media new) /\
    (length (s_media new) <= PJMEDIA_MAX_SDP_MEDIA)%nat /\ set_s_origin (s_origin local) (set_s_media (s_media local) new) = local /\
    pjmedia_sdp_neg_cancel_offer neg' =
      (PJ_SUCCESS, set_n PJMEDIA_SDP_NEG_STATE_DONE (initial_sdp neg) None (Some (bump_version old)) (active_remote_sdp neg)
                     None None false neg).
Proof.
  intros Hn Hl. unfold pjmedia_sdp_neg_modify_local_offer, pjmedia_sdp_neg_modify_local_offer2.
  destruct (bool_decide_reflect (n_state neg = PJMEDIA_SDP_NEG_STATE_DONE)) as [Ed|]; [|by intros E; injection E as E].
  cbn [negb]. destruct (Z.eqb_spec (pjmedia_sdp_validate maxulong local) PJ_SUCCESS) as [Ev|Hne]; cbn [negb];
    [|by intros E; injection E as E].
  destruct (active_local_sdp neg) as [old|] eqn:Ea; [|done]. cbn [mbind option_bind].
  destruct (fix_media local (s_media old) 0 (s_media local)) as [media|] eqn:Em; [|done]. cbn. intros E. injection E as <-.
  destruct (fix_media_spec _ _ _ _ _ Em) as [Hk Hlen].
  eexists _, _. split; [done|]. split; [done|]. split; [done|]. split; [done|]. split; [done|]. split; [exact Hk|].
  split; [cbn; lia|]. split; [by destruct local|].
  destruct Hn as [Hn _]. rewrite Ed in Hn. destruct Hn as (H1 & H2 & H3 & H4 & H5).
  unfold pjmedia_sdp_neg_cancel_offer, set_n. cbn. done.
Qed.

(** Negotiating always ends the negotiation: the state is DONE, nothing is left under
    negotiation, and the answer's origin is remembered. On success the active descriptions are
    the agreed ones (our processed offer and the processed answer, or our answer with a version
    one above the last and the remote offer); on failure they are as before, and the initial
    description is the last agreed one again. *)
Theorem negotiate_functional neg asym local remote status neg' :
  pjmedia_sdp_neg_negotiate maxulong run_cb cbs neg asym = Some (status, neg') ->
  n_state neg = PJMEDIA_SDP_NEG_STATE_WAIT_NEGO -> neg_local_sdp neg = Some local -> neg_remote_sdp neg = Some remote ->
  (n_state neg' = PJMEDIA_SDP_NEG_STATE_DONE /\ neg_local_sdp neg' = None /\ neg_remote_sdp neg' = None /\
   initial_sdp_tmp neg' = None /\ has_remote_answer neg' = false /\ answer_was_remote neg' = has_remote_answer neg) /\
  if status =? PJ_SUCCESS then
    initial_sdp neg' = initial_sdp neg /\
    if has_remote_answer neg then
      exists offer answer, process_answer run_cb cbs local remote asym = Some (PJ_SUCCESS, Some (offer, answer)) /\
        active_local_sdp neg' = Some offer /\ active_remote_sdp neg' = Some answer
    else
      exists answer last, create_answer maxulong run_cb cbs neg local remote = Some (PJ_SUCCESS, Some answer) /\
        (active_local_sdp neg = Some last \/ active_local_sdp neg = None /\ initial_sdp neg = Some last) /\
        active_local_sdp neg' = Some (set_s_origin (set_o_version (u32 (o_version (s_origin last) + 1)) (s_origin answer)) answer) /\
        active_remote_sdp neg' = Some remote
  else initial_sdp neg' = initial_sdp_tmp neg /\ active_local_sdp neg' = active_local_sdp neg /\
       active_remote_sdp neg' = active_remote_sdp neg.
Proof.
  unfold pjmedia_sdp_neg_negotiate, run_negotiation. intros E Es El Er. rewrite Es, El, Er in E. cbn in E.
  destruct (has_remote_answer neg) eqn:Eh.
  - destruct (process_answer run_cb cbs local remote asym) as [[st r]|] eqn:Ep; [|done]. cbn in E.
    destruct r as [[offer answer]|].
    + destruct (Z.eqb_spec st PJ_SUCCESS) as [->|Hne]; cbn in E; injection E as <- <-; (split; [done|]); cbn.
      * split; [done|]. by exists offer, answer.
      * by rewrite (proj2 (Z.eqb_neq _ _) Hne).
    + cbn in E. injection E as <- <-. split; [done|]. cbn.
      destruct (Z.eqb_spec st PJ_SUCCESS) as [->|Hne]; [|done]. exfalso. revert Ep. apply process_answer_some.
  - destruct (create_answer maxulong run_cb cbs neg local remote) as [[st r]|] eqn:Ec; [|done]. cbn in E.
    destruct (Z.eqb_spec st PJ_SUCCESS) as [->|Hne]; cbn in E.
    + destruct r as [answer|]; [|done]. cbn in E.
      destruct (match active_local_sdp neg with Some a => Some a | None => initial_sdp neg end) as [last|] eqn:Eb; [|done].
      cbn in E. injection E as <- <-. split; [done|]. cbn. split; [done|]. exists answer, last. split; [done|].
      split; [|done]. destruct (active_local_sdp neg) as [a|]; [left; congruence|by right].
    + injection E as <- <-. split; [done|]. cbn. by rewrite (proj2 (Z.eqb_neq _ _) Hne).
Qed.
End Proofs.
