(* ===== verification/SdpTotal.v ===== *)
(** * SDP negotiation: an answer can always be made

    With the default configuration (the remote's codec order, one codec) and our media
    described as an endpoint describes them, the code that builds an answer finds every
    format it looks for. *)

From Stdlib Require Strings.String.
From S2P Require Import Prelude Hash PjStr Sdp SdpNeg SdpProps SdpAnswer.
Import Strings.String.StringSyntax.

Section Proofs.
Context {Str : PjString} (maxulong : Z) (run_cb : Z -> pjmedia_sdp_neg_fmt_match_cb) (cbs : fmt_match_cbs).
Context (Hcb : callbacks_edit_fmtp run_cb).

Definition telephone (r : pjmedia_sdp_rtpmap) : Prop := str_ieq (rm_enc_name r) (lit "telephone-event") = true.

(** One rtpmap for a format at most, only numbers have one, and telephone events have a
    dynamic number *)
Definition plain_media (im : pjmedia_sdp_media) : Prop :=
  (forall a r r', describes im a r -> describes im a r' -> r = r') /\
  (forall a r, In a (m_fmt im) -> describes im a r -> first_is_digit a = true) /\
  (forall a r, In a (m_fmt im) -> describes im a r -> telephone r -> 96 <= pj_strtoul a).

Inductive kind := Codec | Event | Other.

Section Match.
Context (om im : pjmedia_sdp_media) (Hplain : plain_media im).

Definition is_kind (k : kind) (a : list Z) : Prop :=
  In a (m_fmt im) /\
  match k with
  | Codec => first_is_digit a = true /\ (pj_strtoul a < 96 \/ exists r, describes im a r /\ ~ telephone r)
  | Event => exists r, describes im a r /\ telephone r
  | Other => first_is_digit a = false
  end.

Definition found (k : kind) (st : match_st) : bool :=
  match k with
  | Codec => found_matching_codec st
  | Event => found_matching_telephone_event st
  | Other => found_matching_other st
  end.

Lemma kinds_apart k k' a : is_kind k a -> is_kind k' a -> k = k'.
Proof.
  destruct Hplain as (H1 & H2 & H3). intros [Hin Hk] [_ Hk'].
  assert (Hce : forall r, first_is_digit a = true /\ (pj_strtoul a < 96 \/ exists r, describes im a r /\ ~ telephone r) ->
     describes im a r /\ telephone r -> False).
  { intros r [_ [Hs|(r' & D' & T')]] [D T]; [specialize (H3 a r Hin D T); lia|]. apply T'. by rewrite (H1 _ _ _ D' D). }
  destruct k, k'; cbn in Hk, Hk'; try done.
  - destruct Hk' as [r Hr]. by destruct (Hce r Hk Hr).
  - destruct Hk. congruence.
  - destruct Hk as [r Hr]. by destruct (Hce r Hk' Hr).
  - destruct Hk as (r & D & _). specialize (H2 a r Hin D). congruence.
  - destruct Hk'. congruence.
  - destruct Hk' as (r & D & _). specialize (H2 a r Hin D). congruence.
Qed.

(** The pairs found so far: each of its own kind *)
Definition sorted_out (st : match_st) : Prop :=
  evolved im (ms_preanswer st) /\ base.NoDup (map snd (pts st)) /\
  Forall (fun p => exists k, is_kind k (snd p) /\ found k st = true) (pts st).

Lemma add_sorted k p st st' : sorted_out st -> is_kind k (snd p) -> found k st = false -> pts st' = pts st ++ [p] ->
  evolved im (ms_preanswer st') -> found k st' = true -> (forall k', found k' st = true -> found k' st' = true) -> sorted_out st'.
Proof.
  intros (He & Hn & Hf) Hk Hno Hp He' Hyes Hmono. split; [done|]. rewrite Hp. split.
  - rewrite map_app. apply NoDup_app. split; [done|]. split; [|apply NoDup_singleton].
    intros a Ha Hin. apply list_elem_of_singleton in Hin as ->. apply list_elem_of_fmap in Ha as (q & Eq & Hq).
    destruct (proj1 (Forall_forall _ _) Hf q Hq) as (k' & Hk' & Hfk). rewrite <- Eq in Hk'.
    rewrite (kinds_apart _ _ _ Hk Hk') in Hno. congruence.
  - apply Forall_app. split; [|constructor; [by exists k|constructor]].
    eapply Forall_impl; [exact Hf|]. cbn. intros q (k' & Hk' & Hfk). exists k'. auto.
Qed.

Lemma sorted_same st st' : sorted_out st -> pts st' = pts st -> evolved im (ms_preanswer st') ->
  (forall k, found k st' = found k st) -> sorted_out st'.
Proof.
  intros (He & Hn & Hf) Hp He' Hs. split; [done|]. rewrite Hp. split; [done|].
  eapply Forall_impl; [exact Hf|]. cbn. intros q (k & Hk & Hfk). exists k. by rewrite Hs.
Qed.

Lemma match_static_sorted fmt st : pj_strtoul fmt < 96 -> sorted_out st -> sorted_out (match_static true false om fmt st).
Proof.
  intros Hst Hs. pose proof Hs as (He & _ & _). unfold match_static. cbn [found_matching_codec ms_preanswer negb andb].
  destruct (found_matching_codec st) eqn:Ef; [apply (sorted_same st); try done; by intros []|].
  destruct (List.find _ _) as [f|] eqn:El; [|apply (sorted_same st); try done; by intros []].
  apply List.find_some in El as [Hf Ht]. apply andb_true_iff in Ht as [Ht Hd]. apply Z.eqb_eq in Ht.
  cbn [slave_of] in Hf. rewrite (evolved_fmt _ _ He) in Hf.
  apply (add_sorted Codec (f, f) st); try done; [|by intros []]. split; [done|]. cbn. split; [done|]. left. lia.
Qed.

Lemma match_other_sorted fmt st : first_is_digit fmt = false -> sorted_out st -> sorted_out (match_other true om fmt st).
Proof.
  intros Hd Hs. pose proof Hs as (He & _ & _). unfold match_other. cbn [found_matching_other ms_preanswer].
  destruct (found_matching_other st) eqn:Ef; [apply (sorted_same st); try done; intros []; cbn; congruence|].
  destruct (List.find _ _) as [f|] eqn:El; [|apply (sorted_same st); try done; intros []; cbn; congruence].
  apply List.find_some in El as [Hf Ht]. destruct (str_eq_spec fmt f) as [<-|]; [|done].
  cbn [slave_of] in Hf. rewrite (evolved_fmt _ _ He) in Hf.
  apply (add_sorted Other (fmt, fmt) st); try done; by intros [].
Qed.

Lemma same_enc or_ lr : offer_rtpmap_match or_ lr = true -> str_ieq (rm_enc_name or_) (lit "telephone-event") =
  str_ieq (rm_enc_name lr) (lit "telephone-event").
Proof.
  intros H. apply andb_true_iff in H as [H _]. apply andb_true_iff in H as [H _].
  destruct (str_ieq_spec (rm_enc_name or_) (rm_enc_name lr)) as [E|]; [|done]. unfold same_fold in E.
  destruct (str_ieq_spec (rm_enc_name or_) (lit "telephone-event")) as [E1|E1],
    (str_ieq_spec (rm_enc_name lr) (lit "telephone-event")) as [E2|E2]; unfold same_fold in *; congruence.
Qed.

Lemma match_slave_sorted i fmt or_ is_codec : str_ieq (rm_enc_name or_) (lit "telephone-event") = negb is_codec ->
  forall fmts j st, incl fmts (m_fmt im) -> sorted_out st -> found (if is_codec then Codec else Event) st = false ->
  sorted_out (match_dynamic_slave run_cb cbs true om i fmt or_ is_codec fmts j st).
Proof.
  intros Hor. induction fmts as [|f fmts IH]; intros j st Hi Hs Hg; [done|].
  assert (Hrest : incl fmts (m_fmt im)) by (intros x Hx; apply Hi; by right).
  assert (Hin : In f (m_fmt im)) by (apply Hi; by left).
  pose proof Hs as (He & _ & _). cbn [match_dynamic_slave slave_of].
  destruct (rtpmap_of (ms_preanswer st) f) as [lr|] eqn:Er; [|by apply IH].
  apply rtpmap_describes, (describes_evolved _ _ _ _ He) in Er.
  destruct (offer_rtpmap_match or_ lr) eqn:Em; [|by apply IH]. rewrite (same_enc _ _ Em) in Hor.
  destruct is_codec; cbn [negb] in Hor.
  - pose proof (custom_evolved run_cb cbs Hcb (rm_enc_name or_) om i (ms_preanswer st) j ALLOW_MODIFY_ANSWER) as Hev.
    destruct (custom_fmt_match run_cb cbs (rm_enc_name or_) om i (ms_preanswer st) j ALLOW_MODIFY_ANSWER) as [status attrs].
    cbn [snd] in Hev. assert (He' : evolved im (set_m_attr attrs (ms_preanswer st))) by (by etrans).
    destruct (status =? PJ_SUCCESS).
    + apply (add_sorted Codec (fmt, f) st); try done; [|by intros []]. split; [done|]. cbn.
      split; [by eapply Hplain|]. right. exists lr. split; [done|]. unfold telephone. congruence.
    + apply IH; [done| |exact Hg]. apply (sorted_same st); try done.
  - apply (add_sorted Event (fmt, f) st); try done; [|by intros []]. split; [done|]. by exists lr.
Qed.

Lemma match_master_sorted : forall fmts i st st', sorted_out st ->
  match_master run_cb cbs true false om fmts i st = inr st' -> sorted_out st'.
Proof.
  induction fmts as [|fmt fmts IH]; intros i st st' Hs E; cbn [match_master] in E; [by injection E as <-|].
  destruct (first_is_digit fmt) eqn:Ed; [|eapply IH; [|exact E]; by apply match_other_sorted].
  destruct (Z.ltb_spec (pj_strtoul fmt) 96) as [Hst|Hst]; [eapply IH; [|exact E]; by apply match_static_sorted|].
  pose proof Hs as (He & _ & _).
  unfold match_dynamic in E. destruct (rtpmap_of (master_of true om (ms_preanswer st)) fmt) as [or_|]; [|done].
  cbn [slave_of ms_preanswer found_matching_codec negb andb] in E. rewrite (evolved_fmt _ _ He) in E.
  assert (Hflag : sorted_out (mk_match true (master_has_other st) (found_matching_codec st) (found_matching_telephone_event st)
                    (found_matching_other st) (pts st) (ms_preanswer st))) by (apply (sorted_same st); try done; by intros []).
  destruct (str_ieq (rm_enc_name or_) (lit "telephone-event")) eqn:Et.
  - destruct (found_matching_telephone_event st) eqn:Ef; (eapply IH; [|exact E]); [done|].
    apply match_slave_sorted; [done|apply incl_refl|done|done].
  - destruct (found_matching_codec st) eqn:Ef; (eapply IH; [|exact E]); [done|].
    apply match_slave_sorted; [done|apply incl_refl|done|done].
Qed.

(** ** Every format is found *)

Lemma find_idx_some {A} (p : A -> bool) (l : list A) x : In x l -> p x = true -> exists i, find_idx p l = Some i.
Proof.
  intros Hx Hp. destruct (find_idx p l) as [i|] eqn:E; [by eexists|]. exfalso. by eapply find_idx_in.
Qed.

Lemma swap_perm {A} (l : list A) i j x y : l !! i = Some x -> l !! j = Some y -> (i <= j)%nat ->
  Permutation (drop i l) (y :: drop (S i) (<[j := x]> (<[i := y]> l))).
Proof.
  intros Hi Hj Hij. destruct (decide (i = j)) as [->|Hne].
  - rewrite Hi in Hj. injection Hj as <-. rewrite drop_insert_lt by lia. rewrite drop_insert_lt by lia. by rewrite (drop_S _ _ _ Hi).
  - rewrite drop_insert_ge by lia. rewrite drop_insert_lt by lia. rewrite (drop_S _ _ _ Hi).
    assert (H : drop (S i) l !! (j - S i)%nat = Some y) by (rewrite lookup_drop; by replace (S i + (j - S i))%nat with j by lia).
    rewrite <- (take_drop_middle _ _ _ H) at 1. rewrite insert_take_drop by (by eapply lookup_lt_Some).
    rewrite <- !Permutation_middle. apply perm_swap.
Qed.

Lemma place_formats_total : forall pts i fmts, base.NoDup pts -> Forall (fun p => In p (drop i fmts)) pts ->
  exists fmts', place_formats pts i fmts = Some fmts'.
Proof.
  induction pts as [|pt pts IH]; intros i fmts Hn Hf; cbn [place_formats]; [by eexists|].
  apply NoDup_cons in Hn as [Hni Hn]. apply Forall_cons in Hf as [Hp Hf].
  destruct (find_idx_some (fun f => str_eq f pt) _ _ Hp (str_eq_refl pt)) as [j Ej]. rewrite Ej. cbn.
  destruct (find_idx_spec _ _ _ Ej) as (x & Hx & Heq). destruct (str_eq_spec x pt) as [->|]; [|done].
  rewrite lookup_drop in Hx. unfold swap.
  destruct (fmts !! i) as [x0|] eqn:E0; [|apply lookup_ge_None in E0; apply lookup_lt_Some in Hx; lia].
  cbn. rewrite Hx. cbn. apply IH; [done|]. apply Forall_forall. intros p Hin.
  assert (H : In p (drop i fmts)) by (by apply (proj1 (Forall_forall _ _) Hf)).
  apply (Permutation_in _ (swap_perm _ _ _ _ _ E0 Hx ltac:(lia))) in H as [->|H]; done.
Qed.
End Match.

Lemma match_offer_total om im im0 sdp : plain_media im0 -> evolved im0 im ->
  exists r, match_offer run_cb cbs true false om im sdp = Some r.
Proof.
  intros Hp He. unfold match_offer. case_match; [by eexists|]. case_match; [by eexists|].
  destruct (match_master run_cb cbs true false om (m_fmt om) 0 _) as [e|st] eqn:Em; [by eexists|].
  assert (Hs : sorted_out im0 st).
  { eapply match_master_sorted; [done| |exact Em]. split; [done|]. split; [apply NoDup_nil_2|constructor]. }
  case_match; [by eexists|]. case_match; [by eexists|]. destruct Hs as (He' & Hn & Hf).
  unfold build_answer. destruct (place_formats_total (map snd (pts st)) 0 (m_fmt (ms_preanswer st))) as [fmts Ef]; [done| |].
  - rewrite drop_0, (evolved_fmt _ _ He'). apply Forall_map. eapply Forall_impl; [exact Hf|].
    cbn. intros q (k & [Hk _] & _). exact Hk.
  - rewrite Ef. cbn. by eexists.
Qed.

Lemma find_media_total neg initial om : prefer_remote_codec_order neg = true -> answer_with_multiple_codecs neg = false ->
  forall ours ims status, Forall plain_media ours -> tracked ours ims ->
  exists r, find_media run_cb cbs neg initial om ims status = Some r.
Proof.
  intros H1 H2. induction ours as [|im0 ours IH]; intros ims status Hp Ht; inversion Ht as [|? [im used] ? ims1 He Hs]; subst;
    cbn [find_media]; [by eexists|]. apply Forall_cons in Hp as [Hp Hps].
  assert (Hskip : forall st, exists am ims2 st2, find_media run_cb cbs neg initial om ims1 st = Some (am, ims2, st2)).
  { intros st. destruct (IH ims1 st Hps Hs) as [[[am ims2] st2] E]. by exists am, ims2, st2. }
  destruct (str_eq _ _ && _ && _).
  - rewrite H1, H2. destruct (match_offer_total om im im0 initial Hp He) as [[r im1] Eo]. rewrite Eo. cbn.
    destruct r as [st|am]; [|by eexists]. destruct (Hskip st) as (am & ims2 & st2 & ->). cbn. by eexists.
  - destruct (Hskip status) as (am & ims2 & st2 & ->). cbn. by eexists.
Qed.

Lemma answer_medias_total neg initial answer : prefer_remote_codec_order neg = true -> answer_with_multiple_codecs neg = false ->
  forall ours oms ims status act, Forall plain_media ours -> tracked ours ims ->
  exists r, answer_medias run_cb cbs neg initial answer oms ims status act = Some r.
Proof.
  intros H1 H2 ours. induction oms as [|om oms IH]; intros ims status act Hp Ht; cbn [answer_medias]; [by eexists|].
  destruct (find_media_total neg initial om H1 H2 ours ims status Hp Ht) as [[[r ims1] st1] Ef]. rewrite Ef. cbn.
  destruct (find_media_spec run_cb cbs Hcb _ _ _ _ _ _ _ _ _ Ht Ef) as (Ht1 & _).
  match goal with |- context [answer_medias _ _ _ _ _ _ ?i ?s ?a] => destruct (IH i s a Hp Ht1) as [[[ams st2] act2] ->] end.
  cbn. by eexists.
Qed.

(** C35: with the default configuration and our media described as an endpoint describes them, an
    answer to any offer is made: no format that was matched is missing when the answer is built,
    whatever the callbacks do to fmtp. *)
Theorem create_answer_total neg initial offer : Forall plain_media (s_media initial) ->
  prefer_remote_codec_order neg = true -> answer_with_multiple_codecs neg = false ->
  exists status r, create_answer maxulong run_cb cbs neg initial offer = Some (status, r).
Proof.
  intros Hp H1 H2. unfold create_answer. case_match; [by eexists _, _|].
  match goal with |- context [answer_medias _ _ _ ?i ?a ?o ?ims ?s ?f] =>
    destruct (answer_medias_total neg i a H1 H2 (s_media i) o ims s f Hp) as [[[ams st] act] ->] end.
  - apply tracked_start.
  - cbn. by eexists _, _.
Qed.
End Proofs.
