(* ===== verification/SdpSamples.v ===== *)
(** * SDP negotiation: concrete descriptions

    An implementation of the string comparisons, an offer and the description of a phone,
    and the theorems of the negotiation applied to them. *)

From Stdlib Require Strings.String.
From S2P Require Import Prelude Hash PjStr Sdp SdpNeg SdpProps SdpAnswer SdpMachine SdpTotal.
Import Strings.String.StringSyntax.

(** ** Comparisons and samples *)

#[export] Existing Instance plain_strings.

(** A callback that accepts every format *)
Definition accept_all : Z -> pjmedia_sdp_neg_fmt_match_cb := fun _ _ _ answer _ _ => (PJ_SUCCESS, m_attr answer).

Lemma accept_all_ok : callbacks_edit_fmtp accept_all.
Proof. by intros c offer i answer j opt. Defined.

Definition ulong32 : Z := 4294967295.

Definition attr (name value : String.string) : pjmedia_sdp_attr := mk_attr (lit name) (lit value).
Arguments attr (name value)%_string_scope.

Definition audio (port : Z) (fmts : list (list Z)) (attrs : list pjmedia_sdp_attr) : pjmedia_sdp_media :=
  mk_media (lit "audio") port 0 (lit "RTP/AVP") fmts None [] attrs.

Definition sample (version : Z) (ms : list pjmedia_sdp_media) : pjmedia_sdp_session :=
  mk_session (mk_origin (lit "-") 7 version (lit "IN") (lit "IP4") (lit "10.0.0.1")) (lit "call")
    (Some (mk_conn (lit "IN") (lit "IP4") (lit "10.0.0.1"))) [] (0, 0) [] ms.

Definition their_line : pjmedia_sdp_media :=
  audio 4000 [lit "0"; lit "8"; lit "98"; lit "101"]
    [attr "rtpmap" "98 speex/16000"; attr "rtpmap" "101 telephone-event/8000"; attr "fmtp" "101 0-15"; attr "sendonly" ""].
Definition our_line : pjmedia_sdp_media :=
  audio 5000 [lit "99"; lit "8"; lit "96"]
    [attr "rtpmap" "99 SPEEX/16000/1"; attr "rtpmap" "96 telephone-event/8000"; attr "fmtp" "96 0-11"].

Definition theirs : pjmedia_sdp_session := sample 1 [their_line].
Definition ours : pjmedia_sdp_session := sample 5 [our_line].

(** The negotiator of the called side *)
Definition called : pjmedia_sdp_neg :=
  mk_neg PJMEDIA_SDP_NEG_STATE_WAIT_NEGO true false false false (Some ours) None None None (Some ours) (Some theirs).

Lemma called_created : pjmedia_sdp_neg_create_w_remote_offer ulong32 (Some ours) theirs = (PJ_SUCCESS, Some called).
Proof. by vm_compute. Qed.

(** The line of the answer: PCMA and the events, receiving only *)
Definition answer_line : pjmedia_sdp_media :=
  audio 5000 [lit "8"; lit "101"]
    [attr "rtpmap" "101 telephone-event/8000"; attr "fmtp" "101 0-11"; attr "recvonly" ""].

Definition answered : pjmedia_sdp_neg :=
  mk_neg PJMEDIA_SDP_NEG_STATE_DONE true false false false (Some ours) None (Some (sample 6 [answer_line])) (Some theirs) None None.

Lemma called_answers : pjmedia_sdp_neg_negotiate ulong32 accept_all [] called false = Some (PJ_SUCCESS, answered).
Proof. by vm_compute. Qed.

(** The caller's line and its answer after processing *)
Definition their_result : pjmedia_sdp_media :=
  audio 4000 [lit "8"; lit "101"]
    [attr "rtpmap" "101 telephone-event/8000"; attr "fmtp" "101 0-15"; attr "sendonly" ""].

Lemma caller_processes : process_m_answer accept_all [] their_line answer_line false =
  Some (PJ_SUCCESS, their_result, answer_line).
Proof. by vm_compute. Qed.

(** ** The descriptions of a format *)

Definition described (m : pjmedia_sdp_media) (fmt : list Z) : list pjmedia_sdp_rtpmap :=
  map (fun a => snd (pjmedia_sdp_attr_get_rtpmap a)) (List.filter (attr_matches (lit "rtpmap") (Some fmt)) (m_attr m)).

Lemma describes_in m fmt r : describes m fmt r -> In r (described m fmt).
Proof. intros (a & Ha & Hm & ->). apply in_map_iff. exists a. split; [done|]. by apply List.filter_In. Qed.

Definition all_described (m : pjmedia_sdp_media) : list pjmedia_sdp_rtpmap :=
  map (fun a => snd (pjmedia_sdp_attr_get_rtpmap a)) (List.filter (fun a => str_eq (a_name a) (lit "rtpmap")) (m_attr m)).

Lemma describes_all m fmt r : describes m fmt r -> In r (all_described m).
Proof.
  intros (a & Ha & Hm & ->). apply in_map_iff. exists a. split; [done|]. apply List.filter_In. split; [done|].
  by apply andb_true_iff in Hm as [Hm _].
Qed.

(** A test that no format of the answer pairs with two of the offer *)
Definition pairs_exclude (offer answer : pjmedia_sdp_media) (f1 f2 : list Z) : bool :=
  let dynamic f r := existsb (fun o => answer_rtpmap_match o r) (described offer f) in
  if pj_strtoul f1 <? 96 then
    if pj_strtoul f2 <? 96 then negb (bool_decide (f1 = f2)) else negb (existsb (dynamic f2) (described answer f1))
  else if pj_strtoul f2 <? 96 then negb (existsb (dynamic f1) (described answer f2))
  else negb (existsb (fun r => dynamic f1 r && existsb (dynamic f2) (all_described answer)) (all_described answer)).

Lemma pairs_exclude_spec offer answer f1 f2 g : pairs_exclude offer answer f1 f2 = true ->
  pairs_with offer answer f1 g -> pairs_with offer answer f2 g -> False.
Proof.
  unfold pairs_exclude, pairs_with. intros H.
  assert (Hdyn : forall f ar l, (exists or_, describes offer f or_ /\ In ar l /\ answer_rtpmap_match or_ ar = true) ->
    existsb (fun r => existsb (fun o => answer_rtpmap_match o r) (described offer f)) l = true).
  { intros f ar l (o & Ho & Hl & Hm). apply existsb_exists. exists ar. split; [done|]. apply existsb_exists.
    exists o. split; [by apply describes_in|done]. }
  destruct (pj_strtoul f1 <? 96), (pj_strtoul f2 <? 96); apply negb_true_iff in H.
  - intros -> ->. by rewrite bool_decide_true in H.
  - intros -> (o & ar & Ho & Ha & Hm). rewrite (Hdyn f2 ar) in H; [done|]. exists o. by split; [|split; [apply describes_in|]].
  - intros (o & ar & Ho & Ha & Hm) ->. rewrite (Hdyn f1 ar) in H; [done|]. exists o. by split; [|split; [apply describes_in|]].
  - intros (o1 & a1 & Ho1 & Ha1 & Hm1) (o2 & a2 & Ho2 & Ha2 & Hm2). apply not_true_iff_false in H. apply H.
    apply existsb_exists. exists a1. split; [by eapply describes_all|]. apply andb_true_iff. split.
    + apply existsb_exists. exists o1. split; [by apply describes_in|done].
    + apply (Hdyn f2 a2). exists o2. by split; [|split; [eapply describes_all|]].
Qed.

Fixpoint excludes (offer answer : pjmedia_sdp_media) (fmts : list (list Z)) : bool :=
  match fmts with
  | [] => true
  | f :: fmts' => forallb (pairs_exclude offer answer f) fmts' && excludes offer answer fmts'
  end.

Lemma excludes_spec offer answer : excludes offer answer (m_fmt offer) = true -> distinct_matches offer answer.
Proof.
  unfold distinct_matches. induction (m_fmt offer) as [|f l IH]; cbn; intros H; constructor; apply andb_true_iff in H as [H1 H2];
    [|by apply IH].
  apply Forall_forall. intros f2 Hf g G1 G2. rewrite forallb_forall in H1. apply list_elem_of_In in Hf.
  by apply (pairs_exclude_spec offer answer f f2 g (H1 _ Hf)).
Qed.

(** A test that media are described as an endpoint describes them *)
Definition plain_test (im : pjmedia_sdp_media) : bool :=
  bool_decide (base.NoDup (map (fun a => pj_strtoul2 (a_value a)) (List.filter (fun a => str_eq (a_name a) (lit "rtpmap")) (m_attr im)))) &&
  forallb (fun f => bool_decide (List.filter (attr_matches (lit "rtpmap") (Some f)) (m_attr im) = []) ||
    first_is_digit f && (96 <=? pj_strtoul f)) (m_fmt im).

Lemma nodup_map_inj {A B} (g : A -> B) (l : list A) a b : base.NoDup (map g l) -> In a l -> In b l -> g a = g b -> a = b.
Proof.
  induction l as [|x l IH]; intros Hn Ha Hb E; [done|]. cbn in Hn. apply NoDup_cons in Hn as [Hx Hn].
  assert (Hno : forall y, In y l -> g x <> g y).
  { intros y Hy Ey. apply Hx. rewrite Ey. apply list_elem_of_fmap_2. by apply list_elem_of_In. }
  destruct Ha as [<-|Ha], Hb as [<-|Hb]; [done| | |by apply IH]; exfalso; [by apply (Hno b)|by apply (Hno a)].
Qed.

Lemma plain_test_spec im : plain_test im = true -> plain_media im.
Proof.
  intros H. apply andb_true_iff in H as [Hu Hf]. apply bool_decide_eq_true in Hu. rewrite forallb_forall in Hf.
  assert (Hone : forall a f, In a (m_attr im) -> attr_matches (lit "rtpmap") (Some f) a = true ->
    In a (List.filter (fun a => str_eq (a_name a) (lit "rtpmap")) (m_attr im)) /\ pj_strtoul2 (a_value a) = pj_strtoul f).
  { intros a f Ha Hm. apply andb_true_iff in Hm as [Hm1 Hm2]. split; [by apply List.filter_In|lia]. }
  assert (Hnum : forall f r, In f (m_fmt im) -> describes im f r -> first_is_digit f = true /\ 96 <= pj_strtoul f).
  { intros f r Hin (a & Ha & Hm & _). specialize (Hf f Hin). apply orb_true_iff in Hf as [Hf|Hf].
    - apply bool_decide_eq_true in Hf. exfalso. apply (in_nil (a := a)). rewrite <- Hf. by apply List.filter_In.
    - apply andb_true_iff in Hf as [H1 H2]. split; [done|lia]. }
  split; [|split].
  - intros f r r' (a & Ha & Hm & ->) (b & Hb & Hm' & ->). do 2 f_equal.
    destruct (Hone a f Ha Hm) as [A1 A2], (Hone b f Hb Hm') as [B1 B2].
    eapply nodup_map_inj; [exact Hu|exact A1|exact B1|]. cbn. congruence.
  - intros f r Hin Hd. by apply (Hnum f r).
  - intros f r Hin Hd _. by apply (Hnum f r).
Qed.

(** ** The theorems at work *)

Lemma direction_agrees_witness : (length (m_attr our_line) < PJMEDIA_MAX_SDP_ATTR)%nat /\
  dir_agrees their_line (local_dir our_line) (local_dir (update_media_direction their_line our_line)) /\
  same_line our_line (update_media_direction their_line our_line).
Proof. split; [cbn; unfold PJMEDIA_MAX_SDP_ATTR; lia|]. apply (direction_agrees their_line our_line). cbn. unfold PJMEDIA_MAX_SDP_ATTR. lia. Defined.

Lemma answer_processing_witness : distinct_matches their_line answer_line /\
  Forall2 (pairs_with their_line answer_line) (m_fmt their_result) (m_fmt answer_line) /\
  m_fmt their_result ⊆+ m_fmt their_line /\ dir_agrees answer_line (local_dir their_line) (local_dir their_result).
Proof.
  assert (Hd : distinct_matches their_line answer_line) by (apply excludes_spec; by vm_compute).
  split; [exact Hd|].
  destruct (answer_processing accept_all [] their_line answer_line their_result answer_line caller_processes)
    as ((_ & H1) & (H2 & _) & _ & H3 & _);
    [done|done|exact Hd|cbn; unfold PJMEDIA_MAX_SDP_ATTR; lia|cbn; unfold PJMEDIA_MAX_SDP_FMT; lia|].
  exact (conj H1 (conj H2 H3)).
Defined.

(** Two formats of the offer that match one of the answer: both are kept, and the lists have
    different lengths. *)
Definition twice_h264 : pjmedia_sdp_media :=
  mk_media (lit "video") 4002 0 (lit "RTP/AVP") [lit "97"; lit "99"] None [] [attr "rtpmap" "97 H264/90000"; attr "rtpmap" "99 H264/90000"].
Definition one_h264 : pjmedia_sdp_media :=
  mk_media (lit "video") 5002 0 (lit "RTP/AVP") [lit "99"] None [] [attr "rtpmap" "99 H264/90000"].

Example equal_formats_not_paired :
  match process_m_answer accept_all [] twice_h264 one_h264 false with
  | Some (st, o, a) => (st, m_fmt o, m_fmt a) = (PJ_SUCCESS, [lit "97"; lit "99"], [lit "99"])
  | None => False
  end.
Proof. vm_compute. reflexivity. Qed.


Lemma create_answer_total_witness : Forall plain_media (s_media ours) /\
  exists status r, create_answer ulong32 accept_all [] called ours theirs = Some (status, r).
Proof.
  assert (Hp : Forall plain_media (s_media ours)).
  { constructor; [|constructor]. apply plain_test_spec. by vm_compute. }
  split; [exact Hp|]. exact (create_answer_total ulong32 accept_all [] accept_all_ok called ours theirs Hp eq_refl eq_refl).
Defined.

Lemma called_reachable : reachable ulong32 accept_all [] called.
Proof. eapply reach_remote. exact called_created. Qed.

Lemma answered_reachable : reachable ulong32 accept_all [] answered.
Proof. apply (reach_call _ _ _ (Negotiate false) called PJ_SUCCESS); [exact called_reachable|exact called_answers]. Qed.

Lemma neg_reachable_safe_witness : reachable ulong32 accept_all [] answered /\
  neg_ok answered /\ forall c, do_call ulong32 accept_all [] c answered = None -> stuck_call ulong32 accept_all [] c answered.
Proof. split; [exact answered_reachable|]. exact (neg_reachable_safe ulong32 accept_all [] answered answered_reachable). Defined.

(** A new offer: video first, then audio *)
Definition video (port : Z) : pjmedia_sdp_media := mk_media (lit "video") port 0 (lit "RTP/AVP") [lit "34"] None [] [].
Definition new_offer : pjmedia_sdp_session := sample 1 [video 6000; our_line].

Definition reoffered : pjmedia_sdp_neg :=
  mk_neg PJMEDIA_SDP_NEG_STATE_LOCAL_OFFER true false false false (Some (sample 7 [our_line; video 6000])) (Some ours)
    (Some (sample 6 [answer_line])) (Some theirs) (Some (sample 7 [our_line; video 6000])) None.

Lemma answered_ok : neg_ok answered.
Proof. split; [cbn; split_and!; try done; by eexists|]. cbn. by split; eexists. Qed.

Lemma modified_offer_witness : pjmedia_sdp_neg_modify_local_offer ulong32 answered new_offer = Some (PJ_SUCCESS, reoffered) /\
  exists old new, active_local_sdp answered = Some old /\ neg_local_sdp reoffered = Some new /\
    keeps_lines (s_media old) (s_media new_offer) (s_media new).
Proof.
  assert (E : pjmedia_sdp_neg_modify_local_offer ulong32 answered new_offer = Some (PJ_SUCCESS, reoffered))
    by (vm_compute; reflexivity).
  split; [exact E|].
  destruct (modified_offer ulong32 answered new_offer reoffered answered_ok) as (old & new & H1 & H2 & _ & _ & _ & H3 & _);
    [cbn; unfold PJMEDIA_MAX_SDP_MEDIA; lia|exact E|]. exists old, new. exact (conj H1 (conj H2 H3)).
Defined.

Lemma negotiate_functional_witness : pjmedia_sdp_neg_negotiate ulong32 accept_all [] called false = Some (PJ_SUCCESS, answered) /\
  n_state answered = PJMEDIA_SDP_NEG_STATE_DONE.
Proof.
  split; [exact called_answers|].
  exact (proj1 (proj1 (negotiate_functional ulong32 accept_all [] called false ours theirs _ _ called_answers eq_refl eq_refl eq_refl))).
Defined.

(** ** What the code does not refuse *)

(** An offer of events only, which we do not have, is answered by an active line without formats. *)
Definition events_line : pjmedia_sdp_media := audio 4000 [lit "101"] [attr "rtpmap" "101 telephone-event/8000"].
Definition plain_line : pjmedia_sdp_media := audio 5000 [lit "8"] [].

Lemma events_only_answer :
  match match_offer accept_all [] true false events_line plain_line ours with
  | Some (inr am, _) => m_port am = 5000 /\ m_fmt am = []
  | _ => False
  end.
Proof. by vm_compute. Qed.

(** A call whose offer was refused has no active description: modifying the offer then reads one. *)
Lemma modify_without_active : let failed := mk_neg PJMEDIA_SDP_NEG_STATE_DONE true false false true None None None None None None in
  reachable ulong32 accept_all [] failed /\ pjmedia_sdp_neg_modify_local_offer ulong32 failed ours = None.
Proof.
  split; [|by vm_compute].
  assert (E1 : pjmedia_sdp_neg_create_w_local_offer ulong32 ours = (PJ_SUCCESS,
    Some (mk_neg PJMEDIA_SDP_NEG_STATE_LOCAL_OFFER true false false false (Some ours) None None None (Some ours) None)))
    by (by vm_compute).
  eapply (reach_call _ _ _ (Negotiate false)); [eapply (reach_call _ _ _ (Remote_answer (sample 1 [audio 0 [lit "8"] []])))|].
  - eapply reach_local. exact E1.
  - reflexivity.
  - vm_compute. reflexivity.
Qed.

(** With asymmetric media allowed every answer with a format is accepted, in common or not. *)
Lemma asymmetric_accepts_all :
  match process_m_answer accept_all [] plain_line (audio 4000 [lit "0"] []) true with
  | Some (st, _, _) => st = PJ_SUCCESS
  | None => False
  end.
Proof. by vm_compute. Qed.

(** Answers that refuse every line, because none of our media has the type, count as a success. *)
Lemma refused_answer_succeeds :
  match create_answer ulong32 accept_all [] called (sample 5 [video 6000]) theirs with
  | Some (st, Some a) => st = PJ_SUCCESS /\ map m_port (s_media a) = [0]
  | _ => False
  end.
Proof. by vm_compute. Qed.
