(* ===== verification/Words.v ===== *)
(** * Bytes and words

    Words read from memory in both byte orders, and the bit arithmetic that the
    checksums, the digests and the STUN messages share. *)

From S2P Require Import Prelude.

(** Reading a word at an aligned address of a little-endian machine *)
Definition load_le32 (a b c d : Z) : Z :=
  Z.lor a (Z.lor (Z.shiftl b 8) (Z.lor (Z.shiftl c 16) (Z.shiftl d 24))).

(** Network order *)
Definition load_be32 (a b c d : Z) : Z := load_le32 d c b a.

(** ** Masks and shifts *)

Lemma land_byte x : is_byte (Z.land x 0xff).
Proof. change 0xff with (Z.ones 8). rewrite Z.land_ones by lia. apply Z.mod_pos_bound. lia. Qed.

Lemma byte_land b : is_byte b -> Z.land b 0xff = b.
Proof. intros Hb. change 0xff with (Z.ones 8). rewrite Z.land_ones by lia. by apply Z.mod_small. Qed.

Lemma byte_shiftr b : is_byte b -> Z.shiftr b 8 = 0.
Proof. intros Hb. rewrite Z.shiftr_div_pow2 by lia. apply Z.div_small. exact Hb. Qed.

Lemma low_high x y : Z.land x 0xff = Z.land y 0xff -> Z.shiftr x 8 = Z.shiftr y 8 -> x = y.
Proof.
  change 0xff with (Z.ones 8). rewrite !Z.land_ones, !Z.shiftr_div_pow2 by lia. intros E1 E2.
  rewrite (Z.div_mod x (2 ^ 8)), (Z.div_mod y (2 ^ 8)), E1, E2 by lia. done.
Qed.

Lemma land_lxor_distr a b c : Z.land (Z.lxor a b) c = Z.lxor (Z.land a c) (Z.land b c).
Proof.
  apply Z.bits_inj'. intros i Hi. rewrite !Z.land_spec, !Z.lxor_spec, !Z.land_spec.
  by destruct (Z.testbit a i), (Z.testbit b i), (Z.testbit c i).
Qed.

Lemma lxor_bits n x y : 0 <= n -> 0 <= x < 2 ^ n -> 0 <= y < 2 ^ n -> 0 <= Z.lxor x y < 2 ^ n.
Proof.
  intros Hn Hx Hy. replace (Z.lxor x y) with ((Z.lxor x y) mod 2 ^ n); [apply Z.mod_pos_bound; lia|].
  rewrite <- Z.land_ones, land_lxor_distr, !Z.land_ones, !Z.mod_small by done. done.
Qed.

Lemma lxor_byte x y : is_byte x -> is_byte y -> is_byte (Z.lxor x y).
Proof. exact (lxor_bits 8 x y ltac:(lia)). Qed.

Lemma lxor_twice a b : Z.lxor (Z.lxor a b) b = a.
Proof. by rewrite Z.lxor_assoc, Z.lxor_nilpotent, Z.lxor_0_r. Qed.

Lemma lor_lxor_byte a y : is_byte a -> Z.lor a (Z.shiftl y 8) = Z.lxor a (Z.shiftl y 8).
Proof.
  intros Ha. symmetry. apply Z.lxor_lor. apply Z.bits_inj'. intros i Hi.
  rewrite Z.bits_0, Z.land_spec, Z.shiftl_spec by lia. destruct (decide (i < 8)).
  - by rewrite (Z.testbit_neg_r y), andb_false_r by lia.
  - by rewrite (byte_testbit_high a) by (done || lia).
Qed.

(** ** Bit by bit *)

Lemma u32_testbit x i : 0 <= i -> Z.testbit (u32 x) i = (i <? 32) && Z.testbit x i.
Proof.
  intros Hi. unfold u32. change 4294967296 with (2 ^ 32). destruct (Z.ltb_spec i 32).
  - by rewrite Z.mod_pow2_bits_low.
  - by rewrite Z.mod_pow2_bits_high by lia.
Qed.

Lemma u16_testbit x i : 0 <= i -> Z.testbit (u16 x) i = (i <? 16) && Z.testbit x i.
Proof.
  intros Hi. unfold u16. change 65536 with (2 ^ 16). destruct (Z.ltb_spec i 16).
  - by rewrite Z.mod_pow2_bits_low.
  - by rewrite Z.mod_pow2_bits_high by lia.
Qed.

(** One step of computing a bit of an expression *)
Ltac bits_step :=
  match goal with
  | |- context [Z.testbit ?a ?i] =>
      match a with
      | Z.lor ?x ?y => rewrite (Z.lor_spec x y i)
      | Z.lxor ?x ?y => rewrite (Z.lxor_spec x y i)
      | Z.land ?x ?y => rewrite (Z.land_spec x y i)
      | u8 ?x => rewrite (u8_testbit x i) by lia
      | u16 ?x => rewrite (u16_testbit x i) by lia
      | u32 ?x => rewrite (u32_testbit x i) by lia
      | Z.shiftl ?x ?n => rewrite (Z.shiftl_spec x n i) by lia
      | Z.shiftr ?x ?n => rewrite (Z.shiftr_spec x n i) by lia
      | Zpos ?p => let b := eval vm_compute in (Z.testbit (Zpos p) i) in
                   change (Z.testbit (Zpos p) i) with b
      | _ => rewrite (Z.testbit_neg_r a i) by lia
      | _ => rewrite (byte_testbit_high a i) by (done || lia)
      end
  end.

(** The goal for the bits [i < n] of the context, one by one *)
Ltac each_bit n :=
  match goal with i : Z |- _ =>
    let Hin := fresh in
    assert (In i (map Z.of_nat (seq 0 n))) as Hin
      by (apply in_map_iff; exists (Z.to_nat i); split; [lia|]; apply in_seq; lia);
    vm_compute in Hin; repeat destruct Hin as [<-|Hin]; try done;
    repeat bits_step; rewrite ?andb_true_l, ?andb_true_r, ?andb_false_r, ?orb_false_r;
    first [reflexivity | f_equal; lia]
  end.

(** ** memcpy inside its arrays *)

Lemma lslice_eq {A} (l : list A) i n : (i + n <= length l)%nat -> lslice l i n = Some (take n (drop i l)).
Proof. intros. unfold lslice. by rewrite decide_True. Qed.

Lemma lcopy_eq {A} (l : list A) i src : (i + length src <= length l)%nat ->
  lcopy l i src = Some (take i l ++ src ++ drop (i + length src) l).
Proof. intros. unfold lcopy. by rewrite decide_True. Qed.

(** Two copies one behind the other are one. *)
Lemma lcopy_app {A} (l : list A) i x y :
  (l' ← lcopy l i x; lcopy l' (i + length x) y) = lcopy l i (x ++ y).
Proof.
  unfold lcopy. rewrite length_app. destruct (decide (i + length x <= length l)%nat) as [H|H]; cbn [mbind option_bind].
  - assert (El : length (take i l ++ x ++ drop (i + length x) l) = length l).
    { rewrite !length_app, length_take, length_drop. lia. }
    rewrite El. destruct (decide (i + (length x + length y) <= length l)%nat);
      [rewrite decide_True by lia|by rewrite decide_False by lia].
    f_equal. rewrite (app_assoc (take i l) x), take_app_le by (rewrite length_app, length_take; lia).
    rewrite take_ge by (rewrite length_app, length_take; lia).
    rewrite drop_app_ge by (rewrite length_app, length_take; lia). rewrite length_app, length_take, drop_drop.
    rewrite <- !app_assoc. do 4 f_equal. lia.
  - rewrite decide_False by lia. done.
Qed.

(** The same, with the remaining statements and the position given apart *)
Lemma lcopy_join {A B} (l : list A) i j x y (f : list A -> option B) : j = (i + length x)%nat ->
  (l1 ← lcopy l i x; l2 ← lcopy l1 j y; f l2) = (l2 ← lcopy l i (x ++ y); f l2).
Proof. intros ->. rewrite <- lcopy_app. by destruct (lcopy l i x). Qed.

Lemma lslice_shift {A} (l1 l2 : list A) i n : lslice (l1 ++ l2) (length l1 + i) n = lslice l2 i n.
Proof.
  unfold lslice. rewrite length_app. destruct (decide (i + n <= length l2)%nat).
  - rewrite decide_True by lia. by rewrite drop_app_add'.
  - by rewrite decide_False by lia.
Qed.
