(* ===== verification/Crc32.v ===== *)
(** * CRC-32 (pjlib-util/src/pjlib-util/crc32.c)

    The variant with tables on a little-endian machine, which reads whole words
    from aligned addresses, is shown to compute what the bitwise variant of the same
    file computes.  The data of one update is a list of bytes, with the address it
    lies at. *)

From S2P Require Import Prelude Words.

Definition CRC32_NEGL : Z := 0xffffffff.

(** ** Data *)

Record pj_crc32_context := mk_crc32 { crc_state : Z }.

Definition crc_tab : list Z :=
  [
   0x00000000; 0x77073096; 0xee0e612c; 0x990951ba; 0x076dc419; 0x706af48f;
    0xe963a535; 0x9e6495a3; 0x0edb8832; 0x79dcb8a4; 0xe0d5e91e; 0x97d2d988;
    0x09b64c2b; 0x7eb17cbd; 0xe7b82d07; 0x90bf1d91; 0x1db71064; 0x6ab020f2;
    0xf3b97148; 0x84be41de; 0x1adad47d; 0x6ddde4eb; 0xf4d4b551; 0x83d385c7;
    0x136c9856; 0x646ba8c0; 0xfd62f97a; 0x8a65c9ec; 0x14015c4f; 0x63066cd9;
    0xfa0f3d63; 0x8d080df5; 0x3b6e20c8; 0x4c69105e; 0xd56041e4; 0xa2677172;
    0x3c03e4d1; 0x4b04d447; 0xd20d85fd; 0xa50ab56b; 0x35b5a8fa; 0x42b2986c;
    0xdbbbc9d6; 0xacbcf940; 0x32d86ce3; 0x45df5c75; 0xdcd60dcf; 0xabd13d59;
    0x26d930ac; 0x51de003a; 0xc8d75180; 0xbfd06116; 0x21b4f4b5; 0x56b3c423;
    0xcfba9599; 0xb8bda50f; 0x2802b89e; 0x5f058808; 0xc60cd9b2; 0xb10be924;
    0x2f6f7c87; 0x58684c11; 0xc1611dab; 0xb6662d3d; 0x76dc4190; 0x01db7106;
    0x98d220bc; 0xefd5102a; 0x71b18589; 0x06b6b51f; 0x9fbfe4a5; 0xe8b8d433;
    0x7807c9a2; 0x0f00f934; 0x9609a88e; 0xe10e9818; 0x7f6a0dbb; 0x086d3d2d;
    0x91646c97; 0xe6635c01; 0x6b6b51f4; 0x1c6c6162; 0x856530d8; 0xf262004e;
    0x6c0695ed; 0x1b01a57b; 0x8208f4c1; 0xf50fc457; 0x65b0d9c6; 0x12b7e950;
    0x8bbeb8ea; 0xfcb9887c; 0x62dd1ddf; 0x15da2d49; 0x8cd37cf3; 0xfbd44c65;
    0x4db26158; 0x3ab551ce; 0xa3bc0074; 0xd4bb30e2; 0x4adfa541; 0x3dd895d7;
    0xa4d1c46d; 0xd3d6f4fb; 0x4369e96a; 0x346ed9fc; 0xad678846; 0xda60b8d0;
    0x44042d73; 0x33031de5; 0xaa0a4c5f; 0xdd0d7cc9; 0x5005713c; 0x270241aa;
    0xbe0b1010; 0xc90c2086; 0x5768b525; 0x206f85b3; 0xb966d409; 0xce61e49f;
    0x5edef90e; 0x29d9c998; 0xb0d09822; 0xc7d7a8b4; 0x59b33d17; 0x2eb40d81;
    0xb7bd5c3b; 0xc0ba6cad; 0xedb88320; 0x9abfb3b6; 0x03b6e20c; 0x74b1d29a;
    0xead54739; 0x9dd277af; 0x04db2615; 0x73dc1683; 0xe3630b12; 0x94643b84;
    0x0d6d6a3e; 0x7a6a5aa8; 0xe40ecf0b; 0x9309ff9d; 0x0a00ae27; 0x7d079eb1;
    0xf00f9344; 0x8708a3d2; 0x1e01f268; 0x6906c2fe; 0xf762575d; 0x806567cb;
    0x196c3671; 0x6e6b06e7; 0xfed41b76; 0x89d32be0; 0x10da7a5a; 0x67dd4acc;
    0xf9b9df6f; 0x8ebeeff9; 0x17b7be43; 0x60b08ed5; 0xd6d6a3e8; 0xa1d1937e;
    0x38d8c2c4; 0x4fdff252; 0xd1bb67f1; 0xa6bc5767; 0x3fb506dd; 0x48b2364b;
    0xd80d2bda; 0xaf0a1b4c; 0x36034af6; 0x41047a60; 0xdf60efc3; 0xa867df55;
    0x316e8eef; 0x4669be79; 0xcb61b38c; 0xbc66831a; 0x256fd2a0; 0x5268e236;
    0xcc0c7795; 0xbb0b4703; 0x220216b9; 0x5505262f; 0xc5ba3bbe; 0xb2bd0b28;
    0x2bb45a92; 0x5cb36a04; 0xc2d7ffa7; 0xb5d0cf31; 0x2cd99e8b; 0x5bdeae1d;
    0x9b64c2b0; 0xec63f226; 0x756aa39c; 0x026d930a; 0x9c0906a9; 0xeb0e363f;
    0x72076785; 0x05005713; 0x95bf4a82; 0xe2b87a14; 0x7bb12bae; 0x0cb61b38;
    0x92d28e9b; 0xe5d5be0d; 0x7cdcefb7; 0x0bdbdf21; 0x86d3d2d4; 0xf1d4e242;
    0x68ddb3f8; 0x1fda836e; 0x81be16cd; 0xf6b9265b; 0x6fb077e1; 0x18b74777;
    0x88085ae6; 0xff0f6a70; 0x66063bca; 0x11010b5c; 0x8f659eff; 0xf862ae69;
    0x616bffd3; 0x166ccf45; 0xa00ae278; 0xd70dd2ee; 0x4e048354; 0x3903b3c2;
    0xa7672661; 0xd06016f7; 0x4969474d; 0x3e6e77db; 0xaed16a4a; 0xd9d65adc;
    0x40df0b66; 0x37d83bf0; 0xa9bcae53; 0xdebb9ec5; 0x47b2cf7f; 0x30b5ffe9;
    0xbdbdf21c; 0xcabac28a; 0x53b39330; 0x24b4a3a6; 0xbad03605; 0xcdd70693;
    0x54de5729; 0x23d967bf; 0xb3667a2e; 0xc4614ab8; 0x5d681b02; 0x2a6f2b94;
    0xb40bbe37; 0xc30c8ea1; 0x5a05df1b; 0x2d02ef8d].

(** ** The variant with tables *)

Definition CRC32_INDEX (c : Z) : Z := Z.land c 0xff.
Definition CRC32_SHIFTED (c : Z) : Z := Z.shiftr c 8.
Definition CRC32_SWAP (c : Z) : Z := c.

(** The statement of both byte loops, and the one repeated in the word loop *)
Definition crc_byte (crc b : Z) : Z :=
  Z.lxor (zget crc_tab (Z.lxor (CRC32_INDEX crc) b)) (CRC32_SHIFTED crc).

Definition crc_quarter (crc : Z) : Z :=
  Z.lxor (zget crc_tab (CRC32_INDEX crc)) (CRC32_SHIFTED crc).

(** The loop up to the first aligned address: the state and what is left *)
Fixpoint crc_align (addr : Z) (crc : Z) (data : list Z) : Z * list Z :=
  match data with
  | b :: data' =>
      if Z.land addr 0x03 =? 0 then (crc, data) else crc_align (addr + 1) (crc_byte crc b) data'
  | [] => (crc, [])
  end.

Fixpoint crc_words (crc : Z) (data : list Z) : Z * list Z :=
  match data with
  | a :: b :: c :: d :: data' =>
      crc_words (crc_quarter (crc_quarter (crc_quarter (crc_quarter (Z.lxor crc (load_le32 a b c d)))))) data'
  | _ => (crc, data)
  end.

Definition pj_crc32_init : pj_crc32_context := mk_crc32 0.

Definition pj_crc32_update (ctx : pj_crc32_context) (addr : Z) (data : list Z) : pj_crc32_context * Z :=
  let '(crc, data) := crc_align addr (Z.lxor (crc_state ctx) CRC32_NEGL) data in
  let '(crc, data) := crc_words crc data in
  let crc := fold_left crc_byte data crc in
  (mk_crc32 (Z.lxor crc CRC32_NEGL), Z.lxor crc CRC32_NEGL).

Definition pj_crc32_final (ctx : pj_crc32_context) : Z := CRC32_SWAP (crc_state ctx).

Definition pj_crc32_calc (addr : Z) (data : list Z) : Z :=
  pj_crc32_final (pj_crc32_update pj_crc32_init addr data).1.

(** ** The variant without tables *)

Definition crc_bit (temp : Z) : Z :=
  if negb (Z.land temp 0x1 =? 0) then Z.lxor (Z.shiftr temp 1) 0xEDB88320 else Z.shiftr temp 1.

Definition crc_octet (crc octet : Z) : Z :=
  Z.lxor (Z.shiftr crc 8) (Nat.iter 8 crc_bit (Z.lxor (Z.land crc 0xFF) octet)).

Definition pj_crc32_init_bitwise : pj_crc32_context := mk_crc32 CRC32_NEGL.

Definition pj_crc32_update_bitwise (ctx : pj_crc32_context) (octets : list Z) : pj_crc32_context * Z :=
  let crc := fold_left crc_octet octets (crc_state ctx) in
  (mk_crc32 crc, Z.lxor crc CRC32_NEGL).

(** The context is also complemented. *)
Definition pj_crc32_final_bitwise (ctx : pj_crc32_context) : pj_crc32_context * Z :=
  let crc := Z.lxor (crc_state ctx) CRC32_NEGL in (mk_crc32 crc, crc).

(** ** The table steps are the bit steps *)

Lemma tab_is_bits i : is_byte i -> zget crc_tab i = Nat.iter 8 crc_bit i.
Proof.
  intros Hi. apply Z.eqb_eq.
  exact (forall_bytes (fun i => zget crc_tab i =? Nat.iter 8 crc_bit i) ltac:(vm_compute; reflexivity) i Hi).
Qed.

Lemma crc_byte_octet crc b : is_byte b -> crc_byte crc b = crc_octet crc b.
Proof.
  intros Hb. unfold crc_byte, crc_octet, CRC32_INDEX, CRC32_SHIFTED.
  rewrite tab_is_bits by (apply lxor_byte; [apply land_byte|done]). apply Z.lxor_comm.
Qed.

Lemma crc_byte_quarter crc b : is_byte b -> crc_byte crc b = crc_quarter (Z.lxor crc b).
Proof.
  intros Hb. unfold crc_byte, crc_quarter, CRC32_INDEX, CRC32_SHIFTED.
  by rewrite Z.shiftr_lxor, (byte_shiftr b), Z.lxor_0_r, land_lxor_distr, (byte_land b).
Qed.

(** What lies above the low byte of the state passes through a step. *)
Lemma crc_quarter_high c w : crc_quarter (Z.lxor c (Z.shiftl w 8)) = Z.lxor (crc_quarter c) w.
Proof.
  unfold crc_quarter, CRC32_INDEX, CRC32_SHIFTED.
  rewrite Z.shiftr_lxor, Z.shiftr_shiftl_l, Z.shiftl_0_r, land_lxor_distr by lia.
  replace (Z.land (Z.shiftl w 8) 255) with 0.
  - by rewrite Z.lxor_0_r, Z.lxor_assoc.
  - change 255 with (Z.ones 8). by rewrite Z.land_ones, Z.shiftl_mul_pow2, Z.mod_mul by lia.
Qed.

(** The little-endian value of bytes *)
Definition le_value (w : list Z) : Z := foldr (fun b v => Z.lxor b (Z.shiftl v 8)) 0 w.

Lemma load_le32_value a b c d :
  is_byte a -> is_byte b -> is_byte c -> load_le32 a b c d = le_value [a; b; c; d].
Proof.
  intros Ha Hb Hc. cbn [le_value foldr]. rewrite (Z.shiftl_0_l 8), Z.lxor_0_r.
  rewrite <- (lor_lxor_byte c), <- (lor_lxor_byte b), <- (lor_lxor_byte a) by done.
  unfold load_le32. by rewrite !Z.shiftl_lor, !Z.shiftl_shiftl by lia.
Qed.

Lemma fold_crc_byte w : Forall is_byte w -> forall crc,
  fold_left crc_byte w crc = Nat.iter (length w) crc_quarter (Z.lxor crc (le_value w)).
Proof.
  induction 1 as [|b w Hb Hw IH]; intros crc; cbn [fold_left le_value foldr length].
  - by rewrite Z.lxor_0_r.
  - rewrite IH, crc_byte_quarter, <- crc_quarter_high, Z.lxor_assoc, Nat.iter_succ_r by done. done.
Qed.

(** ** One update of the variant with tables feeds all bytes, wherever they lie. *)

Lemma crc_align_spec data : forall addr crc, Forall is_byte data ->
  fold_left crc_byte data crc =
    fold_left crc_byte (crc_align addr crc data).2 (crc_align addr crc data).1 /\
  Forall is_byte (crc_align addr crc data).2.
Proof.
  induction data as [|b data IH]; intros addr crc H; cbn [crc_align]; [done|].
  destruct (Z.land addr 3 =? 0); [done|]. inversion H. cbn [fold_left]. by apply IH.
Qed.

Lemma crc_words_spec n : forall data crc, (length data <= n)%nat -> Forall is_byte data ->
  fold_left crc_byte data crc =
    fold_left crc_byte (crc_words crc data).2 (crc_words crc data).1.
Proof.
  induction n as [|n IH]; intros [|a [|b [|c [|d data]]]] crc Hn H; cbn [crc_words length] in *;
    try done; [lia|].
  rewrite !Forall_cons in H. destruct H as (Ha & Hb & Hc & Hd & H).
  assert (E : fold_left crc_byte (a :: b :: c :: d :: data) crc =
    fold_left crc_byte data
      (crc_quarter (crc_quarter (crc_quarter (crc_quarter (Z.lxor crc (load_le32 a b c d))))))).
  { change (a :: b :: c :: d :: data) with ([a; b; c; d] ++ data). rewrite fold_left_app. f_equal.
    rewrite fold_crc_byte, load_le32_value by (rewrite ?Forall_cons; auto). done. }
  rewrite E. apply IH; [lia|done].
Qed.

Lemma fold_octet_byte l : Forall is_byte l -> forall c, fold_left crc_octet l c = fold_left crc_byte l c.
Proof. induction 1 as [|b l Hb Hl IH]; intros c; [done|]. cbn [fold_left]. by rewrite IH, crc_byte_octet. Qed.

Lemma update_spec ctx addr data : Forall is_byte data ->
  let crc := fold_left crc_octet data (Z.lxor (crc_state ctx) CRC32_NEGL) in
  pj_crc32_update ctx addr data = (mk_crc32 (Z.lxor crc CRC32_NEGL), Z.lxor crc CRC32_NEGL).
Proof.
  intros H. cbn zeta. rewrite fold_octet_byte by done. unfold pj_crc32_update.
  destruct (crc_align_spec data addr (Z.lxor (crc_state ctx) CRC32_NEGL) H) as [-> H1].
  destruct (crc_align _ _ _) as [crc1 data1]; cbn [fst snd] in *.
  rewrite (crc_words_spec _ data1 crc1 ltac:(reflexivity) H1).
  by destruct (crc_words _ _).
Qed.

(** ** The two variants agree *)

Definition feed (ctx : pj_crc32_context) (chunks : list (Z * list Z)) : pj_crc32_context :=
  fold_left (fun ctx c => (pj_crc32_update ctx c.1 c.2).1) chunks ctx.

Definition feed_bitwise (ctx : pj_crc32_context) (chunks : list (list Z)) : pj_crc32_context :=
  fold_left (fun ctx c => (pj_crc32_update_bitwise ctx c).1) chunks ctx.

Lemma feed_state chunks : Forall (fun c => Forall is_byte c.2) chunks -> forall ctx,
  crc_state (feed ctx chunks) =
    Z.lxor (fold_left crc_octet (concat chunks.*2) (Z.lxor (crc_state ctx) CRC32_NEGL)) CRC32_NEGL.
Proof.
  induction 1 as [|[addr c] chunks Hc _ IH]; intros ctx; cbn [feed fold_left fmap list_fmap concat snd fst].
  - by rewrite lxor_twice.
  - fold (feed (pj_crc32_update ctx addr c).1 chunks). rewrite IH, update_spec by done. cbn [fst crc_state].
    by rewrite lxor_twice, fold_left_app.
Qed.

Lemma feed_bitwise_state chunks ctx :
  crc_state (feed_bitwise ctx chunks) = fold_left crc_octet (concat chunks) (crc_state ctx).
Proof.
  revert ctx. induction chunks as [|c chunks IH]; intros ctx; cbn [feed_bitwise fold_left concat]; [done|].
  fold (feed_bitwise (pj_crc32_update_bitwise ctx c).1 chunks). by rewrite IH, fold_left_app.
Qed.

(** The two variants of the file compute the same checksum of the same bytes, however
    they are cut into updates and wherever the pieces lie in memory; it is the
    checksum that one call of pj_crc32_calc gives for all of them. *)
Theorem crc32_variants_agree (chunks : list (Z * list Z)) (addr : Z) :
  Forall (fun c => Forall is_byte c.2) chunks ->
  pj_crc32_final (feed pj_crc32_init chunks) =
    (pj_crc32_final_bitwise (feed_bitwise pj_crc32_init_bitwise chunks.*2)).2 /\
  pj_crc32_final (feed pj_crc32_init chunks) = pj_crc32_calc addr (concat chunks.*2).
Proof.
  intros H. unfold pj_crc32_final, pj_crc32_final_bitwise, pj_crc32_calc, CRC32_SWAP. cbn [snd].
  rewrite feed_state, feed_bitwise_state by done. split; [done|].
  rewrite update_spec; [done|]. apply Forall_concat, Forall_fmap. exact H.
Qed.

Lemma crc32_variants_agree_witness :
  let chunks := [(1, [49; 50; 51]); (7, [52; 53; 54; 55; 56]); (0, [57])] in
  pj_crc32_final (feed pj_crc32_init chunks) = 0xCBF43926 /\
  pj_crc32_final (feed pj_crc32_init chunks) =
    (pj_crc32_final_bitwise (feed_bitwise pj_crc32_init_bitwise chunks.*2)).2.
Proof.
  split; [vm_compute; reflexivity|].
  apply (crc32_variants_agree [(1, [49; 50; 51]); (7, [52; 53; 54; 55; 56]); (0, [57])] 0).
  repeat constructor; cbn; lia.
Defined.

(** ** Bursts are detected *)

Lemma u32_shiftr24 c : is_u32 c -> Z.shiftr (Z.shiftr c 8) 24 = 0.
Proof.
  intros Hc. rewrite Z.shiftr_shiftr, Z.shiftr_div_pow2 by lia. apply Z.div_small. exact Hc.
Qed.

(** The top byte of a table entry tells its index. *)
Lemma tab_top_inj i j : is_byte i -> is_byte j ->
  Z.shiftr (zget crc_tab i) 24 = Z.shiftr (zget crc_tab j) 24 -> i = j.
Proof.
  intros Hi Hj E.
  assert (T : forallb (fun i => forallb (fun j =>
    implb (Z.shiftr (zget crc_tab i) 24 =? Z.shiftr (zget crc_tab j) 24) (i =? j)) bytes) bytes = true)
    by (vm_compute; reflexivity).
  pose proof (forall_bytes _ (forall_bytes _ T i Hi) j Hj) as H. cbn beta in H.
  rewrite E, Z.eqb_refl in H. by apply Z.eqb_eq.
Qed.

Lemma crc_quarter_inj c c' : is_u32 c -> is_u32 c' -> crc_quarter c = crc_quarter c' -> c = c'.
Proof.
  intros Hc Hc' E. unfold crc_quarter, CRC32_INDEX, CRC32_SHIFTED in E.
  assert (L : Z.land c 0xff = Z.land c' 0xff).
  { apply tab_top_inj; [apply land_byte..|]. apply (f_equal (fun z => Z.shiftr z 24)) in E.
    by rewrite !Z.shiftr_lxor, !u32_shiftr24, !Z.lxor_0_r in E. }
  apply low_high; [done|]. rewrite L in E. apply (f_equal (Z.lxor (zget crc_tab (Z.land c' 255)))) in E.
  by rewrite <- !Z.lxor_assoc, Z.lxor_nilpotent, !Z.lxor_0_l in E.
Qed.

Lemma tab_u32 i : is_byte i -> is_u32 (zget crc_tab i).
Proof.
  intros Hi. pose proof (forall_bytes (fun i => (0 <=? zget crc_tab i) && (zget crc_tab i <? 4294967296))
    ltac:(vm_compute; reflexivity) i Hi) as H. apply andb_true_iff in H. unfold is_u32. lia.
Qed.

Lemma crc_quarter_u32 c : is_u32 c -> is_u32 (crc_quarter c).
Proof.
  intros Hc. apply (lxor_bits 32); [done|exact (tab_u32 _ (land_byte c))|].
  unfold CRC32_SHIFTED. rewrite Z.shiftr_div_pow2 by lia. unfold is_u32 in Hc.
  split; [apply Z.div_pos; lia|]. apply Z.div_lt_upper_bound; lia.
Qed.

Lemma iter_quarter_u32 n c : is_u32 c -> is_u32 (Nat.iter n crc_quarter c).
Proof. intros Hc. induction n; [done|]. by apply crc_quarter_u32. Qed.

Lemma iter_quarter_inj n c c' : is_u32 c -> is_u32 c' ->
  Nat.iter n crc_quarter c = Nat.iter n crc_quarter c' -> c = c'.
Proof.
  intros Hc Hc'. induction n as [|n IH]; [done|]. intros E. apply IH.
  apply crc_quarter_inj; [apply iter_quarter_u32..|]; done.
Qed.

Lemma le_value_range w : Forall is_byte w -> 0 <= le_value w < 2 ^ (8 * zlen w).
Proof.
  induction 1 as [|b w Hb Hw IH]; [done|]. cbn [le_value foldr]. fold (le_value w).
  unfold zlen in *. cbn [length]. apply lxor_bits; [lia| |].
  - split; [apply Hb|]. apply Z.lt_le_trans with (2 ^ 8); [apply Hb|]. apply Z.pow_le_mono_r; lia.
  - rewrite Z.shiftl_mul_pow2 by lia. replace (8 * Z.of_nat (S (length w))) with (8 * Z.of_nat (length w) + 8) by lia.
    rewrite Z.pow_add_r by lia. nia.
Qed.

Lemma le_value_u32 w : Forall is_byte w -> (length w <= 4)%nat -> is_u32 (le_value w).
Proof.
  intros Hw Hl. pose proof (le_value_range w Hw). unfold is_u32. change 4294967296 with (2 ^ (8 * 4)).
  assert (2 ^ (8 * zlen w) <= 2 ^ (8 * 4)) by (apply Z.pow_le_mono_r; unfold zlen; lia). lia.
Qed.

Lemma le_value_inj w : forall w', Forall is_byte w -> Forall is_byte w' -> length w = length w' ->
  le_value w = le_value w' -> w = w'.
Proof.
  induction w as [|b w IH]; intros [|b' w'] Hw Hw' Hl E; try done.
  apply Forall_cons in Hw as [Hb Hw]. apply Forall_cons in Hw' as [Hb' Hw'].
  cbn [le_value foldr] in E. fold (le_value w) (le_value w') in E.
  assert (L : forall y, Z.land (Z.shiftl y 8) 255 = 0).
  { intros y. change 255 with (Z.ones 8). by rewrite Z.land_ones, Z.shiftl_mul_pow2, Z.mod_mul by lia. }
  assert (b = b') as ->.
  { apply (f_equal (fun z => Z.land z 0xff)) in E.
    by rewrite !land_lxor_distr, !L, !Z.lxor_0_r, !byte_land in E. }
  f_equal. apply IH; [done..|by injection Hl|]. apply (f_equal (fun z => Z.shiftr z 8)) in E.
  by rewrite !Z.shiftr_lxor, (byte_shiftr b'), !Z.lxor_0_l, !Z.shiftr_shiftl_l, !Z.shiftl_0_r in E.
Qed.

Lemma fold_crc_u32 w c : Forall is_byte w -> is_u32 c -> is_u32 (fold_left crc_byte w c).
Proof.
  intros Hw. revert c. induction Hw as [|b w Hb _ IH]; intros c Hc; [done|]. cbn [fold_left]. apply IH.
  rewrite crc_byte_quarter by done. apply crc_quarter_u32, (lxor_bits 32); [done|exact Hc|].
  unfold is_byte in Hb. lia.
Qed.

Lemma fold_crc_inj w c c' : Forall is_byte w -> is_u32 c -> is_u32 c' ->
  fold_left crc_byte w c = fold_left crc_byte w c' -> c = c'.
Proof.
  intros Hw. revert c c'. induction Hw as [|b w Hb _ IH]; intros c c' Hc Hc' E; [done|]. cbn [fold_left] in E.
  assert (B : forall z, is_u32 z -> is_u32 (Z.lxor z b)).
  { intros z Hz. apply (lxor_bits 32); [done|exact Hz|]. unfold is_byte in Hb. lia. }
  apply IH in E; [|rewrite crc_byte_quarter by done; by apply crc_quarter_u32, B..].
  rewrite !crc_byte_quarter in E by done. apply crc_quarter_inj in E; [|by apply B..].
  apply (f_equal (fun z => Z.lxor z b)) in E. by rewrite !lxor_twice in E.
Qed.

(** A change confined to four consecutive bytes of the data, wherever they are,
    changes the checksum. *)
Theorem crc32_detects_burst (addr addr' : Z) (p w w' s : list Z) :
  Forall is_byte (p ++ w ++ s) -> Forall is_byte w' -> length w = length w' ->
  (length w <= 4)%nat -> w <> w' ->
  pj_crc32_calc addr (p ++ w ++ s) <> pj_crc32_calc addr' (p ++ w' ++ s).
Proof.
  intros H Hw' Hl H4 Hne E. rewrite !Forall_app in H. destruct H as (Hp & Hw & Hs).
  unfold pj_crc32_calc, pj_crc32_final, CRC32_SWAP in E.
  rewrite !update_spec in E by (rewrite !Forall_app; auto). cbn [fst crc_state pj_crc32_init] in E.
  rewrite !fold_octet_byte in E by (rewrite !Forall_app; auto). rewrite !fold_left_app in E.
  apply (f_equal (fun z => Z.lxor z CRC32_NEGL)) in E. rewrite !lxor_twice in E.
  set (c := fold_left crc_byte p (Z.lxor 0 CRC32_NEGL)) in E.
  assert (Hc : is_u32 c) by (apply fold_crc_u32; [done|by vm_compute]).
  apply fold_crc_inj in E; [|done|by apply fold_crc_u32..].
  rewrite !fold_crc_byte, Hl in E by done.
  assert (B : forall v, Forall is_byte v -> (length v <= 4)%nat -> is_u32 (Z.lxor c (le_value v))).
  { intros v Hv Hv4. apply (lxor_bits 32); [done|exact Hc|]. exact (le_value_u32 v Hv Hv4). }
  apply iter_quarter_inj in E; [|apply B; [done|lia]..].
  apply (f_equal (Z.lxor c)) in E. rewrite <- !Z.lxor_assoc, Z.lxor_nilpotent, !Z.lxor_0_l in E.
  by apply Hne, le_value_inj.
Qed.

Lemma crc32_detects_burst_witness :
  pj_crc32_calc 0 ([1; 2] ++ [3; 4; 5; 6] ++ [7]) <> pj_crc32_calc 3 ([1; 2] ++ [3; 0; 5; 255] ++ [7]).
Proof. apply crc32_detects_burst; [repeat constructor; cbn; lia..|done|cbn; lia|done]. Defined.
