(* ===== verification/Digest.v ===== *)
(** * Digests of messages in blocks of 64 bytes

    What SHA-1 and MD5 share: a compression function folded over the blocks of a
    message, and the arithmetic of the position in the last block. *)

From S2P Require Import Prelude Words.

Section Blocks.
Context {S : Type} (compress : S -> list Z -> S).

(** The first [n] blocks of a message *)
Fixpoint blocks (n : nat) (H : S) (msg : list Z) : S :=
  match n with
  | O => H
  | Datatypes.S n => blocks n (compress H (take 64 msg)) (drop 64 msg)
  end.

Lemma blocks_add n : forall m H msg,
  blocks (n + m) H msg = blocks m (blocks n H msg) (drop (64 * n) msg).
Proof.
  induction n as [|n IH]; intros m H msg; [done|]. cbn [blocks Nat.add]. rewrite IH, drop_drop.
  do 2 f_equal. lia.
Qed.

Lemma blocks_app n : forall H a b, (64 * n <= length a)%nat -> blocks n H (a ++ b) = blocks n H a.
Proof.
  induction n as [|n IH]; intros H a b Ha; [done|]. cbn [blocks].
  rewrite take_app_le, drop_app_le by lia. apply IH. rewrite length_drop. lia.
Qed.
End Blocks.

Lemma position_spec {A} (l : list A) : Z.to_nat (Z.land (Z.shiftr (u32 (8 * zlen l)) 3) 63) = (length l mod 64)%nat.
Proof.
  unfold zlen.
  change 63 with (Z.ones 6). rewrite Z.land_ones, Z.shiftr_div_pow2 by lia. unfold u32.
  change (2 ^ 3) with 8. change (2 ^ 6) with 64.
  apply Nat2Z.inj. rewrite Nat2Z.inj_mod, Z2Nat.id by (apply Z.mod_pos_bound; lia).
  change (Z.of_nat 64) with 64. Z.to_euclidean_division_equations. lia.
Qed.

Lemma div_mod_64 n q r : n = (q * 64 + r)%nat -> (r < 64)%nat -> (n / 64)%nat = q /\ (n mod 64)%nat = r.
Proof. intros -> Hr. split; symmetry; [apply (Nat.div_unique _ 64 q r)|apply (Nat.mod_unique _ 64 q r)]; lia. Qed.

