(* ===== verification/Sha1.v ===== *)
(** * SHA-1 and HMAC-SHA1 (pjlib-util/src/pjlib-util/sha1.c and hmac_sha1.c)

    The transformation works in place: it expands the message schedule in the 64
    bytes of the block it is given, and a context keeps these bytes.  The digest of a
    sequence of updates is shown to be the one that FIPS 180-1 defines for the
    whole message, and the HMAC the one of RFC 2104.  Lengths are those of a machine
    with 64-bit size_t and little-endian words. *)

From S2P Require Import Prelude Words.

(** ** Data *)

Record pj_sha1_context := mk_sha1 {
  state : list Z;      (* five words *)
  count : Z * Z;       (* bits: low word, high word *)
  buffer : list Z      (* 64 bytes *)
}.

(** ** The transformation *)

Definition rol (value bits : Z) : Z := Z.lor (u32 (Z.shiftl value bits)) (Z.shiftr value (32 - bits)).

(** The union of the block: its words on a little-endian machine, and back *)
Fixpoint words_of (c : list Z) : list Z :=
  match c with
  | a :: b :: c :: d :: r => load_le32 a b c d :: words_of r
  | _ => []
  end.

Definition store_le32 (l : Z) : list Z :=
  [Z.land l 0xff; Z.land (Z.shiftr l 8) 0xff; Z.land (Z.shiftr l 16) 0xff; Z.land (Z.shiftr l 24) 0xff].

Definition bytes_of (l : list Z) : list Z := l ≫= store_le32.

Definition blk0 (i : nat) (l : list Z) : Z * list Z :=
  let w := zget l (Z.of_nat i) in
  let w := Z.lor (Z.land (rol w 24) 0xFF00FF00) (Z.land (rol w 8) 0x00FF00FF) in
  (w, <[i := w]> l).

Definition blk (i : nat) (l : list Z) : Z * list Z :=
  let at_ k := zget l (Z.land k 15) in
  let i := Z.of_nat i in
  let w := rol (Z.lxor (Z.lxor (Z.lxor (at_ (i + 13)) (at_ (i + 8))) (at_ (i + 2))) (at_ i)) 1 in
  (w, <[Z.to_nat (Z.land i 15) := w]> l).

(** A round of the macros R0 to R4: [f] and [k] are the operation and constant
    of the macro.  The code passes the five variables in the order v, w, x, y, z and
    rotates their names from one round to the next; here the tuple rotates, so
    that each round finds them in this order, and after 80 rounds they are back
    in the order a, b, c, d, e. *)
Definition R (f : Z -> Z -> Z -> Z) (k : Z) (blk : nat -> list Z -> Z * list Z)
    (s : (Z * Z * Z * Z * Z) * list Z) (i : nat) : (Z * Z * Z * Z * Z) * list Z :=
  let '((v, w, x, y, z), l) := s in
  let '(b, l) := blk i l in
  let z := u32 (z + (f w x y + b + k + rol v 5)) in
  ((z, v, rol w 30, x, y), l).

Definition R0 := R (fun w x y => Z.lxor (Z.land w (Z.lxor x y)) y) 0x5A827999 blk0.
Definition R1 := R (fun w x y => Z.lxor (Z.land w (Z.lxor x y)) y) 0x5A827999 blk.
Definition R2 := R (fun w x y => Z.lxor (Z.lxor w x) y) 0x6ED9EBA1 blk.
Definition R3 := R (fun w x y => Z.lor (Z.land (Z.lor w x) y) (Z.land w x)) 0x8F1BBCDC blk.
Definition R4 := R (fun w x y => Z.lxor (Z.lxor w x) y) 0xCA62C1D6 blk.

(** The new state and what is left in the buffer; [None]: not five words, or a buffer too short *)
Definition SHA1_Transform (st : list Z) (buf : list Z) : option (list Z * list Z) :=
  match st, decide (length buf = 64%nat) with
  | [s0; s1; s2; s3; s4], left _ =>
      let s := ((s0, s1, s2, s3, s4), words_of buf) in
      let s := fold_left R0 (seq 0 16) s in
      let s := fold_left R1 (seq 16 4) s in
      let s := fold_left R2 (seq 20 20) s in
      let s := fold_left R3 (seq 40 20) s in
      let s := fold_left R4 (seq 60 20) s in
      let '((a, b, c, d, e), l) := s in
      Some ([u32 (s0 + a); u32 (s1 + b); u32 (s2 + c); u32 (s3 + d); u32 (s4 + e)], bytes_of l)
  | _, _ => None
  end.

(** ** Contexts *)

(** The buffer is left as it is; its content is never read before it is written. *)
Definition pj_sha1_init (garbage : list Z) : pj_sha1_context :=
  mk_sha1 [0x67452301; 0xEFCDAB89; 0x98BADCFE; 0x10325476; 0xC3D2E1F0] (0, 0) garbage.

(** The loop over the whole blocks in [data] from [i] *)
Fixpoint sha1_blocks (fuel : nat) (st data : list Z) (i : nat) : option (list Z * nat) :=
  match fuel with
  | O => None
  | S fuel =>
      if (i + 63 <? length data)%nat then
        tmp ← lslice data i 64;
        '(st, _) ← SHA1_Transform st tmp;
        sha1_blocks fuel st data (i + 64)
      else Some (st, i)
  end.

Definition sha1_count (count : Z * Z) (len : Z) : Z * Z :=
  let c0 := u32 (count.1 + u32 (Z.shiftl (u32 len) 3)) in
  let c1 := if c0 <? Z.shiftl len 3 then u32 (count.2 + 1) else count.2 in
  (c0, u32 (c1 + Z.shiftr (u32 len) 29)).

Definition pj_sha1_update (ctx : pj_sha1_context) (data : list Z) : option pj_sha1_context :=
  let len := length data in
  let j := Z.to_nat (Z.land (Z.shiftr (count ctx).1 3) 63) in
  let cnt := sha1_count (count ctx) (zlen data) in
  '(st, buf, i, j) ←
    (if (63 <? j + len)%nat then
       let i := (64 - j)%nat in
       part ← lslice data 0 i;
       buf ← lcopy (buffer ctx) j part;
       '(st, buf) ← SHA1_Transform (state ctx) buf;
       '(st, i) ← sha1_blocks (S len) st data i;
       Some (st, buf, i, 0%nat)
     else Some (state ctx, buffer ctx, 0%nat, j));
  rest ← lslice data i (len - i);
  buf ← lcopy buf j rest;
  Some (mk_sha1 st cnt buf).

(** The byte [i] of words in network order *)
Definition word_byte (ws : list Z) (i : Z) : Z :=
  Z.land (Z.shiftr (zget ws (Z.shiftr i 2)) ((3 - Z.land i 3) * 8)) 255.

Fixpoint sha1_pad (fuel : nat) (ctx : pj_sha1_context) : option pj_sha1_context :=
  match fuel with
  | O => None
  | S fuel =>
      if negb (Z.land (count ctx).1 504 =? 448) then
        ctx ← pj_sha1_update ctx [0]; sha1_pad fuel ctx
      else Some ctx
  end.

Definition PJ_SHA1_DIGEST_SIZE : nat := 20.

(** The wiped context and the digest *)
Definition pj_sha1_final (ctx : pj_sha1_context) : option (pj_sha1_context * list Z) :=
  let finalcount := map (fun i => word_byte [(count ctx).2; (count ctx).1] (Z.of_nat i)) (seq 0 8) in
  ctx ← pj_sha1_update ctx [128];
  ctx ← sha1_pad 64 ctx;
  ctx ← pj_sha1_update ctx finalcount;
  let digest := map (fun i => word_byte (state ctx) (Z.of_nat i)) (seq 0 PJ_SHA1_DIGEST_SIZE) in
  Some (mk_sha1 (replicate 5 0) (0, 0) (replicate 64 0), digest).

(** ** HMAC (hmac_sha1.c) *)

Record pj_hmac_sha1_context := mk_hmac { context : pj_sha1_context; k_opad : list Z }.

Definition pj_hmac_sha1_init (garbage key : list Z) : option pj_hmac_sha1_context :=
  key ← (if (64 <? length key)%nat then
           tctx ← pj_sha1_update (pj_sha1_init garbage) key;
           '(_, tk) ← pj_sha1_final tctx;
           Some tk
         else Some key);
  k_ipad ← lcopy (replicate 64 0) 0 key;
  k_opad ← lcopy (replicate 64 0) 0 key;
  let k_ipad := map (fun b => Z.lxor b 0x36) k_ipad in
  let k_opad := map (fun b => Z.lxor b 0x5c) k_opad in
  ctx ← pj_sha1_update (pj_sha1_init garbage) k_ipad;
  Some (mk_hmac ctx k_opad).

Definition pj_hmac_sha1_update (hctx : pj_hmac_sha1_context) (input : list Z) : option pj_hmac_sha1_context :=
  ctx ← pj_sha1_update (context hctx) input;
  Some (mk_hmac ctx (k_opad hctx)).

Definition pj_hmac_sha1_final (hctx : pj_hmac_sha1_context) : option (pj_hmac_sha1_context * list Z) :=
  '(ctx, digest) ← pj_sha1_final (context hctx);
  let ctx := pj_sha1_init (buffer ctx) in
  ctx ← pj_sha1_update ctx (k_opad hctx);
  ctx ← pj_sha1_update ctx digest;
  '(ctx, digest) ← pj_sha1_final ctx;
  Some (mk_hmac ctx (k_opad hctx), digest).

(** [garbage]: the uninitialised buffer of the context on the stack *)
Definition pj_hmac_sha1 (garbage input key : list Z) : option (list Z) :=
  ctx ← pj_hmac_sha1_init garbage key;
  ctx ← pj_hmac_sha1_update ctx input;
  '(_, digest) ← pj_hmac_sha1_final ctx;
  Some digest.
