(* ===== verification/Sha1Props.v ===== *)
(** * SHA-1 and HMAC-SHA1: the digests are those of FIPS 180-1 and RFC 2104 *)

From S2P Require Import Prelude Words Digest Sha1.

(** ** The definitions of FIPS 180-1 *)

Definition Ch (x y z : Z) : Z := Z.lxor (Z.land x y) (Z.land (Z.lnot x) z).
Definition Parity (x y z : Z) : Z := Z.lxor (Z.lxor x y) z.
Definition Maj (x y z : Z) : Z := Z.lxor (Z.lxor (Z.land x y) (Z.land x z)) (Z.land y z).

Definition ft (t : nat) : Z -> Z -> Z -> Z :=
  if (t <? 20)%nat then Ch else if (t <? 40)%nat then Parity else if (t <? 60)%nat then Maj else Parity.

Definition Kt (t : nat) : Z :=
  if (t <? 20)%nat then 0x5A827999 else if (t <? 40)%nat then 0x6ED9EBA1
  else if (t <? 60)%nat then 0x8F1BBCDC else 0xCA62C1D6.

(** Circular left shift of a word *)
Definition ROTL (n x : Z) : Z := Z.lor (u32 (Z.shiftl x n)) (Z.shiftr x (32 - n)).

(** The words of a message block, in network order *)
Fixpoint be_words (c : list Z) : list Z :=
  match c with
  | a :: b :: c :: d :: r => load_be32 a b c d :: be_words r
  | _ => []
  end.

(** The message schedule: [n] words more than [w] *)
Fixpoint schedule (n : nat) (w : list Z) : list Z :=
  match n with
  | O => w
  | S n =>
      let t := length w in
      let at_ k := zget w (Z.of_nat (t - k)) in
      schedule n (w ++ [ROTL 1 (Z.lxor (Z.lxor (Z.lxor (at_ 3%nat) (at_ 8%nat)) (at_ 14%nat)) (at_ 16%nat))])
  end.

Definition hash5 : Type := Z * Z * Z * Z * Z.

Definition ref_round (W : list Z) (s : hash5) (t : nat) : hash5 :=
  let '(a, b, c, d, e) := s in
  (u32 (ROTL 5 a + ft t b c d + e + zget W (Z.of_nat t) + Kt t), a, ROTL 30 b, c, d).

Definition compress (H : hash5) (M : list Z) : hash5 :=
  let '(h0, h1, h2, h3, h4) := H in
  let '(a, b, c, d, e) := fold_left (ref_round (schedule 64 (be_words M))) (seq 0 80) H in
  (u32 (h0 + a), u32 (h1 + b), u32 (h2 + c), u32 (h3 + d), u32 (h4 + e)).

Definition H0 : hash5 := (0x67452301, 0xEFCDAB89, 0x98BADCFE, 0x10325476, 0xC3D2E1F0).

Definition be_bytes (n : nat) (x : Z) : list Z :=
  map (fun i => x / 256 ^ (Z.of_nat n - 1 - Z.of_nat i) mod 256) (seq 0 n).

(** Padding: a one bit, zeros up to 56 modulo 64, and the length in bits *)
Definition pad (msg : list Z) : list Z :=
  msg ++ [128] ++ replicate (Z.to_nat ((55 - zlen msg) mod 64)) 0 ++ be_bytes 8 (8 * zlen msg).

Definition words5 (H : hash5) : list Z := let '(a, b, c, d, e) := H in [a; b; c; d; e].

Definition sha1_reference (msg : list Z) : list Z :=
  words5 (blocks compress (length (pad msg) / 64) H0 (pad msg)) ≫= be_bytes 4.

(** RFC 2104 with SHA-1 and blocks of 64 bytes *)
Definition hmac_reference (key text : list Z) : list Z :=
  let key := if (64 <? length key)%nat then sha1_reference key else key in
  let k := key ++ replicate (64 - length key) 0 in
  sha1_reference (map (fun b => Z.lxor b 0x5c) k ++ sha1_reference (map (fun b => Z.lxor b 0x36) k ++ text)).

(** ** Words *)

Definition swap32 (w : Z) : Z := Z.lor (Z.land (rol w 24) 0xFF00FF00) (Z.land (rol w 8) 0x00FF00FF).

(** The expression of blk0 turns a word read on this machine into network order. *)
Lemma swap32_load a b c d : is_byte a -> is_byte b -> is_byte c -> is_byte d ->
  swap32 (load_le32 a b c d) = load_be32 a b c d.
Proof.
  intros Ha Hb Hc Hd. unfold swap32, load_be32, rol, load_le32. apply Z.bits_inj'. intros i Hi.
  destruct (decide (i < 32)).
  - each_bit 32%nat.
  - rewrite Z.lor_spec, !Z.land_spec.
    rewrite (testbit_high 0xFF00FF00 32), (testbit_high 0x00FF00FF 32) by lia.
    rewrite !andb_false_r. by repeat bits_step.
Qed.

Lemma words_len n : forall c, length c = (4 * n)%nat -> length (words_of c) = n /\ length (be_words c) = n.
Proof.
  induction n as [|n IH]; intros [|a [|b [|c [|d r]]]] H; cbn [length] in H; try lia; [done|].
  cbn [words_of be_words length]. destruct (IH r); lia.
Qed.

Lemma words_swap n : forall c, length c = (4 * n)%nat -> Forall is_byte c ->
  be_words c = map swap32 (words_of c).
Proof.
  induction n as [|n IH]; intros [|a [|b [|c [|d r]]]] H Hb; cbn [length] in H; try lia; [done|].
  rewrite !Forall_cons in Hb. destruct_and!. cbn [words_of be_words map].
  rewrite swap32_load, <- IH by (done || lia). done.
Qed.

Lemma rol_ROTL x n : rol x n = ROTL n x.
Proof. done. Qed.

(** ** The schedule *)

Lemma zget_nat l i : zget l (Z.of_nat i) = default 0 (l !! i).
Proof. unfold zget. by rewrite Nat2Z.id. Qed.

Lemma schedule_length n : forall w, length (schedule n w) = (length w + n)%nat.
Proof. induction n as [|n IH]; intros w; cbn [schedule]; [lia|]. rewrite IH, length_app. cbn. lia. Qed.

Lemma schedule_old n : forall w t, (t < length w)%nat -> schedule n w !! t = w !! t.
Proof.
  induction n as [|n IH]; intros w t Ht; [done|]. cbn [schedule]. rewrite IH by (rewrite length_app; cbn; lia).
  by rewrite lookup_app_l.
Qed.

Lemma schedule_new n : forall w t, (16 <= length w <= t)%nat -> (t < length w + n)%nat ->
  let W k := zget (schedule n w) (Z.of_nat k) in
  W t = ROTL 1 (Z.lxor (Z.lxor (Z.lxor (W (t - 3)%nat) (W (t - 8)%nat)) (W (t - 14)%nat)) (W (t - 16)%nat)).
Proof.
  induction n as [|n IH]; intros w t Ht Hn W; [lia|]. unfold W. cbn [schedule].
  destruct (decide (t = length w)) as [->|].
  - rewrite !zget_nat. rewrite !schedule_old by (rewrite length_app; cbn; lia).
    rewrite list_lookup_middle by done. cbn [default]. rewrite !lookup_app_l by lia. done.
  - apply IH; rewrite length_app; cbn; lia.
Qed.

(** ** The rounds work on the schedule *)

Section Block.
Context (M : list Z) (raw : list Z) (HM : length M = 16%nat) (Hraw : M = map swap32 raw).

Let W (t : nat) : Z := zget (schedule 64 M) (Z.of_nat t).

(** After [i] rounds the block holds the last words of the schedule, and what
    it had in the words that no round has read. *)
Definition block_inv (i : nat) (l : list Z) : Prop :=
  length l = 16%nat /\
  (forall j, (j < i <= j + 16)%nat -> zget l (Z.of_nat (j mod 16)) = W j) /\
  (forall j, (i <= j < 16)%nat -> l !! j = raw !! j).

Lemma zget_insert l i j x : length l = 16%nat -> (i < 16)%nat ->
  zget (<[i := x]> l) (Z.of_nat j) = if decide (i = j) then x else zget l (Z.of_nat j).
Proof.
  intros Hl Hi. rewrite !zget_nat. case_decide as E.
  - subst j. by rewrite list_lookup_insert_eq by lia.
  - by rewrite list_lookup_insert_ne by done.
Qed.

Lemma block_inv_insert i k l : block_inv i l -> (k = i mod 16)%nat ->
  block_inv (S i) (<[k := W i]> l).
Proof.
  intros (Hl & Hw & Hr) ->. pose proof (Nat.mod_upper_bound i 16 ltac:(lia)).
  split; [by rewrite length_insert|]. split.
  - intros j Hj. rewrite zget_insert by done. case_decide as E.
    + assert (j = i) as ->; [|done]. pose proof (Nat.div_mod_eq i 16). pose proof (Nat.div_mod_eq j 16). lia.
    + apply Hw. assert (j <> i) by (intros ->; done). lia.
  - intros j Hj. rewrite list_lookup_insert_ne; [apply Hr; lia|]. rewrite Nat.mod_small by lia. lia.
Qed.

Lemma blk0_spec i l : (i < 16)%nat -> block_inv i l ->
  exists l', blk0 i l = (W i, l') /\ block_inv (S i) l'.
Proof.
  intros Hi I. assert (E : swap32 (zget l (Z.of_nat i)) = W i).
  { destruct I as (_ & _ & Hr). unfold W. rewrite !zget_nat, schedule_old, Hr by lia. rewrite Hraw, list_lookup_fmap.
    destruct (raw !! i) eqn:E; [done|]. apply lookup_ge_None in E. rewrite Hraw, length_map in HM. lia. }
  unfold blk0. fold (swap32 (zget l (Z.of_nat i))). rewrite E. eexists. split; [done|].
  apply block_inv_insert; [done|]. by rewrite Nat.mod_small.
Qed.

Lemma land15 i : Z.land (Z.of_nat i) 15 = Z.of_nat (i mod 16).
Proof. change 15 with (Z.ones 4). rewrite Z.land_ones by lia. change (2 ^ 4) with (Z.of_nat 16). by rewrite Nat2Z.inj_mod. Qed.

Lemma blk_spec i l : (16 <= i < 80)%nat -> block_inv i l ->
  exists l', blk i l = (W i, l') /\ block_inv (S i) l'.
Proof.
  intros Hi I. pose proof I as (_ & Hw & _).
  assert (P : forall z k d, z = Z.of_nat k -> (k + d = 16)%nat -> (1 <= d)%nat ->
    zget l (Z.land (Z.of_nat i + z) 15) = W (i - d)).
  { intros z k d -> Hk Hd. rewrite <- Nat2Z.inj_add, land15, <- (Hw (i - d)%nat) by lia.
    do 2 f_equal. replace (i + k)%nat with ((i - d) + 1 * 16)%nat by lia. by rewrite Nat.Div0.mod_add. }
  unfold blk. cbn zeta.
  rewrite (P 13 13%nat 3%nat), (P 8 8%nat 8%nat), (P 2 2%nat 14%nat) by lia.
  pose proof (P 0 0%nat 16%nat eq_refl ltac:(lia) ltac:(lia)) as P0. rewrite Z.add_0_r in P0. rewrite P0.
  unfold W. rewrite rol_ROTL, <- (schedule_new 64 M i) by lia. fold (W i). rewrite land15, Nat2Z.id.
  eexists. split; [done|]. by apply block_inv_insert.
Qed.

(** A run of rounds with one operation *)
Lemma rounds_spec f k blk n : forall a i l,
  (forall i l, (a <= i < a + n)%nat -> block_inv i l -> exists l', blk i l = (W i, l') /\ block_inv (S i) l') ->
  (forall t, (a <= t < a + n)%nat -> (forall x y z, f x y z = ft t x y z) /\ k = Kt t) ->
  i = a -> block_inv i l ->
  exists l',
    (forall s, fold_left (R f k blk) (seq a n) (s, l) = (fold_left (ref_round (schedule 64 M)) (seq a n) s, l')) /\
    block_inv (a + n) l'.
Proof.
  induction n as [|n IH]; intros a i l Hb Hf -> I; cbn [seq fold_left].
  - exists l. by rewrite Nat.add_0_r.
  - destruct (Hb a l) as (l1 & E1 & I1); [lia|done|].
    destruct (IH (S a) (S a) l1) as (l2 & E2 & I2); [| |done|done|].
    { intros. apply Hb; [lia|done]. }
    { intros. apply Hf. lia. }
    exists l2. replace (a + S n)%nat with (S a + n)%nat by lia. split; [|done]. intros s. rewrite <- E2. f_equal.
    destruct s as [[[[v w] x] y] z]. unfold R, ref_round. rewrite E1. fold (W a).
    destruct (Hf a) as [Hf1 ->]; [lia|]. rewrite Hf1, !rol_ROTL. do 6 f_equal. lia.
Qed.

Lemma block_inv_start : block_inv 0 raw.
Proof. split; [rewrite <- HM, Hraw; by rewrite length_map|]. split; [lia|done]. Qed.
End Block.

Lemma Ch_code x y z : Z.lxor (Z.land x (Z.lxor y z)) z = Ch x y z.
Proof.
  unfold Ch. apply Z.bits_inj'. intros i Hi. rewrite !Z.lxor_spec, !Z.land_spec, !Z.lxor_spec, Z.lnot_spec by done.
  by destruct (Z.testbit x i), (Z.testbit y i), (Z.testbit z i).
Qed.

Lemma Maj_code x y z : Z.lor (Z.land (Z.lor x y) z) (Z.land x y) = Maj x y z.
Proof.
  unfold Maj. apply Z.bits_inj'. intros i Hi.
  rewrite !Z.lxor_spec, !Z.lor_spec, !Z.land_spec, !Z.lor_spec.
  by destruct (Z.testbit x i), (Z.testbit y i), (Z.testbit z i).
Qed.

Ltac at_stage := intros t Ht; unfold ft, Kt;
  repeat match goal with |- context [(t <? ?n)%nat] => destruct (Nat.ltb_spec t n); try lia end.

Lemma transform_spec H buf : length buf = 64%nat -> Forall is_byte buf ->
  exists buf', SHA1_Transform (words5 H) buf = Some (words5 (compress H buf), buf') /\ length buf' = 64%nat.
Proof.
  intros Hl Hb. destruct H as [[[[h0 h1] h2] h3] h4]. unfold SHA1_Transform, words5 at 1.
  destruct (decide (length buf = 64%nat)) as [_|]; [|done]. unfold compress.
  assert (HM : length (be_words buf) = 16%nat) by apply (words_len 16 buf Hl).
  assert (Hr : be_words buf = map swap32 (words_of buf)) by exact (words_swap 16 buf Hl Hb).
  cbv beta iota zeta. set (s := (h0, h1, h2, h3, h4)).
  change (seq 0 80) with (seq 0 16 ++ seq 16 4 ++ seq 20 20 ++ seq 40 20 ++ seq 60 20).
  rewrite !fold_left_app. unfold R0, R1, R2, R3, R4.
  pose proof (block_inv_start _ _ HM Hr) as I.
  destruct (rounds_spec _ _ HM _ 0x5A827999 blk0 16 0 0 _ (fun i l Hi => blk0_spec _ _ HM Hr i l ltac:(lia))
    ltac:(at_stage; split; [apply Ch_code|done]) eq_refl I) as (l1 & -> & I1).
  destruct (rounds_spec _ _ HM _ 0x5A827999 blk 4 16 16 _ (fun i l Hi => blk_spec _ _ HM i l ltac:(lia))
    ltac:(at_stage; split; [apply Ch_code|done]) eq_refl I1) as (l2 & -> & I2).
  destruct (rounds_spec _ _ HM _ 0x6ED9EBA1 blk 20 20 20 _ (fun i l Hi => blk_spec _ _ HM i l ltac:(lia))
    ltac:(at_stage; split; [done|done]) eq_refl I2) as (l3 & -> & I3).
  destruct (rounds_spec _ _ HM _ 0x8F1BBCDC blk 20 40 40 _ (fun i l Hi => blk_spec _ _ HM i l ltac:(lia))
    ltac:(at_stage; split; [apply Maj_code|done]) eq_refl I3) as (l4 & -> & I4).
  destruct (rounds_spec _ _ HM _ 0xCA62C1D6 blk 20 60 60 _ (fun i l Hi => blk_spec _ _ HM i l ltac:(lia))
    ltac:(at_stage; split; [done|done]) eq_refl I4) as (l5 & -> & I5).
  destruct (fold_left _ (seq 60 20) _) as [[[[a b] c] d] e]. eexists. split; [done|].
  destruct I5 as [I5 _]. unfold bytes_of. do 16 (destruct l5 as [|? l5]; [done|]). by destruct l5.
Qed.

(** ** Updates *)

Lemma sha1_blocks_spec n : forall fuel H data i,
  (i <= length data)%nat -> n = ((length data - i) / 64)%nat -> (n < fuel)%nat -> Forall is_byte data ->
  sha1_blocks fuel (words5 H) data i = Some (words5 (blocks compress n H (drop i data)), (i + 64 * n)%nat).
Proof.
  induction n as [|n IH]; intros [|fuel] H data i Hi Hn Hf Hb; try lia; cbn [sha1_blocks blocks];
    pose proof (Nat.div_mod_eq (length data - i) 64); pose proof (Nat.mod_upper_bound (length data - i) 64 ltac:(lia)).
  - destruct (Nat.ltb_spec (i + 63) (length data)); [lia|]. do 2 f_equal. lia.
  - destruct (Nat.ltb_spec (i + 63) (length data)); [|lia].
    rewrite lslice_eq by lia. cbn [mbind option_bind].
    destruct (transform_spec H (take 64 (drop i data))) as (b & -> & _); [rewrite length_take, length_drop; lia|by apply Forall_take, Forall_drop|].
    cbn [mbind option_bind]. rewrite IH; [|lia| |lia|done].
    + rewrite drop_drop. do 2 f_equal. lia.
    + apply (Nat.div_unique _ 64 _ ((length data - i) mod 64)); lia.
Qed.

(** A context after the message [msg] *)
Record holds (ctx : pj_sha1_context) (msg : list Z) : Prop := {
  h_state : state ctx = words5 (blocks compress (length msg / 64) H0 msg);
  h_count : count ctx = (u32 (8 * zlen msg), u32 (8 * zlen msg / 4294967296));
  h_buffer : length (buffer ctx) = 64%nat;
  h_tail : take (length msg mod 64) (buffer ctx) = drop (64 * (length msg / 64)) msg
}.

Lemma bit_count_spec L len : 0 <= L -> 0 <= len < 2 ^ 29 ->
  sha1_count (u32 (8 * L), u32 (8 * L / 4294967296)) len =
    (u32 (8 * (L + len)), u32 (8 * (L + len) / 4294967296)).
Proof.
  intros HL Hlen. unfold sha1_count. cbn [fst snd]. rewrite !Z.shiftr_div_pow2, !Z.shiftl_mul_pow2 by lia.
  change (2 ^ 3) with 8. rewrite (u32_id len) by (unfold is_u32; lia). rewrite (u32_id (len * 8)) by (unfold is_u32; lia).
  rewrite (Z.div_small len), Z.add_0_r by lia.
  assert (E : u32 (u32 (8 * L) + len * 8) = u32 (8 * (L + len))).
  { unfold u32. rewrite Z.add_mod_idemp_l by lia. f_equal. lia. }
  rewrite E. f_equal. clear E. unfold u32. set (m := 4294967296).
  assert (D : 8 * (L + len) / m = 8 * L / m + (if 8 * (L + len) mod m <? len * 8 then 1 else 0)).
  { subst m. zbool; Z.to_euclidean_division_equations; lia. }
  rewrite D. destruct (_ <? _); rewrite Z.mod_mod, ?Z.add_mod_idemp_l by lia; f_equal; lia.
Qed.

Lemma init_holds garbage : length garbage = 64%nat -> holds (pj_sha1_init garbage) [].
Proof. intros H. by split. Qed.

Lemma update_holds ctx msg data :
  holds ctx msg -> Forall is_byte (msg ++ data) -> zlen data < 2 ^ 29 ->
  exists ctx', pj_sha1_update ctx data = Some ctx' /\ holds ctx' (msg ++ data).
Proof.
  intros [Hs Hc Hl Ht] Hb Hlen. unfold pj_sha1_update. rewrite Hc. cbn [fst]. rewrite position_spec.
  rewrite bit_count_spec by (unfold zlen in *; lia).
  apply Forall_app in Hb as [Hbm Hbd].
  pose proof (Nat.div_mod_eq (length msg) 64) as Dm. pose proof (Nat.mod_upper_bound (length msg) 64 ltac:(lia)) as Um.
  set (q := (length msg / 64)%nat) in *. set (j := (length msg mod 64)%nat) in *.
  assert (Ez : zlen msg + zlen data = zlen (msg ++ data)) by (unfold zlen; rewrite length_app; lia). rewrite Ez.
  destruct (Nat.ltb_spec 63 (j + length data)) as [Hj|Hj].
  - set (n := ((length data - (64 - j)) / 64)%nat).
    pose proof (Nat.div_mod_eq (length data - (64 - j)) 64) as Dn.
    pose proof (Nat.mod_upper_bound (length data - (64 - j)) 64 ltac:(lia)) as Un. fold n in Dn.
    set (r := ((length data - (64 - j)) mod 64)%nat) in *.
    rewrite lslice_eq by lia. cbn [mbind option_bind]. rewrite drop_0.
    rewrite lcopy_eq by (rewrite length_take; lia). cbn [mbind option_bind].
    rewrite (drop_ge (buffer ctx)), app_nil_r, Ht, Hs by (rewrite length_take; lia).
    set (block := drop (64 * q) msg ++ take (64 - j) data).
    assert (Hblock : length block = 64%nat) by (unfold block; rewrite length_app, length_drop, length_take; lia).
    destruct (transform_spec (blocks compress q H0 msg) block) as (b & -> & Hblen); [done| |].
    { apply Forall_app. split; [by apply Forall_drop|by apply Forall_take]. }
    cbn [mbind option_bind]. rewrite (sha1_blocks_spec n) by (done || lia || (subst n; lia)).
    cbn [mbind option_bind]. rewrite lslice_eq by lia. cbn [mbind option_bind].
    rewrite (take_ge (drop _ data)) by (rewrite length_drop; lia).
    rewrite lcopy_eq by (rewrite length_drop; lia). cbn [mbind option_bind].
    destruct (div_mod_64 (length (msg ++ data)) (q + (1 + n)) r) as [Ediv Emod]; [rewrite length_app; lia|lia|].
    eexists. split; [done|]. split; cbn [state count buffer].
    + f_equal. rewrite Ediv, blocks_add, (blocks_app compress q) by lia. cbn [Nat.add blocks].
      rewrite drop_app_le, take_app, (take_ge (drop _ _)), drop_app_ge by (rewrite ?length_drop; lia).
      rewrite length_drop. replace (64 - (length msg - 64 * q))%nat with (64 - j)%nat by lia. done.
    + done.
    + rewrite !length_app, length_drop, length_take, length_drop. lia.
    + rewrite Emod, Ediv. rewrite take_0, app_nil_l. rewrite take_app_le by (rewrite length_drop; lia).
      rewrite take_ge by (rewrite length_drop; lia). rewrite drop_app_ge by (rewrite ?length_drop; lia).
      f_equal. lia.
  - cbn [mbind option_bind]. rewrite lslice_eq by lia. cbn [mbind option_bind].
    rewrite drop_0, Nat.sub_0_r, firstn_all.
    rewrite lcopy_eq by lia. cbn [mbind option_bind].
    destruct (div_mod_64 (length (msg ++ data)) q (j + length data)) as [Ediv Emod]; [rewrite length_app; lia|lia|].
    eexists. split; [done|]. split; cbn [state count buffer].
    + by rewrite Ediv, blocks_app, Hs by lia.
    + done.
    + rewrite !length_app, length_drop, length_take. lia.
    + rewrite Emod, Ediv, Ht, app_assoc, take_app_le, take_ge by (rewrite !length_app, ?length_drop; lia).
      by rewrite drop_app_le by lia.
Qed.

(** ** The end of a message *)

Lemma u32_bits_mod64 L : Z.land (u32 (8 * L)) 504 = 8 * (L mod 64).
Proof.
  change 504 with (Z.shiftl (Z.ones 6) 3). apply Z.bits_inj'. intros i Hi.
  replace (8 * (L mod 64)) with (Z.shiftl (Z.land L (Z.ones 6)) 3)
    by (rewrite Z.shiftl_mul_pow2, Z.land_ones by lia; change (2 ^ 6) with 64; lia).
  replace (8 * L) with (Z.shiftl L 3) by (rewrite Z.shiftl_mul_pow2 by lia; lia).
  rewrite Z.land_spec, u32_testbit, !Z.shiftl_spec, Z.land_spec by done.
  destruct (Z.ltb_spec i 32); [done|]. rewrite (testbit_high (Z.ones 6) 6), !andb_false_r by (change (Z.ones 6) with 63; lia). done.
Qed.

(** The test of the padding loop *)
Lemma pad_test ctx msg : holds ctx msg ->
  (Z.land (count ctx).1 504 =? 448) = (zlen msg mod 64 =? 56).
Proof. intros [_ Hc _ _]. rewrite Hc. cbn [fst]. rewrite u32_bits_mod64. zbool; lia. Qed.

Lemma pad_holds n : forall fuel ctx msg, holds ctx msg -> Forall is_byte msg ->
  n = Z.to_nat ((56 - zlen msg) mod 64) -> (n < fuel)%nat ->
  exists ctx', sha1_pad fuel ctx = Some ctx' /\ holds ctx' (msg ++ replicate n 0).
Proof.
  induction n as [|n IH]; intros [|fuel] ctx msg H Hb Hn Hf; try lia; cbn [sha1_pad];
    rewrite (pad_test ctx msg H).
  - destruct (Z.eqb_spec (zlen msg mod 64) 56) as [|E]; cbn [negb].
    + exists ctx. by rewrite app_nil_r.
    + exfalso. apply E. revert Hn. Z.to_euclidean_division_equations. lia.
  - destruct (Z.eqb_spec (zlen msg mod 64) 56) as [E|E]; cbn [negb].
    + exfalso. revert Hn. Z.to_euclidean_division_equations. lia.
    + assert (Hb' : Forall is_byte (msg ++ [0])) by (apply Forall_app; split; [done|by repeat constructor]).
      destruct (update_holds ctx msg [0]) as (ctx1 & -> & H1); [done..|]. cbn [mbind option_bind].
      destruct (IH fuel ctx1 (msg ++ [0])) as (ctx2 & E2 & H2); [done|done| |lia|].
      * unfold zlen in *. rewrite length_app. cbn [length]. revert Hn E. Z.to_euclidean_division_equations. lia.
      * exists ctx2. split; [done|]. by rewrite <- app_assoc in H2.
Qed.

Lemma word_byte_eq ws i k : 0 <= k <= 3 -> 0 <= i ->
  word_byte ws (4 * i + k) = zget ws i / 256 ^ (3 - k) mod 256.
Proof.
  intros Hk Hi. unfold word_byte. replace (Z.shiftr (4 * i + k) 2) with i
    by (rewrite Z.shiftr_div_pow2 by lia; change (2 ^ 2) with 4; Z.to_euclidean_division_equations; lia).
  change 3 with (Z.ones 2) at 2. rewrite Z.land_ones by lia.
  replace ((4 * i + k) mod 2 ^ 2) with k by (change (2 ^ 2) with 4; Z.to_euclidean_division_equations; lia).
  change 255 with (Z.ones 8). rewrite Z.land_ones, Z.shiftr_div_pow2 by lia.
  change 256 with (2 ^ 8). by rewrite <- Z.pow_mul_r, (Z.mul_comm 8) by lia.
Qed.

Lemma digest_eq H :
  map (fun i => word_byte (words5 H) (Z.of_nat i)) (seq 0 PJ_SHA1_DIGEST_SIZE) = words5 H ≫= be_bytes 4.
Proof.
  destruct H as [[[[a b] c] d] e].
  assert (E : forall i, be_bytes 4 (zget (words5 (a, b, c, d, e)) i) =
    map (fun k => zget (words5 (a, b, c, d, e)) i / 256 ^ (3 - Z.of_nat k) mod 256) (seq 0 4)) by done.
  change (words5 (a, b, c, d, e) ≫= be_bytes 4) with
    (map (fun i => zget (words5 (a, b, c, d, e)) (Z.of_nat i)) (seq 0 5) ≫= be_bytes 4).
  cbn [map seq mbind list_bind]. rewrite !E. cbn [map seq app PJ_SHA1_DIGEST_SIZE].
  rewrite <- !word_byte_eq by lia. reflexivity.
Qed.

Lemma finalcount_eq L : 0 <= L < 2 ^ 61 ->
  map (fun i => word_byte [u32 (8 * L / 4294967296); u32 (8 * L)] (Z.of_nat i)) (seq 0 8) = be_bytes 8 (8 * L).
Proof.
  intros HL. set (x := 8 * L). assert (Hx : 0 <= x < 2 ^ 64) by (subst x; lia).
  rewrite (u32_id (x / 4294967296)) by (unfold is_u32; split; [apply Z.div_pos; lia|apply Z.div_lt_upper_bound; lia]).
  assert (E0 : forall k, 0 <= k <= 3 -> word_byte [x / 4294967296; u32 x] (0 + k) = x / 256 ^ (7 - k) mod 256).
  { intros k Hk. rewrite (word_byte_eq _ 0) by lia. cbn [zget]. change (zget _ 0) with (x / 256 ^ 4).
    rewrite Z.div_div, <- Z.pow_add_r by lia. do 3 f_equal. lia. }
  assert (E1 : forall k, 0 <= k <= 3 -> word_byte [x / 4294967296; u32 x] (4 + k) = x / 256 ^ (3 - k) mod 256).
  { intros k Hk. rewrite (word_byte_eq _ 1) by lia. change (zget _ 1) with (x mod 4294967296).
    assert (k = 0 \/ k = 1 \/ k = 2 \/ k = 3) as Hc by lia. clear HL. clearbody x.
    destruct_or!; subst k; [change (256 ^ (3 - 0)) with 16777216|change (256 ^ (3 - 1)) with 65536
      |change (256 ^ (3 - 2)) with 256|change (256 ^ (3 - 3)) with 1]; Z.to_euclidean_division_equations; lia. }
  transitivity (map (fun i => x / 256 ^ (7 - i) mod 256) [0; 1; 2; 3; 4 + (0 - 0); 4 + 1; 4 + 2; 4 + 3]); [|reflexivity].
  assert (E1' : forall k, 0 <= k <= 3 -> word_byte [x / 4294967296; u32 x] (4 + k) = x / 256 ^ (7 - (4 + k)) mod 256).
  { intros k Hk. rewrite E1 by done. do 3 f_equal. lia. }
  cbn [map seq].
  rewrite <- (E0 0), <- (E0 1), <- (E0 2), <- (E0 3), <- (E1' 1), <- (E1' 2), <- (E1' 3), <- (E1' (0 - 0)) by lia. done.
Qed.

Definition wiped : pj_sha1_context := mk_sha1 (replicate 5 0) (0, 0) (replicate 64 0).

Lemma be_bytes_byte n x : Forall is_byte (be_bytes n x).
Proof. apply Forall_map, Forall_true. intros i. apply Z.mod_pos_bound. lia. Qed.

Lemma reference_length msg : length (sha1_reference msg) = 20%nat.
Proof. unfold sha1_reference. by destruct (blocks compress _ _ _) as [[[[a b] c] d] e]. Qed.

Lemma reference_bytes msg : Forall is_byte (sha1_reference msg).
Proof. unfold sha1_reference. apply Forall_bind, Forall_true. intros x. apply be_bytes_byte. Qed.

Lemma final_spec ctx msg : holds ctx msg -> Forall is_byte msg -> zlen msg < 2 ^ 61 ->
  pj_sha1_final ctx = Some (wiped, sha1_reference msg).
Proof.
  intros H Hb Hlen. unfold pj_sha1_final. pose proof H as [_ Hc _ _].
  rewrite Hc. cbn [fst snd]. rewrite finalcount_eq by (unfold zlen in *; lia).
  destruct (update_holds ctx msg [128]) as (c1 & -> & H1); [done| |done|].
  { apply Forall_app. split; [done|by repeat constructor]. }
  cbn [mbind option_bind].
  destruct (pad_holds (Z.to_nat ((55 - zlen msg) mod 64)) 64 c1 (msg ++ [128])) as (c2 & -> & H2);
    [done| | |pose proof (Z.mod_pos_bound (55 - zlen msg) 64); lia|].
  { apply Forall_app. split; [done|by repeat constructor]. }
  { do 2 f_equal. unfold zlen. rewrite length_app. cbn [length]. lia. }
  cbn [mbind option_bind].
  destruct (update_holds c2 _ (be_bytes 8 (8 * zlen msg)) H2) as (c3 & -> & H3).
  { repeat (apply Forall_app; split); [done|by repeat constructor| |apply be_bytes_byte].
    apply Forall_replicate. by unfold is_byte. }
  { done. }
  cbn [mbind option_bind]. destruct H3 as [Hs3 _ _ _]. rewrite Hs3, digest_eq, <- !app_assoc. done.
Qed.

Fixpoint sha1_feed (ctx : pj_sha1_context) (chunks : list (list Z)) : option pj_sha1_context :=
  match chunks with
  | [] => Some ctx
  | c :: chunks => ctx ← pj_sha1_update ctx c; sha1_feed ctx chunks
  end.

(** The pieces of a message: bytes, each shorter than half a gigabyte *)
Definition pieces_ok (chunks : list (list Z)) : Prop :=
  Forall (fun c => Forall is_byte c /\ zlen c < 2 ^ 29) chunks /\ zlen (concat chunks) < 2 ^ 60.

Lemma feed_holds chunks : forall ctx msg, Forall (fun c => Forall is_byte c /\ zlen c < 2 ^ 29) chunks ->
  Forall is_byte msg -> holds ctx msg ->
  exists ctx', sha1_feed ctx chunks = Some ctx' /\ holds ctx' (msg ++ concat chunks).
Proof.
  induction chunks as [|c chunks IH]; intros ctx msg Hc Hm H; cbn [sha1_feed concat].
  - exists ctx. by rewrite app_nil_r.
  - apply Forall_cons in Hc as [[Hb Hl] Hc].
    destruct (update_holds ctx msg c) as (c1 & -> & H1); [done|by apply Forall_app|done|]. cbn [mbind option_bind].
    rewrite app_assoc. apply IH; [done|by apply Forall_app|done].
Qed.

Lemma pieces_bytes chunks : pieces_ok chunks -> Forall is_byte (concat chunks).
Proof. intros [H _]. apply Forall_concat. eapply Forall_impl; [exact H|]. by intros c []. Qed.

(** The digest of any sequence of updates, whatever the context's buffer held
    before, is the digest that FIPS 180-1 defines for the whole message (as long as
    no update has 2^29 bytes), and the context is wiped. *)
Theorem sha1_digest (garbage : list Z) (chunks : list (list Z)) :
  length garbage = 64%nat -> pieces_ok chunks ->
  (ctx ← sha1_feed (pj_sha1_init garbage) chunks; pj_sha1_final ctx) =
    Some (wiped, sha1_reference (concat chunks)).
Proof.
  intros Hg Hc. destruct (feed_holds chunks (pj_sha1_init garbage) []) as (ctx & -> & H);
    [apply Hc|done|by apply init_holds|].
  cbn [mbind option_bind]. apply final_spec; [done|by apply pieces_bytes|]. destruct Hc. unfold zlen in *. cbn [app]. lia.
Qed.

Lemma sha1_digest_witness :
  (ctx ← sha1_feed (pj_sha1_init (replicate 64 7)) [[97]; []; [98; 99]]; pj_sha1_final ctx) =
    Some (wiped, sha1_reference [97; 98; 99]) /\
  take 4 (sha1_reference [97; 98; 99]) = [0xA9; 0x99; 0x3E; 0x36].
Proof.
  split; [|vm_compute; reflexivity].
  apply (sha1_digest (replicate 64 7) [[97]; []; [98; 99]]); [done|].
  split; [|done]. repeat constructor; cbn; lia.
Defined.

(** ** HMAC *)

Fixpoint hmac_feed (ctx : pj_hmac_sha1_context) (chunks : list (list Z)) : option pj_hmac_sha1_context :=
  match chunks with
  | [] => Some ctx
  | c :: chunks => ctx ← pj_hmac_sha1_update ctx c; hmac_feed ctx chunks
  end.

Lemma hmac_feed_eq chunks : forall ctx,
  hmac_feed ctx chunks = (c ← sha1_feed (context ctx) chunks; Some (mk_hmac c (k_opad ctx))).
Proof.
  induction chunks as [|c chunks IH]; intros [ctx ko]; cbn [hmac_feed sha1_feed context]; [done|].
  unfold pj_hmac_sha1_update. cbn [context k_opad]. destruct (pj_sha1_update ctx c) as [c1|]; [|done].
  cbn [mbind option_bind]. by rewrite IH.
Qed.

Definition hmac_key (key : list Z) : list Z :=
  let key := if (64 <? length key)%nat then sha1_reference key else key in
  key ++ replicate (64 - length key) 0.

Lemma hmac_key_ok key : Forall is_byte key -> length (hmac_key key) = 64%nat /\ Forall is_byte (hmac_key key).
Proof.
  intros Hb. unfold hmac_key. destruct (Nat.ltb_spec 64 (length key)).
  - rewrite length_app, length_replicate, reference_length. split; [done|].
    apply Forall_app. split; [apply reference_bytes|]. by apply Forall_replicate.
  - rewrite length_app, length_replicate. split; [lia|].
    apply Forall_app. split; [done|]. by apply Forall_replicate.
Qed.

Lemma pad_key key c : (length key <= 64)%nat ->
  lcopy (replicate 64 0) 0 key = Some (key ++ replicate (64 - length key) 0) /\
  length (map (fun b => Z.lxor b c) (key ++ replicate (64 - length key) 0)) = 64%nat.
Proof.
  intros H. split; [|rewrite length_map, length_app, length_replicate; lia].
  rewrite lcopy_eq by (rewrite length_replicate; lia). by rewrite take_0, drop_replicate.
Qed.

Lemma xor_bytes c l : is_byte c -> Forall is_byte l -> Forall is_byte (map (fun b => Z.lxor b c) l).
Proof. intros Hc H. apply Forall_map. eapply Forall_impl; [exact H|]. intros b Hb. by apply lxor_byte. Qed.

Lemma hmac_init_spec garbage key : length garbage = 64%nat -> Forall is_byte key -> zlen key < 2 ^ 29 ->
  exists ctx, pj_hmac_sha1_init garbage key =
    Some (mk_hmac ctx (map (fun b => Z.lxor b 0x5c) (hmac_key key))) /\
    holds ctx (map (fun b => Z.lxor b 0x36) (hmac_key key)).
Proof.
  intros Hg Hb Hl. unfold pj_hmac_sha1_init.
  assert (E : (if (64 <? length key)%nat
     then tctx ← pj_sha1_update (pj_sha1_init garbage) key; '(_, tk) ← pj_sha1_final tctx; Some tk
     else Some key) = Some (if (64 <? length key)%nat then sha1_reference key else key)).
  { destruct (64 <? length key)%nat; [|done].
    destruct (update_holds (pj_sha1_init garbage) [] key) as (c1 & -> & H1); [by apply init_holds|done..|].
    cbn [mbind option_bind]. cbn [app] in H1. rewrite (final_spec _ _ H1) by (done || lia). done. }
  rewrite E. cbn [mbind option_bind]. set (k := if (64 <? length key)%nat then sha1_reference key else key).
  assert (Hk : (length k <= 64)%nat).
  { subst k. destruct (Nat.ltb_spec 64 (length key)); [rewrite reference_length|]; lia. }
  destruct (pad_key k 0 Hk) as [-> _]. cbn [mbind option_bind].
  assert (Ek : k ++ replicate (64 - length k) 0 = hmac_key key) by done. rewrite Ek.
  destruct (hmac_key_ok key Hb) as [Hkl Hkb].
  destruct (update_holds (pj_sha1_init garbage) [] (map (fun b => Z.lxor b 0x36) (hmac_key key))) as (c1 & -> & H1).
  - by apply init_holds.
  - by apply xor_bytes.
  - unfold zlen. rewrite length_map, Hkl. done.
  - by exists c1.
Qed.

Lemma hmac_correct (garbage key : list Z) (chunks : list (list Z)) :
  length garbage = 64%nat -> Forall is_byte key -> zlen key < 2 ^ 29 -> pieces_ok chunks ->
  (ctx ← pj_hmac_sha1_init garbage key; ctx ← hmac_feed ctx chunks; r ← pj_hmac_sha1_final ctx; Some r.2) =
    Some (hmac_reference key (concat chunks)).
Proof.
  intros Hg Hb Hl Hc. destruct (hmac_init_spec garbage key) as (c0 & -> & H0'); [done..|].
  cbn [mbind option_bind]. rewrite hmac_feed_eq. cbn [context k_opad].
  destruct (hmac_key_ok key Hb) as [Hkl Hkb].
  destruct (feed_holds chunks c0 _ (proj1 Hc) (xor_bytes 0x36 _ ltac:(by vm_compute) Hkb) H0') as (c1 & -> & H1).
  cbn [mbind option_bind]. unfold pj_hmac_sha1_final. cbn [context k_opad].
  assert (Hbt : Forall is_byte (map (fun b => Z.lxor b 54) (hmac_key key) ++ concat chunks)).
  { apply Forall_app. split; [by apply xor_bytes|by apply pieces_bytes]. }
  assert (Hlt : zlen (map (fun b => Z.lxor b 54) (hmac_key key) ++ concat chunks) < 2 ^ 61).
  { destruct Hc as [_ Hc]. unfold zlen in *. rewrite length_app, length_map, Hkl. lia. }
  rewrite (final_spec _ _ H1) by done. cbn [mbind option_bind].
  assert (Ho : Forall is_byte (map (fun b => Z.lxor b 92) (hmac_key key))) by (by apply xor_bytes).
  destruct (update_holds (pj_sha1_init (buffer wiped)) [] (map (fun b => Z.lxor b 92) (hmac_key key)))
    as (c2 & -> & H2); [by apply init_holds|done|unfold zlen; rewrite length_map, Hkl; done|].
  cbn [mbind option_bind].
  destruct (update_holds c2 _ (sha1_reference (map (fun b => Z.lxor b 54) (hmac_key key) ++ concat chunks)) H2)
    as (c3 & -> & H3); [apply Forall_app; split; [done|apply reference_bytes]|unfold zlen; rewrite reference_length; done|].
  cbn [mbind option_bind]. rewrite (final_spec _ _ H3); [done| |].
  - apply Forall_app; split; [done|apply reference_bytes].
  - unfold zlen. cbn [app]. rewrite length_app, reference_length, length_map, Hkl. done.
Qed.

(** pj_hmac_sha1_init, any sequence of updates and pj_hmac_sha1_final compute the
    HMAC of RFC 2104 with SHA-1 of the whole text, for keys shorter and longer than
    a block. *)
Theorem hmac_sha1_digest (garbage key : list Z) (chunks : list (list Z)) :
  length garbage = 64%nat -> Forall is_byte key -> zlen key < 2 ^ 29 -> pieces_ok chunks ->
  (ctx ← pj_hmac_sha1_init garbage key; ctx ← hmac_feed ctx chunks; r ← pj_hmac_sha1_final ctx; Some r.2) =
    Some (hmac_reference key (concat chunks)).
Proof. exact (hmac_correct garbage key chunks). Qed.

Lemma hmac_sha1_digest_witness :
  (ctx ← pj_hmac_sha1_init (replicate 64 0) (replicate 20 11); ctx ← hmac_feed ctx [[72; 105]; [32]];
   r ← pj_hmac_sha1_final ctx; Some r.2) = Some (hmac_reference (replicate 20 11) [72; 105; 32]).
Proof.
  apply (hmac_sha1_digest (replicate 64 0) (replicate 20 11) [[72; 105]; [32]]);
    [done|by apply Forall_replicate|done|]. split; [repeat constructor; cbn; lia|done].
Defined.
