(* ===== verification/Md5Props.v ===== *)
(** * MD5: the digest is that of RFC 1321 *)

From S2P Require Import Prelude Words Digest Sha1 Sha1Props Md5.

(** ** The definitions of RFC 1321 *)

Definition md5_F (x y z : Z) : Z := Z.lor (Z.land x y) (Z.land (Z.lnot x) z).
Definition md5_G (x y z : Z) : Z := Z.lor (Z.land x z) (Z.land y (Z.lnot z)).
Definition md5_H (x y z : Z) : Z := Z.lxor (Z.lxor x y) z.
Definition md5_I (x y z : Z) : Z := Z.lxor y (Z.lor x (Z.lxor z 0xFFFFFFFF)).

Definition md5_op (i : nat) : Z -> Z -> Z -> Z :=
  match (i / 16)%nat with O => md5_F | 1%nat => md5_G | 2%nat => md5_H | _ => md5_I end.

(** The word of the block that step [i] uses *)
Definition md5_k (i : nat) : nat :=
  match (i / 16)%nat with O => i mod 16 | 1%nat => (5 * i + 1) mod 16 | 2%nat => (3 * i + 5) mod 16 | _ => (7 * i) mod 16 end.

Definition md5_shift (i : nat) : Z :=
  zget (match (i / 16)%nat with O => [7; 12; 17; 22] | 1%nat => [5; 9; 14; 20] | 2%nat => [4; 11; 16; 23] | _ => [6; 10; 15; 21] end)
    (Z.of_nat (i mod 4)).

(** The table of sines of the RFC: the constants are those of the code *)
Definition md5_T (i : nat) : Z :=
  zget (map (fun s : nat * Z * Z => s.1.2) (md5_steps1 ++ md5_steps2 ++ md5_steps3 ++ md5_steps4)) (Z.of_nat i).

Definition hash4 : Type := Z * Z * Z * Z.

Definition md5_ref_round (X : list Z) (s : hash4) (i : nat) : hash4 :=
  let '(a, b, c, d) := s in
  (d, u32 (b + ROTL (md5_shift i) (u32 (a + md5_op i b c d + zget X (Z.of_nat (md5_k i)) + md5_T i))), b, c).

Definition md5_compress (H : hash4) (M : list Z) : hash4 :=
  let '(h0, h1, h2, h3) := H in
  let '(a, b, c, d) := fold_left (md5_ref_round (words_of M)) (seq 0 64) H in
  (u32 (h0 + a), u32 (h1 + b), u32 (h2 + c), u32 (h3 + d)).

Definition md5_H0 : hash4 := (0x67452301, 0xefcdab89, 0x98badcfe, 0x10325476).

Definition le_bytes (n : nat) (x : Z) : list Z := map (fun i => x / 256 ^ Z.of_nat i mod 256) (seq 0 n).

Definition md5_pad (msg : list Z) : list Z :=
  msg ++ [128] ++ replicate (Z.to_nat ((55 - zlen msg) mod 64)) 0 ++ le_bytes 8 (8 * zlen msg).

Definition words4 (H : hash4) : list Z := let '(a, b, c, d) := H in [a; b; c; d].

Definition md5_reference (msg : list Z) : list Z :=
  words4 (blocks md5_compress (length (md5_pad msg) / 64) md5_H0 (md5_pad msg)) ≫= le_bytes 4.

(** ** The steps *)

Lemma fold_left_map {A B C} (f : A -> B -> A) (g : C -> B) l : forall a,
  fold_left f (map g l) a = fold_left (fun a x => f a (g x)) l a.
Proof. induction l as [|x l IH]; intros a; [done|]. cbn [map fold_left]. apply IH. Qed.

Lemma fold_left_ext {A B} (f g : A -> B -> A) l : (forall x a, In x l -> f a x = g a x) -> forall a,
  fold_left f l a = fold_left g l a.
Proof.
  induction l as [|x l IH]; intros H a; [done|]. cbn [fold_left]. rewrite H by (by left). apply IH.
  intros y b Hy. apply H. by right.
Qed.

Lemma F1_eq x y z : F1 x y z = md5_F x y z.
Proof.
  unfold F1, md5_F. apply Z.bits_inj'. intros i Hi.
  rewrite !Z.lxor_spec, Z.lor_spec, !Z.land_spec, Z.lxor_spec, Z.lnot_spec by done.
  by destruct (Z.testbit x i), (Z.testbit y i), (Z.testbit z i).
Qed.

Lemma F2_eq x y z : F2 x y z = md5_G x y z.
Proof.
  unfold F2, F1, md5_G. apply Z.bits_inj'. intros i Hi.
  rewrite !Z.lxor_spec, Z.lor_spec, !Z.land_spec, Z.lxor_spec, Z.lnot_spec by done.
  by destruct (Z.testbit x i), (Z.testbit y i), (Z.testbit z i).
Qed.

Lemma md5_stage f (X : list Z) a n steps s :
  steps = map (fun i => (md5_k i, md5_T i, md5_shift i)) (seq a n) ->
  (forall i x y z, (a <= i < a + n)%nat -> f x y z = md5_op i x y z) ->
  fold_left (md5_round f X) steps s = fold_left (md5_ref_round X) (seq a n) s.
Proof.
  intros -> Hf. rewrite fold_left_map. apply fold_left_ext. intros i [[[w x] y] z] Hin. apply in_seq in Hin.
  unfold md5_round, md5_ref_round, MD5STEP. rewrite (Hf i) by lia. unfold ROTL.
  assert (E : u32 (w + u32 (md5_op i x y z + u32 (zget X (Z.of_nat (md5_k i)) + md5_T i))) =
    u32 (w + md5_op i x y z + zget X (Z.of_nat (md5_k i)) + md5_T i)).
  { unfold u32. rewrite !Z.add_mod_idemp_r by lia. rewrite Z.add_assoc, Z.add_mod_idemp_r by lia. f_equal. lia. }
  rewrite E. do 3 f_equal. unfold u32. f_equal. lia.
Qed.

Lemma md5_transform_spec H M : MD5Transform (words4 H) (words_of M) = Some (words4 (md5_compress H M)).
Proof.
  destruct H as [[[h0 h1] h2] h3]. unfold MD5Transform, words4 at 1, md5_compress.
  change (seq 0 64) with (seq 0 16 ++ seq 16 16 ++ seq 32 16 ++ seq 48 16). rewrite !fold_left_app.
  assert (D : forall g a i, (g * 16 = a)%nat -> (a <= i < a + 16)%nat -> (i / 16)%nat = g).
  { intros g a i <- Hi. symmetry. apply (Nat.div_unique _ 16 _ (i - g * 16)); lia. }
  rewrite (md5_stage F1 _ 0 16) by (first [vm_compute; reflexivity|intros i x y z Hi; unfold md5_op; rewrite (D 0%nat 0%nat i) by lia; apply F1_eq]).
  rewrite (md5_stage F2 _ 16 16) by (first [vm_compute; reflexivity|intros i x y z Hi; unfold md5_op; rewrite (D 1%nat 16%nat i) by lia; apply F2_eq]).
  rewrite (md5_stage F3 _ 32 16) by (first [vm_compute; reflexivity|intros i x y z Hi; unfold md5_op; rewrite (D 2%nat 32%nat i) by lia; done]).
  rewrite (md5_stage F4 _ 48 16) by (first [vm_compute; reflexivity|intros i x y z Hi; unfold md5_op; rewrite (D 3%nat 48%nat i) by lia; done]).
  by destruct (fold_left _ (seq 48 16) _) as [[[a b] c] d].
Qed.

(** ** Updates *)

Lemma md5_blocks_spec n : forall fuel H inb data, n = (length data / 64)%nat -> (n < fuel)%nat -> length inb = 64%nat ->
  exists inb', md5_blocks fuel (words4 H) inb data = Some (words4 (blocks md5_compress n H data), inb', drop (64 * n) data) /\
    length inb' = 64%nat.
Proof.
  induction n as [|n IH]; intros [|fuel] H inb data Hn Hf Hl; try lia; cbn [md5_blocks blocks];
    pose proof (Nat.div_mod_eq (length data) 64); pose proof (Nat.mod_upper_bound (length data) 64 ltac:(lia)).
  - destruct (Nat.leb_spec 64 (length data)); [lia|]. by exists inb.
  - destruct (Nat.leb_spec 64 (length data)); [|lia].
    rewrite lslice_eq by lia. cbn [mbind option_bind]. rewrite drop_0.
    rewrite lcopy_eq by (rewrite length_take; lia). cbn [mbind option_bind].
    rewrite take_0, app_nil_l, (drop_ge inb), app_nil_r by (rewrite length_take; lia).
    rewrite md5_transform_spec. cbn [mbind option_bind].
    destruct (IH fuel (md5_compress H (take 64 data)) (take 64 data) (drop 64 data)) as (inb' & -> & Hl').
    + rewrite length_drop. apply (Nat.div_unique _ 64 _ (length data mod 64)); lia.
    + lia.
    + rewrite length_take. lia.
    + exists inb'. rewrite drop_drop. split; [|done]. do 2 f_equal. f_equal. lia.
Qed.

(** A context after the message [msg] *)
Record md5_holds (ctx : pj_md5_context) (msg : list Z) : Prop := {
  mh_buf : md5_buf ctx = words4 (blocks md5_compress (length msg / 64) md5_H0 msg);
  mh_bits : md5_bits ctx = (u32 (8 * zlen msg), u32 (8 * zlen msg / 4294967296));
  mh_in : length (md5_in ctx) = 64%nat;
  mh_tail : take (length msg mod 64) (md5_in ctx) = drop (64 * (length msg / 64)) msg
}.

Lemma md5_count_spec L len : 0 <= L -> 0 <= len < 2 ^ 29 ->
  md5_count (u32 (8 * L), u32 (8 * L / 4294967296)) len =
    (u32 (8 * (L + len)), u32 (8 * (L + len) / 4294967296)).
Proof.
  intros HL Hlen. rewrite <- bit_count_spec by done. unfold md5_count, sha1_count. cbn [fst snd].
  rewrite (u32_id len) by (unfold is_u32; lia). set (t := u32 (8 * L)).
  assert (Hs : u32 (Z.shiftl len 3) = Z.shiftl len 3) by (apply u32_id; unfold is_u32; rewrite Z.shiftl_mul_pow2; lia).
  rewrite Hs. do 3 f_equal. pose proof (u32_range (8 * L)) as Ht. fold t in Ht.
  assert (Hl : 0 <= Z.shiftl len 3 < 4294967296) by (rewrite Z.shiftl_mul_pow2; lia).
  assert (E : (u32 (t + Z.shiftl len 3) <? t) = (u32 (t + Z.shiftl len 3) <? Z.shiftl len 3)).
  { unfold u32. zbool; try done; exfalso; Z.to_euclidean_division_equations; lia. }
  by rewrite E.
Qed.

Lemma md5_init_holds garbage : length garbage = 64%nat -> md5_holds (pj_md5_init garbage) [].
Proof. intros H. by split. Qed.

(** What is fed after whole blocks *)
Lemma md5_rest_holds bits H0' inb msg data q :
  length inb = 64%nat -> length msg = (64 * q)%nat -> H0' = blocks md5_compress q md5_H0 msg ->
  bits = (u32 (8 * zlen (msg ++ data)), u32 (8 * zlen (msg ++ data) / 4294967296)) ->
  exists ctx', ('(st, inb, data) ← md5_blocks (S (length data)) (words4 H0') inb data;
    inb ← lcopy inb 0 data; Some (mk_md5 st bits inb)) = Some ctx' /\ md5_holds ctx' (msg ++ data).
Proof.
  intros Hl Hm -> ->. set (n := (length data / 64)%nat).
  pose proof (Nat.div_mod_eq (length data) 64) as Dd. pose proof (Nat.mod_upper_bound (length data) 64 ltac:(lia)) as Ud.
  fold n in Dd. set (r := (length data mod 64)%nat) in *.
  destruct (md5_blocks_spec n (S (length data)) (blocks md5_compress q md5_H0 msg) inb data) as (inb' & -> & Hl'); [done|lia|done|].
  cbn [mbind option_bind]. rewrite lcopy_eq by (rewrite length_drop; lia). cbn [mbind option_bind].
  destruct (div_mod_64 (length (msg ++ data)) (q + n) r) as [Ediv Emod]; [rewrite length_app; lia|lia|].
  eexists. split; [done|]. split; cbn [md5_buf md5_bits md5_in].
  - rewrite Ediv, blocks_add, blocks_app, drop_app_ge by lia. do 2 f_equal. by rewrite Hm, Nat.sub_diag, drop_0.
  - done.
  - rewrite take_0, app_nil_l, length_app, !length_drop. lia.
  - rewrite Emod, Ediv, take_0, app_nil_l, take_app_le, take_ge by (rewrite length_drop; lia).
    rewrite drop_app_ge by lia. f_equal. lia.
Qed.

Lemma md5_update_holds ctx msg data : md5_holds ctx msg -> zlen data < 2 ^ 29 ->
  exists ctx', pj_md5_update ctx data = Some ctx' /\ md5_holds ctx' (msg ++ data).
Proof.
  intros [Hs Hc Hl Ht] Hlen. unfold pj_md5_update. rewrite Hc. cbn [fst]. change 0x3f with 63. rewrite position_spec.
  rewrite md5_count_spec by (unfold zlen in *; lia).
  assert (Ez : zlen msg + zlen data = zlen (msg ++ data)) by (unfold zlen; rewrite length_app; lia). rewrite Ez.
  pose proof (Nat.div_mod_eq (length msg) 64) as Dm. pose proof (Nat.mod_upper_bound (length msg) 64 ltac:(lia)) as Um.
  set (q := (length msg / 64)%nat) in *. set (t := (length msg mod 64)%nat) in *.
  destruct (Nat.eqb_spec t 0) as [E0|E0]; cbn [negb].
  - rewrite Hs. apply (md5_rest_holds _ _ _ _ _ q); [done|lia|done|done].
  - destruct (Nat.ltb_spec (length data) (64 - t)).
    + rewrite lcopy_eq by lia. cbn [mbind option_bind].
      destruct (div_mod_64 (length (msg ++ data)) q (t + length data)) as [Ediv Emod]; [rewrite length_app; lia|lia|].
      eexists. split; [done|]. split; cbn [md5_buf md5_bits md5_in].
      * by rewrite Ediv, blocks_app, Hs by lia.
      * done.
      * rewrite !length_app, length_take, length_drop. lia.
      * rewrite Emod, Ediv, Ht, app_assoc, take_app_le, take_ge by (rewrite !length_app, ?length_drop; lia).
        by rewrite drop_app_le by lia.
    + rewrite lslice_eq by lia. cbn [mbind option_bind]. rewrite drop_0.
      rewrite lcopy_eq by (rewrite length_take; lia). cbn [mbind option_bind].
      rewrite (drop_ge (md5_in ctx)), app_nil_r, Ht, Hs, md5_transform_spec by (rewrite length_take; lia). cbn [mbind option_bind].
      assert (Em : msg ++ data = (msg ++ take (64 - t) data) ++ drop (64 - t) data) by (by rewrite <- app_assoc, take_drop).
      rewrite Em. apply (md5_rest_holds _ _ _ _ _ (S q)); [| | |done].
      * rewrite length_app, length_drop, length_take. lia.
      * rewrite length_app, length_take. lia.
      * replace (S q) with (q + 1)%nat by lia. rewrite blocks_add, blocks_app by lia. cbn [blocks].
        rewrite drop_app_le by lia. rewrite take_app, (take_ge (drop (64 * q) msg)) by (rewrite length_drop; lia).
        rewrite length_drop, take_take. do 3 f_equal. lia.
Qed.

(** *** The last blocks *)

Lemma store_le_bytes x : store_le32 (u32 x) = le_bytes 4 x.
Proof.
  unfold store_le32, le_bytes, u32. cbn [map seq Z.of_nat]. change 0xff with (Z.ones 8).
  rewrite !Z.land_ones, !Z.shiftr_div_pow2 by lia.
  repeat match goal with |- context [256 ^ ?k] => let v := eval vm_compute in (256 ^ k) in change (256 ^ k) with v end.
  repeat match goal with |- context [2 ^ ?k] => let v := eval vm_compute in (2 ^ k) in change (2 ^ k) with v end.
  rewrite Z.div_1_r. repeat (apply (f_equal2 cons); [Z.to_euclidean_division_equations; lia|]). done.
Qed.

Lemma le_bytes_8 x : le_bytes 8 x = le_bytes 4 x ++ le_bytes 4 (x / 4294967296).
Proof.
  unfold le_bytes. cbn [map seq app].
  repeat match goal with |- context [256 ^ ?k] => let v := eval vm_compute in (256 ^ k) in change (256 ^ k) with v end.
  rewrite !Z.div_div by lia. done.
Qed.

Lemma le_bytes_length n x : length (le_bytes n x) = n.
Proof. unfold le_bytes. by rewrite length_map, length_seq. Qed.

Lemma le_bytes_byte n x : Forall is_byte (le_bytes n x).
Proof. apply Forall_map, Forall_true. intros i. apply Z.mod_pos_bound. lia. Qed.

(** A state of words is stored as the digest. *)
Lemma digest4_eq H : Forall is_u32 (words4 H) -> lslice (bytes_of (words4 H)) 0 16 = Some (words4 H ≫= le_bytes 4).
Proof.
  destruct H as [[[a b] c] d]. intros HF. cbn [words4] in *. rewrite lslice_eq by (cbn; lia).
  f_equal. unfold bytes_of. rewrite drop_0.
  apply Forall_cons in HF as [Ha HF]. apply Forall_cons in HF as [Hb HF].
  apply Forall_cons in HF as [Hc HF]. apply Forall_cons in HF as [Hd _].
  cbn [mbind list_bind]. rewrite <- !store_le_bytes, !u32_id by done. done.
Qed.

Lemma compress_u32 H M : Forall is_u32 (words4 (md5_compress H M)).
Proof.
  destruct H as [[[h0 h1] h2] h3]. unfold md5_compress. destruct (fold_left _ _ _) as [[[a b] c] d].
  cbn [words4]. repeat constructor; try (apply Z.mod_pos_bound; lia); apply Z.mod_pos_bound; lia.
Qed.

(** The lengths of the message, in bits, stored at the end of a block *)
Lemma put_bits inb x : length inb = 64%nat ->
  (inb ← lcopy inb 56 (store_le32 (u32 x)); lcopy inb 60 (store_le32 (u32 (x / 4294967296)))) =
    Some (take 56 inb ++ le_bytes 8 x).
Proof.
  intros Hl. rewrite !store_le_bytes. replace 60%nat with (56 + length (le_bytes 4 x))%nat by (by rewrite le_bytes_length).
  rewrite lcopy_app, <- le_bytes_8. rewrite lcopy_eq, le_bytes_length, drop_ge by (rewrite ?le_bytes_length; lia).
  by rewrite app_nil_r.
Qed.

Lemma lfill_eq {A} (l : list A) i n x : (i + n <= length l)%nat ->
  lfill l i n x = Some (take i l ++ replicate n x ++ drop (i + n) l).
Proof. intros. unfold lfill. by rewrite decide_True. Qed.

Lemma lwrite_mid {A} (a b : list A) x y : lwrite (a ++ y :: b) (length a) x = Some (a ++ x :: b).
Proof. rewrite lwrite_eq by (rewrite length_app; cbn [length]; lia). f_equal. induction a as [|z a IH]; [done|]. cbn. by f_equal. Qed.

Lemma lfill_mid {A} (a b : list A) i n x : i = length a -> (n <= length b)%nat ->
  lfill (a ++ b) i n x = Some (a ++ replicate n x ++ drop n b).
Proof.
  intros -> Hn. rewrite lfill_eq by (rewrite length_app; lia).
  rewrite take_app_le, take_ge by lia. by rewrite drop_app_add'.
Qed.

Definition md5_wiped : pj_md5_context := mk_md5 (replicate 4 0) (0, 0) (replicate 64 0).

(** The end of pj_md5_final, when the block holds its first 56 bytes *)
Lemma md5_last_block H0' first junk x : length first = 56%nat -> length junk = 8%nat ->
  (inb ← lcopy (first ++ junk) 56 (store_le32 (u32 x));
   inb ← lcopy inb 60 (store_le32 (u32 (x / 4294967296)));
   st ← MD5Transform (words4 H0') (words_of inb);
   digest ← lslice (bytes_of st) 0 16;
   Some (md5_wiped, digest)) =
  Some (md5_wiped, words4 (blocks md5_compress 1 H0' (first ++ le_bytes 8 x)) ≫= le_bytes 4).
Proof.
  intros Hf Hj. pose proof (put_bits (first ++ junk) x ltac:(rewrite length_app; lia)) as E.
  destruct (lcopy _ 56 _) as [inb|]; [|done]. cbn [mbind option_bind] in E |- *. rewrite E. cbn [mbind option_bind].
  rewrite take_app_le, take_ge by lia. rewrite md5_transform_spec. cbn [mbind option_bind blocks].
  rewrite digest4_eq by apply compress_u32. cbn [mbind option_bind].
  by rewrite (take_ge (first ++ _)) by (rewrite length_app, le_bytes_length; lia).
Qed.

Lemma md5_final_spec ctx msg : md5_holds ctx msg -> pj_md5_final ctx = Some (md5_wiped, md5_reference msg).
Proof.
  intros [Hs Hc Hl Ht]. unfold pj_md5_final. rewrite Hc. cbn [fst snd]. change 0x3F with 63. rewrite position_spec.
  pose proof (Nat.div_mod_eq (length msg) 64) as Dm. pose proof (Nat.mod_upper_bound (length msg) 64 ltac:(lia)) as Um.
  unfold md5_reference, md5_pad.
  assert (Ep : (55 - zlen msg) mod 64 = (55 - Z.of_nat (length msg mod 64)) mod 64)
    by (unfold zlen; Z.to_euclidean_division_equations; lia). rewrite Ep.
  set (q := (length msg / 64)%nat) in *. set (t := (length msg mod 64)%nat) in *.
  rewrite <- (take_drop t (md5_in ctx)), Ht.
  assert (Hj : length (drop t (md5_in ctx)) = (64 - t)%nat) by (rewrite length_drop; lia).
  destruct (drop t (md5_in ctx)) as [|j0 junk]; cbn [length] in Hj; [lia|].
  set (tail := drop (64 * q) msg) in *. assert (Htl : length tail = t) by (subst tail; rewrite length_drop; lia).
  rewrite <- Htl at 1. rewrite lwrite_mid. cbn [mbind option_bind].
  assert (Em : msg = take (64 * q) msg ++ tail) by (symmetry; apply take_drop).
  change (128 :: junk) with ([128] ++ junk). rewrite app_assoc, Hs.
  set (H1 := blocks md5_compress q md5_H0 msg).
  assert (Eb : forall k r, blocks md5_compress (q + k) md5_H0 (msg ++ r) = blocks md5_compress k H1 (tail ++ r)).
  { intros k r. rewrite blocks_add, blocks_app by lia. by rewrite drop_app_le by lia. }
  destruct (Nat.ltb_spec (64 - 1 - t) 8).
  - rewrite lfill_mid by (rewrite ?length_app; cbn [length]; lia). cbn [mbind option_bind].
    rewrite md5_transform_spec. cbn [mbind option_bind].
    rewrite lfill_eq by (rewrite !length_app, length_replicate, length_drop; cbn [length]; lia). cbn [mbind option_bind].
    rewrite take_0, app_nil_l, md5_last_block; [|by rewrite length_replicate|rewrite length_drop, !length_app, length_replicate, length_drop; cbn [length]; lia].
    assert (Er : Z.to_nat ((55 - Z.of_nat t) mod 64) = (64 - 1 - t + 56)%nat) by (Z.to_euclidean_division_equations; lia).
    rewrite Er, replicate_add.
    replace (length _ / 64)%nat with (q + (1 + 1))%nat.
    2: { symmetry. apply div_mod_64 with (r := 0%nat); [|lia].
         rewrite !length_app, !length_replicate, le_bytes_length. cbn [length]. lia. }
    rewrite Eb, blocks_add. cbn [blocks Nat.mul Nat.add].
    replace (tail ++ [128] ++ (replicate (64 - 1 - t) 0 ++ replicate 56 0) ++ le_bytes 8 (8 * zlen msg)) with (((tail ++ [128]) ++ replicate (64 - 1 - t) 0) ++ replicate 56 0 ++ le_bytes 8 (8 * zlen msg))
      by (by rewrite <- !app_assoc).
    rewrite drop_app_length', (take_app_length' _ (replicate 56 0 ++ _)) by (rewrite !length_app, length_replicate; cbn [length]; lia).
    rewrite (take_ge (replicate 56 0 ++ _)) by (rewrite length_app, length_replicate, le_bytes_length; lia).
    by rewrite (drop_ge junk), app_nil_r by lia.
  - rewrite lfill_mid by (rewrite ?length_app; cbn [length]; lia). cbn [mbind option_bind].
    rewrite app_assoc, md5_last_block by (rewrite ?length_drop, ?length_app, ?length_replicate; cbn [length]; lia).
    assert (Er : Z.to_nat ((55 - Z.of_nat t) mod 64) = (64 - 1 - t - 8)%nat) by (Z.to_euclidean_division_equations; lia).
    rewrite Er. replace (length _ / 64)%nat with (q + 1)%nat.
    2: { symmetry. apply div_mod_64 with (r := 0%nat); [|lia].
         rewrite !length_app, length_replicate, le_bytes_length. cbn [length]. lia. }
    rewrite Eb. by rewrite <- !app_assoc.
Qed.

(** *** Any sequence of updates *)

Fixpoint md5_feed (ctx : pj_md5_context) (chunks : list (list Z)) : option pj_md5_context :=
  match chunks with
  | [] => Some ctx
  | c :: chunks => ctx ← pj_md5_update ctx c; md5_feed ctx chunks
  end.

Lemma md5_feed_holds chunks : forall ctx msg, Forall (fun c => zlen c < 2 ^ 29) chunks -> md5_holds ctx msg ->
  exists ctx', md5_feed ctx chunks = Some ctx' /\ md5_holds ctx' (msg ++ concat chunks).
Proof.
  induction chunks as [|c chunks IH]; intros ctx msg Hc H; cbn [md5_feed concat].
  - exists ctx. by rewrite app_nil_r.
  - apply Forall_cons in Hc as [Hl Hc].
    destruct (md5_update_holds ctx msg c) as (c1 & -> & H1); [done..|]. cbn [mbind option_bind].
    rewrite app_assoc. by apply IH.
Qed.

Lemma md5_correct garbage chunks : length garbage = 64%nat -> Forall (fun c => zlen c < 2 ^ 29) chunks ->
  (ctx ← md5_feed (pj_md5_init garbage) chunks; pj_md5_final ctx) = Some (md5_wiped, md5_reference (concat chunks)).
Proof.
  intros Hg Hc. destruct (md5_feed_holds chunks (pj_md5_init garbage) []) as (ctx & -> & H); [done|by apply md5_init_holds|].
  by apply md5_final_spec.
Qed.

Lemma md5_reference_length msg : length (md5_reference msg) = 16%nat.
Proof. unfold md5_reference. by destruct (blocks md5_compress _ _ _) as [[[a b] c] d]. Qed.

Lemma md5_reference_bytes msg : Forall is_byte (md5_reference msg).
Proof. unfold md5_reference. apply Forall_bind, Forall_true. intros x. apply le_bytes_byte. Qed.

(** Pj_md5_init, any sequence of updates of less than 2^29 bytes each, whatever
    their lengths, and pj_md5_final never leave the block, compute the MD5 of RFC 1321
    of the whole message and leave a wiped context. *)
Theorem md5_digest (garbage : list Z) (chunks : list (list Z)) :
  length garbage = 64%nat -> Forall (fun c => zlen c < 2 ^ 29) chunks ->
  (ctx ← md5_feed (pj_md5_init garbage) chunks; pj_md5_final ctx) = Some (md5_wiped, md5_reference (concat chunks)).
Proof. exact (md5_correct garbage chunks). Qed.

Lemma md5_digest_witness :
  (ctx ← md5_feed (pj_md5_init (replicate 64 7)) [[97]; []; [98; 99]]; pj_md5_final ctx) =
    Some (md5_wiped, md5_reference [97; 98; 99]) /\
  take 4 (md5_reference [97; 98; 99]) = [0x90; 0x01; 0x50; 0x98].
Proof.
  split; [|vm_compute; reflexivity].
  apply (md5_digest (replicate 64 7) [[97]; []; [98; 99]]); [done|]. by repeat constructor.
Defined.

(** ** HMAC-MD5 *)

Definition hmac_md5_key (key : list Z) : list Z :=
  let key := if (64 <? length key)%nat then md5_reference key else key in
  key ++ replicate (64 - length key) 0.

(** RFC 2104 *)
Definition hmac_md5_reference (key text : list Z) : list Z :=
  let k := hmac_md5_key key in
  md5_reference (map (fun b => Z.lxor b 0x5c) k ++ md5_reference (map (fun b => Z.lxor b 0x36) k ++ text)).

Fixpoint hmac_md5_feed (ctx : pj_hmac_md5_context) (chunks : list (list Z)) : option pj_hmac_md5_context :=
  match chunks with
  | [] => Some ctx
  | c :: chunks => ctx ← pj_hmac_md5_update ctx c; hmac_md5_feed ctx chunks
  end.

Lemma hmac_md5_feed_eq chunks : forall ctx, hmac_md5_feed ctx chunks =
  (c ← md5_feed (hmac_md5_ctx ctx) chunks; Some (mk_hmac_md5 c (hmac_md5_opad ctx))).
Proof.
  induction chunks as [|c chunks IH]; intros [ctx ko]; cbn [hmac_md5_feed md5_feed hmac_md5_ctx]; [done|].
  unfold pj_hmac_md5_update. cbn [hmac_md5_ctx hmac_md5_opad]. destruct (pj_md5_update ctx c) as [c1|]; [|done].
  cbn [mbind option_bind]. by rewrite IH.
Qed.

Lemma hmac_md5_key_length key : length (hmac_md5_key key) = 64%nat.
Proof.
  unfold hmac_md5_key. destruct (Nat.ltb_spec 64 (length key)); rewrite length_app, length_replicate;
    rewrite ?md5_reference_length; lia.
Qed.

Lemma md5_update_first garbage data : length garbage = 64%nat -> zlen data < 2 ^ 29 ->
  exists c, pj_md5_update (pj_md5_init garbage) data = Some c /\ md5_holds c data.
Proof. intros Hg Hl. by apply (md5_update_holds _ []); [apply md5_init_holds|]. Qed.

Lemma hmac_md5_init_spec garbage key : length garbage = 64%nat -> zlen key < 2 ^ 29 ->
  exists ctx, pj_hmac_md5_init garbage key = Some (mk_hmac_md5 ctx (map (fun b => Z.lxor b 0x5c) (hmac_md5_key key))) /\
    md5_holds ctx (map (fun b => Z.lxor b 0x36) (hmac_md5_key key)).
Proof.
  intros Hg Hl. unfold pj_hmac_md5_init.
  assert (E : (if (64 <? length key)%nat
     then tctx ← pj_md5_update (pj_md5_init garbage) key; '(_, tk) ← pj_md5_final tctx; Some tk
     else Some key) = Some (if (64 <? length key)%nat then md5_reference key else key)).
  { destruct (64 <? length key)%nat; [|done].
    destruct (md5_update_first garbage key) as (c1 & -> & H1); [done..|].
    cbn [mbind option_bind]. by rewrite (md5_final_spec _ _ H1). }
  rewrite E. cbn [mbind option_bind]. pose proof (hmac_md5_key_length key) as Hkl. unfold hmac_md5_key in Hkl.
  rewrite length_app, length_replicate in Hkl.
  set (k := if (64 <? length key)%nat then md5_reference key else key) in *.
  destruct (pad_key k 0) as [-> _]; [lia|]. cbn [mbind option_bind].
  change (k ++ replicate (64 - length k) 0) with (hmac_md5_key key).
  destruct (md5_update_first garbage (map (fun b => Z.lxor b 0x36) (hmac_md5_key key))) as (c1 & -> & H1);
    [done|unfold zlen; by rewrite length_map, hmac_md5_key_length|by exists c1].
Qed.

(** Pj_hmac_md5_init, any sequence of updates and pj_hmac_md5_final compute the
    HMAC of RFC 2104 with the MD5 of RFC 1321 of the whole text, for keys shorter
    and longer than a block. *)
Theorem hmac_md5_digest (garbage key : list Z) (chunks : list (list Z)) :
  length garbage = 64%nat -> zlen key < 2 ^ 29 -> Forall (fun c => zlen c < 2 ^ 29) chunks ->
  (ctx ← pj_hmac_md5_init garbage key; ctx ← hmac_md5_feed ctx chunks; r ← pj_hmac_md5_final ctx; Some r.2) =
    Some (hmac_md5_reference key (concat chunks)).
Proof.
  intros Hg Hl Hc. destruct (hmac_md5_init_spec garbage key) as (c0 & -> & H0'); [done..|].
  cbn [mbind option_bind]. rewrite hmac_md5_feed_eq. cbn [hmac_md5_ctx hmac_md5_opad].
  destruct (md5_feed_holds chunks c0 _ Hc H0') as (c1 & -> & H1).
  cbn [mbind option_bind]. unfold pj_hmac_md5_final. cbn [hmac_md5_ctx hmac_md5_opad].
  rewrite (md5_final_spec _ _ H1). cbn [mbind option_bind].
  destruct (md5_update_first (md5_in md5_wiped) (map (fun b => Z.lxor b 0x5c) (hmac_md5_key key))) as (c2 & -> & H2);
    [done|unfold zlen; by rewrite length_map, hmac_md5_key_length|].
  cbn [mbind option_bind]. destruct (md5_update_holds c2 _ (md5_reference (map (fun b => Z.lxor b 0x36) (hmac_md5_key key) ++ concat chunks)) H2)
    as (c3 & -> & H3); [unfold zlen; by rewrite md5_reference_length|].
  cbn [mbind option_bind]. by rewrite (md5_final_spec _ _ H3).
Qed.

Lemma hmac_md5_digest_witness :
  (ctx ← pj_hmac_md5_init (replicate 64 0) (replicate 16 11); ctx ← hmac_md5_feed ctx [[72; 105]; [32; 84; 104; 101; 114; 101]];
   r ← pj_hmac_md5_final ctx; Some r.2) = Some (hmac_md5_reference (replicate 16 11) [72; 105; 32; 84; 104; 101; 114; 101]) /\
  take 4 (hmac_md5_reference (replicate 16 11) [72; 105; 32; 84; 104; 101; 114; 101]) = [0x92; 0x94; 0x72; 0x7a].
Proof.
  split; [|vm_compute; reflexivity].
  apply (hmac_md5_digest (replicate 64 0) (replicate 16 11) [[72; 105]; [32; 84; 104; 101; 114; 101]]); [done..|].
  by repeat constructor.
Defined.
