(* ===== verification/Stun.v ===== *)
(** * STUN messages (pjnath/src/pjnath/stun_msg.c)

    The attributes with their descriptors, creation, encoding, decoding, checking,
    and copying of messages.  A packet is the list of bytes readable from its start,
    an output buffer the list of bytes writable from its start, apart from the size
    the caller states: an access outside is [None].  So is an attribute whose value
    does not have the type that the descriptor of its type number casts it to.  A
    function that fails returns its status; what it has written until then stays
    in the buffer. *)

From stdpp Require Import strings pretty.
From S2P Require Import Prelude Words Crc32 Sha1.

(** ** Status codes (pjnath/errno.h) *)

Definition PJNATH_ERRNO_START : Z := 370000.
Definition PJ_STATUS_FROM_STUN_CODE (code : Z) : Z := PJNATH_ERRNO_START + code.
Definition PJNATH_EINSTUNMSGLEN : Z := PJNATH_ERRNO_START + 2.
Definition PJNATH_EINSTUNMSGTYPE : Z := PJNATH_ERRNO_START + 3.
Definition PJNATH_ESTUNTOOMANYATTR : Z := PJNATH_ERRNO_START + 21.
Definition PJNATH_ESTUNINATTRLEN : Z := PJNATH_ERRNO_START + 22.
Definition PJNATH_ESTUNDUPATTR : Z := PJNATH_ERRNO_START + 23.
Definition PJNATH_ESTUNFINGERPRINT : Z := PJNATH_ERRNO_START + 30.
Definition PJNATH_ESTUNMSGINTPOS : Z := PJNATH_ERRNO_START + 31.
Definition PJNATH_ESTUNFINGERPOS : Z := PJNATH_ERRNO_START + 33.
Definition PJNATH_EINVAF : Z := PJNATH_ERRNO_START + 42.

(** ** Constants and messages (pjnath/stun_msg.h) *)

Definition PJ_STUN_MAGIC : Z := 0x2112A442.
Definition PJ_STUN_MAX_ATTR : Z := 16.
Definition STUN_XOR_FINGERPRINT : Z := 0x5354554e.

Definition PJ_STUN_GET_METHOD (msg_type : Z) : Z := Z.land msg_type 0xFEEF.
Definition PJ_STUN_IS_REQUEST (msg_type : Z) : bool := Z.land msg_type 0x0110 =? 0x0000.
Definition PJ_STUN_IS_SUCCESS_RESPONSE (msg_type : Z) : bool := Z.land msg_type 0x0110 =? 0x0100.
Definition PJ_STUN_IS_ERROR_RESPONSE (msg_type : Z) : bool := Z.land msg_type 0x0110 =? 0x0110.
Definition PJ_STUN_IS_RESPONSE (msg_type : Z) : bool := Z.land msg_type 0x0100 =? 0x0100.
Definition PJ_STUN_IS_INDICATION (msg_type : Z) : bool := Z.land msg_type 0x0110 =? 0x0010.
Definition PJ_STUN_SUCCESS_RESPONSE_BIT : Z := 0x0100.
Definition PJ_STUN_ERROR_RESPONSE_BIT : Z := 0x0110.

Definition PJ_STUN_ATTR_USERNAME : Z := 0x0006.
Definition PJ_STUN_ATTR_MESSAGE_INTEGRITY : Z := 0x0008.
Definition PJ_STUN_ATTR_ERROR_CODE : Z := 0x0009.
Definition PJ_STUN_ATTR_UNKNOWN_ATTRIBUTES : Z := 0x000A.
Definition PJ_STUN_ATTR_REALM : Z := 0x0014.
Definition PJ_STUN_ATTR_NONCE : Z := 0x0015.
Definition PJ_STUN_ATTR_END_MANDATORY_ATTR : Z := 0x0031.
Definition PJ_STUN_ATTR_START_EXTENDED_ATTR : Z := 0x8021.
Definition PJ_STUN_ATTR_SOFTWARE : Z := 0x8022.
Definition PJ_STUN_ATTR_FINGERPRINT : Z := 0x8028.
Definition PJ_STUN_ATTR_END_EXTENDED_ATTR : Z := 0x802B.

Definition PJ_STUN_SC_BAD_REQUEST : Z := 400.
Definition PJ_STUN_SC_UNAUTHORIZED : Z := 401.
Definition PJ_STUN_SC_UNKNOWN_ATTRIBUTE : Z := 420.
Definition PJ_STUN_SC_STALE_NONCE : Z := 438.
Definition PJ_STUN_SC_SERVER_ERROR : Z := 500.

Definition PJ_STUN_IS_DATAGRAM : Z := 1.
Definition PJ_STUN_CHECK_PACKET : Z := 2.
Definition PJ_STUN_NO_FINGERPRINT_CHECK : Z := 8.

Record pj_stun_msg_hdr := mk_msg_hdr { m_type : Z; m_length : Z; m_magic : Z; m_tsx_id : list Z }.
Record pj_stun_attr_hdr := mk_attr_hdr { a_type : Z; a_length : Z }.

(** The port and the address as they lie in memory, in network order *)
Inductive pj_sa_family := AF_INET | AF_INET6 | AF_OTHER.
Record pj_sockaddr := mk_sockaddr { sa_family : pj_sa_family; sin_port : list Z; sin_addr : list Z }.

(** The structures that begin with an attribute header.  The counter of
    pj_stun_unknown_attr and the lengths of strings and data are those of the lists. *)
Inductive attr_value :=
| V_sockaddr (xor_ed : bool) (sockaddr : pj_sockaddr)
| V_empty
| V_string (value : list Z)
| V_uint (value : Z)
| V_uint64 (hi lo : Z)
| V_msgint (hmac : list Z)
| V_errcode (err_code : Z) (reason : list Z)
| V_unknown (attrs : list Z)
| V_binary (magic : Z) (data : list Z).

Record pj_stun_attr := mk_attr { hdr : pj_stun_attr_hdr; value : attr_value }.
Record pj_stun_msg := mk_msg { msg_hdr : pj_stun_msg_hdr; attr : list pj_stun_attr }.

Definition attr_type (a : pj_stun_attr) : Z := a_type (hdr a).

Definition zstring (s : string) : list Z :=
  (fun c => Z.of_N (Ascii.N_of_ascii c)) <$> String.list_ascii_of_string s.

Arguments zstring s%_string_scope.

(** ** Descriptors *)

(** The functions of a descriptor: decode_, encode_ and clone_ of this kind
    (K_xored_sockaddr: decode_xored_sockaddr_attr with the others of K_sockaddr) *)
Inductive attr_kind :=
  K_sockaddr | K_xored_sockaddr | K_string | K_msgint | K_errcode | K_unknown | K_uint | K_uint64
| K_binary | K_empty.

Definition mandatory_attr_desc : list (option (string * attr_kind)) :=
  [None; Some ("MAPPED-ADDRESS", K_sockaddr); Some ("RESPONSE-ADDRESS", K_sockaddr);
    Some ("CHANGE-REQUEST", K_uint); Some ("SOURCE-ADDRESS", K_sockaddr);
    Some ("CHANGED-ADDRESS", K_sockaddr); Some ("USERNAME", K_string); Some ("PASSWORD", K_string);
    Some ("MESSAGE-INTEGRITY", K_msgint); Some ("ERROR-CODE", K_errcode);
    Some ("UNKNOWN-ATTRIBUTES", K_unknown); Some ("REFLECTED-FROM", K_sockaddr);
    Some ("CHANNEL-NUMBER", K_uint); Some ("LIFETIME", K_uint); None; Some ("MAGIC-COOKIE", K_uint);
    Some ("BANDWIDTH", K_uint); None; Some ("XOR-PEER-ADDRESS", K_xored_sockaddr);
    Some ("DATA", K_binary); Some ("REALM", K_string); Some ("NONCE", K_string);
    Some ("XOR-RELAYED-ADDRESS", K_xored_sockaddr); Some ("REQUESTED-ADDRESS-FAMILY", K_uint);
    Some ("EVEN-PORT", K_uint); Some ("REQUESTED-TRANSPORT", K_uint);
    Some ("DONT-FRAGMENT", K_empty); None; None; None; None; None;
    Some ("XOR-MAPPED-ADDRESS", K_xored_sockaddr); Some ("TIMER-VAL", K_uint);
    Some ("RESERVATION-TOKEN", K_uint64); Some ("XOR-REFLECTED-FROM", K_xored_sockaddr);
    Some ("PRIORITY", K_uint); Some ("USE-CANDIDATE", K_empty); None; None; None; None; None; None;
    None; None; None; None; Some ("ICMP", K_uint); None].

Definition extended_attr_desc : list (option (string * attr_kind)) :=
  [None; Some ("SOFTWARE", K_string); Some ("ALTERNATE-SERVER", K_sockaddr);
    Some ("REFRESH-INTERVAL", K_uint); None; None; None; Some ("FINGERPRINT", K_uint);
    Some ("ICE-CONTROLLED", K_uint64); Some ("ICE-CONTROLLING", K_uint64)].

Definition find_attr_desc (attr_type : Z) : option (string * attr_kind) :=
  if attr_type <? PJ_STUN_ATTR_END_MANDATORY_ATTR then
    mjoin (mandatory_attr_desc !! Z.to_nat attr_type)
  else if (PJ_STUN_ATTR_START_EXTENDED_ATTR <=? attr_type) && (attr_type <? PJ_STUN_ATTR_END_EXTENDED_ATTR) then
    mjoin (extended_attr_desc !! Z.to_nat (attr_type - PJ_STUN_ATTR_START_EXTENDED_ATTR))
  else None.

Definition pj_stun_get_attr_name (attr_type : Z) : string :=
  match find_attr_desc attr_type with Some (name, _) => name | None => "???" end.

Definition stun_method_names : list string :=
  ["Unknown"; "Binding"; "SharedSecret"; "Allocate"; "Refresh"; "???"; "Send"; "Data";
   "CreatePermission"; "ChannelBind"].

Definition pj_stun_get_method_name (msg_type : Z) : string :=
  default "???" (stun_method_names !! Z.to_nat (PJ_STUN_GET_METHOD msg_type)).

Definition pj_stun_get_class_name (msg_type : Z) : string :=
  if PJ_STUN_IS_REQUEST msg_type then "request"
  else if PJ_STUN_IS_SUCCESS_RESPONSE msg_type then "success response"
  else if PJ_STUN_IS_ERROR_RESPONSE msg_type then "error response"
  else if PJ_STUN_IS_INDICATION msg_type then "indication"
  else "???".

(** ** Reasons of errors *)

Definition stun_err_msg_map : list (Z * string) :=
  [(300, "Try Alternate"); (400, "Bad Request"); (401, "Unauthorized"); (403, "Forbidden");
   (420, "Unknown Attribute"); (437, "Allocation Mismatch"); (438, "Stale Nonce");
   (439, "Active Destination Already Set"); (441, "Wrong Credentials");
   (442, "Unsupported Transport Protocol"); (445, "Operation for TCP Only");
   (446, "Connection Failure"); (447, "Connection Timeout"); (486, "Allocation Quota Reached");
   (487, "Role Conflict"); (500, "Server Error"); (508, "Insufficient Capacity");
   (600, "Global Failure")].

(** The binary search: the index it ends with *)
Fixpoint search_reason (fuel : nat) (first n : nat) (err_code : Z) : option nat :=
  match fuel with
  | O => None
  | S fuel =>
      if (0 <? n)%nat then
        let half := Nat.div n 2 in
        let mid := (first + half)%nat in
        e ← stun_err_msg_map !! mid;
        if fst e <? err_code then search_reason fuel (mid + 1) (n - (half + 1)) err_code
        else if err_code <? fst e then search_reason fuel first half err_code
        else Some mid
      else Some first
  end.

(** The empty reason stands for pj_str(NULL). *)
Definition pj_stun_get_err_reason (err_code : Z) : option (list Z) :=
  first ← search_reason (S (length stun_err_msg_map)) 0 (length stun_err_msg_map) err_code;
  e ← stun_err_msg_map !! first;
  Some (if fst e =? err_code then zstring (snd e) else []).

(** ** Values in network order in a buffer *)

Definition GETVAL16H (buf : list Z) (pos : nat) : option Z :=
  b0 ← buf !! pos; b1 ← buf !! (pos + 1)%nat;
  Some (u16 (Z.lor (Z.shiftl b0 8) b1)).

Definition PUTVAL16H (buf : list Z) (pos : nat) (hval : Z) : option (list Z) :=
  lcopy buf pos [u8 (Z.shiftr (Z.land hval 0xFF00) 8); u8 (Z.land hval 0x00FF)].

Definition GETVAL32H (buf : list Z) (pos : nat) : option Z :=
  b0 ← buf !! pos; b1 ← buf !! (pos + 1)%nat; b2 ← buf !! (pos + 2)%nat; b3 ← buf !! (pos + 3)%nat;
  Some (u32 (Z.lor (Z.lor (Z.lor (Z.shiftl b0 24) (Z.shiftl b1 16)) (Z.shiftl b2 8)) b3)).

Definition PUTVAL32H (buf : list Z) (pos : nat) (hval : Z) : option (list Z) :=
  lcopy buf pos [u8 (Z.shiftr (Z.land hval 0xFF000000) 24); u8 (Z.shiftr (Z.land hval 0x00FF0000) 16);
                 u8 (Z.shiftr (Z.land hval 0x0000FF00) 8); u8 (Z.land hval 0x000000FF)].

Definition GETVAL64H (buf : list Z) (pos : nat) : option (Z * Z) :=
  hi ← GETVAL32H buf pos; lo ← GETVAL32H buf (pos + 4); Some (hi, lo).

Definition PUTVAL64H (buf : list Z) (pos : nat) (ts : Z * Z) : option (list Z) :=
  buf ← PUTVAL32H buf pos (fst ts); PUTVAL32H buf (pos + 4) (snd ts).

Definition GETATTRHDR (buf : list Z) (pos : nat) : option pj_stun_attr_hdr :=
  ty ← GETVAL16H buf pos; len ← GETVAL16H buf (pos + 2); Some (mk_attr_hdr ty len).

Definition ATTR_HDR_LEN : nat := 4.
Definition STUN_GENERIC_IPV4_ADDR_LEN : Z := 8.
Definition STUN_GENERIC_IPV6_ADDR_LEN : Z := 20.

Definition INIT_ATTR (t l : Z) : pj_stun_attr_hdr := mk_attr_hdr (u16 t) (u16 l).

(** Rounding of an unsigned number up to a multiple of 4 *)
Definition align4 (n : Z) : Z := Z.land (u32 (n + 3)) 0xFFFFFFFC.

(** ** Creating attributes: the pj_stun_..._create functions of the parts *)

(** sizeof(pj_sockaddr_in) and sizeof(pj_sockaddr_in6) *)
Definition sockaddr_in_size : Z := 16.
Definition sockaddr_in6_size : Z := 28.

Definition pj_stun_sockaddr_attr_create (attr_type : Z) (xor_ed : bool) (addr : pj_sockaddr) (addr_len : Z)
    : Z + pj_stun_attr :=
  if negb ((addr_len =? sockaddr_in_size) || (addr_len =? sockaddr_in6_size)) then inl PJ_EINVAL
  else inr (mk_attr (INIT_ATTR attr_type (zlen (sin_addr addr) + 4)) (V_sockaddr xor_ed addr)).

(** [None]: a NULL string *)
Definition pj_stun_string_attr_create (attr_type : Z) (value : option (list Z)) : Z + pj_stun_attr :=
  match value with
  | None => inl PJ_EINVAL
  | Some [] => inr (mk_attr (INIT_ATTR attr_type 0) (V_string []))
  | Some v => inr (mk_attr (INIT_ATTR attr_type (zlen v)) (V_string v))
  end.

Definition pj_stun_empty_attr_create (attr_type : Z) : Z + pj_stun_attr :=
  inr (mk_attr (INIT_ATTR attr_type 0) V_empty).

Definition pj_stun_uint_attr_create (attr_type value : Z) : Z + pj_stun_attr :=
  inr (mk_attr (INIT_ATTR attr_type 4) (V_uint value)).

Definition pj_stun_uint64_attr_create (attr_type : Z) (value : option (Z * Z)) : Z + pj_stun_attr :=
  let '(hi, lo) := default (0, 0) value in
  inr (mk_attr (INIT_ATTR attr_type 8) (V_uint64 hi lo)).

Definition pj_stun_msgint_attr_create : Z + pj_stun_attr :=
  inr (mk_attr (INIT_ATTR PJ_STUN_ATTR_MESSAGE_INTEGRITY 20) (V_msgint (replicate 20 0))).

(** The outer [None]: the search for the reason leaves its table *)
Definition pj_stun_errcode_attr_create (err_code : Z) (err_reason : option (list Z))
    : option (Z + pj_stun_attr) :=
  if err_code =? 0 then Some (inl PJ_EINVAL)
  else
    reason ← (match err_reason with
              | Some r => Some r
              | None =>
                  str ← pj_stun_get_err_reason err_code;
                  Some (match str with
                        | [] => zstring ("Unknown error " +:+ pretty err_code)
                        | _ => str
                        end)
              end);
    Some (inr (mk_attr (INIT_ATTR PJ_STUN_ATTR_ERROR_CODE (4 + zlen reason)) (V_errcode err_code reason))).

(** [attr_array] holds the [attr_cnt] types. *)
Definition pj_stun_unknown_attr_create (attr_array : list Z) : Z + pj_stun_attr :=
  let attr_cnt := zlen attr_array in
  if attr_cnt <? PJ_STUN_MAX_ATTR then
    inr (mk_attr (INIT_ATTR PJ_STUN_ATTR_UNKNOWN_ATTRIBUTES (attr_cnt * 2)) (V_unknown attr_array))
  else inl PJ_EINVAL.

Definition pj_stun_binary_attr_create (attr_type : Z) (data : list Z) : Z + pj_stun_attr :=
  if attr_type =? 0 then inl PJ_EINVAL
  else inr (mk_attr (INIT_ATTR attr_type (zlen data)) (V_binary PJ_STUN_MAGIC data)).

Definition pj_stun_msg_add_attr (msg : pj_stun_msg) (a : pj_stun_attr) : Z * pj_stun_msg :=
  if zlen (attr msg) <? PJ_STUN_MAX_ATTR then (PJ_SUCCESS, mk_msg (msg_hdr msg) (attr msg ++ [a]))
  else (PJ_ETOOMANY, msg).

(** The pj_stun_msg_add_..._attr functions: creating and adding *)
Definition add_created (msg : pj_stun_msg) (a : Z + pj_stun_attr) : Z * pj_stun_msg :=
  match a with inl status => (status, msg) | inr a => pj_stun_msg_add_attr msg a end.

Definition pj_stun_msg_add_sockaddr_attr msg ty xor_ed addr addr_len :=
  add_created msg (pj_stun_sockaddr_attr_create ty xor_ed addr addr_len).
Definition pj_stun_msg_add_string_attr msg ty value := add_created msg (pj_stun_string_attr_create ty value).
Definition pj_stun_msg_add_empty_attr msg ty := add_created msg (pj_stun_empty_attr_create ty).
Definition pj_stun_msg_add_uint_attr msg ty value := add_created msg (pj_stun_uint_attr_create ty value).
Definition pj_stun_msg_add_uint64_attr msg ty value := add_created msg (pj_stun_uint64_attr_create ty value).
Definition pj_stun_msg_add_msgint_attr msg := add_created msg pj_stun_msgint_attr_create.
Definition pj_stun_msg_add_errcode_attr msg err_code err_reason : option (Z * pj_stun_msg) :=
  add_created msg <$> pj_stun_errcode_attr_create err_code err_reason.
Definition pj_stun_msg_add_unknown_attr msg attr_type := add_created msg (pj_stun_unknown_attr_create attr_type).
Definition pj_stun_msg_add_binary_attr msg ty data := add_created msg (pj_stun_binary_attr_create ty data).

(** ** Creating messages *)

(** The transaction id of a message created without one: the words are read as bytes;
    [counter] is the static variable, [rnd0] and [rnd] are what pj_rand gives. *)
Definition word_bytes (w : Z) : list Z := map (fun k => Z.land (Z.shiftr w (8 * Z.of_nat k)) 0xff) (seq 0 4).

Definition new_tsx_id (pid rnd0 rnd counter : Z) : list Z * Z :=
  let counter := if counter =? 0 then u32 rnd0 else counter in
  (word_bytes (u32 pid) ++ word_bytes (u32 rnd) ++ word_bytes counter, u32 (counter + 1)).

Definition pj_stun_msg_init (msg_type magic : Z) (tsx_id : list Z) : Z + pj_stun_msg :=
  if msg_type =? 0 then inl PJ_EINVAL
  else inr (mk_msg (mk_msg_hdr (u16 msg_type) 0 magic tsx_id) []).

(** In the error path of the attribute, *p_response is left alone. *)
Definition pj_stun_msg_create_response (req_msg : pj_stun_msg) (err_code : Z) (err_msg : option (list Z))
    : option (Z + pj_stun_msg) :=
  let msg_type := m_type (msg_hdr req_msg) in
  if negb (PJ_STUN_IS_REQUEST msg_type) then Some (inl PJNATH_EINSTUNMSGTYPE)
  else
    let msg_type :=
      Z.lor msg_type (if err_code =? 0 then PJ_STUN_SUCCESS_RESPONSE_BIT else PJ_STUN_ERROR_RESPONSE_BIT) in
    match pj_stun_msg_init msg_type (m_magic (msg_hdr req_msg)) (m_tsx_id (msg_hdr req_msg)) with
    | inl status => Some (inl status)
    | inr response =>
        if err_code =? 0 then Some (inr response)
        else
          '(status, response) ← pj_stun_msg_add_errcode_attr response err_code err_msg;
          Some (if status =? PJ_SUCCESS then inr response else inl status)
    end.

Definition pj_stun_msg_find_attr (msg : pj_stun_msg) (attr_type : Z) (index : nat) : option pj_stun_attr :=
  head (filter (fun a => a_type (hdr a) = attr_type) (drop index (attr msg))).

(** ** Encoding attributes: status, buffer, and the bytes printed on success *)

Definition xor_list (l1 l2 : list Z) : list Z := zip_with Z.lxor l1 l2.

(** pj_htons(PJ_STUN_MAGIC >> 16) and pj_htonl(PJ_STUN_MAGIC), as bytes in memory *)
Definition magic16 : list Z := [0x21; 0x12].
Definition magic32 : list Z := [0x21; 0x12; 0xA4; 0x42].

Definition encode_result : Type := Z * list Z * Z.

(** The part of encode_sockaddr_attr for one family *)
Definition put_sockaddr (buf : list Z) (pos : nat) (len attr_len family : Z) (port addr : list Z)
    : option encode_result :=
  if len <? Z.of_nat ATTR_HDR_LEN + attr_len then Some (PJ_ETOOSMALL, buf, 0)
  else
    buf ← PUTVAL16H buf (pos + 2) attr_len;
    buf ← lcopy buf (pos + 4) [0; family];
    buf ← lcopy buf (pos + 6) port;
    buf ← lcopy buf (pos + 8) addr;
    Some (PJ_SUCCESS, buf, Z.of_nat ATTR_HDR_LEN + attr_len).

Definition encode_sockaddr_attr (a : pj_stun_attr) (buf : list Z) (pos : nat) (len : Z) (msghdr : pj_stun_msg_hdr)
    : option encode_result :=
  match value a with
  | V_sockaddr xor_ed ca =>
      buf ← PUTVAL16H buf pos (attr_type a);
      let port := if xor_ed then xor_list (sin_port ca) magic16 else sin_port ca in
      match sa_family ca with
      | AF_INET =>
          let addr := if xor_ed then xor_list (sin_addr ca) magic32 else sin_addr ca in
          put_sockaddr buf pos len STUN_GENERIC_IPV4_ADDR_LEN 1 port addr
      | AF_INET6 =>
          let addr := if xor_ed then xor_list (sin_addr ca) (magic32 ++ m_tsx_id msghdr) else sin_addr ca in
          put_sockaddr buf pos len STUN_GENERIC_IPV6_ADDR_LEN 2 port addr
      | AF_OTHER => Some (PJNATH_EINVAF, buf, 0)
      end
  | _ => None
  end.

(** [padding_char] is the static variable. *)
Definition encode_string_attr (padding_char : Z) (a : pj_stun_attr) (buf : list Z) (pos : nat) (len : Z)
    (msghdr : pj_stun_msg_hdr) : option encode_result :=
  match value a with
  | V_string v =>
      let slen := zlen v in
      let printed := align4 (u32 slen + 4) in
      if len <? printed then Some (PJ_ETOOSMALL, buf, 0)
      else
        buf ← PUTVAL16H buf pos (attr_type a);
        buf ← PUTVAL16H buf (pos + 2)
          (if negb (m_magic msghdr =? PJ_STUN_MAGIC) || (attr_type a =? PJ_STUN_ATTR_SOFTWARE)
           then u16 (Z.land (slen + 3) (-4)) else u16 slen);
        buf ← lcopy buf (pos + 4) v;
        buf ← (if negb (Z.land slen 0x03 =? 0)
               then lcopy buf (pos + 4 + length v) (replicate (Z.to_nat (4 - Z.land slen 0x03)) (u8 padding_char))
               else Some buf);
        Some (PJ_SUCCESS, buf, printed)
  | _ => None
  end.

Definition encode_empty_attr (a : pj_stun_attr) (buf : list Z) (pos : nat) (len : Z) : option encode_result :=
  match value a with
  | V_empty =>
      if len <? 4 then Some (PJ_ETOOSMALL, buf, 0)
      else
        buf ← PUTVAL16H buf pos (attr_type a);
        buf ← PUTVAL16H buf (pos + 2) 0;
        Some (PJ_SUCCESS, buf, 4)
  | _ => None
  end.

Definition encode_uint_attr (a : pj_stun_attr) (buf : list Z) (pos : nat) (len : Z) : option encode_result :=
  match value a with
  | V_uint v =>
      if len <? 8 then Some (PJ_ETOOSMALL, buf, 0)
      else
        buf ← PUTVAL16H buf pos (attr_type a);
        buf ← PUTVAL16H buf (pos + 2) 4;
        buf ← PUTVAL32H buf (pos + 4) v;
        Some (PJ_SUCCESS, buf, 8)
  | _ => None
  end.

Definition encode_uint64_attr (a : pj_stun_attr) (buf : list Z) (pos : nat) (len : Z) : option encode_result :=
  match value a with
  | V_uint64 hi lo =>
      if len <? 12 then Some (PJ_ETOOSMALL, buf, 0)
      else
        buf ← PUTVAL16H buf pos (attr_type a);
        buf ← PUTVAL16H buf (pos + 2) 8;
        buf ← PUTVAL64H buf (pos + 4) (hi, lo);
        Some (PJ_SUCCESS, buf, 12)
  | _ => None
  end.

Definition encode_msgint_attr (a : pj_stun_attr) (buf : list Z) (pos : nat) (len : Z) : option encode_result :=
  match value a with
  | V_msgint hmac =>
      if len <? 24 then Some (PJ_ETOOSMALL, buf, 0)
      else
        buf ← PUTVAL16H buf pos (attr_type a);
        buf ← PUTVAL16H buf (pos + 2) (a_length (hdr a));
        buf ← lcopy buf (pos + 4) hmac;
        Some (PJ_SUCCESS, buf, 24)
  | _ => None
  end.

(** The division and remainder of C truncate. *)
Definition encode_errcode_attr (a : pj_stun_attr) (buf : list Z) (pos : nat) (len : Z) : option encode_result :=
  match value a with
  | V_errcode err_code reason =>
      let slen := zlen reason in
      if len <? u32 (8 + u32 slen) then Some (PJ_ETOOSMALL, buf, 0)
      else
        buf ← PUTVAL16H buf pos (attr_type a);
        buf ← PUTVAL16H buf (pos + 2) (u16 (4 + slen));
        buf ← PUTVAL16H buf (pos + 4) 0;
        buf ← lcopy buf (pos + 6) [u8 (Z.quot err_code 100); u8 (Z.rem err_code 100)];
        buf ← lcopy buf (pos + 8) reason;
        Some (PJ_SUCCESS, buf, align4 (8 + u32 slen))
  | _ => None
  end.

Definition encode_unknown_attr (a : pj_stun_attr) (buf : list Z) (pos : nat) (len : Z) : option encode_result :=
  match value a with
  | V_unknown attrs =>
      let attr_count := zlen attrs in
      if len <? 4 + Z.shiftl attr_count 1 then Some (PJ_ETOOSMALL, buf, 0)
      else
        buf ← PUTVAL16H buf pos (attr_type a);
        buf ← PUTVAL16H buf (pos + 2) (u16 (Z.shiftl attr_count 1));
        buf ← lcopy buf (pos + 4) (attrs ≫= fun t => [u8 (Z.shiftr t 8); u8 t]);
        Some (PJ_SUCCESS, buf, align4 (4 + Z.shiftl attr_count 1))
  | _ => None
  end.

Definition encode_binary_attr (a : pj_stun_attr) (buf : list Z) (pos : nat) (len : Z) : option encode_result :=
  match value a with
  | V_binary _ data =>
      let printed := align4 (u32 (zlen data) + 4) in
      if len <? printed then Some (PJ_ETOOSMALL, buf, 0)
      else
        buf ← PUTVAL16H buf pos (attr_type a);
        buf ← PUTVAL16H buf (pos + 2) (u16 (zlen data));
        buf ← lcopy buf (pos + 4) data;
        Some (PJ_SUCCESS, buf, printed)
  | _ => None
  end.

Definition encode_attr (padding_char : Z) (kind : attr_kind) (a : pj_stun_attr) (buf : list Z) (pos : nat)
    (len : Z) (msghdr : pj_stun_msg_hdr) : option encode_result :=
  match kind with
  | K_sockaddr | K_xored_sockaddr => encode_sockaddr_attr a buf pos len msghdr
  | K_string => encode_string_attr padding_char a buf pos len msghdr
  | K_msgint => encode_msgint_attr a buf pos len
  | K_errcode => encode_errcode_attr a buf pos len
  | K_unknown => encode_unknown_attr a buf pos len
  | K_uint => encode_uint_attr a buf pos len
  | K_uint64 => encode_uint64_attr a buf pos len
  | K_binary => encode_binary_attr a buf pos len
  | K_empty => encode_empty_attr a buf pos len
  end.

(** ** Decoding attributes: a status or the attribute *)

Definition decode_sockaddr_attr (buf : list Z) (pos : nat) (msghdr : pj_stun_msg_hdr) : option (Z + pj_stun_attr) :=
  h ← GETATTRHDR buf pos;
  if negb (a_length h =? STUN_GENERIC_IPV4_ADDR_LEN) && negb (a_length h =? STUN_GENERIC_IPV6_ADDR_LEN)
  then Some (inl PJNATH_ESTUNINATTRLEN)
  else
    val ← buf !! (pos + ATTR_HDR_LEN + 1)%nat;
    let get af addr_len :=
      port ← GETVAL16H buf (pos + ATTR_HDR_LEN + 2);
      addr ← lslice buf (pos + ATTR_HDR_LEN + 4) addr_len;
      Some (inr (mk_attr h (V_sockaddr false (mk_sockaddr af [u8 (Z.shiftr port 8); u8 port] addr)))) in
    if val =? 1 then
      if negb (a_length h =? STUN_GENERIC_IPV4_ADDR_LEN) then Some (inl PJNATH_ESTUNINATTRLEN)
      else get AF_INET 4%nat
    else if val =? 2 then
      if negb (a_length h =? STUN_GENERIC_IPV6_ADDR_LEN) then Some (inl PJNATH_ESTUNINATTRLEN)
      else get AF_INET6 16%nat
    else Some (inl PJNATH_EINVAF).

Definition decode_xored_sockaddr_attr (buf : list Z) (pos : nat) (msghdr : pj_stun_msg_hdr)
    : option (Z + pj_stun_attr) :=
  r ← decode_sockaddr_attr buf pos msghdr;
  match r with
  | inl status => Some (inl status)
  | inr (mk_attr h (V_sockaddr _ sa)) =>
      match sa_family sa with
      | AF_INET =>
          Some (inr (mk_attr h (V_sockaddr true
            (mk_sockaddr AF_INET (xor_list (sin_port sa) magic16) (xor_list (sin_addr sa) magic32)))))
      | AF_INET6 =>
          Some (inr (mk_attr h (V_sockaddr true
            (mk_sockaddr AF_INET6 (xor_list (sin_port sa) magic16)
               (xor_list (sin_addr sa) (magic32 ++ m_tsx_id msghdr))))))
      | AF_OTHER => Some (inl PJNATH_EINVAF)
      end
  | inr _ => None
  end.

Definition decode_string_attr (buf : list Z) (pos : nat) : option (Z + pj_stun_attr) :=
  h ← GETATTRHDR buf pos;
  v ← lslice buf (pos + ATTR_HDR_LEN) (Z.to_nat (a_length h));
  Some (inr (mk_attr h (V_string v))).

Definition decode_empty_attr (buf : list Z) (pos : nat) : option (Z + pj_stun_attr) :=
  h ← GETATTRHDR buf pos;
  if negb (a_length h =? 0) then Some (inl PJNATH_ESTUNINATTRLEN) else Some (inr (mk_attr h V_empty)).

Definition decode_uint_attr (buf : list Z) (pos : nat) : option (Z + pj_stun_attr) :=
  h ← GETATTRHDR buf pos;
  v ← GETVAL32H buf (pos + 4);
  if negb (a_length h =? 4) then Some (inl PJNATH_ESTUNINATTRLEN) else Some (inr (mk_attr h (V_uint v))).

Definition decode_uint64_attr (buf : list Z) (pos : nat) : option (Z + pj_stun_attr) :=
  h ← GETATTRHDR buf pos;
  if negb (a_length h =? 8) then Some (inl PJNATH_ESTUNINATTRLEN)
  else '(hi, lo) ← GETVAL64H buf (pos + 4); Some (inr (mk_attr h (V_uint64 hi lo))).

Definition decode_msgint_attr (buf : list Z) (pos : nat) : option (Z + pj_stun_attr) :=
  h ← GETATTRHDR buf pos;
  if negb (a_length h =? 20) then Some (inl PJNATH_ESTUNINATTRLEN)
  else hmac ← lslice buf (pos + 4) 20; Some (inr (mk_attr h (V_msgint hmac))).

(** A reason of negative length, which pj_strdup is not made for, is [None]. *)
Definition decode_errcode_attr (buf : list Z) (pos : nat) : option (Z + pj_stun_attr) :=
  h ← GETATTRHDR buf pos;
  b6 ← buf !! (pos + 6)%nat; b7 ← buf !! (pos + 7)%nat;
  let slen := a_length h - 4 in
  if slen <? 0 then None
  else
    reason ← lslice buf (pos + ATTR_HDR_LEN + 4) (Z.to_nat slen);
    Some (inr (mk_attr h (V_errcode (b6 * 100 + b7) reason))).

(** [n] 16-bit words from [pos] *)
Fixpoint get_words (buf : list Z) (pos n : nat) : option (list Z) :=
  match n with
  | O => Some []
  | S n => w ← GETVAL16H buf pos; ws ← get_words buf (pos + 2) n; Some (w :: ws)
  end.

Definition decode_unknown_attr (buf : list Z) (pos : nat) : option (Z + pj_stun_attr) :=
  h ← GETATTRHDR buf pos;
  let attr_count := Z.shiftr (a_length h) 1 in
  if PJ_STUN_MAX_ATTR <? attr_count then Some (inl PJ_ETOOMANY)
  else
    attrs ← get_words buf (pos + ATTR_HDR_LEN) (Z.to_nat attr_count);
    Some (inr (mk_attr h (V_unknown attrs))).

(** The magic of the structure stays zero. *)
Definition decode_binary_attr (buf : list Z) (pos : nat) : option (Z + pj_stun_attr) :=
  h ← GETATTRHDR buf pos;
  data ← lslice buf (pos + ATTR_HDR_LEN) (Z.to_nat (a_length h));
  Some (inr (mk_attr h (V_binary 0 data))).

Definition decode_attr (kind : attr_kind) (buf : list Z) (pos : nat) (msghdr : pj_stun_msg_hdr)
    : option (Z + pj_stun_attr) :=
  match kind with
  | K_sockaddr => decode_sockaddr_attr buf pos msghdr
  | K_xored_sockaddr => decode_xored_sockaddr_attr buf pos msghdr
  | K_string => decode_string_attr buf pos
  | K_msgint => decode_msgint_attr buf pos
  | K_errcode => decode_errcode_attr buf pos
  | K_unknown => decode_unknown_attr buf pos
  | K_uint => decode_uint_attr buf pos
  | K_uint64 => decode_uint64_attr buf pos
  | K_binary => decode_binary_attr buf pos
  | K_empty => decode_empty_attr buf pos
  end.

(** ** Copying *)

(** The clone_ functions give an equal attribute, if its value is what they cast it to. *)
Definition fits (kind : attr_kind) (v : attr_value) : bool :=
  match kind, v with
  | (K_sockaddr | K_xored_sockaddr), V_sockaddr _ _ | K_string, V_string _ | K_msgint, V_msgint _
  | K_errcode, V_errcode _ _ | K_unknown, V_unknown _ | K_uint, V_uint _ | K_uint64, V_uint64 _ _
  | K_binary, V_binary _ _ | K_empty, V_empty => true
  | _, _ => false
  end.

Definition pj_stun_attr_clone (a : pj_stun_attr) : option (option pj_stun_attr) :=
  match find_attr_desc (attr_type a) with
  | Some (_, kind) => if fits kind (value a) then Some (Some a) else None
  | None =>
      match value a with
      | V_binary magic _ => Some (if magic =? PJ_STUN_MAGIC then Some a else None)
      | _ => None
      end
  end.

Definition pj_stun_msg_clone (src : pj_stun_msg) : option pj_stun_msg :=
  copies ← mapM pj_stun_attr_clone (attr src);
  Some (mk_msg (msg_hdr src) (omap id copies)).

(** ** Checking a packet *)

Definition has_option (options bit : Z) : bool := negb (Z.land options bit =? 0).

(** [addr] is the address of the packet, [pdu_len] its length. *)
Definition pj_stun_msg_check (addr : Z) (pdu : list Z) (pdu_len options : Z) : option Z :=
  if pdu_len <? 20 then Some PJNATH_EINSTUNMSGLEN
  else
    b0 ← pdu !! 0%nat;
    if negb (b0 =? 0x00) && negb (b0 =? 0x01) then Some PJNATH_EINSTUNMSGTYPE
    else
      msg_len ← GETVAL16H pdu 2;
      if (pdu_len <? msg_len + 20) || has_option options PJ_STUN_IS_DATAGRAM && negb (msg_len + 20 =? pdu_len)
      then Some PJNATH_EINSTUNMSGLEN
      else if negb (Z.land msg_len 0x03 =? 0) then Some PJNATH_EINSTUNMSGLEN
      else
        magic ← GETVAL32H pdu 4;
        if magic =? PJ_STUN_MAGIC then
          let at_ := Z.to_nat (msg_len + 20 - 8) in
          if negb (has_option options PJ_STUN_NO_FINGERPRINT_CHECK) then
            ty ← GETVAL16H pdu at_;
            if ty =? PJ_STUN_ATTR_FINGERPRINT then
              attr_len ← GETVAL16H pdu (at_ + 2);
              fingerprint ← GETVAL32H pdu (at_ + 4);
              if negb (attr_len =? 4) then Some PJNATH_ESTUNINATTRLEN
              else
                data ← lslice pdu 0 at_;
                let crc := Z.lxor (pj_crc32_calc addr data) STUN_XOR_FINGERPRINT in
                Some (if negb (crc =? fingerprint) then PJNATH_ESTUNFINGERPRINT else PJ_SUCCESS)
            else Some PJ_SUCCESS
          else Some PJ_SUCCESS
        else Some PJ_SUCCESS.

(** ** Decoding a message *)

Record decode_result := mk_decoded {
  d_status : Z;
  d_msg : option pj_stun_msg;        (* *p_msg, set on success *)
  d_parsed_len : Z;
  d_response : option pj_stun_msg    (* *p_response *)
}.

Section Decode.
(** The text pj_strerror gives for a status *)
Context (pj_strerror : Z -> list Z).

Definition failed (status : Z) (response : option pj_stun_msg) : decode_result :=
  mk_decoded status None 0 response.

(** Failing with an error response to a request; [want] tells if p_response is not NULL. *)
Definition reject (want : bool) (msg : pj_stun_msg) (status err_code : Z) (reason : option (list Z))
    : option decode_result :=
  if want then
    r ← pj_stun_msg_create_response msg err_code reason;
    Some (failed status (match r with inl _ => None | inr response => Some response end))
  else Some (failed status None).

(** An attribute without descriptor: a result, or the message with the attribute *)
Definition decode_unrecognized (want : bool) (msg : pj_stun_msg) (pdu : list Z) (pos : nat) (attr_type : Z)
    : option (decode_result + pj_stun_msg) :=
  if attr_type <=? 0x7FFF then
    let status := PJ_STATUS_FROM_STUN_CODE PJ_STUN_SC_UNKNOWN_ATTRIBUTE in
    if want then
      r ← pj_stun_msg_create_response msg PJ_STUN_SC_UNKNOWN_ATTRIBUTE None;
      Some (inl (failed status
        (match r with
         | inl _ => None
         | inr response => Some (snd (pj_stun_msg_add_unknown_attr response [u16 attr_type]))
         end)))
    else Some (inl (failed status None))
  else if PJ_STUN_MAX_ATTR <=? zlen (attr msg) then
    inl <$> reject want msg PJNATH_ESTUNTOOMANYATTR PJ_STUN_SC_SERVER_ERROR None
  else
    len ← GETVAL16H pdu (pos + 2);
    data ← lslice pdu (pos + 4) (Z.to_nat len);
    match pj_stun_binary_attr_create attr_type data with
    | inl status => inl <$> reject want msg status PJ_STUN_SC_SERVER_ERROR None
    | inr a => Some (inr (mk_msg (msg_hdr msg) (attr msg ++ [a])))
    end.

(** The error text is cut to its buffer of 80 bytes. *)
Definition decode_error_text (status attr_type : Z) : list Z :=
  take 79 (pj_strerror status ++ zstring " in " ++ zstring (pj_stun_get_attr_name attr_type)).

(** An attribute with descriptor: a result, or the message and the two flags *)
Definition decode_known (want : bool) (msg : pj_stun_msg) (has_msg_int has_fingerprint : bool)
    (pdu : list Z) (pos : nat) (attr_type : Z) (kind : attr_kind)
    : option (decode_result + pj_stun_msg * bool * bool) :=
  r ← decode_attr kind pdu pos (msg_hdr msg);
  match r with
  | inl status =>
      inl <$> reject want msg status PJ_STUN_SC_BAD_REQUEST (Some (decode_error_text status attr_type))
  | inr a =>
      let bad status := inl <$> reject want msg status PJ_STUN_SC_BAD_REQUEST None in
      let add has_msg_int has_fingerprint :=
        if PJ_STUN_MAX_ATTR <=? zlen (attr msg) then
          inl <$> reject want msg PJNATH_ESTUNTOOMANYATTR PJ_STUN_SC_SERVER_ERROR None
        else Some (inr (mk_msg (msg_hdr msg) (attr msg ++ [a]), has_msg_int, has_fingerprint)) in
      if (attr_type =? PJ_STUN_ATTR_MESSAGE_INTEGRITY) && negb has_fingerprint then
        if has_msg_int then bad PJNATH_ESTUNDUPATTR else add true has_fingerprint
      else if attr_type =? PJ_STUN_ATTR_FINGERPRINT then
        if has_fingerprint then bad PJNATH_ESTUNDUPATTR else add has_msg_int true
      else if has_fingerprint then bad PJNATH_ESTUNFINGERPOS
      else add has_msg_int has_fingerprint
  end.

(** The loop over the attributes from [pos]; [pdu_len] bytes are left. *)
Fixpoint decode_attrs (fuel : nat) (want : bool) (msg : pj_stun_msg) (has_msg_int has_fingerprint : bool)
    (pdu : list Z) (pos : nat) (pdu_len : Z) : option decode_result :=
  match fuel with
  | O => None
  | S fuel =>
      if 4 <=? pdu_len then
        attr_type ← GETVAL16H pdu pos;
        attr_val_len ← GETVAL16H pdu (pos + 2);
        let attr_val_len := align4 attr_val_len in
        if pdu_len <? attr_val_len then
          reject want msg PJNATH_ESTUNINATTRLEN PJ_STUN_SC_BAD_REQUEST
            (Some (zstring ("Attribute " +:+ pj_stun_get_attr_name attr_type +:+ " has invalid length")))
        else
          r ← (match find_attr_desc attr_type with
               | None =>
                   r ← decode_unrecognized want msg pdu pos attr_type;
                   Some (match r with inl d => inl d | inr msg => inr (msg, has_msg_int, has_fingerprint) end)
               | Some (_, kind) => decode_known want msg has_msg_int has_fingerprint pdu pos attr_type kind
               end);
          match r with
          | inl d => Some d
          | inr (msg, has_msg_int, has_fingerprint) =>
              let n := if pdu_len <=? attr_val_len + 4 then pdu_len else attr_val_len + 4 in
              decode_attrs fuel want msg has_msg_int has_fingerprint pdu (pos + Z.to_nat n) (pdu_len - n)
          end
      else if 0 <? pdu_len then Some (failed PJNATH_EINSTUNMSGLEN None)
      else Some (mk_decoded PJ_SUCCESS (Some msg) (Z.of_nat pos) None)
  end.

(** [want_response]: p_response is not NULL *)
Definition pj_stun_msg_decode (addr : Z) (pdu : list Z) (pdu_len options : Z) (want_response : bool)
    : option decode_result :=
  if pdu_len =? 0 then Some (failed PJ_EINVAL None)
  else
    status ← (if has_option options PJ_STUN_CHECK_PACKET then pj_stun_msg_check addr pdu pdu_len options
              else Some PJ_SUCCESS);
    if negb (status =? PJ_SUCCESS) then Some (failed status None)
    else
      ty ← GETVAL16H pdu 0;
      len ← GETVAL16H pdu 2;
      magic ← GETVAL32H pdu 4;
      tsx_id ← lslice pdu 8 12;
      let msg := mk_msg (mk_msg_hdr ty len magic tsx_id) [] in
      let want := want_response && PJ_STUN_IS_REQUEST ty in
      decode_attrs (S (Z.to_nat len)) want msg false false pdu 20 len.
End Decode.

(** ** Encoding a message *)

Record encode_state := mk_enc { e_buf : list Z; e_pos : nat; e_size : Z }.

(** What the first loop stops at: an index past the attributes or the index of the first
    MESSAGE-INTEGRITY or FINGERPRINT *)
Inductive encode_stop := All_encoded | Stop_msgint | Stop_fingerprint.

(** One attribute: by its descriptor, or as a generic attribute *)
Definition encode_any (padding_char : Z) (a : pj_stun_attr) (buf : list Z) (pos : nat) (len : Z)
    (msghdr : pj_stun_msg_hdr) : option encode_result :=
  match find_attr_desc (attr_type a) with
  | Some (_, kind) => encode_attr padding_char kind a buf pos len msghdr
  | None =>
      match value a with
      | V_binary magic _ =>
          if magic =? PJ_STUN_MAGIC then encode_binary_attr a buf pos len else Some (PJ_EBUG, buf, 0)
      | _ => None
      end
  end.

(** The loop over the attributes from index [i]; a status other than success ends it. *)
Fixpoint encode_attrs (padding_char : Z) (attrs : list pj_stun_attr) (msghdr : pj_stun_msg_hdr) (i : nat)
    (e : encode_state) : option (Z * encode_state * nat * encode_stop) :=
  match attrs with
  | [] => Some (PJ_SUCCESS, e, i, All_encoded)
  | a :: attrs =>
      if attr_type a =? PJ_STUN_ATTR_MESSAGE_INTEGRITY then Some (PJ_SUCCESS, e, i, Stop_msgint)
      else if attr_type a =? PJ_STUN_ATTR_FINGERPRINT then Some (PJ_SUCCESS, e, i, Stop_fingerprint)
      else
        r ← encode_any padding_char a (e_buf e) (e_pos e) (u32 (e_size e)) msghdr;
        let '(status, buf, printed) := r in
        if negb (status =? PJ_SUCCESS) then Some (status, mk_enc buf (e_pos e) (e_size e), i, All_encoded)
        else encode_attrs padding_char attrs msghdr (S i)
               (mk_enc buf (e_pos e + Z.to_nat printed) (e_size e - printed))
  end.

(** The scan of the attributes from index [i] on: a status, and the indexes of
    MESSAGE-INTEGRITY and FINGERPRINT *)
Fixpoint encode_scan (attrs : list pj_stun_attr) (i : nat) (amsgint afingerprint : option nat)
    : Z + (option nat * option nat) :=
  match attrs with
  | [] => inr (amsgint, afingerprint)
  | a :: attrs =>
      match afingerprint with
      | Some _ => inl PJNATH_ESTUNFINGERPOS
      | None =>
          if attr_type a =? PJ_STUN_ATTR_MESSAGE_INTEGRITY then
            match amsgint with
            | Some _ => inl PJNATH_ESTUNMSGINTPOS
            | None => encode_scan attrs (S i) (Some i) afingerprint
            end
          else if attr_type a =? PJ_STUN_ATTR_FINGERPRINT then encode_scan attrs (S i) amsgint (Some i)
          else encode_scan attrs (S i) amsgint afingerprint
      end
  end.

(** Status, buffer, the message with its new values, and the length *)
Record encoded := mk_encoded { en_status : Z; en_buf : list Z; en_msg : pj_stun_msg; en_len : Z }.

Definition set_value (msg : pj_stun_msg) (i : nat) (v : attr_value) : option pj_stun_msg :=
  a ← attr msg !! i; Some (mk_msg (msg_hdr msg) (<[i := mk_attr (hdr a) v]> (attr msg))).

(** The check of the position of MESSAGE-INTEGRITY, with the index [i] that the scan
    has left: a status, or the index of FINGERPRINT. *)
Definition check_msgint_pos (attrs : list pj_stun_attr) (i : nat) (afingerprint : option nat)
    : option (Z + option nat) :=
  let attr_count := zlen attrs in
  if (1 <? attr_count) && (Z.of_nat i <? u32 (attr_count - 2)) then Some (inl PJNATH_ESTUNMSGINTPOS)
  else if Z.of_nat i =? u32 (attr_count - 2) then
    a ← attrs !! S i;
    Some (if attr_type a =? PJ_STUN_ATTR_FINGERPRINT then inr (Some (S i)) else inl PJNATH_ESTUNMSGINTPOS)
  else Some (inr afingerprint).

(** MESSAGE-INTEGRITY at index [k]: its digest covers the buffer up to [e_pos]. *)
Definition put_msgint (garbage : list Z) (msg : pj_stun_msg) (k : nat) (key : list Z) (e : encode_state)
    : option (Z * encode_state * pj_stun_msg) :=
  start ← lslice (e_buf e) 0 (e_pos e);
  ctx ← pj_hmac_sha1_init garbage key;
  ctx ← pj_hmac_sha1_update ctx start;
  '(_, digest) ← pj_hmac_sha1_final ctx;
  a ← attr msg !! k;
  match value a with
  | V_msgint _ =>
      msg ← set_value msg k (V_msgint digest);
      a ← attr msg !! k;
      '(status, buf, printed) ← encode_msgint_attr a (e_buf e) (e_pos e) (u32 (e_size e));
      Some (status, mk_enc buf (e_pos e + Z.to_nat printed) (e_size e - printed), msg)
  | _ => None
  end.

(** FINGERPRINT at index [k] *)
Definition put_fingerprint (addr : Z) (msg : pj_stun_msg) (k : nat) (e : encode_state)
    : option (Z * encode_state * pj_stun_msg) :=
  len ← GETVAL16H (e_buf e) 2;
  buf ← PUTVAL16H (e_buf e) 2 (u16 (len + 8));
  start ← lslice buf 0 (e_pos e);
  a ← attr msg !! k;
  match value a with
  | V_uint _ =>
      msg ← set_value msg k (V_uint (Z.lxor (pj_crc32_calc addr start) STUN_XOR_FINGERPRINT));
      a ← attr msg !! k;
      '(status, buf, printed) ← encode_uint_attr a buf (e_pos e) (u32 (e_size e));
      Some (status, mk_enc buf (e_pos e + Z.to_nat printed) (e_size e - printed), msg)
  | _ => None
  end.

Definition encode_stop_with (status : Z) (e : encode_state) (msg : pj_stun_msg) : option encoded :=
  Some (mk_encoded status (e_buf e) msg 0).

(** FINGERPRINT if present, then the length in the structure *)
Definition encode_fingerprint (addr : Z) (afingerprint : option nat) (e : encode_state) (msg : pj_stun_msg)
    : option encoded :=
  '(status, e, msg) ←
    (match afingerprint with
     | Some k => put_fingerprint addr msg k e
     | None => Some (PJ_SUCCESS, e, msg)
     end);
  if negb (status =? PJ_SUCCESS) then encode_stop_with status e msg
  else
    let h := msg_hdr msg in
    let h := mk_msg_hdr (m_type h) (u16 (Z.of_nat (e_pos e) - 20)) (m_magic h) (m_tsx_id h) in
    Some (mk_encoded PJ_SUCCESS (e_buf e) (mk_msg h (attr msg)) (Z.of_nat (e_pos e))).

(** The part after the attributes: [e] is the state, [i] the index after the scan. *)
Definition encode_trailer (garbage : list Z) (addr : Z) (msg : pj_stun_msg) (key : option (list Z))
    (amsgint afingerprint : option nat) (i : nat) (e : encode_state) : option encoded :=
  let body_len := u16 (Z.of_nat (e_pos e) - 20 + match amsgint with Some _ => 24 | None => 0 end) in
  buf ← PUTVAL16H (e_buf e) 2 body_len;
  let e := mk_enc buf (e_pos e) (e_size e) in
  match amsgint with
  | None => encode_fingerprint addr afingerprint e msg
  | Some k =>
      match key with
      | None => encode_stop_with PJ_EINVALIDOP e msg
      | Some key =>
          r ← check_msgint_pos (attr msg) i afingerprint;
          match r with
          | inl status => encode_stop_with status e msg
          | inr afingerprint =>
              '(status, e, msg) ← put_msgint garbage msg k key e;
              if negb (status =? PJ_SUCCESS) then encode_stop_with status e msg
              else encode_fingerprint addr afingerprint e msg
          end
      end
  end.

(** [addr] is the address of the buffer, [buf] what is writable there, [buf_size] the size
    the caller states, [garbage] uninitialised memory on the stack. *)
Definition pj_stun_msg_encode (padding_char : Z) (garbage : list Z) (addr : Z) (msg : pj_stun_msg)
    (buf : list Z) (buf_size options : Z) (key : option (list Z)) : option encoded :=
  let stop status buf := Some (mk_encoded status buf msg 0) in
  if buf_size =? 0 then stop PJ_EINVAL buf
  else if negb (options =? 0) then stop PJ_EINVAL buf
  else if buf_size <? 20 then stop PJ_ETOOSMALL buf
  else
    let h := msg_hdr msg in
    buf ← PUTVAL16H buf 0 (m_type h);
    buf ← PUTVAL16H buf 2 0;
    buf ← PUTVAL32H buf 4 (m_magic h);
    buf ← lcopy buf 8 (m_tsx_id h);
    '(status, e, i, how) ← encode_attrs padding_char (attr msg) h 0 (mk_enc buf 20 (buf_size - 20));
    if negb (status =? PJ_SUCCESS) then stop status (e_buf e)
    else
      let amsgint := match how with Stop_msgint => Some i | _ => None end in
      let afingerprint := match how with Stop_fingerprint => Some i | _ => None end in
      match encode_scan (drop (S i) (attr msg)) (S i) amsgint afingerprint with
      | inl status => stop status (e_buf e)
      | inr (amsgint, afingerprint) =>
          encode_trailer garbage addr msg key amsgint afingerprint
            (Nat.max (S i) (length (attr msg))) e
      end.
