(* ===== verification/StunWire.v ===== *)
(** * STUN attributes on the wire

    What an encoded attribute looks like, that the encoder writes just that, and
    that the decoder reads the attribute back from it. *)

From stdpp Require Import strings.
From S2P Require Import Prelude Words Crc32 Sha1 Stun.

(** ** Values in network order *)

Definition put16 (v : Z) : list Z := [u8 (Z.shiftr (Z.land v 0xFF00) 8); u8 (Z.land v 0x00FF)].
Definition put32 (v : Z) : list Z :=
  [u8 (Z.shiftr (Z.land v 0xFF000000) 24); u8 (Z.shiftr (Z.land v 0x00FF0000) 16);
   u8 (Z.shiftr (Z.land v 0x0000FF00) 8); u8 (Z.land v 0x000000FF)].

Lemma put16_bytes v : Forall is_byte (put16 v).
Proof. repeat constructor; apply u8_range. Qed.
Lemma put32_bytes v : Forall is_byte (put32 v).
Proof. repeat constructor; apply u8_range. Qed.

Lemma get16_put16 v rest : is_u16 v -> GETVAL16H (put16 v ++ rest) 0 = Some v.
Proof.
  intros Hv. cbn. f_equal. apply Z.bits_inj'. intros i Hi. destruct (decide (i < 16)).
  - each_bit 16%nat.
  - rewrite (testbit_high v 16) by (done || lia). rewrite u16_testbit by done. by destruct (Z.ltb_spec i 16); [lia|].
Qed.

Lemma get32_put32 v rest : is_u32 v -> GETVAL32H (put32 v ++ rest) 0 = Some v.
Proof.
  intros Hv. cbn. f_equal. apply Z.bits_inj'. intros i Hi. destruct (decide (i < 32)).
  - each_bit 32%nat.
  - rewrite (testbit_high v 32) by (done || lia). rewrite u32_testbit by done. by destruct (Z.ltb_spec i 32); [lia|].
Qed.

Lemma get16_shift l1 l2 i : GETVAL16H (l1 ++ l2) (length l1 + i) = GETVAL16H l2 i.
Proof. unfold GETVAL16H. by rewrite <- Nat.add_assoc, !lookup_app_r, !Nat.add_sub' by lia. Qed.

Lemma get32_shift l1 l2 i : GETVAL32H (l1 ++ l2) (length l1 + i) = GETVAL32H l2 i.
Proof. unfold GETVAL32H. by rewrite <- !Nat.add_assoc, !lookup_app_r, !Nat.add_sub' by lia. Qed.

Lemma get16_range l i v : GETVAL16H l i = Some v -> is_u16 v.
Proof.
  unfold GETVAL16H. destruct (l !! i); [|done]. destruct (l !! _); [|done]. cbn. intros [= <-]. apply u16_range.
Qed.

Lemma align4_eq n : 0 <= n < 2 ^ 31 -> align4 n = 4 * ((n + 3) / 4).
Proof.
  intros Hn. unfold align4. rewrite u32_id by (unfold is_u32; lia).
  replace (4 * ((n + 3) / 4)) with (Z.shiftl (Z.shiftr (n + 3) 2) 2)
    by (rewrite Z.shiftl_mul_pow2, Z.shiftr_div_pow2 by lia; change (2 ^ 2) with 4; lia).
  apply Z.bits_inj'. intros i Hi. rewrite Z.land_spec, Z.shiftl_spec by done.
  destruct (decide (i < 2)) as [H2|H2].
  - rewrite (Z.testbit_neg_r _ (i - 2)) by lia.
    assert (i = 0 \/ i = 1) as [-> | ->] by lia; by rewrite andb_false_r.
  - rewrite Z.shiftr_spec by lia. replace (i - 2 + 2) with i by lia. destruct (decide (i < 32)).
    + change 0xFFFFFFFC with (Z.shiftl (Z.ones 30) 2). rewrite Z.shiftl_spec by done.
      rewrite Z.ones_spec_low by lia. apply andb_true_r.
    + rewrite (testbit_high (n + 3) 32) by lia. done.
Qed.

(** ** The wire format *)

(** RFC 3489 lengths, which count the padding *)
Definition legacy (h : pj_stun_msg_hdr) (a : pj_stun_attr) : bool :=
  negb (m_magic h =? PJ_STUN_MAGIC) || (attr_type a =? PJ_STUN_ATTR_SOFTWARE).

(** The bytes up to the next multiple of 4 *)
Definition pad_len (n : nat) : nat := ((4 - n mod 4) mod 4)%nat.

Section Wire.
Context (padding_char : Z) (h : pj_stun_msg_hdr).

Definition string_padding (v : list Z) : list Z := replicate (pad_len (length v)) (u8 padding_char).

Definition wire_addr (xor_ed : bool) (sa : pj_sockaddr) : list Z :=
  let port := if xor_ed then xor_list (sin_port sa) magic16 else sin_port sa in
  match sa_family sa with
  | AF_INET => [0; 1] ++ port ++ (if xor_ed then xor_list (sin_addr sa) magic32 else sin_addr sa)
  | _ => [0; 2] ++ port ++ (if xor_ed then xor_list (sin_addr sa) (magic32 ++ m_tsx_id h) else sin_addr sa)
  end.

(** The value without the padding, except for strings, which are padded by the encoder *)
Definition payload (v : attr_value) : list Z :=
  match v with
  | V_sockaddr xor_ed sa => wire_addr xor_ed sa
  | V_empty => []
  | V_string v => v ++ string_padding v
  | V_uint v => put32 v
  | V_uint64 hi lo => put32 hi ++ put32 lo
  | V_msgint hmac => hmac
  | V_errcode code reason => [0; 0; u8 (Z.quot code 100); u8 (Z.rem code 100)] ++ reason
  | V_unknown attrs => attrs ≫= fun t => [u8 (Z.shiftr t 8); u8 t]
  | V_binary _ data => data
  end.

(** The length field *)
Definition wire_len (a : pj_stun_attr) : Z :=
  match value a with
  | V_string v => if legacy h a then zlen (v ++ string_padding v) else zlen v
  | v => zlen (payload v)
  end.

Definition wire (a : pj_stun_attr) : list Z := put16 (attr_type a) ++ put16 (wire_len a) ++ payload (value a).

(** The attribute the receiver has *)
Definition received (a : pj_stun_attr) : pj_stun_attr :=
  mk_attr (mk_attr_hdr (attr_type a) (wire_len a))
    (match value a with
     | V_string v => V_string (if legacy h a then v ++ string_padding v else v)
     | V_binary magic data =>
         V_binary (match find_attr_desc (attr_type a) with Some _ => 0 | None => magic end) data
     | v => v
     end).

Definition sockaddr_ok (sa : pj_sockaddr) : Prop :=
  length (sin_port sa) = 2%nat /\ Forall is_byte (sin_port sa) /\ Forall is_byte (sin_addr sa) /\
  match sa_family sa with
  | AF_INET => length (sin_addr sa) = 4%nat
  | AF_INET6 => length (sin_addr sa) = 16%nat
  | AF_OTHER => False
  end.

Definition value_ok (kind : attr_kind) (v : attr_value) : Prop :=
  match kind, v with
  | K_sockaddr, V_sockaddr xor_ed sa => xor_ed = false /\ sockaddr_ok sa
  | K_xored_sockaddr, V_sockaddr xor_ed sa => xor_ed = true /\ sockaddr_ok sa
  | K_empty, V_empty => True
  | K_string, V_string v => Forall is_byte v
  | K_uint, V_uint v => is_u32 v
  | K_uint64, V_uint64 hi lo => is_u32 hi /\ is_u32 lo
  | K_msgint, V_msgint hmac => Forall is_byte hmac /\ length hmac = 20%nat
  | K_errcode, V_errcode code reason => 0 <= code < 25600 /\ Forall is_byte reason
  | K_unknown, V_unknown attrs => Forall is_u16 attrs /\ (length attrs <= 16)%nat
  | K_binary, V_binary _ data => Forall is_byte data
  | _, _ => False
  end.

(** An attribute that can be sent in the body of a message *)
Definition attr_ok (a : pj_stun_attr) : Prop :=
  is_u16 (attr_type a) /\ zlen (payload (value a)) < 65536 /\
  match find_attr_desc (attr_type a) with
  | Some (_, kind) => value_ok kind (value a)
  | None =>
      0x7FFF < attr_type a /\
      match value a with V_binary magic data => magic = PJ_STUN_MAGIC /\ Forall is_byte data | _ => False end
  end.
End Wire.

Lemma xor_list_length l1 l2 : length l1 = length l2 -> length (xor_list l1 l2) = length l1.
Proof. intros H. unfold xor_list. rewrite length_zip_with. lia. Qed.

Lemma xor_list_twice l1 : forall l2, length l1 = length l2 -> xor_list (xor_list l1 l2) l2 = l1.
Proof.
  unfold xor_list. induction l1 as [|a l1 IH]; intros [|b l2] H; try done. cbn [zip_with].
  rewrite lxor_twice, IH by (injection H; done). done.
Qed.

Lemma pad_len_spec n : exists k, (n + pad_len n = 4 * k)%nat /\ (pad_len n < 4)%nat /\
  Z.of_nat (4 * k) = 4 * ((Z.of_nat n + 3) / 4).
Proof.
  unfold pad_len. pose proof (Nat.div_mod_eq n 4). pose proof (Nat.mod_upper_bound n 4 ltac:(lia)).
  set (r := (n mod 4)%nat) in *. set (q := (n / 4)%nat) in *.
  assert (r = 0 \/ r = 1 \/ r = 2 \/ r = 3)%nat as Hr by lia. clearbody q r.
  destruct Hr as [Hr|[Hr|[Hr|Hr]]]; rewrite Hr in *; [exists q|exists (S q)..];
    (split; [cbn; lia|]); (split; [cbn; lia|]); Z.to_euclidean_division_equations; lia.
Qed.

Lemma land3 n : Z.land (Z.of_nat n) 3 = Z.of_nat (n mod 4).
Proof. change 3 with (Z.ones 2). rewrite Z.land_ones by lia. by rewrite Nat2Z.inj_mod. Qed.

Lemma land3_pad n : Z.land (Z.of_nat n) 3 <> 0 -> Z.to_nat (4 - Z.land (Z.of_nat n) 3) = pad_len n.
Proof.
  rewrite land3. unfold pad_len. pose proof (Nat.mod_upper_bound n 4 ltac:(lia)). set (r := (n mod 4)%nat) in *.
  assert (r = 0 \/ r = 1 \/ r = 2 \/ r = 3)%nat as Hr by lia. clearbody r.
  by destruct Hr as [Hr|[Hr|[Hr|Hr]]]; rewrite Hr.
Qed.

Lemma land3_zero n : Z.land (Z.of_nat n) 3 = 0 -> pad_len n = 0%nat.
Proof. rewrite land3. unfold pad_len. intros E. by assert (n mod 4 = 0)%nat as -> by lia. Qed.

Lemma round_down_len n : Z.land (Z.of_nat n + 3) (-4) = Z.of_nat (n + pad_len n).
Proof.
  destruct (pad_len_spec n) as (k & -> & _ & ->).
  change (-4) with (Z.lnot (Z.ones 2)). rewrite <- Z.ldiff_land, Z.ldiff_ones_r by lia.
  rewrite Z.shiftl_mul_pow2, Z.shiftr_div_pow2 by lia. change (2 ^ 2) with 4. lia.
Qed.

Lemma words_length attrs : length (attrs ≫= fun t => [u8 (Z.shiftr t 8); u8 t]) = (2 * length attrs)%nat.
Proof. induction attrs as [|t attrs IH]; [done|]. cbn [mbind list_bind app length] in *. lia. Qed.

(** ** The encoder writes the wire format. *)

Section Spec.
Context (padding_char : Z) (h : pj_stun_msg_hdr) (Hid : length (m_tsx_id h) = 12%nat).

Abbreviation W := (wire padding_char h).
Abbreviation PL := (payload padding_char h).

Definition enc_len (a : pj_stun_attr) : Z := align4 (zlen (W a)).

Lemma wire_length a : length (W a) = (4 + length (PL (value a)))%nat.
Proof. done. Qed.

Lemma wire_zlen a : zlen (W a) = 4 + zlen (PL (value a)).
Proof. clear Hid. unfold zlen. rewrite wire_length. lia. Qed.

Lemma wire_addr_length xor_ed sa : sockaddr_ok sa ->
  length (wire_addr h xor_ed sa) = match sa_family sa with AF_INET => 8%nat | _ => 20%nat end.
Proof.
  intros (Hp & _ & _ & Ha). unfold wire_addr. destruct (sa_family sa), xor_ed; try done;
    rewrite !length_app, ?xor_list_length, Hp, Ha by (rewrite ?length_app, ?Hp, ?Ha, ?Hid; done); done.
Qed.

Ltac join := repeat (rewrite lcopy_join by (rewrite ?length_app in *; cbn in *; lia)); rewrite <- ?app_assoc.

Lemma encode_sockaddr_spec a xor_ed sa buf pos len :
  value a = V_sockaddr xor_ed sa -> sockaddr_ok sa -> enc_len a <= len ->
  encode_sockaddr_attr a buf pos len h = (b ← lcopy buf pos (W a); Some (PJ_SUCCESS, b, enc_len a)).
Proof.
  intros E Hsa Hlen. pose proof (wire_addr_length xor_ed sa Hsa) as Hw. destruct Hsa as (Hp & _ & _ & Ha).
  assert (enc_len a = match sa_family sa with AF_INET => 12 | _ => 24 end /\
    W a = put16 (attr_type a) ++ put16 (match sa_family sa with AF_INET => 8 | _ => 20 end) ++ wire_addr h xor_ed sa)
    as [El ->].
  { unfold enc_len, wire, wire_len, zlen. rewrite E. cbn [payload]. rewrite !length_app, Hw.
    by destruct (sa_family sa). }
  rewrite El in *. unfold encode_sockaddr_attr, put_sockaddr, PUTVAL16H. rewrite E.
  fold (put16 (attr_type a)). fold (put16 STUN_GENERIC_IPV4_ADDR_LEN). fold (put16 STUN_GENERIC_IPV6_ADDR_LEN).
  assert (Hport : length (if xor_ed then xor_list (sin_port sa) magic16 else sin_port sa) = 2%nat).
  { destruct xor_ed; [|done]. by rewrite xor_list_length. }
  unfold wire_addr. destruct (sa_family sa); [| |done];
    match goal with |- context [len <? ?n] => destruct (Z.ltb_spec len n) as [Hl|_]; [unfold ATTR_HDR_LEN, STUN_GENERIC_IPV4_ADDR_LEN, STUN_GENERIC_IPV6_ADDR_LEN in Hl; lia|] end;
    join; done.
Qed.

Lemma encode_string_spec a v buf pos len :
  value a = V_string v -> zlen (PL (value a)) < 65536 -> enc_len a <= len ->
  encode_string_attr padding_char a buf pos len h = (b ← lcopy buf pos (W a); Some (PJ_SUCCESS, b, enc_len a)).
Proof.
  intros E Hs Hlen. unfold encode_string_attr. rewrite E.
  destruct (pad_len_spec (length v)) as (k & Hk & Hp & Hr).
  assert (Hv : zlen v < 65536).
  { rewrite E in Hs. cbn [payload] in Hs. unfold zlen in *. rewrite length_app in Hs. lia. }
  assert (Hz : length (string_padding padding_char v) = pad_len (length v)) by apply length_replicate.
  assert (En : align4 (u32 (zlen v) + 4) = enc_len a).
  { unfold enc_len. rewrite wire_zlen, E. cbn [payload]. unfold zlen in *. rewrite length_app, Hz.
    rewrite u32_id by (unfold is_u32; lia). rewrite !align4_eq by lia. rewrite Nat2Z.inj_add.
    Z.to_euclidean_division_equations. lia. }
  rewrite En. destruct (Z.ltb_spec len (enc_len a)); [lia|].
  unfold PUTVAL16H. fold (put16 (attr_type a)).
  set (l16 := if _ || _ then _ else _). fold (put16 l16).
  assert (El : W a = put16 (attr_type a) ++ put16 l16 ++ v ++ string_padding padding_char v).
  { unfold wire, wire_len. rewrite E. cbn [payload]. do 3 f_equal. fold (legacy h a) in l16. subst l16.
    destruct (legacy h a).
    - unfold zlen. rewrite round_down_len, length_app, Hz. symmetry. apply u16_id. unfold is_u16, zlen in *.
      rewrite E in Hs. cbn [payload] in Hs. rewrite length_app, Hz in Hs. lia.
    - symmetry. apply u16_id. unfold is_u16, zlen in *. lia. }
  rewrite El. clearbody l16. unfold zlen at 1 2. destruct (Z.eqb_spec (Z.land (Z.of_nat (length v)) 3) 0) as [E0|E0]; cbn [negb].
  - cbn [mbind option_bind]. join. unfold string_padding. by rewrite (land3_zero _ E0), app_nil_r.
  - rewrite (land3_pad _ E0). fold (string_padding padding_char v). join. done.
Qed.

(** The other encoders first test the length, then copy. *)
Ltac simple_spec :=
  unfold PUTVAL32H, PUTVAL16H;
  match goal with |- context [if ?b then _ else _] =>
    let Hl := fresh in destruct b eqn:Hl; [apply Z.ltb_lt in Hl; lia|] end.

Lemma encode_fixed_len a n : zlen (PL (value a)) = 4 * n -> 0 <= n < 1000000 -> enc_len a = 4 + 4 * n.
Proof.
  intros E Hn. unfold enc_len. rewrite wire_zlen, E, align4_eq by lia. Z.to_euclidean_division_equations. lia.
Qed.

Lemma encode_uint_spec a v buf pos len :
  value a = V_uint v -> enc_len a <= len ->
  encode_uint_attr a buf pos len = (b ← lcopy buf pos (W a); Some (PJ_SUCCESS, b, enc_len a)).
Proof.
  intros E Hlen. rewrite (encode_fixed_len a 1) in * by (by rewrite ?E). unfold encode_uint_attr. rewrite E.
  simple_spec. join. unfold wire, wire_len. by rewrite E.
Qed.

Lemma encode_empty_spec a buf pos len :
  value a = V_empty -> enc_len a <= len ->
  encode_empty_attr a buf pos len = (b ← lcopy buf pos (W a); Some (PJ_SUCCESS, b, enc_len a)).
Proof.
  intros E Hlen. rewrite (encode_fixed_len a 0) in * by (by rewrite ?E). unfold encode_empty_attr. rewrite E.
  simple_spec. join. unfold wire, wire_len. by rewrite E.
Qed.

Lemma put64_spec buf pos hi lo : PUTVAL64H buf pos (hi, lo) = lcopy buf pos (put32 hi ++ put32 lo).
Proof. exact (lcopy_app buf pos (put32 hi) (put32 lo)). Qed.

Lemma join64 {B} buf pos j x hi lo (f : list Z -> option B) : j = (pos + length x)%nat ->
  (b1 ← lcopy buf pos x; b2 ← PUTVAL64H b1 j (hi, lo); f b2) =
  (b2 ← lcopy buf pos (x ++ put32 hi ++ put32 lo); f b2).
Proof. intros ->. rewrite <- lcopy_app. destruct (lcopy buf pos x); [|done]. cbn [mbind option_bind]. by rewrite put64_spec. Qed.

Lemma encode_uint64_spec a hi lo buf pos len :
  value a = V_uint64 hi lo -> enc_len a <= len ->
  encode_uint64_attr a buf pos len = (b ← lcopy buf pos (W a); Some (PJ_SUCCESS, b, enc_len a)).
Proof.
  intros E Hlen. rewrite (encode_fixed_len a 2) in * by (by rewrite ?E). unfold encode_uint64_attr.
  rewrite E. simple_spec. join. rewrite join64 by (cbn; lia). join. unfold wire, wire_len. by rewrite E.
Qed.

Lemma encode_msgint_spec a hmac buf pos len :
  value a = V_msgint hmac -> length hmac = 20%nat -> a_length (hdr a) = 20 -> enc_len a <= len ->
  encode_msgint_attr a buf pos len = (b ← lcopy buf pos (W a); Some (PJ_SUCCESS, b, enc_len a)).
Proof.
  intros E Hm H20 Hlen. rewrite (encode_fixed_len a 5) in * by (rewrite ?E; unfold zlen; cbn; lia).
  unfold encode_msgint_attr. rewrite E, H20. simple_spec. join. unfold wire, wire_len, zlen. rewrite E.
  cbn [payload]. by rewrite Hm.
Qed.

Lemma encode_errcode_spec a code reason buf pos len :
  value a = V_errcode code reason -> zlen (PL (value a)) < 65536 -> enc_len a <= len ->
  encode_errcode_attr a buf pos len = (b ← lcopy buf pos (W a); Some (PJ_SUCCESS, b, enc_len a)).
Proof.
  intros E Hs Hlen. unfold encode_errcode_attr. rewrite E.
  assert (Hp : zlen (PL (value a)) = 4 + zlen reason) by (rewrite E; unfold zlen; cbn [payload]; rewrite length_app; cbn; lia).
  assert (Hr : 0 <= zlen reason) by (unfold zlen; lia).
  assert (En : align4 (8 + u32 (zlen reason)) = enc_len a).
  { unfold enc_len. rewrite wire_zlen, Hp, u32_id by (unfold is_u32; lia). f_equal. lia. }
  assert (Hle : 8 + zlen reason <= enc_len a).
  { rewrite <- En, u32_id, align4_eq by (unfold is_u32; lia). Z.to_euclidean_division_equations. lia. }
  rewrite En, (u32_id (zlen reason)), (u32_id (8 + _)) by (unfold is_u32; lia).
  simple_spec. join. rewrite u16_id by (unfold is_u16; lia).
  unfold wire, wire_len. rewrite E in *. rewrite Hp. done.
Qed.

Lemma encode_unknown_spec a attrs buf pos len :
  value a = V_unknown attrs -> zlen (PL (value a)) < 65536 -> enc_len a <= len ->
  encode_unknown_attr a buf pos len = (b ← lcopy buf pos (W a); Some (PJ_SUCCESS, b, enc_len a)).
Proof.
  intros E Hs Hlen. unfold encode_unknown_attr. rewrite E.
  assert (Hp : zlen (PL (value a)) = Z.shiftl (zlen attrs) 1).
  { rewrite E. cbn [payload]. unfold zlen. rewrite words_length, Z.shiftl_mul_pow2 by lia. lia. }
  assert (Hr : 0 <= Z.shiftl (zlen attrs) 1) by (rewrite <- Hp; unfold zlen; lia).
  assert (En : align4 (4 + Z.shiftl (zlen attrs) 1) = enc_len a).
  { unfold enc_len. by rewrite wire_zlen, Hp. }
  assert (Hle : 4 + Z.shiftl (zlen attrs) 1 <= enc_len a).
  { rewrite <- En, align4_eq by lia. Z.to_euclidean_division_equations. lia. }
  rewrite En. simple_spec. join. rewrite u16_id by (unfold is_u16; lia).
  unfold wire, wire_len. rewrite E in *. rewrite Hp. done.
Qed.

Lemma encode_binary_spec a magic data buf pos len :
  value a = V_binary magic data -> zlen (PL (value a)) < 65536 -> enc_len a <= len ->
  encode_binary_attr a buf pos len = (b ← lcopy buf pos (W a); Some (PJ_SUCCESS, b, enc_len a)).
Proof.
  intros E Hs Hlen. unfold encode_binary_attr. rewrite E in *. cbn [payload] in Hs.
  assert (Hr : 0 <= zlen data) by (unfold zlen; lia).
  assert (En : align4 (u32 (zlen data) + 4) = enc_len a).
  { unfold enc_len. rewrite wire_zlen, u32_id, E by (unfold is_u32; lia). f_equal. cbn [payload]. lia. }
  rewrite En. simple_spec. join. rewrite u16_id by (unfold is_u16; lia).
  unfold wire, wire_len. rewrite E. done.
Qed.

(** With enough room, encoding is one copy of the wire format. *)
Lemma encode_attr_spec kind a buf pos len :
  value_ok kind (value a) -> zlen (PL (value a)) < 65536 ->
  (kind = K_msgint -> a_length (hdr a) = 20) -> enc_len a <= len ->
  encode_attr padding_char kind a buf pos len h = (b ← lcopy buf pos (W a); Some (PJ_SUCCESS, b, enc_len a)).
Proof.
  intros Hv Hs Hm Hlen. destruct kind, (value a) eqn:E; try done; cbn [value_ok encode_attr] in *; rewrite <- ?E in Hs.
  - eapply encode_sockaddr_spec; [done|apply Hv|done].
  - eapply encode_sockaddr_spec; [done|apply Hv|done].
  - by eapply encode_string_spec.
  - eapply encode_msgint_spec; [done|apply Hv|by apply Hm|done].
  - by eapply encode_errcode_spec.
  - by eapply encode_unknown_spec.
  - by eapply encode_uint_spec.
  - by eapply encode_uint64_spec.
  - by eapply encode_binary_spec.
  - by eapply encode_empty_spec.
Qed.
End Spec.

(** ** The decoder reads it back. *)

Lemma put16_alt t : put16 t = [u8 (Z.shiftr t 8); u8 t].
Proof.
  unfold put16. f_equal; [|f_equal]; apply Z.bits_inj'; intros i Hi; rewrite !u8_testbit by done;
    (destruct (Z.ltb_spec i 8); [|done]); each_bit 8%nat.
Qed.

Lemma get16_bytes a b rest : is_byte a -> is_byte b ->
  exists v, GETVAL16H (a :: b :: rest) 0 = Some v /\ [u8 (Z.shiftr v 8); u8 v] = [a; b].
Proof.
  intros Ha Hb. eexists. split; [reflexivity|]. f_equal; [|f_equal]; apply Z.bits_inj'; intros i Hi;
    (destruct (decide (i < 8)); [each_bit 8%nat|rewrite u8_testbit by done]);
    rewrite (proj2 (Z.ltb_ge i 8)) by lia; by first [rewrite (byte_testbit_high a) by (done || lia)|rewrite (byte_testbit_high b) by (done || lia)].
Qed.

Lemma lookup_shift {A} (l1 l2 : list A) i : (l1 ++ l2) !! (length l1 + i)%nat = l2 !! i.
Proof. by rewrite lookup_app_r, Nat.add_sub' by lia. Qed.

Lemma get_words_shift l1 l2 n : forall i, get_words (l1 ++ l2) (length l1 + i) n = get_words l2 i n.
Proof.
  induction n as [|n IH]; intros i; cbn [get_words]; [done|]. rewrite get16_shift, <- Nat.add_assoc, IH. done.
Qed.

Lemma attrhdr_shift l1 l2 i : GETATTRHDR (l1 ++ l2) (length l1 + i) = GETATTRHDR l2 i.
Proof. unfold GETATTRHDR. by rewrite <- Nat.add_assoc, !get16_shift. Qed.

Lemma decode_attr_shift kind l1 l2 h : decode_attr kind (l1 ++ l2) (length l1) h = decode_attr kind l2 0 h.
Proof.
  assert (S : decode_sockaddr_attr (l1 ++ l2) (length l1) h = decode_sockaddr_attr l2 0 h).
  { unfold decode_sockaddr_attr. rewrite <- (Nat.add_0_r (length l1)) at 1. rewrite attrhdr_shift.
    rewrite <- !(Nat.add_assoc (length l1)), !lookup_shift, !get16_shift.
    destruct (GETATTRHDR l2 0) as [a|]; [|done]. cbn [mbind option_bind]. destruct (_ && _); [done|].
    cbn [Nat.add]. destruct (l2 !! _); [|done]. cbn [mbind option_bind].
    destruct (GETVAL16H l2 _); cbn [mbind option_bind]; by rewrite ?lslice_shift. }
  destruct kind; cbn [decode_attr]; [exact S|unfold decode_xored_sockaddr_attr; by rewrite S|..];
    unfold decode_string_attr, decode_msgint_attr, decode_errcode_attr, decode_unknown_attr, decode_uint_attr,
      decode_uint64_attr, decode_binary_attr, decode_empty_attr, GETVAL64H;
    rewrite <- (Nat.add_0_r (length l1)) at 1; rewrite attrhdr_shift;
    rewrite <- ?(Nat.add_assoc (length l1)), ?lookup_shift, ?get32_shift; try done;
    (destruct (GETATTRHDR l2 0); [|done]); cbn [mbind option_bind];
    rewrite ?lslice_shift, ?get_words_shift; done.
Qed.

Lemma lslice_mid {A} (x p s : list A) i n : i = length x -> n = length p -> lslice (x ++ p ++ s) i n = Some p.
Proof.
  intros -> ->. rewrite <- (Nat.add_0_r (length x)), lslice_shift, lslice_eq by (rewrite length_app; lia).
  by rewrite drop_0, take_app_length.
Qed.

Lemma get_words_wire attrs : forall rest, Forall is_u16 attrs ->
  get_words ((attrs ≫= fun t => [u8 (Z.shiftr t 8); u8 t]) ++ rest) 0 (length attrs) = Some attrs.
Proof.
  induction attrs as [|t attrs IH]; intros rest H; [done|]. apply Forall_cons in H as [Ht H].
  cbn [mbind list_bind length get_words]. rewrite <- put16_alt, <- app_assoc, get16_put16 by done. cbn [mbind option_bind].
  change (0 + 2)%nat with (length (put16 t) + 0)%nat. rewrite get_words_shift. specialize (IH rest H).
  cbn [mbind list_bind] in IH. by rewrite IH.
Qed.

Section Read.
Context (padding_char : Z) (h : pj_stun_msg_hdr) (Hid : length (m_tsx_id h) = 12%nat)
  (Hidb : Forall is_byte (m_tsx_id h)).

Abbreviation W := (wire padding_char h).
Abbreviation PL := (payload padding_char h).

Lemma wire_len_range a : zlen (PL (value a)) < 65536 -> is_u16 (wire_len padding_char h a).
Proof.
  clear Hid Hidb.
  unfold is_u16, wire_len, zlen. destruct (value a); cbn [payload]; try lia.
  destruct (legacy h a); rewrite length_app; lia.
Qed.

Lemma hdr_wire a suf : is_u16 (attr_type a) -> zlen (PL (value a)) < 65536 ->
  GETATTRHDR (W a ++ suf) 0 = Some (mk_attr_hdr (attr_type a) (wire_len padding_char h a)).
Proof.
  intros Ht Hl. unfold GETATTRHDR, wire. rewrite <- !app_assoc, get16_put16 by done. cbn [mbind option_bind].
  change (0 + 2)%nat with (length (put16 (attr_type a)) + 0)%nat. rewrite get16_shift, get16_put16 by (by apply wire_len_range).
  done.
Qed.

(** Reading the payload *)
Lemma payload_slice a suf n : n = length (PL (value a)) -> lslice (W a ++ suf) 4 n = Some (PL (value a)).
Proof. intros ->. unfold wire. rewrite <- !app_assoc, (app_assoc (put16 _)). by apply lslice_mid. Qed.

Lemma payload_shift a suf : W a ++ suf = (put16 (attr_type a) ++ put16 (wire_len padding_char h a)) ++ PL (value a) ++ suf /\
  length (put16 (attr_type a) ++ put16 (wire_len padding_char h a)) = 4%nat.
Proof. unfold wire. by rewrite <- !app_assoc. Qed.

Lemma xor_list_bytes l1 : forall l2, Forall is_byte l1 -> Forall is_byte l2 -> Forall is_byte (xor_list l1 l2).
Proof.
  unfold xor_list. induction l1 as [|a l1 IH]; intros [|b l2] H1 H2; cbn [zip_with]; try done.
  apply Forall_cons in H1 as [Ha H1]. apply Forall_cons in H2 as [Hb H2].
  constructor; [by apply lxor_byte|by apply IH].
Qed.

(** An address as it is on the wire *)
Definition wire_sockaddr (xor_ed : bool) (sa : pj_sockaddr) : pj_sockaddr :=
  if xor_ed then
    mk_sockaddr (sa_family sa) (xor_list (sin_port sa) magic16)
      (xor_list (sin_addr sa) (match sa_family sa with AF_INET => magic32 | _ => magic32 ++ m_tsx_id h end))
  else sa.

Lemma wire_sockaddr_ok xor_ed sa : sockaddr_ok sa -> sockaddr_ok (wire_sockaddr xor_ed sa) /\
  wire_addr h xor_ed sa = wire_addr h false (wire_sockaddr xor_ed sa).
Proof.
  intros (Hp & Hpb & Hab & Ha). destruct xor_ed; [|done].
  assert (M16 : Forall is_byte magic16) by (repeat constructor; done).
  assert (M32 : Forall is_byte magic32) by (repeat constructor; done).
  unfold wire_addr, wire_sockaddr, sockaddr_ok. cbn [sin_port sin_addr sa_family].
  destruct (sa_family sa); [| |done];
    (split; [|done]); (split; [by rewrite xor_list_length|]); (split; [by apply xor_list_bytes|]);
    (split; [apply xor_list_bytes; [done|]; first [done|by apply Forall_app]|]);
    (rewrite xor_list_length; [done|]); rewrite ?length_app, ?Ha, ?Hid; done.
Qed.

Lemma decode_sockaddr_wire a xor_ed sa suf :
  is_u16 (attr_type a) -> value a = V_sockaddr xor_ed sa -> sockaddr_ok sa ->
  decode_sockaddr_attr (W a ++ suf) 0 h =
    Some (inr (mk_attr (mk_attr_hdr (attr_type a) (wire_len padding_char h a))
                 (V_sockaddr false (wire_sockaddr xor_ed sa)))).
Proof.
  intros Ht E Hsa. destruct (wire_sockaddr_ok xor_ed sa Hsa) as [(Hp & Hpb & Hab & Ha) Ew].
  assert (Hpl : PL (value a) = wire_addr h false (wire_sockaddr xor_ed sa)) by (rewrite E; exact Ew).
  set (s := wire_sockaddr xor_ed sa) in *.
  assert (Hlen : zlen (PL (value a)) = match sa_family s with AF_INET => 8 | _ => 20 end).
  { rewrite Hpl. unfold zlen, wire_addr. revert Ha. destruct (sa_family s); [| |done]; intros Ha;
      by rewrite !length_app, Hp, Ha. }
  unfold decode_sockaddr_attr. rewrite hdr_wire; [|done|rewrite Hlen; by destruct (sa_family s)].
  cbn [mbind option_bind a_length].
  assert (Hwl : wire_len padding_char h a = match sa_family s with AF_INET => 8 | _ => 20 end).
  { rewrite <- Hlen. unfold wire_len. by rewrite E. }
  rewrite Hwl. destruct (payload_shift a suf) as [Ews El]. rewrite Ews. unfold ATTR_HDR_LEN.
  assert (R : forall p1 p2, sin_port s = [p1; p2] ->
    GETVAL16H ((put16 (attr_type a) ++ put16 (wire_len padding_char h a)) ++ PL (value a) ++ suf) 6 =
    GETVAL16H (p1 :: p2 :: sin_addr s ++ suf) 0).
  { intros p1 p2 Epp. change 6%nat with (4 + 2)%nat. rewrite <- El, get16_shift, Hpl.
    unfold wire_addr. rewrite Epp. by destruct (sa_family s). }
  destruct (sin_port s) as [|p1 [|p2 [|]]] eqn:Ep; try done.
  rewrite !Forall_cons in Hpb. destruct Hpb as (Hb1 & Hb2 & _).
  destruct (get16_bytes p1 p2 (sin_addr s ++ suf)) as (v & Hv & Evb); [done..|].
  specialize (R p1 p2 eq_refl). rewrite Hv in R. cbn [Nat.add]. rewrite R.
  assert (F : ((put16 (attr_type a) ++ put16 (wire_len padding_char h a)) ++ PL (value a) ++ suf) !! 5%nat =
    Some (match sa_family s with AF_INET => 1 | _ => 2 end)).
  { change 5%nat with (4 + 1)%nat. rewrite <- El, lookup_shift, Hpl. unfold wire_addr. by destruct (sa_family s). }
  rewrite F. cbn [mbind option_bind].
  assert (L : lslice ((put16 (attr_type a) ++ put16 (wire_len padding_char h a)) ++ PL (value a) ++ suf) 8
    (length (sin_addr s)) = Some (sin_addr s)).
  { change 8%nat with (4 + 4)%nat. rewrite <- El, lslice_shift, Hpl. unfold wire_addr. rewrite Ep.
    destruct (sa_family s); [| |done]; cbn [app];
      [apply (lslice_mid [0; 1; p1; p2] (sin_addr s))|apply (lslice_mid [0; 2; p1; p2] (sin_addr s))]; done. }
  destruct s as [fam port addr]; cbn [sa_family sin_port sin_addr] in *. subst port.
  destruct fam; [| |done]; cbn -[lslice Z.shiftr u8 put16]; rewrite Ha in L; rewrite L; cbn [mbind option_bind]; by rewrite Evb.
Qed.

Lemma wire_sockaddr_twice sa : sockaddr_ok sa ->
  wire_sockaddr true (wire_sockaddr true sa) = sa.
Proof.
  intros (Hp & _ & _ & Ha). unfold wire_sockaddr. cbn [sa_family sin_port sin_addr].
  destruct sa as [f p a]. cbn [sa_family sin_port sin_addr] in *.
  rewrite xor_list_twice by done. destruct f; [| |done]; rewrite xor_list_twice; rewrite ?length_app, ?Ha, ?Hid; done.
Qed.

Lemma decode_uint_wire a v suf : is_u16 (attr_type a) -> value a = V_uint v -> is_u32 v ->
  decode_uint_attr (W a ++ suf) 0 = Some (inr (received padding_char h a)).
Proof.
  intros Ht E Hv. unfold decode_uint_attr. rewrite hdr_wire by (rewrite ?E; done). cbn [mbind option_bind].
  destruct (payload_shift a suf) as [-> El]. change (0 + 4)%nat with (4 + 0)%nat. rewrite <- El, get32_shift, E.
  cbn [payload]. rewrite get32_put32 by done. unfold received, wire_len. by rewrite E.
Qed.

Lemma get32_at l1 l2 n i : n = (length l1 + i)%nat -> GETVAL32H (l1 ++ l2) n = GETVAL32H l2 i.
Proof. intros ->. apply get32_shift. Qed.

Lemma decode_uint64_wire a hi lo suf : is_u16 (attr_type a) -> value a = V_uint64 hi lo -> is_u32 hi -> is_u32 lo ->
  decode_uint64_attr (W a ++ suf) 0 = Some (inr (received padding_char h a)).
Proof.
  intros Ht E Hhi Hlo. unfold decode_uint64_attr. rewrite hdr_wire by (rewrite ?E; done). cbn [mbind option_bind].
  unfold wire_len, GETVAL64H. rewrite E. cbn [a_length].
  destruct (payload_shift a suf) as [Ew El]. unfold wire_len in *. rewrite E in *. rewrite Ew. cbn [payload].
  rewrite (get32_at _ _ (0 + 4) 0), (get32_at _ _ (0 + 4 + 4) 4) by done. rewrite <- app_assoc.
  rewrite get32_put32, (get32_at (put32 hi) _ 4 0), get32_put32 by done. unfold received, wire_len. by rewrite E.
Qed.

Lemma decode_unknown_wire a attrs suf : is_u16 (attr_type a) -> value a = V_unknown attrs ->
  Forall is_u16 attrs -> (length attrs <= 16)%nat ->
  decode_unknown_attr (W a ++ suf) 0 = Some (inr (received padding_char h a)).
Proof.
  intros Ht E Hw Hl. assert (El : wire_len padding_char h a = 2 * zlen attrs).
  { unfold wire_len, zlen. rewrite E. cbn [payload]. rewrite words_length. lia. }
  unfold decode_unknown_attr. rewrite hdr_wire; [|done|rewrite E; cbn [payload]; unfold zlen; rewrite words_length; lia].
  cbn [mbind option_bind a_length]. rewrite Z.shiftr_div_pow2, El by lia. change (2 ^ 1) with 2.
  replace (2 * zlen attrs / 2) with (zlen attrs) by (rewrite Z.mul_comm, Z.div_mul; lia).
  destruct (Z.ltb_spec PJ_STUN_MAX_ATTR (zlen attrs)) as [H|_]; [unfold PJ_STUN_MAX_ATTR, zlen in H; lia|].
  destruct (payload_shift a suf) as [-> E4]. unfold ATTR_HDR_LEN. change (0 + 4)%nat with (4 + 0)%nat.
  rewrite <- E4, get_words_shift, E. unfold zlen. rewrite Nat2Z.id. cbn [payload]. rewrite get_words_wire by done.
  cbn [mbind option_bind]. unfold received. rewrite E, El. done.
Qed.

Lemma decode_errcode_wire a code reason suf : is_u16 (attr_type a) -> value a = V_errcode code reason ->
  0 <= code < 25600 -> zlen (PL (value a)) < 65536 ->
  decode_errcode_attr (W a ++ suf) 0 = Some (inr (received padding_char h a)).
Proof.
  intros Ht E Hc Hl. assert (El : wire_len padding_char h a = 4 + zlen reason).
  { unfold wire_len, zlen. rewrite E. cbn [payload]. rewrite length_app. cbn. lia. }
  unfold decode_errcode_attr. rewrite hdr_wire by done. cbn [mbind option_bind a_length]. rewrite El.
  replace (4 + zlen reason - 4) with (zlen reason) by lia.
  destruct (payload_shift a suf) as [-> E4].
  change (0 + 6)%nat with (4 + 2)%nat. change (0 + 7)%nat with (4 + 3)%nat. change (0 + ATTR_HDR_LEN + 4)%nat with (4 + 4)%nat.
  rewrite <- E4, !lookup_shift, lslice_shift, E. cbn [payload app]. cbn [lookup list_lookup mbind option_bind].
  destruct (Z.ltb_spec (zlen reason) 0) as [H|_]; [unfold zlen in H; lia|].
  unfold zlen. rewrite Nat2Z.id. 
  match goal with |- context [lslice ?l ?i (length reason)] => replace (lslice l i (length reason)) with (Some reason)
    by (symmetry; by apply (lslice_mid [0; 0; u8 (Z.quot code 100); u8 (Z.rem code 100)])) end.
  cbn [mbind option_bind]. unfold received. rewrite E, El. do 4 f_equal.
  rewrite Z.quot_div_nonneg, Z.rem_mod_nonneg by lia. rewrite !u8_id; unfold is_byte; Z.to_euclidean_division_equations; lia.
Qed.

(** An encoded attribute, whatever follows it, is decoded to what it stands for. *)
Lemma decode_attr_wire a name kind suf :
  is_u16 (attr_type a) -> zlen (PL (value a)) < 65536 ->
  find_attr_desc (attr_type a) = Some (name, kind) -> value_ok kind (value a) ->
  decode_attr kind (W a ++ suf) 0 h = Some (inr (received padding_char h a)).
Proof.
  intros Ht Hl Hd Hv. destruct kind, (value a) eqn:E; try done; cbn [value_ok decode_attr] in *; rewrite <- E in Hl.
  - destruct Hv as [-> Hsa]. rewrite (decode_sockaddr_wire a false sockaddr) by done. unfold received. by rewrite E.
  - destruct Hv as [-> Hsa]. unfold decode_xored_sockaddr_attr. rewrite (decode_sockaddr_wire a true sockaddr) by done.
    cbn [mbind option_bind]. unfold received. rewrite E. pose proof (wire_sockaddr_twice sockaddr Hsa) as T.
    destruct Hsa as (_ & _ & _ & Ha). unfold wire_sockaddr in *. cbn [sa_family sin_port sin_addr] in *.
    destruct (sa_family sockaddr); [| |done]; by rewrite T.
  - match type of E with _ = V_string ?v => rename v into w end.
    unfold decode_string_attr. rewrite hdr_wire by done. cbn [mbind option_bind a_length].
    assert (S : lslice (W a ++ suf) (0 + ATTR_HDR_LEN) (Z.to_nat (wire_len padding_char h a)) =
      Some (if legacy h a then w ++ string_padding padding_char w else w)).
    { destruct (payload_shift a suf) as [-> E4]. change (0 + ATTR_HDR_LEN)%nat with (4 + 0)%nat.
      rewrite <- E4, lslice_shift. unfold wire_len. rewrite E. cbn [payload].
      destruct (legacy h a); unfold zlen; rewrite Nat2Z.id.
      - by apply (lslice_mid []).
      - rewrite <- app_assoc. by apply (lslice_mid []). }
    rewrite S. unfold received. by rewrite E.
  - unfold decode_msgint_attr. destruct Hv as [_ H20]. rewrite hdr_wire by done.
    assert (Ew : wire_len padding_char h a = 20) by (unfold wire_len, zlen; rewrite E; cbn; by rewrite H20).
    cbn [mbind option_bind a_length]. rewrite Ew. cbn [negb Z.eqb Pos.eqb].
    rewrite payload_slice by (by rewrite E). rewrite E. unfold received. by rewrite E, Ew.
  - apply (decode_errcode_wire a err_code reason); tauto.
  - apply (decode_unknown_wire a attrs); tauto.
  - by eapply decode_uint_wire.
  - apply (decode_uint64_wire a hi lo); tauto.
  - unfold decode_binary_attr. rewrite hdr_wire by done. cbn [mbind option_bind a_length].
    assert (Ew : wire_len padding_char h a = zlen data) by (unfold wire_len; by rewrite E).
    rewrite Ew, payload_slice by (rewrite E; unfold zlen; by rewrite Nat2Z.id).
    rewrite E. unfold received. by rewrite E, Ew, Hd.
  - unfold decode_empty_attr. rewrite hdr_wire by done. cbn [mbind option_bind a_length].
    unfold received, wire_len. by rewrite E.
Qed.
End Read.
