(* ===== verification/StunMsg.v ===== *)
(** * STUN messages: what the encoder makes, the decoder reads *)

From stdpp Require Import strings.
From S2P Require Import Prelude Words Crc32 Sha1 Sha1Props Stun StunWire.

(** ** Bytes *)

Section Bytes.
Context (padding_char : Z) (h : pj_stun_msg_hdr) (Hid : length (m_tsx_id h) = 12%nat)
  (Hidb : Forall is_byte (m_tsx_id h)).

Lemma payload_bytes kind v : value_ok kind v -> Forall is_byte (payload padding_char h v).
Proof.
  intros Hv. destruct kind, v; try done; cbn [value_ok payload] in *.
  - destruct Hv as [-> Hsa]. destruct (wire_sockaddr_ok h Hid Hidb false sockaddr Hsa) as [(_ & Hp & Ha & _) _].
    unfold wire_addr. destruct (sa_family sockaddr); repeat (apply Forall_app; split); try done; by repeat constructor.
  - destruct Hv as [-> Hsa]. destruct (wire_sockaddr_ok h Hid Hidb true sockaddr Hsa) as [(_ & Hp & Ha & _) ->].
    unfold wire_addr. destruct (sa_family _); repeat (apply Forall_app; split); try done; by repeat constructor.
  - apply Forall_app; split; [done|]. apply Forall_replicate, u8_range.
  - tauto.
  - apply Forall_app; split; [|tauto]. repeat constructor; (done || apply u8_range).
  - apply Forall_bind, Forall_true. intros t. repeat constructor; apply u8_range.
  - apply put32_bytes.
  - apply Forall_app; split; apply put32_bytes.
Qed.

Lemma wire_bytes a : Forall is_byte (payload padding_char h (value a)) -> Forall is_byte (wire padding_char h a).
Proof. intros H. unfold wire. rewrite !Forall_app. auto using put16_bytes. Qed.

Lemma attr_ok_bytes a : attr_ok padding_char h a -> Forall is_byte (wire padding_char h a).
Proof.
  intros (_ & _ & Hv). apply wire_bytes. destruct (find_attr_desc _) as [[? kind]|].
  - by apply (payload_bytes kind).
  - destruct Hv as [_ Hv]. destruct (value a); try done. apply Hv.
Qed.
End Bytes.

(** ** The space of an attribute *)

Lemma align4_range n : 0 <= n < 2 ^ 31 -> n <= align4 n < n + 4 /\ align4 n mod 4 = 0.
Proof. intros H. rewrite align4_eq by done. Z.to_euclidean_division_equations. lia. Qed.

Lemma align4_padded padding_char v : zlen v < 65536 ->
  align4 (zlen v) = align4 (zlen (v ++ string_padding padding_char v)).
Proof.
  intros Hl. destruct (pad_len_spec (length v)) as (k & Hk & Hp & Hr).
  unfold string_padding, zlen in *. rewrite length_app, length_replicate, !align4_eq by lia.
  Z.to_euclidean_division_equations. lia.
Qed.

Lemma align4_len padding_char h a : zlen (payload padding_char h (value a)) < 65536 ->
  4 + align4 (wire_len padding_char h a) = enc_len padding_char h a.
Proof.
  intros Hl. assert (H0 : forall (l : list Z), 0 <= zlen l) by (intros; unfold zlen; lia).
  pose proof (H0 (payload padding_char h (value a))).
  unfold enc_len. rewrite wire_zlen. rewrite (align4_eq (4 + zlen (payload padding_char h (value a)))) by lia.
  assert (E : align4 (wire_len padding_char h a) = align4 (zlen (payload padding_char h (value a)))).
  { unfold wire_len. destruct (value a); try done. cbn [payload] in *. destruct (legacy h a); [done|].
    apply align4_padded. unfold zlen in *. rewrite length_app in Hl. lia. }
  rewrite E, align4_eq by lia. Z.to_euclidean_division_equations. lia.
Qed.

Lemma lcopy_at (pre rest w : list Z) : (length w <= length rest)%nat ->
  lcopy (pre ++ rest) (length pre) w = Some (pre ++ w ++ drop (length w) rest).
Proof.
  intros H. rewrite lcopy_eq by (rewrite length_app; lia). by rewrite take_app_length, drop_app_add'.
Qed.

Lemma get16_start l1 l2 : GETVAL16H (l1 ++ l2) (length l1) = GETVAL16H l2 0.
Proof. rewrite <- (Nat.add_0_r (length l1)) at 1. apply get16_shift. Qed.

(** ** Types of attributes *)

(** All types that have a descriptor *)
Definition known_types : list Z := seqZ 0 0x31 ++ seqZ 0x8021 10.

Lemma desc_known t d : 0 <= t -> find_attr_desc t = Some d -> In t known_types.
Proof.
  intros H0 Hd. unfold find_attr_desc, PJ_STUN_ATTR_END_MANDATORY_ATTR, PJ_STUN_ATTR_START_EXTENDED_ATTR,
    PJ_STUN_ATTR_END_EXTENDED_ATTR in Hd.
  apply list_elem_of_In, elem_of_app. rewrite !elem_of_seqZ.
  destruct (Z.ltb_spec t 0x31); [lia|]. destruct (Z.leb_spec 0x8021 t), (Z.ltb_spec t 0x802B); cbn in Hd; try done. lia.
Qed.

Lemma desc_msgint t name : 0 <= t -> find_attr_desc t = Some (name, K_msgint) -> t = PJ_STUN_ATTR_MESSAGE_INTEGRITY.
Proof.
  intros H0 Hd.
  assert (K : forallb (fun t => match find_attr_desc t with Some (_, K_msgint) => t =? 8 | _ => true end) known_types = true)
    by (vm_compute; reflexivity).
  rewrite forallb_forall in K. specialize (K t (desc_known t _ H0 Hd)). rewrite Hd in K. by apply Z.eqb_eq.
Qed.

(** ** Encoded attributes one behind the other *)

Section Body.
Context (padding_char : Z) (h : pj_stun_msg_hdr) (Hid : length (m_tsx_id h) = 12%nat)
  (Hidb : Forall is_byte (m_tsx_id h)).

Abbreviation W := (wire padding_char h).

(** Not MESSAGE-INTEGRITY nor FINGERPRINT *)
Definition ordinary (a : pj_stun_attr) : Prop :=
  attr_type a <> PJ_STUN_ATTR_MESSAGE_INTEGRITY /\ attr_type a <> PJ_STUN_ATTR_FINGERPRINT.

Definition core_ok (a : pj_stun_attr) : Prop := attr_ok padding_char h a /\ ordinary a.

(** The attributes and what follows each up to a multiple of 4 *)
Inductive encodes : list pj_stun_attr -> list Z -> Prop :=
| encodes_nil : encodes [] []
| encodes_cons a attrs pad body :
    zlen (W a ++ pad) = enc_len padding_char h a -> encodes attrs body ->
    encodes (a :: attrs) (W a ++ pad ++ body).

Definition body_len (attrs : list pj_stun_attr) : Z := foldr (fun a n => enc_len padding_char h a + n) 0 attrs.

Lemma encodes_len attrs body : encodes attrs body -> zlen body = body_len attrs.
Proof.
  clear Hid Hidb. induction 1 as [|a attrs pad body Hp He IH]; [done|]. cbn [body_len foldr]. fold (body_len attrs).
  unfold zlen in *. rewrite !length_app in *. lia.
Qed.

Lemma enc_len_pos a : zlen (payload padding_char h (value a)) < 65536 ->
  4 <= zlen (W a) <= enc_len padding_char h a /\ enc_len padding_char h a mod 4 = 0.
Proof.
  clear Hid Hidb. intros Hl. unfold enc_len. rewrite wire_zlen. assert (0 <= zlen (payload padding_char h (value a))) by (unfold zlen; lia).
  destruct (align4_range (4 + zlen (payload padding_char h (value a)))); lia.
Qed.

Lemma body_len_nonneg attrs : Forall core_ok attrs -> 0 <= body_len attrs.
Proof.
  clear Hid Hidb. induction 1 as [|a attrs [[_ [Hl _]] _] _ IH]; [done|]. cbn [body_len foldr]. fold (body_len attrs).
  destruct (enc_len_pos a Hl). lia.
Qed.

(** Encoding one attribute into the rest of the buffer *)
Lemma encode_one pre rest a (size : Z) :
  core_ok a -> enc_len padding_char h a <= size < 2 ^ 32 -> enc_len padding_char h a <= zlen rest ->
  exists pad rest', rest' = drop (length (pad ++ W a)) rest /\ zlen (W a ++ pad) = enc_len padding_char h a /\
    pad = take (length pad) (drop (length (W a)) rest) /\
    encode_any padding_char a (pre ++ rest) (length pre) (u32 size) h =
      Some (PJ_SUCCESS, pre ++ W a ++ pad ++ rest', enc_len padding_char h a).
Proof.
  intros [(Ht & Hl & Hv) [Hm _]] Hs Hr. destruct (enc_len_pos a Hl) as [[H4 Hw] _].
  rewrite u32_id by (unfold is_u32; lia).
  assert (C : forall X, X = (b ← lcopy (pre ++ rest) (length pre) (W a); Some (PJ_SUCCESS, b, enc_len padding_char h a)) ->
    X = Some (PJ_SUCCESS, pre ++ W a ++ drop (length (W a)) rest, enc_len padding_char h a)).
  { intros X ->. rewrite lcopy_at by (unfold zlen in *; lia). done. }
  set (n := Z.to_nat (enc_len padding_char h a - zlen (W a))).
  exists (take n (drop (length (W a)) rest)), (drop (length (W a) + n) rest).
  assert (Hn : length (take n (drop (length (W a)) rest)) = n).
  { rewrite length_take, length_drop. unfold zlen in *. lia. }
  split; [rewrite length_app, Hn; f_equal; lia|]. split.
  { unfold zlen in *. rewrite length_app, Hn. lia. }
  split; [by rewrite Hn|]. rewrite <- drop_drop, (take_drop n (drop (length (W a)) rest)).
  apply C. unfold encode_any. destruct (find_attr_desc (attr_type a)) as [[s kind]|] eqn:Ed.
  - apply encode_attr_spec; try done; [|lia]. intros ->. exfalso. apply Hm, (desc_msgint _ s); [apply Ht|done].
  - destruct Hv as [_ Hv]. destruct (value a) eqn:E; try done. destruct Hv as [-> _]. rewrite Z.eqb_refl.
    rewrite <- E in Hl. eapply encode_binary_spec; first [done|lia].
Qed.

Ltac lens := unfold zlen in *; cbn [attr length] in *; rewrite ?length_app, ?length_drop, ?length_app in *; cbn [length] in *; lia.

(** The first loop of the encoder over ordinary attributes *)
Lemma encode_body attrs : forall tail pre rest i (size : Z),
  Forall core_ok attrs -> body_len attrs <= size < 2 ^ 32 -> body_len attrs <= zlen rest ->
  Forall is_byte rest ->
  exists body rest', encodes attrs body /\ zlen (body ++ rest') = zlen rest /\ Forall is_byte (body ++ rest') /\
    encode_attrs padding_char (attrs ++ tail) h i (mk_enc (pre ++ rest) (length pre) size) =
    encode_attrs padding_char tail h (i + length attrs)
      (mk_enc (pre ++ body ++ rest') (length pre + length body) (size - zlen body)).
Proof.
  induction attrs as [|a attrs IH]; intros tail pre rest i size Hc Hs Hr Hb.
  - exists [], rest. cbn [app length]. rewrite !Nat.add_0_r, Z.sub_0_r. split; [constructor|done].
  - apply Forall_cons in Hc as [Ha Hc]. cbn [body_len foldr] in Hs, Hr. fold (body_len attrs) in Hs, Hr.
    pose proof (body_len_nonneg attrs Hc). pose proof Ha as [(_ & Hl & _) [Hm Hf]].
    destruct (enc_len_pos a Hl) as [H4 _].
    destruct (encode_one pre rest a size Ha ltac:(lia) ltac:(lia)) as (pad & rest1 & E1 & Ep & Epad & Eenc).
    assert (Hlr : zlen (W a ++ pad ++ rest1) = zlen rest).
    { rewrite E1. lens. }
    destruct (IH tail (pre ++ W a ++ pad) rest1 (S i) (size - enc_len padding_char h a)) as (body & rest' & He & Hz & Hbb & E).
    + done.
    + lia.
    + lens.
    + rewrite E1. by apply Forall_drop.
    + exists (W a ++ pad ++ body), rest'. split; [by constructor|]. split; [|split].
      * lens.
      * rewrite <- !app_assoc. apply Forall_app. split; [apply attr_ok_bytes; [done..|apply Ha]|].
        apply Forall_app. split; [|done]. rewrite Epad. by apply Forall_take, Forall_drop.
      * cbn [app encode_attrs e_buf e_pos e_size].
        destruct (Z.eqb_spec (attr_type a) PJ_STUN_ATTR_MESSAGE_INTEGRITY); [done|].
        destruct (Z.eqb_spec (attr_type a) PJ_STUN_ATTR_FINGERPRINT); [done|].
        rewrite Eenc. cbn [mbind option_bind Z.eqb negb PJ_SUCCESS].
        replace (length pre + Z.to_nat (enc_len padding_char h a))%nat with (length (pre ++ W a ++ pad))
          by lens.
        rewrite <- !app_assoc in E. rewrite <- !app_assoc. etrans; [exact E|].
        f_equal; [cbn; lia|]. f_equal; lens.
Qed.

Lemma get16_wire a suf : is_u16 (attr_type a) -> zlen (payload padding_char h (value a)) < 65536 ->
  GETVAL16H (W a ++ suf) 0 = Some (attr_type a) /\ GETVAL16H (W a ++ suf) 2 = Some (wire_len padding_char h a).
Proof.
  intros Ht Hl. unfold wire. rewrite <- !app_assoc. split; [by apply get16_put16|].
  change 2%nat with (length (put16 (attr_type a)) + 0)%nat. rewrite get16_shift.
  apply get16_put16, (wire_len_range padding_char h a Hl).
Qed.

Context (pj_strerror : Z -> list Z).

(** What the decoder makes of one attribute that the table knows or that is generic *)
Lemma decode_step a pre suf want msg mi fp :
  core_ok a -> msg_hdr msg = h -> zlen (attr msg) < 16 -> fp = false ->
  (match find_attr_desc (attr_type a) with
   | None =>
       r ← decode_unrecognized want msg (pre ++ W a ++ suf) (length pre) (attr_type a);
       Some (match r with inl d => inl d | inr msg => inr (msg, mi, fp) end)
   | Some (_, kind) => decode_known pj_strerror want msg mi fp (pre ++ W a ++ suf) (length pre) (attr_type a) kind
   end) = Some (inr (mk_msg h (attr msg ++ [received padding_char h a]), mi, fp)).
Proof.
  intros [(Ht & Hl & Hv) [Hm Hf]] Hh H16 ->. destruct (find_attr_desc (attr_type a)) as [[s kind]|] eqn:Ed.
  - unfold decode_known. rewrite Hh, decode_attr_shift, (decode_attr_wire _ _ Hid Hidb _ s) by done.
    cbn [mbind option_bind].
    destruct (Z.eqb_spec (attr_type a) PJ_STUN_ATTR_MESSAGE_INTEGRITY); [done|].
    destruct (Z.eqb_spec (attr_type a) PJ_STUN_ATTR_FINGERPRINT); [done|]. cbn [andb].
    destruct (Z.leb_spec PJ_STUN_MAX_ATTR (zlen (attr msg))) as [H|_]; [unfold PJ_STUN_MAX_ATTR in H; lia|done].
  - destruct Hv as [H7 Hv]. destruct (value a) eqn:E; try done. destruct Hv as [-> _]. rewrite <- E in Hl.
    unfold decode_unrecognized. destruct (Z.leb_spec (attr_type a) 0x7FFF); [lia|].
    destruct (Z.leb_spec PJ_STUN_MAX_ATTR (zlen (attr msg))) as [H1|_]; [unfold PJ_STUN_MAX_ATTR in H1; lia|].
    rewrite get16_shift. destruct (get16_wire a suf Ht Hl) as [_ ->]. cbn [mbind option_bind]. rewrite lslice_shift.
    assert (Ew : wire_len padding_char h a = zlen data) by (unfold wire_len; by rewrite E).
    rewrite payload_slice by (rewrite Ew, E; unfold zlen; by rewrite Nat2Z.id).
    rewrite E. cbn [payload mbind option_bind]. unfold pj_stun_binary_attr_create, INIT_ATTR.
    destruct (Z.eqb_spec (attr_type a) 0); [lia|]. rewrite Hh. cbn [mbind option_bind].
    unfold received. rewrite E, Ed, Ew, (u16_id (attr_type a)), u16_id; [done| |done].
    unfold is_u16. rewrite E in Hl. cbn [payload] in Hl. unfold zlen in *. lia.
Qed.

Lemma decode_body attrs : forall body msg pre suf fuel want r,
  Forall core_ok attrs -> encodes attrs body -> msg_hdr msg = h -> zlen (attr msg) + zlen attrs <= 16 ->
  0 <= r -> zlen body + r < 65536 ->
  decode_attrs pj_strerror (length attrs + fuel) want msg false false (pre ++ body ++ suf) (length pre) (zlen body + r) =
  decode_attrs pj_strerror fuel want (mk_msg h (attr msg ++ map (received padding_char h) attrs)) false false
    (pre ++ body ++ suf) (length pre + length body) r.
Proof.
  induction attrs as [|a attrs IH]; intros body msg pre suf fuel want r Hc He Hh H16 Hr Hz.
  - inversion He; subst body. cbn [map length app]. rewrite app_nil_r, Nat.add_0_r.
    change (zlen (@nil Z) + r) with (0 + r). rewrite Z.add_0_l, <- Hh. by destruct msg.
  - apply Forall_cons in Hc as [Ha Hc]. inversion He as [|a' attrs' pad body' Hp He']; subst a' attrs' body.
    pose proof Ha as [(Ht & Hl & _) _]. pose proof (encodes_len _ _ He'). pose proof (body_len_nonneg attrs Hc).
    destruct (enc_len_pos a Hl) as [H4 _]. pose proof (align4_len padding_char h a Hl) as HL.
    assert (Hzb : zlen (W a ++ pad ++ body') = enc_len padding_char h a + zlen body') by lens.
    cbn [length Nat.add decode_attrs].
    destruct (Z.leb_spec 4 (zlen (W a ++ pad ++ body') + r)) as [_|H4']; [|lia].
    rewrite <- !app_assoc, get16_start, get16_shift.
    destruct (get16_wire a (pad ++ body' ++ suf) Ht Hl) as [-> ->]. cbn [mbind option_bind].
    destruct (Z.ltb_spec (zlen (W a ++ pad ++ body') + r) (align4 (wire_len padding_char h a))); [lia|].
    rewrite (decode_step a) by (done || lens). cbn [mbind option_bind].
    set (n := if _ <=? _ then _ else _).
    assert (Hn : n = enc_len padding_char h a) by (subst n; destruct (Z.leb_spec (zlen (W a ++ pad ++ body') + r)
      (align4 (wire_len padding_char h a) + 4)); lia).
    rewrite Hn. clear n Hn.
    specialize (IH body' (mk_msg h (attr msg ++ [received padding_char h a])) (pre ++ W a ++ pad)
      suf fuel want r Hc He' eq_refl ltac:(lens) Hr ltac:(lia)).
    replace (length (pre ++ W a ++ pad)) with (length pre + Z.to_nat (enc_len padding_char h a))%nat in IH by lens.
    rewrite <- !app_assoc in IH. replace (zlen (W a ++ pad ++ body') + r - enc_len padding_char h a) with (zlen body' + r) by lia.
    rewrite IH. cbn [attr map]. rewrite <- app_assoc. f_equal. lens.
Qed.
End Body.

(** ** The header and the two trailing attributes *)

Definition hdr_bytes (h : pj_stun_msg_hdr) (len : Z) : list Z :=
  put16 (m_type h) ++ put16 len ++ put32 (m_magic h) ++ m_tsx_id h.

Definition with_len (h : pj_stun_msg_hdr) (len : Z) : pj_stun_msg_hdr :=
  mk_msg_hdr (m_type h) len (m_magic h) (m_tsx_id h).

Definition hdr_ok (h : pj_stun_msg_hdr) : Prop :=
  is_u16 (m_type h) /\ is_u32 (m_magic h) /\ length (m_tsx_id h) = 12%nat /\ Forall is_byte (m_tsx_id h).

Definition mi_attr (hmac : list Z) : pj_stun_attr := mk_attr (mk_attr_hdr PJ_STUN_ATTR_MESSAGE_INTEGRITY 20) (V_msgint hmac).
Definition fp_attr (v : Z) : pj_stun_attr := mk_attr (mk_attr_hdr PJ_STUN_ATTR_FINGERPRINT 4) (V_uint v).

Definition mi_wire (hmac : list Z) : list Z := put16 PJ_STUN_ATTR_MESSAGE_INTEGRITY ++ put16 20 ++ hmac.
Definition fp_wire (v : Z) : list Z := put16 PJ_STUN_ATTR_FINGERPRINT ++ put16 4 ++ put32 v.

Lemma hdr_bytes_length h len : length (m_tsx_id h) = 12%nat -> length (hdr_bytes h len) = 20%nat.
Proof. intros H. unfold hdr_bytes. rewrite !length_app, H. done. Qed.

Lemma hdr_bytes_bytes h len : hdr_ok h -> Forall is_byte (hdr_bytes h len).
Proof. intros (_ & _ & _ & H). unfold hdr_bytes. rewrite !Forall_app. auto using put16_bytes, put32_bytes. Qed.

Lemma put_len h len len' rest :
  PUTVAL16H (hdr_bytes h len ++ rest) 2 len' = Some (hdr_bytes h len' ++ rest).
Proof.
  unfold hdr_bytes, PUTVAL16H. fold (put16 len'). rewrite <- !app_assoc.
  rewrite (lcopy_at (put16 (m_type h)) (put16 len ++ _) (put16 len')) by (rewrite length_app; cbn; lia). done.
Qed.

Lemma get_len h len rest : is_u16 len -> GETVAL16H (hdr_bytes h len ++ rest) 2 = Some len.
Proof.
  intros Hl. unfold hdr_bytes. rewrite <- !app_assoc. change 2%nat with (length (put16 (m_type h)) + 0)%nat.
  rewrite get16_shift. by apply get16_put16.
Qed.

Ltac lens := unfold zlen in *; cbn [attr length] in *; rewrite ?length_app, ?length_drop, ?length_app in *;
  cbn [length] in *; lia.

Lemma lslice_prefix {A} (p s : list A) : lslice (p ++ s) 0 (length p) = Some p.
Proof. exact (lslice_mid [] p s 0 _ eq_refl eq_refl). Qed.

Section Trailer.
Context (garbage : list Z) (Hg : length garbage = 64%nat).

Lemma hmac_one key P : Forall is_byte key -> zlen key < 2 ^ 29 -> Forall is_byte P -> zlen P < 2 ^ 29 ->
  (ctx ← pj_hmac_sha1_init garbage key; ctx ← pj_hmac_sha1_update ctx P; pj_hmac_sha1_final ctx) <> None /\
  forall c, (ctx ← pj_hmac_sha1_init garbage key; ctx ← pj_hmac_sha1_update ctx P; pj_hmac_sha1_final ctx) = Some c ->
    c.2 = hmac_reference key P.
Proof.
  intros Hk Hkl HP HPl. pose proof (hmac_correct garbage key [P] Hg Hk Hkl) as H.
  cbn [hmac_feed concat] in H. rewrite app_nil_r in H. 
  assert (Hp : pieces_ok [P]) by (split; [by repeat constructor|cbn [concat]; rewrite app_nil_r; lia]).
  specialize (H Hp). destruct (pj_hmac_sha1_init garbage key) as [c0|]; [|done]. cbn [mbind option_bind] in *.
  destruct (pj_hmac_sha1_update c0 P) as [c1|]; [|done]. cbn [mbind option_bind] in *.
  destruct (pj_hmac_sha1_final c1) as [c2|]; [|done]. cbn [mbind option_bind] in *. split; [done|].
  intros c [= <-]. by injection H.
Qed.

Lemma put_msgint_spec hh A k hm key P rest (size : Z) :
  A !! k = Some (mi_attr hm) -> Forall is_byte key -> zlen key < 2 ^ 29 -> Forall is_byte P -> zlen P < 2 ^ 29 ->
  24 <= size < 2 ^ 32 -> 24 <= zlen rest ->
  let d := hmac_reference key P in
  put_msgint garbage (mk_msg hh A) k key (mk_enc (P ++ rest) (length P) size) =
    Some (PJ_SUCCESS, mk_enc (P ++ mi_wire d ++ drop 24 rest) (length P + 24) (size - 24),
          mk_msg hh (<[k := mi_attr d]> A)).
Proof.
  intros HA Hk Hkl HP HPl Hs Hr d. unfold put_msgint. cbn [e_buf e_pos e_size attr]. rewrite lslice_prefix.
  cbn [mbind option_bind]. destruct (hmac_one key P Hk Hkl HP HPl) as [Hn Hc].
  destruct (pj_hmac_sha1_init garbage key) as [c0|]; [|done]. cbn [mbind option_bind] in *.
  destruct (pj_hmac_sha1_update c0 P) as [c1|]; [|done]. cbn [mbind option_bind] in *.
  destruct (pj_hmac_sha1_final c1) as [[c2 dg]|]; [|done]. cbn [mbind option_bind].
  specialize (Hc _ eq_refl). cbn [snd] in Hc. subst dg. fold d. rewrite HA. cbn [mbind option_bind value mi_attr].
  unfold set_value. cbn [attr msg_hdr]. rewrite HA. cbn [mbind option_bind attr hdr mi_attr].
  rewrite list_lookup_insert_eq by (by eapply lookup_lt_Some). cbn [mbind option_bind].
  assert (Hd : length d = 20%nat) by apply reference_length.
  assert (E : enc_len 0 (mk_msg_hdr 0 0 0 (replicate 12 0)) (mi_attr d) = 24).
  { unfold enc_len, zlen. rewrite wire_length. cbn [payload value mi_attr]. by rewrite Hd. }
  change (mk_attr (mk_attr_hdr PJ_STUN_ATTR_MESSAGE_INTEGRITY 20) (V_msgint d)) with (mi_attr d).
  rewrite (encode_msgint_spec 0 (mk_msg_hdr 0 0 0 (replicate 12 0)) eq_refl _ d), E;
    [|done..|rewrite E, u32_id by (unfold is_u32; lia); lia].
  assert (Ew : wire 0 (mk_msg_hdr 0 0 0 (replicate 12 0)) (mi_attr d) = mi_wire d).
  { unfold wire, wire_len, mi_wire, zlen. cbn [payload value mi_attr]. by rewrite Hd. }
  assert (Hw : length (mi_wire d) = 24%nat) by (unfold mi_wire; by rewrite !length_app, Hd).
  rewrite Ew, lcopy_at by (rewrite Hw; unfold zlen in Hr; lia). cbn [mbind option_bind]. by rewrite Hw.
Qed.

Lemma put_fingerprint_spec addr hh A k v h len Q rest (size : Z) :
  A !! k = Some (fp_attr v) -> length (m_tsx_id h) = 12%nat -> is_u16 len -> is_u16 (len + 8) ->
  8 <= size < 2 ^ 32 -> 8 <= zlen rest ->
  let c := Z.lxor (pj_crc32_calc addr (hdr_bytes h (len + 8) ++ Q)) STUN_XOR_FINGERPRINT in
  put_fingerprint addr (mk_msg hh A) k (mk_enc (hdr_bytes h len ++ Q ++ rest) (20 + length Q) size) =
    Some (PJ_SUCCESS, mk_enc (hdr_bytes h (len + 8) ++ Q ++ fp_wire c ++ drop 8 rest) (20 + length Q + 8) (size - 8),
          mk_msg hh (<[k := fp_attr c]> A)).
Proof.
  clear garbage Hg. intros HA Hid Hl Hl8 Hs Hr c. unfold put_fingerprint. cbn [e_buf e_pos e_size attr].
  rewrite get_len by done. cbn [mbind option_bind]. rewrite put_len. cbn [mbind option_bind].
  rewrite u16_id by done. rewrite (app_assoc (hdr_bytes h (len + 8))).
  assert (Hp : (20 + length Q)%nat = length (hdr_bytes h (len + 8) ++ Q)) by (rewrite length_app, hdr_bytes_length; done).
  rewrite Hp, lslice_prefix. cbn [mbind option_bind]. rewrite HA. cbn [mbind option_bind value fp_attr]. fold c.
  unfold set_value. cbn [attr msg_hdr]. rewrite HA. cbn [mbind option_bind attr hdr fp_attr].
  rewrite list_lookup_insert_eq by (by eapply lookup_lt_Some). cbn [mbind option_bind].
  change (mk_attr (mk_attr_hdr PJ_STUN_ATTR_FINGERPRINT 4) (V_uint c)) with (fp_attr c).
  assert (E : enc_len 0 (mk_msg_hdr 0 0 0 (replicate 12 0)) (fp_attr c) = 8) by done.
  rewrite (encode_uint_spec 0 (mk_msg_hdr 0 0 0 (replicate 12 0)) eq_refl _ c), E;
    [|done|rewrite E, u32_id by (unfold is_u32; lia); lia].
  change (wire 0 (mk_msg_hdr 0 0 0 (replicate 12 0)) (fp_attr c)) with (fp_wire c).
  rewrite lcopy_at by (change (length (fp_wire c)) with 8%nat; unfold zlen in Hr; lia). cbn [mbind option_bind].
  by rewrite <- !app_assoc.
Qed.
End Trailer.

(** ** The whole message *)

Definition msg_tail (mi : option (list Z)) (fp : option Z) : list pj_stun_attr :=
  match mi with Some hm => [mi_attr hm] | None => [] end ++ match fp with Some v => [fp_attr v] | None => [] end.

Definition mi_len (mi : option (list Z)) : Z := match mi with Some _ => 24 | None => 0 end.
Definition fp_len (fp : option Z) : Z := match fp with Some _ => 8 | None => 0 end.

Definition mi_bytes (mi : option (list Z)) : list Z := match mi with Some hm => mi_wire hm | None => [] end.
Definition fp_bytes (fp : option Z) : list Z := match fp with Some v => fp_wire v | None => [] end.

(** The digest covers the message up to MESSAGE-INTEGRITY, with a length that includes it;
    the checksum what is before FINGERPRINT, with the final length. *)
Definition sent_mi (h : pj_stun_msg_hdr) (body key : list Z) (mi : option (list Z)) : option (list Z) :=
  (fun _ => hmac_reference key (hdr_bytes h (zlen body + 24) ++ body)) <$> mi.

Definition sent_fp (addr : Z) (h : pj_stun_msg_hdr) (body : list Z) (mi : option (list Z)) (fp : option Z) : option Z :=
  (fun _ => Z.lxor (pj_crc32_calc addr (hdr_bytes h (zlen body + mi_len mi + 8) ++ body ++ mi_bytes mi))
              STUN_XOR_FINGERPRINT) <$> fp.

(** The packet of a message with these attributes *)
Definition packet (h : pj_stun_msg_hdr) (body : list Z) (mi : option (list Z)) (fp : option Z) : list Z :=
  hdr_bytes h (zlen body + mi_len mi + fp_len fp) ++ body ++ mi_bytes mi ++ fp_bytes fp.

Lemma check_msgint_end attrs i af : (1 <= length attrs < 1000)%nat -> i = length attrs ->
  check_msgint_pos attrs i af = Some (inr af).
Proof.
  intros Hl ->. unfold check_msgint_pos, zlen. destruct (Z.ltb_spec 1 (Z.of_nat (length attrs))); cbn [andb].
  - rewrite u32_id by (unfold is_u32; lia). destruct (Z.ltb_spec (Z.of_nat (length attrs)) (Z.of_nat (length attrs) - 2)); [lia|].
    destruct (Z.eqb_spec (Z.of_nat (length attrs)) (Z.of_nat (length attrs) - 2)); [lia|done].
  - assert (Z.of_nat (length attrs) = 1) as -> by lia. done.
Qed.

Lemma header_written h buf {B} (f : list Z -> option B) : length (m_tsx_id h) = 12%nat -> (20 <= length buf)%nat ->
  (b ← PUTVAL16H buf 0 (m_type h); b ← PUTVAL16H b 2 0; b ← PUTVAL32H b 4 (m_magic h); b ← lcopy b 8 (m_tsx_id h); f b) =
  f (hdr_bytes h 0 ++ drop 20 buf).
Proof.
  intros Hid Hl. unfold PUTVAL16H, PUTVAL32H. rewrite !lcopy_join by (cbn; lia).
  pose proof (hdr_bytes_length h 0 Hid) as Hh. pose proof (lcopy_at [] buf (hdr_bytes h 0) ltac:(lia)) as E.
  cbn [app length] in E. rewrite Hh in E. rewrite <- !app_assoc.
  change (lcopy buf 0 _) with (lcopy buf 0 (hdr_bytes h 0)). by rewrite E.
Qed.

Section Encode.
Context (padding_char : Z) (garbage : list Z) (Hg : length garbage = 64%nat) (addr : Z) (h : pj_stun_msg_hdr)
  (Hh : hdr_ok h) (core : list pj_stun_attr) (Hcore : Forall (core_ok padding_char h) core).

Definition key_ok (mi : option (list Z)) (key : option (list Z)) : Prop :=
  match mi with
  | Some _ => exists k, key = Some k /\ Forall is_byte k /\ zlen k < 2 ^ 29
  | None => True
  end.

Lemma tail_lookup_mi hm fp : (core ++ msg_tail (Some hm) fp) !! length core = Some (mi_attr hm).
Proof. by rewrite lookup_app_r, Nat.sub_diag by lia. Qed.

Lemma tail_insert_mi hm hm' fp :
  <[length core := mi_attr hm']> (core ++ msg_tail (Some hm) fp) = core ++ msg_tail (Some hm') fp.
Proof. rewrite insert_app_r_alt, Nat.sub_diag by lia. done. Qed.

Definition fp_index (mi : option (list Z)) : nat := (length core + length (msg_tail mi None))%nat.

Lemma tail_lookup_fp mi v : (core ++ msg_tail mi (Some v)) !! fp_index mi = Some (fp_attr v).
Proof. unfold fp_index. rewrite lookup_app_r, Nat.add_sub' by lia. by destruct mi. Qed.

Lemma tail_insert_fp mi v v' :
  <[fp_index mi := fp_attr v']> (core ++ msg_tail mi (Some v)) = core ++ msg_tail mi (Some v').
Proof. unfold fp_index. rewrite insert_app_r_alt, Nat.add_sub' by lia. by destruct mi. Qed.

(** The last step *)
Lemma fingerprint_spec body m fp rest (size : Z) :
  zlen (mi_bytes m) = mi_len m -> zlen body + mi_len m + fp_len fp < 65536 ->
  fp_len fp <= size < 2 ^ 32 -> fp_len fp <= zlen rest ->
  let f := sent_fp addr h body m fp in
  encode_fingerprint addr ((fun _ => fp_index m) <$> fp)
    (mk_enc (hdr_bytes h (zlen body + mi_len m) ++ (body ++ mi_bytes m) ++ rest) (20 + length (body ++ mi_bytes m)) size)
    (mk_msg h (core ++ msg_tail m fp)) =
  Some (mk_encoded PJ_SUCCESS (packet h body m f ++ drop (Z.to_nat (fp_len fp)) rest)
    (mk_msg (with_len h (zlen body + mi_len m + fp_len fp)) (core ++ msg_tail m f))
    (20 + zlen body + mi_len m + fp_len fp)).
Proof.
  destruct Hh as (_ & _ & Hid & _). intros Hm Hz Hs Hr f.
  assert (Hml : 0 <= mi_len m) by (by destruct m). assert (Hb0 : 0 <= zlen body) by (unfold zlen; lia).
  unfold encode_fingerprint. destruct fp as [v|]; cbn [fmap option_fmap option_map] in *.
  - cbn [fp_len] in *. rewrite (put_fingerprint_spec addr h _ _ v) by
      (first [apply tail_lookup_fp|done|unfold is_u16; lia|lia]).
    cbn [mbind option_bind negb Z.eqb PJ_SUCCESS]. cbn [e_pos e_buf attr msg_hdr].
    change (Z.lxor _ STUN_XOR_FINGERPRINT) with
      (Z.lxor (pj_crc32_calc addr (hdr_bytes h (zlen body + mi_len m + 8) ++ body ++ mi_bytes m)) STUN_XOR_FINGERPRINT).
    rewrite tail_insert_fp. unfold packet, f, sent_fp. cbn [fmap option_fmap option_map fp_bytes fp_len].
    rewrite <- !app_assoc. unfold with_len. rewrite u16_id by (unfold is_u16; lens).
    do 3 f_equal; [f_equal|]; lens.
  - cbn [fp_len] in *. cbn [mbind option_bind negb Z.eqb PJ_SUCCESS]. cbn [e_pos e_buf attr msg_hdr].
    unfold packet, f, sent_fp. cbn [fmap option_fmap option_map fp_bytes fp_len].
    rewrite Z.add_0_r, !app_nil_r, <- !app_assoc, drop_0. unfold with_len. rewrite u16_id by (unfold is_u16; lens).
    do 3 f_equal; [f_equal|]; lens.
Qed.

Lemma mi_wire_length d : length d = 20%nat -> length (mi_wire d) = 24%nat.
Proof. intros H. unfold mi_wire. by rewrite !length_app, H. Qed.

Lemma sent_mi_len body key mi : zlen (mi_bytes (sent_mi h body key mi)) = mi_len mi /\
  mi_len (sent_mi h body key mi) = mi_len mi.
Proof.
  destruct mi; [|done]. cbn [sent_mi fmap option_fmap option_map mi_bytes mi_len]. split; [|done].
  unfold zlen. by rewrite mi_wire_length by apply reference_length.
Qed.

(** The part after the attributes *)
Lemma trailer_spec body rest mi fp key (size : Z) :
  (length core <= 100)%nat -> zlen body + mi_len mi + fp_len fp < 65536 -> Forall is_byte body -> key_ok mi key ->
  mi_len mi + fp_len fp <= size < 2 ^ 32 -> mi_len mi + fp_len fp <= zlen rest ->
  let m := sent_mi h body (default [] key) mi in
  let f := sent_fp addr h body m fp in
  encode_trailer garbage addr (mk_msg h (core ++ msg_tail mi fp)) key
    ((fun _ => length core) <$> mi) ((fun _ => fp_index mi) <$> fp)
    (Nat.max (S (length core)) (length (core ++ msg_tail mi fp)))
    (mk_enc (hdr_bytes h 0 ++ body ++ rest) (20 + length body) size) =
  Some (mk_encoded PJ_SUCCESS (packet h body m f ++ drop (Z.to_nat (mi_len mi + fp_len fp)) rest)
    (mk_msg (with_len h (zlen body + mi_len mi + fp_len fp)) (core ++ msg_tail m f))
    (20 + zlen body + mi_len mi + fp_len fp)).
Proof.
  intros Hc Hz Hb Hk Hs Hr m f. pose proof Hh as (Hty & Hmg & Hid & Hidb).
  assert (Hml : 0 <= mi_len mi) by (by destruct mi). assert (Hfl : 0 <= fp_len fp) by (by destruct fp).
  assert (Hb0 : 0 <= zlen body) by (unfold zlen; lia).
  destruct (sent_mi_len body (default [] key) mi) as [Hm1 Hm2]. fold m in Hm1, Hm2.
  unfold encode_trailer. cbn [e_pos e_buf e_size].
  assert (Hbl : u16 (Z.of_nat (20 + length body) - 20 + match (fun _ => length core) <$> mi with Some _ => 24 | None => 0 end) =
    zlen body + mi_len mi).
  { destruct mi; cbn [fmap option_fmap option_map mi_len] in *; rewrite u16_id; unfold is_u16, zlen in *; lia. }
  rewrite Hbl, put_len. cbn [mbind option_bind]. destruct mi as [hm|]; cbn [fmap option_fmap option_map mi_len key_ok] in *.
  - destruct Hk as (k & -> & Hkb & Hkl). cbn [default] in *.
    cbn [attr]. assert (Hl : (length core + 1 <= length (core ++ msg_tail (Some hm) fp) <= length core + 2)%nat)
      by (rewrite length_app; destruct fp; cbn; lia).
    rewrite check_msgint_end by lia.
    cbn [mbind option_bind]. rewrite (app_assoc (hdr_bytes h (zlen body + 24))).
    replace (20 + length body)%nat with (length (hdr_bytes h (zlen body + 24) ++ body))
      by (rewrite length_app, hdr_bytes_length; done).
    rewrite (put_msgint_spec garbage Hg h _ _ hm k); [|apply tail_lookup_mi|done|done| | |lia|lia].
    2: { apply Forall_app. split; [by apply hdr_bytes_bytes|done]. }
    2: { unfold zlen. rewrite length_app, hdr_bytes_length by done. unfold zlen in *. lia. }
    cbn [mbind option_bind negb Z.eqb PJ_SUCCESS]. rewrite tail_insert_mi.
    fold (sent_mi h body k (Some hm)) in m. set (d := hmac_reference k (hdr_bytes h (zlen body + 24) ++ body)) in *.
    change m with (Some d) in *. cbn [mi_bytes mi_len] in *.
    assert (Hd : length (mi_wire d) = 24%nat) by apply mi_wire_length, reference_length.
    pose proof (fingerprint_spec body (Some d) fp (drop 24 rest) (size - 24)) as F. cbn [mi_bytes mi_len] in F.
    change (fp_index (Some d)) with (fp_index (Some hm)) in F.
    replace (length (hdr_bytes h (zlen body + 24) ++ body) + 24)%nat with (20 + length (body ++ mi_wire d))%nat
      by (rewrite !length_app, hdr_bytes_length, Hd by done; lia).
    rewrite <- (app_assoc (hdr_bytes h _) body), (app_assoc body).
    rewrite F; [|unfold zlen; by rewrite Hd|lia|lia|unfold zlen in *; rewrite length_drop; lia].
    rewrite drop_drop. do 3 f_equal. f_equal. lia.
  - pose proof (fingerprint_spec body None fp rest size) as F. cbn [mi_bytes mi_len] in F.
    rewrite app_nil_r in F. cbn [mi_len msg_tail] in *. rewrite Z.add_0_r in *.
    rewrite F by (done || lia). rewrite Z.add_0_l, Z.add_0_r. done.
Qed.

(** Encoding: the attributes of the body one behind the other, then MESSAGE-INTEGRITY
    and FINGERPRINT with their values, in a buffer that holds them. *)
Lemma encode_message mi fp key buf (buf_size : Z) :
  (length core <= 100)%nat -> body_len padding_char h core + mi_len mi + fp_len fp < 65536 -> key_ok mi key ->
  20 + body_len padding_char h core + mi_len mi + fp_len fp <= buf_size -> buf_size <= zlen buf -> buf_size < 2 ^ 32 ->
  Forall is_byte buf ->
  exists body rest, encodes padding_char h core body /\ Forall is_byte body /\
    let m := sent_mi h body (default [] key) mi in
    let f := sent_fp addr h body m fp in
    pj_stun_msg_encode padding_char garbage addr (mk_msg h (core ++ msg_tail mi fp)) buf buf_size 0 key =
    Some (mk_encoded PJ_SUCCESS (packet h body m f ++ rest)
      (mk_msg (with_len h (zlen body + mi_len mi + fp_len fp)) (core ++ msg_tail m f))
      (20 + zlen body + mi_len mi + fp_len fp)).
Proof.
  intros Hc Hz Hk Hs Hb Hs32 Hbb. pose proof Hh as (Hty & Hmg & Hid & Hidb).
  assert (Hml : 0 <= mi_len mi) by (by destruct mi). assert (Hfl : 0 <= fp_len fp) by (by destruct fp).
  pose proof (body_len_nonneg padding_char h core Hcore) as Hb0.
  destruct (encode_body padding_char h Hid Hidb core (msg_tail mi fp) (hdr_bytes h 0) (drop 20 buf) 0 (buf_size - 20))
    as (body & rest & He & Hlen & Hbody & E); [done|lia|unfold zlen in *; rewrite length_drop; lia|by apply Forall_drop|].
  apply Forall_app in Hbody as [Hbody _]. pose proof (encodes_len padding_char h core body He) as Hbl.
  exists body, (drop (Z.to_nat (mi_len mi + fp_len fp)) rest). split; [done|]. split; [done|]. intros m f.
  unfold pj_stun_msg_encode. destruct (Z.eqb_spec buf_size 0); [lia|]. cbn [negb Z.eqb].
  destruct (Z.ltb_spec buf_size 20); [lia|]. cbn [msg_hdr attr].
  rewrite header_written by (done || (unfold zlen in *; lia)).
  rewrite (hdr_bytes_length h 0 Hid) in E. cbn [Nat.add] in E. rewrite E.
  assert (Hr : zlen rest = zlen buf - 20 - zlen body).
  { unfold zlen in *. rewrite length_app, length_drop in Hlen. lia. }
  pose proof (trailer_spec body rest mi fp key (buf_size - 20 - zlen body) Hc ltac:(lia) Hbody Hk ltac:(lia) ltac:(lia)) as T.
  cbn zeta in T. fold m in T. fold f in T.
  assert (Hdrop : drop (S (length core)) (core ++ msg_tail mi fp) = msg_tail (None) (match mi with Some _ => fp | None => None end)).
  { rewrite drop_app_ge by lia. replace (S (length core) - length core)%nat with 1%nat by lia. by destruct mi, fp. }
  rewrite <- T. clear T. cbn [length Nat.add].
  destruct mi as [hm|]; [|destruct fp as [v|]]; cbn [msg_tail app encode_attrs];
    change (attr_type (mi_attr _) =? PJ_STUN_ATTR_MESSAGE_INTEGRITY) with true;
    change (attr_type (fp_attr _) =? PJ_STUN_ATTR_MESSAGE_INTEGRITY) with false;
    change (attr_type (fp_attr _) =? PJ_STUN_ATTR_FINGERPRINT) with true; cbn [mbind option_bind negb Z.eqb PJ_SUCCESS e_buf];
    cbn [msg_tail app] in Hdrop; rewrite Hdrop.
  - destruct fp as [v|]; cbn; unfold fp_index; cbn [msg_tail length app]; rewrite ?Nat.add_1_r; done.
  - cbn. unfold fp_index. cbn [msg_tail length app]. by rewrite Nat.add_0_r.
  - done.
Qed.
End Encode.

(** ** Decoding *)

Lemma wire_same padding_char h h' a : m_magic h = m_magic h' -> m_tsx_id h = m_tsx_id h' ->
  wire padding_char h a = wire padding_char h' a.
Proof.
  intros Hm Ht. unfold wire, wire_len, legacy. rewrite Hm.
  assert (P : forall v, payload padding_char h v = payload padding_char h' v).
  { intros []; try done. cbn [payload]. unfold wire_addr. by rewrite Ht. }
  destruct (value a); by rewrite ?P.
Qed.

Lemma received_same padding_char h h' a : m_magic h = m_magic h' -> m_tsx_id h = m_tsx_id h' ->
  received padding_char h a = received padding_char h' a.
Proof.
  intros Hm Ht. unfold received, wire_len, legacy. rewrite Hm.
  assert (P : forall v, payload padding_char h v = payload padding_char h' v).
  { intros []; try done. cbn [payload]. unfold wire_addr. by rewrite Ht. }
  destruct (value a); by rewrite ?P.
Qed.

Lemma attr_ok_same padding_char h h' a : m_magic h = m_magic h' -> m_tsx_id h = m_tsx_id h' ->
  core_ok padding_char h a -> core_ok padding_char h' a.
Proof.
  intros Hm Ht [(H1 & H2 & H3) Ho]. split; [|done]. split; [done|]. split; [|done].
  destruct (value a); try done. cbn [payload] in *. unfold wire_addr in *. by rewrite <- Ht.
Qed.

Lemma encodes_same padding_char h h' attrs body : m_magic h = m_magic h' -> m_tsx_id h = m_tsx_id h' ->
  encodes padding_char h attrs body -> encodes padding_char h' attrs body.
Proof.
  intros Hm Ht. induction 1 as [|a attrs pad body Hp He IH]; [constructor|].
  rewrite (wire_same _ h h') by done. constructor; [|done]. rewrite <- (wire_same _ h h') by done.
  rewrite Hp. unfold enc_len. by rewrite (wire_same _ h h').
Qed.

Section Decode.
Context (pj_strerror : Z -> list Z) (h : pj_stun_msg_hdr) (Hid : length (m_tsx_id h) = 12%nat)
  (Hidb : Forall is_byte (m_tsx_id h)).

(** One of the trailing attributes, [w] on the wire, followed by [r] bytes *)
Lemma decode_trailing a w kind name pre suf fuel want msg mi (r : Z) :
  w = wire 0 h a -> is_u16 (attr_type a) -> find_attr_desc (attr_type a) = Some (name, kind) ->
  value_ok kind (value a) -> zlen (payload 0 h (value a)) < 100 -> enc_len 0 h a = zlen w -> received 0 h a = a ->
  attr_type a = PJ_STUN_ATTR_MESSAGE_INTEGRITY /\ mi = false \/ attr_type a = PJ_STUN_ATTR_FINGERPRINT ->
  msg_hdr msg = h -> zlen (attr msg) < 16 -> 0 <= r < 65536 ->
  decode_attrs pj_strerror (S fuel) want msg mi false (pre ++ w ++ suf) (length pre) (zlen w + r) =
  decode_attrs pj_strerror fuel want (mk_msg h (attr msg ++ [a]))
    (mi || (attr_type a =? PJ_STUN_ATTR_MESSAGE_INTEGRITY)) (attr_type a =? PJ_STUN_ATTR_FINGERPRINT)
    (pre ++ w ++ suf) (length pre + length w) r.
Proof.
  intros -> Ht Hd Hv Hl He Hrc Hty Hh H16 Hr. pose proof (align4_len 0 h a ltac:(lia)) as HL.
  assert (Hw : zlen (wire 0 h a) = Z.of_nat (length (wire 0 h a))) by done. pose proof (wire_zlen 0 h a) as Hwz.
  assert (0 <= zlen (payload 0 h (value a))) by (unfold zlen; lia).
  cbn [decode_attrs]. destruct (Z.leb_spec 4 (zlen (wire 0 h a) + r)); [|lia].
  rewrite get16_start, get16_shift. destruct (get16_wire 0 h a suf Ht ltac:(lia)) as [-> ->]. cbn [mbind option_bind].
  destruct (Z.ltb_spec (zlen (wire 0 h a) + r) (align4 (wire_len 0 h a))); [lia|].
  rewrite Hd. unfold decode_known. rewrite Hh, decode_attr_shift, (decode_attr_wire 0 h Hid Hidb a name) by (done || lia).
  cbn [mbind option_bind]. rewrite Hrc.
  destruct (Z.leb_spec PJ_STUN_MAX_ATTR (zlen (attr msg))) as [Habs|_]; [unfold PJ_STUN_MAX_ATTR in Habs; lia|].
  assert (Hn : (if zlen (wire 0 h a) + r <=? align4 (wire_len 0 h a) + 4 then zlen (wire 0 h a) + r
    else align4 (wire_len 0 h a) + 4) = zlen (wire 0 h a)).
  { destruct (Z.leb_spec (zlen (wire 0 h a) + r) (align4 (wire_len 0 h a) + 4)); lia. }
  destruct Hty as [[E ->]|E]; rewrite E; cbn [Z.eqb Pos.eqb andb negb orb PJ_STUN_ATTR_MESSAGE_INTEGRITY PJ_STUN_ATTR_FINGERPRINT];
    cbn [mbind option_bind]; rewrite Hn, Hw, Nat2Z.id; f_equal; try lia. by rewrite orb_false_r.
Qed.

Lemma decode_tail pre suf want msg m f fuel :
  msg_hdr msg = h -> zlen (attr msg) + zlen (msg_tail m f) <= 16 -> (length (msg_tail m f) < fuel)%nat ->
  match m with Some d => Forall is_byte d /\ length d = 20%nat | None => True end ->
  match f with Some v => is_u32 v | None => True end ->
  decode_attrs pj_strerror fuel want msg false false (pre ++ (mi_bytes m ++ fp_bytes f) ++ suf) (length pre)
    (mi_len m + fp_len f) =
  Some (mk_decoded PJ_SUCCESS (Some (mk_msg h (attr msg ++ msg_tail m f)))
    (zlen pre + mi_len m + fp_len f) None).
Proof.
  intros Hh H16 Hf Hm Hv.
  assert (M : forall d fuel msg suf r, Forall is_byte d -> length d = 20%nat -> msg_hdr msg = h -> zlen (attr msg) < 16 ->
    0 <= r < 65536 ->
    decode_attrs pj_strerror (S fuel) want msg false false (pre ++ mi_wire d ++ suf) (length pre) (24 + r) =
    decode_attrs pj_strerror fuel want (mk_msg h (attr msg ++ [mi_attr d])) true false (pre ++ mi_wire d ++ suf)
      (length pre + 24) r).
  { intros d n ms sf r Hd Hdl Hhm H16m Hr. assert (Hw : length (mi_wire d) = 24%nat) by (unfold mi_wire; by rewrite !length_app, Hdl).
    assert (Hz : zlen (mi_wire d) = 24) by (unfold zlen; by rewrite Hw).
    assert (Ew : mi_wire d = wire 0 h (mi_attr d)).
    { unfold mi_wire, wire, wire_len, zlen. cbn [value mi_attr payload]. by rewrite Hdl. }
    rewrite <- Hz at 1. rewrite (decode_trailing (mi_attr d) _ K_msgint "MESSAGE-INTEGRITY"%string _ _ n); try done.
    - by rewrite Hw.
    - cbn [value mi_attr payload]. unfold zlen. rewrite Hdl. lia.
    - unfold enc_len. by rewrite <- Ew, Hz.
    - unfold received, wire_len, zlen. cbn [value mi_attr payload]. by rewrite Hdl.
    - left. done. }
  assert (F : forall v fuel msg mi pre suf, is_u32 v -> msg_hdr msg = h -> zlen (attr msg) < 16 ->
    decode_attrs pj_strerror (S (S fuel)) want msg mi false (pre ++ fp_wire v ++ suf) (length pre) 8 =
    Some (mk_decoded PJ_SUCCESS (Some (mk_msg h (attr msg ++ [fp_attr v]))) (zlen pre + 8) None)).
  { intros v n ms mi pr sf Hv' Hhm H16m. change 8 with (zlen (fp_wire v) + 0) at 1.
    rewrite (decode_trailing (fp_attr v) (fp_wire v) K_uint "FINGERPRINT"%string _ _ (S n)); try done; [|by right].
    cbn [decode_attrs Z.leb Z.compare Z.ltb]. do 3 f_equal. unfold zlen. change (length (fp_wire v)) with 8%nat. lia. }
  destruct m as [d|], f as [v|]; cbn [mi_bytes fp_bytes mi_len fp_len msg_tail app length] in *;
    (destruct fuel as [|fuel]; [lia|]); try (destruct fuel as [|fuel]; [lia|]); try (destruct fuel as [|fuel]; [lia|]).
  - destruct Hm as [Hd Hdl]. change (24 + 8) with (24 + 8). rewrite <- app_assoc, M by (try done; unfold zlen in *; cbn in *; lia).
    replace (length pre + 24)%nat with (length (pre ++ mi_wire d)) by (unfold mi_wire; rewrite !length_app, Hdl; done).
    rewrite (app_assoc pre), F by (try done; cbn [attr]; unfold zlen in *; rewrite length_app; cbn in *; lia).
    cbn [attr]. rewrite <- app_assoc. do 3 f_equal. unfold zlen, mi_wire. rewrite !length_app, Hdl. cbn. lia.
  - destruct Hm as [Hd Hdl]. rewrite <- app_assoc, M by (try done; unfold zlen in *; cbn in *; lia).
    cbn [decode_attrs Z.leb Z.compare Z.ltb]. do 3 f_equal. unfold zlen. lia.
  - rewrite F by (try done; unfold zlen in *; cbn in *; lia). do 3 f_equal. lia.
  - cbn [decode_attrs Z.leb Z.compare Z.ltb Z.add]. rewrite app_nil_r. do 2 f_equal; [rewrite <- Hh; by destruct msg|unfold zlen; lia].
Qed.
End Decode.
