(* ===== verification/StunProps.v ===== *)
(** * STUN messages: the theorems on encoding, decoding and authentication *)

From stdpp Require Import strings.
From S2P Require Import Prelude Words Crc32 Sha1 Sha1Props Stun StunWire StunMsg.

(** ** The header of a packet *)

Section Header.
Context (h : pj_stun_msg_hdr) (Hh : hdr_ok h) (len : Z) (Hlen : is_u16 len) (rest : list Z).

Lemma get_type : GETVAL16H (hdr_bytes h len ++ rest) 0 = Some (m_type h).
Proof. unfold hdr_bytes. rewrite <- !app_assoc. apply get16_put16, Hh. Qed.

Lemma get_magic : GETVAL32H (hdr_bytes h len ++ rest) 4 = Some (m_magic h).
Proof.
  unfold hdr_bytes. rewrite <- !app_assoc, (app_assoc (put16 _) (put16 _)).
  change 4%nat with (length (put16 (m_type h) ++ put16 len) + 0)%nat. rewrite get32_shift. apply get32_put32, Hh.
Qed.

Lemma get_tsx_id : lslice (hdr_bytes h len ++ rest) 8 12 = Some (m_tsx_id h).
Proof.
  destruct Hh as (_ & _ & Hid & _). unfold hdr_bytes. rewrite <- !app_assoc, !(app_assoc _ _ (m_tsx_id h ++ rest)).
  apply lslice_mid; done.
Qed.

Lemma first_byte : m_type h < 0x200 -> exists b, (hdr_bytes h len ++ rest) !! 0%nat = Some b /\ (b = 0 \/ b = 1).
Proof.
  intros Ht. eexists. split; [reflexivity|]. destruct Hh as (Hty & _).
  rewrite Z.shiftr_land. change (Z.shiftr 65280 8) with (Z.ones 8). rewrite Z.land_ones, Z.shiftr_div_pow2 by lia.
  unfold u8, is_u16 in *. change (2 ^ 8) with 256. rewrite Z.mod_mod by lia. Z.to_euclidean_division_equations. lia.
Qed.
End Header.

Lemma mi_len_nonneg m : 0 <= mi_len m.
Proof. by destruct m. Qed.
Lemma fp_len_nonneg f : 0 <= fp_len f.
Proof. by destruct f. Qed.

Lemma crc_calc_addr addr addr' data : Forall is_byte data -> pj_crc32_calc addr data = pj_crc32_calc addr' data.
Proof. intros H. unfold pj_crc32_calc. by rewrite !update_spec. Qed.

Lemma crc_calc_u32 addr data : Forall is_byte data -> is_u32 (pj_crc32_calc addr data).
Proof.
  intros H. unfold pj_crc32_calc, pj_crc32_final, CRC32_SWAP. rewrite update_spec by done. cbn [fst crc_state].
  rewrite fold_octet_byte by done. apply (lxor_bits 32); [done| |by vm_compute].
  apply fold_crc_u32; [done|by vm_compute].
Qed.

(** ** Packets *)

Lemma body_len_mod4 padding_char h core : Forall (core_ok padding_char h) core -> body_len padding_char h core mod 4 = 0.
Proof.
  induction 1 as [|a l [(_ & Hl & _) _] _ IH]; [done|]. cbn [body_len foldr]. fold (body_len padding_char h l).
  destruct (enc_len_pos padding_char h a Hl) as [_ Ha]. rewrite Z.add_mod, Ha, IH by lia. done.
Qed.

(** A digest is twenty bytes. *)
Definition mi_ok (m : option (list Z)) : Prop :=
  match m with Some d => Forall is_byte d /\ length d = 20%nat | None => True end.

Lemma mi_bytes_length m : mi_ok m -> zlen (mi_bytes m) = mi_len m.
Proof. intros Hm. destruct m as [d|]; [|done]. destruct Hm as [_ Hd]. unfold zlen, mi_bytes, mi_wire. by rewrite !length_app, Hd. Qed.

Lemma mi_bytes_bytes m : mi_ok m -> Forall is_byte (mi_bytes m).
Proof.
  intros Hm. destruct m as [d|]; [|done]. destruct Hm as [Hd _]. unfold mi_bytes, mi_wire. rewrite !Forall_app.
  auto using put16_bytes.
Qed.

(** pj_stun_msg_check does not take something else for FINGERPRINT. *)
Definition checkable (options : Z) (fp : option Z) (h : pj_stun_msg_hdr) (pkt : list Z) (len : Z) : Prop :=
  has_option options PJ_STUN_NO_FINGERPRINT_CHECK = true \/ fp <> None \/ m_magic h <> PJ_STUN_MAGIC \/
  exists v, GETVAL16H pkt (Z.to_nat (20 + len - 8)) = Some v /\ v <> PJ_STUN_ATTR_FINGERPRINT.

Section Packet.
Context (padding_char : Z) (h : pj_stun_msg_hdr) (Hh : hdr_ok h) (core : list pj_stun_attr)
  (Hcore : Forall (core_ok padding_char h) core) (body : list Z) (Hbody : encodes padding_char h core body)
  (Hbytes : Forall is_byte body) (addr : Z) (m : option (list Z)) (fp : option Z).

Let f := sent_fp addr h body m fp.
Let len := zlen body + mi_len m + fp_len fp.
Context (Hlen : len < 65536) (Hm : mi_ok m).

Lemma len_u16 : is_u16 len.
Proof.
  split; [|done]. pose proof (mi_len_nonneg m). pose proof (fp_len_nonneg fp). unfold len, zlen. lia.
Qed.

Lemma len_mod4 : len mod 4 = 0.
Proof.
  unfold len. rewrite (encodes_len _ _ _ _ Hbody).
  pose proof (body_len_mod4 padding_char h core Hcore) as E.
  destruct m, fp; cbn [mi_len fp_len]; clear -E; Z.to_euclidean_division_equations; lia.
Qed.

Lemma packet_length : zlen (packet h body m f) = 20 + len.
Proof.
  unfold packet. pose proof (mi_bytes_length m Hm) as E. assert (F : zlen (fp_bytes f) = fp_len fp) by (unfold f; by destruct fp).
  unfold len, zlen in *. rewrite !length_app, hdr_bytes_length by apply Hh. lia.
Qed.

Lemma fp_value : match f with Some v => is_u32 v | None => True end.
Proof.
  unfold f, sent_fp. destruct fp; [|done]. cbn [fmap option_fmap option_map].
  apply (lxor_bits 32); [done| |by vm_compute]. apply crc_calc_u32. rewrite !Forall_app.
  auto using mi_bytes_bytes, hdr_bytes_bytes.
Qed.

Lemma packet_eq : packet h body m f = hdr_bytes h len ++ body ++ mi_bytes m ++ fp_bytes f.
Proof. unfold packet, len, f. by destruct fp. Qed.

(** The packet passes the check. *)
Lemma packet_check addr' options : m_type h < 0x200 -> checkable options fp h (packet h body m f) len ->
  pj_stun_msg_check addr' (packet h body m f) (20 + len) options = Some PJ_SUCCESS.
Proof.
  intros Ht Ho. unfold checkable in Ho. pose proof len_u16 as Hu. pose proof len_u16 as Hu16. pose proof packet_length as Hz. rewrite packet_eq in *.
  unfold pj_stun_msg_check. unfold is_u16 in Hu.
  destruct (Z.ltb_spec (20 + len) 20); [lia|]. destruct (first_byte h Hh len Hu16 (body ++ mi_bytes m ++ fp_bytes f) Ht) as (b & -> & Hb).
  cbn [mbind option_bind]. replace (negb (b =? 0) && negb (b =? 1)) with false by (destruct Hb; by subst).
  rewrite get_len by done. cbn [mbind option_bind].
  destruct (Z.ltb_spec (20 + len) (len + 20)); [lia|]. rewrite (Z.add_comm len 20), Z.eqb_refl, andb_false_r. cbn [orb].
  change 3 with (Z.ones 2). rewrite Z.land_ones, (len_mod4 : len mod 2 ^ 2 = 0) by lia. cbn [Z.eqb negb].
  rewrite get_magic by done. cbn [mbind option_bind]. destruct (Z.eqb_spec (m_magic h) PJ_STUN_MAGIC); [|done].
  destruct (has_option options PJ_STUN_NO_FINGERPRINT_CHECK) eqn:Eo; [done|]. cbn [negb].
  destruct Ho as [|[Ho|[|(v & Hv & Hne)]]]; [done| |done|rewrite Hv; cbn [mbind option_bind]; by destruct (Z.eqb_spec v PJ_STUN_ATTR_FINGERPRINT)].
  pose proof fp_value as Hv.
  set (Q := body ++ mi_bytes m).
  assert (HQ : zlen (hdr_bytes h len ++ Q) = 20 + zlen body + mi_len m).
  { pose proof (mi_bytes_length m Hm) as E. unfold Q, zlen in *. rewrite !length_app, hdr_bytes_length by apply Hh. lia. }
  assert (HP : hdr_bytes h len ++ body ++ mi_bytes m ++ fp_bytes f = (hdr_bytes h len ++ Q) ++ fp_bytes f)
    by (unfold Q; by rewrite <- !app_assoc).
  rewrite HP. assert (Hlen' : len = zlen body + mi_len m + fp_len fp) by done.
  assert (Hf : f = sent_fp addr h body m fp) by done. clearbody f len.
  destruct fp as [v0|]; [|done]. cbn [sent_fp fmap option_fmap option_map fp_len] in *.
  assert (Hpre : Z.to_nat (20 + len - 8) = length (hdr_bytes h len ++ Q)) by (unfold zlen in *; lia).
  rewrite Hpre, get16_start, get16_shift, get32_shift, lslice_prefix. subst f. cbn [fp_bytes].
  set (c := Z.lxor _ _) in *.
  assert (G : GETVAL16H (fp_wire c) 0 = Some PJ_STUN_ATTR_FINGERPRINT /\ GETVAL16H (fp_wire c) 2 = Some 4 /\
    GETVAL32H (fp_wire c) 4 = Some c).
  { split; [|split]; [done|done|]. unfold fp_wire. rewrite (app_assoc (put16 _)).
    change 4%nat with (length (put16 PJ_STUN_ATTR_FINGERPRINT ++ put16 4) + 0)%nat. rewrite get32_shift.
    rewrite <- (app_nil_r (put32 c)). by apply get32_put32. }
  destruct G as (-> & -> & ->). cbn [mbind option_bind Z.eqb Pos.eqb negb PJ_STUN_ATTR_FINGERPRINT].
  assert (Ec : Z.lxor (pj_crc32_calc addr' (hdr_bytes h len ++ Q)) STUN_XOR_FINGERPRINT = c).
  { subst c. f_equal. rewrite Hlen'. apply crc_calc_addr. unfold Q. rewrite !Forall_app.
    auto using mi_bytes_bytes, hdr_bytes_bytes. }
  by rewrite Ec, Z.eqb_refl.
Qed.
End Packet.

Lemma sent_mi_ok h body key mi : mi_ok (sent_mi h body key mi).
Proof. destruct mi; [|done]. split; [apply reference_bytes|apply reference_length]. Qed.

Lemma core_count padding_char h core : Forall (core_ok padding_char h) core ->
  4 * zlen core <= body_len padding_char h core.
Proof.
  induction 1 as [|a l [(_ & Hl & _) _] _ IH]; [done|]. cbn [body_len foldr]. fold (body_len padding_char h l).
  destruct (enc_len_pos padding_char h a Hl) as [H4 _]. unfold zlen in *. cbn [length]. lia.
Qed.

(** Decoding a packet *)
Lemma decode_packet pj_strerror padding_char addr addr' h core body m fp options want :
  hdr_ok h -> m_type h < 0x200 -> Forall (core_ok padding_char h) core -> encodes padding_char h core body ->
  Forall is_byte body -> mi_ok m -> zlen body + mi_len m + fp_len fp < 65536 ->
  zlen core + zlen (msg_tail m fp) <= 16 ->
  let f := sent_fp addr h body m fp in
  let len := zlen body + mi_len m + fp_len fp in
  checkable options fp h (packet h body m f) len ->
  pj_stun_msg_decode pj_strerror addr' (packet h body m f) (20 + len) options want =
    Some (mk_decoded PJ_SUCCESS
      (Some (mk_msg (with_len h len) (map (received padding_char h) core ++ msg_tail m f))) (20 + len) None).
Proof.
  intros Hh Ht Hcore Hbody Hbytes Hm Hlen H16 f len Ho. pose proof Hh as (Hty & Hmg & Hid & Hidb).
  pose proof (mi_len_nonneg m) as Hml. pose proof (fp_len_nonneg fp) as Hfl.
  assert (Hb0 : 0 <= zlen body) by (unfold zlen; lia).
  unfold pj_stun_msg_decode. destruct (Z.eqb_spec (20 + len) 0); [lia|].
  assert (C : (if has_option options PJ_STUN_CHECK_PACKET then pj_stun_msg_check addr' (packet h body m f) (20 + len) options
    else Some PJ_SUCCESS) = Some PJ_SUCCESS).
  { destruct (has_option options PJ_STUN_CHECK_PACKET); [|done]. by apply (packet_check padding_char h Hh core Hcore). }
  rewrite C. cbn [mbind option_bind Z.eqb negb PJ_SUCCESS].
  change (packet h body m f) with (packet h body m (sent_fp addr h body m fp)). rewrite packet_eq. fold len f.
  assert (Hu : is_u16 len) by (unfold is_u16; lia).
  rewrite get_type, get_len, get_magic, get_tsx_id by done. cbn [mbind option_bind].
  assert (Hdr : mk_msg_hdr (m_type h) len (m_magic h) (m_tsx_id h) = with_len h len) by done. rewrite Hdr.
  set (h' := with_len h len). set (w := want && PJ_STUN_IS_REQUEST (m_type h)).
  assert (Hc' : Forall (core_ok padding_char h') core).
  { eapply Forall_impl; [exact Hcore|]. intros a. by apply attr_ok_same. }
  assert (He' : encodes padding_char h' core body) by (by apply (encodes_same _ h)).
  pose proof (core_count _ _ _ Hcore) as Hcc. rewrite <- (encodes_len _ _ _ _ Hbody) in Hcc.
  assert (Hfe : zlen (msg_tail m f) = zlen (msg_tail m fp) /\ fp_len f = fp_len fp) by (unfold f; by destruct m, fp).
  assert (Htl : zlen (msg_tail m f) <= mi_len m + fp_len fp) by (rewrite (proj1 Hfe); unfold zlen; clear; destruct m, fp; cbn [msg_tail app length mi_len fp_len]; lia).
  assert (Hfuel : S (Z.to_nat len) = (length core + (S (Z.to_nat len) - length core))%nat) by (unfold len, zlen in *; lia).
  rewrite Hfuel. replace 20%nat with (length (hdr_bytes h len)) by (by apply hdr_bytes_length).
  replace len with (zlen body + (mi_len m + fp_len f)) at 4 by (unfold len; lia).
  rewrite (decode_body padding_char h' Hid Hidb pj_strerror core body (mk_msg h' [])); [|done|done|done|unfold zlen in *; cbn; lia|lia|lia].
  cbn [attr app].
  replace (length (hdr_bytes h len) + length body)%nat with (length (hdr_bytes h len ++ body)) by apply length_app.
  rewrite (app_assoc (hdr_bytes h len)), <- (app_nil_r (mi_bytes m ++ fp_bytes f)).
  rewrite (decode_tail pj_strerror h' Hid Hidb); [|done| | |exact Hm|exact (fp_value h Hh body Hbytes addr m fp Hlen Hm)].
  - cbn [attr]. rewrite (map_ext _ (received padding_char h)) by (intros a; by apply received_same).
    do 2 f_equal. destruct Hfe as [_ ->]. unfold zlen. rewrite length_app, hdr_bytes_length by done. unfold len, zlen in *. lia.
  - cbn [attr]. unfold zlen in *. rewrite length_map. lia.
  - unfold len, zlen in *. lia.
  - done.
Qed.

(** ** Round trip *)

(** What can be sent: the message, the key and the buffer *)
Record can_send (padding_char : Z) (h : pj_stun_msg_hdr) (core : list pj_stun_attr) (mi : option (list Z)) (fp : option Z)
    (key : option (list Z)) (buf : list Z) (buf_size size : Z) : Prop := {
  cs_hdr : hdr_ok h;
  cs_type : m_type h < 0x200;
  cs_core : Forall (core_ok padding_char h) core;
  cs_count : zlen core + zlen (msg_tail mi fp) <= PJ_STUN_MAX_ATTR;
  cs_key : key_ok mi key;
  cs_size : size = body_len padding_char h core + mi_len mi + fp_len fp;
  cs_short : size < 65536;
  cs_room : 20 + size <= buf_size < 2 ^ 32;
  cs_buf : buf_size <= zlen buf;
  cs_bytes : Forall is_byte buf
}.

(** The packet, and what the receiver makes of it *)
Lemma stun_encode_decode padding_char garbage addr h core mi fp key buf buf_size size :
  length garbage = 64%nat -> can_send padding_char h core mi fp key buf buf_size size ->
  exists body rest,
    let m := sent_mi h body (default [] key) mi in
    let f := sent_fp addr h body m fp in
    encodes padding_char h core body /\ Forall is_byte body /\ mi_ok m /\ zlen body + mi_len m + fp_len fp = size /\
    zlen (packet h body m f) = 20 + size /\
    pj_stun_msg_encode padding_char garbage addr (mk_msg h (core ++ msg_tail mi fp)) buf buf_size 0 key =
      Some (mk_encoded PJ_SUCCESS (packet h body m f ++ rest) (mk_msg (with_len h size) (core ++ msg_tail m f)) (20 + size)) /\
    forall pj_strerror addr' options want,
      checkable options fp h (packet h body m f) size ->
      pj_stun_msg_decode pj_strerror addr' (packet h body m f) (20 + size) options want =
        Some (mk_decoded PJ_SUCCESS
          (Some (mk_msg (with_len h size) (map (received padding_char h) core ++ msg_tail m f))) (20 + size) None).
Proof.
  intros Hg [Hh Ht Hcore H16 Hk Hsize Hsz Hbs Hbl Hbb]. unfold PJ_STUN_MAX_ATTR in H16.
  destruct (encode_message padding_char garbage Hg addr h Hh core Hcore mi fp key buf buf_size)
    as (body & rest & He & Hb & E); [unfold zlen in *; lia|lia|exact Hk|lia|exact Hbl|lia|exact Hbb|].
  pose proof (encodes_len _ _ _ _ He) as Hlen. exists body, rest.
  assert (Hm2 : mi_len (sent_mi h body (default [] key) mi) = mi_len mi) by (by destruct mi).
  cbn zeta in *. pose proof (sent_mi_ok h body (default [] key) mi) as Hmo.
  assert (Hmt : zlen core + zlen (msg_tail (sent_mi h body (default [] key) mi) fp) <= 16) by (clear -H16; by destruct mi, fp).
  set (m := sent_mi h body (default [] key) mi) in *.
  assert (Hs : zlen body + mi_len m + fp_len fp = size) by lia.
  split; [done|]. split; [done|]. split; [done|]. split; [done|]. split; [|split].
  - rewrite packet_length by (first [done|lia]). by rewrite Hs.
  - rewrite E. rewrite Hm2 in Hs. by rewrite <- Hs, !Z.add_assoc.
  - intros pj_strerror addr' options want Ho. rewrite <- Hs.
    apply (decode_packet pj_strerror padding_char addr addr' h core body m fp options want); try done; [lia|]. by rewrite Hs.
Qed.

(** C28: What pj_stun_msg_encode makes of a message with any attributes that can be sent,
    followed or not by MESSAGE-INTEGRITY and FINGERPRINT, pj_stun_msg_decode turns,
    on any machine, back into the message that the encoder left, attribute by
    attribute as [received] says: every attribute comes back with its type and value,
    but for the strings of a message of RFC 3489, which come back with their padding,
    and the magic number of binary attributes that have a decoder, which comes back
    as 0.  The check of the packet, fingerprint included, accepts it, unless a packet
    of RFC 5389 without FINGERPRINT has the number of that attribute eight bytes before
    its end and is checked for it ([checkable]). *)
Theorem stun_roundtrip (padding_char : Z) (garbage : list Z) (addr addr' : Z) (h : pj_stun_msg_hdr)
    (core : list pj_stun_attr) (mi : option (list Z)) (fp : option Z) (key : option (list Z)) (buf : list Z)
    (buf_size size : Z) (pj_strerror : Z -> list Z) (options : Z) (want : bool) :
  length garbage = 64%nat -> can_send padding_char h core mi fp key buf buf_size size ->
  exists pkt rest m f,
    zlen pkt = 20 + size /\ (m = None <-> mi = None) /\ (f = None <-> fp = None) /\
    pj_stun_msg_encode padding_char garbage addr (mk_msg h (core ++ msg_tail mi fp)) buf buf_size 0 key =
      Some (mk_encoded PJ_SUCCESS (pkt ++ rest) (mk_msg (with_len h size) (core ++ msg_tail m f)) (20 + size)) /\
    (checkable options fp h pkt size ->
     pj_stun_msg_decode pj_strerror addr' pkt (20 + size) options want =
       Some (mk_decoded PJ_SUCCESS
         (Some (mk_msg (with_len h size) (map (received padding_char h) core ++ msg_tail m f))) (20 + size) None)).
Proof.
  intros Hg Hs. destruct (stun_encode_decode padding_char garbage addr _ _ _ _ _ _ _ _ Hg Hs)
    as (body & rest & _ & _ & _ & _ & Hl & E & D).
  do 2 eexists. exists (sent_mi h body (default [] key) mi), (sent_fp addr h body (sent_mi h body (default [] key) mi) fp).
  split; [exact Hl|].
  split; [by destruct mi|]. split; [by destruct fp|]. split; [exact E|]. by apply D.
Qed.

(** A response with a name, an address and an attribute the table does not know *)
Definition sample_hdr : pj_stun_msg_hdr := mk_msg_hdr 0x0101 0 PJ_STUN_MAGIC (seqZ 1 12).
Definition sample_attrs : list pj_stun_attr :=
  [mk_attr (mk_attr_hdr PJ_STUN_ATTR_USERNAME 5) (V_string (zstring "alice"));
   mk_attr (mk_attr_hdr 0x0020 8) (V_sockaddr true (mk_sockaddr AF_INET [19; 136] [10; 0; 0; 1]));
   mk_attr (mk_attr_hdr 0xC001 3) (V_binary PJ_STUN_MAGIC [1; 2; 3])].

Lemma sample_hdr_ok : hdr_ok sample_hdr.
Proof. repeat split; try done. repeat constructor; done. Qed.

Lemma sample_attrs_ok : Forall (core_ok 0 sample_hdr) sample_attrs.
Proof. repeat constructor; done. Qed.

Lemma sample_can_send :
  can_send 0 sample_hdr sample_attrs (Some (replicate 20 0)) (Some 0) (Some (zstring "secret")) (replicate 100 255) 100 64.
Proof.
  split; try done.
  - exact sample_hdr_ok.
  - exact sample_attrs_ok.
  - exists (zstring "secret"). split; [done|]. split; [repeat constructor; done|done].
  - by apply Forall_replicate.
Qed.

Lemma stun_roundtrip_witness :
  exists pkt rest m f,
    zlen pkt = 20 + 64 /\ (m = None <-> Some (replicate 20 0) = None) /\ (f = None <-> Some 0 = None) /\
    pj_stun_msg_encode 0 (replicate 64 7) 0 (mk_msg sample_hdr (sample_attrs ++ msg_tail (Some (replicate 20 0)) (Some 0)))
        (replicate 100 255) 100 0 (Some (zstring "secret")) =
      Some (mk_encoded PJ_SUCCESS (pkt ++ rest) (mk_msg (with_len sample_hdr 64) (sample_attrs ++ msg_tail m f)) (20 + 64)) /\
    (checkable 3 (Some 0) sample_hdr pkt 64 ->
     pj_stun_msg_decode (fun _ => []) 2 pkt (20 + 64) 3 true =
       Some (mk_decoded PJ_SUCCESS
         (Some (mk_msg (with_len sample_hdr 64) (map (received 0 sample_hdr) sample_attrs ++ msg_tail m f))) (20 + 64) None)).
Proof.
  apply (stun_roundtrip 0 (replicate 64 7) 0 2 sample_hdr sample_attrs (Some (replicate 20 0)) (Some 0)
    (Some (zstring "secret")) (replicate 100 255) 100 64 (fun _ => []) 3 true); [done|exact sample_can_send].
Defined.

(** A request without attributes, which is refused for what is in its transaction ID *)
Example false_fingerprint :
  pj_stun_msg_check 0 ([0; 1; 0; 0; 0x21; 0x12; 0xA4; 0x42; 1; 2; 3; 4; 0x80; 0x28; 5; 6; 7; 8; 9; 10]) 20 0 = Some PJNATH_ESTUNINATTRLEN.
Proof. by vm_compute. Qed.
