(* ===== verification/StunSafe.v ===== *)
(** * STUN messages: types of values, and memory

    The value of every attribute of a decoded message has the structure that the
    functions of its type number cast it to; decoding reads at most four bytes behind
    the packet, but for one kind of attribute. *)

From stdpp Require Import strings.
From S2P Require Import Prelude Words Crc32 Sha1 Stun StunWire StunMsg StunProps.

(** ** Types *)

(** What the code may cast the attribute to *)
Definition typed (a : pj_stun_attr) : Prop :=
  match find_attr_desc (attr_type a) with
  | Some (_, kind) => fits kind (value a) = true
  | None => exists data, value a = V_binary PJ_STUN_MAGIC data
  end.

Definition typed_msg (msg : pj_stun_msg) : Prop := Forall typed (attr msg).

Lemma sockaddr_typed buf pos mh a : decode_sockaddr_attr buf pos mh = Some (inr a) ->
  GETATTRHDR buf pos = Some (hdr a) /\ exists x sa, value a = V_sockaddr x sa.
Proof.
  unfold decode_sockaddr_attr. destruct (GETATTRHDR buf pos) as [h|]; [|done]. cbn [mbind option_bind].
  destruct (negb _ && negb _); [done|]. destruct (buf !! _) as [v|]; [|done]. cbn [mbind option_bind].
  destruct (v =? 1); [|destruct (v =? 2); [|done]].
  all: destruct (negb _); [done|]. all: destruct (GETVAL16H _ _); [|done]; cbn [mbind option_bind].
  all: destruct (lslice _ _ _); [|done]; cbn [mbind option_bind]. all: intros [= <-]; split; [done|]; by do 2 eexists.
Qed.

Lemma decode_attr_fits kind buf pos mh a : decode_attr kind buf pos mh = Some (inr a) ->
  GETATTRHDR buf pos = Some (hdr a) /\ fits kind (value a) = true.
Proof.
  destruct kind; cbn [decode_attr].
  - intros H. apply sockaddr_typed in H as [H (x & sa & ->)]. done.
  - unfold decode_xored_sockaddr_attr. destruct (decode_sockaddr_attr _ _ _) as [[s|a0]|] eqn:E; try done.
    apply sockaddr_typed in E as [E (x & sa & Ev)]. destruct a0 as [h v]. cbn in Ev, E. subst v. cbn [mbind option_bind].
    destruct (sa_family sa); try done; intros [= <-]; done.
  - unfold decode_string_attr. destruct (GETATTRHDR _ _); [|done]. cbn [mbind option_bind].
    destruct (lslice _ _ _); [|done]. by intros [= <-].
  - unfold decode_msgint_attr. destruct (GETATTRHDR _ _); [|done]. cbn [mbind option_bind]. destruct (negb _); [done|].
    destruct (lslice _ _ _); [|done]. by intros [= <-].
  - unfold decode_errcode_attr. destruct (GETATTRHDR _ _); [|done]. cbn [mbind option_bind].
    destruct (buf !! (pos + 6)%nat); [|done]. cbn [mbind option_bind]. destruct (buf !! (pos + 7)%nat); [|done]. cbn [mbind option_bind].
    destruct (_ <? 0); [done|]. destruct (lslice _ _ _); [|done]. by intros [= <-].
  - unfold decode_unknown_attr. destruct (GETATTRHDR _ _); [|done]. cbn [mbind option_bind]. destruct (_ <? _); [done|].
    destruct (get_words _ _ _); [|done]. by intros [= <-].
  - unfold decode_uint_attr. destruct (GETATTRHDR _ _); [|done]. cbn [mbind option_bind].
    destruct (GETVAL32H _ _); [|done]. cbn [mbind option_bind]. destruct (negb _); [done|]. by intros [= <-].
  - unfold decode_uint64_attr. destruct (GETATTRHDR _ _); [|done]. cbn [mbind option_bind]. destruct (negb _); [done|].
    destruct (GETVAL64H _ _) as [[]|]; [|done]. by intros [= <-].
  - unfold decode_binary_attr. destruct (GETATTRHDR _ _); [|done]. cbn [mbind option_bind].
    destruct (lslice _ _ _); [|done]. by intros [= <-].
  - unfold decode_empty_attr. destruct (GETATTRHDR _ _); [|done]. cbn [mbind option_bind]. destruct (negb _); [done|].
    by intros [= <-].
Qed.

(** The responses the decoder makes are typed. *)
Lemma errcode_typed code reason a : pj_stun_errcode_attr_create code reason = Some (inr a) -> typed a.
Proof.
  unfold pj_stun_errcode_attr_create. destruct (code =? 0); [done|].
  match goal with |- (?x ≫= _) = _ -> _ => destruct x as [r|] end; [|done]. cbn [mbind option_bind]. by intros [= <-].
Qed.

Lemma add_attr_typed msg a : typed_msg msg -> typed a -> typed_msg (snd (pj_stun_msg_add_attr msg a)).
Proof.
  intros Hm Ha. unfold pj_stun_msg_add_attr. destruct (_ <? _); [|done]. unfold typed_msg. cbn [snd attr].
  apply Forall_app. by repeat constructor.
Qed.

Lemma response_typed msg code reason response :
  pj_stun_msg_create_response msg code reason = Some (inr response) -> typed_msg response.
Proof.
  unfold pj_stun_msg_create_response. destruct (negb _); [done|].
  unfold pj_stun_msg_init. destruct (_ =? 0); [done|]. destruct (code =? 0); [by intros [= <-]; constructor|].
  unfold pj_stun_msg_add_errcode_attr. destruct (pj_stun_errcode_attr_create code reason) as [[s|a]|] eqn:E; [| |done].
  - cbn [fmap option_fmap option_map mbind option_bind add_created]. destruct (s =? PJ_SUCCESS); [|done].
    intros [= <-]. constructor.
  - cbn [fmap option_fmap option_map mbind option_bind add_created].
    pose proof (add_attr_typed (mk_msg (mk_msg_hdr (u16 (Z.lor (m_type (msg_hdr msg)) PJ_STUN_ERROR_RESPONSE_BIT)) 0
      (m_magic (msg_hdr msg)) (m_tsx_id (msg_hdr msg))) []) a ltac:(constructor) (errcode_typed _ _ _ E)) as H.
    destruct (pj_stun_msg_add_attr _ _) as [s r]. cbn [snd] in H. destruct (s =? PJ_SUCCESS); [|done]. by intros [= <-].
Qed.

Definition typed_result (d : decode_result) : Prop :=
  match d_msg d with Some msg => typed_msg msg | None => True end /\
  match d_response d with Some msg => typed_msg msg | None => True end.

Lemma reject_typed want msg status code reason d : reject want msg status code reason = Some d -> typed_result d.
Proof.
  unfold reject. destruct want; [|by intros [= <-]].
  destruct (pj_stun_msg_create_response msg code reason) as [[s|r]|] eqn:E; [| |done]; cbn [mbind option_bind]; intros [= <-]; [done|].
  split; [done|]. by apply response_typed in E.
Qed.

Section Typed.
Context (pj_strerror : Z -> list Z).

Lemma unrecognized_typed want msg pdu pos ty r : typed_msg msg -> find_attr_desc ty = None -> is_u16 ty ->
  decode_unrecognized want msg pdu pos ty = Some r ->
  match r with inl d => typed_result d | inr msg' => typed_msg msg' end.
Proof.
  intros Hm Hd Ht. unfold decode_unrecognized. destruct (ty <=? 0x7FFF).
  - destruct want; [|by intros [= <-]].
    destruct (pj_stun_msg_create_response _ _ _) as [[s|resp]|] eqn:E; [| |done]; cbn [mbind option_bind]; intros [= <-]; [done|].
    split; [done|]. cbn [d_response failed]. unfold pj_stun_msg_add_unknown_attr, add_created.
    apply response_typed in E. by apply add_attr_typed.
  - destruct (PJ_STUN_MAX_ATTR <=? _).
    { destruct (reject _ _ _ _ _) as [d|] eqn:E; [|done]. intros [= <-]. by apply reject_typed in E. }
    destruct (GETVAL16H _ _) as [len|]; [|done]. cbn [mbind option_bind].
    destruct (lslice _ _ _) as [data|]; [|done]. cbn [mbind option_bind].
    unfold pj_stun_binary_attr_create. destruct (ty =? 0).
    { destruct (reject _ _ _ _ _) as [d|] eqn:E; [|done]. intros [= <-]. by apply reject_typed in E. }
    intros [= <-]. unfold typed_msg. cbn [attr]. apply Forall_app. split; [done|]. repeat constructor.
    unfold typed. cbn [attr_type hdr a_type INIT_ATTR]. rewrite u16_id, Hd by done. by eexists.
Qed.

Lemma known_typed want msg mi fp pdu pos ty name kind r : typed_msg msg -> find_attr_desc ty = Some (name, kind) ->
  GETVAL16H pdu pos = Some ty ->
  decode_known pj_strerror want msg mi fp pdu pos ty kind = Some r ->
  match r with inl d => typed_result d | inr (msg', _, _) => typed_msg msg' end.
Proof.
  intros Hm Hd Ht. unfold decode_known.
  assert (Rj : forall s c t (r : decode_result + pj_stun_msg * bool * bool),
    inl <$> reject want msg s c t = Some r -> match r with inl d => typed_result d | inr (msg', _, _) => typed_msg msg' end).
  { intros s c t r' H. destruct (reject want msg s c t) as [d|] eqn:E; [|done]. injection H as <-. by apply reject_typed in E. }
  destruct (decode_attr kind pdu pos (msg_hdr msg)) as [[s|a]|] eqn:E; [apply Rj| |done].
  cbn [mbind option_bind]. apply decode_attr_fits in E as [Eh Ef].
  assert (Ha : typed a).
  { unfold GETATTRHDR in Eh. rewrite Ht in Eh. cbn [mbind option_bind] in Eh. destruct (GETVAL16H pdu (pos + 2)); [|done].
    injection Eh as Eh. unfold typed, attr_type. rewrite <- Eh. cbn [a_type]. by rewrite Hd. }
  assert (Add : forall (mi fp : bool) (r : decode_result + pj_stun_msg * bool * bool), (if PJ_STUN_MAX_ATTR <=? zlen (attr msg)
    then inl <$> reject want msg PJNATH_ESTUNTOOMANYATTR PJ_STUN_SC_SERVER_ERROR None
    else Some (inr (mk_msg (msg_hdr msg) (attr msg ++ [a]), mi, fp))) = Some r ->
    match r with inl d => typed_result d | inr (msg', _, _) => typed_msg msg' end).
  { intros mi' fp' r'. destruct (_ <=? _); [apply Rj|]. intros [= <-]. unfold typed_msg. cbn [attr].
    apply Forall_app. by repeat constructor. }
  destruct (_ && negb fp); [destruct mi; [apply Rj|apply Add]|].
  destruct (_ =? PJ_STUN_ATTR_FINGERPRINT); [destruct fp; [apply Rj|apply Add]|].
  destruct fp; [apply Rj|apply Add].
Qed.

Lemma get16_u16 buf pos v : GETVAL16H buf pos = Some v -> is_u16 v.
Proof.
  unfold GETVAL16H. destruct (buf !! pos); [|done]. cbn [mbind option_bind]. destruct (buf !! (pos + 1)%nat); [|done].
  intros [= <-]. apply Z.mod_pos_bound. lia.
Qed.

Lemma attrs_typed fuel : forall want msg mi fp pdu pos pdu_len d, typed_msg msg ->
  decode_attrs pj_strerror fuel want msg mi fp pdu pos pdu_len = Some d -> typed_result d.
Proof.
  induction fuel as [|fuel IH]; intros want msg mi fp pdu pos pdu_len d Hm; [done|]. cbn [decode_attrs].
  destruct (4 <=? pdu_len).
  - destruct (GETVAL16H pdu pos) as [ty|] eqn:Et; [|done]. cbn [mbind option_bind].
    destruct (GETVAL16H pdu (pos + 2)) as [l|]; [|done]. cbn [mbind option_bind].
    destruct (pdu_len <? align4 l); [by apply reject_typed|].
    destruct (find_attr_desc ty) as [[name kind]|] eqn:Ed.
    + destruct (decode_known _ _ _ _ _ _ _ _ _) as [r|] eqn:Ek; [|done]. cbn [mbind option_bind].
      eapply known_typed in Ek; [|done..]. destruct r as [d'|[[msg' mi'] fp']]; [by intros [= <-]|by apply IH].
    + destruct (decode_unrecognized _ _ _ _ _) as [r|] eqn:Ek; [|done]. cbn [mbind option_bind].
      eapply unrecognized_typed in Ek; [|done|done|by eapply get16_u16].
      destruct r as [d'|msg']; [by intros [= <-]|by apply IH].
  - destruct (0 <? pdu_len); intros [= <-]; done.
Qed.

Lemma clone_typed msg : typed_msg msg -> pj_stun_msg_clone msg = Some msg.
Proof.
  intros H. unfold pj_stun_msg_clone.
  assert (E : mapM pj_stun_attr_clone (attr msg) = Some (map Some (attr msg))).
  { induction H as [|a l Ha _ IH]; [done|]. cbn [map mapM].
    assert (C : pj_stun_attr_clone a = Some (Some a)).
    { unfold pj_stun_attr_clone, typed in *. destruct (find_attr_desc _) as [[? k]|]; [by rewrite Ha|].
      destruct Ha as [data ->]. by rewrite Z.eqb_refl. }
    rewrite C. cbn [mbind option_bind]. by rewrite IH. }
  rewrite E. cbn [mbind option_bind]. destruct msg as [h l]. cbn [msg_hdr attr]. do 2 f_equal. clear. induction l; cbn; congruence.
Qed.

(** C29: Every attribute of a message that pj_stun_msg_decode hands out, and of every error
    response that it makes, has the structure that the descriptor of its type
    number casts it to, or is a generic binary attribute when there is no
    descriptor; so pj_stun_msg_clone copies the message whole. *)
Theorem decode_typed (addr : Z) (pdu : list Z) (pdu_len options : Z) (want : bool) (d : decode_result) :
  pj_stun_msg_decode pj_strerror addr pdu pdu_len options want = Some d ->
  typed_result d /\ forall msg, d_msg d = Some msg -> pj_stun_msg_clone msg = Some msg.
Proof.
  intros H. assert (T : typed_result d).
  { revert H. unfold pj_stun_msg_decode. destruct (pdu_len =? 0); [by intros [= <-]|].
    destruct (if has_option _ _ then _ else _) as [status|]; [|done]. cbn [mbind option_bind].
    destruct (negb _); [by intros [= <-]|].
    destruct (GETVAL16H pdu 0); [|done]. cbn [mbind option_bind].
    destruct (GETVAL16H pdu 2); [|done]. cbn [mbind option_bind].
    destruct (GETVAL32H pdu 4); [|done]. cbn [mbind option_bind].
    destruct (lslice pdu 8 12); [|done]. cbn [mbind option_bind]. apply attrs_typed. constructor. }
  split; [done|]. intros msg Em. apply clone_typed. destruct T as [T _]. by rewrite Em in T.
Qed.
End Typed.

(** ** Memory *)

Lemma get16_in buf pos : (pos + 2 <= length buf)%nat -> exists v, GETVAL16H buf pos = Some v.
Proof.
  intros H. unfold GETVAL16H. destruct (lookup_lt_is_Some_2 buf pos ltac:(lia)) as [a ->].
  destruct (lookup_lt_is_Some_2 buf (pos + 1)%nat ltac:(lia)) as [b ->]. by eexists.
Qed.

Lemma get32_in buf pos : (pos + 4 <= length buf)%nat -> exists v, GETVAL32H buf pos = Some v.
Proof.
  intros H. unfold GETVAL32H. destruct (lookup_lt_is_Some_2 buf pos ltac:(lia)) as [a ->].
  destruct (lookup_lt_is_Some_2 buf (pos + 1)%nat ltac:(lia)) as [b ->].
  destruct (lookup_lt_is_Some_2 buf (pos + 2)%nat ltac:(lia)) as [c ->].
  destruct (lookup_lt_is_Some_2 buf (pos + 3)%nat ltac:(lia)) as [d ->]. by eexists.
Qed.

Lemma words_in buf n : forall pos, (pos + 2 * n <= length buf)%nat -> exists v, get_words buf pos n = Some v.
Proof.
  induction n as [|n IH]; intros pos H; [by eexists|]. cbn [get_words].
  destruct (get16_in buf pos) as [w ->]; [lia|]. destruct (IH (pos + 2)%nat) as [ws E]; [lia|]. cbn [mbind option_bind].
  rewrite E. by eexists.
Qed.

(** [reads x]: the statement does not leave the buffer. *)
Ltac in_buf :=
  repeat match goal with
  | |- context [GETVAL16H ?b ?p] => let E := fresh in destruct (get16_in b p) as [? E]; [lia|rewrite E]; cbn [mbind option_bind]
  | |- context [GETVAL32H ?b ?p] => let E := fresh in destruct (get32_in b p) as [? E]; [lia|rewrite E]; cbn [mbind option_bind]
  | |- context [lslice ?b ?p ?n] => rewrite (lslice_eq b p n) by lia; cbn [mbind option_bind]
  | |- context [?b !! ?p] => let E := fresh in destruct (lookup_lt_is_Some_2 b p) as [? E]; [lia|rewrite E]; cbn [mbind option_bind]
  end.

(** An attribute with its padding among the [n] bytes of a message left, and four bytes behind *)
Lemma decode_attr_in kind buf pos mh len n :
  GETVAL16H buf (pos + 2) = Some len -> 4 <= n -> align4 len <= n -> (pos + Z.to_nat n + 4 <= length buf)%nat ->
  decode_attr kind buf pos mh = None -> kind = K_errcode /\ len < 4.
Proof.
  intros El Hn Ha Hb. pose proof (get16_u16 _ _ _ El) as Hl. unfold is_u16 in Hl.
  destruct (align4_range len) as [Hal _]; [lia|].
  destruct (get16_in buf pos) as [ty Et]; [lia|].
  assert (Eh : GETATTRHDR buf pos = Some (mk_attr_hdr ty len)) by (unfold GETATTRHDR; by rewrite Et, El).
  unfold ATTR_HDR_LEN in *.
  assert (Hsa : decode_sockaddr_attr buf pos mh <> None).
  { unfold decode_sockaddr_attr, ATTR_HDR_LEN. rewrite Eh. cbn [mbind option_bind a_length].
    unfold STUN_GENERIC_IPV4_ADDR_LEN, STUN_GENERIC_IPV6_ADDR_LEN.
    destruct (Z.eqb_spec len 8) as [->|]; [|destruct (Z.eqb_spec len 20) as [->|]; [|done]]; cbn [negb andb].
    all: destruct (lookup_lt_is_Some_2 buf (pos + 4 + 1)%nat ltac:(lia)) as [v ->]; cbn [mbind option_bind].
    all: destruct (v =? 1); [|destruct (v =? 2); [|done]]; cbn [negb Z.eqb Pos.eqb]; try done; by in_buf. }
  destruct kind; cbn [decode_attr]; intros E; lazymatch goal with |- K_errcode = K_errcode /\ _ => idtac | _ => exfalso; revert E end.
  - by apply Hsa.
  - unfold decode_xored_sockaddr_attr. destruct (decode_sockaddr_attr buf pos mh) as [[s|a]|] eqn:Ea; [done| |done].
    apply sockaddr_typed in Ea as [_ (x & sa & Ev)]. destruct a as [h v]. cbn in Ev. subst v. cbn [mbind option_bind].
    by destruct (sa_family sa).
  - unfold decode_string_attr, ATTR_HDR_LEN. rewrite Eh. cbn [mbind option_bind a_length]. by in_buf.
  - unfold decode_msgint_attr. rewrite Eh. cbn [mbind option_bind a_length].
    destruct (Z.eqb_spec len 20) as [->|]; [|done]. cbn [negb]. by in_buf.
  - split; [done|]. destruct (decide (len < 4)) as [|Hge]; [done|]. exfalso. revert E.
    unfold decode_errcode_attr, ATTR_HDR_LEN. rewrite Eh. cbn [mbind option_bind a_length]. in_buf.
    destruct (Z.ltb_spec (len - 4) 0); [lia|]. by in_buf.
  - unfold decode_unknown_attr, ATTR_HDR_LEN. rewrite Eh. cbn [mbind option_bind a_length].
    rewrite Z.shiftr_div_pow2 by lia. change (2 ^ 1) with 2. destruct (PJ_STUN_MAX_ATTR <? len / 2); [done|].
    destruct (words_in buf (Z.to_nat (len / 2)) (pos + 4)) as [ws Ew]; [|by rewrite Ew].
    Z.to_euclidean_division_equations. lia.
  - unfold decode_uint_attr. rewrite Eh. cbn [mbind option_bind a_length]. in_buf. by destruct (negb _).
  - unfold decode_uint64_attr, GETVAL64H. rewrite Eh. cbn [mbind option_bind a_length].
    destruct (Z.eqb_spec len 8) as [->|]; [|done]. cbn [negb]. by in_buf.
  - unfold decode_binary_attr, ATTR_HDR_LEN. rewrite Eh. cbn [mbind option_bind a_length]. by in_buf.
  - unfold decode_empty_attr. rewrite Eh. cbn [mbind option_bind a_length]. by destruct (negb _).
Qed.

Lemma desc_errcode t name : 0 <= t -> find_attr_desc t = Some (name, K_errcode) -> t = PJ_STUN_ATTR_ERROR_CODE.
Proof.
  intros H0 Hd.
  assert (K : forallb (fun t => match find_attr_desc t with Some (_, K_errcode) => t =? 9 | _ => true end) known_types = true)
    by (vm_compute; reflexivity).
  rewrite forallb_forall in K. specialize (K t (desc_known t _ H0 Hd)). rewrite Hd in K. by apply Z.eqb_eq.
Qed.

(** An ERROR-CODE attribute at [pos], too short for its own header *)
Definition short_errcode (pdu : list Z) (pos : nat) : Prop :=
  GETVAL16H pdu pos = Some PJ_STUN_ATTR_ERROR_CODE /\ exists l, GETVAL16H pdu (pos + 2) = Some l /\ l < 4.

(** The codes of the decoder's responses *)
Definition response_code (code : Z) : Prop :=
  code = PJ_STUN_SC_BAD_REQUEST \/ code = PJ_STUN_SC_SERVER_ERROR \/ code = PJ_STUN_SC_UNKNOWN_ATTRIBUTE.

Lemma create_response_in msg code reason : response_code code -> pj_stun_msg_create_response msg code reason <> None.
Proof.
  intros Hc. unfold pj_stun_msg_create_response. destruct (negb _); [done|]. destruct (pj_stun_msg_init _ _ _); [done|].
  destruct (code =? 0); [done|]. unfold pj_stun_msg_add_errcode_attr.
  assert (E : pj_stun_errcode_attr_create code reason <> None).
  { unfold pj_stun_errcode_attr_create. destruct (code =? 0); [done|]. destruct reason as [r|]; [done|].
    assert (G : pj_stun_get_err_reason code <> None) by (destruct Hc as [->|[->| ->]]; vm_compute; discriminate).
    by destruct (pj_stun_get_err_reason code). }
  destruct (pj_stun_errcode_attr_create code reason) as [a|]; [|done]. cbn [fmap option_fmap option_map mbind option_bind].
  destruct (add_created _ a) as [s r]. done.
Qed.

Lemma reject_in want msg status code reason : response_code code -> reject want msg status code reason <> None.
Proof.
  intros Hc. unfold reject. destruct want; [|done]. pose proof (create_response_in msg code reason Hc) as H.
  by destruct (pj_stun_msg_create_response msg code reason).
Qed.

Section Memory.
Context (pj_strerror : Z -> list Z).

Lemma unrecognized_in want msg pdu pos ty len n :
  GETVAL16H pdu (pos + 2) = Some len -> align4 len <= n -> (pos + Z.to_nat n + 4 <= length pdu)%nat ->
  decode_unrecognized want msg pdu pos ty <> None.
Proof.
  intros El Ha Hb. pose proof (get16_u16 _ _ _ El) as Hl. unfold is_u16 in Hl.
  destruct (align4_range len) as [Hal _]; [lia|]. unfold decode_unrecognized. destruct (ty <=? 0x7FFF).
  - destruct want; [|done].
    pose proof (create_response_in msg PJ_STUN_SC_UNKNOWN_ATTRIBUTE None ltac:(right; right; done)) as H.
    by destruct (pj_stun_msg_create_response msg PJ_STUN_SC_UNKNOWN_ATTRIBUTE None).
  - assert (Rj : forall s, (@inl decode_result pj_stun_msg <$> reject want msg s PJ_STUN_SC_SERVER_ERROR None) <> None).
    { intros s. pose proof (reject_in want msg s PJ_STUN_SC_SERVER_ERROR None ltac:(right; left; done)) as H.
      by destruct (reject want msg s PJ_STUN_SC_SERVER_ERROR None). }
    destruct (PJ_STUN_MAX_ATTR <=? _); [apply Rj|]. rewrite El. cbn [mbind option_bind]. in_buf.
    destruct (pj_stun_binary_attr_create _ _); [apply Rj|done].
Qed.

Lemma known_in want msg mi fp pdu pos ty name kind len n :
  GETVAL16H pdu pos = Some ty -> find_attr_desc ty = Some (name, kind) ->
  GETVAL16H pdu (pos + 2) = Some len -> 4 <= n -> align4 len <= n -> (pos + Z.to_nat n + 4 <= length pdu)%nat ->
  decode_known pj_strerror want msg mi fp pdu pos ty kind = None -> short_errcode pdu pos.
Proof.
  intros Et Ed El Hn Ha Hb. unfold decode_known.
  assert (Rj : forall s c t, response_code c ->
    (@inl decode_result (pj_stun_msg * bool * bool) <$> reject want msg s c t) <> None).
  { intros s c t Hc. pose proof (reject_in want msg s c t Hc) as H. by destruct (reject want msg s c t). }
  destruct (decode_attr kind pdu pos (msg_hdr msg)) as [[s|a]|] eqn:E.
  - cbn [mbind option_bind]. intros H. by apply Rj in H; [|left].
  - cbn [mbind option_bind].
    assert (Add : forall mi fp : bool, (if PJ_STUN_MAX_ATTR <=? zlen (attr msg)
      then inl <$> reject want msg PJNATH_ESTUNTOOMANYATTR PJ_STUN_SC_SERVER_ERROR None
      else Some (inr (mk_msg (msg_hdr msg) (attr msg ++ [a]), mi, fp))) <> None).
    { intros mi' fp'. destruct (_ <=? _); [|done]. apply Rj. right. by left. }
    destruct (_ && negb fp);
      [destruct mi; [intros J; by apply Rj in J; [|left]|by intros J; apply Add in J]|].
    destruct (_ =? PJ_STUN_ATTR_FINGERPRINT);
      (destruct fp; [intros J; by apply Rj in J; [|left]|by intros J; apply Add in J]).
  - intros _. destruct (decode_attr_in kind pdu pos (msg_hdr msg) len n El Hn Ha Hb E) as [-> Hl].
    pose proof (get16_u16 _ _ _ Et) as Ht. unfold is_u16 in Ht.
    apply desc_errcode in Ed; [|lia]. subst ty. split; [done|]. by exists len.
Qed.

Lemma attrs_in fuel : forall want msg mi fp pdu pos pdu_len,
  0 <= pdu_len < Z.of_nat fuel -> (pos + Z.to_nat pdu_len + 4 <= length pdu)%nat ->
  decode_attrs pj_strerror fuel want msg mi fp pdu pos pdu_len = None ->
  exists p, (pos <= p < pos + Z.to_nat pdu_len)%nat /\ short_errcode pdu p.
Proof.
  induction fuel as [|fuel IH]; intros want msg mi fp pdu pos pdu_len Hf Hb; [lia|]. cbn [decode_attrs].
  destruct (Z.leb_spec 4 pdu_len) as [H4|]; [|by destruct (0 <? pdu_len)].
  destruct (get16_in pdu pos) as [ty Et]; [lia|]. destruct (get16_in pdu (pos + 2)) as [len El]; [lia|].
  rewrite Et, El. cbn [mbind option_bind].
  destruct (Z.ltb_spec pdu_len (align4 len)) as [|Ha].
  { intros J. by apply reject_in in J; [|left]. }
  pose proof (get16_u16 _ _ _ El) as Hl. unfold is_u16 in Hl. destruct (align4_range len) as [Hal _]; [lia|].
  assert (Next : forall msg mi fp n, n = (if pdu_len <=? align4 len + 4 then pdu_len else align4 len + 4) ->
    decode_attrs pj_strerror fuel want msg mi fp pdu (pos + Z.to_nat n) (pdu_len - n) = None ->
    exists p, (pos <= p < pos + Z.to_nat pdu_len)%nat /\ short_errcode pdu p).
  { intros msg' mi' fp' n Hn E. assert (4 <= n <= pdu_len) by (subst n; destruct (Z.leb_spec pdu_len (align4 len + 4)); lia).
    clear Hn. apply IH in E as (p & Hp & Hs); [|lia|lia]. exists p. split; [lia|done]. }
  destruct (find_attr_desc ty) as [[name kind]|] eqn:Ed.
  - destruct (decode_known _ _ _ _ _ _ _ _ _) as [r|] eqn:Ek; cbn [mbind option_bind].
    + destruct r as [d|[[msg' mi'] fp']]; [done|]. by apply Next.
    + intros _. exists pos. split; [lia|].
      by eapply (known_in want msg mi fp pdu pos ty name kind len pdu_len).
  - pose proof (unrecognized_in want msg pdu pos ty len pdu_len El Ha Hb) as Hu.
    destruct (decode_unrecognized _ _ _ _ _) as [r|]; [|done]. cbn [mbind option_bind].
    destruct r as [d|msg']; [done|]. by apply Next.
Qed.

(** C30: Decoding a packet after its check ends and reads nothing but the packet and at
    most four bytes behind it; the one way to go wrong is an ERROR-CODE attribute
    shorter than the four bytes it begins with. *)
Theorem decode_memory_safe (addr : Z) (pdu : list Z) (pdu_len options : Z) (want : bool) :
  has_option options PJ_STUN_CHECK_PACKET = true -> 0 <= pdu_len -> pdu_len + 4 <= zlen pdu ->
  (exists d, pj_stun_msg_decode pj_strerror addr pdu pdu_len options want = Some d) \/
  (exists pos, 20 <= Z.of_nat pos < pdu_len /\ short_errcode pdu pos).
Proof.
  intros Ho H0 Hb. destruct (pj_stun_msg_decode _ _ _ _ _ _) as [d|] eqn:E; [by left; exists d|right]. revert E.
  unfold pj_stun_msg_decode. destruct (Z.eqb_spec pdu_len 0); [done|]. rewrite Ho.
  unfold pj_stun_msg_check. destruct (Z.ltb_spec pdu_len 20) as [|H20]; [done|].
  unfold zlen in *. destruct (lookup_lt_is_Some_2 pdu 0%nat ltac:(lia)) as [b0 ->]. cbn [mbind option_bind].
  destruct (get16_in pdu 2) as [len El]; [lia|]. pose proof (get16_u16 _ _ _ El) as Hl. unfold is_u16 in Hl.
  destruct (get16_in pdu 0) as [ty ->]; [lia|]. destruct (get32_in pdu 4) as [magic ->]; [lia|].
  rewrite El, (lslice_eq pdu 8 12) by lia. cbn [mbind option_bind].
  destruct (negb (b0 =? 0) && negb (b0 =? 1)); [done|].
  destruct (Z.ltb_spec pdu_len (len + 20)) as [|Hle]; [done|]. cbn [orb].
  destruct (has_option _ PJ_STUN_IS_DATAGRAM && _); [done|]. destruct (negb (Z.land len 3 =? 0)); [done|].
  assert (Body : decode_attrs pj_strerror (S (Z.to_nat len)) (want && PJ_STUN_IS_REQUEST ty)
      (mk_msg (mk_msg_hdr ty len magic (take 12 (drop 8 pdu))) []) false false pdu 20 len = None ->
    exists pos, 20 <= Z.of_nat pos < pdu_len /\ short_errcode pdu pos).
  { intros E. apply attrs_in in E as (p & Hp & Hs); [|lia|lia]. exists p. split; [lia|done]. }
  destruct (magic =? PJ_STUN_MAGIC); [|exact Body].
  destruct (negb (has_option _ PJ_STUN_NO_FINGERPRINT_CHECK)); [|exact Body].
  destruct (get16_in pdu (Z.to_nat (len + 20 - 8))) as [fty ->]; [lia|]. cbn [mbind option_bind].
  destruct (fty =? PJ_STUN_ATTR_FINGERPRINT); [|exact Body].
  destruct (get16_in pdu (Z.to_nat (len + 20 - 8) + 2)) as [fl ->]; [lia|].
  destruct (get32_in pdu (Z.to_nat (len + 20 - 8) + 4)) as [fv ->]; [lia|]. cbn [mbind option_bind].
  destruct (negb (fl =? 4)); [done|]. rewrite lslice_eq by lia. cbn [mbind option_bind].
  destruct (negb _); [done|exact Body].
Qed.
End Memory.

(** A request with USERNAME "a", and one whose ERROR-CODE is cut short *)
Definition small_packet : list Z :=
  [0; 1; 0; 8; 0x21; 0x12; 0xA4; 0x42] ++ seqZ 1 12 ++ [0; 6; 0; 1; 97; 0; 0; 0].
Definition short_packet : list Z :=
  [0; 1; 0; 8; 0x21; 0x12; 0xA4; 0x42] ++ seqZ 1 12 ++ [0; 9; 0; 1; 97; 0; 0; 0].

Lemma decode_memory_safe_witness :
  (exists d, pj_stun_msg_decode (fun _ => []) 0 (small_packet ++ replicate 4 0) 28 3 true = Some d) \/
  (exists pos, 20 <= Z.of_nat pos < 28 /\ short_errcode (small_packet ++ replicate 4 0) pos).
Proof. exact (decode_memory_safe (fun _ => []) 0 (small_packet ++ replicate 4 0) 28 3 true eq_refl ltac:(lia) ltac:(vm_compute; discriminate)). Defined.

(** The bad packet does go wrong. *)
Example short_packet_wrong : pj_stun_msg_decode (fun _ => []) 0 (short_packet ++ replicate 4 0) 28 3 true = None.
Proof. vm_compute. reflexivity. Qed.

Lemma decode_typed_witness :
  pj_stun_msg_clone (mk_msg (mk_msg_hdr 1 8 PJ_STUN_MAGIC (seqZ 1 12)) [mk_attr (mk_attr_hdr 6 1) (V_string [97])]) =
    Some (mk_msg (mk_msg_hdr 1 8 PJ_STUN_MAGIC (seqZ 1 12)) [mk_attr (mk_attr_hdr 6 1) (V_string [97])]).
Proof.
  assert (E : pj_stun_msg_decode (fun _ => []) 0 small_packet 28 3 true = Some (mk_decoded PJ_SUCCESS
    (Some (mk_msg (mk_msg_hdr 1 8 PJ_STUN_MAGIC (seqZ 1 12)) [mk_attr (mk_attr_hdr 6 1) (V_string [97])])) 28 None))
    by (vm_compute; reflexivity).
  exact (proj2 (decode_typed (fun _ => []) 0 small_packet 28 3 true _ E) _ eq_refl).
Defined.
