(* ===== verification/StunBounds.v ===== *)
(** * STUN messages: the encoder stays in its buffer

    For a buffer whose size is a multiple of 4, the encoder writes at most two bytes
    behind it (the type of an address attribute that has no room), whatever the
    message; for other sizes it may write far behind it. *)

From stdpp Require Import strings.
From S2P Require Import Prelude Words Crc32 Sha1 Sha1Props Stun StunWire StunMsg StunProps.

(** ** An attribute without room *)

Section Attributes.
Context (padding_char : Z) (h : pj_stun_msg_hdr) (Hid : length (m_tsx_id h) = 12%nat)
  (Hidb : Forall is_byte (m_tsx_id h)).

(** What the encoders of attributes give when there is no room *)
Definition no_room (a : pj_stun_attr) (buf : list Z) (pos : nat) (r : option encode_result) : Prop :=
  exists buf', r = Some (PJ_ETOOSMALL, buf', 0) /\ (buf' = buf \/ PUTVAL16H buf pos (attr_type a) = Some buf').

Lemma no_room_now a buf pos : no_room a buf pos (Some (PJ_ETOOSMALL, buf, 0)).
Proof. exists buf. by split; [|left]. Qed.

Lemma no_room_test a buf pos len n (k : option encode_result) : len < n ->
  no_room a buf pos (if len <? n then Some (PJ_ETOOSMALL, buf, 0) else k).
Proof. intros H. apply Z.ltb_lt in H. rewrite H. apply no_room_now. Qed.

Lemma put16_in buf pos v : (pos + 2 <= length buf)%nat ->
  exists buf', PUTVAL16H buf pos v = Some buf' /\ length buf' = length buf /\ (Forall is_byte buf -> Forall is_byte buf').
Proof.
  intros H. unfold PUTVAL16H. fold (put16 v). rewrite lcopy_eq by (cbn; lia). eexists. split; [done|]. split.
  - rewrite !length_app, length_take, length_drop. cbn. lia.
  - intros Hb. rewrite !Forall_app. auto using put16_bytes, Forall_take, Forall_drop.
Qed.

Lemma align_above n len : 0 <= n < 2 ^ 31 -> len mod 4 = 0 -> len < align4 n -> len < n.
Proof. intros Hn Hm. rewrite align4_eq by done. Z.to_euclidean_division_equations. lia. Qed.

Lemma small_sockaddr a xor_ed sa buf pos len : value a = V_sockaddr xor_ed sa -> sockaddr_ok sa ->
  (pos + 2 <= length buf)%nat -> len < enc_len padding_char h a ->
  no_room a buf pos (encode_sockaddr_attr a buf pos len h).
Proof.
  intros E Hsa Hb Hl. pose proof (wire_addr_length h Hid xor_ed sa Hsa) as Hw. destruct Hsa as (_ & _ & _ & Ha).
  unfold enc_len in Hl. rewrite wire_zlen, E in Hl. cbn [payload] in Hl. unfold zlen in Hl. rewrite Hw in Hl.
  unfold encode_sockaddr_attr. rewrite E. destruct (put16_in buf pos (attr_type a) Hb) as (b & Eb & _). rewrite Eb.
  cbn [mbind option_bind]. unfold put_sockaddr, ATTR_HDR_LEN, STUN_GENERIC_IPV4_ADDR_LEN, STUN_GENERIC_IPV6_ADDR_LEN.
  destruct (sa_family sa); [| |done];
    (match goal with |- context [len <? ?n] => destruct (Z.ltb_spec len n) end; [exists b; split; [done|by right]|]).
  - change (align4 (4 + Z.of_nat 8)) with 12 in Hl. lia.
  - change (align4 (4 + Z.of_nat 20)) with 24 in Hl. lia.
Qed.

Lemma small_attr kind a buf pos len : value_ok kind (value a) -> zlen (payload padding_char h (value a)) < 65536 ->
  kind <> K_msgint ->
  (pos + 2 <= length buf)%nat -> len mod 4 = 0 -> len < enc_len padding_char h a ->
  no_room a buf pos (encode_attr padding_char kind a buf pos len h).
Proof.
  intros Hv Hs Hk Hb Hm Hl. pose proof (wire_zlen padding_char h a) as Hw.
  assert (H0 : forall l : list Z, 0 <= zlen l) by (intros; unfold zlen; lia). pose proof (H0 (payload padding_char h (value a))) as Hp0.
  assert (Hx : len < 4 + zlen (payload padding_char h (value a))).
  { rewrite <- Hw. apply align_above; [lia|done|exact Hl]. }
  destruct kind, (value a) as [xor_ed sa| |str|v|hi lo|hm|code reason|attrs|mg data] eqn:E; try done; cbn [value_ok encode_attr] in *.
  - eapply small_sockaddr; [done|apply Hv|done..].
  - eapply small_sockaddr; [done|apply Hv|done..].
  - unfold encode_string_attr. rewrite E. apply no_room_test. cbn [payload] in *.
    unfold enc_len in Hl. rewrite wire_zlen, E in Hl. cbn [payload] in Hl. unfold zlen in *. rewrite length_app in *.
    rewrite u32_id by (unfold is_u32; lia). eapply Z.lt_le_trans; [exact Hl|].
    destruct (pad_len_spec (length str)) as (k & Ek & Hp & Hr). unfold string_padding. rewrite length_replicate.
    rewrite !align4_eq by (unfold string_padding in *; rewrite ?length_replicate in *; lia). Z.to_euclidean_division_equations. lia.
  - unfold encode_errcode_attr. rewrite E. apply no_room_test. cbn [payload] in *. unfold zlen in *.
    rewrite length_app in *. cbn [length] in *. rewrite !u32_id by (unfold is_u32; try rewrite u32_id by (unfold is_u32; lia); lia). lia.
  - unfold encode_unknown_attr. rewrite E. apply no_room_test. cbn [payload] in *. unfold zlen in *.
    rewrite words_length in *. rewrite Z.shiftl_mul_pow2 by lia. lia.
  - unfold encode_uint_attr. rewrite E. apply no_room_test. cbn in Hx. unfold zlen in Hx. cbn in Hx. lia.
  - unfold encode_uint64_attr. rewrite E. apply no_room_test. cbn in Hx. unfold zlen in Hx. cbn in Hx. lia.
  - unfold encode_binary_attr. rewrite E. apply no_room_test. cbn [payload] in *.
    unfold enc_len in Hl. rewrite wire_zlen, E in Hl. cbn [payload] in Hl. pose proof (H0 data).
    rewrite u32_id by (unfold is_u32; lia). by rewrite Z.add_comm.
  - unfold encode_empty_attr. rewrite E. apply no_room_test. cbn in Hx. unfold zlen in Hx. cbn in Hx. lia.
Qed.

Lemma small_any a buf pos len : core_ok padding_char h a ->
  (pos + 2 <= length buf)%nat -> len mod 4 = 0 -> len < enc_len padding_char h a ->
  no_room a buf pos (encode_any padding_char a buf pos len h).
Proof.
  intros [(Ht & Hs & Hv) [Hm _]] Hb H4 Hl. unfold encode_any.
  destruct (find_attr_desc (attr_type a)) as [[s kind]|] eqn:Ed.
  - apply small_attr; try done. intros ->. apply Hm, (desc_msgint _ s); [apply Ht|done].
  - destruct Hv as [_ Hv]. destruct (value a) eqn:E; try done. destruct Hv as [-> _]. rewrite Z.eqb_refl.
    unfold encode_binary_attr. rewrite E. apply no_room_test.
    unfold enc_len in Hl. rewrite wire_zlen, E in Hl. cbn [payload] in *.
    assert (0 <= zlen data) by (unfold zlen; lia). rewrite u32_id by (unfold is_u32; lia). by rewrite Z.add_comm.
Qed.

(** One attribute, whether there is room or not *)
Definition kept (buf buf' : list Z) : Prop := length buf' = length buf /\ (Forall is_byte buf -> Forall is_byte buf').

Lemma lcopy_kept buf pos w buf' : Forall is_byte w -> lcopy buf pos w = Some buf' -> kept buf buf'.
Proof.
  unfold lcopy. case_decide; [|done]. intros Hw [= <-]. split.
  - rewrite !length_app, length_take, length_drop. lia.
  - intros Hb. rewrite !Forall_app. auto using Forall_take, Forall_drop.
Qed.

Lemma encode_step a buf pos size : core_ok padding_char h a -> 0 <= size < 2 ^ 31 -> size mod 4 = 0 ->
  Z.of_nat pos + size + 2 <= zlen buf ->
  exists status buf' printed, encode_any padding_char a buf pos (u32 size) h = Some (status, buf', printed) /\
    kept buf buf' /\ (status = PJ_SUCCESS -> 0 < printed <= size /\ printed mod 4 = 0).
Proof.
  intros Hc Hs H4 Hb. rewrite u32_id by (unfold is_u32; lia). pose proof Hc as [(Ht & Hl & Hv) _].
  destruct (enc_len_pos padding_char h a Hl) as [[Hw Hwe] Hm]. unfold zlen in Hb.
  destruct (decide (enc_len padding_char h a <= size)) as [Hle|Hgt].
  - rewrite <- (take_drop pos buf). set (pre := take pos buf). set (rest := drop pos buf).
    assert (Hpre : length pre = pos) by (unfold pre; rewrite length_take; lia).
    assert (Hrest : Z.of_nat pos + zlen rest = Z.of_nat (length buf)) by (unfold rest, zlen; rewrite length_drop; lia).
    destruct (encode_one padding_char h Hid pre rest a size Hc) as (pad & rest' & Er & Hwp & Ep & E); [lia|lia|].
    rewrite Hpre, u32_id in E by (unfold is_u32; lia). rewrite E. do 3 eexists. split; [done|]. split.
    + split.
      * rewrite Er. unfold zlen in *. rewrite !length_app, length_drop in *. lia.
      * rewrite !Forall_app. intros [Hp Hr]. split; [done|]. split; [by apply attr_ok_bytes|].
        split; [rewrite Ep; by apply Forall_take, Forall_drop|rewrite Er; by apply Forall_drop].
    + intros _. lia.
  - destruct (small_any a buf pos size Hc) as (buf' & E & Hbuf); [lia|done|lia|]. rewrite E. do 3 eexists. split; [done|].
    split; [|done]. destruct Hbuf as [->|Hp]; [done|]. destruct (put16_in buf pos (attr_type a)) as (b & Eb & Hlb & Hbb); [lia|].
    rewrite Hp in Eb. injection Eb as <-. done.
Qed.

(** An attribute of a message, MESSAGE-INTEGRITY and FINGERPRINT included *)
Definition any_ok (a : pj_stun_attr) : Prop := attr_ok padding_char h a.

(** The state of the encoder in a buffer for [total] bytes *)
Definition state_ok (total : Z) (buf : list Z) (e : encode_state) : Prop :=
  kept buf (e_buf e) /\ (20 <= e_pos e)%nat /\ Z.of_nat (e_pos e) + e_size e = total /\ 0 <= e_size e /\ e_size e mod 4 = 0.

Lemma kept_trans b1 b2 b3 : kept b1 b2 -> kept b2 b3 -> kept b1 b3.
Proof. intros [L1 F1] [L2 F2]. split; [congruence|auto]. Qed.

Lemma attrs_loop attrs : forall i e total buf, Forall any_ok attrs -> state_ok total buf e -> total < 2 ^ 31 ->
  total + 2 <= zlen buf ->
  exists status e' j how, encode_attrs padding_char attrs h i e = Some (status, e', j, how) /\ kept buf (e_buf e') /\
    (status = PJ_SUCCESS -> state_ok total buf e' /\ (i <= j <= i + length attrs)%nat /\
      match how with
      | All_encoded => j = (i + length attrs)%nat
      | Stop_msgint => exists a, attrs !! (j - i)%nat = Some a /\ attr_type a = PJ_STUN_ATTR_MESSAGE_INTEGRITY
      | Stop_fingerprint => exists a, attrs !! (j - i)%nat = Some a /\ attr_type a = PJ_STUN_ATTR_FINGERPRINT
      end).
Proof.
  induction attrs as [|a attrs IH]; intros i e total buf Hok Hst Ht Hb; cbn [encode_attrs].
  - do 4 eexists. split; [done|]. split; [apply Hst|]. intros _. split; [done|]. cbn [length]. lia.
  - apply Forall_cons in Hok as [Ha Hok]. cbn [length].
    destruct (Z.eqb_spec (attr_type a) PJ_STUN_ATTR_MESSAGE_INTEGRITY) as [Em|Em].
    { do 4 eexists. split; [done|]. split; [apply Hst|]. intros _. split; [done|]. split; [lia|]. exists a.
      by rewrite Nat.sub_diag. }
    destruct (Z.eqb_spec (attr_type a) PJ_STUN_ATTR_FINGERPRINT) as [Ef|Ef].
    { do 4 eexists. split; [done|]. split; [apply Hst|]. intros _. split; [done|]. split; [lia|]. exists a.
      by rewrite Nat.sub_diag. }
    destruct Hst as ((Hlen & Hby) & H20 & Htot & Hs0 & Hs4).
    destruct (encode_step a (e_buf e) (e_pos e) (e_size e)) as (st & b & p & E & Hk & Hp);
      [by split|lia|done|unfold zlen in *; lia|].
    rewrite E. cbn [mbind option_bind]. assert (Hkb : kept buf b) by (by apply (kept_trans _ (e_buf e))).
    destruct (Z.eqb_spec st PJ_SUCCESS) as [Es|Es]; cbn [negb].
    2: { do 4 eexists. split; [done|]. split; [done|]. intros ?. by exfalso. }
    specialize (Hp Es) as [Hp1 Hp4].
    destruct (IH (S i) (mk_enc b (e_pos e + Z.to_nat p) (e_size e - p)) total buf Hok) as (st' & e' & j & how & E' & Hk' & Hr);
      [|done|done|].
    { split; [done|]. cbn [e_pos e_size]. split; [lia|]. split; [lia|]. split; [lia|].
      clear -Hs4 Hp4. Z.to_euclidean_division_equations. lia. }
    rewrite E'. do 4 eexists. split; [done|]. split; [done|]. intros Hs. specialize (Hr Hs) as (Hst & Hj & Hh).
    split; [done|]. split; [lia|].
    destruct how.
    + lia.
    + destruct Hh as (x & Hx & Hy). exists x. split; [|done]. rewrite <- Hx.
      destruct (decide (j = i)); [lia|]. replace (j - i)%nat with (S (j - S i)) by lia. done.
    + destruct Hh as (x & Hx & Hy). exists x. split; [|done]. rewrite <- Hx.
      destruct (decide (j = i)); [lia|]. replace (j - i)%nat with (S (j - S i)) by lia. done.
Qed.

(** ** What comes after the attributes *)

(** Index [k] has an attribute of type [t]. *)
Definition at_type (attrs : list pj_stun_attr) (t : Z) (k : nat) : Prop :=
  exists a, attrs !! k = Some a /\ attr_type a = t.

Definition points_to (attrs : list pj_stun_attr) (t : Z) (o : option nat) : Prop :=
  match o with Some k => at_type attrs t k | None => True end.

Lemma scan_points attrs : forall l i am af am' af', l = drop i attrs ->
  points_to attrs PJ_STUN_ATTR_MESSAGE_INTEGRITY am -> points_to attrs PJ_STUN_ATTR_FINGERPRINT af ->
  encode_scan l i am af = inr (am', af') ->
  points_to attrs PJ_STUN_ATTR_MESSAGE_INTEGRITY am' /\ points_to attrs PJ_STUN_ATTR_FINGERPRINT af'.
Proof.
  induction l as [|a l IH]; intros i am af am' af' El Hm Hf; cbn [encode_scan]; [by intros [= <- <-]|].
  assert (Hi : attrs !! i = Some a) by (rewrite <- (Nat.add_0_r i), <- lookup_drop, <- El; done).
  assert (El' : l = drop (S i) attrs) by (rewrite <- Nat.add_1_r, <- drop_drop, <- El; done).
  destruct af as [f|]; [done|].
  destruct (Z.eqb_spec (attr_type a) PJ_STUN_ATTR_MESSAGE_INTEGRITY).
  - destruct am as [m|]; [done|]. apply IH; [done|by exists a|done].
  - destruct (Z.eqb_spec (attr_type a) PJ_STUN_ATTR_FINGERPRINT); apply IH; try done. by exists a.
Qed.

Lemma ok_msgint a : any_ok a -> attr_type a = PJ_STUN_ATTR_MESSAGE_INTEGRITY -> exists hm, value a = V_msgint hm.
Proof. intros (_ & _ & Hv) Ht. rewrite Ht in Hv. cbn in Hv. destruct (value a); try done. by eexists. Qed.

Lemma ok_fingerprint a : any_ok a -> attr_type a = PJ_STUN_ATTR_FINGERPRINT -> exists v, value a = V_uint v.
Proof. intros (_ & _ & Hv) Ht. rewrite Ht in Hv. cbn in Hv. destruct (value a); try done. by eexists. Qed.

(** A new value for an attribute *)
Lemma set_value_ok msg k a v : Forall any_ok (attr msg) -> attr msg !! k = Some a -> any_ok (mk_attr (hdr a) v) ->
  exists msg', set_value msg k v = Some msg' /\ attr msg' !! k = Some (mk_attr (hdr a) v) /\ Forall any_ok (attr msg') /\
    msg_hdr msg' = msg_hdr msg /\ forall t i, at_type (attr msg) t i -> at_type (attr msg') t i.
Proof.
  intros Hok Hk Hv. unfold set_value. rewrite Hk. cbn [mbind option_bind]. eexists. split; [done|]. cbn [attr msg_hdr].
  split; [apply list_lookup_insert_eq; by eapply lookup_lt_Some|]. split; [by apply Forall_insert|]. split; [done|].
  intros t i (b & Hb & Ht). destruct (decide (i = k)) as [->|Hne].
  - exists (mk_attr (hdr a) v). split; [apply list_lookup_insert_eq; by eapply lookup_lt_Some|].
    rewrite Hk in Hb. injection Hb as <-. exact Ht.
  - exists b. by rewrite list_lookup_insert_ne.
Qed.

Lemma write_msgint a hm buf pos size : value a = V_msgint hm -> Forall is_byte hm -> length hm = 20%nat ->
  0 <= size < 2 ^ 31 -> Z.of_nat pos + size <= zlen buf ->
  exists status buf' printed, encode_msgint_attr a buf pos (u32 size) = Some (status, buf', printed) /\ kept buf buf' /\
    (status = PJ_SUCCESS -> 0 < printed <= size /\ printed mod 4 = 0).
Proof.
  intros E Hb Hl Hs Hr. unfold encode_msgint_attr. rewrite E, u32_id by (unfold is_u32; lia).
  destruct (Z.ltb_spec size 24); [by do 3 eexists|]. unfold PUTVAL16H. fold (put16 (attr_type a)). fold (put16 (a_length (hdr a))).
  repeat (rewrite lcopy_join by (rewrite ?length_app; cbn; lia)).
  destruct (lcopy buf pos _) as [b|] eqn:Ec; cbn [mbind option_bind].
  - do 3 eexists. split; [done|]. split; [|intros _; split; [lia|done]]. eapply lcopy_kept; [|exact Ec]. rewrite !Forall_app. auto using put16_bytes.
  - exfalso. revert Ec. rewrite lcopy_eq; [done|]. unfold zlen in Hr. rewrite !length_app, Hl. cbn. lia.
Qed.

Lemma write_fingerprint a v buf pos size : value a = V_uint v ->
  0 <= size < 2 ^ 31 -> Z.of_nat pos + size <= zlen buf ->
  exists status buf' printed, encode_uint_attr a buf pos (u32 size) = Some (status, buf', printed) /\ kept buf buf' /\
    (status = PJ_SUCCESS -> 0 < printed <= size /\ printed mod 4 = 0).
Proof.
  intros E Hs Hr. unfold encode_uint_attr. rewrite E, u32_id by (unfold is_u32; lia).
  destruct (Z.ltb_spec size 8); [by do 3 eexists|]. unfold PUTVAL16H, PUTVAL32H.
  fold (put16 (attr_type a)). fold (put16 4). fold (put32 v). repeat (rewrite lcopy_join by (rewrite ?length_app; cbn; lia)).
  destruct (lcopy buf pos _) as [b|] eqn:Ec; cbn [mbind option_bind].
  - do 3 eexists. split; [done|]. split; [|intros _; split; [lia|done]]. eapply lcopy_kept; [|exact Ec]. rewrite !Forall_app. auto using put16_bytes, put32_bytes.
  - exfalso. revert Ec. rewrite lcopy_eq; [done|]. unfold zlen in Hr. rewrite !length_app. cbn. lia.
Qed.

(** A result of the encoder: the buffer has kept its size, and a message fits in it. *)
Definition fits_in (total : Z) (buf : list Z) (r : option encoded) : Prop :=
  exists en, r = Some en /\ kept buf (en_buf en) /\ (en_status en = PJ_SUCCESS -> 20 <= en_len en <= total).

(** MESSAGE-INTEGRITY or FINGERPRINT written: the state and the message after it *)
Definition written (total : Z) (buf : list Z) (msg : pj_stun_msg) (r : option (Z * encode_state * pj_stun_msg)) : Prop :=
  exists status e' msg', r = Some (status, e', msg') /\ kept buf (e_buf e') /\
    (status = PJ_SUCCESS -> state_ok total buf e' /\ Forall any_ok (attr msg') /\
       forall t i, at_type (attr msg) t i -> at_type (attr msg') t i).

Lemma state_step total buf e b p : state_ok total buf e -> kept (e_buf e) b -> 0 < p <= e_size e -> p mod 4 = 0 ->
  state_ok total buf (mk_enc b (e_pos e + Z.to_nat p) (e_size e - p)).
Proof.
  intros (Hk & H20 & Ht & Hs & H4) Hb Hp Hp4. split; [by apply (kept_trans _ (e_buf e))|]. cbn [e_pos e_size].
  repeat split; try lia. clear -H4 Hp4. Z.to_euclidean_division_equations. lia.
Qed.

Lemma put_msgint_in garbage key msg k e total buf : length garbage = 64%nat -> Forall is_byte key -> zlen key < 2 ^ 29 ->
  Forall any_ok (attr msg) -> at_type (attr msg) PJ_STUN_ATTR_MESSAGE_INTEGRITY k -> Forall is_byte buf ->
  state_ok total buf e -> total < 2 ^ 29 -> total <= zlen buf ->
  written total buf msg (put_msgint garbage msg k key e).
Proof.
  intros Hg Hkb Hkl Hok (a & Ha & Ht) Hbb Hst Htot Hbl. pose proof Hst as ((Hlen & Hby) & H20 & Hsum & Hs0 & Hs4).
  unfold put_msgint. rewrite lslice_eq by (unfold zlen in *; lia). cbn [mbind option_bind]. rewrite drop_0.
  destruct (hmac_one garbage Hg key (take (e_pos e) (e_buf e)) Hkb Hkl) as [Hn Hd];
    [by apply Forall_take, Hby|unfold zlen in *; rewrite length_take; lia|].
  destruct (pj_hmac_sha1_init garbage key) as [c0|]; [|done]. cbn [mbind option_bind] in *.
  destruct (pj_hmac_sha1_update c0 _) as [c1|]; [|done]. cbn [mbind option_bind] in *.
  destruct (pj_hmac_sha1_final c1) as [[c2 dg]|]; [|done]. cbn [mbind option_bind]. specialize (Hd _ eq_refl). cbn [snd] in Hd.
  assert (Hdl : length dg = 20%nat) by (subst dg; apply reference_length).
  assert (Hdb : Forall is_byte dg) by (subst dg; apply reference_bytes). clear Hd.
  rewrite Ha. cbn [mbind option_bind]. assert (Hoa : any_ok a) by (rewrite Forall_forall in Hok; eapply Hok, list_elem_of_lookup_2, Ha).
  destruct (ok_msgint a Hoa Ht) as [hm Hv]. rewrite Hv.
  destruct (set_value_ok msg k a (V_msgint dg) Hok Ha) as (msg' & Es & Hk' & Hok' & Hh' & Hat).
  { destruct Hoa as (H1 & _ & H3). split; [done|]. cbn [value payload hdr]. split; [unfold zlen; rewrite Hdl; done|].
    change (attr_type (mk_attr (hdr a) (V_msgint dg))) with (attr_type a) in *. rewrite Ht in *. cbn. done. }
  rewrite Es. cbn [mbind option_bind]. rewrite Hk'. cbn [mbind option_bind].
  destruct (write_msgint (mk_attr (hdr a) (V_msgint dg)) dg (e_buf e) (e_pos e) (e_size e)) as (st & b & p & E & Hkb' & Hp);
    [done|done|done|lia|unfold zlen in *; lia|].
  rewrite E. cbn [mbind option_bind]. do 3 eexists. split; [done|]. split; [by apply (kept_trans _ (e_buf e))|].
  intros Hs. destruct (Hp Hs) as [Hp1 Hp4]. split; [by apply state_step|done].
Qed.

Lemma put_fingerprint_in addr msg k e total buf :
  Forall any_ok (attr msg) -> at_type (attr msg) PJ_STUN_ATTR_FINGERPRINT k -> Forall is_byte buf ->
  state_ok total buf e -> total < 2 ^ 29 -> total <= zlen buf ->
  written total buf msg (put_fingerprint addr msg k e).
Proof.
  intros Hok (a & Ha & Ht) Hby Hst Htot Hbl. pose proof Hst as (Hkb & H20 & Hsum & Hs0 & Hs4). pose proof Hkb as [Hlen _].
  unfold put_fingerprint. destruct (lookup_lt_is_Some_2 (e_buf e) 2%nat) as [x2 E2]; [unfold zlen in *; lia|].
  destruct (lookup_lt_is_Some_2 (e_buf e) 3%nat) as [x3 E3]; [unfold zlen in *; lia|].
  unfold GETVAL16H. rewrite E2. cbn [mbind option_bind Nat.add]. rewrite E3. cbn [mbind option_bind].
  match goal with |- context [PUTVAL16H _ _ ?v] => destruct (put16_in (e_buf e) 2 v) as (b & Eb & Hbl' & Hbb) end;
    [unfold zlen in *; lia|].
  rewrite Eb. cbn [mbind option_bind]. rewrite lslice_eq by (unfold zlen in *; lia). cbn [mbind option_bind].
  rewrite Ha. cbn [mbind option_bind]. assert (Hoa : any_ok a) by (rewrite Forall_forall in Hok; eapply Hok, list_elem_of_lookup_2, Ha).
  destruct (ok_fingerprint a Hoa Ht) as [v0 Hv]. rewrite Hv. set (crc := Z.lxor _ _).
  assert (Hc : is_u32 crc).
  { subst crc. apply (lxor_bits 32); [done| |by vm_compute]. apply crc_calc_u32, Forall_take, Hbb, Hkb, Hby. }
  clearbody crc.
  destruct (set_value_ok msg k a (V_uint crc) Hok Ha) as (msg' & Es & Hk' & Hok' & Hh' & Hat).
  { destruct Hoa as (H1 & _ & _). split; [done|]. split; [done|].
    change (attr_type (mk_attr (hdr a) (V_uint crc))) with (attr_type a) in *. rewrite Ht in *. exact Hc. }
  rewrite Es. cbn [mbind option_bind]. rewrite Hk'. cbn [mbind option_bind].
  destruct (write_fingerprint (mk_attr (hdr a) (V_uint crc)) crc b (e_pos e) (e_size e)) as (st & b2 & p & E & Hkb2 & Hp);
    [done|lia|unfold zlen in *; lia|].
  rewrite E. cbn [mbind option_bind]. do 3 eexists. split; [done|].
  assert (Hk2 : kept (e_buf e) b2) by (by apply (kept_trans _ b)). split; [by apply (kept_trans _ (e_buf e))|].
  intros Hs. destruct (Hp Hs) as [Hp1 Hp4]. split; [by apply state_step|done].
Qed.

Lemma fingerprint_in addr af e msg total buf : Forall any_ok (attr msg) ->
  points_to (attr msg) PJ_STUN_ATTR_FINGERPRINT af -> Forall is_byte buf ->
  state_ok total buf e -> total < 2 ^ 29 -> total <= zlen buf ->
  fits_in total buf (encode_fingerprint addr af e msg).
Proof.
  intros Hok Haf Hby Hst Htot Hbl. unfold encode_fingerprint.
  assert (W : written total buf msg (match af with
    | Some k => put_fingerprint addr msg k e | None => Some (PJ_SUCCESS, e, msg) end)).
  { destruct af as [k|]; [by apply put_fingerprint_in|]. do 3 eexists. split; [done|]. split; [apply Hst|done]. }
  destruct W as (st & e' & msg' & -> & Hk & Hs). cbn [mbind option_bind].
  destruct (Z.eqb_spec st PJ_SUCCESS) as [E|E]; cbn [negb].
  - eexists. split; [done|]. split; [exact Hk|]. intros _. cbn [en_len]. destruct (Hs E) as [(_ & H20 & Hsum & H0 & _) _]. lia.
  - eexists. split; [done|]. split; [exact Hk|]. intros ?. by exfalso.
Qed.

Lemma trailer_in garbage addr msg key am af i e total buf : length garbage = 64%nat ->
  (forall k, key = Some k -> Forall is_byte k /\ zlen k < 2 ^ 29) ->
  Forall any_ok (attr msg) -> (length (attr msg) < 1000)%nat -> Forall is_byte buf ->
  points_to (attr msg) PJ_STUN_ATTR_MESSAGE_INTEGRITY am -> points_to (attr msg) PJ_STUN_ATTR_FINGERPRINT af ->
  (am <> None -> i = length (attr msg)) ->
  state_ok total buf e -> total < 2 ^ 29 -> total <= zlen buf ->
  fits_in total buf (encode_trailer garbage addr msg key am af i e).
Proof.
  intros Hg Hkey Hok Hn Hby Ham Haf Hi Hst Htot Hbl. unfold encode_trailer. set (blen := u16 _).
  pose proof Hst as (Hk & H20 & Hsum & Hs0 & Hs4). pose proof Hk as [Hlen _].
  destruct (put16_in (e_buf e) 2 blen) as (b & Eb & Hb); [unfold zlen in *; lia|]. rewrite Eb. cbn [mbind option_bind].
  assert (Hst' : state_ok total buf (mk_enc b (e_pos e) (e_size e))) by (split; [by apply (kept_trans _ (e_buf e))|done]).
  destruct am as [k|]; [|by apply fingerprint_in].
  destruct key as [key|]; [|eexists; split; [done|]; split; [apply Hst'|done]]. destruct (Hkey key eq_refl) as [Hkb Hkl].
  rewrite check_msgint_end; [|destruct Ham as (a & Ha & _); apply lookup_lt_Some in Ha; lia|by apply Hi].
  cbn [mbind option_bind].
  destruct (put_msgint_in garbage key msg k (mk_enc b (e_pos e) (e_size e)) total buf) as (st & e' & msg' & -> & Hk' & Hs);
    [done..|]. cbn [mbind option_bind].
  destruct (Z.eqb_spec st PJ_SUCCESS) as [E|E]; cbn [negb].
  - destruct (Hs E) as (Hst2 & Hok2 & Hat). apply fingerprint_in; try done. destruct af as [f|]; [by apply Hat|done].
  - eexists. split; [done|]. split; [exact Hk'|]. intros ?. by exfalso.
Qed.
End Attributes.

(** ** The whole message *)

(** The attributes a message may have: any that can be sent, in any order *)
Definition msg_ok (padding_char : Z) (msg : pj_stun_msg) : Prop :=
  hdr_ok (msg_hdr msg) /\ Forall (attr_ok padding_char (msg_hdr msg)) (attr msg) /\ zlen (attr msg) <= PJ_STUN_MAX_ATTR.

Lemma scan_end attrs i am' af' how :
  encode_scan (drop (S i) attrs) (S i) (match how with Stop_msgint => Some i | _ => None end)
    (match how with Stop_fingerprint => Some i | _ => None end) = inr (am', af') ->
  (i <= length attrs)%nat -> (how = All_encoded -> i = length attrs) -> (how <> All_encoded -> (i < length attrs)%nat) ->
  am' <> None -> Nat.max (S i) (length attrs) = length attrs.
Proof.
  intros E Hi Hall Hlt Hm. destruct how.
  - rewrite drop_ge in E by (rewrite Hall by done; lia). cbn in E. injection E as <- _. done.
  - specialize (Hlt ltac:(done)). lia.
  - specialize (Hlt ltac:(done)). lia.
Qed.

(** C31: pj_stun_msg_encode of any message (attributes in any order, too many for the buffer
    or not, MESSAGE-INTEGRITY and FINGERPRINT anywhere) into a buffer whose size is a
    multiple of 4 ends, never writes more than two bytes behind the size it was
    given, and a length it reports is at least a header and at most that size. *)
Theorem encode_in_bounds (padding_char : Z) (garbage : list Z) (addr : Z) (msg : pj_stun_msg) (buf : list Z)
    (buf_size options : Z) (key : option (list Z)) :
  length garbage = 64%nat -> msg_ok padding_char msg -> (forall k, key = Some k -> Forall is_byte k /\ zlen k < 2 ^ 29) ->
  0 <= buf_size < 2 ^ 29 -> buf_size mod 4 = 0 -> Forall is_byte buf -> zlen buf = buf_size + 2 ->
  fits_in buf_size buf (pj_stun_msg_encode padding_char garbage addr msg buf buf_size options key).
Proof.
  intros Hg (Hh & Hok & Hn) Hkey Hs H4 Hby Hbl. unfold PJ_STUN_MAX_ATTR in Hn. unfold pj_stun_msg_encode.
  assert (Stop : forall st b, st <> PJ_SUCCESS -> kept buf b -> fits_in buf_size buf (Some (mk_encoded st b msg 0))).
  { intros st b Hst Hk. eexists. split; [done|]. by split. }
  assert (Same : kept buf buf) by done.
  destruct (buf_size =? 0); [by apply Stop|]. destruct (negb (options =? 0)); [by apply Stop|].
  destruct (Z.ltb_spec buf_size 20); [by apply Stop|]. destruct Hh as (H1 & H2 & Hid & Hidb).
  rewrite (header_written (msg_hdr msg) buf) by (done || (unfold zlen in *; lia)).
  set (b0 := hdr_bytes (msg_hdr msg) 0 ++ drop 20 buf).
  assert (Hk0 : kept buf b0).
  { split.
    - unfold b0. rewrite length_app, hdr_bytes_length, length_drop by done. unfold zlen in *. lia.
    - intros Hb. apply Forall_app. split; [by apply hdr_bytes_bytes|by apply Forall_drop]. }
  destruct (attrs_loop padding_char (msg_hdr msg) Hid Hidb (attr msg) 0 (mk_enc b0 20 (buf_size - 20)) buf_size buf Hok)
    as (st & e & i & how & E & Hk & Hr); [|lia|lia|].
  { split; [done|]. cbn [e_pos e_size]. repeat split; try lia. clear -H4. Z.to_euclidean_division_equations. lia. }
  rewrite E. cbn [mbind option_bind]. destruct (Z.eqb_spec st PJ_SUCCESS) as [Es|Es]; cbn [negb]; [|by apply Stop].
  destruct (Hr Es) as (Hst & Hi & Hhow). rewrite Nat.sub_0_r in Hhow.
  destruct (encode_scan _ _ _ _) as [s|[am af]] eqn:Esc.
  { apply Stop; [|done]. clear -Esc.
    assert (G : forall l j a f, encode_scan l j a f = inl s -> s <> PJ_SUCCESS).
    { induction l as [|x l IH]; intros j a f; cbn [encode_scan]; [done|]. destruct f; [by intros [= <-]|].
      destruct (_ =? _); [destruct a; [by intros [= <-]|apply IH]|]. destruct (_ =? _); apply IH. }
    by eapply G. }
  assert (Hpts : points_to (attr msg) PJ_STUN_ATTR_MESSAGE_INTEGRITY am /\ points_to (attr msg) PJ_STUN_ATTR_FINGERPRINT af).
  { eapply (scan_points (attr msg)); [reflexivity| | |exact Esc]; by destruct how. }
  destruct Hpts as [Ham Haf].
  apply (trailer_in padding_char (msg_hdr msg)); try done; try (unfold zlen in *; lia).
  intros Hm. eapply scan_end; [exact Esc|lia|by intros ->|intros Hne|done].
  destruct how; [done|destruct Hhow as (a & Ha & _); by eapply lookup_lt_Some..].
Qed.

(** A message with three attributes in a buffer with no room for the third *)
Lemma encode_in_bounds_witness :
  fits_in 48 (replicate 50 0) (pj_stun_msg_encode 0 (replicate 64 7) 0 (mk_msg sample_hdr sample_attrs) (replicate 50 0) 48 0 None).
Proof.
  apply (encode_in_bounds 0 (replicate 64 7) 0 (mk_msg sample_hdr sample_attrs) (replicate 50 0) 48 0 None); try done.
  - split; [exact sample_hdr_ok|]. split; [|done]. pose proof sample_attrs_ok as H. eapply Forall_impl; [exact H|]. by intros a [].
  - by apply Forall_replicate.
Defined.

(** With a size that is not a multiple of 4 the encoder runs on behind the buffer: an
    ERROR-CODE reason of one byte fits in 29 bytes, but 32 are counted, and what is
    left wraps around to a huge number. *)
Example encode_overruns :
  pj_stun_msg_encode 0 (replicate 64 7) 0
    (mk_msg (mk_msg_hdr 0x0111 0 PJ_STUN_MAGIC (seqZ 1 12))
       [mk_attr (mk_attr_hdr PJ_STUN_ATTR_ERROR_CODE 5) (V_errcode 400 [66]);
        mk_attr (mk_attr_hdr PJ_STUN_ATTR_SOFTWARE 8) (V_string (zstring "software"))])
    (replicate 31 0) 29 0 None = None.
Proof. vm_compute. reflexivity. Qed.
