(* ===== verification/StunAuth.v ===== *)
(** * STUN authentication (pjnath/src/pjnath/stun_auth.c)

    The keys of the two kinds of credentials, the checks of a request by a server and
    of a response by a client.  A NULL string is [None].  The callbacks of a dynamic
    credential, with their user data, are the functions of its constructor.
    A packet is the list of the bytes readable from its start; an access outside, or to
    an attribute of another type than its number says, is [None]. *)

From stdpp Require Import strings.
From S2P Require Import Prelude Words Hash PjStr Sha1 Md5 Stun.

(** ** Credentials (pjnath/stun_auth.h) *)

Inductive pj_stun_passwd_type := PJ_STUN_PASSWD_PLAIN | PJ_STUN_PASSWD_HASHED.

Inductive pj_stun_auth_cred :=
| PJ_STUN_AUTH_CRED_STATIC (realm username : list Z) (data_type : pj_stun_passwd_type) (data nonce : list Z)
| PJ_STUN_AUTH_CRED_DYNAMIC
    (get_auth : Z * list Z * list Z)
    (get_password : pj_stun_msg -> option (list Z) -> list Z -> Z * pj_stun_passwd_type * list Z)
    (verify_nonce : option (pj_stun_msg -> option (list Z) -> list Z -> list Z -> bool))
| Cred_invalid.

Record pj_stun_req_cred_info := mk_info { i_realm : list Z; i_username : list Z; i_nonce : list Z; i_auth_key : list Z }.

(** ** Keys *)

Definition REMOVE_QUOTE (s : list Z) : list Z :=
  let s := match s with c :: s' => if c =? 34 then s' else s | [] => s end in
  match last s with Some c => if c =? 34 then take (length s - 1) s else s | None => s end.

(** [garbage]: the block of the context on the stack *)
Definition calc_md5_key (garbage realm username passwd : list Z) : option (list Z) :=
  let ctx := pj_md5_init garbage in
  ctx ← pj_md5_update ctx (REMOVE_QUOTE username);
  ctx ← pj_md5_update ctx [58];
  ctx ← pj_md5_update ctx (REMOVE_QUOTE realm);
  ctx ← pj_md5_update ctx [58];
  ctx ← pj_md5_update ctx passwd;
  '(_, digest) ← pj_md5_final ctx;
  Some digest.

Definition pj_stun_create_key (garbage : list Z) (realm : option (list Z)) (username : list Z)
    (data_type : pj_stun_passwd_type) (data : list Z) : option (list Z) :=
  match realm with
  | Some (c :: realm) =>
      match data_type with
      | PJ_STUN_PASSWD_PLAIN => calc_md5_key garbage (c :: realm) username data
      | PJ_STUN_PASSWD_HASHED => Some data
      end
  | _ => Some data
  end.

Definition PUT_VAL16 (buf : list Z) (pos : nat) (hval : Z) : option (list Z) :=
  lcopy buf pos [u8 (Z.shiftr (Z.land hval 0xFF00) 8); u8 (Z.land hval 0x00FF)].

(** ** MESSAGE-INTEGRITY of a received message *)

(** The loop over the attributes: the last MESSAGE-INTEGRITY of the first run of them, the
    length of the attributes before it, and whether an attribute follows *)
Fixpoint find_msgint (attrs : list pj_stun_attr) (amsgi : option pj_stun_attr) (amsgi_pos : Z)
    : option pj_stun_attr * Z * bool :=
  match attrs with
  | [] => (amsgi, amsgi_pos, false)
  | a :: attrs =>
      if attr_type a =? PJ_STUN_ATTR_MESSAGE_INTEGRITY then find_msgint attrs (Some a) amsgi_pos
      else match amsgi with
           | Some _ => (amsgi, amsgi_pos, true)
           | None => find_msgint attrs None (u32 (amsgi_pos + (Z.land (a_length (hdr a) + 3) (-4) + 4)))
           end
  end.

(** The digest of the packet up to MESSAGE-INTEGRITY *)
Definition message_digest (garbage pkt key : list Z) (amsgi_pos : Z) (has_attr_beyond_mi : bool) : option (list Z) :=
  ctx ← pj_hmac_sha1_init garbage key;
  hdr ← lslice pkt 0 20;
  hdr ← (if has_attr_beyond_mi then PUT_VAL16 hdr 2 (u16 (amsgi_pos + 24)) else Some hdr);
  ctx ← pj_hmac_sha1_update ctx hdr;
  body ← lslice pkt 20 (Z.to_nat amsgi_pos);
  ctx ← pj_hmac_sha1_update ctx body;
  '(_, digest) ← pj_hmac_sha1_final ctx;
  Some digest.

(** [pj_memcmp] of the twenty bytes of the attribute and the digest: whether they differ *)
Definition msgint_differs (amsgi : pj_stun_attr) (digest : list Z) : option bool :=
  match value amsgi with
  | V_msgint hmac => Some (bool_decide (take 20 hmac <> take 20 digest))
  | _ => None
  end.

(** ** Checking a response *)

Definition pj_stun_authenticate_response (garbage pkt : list Z) (msg : pj_stun_msg) (key : list Z) : option Z :=
  match pj_stun_msg_find_attr msg PJ_STUN_ATTR_MESSAGE_INTEGRITY 0 with
  | None => Some (PJ_STATUS_FROM_STUN_CODE PJ_STUN_SC_UNAUTHORIZED)
  | Some _ =>
      if m_length (msg_hdr msg) <? 24 then Some PJNATH_EINSTUNMSGLEN
      else
        let '(amsgi, amsgi_pos, has_attr_beyond_mi) := find_msgint (attr msg) None 0 in
        match amsgi with
        | None => Some (PJ_STATUS_FROM_STUN_CODE PJ_STUN_SC_BAD_REQUEST)
        | Some amsgi =>
            digest ← message_digest garbage pkt key amsgi_pos has_attr_beyond_mi;
            differs ← msgint_differs amsgi digest;
            Some (if differs : bool then PJ_STATUS_FROM_STUN_CODE PJ_STUN_SC_UNAUTHORIZED else PJ_SUCCESS)
        end
  end.

(** Which messages can be authenticated *)
Definition pj_stun_auth_valid_for_msg (msg : pj_stun_msg) : option bool :=
  let msg_type := m_type (msg_hdr msg) in
  if negb (PJ_STUN_IS_ERROR_RESPONSE msg_type) && negb (PJ_STUN_IS_INDICATION msg_type) then Some true
  else if PJ_STUN_IS_INDICATION msg_type then Some false
  else
    match pj_stun_msg_find_attr msg PJ_STUN_ATTR_ERROR_CODE 0 with
    | None => Some true
    | Some err_attr =>
        match value err_attr with
        | V_errcode err_code _ =>
            Some (negb ((err_code =? PJ_STUN_SC_BAD_REQUEST) || (err_code =? PJ_STUN_SC_UNAUTHORIZED) ||
                        (err_code =? PJ_STUN_SC_STALE_NONCE) || (err_code =? PJ_STUN_SC_UNKNOWN_ATTRIBUTE)))
        | _ => None
        end
    end.

(** ** Checking a request *)

(** The error response: with realm and nonce unless the request is malformed.  On an
    error the response is not handed out. *)
Definition create_challenge (msg : pj_stun_msg) (err_code : Z) (errstr : option string) (realm nonce : list Z)
    : option (Z + pj_stun_msg) :=
  r ← pj_stun_msg_create_response msg err_code (zstring <$> errstr);
  match r with
  | inl rc => Some (inl rc)
  | inr response =>
      let long_term := negb (err_code =? 400) && negb (zlen realm =? 0) in
      let '(rc, response) :=
        if long_term then pj_stun_msg_add_string_attr response PJ_STUN_ATTR_REALM (Some realm)
        else (PJ_SUCCESS, response) in
      if negb (rc =? PJ_SUCCESS) then Some (inl rc)
      else
        let nonce := if long_term && (zlen nonce =? 0) then zstring "pjstun" else nonce in
        let '(rc, response) :=
          if negb (err_code =? 400) && negb (zlen nonce =? 0)
          then pj_stun_msg_add_string_attr response PJ_STUN_ATTR_NONCE (Some nonce)
          else (PJ_SUCCESS, response) in
        Some (if negb (rc =? PJ_SUCCESS) then inl rc else inr response)
  end.

(** The value of a string attribute that [pj_stun_msg_find_attr] gives *)
Definition string_value (a : pj_stun_attr) : option (list Z) :=
  match value a with V_string v => Some v | _ => None end.

Definition find_string (msg : pj_stun_msg) (attr_type : Z) : option (option (list Z)) :=
  match pj_stun_msg_find_attr msg attr_type 0 with
  | None => Some None
  | Some a => v ← string_value a; Some (Some v)
  end.

(** How the checks end: with success, with an error code for on_auth_failed, or with
    the status of a wrong call *)
Inductive auth_end := Auth_ok | Auth_failed (err_code : Z) (err_text : option string) | Auth_return (status : Z).

Record auth_result := mk_auth { au_status : Z; au_info : pj_stun_req_cred_info; au_response : option pj_stun_msg }.

Section Request.
Context `{PjString}.

Definition set_credential (info : pj_stun_req_cred_info) (username key : list Z) : pj_stun_req_cred_info :=
  mk_info (i_realm info) username (i_nonce info) key.

(** The username, the password and the key: the end when it fails *)
Definition check_username (garbage : list Z) (msg : pj_stun_msg) (cred : pj_stun_auth_cred)
    (info : pj_stun_req_cred_info) (auser : list Z) (arealm : option (list Z))
    : option (auth_end + pj_stun_req_cred_info) :=
  match cred with
  | PJ_STUN_AUTH_CRED_STATIC _ username data_type data _ =>
      if pj_strcmp auser username =? 0 then
        key ← pj_stun_create_key garbage (Some (i_realm info)) auser data_type data;
        Some (inr (set_credential info username key))
      else Some (inl (Auth_failed PJ_STUN_SC_UNAUTHORIZED None))
  | PJ_STUN_AUTH_CRED_DYNAMIC _ get_password _ =>
      let '(rc, data_type, password) := get_password msg arealm auser in
      if rc =? PJ_SUCCESS then
        key ← pj_stun_create_key garbage arealm auser data_type password;
        Some (inr (set_credential info auser key))
      else Some (inl (Auth_failed PJ_STUN_SC_UNAUTHORIZED None))
  | Cred_invalid => Some (inl (Auth_return PJ_EBUG))
  end.

(** The requirements of long and short term credentials *)
Definition check_term (info : pj_stun_req_cred_info) (arealm anonce : option (list Z)) : auth_end :=
  match arealm with
  | None =>
      if negb (zlen (i_realm info) =? 0) then Auth_failed PJ_STUN_SC_BAD_REQUEST (Some "Missing REALM")
      else if negb (zlen (i_nonce info) =? 0) then Auth_failed PJ_STUN_SC_UNAUTHORIZED (Some "NONCE required")
      else Auth_ok
  | Some arealm =>
      if negb (zlen (i_realm info) =? 0) then
        if bool_decide (anonce = None) && negb (zlen (i_nonce info) =? 0)
        then Auth_failed PJ_STUN_SC_BAD_REQUEST (Some "Missing NONCE")
        else if negb (pj_stricmp arealm (i_realm info) =? 0)
        then Auth_failed PJ_STUN_SC_UNAUTHORIZED (Some "Invalid REALM")
        else Auth_ok
      else Auth_ok
  end.

Definition nonce_ok (msg : pj_stun_msg) (cred : pj_stun_auth_cred) (info : pj_stun_req_cred_info)
    (auser : list Z) (arealm : option (list Z)) (anonce : list Z) : bool :=
  match cred with
  | PJ_STUN_AUTH_CRED_DYNAMIC _ _ (Some verify_nonce) => verify_nonce msg arealm auser anonce
  | PJ_STUN_AUTH_CRED_DYNAMIC _ _ None => true
  | _ => if negb (zlen (i_nonce info) =? 0) then pj_strcmp anonce (i_nonce info) =? 0 else true
  end.

(** The nonce and the digest *)
Definition check_digest (garbage pkt : list Z) (msg : pj_stun_msg) (cred : pj_stun_auth_cred)
    (info : pj_stun_req_cred_info) (auser : list Z) (arealm anonce : option (list Z))
    (amsgi : pj_stun_attr) (amsgi_pos : Z) (has_attr_beyond_mi : bool) : option auth_end :=
  if match anonce with Some n => negb (nonce_ok msg cred info auser arealm n) | None => false end
  then Some (Auth_failed PJ_STUN_SC_STALE_NONCE None)
  else
    digest ← message_digest garbage pkt (i_auth_key info) amsgi_pos has_attr_beyond_mi;
    differs ← msgint_differs amsgi digest;
    Some (if differs : bool then Auth_failed PJ_STUN_SC_UNAUTHORIZED (Some "MESSAGE-INTEGRITY mismatch") else Auth_ok).

(** From the search for MESSAGE-INTEGRITY on: the end, and the info as it is then *)
Definition check_request (garbage pkt : list Z) (msg : pj_stun_msg) (cred : pj_stun_auth_cred)
    (info : pj_stun_req_cred_info) : option (auth_end * pj_stun_req_cred_info) :=
  let '(amsgi, amsgi_pos, has_attr_beyond_mi) := find_msgint (attr msg) None 0 in
  let fail err_code text := Some (Auth_failed err_code text, info) in
  match amsgi with
  | None => fail (if negb (zlen (i_realm info) =? 0) then PJ_STUN_SC_UNAUTHORIZED else PJ_STUN_SC_BAD_REQUEST) None
  | Some amsgi =>
      auser ← find_string msg PJ_STUN_ATTR_USERNAME;
      match auser with
      | None => fail PJ_STUN_SC_BAD_REQUEST (Some "Missing USERNAME")
      | Some auser =>
          arealm ← find_string msg PJ_STUN_ATTR_REALM;
          if negb (zlen (i_realm info) =? 0) && bool_decide (arealm = None)
          then fail PJ_STUN_SC_BAD_REQUEST (Some "Missing REALM")
          else
            r ← check_username garbage msg cred info auser arealm;
            match r with
            | inl e => Some (e, info)
            | inr info =>
                anonce ← find_string msg PJ_STUN_ATTR_NONCE;
                match check_term info arealm anonce with
                | Auth_ok =>
                    e ← check_digest garbage pkt msg cred info auser arealm anonce amsgi amsgi_pos has_attr_beyond_mi;
                    Some (e, info)
                | e => Some (e, info)
                end
            end
      end
  end.

(** on_auth_failed: [want] tells if p_response is not NULL. *)
Definition auth_failed (want : bool) (msg : pj_stun_msg) (err_code : Z) (err_text : option string)
    (info : pj_stun_req_cred_info) : option auth_result :=
  response ← (if want then
                r ← create_challenge msg err_code err_text (i_realm info) (i_nonce info);
                Some (match r with inl _ => None | inr response => Some response end)
              else Some None);
  Some (mk_auth (PJ_STATUS_FROM_STUN_CODE err_code) info response).

Definition pj_stun_authenticate_request (garbage pkt : list Z) (msg : pj_stun_msg) (cred : pj_stun_auth_cred)
    (want_response : bool) : option auth_result :=
  let want := want_response && PJ_STUN_IS_REQUEST (m_type (msg_hdr msg)) in
  let start realm nonce :=
    '(e, info) ← check_request garbage pkt msg cred (mk_info realm [] nonce []);
    match e with
    | Auth_ok => Some (mk_auth PJ_SUCCESS info None)
    | Auth_return status => Some (mk_auth status info None)
    | Auth_failed err_code err_text => auth_failed want msg err_code err_text info
    end in
  match cred with
  | PJ_STUN_AUTH_CRED_STATIC realm _ _ _ nonce => start realm nonce
  | PJ_STUN_AUTH_CRED_DYNAMIC (status, realm, nonce) _ _ =>
      if negb (status =? PJ_SUCCESS) then Some (mk_auth status (mk_info realm [] nonce []) None)
      else start realm nonce
  | Cred_invalid => Some (mk_auth PJ_EBUG (mk_info [] [] [] []) None)
  end.
End Request.
