(* ===== verification/StunAuthProps.v ===== *)
(** * STUN authentication: who is accepted *)

From stdpp Require Import strings.
From S2P Require Import Prelude Words Hash PjStr Sha1 Sha1Props Md5 Md5Props Stun StunWire StunMsg StunProps StunAuth.

(** ** The digest of a packet *)

(** The bytes of a packet that its MESSAGE-INTEGRITY covers *)
Definition covered (pkt : list Z) (pos : Z) (has_attr_beyond_mi : bool) : list Z :=
  (if has_attr_beyond_mi then take 2 pkt ++ put16 (u16 (pos + 24)) ++ take 16 (drop 4 pkt) else take 20 pkt) ++
  take (Z.to_nat pos) (drop 20 pkt).

Definition bytes_ok (l : list Z) : Prop := Forall is_byte l /\ zlen l < 2 ^ 29.

Lemma bytes_ok_take n l : bytes_ok l -> bytes_ok (take n l).
Proof. intros [Hb Hl]. split; [by apply Forall_take|]. unfold zlen in *. rewrite length_take. lia. Qed.
Lemma bytes_ok_drop n l : bytes_ok l -> bytes_ok (drop n l).
Proof. intros [Hb Hl]. split; [by apply Forall_drop|]. unfold zlen in *. rewrite length_drop. lia. Qed.

Lemma put_val16 pkt v : (20 <= length pkt)%nat ->
  PUT_VAL16 (take 20 pkt) 2 v = Some (take 2 pkt ++ put16 v ++ take 16 (drop 4 pkt)).
Proof.
  intros H. unfold PUT_VAL16. fold (put16 v). rewrite lcopy_eq by (rewrite length_take; unfold put16; cbn [length]; lia).
  rewrite take_take, skipn_firstn_comm. done.
Qed.

(** The digest of two pieces, one behind the other *)
Lemma hmac_two garbage key a b : length garbage = 64%nat -> bytes_ok key -> bytes_ok a -> bytes_ok b ->
  (ctx ← pj_hmac_sha1_init garbage key; ctx ← pj_hmac_sha1_update ctx a; ctx ← pj_hmac_sha1_update ctx b;
   '(_, digest) ← pj_hmac_sha1_final ctx; Some digest) = Some (hmac_reference key (a ++ b)).
Proof.
  intros Hg [Hk Hkl] [Ha Hal] [Hb Hbl]. pose proof (hmac_correct garbage key [a; b] Hg Hk Hkl) as H.
  cbn [hmac_feed concat] in H. rewrite app_nil_r in H. rewrite <- H.
  - destruct (pj_hmac_sha1_init garbage key) as [c|]; [|done]. cbn [mbind option_bind].
    destruct (pj_hmac_sha1_update c a) as [c1|]; [|done]. cbn [mbind option_bind].
    destruct (pj_hmac_sha1_update c1 b) as [c2|]; [|done]. cbn [mbind option_bind].
    by destruct (pj_hmac_sha1_final c2) as [[]|].
  - split; [by repeat constructor|]. cbn [concat]. rewrite app_nil_r. unfold zlen in *. rewrite length_app. lia.
Qed.

Lemma message_digest_spec garbage pkt key pos beyond :
  length garbage = 64%nat -> bytes_ok key -> bytes_ok pkt -> 0 <= pos -> 20 + pos <= zlen pkt ->
  message_digest garbage pkt key pos beyond = Some (hmac_reference key (covered pkt pos beyond)).
Proof.
  intros Hg Hk Hp H0 Hl. unfold message_digest, covered. rewrite !lslice_eq by (unfold zlen in *; lia). rewrite drop_0.
  set (hd := if beyond then take 2 pkt ++ put16 (u16 (pos + 24)) ++ take 16 (drop 4 pkt) else take 20 pkt).
  assert (E : (if beyond then PUT_VAL16 (take 20 pkt) 2 (u16 (pos + 24)) else Some (take 20 pkt)) = Some hd).
  { subst hd. destruct beyond; [|done]. apply put_val16. unfold zlen in *. lia. }
  rewrite <- (hmac_two garbage key hd); [| done | done | | by apply bytes_ok_take, bytes_ok_drop].
  - destruct (pj_hmac_sha1_init garbage key) as [c|]; [|done]. cbn [mbind option_bind]. rewrite E. done.
  - subst hd. destruct beyond; [|by apply bytes_ok_take]. split.
    + rewrite !Forall_app. destruct Hp as [Hp _]. auto using put16_bytes, Forall_take, Forall_drop.
    + unfold zlen. rewrite !length_app, !length_take. unfold put16. cbn [length]. lia.
Qed.

(** A digest that was computed covers bytes of the packet. *)
Lemma message_digest_inv garbage pkt key pos beyond d :
  length garbage = 64%nat -> bytes_ok key -> bytes_ok pkt -> 0 <= pos ->
  message_digest garbage pkt key pos beyond = Some d ->
  20 + pos <= zlen pkt /\ d = hmac_reference key (covered pkt pos beyond).
Proof.
  intros Hg Hk Hp H0 E. assert (Hl : 20 + pos <= zlen pkt).
  { unfold message_digest in E. destruct (pj_hmac_sha1_init garbage key) as [c|]; [|done]. cbn [mbind option_bind] in E.
    destruct (lslice pkt 0 20) as [hd|] eqn:E1; [|done]. cbn [mbind option_bind] in E.
    destruct (if beyond then _ else _) as [hd'|]; [|done]. cbn [mbind option_bind] in E.
    destruct (pj_hmac_sha1_update c hd') as [c1|]; [|done]. cbn [mbind option_bind] in E.
    destruct (lslice pkt 20 _) as [bd|] eqn:E2; [|done]. unfold lslice in E2. case_decide; [|done].
    unfold zlen. lia. }
  split; [done|]. rewrite (message_digest_spec _ _ _ _ _ Hg Hk Hp H0 Hl) in E. congruence.
Qed.

(** ** The place of MESSAGE-INTEGRITY in what was sent *)

Lemma attr_space n : 0 <= n < 65536 -> Z.land (n + 3) (-4) + 4 = 4 + align4 n.
Proof.
  intros Hn. rewrite align4_eq by lia. change (-4) with (Z.lnot (Z.ones 2)). rewrite <- Z.ldiff_land, Z.ldiff_ones_r by lia.
  rewrite Z.shiftr_div_pow2, Z.shiftl_mul_pow2 by lia. change (2 ^ 2) with 4. Z.to_euclidean_division_equations. lia.
Qed.

Lemma find_msgint_core padding_char h core rest : Forall (core_ok padding_char h) core -> forall pos,
  0 <= pos -> pos + body_len padding_char h core < 2 ^ 32 ->
  find_msgint (map (received padding_char h) core ++ rest) None pos =
    find_msgint rest None (pos + body_len padding_char h core).
Proof.
  induction 1 as [|a core [Ha Ho] Hc IH]; intros pos H0 Hl; [cbn [map app body_len foldr]; by rewrite Z.add_0_r|].
  cbn [map app find_msgint body_len foldr] in *. fold (body_len padding_char h core) in *.
  assert (Et : attr_type (received padding_char h a) = attr_type a) by done. rewrite Et.
  destruct Ho as [Hn _]. apply Z.eqb_neq in Hn. rewrite Hn.
  destruct Ha as (_ & Hp & _). pose proof (align4_len padding_char h a Hp) as E.
  destruct (enc_len_pos padding_char h a Hp) as [[He1 He2] _].
  assert (Hw : 0 <= wire_len padding_char h a < 65536).
  { unfold wire_len. destruct (value a); try (unfold zlen in *; lia). cbn [payload] in Hp. unfold zlen in *.
    rewrite length_app in Hp. destruct (legacy h a); rewrite ?length_app; lia. }
  assert (Hbl : 0 <= body_len padding_char h core).
  { pose proof (core_count padding_char h core Hc). unfold zlen in *. lia. }
  cbn [received hdr a_length]. rewrite attr_space by done. rewrite E.
  assert (0 <= zlen (wire padding_char h a)) by (unfold zlen; lia).
  rewrite u32_id by (unfold is_u32; lia). rewrite IH by lia. f_equal. lia.
Qed.

(** ** Responses *)

Definition is_some {A} (o : option A) : bool := match o with Some _ => true | None => false end.

Lemma find_msgint_sent padding_char h core d f : Forall (core_ok padding_char h) core ->
  body_len padding_char h core < 2 ^ 32 ->
  find_msgint (map (received padding_char h) core ++ msg_tail (Some d) f) None 0 =
    (Some (mi_attr d), body_len padding_char h core, is_some f).
Proof.
  intros Hc Hl. rewrite (find_msgint_core padding_char h core _ Hc 0); [by destruct f|done|exact Hl].
Qed.

Lemma covered_packet h body d f : hdr_ok h -> zlen body + 24 < 65536 ->
  covered (packet h body (Some d) f) (zlen body) (is_some f) = hdr_bytes h (zlen body + 24) ++ body.
Proof.
  intros Hh Hl. pose proof (hdr_bytes_length h (zlen body + 24)) as HL. destruct Hh as (_ & _ & Hid & _).
  unfold covered, packet. set (len := zlen body + mi_len (Some d) + fp_len f).
  pose proof (hdr_bytes_length h len Hid) as HL'. specialize (HL Hid). rewrite (drop_app_length' (hdr_bytes h len) _ 20) by lia.
  assert (Hb : Z.to_nat (zlen body) = length body) by (unfold zlen; lia). rewrite Hb.
  rewrite take_app_length. f_equal. destruct f as [v|]; cbn [is_some].
  - rewrite u16_id by (unfold is_u16, zlen in *; lia). unfold hdr_bytes. rewrite <- !app_assoc. f_equal.
    cbn [put16 app]. f_equal. f_equal.
    change (drop 4 (_ :: _ :: _ :: _ :: ?l)) with l. cbn [drop skipn].
    rewrite app_assoc, take_app_le, take_ge by (rewrite !length_app, Hid; cbn; lia). done.
  - subst len. cbn [mi_len fp_len]. rewrite Z.add_0_r. rewrite take_app_le, take_ge by lia. done.
Qed.

(** The decision on a packet that was sent *)
Lemma response_decision garbage padding_char h core body d f size key :
  length garbage = 64%nat -> hdr_ok h -> Forall (core_ok padding_char h) core -> encodes padding_char h core body ->
  Forall is_byte body -> length d = 20%nat -> bytes_ok key -> bytes_ok (packet h body (Some d) f) ->
  24 <= size -> zlen body + 24 < 65536 ->
  pj_stun_authenticate_response garbage (packet h body (Some d) f)
    (mk_msg (with_len h size) (map (received padding_char h) core ++ msg_tail (Some d) f)) key =
  Some (if decide (d = hmac_reference key (hdr_bytes h (zlen body + 24) ++ body)) then PJ_SUCCESS
        else PJ_STATUS_FROM_STUN_CODE PJ_STUN_SC_UNAUTHORIZED).
Proof.
  intros Hg Hh Hc He Hb Hd Hk Hp Hs Hl. unfold pj_stun_authenticate_response.
  pose proof (encodes_len _ _ _ _ He) as El.
  destruct (pj_stun_msg_find_attr _ _ _) eqn:Ef.
  2: { exfalso. unfold pj_stun_msg_find_attr in Ef. cbn [attr] in Ef. rewrite drop_0 in Ef.
       destruct (filter _ _) as [|x l] eqn:Efl; [|done].
       assert (Hin : mi_attr d ∈ filter (fun a => a_type (hdr a) = PJ_STUN_ATTR_MESSAGE_INTEGRITY)
         (map (received padding_char h) core ++ msg_tail (Some d) f)).
       { apply list_elem_of_filter. split; [done|]. apply elem_of_app. right. cbn. by left. }
       rewrite Efl in Hin. by apply not_elem_of_nil in Hin. }
  cbn [m_length msg_hdr with_len attr]. destruct (Z.ltb_spec size 24); [lia|].
  rewrite find_msgint_sent by (done || lia). rewrite <- El.
  rewrite message_digest_spec, covered_packet; try done; [|unfold zlen; lia| ].
  - cbn [mbind option_bind msgint_differs value mi_attr].
    pose proof (reference_length) as Hr.
    rewrite !take_ge by (rewrite ?Hd; try lia; unfold hmac_reference; rewrite Hr; lia).
    case_bool_decide; case_decide; done || congruence.
  - unfold packet. unfold zlen. rewrite !length_app, hdr_bytes_length by apply Hh. lia.
Qed.

(** A client that sent a request with a key accepts exactly the responses made with it:
    a message encoded with MESSAGE-INTEGRITY and a key, with or without FINGERPRINT and
    whatever else it holds, is decoded and passes pj_stun_authenticate_response
    with that key; with any other key it passes only if the two keys give the same
    HMAC of the bytes before MESSAGE-INTEGRITY, and else fails with 401. *)
Theorem response_authentic (padding_char : Z) (garbage garbage2 : list Z) (addr addr' : Z) (h : pj_stun_msg_hdr)
    (core : list pj_stun_attr) (hm : list Z) (fp : option Z) (key : list Z) (buf : list Z)
    (buf_size size : Z) (pj_strerror : Z -> list Z) (options : Z) (want : bool) :
  length garbage = 64%nat -> length garbage2 = 64%nat ->
  can_send padding_char h core (Some hm) fp (Some key) buf buf_size size ->
  has_option options PJ_STUN_NO_FINGERPRINT_CHECK = true \/ fp <> None \/ m_magic h <> PJ_STUN_MAGIC ->
  exists pkt rest sent msg,
    pj_stun_msg_encode padding_char garbage addr (mk_msg h (core ++ msg_tail (Some hm) fp)) buf buf_size 0 (Some key) =
      Some (mk_encoded PJ_SUCCESS (pkt ++ rest) sent (zlen pkt)) /\
    pj_stun_msg_decode pj_strerror addr' pkt (zlen pkt) options want = Some (mk_decoded PJ_SUCCESS (Some msg) (zlen pkt) None) /\
    let text := covered pkt (body_len padding_char h core) (is_some fp) in
    forall key', bytes_ok key' ->
      pj_stun_authenticate_response garbage2 pkt msg key' =
        Some (if decide (hmac_reference key text = hmac_reference key' text) then PJ_SUCCESS
              else PJ_STATUS_FROM_STUN_CODE PJ_STUN_SC_UNAUTHORIZED).
Proof.
  intros Hg Hg2 Hs Ho. destruct (stun_encode_decode padding_char garbage addr _ _ _ _ _ _ _ _ Hg Hs)
    as (body & rest & He & Hb & Hm & Hsz & Hl & E & D).
  cbn [sent_mi fmap option_fmap option_map default mi_len mi_ok] in *.
  change (id key) with key in *. set (d := hmac_reference key (hdr_bytes h (zlen body + 24) ++ body)) in *. set (f := sent_fp addr h body (Some d) fp) in *.
  exists (packet h body (Some d) f), rest. do 2 eexists. rewrite Hl. split; [exact E|]. split; [apply D; unfold checkable; tauto|].
  set (text := covered (packet _ _ _ _) _ _). intros key' Hk'. destruct Hs as [Hh _ Hc _ _ _ Hshort _ _ _]. destruct Hm as [Hdb Hdl].
  pose proof (fp_len_nonneg fp) as Hfl.
  assert (Hf : is_some f = is_some fp) by (subst f; by destruct fp).
  assert (Hb24 : zlen body + 24 < 65536) by lia.
  assert (Htext : text = hdr_bytes h (zlen body + 24) ++ body).
  { subst text. rewrite <- (encodes_len _ _ _ _ He), <- Hf. by apply covered_packet. }
  rewrite Htext. apply response_decision; try done; [|unfold zlen in *; lia].
  split.
  - unfold packet. rewrite !Forall_app. split; [by apply hdr_bytes_bytes|]. split; [done|]. split; [by apply mi_bytes_bytes|].
    destruct f; [|done]. cbn [fp_bytes]. unfold fp_wire. rewrite !Forall_app. auto using put16_bytes, put32_bytes.
  - fold d. rewrite Hl. lia.
Qed.

Lemma response_authentic_witness :
  exists pkt rest sent msg,
    pj_stun_msg_encode 0 (replicate 64 7) 0 (mk_msg sample_hdr (sample_attrs ++ msg_tail (Some (replicate 20 0)) (Some 0)))
        (replicate 100 255) 100 0 (Some (zstring "secret")) =
      Some (mk_encoded PJ_SUCCESS (pkt ++ rest) sent (zlen pkt)) /\
    pj_stun_msg_decode (fun _ => []) 1 pkt (zlen pkt) 3 true = Some (mk_decoded PJ_SUCCESS (Some msg) (zlen pkt) None) /\
    let text := covered pkt (body_len 0 sample_hdr sample_attrs) (is_some (Some 0)) in
    forall key', bytes_ok key' ->
      pj_stun_authenticate_response (replicate 64 9) pkt msg key' =
        Some (if decide (hmac_reference (zstring "secret") text = hmac_reference key' text) then PJ_SUCCESS
              else PJ_STATUS_FROM_STUN_CODE PJ_STUN_SC_UNAUTHORIZED).
Proof.
  apply (response_authentic 0 (replicate 64 7) (replicate 64 9) 0 1 sample_hdr sample_attrs (replicate 20 0) (Some 0)
    (zstring "secret") (replicate 100 255) 100 64 (fun _ => []) 3 true); [done|done|exact sample_can_send|].
  right. left. done.
Defined.

(** ** Keys *)

(** The key of the credentials, as the comments of stun_auth.c define it *)
Definition long_term_key (realm username passwd : list Z) : list Z :=
  md5_reference (REMOVE_QUOTE username ++ [58] ++ REMOVE_QUOTE realm ++ [58] ++ passwd).

Definition credential_key (realm username : list Z) (data_type : pj_stun_passwd_type) (data : list Z) : list Z :=
  match realm, data_type with
  | _ :: _, PJ_STUN_PASSWD_PLAIN => long_term_key realm username data
  | _, _ => data
  end.

Lemma remove_quote_len s : (length (REMOVE_QUOTE s) <= length s)%nat.
Proof.
  unfold REMOVE_QUOTE. set (s' := match s with c :: s' => if c =? 34 then s' else s | [] => s end).
  assert ((length s' <= length s)%nat) by (subst s'; destruct s as [|c s]; [done|]; destruct (c =? 34); cbn [length]; lia).
  destruct (last s') as [c|]; [|done]. destruct (c =? 34); rewrite ?length_take; lia.
Qed.

Lemma create_key_spec garbage realm username data_type data :
  length garbage = 64%nat -> zlen realm < 2 ^ 29 -> zlen username < 2 ^ 29 -> zlen data < 2 ^ 29 ->
  pj_stun_create_key garbage (Some realm) username data_type data = Some (credential_key realm username data_type data).
Proof.
  intros Hg Hr Hu Hd. unfold pj_stun_create_key, credential_key. destruct realm as [|c realm], data_type; try done.
  pose proof (md5_correct garbage [REMOVE_QUOTE username; [58]; REMOVE_QUOTE (c :: realm); [58]; data] Hg) as H.
  cbn [md5_feed concat] in H. rewrite app_nil_r in H. unfold long_term_key.
  unfold calc_md5_key.
  pose proof (remove_quote_len username). pose proof (remove_quote_len (c :: realm)).
  set (s1 := REMOVE_QUOTE username) in *. set (s2 := REMOVE_QUOTE (c :: realm)) in *.
  assert (HF : Forall (fun c => zlen c < 2 ^ 29) [s1; [58]; s2; [58]; data]).
  { unfold zlen in *. repeat constructor; cbn [length] in *; lia. }
  specialize (H HF).
  destruct (pj_md5_update _ s1) as [c1|]; [|done]. cbn [mbind option_bind] in *.
  destruct (pj_md5_update _ [58]) as [c2|]; [|done]. cbn [mbind option_bind] in *.
  destruct (pj_md5_update _ s2) as [c3|]; [|done]. cbn [mbind option_bind] in *.
  destruct (pj_md5_update _ [58]) as [c4|]; [|done]. cbn [mbind option_bind] in *.
  destruct (pj_md5_update _ data) as [c5|]; [|done]. cbn [mbind option_bind] in *. by rewrite H.
Qed.

(** ** Requests *)

Lemma find_msgint_pos attrs : forall a pos r pos' b, 0 <= pos -> find_msgint attrs a pos = (r, pos', b) -> 0 <= pos'.
Proof.
  induction attrs as [|x attrs IH]; intros a pos r pos' b H0 E; cbn [find_msgint] in E; [congruence|].
  destruct (attr_type x =? PJ_STUN_ATTR_MESSAGE_INTEGRITY); [by eapply IH|]. destruct a; [congruence|].
  eapply IH; [|exact E]. apply Z.mod_pos_bound. lia.
Qed.

Section Requests.
Context `{PjString}.

(** Who a server with this static credential lets in: MESSAGE-INTEGRITY made with the key
    of the credential, its username, and, if it has a realm, that realm and, if it also
    has a nonce, a nonce; a nonce that is sent must be its own; without a realm and a
    nonce on both sides nothing else is asked. *)
Record admitted (realm username nonce key pkt : list Z) (msg : pj_stun_msg) : Prop := {
  ad_user : find_string msg PJ_STUN_ATTR_USERNAME = Some (Some username);
  ad_realm : exists arealm anonce,
    find_string msg PJ_STUN_ATTR_REALM = Some arealm /\ find_string msg PJ_STUN_ATTR_NONCE = Some anonce /\
    (realm <> [] -> exists r, arealm = Some r /\ map pj_tolower r = map pj_tolower realm /\ (nonce <> [] -> anonce <> None)) /\
    (realm = [] -> arealm = None -> nonce = []) /\
    (forall n, anonce = Some n -> nonce <> [] -> n = nonce);
  ad_digest : exists amsgi pos beyond hmac,
    find_msgint (attr msg) None 0 = (Some amsgi, pos, beyond) /\ value amsgi = V_msgint hmac /\
    20 + pos <= zlen pkt /\ take 20 hmac = hmac_reference key (covered pkt pos beyond)
}.

Lemma zlen_nil (l : list Z) : (zlen l =? 0) = bool_decide (l = []).
Proof. by destruct l. Qed.

Lemma strcmp_eq (a b : list Z) : (pj_strcmp a b =? 0) = bool_decide (a = b).
Proof.
  case_bool_decide as E; [apply Z.eqb_eq, pj_strcmp_0, E|]. apply Z.eqb_neq. intros E'. by apply E, pj_strcmp_0.
Qed.

Lemma stricmp_eq (a b : list Z) : (pj_stricmp a b =? 0) = bool_decide (map pj_tolower a = map pj_tolower b).
Proof.
  case_bool_decide as E; [apply Z.eqb_eq, pj_stricmp_0, E|]. apply Z.eqb_neq. intros E'. by apply E, pj_stricmp_0.
Qed.

(** The requirements of the term of the credential *)
Lemma check_term_ok realm u nonce key arealm anonce :
  check_term (mk_info realm u nonce key) arealm anonce = Auth_ok <->
  (realm <> [] -> exists r, arealm = Some r /\ map pj_tolower r = map pj_tolower realm /\ (nonce <> [] -> anonce <> None)) /\
  (realm = [] -> arealm = None -> nonce = []).
Proof.
  unfold check_term. cbn [i_realm i_nonce]. rewrite !zlen_nil. destruct arealm as [r|].
  - rewrite stricmp_eq. destruct (bool_decide_reflect (realm = [])) as [->|Hr]; cbn [negb].
    + split; [done|done].
    + destruct (bool_decide_reflect (anonce = None)) as [->|Ha], (bool_decide_reflect (nonce = [])) as [->|Hn]; cbn [negb andb].
      all: destruct (bool_decide_reflect (map pj_tolower r = map pj_tolower realm)); cbn [negb].
      all: split; [intros; try discriminate|intros [H1 _]; specialize (H1 Hr) as (? & [= <-] & ? & ?)].
      all: try done; try (exfalso; match goal with I : ?x <> [] -> None <> None |- _ => by apply I end).
      all: split; [|done]; intros _; eexists; split_and!; done.
  - destruct (bool_decide_reflect (realm = [])) as [->|Hr], (bool_decide_reflect (nonce = [])) as [->|Hn]; cbn [negb].
    all: split; [intros; try discriminate|intros [H1 H2]].
    all: try done.
    + exfalso. by apply Hn, H2.
    + by destruct (H1 Hr) as (? & ? & _).
    + by destruct (H1 Hr) as (? & ? & _).
Qed.

Lemma credential_key_bytes realm username data_type data :
  bytes_ok data -> bytes_ok (credential_key realm username data_type data).
Proof.
  intros Hd. unfold credential_key. destruct realm, data_type; try done.
  unfold long_term_key, bytes_ok, zlen. rewrite md5_reference_length. split; [apply md5_reference_bytes|done].
Qed.

(** A check that fails has a status other than success. *)
Definition proper_end (e : auth_end) : Prop :=
  match e with Auth_ok => True | Auth_failed code _ => 400 <= code | Auth_return status => status <> PJ_SUCCESS end.

Lemma check_request_end garbage pkt msg cred info e info' :
  check_request garbage pkt msg cred info = Some (e, info') -> proper_end e.
Proof.
  unfold check_request. destruct (find_msgint _ _ _) as [[amsgi pos] beyond].
  destruct amsgi; [|intros [= <- _]; by destruct (negb _)].
  destruct (find_string _ PJ_STUN_ATTR_USERNAME) as [[auser|]|]; cbn [mbind option_bind]; [|by intros [= <- _]|done].
  destruct (find_string _ PJ_STUN_ATTR_REALM) as [arealm|]; cbn [mbind option_bind]; [|done].
  destruct (negb _ && _); [by intros [= <- _]|].
  destruct (check_username _ _ _ _ _ _) as [[e1|info1]|] eqn:Eu; cbn [mbind option_bind]; [|clear Eu|done].
  - intros [= <- _]. unfold check_username in Eu. destruct cred as [? ? ? ? ?|? gp ?|].
    + destruct (_ =? 0); [by destruct (pj_stun_create_key _ _ _ _ _)|by injection Eu as <-].
    + destruct (gp msg arealm auser) as [[rc ?] ?]. destruct (rc =? _); [by destruct (pj_stun_create_key _ _ _ _ _)|by injection Eu as <-].
    + by injection Eu as <-.
  - destruct (find_string _ PJ_STUN_ATTR_NONCE) as [anonce|]; cbn [mbind option_bind]; [|done].
    destruct (check_term _ _ _) eqn:Et.
    + destruct (check_digest _ _ _ _ _ _ _ _ _ _ _) as [e1|] eqn:Ed; cbn [mbind option_bind]; [|done]. intros [= <- _].
      unfold check_digest in Ed. destruct (match anonce with Some _ => _ | None => _ end); [by injection Ed as <-|].
      destruct (message_digest _ _ _ _ _); [|done]. cbn [mbind option_bind] in Ed.
      destruct (msgint_differs _ _) as [[]|]; [| |done]; cbn [mbind option_bind] in Ed; by injection Ed as <-.
    + intros [= <- _]. unfold check_term in Et.
      repeat match type of Et with context [if ?c then _ else _] => destruct c | context [match ?o with Some _ => _ | None => _ end] => destruct o end;
        try discriminate Et; injection Et as <- <-; cbn; done.
    + intros [= <- _]. unfold check_term in Et.
      repeat match type of Et with context [if ?c then _ else _] => destruct c | context [match ?o with Some _ => _ | None => _ end] => destruct o end;
        discriminate Et.
Qed.

Section Static.
Context (garbage : list Z) (Hg : length garbage = 64%nat) (realm username : list Z)
  (data_type : pj_stun_passwd_type) (data nonce : list Z)
  (Hr : zlen realm < 2 ^ 29) (Hu : zlen username < 2 ^ 29) (Hd : bytes_ok data)
  (pkt : list Z) (Hpkt : bytes_ok pkt) (msg : pj_stun_msg).

Let cred := PJ_STUN_AUTH_CRED_STATIC realm username data_type data nonce.
Let key := credential_key realm username data_type data.
Let info := mk_info realm username nonce key.
Let key_bytes_ok : bytes_ok key := credential_key_bytes realm username data_type data Hd.

Lemma check_digest_ok auser arealm anonce amsgi pos beyond : 0 <= pos ->
  check_digest garbage pkt msg cred info auser arealm anonce amsgi pos beyond = Some Auth_ok <->
  (forall n, anonce = Some n -> nonce <> [] -> n = nonce) /\
  exists hmac, value amsgi = V_msgint hmac /\ 20 + pos <= zlen pkt /\
    take 20 hmac = hmac_reference key (covered pkt pos beyond).
Proof.
  intros H0. unfold check_digest.
  assert (E : (match anonce with Some n => negb (nonce_ok msg cred info auser arealm n) | None => false end) = false <->
    forall n, anonce = Some n -> nonce <> [] -> n = nonce).
  { destruct anonce as [n|]; [|by split]. unfold nonce_ok, cred, info. cbn [i_nonce]. rewrite zlen_nil, strcmp_eq.
    destruct (bool_decide_reflect (nonce = [])) as [->|Hn]; cbn [negb].
    - by split.
    - destruct (bool_decide_reflect (n = nonce)) as [->|Hne]; split; try done; cbn.
      + intros _ ? [= <-]. done.
      + intros I. exfalso. by apply Hne, I. }
  destruct (match anonce with Some n => _ | None => false end).
  { split; [done|]. intros [I _]. by apply E in I. }
  rewrite <- E. split.
  - intros I. split; [done|]. destruct (message_digest _ _ _ _ _) as [d|] eqn:Ed; [|done].
    apply message_digest_inv in Ed as [Hl ->]; [|done|exact key_bytes_ok|done|done]. cbn [mbind option_bind] in I.
    unfold msgint_differs in I. destruct (value amsgi) as [| | | | |hmac| | |]; try done. exists hmac. split; [done|]. split; [done|].
    cbn [mbind option_bind] in I. rewrite (take_ge (hmac_reference _ _)) in I by (unfold hmac_reference; rewrite reference_length; lia).
    case_bool_decide as Eq; [done|]. exact Eq.
  - intros [_ (hmac & Hv & Hl & Ht)]. cbn [i_auth_key info].
    rewrite message_digest_spec by (done || exact key_bytes_ok). cbn [mbind option_bind].
    unfold msgint_differs. rewrite Hv. cbn [mbind option_bind].
    rewrite (take_ge (hmac_reference _ _)) by (unfold hmac_reference; rewrite reference_length; lia).
    case_bool_decide; [|done]. by exfalso.
Qed.

Lemma check_request_ok info' :
  check_request garbage pkt msg cred (mk_info realm [] nonce []) = Some (Auth_ok, info') <->
  admitted realm username nonce key pkt msg /\ info' = info.
Proof.
  unfold check_request. destruct (find_msgint (attr msg) None 0) as [[amsgi pos] beyond] eqn:Em.
  pose proof (find_msgint_pos _ None 0 _ _ _ (Z.le_refl 0) Em) as H0.
  destruct amsgi as [amsgi|]; [|split; [done|intros [[_ _ (? & ? & ? & ? & I & _)] _]; congruence]].
  cbn [i_realm]. rewrite zlen_nil.
  destruct (find_string msg PJ_STUN_ATTR_USERNAME) as [[auser|]|] eqn:Eu; cbn [mbind option_bind];
    [|split; [done|by intros [[I _ _] _]; rewrite I in Eu]..].
  destruct (find_string msg PJ_STUN_ATTR_REALM) as [arealm|] eqn:Er; cbn [mbind option_bind];
    [|split; [done|intros [[_ (? & ? & I & _) _] _]; congruence]].
  destruct (negb (bool_decide (realm = [])) && bool_decide (arealm = None)) eqn:Emiss.
  { split; [done|]. intros [[_ (ar & an & I & _ & I2 & _) _] _]. rewrite Er in I. injection I as <-.
    apply andb_true_iff in Emiss as [E1 E2]. apply negb_true_iff, bool_decide_eq_false in E1. apply bool_decide_eq_true in E2.
    destruct (I2 E1) as (? & ? & _). congruence. }
  unfold check_username, cred. rewrite strcmp_eq. destruct (bool_decide_reflect (auser = username)) as [Eus|Eus].
  2: { cbn [mbind option_bind]. split; [done|]. intros [[I _ _] _]. rewrite Eu in I. congruence. }
  subst auser. rewrite create_key_spec by (done || apply Hd). cbn [mbind option_bind].
  destruct (find_string msg PJ_STUN_ATTR_NONCE) as [anonce|] eqn:En; cbn [mbind option_bind];
    [|split; [done|intros [[_ (? & ? & _ & I & _) _] _]; congruence]].
  change (set_credential _ username _) with info.
  pose proof (check_term_ok realm username nonce key arealm anonce) as Ct. fold info in Ct.
  pose proof (check_digest_ok username arealm anonce amsgi pos beyond H0) as Cd. unfold cred in Cd.
  assert (Had : admitted realm username nonce key pkt msg <->
    check_term info arealm anonce = Auth_ok /\
    check_digest garbage pkt msg (PJ_STUN_AUTH_CRED_STATIC realm username data_type data nonce) info username arealm anonce
      amsgi pos beyond = Some Auth_ok).
  { rewrite Ct, Cd. split.
    - intros [_ (ar & an & I1 & I2 & I3 & I4 & I5) (am & p & b & hm & I6 & I7 & I8 & I9)].
      rewrite Er in I1. rewrite En in I2. rewrite Em in I6. injection I1 as <-. injection I2 as <-. injection I6 as <- <- <-.
      split; [done|]. split; [done|]. by exists hm.
    - intros [[I3 I4] [I5 (hm & I7 & I8 & I9)]]. split; [done|by exists arealm, anonce|by exists amsgi, pos, beyond, hm]. }
  rewrite Had. clear Had Ct Cd. destruct (check_term info arealm anonce); [|split; [done|intros [[? _] _]; done]..].
  destruct (check_digest _ _ _ _ _ _ _ _ _ _ _) as [e|]; cbn [mbind option_bind].
  - split; [by intros [= -> <-]|]. by intros [[_ [= ->]] ->].
  - split; [done|]. by intros [[_ ?] _].
Qed.
End Static.

(** C27: pj_stun_authenticate_request with a static credential succeeds exactly for the
    requests that the credential admits: the username, the realm and the nonce as
    [admitted] says, and a MESSAGE-INTEGRITY that is the HMAC, under the key made
    from the credential, of the packet before it; the application then gets the
    realm, username, nonce and key of the credential, and no response. *)
Theorem request_admission (garbage realm username : list Z) (data_type : pj_stun_passwd_type)
    (data nonce pkt : list Z) (msg : pj_stun_msg) (want : bool) (res : auth_result) :
  length garbage = 64%nat -> zlen realm < 2 ^ 29 -> zlen username < 2 ^ 29 -> bytes_ok data -> bytes_ok pkt ->
  let key := credential_key realm username data_type data in
  pj_stun_authenticate_request garbage pkt msg (PJ_STUN_AUTH_CRED_STATIC realm username data_type data nonce) want = Some res /\
    au_status res = PJ_SUCCESS <->
  admitted realm username nonce key pkt msg /\ res = mk_auth PJ_SUCCESS (mk_info realm username nonce key) None.
Proof.
  intros Hg Hr Hu Hd Hp key. unfold pj_stun_authenticate_request.
  pose proof (check_request_ok garbage Hg realm username data_type data nonce Hr Hu Hd pkt Hp msg) as C. fold key in C.
  split.
  - intros [E Hs]. destruct (check_request _ _ _ _ _) as [[e info']|] eqn:Ec; [|done]. cbn [mbind option_bind] in E.
    apply check_request_end in Ec.
    destruct e as [|code text|status].
    + destruct (C info') as [C1 _]. destruct (C1 eq_refl) as [Ha ->]. split; [done|]. congruence.
    + exfalso. unfold auth_failed in E.
      destruct (if want && _ then _ else _) as [r|]; [|done]. cbn [mbind option_bind] in E. injection E as <-.
      cbn [au_status proper_end] in *. unfold PJ_STATUS_FROM_STUN_CODE, PJNATH_ERRNO_START, PJ_SUCCESS in *. lia.
    + exfalso. by injection E as <-.
  - intros [Ha ->]. destruct (C (mk_info realm username nonce key)) as [_ C2]. by rewrite C2.
Qed.
End Requests.

(** A request with the long term credential of alice, as a client encodes it and a server
    decodes it *)
Definition request_hdr : pj_stun_msg_hdr := mk_msg_hdr 0x0001 0 PJ_STUN_MAGIC (seqZ 1 12).
Definition string_attr (t : Z) (v : list Z) : pj_stun_attr := mk_attr (mk_attr_hdr t (zlen v)) (V_string v).
Definition request_attrs : list pj_stun_attr :=
  [string_attr PJ_STUN_ATTR_USERNAME (zstring "alice"); string_attr PJ_STUN_ATTR_REALM (zstring "Home");
   string_attr PJ_STUN_ATTR_NONCE (zstring "n1")].
Definition request_key : list Z := long_term_key (zstring "home") (zstring "alice") (zstring "secret").

Definition request_pkt : list Z :=
  match pj_stun_msg_encode 0 (replicate 64 0) 0 (mk_msg request_hdr (request_attrs ++ msg_tail (Some (replicate 20 0)) (Some 0)))
          (replicate 200 0) 200 0 (Some request_key) with
  | Some e => take (Z.to_nat (en_len e)) (en_buf e)
  | None => []
  end.

Definition request_msg : pj_stun_msg :=
  match pj_stun_msg_decode (fun _ => []) 0 request_pkt (zlen request_pkt) 3 true with
  | Some (mk_decoded _ (Some msg) _ _) => msg
  | _ => mk_msg request_hdr []
  end.

Lemma request_admission_witness :
  admitted (zstring "home") (zstring "alice") (zstring "n1") request_key request_pkt request_msg.
Proof.
  assert (Hp : bytes_ok request_pkt).
  { split; [|vm_compute; reflexivity]. apply Forall_forall. intros x Hx.
    assert (K : forallb (fun b => (0 <=? b) && (b <? 256)) request_pkt = true) by (vm_compute; reflexivity).
    rewrite forallb_forall in K. apply list_elem_of_In in Hx. specialize (K x Hx). unfold is_byte. lia. }
  assert (E : @pj_stun_authenticate_request plain_strings (replicate 64 0) request_pkt request_msg
      (PJ_STUN_AUTH_CRED_STATIC (zstring "home") (zstring "alice") PJ_STUN_PASSWD_PLAIN (zstring "secret") (zstring "n1")) true =
    Some (mk_auth PJ_SUCCESS (mk_info (zstring "home") (zstring "alice") (zstring "n1") request_key) None))
    by (vm_compute; reflexivity).
  pose proof (@request_admission plain_strings (replicate 64 0) (zstring "home") (zstring "alice") PJ_STUN_PASSWD_PLAIN
    (zstring "secret") (zstring "n1") request_pkt request_msg true
    (mk_auth PJ_SUCCESS (mk_info (zstring "home") (zstring "alice") (zstring "n1") request_key) None) eq_refl eq_refl eq_refl
    ltac:(split; [repeat constructor; done|done]) Hp) as [H _].
  assert (K : credential_key (zstring "home") (zstring "alice") PJ_STUN_PASSWD_PLAIN (zstring "secret") = request_key)
    by (vm_compute; reflexivity).
  cbv zeta in H. rewrite K in H. destruct H as [H _]; [by split|exact H].
Defined.
