(* ===== verification/SipTargets.v ===== *)
(** * Target sets (pjsip/src/pjsip/sip_util.c)

    The alternative targets of a request: the URIs of the Contact headers of redirect
    responses, ordered by their q-value, each with the status it was answered with. *)

From stdpp Require Import sorting.
From S2P Require Import Prelude SipTypes.

Inductive uri_scheme := Sip | Sips | Other_scheme.

Record pjsip_uri := mk_uri { u_scheme : uri_scheme; u_transport_param : list Z; u_id : Z }.

Definition PJSIP_URI_SCHEME_IS_SIP (u : pjsip_uri) : bool := match u_scheme u with Sip => true | _ => false end.
Definition PJSIP_URI_SCHEME_IS_SIPS (u : pjsip_uri) : bool := match u_scheme u with Sips => true | _ => false end.

(** [t_key] is the address of the target. *)
Record pjsip_target := mk_target { t_key : Z; t_uri : pjsip_uri; t_q1000 : Z; t_code : Z }.

Record pjsip_target_set := mk_tset { ts_head : list pjsip_target; ts_current : option Z; ts_next_key : Z }.

Definition empty_tset : pjsip_target_set := mk_tset [] None 0.

Section Targets.
(** pjsip_uri_cmp in a request URI finds no difference *)
Context (uri_cmp : pjsip_uri -> pjsip_uri -> bool).

(** The insertion point is before the first target of lower q-value. *)
Fixpoint insert_target (t : pjsip_target) (l : list pjsip_target) : list pjsip_target :=
  match l with
  | [] => [t]
  | x :: l' => if t_q1000 x <? t_q1000 t then t :: l else x :: insert_target t l'
  end.

Definition pjsip_target_set_add_uri (tset : pjsip_target_set) (uri : pjsip_uri) (q1000 : Z) : Z * pjsip_target_set :=
  let q1000 := if q1000 <=? 0 then 1000 else q1000 in
  if existsb (fun t => uri_cmp (t_uri t) uri) (ts_head tset) then (PJ_EEXISTS, tset)
  else
    let t := mk_target (ts_next_key tset) uri q1000 0 in
    (PJ_SUCCESS, mk_tset (insert_target t (ts_head tset))
       (match ts_current tset with None => Some (t_key t) | c => c end) (ts_next_key tset + 1)).

(** A Contact header: "*", or a URI with its q-value *)
Inductive pjsip_contact := Contact_star | Contact_uri (uri : option pjsip_uri) (q1000 : Z).

Fixpoint add_contacts (tset : pjsip_target_set) (added : Z) (hdrs : list pjsip_contact) : Z * pjsip_target_set :=
  match hdrs with
  | [] => (added, tset)
  | Contact_uri (Some uri) q1000 :: hdrs' =>
      let '(rc, tset) := pjsip_target_set_add_uri tset uri q1000 in
      add_contacts tset (if rc =? PJ_SUCCESS then added + 1 else added) hdrs'
  | _ :: hdrs' => add_contacts tset added hdrs'      (* "*", or no URI: PJ_EINVAL *)
  end.

Definition pjsip_target_set_add_from_msg (tset : pjsip_target_set) (hdrs : list pjsip_contact) : Z * pjsip_target_set :=
  let '(added, tset) := add_contacts tset 0 hdrs in
  (if added =? 0 then PJ_EEXISTS else PJ_SUCCESS, tset).

Fixpoint get_next (next : option pjsip_target) (l : list pjsip_target) : option pjsip_target :=
  match l with
  | [] => next
  | t :: l' =>
      if PJSIP_IS_STATUS_IN_CLASS (t_code t) 200 then None
      else if PJSIP_IS_STATUS_IN_CLASS (t_code t) 600 then None
      else get_next (if (t_code t =? 0) && bool_decide (next = None) then Some t else next) l'
  end.

Definition pjsip_target_set_get_next (tset : pjsip_target_set) : option pjsip_target := get_next None (ts_head tset).

Definition pjsip_target_set_set_current (tset : pjsip_target_set) (key : Z) : Z * pjsip_target_set :=
  if existsb (fun t => t_key t =? key) (ts_head tset) then
    (PJ_SUCCESS, mk_tset (ts_head tset) (Some key) (ts_next_key tset))
  else (PJ_ENOTFOUND, tset).

(** The reason phrase is not kept.  A NULL target or a code of 0 is refused. *)
Definition pjsip_target_assign_status (tset : pjsip_target_set) (key : option Z) (code : Z) : Z * pjsip_target_set :=
  match key with
  | Some k =>
      if code =? 0 then (PJ_EINVAL, tset)
      else (PJ_SUCCESS, mk_tset (map (fun t => if t_key t =? k then mk_target (t_key t) (t_uri t) (t_q1000 t) code else t)
                                  (ts_head tset)) (ts_current tset) (ts_next_key tset))
  | None => (PJ_EINVAL, tset)
  end.
End Targets.
