(* ===== verification/SipTargetProps.v ===== *)
(** * Target sets: what is still to be tried *)

From stdpp Require Import sorting.
From S2P Require Import Prelude SipTypes SipTargets.

(** The targets that are still to be tried once the current one has its status *)
Definition untried (ts : pjsip_target_set) : list pjsip_target := List.filter (fun t => t_code t =? 0) (ts_head ts).
Definition current_untried (ts : pjsip_target_set) : bool :=
  match ts_current ts with Some k => existsb (fun t => t_key t =? k) (untried ts) | None => false end.
Definition remaining (ts : pjsip_target_set) : nat := length (untried ts) - (if current_untried ts then 1 else 0).

Lemma filter_length_le {A} (f : A -> bool) l : (length (List.filter f l) <= length l)%nat.
Proof. induction l as [|x l IH]; cbn; [done|]. destruct (f x); cbn; lia. Qed.

Lemma filter_length_lt {A} (f : A -> bool) l x : In x l -> f x = false -> (length (List.filter f l) < length l)%nat.
Proof.
  induction l as [|y l IH]; [done|]. intros [->|Hx] E; cbn.
  - rewrite E. pose proof (filter_length_le f l). lia.
  - specialize (IH Hx E). destruct (f y); cbn; lia.
Qed.

Lemma existsb_filter_false {A} (f p : A -> bool) l : (forall x, f x = true -> p x = false) ->
  existsb p (List.filter f l) = false.
Proof. intros H. induction l as [|x l IH]; [done|]. cbn. destruct (f x) eqn:E; [|done]. cbn. by rewrite H. Qed.

Lemma existsb_filter_same {A} (f p : A -> bool) l : (forall x, p x = true -> f x = true) ->
  existsb p (List.filter f l) = existsb p l.
Proof.
  intros H. induction l as [|x l IH]; [done|]. cbn. destruct (f x) eqn:E; cbn; rewrite IH; [done|].
  destruct (p x) eqn:Ep; [|done]. by rewrite H in E.
Qed.

Lemma untried_length ts : (length (untried ts) <= length (ts_head ts))%nat.
Proof. apply filter_length_le. Qed.

(** Assigning a status takes a target out of the untried ones. *)
Lemma untried_assign ts k code : code <> 0 ->
  untried (pjsip_target_assign_status ts (Some k) code).2 = List.filter (fun t => negb (t_key t =? k)) (untried ts).
Proof.
  intros Hc. unfold pjsip_target_assign_status, untried. destruct (Z.eqb_spec code 0) as [E|_]; [done|]. cbn.
  induction (ts_head ts) as [|t l IH]; [done|]. cbn. destruct (Z.eqb_spec (t_key t) k) as [E|E]; cbn.
  - destruct (Z.eqb_spec code 0) as [E'|_]; [done|]. rewrite IH. destruct (t_code t =? 0); cbn; [|done].
    destruct (Z.eqb_spec (t_key t) k) as [_|E']; done.
  - destruct (t_code t =? 0); cbn; [|done]. destruct (Z.eqb_spec (t_key t) k) as [E'|_]; [done|]. cbn. by rewrite IH.
Qed.

Lemma current_assign ts key code : ts_current (pjsip_target_assign_status ts key code).2 = ts_current ts.
Proof. unfold pjsip_target_assign_status. destruct key; [|done]. by destruct (code =? 0). Qed.

Lemma current_tried ts code : code <> 0 -> current_untried (pjsip_target_assign_status ts (ts_current ts) code).2 = false.
Proof.
  intros Hc. unfold current_untried. rewrite current_assign. destruct (ts_current ts) as [k|] eqn:E; [|done].
  rewrite untried_assign by done. apply existsb_filter_false. intros t Ht. by apply negb_true_iff in Ht.
Qed.

Lemma remaining_untried ts : current_untried ts = false -> remaining ts = length (untried ts).
Proof. intros E. unfold remaining. rewrite E. lia. Qed.

Lemma remaining_assign ts key code : (remaining (pjsip_target_assign_status ts key code).2 <= remaining ts)%nat.
Proof.
  destruct (Z.eq_dec code 0) as [->|Hc]; [by destruct key|]. destruct key as [k|]; [|done].
  unfold remaining, current_untried. rewrite current_assign, untried_assign by done.
  pose proof (filter_length_le (fun t => negb (t_key t =? k)) (untried ts)) as Hl.
  destruct (ts_current ts) as [c|]; [|lia]. destruct (Z.eq_dec c k) as [->|Hn].
  - rewrite existsb_filter_false by (intros t Ht; by apply negb_true_iff in Ht). rewrite Nat.sub_0_r.
    destruct (existsb _ (untried ts)) eqn:E; [|lia]. apply existsb_exists in E as (t & Ht & Et).
    pose proof (filter_length_lt (fun t => negb (t_key t =? k)) (untried ts) t Ht). cbn beta in H. rewrite Et in H. specialize (H eq_refl). lia.
  - rewrite existsb_filter_same; [lia|]. intros t Ht. apply Z.eqb_eq in Ht. apply negb_true_iff, Z.eqb_neq. congruence.
Qed.

Lemma get_next_untried ts t : pjsip_target_set_get_next ts = Some t -> In t (untried ts).
Proof.
  unfold pjsip_target_set_get_next, untried. assert (G : forall l next,
    get_next next l = Some t -> next = Some t \/ In t (List.filter (fun t => t_code t =? 0) l)).
  { induction l as [|x l IH]; intros next E; cbn in *; [by left|]. destruct (PJSIP_IS_STATUS_IN_CLASS _ _); [done|].
    destruct (PJSIP_IS_STATUS_IN_CLASS _ _); [done|]. apply IH in E. destruct (t_code x =? 0) eqn:Ec; cbn in *.
    - destruct (bool_decide_reflect (next = None)) as [->|Hn].
      + destruct E as [E|E]; [right; left; congruence|right; by right].
      + destruct E as [E|E]; [by left|right; by right].
    - exact E. }
  intros E. by destruct (G _ _ E) as [E'|].
Qed.

Lemma set_current_untried ts t : In t (untried ts) ->
  (remaining (pjsip_target_set_set_current ts (t_key t)).2 < length (untried ts))%nat.
Proof.
  intros H. unfold pjsip_target_set_set_current.
  assert (E : existsb (fun x => t_key x =? t_key t) (ts_head ts) = true).
  { apply existsb_exists. exists t. split; [|apply Z.eqb_refl]. by apply List.filter_In in H as [H _]. }
  rewrite E. unfold remaining, current_untried. cbn.
  assert (E' : existsb (fun x => t_key x =? t_key t) (untried ts) = true).
  { apply existsb_exists. exists t. split; [done|apply Z.eqb_refl]. }
  unfold untried in *. cbn. rewrite E'. destruct (List.filter _ _); [done|cbn; lia].
Qed.

(** ** The order of a target set *)

Definition by_q : relation pjsip_target := fun a b => t_q1000 b <= t_q1000 a.

#[global] Instance by_q_trans : Transitive by_q.
Proof. intros a b c. unfold by_q. lia. Qed.

Lemma insert_target_perm t l : Permutation (insert_target t l) (t :: l).
Proof.
  induction l as [|x l IH]; cbn; [done|]. destruct (t_q1000 x <? t_q1000 t); [done|]. rewrite IH. by constructor.
Qed.

Lemma insert_target_hdrel x t l : by_q x t -> HdRel by_q x l -> HdRel by_q x (insert_target t l).
Proof. intros Ht Hl. destruct l as [|y l]; cbn; [by constructor|]. destruct (_ <? _); [by constructor|]. inv Hl. by constructor. Qed.

Lemma insert_target_sorted t l : Sorted by_q l -> Sorted by_q (insert_target t l).
Proof.
  induction l as [|x l IH]; intros H; cbn; [by repeat constructor|]. destruct (Z.ltb_spec (t_q1000 x) (t_q1000 t)) as [E|E].
  - constructor; [done|]. constructor. unfold by_q. lia.
  - inv H. constructor; [by apply IH|]. apply insert_target_hdrel; [unfold by_q; lia|done].
Qed.

Section Order.
Context (uri_cmp : pjsip_uri -> pjsip_uri -> bool).

(** Ordered by the q-value, without a URI twice, keys in the order of their addition,
    and the current target in the set *)
Record tset_ok (ts : pjsip_target_set) : Prop := {
  to_sorted : Sorted by_q (ts_head ts);
  to_distinct : forall a b, In a (ts_head ts) -> In b (ts_head ts) -> t_key a < t_key b -> uri_cmp (t_uri a) (t_uri b) = false;
  to_keys : NoDup (map t_key (ts_head ts));
  to_fresh : forall a, In a (ts_head ts) -> t_key a < ts_next_key ts;
  to_current : forall k, ts_current ts = Some k -> exists a, In a (ts_head ts) /\ t_key a = k
}.

Lemma tset_ok_empty : tset_ok empty_tset.
Proof. split; cbn; try done; constructor. Qed.

Lemma add_uri_ok ts uri q : tset_ok ts -> tset_ok (pjsip_target_set_add_uri uri_cmp ts uri q).2.
Proof.
  intros []. unfold pjsip_target_set_add_uri. destruct (existsb _ _) eqn:E; [by split|]. cbn.
  set (t := mk_target _ _ _ _). pose proof (insert_target_perm t (ts_head ts)) as Hp.
  assert (Hin : forall a, In a (insert_target t (ts_head ts)) -> a = t \/ In a (ts_head ts)).
  { intros a Ha. apply (Permutation_in _ Hp) in Ha. destruct Ha; auto. }
  assert (Hin' : forall a, a = t \/ In a (ts_head ts) -> In a (insert_target t (ts_head ts))).
  { intros a Ha. apply (Permutation_in _ (symmetry Hp)). destruct Ha; [by left|by right]. }
  assert (Hnew : forall a, In a (ts_head ts) -> uri_cmp (t_uri a) uri = false).
  { intros a Ha. destruct (uri_cmp (t_uri a) uri) eqn:Eu; [|done]. rewrite <- E. symmetry. apply existsb_exists. by exists a. }
  split; cbn.
  - by apply insert_target_sorted.
  - intros a b Ha Hb Hk. apply Hin in Ha as [->|Ha], Hb as [->|Hb].
    + cbn in Hk. lia.
    + specialize (to_fresh0 _ Hb). cbn in Hk. lia.
    + by apply Hnew.
    + by apply to_distinct0.
  - rewrite (Permutation_map t_key Hp). cbn. constructor; [|done]. intros H. apply list_elem_of_In, in_map_iff in H as (a & Ea & Ha).
    specialize (to_fresh0 _ Ha). lia.
  - intros a Ha. apply Hin in Ha as [->|Ha]; cbn; [lia|]. specialize (to_fresh0 _ Ha). lia.
  - intros k Ek. destruct (ts_current ts) as [c|] eqn:Ec.
    + injection Ek as <-. destruct (to_current0 c eq_refl) as (a & Ha & Hk). exists a. auto.
    + injection Ek as <-. exists t. auto.
Qed.

Lemma add_contacts_ok hdrs ts n : tset_ok ts -> tset_ok (add_contacts uri_cmp ts n hdrs).2.
Proof.
  revert ts n. induction hdrs as [|[|[u|] q] hdrs IH]; intros ts n H; cbn; auto.
  pose proof (add_uri_ok ts u q H) as Hu. destruct (pjsip_target_set_add_uri uri_cmp ts u q) as [rc ts']. by apply IH.
Qed.

Lemma set_current_ok ts k : tset_ok ts -> tset_ok (pjsip_target_set_set_current ts k).2.
Proof.
  intros H. unfold pjsip_target_set_set_current. destruct (existsb _ _) eqn:E; [|done]. destruct H. split; cbn; auto.
  intros k' [= <-]. apply existsb_exists in E as (t & Ht & Ek). apply Z.eqb_eq in Ek. by exists t.
Qed.

(** A status changes neither order nor URI. *)
Lemma sorted_map (f : pjsip_target -> pjsip_target) l : (forall t, t_q1000 (f t) = t_q1000 t) -> Sorted by_q l -> Sorted by_q (map f l).
Proof.
  intros Hf. induction 1 as [|x l Hs IH Hh]; cbn; [constructor|]. constructor; [done|].
  destruct l as [|y l]; cbn; constructor. inv Hh. unfold by_q in *. by rewrite !Hf.
Qed.

Lemma assign_ok ts key code : tset_ok ts -> tset_ok (pjsip_target_assign_status ts key code).2.
Proof.
  intros H. unfold pjsip_target_assign_status. destruct key as [k|]; [|done]. destruct (code =? 0); [done|]. cbn.
  set (f := fun t => if t_key t =? k then mk_target (t_key t) (t_uri t) (t_q1000 t) code else t).
  assert (Hq : forall t, t_q1000 (f t) = t_q1000 t) by (intros t; unfold f; by destruct (_ =? k)).
  assert (Hu : forall t, t_uri (f t) = t_uri t) by (intros t; unfold f; by destruct (_ =? k)).
  assert (Hk : forall t, t_key (f t) = t_key t) by (intros t; unfold f; by destruct (_ =? k)).
  destruct H. split; cbn.
  - by apply sorted_map.
  - intros a b Ha Hb. apply in_map_iff in Ha as (a' & <- & Ha), Hb as (b' & <- & Hb). rewrite !Hk, !Hu. by apply to_distinct0.
  - rewrite map_map. erewrite map_ext; [exact to_keys0|]. exact Hk.
  - intros a Ha. apply in_map_iff in Ha as (a' & <- & Ha). rewrite Hk. by apply to_fresh0.
  - intros c Hc. destruct (to_current0 c Hc) as (a & Ha & Ea). exists (f a). split; [by apply in_map|by rewrite Hk].
Qed.

(** The target sets of a dialog *)
Inductive tset_reachable : pjsip_target_set -> Prop :=
  | Tset_empty : tset_reachable empty_tset
  | Tset_add ts hdrs : tset_reachable ts -> tset_reachable (pjsip_target_set_add_from_msg uri_cmp ts hdrs).2
  | Tset_current ts k : tset_reachable ts -> tset_reachable (pjsip_target_set_set_current ts k).2
  | Tset_assign ts key code : tset_reachable ts -> tset_reachable (pjsip_target_assign_status ts key code).2.

Lemma tset_reachable_ok ts : tset_reachable ts -> tset_ok ts.
Proof.
  induction 1 as [|ts hdrs _ IH|ts k _ IH|ts key code _ IH].
  - apply tset_ok_empty.
  - unfold pjsip_target_set_add_from_msg. pose proof (add_contacts_ok hdrs ts 0 IH) as H.
    by destruct (add_contacts uri_cmp ts 0 hdrs).
  - by apply set_current_ok.
  - by apply assign_ok.
Qed.

(** The first untried target *)
Lemma get_next_first l next t : get_next next l = Some t ->
  match next with Some n => t = n | None => List.find (fun x => t_code x =? 0) l = Some t end.
Proof.
  revert next. induction l as [|x l IH]; intros next E; cbn in *; [destruct next; congruence|].
  destruct (PJSIP_IS_STATUS_IN_CLASS _ _); [done|]. destruct (PJSIP_IS_STATUS_IN_CLASS _ _); [done|]. apply IH in E.
  destruct next as [m|]; [by rewrite bool_decide_false, andb_false_r in E|].
  destruct (t_code x =? 0); cbn in E; [congruence|done].
Qed.

Lemma sorted_find (p : pjsip_target -> bool) l t : Sorted by_q l -> List.find p l = Some t -> In t l /\ p t = true /\
  forall u, In u l -> p u = true -> t_q1000 u <= t_q1000 t.
Proof.
  intros Hs E. split; [by apply find_some in E as [? ?]|]. split; [by apply find_some in E as [? ?]|].
  apply Sorted_StronglySorted in Hs; [|apply by_q_trans]. induction Hs as [|x l Hs IH Hf]; [done|]. cbn in E.
  destruct (p x) eqn:Ep; [injection E as <-|].
  - intros u [<-|Hu] _; [lia|]. rewrite List.Forall_forall in Hf. by apply Hf.
  - intros u [<-|Hu] Hp; [congruence|]. by apply IH.
Qed.

(** C40: A target set holds its targets in the order of their q-values, no URI twice, and its
    current target; the next target is an untried one of the highest q-value. *)
Theorem target_sets_ordered ts : tset_reachable ts ->
  Sorted by_q (ts_head ts) /\
  (forall a b, In a (ts_head ts) -> In b (ts_head ts) -> t_key a < t_key b -> uri_cmp (t_uri a) (t_uri b) = false) /\
  (forall k, ts_current ts = Some k -> exists a, In a (ts_head ts) /\ t_key a = k) /\
  (forall t, pjsip_target_set_get_next ts = Some t -> In t (ts_head ts) /\ t_code t = 0 /\
     forall u, In u (ts_head ts) -> t_code u = 0 -> t_q1000 u <= t_q1000 t).
Proof.
  intros H. apply tset_reachable_ok in H. destruct H. split; [done|]. split; [done|]. split; [done|]. intros t E.
  apply get_next_first, sorted_find in E; [|done]. destruct E as (H1 & H2 & H3). split; [done|]. split; [by apply Z.eqb_eq|].
  intros u Hu Hc. apply H3; [done|]. by apply Z.eqb_eq.
Qed.
End Order.

(** Two redirect responses *)
Definition first_contacts : list pjsip_contact :=
  [Contact_uri (Some (mk_uri Sip [] 1)) 500; Contact_star; Contact_uri (Some (mk_uri Sips [] 2)) 900; Contact_uri (Some (mk_uri Sip [] 1)) 800].
Definition same_id (a b : pjsip_uri) : bool := u_id a =? u_id b.
Definition two_targets : pjsip_target_set := (pjsip_target_set_add_from_msg same_id empty_tset first_contacts).2.

Lemma target_sets_ordered_witness :
  map t_key (ts_head two_targets) = [1; 0] /\ ts_current two_targets = Some 0 /\
  Sorted by_q (ts_head two_targets) /\
  exists t, pjsip_target_set_get_next two_targets = Some t /\ forall u, In u (ts_head two_targets) -> t_code u = 0 -> t_q1000 u <= t_q1000 t.
Proof.
  assert (R : tset_reachable same_id two_targets) by apply Tset_add, Tset_empty.
  destruct (target_sets_ordered same_id two_targets R) as (H1 & H2 & H3 & H4).
  split; [reflexivity|]. split; [reflexivity|]. split; [exact H1|]. eexists. split; [reflexivity|]. by apply H4.
Defined.
