(* ===== verification/InvData.v ===== *)
(** * INVITE sessions: data (pjsip/src/pjsip-ua/sip_inv.c, pjsip/include/pjsip-ua/sip_inv.h)

    The session, the transactions, messages and the dialog it works on, and the monad its
    operations run in.

    A session asks other parts of the stack for everything else: the dialog and the
    transactions send and answer, 100rel and the session timers look at messages, the
    application is called back.  Each such call takes its answer from [w_oracle].  An answer
    also lists what happens before the call returns: the state changes of the transaction
    the call works on, and the functions of the session that the application or another
    module calls meanwhile.  The oracle is arbitrary, so what is proved holds for all
    behaviours of these parts. *)

From Stdlib Require Strings.String.
From S2P Require Import Prelude SipTypes PjStr Sdp SdpNeg SipTargets.
Import Strings.String.StringSyntax.

(** ** The negotiator as the session sees it *)

Class Negotiator := {
  sdp : Type;
  neg : Type;
  neg_state_of : neg -> pjmedia_sdp_neg_state;
  neg_has_local_answer : neg -> bool;
  neg_validate : sdp -> Z;
  neg_validate2 : sdp -> Z;                                 (* pjmedia_sdp_validate2(sdp, PJ_FALSE) *)
  neg_create_w_local_offer : sdp -> Z * option neg;
  neg_create_w_remote_offer : option sdp -> sdp -> Z * option neg;
  neg_get_neg_local : neg -> Z + sdp;
  neg_get_neg_remote : neg -> Z + sdp;
  neg_get_active_local : neg -> Z + sdp;
  neg_modify_local_offer2 : neg -> bool -> sdp -> option (Z * neg);
  neg_send_local_offer : neg -> Z * option sdp * neg;
  neg_set_remote_answer : neg -> sdp -> Z * neg;
  neg_set_remote_offer : neg -> sdp -> Z * neg;
  neg_set_local_answer : neg -> sdp -> Z * neg;
  neg_cancel_offer : neg -> Z * neg;
  neg_negotiate : neg -> option (Z * neg);                  (* without asymmetric payload types *)

  (** What it promises: a well-formed negotiator stays well-formed, and a negotiation ends. *)
  neg_wf : neg -> Prop;
  neg_create_local_wf s st n : neg_create_w_local_offer s = (st, Some n) -> neg_wf n;
  neg_create_remote_wf i r st n : neg_create_w_remote_offer i r = (st, Some n) -> neg_wf n;
  neg_create_remote_made i r : (neg_create_w_remote_offer i r).1 = PJ_SUCCESS -> is_Some (neg_create_w_remote_offer i r).2;
  neg_modify_wf n b s st n' : neg_wf n -> neg_modify_local_offer2 n b s = Some (st, n') -> neg_wf n';
  neg_send_wf n : neg_wf n -> neg_wf (neg_send_local_offer n).2;
  neg_remote_answer_wf n s : neg_wf n -> neg_wf (neg_set_remote_answer n s).2;
  neg_remote_offer_wf n s : neg_wf n -> neg_wf (neg_set_remote_offer n s).2;
  neg_local_answer_wf n s : neg_wf n -> neg_wf (neg_set_local_answer n s).2;
  neg_cancel_wf n : neg_wf n -> neg_wf (neg_cancel_offer n).2;
  neg_negotiate_wf n st n' : neg_wf n -> neg_negotiate n = Some (st, n') -> neg_wf n';
  neg_negotiate_done n st n' : neg_wf n -> neg_state_of n = PJMEDIA_SDP_NEG_STATE_WAIT_NEGO ->
    neg_negotiate n = Some (st, n') -> neg_state_of n' = PJMEDIA_SDP_NEG_STATE_DONE
}.

(** ** Constants and enumerations *)

Inductive pjsip_inv_state :=
  | PJSIP_INV_STATE_NULL | PJSIP_INV_STATE_CALLING | PJSIP_INV_STATE_INCOMING | PJSIP_INV_STATE_EARLY
  | PJSIP_INV_STATE_CONNECTING | PJSIP_INV_STATE_CONFIRMED | PJSIP_INV_STATE_DISCONNECTED.

#[global] Instance pjsip_inv_state_eq_dec : EqDecision pjsip_inv_state.
Proof. solve_decision. Defined.

Definition inv_state_num (s : pjsip_inv_state) : Z :=
  match s with
  | PJSIP_INV_STATE_NULL => 0 | PJSIP_INV_STATE_CALLING => 1 | PJSIP_INV_STATE_INCOMING => 2
  | PJSIP_INV_STATE_EARLY => 3 | PJSIP_INV_STATE_CONNECTING => 4 | PJSIP_INV_STATE_CONFIRMED => 5
  | PJSIP_INV_STATE_DISCONNECTED => 6
  end.

Inductive pjsip_redirect_op :=
  | PJSIP_REDIRECT_REJECT | PJSIP_REDIRECT_ACCEPT | PJSIP_REDIRECT_ACCEPT_REPLACE | PJSIP_REDIRECT_PENDING
  | PJSIP_REDIRECT_STOP.

#[global] Instance pjsip_redirect_op_eq_dec : EqDecision pjsip_redirect_op.
Proof. solve_decision. Defined.
#[global] Instance neg_state_eq_dec : EqDecision pjmedia_sdp_neg_state.
Proof. solve_decision. Defined.

Definition PJSIP_INV_SUPPORT_100REL : Z := 1.
Definition PJSIP_INV_SUPPORT_TIMER : Z := 2.
Definition PJSIP_INV_SUPPORT_UPDATE : Z := 4.
Definition PJSIP_INV_SUPPORT_ICE : Z := 8.
Definition PJSIP_INV_REQUIRE_ICE : Z := 16.
Definition PJSIP_INV_REQUIRE_100REL : Z := 32.
Definition PJSIP_INV_REQUIRE_TIMER : Z := 64.

(** [flags & f] as a condition *)
Definition has_option (flags f : Z) : bool := negb (Z.land flags f =? 0).

Definition PJ_EGONE : Z := 70023.
Definition PJMEDIA_SDP_EINSDP : Z := 220020.
Definition PJSIP_EINVALIDURI : Z := 171039.
Definition PJSIP_ESESSIONTERMINATED : Z := 171140.
Definition PJSIP_ESESSIONINSECURE : Z := 171142.
Definition PJSIP_ERRNO_FROM_SIP_STATUS (code : Z) : Z := 170000 + code.

Definition PJSIP_SC_REQUEST_TIMEOUT : Z := 408.
Definition PJSIP_SC_TSX_TIMEOUT : Z := PJSIP_SC_REQUEST_TIMEOUT.
Definition PJSIP_SC_SESSION_TIMER_TOO_SMALL : Z := 422.
Definition PJSIP_SC_CALL_TSX_DOES_NOT_EXIST : Z := 481.
Definition PJSIP_SC_REQUEST_TERMINATED : Z := 487.
Definition PJSIP_SC_NOT_ACCEPTABLE_HERE : Z := 488.
Definition PJSIP_SC_REQUEST_PENDING : Z := 491.
Definition PJSIP_SC_TSX_TRANSPORT_ERROR : Z := 503.
Definition PJSIP_SC_NOT_ACCEPTABLE : Z := 406.
Definition PJSIP_SC_UNSUPPORTED_URI_SCHEME : Z := 416.
Definition PJSIP_INV_ACCEPT_UNKNOWN_BODY : bool := false.

(** ** Methods *)

Record pjsip_method := mk_method { m_id : pjsip_method_e; m_name : list Z }.

Definition pjsip_invite_method : pjsip_method := mk_method PJSIP_INVITE_METHOD (lit "INVITE").
Definition pjsip_cancel_method : pjsip_method := mk_method PJSIP_CANCEL_METHOD (lit "CANCEL").
Definition pjsip_ack_method : pjsip_method := mk_method PJSIP_ACK_METHOD (lit "ACK").
Definition pjsip_bye_method : pjsip_method := mk_method PJSIP_BYE_METHOD (lit "BYE").
Definition pjsip_update_method : pjsip_method := mk_method PJSIP_OTHER_METHOD (lit "UPDATE").
Definition pjsip_prack_method : pjsip_method := mk_method PJSIP_OTHER_METHOD (lit "PRACK").

(** pjsip_method_cmp() == 0 *)
Definition pjsip_method_cmp `{PjString} (m1 m2 : pjsip_method) : bool :=
  bool_decide (m_id m1 = m_id m2) &&
  (negb (bool_decide (m_id m1 = PJSIP_OTHER_METHOD)) || (pj_strcmp (m_name m1) (m_name m2) =? 0)).

Section Data.
Context {N : Negotiator}.

(** ** Messages *)

(** A body with its content type, what the SDP parser makes of its data (an error or a
    description), and the same of its application/sdp part when it is a multipart. *)
Record pjsip_msg_body := mk_body {
  b_type : list Z; b_subtype : list Z; b_data : Z + sdp; b_sdp_part : option (Z + sdp)
}.

Inductive pjsip_msg_line := Req (m : pjsip_method) | Rsp (code : Z).

Inductive pjsip_hdr :=
  | H_allow (values : list (list Z)) | H_supported (values : list (list Z)) | H_require (values : list (list Z))
  | H_unsupported (values : list (list Z)) | H_accept (values : list (list Z)) | H_warning (code : Z) (text : list Z)
  | H_warning_status (status : Z) | H_retry_after (seconds : Z) | H_other (id : Z).

(** A message to send.  An address is the key of its table.  [td_branch] is the branch of
    its Via header, [td_to] the URI and the tag of its To header. *)
Record pjsip_tx_data := mk_tdata {
  td_line : pjsip_msg_line;
  td_uri : option pjsip_uri;
  td_cseq : Z;
  td_to : option pjsip_uri * list Z;
  td_branch : list Z;
  td_body : option pjsip_msg_body;
  td_hdrs : list pjsip_hdr;
  td_ref : Z;
  td_is_pending : bool
}.

(** The top Record-Route header, and the header lists the session looks at *)
Record pjsip_rx_data := mk_rdata {
  rd_line : pjsip_msg_line;
  rd_uri : option pjsip_uri;
  rd_cseq : Z;
  rd_cseq_method : pjsip_method;
  rd_to_tag : list Z;
  rd_ctype : option (list Z * list Z);
  rd_body : option pjsip_msg_body;
  rd_contacts : list pjsip_contact;
  rd_record_route : option pjsip_uri;
  rd_allow : option (list (list Z));
  rd_supported : option (list (list Z));
  rd_require : option (list (list Z));
  rd_tsx : Z                       (* pjsip_rdata_get_tsx() *)
}.

Definition msg_status (l : pjsip_msg_line) : Z := match l with Rsp code => code | Req _ => 0 end.

(** ** Transactions as the session sees them *)

Record tsx_inv_data := mk_tsx_inv_data {
  sdp_done : bool; retrying : bool; done_tag : list Z; done_early : bool; has_sdp : bool
}.

Record inv_tsx := mk_inv_tsx {
  t_role : pjsip_role_e;
  t_method : pjsip_method;
  t_state : pjsip_tsx_state_e;
  t_status : Z;
  t_cseq : Z;
  t_last_tx : option Z;
  t_data : option tsx_inv_data     (* mod_data[mod_inv.mod.id] *)
}.

(** The source of a state change *)
Inductive tsx_src := Src_rx_msg (rdata : pjsip_rx_data) | Src_tx_msg | Src_timer | Src_transport_error | Src_user.

Record tsx_event := mk_event { e_tsx : Z; e_src : tsx_src; e_prev : pjsip_tsx_state_e }.

Inductive pjsip_event := Ev_tsx_state (e : tsx_event) | Ev_rx_msg (rdata : pjsip_rx_data) | Ev_tx_msg (td : Z) | Ev_user.

(** ** The session *)

Inductive cause_reason := Reason_none | Reason_normal | Reason_text (text : list Z) | Reason_status (code : Z) | Reason_tsx (t : Z).

Record pjsip_inv_session := mk_inv {
  i_state : pjsip_inv_state;
  i_cancelling : bool;
  i_pending_cancel : bool;
  i_pending_bye : option Z;
  i_cause : Z;
  i_cause_text : cause_reason;
  i_notify : bool;
  i_cb_called : Z;
  i_role : pjsip_role_e;
  i_options : Z;
  i_neg : option neg;
  i_sdp_neg_flags : Z;   (* bit 0: PJMEDIA_SDP_NEG_ALLOW_MEDIA_CHANGE *)
  i_invite_tsx : option Z;
  i_invite_req : option Z;
  i_last_answer : option Z;
  i_last_ack : option Z;
  i_last_ack_cseq : Z;
  i_following_fork : bool;
  i_ref_cnt : option Z   (* NULL after the session is destroyed *)
}.

Definition set_i_state (v : pjsip_inv_state) (i : pjsip_inv_session) : pjsip_inv_session :=
  mk_inv v (i_cancelling i) (i_pending_cancel i) (i_pending_bye i) (i_cause i) (i_cause_text i) (i_notify i)
    (i_cb_called i) (i_role i) (i_options i) (i_neg i) (i_sdp_neg_flags i) (i_invite_tsx i) (i_invite_req i)
    (i_last_answer i) (i_last_ack i) (i_last_ack_cseq i) (i_following_fork i) (i_ref_cnt i).
Definition set_i_cancelling (v : bool) (i : pjsip_inv_session) : pjsip_inv_session :=
  mk_inv (i_state i) v (i_pending_cancel i) (i_pending_bye i) (i_cause i) (i_cause_text i) (i_notify i)
    (i_cb_called i) (i_role i) (i_options i) (i_neg i) (i_sdp_neg_flags i) (i_invite_tsx i) (i_invite_req i)
    (i_last_answer i) (i_last_ack i) (i_last_ack_cseq i) (i_following_fork i) (i_ref_cnt i).
Definition set_i_pending_cancel (v : bool) (i : pjsip_inv_session) : pjsip_inv_session :=
  mk_inv (i_state i) (i_cancelling i) v (i_pending_bye i) (i_cause i) (i_cause_text i) (i_notify i)
    (i_cb_called i) (i_role i) (i_options i) (i_neg i) (i_sdp_neg_flags i) (i_invite_tsx i) (i_invite_req i)
    (i_last_answer i) (i_last_ack i) (i_last_ack_cseq i) (i_following_fork i) (i_ref_cnt i).
Definition set_i_pending_bye (v : option Z) (i : pjsip_inv_session) : pjsip_inv_session :=
  mk_inv (i_state i) (i_cancelling i) (i_pending_cancel i) v (i_cause i) (i_cause_text i) (i_notify i)
    (i_cb_called i) (i_role i) (i_options i) (i_neg i) (i_sdp_neg_flags i) (i_invite_tsx i) (i_invite_req i)
    (i_last_answer i) (i_last_ack i) (i_last_ack_cseq i) (i_following_fork i) (i_ref_cnt i).
Definition set_i_cause (v : Z) (i : pjsip_inv_session) : pjsip_inv_session :=
  mk_inv (i_state i) (i_cancelling i) (i_pending_cancel i) (i_pending_bye i) v (i_cause_text i) (i_notify i)
    (i_cb_called i) (i_role i) (i_options i) (i_neg i) (i_sdp_neg_flags i) (i_invite_tsx i) (i_invite_req i)
    (i_last_answer i) (i_last_ack i) (i_last_ack_cseq i) (i_following_fork i) (i_ref_cnt i).
Definition set_i_cause_text (v : cause_reason) (i : pjsip_inv_session) : pjsip_inv_session :=
  mk_inv (i_state i) (i_cancelling i) (i_pending_cancel i) (i_pending_bye i) (i_cause i) v (i_notify i)
    (i_cb_called i) (i_role i) (i_options i) (i_neg i) (i_sdp_neg_flags i) (i_invite_tsx i) (i_invite_req i)
    (i_last_answer i) (i_last_ack i) (i_last_ack_cseq i) (i_following_fork i) (i_ref_cnt i).
Definition set_i_notify (v : bool) (i : pjsip_inv_session) : pjsip_inv_session :=
  mk_inv (i_state i) (i_cancelling i) (i_pending_cancel i) (i_pending_bye i) (i_cause i) (i_cause_text i) v
    (i_cb_called i) (i_role i) (i_options i) (i_neg i) (i_sdp_neg_flags i) (i_invite_tsx i) (i_invite_req i)
    (i_last_answer i) (i_last_ack i) (i_last_ack_cseq i) (i_following_fork i) (i_ref_cnt i).
Definition set_i_cb_called (v : Z) (i : pjsip_inv_session) : pjsip_inv_session :=
  mk_inv (i_state i) (i_cancelling i) (i_pending_cancel i) (i_pending_bye i) (i_cause i) (i_cause_text i)
    (i_notify i) v (i_role i) (i_options i) (i_neg i) (i_sdp_neg_flags i) (i_invite_tsx i) (i_invite_req i)
    (i_last_answer i) (i_last_ack i) (i_last_ack_cseq i) (i_following_fork i) (i_ref_cnt i).
Definition set_i_options (v : Z) (i : pjsip_inv_session) : pjsip_inv_session :=
  mk_inv (i_state i) (i_cancelling i) (i_pending_cancel i) (i_pending_bye i) (i_cause i) (i_cause_text i)
    (i_notify i) (i_cb_called i) (i_role i) v (i_neg i) (i_sdp_neg_flags i) (i_invite_tsx i) (i_invite_req i)
    (i_last_answer i) (i_last_ack i) (i_last_ack_cseq i) (i_following_fork i) (i_ref_cnt i).
Definition set_i_neg (v : option neg) (i : pjsip_inv_session) : pjsip_inv_session :=
  mk_inv (i_state i) (i_cancelling i) (i_pending_cancel i) (i_pending_bye i) (i_cause i) (i_cause_text i)
    (i_notify i) (i_cb_called i) (i_role i) (i_options i) v (i_sdp_neg_flags i) (i_invite_tsx i) (i_invite_req
    i) (i_last_answer i) (i_last_ack i) (i_last_ack_cseq i) (i_following_fork i) (i_ref_cnt i).
Definition set_i_invite_tsx (v : option Z) (i : pjsip_inv_session) : pjsip_inv_session :=
  mk_inv (i_state i) (i_cancelling i) (i_pending_cancel i) (i_pending_bye i) (i_cause i) (i_cause_text i)
    (i_notify i) (i_cb_called i) (i_role i) (i_options i) (i_neg i) (i_sdp_neg_flags i) v (i_invite_req i)
    (i_last_answer i) (i_last_ack i) (i_last_ack_cseq i) (i_following_fork i) (i_ref_cnt i).
Definition set_i_invite_req (v : option Z) (i : pjsip_inv_session) : pjsip_inv_session :=
  mk_inv (i_state i) (i_cancelling i) (i_pending_cancel i) (i_pending_bye i) (i_cause i) (i_cause_text i)
    (i_notify i) (i_cb_called i) (i_role i) (i_options i) (i_neg i) (i_sdp_neg_flags i) (i_invite_tsx i) v
    (i_last_answer i) (i_last_ack i) (i_last_ack_cseq i) (i_following_fork i) (i_ref_cnt i).
Definition set_i_last_answer (v : option Z) (i : pjsip_inv_session) : pjsip_inv_session :=
  mk_inv (i_state i) (i_cancelling i) (i_pending_cancel i) (i_pending_bye i) (i_cause i) (i_cause_text i)
    (i_notify i) (i_cb_called i) (i_role i) (i_options i) (i_neg i) (i_sdp_neg_flags i) (i_invite_tsx i)
    (i_invite_req i) v (i_last_ack i) (i_last_ack_cseq i) (i_following_fork i) (i_ref_cnt i).
Definition set_i_last_ack (v : option Z) (i : pjsip_inv_session) : pjsip_inv_session :=
  mk_inv (i_state i) (i_cancelling i) (i_pending_cancel i) (i_pending_bye i) (i_cause i) (i_cause_text i)
    (i_notify i) (i_cb_called i) (i_role i) (i_options i) (i_neg i) (i_sdp_neg_flags i) (i_invite_tsx i)
    (i_invite_req i) (i_last_answer i) v (i_last_ack_cseq i) (i_following_fork i) (i_ref_cnt i).
Definition set_i_last_ack_cseq (v : Z) (i : pjsip_inv_session) : pjsip_inv_session :=
  mk_inv (i_state i) (i_cancelling i) (i_pending_cancel i) (i_pending_bye i) (i_cause i) (i_cause_text i)
    (i_notify i) (i_cb_called i) (i_role i) (i_options i) (i_neg i) (i_sdp_neg_flags i) (i_invite_tsx i)
    (i_invite_req i) (i_last_answer i) (i_last_ack i) v (i_following_fork i) (i_ref_cnt i).
Definition set_i_following_fork (v : bool) (i : pjsip_inv_session) : pjsip_inv_session :=
  mk_inv (i_state i) (i_cancelling i) (i_pending_cancel i) (i_pending_bye i) (i_cause i) (i_cause_text i)
    (i_notify i) (i_cb_called i) (i_role i) (i_options i) (i_neg i) (i_sdp_neg_flags i) (i_invite_tsx i)
    (i_invite_req i) (i_last_answer i) (i_last_ack i) (i_last_ack_cseq i) v (i_ref_cnt i).
Definition set_i_ref_cnt (v : option Z) (i : pjsip_inv_session) : pjsip_inv_session :=
  mk_inv (i_state i) (i_cancelling i) (i_pending_cancel i) (i_pending_bye i) (i_cause i) (i_cause_text i)
    (i_notify i) (i_cb_called i) (i_role i) (i_options i) (i_neg i) (i_sdp_neg_flags i) (i_invite_tsx i)
    (i_invite_req i) (i_last_answer i) (i_last_ack i) (i_last_ack_cseq i) (i_following_fork i) v.

(** The dialog: the remote URI and tag, the targets, and the CSeq of the next request *)
Record pjsip_dialog := mk_dlg {
  d_role : pjsip_role_e;
  d_remote_uri : option pjsip_uri;
  d_remote_tag : list Z;
  d_secure : bool;
  d_established : bool;
  d_cseq : Z;
  d_inv_hdr : list pjsip_hdr;
  d_add_allow : bool;
  d_contact : Z;
  d_targets : pjsip_target_set;
  d_sessions : Z                   (* the counter of pjsip_dlg_inc_session *)
}.

(** ** What other parts answer and do *)

(** A state change of a transaction, with the To tag the dialog takes from the message *)
Record tsx_upd := mk_upd {
  u_state : pjsip_tsx_state_e; u_status : Z; u_src : tsx_src; u_remote_tag : option (list Z)
}.

(** The functions of the session, as they are called from outside of it.  A contact that
    is given is parsed, which may fail. *)
Inductive api_call :=
  | Api_set_local_sdp (s : sdp)
  | Api_set_sdp_answer (s : sdp)
  | Api_initial_answer (rdata : pjsip_rx_data) (code : Z) (s : option sdp)
  | Api_answer (code : Z) (s : option sdp)
  | Api_end_session (code : Z)
  | Api_cancel_reinvite
  | Api_send_msg (td : Z)
  | Api_terminate (code : Z) (notify : bool)
  | Api_uac_restart (new_offer : bool)
  | Api_process_redirect (op : pjsip_redirect_op)
  | Api_invite
  | Api_reinvite (contact : option (option Z)) (s : option sdp)
  | Api_update (contact : option (option Z)) (s : option sdp)
  | Api_create_ack (cseq : Z)
  | Api_add_ref
  | Api_dec_ref.

(** A status, a SIP status code, and a number for what else an answer says *)
Record answer := mk_answer {
  a_status : Z;
  a_code : Z;
  a_sel : Z;
  a_sdp : option sdp;
  a_op : pjsip_redirect_op;
  a_upds : list tsx_upd;
  a_calls : list api_call
}.

Definition no_answer : answer := mk_answer PJ_SUCCESS 200 0 None PJSIP_REDIRECT_REJECT [] [].

(** What a session is driven by *)
Inductive input := In_tsx (t : Z) (u : tsx_upd) | In_call (c : api_call).

(** ** Calls out of the session *)

Inductive effect :=
  | E_set_state (prev new : pjsip_inv_state)
  | E_on_state_changed (s : pjsip_inv_state)
  | E_on_tsx_state_changed (t : Z)
  | E_on_media_update (status : Z)
  | E_on_rx_offer
  | E_on_rx_reinvite
  | E_on_send_ack
  | E_on_create_offer
  | E_on_redirected (key : Z)
  | E_create_cancel (tsx_status : Z)
  | E_send_request (td : Z) (m : pjsip_method) (role : pjsip_role_e) (s : pjsip_inv_state) (cause : Z)
  | E_send_response (t : Z) (code : Z)
  | E_tsx_terminate (t : Z) (code : Z)
  | E_tsx_set_timeout (t : Z)
  | E_100rel_end | E_timer_end | E_destroy.

Record world := mk_world {
  w_inv : pjsip_inv_session;
  w_dlg : pjsip_dialog;
  w_tsxs : gmap Z inv_tsx;
  w_tds : gmap Z pjsip_tx_data;
  w_next : Z;                      (* the next free address *)
  w_oracle : list answer;
  w_log : list effect
}.

(** ** The monad *)

(** Where an operation does not return, one name for each place: pjmedia_sdp_neg_modify_local_offer2
    or pjmedia_sdp_neg_negotiate leaves the program; a NULL pointer is used, of
    - the data of the transaction in inv_has_pending_answer, in process_answer, and of a failed
      re-INVITE,
    - the last message and its body in inv_check_sdp_in_incoming_msg (another fork's answer),
    - the INVITE transaction in process_answer, pjsip_inv_end_session, pjsip_inv_send_msg,
      pjsip_100rel_tx_response, after a BYE in state EARLY, and after an ACK in time,
    - the last ACK where pjsip_inv_create_ack sets its body and takes its reference, and where
      inv_send_ack sends it,
    - the INVITE and the target of a redirection,
    - the 500 to an UPDATE that could not be made,
    - the last message of a transaction in state NULL, of the INVITE to cancel, and of a request
      to send again with credentials;
    an address holds no object; a message is read from an event that has none; calls nest
    deeper than the fuel. *)
Inductive crash :=
  | Crash_modify_offer | Crash_negotiate
  | Crash_ack_data | Crash_answer_data | Crash_reinvite_data
  | Crash_fork_last_tx | Crash_fork_body
  | Crash_answer_tsx | Crash_end_tsx | Crash_send_tsx | Crash_100rel_tsx | Crash_early_bye_tsx | Crash_ack_tsx
  | Crash_ack_body | Crash_ack_ref | Crash_ack_send
  | Crash_redirect_invite | Crash_redirect_target
  | Crash_update_response
  | Crash_null_last_tx | Crash_cancel_last_tx | Crash_auth_last_tx
  | Crash_dangling | Crash_event | Crash_fuel.

(** The world is the one at that place. *)
Inductive result (A : Type) := Ok (x : A) (w : world) | Crash (c : crash) (w : world).
Arguments Ok {A} x w.
Arguments Crash {A} c w.

Definition M (A : Type) : Type := world -> result A.

Definition ret {A} (x : A) : M A := fun w => Ok x w.
Definition bind {A B} (m : M A) (f : A -> M B) : M B := fun w =>
  match m w with Ok x w' => f x w' | Crash c w' => Crash c w' end.
Definition stop {A} (c : crash) : M A := fun w => Crash c w.
End Data.

Arguments Ok {N A} x w.
Arguments Crash {N A} c w.

Declare Scope inv_scope.
Notation "x ← y ; z" := (bind y (fun x => z))
  (at level 20, y at level 100, z at level 200, only parsing) : inv_scope.
Notation "x ;; z" := (bind x (fun _ => z))
  (at level 100, z at level 200, only parsing, right associativity) : inv_scope.
#[global] Open Scope inv_scope.
