(* ===== verification/InvNeg.v ===== *)
(** * INVITE sessions: the negotiator of SdpNeg.v keeps the promises a session relies on *)

From S2P Require Import Prelude Hash PjStr Sdp SdpNeg SdpProps SdpMachine InvData.

Section Instance.
Context {Str : PjString} (maxulong : Z) (run_cb : Z -> pjmedia_sdp_neg_fmt_match_cb) (cbs : fmt_match_cbs).

Lemma do_call_wf c n st n' : neg_ok n -> do_call maxulong run_cb cbs c n = Some (st, n') -> neg_ok n'.
Proof. intros H E. pose proof (do_call_ok maxulong run_cb cbs c n H) as K. by rewrite E in K. Qed.

Lemma create_local_wf s st n : pjmedia_sdp_neg_create_w_local_offer maxulong s = (st, Some n) -> neg_ok n.
Proof. intros E. apply (neg_reachable_ok maxulong run_cb cbs). by eapply reach_local. Qed.

Lemma create_remote_wf i r st n : pjmedia_sdp_neg_create_w_remote_offer maxulong i r = (st, Some n) -> neg_ok n.
Proof. intros E. apply (neg_reachable_ok maxulong run_cb cbs). by eapply reach_remote. Qed.

Lemma create_remote_made i r : (pjmedia_sdp_neg_create_w_remote_offer maxulong i r).1 = PJ_SUCCESS ->
  is_Some (pjmedia_sdp_neg_create_w_remote_offer maxulong i r).2.
Proof.
  unfold pjmedia_sdp_neg_create_w_remote_offer. destruct (Z.eqb_spec (pjmedia_sdp_validate2 maxulong r false) PJ_SUCCESS); [|done].
  destruct i as [i|]; [|by eexists]. destruct (Z.eqb_spec (pjmedia_sdp_validate maxulong i) PJ_SUCCESS); [by eexists|done].
Qed.

Lemma send_offer_wf n : neg_ok n -> neg_ok (pjmedia_sdp_neg_send_local_offer n).2.
Proof.
  intros H. destruct (pjmedia_sdp_neg_send_local_offer n) as [[st o] n'] eqn:E.
  apply (do_call_wf Send_offer n st n' H). cbn. by rewrite E.
Qed.

Lemma pure_call_wf c n (r : Z * pjmedia_sdp_neg) :
  do_call maxulong run_cb cbs c n = Some r -> neg_ok n -> neg_ok r.2.
Proof. intros E H. destruct r as [st n']. by apply (do_call_wf c n st n' H). Qed.

Lemma negotiate_done n st n' : neg_ok n -> n_state n = PJMEDIA_SDP_NEG_STATE_WAIT_NEGO ->
  pjmedia_sdp_neg_negotiate maxulong run_cb cbs n false = Some (st, n') -> n_state n' = PJMEDIA_SDP_NEG_STATE_DONE.
Proof.
  intros [H _] Es. rewrite Es in H. destruct H as (_ & [r Er] & _). unfold pjmedia_sdp_neg_negotiate.
  rewrite Es, Er. cbn. destruct (run_negotiation _ _ _ n r false) as [[[s a] b]|]; cbn; [|done].
  intros E. by injection E as _ <-.
Qed.

(** The negotiator as a session uses it *)
Definition session_negotiator : Negotiator :=
  {| sdp := pjmedia_sdp_session; neg := pjmedia_sdp_neg; neg_state_of := n_state;
     neg_has_local_answer := pjmedia_sdp_neg_has_local_answer;
     neg_validate := pjmedia_sdp_validate maxulong;
     neg_validate2 := fun s => pjmedia_sdp_validate2 maxulong s false;
     neg_create_w_local_offer := pjmedia_sdp_neg_create_w_local_offer maxulong;
     neg_create_w_remote_offer := pjmedia_sdp_neg_create_w_remote_offer maxulong;
     neg_get_neg_local := pjmedia_sdp_neg_get_neg_local;
     neg_get_neg_remote := pjmedia_sdp_neg_get_neg_remote;
     neg_get_active_local := pjmedia_sdp_neg_get_active_local;
     neg_modify_local_offer2 := pjmedia_sdp_neg_modify_local_offer2 maxulong;
     neg_send_local_offer := pjmedia_sdp_neg_send_local_offer;
     neg_set_remote_answer := pjmedia_sdp_neg_set_remote_answer;
     neg_set_remote_offer := pjmedia_sdp_neg_set_remote_offer;
     neg_set_local_answer := pjmedia_sdp_neg_set_local_answer;
     neg_cancel_offer := pjmedia_sdp_neg_cancel_offer;
     neg_negotiate := fun n => pjmedia_sdp_neg_negotiate maxulong run_cb cbs n false;
     neg_wf := neg_ok;
     neg_create_local_wf := create_local_wf;
     neg_create_remote_wf := create_remote_wf;
     neg_create_remote_made := create_remote_made;
     neg_modify_wf := fun n b s st n' H E => do_call_wf (Modify_offer b s) n st n' H E;
     neg_send_wf := send_offer_wf;
     neg_remote_answer_wf := fun n s H => pure_call_wf (Remote_answer s) n _ eq_refl H;
     neg_remote_offer_wf := fun n s H => pure_call_wf (Remote_offer s) n _ eq_refl H;
     neg_local_answer_wf := fun n s H => pure_call_wf (Local_answer s) n _ eq_refl H;
     neg_cancel_wf := fun n H => pure_call_wf Cancel n _ eq_refl H;
     neg_negotiate_wf := fun n st n' H E => do_call_wf (Negotiate false) n st n' H E;
     neg_negotiate_done := negotiate_done |}.
End Instance.
