(* ===== verification/InvExt.v ===== *)
(** * INVITE sessions: the calls to other parts of the stack

    Access to the state, and the functions of the dialog, the transactions, 100rel, the
    session timers and the authentication that sip_inv.c calls.  Each takes its answer from
    the oracle and does to messages and transactions what its documentation says. *)

From Stdlib Require Strings.String.
From S2P Require Import Prelude SipTypes PjStr Sdp SdpNeg SipTargets InvData.
Import Strings.String.StringSyntax.

Section Ext.
Context {N : Negotiator}.

(** ** Access to the state *)

Definition skip : M unit := ret tt.
Definition when (b : bool) (m : M unit) : M unit := if b then m else skip.

Definition get {A} (f : pjsip_inv_session -> A) : M A := fun w => Ok (f (w_inv w)) w.
Definition put (f : pjsip_inv_session -> pjsip_inv_session) : M unit := fun w =>
  Ok tt (mk_world (f (w_inv w)) (w_dlg w) (w_tsxs w) (w_tds w) (w_next w) (w_oracle w) (w_log w)).
Definition dlg {A} (f : pjsip_dialog -> A) : M A := fun w => Ok (f (w_dlg w)) w.
Definition dlg_put (f : pjsip_dialog -> pjsip_dialog) : M unit := fun w =>
  Ok tt (mk_world (w_inv w) (f (w_dlg w)) (w_tsxs w) (w_tds w) (w_next w) (w_oracle w) (w_log w)).
Definition log (e : effect) : M unit := fun w =>
  Ok tt (mk_world (w_inv w) (w_dlg w) (w_tsxs w) (w_tds w) (w_next w) (w_oracle w) (w_log w ++ [e])).

(** The next answer of the oracle *)
Definition ask : M answer := fun w =>
  Ok (hd no_answer (w_oracle w))
     (mk_world (w_inv w) (w_dlg w) (w_tsxs w) (w_tds w) (w_next w) (tl (w_oracle w)) (w_log w)).

Definition tsx_get (t : Z) : M inv_tsx := fun w =>
  match w_tsxs w !! t with Some x => Ok x w | None => Crash Crash_dangling w end.
Definition tsx_put (t : Z) (f : inv_tsx -> inv_tsx) : M unit := fun w =>
  match w_tsxs w !! t with
  | Some x => Ok tt (mk_world (w_inv w) (w_dlg w) (<[t := f x]> (w_tsxs w)) (w_tds w) (w_next w) (w_oracle w) (w_log w))
  | None => Crash Crash_dangling w
  end.
Definition tsx_new (x : inv_tsx) : M Z := fun w =>
  Ok (w_next w)
     (mk_world (w_inv w) (w_dlg w) (<[w_next w := x]> (w_tsxs w)) (w_tds w) (w_next w + 1) (w_oracle w) (w_log w)).

Definition td_get (td : Z) : M pjsip_tx_data := fun w =>
  match w_tds w !! td with Some d => Ok d w | None => Crash Crash_dangling w end.
Definition td_put (td : Z) (f : pjsip_tx_data -> pjsip_tx_data) : M unit := fun w =>
  match w_tds w !! td with
  | Some d => Ok tt (mk_world (w_inv w) (w_dlg w) (w_tsxs w) (<[td := f d]> (w_tds w)) (w_next w) (w_oracle w) (w_log w))
  | None => Crash Crash_dangling w
  end.
Definition td_new (d : pjsip_tx_data) : M Z := fun w =>
  Ok (w_next w)
     (mk_world (w_inv w) (w_dlg w) (w_tsxs w) (<[w_next w := d]> (w_tds w)) (w_next w + 1) (w_oracle w) (w_log w)).

(** A pointer that the code dereferences *)
Definition deref {A} (c : crash) (p : option A) : M A := match p with Some x => ret x | None => stop c end.

Definition is_some {A} (p : option A) : bool := match p with Some _ => true | None => false end.

Fixpoint each {A} (f : A -> M unit) (l : list A) : M unit :=
  match l with [] => skip | x :: l' => f x ;; each f l' end.

(** ** Messages *)

Definition set_td_line l d := mk_tdata l (td_uri d) (td_cseq d) (td_to d) (td_branch d) (td_body d) (td_hdrs d) (td_ref d) (td_is_pending d).
Definition set_td_uri u d := mk_tdata (td_line d) u (td_cseq d) (td_to d) (td_branch d) (td_body d) (td_hdrs d) (td_ref d) (td_is_pending d).
Definition set_td_cseq c d := mk_tdata (td_line d) (td_uri d) c (td_to d) (td_branch d) (td_body d) (td_hdrs d) (td_ref d) (td_is_pending d).
Definition set_td_to t d := mk_tdata (td_line d) (td_uri d) (td_cseq d) t (td_branch d) (td_body d) (td_hdrs d) (td_ref d) (td_is_pending d).
Definition set_td_branch b d := mk_tdata (td_line d) (td_uri d) (td_cseq d) (td_to d) b (td_body d) (td_hdrs d) (td_ref d) (td_is_pending d).
Definition set_td_body b d := mk_tdata (td_line d) (td_uri d) (td_cseq d) (td_to d) (td_branch d) b (td_hdrs d) (td_ref d) (td_is_pending d).
Definition set_td_hdrs h d := mk_tdata (td_line d) (td_uri d) (td_cseq d) (td_to d) (td_branch d) (td_body d) h (td_ref d) (td_is_pending d).
Definition set_td_ref r d := mk_tdata (td_line d) (td_uri d) (td_cseq d) (td_to d) (td_branch d) (td_body d) (td_hdrs d) r (td_is_pending d).

Definition pjsip_tx_data_add_ref (td : Z) : M unit := td_put td (fun d => set_td_ref (td_ref d + 1) d).
Definition pjsip_tx_data_dec_ref (td : Z) : M unit := td_put td (fun d => set_td_ref (td_ref d - 1) d).

(** [if (p) { pjsip_tx_data_dec_ref(p); p = NULL; }] *)
Definition drop_ref (f : pjsip_inv_session -> option Z) (clear : pjsip_inv_session -> pjsip_inv_session) : M unit :=
  p ← get f; match p with Some td => pjsip_tx_data_dec_ref td ;; put clear | None => skip end.

Definition add_hdr (td : Z) (h : pjsip_hdr) : M unit := td_put td (fun d => set_td_hdrs (td_hdrs d ++ [h]) d).
Definition set_body (td : Z) (b : option pjsip_msg_body) : M unit := td_put td (set_td_body b).

Definition set_t_data v x := mk_inv_tsx (t_role x) (t_method x) (t_state x) (t_status x) (t_cseq x) (t_last_tx x) v.
Definition set_t_last_tx v x := mk_inv_tsx (t_role x) (t_method x) (t_state x) (t_status x) (t_cseq x) v (t_data x).

(** A field of the session's data of a transaction, when there are such data *)
Definition tsx_data (t : Z) (f : tsx_inv_data -> tsx_inv_data) : M unit := tsx_put t (fun x => set_t_data (f <$> t_data x) x).
Definition mark_sdp_done (t : Z) : M unit :=
  tsx_data t (fun v => mk_tsx_inv_data true (retrying v) (done_tag v) (done_early v) (has_sdp v)).
Definition mark_retrying (t : Z) : M unit :=
  tsx_data t (fun v => mk_tsx_inv_data (sdp_done v) true (done_tag v) (done_early v) (has_sdp v)).

(** ** What happens during a call *)

Definition received (u : tsx_upd) : bool := match u_src u with Src_rx_msg _ => true | _ => false end.

(** The state changes a transaction can go through; for those of a client transaction
    that come with a response, the response is there; a 2xx ends a client INVITE transaction. *)
Definition legal_upd (x : inv_tsx) (u : tsx_upd) : bool :=
  let rx := received u in
  let invite := bool_decide (m_id (t_method x) = PJSIP_INVITE_METHOD) in
  (match u_state u with
   | PJSIP_TSX_STATE_NULL => false
   | PJSIP_TSX_STATE_CALLING => (t_status x <? 100) && (u_status u =? 0) && bool_decide (t_role x = PJSIP_ROLE_UAC)
   | PJSIP_TSX_STATE_TRYING =>
       (t_status x <? 100) && (u_status u =? 0) &&
       match t_role x with PJSIP_ROLE_UAS => rx | PJSIP_ROLE_UAC => negb invite end
   | PJSIP_TSX_STATE_PROCEEDING =>
       (100 <=? u_status u) && (u_status u <? 200) && (rx || bool_decide (t_role x = PJSIP_ROLE_UAS))
   | PJSIP_TSX_STATE_COMPLETED =>
       ((if invite && bool_decide (t_role x = PJSIP_ROLE_UAC) then 300 else 200) <=? u_status u) &&
       (rx || bool_decide (t_role x = PJSIP_ROLE_UAS))
   | PJSIP_TSX_STATE_CONFIRMED => (200 <=? u_status u) && bool_decide (t_role x = PJSIP_ROLE_UAS)
   | PJSIP_TSX_STATE_TERMINATED | PJSIP_TSX_STATE_DESTROYED =>
       (200 <=? u_status u) &&
       (rx || bool_decide (t_role x = PJSIP_ROLE_UAS) ||
        negb invite || negb (Z.quot (u_status u) 100 =? 2))
   end) && (state_num (t_state x) <? 7).

Variable nested : input -> M unit.

(** No message is received during a call: the dialog is locked.  And no INVITE of the peer
    changes state in a session that is restarted. *)

(** An INVITE of the peer while our own one is about to be sent *)
Definition peer_invite (x : inv_tsx) : M bool :=
  s ← get i_state;
  role ← dlg d_role;
  ret (bool_decide (s = PJSIP_INV_STATE_NULL) && bool_decide (role = PJSIP_ROLE_UAC) &&
       bool_decide (t_role x = PJSIP_ROLE_UAS) && bool_decide (m_id (t_method x) = PJSIP_INVITE_METHOD)).

Definition tsx_upd_during (t : Z) (u : tsx_upd) : M unit :=
  x ← tsx_get t;
  peer ← peer_invite x;
  if legal_upd x u && negb (received u) && negb peer then nested (In_tsx t u) else skip.

Definition happen_to (t : Z) (a : answer) : M unit :=
  each (tsx_upd_during t) (a_upds a) ;;
  each (fun c => nested (In_call c)) (a_calls a).
Definition happen (a : answer) : M unit := each (fun c => nested (In_call c)) (a_calls a).

(** A callback of the application *)
Definition callback (e : effect) : M answer := log e ;; a ← ask; happen a ;; ret a.

(** ** The dialog *)

Definition pjsip_dlg_create_request (m : pjsip_method) (cseq : Z) : M (Z * option Z) :=
  a ← ask;
  if a_status a =? PJ_SUCCESS then
    d ← dlg (fun d => d);
    td ← td_new (mk_tdata (Req m) (d_remote_uri d) (if cseq =? -1 then d_cseq d else cseq)
                   (d_remote_uri d, d_remote_tag d) [] None [] 1 false);
    ret (PJ_SUCCESS, Some td)
  else ret (a_status a, None).

Definition pjsip_dlg_create_response (rdata : pjsip_rx_data) (code : Z) : M (Z * option Z) :=
  a ← ask;
  if a_status a =? PJ_SUCCESS then
    td ← td_new (mk_tdata (Rsp code) None (rd_cseq rdata) (None, rd_to_tag rdata) [] None [] 1 false);
    ret (PJ_SUCCESS, Some td)
  else ret (a_status a, None).

Definition pjsip_dlg_modify_response (td code : Z) : M Z :=
  d ← td_get td;
  match td_line d with
  | Req _ => ret 171022                      (* PJSIP_ENOTRESPONSEMSG *)
  | Rsp _ =>
      if (code <? 100) || (699 <? code) then ret PJ_EINVAL
      else td_put td (fun d => set_td_ref (td_ref d + 1) (set_td_line (Rsp code) d)) ;; ret PJ_SUCCESS
  end.

Definition set_d_cseq c d := mk_dlg (d_role d) (d_remote_uri d) (d_remote_tag d) (d_secure d) (d_established d) c
  (d_inv_hdr d) (d_add_allow d) (d_contact d) (d_targets d) (d_sessions d).

(** [a_sel] is the error of pjsip_tsx_create_uac.  An ACK has no transaction. *)
Definition pjsip_dlg_send_request (td : Z) (data : option tsx_inv_data) : M Z :=
  d ← td_get td;
  match td_line d with
  | Rsp _ => ret 171021                      (* PJSIP_ENOTREQUESTMSG *)
  | Req m =>
      i ← get (fun i => i);
      log (E_send_request td m (i_role i) (i_state i) (i_cause i)) ;;
      a ← ask;
      let ack := bool_decide (m_id m = PJSIP_ACK_METHOD) in
      when (negb ack && negb (bool_decide (m_id m = PJSIP_CANCEL_METHOD)))
        (c ← dlg d_cseq; td_put td (set_td_cseq c) ;; dlg_put (set_d_cseq (c + 1))) ;;
      if ack then happen a ;; ret (a_status a)
      else if negb (a_sel a =? 0) then ret (a_sel a)
      else
        d ← td_get td;
        t ← tsx_new (mk_inv_tsx PJSIP_ROLE_UAC m PJSIP_TSX_STATE_NULL 0 (td_cseq d) (Some td) data);
        happen_to t a ;;
        ret (a_status a)
  end.

Definition pjsip_dlg_send_response (t td : Z) : M Z :=
  d ← td_get td;
  match td_line d with
  | Req _ => ret 171022
  | Rsp code =>
      log (E_send_response t code) ;;
      a ← ask;
      tsx_put t (fun x => if bool_decide (t_role x = PJSIP_ROLE_UAS) then set_t_last_tx (Some td) x else x) ;;
      happen_to t a ;;
      ret (a_status a)
  end.

Definition set_d_sessions n d := mk_dlg (d_role d) (d_remote_uri d) (d_remote_tag d) (d_secure d) (d_established d) (d_cseq d)
  (d_inv_hdr d) (d_add_allow d) (d_contact d) (d_targets d) n.
Definition pjsip_dlg_inc_session : M unit := dlg_put (fun d => set_d_sessions (d_sessions d + 1) d).
Definition pjsip_dlg_dec_session : M unit := dlg_put (fun d => set_d_sessions (d_sessions d - 1) d).

(** ** Transactions *)

Definition pjsip_tsx_terminate (t code : Z) : M unit :=
  log (E_tsx_terminate t code) ;;
  x ← tsx_get t;
  when ((200 <=? code) && (state_num (t_state x) <? state_num PJSIP_TSX_STATE_TERMINATED))
    (nested (In_tsx t (mk_upd PJSIP_TSX_STATE_TERMINATED code Src_user None))).

Definition pjsip_tsx_set_timeout (t : Z) : M unit := log (E_tsx_set_timeout t).

(** The CANCEL of the request [last_tx] *)
Definition pjsip_endpt_create_cancel (t : Z) : M (Z * option Z) :=
  x ← tsx_get t;
  last_tx ← deref Crash_cancel_last_tx (t_last_tx x);
  d ← td_get last_tx;
  log (E_create_cancel (t_status x)) ;;
  a ← ask;
  if negb (match td_line d with Req m => bool_decide (m_id m = PJSIP_INVITE_METHOD) | Rsp _ => false end) then ret (PJ_EINVAL, None)
  else if a_status a =? PJ_SUCCESS then
    td ← td_new (mk_tdata (Req pjsip_cancel_method) (td_uri d) (td_cseq d) (td_to d) (td_branch d) None [] 1 false);
    ret (PJ_SUCCESS, Some td)
  else ret (a_status a, None).

(** ** Authentication, 100rel and session timers *)

(** The request is sent again with credentials. *)
Definition pjsip_auth_clt_reinit_req (old : option Z) : M (Z * option Z) :=
  a ← ask;
  if a_status a =? PJ_SUCCESS then
    td ← deref Crash_auth_last_tx old;
    td_put td (fun d => set_td_ref (td_ref d + 1) (set_td_branch [] d)) ;;
    ret (PJ_SUCCESS, Some td)
  else ret (a_status a, None).

(** The response is sent, or kept until the one before it is acknowledged. *)
Definition pjsip_100rel_tx_response (td : Z) : M Z :=
  a ← ask;
  happen a ;;
  if a_sel a =? 0 then
    p ← get i_invite_tsx;
    t ← deref Crash_100rel_tsx p;
    pjsip_dlg_send_response t td
  else ret (a_status a).

Definition pjsip_100rel_create_prack : M (Z * option Z) := pjsip_dlg_create_request pjsip_prack_method (-1).
Definition pjsip_100rel_send_prack (td : Z) : M Z := pjsip_dlg_send_request td None.
Definition pjsip_100rel_on_rx_prack (rdata : pjsip_rx_data) : M Z :=
  a ← ask; happen_to (rd_tsx rdata) a ;; ret (a_status a).

(** The status, and the code of the response to send or of the session's end *)
Definition timer_call : M (Z * Z) := a ← ask; happen a ;; ret (a_status a, a_code a).
Definition pjsip_timer_process_resp (rdata : pjsip_rx_data) : M (Z * Z) := timer_call.
Definition pjsip_timer_process_req (rdata : pjsip_rx_data) : M (Z * Z) := timer_call.
Definition pjsip_timer_update_req (td : Z) : M Z := r ← timer_call; ret r.1.
Definition pjsip_timer_update_resp (td : Z) : M Z := r ← timer_call; ret r.1.
Definition pjsip_timer_handle_refresh_error (e : tsx_event) : M Z := r ← timer_call; ret r.1.
Definition pjsip_timer_end_session : M unit := log E_timer_end.
End Ext.
