(* ===== verification/InvOps.v ===== *)
(** * INVITE sessions: operations (pjsip/src/pjsip-ua/sip_inv.c)

    Session descriptions in messages, answers, the end of a session, sending, and the
    change of state; then the functions for the application. *)

From Stdlib Require Strings.String.
From S2P Require Import Prelude SipTypes PjStr Sdp SdpNeg SipTargets InvData InvExt.
Import Strings.String.StringSyntax.

(** The callbacks the application has set, and the settings the session reads *)
Record inv_callbacks := mk_callbacks {
  cb_on_send_ack : bool; cb_on_tsx_state_changed : bool; cb_on_media_update : bool; cb_on_rx_offer : bool;
  cb_on_rx_reinvite : bool; cb_on_redirected : bool; cb_on_create_offer : bool
}.

Record inv_config := mk_config {
  c_cb : inv_callbacks;
  c_disable_secure_dlg_check : bool;
  c_follow_early_media_fork : bool;
  c_allow : option (list (list Z));          (* capabilities of the endpoint *)
  c_supported : option (list (list Z));
  c_accept : option (list (list Z))
}.

Section Ops.
Context {N : Negotiator} {Str : PjString} (cfg : inv_config).
Context (is_reliable : pjsip_rx_data -> bool)          (* pjsip_100rel_is_reliable *).
Context (uri_cmp : pjsip_uri -> pjsip_uri -> bool).
Variable nested : input -> M unit.

(** ** Session descriptions in messages *)

Definition str_is (s : list Z) (l : list Z) : bool := pj_stricmp s l =? 0.

Definition is_app_sdp (t : list Z * list Z) : bool := str_is t.1 (lit "application") && str_is t.2 (lit "sdp").
Definition is_mixed (subtype : list Z) : bool := str_is subtype (lit "mixed") || str_is subtype (lit "alternative").

Record pjsip_rdata_sdp_info := mk_sdp_info { si_body : bool; si_sdp_err : Z; si_sdp : option sdp }.

Definition parse_sdp_body (data : Z + sdp) : pjsip_rdata_sdp_info :=
  match data with
  | inl st => mk_sdp_info true (if st =? PJ_SUCCESS then PJ_EUNKNOWN else st) None
  | inr s => let st := neg_validate2 s in mk_sdp_info true st (if st =? PJ_SUCCESS then Some s else None)
  end.

(** The parsed body is kept with the message; parsing again would give the same. *)
Definition pjsip_rdata_get_sdp_info (rdata : pjsip_rx_data) : pjsip_rdata_sdp_info :=
  let none := mk_sdp_info false PJ_SUCCESS None in
  match rd_body rdata, rd_ctype rdata with
  | Some body, Some ctype =>
      if is_app_sdp ctype then parse_sdp_body (b_data body)
      else if str_is ctype.1 (lit "multipart") && is_mixed ctype.2 then
        match b_sdp_part body with Some data => parse_sdp_body data | None => none end
      else none
  | _, _ => none
  end.

(** The type of a multipart is compared for being different from "multipart". *)
Definition tx_data_has_sdp (d : pjsip_tx_data) : bool :=
  match td_body d with
  | Some body =>
      if is_app_sdp (b_type body, b_subtype body) then true
      else if negb (str_is (b_type body) (lit "multipart")) && is_mixed (b_subtype body) then is_some (b_sdp_part body)
      else false
  | None => false
  end.

Definition create_sdp_body (s : sdp) : option pjsip_msg_body :=
  Some (mk_body (lit "application") (lit "sdp") (inr s) None).

(** ** Allow and Supported headers *)

Fixpoint remove_val_from_array_hdr (val : list Z) (values : list (list Z)) : list (list Z) :=
  match values with
  | [] => []
  | v :: values' => if str_is v val then values' else v :: remove_val_from_array_hdr val values'
  end.

Definition cleanup_allow (options : Z) (values : list (list Z)) : list (list Z) :=
  if has_option options PJSIP_INV_SUPPORT_100REL then values else remove_val_from_array_hdr (lit "PRACK") values.
Definition cleanup_supported (options : Z) (values : list (list Z)) : list (list Z) :=
  let values := if has_option options PJSIP_INV_SUPPORT_TIMER then values
                else remove_val_from_array_hdr (lit "timer") values in
  if has_option options PJSIP_INV_SUPPORT_100REL then values else remove_val_from_array_hdr (lit "100rel") values.

Fixpoint first_allow (f : list (list Z) -> list (list Z)) (hdrs : list pjsip_hdr) : list pjsip_hdr :=
  match hdrs with
  | [] => []
  | H_allow v :: hdrs' => H_allow (f v) :: hdrs'
  | h :: hdrs' => h :: first_allow f hdrs'
  end.
Fixpoint first_supported (f : list (list Z) -> list (list Z)) (hdrs : list pjsip_hdr) : list pjsip_hdr :=
  match hdrs with
  | [] => []
  | H_supported v :: hdrs' => H_supported (f v) :: hdrs'
  | h :: hdrs' => h :: first_supported f hdrs'
  end.

(** On the headers of a message *)
Definition cleanup_allow_sup_hdr (options : Z) (td : Z) : M unit :=
  td_put td (fun d => set_td_hdrs (first_supported (cleanup_supported options)
                                     (first_allow (cleanup_allow options) (td_hdrs d))) d).

(** ** References *)

Definition pjsip_inv_add_ref : M Z :=
  r ← get i_ref_cnt;
  match r with Some n => put (set_i_ref_cnt (Some (n + 1))) ;; ret PJ_SUCCESS | None => ret PJ_EINVAL end.

Definition inv_session_destroy : M unit :=
  drop_ref i_last_ack (set_i_last_ack None) ;;
  drop_ref i_invite_req (set_i_invite_req None) ;;
  drop_ref i_pending_bye (set_i_pending_bye None) ;;
  log E_100rel_end ;;
  pjsip_timer_end_session ;;
  pjsip_dlg_dec_session ;;
  put (set_i_ref_cnt None) ;;
  log E_destroy.

(** Nothing reads the counter between its last decrement and the end of the destruction. *)
Definition pjsip_inv_dec_ref : M Z :=
  r ← get i_ref_cnt;
  match r with
  | Some n =>
      if n - 1 =? 0 then inv_session_destroy ;; ret PJ_EGONE
      else put (set_i_ref_cnt (Some (n - 1))) ;; ret PJ_SUCCESS
  | None => ret PJ_EINVAL
  end.

(** ** The cause of the end *)

Definition inv_set_cause (cause_code : Z) (text : option cause_reason) : M unit :=
  cause ← get i_cause;
  pending ← get i_pending_bye;
  when ((cause <? cause_code) || is_some pending)
    (put (set_i_cause cause_code) ;;
     put (set_i_cause_text
            (match text with
             | Some t => t
             | None => if Z.quot cause_code 100 =? 2 then Reason_normal else Reason_status cause_code
             end))).

Definition set_cause_of_tsx (t : Z) : M unit := x ← tsx_get t; inv_set_cause (t_status x) (Some (Reason_tsx t)).

(** ** Negotiation *)

Definition neg_state : M pjmedia_sdp_neg_state :=
  n ← get i_neg; ret (match n with Some n => neg_state_of n | None => PJMEDIA_SDP_NEG_STATE_NULL end).
Definition neg_is (s : pjmedia_sdp_neg_state) : M bool := st ← neg_state; ret (bool_decide (st = s)).

Definition neg_set (r : Z * neg) : M Z := put (set_i_neg (Some r.2)) ;; ret r.1.
Definition neg_create (r : Z * option neg) : M Z :=
  match r.2 with Some n => put (set_i_neg (Some n)) | None => skip end ;; ret r.1.
(** Functions of the negotiator refuse NULL. *)
Definition with_neg (f : neg -> M Z) : M Z := n ← get i_neg; match n with Some n => f n | None => ret PJ_EINVAL end.
Definition neg_opt (c : crash) (r : option (Z * neg)) : M Z := match r with Some r => neg_set r | None => stop c end.

Definition cancel_offer : M Z := with_neg (fun n => neg_set (neg_cancel_offer n)).
Definition modify_offer (s : sdp) : M Z :=
  flags ← get i_sdp_neg_flags;
  with_neg (fun n => neg_opt Crash_modify_offer (neg_modify_local_offer2 n (has_option flags 1) s)).

Definition neg_read (f : neg -> Z + sdp) : M (Z + sdp) :=
  n ← get i_neg; ret (match n with Some n => f n | None => inl PJ_EINVAL end).

Definition inv_negotiate_sdp : M Z :=
  w ← neg_is PJMEDIA_SDP_NEG_STATE_WAIT_NEGO;
  if negb w then ret PJMEDIA_SDPNEG_EINSTATE
  else
    status ← with_neg (fun n => neg_opt Crash_negotiate (neg_negotiate n));
    notify ← get i_notify;
    when (cb_on_media_update (c_cb cfg) && notify) (a ← callback nested (E_on_media_update status); skip) ;;
    s ← get i_state;
    cause ← get i_cause;
    if bool_decide (s = PJSIP_INV_STATE_DISCONNECTED) then ret (PJSIP_ERRNO_FROM_SIP_STATUS cause)
    else ret status.

(** The answer to put into an ACK or a PRACK *)
Definition inv_has_pending_answer (t : option Z) : M (option sdp) :=
  n ← get i_neg;
  match n with
  | Some n =>
      if bool_decide (neg_state_of n = PJMEDIA_SDP_NEG_STATE_WAIT_NEGO) && neg_has_local_answer n then
        v ← match t with Some t => x ← tsx_get t; ret (Some (t, t_data x)) | None => ret None end;
        status ← inv_negotiate_sdp;
        if negb (status =? PJ_SUCCESS) then ret None
        else
          match v with Some (t, v) => deref Crash_ack_data v ;; mark_sdp_done t | None => skip end ;;
          r ← neg_read neg_get_active_local;
          ret (match r with inr s => Some s | inl _ => None end)
      else ret None
  | None => ret None
  end.

(** ** An incoming message with a description *)

Definition attach_data (t : Z) (v : tsx_inv_data) : M unit := tsx_put t (set_t_data (Some v)).

(** The offer of the request, for an answer of another fork *)
Definition forked_offer (t : Z) : M Z :=
  x ← tsx_get t;
  last_tx ← deref Crash_fork_last_tx (t_last_tx x);
  d ← td_get last_tx;
  body ← deref Crash_fork_body (td_body d);
  match b_data body with inr s => modify_offer s | inl _ => ret PJ_EINVAL end.

Definition set_following_fork (b : bool) : M unit := put (set_i_following_fork b).

(** The description is an offer. *)
Definition process_sdp_offer (rdata : pjsip_rx_data) (s : sdp) : M Z :=
  n ← get i_neg;
  status ← match n with
           | None => neg_create (neg_create_w_remote_offer None s)
           | Some n => neg_set (neg_set_remote_offer n s)
           end;
  if negb (status =? PJ_SUCCESS) then ret PJMEDIA_SDP_EINSDP
  else
    notify ← get i_notify;
    when (cb_on_rx_offer (c_cb cfg) && notify) (a ← callback nested E_on_rx_offer; skip) ;;
    w ← neg_is PJMEDIA_SDP_NEG_STATE_WAIT_NEGO;
    notify ← get i_notify;
    if negb w then
      match rd_line rdata with
      | Req m => if cb_on_rx_reinvite (c_cb cfg) && notify && bool_decide (m_id m = PJSIP_INVITE_METHOD)
                 then ret PJ_SUCCESS else ret PJ_EINVALIDOP
      | Rsp _ => ret PJ_EINVALIDOP
      end
    else ret PJ_SUCCESS.

(** The description is an answer. *)
Definition process_sdp_answer (t : Z) (rdata : pjsip_rx_data) (s : sdp) : M Z :=
  status ← with_neg (fun n => neg_set (neg_set_remote_answer n s));
  if negb (status =? PJ_SUCCESS) then ret PJMEDIA_SDP_EINSDP
  else
    inv_negotiate_sdp ;;
    tsx_data t (fun v => mk_tsx_inv_data true (retrying v) (rd_to_tag rdata)
                           (Z.quot (msg_status (rd_line rdata)) 100 =? 1) (has_sdp v)) ;;
    ret PJ_SUCCESS.

Definition process_sdp_body (t : Z) (rdata : pjsip_rx_data) (info : pjsip_rdata_sdp_info) : M Z :=
  if negb (si_sdp_err info =? PJ_SUCCESS) then ret PJMEDIA_SDP_EINSDP
  else
    n ← get i_neg;
    st ← neg_state;
    if negb (is_some n) || bool_decide (st = PJMEDIA_SDP_NEG_STATE_DONE) then
      match si_sdp info with Some s => process_sdp_offer rdata s | None => ret PJMEDIA_SDP_EINSDP end
    else if bool_decide (st = PJMEDIA_SDP_NEG_STATE_LOCAL_OFFER) then
      match si_sdp info with Some s => process_sdp_answer t rdata s | None => ret PJMEDIA_SDP_EINSDP end
    else ret PJ_SUCCESS.

(** The exception to one negotiation per transaction: an answer of another fork after
    one in early media *)
Definition from_other_fork (x : inv_tsx) (v : tsx_inv_data) (rdata : pjsip_rx_data) : bool :=
  let st_code := msg_status (rd_line rdata) in
  bool_decide (t_role x = PJSIP_ROLE_UAC) &&
  ((Z.quot st_code 100 =? 2) || ((Z.quot st_code 10 =? 18) && c_follow_early_media_fork cfg)) &&
  done_early v && negb (str_is (done_tag v) (rd_to_tag rdata)).

Definition inv_check_sdp_in_incoming_msg (t : Z) (rdata : pjsip_rx_data) : M Z :=
  match rd_body rdata with
  | None => ret PJ_SUCCESS
  | Some _ =>
      let info := pjsip_rdata_get_sdp_info rdata in
      if negb (si_body info) then ret PJMEDIA_SDP_EINSDP
      else
        x ← tsx_get t;
        let v := match t_data x with
                 | Some v => v
                 | None => mk_tsx_inv_data false false [] false (is_some (si_sdp info))
                 end in
        attach_data t v ;;
        set_following_fork false ;;
        if sdp_done v then
          if from_other_fork x v rdata then
            status ← forked_offer t;
            if negb (status =? PJ_SUCCESS) then ret status
            else set_following_fork true ;; process_sdp_body t rdata info
          else ret PJ_SUCCESS
        else process_sdp_body t rdata info
  end.

(** ** Answers *)

(** The description given by the application *)
Definition use_local_sdp (local_sdp : sdp) : M Z :=
  n ← get i_neg;
  match n with
  | None => neg_create (neg_create_w_local_offer local_sdp)
  | Some n =>
      if bool_decide (neg_state_of n = PJMEDIA_SDP_NEG_STATE_REMOTE_OFFER) then neg_set (neg_set_local_answer n local_sdp)
      else ret PJMEDIA_SDPNEG_EINSTATE
  end.

(** The description to send with an answer of this status *)
Definition answer_sdp (st_code : Z) : M (Z + option sdp) :=
  if (Z.quot st_code 100 =? 2) || ((Z.quot st_code 10 =? 18) && negb (st_code =? 180) && negb (st_code =? 181)) then
    n ← get i_neg;
    match n with
    | Some n =>
        if bool_decide (neg_state_of n = PJMEDIA_SDP_NEG_STATE_LOCAL_OFFER) then
          ret (inr (match neg_get_neg_local n with inr s => Some s | inl _ => None end))
        else if bool_decide (neg_state_of n = PJMEDIA_SDP_NEG_STATE_WAIT_NEGO) && neg_has_local_answer n then
          p ← get i_invite_tsx;
          t ← deref Crash_answer_tsx p;
          x ← tsx_get t;
          status ← inv_negotiate_sdp;
          if negb (status =? PJ_SUCCESS) then ret (inl status)
          else
            v ← deref Crash_answer_data (t_data x);
            mark_sdp_done t ;;
            r ← neg_read neg_get_active_local;
            ret (inr (match r with inr s => Some s | inl _ => None end))
        else ret (inr None)
    | None => ret (inr None)
    end
  else ret (inr None).

Definition process_answer (st_code : Z) (td : Z) (local_sdp : option sdp) : M Z :=
  status ← match local_sdp with
           | Some s => if (Z.quot st_code 100 =? 1) || (Z.quot st_code 100 =? 2) then use_local_sdp s else ret PJ_SUCCESS
           | None => ret PJ_SUCCESS
           end;
  if negb (status =? PJ_SUCCESS) then ret status
  else
    r ← answer_sdp st_code;
    match r with
    | inl status => ret status
    | inr s =>
        options ← get i_options;
        match s with
        | Some s => set_body td (create_sdp_body s)
        | None => when (has_option options PJSIP_INV_REQUIRE_100REL) (set_body td None)
        end ;;
        n ← get i_neg;
        s ← get i_state;
        r ← neg_is PJMEDIA_SDP_NEG_STATE_REMOTE_OFFER;
        when ((300 <=? st_code) && is_some n && bool_decide (s = PJSIP_INV_STATE_CONFIRMED) && r)
          (cancel_offer ;; skip) ;;
        ret PJ_SUCCESS
    end.

Definition save_answer (td : Z) : M unit := put (set_i_last_answer (Some td)) ;; pjsip_tx_data_add_ref td.

Definition pjsip_inv_initial_answer (rdata : pjsip_rx_data) (st_code : Z) (s : option sdp) : M (Z * option Z) :=
  p ← get i_invite_tsx;
  if negb (is_some p) then ret (PJ_EBUG, None)
  else
    r ← pjsip_dlg_create_response rdata st_code;
    match r with
    | (_, Some td) =>
        t ← pjsip_timer_process_req nested rdata;
        if negb (t.1 =? PJ_SUCCESS) then
          status2 ← pjsip_dlg_modify_response td t.2;
          if negb (status2 =? PJ_SUCCESS) then pjsip_tx_data_dec_ref td ;; ret (t.1, None)
          else
            status2 ← pjsip_timer_update_resp nested td;
            if status2 =? PJ_SUCCESS then ret (t.1, Some td) else pjsip_tx_data_dec_ref td ;; ret (t.1, None)
        else
          status ← process_answer st_code td s;
          if negb (status =? PJ_SUCCESS) then pjsip_tx_data_dec_ref td ;; ret (status, None)
          else
            options ← get i_options;
            cleanup_allow_sup_hdr options td ;;
            save_answer td ;;
            pjsip_timer_update_resp nested td ;;
            ret (PJ_SUCCESS, Some td)
    | (status, None) => ret (status, None)
    end.

Definition pjsip_inv_answer (st_code : Z) (local_sdp : option sdp) : M (Z * option Z) :=
  p ← get i_invite_tsx;
  l ← get i_last_answer;
  match p, l with
  | None, _ => ret (PJ_EBUG, None)
  | _, None => ret (PJ_EINVALIDOP, None)
  | Some _, Some last_res =>
      status ← pjsip_dlg_modify_response last_res st_code;
      if negb (status =? PJ_SUCCESS) then ret (status, None)
      else
        when (300 <=? st_code) (set_body last_res None) ;;
        status ← process_answer st_code last_res local_sdp;
        if negb (status =? PJ_SUCCESS) then pjsip_tx_data_dec_ref last_res ;; ret (status, None)
        else
          pjsip_timer_update_resp nested last_res ;;
          options ← get i_options;
          cleanup_allow_sup_hdr options last_res ;;
          ret (PJ_SUCCESS, Some last_res)
  end.

Definition pjsip_inv_set_sdp_answer (s : sdp) : M Z := with_neg (fun n => neg_set (neg_set_local_answer n s)).

Definition pjsip_inv_set_local_sdp (s : sdp) : M Z :=
  n ← get i_neg;
  match n with
  | Some n =>
      let st := neg_state_of n in
      if (bool_decide (st = PJMEDIA_SDP_NEG_STATE_REMOTE_OFFER) || bool_decide (st = PJMEDIA_SDP_NEG_STATE_WAIT_NEGO)) &&
         match neg_get_neg_remote n with inr _ => true | inl _ => false end
      then pjsip_inv_set_sdp_answer s
      else if bool_decide (st = PJMEDIA_SDP_NEG_STATE_DONE) then modify_offer s
      else ret PJMEDIA_SDPNEG_EINSTATE
  | None => neg_create (neg_create_w_local_offer s)
  end.
End Ops.
