(* ===== verification/InvCalls.v ===== *)
(** * INVITE sessions: requests, the state and the functions that end or restart a session
    (pjsip/src/pjsip-ua/sip_inv.c) *)

From Stdlib Require Strings.String.
From S2P Require Import Prelude SipTypes PjStr Sdp SdpNeg SipTargets InvData InvExt InvOps.
Import Strings.String.StringSyntax.

Section Calls.
Context {N : Negotiator} {Str : PjString} (cfg : inv_config).
Context (uri_cmp : pjsip_uri -> pjsip_uri -> bool).
Variable nested : input -> M unit.

(** ** Ending a session *)

(** The CANCEL is delayed until the first provisional response. *)
Definition delay_cancel : M (Z * option Z) :=
  put (set_i_cancelling true) ;; put (set_i_pending_cancel true) ;; ret (PJ_SUCCESS, None).

Definition end_session_done (r : Z * option Z) : M (Z * option Z) :=
  if r.1 =? PJ_SUCCESS then put (set_i_cancelling true) ;; ret r else ret (r.1, None).

Definition pjsip_inv_end_session (st_code : Z) (text : option cause_reason) : M (Z * option Z) :=
  inv_set_cause st_code text ;;
  s ← get i_state;
  match s with
  | PJSIP_INV_STATE_CALLING | PJSIP_INV_STATE_EARLY | PJSIP_INV_STATE_INCOMING =>
      role ← get i_role;
      p ← get i_invite_tsx;
      match role with
      | PJSIP_ROLE_UAC =>
          match p with
          | None => ret (PJ_EBUG, None)
          | Some t =>
              x ← tsx_get t;
              if t_status x <? 100 then delay_cancel
              else
                r ← pjsip_endpt_create_cancel t;
                if negb (r.1 =? PJ_SUCCESS) then ret (r.1, None)
                else pjsip_tsx_set_timeout t ;; end_session_done r
          end
      | PJSIP_ROLE_UAS =>
          t ← deref Crash_end_tsx p;
          x ← tsx_get t;
          if negb (is_some (t_last_tx x)) then ret (PJ_EINVALIDOP, None)
          else r ← pjsip_inv_answer cfg nested st_code None; end_session_done r
      end
  | PJSIP_INV_STATE_CONNECTING | PJSIP_INV_STATE_CONFIRMED =>
      pjsip_timer_end_session ;;
      r ← pjsip_dlg_create_request pjsip_bye_method (-1);
      end_session_done r
  | PJSIP_INV_STATE_DISCONNECTED => ret (PJSIP_ESESSIONTERMINATED, None)
  | PJSIP_INV_STATE_NULL => ret (PJ_EINVALIDOP, None)
  end.

Definition pjsip_inv_cancel_reinvite : M (Z * option Z) :=
  s ← get i_state;
  match s with
  | PJSIP_INV_STATE_CONFIRMED =>
      p ← get i_invite_tsx;
      match p with
      | None => ret (PJ_EBUG, None)
      | Some t =>
          x ← tsx_get t;
          if t_status x <? 100 then delay_cancel else pjsip_endpt_create_cancel t
      end
  | _ => ret (PJ_EINVALIDOP, None)
  end.

(** ** Sending *)

Definition is_method (m : pjsip_method) (id : pjsip_method_e) : bool := bool_decide (m_id m = id).

(** A BYE of the callee waits for the ACK. *)
Definition bye_must_wait (m : pjsip_method) : M bool :=
  role ← get i_role; s ← get i_state; cause ← get i_cause;
  ret (is_method m PJSIP_BYE_METHOD && bool_decide (role = PJSIP_ROLE_UAS) &&
       bool_decide (s = PJSIP_INV_STATE_CONNECTING) &&
       negb (cause =? PJSIP_SC_REQUEST_TIMEOUT) && negb (cause =? PJSIP_SC_TSX_TRANSPORT_ERROR)).

Definition pjsip_inv_send_msg (td : Z) : M Z :=
  d ← td_get td;
  p ← get i_invite_tsx;
  match td_line d with
  | Req m =>
      if is_method m PJSIP_INVITE_METHOD && is_some p then pjsip_tx_data_dec_ref td ;; ret PJ_EINVALIDOP
      else
        wait ← bye_must_wait m;
        if wait then
          old ← get i_pending_bye;
          match old with Some b => pjsip_tx_data_dec_ref b | None => skip end ;;
          put (set_i_pending_bye (Some td)) ;;
          ret PJ_SUCCESS
        else pjsip_dlg_send_request nested td (Some (mk_tsx_inv_data false false [] false (tx_data_has_sdp d)))
  | Rsp _ =>
      t ← deref Crash_send_tsx p;
      x ← tsx_get t;
      if negb (td_cseq d =? t_cseq x) then ret PJ_EINVALIDOP
      else
        options ← get i_options;
        if has_option options PJSIP_INV_REQUIRE_100REL then pjsip_100rel_tx_response nested td
        else pjsip_dlg_send_response nested t td
  end.

(** [if (status == PJ_SUCCESS && tdata) pjsip_inv_send_msg(inv, tdata);] *)
Definition send_created (r : Z * option Z) : M unit :=
  match r with
  | (status, Some td) => when (status =? PJ_SUCCESS) (pjsip_inv_send_msg td ;; skip)
  | (_, None) => skip
  end.

Definition inv_perform_pending_bye : M unit :=
  p ← get i_pending_bye;
  match p with
  | Some bye => put (set_i_pending_bye None) ;; pjsip_inv_send_msg bye ;; skip
  | None => skip
  end.

(** ** The state *)

(** A session must not be confirmed before its negotiation is done. *)
Definition negotiation_incomplete : M bool :=
  p ← get i_invite_tsx;
  done ← match p with
         | Some t => x ← tsx_get t; ret (match t_data x with Some v => sdp_done v | None => true end)
         | None => ret true
         end;
  d ← neg_is PJMEDIA_SDP_NEG_STATE_DONE;
  ret (negb done && negb d).

(** The event is only handed on to the callback. *)
Definition inv_set_state (new : pjsip_inv_state) : M unit :=
  prev ← get i_state;
  called ← get i_cb_called;
  let dont_notify := bool_decide (new = PJSIP_INV_STATE_CALLING) &&
                     has_option called (Z.shiftl 1 (inv_state_num PJSIP_INV_STATE_CALLING)) in
  incomplete ← (if bool_decide (new = PJSIP_INV_STATE_CONFIRMED) then negotiation_incomplete else ret false);
  if incomplete : bool then
    r ← pjsip_inv_end_session PJSIP_SC_NOT_ACCEPTABLE None;
    send_created r
  else
    put (set_i_state new) ;;
    log (E_set_state prev new) ;;
    put (fun i => set_i_cb_called (Z.lor (i_cb_called i) (Z.shiftl 1 (inv_state_num new))) i) ;;
    notify ← get i_notify;
    when (notify && negb dont_notify) (callback nested (E_on_state_changed new) ;; skip) ;;
    s ← get i_state;
    when (bool_decide (s = PJSIP_INV_STATE_DISCONNECTED) && negb (bool_decide (prev = PJSIP_INV_STATE_DISCONNECTED)))
      (pjsip_inv_dec_ref ;; skip).

Definition disconnect (t : Z) : M unit := set_cause_of_tsx t ;; inv_set_state PJSIP_INV_STATE_DISCONNECTED.

Definition handle_timer_response (rdata : pjsip_rx_data) (end_sess_on_failure : bool) : M Z :=
  r ← pjsip_timer_process_resp nested rdata;
  when (negb (r.1 =? PJ_SUCCESS) && end_sess_on_failure)
    (e ← pjsip_inv_end_session r.2 None; send_created e) ;;
  ret r.1.

(** ** Acknowledging a 2xx response *)

Definition pjsip_inv_create_ack (cseq : Z) : M (Z * option Z) :=
  drop_ref i_last_ack (set_i_last_ack None) ;;
  r ← pjsip_dlg_create_request pjsip_ack_method cseq;
  put (set_i_last_ack r.2) ;;
  if negb (r.1 =? PJ_SUCCESS) then ret (r.1, None)
  else
    t ← get i_invite_tsx;
    s ← inv_has_pending_answer cfg nested t;
    match s with
    | Some s => p ← get i_last_ack; ack ← deref Crash_ack_body p; set_body ack (create_sdp_body s)
    | None => skip
    end ;;
    put (set_i_last_ack_cseq cseq) ;;
    p ← get i_last_ack;
    ack ← deref Crash_ack_ref p;
    pjsip_tx_data_add_ref ack ;;
    ret (PJ_SUCCESS, Some ack).

(** The ACK of the last 2xx, unless the transport still works on it *)
Definition cached_ack (cseq : Z) : M (option Z) :=
  p ← get i_last_ack;
  last ← get i_last_ack_cseq;
  match p with
  | Some ack => d ← td_get ack; ret (if (cseq =? last) && negb (td_is_pending d) then Some ack else None)
  | None => ret None
  end.

Definition send_last_ack : M Z :=
  p ← get i_last_ack;
  ack ← deref Crash_ack_send p;
  status ← pjsip_dlg_send_request nested ack None;
  if negb (status =? PJ_SUCCESS) then ret status
  else
    s ← get i_state;
    when (inv_state_num s <? inv_state_num PJSIP_INV_STATE_CONFIRMED) (inv_set_state PJSIP_INV_STATE_CONFIRMED) ;;
    ret PJ_SUCCESS.

Definition event_rdata (e : pjsip_event) : M pjsip_rx_data :=
  match e with
  | Ev_tsx_state e => match e_src e with Src_rx_msg rdata => ret rdata | _ => stop Crash_event end
  | Ev_rx_msg rdata => ret rdata
  | _ => stop Crash_event
  end.

Definition inv_send_ack (e : pjsip_event) : M Z :=
  rdata ← event_rdata e;
  cached ← cached_ack (rd_cseq rdata);
  match cached with
  | Some ack => pjsip_tx_data_add_ref ack ;; send_last_ack
  | None =>
      if cb_on_send_ack (c_cb cfg) then callback nested E_on_send_ack ;; ret PJ_SUCCESS
      else
        r ← pjsip_inv_create_ack (rd_cseq rdata);
        if negb (r.1 =? PJ_SUCCESS) then ret r.1
        else put (set_i_last_ack r.2) ;; send_last_ack
  end.

(** ** Termination and restart *)

Definition pjsip_inv_terminate (st_code : Z) (notify : bool) : M Z :=
  put (set_i_notify notify) ;;
  p ← get i_invite_tsx;
  match p with
  | Some t =>
      x ← tsx_get t;
      when (state_num (t_state x) <=? state_num PJSIP_TSX_STATE_COMPLETED) (pjsip_tsx_terminate nested t st_code)
  | None => skip
  end ;;
  inv_set_cause st_code None ;;
  s ← get i_state;
  when (negb (bool_decide (s = PJSIP_INV_STATE_DISCONNECTED))) (inv_set_state PJSIP_INV_STATE_DISCONNECTED) ;;
  ret PJ_SUCCESS.

Definition pjsip_inv_uac_restart (new_offer : bool) : M Z :=
  put (set_i_state PJSIP_INV_STATE_NULL) ;;
  put (set_i_invite_tsx None) ;;
  drop_ref i_last_answer (set_i_last_answer None) ;;
  l ← neg_is PJMEDIA_SDP_NEG_STATE_LOCAL_OFFER;
  when (new_offer && l) (cancel_offer ;; skip) ;;
  ret PJ_SUCCESS.

(** ** Redirection *)

Definition set_targets ts d := mk_dlg (d_role d) (d_remote_uri d) (d_remote_tag d) (d_secure d) (d_established d) (d_cseq d)
  (d_inv_hdr d) (d_add_allow d) (d_contact d) ts (d_sessions d).
Definition set_remote uri tag secure d := mk_dlg (d_role d) uri tag secure (d_established d) (d_cseq d)
  (d_inv_hdr d) (d_add_allow d) (d_contact d) (d_targets d) (d_sessions d).

Definition targets (f : pjsip_target_set -> pjsip_target_set) : M unit := dlg_put (fun d => set_targets (f (d_targets d)) d).

Definition target_uri (ts : pjsip_target_set) : option pjsip_uri :=
  match ts_current ts with Some k => t_uri <$> List.find (fun t => t_key t =? k) (ts_head ts) | None => None end.

(** The INVITE is sent again, to the current target. *)
Definition redirect_accept (replace : bool) : M Z :=
  p ← get i_invite_req;
  td ← deref Crash_redirect_invite p;
  pjsip_tx_data_add_ref td ;;
  ts ← dlg d_targets;
  uri ← deref Crash_redirect_target (target_uri ts);
  td_put td (fun d => set_td_branch [] (set_td_uri (Some uri) d)) ;;
  when replace
    (td_put td (set_td_to (Some uri, [])) ;;
     dlg_put (set_remote (Some uri) [] (PJSIP_URI_SCHEME_IS_SIPS uri))) ;;
  pjsip_inv_uac_restart false ;;
  pjsip_inv_send_msg td.

Definition disconnect_cancelled : M unit :=
  inv_set_cause PJSIP_SC_REQUEST_TERMINATED (Some (Reason_status PJSIP_SC_REQUEST_TERMINATED)) ;;
  inv_set_state PJSIP_INV_STATE_DISCONNECTED.

(** pjsip_inv_process_redirect for all operations but PJSIP_REDIRECT_REJECT *)
Definition redirect_now (op : pjsip_redirect_op) : M Z :=
  pjsip_dlg_dec_session ;;
  match op with
  | PJSIP_REDIRECT_ACCEPT => redirect_accept false
  | PJSIP_REDIRECT_ACCEPT_REPLACE => redirect_accept true
  | PJSIP_REDIRECT_STOP => disconnect_cancelled ;; ret PJ_SUCCESS
  | _ => ret PJ_SUCCESS
  end.

(** The loop that skips targets which are not SIP *)
Fixpoint next_target (fuel : nat) (ts : pjsip_target_set) : option (option pjsip_target * pjsip_target_set) :=
  match fuel with
  | O => None
  | S fuel =>
      match pjsip_target_set_get_next ts with
      | None => Some (None, ts)
      | Some t =>
          if negb (PJSIP_URI_SCHEME_IS_SIP (t_uri t)) && negb (PJSIP_URI_SCHEME_IS_SIPS (t_uri t)) then
            next_target fuel (pjsip_target_assign_status ts (Some (t_key t)) PJSIP_SC_UNSUPPORTED_URI_SCHEME).2
          else Some (Some t, ts)
      end
  end.

Definition targets_fuel (ts : pjsip_target_set) : nat := S (length (ts_head ts)).

Fixpoint inv_uac_recurse (fuel : nat) (code : Z) : M bool :=
  match fuel with
  | O => stop Crash_fuel
  | S fuel =>
      if negb (cb_on_redirected (c_cb cfg)) then ret false
      else
        targets (fun ts => (pjsip_target_assign_status ts (ts_current ts) code).2) ;;
        ts ← dlg d_targets;
        match next_target (targets_fuel ts) ts with
        | None => stop Crash_fuel
        | Some (None, ts) => targets (fun _ => ts) ;; ret false
        | Some (Some t, ts) =>
            targets (fun _ => (pjsip_target_set_set_current ts (t_key t)).2) ;;
            a ← callback nested (E_on_redirected (t_key t));
            match a_op a with
            | PJSIP_REDIRECT_REJECT => inv_uac_recurse fuel PJSIP_SC_REQUEST_TERMINATED
            | PJSIP_REDIRECT_PENDING => pjsip_dlg_inc_session ;; put (set_i_invite_tsx None) ;; ret true
            | op => pjsip_dlg_inc_session ;; redirect_now op ;; ret true
            end
        end
  end.

(** The fuel is the number of targets, and one. *)
Definition uac_recurse (code : Z) : M bool := ts ← dlg d_targets; inv_uac_recurse (targets_fuel ts) code.

Definition pjsip_inv_process_redirect (op : pjsip_redirect_op) : M Z :=
  match op with
  | PJSIP_REDIRECT_PENDING => ret PJ_EINVAL
  | PJSIP_REDIRECT_REJECT =>
      pjsip_dlg_dec_session ;;
      more ← uac_recurse PJSIP_SC_REQUEST_TERMINATED;
      if more : bool then ret PJ_SUCCESS else disconnect_cancelled ;; ret PJSIP_ESESSIONTERMINATED
  | _ => redirect_now op
  end.

(** ** Requests *)

(** Allow, Supported and Require headers of an INVITE *)
Definition invite_hdrs (options : Z) (add_allow : bool) : list pjsip_hdr :=
  (if add_allow then match c_allow cfg with Some v => [H_allow (cleanup_allow options v)] | None => [] end else []) ++
  (match c_supported cfg with Some v => [H_supported (cleanup_supported options v)] | None => [] end) ++
  let req100 := has_option options PJSIP_INV_REQUIRE_100REL in
  let reqtimer := has_option options PJSIP_INV_REQUIRE_TIMER in
  if req100 || reqtimer then
    [H_require ((if req100 then [lit "100rel"] else []) ++ (if reqtimer then [lit "timer"] else []))]
  else [].

Definition add_hdrs (td : Z) (l : list pjsip_hdr) : M unit := td_put td (fun d => set_td_hdrs (td_hdrs d ++ l) d).

(** The negotiator holds a description to send. *)
Definition invite_has_sdp : M bool :=
  n ← get i_neg;
  ret (match n with
       | Some n => bool_decide (neg_state_of n = PJMEDIA_SDP_NEG_STATE_LOCAL_OFFER) ||
                   (bool_decide (neg_state_of n = PJMEDIA_SDP_NEG_STATE_WAIT_NEGO) && neg_has_local_answer n)
       | None => false
       end).

Definition finish_invite (td : Z) : M (Z * option Z) :=
  options ← get i_options;
  add_allow ← dlg d_add_allow;
  add_hdrs td (invite_hdrs options add_allow) ;;
  status ← pjsip_timer_update_req nested td;
  ret (status, if status =? PJ_SUCCESS then Some td else None).

Definition pjsip_inv_invite : M (Z * option Z) :=
  s ← get i_state;
  if negb (bool_decide (s = PJSIP_INV_STATE_NULL)) && negb (bool_decide (s = PJSIP_INV_STATE_CONFIRMED))
  then ret (PJ_EINVALIDOP, None)
  else
    r ← pjsip_dlg_create_request pjsip_invite_method (-1);
    match r with
    | (status, None) => ret (status, None)
    | (_, Some td) =>
        hdrs ← dlg d_inv_hdr;
        when (bool_decide (s = PJSIP_INV_STATE_NULL)) (add_hdrs td hdrs) ;;
        has ← invite_has_sdp;
        if has : bool then
          offer ← neg_read neg_get_neg_local;
          match offer with
          | inl status => pjsip_tx_data_dec_ref td ;; ret (status, None)
          | inr s => set_body td (create_sdp_body s) ;; finish_invite td
          end
        else finish_invite td
    end.

Definition set_contact c d := mk_dlg (d_role d) (d_remote_uri d) (d_remote_tag d) (d_secure d) (d_established d) (d_cseq d)
  (d_inv_hdr d) (d_add_allow d) c (d_targets d) (d_sessions d).

(** The new offer of a re-INVITE *)
Definition reinvite_offer (s : sdp) : M Z :=
  n ← get i_neg;
  match n with
  | None => neg_create (neg_create_w_local_offer s)
  | Some n =>
      match neg_state_of n with
      | PJMEDIA_SDP_NEG_STATE_NULL => ret PJ_EBUG
      | PJMEDIA_SDP_NEG_STATE_LOCAL_OFFER | PJMEDIA_SDP_NEG_STATE_WAIT_NEGO => ret PJ_SUCCESS
      | PJMEDIA_SDP_NEG_STATE_REMOTE_OFFER => neg_set (neg_set_local_answer n s)
      | PJMEDIA_SDP_NEG_STATE_DONE => modify_offer s
      end
  end.

Definition pjsip_inv_reinvite (contact : option (option Z)) (offer : option sdp) : M (Z * option Z) :=
  p ← get i_invite_tsx;
  if is_some p then ret (PJ_EINVALIDOP, None)
  else
    match contact with
    | Some None => ret (PJSIP_EINVALIDURI, None)
    | _ =>
        status ← match offer with Some s => reinvite_offer s | None => ret PJ_SUCCESS end;
        if negb (status =? PJ_SUCCESS) then ret (status, None)
        else
          match contact with Some (Some c) => dlg_put (set_contact c) | _ => skip end ;;
          pjsip_inv_invite
    end.

(** The offer of an UPDATE, as the negotiator makes it *)
Definition update_offer (offer : option sdp) : M (Z + option sdp) :=
  match offer with
  | None => ret (inr None)
  | Some s =>
      done ← neg_is PJMEDIA_SDP_NEG_STATE_DONE;
      if negb done then ret (inl PJ_EINVALIDOP)
      else
        status ← modify_offer s;
        if negb (status =? PJ_SUCCESS) then ret (inl status)
        else r ← neg_read neg_get_neg_local; ret (inr (match r with inr s => Some s | inl _ => Some s end))
  end.

(** The request, and the headers and the body it gets *)
Definition update_request (offer : option sdp) : M (Z * option Z) :=
  r ← pjsip_dlg_create_request pjsip_update_method (-1);
  match r with
  | (status, None) => ret (status, None)
  | (_, Some td) =>
      match offer with Some s => set_body td (create_sdp_body s) | None => skip end ;;
      options ← get i_options;
      match c_supported cfg with Some v => add_hdr td (H_supported v) | None => skip end ;;
      status ← pjsip_timer_update_req nested td;
      if negb (status =? PJ_SUCCESS) then pjsip_tx_data_dec_ref td ;; ret (status, None)
      else
        td_put td (fun d => set_td_hdrs (first_supported (cleanup_supported options) (td_hdrs d)) d) ;;
        ret (PJ_SUCCESS, Some td)
  end.

Definition pjsip_inv_update (contact : option (option Z)) (offer : option sdp) : M (Z * option Z) :=
  established ← dlg d_established;
  s ← get i_state;
  if negb established then ret (PJ_EINVALIDOP, None)
  else if negb (inv_state_num s <? inv_state_num PJSIP_INV_STATE_DISCONNECTED) then ret (PJ_EINVALIDOP, None)
  else
    o ← update_offer offer;
    match o, contact with
    | inl status, _ => ret (status, None)
    | inr _, Some None => ret (PJSIP_EINVALIDURI, None)
    | inr o, _ =>
        match contact with Some (Some c) => dlg_put (set_contact c) | _ => skip end ;;
        update_request o
    end.
End Calls.
