(* ===== verification/InvHandlers.v ===== *)
(** * INVITE sessions: handlers of requests, responses and transaction states
    (pjsip/src/pjsip-ua/sip_inv.c) *)

From Stdlib Require Strings.String.
From S2P Require Import Prelude SipTypes PjStr Sdp SdpNeg SipTargets InvData InvExt InvOps InvCalls.
Import Strings.String.StringSyntax.

Section Handlers.
Context {N : Negotiator} {Str : PjString} (cfg : inv_config).
Context (is_reliable : pjsip_rx_data -> bool)          (* pjsip_100rel_is_reliable *).
Context (uri_cmp : pjsip_uri -> pjsip_uri -> bool).
Variable nested : input -> M unit.

Definition is_rx (e : tsx_event) : bool := match e_src e with Src_rx_msg _ => true | _ => false end.
(** [e->body.tsx_state.src.rdata], which only an event of a received message has *)
Definition src_rdata (e : tsx_event) : M pjsip_rx_data :=
  match e_src e with Src_rx_msg rdata => ret rdata | _ => stop Crash_event end.

Definition in_state (x : inv_tsx) (s : pjsip_tsx_state_e) : bool := bool_decide (t_state x = s).
Definition is_uac (x : inv_tsx) : bool := bool_decide (t_role x = PJSIP_ROLE_UAC).
Definition is_uas (x : inv_tsx) : bool := bool_decide (t_role x = PJSIP_ROLE_UAS).
Definition tsx_is (x : inv_tsx) (id : pjsip_method_e) : bool := bool_decide (m_id (t_method x) = id).
Definition tsx_method_is (x : inv_tsx) (m : pjsip_method) : bool := pjsip_method_cmp (t_method x) m.
Definition is_2xx (x : inv_tsx) : bool := Z.quot (t_status x) 100 =? 2.

(** ** Secure dialogs *)

(** The Contact and the top Record-Route header are not secure. *)
Definition insecure_routing (rdata : pjsip_rx_data) : bool :=
  negb (match rd_contacts rdata with Contact_uri (Some u) _ :: _ => PJSIP_URI_SCHEME_IS_SIPS u | _ => false end) ||
  match rd_record_route rdata with
  | Some u => negb (PJSIP_URI_SCHEME_IS_SIPS u) &&
              negb (PJSIP_URI_SCHEME_IS_SIP u && str_is (u_transport_param u) (lit "tls"))
  | None => false
  end.

Definition sips_warning : pjsip_hdr := H_warning 381 (lit "SIPS Required").

Definition inv_check_secure_dlg (e : tsx_event) : M bool :=
  x ← tsx_get (e_tsx e);
  secure ← dlg d_secure;
  if negb (c_disable_secure_dlg_check cfg) && secure && is_rx e &&
     ((is_uac x && is_2xx x) || (is_uas x && in_state x PJSIP_TSX_STATE_TRYING)) &&
     (tsx_is x PJSIP_INVITE_METHOD || tsx_method_is x pjsip_update_method)
  then
    rdata ← src_rdata e;
    if insecure_routing rdata then
      (if is_uac x then
         r ← pjsip_inv_end_session cfg nested 480 None;
         match r with
         | (_, Some bye) => when (r.1 =? PJ_SUCCESS) (add_hdr bye sips_warning ;; pjsip_inv_send_msg nested bye ;; skip)
         | _ => skip
         end
       else
         r ← pjsip_dlg_create_response rdata 480;
         match r with
         | (_, Some td) => add_hdr td sips_warning ;; pjsip_dlg_send_response nested (e_tsx e) td ;; skip
         | _ => skip
         end) ;;
      ret false
    else ret true
  else ret true.

(** ** Requests of the peer *)

(** Create a response and send it; whether both worked *)
Definition respond (t : Z) (rdata : pjsip_rx_data) (code : Z) : M bool :=
  r ← pjsip_dlg_create_response rdata code;
  match r with
  | (_, Some td) => status ← pjsip_dlg_send_response nested t td; ret (status =? PJ_SUCCESS)
  | _ => ret false
  end.

(** The INVITE server transaction with the key of the CANCEL *)
Definition find_invite_tsx : M (option Z) := fun w =>
  match w_tsxs w !! a_sel (hd no_answer (w_oracle w)) with
  | Some x =>
      if is_uas x && tsx_is x PJSIP_INVITE_METHOD
      then (a ← ask; ret (Some (a_sel a))) w else (ask ;; ret None) w
  | None => (ask ;; ret None) w
  end.

Definition terminate_invite (t : Z) : M unit :=
  x ← tsx_get t;
  when (t_status x <? 200)
    (match t_last_tx x with
     | Some td =>
         status ← pjsip_dlg_modify_response td 487;
         when (status =? PJ_SUCCESS)
           (set_body td None ;;
            options ← get i_options;
            (if has_option options PJSIP_INV_REQUIRE_100REL then pjsip_100rel_tx_response nested td
             else pjsip_dlg_send_response nested t td) ;;
            skip)
     | None => skip
     end).

Definition inv_respond_incoming_cancel (cancel_tsx : Z) (e : tsx_event) : M unit :=
  rdata ← src_rdata e;
  notify ← get i_notify;
  when (cb_on_tsx_state_changed (c_cb cfg) && notify) (callback nested (E_on_tsx_state_changed cancel_tsx) ;; skip) ;;
  invite_tsx ← find_invite_tsx;
  ok ← respond cancel_tsx rdata (match invite_tsx with None => 481 | Some _ => 200 end);
  match invite_tsx with Some t => when ok (terminate_invite t) | None => skip end.

Definition inv_respond_incoming_bye (bye_tsx : Z) (rdata : pjsip_rx_data) : M unit :=
  ok ← respond bye_tsx rdata 200;
  s ← get i_state;
  when (ok && negb (bool_decide (s = PJSIP_INV_STATE_DISCONNECTED)))
    (inv_set_cause 200 None ;; inv_set_state cfg nested PJSIP_INV_STATE_DISCONNECTED).

Definition bye_done : M unit := inv_set_cause 200 None ;; inv_set_state cfg nested PJSIP_INV_STATE_DISCONNECTED.

Definition inv_handle_bye_response (e : tsx_event) : M unit :=
  let t := e_tsx e in
  x ← tsx_get t;
  if negb (is_rx e) then bye_done
  else if (t_status x =? 401) || (t_status x =? 407) then
    r ← pjsip_auth_clt_reinit_req (t_last_tx x);
    match r with
    | (_, Some td) => mark_retrying t ;; pjsip_inv_send_msg nested td ;; skip
    | _ => bye_done
    end
  else bye_done.

(** The answer to an UPDATE with an offer *)
Definition update_negotiated (rdata : pjsip_rx_data) : M (Z * option Z) :=
  inv_check_sdp_in_incoming_msg cfg nested (rd_tsx rdata) rdata ;;
  w ← neg_is PJMEDIA_SDP_NEG_STATE_WAIT_NEGO;
  status ← (if w : bool then inv_negotiate_sdp cfg nested else ret PJ_EUNKNOWN);
  if negb (status =? PJ_SUCCESS) then
    done ← neg_is PJMEDIA_SDP_NEG_STATE_DONE;
    when (negb done) (cancel_offer ;; skip) ;;
    pjsip_dlg_create_response rdata PJSIP_SC_NOT_ACCEPTABLE_HERE
  else
    r ← pjsip_dlg_create_response rdata 200;
    match r with
    | (_, Some td) =>
        s ← neg_read neg_get_active_local;
        match s with
        | inr s => set_body td (create_sdp_body s) ;; ret r
        | inl status => ret (status, Some td)
        end
    | _ => ret r
    end.

Definition update_response (rdata : pjsip_rx_data) : M (Z * option Z) :=
  t ← pjsip_timer_process_req nested rdata;
  if negb (t.1 =? PJ_SUCCESS) then pjsip_dlg_create_response rdata t.2
  else
    st ← neg_state;
    match rd_body rdata with
    | None => pjsip_dlg_create_response rdata 200
    | Some _ =>
        match st with
        | PJMEDIA_SDP_NEG_STATE_LOCAL_OFFER => pjsip_dlg_create_response rdata PJSIP_SC_REQUEST_PENDING
        | PJMEDIA_SDP_NEG_STATE_REMOTE_OFFER | PJMEDIA_SDP_NEG_STATE_WAIT_NEGO =>
            r ← pjsip_dlg_create_response rdata 500;
            a ← ask;
            td ← deref Crash_update_response r.2;
            add_hdr td (H_retry_after (a_sel a mod 10)) ;;
            ret r
        | _ => update_negotiated rdata
        end
    end.

Definition inv_respond_incoming_update (e : tsx_event) : M unit :=
  rdata ← src_rdata e;
  secure ← inv_check_secure_dlg e;
  if negb secure then skip
  else
    r ← update_response rdata;
    match r with
    | (status, Some td) =>
        status ← (if status =? PJ_SUCCESS then pjsip_timer_update_resp nested td else ret status);
        if status =? PJ_SUCCESS then pjsip_dlg_send_response nested (rd_tsx rdata) td ;; skip
        else pjsip_tx_data_dec_ref td
    | (_, None) => skip
    end.

(** [inv_respond_incoming_prack] marks the INVITE when the PRACK had an answer. *)
Definition inv_respond_incoming_prack (rdata : pjsip_rx_data) : M unit :=
  status ← pjsip_100rel_on_rx_prack nested rdata;
  if negb (status =? PJ_SUCCESS) then skip
  else
    status ← match rd_body rdata with
             | Some _ => inv_check_sdp_in_incoming_msg cfg nested (rd_tsx rdata) rdata
             | None => ret (-1)
             end;
    p ← get i_invite_tsx;
    match p with
    | Some t =>
        when (status =? PJ_SUCCESS)
          (x ← tsx_get t;
           match t_data x with
           | Some _ => mark_sdp_done t
           | None => attach_data t (mk_tsx_inv_data true false [] false true)
           end)
    | None => skip
    end.

(** ** Responses to our requests *)

(** The request is sent again with credentials. *)
Definition resend_with_auth (t : Z) : M unit :=
  x ← tsx_get t;
  r ← pjsip_auth_clt_reinit_req (t_last_tx x);
  match r with
  | (_, Some td) => mark_retrying t ;; pjsip_inv_send_msg nested td ;; skip
  | _ => skip
  end.

Definition is_challenge (x : inv_tsx) : bool :=
  in_state x PJSIP_TSX_STATE_COMPLETED && ((t_status x =? 401) || (t_status x =? 407)).

Definition update_accepted (e : tsx_event) : M unit :=
  let t := e_tsx e in
  secure ← inv_check_secure_dlg e;
  when secure
    (rdata ← src_rdata e;
     handle_timer_response cfg nested rdata false ;;
     l ← neg_is PJMEDIA_SDP_NEG_STATE_LOCAL_OFFER;
     when (is_some (rd_body rdata) && l) (inv_check_sdp_in_incoming_msg cfg nested t rdata ;; skip)).

Definition update_dispatch (e : tsx_event) (x : inv_tsx) : M bool :=
  let completed := in_state x PJSIP_TSX_STATE_COMPLETED in
  if is_challenge x then resend_with_auth (e_tsx e) ;; ret true
  else if completed && (t_status x =? 422) then
    rdata ← src_rdata e; handle_timer_response cfg nested rdata false ;; ret true
  else if completed && is_2xx x then update_accepted e ;; ret true
  else if in_state x PJSIP_TSX_STATE_TERMINATED && ((t_status x =? 503) || (t_status x =? 502)) then
    pjsip_timer_handle_refresh_error nested e ;; ret true
  else if completed && is_uac x then
    rdata ← src_rdata e; handle_timer_response cfg nested rdata false ;; ret true
  else ret false.

Definition inv_handle_update_response (e : tsx_event) : M bool :=
  let t := e_tsx e in
  x ← tsx_get t;
  handled ← update_dispatch e x;
  l ← neg_is PJMEDIA_SDP_NEG_STATE_LOCAL_OFFER;
  y ← tsx_get t;
  match t_data x, t_data y with
  | Some _, Some v =>
      when (l && negb (sdp_done v) && negb (retrying v) && has_sdp v) (cancel_offer ;; mark_sdp_done t)
  | _, _ => skip
  end ;;
  ret handled.

Definition inv_handle_incoming_reliable_response (rdata : pjsip_rx_data) : M unit :=
  r ← pjsip_100rel_create_prack;
  match r with
  | (_, Some td) =>
      s ← inv_has_pending_answer cfg nested (Some (rd_tsx rdata));
      match s with Some s => set_body td (create_sdp_body s) | None => skip end ;;
      pjsip_100rel_send_prack nested td ;;
      skip
  | _ => skip
  end.

(** The responses that end the session or start the request again *)
Definition handle_uac_tsx_response (e : tsx_event) : M bool :=
  let t := e_tsx e in
  x ← tsx_get t;
  s ← get i_state;
  if negb (bool_decide (s = PJSIP_INV_STATE_DISCONNECTED)) &&
     (((t_status x =? PJSIP_SC_CALL_TSX_DOES_NOT_EXIST) && negb (tsx_is x PJSIP_CANCEL_METHOD)) ||
      (t_status x =? PJSIP_SC_REQUEST_TIMEOUT) || (t_status x =? PJSIP_SC_TSX_TIMEOUT))
  then
    disconnect cfg nested t ;;
    r ← pjsip_dlg_create_request pjsip_bye_method (-1);
    send_created nested r ;;
    ret true
  else if is_challenge x then
    when (tsx_is x PJSIP_INVITE_METHOD) (put (set_i_invite_tsx None)) ;;
    resend_with_auth t ;;
    ret true
  else if in_state x PJSIP_TSX_STATE_COMPLETED && (t_status x =? PJSIP_SC_SESSION_TIMER_TOO_SMALL) then
    rdata ← src_rdata e; handle_timer_response cfg nested rdata false ;; ret true
  else if in_state x PJSIP_TSX_STATE_TERMINATED && ((t_status x =? 503) || (t_status x =? 502)) then
    pjsip_timer_handle_refresh_error nested e ;; ret true
  else ret false.

(** The session ends when no other target is left. *)
Definition recurse_or_disconnect (t : Z) : M unit :=
  x ← tsx_get t;
  more ← uac_recurse cfg nested (t_status x);
  if more : bool then skip else disconnect cfg nested t.

Definition handle_uac_call_rejection (e : tsx_event) : M unit :=
  let t := e_tsx e in
  x ← tsx_get t;
  cancelling ← get i_cancelling;
  if PJSIP_IS_STATUS_IN_CLASS (t_status x) 300 then
    if negb (cb_on_redirected (c_cb cfg)) then disconnect cfg nested t
    else
      rdata ← src_rdata e;
      targets (fun ts => (pjsip_target_set_add_from_msg uri_cmp ts (rd_contacts rdata)).2) ;;
      recurse_or_disconnect t
  else if ((t_status x =? 401) || (t_status x =? 407)) && negb cancelling then
    r ← pjsip_auth_clt_reinit_req (t_last_tx x);
    match r with
    | (_, Some td) => pjsip_inv_uac_restart false ;; pjsip_inv_send_msg nested td ;; skip
    | _ => recurse_or_disconnect t
    end
  else if in_state x PJSIP_TSX_STATE_COMPLETED && (t_status x =? PJSIP_SC_SESSION_TIMER_TOO_SMALL) then
    rdata ← src_rdata e;
    status ← handle_timer_response cfg nested rdata false;
    when (negb (status =? PJ_SUCCESS)) (disconnect cfg nested t)
  else if PJSIP_IS_STATUS_IN_CLASS (t_status x) 600 then disconnect cfg nested t
  else recurse_or_disconnect t.

(** ** State CALLING *)

Definition check_sdp (t : Z) (rdata : pjsip_rx_data) : M unit := inv_check_sdp_in_incoming_msg cfg nested t rdata ;; skip.

Definition handle_provisional (t : Z) (rdata : pjsip_rx_data) : M unit :=
  check_sdp t rdata ;;
  when (is_reliable rdata) (inv_handle_incoming_reliable_response rdata).

(** A 2xx response of the INVITE: the checks before its description is processed *)
Definition accept_2xx (e : tsx_event) : M bool :=
  secure ← inv_check_secure_dlg e;
  if negb secure then ret false
  else rdata ← src_rdata e; status ← handle_timer_response cfg nested rdata true; ret (status =? PJ_SUCCESS).

Definition calling_proceeding (e : tsx_event) : M unit :=
  pending ← get i_pending_cancel;
  when pending
    (put (set_i_pending_cancel false) ;;
     r ← pjsip_inv_end_session cfg nested 487 None;
     send_created nested r) ;;
  tag ← dlg d_remote_tag;
  when (negb (bool_decide (tag = [])))
    (inv_set_state cfg nested PJSIP_INV_STATE_EARLY ;;
     rdata ← src_rdata e;
     handle_provisional (e_tsx e) rdata).

Definition calling_completed (e : tsx_event) : M unit :=
  x ← tsx_get (e_tsx e);
  if is_2xx x then
    inv_set_state cfg nested PJSIP_INV_STATE_CONNECTING ;;
    ok ← accept_2xx e;
    when ok (rdata ← src_rdata e; check_sdp (e_tsx e) rdata)
  else handle_uac_call_rejection e.

Definition calling_terminated (e : tsx_event) : M unit :=
  x ← tsx_get (e_tsx e);
  if is_2xx x then
    inv_set_state cfg nested PJSIP_INV_STATE_CONNECTING ;;
    ok ← accept_2xx e;
    when ok (rdata ← src_rdata e; check_sdp (e_tsx e) rdata ;; inv_send_ack cfg nested (Ev_tsx_state e) ;; skip)
  else disconnect cfg nested (e_tsx e).

Definition is_invite_tsx (t : Z) : M bool := p ← get i_invite_tsx; ret (bool_decide (p = Some t)).

Definition calling_other (e : tsx_event) (x : inv_tsx) : M unit :=
  if is_uac x then
    when (((t_status x =? PJSIP_SC_CALL_TSX_DOES_NOT_EXIST) && negb (tsx_is x PJSIP_CANCEL_METHOD)) ||
          (t_status x =? PJSIP_SC_REQUEST_TIMEOUT) || (t_status x =? PJSIP_SC_TSX_TIMEOUT) ||
          (t_status x =? PJSIP_SC_TSX_TRANSPORT_ERROR))
      (disconnect cfg nested (e_tsx e))
  else when (in_state x PJSIP_TSX_STATE_TRYING && tsx_method_is x pjsip_update_method) (inv_respond_incoming_update e).

Definition inv_on_state_calling (e : tsx_event) : M unit :=
  x ← tsx_get (e_tsx e);
  mine ← is_invite_tsx (e_tsx e);
  if mine : bool then
    match t_state x with
    | PJSIP_TSX_STATE_CALLING => inv_set_state cfg nested PJSIP_INV_STATE_CALLING
    | PJSIP_TSX_STATE_PROCEEDING => calling_proceeding e
    | PJSIP_TSX_STATE_COMPLETED => calling_completed e
    | PJSIP_TSX_STATE_TERMINATED => calling_terminated e
    | _ => skip
    end
  else calling_other e x.

(** ** State INCOMING *)

Definition incoming_cancel (x : inv_tsx) (e : tsx_event) : bool :=
  tsx_is x PJSIP_CANCEL_METHOD && is_uas x && (state_num (t_state x) <? state_num PJSIP_TSX_STATE_COMPLETED) && is_rx e.

Definition inv_on_state_incoming (e : tsx_event) : M unit :=
  let t := e_tsx e in
  x ← tsx_get t;
  mine ← is_invite_tsx t;
  if mine : bool then
    match t_state x with
    | PJSIP_TSX_STATE_TRYING => inv_set_state cfg nested PJSIP_INV_STATE_INCOMING
    | PJSIP_TSX_STATE_PROCEEDING => when (100 <? t_status x) (inv_set_state cfg nested PJSIP_INV_STATE_EARLY)
    | PJSIP_TSX_STATE_COMPLETED =>
        if is_2xx x then inv_set_state cfg nested PJSIP_INV_STATE_CONNECTING else disconnect cfg nested t
    | PJSIP_TSX_STATE_TERMINATED => disconnect cfg nested t
    | _ => skip
    end
  else when (incoming_cancel x e) (inv_respond_incoming_cancel t e).

(** ** State NULL *)

Definition save_invite_req (x : inv_tsx) : M unit :=
  drop_ref i_invite_req (set_i_invite_req None) ;;
  td ← deref Crash_null_last_tx (t_last_tx x);
  put (set_i_invite_req (Some td)) ;;
  pjsip_tx_data_add_ref td.

Definition inv_on_state_null (e : tsx_event) : M unit :=
  let t := e_tsx e in
  x ← tsx_get t;
  if tsx_is x PJSIP_INVITE_METHOD then
    p ← get i_invite_tsx;
    when (negb (is_some p)) (put (set_i_invite_tsx (Some t))) ;;
    role ← dlg d_role;
    match role with
    | PJSIP_ROLE_UAC =>
        save_invite_req x ;;
        match t_state x with
        | PJSIP_TSX_STATE_CALLING => inv_set_state cfg nested PJSIP_INV_STATE_CALLING
        | _ => inv_on_state_calling e
        end
    | PJSIP_ROLE_UAS =>
        match t_state x with
        | PJSIP_TSX_STATE_TRYING => inv_set_state cfg nested PJSIP_INV_STATE_INCOMING
        | PJSIP_TSX_STATE_PROCEEDING =>
            inv_set_state cfg nested PJSIP_INV_STATE_INCOMING ;;
            y ← tsx_get t;
            when (100 <? t_status y) (inv_set_state cfg nested PJSIP_INV_STATE_EARLY)
        | PJSIP_TSX_STATE_TERMINATED => disconnect cfg nested t
        | _ => inv_on_state_incoming e
        end
    end
  else skip.

(** ** State EARLY *)

Definition early_completed (e : tsx_event) (x : inv_tsx) : M unit :=
  if is_2xx x then
    inv_set_state cfg nested PJSIP_INV_STATE_CONNECTING ;;
    when (is_rx e) (ok ← accept_2xx e; when ok (rdata ← src_rdata e; check_sdp (e_tsx e) rdata))
  else if is_uac x then handle_uac_call_rejection e
  else disconnect cfg nested (e_tsx e).

Definition early_terminated (e : tsx_event) (x : inv_tsx) : M unit :=
  if is_2xx x then
    inv_set_state cfg nested PJSIP_INV_STATE_CONNECTING ;;
    ok ← (if is_rx e then ok ← accept_2xx e; when ok (rdata ← src_rdata e; check_sdp (e_tsx e) rdata) ;; ret ok
          else ret true);
    when (ok && is_uac x) (inv_send_ack cfg nested (Ev_tsx_state e) ;; skip)
  else disconnect cfg nested (e_tsx e).

Definition early_invite (e : tsx_event) (x : inv_tsx) : M unit :=
  match t_state x with
  | PJSIP_TSX_STATE_PROCEEDING =>
      inv_set_state cfg nested PJSIP_INV_STATE_EARLY ;;
      when (is_rx e) (rdata ← src_rdata e; handle_provisional (e_tsx e) rdata)
  | PJSIP_TSX_STATE_COMPLETED => early_completed e x
  | PJSIP_TSX_STATE_CONFIRMED | PJSIP_TSX_STATE_TERMINATED => early_terminated e x
  | _ => skip
  end.

(** After a BYE in state EARLY the INVITE is ended too. *)
Definition end_early_invite : M unit :=
  p ← get i_invite_tsx;
  t ← deref Crash_early_bye_tsx p;
  x ← tsx_get t;
  if is_uac x then pjsip_tsx_set_timeout t
  else if t_status x <? 200 then
    match t_last_tx x with
    | Some td =>
        td_put td (fun d => set_td_body None (set_td_line (Rsp PJSIP_SC_REQUEST_TERMINATED) d)) ;;
        pjsip_tx_data_add_ref td ;;
        pjsip_dlg_send_response nested t td ;;
        skip
    | None => skip
    end
  else skip.

Definition uac_done (x : inv_tsx) : bool := in_state x PJSIP_TSX_STATE_COMPLETED || in_state x PJSIP_TSX_STATE_TERMINATED.
Definition uas_trying (x : inv_tsx) (m : pjsip_method) : bool :=
  is_uas x && in_state x PJSIP_TSX_STATE_TRYING && tsx_method_is x m.
Definition uas_unanswered (x : inv_tsx) (e : tsx_event) (id : pjsip_method_e) : bool :=
  tsx_is x id && is_uas x && (t_status x <? 200) && is_rx e.

Definition inv_on_state_early (e : tsx_event) : M unit :=
  let t := e_tsx e in
  x ← tsx_get t;
  mine ← is_invite_tsx t;
  role ← get i_role;
  if mine : bool then early_invite e x
  else if bool_decide (role = PJSIP_ROLE_UAS) && incoming_cancel x e then inv_respond_incoming_cancel t e
  else if uas_trying x pjsip_update_method then inv_respond_incoming_update e
  else if is_uac x && uac_done x && tsx_method_is x pjsip_update_method then inv_handle_update_response e ;; skip
  else if uas_trying x pjsip_prack_method then rdata ← src_rdata e; inv_respond_incoming_prack rdata
  else if is_uac x then handle_uac_tsx_response e ;; skip
  else if uas_unanswered x e PJSIP_BYE_METHOD then
    rdata ← src_rdata e;
    inv_respond_incoming_bye t rdata ;;
    end_early_invite
  else skip.

(** ** State CONNECTING *)

(** The callee gets no ACK for its 2xx. *)
Definition connecting_failed (t : Z) : M unit :=
  set_cause_of_tsx t ;;
  r ← pjsip_dlg_create_request pjsip_bye_method (-1);
  match r with
  | (_, Some bye) => pjsip_inv_send_msg nested bye ;; drop_ref i_pending_bye (set_i_pending_bye None)
  | _ => skip
  end.

Definition connecting_invite (e : tsx_event) (x : inv_tsx) : M unit :=
  match t_state x with
  | PJSIP_TSX_STATE_CONFIRMED =>
      when (is_2xx x)
        (when (is_rx e) (rdata ← src_rdata e; check_sdp (e_tsx e) rdata) ;;
         inv_set_state cfg nested PJSIP_INV_STATE_CONFIRMED ;;
         inv_perform_pending_bye nested)
  | PJSIP_TSX_STATE_TERMINATED =>
      if is_2xx x then skip
      else if is_uac x then disconnect cfg nested (e_tsx e)
      else connecting_failed (e_tsx e)
  | _ => skip
  end.

Definition pending_reinvite (t : Z) (rdata : pjsip_rx_data) (code : Z) : M unit :=
  r ← pjsip_dlg_create_response rdata code;
  match r with
  | (_, Some td) => pjsip_timer_update_resp nested td ;; pjsip_dlg_send_response nested t td ;; skip
  | _ => skip
  end.

Definition update_or_generic (e : tsx_event) : M unit :=
  handled ← inv_handle_update_response e;
  if handled : bool then skip else handle_uac_tsx_response e ;; skip.

Definition inv_on_state_connecting (e : tsx_event) : M unit :=
  let t := e_tsx e in
  x ← tsx_get t;
  mine ← is_invite_tsx t;
  if mine : bool then connecting_invite e x
  else if uas_unanswered x e PJSIP_BYE_METHOD then rdata ← src_rdata e; inv_respond_incoming_bye t rdata
  else if tsx_is x PJSIP_BYE_METHOD && is_uac x && uac_done x then inv_handle_bye_response e
  else if uas_unanswered x e PJSIP_CANCEL_METHOD then inv_respond_incoming_cancel t e
  else if uas_trying x pjsip_invite_method then rdata ← src_rdata e; pending_reinvite t rdata PJSIP_SC_REQUEST_PENDING
  else if uas_trying x pjsip_update_method then inv_respond_incoming_update e
  else if is_uac x && uac_done x && tsx_method_is x pjsip_update_method then update_or_generic e
  else if uas_trying x pjsip_prack_method then rdata ← src_rdata e; inv_respond_incoming_prack rdata
  else if is_uac x then handle_uac_tsx_response e ;; skip
  else skip.

(** ** State CONFIRMED: re-INVITE of the peer *)

Definition busy_reinvite (t other : Z) (rdata : pjsip_rx_data) : M unit :=
  y ← tsx_get other;
  let code := if is_uac y then 491 else 500 in
  r ← pjsip_dlg_create_response rdata code;
  match r with
  | (_, Some td) =>
      when (code =? 500) (a ← ask; add_hdr td (H_retry_after (a_sel a mod 10))) ;;
      pjsip_dlg_send_response nested t td ;;
      skip
  | _ => skip
  end.

(** The offer is not acceptable. *)
Definition reject_reinvite (t : Z) (rdata : pjsip_rx_data) (status : Z) : M unit :=
  r ← neg_is PJMEDIA_SDP_NEG_STATE_REMOTE_OFFER;
  when r (cancel_offer ;; skip) ;;
  r ← pjsip_dlg_create_response rdata (if status =? PJMEDIA_SDP_EINSDP then 415 else 488);
  match r with
  | (_, Some td) =>
      match c_accept cfg with Some v => add_hdr td (H_accept v) | None => skip end ;;
      pjsip_dlg_send_response nested t td ;;
      skip
  | _ => skip
  end.

(** The offer to put into the answer of a re-INVITE without one *)
Definition reinvite_own_offer : M (Z * option sdp) :=
  a ← (if cb_on_create_offer (c_cb cfg) then callback nested E_on_create_offer else ret no_answer);
  r ← match (if cb_on_create_offer (c_cb cfg) then a_sdp a else None) with
      | Some s =>
          status ← modify_offer s;
          if status =? PJ_SUCCESS then
            l ← neg_read neg_get_neg_local;
            ret (status, match l with inr s => Some s | inl _ => None end)
          else ret (status, Some s)
      | None => ret (PJ_SUCCESS, None)
      end;
  match r with
  | (status, Some s) => ret (status, Some s)
  | (_, None) =>
      n ← get i_neg;
      match n with
      | Some n => let '(status, s, n') := neg_send_local_offer n in
                  put (set_i_neg (Some n')) ;; ret (status, if status =? PJ_SUCCESS then s else None)
      | None => ret (PJ_EINVAL, None)
      end
  end.

Definition answer_reinvite (t : Z) (rdata : pjsip_rx_data) : M unit :=
  r ← pjsip_dlg_create_response rdata 200;
  match r with
  | (_, Some td) =>
      status ← (if is_some (si_sdp (pjsip_rdata_get_sdp_info rdata)) then process_answer cfg nested 200 td None
                else
                  o ← reinvite_own_offer;
                  match o.2 with Some s => set_body td (create_sdp_body s) | None => skip end ;;
                  ret o.1);
      if negb (status =? PJ_SUCCESS) then
        pjsip_tx_data_dec_ref td ;;
        r ← pjsip_dlg_create_response rdata 500;
        match r with
        | (_, Some td) => add_hdr td (H_warning_status status) ;; pjsip_inv_send_msg nested td ;; skip
        | _ => skip
        end
      else pjsip_timer_update_resp nested td ;; pjsip_inv_send_msg nested td ;; skip
  | _ => skip
  end.

(** What the application says about the re-INVITE: answered by it, or the status *)
Definition ask_reinvite (status : Z) : M (option Z) :=
  notify ← get i_notify;
  if (status =? PJ_SUCCESS) && cb_on_rx_reinvite (c_cb cfg) && notify then
    a ← callback nested E_on_rx_reinvite;
    if a_status a =? PJ_SUCCESS then ret None
    else
      w ← neg_is PJMEDIA_SDP_NEG_STATE_WAIT_NEGO;
      ret (Some (if w : bool then status else PJ_EINVALIDOP))
  else ret (Some status).

Definition rx_reinvite (e : tsx_event) : M unit :=
  let t := e_tsx e in
  rdata ← src_rdata e;
  p ← get i_invite_tsx;
  match (match p with Some other => if other =? t then None else Some other | None => None end) with
  | Some other => busy_reinvite t other rdata
  | None =>
      secure ← inv_check_secure_dlg e;
      if negb secure then skip
      else
        put (set_i_invite_tsx (Some t)) ;;
        r ← pjsip_timer_process_req nested rdata;
        if negb (r.1 =? PJ_SUCCESS) then pending_reinvite t rdata r.2
        else
          done ← neg_is PJMEDIA_SDP_NEG_STATE_DONE;
          if negb done then pending_reinvite t rdata PJSIP_SC_REQUEST_PENDING
          else
            status ← inv_check_sdp_in_incoming_msg cfg nested t rdata;
            verdict ← ask_reinvite status;
            match verdict with
            | None => skip
            | Some status =>
                if negb (status =? PJ_SUCCESS) &&
                   negb ((status =? PJMEDIA_SDP_EINSDP) && negb (si_body (pjsip_rdata_get_sdp_info rdata)) &&
                         PJSIP_INV_ACCEPT_UNKNOWN_BODY)
                then reject_reinvite t rdata status
                else answer_reinvite t rdata
            end
  end.

Definition cancel_unanswered_offer : M unit :=
  l ← neg_is PJMEDIA_SDP_NEG_STATE_LOCAL_OFFER; when l (cancel_offer ;; skip).

(** ** State CONFIRMED: our re-INVITE *)

Definition reinvite_accepted (e : tsx_event) : M unit :=
  ok ← accept_2xx e;
  when ok
    (rdata ← src_rdata e;
     check_sdp (e_tsx e) rdata ;;
     cancel_unanswered_offer ;;
     inv_send_ack cfg nested (Ev_tsx_state e) ;;
     skip).

Definition reinvite_failed (t : Z) : M unit :=
  x ← tsx_get t;
  l ← neg_is PJMEDIA_SDP_NEG_STATE_LOCAL_OFFER;
  when l (v ← deref Crash_reinvite_data (t_data x); when (negb (retrying v)) (cancel_offer ;; skip)) ;;
  mine ← is_invite_tsx t;
  when mine (put (set_i_invite_tsx None)).

Definition uac_reinvite (e : tsx_event) (x : inv_tsx) : M unit :=
  let t := e_tsx e in
  if in_state x PJSIP_TSX_STATE_CALLING then put (set_i_invite_tsx (Some t))
  else if in_state x PJSIP_TSX_STATE_PROCEEDING then
    pending ← get i_pending_cancel;
    when pending
      (put (set_i_pending_cancel false) ;;
       r ← pjsip_inv_cancel_reinvite;
       send_created nested r)
  else if in_state x PJSIP_TSX_STATE_TERMINATED && is_2xx x then reinvite_accepted e
  else
    handled ← handle_uac_tsx_response e;
    if handled : bool then skip
    else
      y ← tsx_get t;
      when ((300 <=? t_status y) && (t_status y <? 700) && negb (bool_decide (e_prev e = PJSIP_TSX_STATE_COMPLETED)))
        (reinvite_failed t).

Definition uas_reinvite (e : tsx_event) (x : inv_tsx) : M unit :=
  if in_state x PJSIP_TSX_STATE_TRYING then rx_reinvite e
  else when (in_state x PJSIP_TSX_STATE_CONFIRMED && is_2xx x && is_rx e)
         (rdata ← src_rdata e; check_sdp (e_tsx e) rdata ;; cancel_unanswered_offer).

Definition inv_on_state_confirmed (e : tsx_event) : M unit :=
  let t := e_tsx e in
  x ← tsx_get t;
  if tsx_is x PJSIP_BYE_METHOD && is_uac x && uac_done x then inv_handle_bye_response e
  else if uas_unanswered x e PJSIP_BYE_METHOD then rdata ← src_rdata e; inv_respond_incoming_bye t rdata
  else if uas_unanswered x e PJSIP_CANCEL_METHOD then inv_respond_incoming_cancel t e
  else if tsx_is x PJSIP_INVITE_METHOD && is_uas x then uas_reinvite e x
  else if tsx_is x PJSIP_INVITE_METHOD && is_uac x then uac_reinvite e x
  else if uas_trying x pjsip_update_method then inv_respond_incoming_update e
  else if is_uac x && uac_done x && tsx_method_is x pjsip_update_method then update_or_generic e
  else if uas_trying x pjsip_prack_method then rdata ← src_rdata e; inv_respond_incoming_prack rdata
  else if is_uac x then handle_uac_tsx_response e ;; skip
  else skip.

(** ** State DISCONNECTED *)

Definition inv_on_state_disconnected (e : tsx_event) : M unit :=
  let t := e_tsx e in
  x ← tsx_get t;
  if is_uas x && (t_status x <? 200) && is_rx e then
    rdata ← src_rdata e;
    if tsx_is x PJSIP_BYE_METHOD then inv_respond_incoming_bye t rdata
    else when (tsx_is x PJSIP_CANCEL_METHOD) (respond t rdata 200 ;; skip)
  else when (is_uac x) (handle_uac_tsx_response e ;; skip).

(** ** The module *)

Definition inv_state_handler (s : pjsip_inv_state) : tsx_event -> M unit :=
  match s with
  | PJSIP_INV_STATE_NULL => inv_on_state_null
  | PJSIP_INV_STATE_CALLING => inv_on_state_calling
  | PJSIP_INV_STATE_INCOMING => inv_on_state_incoming
  | PJSIP_INV_STATE_EARLY => inv_on_state_early
  | PJSIP_INV_STATE_CONNECTING => inv_on_state_connecting
  | PJSIP_INV_STATE_CONFIRMED => inv_on_state_confirmed
  | PJSIP_INV_STATE_DISCONNECTED => inv_on_state_disconnected
  end.

Definition clear_invite_tsx : M unit :=
  put (set_i_invite_tsx None) ;; drop_ref i_last_answer (set_i_last_answer None).

(** The transaction has reached state [s] or gone past it. *)
Definition clear_if (t : Z) (past : pjsip_tsx_state_e -> bool) : M unit :=
  x ← tsx_get t;
  mine ← is_invite_tsx t;
  when (past (t_state x) && mine) clear_invite_tsx.

Definition mod_inv_on_tsx_state (e : tsx_event) : M unit :=
  let t := e_tsx e in
  s ← get i_state;
  inv_state_handler s e ;;
  clear_if t (fun s => bool_decide (s = PJSIP_TSX_STATE_TERMINATED)) ;;
  x ← tsx_get t;
  notify ← get i_notify;
  when (cb_on_tsx_state_changed (c_cb cfg) && notify && negb (tsx_is x PJSIP_CANCEL_METHOD && is_rx e))
    (callback nested (E_on_tsx_state_changed t) ;; skip) ;;
  clear_if t (fun s => state_num PJSIP_TSX_STATE_CONFIRMED <=? state_num s).

(** An ACK for the INVITE in progress *)
Definition rx_ack_in_time (t : Z) (rdata : pjsip_rx_data) : M unit :=
  s ← get i_state;
  when (inv_state_num s <? inv_state_num PJSIP_INV_STATE_DISCONNECTED)
    (check_sdp t rdata ;;
     l ← neg_is PJMEDIA_SDP_NEG_STATE_LOCAL_OFFER;
     s ← get i_state;
     when (l && bool_decide (s = PJSIP_INV_STATE_CONFIRMED)) (cancel_offer ;; skip)) ;;
  p ← get i_invite_tsx;
  t ← deref Crash_ack_tsx p;
  y ← tsx_get t;
  pjsip_tsx_terminate nested t (t_status y) ;;
  clear_invite_tsx.

Definition rx_ack (rdata : pjsip_rx_data) : M bool :=
  p ← get i_invite_tsx;
  match p with
  | None => ret true
  | Some t =>
      x ← tsx_get t;
      if state_num (t_state x) <? state_num PJSIP_TSX_STATE_COMPLETED then ret true
      else if negb (rd_cseq rdata =? t_cseq x) then ret true
      else
        when (state_num (t_state x) <=? state_num PJSIP_TSX_STATE_COMPLETED) (rx_ack_in_time t rdata) ;;
        s ← get i_state;
        when (bool_decide (s = PJSIP_INV_STATE_CONNECTING))
          (inv_set_state cfg nested PJSIP_INV_STATE_CONFIRMED ;; inv_perform_pending_bye nested) ;;
        ret false
  end.

(** For a request of a dialog that has a session *)
Definition mod_inv_on_rx_request (rdata : pjsip_rx_data) : M bool :=
  match rd_line rdata with
  | Req m =>
      match m_id m with
      | PJSIP_INVITE_METHOD | PJSIP_BYE_METHOD | PJSIP_CANCEL_METHOD => ret true
      | PJSIP_ACK_METHOD => rx_ack rdata
      | _ => ret false
      end
  | Rsp _ => ret false
  end.

Definition mod_inv_on_rx_response (rdata : pjsip_rx_data) : M bool :=
  match rd_line rdata with
  | Rsp code =>
      if (Z.quot code 100 =? 2) && bool_decide (m_id (rd_cseq_method rdata) = PJSIP_INVITE_METHOD) then
        p ← get i_invite_tsx;
        s ← get i_state;
        ack ← get i_last_ack;
        cseq ← get i_last_ack_cseq;
        if negb (is_some p) || bool_decide (s = PJSIP_INV_STATE_DISCONNECTED) ||
           (is_some ack && (cseq =? rd_cseq rdata))
        then inv_send_ack cfg nested (Ev_rx_msg rdata) ;; ret true
        else ret false
      else ret false
  | Req _ => ret false
  end.

(** ** What drives a session *)

Definition set_rd_tsx (t : Z) (r : pjsip_rx_data) : pjsip_rx_data :=
  mk_rdata (rd_line r) (rd_uri r) (rd_cseq r) (rd_cseq_method r) (rd_to_tag r) (rd_ctype r) (rd_body r) (rd_contacts r)
    (rd_record_route r) (rd_allow r) (rd_supported r) (rd_require r) t.

Definition src_of (t : Z) (s : tsx_src) : tsx_src := match s with Src_rx_msg r => Src_rx_msg (set_rd_tsx t r) | _ => s end.

(** The transaction layer and the dialog before they report the change of state *)
Definition tsx_changes (t : Z) (u : tsx_upd) : M unit :=
  x ← tsx_get t;
  tsx_put t (fun x => mk_inv_tsx (t_role x) (t_method x) (u_state u) (u_status u) (t_cseq x) (t_last_tx x) (t_data x)) ;;
  match u_remote_tag u with
  | Some tag => dlg_put (fun d => set_remote (d_remote_uri d) tag (d_secure d) d)
  | None => skip
  end ;;
  mod_inv_on_tsx_state (mk_event t (src_of t (u_src u)) (t_state x)).

(** An application sends messages it was given. *)
Definition send_known (td : Z) : M unit := fun w =>
  match w_tds w !! td with Some _ => (pjsip_inv_send_msg nested td ;; skip) w | None => skip w end.

Definition do_call (c : api_call) : M unit :=
  match c with
  | Api_set_local_sdp s => pjsip_inv_set_local_sdp s ;; skip
  | Api_set_sdp_answer s => pjsip_inv_set_sdp_answer s ;; skip
  | Api_initial_answer rdata code s => pjsip_inv_initial_answer cfg nested rdata code s ;; skip
  | Api_answer code s => pjsip_inv_answer cfg nested code s ;; skip
  | Api_end_session code => pjsip_inv_end_session cfg nested code None ;; skip
  | Api_cancel_reinvite => pjsip_inv_cancel_reinvite ;; skip
  | Api_send_msg td => send_known td
  | Api_terminate code notify => pjsip_inv_terminate cfg nested code notify ;; skip
  | Api_uac_restart new_offer => pjsip_inv_uac_restart new_offer ;; skip
  | Api_process_redirect op => pjsip_inv_process_redirect cfg nested op ;; skip
  | Api_invite => pjsip_inv_invite cfg nested ;; skip
  | Api_reinvite contact s => pjsip_inv_reinvite cfg nested contact s ;; skip
  | Api_update contact s => pjsip_inv_update cfg nested contact s ;; skip
  | Api_create_ack cseq => pjsip_inv_create_ack cfg nested cseq ;; skip
  | Api_add_ref => pjsip_inv_add_ref ;; skip
  | Api_dec_ref => pjsip_inv_dec_ref ;; skip
  end.

Definition step (i : input) : M unit :=
  match i with In_tsx t u => tsx_changes t u | In_call c => do_call c end.
End Handlers.

Section Run.
Context {N : Negotiator} {Str : PjString} (cfg : inv_config).
Context (is_reliable : pjsip_rx_data -> bool) (uri_cmp : pjsip_uri -> pjsip_uri -> bool).

(** Calls nest at most [n] deep. *)
Fixpoint run (n : nat) (i : input) : M unit :=
  match n with
  | O => stop Crash_fuel
  | S n => step cfg is_reliable uri_cmp (run n) i
  end.

(** Each nested call is named by an answer, so their number bounds the depth; but a
    transaction that is terminated reports it at once. *)
Definition calls_of (a : answer) : nat := length (a_upds a) + length (a_calls a).
Definition oracle_calls (oracle : list answer) : nat := sum_list (map calls_of oracle).
Definition run_fuel (oracle : list answer) : nat := 2 * oracle_calls oracle + 2.

(** What arrives from outside: a change of a transaction or a call of the application, a
    request that starts a transaction, and the messages without one *)
Inductive arrival :=
  | Ar_input (i : input)
  | Ar_request (m : pjsip_method) (rdata : pjsip_rx_data)
  | Ar_ack (rdata : pjsip_rx_data)
  | Ar_response (rdata : pjsip_rx_data).

Definition set_oracle (o : list answer) (w : world) : world :=
  mk_world (w_inv w) (w_dlg w) (w_tsxs w) (w_tds w) (w_next w) o (w_log w).

Definition arrive (a : arrival) (n : nat) : M unit :=
  match a with
  | Ar_input i => run (S n) i
  | Ar_request m rdata =>
      t ← tsx_new (mk_inv_tsx PJSIP_ROLE_UAS m PJSIP_TSX_STATE_NULL 0 (rd_cseq rdata) None None);
      run (S n) (In_tsx t (mk_upd PJSIP_TSX_STATE_TRYING 0 (Src_rx_msg rdata) None))
  | Ar_ack rdata => mod_inv_on_rx_request cfg (run n) rdata ;; skip
  | Ar_response rdata => mod_inv_on_rx_response cfg (run n) rdata ;; skip
  end.

(** One arrival, with all that the other parts do while it is handled *)
Definition handle (a : arrival) (oracle : list answer) (w : world) : result unit :=
  arrive a (run_fuel oracle) (set_oracle oracle w).
End Run.
