(* ===== verification/InvCreate.v ===== *)
(** * INVITE sessions: verification of an incoming INVITE and creation
    (pjsip/src/pjsip-ua/sip_inv.c) *)

From Stdlib Require Strings.String.
From S2P Require Import Prelude SipTypes PjStr Sdp SdpNeg SipTargets InvData InvExt InvOps InvCalls InvHandlers.
Import Strings.String.StringSyntax.

Section Create.
Context {N : Negotiator} {Str : PjString} (cfg : inv_config).
(** pjsip_endpt_has_capability for the Supported header *)
Context (has_capability : list Z -> bool).

Definition PJSIP_SC_BAD_REQUEST : Z := 400.
Definition PJSIP_SC_UNSUPPORTED_MEDIA_TYPE : Z := 415.
Definition PJSIP_SC_BAD_EXTENSION : Z := 420.
Definition PJSIP_SC_EXTENSION_REQUIRED : Z := 421.
Definition PJSIP_SC_TEMPORARILY_UNAVAILABLE : Z := 480.

(** [if (options & require) options |= support] *)
Definition implied (require support options : Z) : Z :=
  if has_option options require then Z.lor options support else options.

Definition normalize_options (options : Z) : Z :=
  implied PJSIP_INV_REQUIRE_TIMER PJSIP_INV_SUPPORT_TIMER (implied PJSIP_INV_REQUIRE_100REL PJSIP_INV_SUPPORT_100REL options).

(** ** Verification of a request *)

(** What a check finds: the code of the response with its headers and the status, or the
    status alone where the function returns at once. *)
Inductive refusal := Refuse (code status : Z) (hdrs : list pjsip_hdr) | Return_status (status : Z).

Definition refuse (code : Z) (hdrs : list pjsip_hdr) : option refusal :=
  Some (Refuse code (PJSIP_ERRNO_FROM_SIP_STATUS code) hdrs).

(** The first Contact header has a URI. *)
Definition request_contact (rdata : pjsip_rx_data) : option pjsip_uri :=
  match rd_contacts rdata with Contact_uri (Some u) _ :: _ => Some u | _ => None end.

Definition check_contact (rdata : pjsip_rx_data) : option refusal :=
  match request_contact rdata with
  | Some _ => None
  | None => refuse PJSIP_SC_BAD_REQUEST [H_warning 399 (lit "Bad/missing Contact header")]
  end.

Definition check_secure_request (rdata : pjsip_rx_data) : option refusal :=
  if negb (c_disable_secure_dlg_check cfg) && match rd_uri rdata with Some u => PJSIP_URI_SCHEME_IS_SIPS u | None => false end &&
     insecure_routing rdata
  then Some (Refuse PJSIP_SC_TEMPORARILY_UNAVAILABLE PJSIP_ESESSIONINSECURE [sips_warning])
  else None.

(** The description of the body, which is refused when it does not parse.  Its status is
    still PJ_SUCCESS then. *)
Definition check_body (want_response : bool) (rdata : pjsip_rx_data) : refusal + option sdp :=
  match rd_body rdata with
  | None => inr None
  | Some _ =>
      let info := pjsip_rdata_get_sdp_info rdata in
      if negb (si_body info) && negb PJSIP_INV_ACCEPT_UNKNOWN_BODY then
        inl (Refuse PJSIP_SC_UNSUPPORTED_MEDIA_TYPE (PJSIP_ERRNO_FROM_SIP_STATUS PJSIP_SC_UNSUPPORTED_MEDIA_TYPE)
               (if want_response then [H_accept [lit "application/sdp"]] else []))
      else if negb (si_sdp_err info =? PJ_SUCCESS) then
        inl (Refuse PJSIP_SC_BAD_REQUEST PJ_SUCCESS
               (if want_response then [H_warning_status (si_sdp_err info)] else []))
      else inr (si_sdp info)
  end.

(** The local and the remote description fit.  The inner option is a negotiator that
    leaves the program. *)
Definition check_media (want_response : bool) (l_sdp r_sdp : option sdp) : option (option refusal) :=
  match l_sdp, r_sdp with
  | Some l, Some r =>
      if negb (neg_validate l =? PJ_SUCCESS) then Some (Some (Return_status (neg_validate l)))
      else
        match neg_create_w_remote_offer (Some l) r with
        | (st, Some n) =>
            if negb (st =? PJ_SUCCESS) then Some (Some (Return_status st))
            else
              match neg_negotiate n with
              | Some (st, _) =>
                  Some (if st =? PJ_SUCCESS then None
                        else Some (Refuse PJSIP_SC_NOT_ACCEPTABLE_HERE st
                               (if want_response then [H_warning_status st; H_accept [lit "application/sdp"]] else [])))
              | None => None
              end
        | (st, None) => Some (Some (Return_status st))
        end
  | _, _ => Some None
  end.

Definition allows_update (rdata : pjsip_rx_data) : bool :=
  match rd_allow rdata with Some values => existsb (fun v => str_is v (lit "UPDATE")) values | None => false end.

(** The option tags of the Supported header *)
Definition supported_bit (v : list Z) : Z :=
  if str_is v (lit "100rel") then PJSIP_INV_SUPPORT_100REL
  else if str_is v (lit "timer") then PJSIP_INV_SUPPORT_TIMER
  else if str_is v (lit "ice") then PJSIP_INV_SUPPORT_ICE
  else 0.

Definition supported_options (rdata : pjsip_rx_data) : Z :=
  match rd_supported rdata with
  | Some values => fold_left (fun o v => Z.lor o (supported_bit v)) values 0
  | None => 0
  end.

(** One option tag of the Require header: a bit, or not supported *)
Definition required_tag (options : Z) (v : list Z) : Z + unit :=
  if has_option options PJSIP_INV_SUPPORT_100REL && str_is v (lit "100rel") then inl PJSIP_INV_REQUIRE_100REL
  else if has_option options PJSIP_INV_SUPPORT_TIMER && str_is v (lit "timer") then inl PJSIP_INV_REQUIRE_TIMER
  else if str_is v (lit "replaces") then (if has_capability (lit "replaces") then inl 0 else inr tt)
  else if has_option options PJSIP_INV_SUPPORT_ICE && str_is v (lit "ice") then inl PJSIP_INV_REQUIRE_ICE
  else if has_capability v then inl 0 else inr tt.

Fixpoint required_options (options : Z) (values : list (list Z)) : Z * list (list Z) :=
  match values with
  | [] => (0, [])
  | v :: values' =>
      let '(o, unsupp) := required_options options values' in
      match required_tag options v with inl b => (Z.lor b o, unsupp) | inr _ => (o, v :: unsupp) end
  end.

Definition supported_hdr : list pjsip_hdr := match c_supported cfg with Some v => [H_supported v] | None => [] end.

Definition check_required (want_response : bool) (unsupp : list (list Z)) : option refusal :=
  match unsupp with
  | [] => None
  | _ => refuse PJSIP_SC_BAD_EXTENSION (if want_response then H_unsupported unsupp :: supported_hdr else [])
  end.

(** What we require, the peer must support. *)
Definition check_local_required (want_response : bool) (options rem_option : Z) : option refusal :=
  let req100 := has_option options PJSIP_INV_REQUIRE_100REL in
  let reqtimer := has_option options PJSIP_INV_REQUIRE_TIMER in
  if (req100 && negb (has_option rem_option PJSIP_INV_SUPPORT_100REL)) ||
     (reqtimer && negb (has_option rem_option PJSIP_INV_SUPPORT_TIMER))
  then refuse PJSIP_SC_EXTENSION_REQUIRED
         (if want_response then
            H_require ((if req100 then [lit "100rel"] else []) ++ (if reqtimer then [lit "timer"] else [])) :: supported_hdr
          else [])
  else None.

Definition or_else (a b : option refusal) : option refusal := match a with Some _ => a | None => b end.

(** The checks from the extensions on: the refusal, and the options of the session *)
Definition check_extensions (want_response : bool) (rdata : pjsip_rx_data) (options : Z) : option refusal * Z :=
  let options := if allows_update rdata then Z.lor options PJSIP_INV_SUPPORT_UPDATE else options in
  let '(required, unsupp) := match rd_require rdata with Some v => required_options options v | None => (0, []) end in
  let rem_option := Z.lor (supported_options rdata) required in
  match or_else (check_required want_response unsupp) (check_local_required want_response options rem_option) with
  | Some r => (Some r, options)
  | None =>
      (None, Z.lor options (Z.lor (Z.land required PJSIP_INV_REQUIRE_100REL) (Z.land required PJSIP_INV_REQUIRE_TIMER)))
  end.

(** The checks in the order of the code, for a request [rdata]; [None] when the negotiator
    leaves the program. *)
Definition verify_checks (want_response : bool) (rdata : pjsip_rx_data) (options : Z) (r_sdp l_sdp : option sdp) :
    option (option refusal * Z) :=
  let options := implied PJSIP_INV_REQUIRE_ICE PJSIP_INV_SUPPORT_ICE (normalize_options options) in
  match or_else (check_contact rdata) (check_secure_request rdata) with
  | Some r => Some (Some r, options)
  | None =>
      match (match r_sdp with Some r => inr (Some r) | None => check_body want_response rdata end) with
      | inl r => Some (Some r, options)
      | inr r_sdp =>
          match check_media want_response l_sdp r_sdp with
          | None => None
          | Some (Some r) => Some (Some r, options)
          | Some None => Some (check_extensions want_response rdata options)
          end
      end
  end.

(** The status, the options and the response that is made when one is wanted;
    [create_status] is what creating the response gives. *)
Definition pjsip_inv_verify_request3 (want_response : bool) (create_status : Z) (rdata : pjsip_rx_data) (options : Z)
    (r_sdp l_sdp : option sdp) : option (Z * Z * option (Z * list pjsip_hdr)) :=
  match verify_checks want_response rdata options r_sdp l_sdp with
  | None => None
  | Some (None, options) => Some (PJ_SUCCESS, options, None)
  | Some (Some (Return_status status), options) => Some (status, options, None)
  | Some (Some (Refuse code status hdrs), options) =>
      Some (if want_response then
              if negb (create_status =? PJ_SUCCESS) then (create_status, options, None)
              else (PJSIP_ERRNO_FROM_SIP_STATUS code, options, Some (code, hdrs))
            else (status, options, None))
  end.

(** ** Creation *)

Definition new_session (role : pjsip_role_e) (options : Z) (n : option neg) (t : option Z) : pjsip_inv_session :=
  mk_inv PJSIP_INV_STATE_NULL false false None 0 Reason_none true 0 role options n 0 t None None None 0 false (Some 1).

(** The dialog with its transactions and messages; [usage_status] is what
    pjsip_dlg_add_usage answers. *)
Record surroundings := mk_surroundings {
  s_dlg : pjsip_dialog; s_tsxs : gmap Z inv_tsx; s_tds : gmap Z pjsip_tx_data; s_next : Z
}.

Definition start (s : surroundings) (tsxs : gmap Z inv_tsx) (i : pjsip_inv_session) : world :=
  mk_world i (set_d_sessions (d_sessions (s_dlg s) + 1) (s_dlg s)) tsxs (s_tds s) (s_next s) [] [].

Definition pjsip_inv_create_uac (s : surroundings) (local_sdp : option sdp) (options usage_status : Z) : Z * option world :=
  let r := match local_sdp with Some l => neg_create_w_local_offer l | None => (PJ_SUCCESS, None) end in
  if negb (r.1 =? PJ_SUCCESS) then (r.1, None)
  else if negb (usage_status =? PJ_SUCCESS) then (usage_status, None)
  else (PJ_SUCCESS, Some (start s (s_tsxs s) (new_session PJSIP_ROLE_UAC (normalize_options options) r.2 None))).

(** [rdata] starts the transaction [rd_tsx rdata]. *)
Definition pjsip_inv_create_uas (s : surroundings) (rdata : pjsip_rx_data) (local_sdp : option sdp) (options usage_status : Z) :
    Z * option world :=
  match rd_line rdata, s_tsxs s !! rd_tsx rdata with
  | Req m, Some x =>
      if negb (bool_decide (m_id m = PJSIP_INVITE_METHOD)) then (PJ_EINVALIDOP, None)
      else
        let info := pjsip_rdata_get_sdp_info rdata in
        if negb (si_sdp_err info =? PJ_SUCCESS) then (si_sdp_err info, None)
        else
          let r := match si_sdp info, local_sdp with
                   | Some o, _ => neg_create_w_remote_offer local_sdp o
                   | None, Some l => neg_create_w_local_offer l
                   | None, None => (PJ_SUCCESS, None)
                   end in
          if negb (r.1 =? PJ_SUCCESS) then (r.1, None)
          else if negb (usage_status =? PJ_SUCCESS) then (usage_status, None)
          else
            let x' := set_t_data (Some (mk_tsx_inv_data false false [] false (is_some (si_sdp info)))) x in
            (PJ_SUCCESS, Some (start s (<[rd_tsx rdata := x']> (s_tsxs s))
                                 (new_session PJSIP_ROLE_UAS (normalize_options options) r.2 (Some (rd_tsx rdata)))))
  | _, _ => (PJ_EINVALIDOP, None)
  end.
End Create.
