(* ===== verification/InvSafe.v ===== *)
(** * INVITE sessions: the invariant of a session, and a logic for its operations

    The invariant says that every pointer of a session is good, that its negotiator is
    well-formed, that a cause is set when the session is disconnected, that it is destroyed
    once, and of the requests sent so far that a CANCEL follows a response and a
    BYE of the callee the ACK.  [ok] is a Hoare triple for it: the operation stops at a
    named point at most, keeps the invariant, and only adds to what there is. *)

From S2P Require Import Prelude SipTypes PjStr Sdp SdpNeg SipTargets SipTargetProps InvData InvExt InvOps InvCalls InvHandlers.

Section Safe.
Context {N : Negotiator}.

(** ** What the other parts promise *)

Definition call_ok (c : api_call) : Prop :=
  match c with
  | Api_end_session code => 100 <= code
  | Api_terminate code _ => 300 <= code
  | _ => True
  end.

Definition answer_ok (a : answer) : Prop := 100 <= a_code a /\ Forall call_ok (a_calls a).

(** ** The invariant *)

Definition is_req (l : pjsip_msg_line) : Prop := exists m, l = Req m.
Definition is_rsp (l : pjsip_msg_line) : Prop := exists c, l = Rsp c.
Definition is_bye (l : pjsip_msg_line) : Prop := exists m, l = Req m /\ m_id m = PJSIP_BYE_METHOD.
Definition is_ack (l : pjsip_msg_line) : Prop := exists m, l = Req m /\ m_id m = PJSIP_ACK_METHOD.

(** The message at an address *)
Definition line_at (P : pjsip_msg_line -> Prop) (tds : gmap Z pjsip_tx_data) (p : option Z) : Prop :=
  forall td, p = Some td -> exists d, tds !! td = Some d /\ P (td_line d).

Definition any_line (l : pjsip_msg_line) : Prop := True.

Definition tsx_wf (tds : gmap Z pjsip_tx_data) (x : inv_tsx) : Prop :=
  0 <= t_status x /\
  match t_role x with
  | PJSIP_ROLE_UAC => is_Some (t_last_tx x) /\ line_at is_req tds (t_last_tx x) /\
      (m_id (t_method x) = PJSIP_INVITE_METHOD -> is_Some (t_data x) /\
         (Z.quot (t_status x) 100 = 2 -> 6 <= state_num (t_state x)))
  | PJSIP_ROLE_UAS => line_at is_rsp tds (t_last_tx x)
  end.

Definition entry_ok (e : effect) : Prop :=
  match e with
  | E_create_cancel status => 100 <= status
  | E_send_request _ m PJSIP_ROLE_UAS PJSIP_INV_STATE_CONNECTING cause =>
      m_id m = PJSIP_BYE_METHOD -> cause = PJSIP_SC_REQUEST_TIMEOUT \/ cause = PJSIP_SC_TSX_TRANSPORT_ERROR
  | _ => True
  end.

Definition is_destroy (e : effect) : bool := match e with E_destroy => true | _ => false end.
Definition destroyed (l : list effect) : nat := length (List.filter is_destroy l).

Record sess_ok (i : pjsip_inv_session) (drole : pjsip_role_e) (tsxs : gmap Z inv_tsx) (tds : gmap Z pjsip_tx_data)
    (ndestroyed : nat) : Prop := {
  so_cause : 0 <= i_cause i;
  so_disc : i_state i = PJSIP_INV_STATE_DISCONNECTED -> 0 < i_cause i;
  so_neg : match i_neg i with Some n => neg_wf n | None => True end;
  so_invite : forall t, i_invite_tsx i = Some t -> exists x, tsxs !! t = Some x /\
    m_id (t_method x) = PJSIP_INVITE_METHOD /\
    (drole = PJSIP_ROLE_UAC -> i_state i = PJSIP_INV_STATE_NULL \/ i_state i = PJSIP_INV_STATE_CALLING ->
     t_role x = PJSIP_ROLE_UAC);
  so_calling : i_state i = PJSIP_INV_STATE_CALLING -> drole = PJSIP_ROLE_UAC;
  so_bye : line_at is_bye tds (i_pending_bye i);
  so_req : line_at is_req tds (i_invite_req i);
  so_answer : line_at is_rsp tds (i_last_answer i);
  so_ack : line_at is_ack tds (i_last_ack i);
  so_ref : match i_ref_cnt i with Some n => 0 < n /\ ndestroyed = 0%nat | None => ndestroyed = 1%nat end
}.

Record inv_ok (w : world) : Prop := {
  ok_sess : sess_ok (w_inv w) (d_role (w_dlg w)) (w_tsxs w) (w_tds w) (destroyed (w_log w));
  ok_tsxs : forall t x, w_tsxs w !! t = Some x -> tsx_wf (w_tds w) x;
  ok_fresh_tsx : forall t, w_next w <= t -> w_tsxs w !! t = None;
  ok_fresh_td : forall td, w_next w <= td -> w_tds w !! td = None;
  ok_log : Forall entry_ok (w_log w);
  ok_oracle : Forall answer_ok (w_oracle w)
}.

(** ** What an operation may change *)

Definition line_ext (l l' : pjsip_msg_line) : Prop :=
  match l with Req m => l' = Req m | Rsp _ => is_rsp l' end.

Record tsx_ext (x x' : inv_tsx) : Prop := {
  te_role : t_role x' = t_role x;
  te_method : t_method x' = t_method x;
  te_cseq : t_cseq x' = t_cseq x;
  te_last_tx : is_Some (t_last_tx x) -> is_Some (t_last_tx x');
  te_data : is_Some (t_data x) -> is_Some (t_data x');
  te_status : 100 <= t_status x -> 100 <= t_status x'
}.

Record ext (g : bool) (w w' : world) : Prop := {
  x_next : w_next w <= w_next w';
  x_tsxs : forall t x, w_tsxs w !! t = Some x -> exists x', w_tsxs w' !! t = Some x' /\ tsx_ext x x';
  x_tds : forall td d, w_tds w !! td = Some d -> exists d', w_tds w' !! td = Some d' /\ line_ext (td_line d) (td_line d');
  x_log : exists l, w_log w' = w_log w ++ l;
  x_fuel : (oracle_calls (w_oracle w') <= oracle_calls (w_oracle w))%nat;
  x_targets : g = false -> (remaining (d_targets (w_dlg w')) <= remaining (d_targets (w_dlg w)))%nat;
  x_drole : d_role (w_dlg w') = d_role (w_dlg w);
  x_irole : i_role (w_inv w') = i_role (w_inv w)
}.

Lemma line_ext_refl l : line_ext l l.
Proof. destruct l; [done|]. by eexists. Qed.
Lemma line_ext_trans l1 l2 l3 : line_ext l1 l2 -> line_ext l2 l3 -> line_ext l1 l3.
Proof. destruct l1; cbn; [by intros ->|]. by intros [c ->]. Qed.

#[global] Instance tsx_ext_preorder : PreOrder tsx_ext.
Proof.
  split; [by intros x; split|]. intros x y z [] []. split; try congruence; auto.
Qed.

#[global] Instance ext_preorder g : PreOrder (ext g).
Proof.
  split.
  - intros w. split; try done.
    + intros t x E. by exists x.
    + intros td d E. exists d. by split; [|apply line_ext_refl].
    + exists []. by rewrite app_nil_r.
  - intros w1 w2 w3 [] []. split; try lia; try congruence.
    + intros t x E. destruct (x_tsxs0 _ _ E) as (x' & E' & T'). destruct (x_tsxs1 _ _ E') as (x'' & E'' & T'').
      exists x''. split; [done|]. by etrans.
    + intros td d E. destruct (x_tds0 _ _ E) as (d' & E' & T'). destruct (x_tds1 _ _ E') as (d'' & E'' & T'').
      exists d''. split; [done|]. by eapply line_ext_trans.
    + destruct x_log0 as [l1 E1], x_log1 as [l2 E2]. exists (l1 ++ l2). by rewrite E2, E1, app_assoc.
    + intros Hg. specialize (x_targets0 Hg). specialize (x_targets1 Hg). lia.
Qed.

Lemma ext_weaken g w w' : ext false w w' -> ext g w w'.
Proof. intros []. split; auto. Qed.

(** ** Facts that stay true *)

Definition tsx_like (t : Z) (x : inv_tsx) (w : world) : Prop := exists x', w_tsxs w !! t = Some x' /\ tsx_ext x x'.
Definition td_like (td : Z) (P : pjsip_msg_line -> Prop) (w : world) : Prop := exists d, w_tds w !! td = Some d /\ P (td_line d).

(** A property of the first line that sending and answering keep *)
Definition line_stable (P : pjsip_msg_line -> Prop) : Prop := forall l l', line_ext l l' -> P l -> P l'.

Lemma stable_req : line_stable is_req.
Proof. intros l l' H [m ->]. by exists m. Qed.
Lemma stable_rsp : line_stable is_rsp.
Proof. intros l l' H [c ->]. exact H. Qed.
Lemma stable_ack : line_stable is_ack.
Proof. intros l l' H (m & -> & E). exists m. by rewrite H. Qed.
Lemma stable_bye : line_stable is_bye.
Proof. intros l l' H (m & -> & E). exists m. by rewrite H. Qed.
Lemma stable_any : line_stable any_line.
Proof. done. Qed.
Lemma stable_eq m : line_stable (fun l => l = Req m).
Proof. intros l l' H ->. exact H. Qed.

Lemma tsx_like_ext g t x w w' : ext g w w' -> tsx_like t x w -> tsx_like t x w'.
Proof.
  intros X (y & E & T). destruct (x_tsxs _ _ _ X _ _ E) as (y' & E' & T'). exists y'. split; [done|]. by etrans.
Qed.
Lemma td_like_ext g td P w w' : line_stable P -> ext g w w' -> td_like td P w -> td_like td P w'.
Proof.
  intros S X (d & E & T). destruct (x_tds _ _ _ X _ _ E) as (d' & E' & T'). exists d'. split; [done|]. by eapply S.
Qed.
Lemma tsx_like_eq t x w : w_tsxs w !! t = Some x -> tsx_like t x w.
Proof. intros E. by exists x. Qed.
Lemma td_like_weaken td (P Q : pjsip_msg_line -> Prop) w : (forall l, P l -> Q l) -> td_like td P w -> td_like td Q w.
Proof. intros H (d & E & T). exists d. auto. Qed.
Lemma line_at_like P w p td : line_at P (w_tds w) p -> p = Some td -> td_like td P w.
Proof. intros H E. exact (H td E). Qed.

(** Messages keep their lines, so what points to them stays good. *)
Definition lines_kept (tds tds' : gmap Z pjsip_tx_data) : Prop :=
  forall td d, tds !! td = Some d -> exists d', tds' !! td = Some d' /\ line_ext (td_line d) (td_line d').

Lemma line_at_kept P tds tds' p : line_stable P -> lines_kept tds tds' -> line_at P tds p -> line_at P tds' p.
Proof.
  intros S K H td E. destruct (H td E) as (d & Ed & Pd). destruct (K _ _ Ed) as (d' & Ed' & L).
  exists d'. split; [done|]. by eapply S.
Qed.

Lemma tsx_wf_kept tds tds' x : lines_kept tds tds' -> tsx_wf tds x -> tsx_wf tds' x.
Proof.
  intros K [H0 H]. split; [done|]. destruct (t_role x).
  - destruct H as (H1 & H2 & H3). split; [done|]. split; [|done]. by eapply line_at_kept; [apply stable_req| |].
  - by eapply line_at_kept; [apply stable_rsp| |].
Qed.

Lemma sess_ok_kept i dr tsxs tds tds' k : lines_kept tds tds' -> sess_ok i dr tsxs tds k -> sess_ok i dr tsxs tds' k.
Proof.
  intros K []. split; try done; (eapply line_at_kept; [|exact K|eassumption]);
    auto using stable_req, stable_rsp, stable_bye, stable_ack.
Qed.

(** ** Triples *)

Definition no_invite_tsx (w : world) : Prop := i_invite_tsx (w_inv w) = None.
Definition neg_in (ss : list pjmedia_sdp_neg_state) (w : world) : Prop := exists m, i_neg (w_inv w) = Some m /\ In (neg_state_of m) ss.

(** What is known at each place where the program may stop; it never stops at the others. *)
Definition stops_at (c : crash) (w : world) : Prop :=
  match c with
  | Crash_modify_offer => exists m b s, i_neg (w_inv w) = Some m /\ neg_modify_local_offer2 m b s = None
  | Crash_negotiate => exists m, i_neg (w_inv w) = Some m /\ neg_negotiate m = None
  | Crash_ack_data | Crash_answer_data => exists t x, w_tsxs w !! t = Some x /\
      ~ (t_role x = PJSIP_ROLE_UAC /\ m_id (t_method x) = PJSIP_INVITE_METHOD)
  | Crash_fork_body => exists t x td d, w_tsxs w !! t = Some x /\ t_last_tx x = Some td /\ w_tds w !! td = Some d /\ td_body d = None
  | Crash_answer_tsx => no_invite_tsx w /\ neg_in [PJMEDIA_SDP_NEG_STATE_WAIT_NEGO] w
  | Crash_end_tsx => no_invite_tsx w /\ i_role (w_inv w) = PJSIP_ROLE_UAS /\
      In (i_state (w_inv w)) [PJSIP_INV_STATE_CALLING; PJSIP_INV_STATE_INCOMING; PJSIP_INV_STATE_EARLY]
  | Crash_send_tsx => no_invite_tsx w /\ exists td d code, w_tds w !! td = Some d /\ td_line d = Rsp code
  | Crash_100rel_tsx | Crash_early_bye_tsx | Crash_ack_tsx => no_invite_tsx w
  | Crash_ack_body | Crash_ack_ref | Crash_ack_send => i_last_ack (w_inv w) = None
  | Crash_redirect_invite => i_invite_req (w_inv w) = None
  | Crash_redirect_target => target_uri (d_targets (w_dlg w)) = None
  | Crash_update_response => neg_in [PJMEDIA_SDP_NEG_STATE_REMOTE_OFFER; PJMEDIA_SDP_NEG_STATE_WAIT_NEGO] w
  | Crash_cancel_last_tx => exists t x, w_tsxs w !! t = Some x /\ t_role x = PJSIP_ROLE_UAS /\ t_last_tx x = None
  | Crash_reinvite_data | Crash_fork_last_tx | Crash_null_last_tx | Crash_auth_last_tx | Crash_dangling | Crash_event | Crash_fuel => False
  end.

Definition stopping_places : list crash :=
  [Crash_modify_offer; Crash_negotiate; Crash_ack_data; Crash_answer_data; Crash_fork_body; Crash_answer_tsx; Crash_end_tsx;
   Crash_send_tsx; Crash_100rel_tsx; Crash_early_bye_tsx; Crash_ack_tsx; Crash_ack_body; Crash_ack_ref; Crash_ack_send;
   Crash_redirect_invite; Crash_redirect_target; Crash_update_response; Crash_cancel_last_tx].

Lemma stops_in c w : stops_at c w -> In c stopping_places.
Proof. destruct c; cbn; by tauto. Qed.

Definition wp {A} (m : M A) (Q : A -> world -> Prop) (w : world) : Prop :=
  match m w with Ok a w' => Q a w' | Crash c w' => stops_at c w' end.

Lemma wp_weaken {A} (m : M A) (P Q : A -> world -> Prop) w :
  wp m P w -> (forall a w', P a w' -> Q a w') -> wp m Q w.
Proof. unfold wp. destruct (m w); auto. Qed.

Lemma wp_seq {A B} (m : M A) (k : A -> M B) Q w : wp m (fun a w1 => wp (k a) Q w1) w -> wp (bind m k) Q w.
Proof. unfold wp, bind. by destruct (m w). Qed.

(** ** What a session may be driven by *)

Definition weight (i : input) : nat := match i with In_tsx _ _ => 1 | In_call _ => 2 end.

Definition peer_invite_at (w : world) (x : inv_tsx) : bool :=
  bool_decide (i_state (w_inv w) = PJSIP_INV_STATE_NULL) && bool_decide (d_role (w_dlg w) = PJSIP_ROLE_UAC) &&
  bool_decide (t_role x = PJSIP_ROLE_UAS) && bool_decide (m_id (t_method x) = PJSIP_INVITE_METHOD).

Definition input_ok (w : world) (i : input) : Prop :=
  match i with
  | In_tsx t u => exists x, w_tsxs w !! t = Some x /\ legal_upd x u = true /\ peer_invite_at w x = false
  | In_call c => call_ok c
  end.

Definition received_input (i : input) : bool := match i with In_tsx _ u => received u | In_call _ => false end.

Section Level.
(** The invariant, with enough fuel for what the oracle still has *)
Context (n : nat).

Record st (w : world) : Prop := { st_ok : inv_ok w; st_fuel : (2 * oracle_calls (w_oracle w) <= n)%nat }.

(** From the world [w0] where an operation started *)
Definition ok {A} (g : bool) (m : M A) (R : A -> world -> Prop) (w : world) : Prop :=
  wp m (fun a w' => st w' /\ ext g w w' /\ R a w') w.

Definition T {A} : A -> world -> Prop := fun _ _ => True.

Lemma ok_seq {A B} g (m : M A) (k : A -> M B) R Q w :
  ok g m R w -> (forall a w1, st w1 -> ext g w w1 -> R a w1 -> ok g (k a) Q w1) -> ok g (bind m k) Q w.
Proof.
  intros Hm Hk. apply wp_seq. eapply wp_weaken; [exact Hm|]. intros a w1 (S1 & X1 & R1).
  eapply wp_weaken; [by apply Hk|]. intros b w2 (S2 & X2 & Q2). split; [done|]. split; [by etrans|done].
Qed.

Lemma ok_mono {A} g (m : M A) (R Q : A -> world -> Prop) w : ok g m R w -> (forall a w', R a w' -> Q a w') -> ok g m Q w.
Proof. intros H HR. eapply wp_weaken; [exact H|]. intros a w' (S1 & X1 & R1). auto. Qed.
Lemma ok_beside {A} g (m : M A) (P : world -> world -> Prop) R w : ok g m R w -> (forall a w', m w = Ok a w' -> P w w') ->
  ok g m (fun a w' => R a w' /\ P w w') w.
Proof. unfold ok, wp. intros H HP. destruct (m w) as [a w1|c w1]; [|done]. destruct H as (S & X & Q). split; [done|]. split; [done|]. split; [done|by apply (HP a)]. Qed.
Lemma ok_true {A} g (m : M A) R w : ok g m R w -> ok g m T w.
Proof. intros H. by eapply ok_mono. Qed.
Lemma ok_weaken {A} g (m : M A) R w : ok false m R w -> ok g m R w.
Proof. intros H. eapply wp_weaken; [exact H|]. cbn. intros a w' (S & X & Q). split; [done|]. split; [by apply ext_weaken|done]. Qed.

Lemma ok_ret {A} g (a : A) (R : A -> world -> Prop) w : st w -> R a w -> ok g (ret a) R w.
Proof. intros S H. by split; [|split]. Qed.
Lemma ok_stop {A} g c (R : A -> world -> Prop) w : stops_at c w -> ok g (stop c) R w.
Proof. done. Qed.
Lemma ok_deref {A} g c (p : option A) (R : A -> world -> Prop) w :
  st w -> (p = None -> stops_at c w) -> (forall a, p = Some a -> R a w) -> ok g (deref c p) R w.
Proof. intros S H1 H2. destruct p as [a|]; [|by apply ok_stop, H1]. by apply ok_ret, H2. Qed.

(** What [nested] does for the inputs it has fuel for *)
Definition nested_spec (nested : input -> M unit) : Prop :=
  forall g i w, inv_ok w -> input_ok w i -> (received_input i = true -> g = true) ->
  (2 * oracle_calls (w_oracle w) + weight i <= n)%nat -> wp (nested i) (fun _ w' => inv_ok w' /\ ext g w w') w.

(** Reading *)
Lemma ok_read {A B} g (m : M A) (a : A) (k : A -> M B) Q w : m w = Ok a w -> ok g (k a) Q w -> ok g (bind m k) Q w.
Proof. intros E H. unfold ok, wp, bind. by rewrite E. Qed.
Lemma ok_get {A B} g (f : pjsip_inv_session -> A) (k : A -> M B) Q w : ok g (k (f (w_inv w))) Q w -> ok g (bind (get f) k) Q w.
Proof. by apply ok_read. Qed.
Lemma ok_dlg {A B} g (f : pjsip_dialog -> A) (k : A -> M B) Q w : ok g (k (f (w_dlg w))) Q w -> ok g (bind (dlg f) k) Q w.
Proof. by apply ok_read. Qed.
Lemma ok_tsx_get {B} g t x (k : inv_tsx -> M B) Q w :
  tsx_like t x w -> (forall y, w_tsxs w !! t = Some y -> tsx_ext x y -> ok g (k y) Q w) -> ok g (bind (tsx_get t) k) Q w.
Proof. intros (y & E & X) H. apply (ok_read _ _ y); [unfold tsx_get; by rewrite E|by apply H]. Qed.
Lemma ok_td_get {B} g td P (k : pjsip_tx_data -> M B) Q w :
  td_like td P w -> (forall d, w_tds w !! td = Some d -> P (td_line d) -> ok g (k d) Q w) -> ok g (bind (td_get td) k) Q w.
Proof. intros (d & E & X) H. apply (ok_read _ _ d); [unfold td_get; by rewrite E|by apply H]. Qed.

(** There is fuel for what happens during the call that got this answer. *)
Definition ready (a : answer) (w : world) : Prop :=
  answer_ok a /\ ((0 < calls_of a)%nat -> (2 * oracle_calls (w_oracle w) + 2 <= n)%nat).

Lemma ready_ext g a w w' : ext g w w' -> ready a w -> ready a w'.
Proof. intros X [H1 H2]. split; [done|]. intros H. pose proof (x_fuel _ _ _ X). specialize (H2 H). lia. Qed.

Lemma ok_when g (b : bool) (m : M unit) w : st w -> (b = true -> ok g m T w) -> ok g (when b m) T w.
Proof. intros S H. destruct b; [by apply H|]. by apply ok_ret. Qed.
End Level.
End Safe.

#[global] Arguments destroyed l : simpl never.
#[global] Arguments oracle_calls {N} oracle : simpl never.
