(* ===== verification/InvSafeExt.v ===== *)
(** * INVITE sessions: the calls to other parts keep the invariant *)

From S2P Require Import Prelude SipTypes PjStr Sdp SdpNeg SipTargets SipTargetProps InvData InvExt InvOps InvCalls InvHandlers InvSafe.

(** Carry the facts about the last world to the next one. *)
Ltac lift_facts X :=
  repeat match type of X with ext ?g ?w ?w1 =>
    match goal with
    | H : tsx_like ?t ?x w |- _ => apply (tsx_like_ext g t x w w1 X) in H
    | H : td_like ?td ?P w |- _ =>
        apply (td_like_ext g td P w w1) in H;
        [|first [exact stable_req|exact stable_rsp|exact stable_bye|exact stable_ack|exact stable_any|exact (stable_eq _)]|exact X]
    | H : ready ?n ?a w |- _ => apply (ready_ext n g a w w1 X) in H
    end
  end.

(** The next world, with the facts carried to it *)
Ltac nxt a w1 S1 X1 R1 := intros a w1 S1 X1 R1; cbn beta in R1; lift_facts X1.
Ltac sess_tac := let H := fresh in intros H; destruct H; split; cbn; auto.

Section Ext.
Context {N : Negotiator} (n : nat).
Abbreviation st := (st n).
Abbreviation ok := (ok n).

Lemma ok_exec {A} g (m : M A) a w1 (R : A -> world -> Prop) w : m w = Ok a w1 -> st w1 -> ext g w w1 -> R a w1 -> ok g m R w.
Proof. intros E S X H. unfold InvSafe.ok, wp. by rewrite E. Qed.

(** ** The session *)

Lemma st_put w f : st w -> i_role (f (w_inv w)) = i_role (w_inv w) ->
  (let s := sess_ok in s (w_inv w) (d_role (w_dlg w)) (w_tsxs w) (w_tds w) (destroyed (w_log w)) ->
   s (f (w_inv w)) (d_role (w_dlg w)) (w_tsxs w) (w_tds w) (destroyed (w_log w))) ->
  let w' := mk_world (f (w_inv w)) (w_dlg w) (w_tsxs w) (w_tds w) (w_next w) (w_oracle w) (w_log w) in
  st w' /\ forall g, ext g w w'.
Proof.
  intros [[] F] Hr Hs w'. split; [split; [split; cbn; auto|done]|]. intros g. split; cbn; auto; try done.
  - intros t x E. by exists x.
  - intros td d E. exists d. by split; [|apply line_ext_refl].
  - exists []. by rewrite app_nil_r.
Qed.

(** The new world is the old one but for the session. *)
Definition put_to (f : pjsip_inv_session -> pjsip_inv_session) (w w' : world) : Prop :=
  w' = mk_world (f (w_inv w)) (w_dlg w) (w_tsxs w) (w_tds w) (w_next w) (w_oracle w) (w_log w).

Lemma ok_put g f w : st w -> i_role (f (w_inv w)) = i_role (w_inv w) ->
  (sess_ok (w_inv w) (d_role (w_dlg w)) (w_tsxs w) (w_tds w) (destroyed (w_log w)) ->
   sess_ok (f (w_inv w)) (d_role (w_dlg w)) (w_tsxs w) (w_tds w) (destroyed (w_log w))) ->
  ok g (put f) (fun _ => put_to f w) w.
Proof. intros S Hr Hs. destruct (st_put w f S Hr Hs) as [S' X']. by eapply ok_exec. Qed.

(** A change that no part of the invariant looks at *)
Definition harmless (f : pjsip_inv_session -> pjsip_inv_session) : Prop := forall i,
  i_state (f i) = i_state i /\ i_cause (f i) = i_cause i /\ i_pending_bye (f i) = i_pending_bye i /\ i_neg (f i) = i_neg i /\
  i_invite_tsx (f i) = i_invite_tsx i /\ i_invite_req (f i) = i_invite_req i /\ i_last_answer (f i) = i_last_answer i /\
  i_last_ack (f i) = i_last_ack i /\ i_ref_cnt (f i) = i_ref_cnt i /\ i_role (f i) = i_role i.

Lemma ok_put_harmless g f w : harmless f -> st w -> ok g (put f) (fun _ => put_to f w) w.
Proof.
  intros Hf S. destruct (Hf (w_inv w)) as (E1 & E2 & E3 & E4 & E5 & E6 & E7 & E8 & E9 & E10).
  apply ok_put; [done|done|]. intros []. split; rewrite ?E1, ?E2, ?E3, ?E4, ?E5, ?E6, ?E7, ?E8, ?E9; auto.
Qed.

(** ** Log, dialog, oracle *)

Lemma destroyed_app l e : is_destroy e = false -> destroyed (l ++ [e]) = destroyed l.
Proof. intros E. unfold destroyed. rewrite List.filter_app, length_app. cbn. by rewrite E. Qed.

Definition same_but_log (w w' : world) : Prop :=
  exists l, w' = mk_world (w_inv w) (w_dlg w) (w_tsxs w) (w_tds w) (w_next w) (w_oracle w) l.

Lemma ok_log_entry g e w : st w -> entry_ok e -> is_destroy e = false -> ok g (log e) (fun _ => same_but_log w) w.
Proof.
  intros [[] F] He Hd. eapply ok_exec; [reflexivity| | |by eexists].
  - split; [split; cbn; auto|done]; [by rewrite destroyed_app|by apply Forall_app_2; [|constructor]].
  - split; cbn; auto; try done.
    + intros t x E. by exists x.
    + intros td d E. exists d. by split; [|apply line_ext_refl].
    + by eexists.
Qed.

Lemma ok_dlg_put g f w : st w -> d_role (f (w_dlg w)) = d_role (w_dlg w) ->
  (g = false -> (remaining (d_targets (f (w_dlg w))) <= remaining (d_targets (w_dlg w)))%nat) -> ok g (dlg_put f) T w.
Proof.
  intros [[] F] Hr Ht. eapply ok_exec; [reflexivity| | |done].
  - split; [split; cbn; auto|done]. by rewrite Hr.
  - split; cbn; auto; try done.
    + intros t x E. by exists x.
    + intros td d E. exists d. by split; [|apply line_ext_refl].
    + exists []. by rewrite app_nil_r.
Qed.

(** What an answer brings *)
Definition asked (w : world) (a : answer) (w' : world) : Prop :=
  answer_ok a /\ (oracle_calls (w_oracle w') + calls_of a = oracle_calls (w_oracle w))%nat /\
  w' = mk_world (w_inv w) (w_dlg w) (w_tsxs w) (w_tds w) (w_next w) (tl (w_oracle w)) (w_log w).

Lemma no_answer_ok : answer_ok no_answer.
Proof. by split; [|constructor]. Qed.

Lemma ok_ask g w : st w -> ok g ask (asked w) w.
Proof.
  intros [[] F]. assert (E : (oracle_calls (tl (w_oracle w)) + calls_of (hd no_answer (w_oracle w)) = oracle_calls (w_oracle w))%nat).
  { destruct (w_oracle w); cbn; [done|]. unfold oracle_calls. cbn. lia. }
  eapply ok_exec; [reflexivity| | |].
  - split; [split; cbn; auto|cbn; lia]. by destruct ok_oracle.
  - split; cbn; auto; try done; try lia.
    + intros t x H. by exists x.
    + intros td d H. exists d. by split; [|apply line_ext_refl].
    + exists []. by rewrite app_nil_r.
  - split; [|by split]. destruct ok_oracle; [apply no_answer_ok|done].
Qed.

(** ** Messages and transactions *)

Lemma ok_td_put_as g td P f w : st w -> td_like td P w -> (forall d, P (td_line d) -> line_ext (td_line d) (td_line (f d))) ->
  ok g (td_put td f) T w.
Proof.
  intros [[] F] (d & Ed & Pd) Hf.
  assert (K : lines_kept (w_tds w) (<[td := f d]> (w_tds w))).
  { intros k d' E. destruct (decide (k = td)) as [->|Hn].
    - exists (f d). rewrite lookup_insert_eq. split; [done|]. rewrite Ed in E. injection E as <-. by apply Hf.
    - exists d'. rewrite lookup_insert_ne by done. split; [done|apply line_ext_refl]. }
  eapply ok_exec; [unfold td_put; rewrite Ed; reflexivity| | |done].
  - split; [split; cbn; auto|done].
    + by eapply sess_ok_kept.
    + intros t x E. by eapply tsx_wf_kept; [exact K|eapply ok_tsxs].
    + intros k Hk. rewrite lookup_insert_ne; [auto|]. intros ->. by rewrite (ok_fresh_td _ Hk) in Ed.
  - split; cbn; auto; try done.
    + intros t x E. by exists x.
    + exists []. by rewrite app_nil_r.
Qed.

Lemma ok_td_put g td P f w : st w -> td_like td P w -> (forall d, line_ext (td_line d) (td_line (f d))) -> ok g (td_put td f) T w.
Proof. intros S H Hf. eapply ok_td_put_as; [done|exact H|]. auto. Qed.

Lemma ok_td_new g d (P : pjsip_msg_line -> Prop) w : st w -> P (td_line d) -> ok g (td_new d) (fun td w' => td_like td P w') w.
Proof.
  intros [[] F] HP.
  assert (K : lines_kept (w_tds w) (<[w_next w := d]> (w_tds w))).
  { intros k d' E. exists d'. split; [|apply line_ext_refl]. rewrite lookup_insert_ne; [done|]. intros <-.
    by rewrite ok_fresh_td in E by lia. }
  eapply ok_exec; [reflexivity| | |].
  - split; [split; cbn; auto|done].
    + by eapply sess_ok_kept.
    + intros t x E. by eapply tsx_wf_kept; [exact K|eapply ok_tsxs].
    + intros t Ht. apply ok_fresh_tsx. lia.
    + intros k Hk. rewrite lookup_insert_ne by lia. apply ok_fresh_td. lia.
  - split; cbn; auto; try done; try lia.
    + intros t x E. by exists x.
    + exists []. by rewrite app_nil_r.
  - exists d. cbn. by rewrite lookup_insert_eq.
Qed.

Lemma sess_ok_tsxs i dr tsxs tsxs' tds k :
  (forall t x, tsxs !! t = Some x -> exists x', tsxs' !! t = Some x' /\ tsx_ext x x') ->
  sess_ok i dr tsxs tds k -> sess_ok i dr tsxs' tds k.
Proof.
  intros H []. split; try done. intros t E. destruct (so_invite _ E) as (x & Ex & Em & Er).
  destruct (H _ _ Ex) as (x' & Ex' & []). exists x'. rewrite te_method, te_role. done.
Qed.

Lemma ok_tsx_put g t x f w : st w -> tsx_like t x w ->
  (forall y, w_tsxs w !! t = Some y -> tsx_ext x y -> tsx_ext y (f y) /\ (tsx_wf (w_tds w) y -> tsx_wf (w_tds w) (f y))) ->
  ok g (tsx_put t f) T w.
Proof.
  intros [[] F] (y & Ey & Xy) Hf. destruct (Hf y Ey Xy) as [Hx Hw].
  assert (K : forall k z, w_tsxs w !! k = Some z -> exists z', <[t := f y]> (w_tsxs w) !! k = Some z' /\ tsx_ext z z').
  { intros k z E. destruct (decide (k = t)) as [->|Hn].
    - exists (f y). rewrite lookup_insert_eq. split; [done|]. rewrite Ey in E. by injection E as <-.
    - exists z. by rewrite lookup_insert_ne. }
  eapply ok_exec; [unfold tsx_put; rewrite Ey; reflexivity| | |done].
  - split; [split; cbn; auto|done].
    + by eapply sess_ok_tsxs.
    + intros k z E. destruct (decide (k = t)) as [->|Hn].
      * rewrite lookup_insert_eq in E. injection E as <-. by apply Hw, (ok_tsxs _ _ Ey).
      * rewrite lookup_insert_ne in E by done. by eapply ok_tsxs.
    + intros k Hk. rewrite lookup_insert_ne; [auto|]. intros ->. by rewrite (ok_fresh_tsx _ Hk) in Ey.
  - split; cbn; auto; try done.
    + intros td d E. exists d. by split; [|apply line_ext_refl].
    + exists []. by rewrite app_nil_r.
Qed.

Lemma ok_tsx_new g x w : st w -> tsx_wf (w_tds w) x -> ok g (tsx_new x) (fun t w' => tsx_like t x w') w.
Proof.
  intros [[] F] Hx.
  assert (K : forall k z, w_tsxs w !! k = Some z -> exists z', <[w_next w := x]> (w_tsxs w) !! k = Some z' /\ tsx_ext z z').
  { intros k z E. exists z. split; [|done]. rewrite lookup_insert_ne; [done|]. intros <-. by rewrite ok_fresh_tsx in E by lia. }
  eapply ok_exec; [reflexivity| | |].
  - split; [split; cbn; auto|done].
    + by eapply sess_ok_tsxs.
    + intros k z E. destruct (decide (k = w_next w)) as [->|Hn].
      * rewrite lookup_insert_eq in E. by injection E as <-.
      * rewrite lookup_insert_ne in E by done. by eapply ok_tsxs.
    + intros k Hk. rewrite lookup_insert_ne by lia. apply ok_fresh_tsx. lia.
    + intros k Hk. apply ok_fresh_td. lia.
  - split; cbn; auto; try done; try lia.
    + intros td d E. exists d. by split; [|apply line_ext_refl].
    + exists []. by rewrite app_nil_r.
  - exists x. cbn. by rewrite lookup_insert_eq.
Qed.

Lemma ok_tsx_data g t x f w : st w -> tsx_like t x w -> ok g (tsx_data t f) T w.
Proof.
  intros S H. eapply ok_tsx_put; [done|exact H|]. intros y _ _. split.
  - split; cbn; auto. intros [v Ev]. rewrite Ev. by eexists.
  - unfold tsx_wf, set_t_data. cbn. intros [H0 H1]. split; [done|]. destruct (t_role y); [|done].
    destruct H1 as (H1 & H2 & H3). split; [done|]. split; [done|]. intros Em. destruct (H3 Em) as [[v Ev] H4].
    split; [|done]. rewrite Ev. by eexists.
Qed.

(** ** What happens during a call *)

Section Nested.
Variable nested : input -> M unit.
Hypothesis nested_ok : nested_spec n nested.

Lemma ok_nested g i w : st w -> input_ok w i -> (received_input i = true -> g = true) ->
  (2 * oracle_calls (w_oracle w) + weight i <= n)%nat -> ok g (nested i) T w.
Proof.
  intros [H F] Hi Hr Hf. eapply wp_weaken; [by apply (nested_ok g)|]. intros u w' [H' X']. split; [|done].
  split; [done|]. pose proof (x_fuel _ _ _ X'). lia.
Qed.

Lemma asked_ready w a w1 : st w -> asked w a w1 -> ready n a w1.
Proof. intros [_ F] (H1 & H2 & _). split; [done|]. intros. lia. Qed.

Lemma ok_each {A} g (f : A -> M unit) (P : world -> Prop) l w :
  (forall w w', ext g w w' -> P w -> P w') -> (forall x w, In x l -> st w -> P w -> ok g (f x) T w) ->
  st w -> P w -> ok g (each f l) T w.
Proof.
  intros HP. revert w. induction l as [|x l IH]; intros w Hf S H; cbn [each]; [by apply ok_ret|].
  eapply ok_seq; [apply Hf; [by left|done|done]|]. intros [] w1 S1 X1 _. apply IH; [|done|by eapply HP].
  intros y w2 Hy. apply Hf. by right.
Qed.

Lemma ok_calls g a w : st w -> ready n a w -> ok g (each (fun c => nested (In_call c)) (a_calls a)) T w.
Proof.
  intros S H. apply (ok_each g _ (ready n a)); [intros; by eapply ready_ext| |done|done].
  intros c w1 Hc S1 [[_ Ha] Hf]. apply ok_nested; [done| |done|].
  - rewrite List.Forall_forall in Ha. by apply Ha.
  - apply Hf. unfold calls_of. destruct (a_calls a); [done|cbn; lia].
Qed.

Lemma ok_happen g a w : st w -> ready n a w -> ok g (happen nested a) T w.
Proof. apply ok_calls. Qed.

Lemma ok_happen_to g t x a w : st w -> tsx_like t x w -> ready n a w -> ok g (happen_to nested t a) T w.
Proof.
  intros S Hx Ha. apply (ok_seq n g _ _ T); [|intros [] w1 S1 X1 _; lift_facts X1; by apply ok_calls].
  apply (ok_each g _ (fun w => tsx_like t x w /\ ready n a w)).
  - intros w1 w2 X [H1 H2]. lift_facts X. done.
  - intros u w1 Hu S1 [Hx1 Ha1]. unfold tsx_upd_during. eapply ok_tsx_get; [exact Hx1|]. intros y Ey _.
    unfold peer_invite. eapply ok_seq; [apply ok_get, ok_dlg, (ok_ret n g _ (fun b w' => b = peer_invite_at w1 y /\ w' = w1)); [done|by split]|].
    intros b w2 S2 X2 [-> ->]. destruct (legal_upd y u) eqn:El; cbn [andb]; [|by apply ok_ret].
    destruct (received u) eqn:Er; cbn [andb negb]; [by apply ok_ret|].
    destruct (peer_invite_at w1 y) eqn:Ep; cbn [negb]; [by apply ok_ret|].
    apply ok_nested; [done|by exists y|cbn; by rewrite Er|]. destruct Ha1 as [_ Hf]. cbn. 
    assert (0 < calls_of a)%nat; [|specialize (Hf H); lia]. unfold calls_of. destruct (a_upds a); [done|cbn; lia].
  - done.
  - done.
Qed.

Lemma ok_callback g e w : st w -> entry_ok e -> is_destroy e = false -> ok g (callback nested e) T w.
Proof.
  intros S He Hd. unfold callback. eapply ok_seq; [by apply ok_log_entry|]. intros [] w1 S1 X1 _.
  eapply ok_seq; [by apply ok_ask|]. intros a w2 S2 X2 Ha. pose proof (asked_ready _ _ _ S1 Ha) as Hr.
  eapply ok_seq; [by apply ok_happen|]. intros [] w3 S3 X3 _. by apply ok_ret.
Qed.

(** ** The dialog *)

(** A message that was made has a line with property [P]. *)
Definition made (P : pjsip_msg_line -> Prop) (r : Z * option Z) (w : world) : Prop := forall td, r.2 = Some td -> td_like td P w.

Lemma made_none P st w : made P (st, None) w.
Proof. done. Qed.
Lemma made_some P st td w : td_like td P w -> made P (st, Some td) w.
Proof. intros H td' E. by injection E as <-. Qed.

Lemma ok_create_request g m cseq w : st w -> ok g (pjsip_dlg_create_request m cseq) (made (fun l => l = Req m)) w.
Proof.
  intros S. unfold pjsip_dlg_create_request. eapply ok_seq; [by apply ok_ask|]. intros a w1 S1 X1 _.
  destruct (Z.eqb_spec (a_status a) PJ_SUCCESS) as [E|E]; [|apply ok_ret; [done|apply made_none]]. apply ok_dlg.
  eapply ok_seq; [by apply (ok_td_new g _ (fun l => l = Req m))|]. intros td w2 S2 X2 R2. apply ok_ret; [done|by apply made_some].
Qed.

Lemma ok_create_response g rdata code w : st w -> ok g (pjsip_dlg_create_response rdata code) (made is_rsp) w.
Proof.
  intros S. unfold pjsip_dlg_create_response. eapply ok_seq; [by apply ok_ask|]. intros a w1 S1 X1 _.
  destruct (Z.eqb_spec (a_status a) PJ_SUCCESS) as [E|E]; [|apply ok_ret; [done|apply made_none]].
  eapply ok_seq; [apply (ok_td_new g _ is_rsp); [done|by exists code]|]. intros td w2 S2 X2 R2. apply ok_ret; [done|by apply made_some].
Qed.

Lemma create_response_inv rdata code w a w' : pjsip_dlg_create_response rdata code w = Ok a w' -> w_inv w' = w_inv w.
Proof. unfold pjsip_dlg_create_response, bind, ask, td_new. destruct (_ =? _); by intros [= _ <-]. Qed.

Lemma ok_modify_response g td P code w : st w -> td_like td P w -> ok g (pjsip_dlg_modify_response td code) T w.
Proof.
  intros S H. unfold pjsip_dlg_modify_response. eapply ok_td_get; [exact H|]. intros d Ed Pd.
  destruct (td_line d) as [m|c] eqn:El; [by apply ok_ret|]. destruct (_ || _); [by apply ok_ret|].
  assert (Hq : td_put td (fun d => set_td_ref (td_ref d + 1) (set_td_line (Rsp code) d)) w =
    td_put td (fun d => set_td_ref (td_ref d + 1) (set_td_line (match td_line d with Rsp _ => Rsp code | l => l end) d)) w).
  { unfold td_put. by rewrite Ed, El. }
  assert (Ht : ok g (td_put td (fun d => set_td_ref (td_ref d + 1) (set_td_line (Rsp code) d))) T w).
  { unfold InvSafe.ok, wp. rewrite Hq. eapply (ok_td_put g); [done|exact H|]. intros d'. cbn.
    destruct (td_line d'); [done|by eexists]. }
  eapply ok_seq; [exact Ht|]. intros u w1 S1 X1 _. by apply ok_ret.
Qed.

Lemma ok_add_ref g td P w : st w -> td_like td P w -> ok g (pjsip_tx_data_add_ref td) T w.
Proof. intros S H. eapply ok_td_put; [done|exact H|]. intros d. apply line_ext_refl. Qed.
Lemma ok_dec_ref g td P w : st w -> td_like td P w -> ok g (pjsip_tx_data_dec_ref td) T w.
Proof. intros S H. eapply ok_td_put; [done|exact H|]. intros d. apply line_ext_refl. Qed.
Lemma ok_add_hdr g td P h w : st w -> td_like td P w -> ok g (add_hdr td h) T w.
Proof. intros S H. eapply ok_td_put; [done|exact H|]. intros d. apply line_ext_refl. Qed.
Lemma ok_set_body g td P b w : st w -> td_like td P w -> ok g (set_body td b) T w.
Proof. intros S H. eapply ok_td_put; [done|exact H|]. intros d. apply line_ext_refl. Qed.

Lemma ok_next_cseq g td P b w : st w -> td_like td P w ->
  ok g (when b (bind (dlg d_cseq) (fun c => bind (td_put td (set_td_cseq c)) (fun _ => dlg_put (set_d_cseq (c + 1)))))) T w.
Proof.
  intros S H. apply ok_when; [done|]. intros _. apply ok_dlg.
  eapply ok_seq; [eapply ok_td_put; [done|exact H|intros d; apply line_ext_refl]|].
  intros u w1 S1 X1 _. by apply ok_dlg_put.
Qed.

Lemma ok_send_request g td m data w : st w -> td_like td (fun l => l = Req m) w ->
  (m_id m = PJSIP_INVITE_METHOD -> is_Some data) ->
  entry_ok (E_send_request td m (i_role (w_inv w)) (i_state (w_inv w)) (i_cause (w_inv w))) ->
  ok g (pjsip_dlg_send_request nested td data) T w.
Proof.
  intros S H Hd He. unfold pjsip_dlg_send_request. eapply ok_td_get; [exact H|]. intros d Ed ->. apply ok_get.
  eapply ok_seq; [by apply ok_log_entry|]. intros u1 w1 S1 X1 _. lift_facts X1.
  eapply ok_seq; [by apply ok_ask|]. intros a w2 S2 X2 Ra. pose proof (asked_ready _ _ _ S1 Ra) as Ha. lift_facts X2.
  eapply ok_seq; [by eapply ok_next_cseq|]. intros u3 w3 S3 X3 _. lift_facts X3.
  destruct (bool_decide (m_id m = PJSIP_ACK_METHOD)).
  { eapply ok_seq; [by apply ok_happen|]. intros u4 w4 S4 X4 _. by apply ok_ret. }
  destruct (a_sel a =? 0); [|by apply ok_ret]. cbn [negb].
  eapply ok_td_get; [exact H|]. intros d2 Ed2 El2.
  eapply ok_seq; [apply ok_tsx_new; [done|]|].
  - split; [done|]. cbn. split; [by eexists|]. split; [|intros Em; split; [by apply Hd|intros Hq; by vm_compute in Hq]].
    intros td' E. injection E as <-. exists d2. split; [done|]. by exists m.
  - intros t w4 S4 X4 Rt. cbn beta in Rt. lift_facts X4. eapply ok_seq; [by eapply ok_happen_to|]. intros u5 w5 S5 X5 _. by apply ok_ret.
Qed.

Lemma ok_send_response g t x td P w : st w -> tsx_like t x w -> td_like td P w -> ok g (pjsip_dlg_send_response nested t td) T w.
Proof.
  intros S Ht H. unfold pjsip_dlg_send_response. eapply ok_td_get; [exact H|]. intros d Ed Pd.
  destruct (td_line d) as [m|c] eqn:El; [by apply ok_ret|].
  assert (Hr : td_like td is_rsp w) by (exists d; split; [done|by exists c]).
  eapply ok_seq; [by apply ok_log_entry|]. intros u1 w1 S1 X1 _. lift_facts X1.
  eapply ok_seq; [by apply ok_ask|]. intros a w2 S2 X2 Ra. pose proof (asked_ready _ _ _ S1 Ra) as Ha. lift_facts X2.
  eapply ok_seq; [eapply ok_tsx_put; [done|exact Ht|]|].
  - intros y Ey Xy. case_bool_decide as Er; [|by split]. split; [split; cbn; auto; by eexists|].
    unfold tsx_wf. cbn. rewrite Er. intros [H0 _]. split; [done|]. intros td' E. injection E as <-. exact Hr.
  - intros u3 w3 S3 X3 _. lift_facts X3. eapply ok_seq; [by eapply ok_happen_to|]. intros u4 w4 S4 X4 _. by apply ok_ret.
Qed.

(** ** Transactions and the other modules *)

Lemma ok_terminate g t x code w : st w -> tsx_like t x w -> (2 * oracle_calls (w_oracle w) + 1 <= n)%nat ->
  (forall y, w_tsxs w !! t = Some y -> 200 <= code -> state_num (t_state y) < 6 ->
     legal_upd y (mk_upd PJSIP_TSX_STATE_TERMINATED code Src_user None) = true /\ peer_invite_at w y = false) ->
  ok g (pjsip_tsx_terminate nested t code) T w.
Proof.
  intros S Ht Hf Hl. unfold pjsip_tsx_terminate. eapply ok_seq; [by apply ok_log_entry|]. intros u1 w1 S1 X1 [l El]. lift_facts X1.
  eapply ok_tsx_get; [exact Ht|]. intros y Ey _. rewrite El in Ey. apply ok_when; [done|]. intros Hb.
  apply andb_true_iff in Hb as [Hb1 Hb2]. apply Z.leb_le in Hb1. apply Z.ltb_lt in Hb2.
  destruct (Hl y Ey Hb1 Hb2) as [H1 H2].
  apply ok_nested; [done| |done|]; rewrite El; [|done]. by exists y.
Qed.

Lemma ok_create_cancel g t x w : st w -> tsx_like t x w -> (forall y, w_tsxs w !! t = Some y -> 100 <= t_status y) ->
  ok g (pjsip_endpt_create_cancel t) (made is_req) w.
Proof.
  intros S Ht H100. unfold pjsip_endpt_create_cancel. eapply ok_tsx_get; [exact Ht|]. intros y Ey _.
  eapply (ok_seq n g _ _ (fun td w' => w' = w /\ t_last_tx y = Some td)); [apply ok_deref; [done| |done]|].
  { intros E. exists t, y. split; [done|]. split; [|done]. destruct S as [[] _]. pose proof (ok_tsxs _ _ Ey) as [_ Hw].
    destruct (t_role y); [|done]. destruct Hw as ([? Hs] & _). congruence. }
  intros td w1 S1 X1 [-> El].
  assert (Htd : td_like td any_line w).
  { destruct S as [[] _]. pose proof (ok_tsxs _ _ Ey) as [_ Hw]. destruct (t_role y).
    - destruct Hw as (_ & Hl & _). destruct (Hl _ El) as (d & Ed & _). by exists d.
    - destruct (Hw _ El) as (d & Ed & _). by exists d. }
  eapply ok_td_get; [exact Htd|]. intros d Ed _.
  eapply ok_seq; [apply ok_log_entry; [done|by eapply H100|done]|]. intros u2 w2 S2 X2 _.
  eapply ok_seq; [by apply ok_ask|]. intros a w3 S3 X3 _.
  destruct (negb _); [apply ok_ret; [done|apply made_none]|].
  destruct (Z.eqb_spec (a_status a) PJ_SUCCESS) as [E|E]; [|apply ok_ret; [done|apply made_none]].
  eapply ok_seq; [apply (ok_td_new g _ is_req); [done|by eexists]|]. intros td2 w4 S4 X4 R4. apply ok_ret; [done|by apply made_some].
Qed.

Lemma ok_reinit g p P w : st w -> is_Some p -> line_at P (w_tds w) p -> line_stable P ->
  ok g (pjsip_auth_clt_reinit_req p) (made P) w.
Proof.
  intros S [td ->] H HP. unfold pjsip_auth_clt_reinit_req. eapply ok_seq; [by apply ok_ask|]. intros a w1 S1 X1 _.
  assert (Ht : td_like td P w1) by (eapply td_like_ext; [done|exact X1|by apply (H td)]).
  destruct (Z.eqb_spec (a_status a) PJ_SUCCESS) as [E|E]; [|apply ok_ret; [done|apply made_none]].
  eapply (ok_seq n g _ _ (fun td' w' => td' = td /\ w' = w1)); [by apply ok_ret|]. intros td' w2 S2 X2 [-> ->].
  eapply ok_seq; [eapply ok_td_put; [done|exact Ht|intros d; apply line_ext_refl]|]. intros u w3 S3 X3 _.
  apply ok_ret; [done|]. apply made_some. by eapply td_like_ext.
Qed.

Lemma ok_timer g w : st w -> ok g (timer_call nested) (fun r _ => 100 <= r.2) w.
Proof.
  intros S. unfold timer_call. eapply ok_seq; [by apply ok_ask|]. intros a w1 S1 X1 Ra.
  pose proof (asked_ready _ _ _ S Ra) as Ha. eapply ok_seq; [by apply ok_happen|]. intros u w2 S2 X2 _.
  apply ok_ret; [done|]. apply Ra.
Qed.

Lemma ok_timer_status g w : st w -> ok g (bind (timer_call nested) (fun r => ret r.1)) T w.
Proof. intros S. eapply ok_seq; [by apply ok_timer|]. intros r w1 S1 X1 _. by apply ok_ret. Qed.

Lemma ok_timer_end g w : st w -> ok g pjsip_timer_end_session T w.
Proof. intros S. eapply ok_true. by apply ok_log_entry. Qed.
End Nested.
End Ext.
