(* ===== verification/InvSafeOps.v ===== *)
(** * INVITE sessions: the operations of InvOps.v keep the invariant *)

From S2P Require Import Prelude SipTypes PjStr Sdp SdpNeg SipTargets SipTargetProps InvData InvExt InvOps InvCalls InvHandlers InvSafe InvSafeExt.

(** A sequence whose first operation satisfies [L] *)
Ltac step_ L := eapply ok_seq; [eapply L; eauto|].

Section Ops.
Context {N : Negotiator} {Str : PjString} (cfg : inv_config) (n : nat).
Abbreviation st := (st n).
Abbreviation ok := (ok n).

(** ** References *)

Lemma ok_put_free g f w : harmless f -> st w -> ok g (put f) T w.
Proof. intros Hf S. eapply ok_true. by apply ok_put_harmless. Qed.

Lemma sess_of w : st w -> sess_ok (w_inv w) (d_role (w_dlg w)) (w_tsxs w) (w_tds w) (destroyed (w_log w)).
Proof. by intros [[] _]. Qed.

Lemma ok_drop_ref g (f : pjsip_inv_session -> option Z) P clear w :
  st w -> line_at P (w_tds w) (f (w_inv w)) -> (forall i, i_role (clear i) = i_role i) ->
  (forall i dr tsxs tds k, sess_ok i dr tsxs tds k -> sess_ok (clear i) dr tsxs tds k) -> ok g (drop_ref f clear) T w.
Proof.
  intros S H Hr Hs. unfold drop_ref. apply ok_get. destruct (f (w_inv w)) as [td|] eqn:E; [|by apply ok_ret].
  step_ ok_dec_ref. { by apply line_at_like with (p := Some td). }
  nxt u w1 S1 X1 R1. eapply ok_true. apply ok_put; [done|apply Hr|apply Hs].
Qed.

Ltac sess_clear := intros i dr tsxs tds k []; split; cbn; auto; by intros ? ?.

Lemma ok_drop_ack g w : st w -> ok g (drop_ref i_last_ack (set_i_last_ack None)) T w.
Proof. intros S. eapply ok_drop_ref; [done|apply (sess_of _ S)|done|sess_clear]. Qed.
Lemma ok_drop_req g w : st w -> ok g (drop_ref i_invite_req (set_i_invite_req None)) T w.
Proof. intros S. eapply ok_drop_ref; [done|apply (sess_of _ S)|done|sess_clear]. Qed.
Lemma ok_drop_bye g w : st w -> ok g (drop_ref i_pending_bye (set_i_pending_bye None)) T w.
Proof. intros S. eapply ok_drop_ref; [done|apply (sess_of _ S)|done|sess_clear]. Qed.
Lemma ok_drop_answer g w : st w -> ok g (drop_ref i_last_answer (set_i_last_answer None)) T w.
Proof. intros S. eapply ok_drop_ref; [done|apply (sess_of _ S)|done|sess_clear]. Qed.

Lemma ok_inv_add_ref g w : st w -> ok g pjsip_inv_add_ref T w.
Proof.
  intros S. unfold pjsip_inv_add_ref. apply ok_get. destruct (i_ref_cnt (w_inv w)) as [k|] eqn:E; [|by apply ok_ret].
  step_ ok_put; [|nxt u w1 S1 X1 R1; by apply ok_ret].
  intros []. split; cbn; auto. rewrite E in so_ref. destruct so_ref. split; [lia|done].
Qed.

(** What no step of the destruction changes *)
Definition same_refs (w w' : world) : Prop :=
  i_ref_cnt (w_inv w') = i_ref_cnt (w_inv w) /\ destroyed (w_log w') = destroyed (w_log w).

Lemma drop_ref_refs f clear w w' u : (forall i, i_ref_cnt (clear i) = i_ref_cnt i) -> drop_ref f clear w = Ok u w' -> same_refs w w'.
Proof.
  intros Hc. unfold drop_ref, bind, get. destruct (f (w_inv w)) as [td|]; [|by intros E; injection E as <- <-].
  unfold pjsip_tx_data_dec_ref, td_put. destruct (w_tds w !! td); [|done]. intros E. injection E as <- <-. by split; cbn.
Qed.

(** A step of the destruction, which keeps the counter *)
Lemma ok_keep_refs {A} g (m : M A) (P : Prop) w : ok g m T w -> (forall a w', m w = Ok a w' -> same_refs w w') ->
  ok g m (fun _ => same_refs w) w.
Proof.
  intros H Hm. unfold InvSafe.ok, wp in *. destruct (m w) as [a w'|c] eqn:E; [|done]. destruct H as (S & X & _). eauto.
Qed.

Lemma same_refs_trans w w1 w2 : same_refs w w1 -> same_refs w1 w2 -> same_refs w w2.
Proof. intros [] []. split; congruence. Qed.

Lemma ok_destroy g k w : st w -> i_ref_cnt (w_inv w) = Some k -> ok g inv_session_destroy T w.
Proof.
  intros S Hk. unfold inv_session_destroy.
  eapply ok_seq; [apply (ok_keep_refs g _ True); [by apply ok_drop_ack|intros ? ? HE; eapply drop_ref_refs; [|exact HE]; done]|]. nxt u1 w1 S1 X1 R1.
  eapply ok_seq; [apply (ok_keep_refs g _ True); [by apply ok_drop_req|intros ? ? HE; eapply drop_ref_refs; [|exact HE]; done]|]. nxt u2 w2 S2 X2 R2.
  eapply ok_seq; [apply (ok_keep_refs g _ True); [by apply ok_drop_bye|intros ? ? HE; eapply drop_ref_refs; [|exact HE]; done]|]. nxt u3 w3 S3 X3 R3.
  assert (R : same_refs w w3) by (by eapply same_refs_trans; [eapply same_refs_trans|]).
  eapply ok_seq; [apply (ok_keep_refs g _ True); [eapply ok_true; by apply ok_log_entry|]|].
  { intros a w' E. injection E as <- <-. split; [done|]. cbn. by rewrite destroyed_app. }
  nxt u4 w4 S4 X4 R4.
  eapply ok_seq; [apply (ok_keep_refs g _ True); [by apply ok_timer_end|]|].
  { intros a w' E. injection E as <- <-. split; [done|]. cbn. by rewrite destroyed_app. }
  nxt u5 w5 S5 X5 R5.
  eapply ok_seq; [apply (ok_keep_refs g _ True); [by apply ok_dlg_put|]|].
  { intros a w' E. injection E as <- <-. by split. }
  nxt u6 w6 S6 X6 R6.
  assert (R' : same_refs w w6) by (repeat (eapply same_refs_trans; [eassumption|]); by split).
  destruct R' as [Ek Ed]. destruct (sess_of _ S) as [_ _ _ _ _ _ _ _ _ Href]. rewrite Hk in Ek, Href. destruct Href as [Hk0 Hd0].
  rewrite Hd0 in Ed. destruct S6 as [[[] ] F6]. eapply (ok_exec n); [reflexivity| | |done].
  - split; [split; cbn; auto|done].
    + split; cbn; auto. unfold destroyed in *. by rewrite List.filter_app, length_app, Ed.
    + by apply Forall_app_2; [|constructor].
  - split; cbn; auto; try done.
    + intros t x E. by exists x.
    + intros td d E. exists d. by split; [|apply line_ext_refl].
    + by eexists.
Qed.

Lemma ok_inv_dec_ref g w : st w -> ok g pjsip_inv_dec_ref T w.
Proof.
  intros S. unfold pjsip_inv_dec_ref. apply ok_get. destruct (i_ref_cnt (w_inv w)) as [k|] eqn:E; [|by apply ok_ret].
  destruct (Z.eqb_spec (k - 1) 0) as [Ek|Ek].
  - step_ ok_destroy. nxt u w1 S1 X1 R1. by apply ok_ret.
  - step_ ok_put; [|nxt u w1 S1 X1 R1; by apply ok_ret].
    intros []. split; cbn; auto. rewrite E in so_ref. destruct so_ref. split; [lia|done].
Qed.

(** ** The cause *)

Lemma ok_set_cause g code text w : st w -> 0 < code -> ok g (inv_set_cause code text) (fun _ w' => 0 < i_cause (w_inv w')) w.
Proof.
  intros S Hc. unfold inv_set_cause. apply ok_get, ok_get. unfold when.
  destruct ((i_cause (w_inv w) <? code) || is_some (i_pending_bye (w_inv w))) eqn:E.
  - eapply ok_seq; [apply ok_put; [done|done|]|].
    + intros []. split; cbn; auto. lia.
    + nxt u w1 S1 X1 R1. unfold put_to in R1. subst w1.
      eapply ok_mono; [by apply ok_put_harmless|]. intros a w' ->. done.
  - apply ok_ret; [done|]. apply orb_false_iff in E as [E _]. apply Z.ltb_ge in E. lia.
Qed.

Lemma tsx_status_pos t x w y : tsx_like t x w -> 100 <= t_status x -> w_tsxs w !! t = Some y -> 100 <= t_status y.
Proof. intros (z & E & X) H E'. rewrite E in E'. injection E' as <-. by apply (te_status _ _ X). Qed.

Lemma ok_cause_of_tsx g t x w : st w -> tsx_like t x w -> 100 <= t_status x ->
  ok g (set_cause_of_tsx t) (fun _ w' => 0 < i_cause (w_inv w')) w.
Proof.
  intros S Ht Hx. unfold set_cause_of_tsx. eapply ok_tsx_get; [exact Ht|]. intros y Ey Xy.
  apply ok_set_cause; [done|]. pose proof (te_status _ _ Xy Hx). lia.
Qed.

(** ** The negotiator *)

Lemma neg_of w m : st w -> i_neg (w_inv w) = Some m -> neg_wf m.
Proof. intros S E. pose proof (so_neg _ _ _ _ _ (sess_of _ S)) as H. by rewrite E in H. Qed.

Lemma ok_set_neg g m w : st w -> neg_wf m -> ok g (put (set_i_neg (Some m))) T w.
Proof. intros S H. eapply ok_true. apply ok_put; [done|done|]. intros []. by split; cbn. Qed.

Lemma ok_neg_set g r w : st w -> neg_wf r.2 -> ok g (neg_set r) T w.
Proof. intros S H. unfold neg_set. step_ ok_set_neg. nxt u w1 S1 X1 R1. by apply ok_ret. Qed.

Lemma ok_neg_create g (r : Z * option neg) w : st w -> (forall m, r.2 = Some m -> neg_wf m) -> ok g (neg_create r) T w.
Proof.
  intros S H. unfold neg_create. apply (ok_seq n g _ _ T); [|nxt u w1 S1 X1 R1; by apply ok_ret].
  destruct r.2 as [m|]; [by apply ok_set_neg; [|apply H]|by apply ok_ret].
Qed.

Lemma ok_neg_opt g c (r : option (Z * neg)) w : st w -> (r = None -> stops_at c w) -> (forall s m, r = Some (s, m) -> neg_wf m) ->
  ok g (neg_opt c r) T w.
Proof. intros S Hc H. destruct r as [[s m]|]; [|by apply Hc]. apply ok_neg_set; [done|]. by eapply H. Qed.

Lemma ok_with_neg g (f : neg -> M Z) w : st w -> (forall m, i_neg (w_inv w) = Some m -> neg_wf m -> ok g (f m) T w) -> ok g (with_neg f) T w.
Proof.
  intros S H. unfold with_neg. apply ok_get. destruct (i_neg (w_inv w)) as [m|] eqn:E; [|by apply ok_ret].
  apply H; [done|]. by eapply neg_of.
Qed.

Lemma ok_cancel_offer g w : st w -> ok g cancel_offer T w.
Proof. intros S. apply ok_with_neg; [done|]. intros m _ Hm. apply ok_neg_set; [done|]. by apply neg_cancel_wf. Qed.

Lemma ok_modify_offer g s w : st w -> ok g (modify_offer s) T w.
Proof.
  intros S. unfold modify_offer. apply ok_get, ok_with_neg; [done|]. intros m Em Hm. apply ok_neg_opt; [done|by exists m, (has_option (i_sdp_neg_flags (w_inv w)) 1), s|].
  intros st' m'. by apply neg_modify_wf.
Qed.

Lemma ok_neg_is {B} g s (k : bool -> M B) Q w :
  ok g (k (bool_decide (match i_neg (w_inv w) with Some m => neg_state_of m | None => PJMEDIA_SDP_NEG_STATE_NULL end = s))) Q w ->
  ok g (bind (neg_is s) k) Q w.
Proof. by apply ok_read. Qed.

Lemma ok_neg_state {B} g (k : pjmedia_sdp_neg_state -> M B) Q w :
  (forall s, ok g (k s) Q w) -> ok g (bind neg_state k) Q w.
Proof. intros H. by eapply ok_read; [reflexivity|]. Qed.

Lemma ok_neg_read {B} g (f : neg -> Z + sdp) (k : Z + sdp -> M B) Q w :
  (forall r, ok g (k r) Q w) -> ok g (bind (neg_read f) k) Q w.
Proof. intros H. by eapply ok_read; [reflexivity|]. Qed.

Lemma ok_when_op {A} g b (m : M A) w : st w -> ok g m T w -> ok g (when b (bind m (fun _ => skip))) T w.
Proof. intros S H. apply ok_when; [done|]. intros _. eapply ok_seq; [exact H|]. nxt u w1 S1 X1 R1. by apply ok_ret. Qed.

Lemma ok_cancel_if g b w : st w -> ok g (when b (bind cancel_offer (fun _ => skip))) T w.
Proof. intros S. by apply ok_when_op, ok_cancel_offer. Qed.

Section Nested.
Variable nested : input -> M unit.
Hypothesis nested_ok : nested_spec n nested.

Lemma ok_callback_if g b e w : st w -> entry_ok e -> is_destroy e = false ->
  ok g (when b (bind (callback nested e) (fun _ => skip))) T w.
Proof. intros S H1 H2. by apply ok_when_op, ok_callback. Qed.

Lemma ok_negotiate g w : st w -> ok g (inv_negotiate_sdp cfg nested) T w.
Proof.
  intros S. unfold inv_negotiate_sdp. apply ok_neg_is. case_bool_decide as Ew; [|by apply ok_ret]. cbn [negb].
  eapply ok_seq; [apply ok_with_neg; [done|]|].
  { intros m Em Hm. apply ok_neg_opt; [done|by exists m|]. intros s m'. by apply neg_negotiate_wf. }
  nxt status w1 S1 X1 R1. apply ok_get. eapply ok_seq; [by apply ok_callback_if|].
  nxt u w2 S2 X2 R2. apply ok_get, ok_get. destruct (bool_decide _); by apply ok_ret.
Qed.

Lemma ok_mark_done g t x w : st w -> tsx_like t x w -> ok g (mark_sdp_done t) T w.
Proof. apply ok_tsx_data. Qed.

Definition known (t : option Z) (w : world) : Prop := forall t', t = Some t' -> exists x, tsx_like t' x w.

Lemma known_ext g t w w' : ext g w w' -> known t w -> known t w'.
Proof. intros X H t' E. destruct (H t' E) as [x Hx]. exists x. by eapply tsx_like_ext. Qed.

Lemma invite_known w : st w -> known (i_invite_tsx (w_inv w)) w.
Proof.
  intros S t E. destruct (so_invite _ _ _ _ _ (sess_of _ S) t E) as (x & Ex & _). exists x. by apply tsx_like_eq.
Qed.

(** A transaction without data of the session is not our INVITE. *)
Lemma no_data_at g w w' t y : st w -> ext g w w' -> w_tsxs w !! t = Some y -> t_data y = None ->
  exists t x, w_tsxs w' !! t = Some x /\ ~ (t_role x = PJSIP_ROLE_UAC /\ m_id (t_method x) = PJSIP_INVITE_METHOD).
Proof.
  intros S X E En. destruct (x_tsxs _ _ _ X _ _ E) as (x & Ex & Hx). exists t, x. split; [done|]. intros [Hr Hm].
  destruct S as [[] _]. pose proof (ok_tsxs _ _ E) as [_ H]. rewrite (te_role _ _ Hx) in Hr. rewrite (te_method _ _ Hx) in Hm.
  rewrite Hr in H. destruct H as (_ & _ & H). destruct (H Hm) as [[? Hs] _]. congruence.
Qed.

Lemma ok_pending_answer g t w : st w -> known t w -> ok g (inv_has_pending_answer cfg nested t) T w.
Proof.
  intros S Ht. unfold inv_has_pending_answer. apply ok_get. destruct (i_neg (w_inv w)) as [m|]; [|by apply ok_ret].
  destruct (_ && _); [|by apply ok_ret].
  eapply (ok_seq n g _ _ (fun v w' => w' = w /\ match v with Some (t', v) => exists y, w_tsxs w !! t' = Some y /\ v = t_data y | None => True end)).
  { destruct t as [t|]; [|by apply ok_ret]. destruct (Ht t eq_refl) as [x Hx]. eapply ok_tsx_get; [exact Hx|].
    intros y Ey _. apply ok_ret; [done|]. split; [done|]. by exists y. }
  nxt v w1 S1 X1 R1. destruct R1 as [-> Hv]. eapply ok_seq; [by apply ok_negotiate|].
  nxt status w2 S2 X2 R2. destruct (status =? PJ_SUCCESS); [|by apply ok_ret]. cbn [negb].
  apply (ok_seq n g _ _ T).
  - destruct v as [[t' v]|]; [|by apply ok_ret]. destruct Hv as (y & Ey & ->).
    eapply (ok_seq n g _ _ T); [apply ok_deref; [done| |done]; by apply (no_data_at g w w2 t')|]. nxt d w3 S3 X3 R3.
    apply (ok_mark_done g t' y); [done|]. eapply tsx_like_ext; [exact X3|]. eapply tsx_like_ext; [exact X2|]. by apply tsx_like_eq.
  - nxt u w3 S3 X3 R3. apply ok_neg_read. intros r. by apply ok_ret.
Qed.

(** ** Descriptions in messages *)

Lemma ok_attach g t x v w : st w -> tsx_like t x w -> ok g (attach_data t v) T w.
Proof.
  intros S H. eapply ok_tsx_put; [done|exact H|]. intros y _ _. split; [split; cbn; auto; by eexists|].
  unfold tsx_wf. cbn. intros [H0 H1]. split; [done|]. destruct (t_role y); [|done].
  destruct H1 as (H1 & H2 & H3). split; [done|]. split; [done|]. intros Em. split; [by eexists|]. by apply H3.
Qed.

Lemma uac_last_tx w t y : st w -> w_tsxs w !! t = Some y -> t_role y = PJSIP_ROLE_UAC ->
  is_Some (t_last_tx y) /\ line_at is_req (w_tds w) (t_last_tx y).
Proof. intros [[] _] E Er. destruct (ok_tsxs _ _ E) as [_ H]. rewrite Er in H. by destruct H as (H1 & H2 & _). Qed.

Lemma ok_forked_offer g t x w : st w -> tsx_like t x w -> t_role x = PJSIP_ROLE_UAC -> ok g (forked_offer t) T w.
Proof.
  intros S H Er. unfold forked_offer. eapply ok_tsx_get; [exact H|]. intros y Ey Xy.
  destruct (uac_last_tx w t y S Ey) as [[td Etd] Hl]; [by rewrite (te_role _ _ Xy)|]. rewrite Etd in *.
  eapply (ok_seq n g _ _ (fun td' w' => td' = td /\ w' = w)); [by apply ok_ret|]. nxt td' w1 S1 X1 R1. destruct R1 as [-> ->].
  eapply (ok_td_get n g td is_req); [by apply Hl|]. intros d Ed Pd.
  eapply (ok_seq n g _ _ T); [apply ok_deref; [done| |done]; intros Eb; by exists t, y, td, d|]. nxt b w2 S2 X2 R2. destruct (b_data b); [by apply ok_ret|by apply ok_modify_offer].
Qed.

Lemma ok_sdp_offer g rdata s w : st w -> ok g (process_sdp_offer cfg nested rdata s) T w.
Proof.
  intros S. unfold process_sdp_offer. apply ok_get. apply (ok_seq n g _ _ T).
  { destruct (i_neg (w_inv w)) as [m|] eqn:E.
    - apply ok_neg_set; [done|]. apply neg_remote_offer_wf. by eapply neg_of.
    - apply ok_neg_create; [done|]. intros m Em. destruct (neg_create_w_remote_offer None s) as [st' r] eqn:Er.
      cbn in Em. subst r. by eapply neg_create_remote_wf. }
  nxt status w1 S1 X1 R1. destruct (status =? PJ_SUCCESS); [|by apply ok_ret]. cbn [negb]. apply ok_get.
  eapply ok_seq; [by apply ok_callback_if|]. nxt u w2 S2 X2 R2. apply ok_neg_is, ok_get.
  destruct (negb _); [|by apply ok_ret]. destruct (rd_line rdata); [destruct (_ && _)|]; by apply ok_ret.
Qed.

Lemma ok_sdp_answer g t x rdata s w : st w -> tsx_like t x w -> ok g (process_sdp_answer cfg nested t rdata s) T w.
Proof.
  intros S H. unfold process_sdp_answer. eapply ok_seq; [apply ok_with_neg; [done|]|].
  { intros m _ Hm. apply ok_neg_set; [done|]. by apply neg_remote_answer_wf. }
  nxt status w1 S1 X1 R1. destruct (status =? PJ_SUCCESS); [|by apply ok_ret]. cbn [negb].
  eapply ok_seq; [by apply ok_negotiate|]. nxt u w2 S2 X2 R2.
  eapply ok_seq; [by eapply ok_tsx_data|]. nxt v w3 S3 X3 R3. by apply ok_ret.
Qed.

Lemma ok_sdp_body g t x rdata info w : st w -> tsx_like t x w -> ok g (process_sdp_body cfg nested t rdata info) T w.
Proof.
  intros S H. unfold process_sdp_body. destruct (negb _); [by apply ok_ret|]. apply ok_get, ok_neg_state. intros s.
  destruct (_ || _); [destruct (si_sdp info); [by apply ok_sdp_offer|by apply ok_ret]|].
  destruct (bool_decide _); [|by apply ok_ret]. destruct (si_sdp info); [by eapply ok_sdp_answer|by apply ok_ret].
Qed.

Lemma ok_check_sdp g t x rdata w : st w -> tsx_like t x w -> ok g (inv_check_sdp_in_incoming_msg cfg nested t rdata) T w.
Proof.
  intros S H. unfold inv_check_sdp_in_incoming_msg. destruct (rd_body rdata) as [b|]; [|by apply ok_ret].
  destruct (negb _); [by apply ok_ret|]. eapply ok_tsx_get; [exact H|]. intros y Ey Xy.
  pose proof (tsx_like_eq _ _ _ Ey) as Hy.
  eapply ok_seq; [by eapply ok_attach|]. nxt u1 w1 S1 X1 R1.
  eapply ok_seq; [by apply ok_put_free|]. nxt u2 w2 S2 X2 R2.
  set (v := match t_data y with Some v => v | None => _ end). destruct (sdp_done v); [|by eapply ok_sdp_body].
  destruct (from_other_fork cfg y v rdata) eqn:Ef; [|by apply ok_ret].
  eapply ok_seq; [eapply ok_forked_offer; [done|exact Hy|]|].
  { unfold from_other_fork in Ef. by case_bool_decide. }
  nxt status w3 S3 X3 R3. destruct (negb _); [by apply ok_ret|].
  eapply ok_seq; [by apply ok_put_free|]. nxt u4 w4 S4 X4 R4. by eapply ok_sdp_body.
Qed.
(** ** Answers *)

Lemma ok_create_local g s w : st w -> ok g (neg_create (neg_create_w_local_offer s)) T w.
Proof.
  intros S. apply ok_neg_create; [done|]. intros m Em. destruct (neg_create_w_local_offer s) as [st' r] eqn:Er.
  cbn in Em. subst r. by eapply neg_create_local_wf.
Qed.

Lemma ok_local_answer g m s w : st w -> neg_wf m -> ok g (neg_set (neg_set_local_answer m s)) T w.
Proof. intros S Hm. apply ok_neg_set; [done|]. by apply neg_local_answer_wf. Qed.

Lemma ok_use_local_sdp g s w : st w -> ok g (use_local_sdp s) T w.
Proof.
  intros S. unfold use_local_sdp. apply ok_get. destruct (i_neg (w_inv w)) as [m|] eqn:E; [|by apply ok_create_local].
  destruct (bool_decide _); [|by apply ok_ret]. apply ok_local_answer; [done|]. by eapply neg_of.
Qed.

(** The description of an answer is put together when there is an INVITE transaction. *)
Lemma ok_answer_sdp g code w : st w -> ok g (answer_sdp cfg nested code) T w.
Proof.
  intros S. unfold answer_sdp. destruct (_ || _); [|by apply ok_ret]. apply ok_get.
  destruct (i_neg (w_inv w)) as [m|] eqn:Em; [|by apply ok_ret]. destruct (bool_decide _); [by apply ok_ret|].
  destruct (_ && _) eqn:Ew; [|by apply ok_ret]. apply andb_true_iff in Ew as [Ew _]. apply bool_decide_eq_true in Ew.
  apply ok_get. pose proof (invite_known w S) as Hk.
  destruct (i_invite_tsx (w_inv w)) as [t|] eqn:Et; [|split; [done|]; exists m; split; [done|]; by left]. destruct (Hk t eq_refl) as [x Hx].
  eapply (ok_seq n g _ _ (fun t' w' => t' = t /\ w' = w)); [by apply ok_ret|]. nxt t' w1 S1 X1 R1. destruct R1 as [-> ->].
  eapply ok_tsx_get; [exact Hx|]. intros y Ey _.
  eapply ok_seq; [by apply ok_negotiate|]. nxt status w2 S2 X2 R2. destruct (negb _); [by apply ok_ret|].
  eapply (ok_seq n g _ _ T); [apply ok_deref; [done| |done]; by apply (no_data_at g w w2 t)|]. nxt v w3 S3 X3 R3.
  eapply ok_seq; [by eapply ok_mark_done|]. nxt u w4 S4 X4 R4. apply ok_neg_read. intros r. by apply ok_ret.
Qed.

Lemma ok_process_answer g code td P s w : st w -> line_stable P -> td_like td P w ->
  ok g (process_answer cfg nested code td s) (fun _ => td_like td P) w.
Proof.
  intros S HP H. unfold process_answer. apply (ok_seq n g _ _ T).
  { destruct s as [s|]; [|by apply ok_ret]. destruct (_ || _); [by apply ok_use_local_sdp|by apply ok_ret]. }
  intros status w1 S1 X1 _. apply (td_like_ext g td P w w1) in H; [|done|done]. destruct (negb _); [by apply ok_ret|].
  eapply ok_seq; [by apply ok_answer_sdp|]. intros r w2 S2 X2 _. apply (td_like_ext g td P w1 w2) in H; [|done|done].
  destruct r as [status'|r]; [by apply ok_ret|]. apply ok_get. apply (ok_seq n g _ _ T).
  { destruct r as [r|]; [by eapply ok_set_body|]. apply ok_when; [done|]. intros _. by eapply ok_set_body. }
  intros u w3 S3 X3 _. apply (td_like_ext g td P w2 w3) in H; [|done|done]. apply ok_get, ok_get, ok_neg_is.
  eapply ok_seq; [by apply ok_cancel_if|]. intros u4 w4 S4 X4 _. apply (td_like_ext g td P w3 w4) in H; [|done|done]. by apply ok_ret.
Qed.

Lemma ok_cleanup g o td P w : st w -> td_like td P w -> ok g (cleanup_allow_sup_hdr o td) T w.
Proof. intros S H. eapply ok_td_put; [done|exact H|]. intros d. apply line_ext_refl. Qed.

Lemma ok_save_answer g td w : st w -> td_like td is_rsp w -> ok g (save_answer td) T w.
Proof.
  intros S H. unfold save_answer. step_ ok_put.
  - intros []. split; cbn; auto. intros td' E. by injection E as <-.
  - nxt u w1 S1 X1 R1. by eapply ok_add_ref.
Qed.

Lemma ok_initial_answer g rdata code s w : st w -> ok g (pjsip_inv_initial_answer cfg nested rdata code s) (made is_rsp) w.
Proof.
  intros S. unfold pjsip_inv_initial_answer. apply ok_get. destruct (negb _); [apply ok_ret; [done|apply made_none]|].
  eapply ok_seq; [by apply ok_create_response|]. nxt r w1 S1 X1 R1. destruct r as [status [td|]]; [|apply ok_ret; [done|apply made_none]].
  specialize (R1 td eq_refl). eapply ok_seq; [by apply ok_timer|]. nxt t w2 S2 X2 R2. destruct (negb (t.1 =? PJ_SUCCESS)).
  - eapply ok_seq; [by eapply ok_modify_response|]. nxt s3 w3 S3 X3 R3. destruct (negb _).
    { eapply ok_seq; [by eapply ok_dec_ref|]. nxt u w4 S4 X4 R4. apply ok_ret; [done|apply made_none]. }
    eapply ok_seq; [by apply ok_timer_status|]. nxt s4 w4 S4 X4 R4. destruct (s4 =? PJ_SUCCESS); [by apply ok_ret; [|apply made_some]|].
    eapply ok_seq; [by eapply ok_dec_ref|]. nxt u w5 S5 X5 R5. apply ok_ret; [done|apply made_none].
  - eapply ok_seq; [by apply (ok_process_answer g code td is_rsp); [|apply stable_rsp|]|]. nxt s3 w3 S3 X3 R3. destruct (negb _).
    { eapply ok_seq; [by eapply ok_dec_ref|]. nxt u w4 S4 X4 R4. apply ok_ret; [done|apply made_none]. }
    apply ok_get. eapply ok_seq; [by eapply ok_cleanup|]. nxt u4 w4 S4 X4 R4.
    eapply ok_seq; [by apply ok_save_answer|]. nxt u5 w5 S5 X5 R5.
    eapply ok_seq; [by apply ok_timer_status|]. nxt u6 w6 S6 X6 R6. by apply ok_ret; [|apply made_some].
Qed.

Lemma answer_of w : st w -> line_at is_rsp (w_tds w) (i_last_answer (w_inv w)).
Proof. intros S. apply (sess_of _ S). Qed.

Lemma ok_answer g code s w : st w -> ok g (pjsip_inv_answer cfg nested code s) (made is_rsp) w.
Proof.
  intros S. unfold pjsip_inv_answer. apply ok_get, ok_get. pose proof (answer_of w S) as Hl.
  destruct (i_invite_tsx (w_inv w)); [|apply ok_ret; [done|apply made_none]].
  destruct (i_last_answer (w_inv w)) as [td|]; [|apply ok_ret; [done|apply made_none]].
  assert (H : td_like td is_rsp w) by by apply Hl.
  eapply ok_seq; [by eapply ok_modify_response|]. nxt s1 w1 S1 X1 R1. destruct (negb _); [apply ok_ret; [done|apply made_none]|].
  apply (ok_seq n g _ _ T). { apply ok_when; [done|]. intros _. by eapply ok_set_body. }
  nxt u2 w2 S2 X2 R2. eapply ok_seq; [by apply (ok_process_answer g code td is_rsp); [|apply stable_rsp|]|].
  nxt s3 w3 S3 X3 R3. destruct (negb _).
  { eapply ok_seq; [by eapply ok_dec_ref|]. nxt u w4 S4 X4 R4. apply ok_ret; [done|apply made_none]. }
  eapply ok_seq; [by apply ok_timer_status|]. nxt u4 w4 S4 X4 R4. apply ok_get.
  eapply ok_seq; [by eapply ok_cleanup|]. nxt u5 w5 S5 X5 R5. by apply ok_ret; [|apply made_some].
Qed.

Lemma ok_set_sdp_answer g s w : st w -> ok g (pjsip_inv_set_sdp_answer s) T w.
Proof. intros S. apply ok_with_neg; [done|]. intros m Hm. by apply ok_local_answer. Qed.

Lemma ok_set_local_sdp g s w : st w -> ok g (pjsip_inv_set_local_sdp s) T w.
Proof.
  intros S. unfold pjsip_inv_set_local_sdp. apply ok_get. destruct (i_neg (w_inv w)) as [m|]; [|by apply ok_create_local].
  destruct (_ && _); [by apply ok_set_sdp_answer|]. destruct (bool_decide _); [by apply ok_modify_offer|by apply ok_ret].
Qed.
End Nested.
End Ops.
