(* ===== verification/InvSafeCalls.v ===== *)
(** * INVITE sessions: the operations of InvCalls.v keep the invariant *)

From S2P Require Import Prelude SipTypes PjStr Sdp SdpNeg SipTargets SipTargetProps InvData InvExt InvOps InvCalls InvHandlers InvSafe InvSafeExt InvSafeOps.

Section Calls.
Context {N : Negotiator} {Str : PjString} (cfg : inv_config) (n : nat).
Abbreviation st := (st n).
Abbreviation ok := (ok n).

Lemma made_weaken (P Q : pjsip_msg_line -> Prop) r w : (forall l, P l -> Q l) -> made P r w -> made Q r w.
Proof. intros H Hm td E. eapply td_like_weaken; [exact H|]. by apply Hm. Qed.
Lemma made_ext g P r w w' : line_stable P -> ext g w w' -> made P r w -> made P r w'.
Proof. intros HP X Hm td E. eapply td_like_ext; [exact HP|exact X|]. by apply Hm. Qed.
Lemma made_any (P : pjsip_msg_line -> Prop) r w : made P r w -> made any_line r w.
Proof. by apply made_weaken. Qed.

(** ** Ending a session *)

Lemma ok_delay_cancel g w : st w -> ok g delay_cancel (made any_line) w.
Proof.
  intros S. unfold delay_cancel. eapply ok_seq; [by apply ok_put_free|]. nxt u1 w1 S1 X1 R1.
  eapply ok_seq; [by apply ok_put_free|]. nxt u2 w2 S2 X2 R2. apply ok_ret; [done|apply made_none].
Qed.

Lemma ok_end_done g r w : st w -> made any_line r w -> ok g (end_session_done r) (made any_line) w.
Proof.
  intros S H. unfold end_session_done. destruct (r.1 =? PJ_SUCCESS); [|apply ok_ret; [done|apply made_none]].
  eapply ok_seq; [by apply ok_put_free|]. nxt u w1 S1 X1 R1. apply ok_ret; [done|]. by eapply made_ext; [apply stable_any| |].
Qed.

Lemma ok_inv_deref {B} g c (p : option Z) (k : Z -> M B) Q w :
  (p = None -> stops_at c w) -> (forall t, p = Some t -> ok g (k t) Q w) -> ok g (bind (deref c p) k) Q w.
Proof. intros H1 H2. destruct p as [t|]; [|by apply H1]. eapply ok_read; [reflexivity|]. by apply H2. Qed.

Section Nested.
Variable nested : input -> M unit.
Hypothesis nested_ok : nested_spec n nested.

Lemma ok_cancel_or_delay g t x (k : Z * option Z -> M (Z * option Z)) w : st w -> tsx_like t x w ->
  (forall r w1, st w1 -> made any_line r w1 -> tsx_like t x w1 -> ok g (k r) (made any_line) w1) ->
  ok g (bind (tsx_get t) (fun x => if t_status x <? 100 then delay_cancel else bind (pjsip_endpt_create_cancel t) k)) (made any_line) w.
Proof.
  intros S H Hk. eapply ok_tsx_get; [exact H|]. intros y Ey _. destruct (Z.ltb_spec (t_status y) 100) as [E|E]; [by apply ok_delay_cancel|].
  eapply ok_seq; [eapply ok_create_cancel; [done|exact H|]|].
  - intros z Ez. rewrite Ey in Ez. by injection Ez as <-.
  - nxt r w1 S1 X1 R1. apply Hk; [done|by eapply made_any|done].
Qed.

Lemma ok_end_session g code text w : st w -> 0 < code -> ok g (pjsip_inv_end_session cfg nested code text) (made any_line) w.
Proof.
  intros S Hc. unfold pjsip_inv_end_session. eapply ok_seq; [by apply ok_set_cause|]. nxt u1 w1 S1 X1 R1. apply ok_get.
  assert (Hbye : ok g (bind pjsip_timer_end_session (fun _ =>
      bind (pjsip_dlg_create_request pjsip_bye_method (-1)) end_session_done)) (made any_line) w1).
  { eapply ok_seq; [by apply ok_timer_end|]. nxt u2 w2 S2 X2 R2. eapply ok_seq; [by apply ok_create_request|].
    nxt r w3 S3 X3 R3. apply ok_end_done; [done|by eapply made_any]. }
  assert (Hearly : In (i_state (w_inv w1)) [PJSIP_INV_STATE_CALLING; PJSIP_INV_STATE_INCOMING; PJSIP_INV_STATE_EARLY] ->
      ok g (bind (get i_role) (fun role => bind (get i_invite_tsx) (fun p =>
      match role with
      | PJSIP_ROLE_UAC =>
          match p with
          | None => ret (PJ_EBUG, None)
          | Some t =>
              bind (tsx_get t) (fun x => if t_status x <? 100 then delay_cancel
              else bind (pjsip_endpt_create_cancel t) (fun r => if negb (r.1 =? PJ_SUCCESS) then ret (r.1, None)
                else bind (pjsip_tsx_set_timeout t) (fun _ => end_session_done r)))
          end
      | PJSIP_ROLE_UAS =>
          bind (deref Crash_end_tsx p) (fun t => bind (tsx_get t) (fun x =>
          if negb (is_some (t_last_tx x)) then ret (PJ_EINVALIDOP, None)
          else bind (pjsip_inv_answer cfg nested code None) end_session_done))
      end))) (made any_line) w1).
  { intros Hs. apply ok_get, ok_get. pose proof (invite_known n w1 S1) as Hk. destruct (i_role (w_inv w1)) eqn:Er.
    - destruct (i_invite_tsx (w_inv w1)) as [t|]; [|apply ok_ret; [done|apply made_none]].
      destruct (Hk t eq_refl) as [x Hx]. eapply ok_cancel_or_delay; [done|exact Hx|]. intros r w2 S2 R2 Hx2.
      destruct (negb _); [apply ok_ret; [done|apply made_none]|].
      eapply ok_seq; [by apply ok_log_entry|]. nxt u3 w3 S3 X3 R3. apply ok_end_done; [done|]. by eapply made_ext; [apply stable_any| |].
    - apply ok_inv_deref; [by intros E|]. intros t E. destruct (Hk t E) as [x Hx]. eapply ok_tsx_get; [exact Hx|]. intros y Ey _.
      destruct (negb _); [apply ok_ret; [done|apply made_none]|]. eapply ok_seq; [by apply ok_answer|]. nxt r w2 S2 X2 R2.
      apply ok_end_done; [done|by eapply made_any]. }
  destruct (i_state (w_inv w1)); try exact Hbye; try (apply Hearly; cbn; tauto); apply ok_ret; [done|apply made_none|done|apply made_none].
Qed.

Lemma ok_cancel_reinvite g w : st w -> ok g pjsip_inv_cancel_reinvite (made any_line) w.
Proof.
  intros S. unfold pjsip_inv_cancel_reinvite. apply ok_get. pose proof (invite_known n w S) as Hk.
  assert (Hr : ok g (ret (PJ_EINVALIDOP, None)) (made any_line) w) by (apply ok_ret; [done|apply made_none]).
  destruct (i_state (w_inv w)); try exact Hr. apply ok_get.
  destruct (i_invite_tsx (w_inv w)) as [t|]; [|apply ok_ret; [done|apply made_none]].
  destruct (Hk t eq_refl) as [x Hx]. eapply ok_tsx_get; [exact Hx|]. intros y Ey _.
  destruct (Z.ltb_spec (t_status y) 100) as [E|E]; [by apply ok_delay_cancel|].
  eapply ok_mono; [eapply ok_create_cancel; [done|exact Hx|]|].
  - intros z Ez. rewrite Ey in Ez. by injection Ez as <-.
  - intros r w1. apply made_any.
Qed.

(** ** Sending *)

Lemma ok_100rel_response g td w : st w -> td_like td any_line w -> ok g (pjsip_100rel_tx_response nested td) T w.
Proof.
  intros S H. unfold pjsip_100rel_tx_response. eapply ok_seq; [by apply ok_ask|]. nxt a w1 S1 X1 R1.
  pose proof (asked_ready n _ _ _ S R1) as Ha. eapply ok_seq; [by apply ok_happen|]. nxt u2 w2 S2 X2 R2.
  destruct (a_sel a =? 0); [|by apply ok_ret]. apply ok_get, ok_inv_deref; [done|]. intros t E.
  destruct (invite_known n w2 S2 t E) as [x Hx]. by eapply ok_send_response.
Qed.

Lemma ok_save_bye g td m w : st w -> td_like td (fun l => l = Req m) w -> m_id m = PJSIP_BYE_METHOD -> ok g (put (set_i_pending_bye (Some td))) T w.
Proof.
  intros S (d & Ed & El) Em. eapply ok_true. apply ok_put; [done|done|]. intros []. split; cbn; auto.
  intros td' E. injection E as <-. exists d. split; [done|]. by exists m.
Qed.

Lemma ok_send_msg g td w : st w -> td_like td any_line w -> ok g (pjsip_inv_send_msg nested td) T w.
Proof.
  intros S H. unfold pjsip_inv_send_msg. eapply ok_td_get; [exact H|]. intros d Ed _. apply ok_get.
  destruct (td_line d) as [m|c] eqn:El.
  - assert (Hm : td_like td (fun l => l = Req m) w) by by exists d.
    destruct (is_method m PJSIP_INVITE_METHOD && is_some (i_invite_tsx (w_inv w))).
    { eapply ok_seq; [by eapply ok_dec_ref|]. nxt u1 w1 S1 X1 R1. by apply ok_ret. }
    eapply ok_read; [reflexivity|]. destruct (_ && _) eqn:Ew.
    + assert (Hbye : m_id m = PJSIP_BYE_METHOD).
      { rewrite !andb_true_iff in Ew. destruct_and!. unfold is_method in *. by eapply bool_decide_eq_true_1. }
      apply ok_get. apply (ok_seq n g _ _ T).
      { pose proof (so_bye _ _ _ _ _ (sess_of n _ S)) as Hb. destruct (i_pending_bye (w_inv w)) as [b|]; [|by apply ok_ret].
        eapply ok_dec_ref; [done|]. apply (line_at_like is_bye w (Some b) b); [exact Hb|done]. }
      nxt u1 w1 S1 X1 R1. eapply ok_seq; [by eapply ok_save_bye|]. nxt u2 w2 S2 X2 R2. by apply ok_ret.
    + eapply ok_send_request; [done|done|exact Hm|by eexists|]. cbn.
      destruct (i_role (w_inv w)) eqn:Er, (i_state (w_inv w)) eqn:Es; try done. intros Em.
      unfold is_method in Ew. rewrite (bool_decide_eq_true_2 _ Em) in Ew.
      rewrite !bool_decide_eq_true_2 in Ew by done. cbn [andb] in Ew.
      destruct (Z.eqb_spec (i_cause (w_inv w)) PJSIP_SC_REQUEST_TIMEOUT) as [E1|E1]; [by left|].
      destruct (Z.eqb_spec (i_cause (w_inv w)) PJSIP_SC_TSX_TRANSPORT_ERROR) as [E2|E2]; [by right|done].
  - apply ok_inv_deref; [intros E; split; [done|]; by exists td, d, c|]. intros t E. destruct (invite_known n w S t E) as [x Hx].
    eapply ok_tsx_get; [exact Hx|]. intros y Ey _. destruct (negb _); [by apply ok_ret|]. apply ok_get.
    destruct (has_option _ _); [by apply ok_100rel_response|by eapply ok_send_response].
Qed.

Lemma ok_send_skip g td w : st w -> td_like td any_line w -> ok g (bind (pjsip_inv_send_msg nested td) (fun _ => skip)) T w.
Proof. intros S H. eapply ok_seq; [by apply ok_send_msg|]. nxt u w1 S1 X1 R1. by apply ok_ret. Qed.

Lemma ok_send_created g r w : st w -> made any_line r w -> ok g (send_created nested r) T w.
Proof.
  intros S H. destruct r as [status [td|]]; [|by apply ok_ret]. apply ok_when; [done|]. intros _. apply ok_send_skip; [done|by apply H].
Qed.

Lemma ok_perform_bye g w : st w -> ok g (inv_perform_pending_bye nested) T w.
Proof.
  intros S. unfold inv_perform_pending_bye. apply ok_get. pose proof (so_bye _ _ _ _ _ (sess_of n _ S)) as Hb.
  destruct (i_pending_bye (w_inv w)) as [b|]; [|by apply ok_ret].
  assert (H : td_like b is_bye w) by by apply Hb.
  apply (ok_seq n g _ _ T).
  - eapply ok_true. apply ok_put; [done|done|]. intros []. split; cbn; auto. by intros ? ?.
  - nxt u w1 S1 X1 R1. apply ok_send_skip; [done|]. by eapply td_like_weaken; [|exact H].
Qed.
(** ** The state *)

(** What a new state needs *)
Definition state_ready (new : pjsip_inv_state) (w : world) : Prop :=
  match new with
  | PJSIP_INV_STATE_NULL => False
  | PJSIP_INV_STATE_CALLING => d_role (w_dlg w) = PJSIP_ROLE_UAC /\
      forall t x, i_invite_tsx (w_inv w) = Some t -> w_tsxs w !! t = Some x -> t_role x = PJSIP_ROLE_UAC
  | PJSIP_INV_STATE_DISCONNECTED => 0 < i_cause (w_inv w)
  | _ => True
  end.

Lemma ok_put_state g new w : st w -> state_ready new w -> ok g (put (set_i_state new)) T w.
Proof.
  intros S H. eapply ok_true. apply ok_put; [done|done|]. intros []. split; cbn; auto.
  - intros ->. exact H.
  - intros t Et. destruct (so_invite _ Et) as (x & Ex & Em & Er). exists x. split; [done|]. split; [done|].
    intros Hd [-> | ->]; [done|]. by eapply H.
  - intros ->. by destruct H.
Qed.

Lemma ok_incomplete {B} g (k : bool -> M B) Q w : st w -> (forall b, ok g (k b) Q w) -> ok g (bind negotiation_incomplete k) Q w.
Proof.
  intros S H. assert (exists b, negotiation_incomplete w = Ok b w) as [b E]; [|eapply ok_read; [exact E|apply H]].
  unfold negotiation_incomplete, bind, get. pose proof (so_invite _ _ _ _ _ (sess_of n _ S)) as Hi.
  destruct (i_invite_tsx (w_inv w)) as [t|]; [|by eexists]. destruct (Hi t eq_refl) as (x & Ex & _).
  unfold tsx_get. rewrite Ex. by eexists.
Qed.

Lemma ok_set_state g new w : st w -> state_ready new w -> ok g (inv_set_state cfg nested new) T w.
Proof.
  intros S H. unfold inv_set_state. apply ok_get, ok_get.
  assert (Hset : ok g (bind (put (set_i_state new)) (fun _ => bind (log (E_set_state (i_state (w_inv w)) new)) (fun _ =>
    bind (put (fun i => set_i_cb_called (Z.lor (i_cb_called i) (Z.shiftl 1 (inv_state_num new))) i)) (fun _ =>
    bind (get i_notify) (fun notify => bind (when (notify && negb (bool_decide (new = PJSIP_INV_STATE_CALLING) &&
        has_option (i_cb_called (w_inv w)) (Z.shiftl 1 (inv_state_num PJSIP_INV_STATE_CALLING))))
      (bind (callback nested (E_on_state_changed new)) (fun _ => skip))) (fun _ =>
    bind (get i_state) (fun s => when (bool_decide (s = PJSIP_INV_STATE_DISCONNECTED) &&
        negb (bool_decide (i_state (w_inv w) = PJSIP_INV_STATE_DISCONNECTED))) (bind pjsip_inv_dec_ref (fun _ => skip))))))))) T w).
  { eapply ok_seq; [by apply ok_put_state|]. nxt u1 w1 S1 X1 R1. eapply ok_seq; [by apply ok_log_entry|]. nxt u2 w2 S2 X2 R2.
    eapply ok_seq; [by apply ok_put_free|]. nxt u3 w3 S3 X3 R3. apply ok_get.
    eapply ok_seq; [by apply ok_callback_if|]. nxt u4 w4 S4 X4 R4. apply ok_get. by apply ok_when_op, ok_inv_dec_ref. }
  destruct (bool_decide (new = PJSIP_INV_STATE_CONFIRMED)); [|eapply ok_read; [reflexivity|exact Hset]].
  apply ok_incomplete; [done|]. intros [|]; [|exact Hset].
  eapply ok_seq; [by apply ok_end_session|]. nxt r w1 S1 X1 R1. by apply ok_send_created.
Qed.

Lemma ok_disconnect g t x w : st w -> tsx_like t x w -> 100 <= t_status x -> ok g (disconnect cfg nested t) T w.
Proof. intros S H Hx. unfold disconnect. eapply ok_seq; [by eapply ok_cause_of_tsx|]. nxt u w1 S1 X1 R1. by apply ok_set_state. Qed.

Lemma ok_timer_response g rdata b w : st w -> ok g (handle_timer_response cfg nested rdata b) T w.
Proof.
  intros S. unfold handle_timer_response. eapply ok_seq; [by apply ok_timer|]. nxt r w1 S1 X1 R1.
  apply (ok_seq n g _ _ T); [|nxt u w2 S2 X2 R2; by apply ok_ret]. apply ok_when; [done|]. intros _.
  eapply ok_seq; [apply ok_end_session; [done|lia]|]. nxt e w2 S2 X2 R2. by apply ok_send_created.
Qed.

(** ** Acknowledging a 2xx response *)

Lemma ack_of w td : st w -> i_last_ack (w_inv w) = Some td -> td_like td is_ack w.
Proof. intros S E. exact (so_ack _ _ _ _ _ (sess_of n _ S) td E). Qed.

Lemma ok_put_ack g p w : st w -> (forall td, p = Some td -> td_like td is_ack w) -> ok g (put (set_i_last_ack p)) T w.
Proof. intros S H. eapply ok_true. apply ok_put; [done|done|]. intros []. by split; cbn. Qed.

Lemma ack_line : is_ack (Req pjsip_ack_method).
Proof. by exists pjsip_ack_method. Qed.

Lemma ok_create_ack g cseq w : st w -> ok g (pjsip_inv_create_ack cfg nested cseq) (made is_ack) w.
Proof.
  intros S. unfold pjsip_inv_create_ack. eapply ok_seq; [by apply ok_drop_ack|]. nxt u1 w1 S1 X1 R1.
  eapply ok_seq; [by apply ok_create_request|]. nxt r w2 S2 X2 R2.
  apply (made_weaken _ is_ack) in R2; [|intros l ->; apply ack_line].
  eapply ok_seq; [by apply ok_put_ack|]. nxt u3 w3 S3 X3 R3. destruct (negb _); [apply ok_ret; [done|apply made_none]|]. apply ok_get.
  eapply ok_seq; [apply ok_pending_answer; [done|done|by apply (invite_known n)]|]. nxt s w4 S4 X4 R4.
  apply (ok_seq n g _ _ T).
  { destruct s as [s|]; [|by apply ok_ret]. apply ok_get, ok_inv_deref; [done|]. intros ack E.
    eapply ok_set_body; [done|]. by apply ack_of. }
  nxt u5 w5 S5 X5 R5. eapply ok_seq; [by apply ok_put_free|]. nxt u6 w6 S6 X6 R6.
  apply ok_get, ok_inv_deref; [done|]. intros ack E. pose proof (ack_of _ _ S6 E) as Ha.
  eapply ok_seq; [by eapply ok_add_ref|]. nxt u7 w7 S7 X7 R7. by apply ok_ret; [|apply made_some].
Qed.

Lemma ok_send_last_ack g w : st w -> ok g (send_last_ack cfg nested) T w.
Proof.
  intros S. unfold send_last_ack. apply ok_get, ok_inv_deref; [done|]. intros ack E.
  destruct (ack_of _ _ S E) as (d & Ed & m & El & Em). eapply ok_seq; [eapply (ok_send_request n nested nested_ok g ack m); [done|by exists d| |]|].
  - by rewrite Em.
  - cbn. destruct (i_role (w_inv w)), (i_state (w_inv w)); try done. by rewrite Em.
  - nxt status w1 S1 X1 R1. destruct (negb _); [by apply ok_ret|]. apply ok_get.
    apply (ok_seq n g _ _ T); [|nxt u w2 S2 X2 R2; by apply ok_ret]. apply ok_when; [done|]. intros _. by apply ok_set_state.
Qed.

(** An event that has a message *)
Definition has_rdata (e : pjsip_event) : Prop := exists rdata, forall w, event_rdata e w = Ok rdata w.

Lemma ok_cached_ack {B} g cseq (k : option Z -> M B) Q w : st w ->
  (forall ack, (forall td, ack = Some td -> td_like td is_ack w) -> ok g (k ack) Q w) -> ok g (bind (cached_ack cseq) k) Q w.
Proof.
  intros S H. assert (exists p, cached_ack cseq w = Ok p w /\ forall td, p = Some td -> td_like td is_ack w) as (p & E & Hp);
    [|eapply ok_read; [exact E|by apply H]].
  unfold cached_ack, bind, get. destruct (i_last_ack (w_inv w)) as [ack|] eqn:E; [|by eexists].
  pose proof (ack_of _ _ S E) as (d & Ed & Ha). unfold td_get. rewrite Ed. eexists. split; [reflexivity|].
  intros td Et. destruct (_ && _); [|done]. injection Et as <-. by exists d.
Qed.

Lemma ok_send_ack g e w : st w -> has_rdata e -> ok g (inv_send_ack cfg nested e) T w.
Proof.
  intros S [rdata Hr]. unfold inv_send_ack. eapply ok_read; [apply Hr|]. apply ok_cached_ack; [done|]. intros [ack|] Ha.
  - eapply ok_seq; [eapply ok_add_ref; [done|by apply Ha]|]. nxt u w1 S1 X1 R1. by apply ok_send_last_ack.
  - destruct (cb_on_send_ack (c_cb cfg)).
    + eapply ok_seq; [by apply ok_callback|]. nxt a w1 S1 X1 R1. by apply ok_ret.
    + eapply ok_seq; [by apply ok_create_ack|]. nxt r w1 S1 X1 R1. destruct (negb _); [by apply ok_ret|].
      eapply ok_seq; [by apply ok_put_ack|]. nxt u w2 S2 X2 R2. by apply ok_send_last_ack.
Qed.

(** ** Termination and restart *)

Lemma invite_of w t : st w -> i_invite_tsx (w_inv w) = Some t -> exists x, tsx_like t x w /\ m_id (t_method x) = PJSIP_INVITE_METHOD.
Proof. intros S E. destruct (so_invite _ _ _ _ _ (sess_of n _ S) t E) as (x & Ex & Em & _). exists x. split; [by apply tsx_like_eq|done]. Qed.

Lemma own_invite w t y : st w -> i_invite_tsx (w_inv w) = Some t -> w_tsxs w !! t = Some y -> peer_invite_at w y = false.
Proof.
  intros S E Ey. destruct (so_invite _ _ _ _ _ (sess_of n _ S) t E) as (x & Ex & _ & Hr). rewrite Ey in Ex. injection Ex as <-.
  unfold peer_invite_at. case_bool_decide as Es; [|done]. case_bool_decide as Ed; [|done]. rewrite Hr by auto. done.
Qed.

Lemma legal_terminated x code : 200 <= code -> state_num (t_state x) < 7 ->
  (t_role x = PJSIP_ROLE_UAC -> m_id (t_method x) = PJSIP_INVITE_METHOD -> Z.quot code 100 <> 2) ->
  legal_upd x (mk_upd PJSIP_TSX_STATE_TERMINATED code Src_user None) = true.
Proof.
  intros Hc Hs Hr. unfold legal_upd, received. cbn. apply andb_true_iff. split; [|by apply Z.ltb_lt].
  apply andb_true_iff. split; [by apply Z.leb_le|]. destruct (t_role x); [|done]. cbn [orb].
  apply orb_true_iff. destruct (bool_decide_reflect (m_id (t_method x) = PJSIP_INVITE_METHOD)) as [Em|Em]; [right|by left]. apply negb_true_iff, Z.eqb_neq. by apply Hr.
Qed.

Lemma ok_inv_terminate g code notify w : st w -> (2 * oracle_calls (w_oracle w) + 1 <= n)%nat -> 300 <= code ->
  ok g (pjsip_inv_terminate cfg nested code notify) T w.
Proof.
  intros S Hf Hc. unfold pjsip_inv_terminate. eapply ok_seq; [by apply ok_put_harmless|]. intros u1 w1 S1 X1 R1.
  assert (Hf1 : (2 * oracle_calls (w_oracle w1) + 1 <= n)%nat) by (pose proof (x_fuel _ _ _ X1); lia). apply ok_get.
  apply (ok_seq n g _ _ T).
  - destruct (i_invite_tsx (w_inv w1)) as [t|] eqn:E; [|by apply ok_ret]. destruct (invite_of _ _ S1 E) as (x & Hx & Em).
    eapply ok_tsx_get; [exact Hx|]. intros y Ey Xy. apply ok_when; [done|]. intros _. eapply ok_terminate; [done|done|exact Hx|done|].
    intros z Ez _ Hz. split; [|by eapply own_invite]. apply legal_terminated; [lia|lia|]. intros _ _ Hq.
    assert (3 <= Z.quot code 100) by (apply Z.quot_le_lower_bound; lia). lia.
  - nxt u2 w2 S2 X2 R2. eapply ok_seq; [apply ok_set_cause; [done|lia]|]. nxt u3 w3 S3 X3 R3. apply ok_get.
    apply (ok_seq n g _ _ T); [|nxt u w4 S4 X4 R4; by apply ok_ret]. apply ok_when; [done|]. intros _. by apply ok_set_state.
Qed.

Lemma ok_restart g b w : st w -> ok g (pjsip_inv_uac_restart b) T w.
Proof.
  intros S. unfold pjsip_inv_uac_restart.
  assert (H : ok g (bind (put (fun i => set_i_invite_tsx None (set_i_state PJSIP_INV_STATE_NULL i))) (fun _ =>
    bind (drop_ref i_last_answer (set_i_last_answer None)) (fun _ => bind (neg_is PJMEDIA_SDP_NEG_STATE_LOCAL_OFFER) (fun l =>
    bind (when (b && l) (bind cancel_offer (fun _ => skip))) (fun _ => ret PJ_SUCCESS))))) T w); [|exact H].
  apply (ok_seq n g _ _ T).
  - eapply ok_true. apply ok_put; [done|done|]. intros []. by split; cbn.
  - nxt u1 w1 S1 X1 R1. eapply ok_seq; [by apply ok_drop_answer|]. nxt u2 w2 S2 X2 R2. apply ok_neg_is.
    eapply ok_seq; [by apply ok_cancel_if|]. nxt u3 w3 S3 X3 R3. by apply ok_ret.
Qed.
End Nested.
End Calls.
