(* ===== verification/InvSafeRequests.v ===== *)
(** * INVITE sessions: redirection and requests keep the invariant

    The recursion over the targets ends: each time an untried target becomes the current one. *)

From S2P Require Import Prelude SipTypes PjStr Sdp SdpNeg SipTargets SipTargetProps InvData InvExt InvOps InvCalls InvHandlers InvSafe InvSafeExt InvSafeOps InvSafeCalls.

(** ** The next target *)

Lemma next_target_some fuel ts : (length (untried ts) < fuel)%nat -> exists r ts',
  next_target fuel ts = Some (r, ts') /\ (remaining ts' <= remaining ts)%nat /\
  (current_untried ts = false -> current_untried ts' = false) /\ (forall t, r = Some t -> In t (untried ts')).
Proof.
  revert ts. induction fuel as [|fuel IH]; intros ts Hf; [lia|]. cbn [next_target].
  destruct (pjsip_target_set_get_next ts) as [t|] eqn:E; [|by exists None, ts]. apply get_next_untried in E.
  destruct (negb _ && negb _); [|exists (Some t), ts; split; [done|]; split; [done|]; split; [done|]; intros ? [= <-]; done].
  set (ts1 := (pjsip_target_assign_status ts (Some (t_key t)) PJSIP_SC_UNSUPPORTED_URI_SCHEME).2).
  assert (E1 : untried ts1 = List.filter (fun x => negb (t_key x =? t_key t)) (untried ts)) by by apply untried_assign.
  destruct (IH ts1) as (r & ts' & Er & Hr & Hc & Hin).
  - rewrite E1. pose proof (filter_length_lt (fun x => negb (t_key x =? t_key t)) (untried ts) t E) as Hl.
    cbn beta in Hl. rewrite Z.eqb_refl in Hl. specialize (Hl eq_refl). lia.
  - exists r, ts'. split; [done|]. pose proof (remaining_assign ts (Some (t_key t)) PJSIP_SC_UNSUPPORTED_URI_SCHEME).
    fold ts1 in H. split; [lia|]. split; [|done]. intros Hcu. apply Hc. unfold current_untried in *.
    replace (ts_current ts1) with (ts_current ts) by (symmetry; apply current_assign). rewrite E1.
    destruct (ts_current ts) as [c|]; [|done]. apply not_true_is_false. intros Ex. rewrite <- Hcu in *. 
    apply existsb_exists in Ex as (x & Hx & Ex). apply List.filter_In in Hx as [Hx _].
    assert (existsb (fun t => t_key t =? c) (untried ts) = true) by (apply existsb_exists; by exists x). congruence.
Qed.

Lemma recurse_target ts code t ts' fuel : code <> 0 ->
  next_target fuel (pjsip_target_assign_status ts (ts_current ts) code).2 = Some (Some t, ts') ->
  (length (untried (pjsip_target_assign_status ts (ts_current ts) code).2) < fuel)%nat ->
  (remaining (pjsip_target_set_set_current ts' (t_key t)).2 < remaining ts)%nat.
Proof.
  intros Hc E Hf. destruct (next_target_some fuel _ Hf) as (r & ts2 & E' & Hr & Hcu & Hin). rewrite E in E'.
  injection E' as <- <-. pose proof (set_current_untried ts' t (Hin t eq_refl)) as Hs.
  specialize (Hcu (current_tried ts code Hc)). rewrite (remaining_untried ts') in Hr by done.
  pose proof (remaining_assign ts (ts_current ts) code). lia.
Qed.

Section Requests.
Context {N : Negotiator} {Str : PjString} (cfg : inv_config) (n : nat).
Abbreviation st := (st n).
Abbreviation ok := (ok n).
Variable nested : input -> M unit.
Hypothesis nested_ok : nested_spec n nested.

(** ** Redirection *)

Lemma ok_targets g f w : st w -> (g = false -> (remaining (f (d_targets (w_dlg w))) <= remaining (d_targets (w_dlg w)))%nat) ->
  ok g (targets f) (fun _ w' => d_targets (w_dlg w') = f (d_targets (w_dlg w))) w.
Proof.
  intros S H. pose proof (ok_dlg_put n g (fun d => set_targets (f (d_targets d)) d) w S eq_refl H) as Hp.
  unfold targets. unfold InvSafe.ok, wp, dlg_put in *. cbn in *. tauto.
Qed.

Lemma req_of w td : st w -> i_invite_req (w_inv w) = Some td -> td_like td is_req w.
Proof. intros S E. exact (so_req _ _ _ _ _ (sess_of n _ S) td E). Qed.

Lemma ok_accept g b w : st w -> ok g (redirect_accept nested b) T w.
Proof.
  intros S. unfold redirect_accept. apply ok_get, ok_inv_deref; [done|]. intros td E. pose proof (req_of w td S E) as H.
  eapply ok_seq; [by eapply ok_add_ref|]. nxt u1 w1 S1 X1 R1. apply ok_dlg.
  destruct (target_uri (d_targets (w_dlg w1))) as [uri|] eqn:Eu; [|exact Eu]. eapply ok_read; [reflexivity|].
  eapply ok_seq; [eapply ok_td_put; [done|exact H|intros d; apply line_ext_refl]|]. nxt u2 w2 S2 X2 R2.
  apply (ok_seq n g _ _ T).
  { apply ok_when; [done|]. intros _. eapply ok_seq; [eapply ok_td_put; [done|exact H|intros d; apply line_ext_refl]|].
    nxt u3 w3 S3 X3 R3. by apply ok_dlg_put. }
  nxt u3 w3 S3 X3 R3. eapply ok_seq; [by apply ok_restart|]. nxt u4 w4 S4 X4 R4.
  apply ok_send_msg; [done|done|]. by eapply td_like_weaken; [|exact H].
Qed.

Lemma ok_cancelled g w : st w -> ok g (disconnect_cancelled cfg nested) T w.
Proof. intros S. unfold disconnect_cancelled. eapply ok_seq; [by apply ok_set_cause|]. nxt u w1 S1 X1 R1. by apply ok_set_state. Qed.

Lemma ok_redirect_now g op w : st w -> ok g (redirect_now cfg nested op) T w.
Proof.
  intros S. unfold redirect_now. eapply ok_seq; [by apply ok_dlg_put|]. nxt u1 w1 S1 X1 R1.
  destruct op; try (by apply ok_ret); try (by apply ok_accept).
  eapply ok_seq; [by apply ok_cancelled|]. nxt u2 w2 S2 X2 R2. by apply ok_ret.
Qed.

Lemma ok_clear_invite g w : st w -> ok g (put (set_i_invite_tsx None)) T w.
Proof. intros S. eapply ok_true. apply ok_put; [done|done|]. intros []. by split; cbn. Qed.

Lemma ok_recurse fuel code w : st w -> code <> 0 -> (remaining (d_targets (w_dlg w)) < fuel)%nat ->
  ok false (inv_uac_recurse cfg nested fuel code) T w.
Proof.
  revert code w. induction fuel as [|fuel IH]; intros code w S Hc Hf; [lia|]. cbn [inv_uac_recurse].
  destruct (negb _); [by apply ok_ret|]. eapply ok_seq; [apply ok_targets; [done|]|].
  { intros _. apply remaining_assign. }
  nxt u1 w1 S1 X1 R1. apply ok_dlg. rewrite R1.
  set (ts1 := (pjsip_target_assign_status _ _ code).2) in *.
  destruct (next_target_some (targets_fuel ts1) ts1) as (r & ts2 & E2 & Hr & Hcu & Hin).
  { unfold targets_fuel. pose proof (untried_length ts1). lia. }
  rewrite E2. destruct r as [t|].
  2:{ eapply ok_seq; [apply ok_targets; [done|by rewrite R1]|]. nxt u2 w2 S2 X2 R2. by apply ok_ret. }
  assert (Hlt : (remaining (pjsip_target_set_set_current ts2 (t_key t)).2 < remaining (d_targets (w_dlg w)))%nat).
  { eapply recurse_target; [exact Hc|exact E2|]. unfold targets_fuel. pose proof (untried_length ts1). fold ts1. lia. }
  assert (Hle : (remaining (pjsip_target_set_set_current ts2 (t_key t)).2 <= remaining ts1)%nat).
  { pose proof (set_current_untried ts2 t (Hin t eq_refl)). rewrite remaining_untried in Hr; [lia|].
    apply Hcu. by apply current_tried. }
  eapply ok_seq; [apply ok_targets; [done|by rewrite R1]|]. nxt u2 w2 S2 X2 R2.
  eapply ok_seq; [by apply ok_callback|]. nxt a w3 S3 X3 R3.
  pose proof (x_targets _ _ _ X3 eq_refl) as Ht. rewrite R2 in Ht.
  assert (Hnow : forall op, ok false (bind pjsip_dlg_inc_session (fun _ => bind (redirect_now cfg nested op) (fun _ => ret true))) T w3).
  { intros op. eapply ok_seq; [by apply ok_dlg_put|]. nxt u4 w4 S4 X4 R4. eapply ok_seq; [by apply ok_redirect_now|].
    nxt u5 w5 S5 X5 R5. by apply ok_ret. }
  destruct (a_op a); [apply IH; [done|done|lia]|apply Hnow|apply Hnow| |apply Hnow].
  eapply ok_seq; [by apply ok_dlg_put|]. nxt u4 w4 S4 X4 R4. eapply ok_seq; [by apply ok_clear_invite|].
  nxt u5 w5 S5 X5 R5. by apply ok_ret.
Qed.

Lemma ok_uac_recurse g code w : st w -> code <> 0 -> ok g (uac_recurse cfg nested code) T w.
Proof.
  intros S Hc. unfold uac_recurse. apply ok_dlg, ok_weaken, ok_recurse; [done|done|].
  unfold targets_fuel, remaining. pose proof (untried_length (d_targets (w_dlg w))). lia.
Qed.

Lemma ok_process_redirect g op w : st w -> ok g (pjsip_inv_process_redirect cfg nested op) T w.
Proof.
  intros S. unfold pjsip_inv_process_redirect. destruct op; try (by apply ok_redirect_now); [|by apply ok_ret].
  eapply ok_seq; [by apply ok_dlg_put|]. nxt u1 w1 S1 X1 R1. eapply ok_seq; [by apply ok_uac_recurse|]. nxt more w2 S2 X2 R2.
  destruct more; [by apply ok_ret|]. eapply ok_seq; [by apply ok_cancelled|]. nxt u3 w3 S3 X3 R3. by apply ok_ret.
Qed.

(** ** Requests *)

Lemma ok_add_hdrs g td P l w : st w -> td_like td P w -> ok g (add_hdrs td l) T w.
Proof. intros S H. eapply ok_td_put; [done|exact H|]. intros d. apply line_ext_refl. Qed.

Lemma ok_none {A} g (s : A) w : st w -> ok g (ret (s, None)) (fun r w' => forall td : Z, r.2 = Some td -> td_like td any_line w') w.
Proof. intros S. by apply ok_ret. Qed.

Lemma ok_finish_invite g td w : st w -> td_like td is_req w -> ok g (finish_invite cfg nested td) (made is_req) w.
Proof.
  intros S H. unfold finish_invite. apply ok_get, ok_dlg. eapply ok_seq; [by eapply ok_add_hdrs|]. nxt u1 w1 S1 X1 R1.
  eapply ok_seq; [by apply ok_timer_status|]. nxt status w2 S2 X2 R2. apply ok_ret; [done|].
  destruct (status =? PJ_SUCCESS); [by apply made_some|apply made_none].
Qed.

Lemma ok_invite g w : st w -> ok g (pjsip_inv_invite cfg nested) (made is_req) w.
Proof.
  intros S. unfold pjsip_inv_invite. apply ok_get. destruct (_ && _); [apply ok_ret; [done|apply made_none]|].
  eapply ok_seq; [by apply ok_create_request|]. nxt r w1 S1 X1 R1. destruct r as [status [td|]]; [|apply ok_ret; [done|apply made_none]].
  assert (H : td_like td is_req w1) by (eapply td_like_weaken; [|by apply R1]; intros l ->; by eexists).
  apply ok_dlg. apply (ok_seq n g _ _ T). { apply ok_when; [done|]. intros _. by eapply ok_add_hdrs. }
  nxt u2 w2 S2 X2 R2. eapply ok_read; [reflexivity|].
  destruct (match i_neg (w_inv w2) with Some _ => _ | None => _ end); [|by apply ok_finish_invite].
  apply ok_neg_read. intros [st'|s].
  - eapply ok_seq; [by eapply ok_dec_ref|]. nxt u3 w3 S3 X3 R3. apply ok_ret; [done|apply made_none].
  - eapply ok_seq; [by eapply ok_set_body|]. nxt u3 w3 S3 X3 R3. by apply ok_finish_invite.
Qed.

Lemma ok_set_contact g (contact : option (option Z)) w : st w ->
  ok g (match contact with Some (Some c) => dlg_put (set_contact c) | _ => skip end) T w.
Proof. intros S. destruct contact as [[c|]|]; [by apply ok_dlg_put|by apply ok_ret|by apply ok_ret]. Qed.

Lemma ok_reinvite_offer g s w : st w -> ok g (reinvite_offer s) T w.
Proof.
  intros S. unfold reinvite_offer. apply ok_get. destruct (i_neg (w_inv w)) as [m|] eqn:E; [|by apply ok_create_local].
  destruct (neg_state_of m); try (by apply ok_ret); [|by apply ok_modify_offer].
  apply ok_local_answer; [done|]. by eapply neg_of.
Qed.

Lemma ok_reinvite g contact offer w : st w -> ok g (pjsip_inv_reinvite cfg nested contact offer) (made is_req) w.
Proof.
  intros S. unfold pjsip_inv_reinvite. apply ok_get. destruct (is_some _); [apply ok_ret; [done|apply made_none]|].
  assert (H : ok g (bind (match offer with Some s => reinvite_offer s | None => ret PJ_SUCCESS end) (fun status =>
    if negb (status =? PJ_SUCCESS) then ret (status, None)
    else bind (match contact with Some (Some c) => dlg_put (set_contact c) | _ => skip end) (fun _ => pjsip_inv_invite cfg nested)))
    (made is_req) w).
  { apply (ok_seq n g _ _ T). { destruct offer; [by apply ok_reinvite_offer|by apply ok_ret]. }
    nxt status w1 S1 X1 R1. destruct (negb _); [apply ok_ret; [done|apply made_none]|].
    eapply ok_seq; [by apply ok_set_contact|]. nxt u w2 S2 X2 R2. by apply ok_invite. }
  destruct contact as [[c|]|]; [exact H|apply ok_ret; [done|apply made_none]|exact H].
Qed.

Lemma ok_update_offer g offer w : st w -> ok g (update_offer offer) T w.
Proof.
  intros S. unfold update_offer. destruct offer as [s|]; [|by apply ok_ret]. apply ok_neg_is. destruct (negb _); [by apply ok_ret|].
  eapply ok_seq; [by apply ok_modify_offer|]. nxt status w1 S1 X1 R1. destruct (negb _); [by apply ok_ret|].
  apply ok_neg_read. intros r. by apply ok_ret.
Qed.

Lemma ok_update_request g o w : st w -> ok g (update_request cfg nested o) (made is_req) w.
Proof.
  intros S. unfold update_request. eapply ok_seq; [by apply ok_create_request|].
  nxt r w3 S3 X3 R3. destruct r as [status [td|]]; [|apply ok_ret; [done|apply made_none]].
  assert (H : td_like td is_req w3) by (eapply td_like_weaken; [|by apply R3]; intros l ->; by eexists).
  apply (ok_seq n g _ _ T). { destruct o; [by eapply ok_set_body|by apply ok_ret]. }
  nxt u4 w4 S4 X4 R4. apply ok_get. apply (ok_seq n g _ _ T). { destruct (c_supported cfg); [by eapply ok_add_hdr|by apply ok_ret]. }
  nxt u5 w5 S5 X5 R5. eapply ok_seq; [by apply ok_timer_status|]. nxt s6 w6 S6 X6 R6. destruct (negb _).
  - eapply ok_seq; [by eapply ok_dec_ref|]. nxt u7 w7 S7 X7 R7. apply ok_ret; [done|apply made_none].
  - eapply ok_seq; [eapply ok_td_put; [done|exact H|intros d; apply line_ext_refl]|]. nxt u7 w7 S7 X7 R7.
    by apply ok_ret; [|apply made_some].
Qed.

Lemma ok_update g contact offer w : st w -> ok g (pjsip_inv_update cfg nested contact offer) (made is_req) w.
Proof.
  intros S. unfold pjsip_inv_update. apply ok_dlg, ok_get. destruct (negb _); [apply ok_ret; [done|apply made_none]|].
  destruct (negb _); [apply ok_ret; [done|apply made_none]|]. eapply ok_seq; [by apply ok_update_offer|].
  nxt o w1 S1 X1 R1. destruct o as [status|o]; [apply ok_ret; [done|apply made_none]|].
  assert (H : ok g (bind (match contact with Some (Some c) => dlg_put (set_contact c) | _ => skip end) (fun _ =>
    update_request cfg nested o)) (made is_req) w1).
  { eapply ok_seq; [by apply ok_set_contact|]. nxt u2 w2 S2 X2 R2. by apply ok_update_request. }
  destruct contact as [[c|]|]; [exact H|apply ok_ret; [done|apply made_none]|exact H].
Qed.
End Requests.
