(* ===== verification/InvSafeUpdate.v ===== *)
(** * INVITE sessions: requests of the peer and responses keep the invariant *)

From S2P Require Import Prelude SipTypes PjStr Sdp SdpNeg SipTargets SipTargetProps InvData InvExt InvOps InvCalls InvHandlers InvSafe InvSafeExt InvSafeOps InvSafeCalls InvSafeRequests.

(** What an event says of its transaction: responses come with a message, requests too. *)
Section Events.
Context {N : Negotiator}.

Record ev_ok (e : tsx_event) (x : inv_tsx) : Prop := {
  ev_uac : t_role x = PJSIP_ROLE_UAC ->
    t_state x = PJSIP_TSX_STATE_PROCEEDING \/ t_state x = PJSIP_TSX_STATE_COMPLETED -> is_rx e = true;
  ev_uas : t_role x = PJSIP_ROLE_UAS -> t_state x = PJSIP_TSX_STATE_TRYING -> is_rx e = true;
  ev_2xx : t_role x = PJSIP_ROLE_UAC -> m_id (t_method x) = PJSIP_INVITE_METHOD ->
    t_state x = PJSIP_TSX_STATE_TERMINATED -> Z.quot (t_status x) 100 = 2 -> is_rx e = true;
  ev_calling : t_state x = PJSIP_TSX_STATE_CALLING -> t_role x = PJSIP_ROLE_UAC;
  ev_confirmed : t_state x = PJSIP_TSX_STATE_CONFIRMED -> t_role x = PJSIP_ROLE_UAS /\ 200 <= t_status x;
  ev_status : t_state x = PJSIP_TSX_STATE_COMPLETED \/ t_state x = PJSIP_TSX_STATE_TERMINATED -> 200 <= t_status x;
  ev_rdata : forall r, e_src e = Src_rx_msg r -> rd_tsx r = e_tsx e
}.
End Events.

Section Update.
Context {N : Negotiator} {Str : PjString} (cfg : inv_config) (n : nat).
Abbreviation st := (st n).
Abbreviation ok := (ok n).
Variable nested : input -> M unit.
Hypothesis nested_ok : nested_spec n nested.

Lemma ok_src {B} g e (k : pjsip_rx_data -> M B) Q w : is_rx e = true ->
  (forall r, e_src e = Src_rx_msg r -> ok g (k r) Q w) -> ok g (bind (src_rdata e) k) Q w.
Proof.
  unfold is_rx. intros H Hk. destruct (e_src e) as [r| | | |] eqn:E; try done.
  eapply ok_read; [unfold src_rdata; rewrite E; reflexivity|by apply Hk].
Qed.

Lemma ok_here {B} g t x (k : inv_tsx -> M B) Q w : w_tsxs w !! t = Some x -> ok g (k x) Q w -> ok g (bind (tsx_get t) k) Q w.
Proof. intros E. eapply ok_read. unfold tsx_get. by rewrite E. Qed.

Lemma ok_skip g w : st w -> ok g skip T w.
Proof. intros S. by apply ok_ret. Qed.

Lemma ok_then {A} g (m : M A) w : st w -> ok g m T w -> ok g (bind m (fun _ => skip)) T w.
Proof. intros S H. eapply ok_seq; [exact H|]. nxt u w1 S1 X1 R1. by apply ok_skip. Qed.

(** ** Responses *)

Lemma ok_respond g t x rdata code w : st w -> tsx_like t x w -> ok g (respond nested t rdata code) T w.
Proof.
  intros S H. unfold respond. eapply ok_seq; [by apply ok_create_response|]. nxt r w1 S1 X1 R1.
  destruct r as [status [td|]]; [|by apply ok_ret]. eapply ok_seq; [eapply ok_send_response; [done|done|exact H|by apply R1]|].
  nxt s w2 S2 X2 R2. by apply ok_ret.
Qed.

(** A response with more headers *)
Lemma ok_respond_hdrs g t x rdata code (hdrs : Z -> M unit) w : st w -> tsx_like t x w ->
  (forall td w1, st w1 -> td_like td is_rsp w1 -> ok g (hdrs td) T w1) ->
  ok g (bind (pjsip_dlg_create_response rdata code) (fun r => match r with
    | (_, Some td) => bind (hdrs td) (fun _ => bind (pjsip_dlg_send_response nested t td) (fun _ => skip))
    | _ => skip end)) T w.
Proof.
  intros S H Hh. eapply ok_seq; [by apply ok_create_response|]. nxt r w1 S1 X1 R1.
  destruct r as [status [td|]]; [|by apply ok_skip]. specialize (R1 td eq_refl).
  eapply ok_seq; [by apply Hh|]. nxt u w2 S2 X2 R2. apply ok_then; [done|]. by eapply ok_send_response.
Qed.

(** The check passes without doing anything. *)
Lemma ok_secure g e x w : st w -> w_tsxs w !! e_tsx e = Some x ->
  ok g (inv_check_secure_dlg cfg nested e) (fun b w' => b = true -> w' = w) w.
Proof.
  intros S Ex. unfold inv_check_secure_dlg. eapply ok_here; [exact Ex|]. apply ok_dlg.
  destruct (_ && _ && is_rx e && _ && _) eqn:Ec; [|by apply ok_ret].
  apply ok_src. { by repeat (apply andb_true_iff in Ec as [Ec ?]). }
  intros r Er. destruct (insecure_routing r); [|by apply ok_ret]. pose proof (tsx_like_eq _ _ _ Ex) as H.
  apply (ok_seq n g _ _ T); [|nxt u w1 S1 X1 R1; by apply ok_ret]. destruct (is_uac x).
  - eapply ok_seq; [by apply ok_end_session|]. nxt b w1 S1 X1 R1. destruct b as [status [bye|]]; [|by apply ok_skip].
    apply ok_when; [done|]. intros _. specialize (R1 bye eq_refl). eapply ok_seq; [by eapply ok_add_hdr|]. nxt u w2 S2 X2 R2.
    by apply ok_send_skip.
  - eapply ok_respond_hdrs; [done|exact H|]. intros td w1 S1 H1. by eapply ok_add_hdr.
Qed.

(** ** CANCEL and BYE *)

Lemma ok_find_invite g w : st w -> ok g find_invite_tsx (fun p w' => forall t, p = Some t ->
  exists x, tsx_like t x w' /\ t_role x = PJSIP_ROLE_UAS) w.
Proof.
  intros S. pose proof (ok_ask n g w S) as H. unfold find_invite_tsx, InvSafe.ok, wp, bind, ask in *. cbn in *.
  destruct H as (S1 & X1 & _). destruct (w_tsxs w !! a_sel (hd no_answer (w_oracle w))) as [x|] eqn:E; [|done].
  destruct (is_uas x) eqn:Er; cbn; [|done]. destruct (tsx_is x PJSIP_INVITE_METHOD); cbn; [|done]. split; [done|]. split; [done|].
  intros t [= <-]. exists x. split; [by apply tsx_like_eq|]. by apply bool_decide_eq_true in Er.
Qed.

Lemma uas_last_tx w t y td : st w -> w_tsxs w !! t = Some y -> t_role y = PJSIP_ROLE_UAS -> t_last_tx y = Some td -> td_like td is_rsp w.
Proof. intros [[] _] E Er El. destruct (ok_tsxs _ _ E) as [_ H]. rewrite Er in H. by apply (H td). Qed.

Lemma ok_terminate_invite g t x w : st w -> tsx_like t x w -> t_role x = PJSIP_ROLE_UAS -> ok g (terminate_invite nested t) T w.
Proof.
  intros S H Er. unfold terminate_invite. eapply ok_tsx_get; [exact H|]. intros y Ey Xy. apply ok_when; [done|]. intros _.
  destruct (t_last_tx y) as [td|] eqn:El; [|by apply ok_skip].
  assert (Htd : td_like td is_rsp w) by (eapply uas_last_tx; [done|exact Ey|by rewrite (te_role _ _ Xy)|done]).
  eapply ok_seq; [by eapply ok_modify_response|]. nxt status w1 S1 X1 R1. apply ok_when; [done|]. intros _.
  eapply ok_seq; [by eapply ok_set_body|]. nxt u w2 S2 X2 R2. apply ok_get. apply ok_then; [done|].
  destruct (has_option _ _); [apply ok_100rel_response; [done|done|by eapply td_like_weaken; [|exact Htd]]|by eapply ok_send_response].
Qed.

Lemma ok_incoming_cancel g e x w : st w -> w_tsxs w !! e_tsx e = Some x -> is_rx e = true ->
  ok g (inv_respond_incoming_cancel cfg nested (e_tsx e) e) T w.
Proof.
  intros S Ex Hrx. unfold inv_respond_incoming_cancel. pose proof (tsx_like_eq _ _ _ Ex) as H. apply ok_src; [done|]. intros r Er.
  apply ok_get. eapply ok_seq; [by apply ok_callback_if|]. nxt u1 w1 S1 X1 R1.
  eapply ok_seq; [by apply ok_find_invite|]. nxt p w2 S2 X2 R2. eapply ok_seq; [by eapply ok_respond|]. nxt b w3 S3 X3 R3.
  destruct p as [t|]; [|by apply ok_skip]. destruct (R2 t eq_refl) as (y & Hy & Ey). lift_facts X3. apply ok_when; [done|]. intros _.
  by eapply ok_terminate_invite.
Qed.

Lemma ok_bye_done g w : st w -> ok g (bye_done cfg nested) T w.
Proof. intros S. unfold bye_done. eapply ok_seq; [by apply ok_set_cause|]. nxt u w1 S1 X1 R1. by apply ok_set_state. Qed.

Lemma ok_incoming_bye g t x rdata w : st w -> tsx_like t x w -> ok g (inv_respond_incoming_bye cfg nested t rdata) T w.
Proof.
  intros S H. unfold inv_respond_incoming_bye. eapply ok_seq; [by eapply ok_respond|]. nxt b w1 S1 X1 R1. apply ok_get.
  apply ok_when; [done|]. intros _. by apply ok_bye_done.
Qed.

Lemma ok_reinit_uac g t x y w : st w -> tsx_like t x w -> t_role x = PJSIP_ROLE_UAC -> w_tsxs w !! t = Some y ->
  ok g (pjsip_auth_clt_reinit_req (t_last_tx y)) (made is_req) w.
Proof.
  intros S (z & Ez & Xz) Er Ey. rewrite Ey in Ez. injection Ez as <-.
  destruct (uac_last_tx n w t y S Ey) as [H1 H2]; [by rewrite (te_role _ _ Xz)|]. apply ok_reinit; [done|done|done|apply stable_req].
Qed.

Lemma ok_bye_response g e x w : st w -> w_tsxs w !! e_tsx e = Some x -> t_role x = PJSIP_ROLE_UAC ->
  ok g (inv_handle_bye_response cfg nested e) T w.
Proof.
  intros S Ex Er. unfold inv_handle_bye_response. pose proof (tsx_like_eq _ _ _ Ex) as H. eapply ok_here; [exact Ex|].
  destruct (negb _); [by apply ok_bye_done|]. destruct (_ || _); [|by apply ok_bye_done].
  eapply ok_seq; [by eapply ok_reinit_uac|]. nxt r w1 S1 X1 R1. destruct r as [status [td|]]; [|by apply ok_bye_done].
  specialize (R1 td eq_refl). eapply ok_seq; [by eapply ok_tsx_data|]. nxt u w2 S2 X2 R2. apply ok_send_skip; [done|done|].
  by eapply td_like_weaken; [|exact R1].
Qed.

Lemma ok_resend g t x w : st w -> tsx_like t x w -> t_role x = PJSIP_ROLE_UAC -> ok g (resend_with_auth nested t) T w.
Proof.
  intros S H Er. unfold resend_with_auth. eapply ok_tsx_get; [exact H|]. intros y Ey Xy.
  eapply ok_seq; [by eapply ok_reinit_uac|]. nxt r w1 S1 X1 R1. destruct r as [status [td|]]; [|by apply ok_skip].
  specialize (R1 td eq_refl). eapply ok_seq; [by eapply ok_tsx_data|]. nxt u w2 S2 X2 R2. apply ok_send_skip; [done|done|].
  by eapply td_like_weaken; [|exact R1].
Qed.
(** ** UPDATE and PRACK *)

Lemma ok_update_negotiated g x rdata w : st w -> tsx_like (rd_tsx rdata) x w ->
  ok g (update_negotiated cfg nested rdata) (made is_rsp) w.
Proof.
  intros S H. unfold update_negotiated. eapply ok_seq; [by eapply ok_check_sdp|]. nxt u1 w1 S1 X1 R1. apply ok_neg_is.
  apply (ok_seq n g _ _ T). { destruct (bool_decide _); [by apply ok_negotiate|by apply ok_ret]. }
  nxt status w2 S2 X2 R2. destruct (negb _).
  - apply ok_neg_is. eapply ok_seq; [by apply ok_cancel_if|]. nxt u w3 S3 X3 R3. by apply ok_create_response.
  - eapply ok_seq; [by apply ok_create_response|]. nxt r w3 S3 X3 R3. destruct r as [s3 [td|]]; [|apply ok_ret; [done|apply made_none]].
    specialize (R3 td eq_refl). apply ok_neg_read. intros [s|s]; [by apply ok_ret; [|apply made_some]|].
    eapply ok_seq; [by eapply ok_set_body|]. nxt u w4 S4 X4 R4. by apply ok_ret; [|apply made_some].
Qed.

Lemma ok_update_response g x rdata w : st w -> tsx_like (rd_tsx rdata) x w ->
  ok g (update_response cfg nested rdata) (made is_rsp) w.
Proof.
  intros S H. unfold update_response. eapply ok_seq; [by apply ok_timer|]. nxt t w1 S1 X1 R1.
  destruct (negb _); [by apply ok_create_response|]. eapply ok_read; [reflexivity|].
  destruct (rd_body rdata); [|by apply ok_create_response]. set (s := match i_neg (w_inv w1) with Some m => neg_state_of m | None => _ end).
  assert (Hr : In s [PJMEDIA_SDP_NEG_STATE_REMOTE_OFFER; PJMEDIA_SDP_NEG_STATE_WAIT_NEGO] -> ok g (bind (pjsip_dlg_create_response rdata 500) (fun r => bind ask (fun a => bind (deref Crash_update_response r.2)
    (fun td => bind (add_hdr td (H_retry_after (a_sel a mod 10))) (fun _ => ret r))))) (made is_rsp) w1).
  { intros Hs. eapply ok_seq; [apply (ok_beside _ _ _ (fun w w' => w_inv w' = w_inv w)); [by apply ok_create_response|by apply create_response_inv]|].
    nxt r w2 S2 X2 R2. destruct R2 as [R2 E2]. eapply ok_seq; [by apply ok_ask|]. nxt a w3 S3 X3 R3. apply ok_inv_deref.
    { intros _. destruct R3 as (_ & _ & ->). unfold s in Hs. unfold stops_at, neg_in. cbn. rewrite E2.
      destruct (i_neg (w_inv w1)) as [m|]; [by exists m|by destruct Hs as [Hs|[Hs|[]]]]. }
    intros td E. specialize (R2 td E). lift_facts X3. eapply ok_seq; [by eapply ok_add_hdr|].
    nxt u w4 S4 X4 R4. apply ok_ret; [done|]. intros td' E'. rewrite E in E'. by injection E' as <-. }
  destruct s; try (apply Hr; cbn; tauto); try (by apply ok_create_response); by eapply ok_update_negotiated.
Qed.

Lemma ok_incoming_update g e x w : st w -> w_tsxs w !! e_tsx e = Some x -> ev_ok e x -> is_rx e = true ->
  ok g (inv_respond_incoming_update cfg nested e) T w.
Proof.
  intros S Ex He Hrx. unfold inv_respond_incoming_update. apply ok_src; [done|]. intros r Er.
  pose proof (tsx_like_eq _ _ _ Ex) as H. rewrite <- (ev_rdata _ _ He r Er) in H.
  eapply ok_seq; [by eapply ok_secure|]. nxt b w1 S1 X1 R1. destruct (negb b); [by apply ok_skip|].
  eapply ok_seq; [by eapply ok_update_response|]. nxt r2 w2 S2 X2 R2. destruct r2 as [status [td|]]; [|by apply ok_skip].
  specialize (R2 td eq_refl). apply (ok_seq n g _ _ T). { destruct (_ =? _); [by apply ok_timer_status|by apply ok_ret]. }
  nxt s3 w3 S3 X3 R3. destruct (_ =? _); [|by eapply ok_dec_ref]. apply ok_then; [done|]. by eapply ok_send_response.
Qed.

Lemma ok_incoming_prack g x rdata w : st w -> tsx_like (rd_tsx rdata) x w -> ok g (inv_respond_incoming_prack cfg nested rdata) T w.
Proof.
  intros S H. unfold inv_respond_incoming_prack. apply (ok_seq n g _ _ T).
  { unfold pjsip_100rel_on_rx_prack. eapply ok_seq; [by apply ok_ask|]. nxt a w1 S1 X1 R1.
    pose proof (asked_ready n _ _ _ S R1) as Ha. eapply ok_seq; [by eapply ok_happen_to|]. nxt u w2 S2 X2 R2. by apply ok_ret. }
  nxt status w1 S1 X1 R1. destruct (negb _); [by apply ok_skip|].
  apply (ok_seq n g _ _ T). { destruct (rd_body rdata); [by eapply ok_check_sdp|by apply ok_ret]. }
  nxt s2 w2 S2 X2 R2. apply ok_get. pose proof (invite_known n w2 S2) as Hk.
  destruct (i_invite_tsx (w_inv w2)) as [t|]; [|by apply ok_skip]. destruct (Hk t eq_refl) as [y Hy]. apply ok_when; [done|]. intros _.
  eapply ok_tsx_get; [exact Hy|]. intros z Ez _. destruct (t_data z); [by eapply ok_mark_done|by eapply ok_attach].
Qed.

Lemma ok_update_accepted g e x w : st w -> w_tsxs w !! e_tsx e = Some x -> is_rx e = true -> ok g (update_accepted cfg nested e) T w.
Proof.
  intros S Ex Hrx. unfold update_accepted. pose proof (tsx_like_eq _ _ _ Ex) as H. eapply ok_seq; [by eapply ok_secure|].
  nxt b w1 S1 X1 R1. apply ok_when; [done|]. intros _. apply ok_src; [done|]. intros r Er.
  eapply ok_seq; [by apply ok_timer_response|]. nxt s w2 S2 X2 R2. apply ok_neg_is. apply ok_when; [done|]. intros _.
  apply ok_then; [done|]. by eapply ok_check_sdp.
Qed.

Lemma ok_bool {A} g (m : M A) (R : bool -> world -> Prop) w : st w -> (forall w', R true w') -> ok g m T w ->
  ok g (bind m (fun _ => ret true)) R w.
Proof. intros S HR H. eapply ok_seq; [exact H|]. nxt u w1 S1 X1 R1. by apply ok_ret. Qed.

Lemma ok_timer_422 g e (R : bool -> world -> Prop) w : st w -> (forall w', R true w') -> is_rx e = true ->
  ok g (bind (src_rdata e) (fun rdata => bind (handle_timer_response cfg nested rdata false) (fun _ => ret true))) R w.
Proof. intros S HR Hrx. apply ok_src; [done|]. intros r Er. apply ok_bool; [done|done|]. by apply ok_timer_response. Qed.

Lemma completed_rx e x : ev_ok e x -> t_role x = PJSIP_ROLE_UAC -> in_state x PJSIP_TSX_STATE_COMPLETED = true -> is_rx e = true.
Proof. intros He Er Es. apply (ev_uac _ _ He Er). right. by apply bool_decide_eq_true in Es. Qed.

Lemma ok_update_dispatch g e x w : st w -> w_tsxs w !! e_tsx e = Some x -> ev_ok e x -> t_role x = PJSIP_ROLE_UAC ->
  ok g (update_dispatch cfg nested e x) (fun b w' => b = false -> w' = w) w.
Proof.
  intros S Ex He Er. unfold update_dispatch. pose proof (tsx_like_eq _ _ _ Ex) as H. pose proof (completed_rx _ _ He Er) as Hrx.
  destruct (is_challenge x); [apply ok_bool; [done|done|]; by eapply ok_resend|].
  destruct (in_state x PJSIP_TSX_STATE_COMPLETED); cbn [andb].
  - destruct (_ =? 422); [apply ok_timer_422; [done|done|by apply Hrx]|].
    destruct (is_2xx x); [apply ok_bool; [done|done|]; eapply ok_update_accepted; [done|exact Ex|by apply Hrx]|].
    destruct (_ && _); [apply ok_bool; [done|done|]; by apply ok_timer_status|].
    destruct (is_uac x); [apply ok_timer_422; [done|done|by apply Hrx]|by apply ok_ret].
  - destruct (_ && _); [apply ok_bool; [done|done|]; by apply ok_timer_status|by apply ok_ret].
Qed.

Lemma ok_also {A} g (m : M A) (R : A -> world -> Prop) w : ok g m T w -> (forall a w', m w = Ok a w' -> R a w') -> ok g m R w.
Proof.
  intros H Hm. unfold InvSafe.ok, wp in *. destruct (m w) as [a w'|c] eqn:E; [|done]. destruct H as (S & X & _). eauto.
Qed.

Definition same_state (t : Z) (x : inv_tsx) (w : world) : Prop := exists y, w_tsxs w !! t = Some y /\ t_state y = t_state x.

Lemma cancel_mark_state t x b w u w' : w_tsxs w !! t = Some x ->
  when b (bind cancel_offer (fun _ => mark_sdp_done t)) w = Ok u w' -> same_state t x w'.
Proof.
  intros Ex. destruct b; [|intros E; injection E as _ <-; by exists x].
  unfold cancel_offer, with_neg, neg_set, get, put, when, bind, ret, mark_sdp_done, tsx_data, tsx_put. cbn.
  destruct (i_neg (w_inv w)); cbn; rewrite Ex; intros E; injection E as _ <-;
    (eexists; split; [apply lookup_insert_eq|done]).
Qed.

(** A response that is not handled leaves the state of the transaction. *)
Lemma ok_handle_update g e x w : st w -> w_tsxs w !! e_tsx e = Some x -> ev_ok e x -> t_role x = PJSIP_ROLE_UAC ->
  ok g (inv_handle_update_response cfg nested e) (fun b w' => b = false -> same_state (e_tsx e) x w') w.
Proof.
  intros S Ex He Er. unfold inv_handle_update_response. pose proof (tsx_like_eq _ _ _ Ex) as H. eapply ok_here; [exact Ex|].
  eapply ok_seq; [by eapply ok_update_dispatch|]. nxt b w1 S1 X1 R1. apply ok_neg_is. eapply ok_tsx_get; [exact H|]. intros y Ey Xy.
  assert (Hs : b = false -> y = x). { intros E. rewrite (R1 E), Ex in Ey. by injection Ey. }
  eapply (ok_seq n g _ _ (fun _ w' => b = false -> same_state (e_tsx e) x w')).
  2:{ nxt u w2 S2 X2 R2. apply ok_ret; [done|]. exact R2. }
  assert (Hn : b = false -> same_state (e_tsx e) x w1). { intros E. exists y. by rewrite (Hs E) in *. }
  destruct (t_data x), (t_data y); try (by apply ok_ret).
  apply ok_also.
  - apply ok_when; [done|]. intros _. eapply ok_seq; [by apply ok_cancel_offer|]. nxt u w2 S2 X2 R2. by eapply ok_mark_done.
  - intros u w2 E2 Eb. rewrite (Hs Eb) in *. by eapply cancel_mark_state.
Qed.

Lemma ok_reliable g x rdata w : st w -> tsx_like (rd_tsx rdata) x w -> ok g (inv_handle_incoming_reliable_response cfg nested rdata) T w.
Proof.
  intros S H. unfold inv_handle_incoming_reliable_response, pjsip_100rel_create_prack. eapply ok_seq; [by apply ok_create_request|].
  nxt r w1 S1 X1 R1. destruct r as [status [td|]]; [|by apply ok_skip]. specialize (R1 td eq_refl).
  assert (Hk : known (Some (rd_tsx rdata)) w1) by (intros t [= <-]; by exists x).
  eapply ok_seq; [by apply ok_pending_answer|]. nxt s w2 S2 X2 R2.
  apply (ok_seq n g _ _ T). { destruct s; [by eapply ok_set_body|by apply ok_ret]. }
  nxt u w3 S3 X3 R3. apply ok_then; [done|]. eapply ok_send_request; [done|done|exact R1|done|].
  cbn. by destruct (i_role (w_inv w3)), (i_state (w_inv w3)).
Qed.

(** ** Responses to our requests *)

(** The response may end the session; a message is read when the transaction is completed. *)
Lemma ok_uac_response g e x w : st w -> w_tsxs w !! e_tsx e = Some x -> t_role x = PJSIP_ROLE_UAC ->
  (in_state x PJSIP_TSX_STATE_COMPLETED = true -> is_rx e = true) -> ok g (handle_uac_tsx_response cfg nested e) T w.
Proof.
  intros S Ex Er Hrx. unfold handle_uac_tsx_response. pose proof (tsx_like_eq _ _ _ Ex) as H. eapply ok_here; [exact Ex|]. apply ok_get.
  destruct (_ && (_ || _ || _)) eqn:Ec.
  { apply andb_true_iff in Ec as [_ Ec]. assert (100 <= t_status x).
    { unfold PJSIP_SC_TSX_TIMEOUT, PJSIP_SC_CALL_TSX_DOES_NOT_EXIST, PJSIP_SC_REQUEST_TIMEOUT in Ec.
      destruct (Z.eqb_spec (t_status x) 481); [lia|]. destruct (Z.eqb_spec (t_status x) 408); [lia|done]. }
    eapply ok_seq; [by eapply ok_disconnect|]. nxt u w1 S1 X1 R1. eapply ok_seq; [by apply ok_create_request|]. nxt r w2 S2 X2 R2.
    apply ok_bool; [done|done|]. apply ok_send_created; [done|done|by eapply made_any]. }
  destruct (is_challenge x).
  { apply (ok_seq n g _ _ T). { apply ok_when; [done|]. intros _. by apply ok_clear_invite. }
    nxt u w1 S1 X1 R1. apply ok_bool; [done|done|]. by eapply ok_resend. }
  destruct (in_state x PJSIP_TSX_STATE_COMPLETED && _) eqn:E4.
  { apply andb_true_iff in E4 as [E4 _]. apply ok_timer_422; [done|done|by apply Hrx]. }
  destruct (in_state x PJSIP_TSX_STATE_TERMINATED && _); [apply ok_bool; [done|done|]; by apply ok_timer_status|by apply ok_ret].
Qed.

Lemma ok_recurse_or_disconnect g t x w : st w -> tsx_like t x w -> 100 <= t_status x ->
  ok g (recurse_or_disconnect cfg nested t) T w.
Proof.
  intros S H Hx. unfold recurse_or_disconnect. eapply ok_tsx_get; [exact H|]. intros y Ey Xy. pose proof (te_status _ _ Xy Hx).
  eapply ok_seq; [apply ok_uac_recurse; [done|done|lia]|]. nxt more w1 S1 X1 R1. destruct more; [by apply ok_skip|].
  by eapply ok_disconnect.
Qed.
End Update.
