(* ===== verification/InvSafeStates.v ===== *)
(** * INVITE sessions: the handlers of the seven states keep the invariant *)

From S2P Require Import Prelude SipTypes PjStr Sdp SdpNeg SipTargets SipTargetProps InvData InvExt InvOps InvCalls InvHandlers InvSafe InvSafeExt InvSafeOps InvSafeCalls InvSafeRequests InvSafeUpdate.

Section States.
Context {N : Negotiator} {Str : PjString} (cfg : inv_config).
Context (is_reliable : pjsip_rx_data -> bool) (uri_cmp : pjsip_uri -> pjsip_uri -> bool) (n : nat).
Abbreviation st := (st n).
Abbreviation ok := (ok n).
Variable nested : input -> M unit.
Hypothesis nested_ok : nested_spec n nested.

Lemma ok_is_invite {B} g t (k : bool -> M B) Q w :
  ok g (k (bool_decide (i_invite_tsx (w_inv w) = Some t))) Q w -> ok g (bind (is_invite_tsx t) k) Q w.
Proof. by apply ok_read. Qed.

Lemma ok_check g t x rdata w : st w -> tsx_like t x w -> ok g (check_sdp cfg nested t rdata) T w.
Proof. intros S H. unfold check_sdp. apply ok_then; [done|]. by eapply ok_check_sdp. Qed.

Lemma ok_check_src g e x w : st w -> tsx_like (e_tsx e) x w -> is_rx e = true ->
  ok g (bind (src_rdata e) (fun rdata => check_sdp cfg nested (e_tsx e) rdata)) T w.
Proof. intros S H Hrx. apply ok_src; [done|]. intros r Er. by eapply ok_check. Qed.

Lemma has_rdata_rx e : is_rx e = true -> has_rdata (Ev_tsx_state e).
Proof. unfold is_rx. intros H. destruct (e_src e) as [r| | | |] eqn:E; try done. exists r. intros w. cbn. by rewrite E. Qed.

(** ** Responses to the INVITE *)

Lemma ok_resend_or g e x w td : st w -> tsx_like (e_tsx e) x w -> td_like td is_req w ->
  ok g (bind (pjsip_inv_uac_restart false) (fun _ => bind (pjsip_inv_send_msg nested td) (fun _ => skip))) T w.
Proof.
  intros S H Ht. eapply ok_seq; [by apply ok_restart|]. nxt u w1 S1 X1 R1. apply ok_send_skip; [done|done|].
  by eapply td_like_weaken; [|exact Ht].
Qed.

Lemma ok_rejection e x w : st w -> w_tsxs w !! e_tsx e = Some x -> t_role x = PJSIP_ROLE_UAC -> 100 <= t_status x ->
  is_rx e = true -> ok true (handle_uac_call_rejection cfg uri_cmp nested e) T w.
Proof.
  intros S Ex Er Hx Hrx. unfold handle_uac_call_rejection. pose proof (tsx_like_eq _ _ _ Ex) as H. eapply ok_here; [exact Ex|].
  apply ok_get. destruct (PJSIP_IS_STATUS_IN_CLASS (t_status x) 300).
  { destruct (negb _); [by eapply ok_disconnect|]. apply ok_src; [done|]. intros r Esr.
    eapply ok_seq; [apply ok_targets; [done|done]|]. nxt u w1 S1 X1 R1. by eapply ok_recurse_or_disconnect. }
  destruct (_ && negb _).
  { eapply ok_seq; [by eapply ok_reinit_uac|]. nxt r w1 S1 X1 R1. destruct r as [status [td|]]; [|by eapply ok_recurse_or_disconnect].
    eapply ok_resend_or; [done|exact H|by apply R1]. }
  destruct (in_state x PJSIP_TSX_STATE_COMPLETED && _).
  { apply ok_src; [done|]. intros r Esr. eapply ok_seq; [by apply ok_timer_response|]. nxt s w1 S1 X1 R1. apply ok_when; [done|].
    intros _. by eapply ok_disconnect. }
  destruct (PJSIP_IS_STATUS_IN_CLASS (t_status x) 600); [by eapply ok_disconnect|by eapply ok_recurse_or_disconnect].
Qed.

Lemma ok_provisional g e x w : st w -> tsx_like (e_tsx e) x w -> ev_ok e x -> is_rx e = true ->
  ok g (bind (src_rdata e) (fun rdata => handle_provisional cfg is_reliable nested (e_tsx e) rdata)) T w.
Proof.
  intros S H He Hrx. apply ok_src; [done|]. intros r Er. unfold handle_provisional.
  eapply ok_seq; [by eapply ok_check|]. nxt u w1 S1 X1 R1. apply ok_when; [done|]. intros _.
  rewrite <- (ev_rdata _ _ He r Er) in H. by eapply ok_reliable.
Qed.

Lemma ok_secure_like g e x w : st w -> tsx_like (e_tsx e) x w -> ok g (inv_check_secure_dlg cfg nested e) T w.
Proof. intros S (y & Ey & _). eapply ok_true. by eapply ok_secure. Qed.

Lemma ok_accept_2xx g e x w : st w -> tsx_like (e_tsx e) x w -> is_rx e = true -> ok g (accept_2xx cfg nested e) T w.
Proof.
  intros S H Hrx. unfold accept_2xx. eapply ok_seq; [by eapply ok_secure_like|]. nxt b w1 S1 X1 R1. destruct (negb b); [by apply ok_ret|].
  apply ok_src; [done|]. intros r Er. eapply ok_seq; [by apply ok_timer_response|]. nxt s w2 S2 X2 R2. by apply ok_ret.
Qed.

(** ** State CALLING *)

Lemma ok_proceeding g e x w : st w -> tsx_like (e_tsx e) x w -> ev_ok e x -> is_rx e = true ->
  ok g (calling_proceeding cfg is_reliable nested e) T w.
Proof.
  intros S H He Hrx. unfold calling_proceeding. apply ok_get. apply (ok_seq n g _ _ T).
  { apply ok_when; [done|]. intros _. eapply ok_seq; [by apply ok_put_free|]. nxt u w1 S1 X1 R1.
    eapply ok_seq; [by apply ok_end_session|]. nxt r w2 S2 X2 R2. by apply ok_send_created. }
  nxt u w1 S1 X1 R1. apply ok_dlg. apply ok_when; [done|]. intros _. eapply ok_seq; [by apply ok_set_state|]. nxt v w2 S2 X2 R2.
  by eapply ok_provisional.
Qed.

Lemma ok_completed e x w : st w -> w_tsxs w !! e_tsx e = Some x -> ev_ok e x -> t_role x = PJSIP_ROLE_UAC ->
  t_state x = PJSIP_TSX_STATE_COMPLETED -> is_rx e = true -> ok true (calling_completed cfg uri_cmp nested e) T w.
Proof.
  intros S Ex He Er Es Hrx. unfold calling_completed. pose proof (tsx_like_eq _ _ _ Ex) as H. eapply ok_here; [exact Ex|].
  destruct (is_2xx x).
  - eapply ok_seq; [by apply ok_set_state|]. nxt u w1 S1 X1 R1. eapply ok_seq; [by eapply ok_accept_2xx|]. nxt b w2 S2 X2 R2.
    apply ok_when; [done|]. intros _. by eapply ok_check_src.
  - eapply ok_rejection; [done|exact Ex|done| |done]. pose proof (ev_status _ _ He (or_introl Es)). lia.
Qed.

Lemma ok_acknowledge g e x w : st w -> tsx_like (e_tsx e) x w -> is_rx e = true ->
  ok g (bind (src_rdata e) (fun rdata => bind (check_sdp cfg nested (e_tsx e) rdata) (fun _ =>
    bind (inv_send_ack cfg nested (Ev_tsx_state e)) (fun _ => skip)))) T w.
Proof.
  intros S H Hrx. apply ok_src; [done|]. intros r Er. eapply ok_seq; [by eapply ok_check|]. nxt u w1 S1 X1 R1.
  apply ok_then; [done|]. apply ok_send_ack; [done|done|by apply has_rdata_rx].
Qed.

Lemma ok_terminated g e x w : st w -> w_tsxs w !! e_tsx e = Some x -> 100 <= t_status x ->
  (is_2xx x = true -> is_rx e = true) -> ok g (calling_terminated cfg nested e) T w.
Proof.
  intros S Ex Hx Hrx. unfold calling_terminated. pose proof (tsx_like_eq _ _ _ Ex) as H. eapply ok_here; [exact Ex|].
  destruct (is_2xx x); [|by eapply ok_disconnect]. specialize (Hrx eq_refl).
  eapply ok_seq; [by apply ok_set_state|]. nxt u w1 S1 X1 R1. eapply ok_seq; [by eapply ok_accept_2xx|]. nxt b w2 S2 X2 R2.
  apply ok_when; [done|]. intros _. by eapply ok_acknowledge.
Qed.

Lemma is_2xx_quot x : is_2xx x = true -> Z.quot (t_status x) 100 = 2.
Proof. apply Z.eqb_eq. Qed.

Lemma method_of w t x : st w -> i_invite_tsx (w_inv w) = Some t -> w_tsxs w !! t = Some x -> m_id (t_method x) = PJSIP_INVITE_METHOD.
Proof. intros S E Ex. destruct (so_invite _ _ _ _ _ (sess_of n _ S) t E) as (y & Ey & Em & _). rewrite Ex in Ey. by injection Ey as <-. Qed.

Lemma ok_other g e x w : st w -> w_tsxs w !! e_tsx e = Some x -> ev_ok e x -> ok g (calling_other cfg nested e x) T w.
Proof.
  intros S Ex He. unfold calling_other. pose proof (tsx_like_eq _ _ _ Ex) as H. destruct (is_uac x) eqn:Er.
  - apply ok_when; [done|]. intros Hc. eapply ok_disconnect; [done|done|exact H|].
    unfold PJSIP_SC_TSX_TIMEOUT, PJSIP_SC_CALL_TSX_DOES_NOT_EXIST, PJSIP_SC_REQUEST_TIMEOUT, PJSIP_SC_TSX_TRANSPORT_ERROR in Hc.
    destruct (Z.eqb_spec (t_status x) 481); [lia|]. destruct (Z.eqb_spec (t_status x) 408); [lia|].
    destruct (Z.eqb_spec (t_status x) 503); [lia|done].
  - apply ok_when; [done|]. intros Hc. apply andb_true_iff in Hc as [Hc _]. apply bool_decide_eq_true in Hc.
    apply bool_decide_eq_false in Er. eapply ok_incoming_update; [done|done|exact Ex|done|]. apply (ev_uas _ _ He); [by destruct (t_role x)|done].
Qed.

(** In a session that calls, the INVITE is a client transaction. *)
Lemma ok_calling g e x w : st w -> w_tsxs w !! e_tsx e = Some x -> ev_ok e x -> (is_rx e = true -> g = true) ->
  d_role (w_dlg w) = PJSIP_ROLE_UAC -> (i_state (w_inv w) = PJSIP_INV_STATE_NULL \/ i_state (w_inv w) = PJSIP_INV_STATE_CALLING) ->
  ok g (inv_on_state_calling cfg is_reliable uri_cmp nested e) T w.
Proof.
  intros S Ex He Hg Hd Hs. unfold inv_on_state_calling. pose proof (tsx_like_eq _ _ _ Ex) as H. eapply ok_here; [exact Ex|].
  apply ok_is_invite. case_bool_decide as Em; [|by apply ok_other].
  assert (Hr : forall t y, i_invite_tsx (w_inv w) = Some t -> w_tsxs w !! t = Some y -> t_role y = PJSIP_ROLE_UAC).
  { intros t y Et Ey. destruct (so_invite _ _ _ _ _ (sess_of n _ S) t Et) as (z & Ez & _ & Hz). rewrite Ey in Ez. injection Ez as <-. auto. }
  pose proof (Hr _ _ Em Ex) as Er. destruct (t_state x) eqn:Es; try (by apply ok_skip).
  - by apply ok_set_state.
  - pose proof (ev_uac _ _ He Er (or_introl Es)). by eapply ok_proceeding.
  - pose proof (ev_uac _ _ He Er (or_intror Es)) as Hrx. rewrite (Hg Hrx). by eapply ok_completed.
  - eapply ok_terminated; [done|exact Ex| |].
    + pose proof (ev_status _ _ He (or_intror Es)). lia.
    + intros H2. apply (ev_2xx _ _ He Er); [by eapply method_of|done|by apply is_2xx_quot].
Qed.

(** ** State INCOMING *)

Lemma ok_incoming g e x w : st w -> w_tsxs w !! e_tsx e = Some x -> ev_ok e x ->
  ok g (inv_on_state_incoming cfg nested e) T w.
Proof.
  intros S Ex He. unfold inv_on_state_incoming. pose proof (tsx_like_eq _ _ _ Ex) as H. eapply ok_here; [exact Ex|].
  apply ok_is_invite. case_bool_decide as Em.
  - destruct (t_state x) eqn:Es; try (by apply ok_skip); [by apply ok_set_state| | |].
    + apply ok_when; [done|]. intros _. by apply ok_set_state.
    + destruct (is_2xx x); [by apply ok_set_state|]. eapply ok_disconnect; [done|done|exact H|].
      pose proof (ev_status _ _ He (or_introl Es)). lia.
    + eapply ok_disconnect; [done|done|exact H|]. pose proof (ev_status _ _ He (or_intror Es)). lia.
  - apply ok_when; [done|]. intros Hc. unfold incoming_cancel in Hc. apply andb_true_iff in Hc as [_ Hc].
    by eapply ok_incoming_cancel.
Qed.

(** ** State NULL *)

Lemma ok_set_invite g t x w : st w -> w_tsxs w !! t = Some x -> m_id (t_method x) = PJSIP_INVITE_METHOD ->
  (d_role (w_dlg w) = PJSIP_ROLE_UAC -> i_state (w_inv w) = PJSIP_INV_STATE_NULL \/ i_state (w_inv w) = PJSIP_INV_STATE_CALLING ->
   t_role x = PJSIP_ROLE_UAC) ->
  ok g (put (set_i_invite_tsx (Some t))) (fun _ => put_to (set_i_invite_tsx (Some t)) w) w.
Proof.
  intros S Ex Em Hr. apply ok_put; [done|done|]. intros []. split; cbn; auto. intros t' [= <-]. by exists x.
Qed.
Definition same_calls (w w' : world) : Prop :=
  i_state (w_inv w') = i_state (w_inv w) /\ w_tsxs w' = w_tsxs w /\ w_dlg w' = w_dlg w.

Lemma save_req_same x w u w' : save_invite_req x w = Ok u w' -> same_calls w w'.
Proof.
  unfold save_invite_req, drop_ref, bind, get, put, ret, pjsip_tx_data_dec_ref, pjsip_tx_data_add_ref, td_put, deref, stop, skip.
  destruct (i_invite_req (w_inv w)) as [r|].
  - destruct (w_tds w !! r); [|done]. cbn. destruct (t_last_tx x); [|done]. cbn. destruct (_ !! _); [|done].
    intros E. injection E as _ <-. by split.
  - cbn. destruct (t_last_tx x); [|done]. cbn. destruct (_ !! _); [|done]. intros E. injection E as _ <-. by split.
Qed.

Lemma ok_save_req g t x w : st w -> w_tsxs w !! t = Some x -> t_role x = PJSIP_ROLE_UAC ->
  ok g (save_invite_req x) (fun _ => same_calls w) w.
Proof.
  intros S Ex Er. apply ok_also; [|intros u w'; apply save_req_same]. unfold save_invite_req.
  destruct (uac_last_tx n w t x S Ex Er) as [[td Etd] Hl]. rewrite Etd in *.
  assert (H : td_like td is_req w) by by apply Hl.
  eapply ok_seq; [by apply ok_drop_req|]. nxt u1 w1 S1 X1 R1. eapply ok_read; [reflexivity|].
  apply (ok_seq n g _ _ T).
  - eapply ok_true. apply ok_put; [done|done|]. intros []. split; cbn; auto. intros td' [= <-]. exact H.
  - nxt u2 w2 S2 X2 R2. by eapply ok_add_ref.
Qed.

Lemma ok_null g e x w : st w -> w_tsxs w !! e_tsx e = Some x -> ev_ok e x -> (is_rx e = true -> g = true) ->
  i_state (w_inv w) = PJSIP_INV_STATE_NULL -> peer_invite_at w x = false ->
  ok g (inv_on_state_null cfg is_reliable uri_cmp nested e) T w.
Proof.
  intros S Ex He Hg Hs Hp. unfold inv_on_state_null. eapply ok_here; [exact Ex|].
  destruct (tsx_is x PJSIP_INVITE_METHOD) eqn:Em; [|by apply ok_skip]. apply bool_decide_eq_true in Em. apply ok_get.
  assert (Hr : d_role (w_dlg w) = PJSIP_ROLE_UAC -> t_role x = PJSIP_ROLE_UAC).
  { intros Hd. unfold peer_invite_at in Hp. rewrite Hs, Hd, Em in Hp. by destruct (t_role x). }
  eapply (ok_seq n g _ _ (fun _ => same_calls w)).
  { unfold when. destruct (negb _); [|by apply ok_ret].
    eapply ok_mono; [eapply ok_set_invite; [done|exact Ex|done|auto]|]. by intros u w1 ->. }
  intros u1 w1 S1 X1 (E1 & E2 & E3). rewrite <- E2 in Ex. rewrite <- E3 in Hr. rewrite <- E1 in Hs. clear E1 E2 E3. apply ok_dlg.
  pose proof (tsx_like_eq _ _ _ Ex) as H.
  destruct (d_role (w_dlg w1)) eqn:Ed.
  - eapply ok_seq; [eapply ok_save_req; [done|exact Ex|by apply Hr]|]. intros u2 w2 S2 X2 (E1 & E2 & E3).
    rewrite <- E2 in Ex. rewrite <- E3 in Ed. rewrite <- E1 in Hs.
    assert (Hc : ok g (inv_on_state_calling cfg is_reliable uri_cmp nested e) T w2) by (eapply ok_calling; eauto).
    destruct (t_state x); try exact Hc. apply ok_set_state; [done|done|]. split; [done|]. intros t y Et Ey.
    destruct (so_invite _ _ _ _ _ (sess_of n _ S2) t Et) as (z & Ez & _ & Hz). rewrite Ey in Ez. injection Ez as <-. auto.
  - assert (Hi : ok g (inv_on_state_incoming cfg nested e) T w1) by by eapply ok_incoming.
    destruct (t_state x) eqn:Et; try exact Hi; [by apply ok_set_state| |].
    + eapply ok_seq; [by apply ok_set_state|]. nxt u2 w2 S2 X2 R2. eapply ok_tsx_get; [exact H|]. intros y Ey Xy.
      apply ok_when; [done|]. intros _. by apply ok_set_state.
    + eapply ok_disconnect; [done|done|exact H|]. pose proof (ev_status _ _ He (or_intror Et)). lia.
Qed.

(** ** State EARLY *)

Lemma ok_accept_check {A} g e x w (k : bool -> M A) Q : st w -> tsx_like (e_tsx e) x w -> is_rx e = true ->
  (forall b w1, st w1 -> tsx_like (e_tsx e) x w1 -> ok g (k b) Q w1) ->
  ok g (bind (accept_2xx cfg nested e) (fun b =>
    bind (when b (bind (src_rdata e) (fun rdata => check_sdp cfg nested (e_tsx e) rdata))) (fun _ => k b))) Q w.
Proof.
  intros S H Hrx Hk. eapply ok_seq; [by eapply ok_accept_2xx|]. nxt b w1 S1 X1 R1.
  apply (ok_seq n g _ _ T); [apply ok_when; [done|]; intros _; by eapply ok_check_src|]. nxt u w2 S2 X2 R2. by apply Hk.
Qed.

Lemma ok_early_completed g e x w : st w -> w_tsxs w !! e_tsx e = Some x -> ev_ok e x -> (is_rx e = true -> g = true) ->
  t_state x = PJSIP_TSX_STATE_COMPLETED -> ok g (early_completed cfg uri_cmp nested e x) T w.
Proof.
  intros S Ex He Hg Es. unfold early_completed. pose proof (tsx_like_eq _ _ _ Ex) as H.
  pose proof (ev_status _ _ He (or_introl Es)). destruct (is_2xx x).
  - eapply ok_seq; [by apply ok_set_state|]. nxt u w1 S1 X1 R1. apply ok_when; [done|]. intros Hrx.
    eapply ok_seq; [by eapply ok_accept_2xx|]. nxt b w2 S2 X2 R2. apply ok_when; [done|]. intros _. by eapply ok_check_src.
  - destruct (is_uac x) eqn:Er; [|eapply ok_disconnect; [done|done|exact H|lia]]. apply bool_decide_eq_true in Er.
    pose proof (ev_uac _ _ He Er (or_intror Es)) as Hrx. rewrite (Hg Hrx). eapply ok_rejection; [done|exact Ex|done|lia|done].
Qed.

Lemma ok_early_terminated g e x w : st w -> w_tsxs w !! e_tsx e = Some x -> ev_ok e x ->
  m_id (t_method x) = PJSIP_INVITE_METHOD -> t_state x = PJSIP_TSX_STATE_CONFIRMED \/ t_state x = PJSIP_TSX_STATE_TERMINATED ->
  (is_2xx x = false -> 100 <= t_status x) -> ok g (early_terminated cfg nested e x) T w.
Proof.
  intros S Ex He Em Es Hx. unfold early_terminated. pose proof (tsx_like_eq _ _ _ Ex) as H.
  destruct (is_2xx x) eqn:E2; [|eapply ok_disconnect; [done|done|exact H|by apply Hx]].
  eapply ok_seq; [by apply ok_set_state|]. nxt u w1 S1 X1 R1.
  apply (ok_seq n g _ _ T).
  - destruct (is_rx e) eqn:Erx; [|by apply ok_ret]. eapply ok_accept_check; [done|exact H|done|]. intros b w2 S2 H2. by apply ok_ret.
  - nxt b w2 S2 X2 R2. apply ok_when; [done|]. intros Hc. apply andb_true_iff in Hc as [_ Er]. apply bool_decide_eq_true in Er.
    apply ok_then; [done|]. apply ok_send_ack; [done|done|]. apply has_rdata_rx.
    destruct Es as [Es|Es]; [by rewrite (proj1 (ev_confirmed _ _ He Es)) in Er|]. apply (ev_2xx _ _ He Er Em Es). by apply is_2xx_quot.
Qed.

Lemma ok_early_invite g e x w : st w -> w_tsxs w !! e_tsx e = Some x -> ev_ok e x -> (is_rx e = true -> g = true) ->
  m_id (t_method x) = PJSIP_INVITE_METHOD -> ok g (early_invite cfg is_reliable uri_cmp nested e x) T w.
Proof.
  intros S Ex He Hg Em. unfold early_invite. pose proof (tsx_like_eq _ _ _ Ex) as H.
  destruct (t_state x) eqn:Es; try (by apply ok_skip).
  - eapply ok_seq; [by apply ok_set_state|]. nxt u w1 S1 X1 R1. apply ok_when; [done|]. intros Hrx. by eapply ok_provisional.
  - by eapply ok_early_completed.
  - eapply ok_early_terminated; [done|exact Ex|done|done|by left|]. intros _. pose proof (ev_confirmed _ _ He Es). lia.
  - eapply ok_early_terminated; [done|exact Ex|done|done|by right|]. intros _. pose proof (ev_status _ _ He (or_intror Es)). lia.
Qed.

Lemma ok_end_early g w : st w -> ok g (end_early_invite nested) T w.
Proof.
  intros S. unfold end_early_invite. apply ok_get, ok_inv_deref; [done|]. intros t E. destruct (invite_known n w S t E) as [x Hx].
  eapply ok_tsx_get; [exact Hx|]. intros y Ey Xy. destruct (is_uac y) eqn:Er.
  { eapply ok_true. by apply ok_log_entry. }
  destruct (_ <? 200); [|by apply ok_skip]. destruct (t_last_tx y) as [td|] eqn:El; [|by apply ok_skip].
  assert (Htd : td_like td is_rsp w).
  { eapply uas_last_tx; [done|exact Ey| |done]. apply bool_decide_eq_false in Er. by destruct (t_role y). }
  eapply ok_seq; [eapply ok_td_put_as; [done|exact Htd|]|].
  { intros d [c Ec]. cbn. rewrite Ec. by eexists. }
  nxt u1 w1 S1 X1 R1. eapply ok_seq; [by eapply ok_add_ref|]. nxt u2 w2 S2 X2 R2. apply ok_then; [done|]. by eapply ok_send_response.
Qed.
(** The requests of the peer a handler looks for, and the responses *)
Lemma trying_rx e x m : ev_ok e x -> uas_trying x m = true -> is_rx e = true.
Proof.
  intros He Hu. unfold uas_trying in Hu. apply andb_true_iff in Hu as [Hu _]. apply andb_true_iff in Hu as [H1 H2].
  apply bool_decide_eq_true in H1, H2. by apply (ev_uas _ _ He).
Qed.
Lemma unanswered_rx e x id : uas_unanswered x e id = true -> is_rx e = true.
Proof. intros H. unfold uas_unanswered in H. by apply andb_true_iff in H as [_ H]. Qed.

Lemma ok_bye_src {A} g e x w (k : M A) : st w -> w_tsxs w !! e_tsx e = Some x -> is_rx e = true ->
  (forall w1, st w1 -> ok g k T w1) ->
  ok g (bind (src_rdata e) (fun rdata => bind (inv_respond_incoming_bye cfg nested (e_tsx e) rdata) (fun _ => k))) T w.
Proof.
  intros S Ex Hrx Hk. pose proof (tsx_like_eq _ _ _ Ex) as H. apply ok_src; [done|]. intros r Er.
  eapply ok_seq; [by eapply ok_incoming_bye|]. nxt u w1 S1 X1 R1. by apply Hk.
Qed.

Lemma ok_bye_only g e x w : st w -> w_tsxs w !! e_tsx e = Some x -> is_rx e = true ->
  ok g (bind (src_rdata e) (fun rdata => inv_respond_incoming_bye cfg nested (e_tsx e) rdata)) T w.
Proof.
  intros S Ex Hrx. pose proof (tsx_like_eq _ _ _ Ex) as H. apply ok_src; [done|]. intros r Er. by eapply ok_incoming_bye.
Qed.

Lemma ok_prack_src g e x w : st w -> w_tsxs w !! e_tsx e = Some x -> ev_ok e x -> is_rx e = true ->
  ok g (bind (src_rdata e) (fun rdata => inv_respond_incoming_prack cfg nested rdata)) T w.
Proof.
  intros S Ex He Hrx. pose proof (tsx_like_eq _ _ _ Ex) as H. apply ok_src; [done|]. intros r Er.
  rewrite <- (ev_rdata _ _ He r Er) in H. by eapply ok_incoming_prack.
Qed.

Lemma ok_generic g e x w : st w -> w_tsxs w !! e_tsx e = Some x -> ev_ok e x -> t_role x = PJSIP_ROLE_UAC ->
  ok g (bind (handle_uac_tsx_response cfg nested e) (fun _ => skip)) T w.
Proof. intros S Ex He Er. apply ok_then; [done|]. eapply ok_uac_response; [done|done|exact Ex|done|]. by apply completed_rx. Qed.

Lemma uac_role x b : is_uac x && b = true -> t_role x = PJSIP_ROLE_UAC.
Proof. intros H. apply andb_true_iff in H as [H _]. by apply bool_decide_eq_true in H. Qed.

Lemma ok_early g e x w : st w -> w_tsxs w !! e_tsx e = Some x -> ev_ok e x -> (is_rx e = true -> g = true) ->
  ok g (inv_on_state_early cfg is_reliable uri_cmp nested e) T w.
Proof.
  intros S Ex He Hg. unfold inv_on_state_early. eapply ok_here; [exact Ex|]. apply ok_is_invite, ok_get.
  case_bool_decide as Em. { eapply ok_early_invite; [done|exact Ex|done|done|]. by eapply method_of. }
  destruct (_ && incoming_cancel x e) eqn:E1.
  { apply andb_true_iff in E1 as [_ E1]. unfold incoming_cancel in E1. apply andb_true_iff in E1 as [_ E1]. by eapply ok_incoming_cancel. }
  destruct (uas_trying x pjsip_update_method) eqn:E2. { apply trying_rx with (e := e) in E2; [|done]. by eapply ok_incoming_update. }
  destruct (is_uac x && uac_done x && _) eqn:E3.
  { apply andb_true_iff in E3 as [E3 _]. apply uac_role in E3. apply ok_then; [done|]. eapply ok_true. by eapply ok_handle_update. }
  destruct (uas_trying x pjsip_prack_method) eqn:E4. { apply trying_rx with (e := e) in E4; [|done]. by eapply ok_prack_src. }
  destruct (is_uac x) eqn:E5. { apply bool_decide_eq_true in E5. by eapply ok_generic. }
  destruct (uas_unanswered x e PJSIP_BYE_METHOD) eqn:E6; [|by apply ok_skip]. apply unanswered_rx in E6.
  eapply ok_bye_src; [done|exact Ex|done|]. intros w1 S1. by apply ok_end_early.
Qed.

(** ** State CONNECTING *)

Lemma ok_connecting_failed g t x w : st w -> tsx_like t x w -> 100 <= t_status x -> ok g (connecting_failed nested t) T w.
Proof.
  intros S H Hx. unfold connecting_failed. eapply ok_seq; [by eapply ok_cause_of_tsx|]. nxt u1 w1 S1 X1 R1.
  eapply ok_seq; [by apply ok_create_request|]. nxt r w2 S2 X2 R2. destruct r as [s [bye|]]; [|by apply ok_skip].
  eapply ok_seq; [apply ok_send_msg; [done|done|]|].
  { eapply td_like_weaken; [|by apply R2]. done. }
  nxt u3 w3 S3 X3 R3. by apply ok_drop_bye.
Qed.

Lemma ok_connecting_invite g e x w : st w -> w_tsxs w !! e_tsx e = Some x -> ev_ok e x ->
  ok g (connecting_invite cfg nested e x) T w.
Proof.
  intros S Ex He. unfold connecting_invite. pose proof (tsx_like_eq _ _ _ Ex) as H. destruct (t_state x) eqn:Es; try (by apply ok_skip).
  - apply ok_when; [done|]. intros _. apply (ok_seq n g _ _ T). { apply ok_when; [done|]. intros Hrx. by eapply ok_check_src. }
    nxt u w1 S1 X1 R1. eapply ok_seq; [by apply ok_set_state|]. nxt v w2 S2 X2 R2. by apply ok_perform_bye.
  - pose proof (ev_status _ _ He (or_intror Es)). destruct (is_2xx x); [by apply ok_skip|].
    destruct (is_uac x); [eapply ok_disconnect|eapply ok_connecting_failed]; try done; lia.
Qed.

Lemma ok_pending_reinvite g t x rdata code w : st w -> tsx_like t x w -> ok g (pending_reinvite nested t rdata code) T w.
Proof.
  intros S H. unfold pending_reinvite. eapply ok_seq; [by apply ok_create_response|]. nxt r w1 S1 X1 R1.
  destruct r as [s [td|]]; [|by apply ok_skip]. specialize (R1 td eq_refl). eapply ok_seq; [by apply ok_timer_status|]. nxt s2 w2 S2 X2 R2.
  apply ok_then; [done|]. by eapply ok_send_response.
Qed.

Lemma ok_update_or_generic g e x w : st w -> w_tsxs w !! e_tsx e = Some x -> ev_ok e x -> t_role x = PJSIP_ROLE_UAC ->
  ok g (update_or_generic cfg nested e) T w.
Proof.
  intros S Ex He Er. unfold update_or_generic. pose proof (tsx_like_eq _ _ _ Ex) as H. eapply ok_seq; [by eapply ok_handle_update|].
  nxt b w1 S1 X1 R1. destruct b; [by apply ok_skip|]. destruct (R1 eq_refl) as (y & Ey & Es). destruct H as (z & Ez & Xz).
  rewrite Ey in Ez. injection Ez as <-. apply ok_then; [done|]. eapply ok_uac_response; [done|done|exact Ey|by rewrite (te_role _ _ Xz)|].
  intros Hc. apply (completed_rx _ _ He Er). unfold in_state in *. by rewrite Es in Hc.
Qed.

Lemma ok_connecting g e x w : st w -> w_tsxs w !! e_tsx e = Some x -> ev_ok e x ->
  ok g (inv_on_state_connecting cfg nested e) T w.
Proof.
  intros S Ex He. unfold inv_on_state_connecting. pose proof (tsx_like_eq _ _ _ Ex) as H. eapply ok_here; [exact Ex|]. apply ok_is_invite.
  case_bool_decide as Em; [by apply ok_connecting_invite|].
  destruct (uas_unanswered x e PJSIP_BYE_METHOD) eqn:E1. { apply unanswered_rx in E1. by eapply ok_bye_only. }
  destruct (tsx_is x PJSIP_BYE_METHOD && is_uac x && uac_done x) eqn:E2.
  { apply andb_true_iff in E2 as [E2 _]. apply andb_true_iff in E2 as [_ E2]. apply bool_decide_eq_true in E2. by eapply ok_bye_response. }
  destruct (uas_unanswered x e PJSIP_CANCEL_METHOD) eqn:E3. { apply unanswered_rx in E3. by eapply ok_incoming_cancel. }
  destruct (uas_trying x pjsip_invite_method) eqn:E4.
  { apply trying_rx with (e := e) in E4; [|done]. apply ok_src; [done|]. intros r Er. by eapply ok_pending_reinvite. }
  destruct (uas_trying x pjsip_update_method) eqn:E5. { apply trying_rx with (e := e) in E5; [|done]. by eapply ok_incoming_update. }
  destruct (is_uac x && uac_done x && _) eqn:E6. { apply andb_true_iff in E6 as [E6 _]. apply uac_role in E6. by eapply ok_update_or_generic. }
  destruct (uas_trying x pjsip_prack_method) eqn:E7. { apply trying_rx with (e := e) in E7; [|done]. by eapply ok_prack_src. }
  destruct (is_uac x) eqn:E8; [|by apply ok_skip]. apply bool_decide_eq_true in E8. by eapply ok_generic.
Qed.
End States.
