(* ===== verification/InvSafeModule.v ===== *)
(** * INVITE sessions: state CONFIRMED, the module's callbacks, and what drives a session *)

From S2P Require Import Prelude SipTypes PjStr Sdp SdpNeg SipTargets SipTargetProps InvData InvExt InvOps InvCalls InvHandlers InvSafe InvSafeExt InvSafeOps InvSafeCalls InvSafeRequests InvSafeUpdate InvSafeStates.

Section Callbacks.
Context {N : Negotiator} {Str : PjString} (cfg : inv_config).
Context (is_reliable : pjsip_rx_data -> bool) (uri_cmp : pjsip_uri -> pjsip_uri -> bool) (n : nat).
Abbreviation st := (st n).
Abbreviation ok := (ok n).
Variable nested : input -> M unit.
Hypothesis nested_ok : nested_spec n nested.

(** ** re-INVITE of the peer *)

Lemma ok_retry_after g td w : st w -> td_like td is_rsp w ->
  ok g (bind ask (fun a => add_hdr td (H_retry_after (a_sel a mod 10)))) T w.
Proof. intros S H. eapply ok_seq; [by apply ok_ask|]. nxt a w1 S1 X1 R1. by eapply ok_add_hdr. Qed.

Lemma ok_busy g t x other rdata w : st w -> tsx_like t x w -> known (Some other) w ->
  ok g (busy_reinvite nested t other rdata) T w.
Proof.
  intros S H Hk. destruct (Hk other eq_refl) as [y Hy]. unfold busy_reinvite. eapply ok_tsx_get; [exact Hy|]. intros z Ez _.
  eapply (ok_respond_hdrs n nested nested_ok g t x rdata _ (fun td => when ((if is_uac z then 491 else 500) =? 500)
    (bind ask (fun a => add_hdr td (H_retry_after (a_sel a mod 10)))))); [done|exact H|].
  intros td w1 S1 H1. apply ok_when; [done|]. intros _. by apply ok_retry_after.
Qed.

Lemma ok_reject_reinvite g t x rdata status w : st w -> tsx_like t x w -> ok g (reject_reinvite cfg nested t rdata status) T w.
Proof.
  intros S H. unfold reject_reinvite. apply ok_neg_is. eapply ok_seq; [by apply ok_cancel_if|]. nxt u w1 S1 X1 R1.
  eapply (ok_respond_hdrs n nested nested_ok g t x rdata _ (fun td => match c_accept cfg with Some v => add_hdr td (H_accept v) | None => skip end));
    [done|exact H|]. intros td w2 S2 H2. destruct (c_accept cfg); [by eapply ok_add_hdr|by apply ok_skip].
Qed.

Lemma ok_own_offer g w : st w -> ok g (reinvite_own_offer cfg nested) T w.
Proof.
  intros S. unfold reinvite_own_offer. apply (ok_seq n g _ _ T).
  { destruct (cb_on_create_offer (c_cb cfg)); [eapply ok_true; by apply ok_callback|by apply ok_ret]. }
  nxt a w1 S1 X1 R1. apply (ok_seq n g _ _ T).
  { destruct (if cb_on_create_offer (c_cb cfg) then a_sdp a else None) as [s|]; [|by apply ok_ret].
    eapply ok_seq; [by apply ok_modify_offer|]. nxt status w2 S2 X2 R2. destruct (_ =? _); [|by apply ok_ret].
    apply ok_neg_read. intros r. by apply ok_ret. }
  nxt r w2 S2 X2 R2. destruct r as [status [s|]]; [by apply ok_ret|]. apply ok_get.
  destruct (i_neg (w_inv w2)) as [m|] eqn:E; [|by apply ok_ret]. pose proof (neg_send_wf m (neg_of n w2 m S2 E)) as Hm.
  destruct (neg_send_local_offer m) as [[s3 r3] m']. eapply ok_seq; [by apply ok_set_neg|]. nxt u w3 S3 X3 R3. by apply ok_ret.
Qed.

Lemma ok_answer_reinvite g t rdata w : st w -> ok g (answer_reinvite cfg nested t rdata) T w.
Proof.
  intros S. unfold answer_reinvite. eapply ok_seq; [by apply ok_create_response|]. nxt r w1 S1 X1 R1.
  destruct r as [s [td|]]; [|by apply ok_skip]. specialize (R1 td eq_refl). apply (ok_seq n g _ _ T).
  { destruct (is_some _).
    - eapply ok_true. by apply (ok_process_answer cfg n nested nested_ok g 200 td is_rsp); [|apply stable_rsp|].
    - eapply ok_seq; [by apply ok_own_offer|]. nxt o w2 S2 X2 R2.
      apply (ok_seq n g _ _ T); [destruct o.2; [by eapply ok_set_body|by apply ok_skip]|]. nxt u w3 S3 X3 R3. by apply ok_ret. }
  nxt status w2 S2 X2 R2. destruct (negb _).
  - eapply ok_seq; [by eapply ok_dec_ref|]. nxt u w3 S3 X3 R3. eapply ok_seq; [by apply ok_create_response|]. nxt r w4 S4 X4 R4.
    destruct r as [s4 [td4|]]; [|by apply ok_skip]. specialize (R4 td4 eq_refl). eapply ok_seq; [by eapply ok_add_hdr|]. nxt v w5 S5 X5 R5.
    apply ok_send_skip; [done|done|]. by eapply td_like_weaken; [|exact R4].
  - eapply ok_seq; [by apply ok_timer_status|]. nxt u w3 S3 X3 R3. apply ok_send_skip; [done|done|]. by eapply td_like_weaken; [|exact R1].
Qed.

Lemma ok_ask_reinvite g status w : st w -> ok g (ask_reinvite cfg nested status) T w.
Proof.
  intros S. unfold ask_reinvite. apply ok_get. destruct (_ && _); [|by apply ok_ret].
  eapply ok_seq; [by apply ok_callback|]. nxt a w1 S1 X1 R1. destruct (_ =? _); [by apply ok_ret|]. apply ok_neg_is. by apply ok_ret.
Qed.

Lemma ok_rx_reinvite g e x w : st w -> w_tsxs w !! e_tsx e = Some x -> is_rx e = true ->
  m_id (t_method x) = PJSIP_INVITE_METHOD -> i_state (w_inv w) = PJSIP_INV_STATE_CONFIRMED ->
  ok g (rx_reinvite cfg nested e) T w.
Proof.
  intros S Ex Hrx Em Hs. unfold rx_reinvite. pose proof (tsx_like_eq _ _ _ Ex) as H. apply ok_src; [done|]. intros r Er. apply ok_get.
  pose proof (invite_known n w S) as Hk.
  destruct (i_invite_tsx (w_inv w)) as [other|] eqn:Eo; [destruct (Z.eqb_spec other (e_tsx e)) as [->|Hn]|].
  2:{ by eapply ok_busy. }
  all: eapply ok_seq; [by eapply ok_secure|]; nxt b w1 S1 X1 R1; destruct b; [|by apply ok_skip];
    rewrite (R1 eq_refl) in *; cbn [negb]; clear X1 S1 R1 H.
  all: (eapply ok_seq; [eapply ok_set_invite; [done|exact Ex|done|rewrite Hs; intros _ [E|E]; done]|]);
    pose proof (tsx_like_eq _ _ _ Ex) as H; nxt u w2 S2 X2 R2; clear R2.
  all: (eapply ok_seq; [by apply ok_timer|]); nxt r3 w3 S3 X3 R3; destruct (negb _); [by eapply ok_pending_reinvite|];
    apply ok_neg_is; destruct (negb _); [by eapply ok_pending_reinvite|];
    (eapply ok_seq; [by eapply ok_check_sdp|]); nxt s4 w4 S4 X4 R4;
    (eapply ok_seq; [by apply ok_ask_reinvite|]); nxt v w5 S5 X5 R5; destruct v as [status|]; [|by apply ok_skip];
    destruct (_ && _); [by eapply ok_reject_reinvite|by apply ok_answer_reinvite].
Qed.

(** ** Our re-INVITE *)

Lemma ok_cancel_unanswered g w : st w -> ok g cancel_unanswered_offer T w.
Proof. intros S. unfold cancel_unanswered_offer. by apply ok_neg_is, ok_cancel_if. Qed.

Lemma ok_reinvite_accepted g e x w : st w -> tsx_like (e_tsx e) x w -> is_rx e = true -> ok g (reinvite_accepted cfg nested e) T w.
Proof.
  intros S H Hrx. unfold reinvite_accepted. eapply ok_seq; [by eapply ok_accept_2xx|]. nxt b w1 S1 X1 R1. apply ok_when; [done|]. intros _.
  apply ok_src; [done|]. intros r Er. eapply ok_seq; [by eapply ok_check|]. nxt u w2 S2 X2 R2.
  eapply ok_seq; [by apply ok_cancel_unanswered|]. nxt v w3 S3 X3 R3. apply ok_then; [done|]. apply ok_send_ack; [done|done|by apply has_rdata_rx].
Qed.

Lemma ok_reinvite_failed g t x w : st w -> tsx_like t x w -> t_role x = PJSIP_ROLE_UAC -> m_id (t_method x) = PJSIP_INVITE_METHOD -> ok g (reinvite_failed t) T w.
Proof.
  intros S H Er Em. unfold reinvite_failed. eapply ok_tsx_get; [exact H|]. intros y Ey Xy.
  assert (Hd : is_Some (t_data y)).
  { destruct S as [[] _]. pose proof (ok_tsxs _ _ Ey) as [_ Hw]. rewrite (te_role _ _ Xy), Er in Hw. destruct Hw as (_ & _ & Hw).
    apply Hw. by rewrite (te_method _ _ Xy). } apply ok_neg_is. apply (ok_seq n g _ _ T).
  { apply ok_when; [done|]. intros _. apply (ok_seq n g _ _ (fun _ w' => w' = w)); [apply ok_deref; [done| |done]; intros En; by destruct Hd as [? Hd]; rewrite En in Hd|]. intros v w1 S1 X1 ->. by apply ok_cancel_if. }
  nxt u w1 S1 X1 R1. apply ok_is_invite. apply ok_when; [done|]. intros _. by apply ok_clear_invite.
Qed.

Lemma ok_uac_reinvite g e x w : st w -> w_tsxs w !! e_tsx e = Some x -> ev_ok e x -> t_role x = PJSIP_ROLE_UAC ->
  m_id (t_method x) = PJSIP_INVITE_METHOD -> ok g (uac_reinvite cfg nested e x) T w.
Proof.
  intros S Ex He Er Em. unfold uac_reinvite. pose proof (tsx_like_eq _ _ _ Ex) as H.
  destruct (in_state x PJSIP_TSX_STATE_CALLING). { eapply ok_true. eapply ok_set_invite; [done|exact Ex|done|done]. }
  destruct (in_state x PJSIP_TSX_STATE_PROCEEDING).
  { apply ok_get. apply ok_when; [done|]. intros _. eapply ok_seq; [by apply ok_put_free|]. nxt u w1 S1 X1 R1.
    eapply ok_seq; [by apply ok_cancel_reinvite|]. nxt r w2 S2 X2 R2. by apply ok_send_created. }
  destruct (in_state x PJSIP_TSX_STATE_TERMINATED && is_2xx x) eqn:E1.
  { apply andb_true_iff in E1 as [E1 E2]. apply bool_decide_eq_true in E1. eapply ok_reinvite_accepted; [done|exact H|].
    apply (ev_2xx _ _ He); auto. by apply is_2xx_quot. }
  eapply ok_seq; [eapply ok_uac_response; [done|done|exact Ex|done|by apply completed_rx]|]. nxt b w1 S1 X1 R1. destruct b; [by apply ok_skip|].
  eapply ok_tsx_get; [exact H|]. intros y Ey Xy. apply ok_when; [done|]. intros _. by eapply ok_reinvite_failed.
Qed.

Lemma ok_uas_reinvite g e x w : st w -> w_tsxs w !! e_tsx e = Some x -> ev_ok e x -> t_role x = PJSIP_ROLE_UAS ->
  m_id (t_method x) = PJSIP_INVITE_METHOD -> i_state (w_inv w) = PJSIP_INV_STATE_CONFIRMED ->
  ok g (uas_reinvite cfg nested e x) T w.
Proof.
  intros S Ex He Er Em Hs. unfold uas_reinvite. pose proof (tsx_like_eq _ _ _ Ex) as H.
  destruct (in_state x PJSIP_TSX_STATE_TRYING) eqn:E1.
  { apply bool_decide_eq_true in E1. eapply ok_rx_reinvite; [done|exact Ex|by apply (ev_uas _ _ He)|done|done]. }
  apply ok_when; [done|]. intros E2. apply andb_true_iff in E2 as [_ E2]. apply ok_src; [done|]. intros r Esr.
  eapply ok_seq; [by eapply ok_check|]. nxt u w1 S1 X1 R1. by apply ok_cancel_unanswered.
Qed.

(** ** States CONFIRMED and DISCONNECTED *)

Lemma ok_confirmed g e x w : st w -> w_tsxs w !! e_tsx e = Some x -> ev_ok e x -> i_state (w_inv w) = PJSIP_INV_STATE_CONFIRMED ->
  ok g (inv_on_state_confirmed cfg nested e) T w.
Proof.
  intros S Ex He Hs. unfold inv_on_state_confirmed. pose proof (tsx_like_eq _ _ _ Ex) as H. eapply ok_here; [exact Ex|].
  destruct (tsx_is x PJSIP_BYE_METHOD && is_uac x && uac_done x) eqn:E2.
  { apply andb_true_iff in E2 as [E2 _]. apply andb_true_iff in E2 as [_ E2]. apply bool_decide_eq_true in E2. by eapply ok_bye_response. }
  destruct (uas_unanswered x e PJSIP_BYE_METHOD) eqn:E1. { apply unanswered_rx in E1. by eapply ok_bye_only. }
  destruct (uas_unanswered x e PJSIP_CANCEL_METHOD) eqn:E3. { apply unanswered_rx in E3. by eapply ok_incoming_cancel. }
  destruct (tsx_is x PJSIP_INVITE_METHOD && is_uas x) eqn:E4.
  { apply andb_true_iff in E4 as [E4 E5]. apply bool_decide_eq_true in E4, E5. by apply ok_uas_reinvite. }
  destruct (tsx_is x PJSIP_INVITE_METHOD && is_uac x) eqn:E5.
  { apply andb_true_iff in E5 as [E5 E6]. apply bool_decide_eq_true in E5, E6. by apply ok_uac_reinvite. }
  destruct (uas_trying x pjsip_update_method) eqn:E6. { apply trying_rx with (e := e) in E6; [|done]. by eapply ok_incoming_update. }
  destruct (is_uac x && uac_done x && _) eqn:E7. { apply andb_true_iff in E7 as [E7 _]. apply uac_role in E7. by eapply ok_update_or_generic. }
  destruct (uas_trying x pjsip_prack_method) eqn:E8. { apply trying_rx with (e := e) in E8; [|done]. by eapply ok_prack_src. }
  destruct (is_uac x) eqn:E9; [|by apply ok_skip]. apply bool_decide_eq_true in E9. by eapply ok_generic.
Qed.

Lemma ok_disconnected g e x w : st w -> w_tsxs w !! e_tsx e = Some x -> ev_ok e x ->
  ok g (inv_on_state_disconnected cfg nested e) T w.
Proof.
  intros S Ex He. unfold inv_on_state_disconnected. pose proof (tsx_like_eq _ _ _ Ex) as H. eapply ok_here; [exact Ex|].
  destruct (is_uas x && _ && is_rx e) eqn:E1.
  - apply andb_true_iff in E1 as [_ E1]. apply ok_src; [done|]. intros r Er. destruct (tsx_is x PJSIP_BYE_METHOD); [by eapply ok_incoming_bye|].
    apply ok_when; [done|]. intros _. apply ok_then; [done|]. by eapply ok_respond.
  - apply ok_when; [done|]. intros E2. apply bool_decide_eq_true in E2. by eapply ok_generic.
Qed.

Lemma ok_handler g e x w : st w -> w_tsxs w !! e_tsx e = Some x -> ev_ok e x -> (is_rx e = true -> g = true) ->
  peer_invite_at w x = false -> ok g (inv_state_handler cfg is_reliable uri_cmp nested (i_state (w_inv w)) e) T w.
Proof.
  intros S Ex He Hg Hp. destruct (i_state (w_inv w)) eqn:Es; cbn [inv_state_handler].
  - by eapply ok_null.
  - eapply ok_calling; [done|done|exact Ex|done|done| |by right]. by apply (so_calling _ _ _ _ _ (sess_of n _ S)).
  - by eapply ok_incoming.
  - by eapply ok_early.
  - by eapply ok_connecting.
  - by eapply ok_confirmed.
  - by eapply ok_disconnected.
Qed.

(** ** The module *)

Lemma ok_clear_invite_tsx g w : st w -> ok g clear_invite_tsx T w.
Proof. intros S. unfold clear_invite_tsx. eapply ok_seq; [by apply ok_clear_invite|]. nxt u w1 S1 X1 R1. by apply ok_drop_answer. Qed.

Lemma ok_clear_if g t x p w : st w -> tsx_like t x w -> ok g (clear_if t p) T w.
Proof.
  intros S H. unfold clear_if. eapply ok_tsx_get; [exact H|]. intros y Ey Xy. apply ok_is_invite. apply ok_when; [done|]. intros _.
  by apply ok_clear_invite_tsx.
Qed.

Lemma ok_on_tsx_state g e x w : st w -> w_tsxs w !! e_tsx e = Some x -> ev_ok e x -> (is_rx e = true -> g = true) ->
  peer_invite_at w x = false -> ok g (mod_inv_on_tsx_state cfg is_reliable uri_cmp nested e) T w.
Proof.
  intros S Ex He Hg Hp. unfold mod_inv_on_tsx_state. pose proof (tsx_like_eq _ _ _ Ex) as H. apply ok_get.
  eapply ok_seq; [by eapply ok_handler|]. nxt u1 w1 S1 X1 R1. eapply ok_seq; [by eapply ok_clear_if|]. nxt u2 w2 S2 X2 R2.
  eapply ok_tsx_get; [exact H|]. intros y Ey Xy. apply ok_get. eapply ok_seq; [by apply ok_callback_if|]. nxt u3 w3 S3 X3 R3.
  by eapply ok_clear_if.
Qed.

Lemma ok_ack_in_time g t x rdata w : st w -> tsx_like t x w -> (2 * oracle_calls (w_oracle w) + 1 <= n)%nat ->
  ok g (rx_ack_in_time cfg nested t rdata) T w.
Proof.
  intros S H Hf. unfold rx_ack_in_time. apply ok_get. apply (ok_seq n g _ _ T).
  { apply ok_when; [done|]. intros _. eapply ok_seq; [by eapply ok_check|]. nxt u w1 S1 X1 R1. apply ok_neg_is, ok_get. by apply ok_cancel_if. }
  nxt u w1 S1 X1 R1. apply ok_get, ok_inv_deref; [done|]. intros t1 E. destruct (invite_of n w1 t1 S1 E) as (y & Hy & Em).
  eapply ok_tsx_get; [exact Hy|]. intros z Ez Xz. pose proof (x_fuel _ _ _ X1) as Hx.
  apply (ok_seq n g _ _ T); [|nxt v w2 S2 X2 R2; by apply ok_clear_invite_tsx].
  eapply ok_terminate; [done|done|exact Hy|lia|].
  intros z' Ez' Hc Hz. rewrite Ez in Ez'. injection Ez' as <-. split; [|by eapply own_invite]. apply legal_terminated; [done|lia|].
  intros Er Emz Hq. destruct S1 as [[] _]. destruct (ok_tsxs _ _ Ez) as [_ Hw]. rewrite Er in Hw.
  destruct Hw as (_ & _ & Hw). destruct (Hw Emz) as [_ Hw2]. specialize (Hw2 Hq). lia.
Qed.

Lemma ok_rx_ack g rdata w : st w -> (2 * oracle_calls (w_oracle w) + 1 <= n)%nat -> ok g (rx_ack cfg nested rdata) T w.
Proof.
  intros S Hf. unfold rx_ack. apply ok_get. pose proof (invite_known n w S) as Hk.
  destruct (i_invite_tsx (w_inv w)) as [t|]; [|by apply ok_ret]. destruct (Hk t eq_refl) as [x Hx].
  eapply ok_tsx_get; [exact Hx|]. intros y Ey Xy. destruct (_ <? _); [by apply ok_ret|]. destruct (negb _); [by apply ok_ret|].
  apply (ok_seq n g _ _ T). { apply ok_when; [done|]. intros _. by eapply ok_ack_in_time. }
  nxt u w1 S1 X1 R1. apply ok_get. apply (ok_seq n g _ _ T); [|nxt v w2 S2 X2 R2; by apply ok_ret]. apply ok_when; [done|]. intros _.
  eapply ok_seq; [by apply ok_set_state|]. nxt v w2 S2 X2 R2. by apply ok_perform_bye.
Qed.

Lemma ok_rx_request g rdata w : st w -> (2 * oracle_calls (w_oracle w) + 1 <= n)%nat ->
  ok g (mod_inv_on_rx_request cfg nested rdata) T w.
Proof.
  intros S Hf. unfold mod_inv_on_rx_request. destruct (rd_line rdata) as [m|c]; [|by apply ok_ret].
  destruct (m_id m); try (by apply ok_ret). by apply ok_rx_ack.
Qed.

Lemma ok_rx_response g rdata w : st w -> ok g (mod_inv_on_rx_response cfg nested rdata) T w.
Proof.
  intros S. unfold mod_inv_on_rx_response. destruct (rd_line rdata) as [m|c]; [by apply ok_ret|]. destruct (_ && _); [|by apply ok_ret].
  apply ok_get, ok_get, ok_get, ok_get. destruct (_ || _); [|by apply ok_ret].
  eapply ok_seq; [apply ok_send_ack; [done|done|]|]. { exists rdata. by intros w'. }
  nxt s w1 S1 X1 R1. by apply ok_ret.
Qed.
End Callbacks.
