(* ===== verification/InvSafeRun.v ===== *)
(** * INVITE sessions: every session that is reached keeps the invariant

    Whatever arrives is handled completely: the fuel is enough for all calls that nest. *)

From S2P Require Import Prelude SipTypes PjStr Sdp SdpNeg SipTargets SipTargetProps InvData InvExt InvOps InvCalls InvHandlers InvCreate InvSafe InvSafeExt InvSafeOps InvSafeCalls InvSafeRequests InvSafeUpdate InvSafeStates InvSafeModule.

Section Run.
Context {N : Negotiator} {Str : PjString} (cfg : inv_config).
Context (is_reliable : pjsip_rx_data -> bool) (uri_cmp : pjsip_uri -> pjsip_uri -> bool).

(** ** A change of state of a transaction *)

Definition changed (u : tsx_upd) (x : inv_tsx) : inv_tsx :=
  mk_inv_tsx (t_role x) (t_method x) (u_state u) (u_status u) (t_cseq x) (t_last_tx x) (t_data x).

(** What a legal change says of the states it leads to *)
Ltac legal_cases H :=
  unfold legal_upd in H; apply andb_true_iff in H as [H _];
  repeat match goal with
  | E : u_state _ = _ |- _ => rewrite E in H
  | E : t_role _ = _ |- _ => rewrite E in H
  | E : m_id (t_method _) = _ |- _ => rewrite E in H
  end;
  repeat match goal with
  | K : _ && _ = true |- _ => apply andb_true_iff in K as [? ?]
  | K : (_ <=? _) = true |- _ => apply Z.leb_le in K
  | K : (_ <? _) = true |- _ => apply Z.ltb_lt in K
  | K : (_ =? _) = true |- _ => apply Z.eqb_eq in K
  end.

Lemma legal_state x u : legal_upd x u = true ->
  match u_state u with
  | PJSIP_TSX_STATE_NULL => False
  | PJSIP_TSX_STATE_CALLING | PJSIP_TSX_STATE_TRYING => t_status x < 100 /\ u_status u = 0
  | PJSIP_TSX_STATE_PROCEEDING => 100 <= u_status u < 200
  | _ => 200 <= u_status u
  end.
Proof.
  intros H. destruct (u_state u) eqn:E; legal_cases H; try done; try lia.
  destruct (bool_decide (m_id (t_method x) = PJSIP_INVITE_METHOD) && _); lia.
Qed.

Lemma legal_rx x u : legal_upd x u = true ->
  (t_role x = PJSIP_ROLE_UAC -> u_state u = PJSIP_TSX_STATE_PROCEEDING \/ u_state u = PJSIP_TSX_STATE_COMPLETED -> received u = true) /\
  (t_role x = PJSIP_ROLE_UAS -> u_state u = PJSIP_TSX_STATE_TRYING -> received u = true) /\
  (t_role x = PJSIP_ROLE_UAC -> m_id (t_method x) = PJSIP_INVITE_METHOD ->
   u_state u = PJSIP_TSX_STATE_TERMINATED -> Z.quot (u_status u) 100 = 2 -> received u = true) /\
  (u_state u = PJSIP_TSX_STATE_CALLING -> t_role x = PJSIP_ROLE_UAC) /\
  (u_state u = PJSIP_TSX_STATE_CONFIRMED -> t_role x = PJSIP_ROLE_UAS) /\
  (t_role x = PJSIP_ROLE_UAC -> m_id (t_method x) = PJSIP_INVITE_METHOD -> u_state u = PJSIP_TSX_STATE_COMPLETED -> 300 <= u_status u).
Proof.
  intros H. repeat split.
  - intros Er [Es|Es]; legal_cases H; by rewrite orb_false_r in *.
  - intros Er Es; by legal_cases H.
  - intros Er Em Es Eq. legal_cases H. rewrite Eq in *. by rewrite !orb_false_r in *.
  - intros Es. legal_cases H. by apply bool_decide_eq_true in H0.
  - intros Es. legal_cases H. by apply bool_decide_eq_true in H0.
  - intros Er Em Es. legal_cases H. done.
Qed.

Lemma changed_ext x u : legal_upd x u = true -> tsx_ext x (changed u x).
Proof. intros H. apply legal_state in H. split; cbn; auto. destruct (u_state u); lia. Qed.

Lemma changed_wf x u tds : legal_upd x u = true -> tsx_wf tds x -> tsx_wf tds (changed u x).
Proof.
  intros H [H0 Hw]. pose proof (legal_state x u H) as Hs. pose proof (legal_rx x u H) as (_ & _ & _ & Hca & Hco & H3).
  unfold tsx_wf in *. cbn. split; [destruct (u_state u); lia|].
  destruct (t_role x) eqn:Er; [|done]. destruct Hw as (H1 & H2 & Hi). split; [done|]. split; [done|]. intros Em.
  split; [by apply Hi|]. intros Eq. destruct (u_state u) eqn:Es; cbn; try lia; try done.
  - destruct Hs as [_ Hs]. rewrite Hs in Eq. by vm_compute in Eq.
  - destruct Hs as [_ Hs]. rewrite Hs in Eq. by vm_compute in Eq.
  - assert (Z.quot (u_status u) 100 < 2) by (apply Z.quot_lt_upper_bound; lia). lia.
  - specialize (H3 eq_refl Em eq_refl). assert (3 <= Z.quot (u_status u) 100) by (apply Z.quot_le_lower_bound; lia). lia.
  - by specialize (Hco eq_refl).
Qed.

Lemma src_of_rx t s : (match src_of t s with Src_rx_msg _ => true | _ => false end) = match s with Src_rx_msg _ => true | _ => false end.
Proof. by destruct s. Qed.

Lemma changed_ev t x u : legal_upd x u = true -> ev_ok (mk_event t (src_of t (u_src u)) (t_state x)) (changed u x).
Proof.
  intros H. pose proof (legal_state x u H) as Hs. pose proof (legal_rx x u H) as (H1 & H2 & H3 & Hca & Hco & _).
  assert (Hrx : is_rx (mk_event t (src_of t (u_src u)) (t_state x)) = received u).
  { unfold is_rx, received. cbn. apply src_of_rx. }
  split; cbn; rewrite ?Hrx; auto.
  - intros Es. split; [auto|]. by rewrite Es in Hs.
  - intros [Es|Es]; by rewrite Es in Hs.
  - intros r. unfold src_of. destruct (u_src u); try done. by intros [= <-].
Qed.

Section Step.
Variable n : nat.
Variable nested : input -> M unit.
Hypothesis nested_ok : nested_spec n nested.

Lemma ok_tsx_changes g t x u w : st n w -> w_tsxs w !! t = Some x -> legal_upd x u = true -> peer_invite_at w x = false ->
  (received u = true -> g = true) -> ok n g (tsx_changes cfg is_reliable uri_cmp nested t u) T w.
Proof.
  intros S Ex Hl Hp Hg. unfold tsx_changes. eapply ok_here; [exact Ex|].
  apply (ok_seq n g _ _ (fun _ w' => w' = mk_world (w_inv w) (w_dlg w) (<[t := changed u x]> (w_tsxs w)) (w_tds w) (w_next w)
    (w_oracle w) (w_log w))).
  { apply ok_also.
    - eapply ok_tsx_put; [done|by apply tsx_like_eq|]. intros y Ey _. rewrite Ex in Ey. injection Ey as <-.
      split; [by apply changed_ext|by apply changed_wf].
    - intros v w'. unfold tsx_put. rewrite Ex. intros E. by injection E as _ <-. }
  nxt v w1 S1 X1 R1. clear X1.
  assert (Ex1 : w_tsxs w1 !! t = Some (changed u x)) by (subst w1; apply lookup_insert_eq).
  assert (Hp1 : peer_invite_at w1 (changed u x) = false) by by subst w1.
  apply (ok_seq n g _ _ (fun _ w' => w_tsxs w' !! t = Some (changed u x) /\ peer_invite_at w' (changed u x) = false)).
  { destruct (u_remote_tag u) as [tag|]; [|by apply ok_ret]. apply ok_also; [by apply ok_dlg_put|].
    intros a w2 E. injection E as _ <-. done. }
  nxt a w2 S2 X2 R2. destruct R2 as [Ex2 Hp2]. eapply ok_on_tsx_state; [done|done|exact Ex2|by apply changed_ev| |done].
  unfold is_rx. cbn. rewrite src_of_rx. exact Hg.
Qed.

Lemma ok_send_known g td w : st n w -> ok n g (send_known nested td) T w.
Proof.
  intros S. unfold send_known, InvSafe.ok, wp. destruct (w_tds w !! td) as [d|] eqn:E; [|by split].
  assert (H : td_like td any_line w) by by exists d. exact (ok_send_skip n nested nested_ok g td w S H).
Qed.

Lemma ok_call g c w : st n w -> (2 * oracle_calls (w_oracle w) + 1 <= n)%nat -> call_ok c ->
  ok n g (do_call cfg nested c) T w.
Proof.
  intros S Hf Hc. destruct c; cbn [do_call call_ok] in *;
    try (apply ok_then; [done|]).
  - by apply ok_set_local_sdp.
  - by apply ok_set_sdp_answer.
  - eapply ok_true. by apply ok_initial_answer.
  - eapply ok_true. by apply ok_answer.
  - eapply ok_true. apply ok_end_session; [done|done|lia].
  - eapply ok_true. by apply ok_cancel_reinvite.
  - by apply ok_send_known.
  - by apply ok_inv_terminate.
  - by apply ok_restart.
  - by apply ok_process_redirect.
  - eapply ok_true. by apply ok_invite.
  - eapply ok_true. by apply ok_reinvite.
  - eapply ok_true. by apply ok_update.
  - eapply ok_true. by apply ok_create_ack.
  - by apply ok_inv_add_ref.
  - by apply ok_inv_dec_ref.
Qed.
End Step.

(** ** Enough fuel *)

Lemma run_ok n : nested_spec n (run cfg is_reliable uri_cmp n).
Proof.
  induction n as [|n IH]; intros g i w H Hi Hg Hf; [destruct i; cbn in Hf; lia|]. cbn [run].
  assert (S : st n w) by (split; [done|destruct i; cbn in Hf; lia]).
  assert (K : ok n g (step cfg is_reliable uri_cmp (run cfg is_reliable uri_cmp n) i) T w).
  { destruct i as [t u|c]; cbn [step].
    - destruct Hi as (x & Ex & Hl & Hp). eapply ok_tsx_changes; [exact IH|done|exact Ex|done|done|done].
    - apply ok_call; [done|done|cbn in Hf; lia|done]. }
  eapply wp_weaken; [exact K|]. intros [] w' ([S' _] & X' & _). by split.
Qed.

(** What may arrive.  An INVITE of the peer is no part of a session whose own INVITE is
    still to be sent. *)
Definition arrival_ok (w : world) (a : arrival) (oracle : list answer) : Prop :=
  Forall answer_ok oracle /\
  match a with
  | Ar_input i => input_ok w i
  | Ar_request m _ => ~ (i_state (w_inv w) = PJSIP_INV_STATE_NULL /\ d_role (w_dlg w) = PJSIP_ROLE_UAC /\
                         m_id m = PJSIP_INVITE_METHOD)
  | _ => True
  end.

Lemma set_oracle_ok w oracle : inv_ok w -> Forall answer_ok oracle -> inv_ok (set_oracle oracle w).
Proof. intros [] H. by split. Qed.

Lemma peer_request m cseq w : ~ (i_state (w_inv w) = PJSIP_INV_STATE_NULL /\ d_role (w_dlg w) = PJSIP_ROLE_UAC /\
    m_id m = PJSIP_INVITE_METHOD) ->
  peer_invite_at w (mk_inv_tsx PJSIP_ROLE_UAS m PJSIP_TSX_STATE_NULL 0 cseq None None) = false.
Proof.
  intros H. unfold peer_invite_at. cbn. apply not_true_is_false. intros K.
  repeat (apply andb_true_iff in K as [K ?]). repeat match goal with E : bool_decide _ = true |- _ => apply bool_decide_eq_true in E end. tauto.
Qed.

(** A new request: its transaction starts in state TRYING. *)
Lemma ok_new_request n m rdata w : st n w -> ~ (i_state (w_inv w) = PJSIP_INV_STATE_NULL /\ d_role (w_dlg w) = PJSIP_ROLE_UAC /\
    m_id m = PJSIP_INVITE_METHOD) ->
  ok n true (bind (tsx_new (mk_inv_tsx PJSIP_ROLE_UAS m PJSIP_TSX_STATE_NULL 0 (rd_cseq rdata) None None)) (fun t =>
    tsx_changes cfg is_reliable uri_cmp (run cfg is_reliable uri_cmp n) t (mk_upd PJSIP_TSX_STATE_TRYING 0 (Src_rx_msg rdata) None))) T w.
Proof.
  intros S Hp. set (x := mk_inv_tsx _ _ _ _ _ _ _).
  apply (ok_seq n true _ _ (fun t w' => w_tsxs w' !! t = Some x /\ peer_invite_at w' x = false)).
  - apply ok_also.
    + eapply ok_true. apply ok_tsx_new; [done|]. split; cbn; [done|]. by intros td.
    + intros t w' E. injection E as <- <-. split; [apply lookup_insert_eq|]. by apply peer_request.
  - intros t w1 S1 X1 [Ex Hp1]. eapply ok_tsx_changes; [apply run_ok|done|exact Ex|done|done|done].
Qed.

Lemma arrive_ok a oracle w : inv_ok w -> arrival_ok w a oracle ->
  wp (arrive cfg is_reliable uri_cmp a (run_fuel oracle)) (fun _ w' => inv_ok w' /\ ext true (set_oracle oracle w) w') (set_oracle oracle w).
Proof.
  intros H [Ho Ha]. pose proof (set_oracle_ok w oracle H Ho) as H0. unfold run_fuel.
  set (n := (2 * oracle_calls oracle + 2)%nat). set (w0 := set_oracle oracle w) in *.
  assert (S : st n w0) by (split; [done|subst n; cbn; lia]).
  assert (Hok : forall (m : M unit), ok n true m T w0 -> wp m (fun _ w' => inv_ok w' /\ ext true w0 w') w0).
  { intros m K. eapply wp_weaken; [exact K|]. intros u w' ([S' _] & X' & _). by split. }
  destruct a as [i|m rdata|rdata|rdata]; cbn [arrive].
  - apply (run_ok (Datatypes.S n)); [done|done|done|]. subst n w0. cbn. destruct i; cbn; lia.
  - apply Hok. by apply (ok_new_request n m rdata).
  - apply Hok. apply ok_then; [done|]. apply ok_rx_request; [apply run_ok|done|]. subst n w0. cbn. lia.
  - apply Hok. apply ok_then; [done|]. apply ok_rx_response; [apply run_ok|done].
Qed.

(** ** Sessions that are reached *)

(** The dialog and its transactions where a session is created *)
Record surroundings_ok (s : surroundings) : Prop := {
  su_tsxs : forall t x, s_tsxs s !! t = Some x -> tsx_wf (s_tds s) x;
  su_fresh_tsx : forall t, s_next s <= t -> s_tsxs s !! t = None;
  su_fresh_td : forall td, s_next s <= td -> s_tds s !! td = None
}.

(** A session of the callee is created in a dialog of the callee, for the transaction of an INVITE. *)
Definition uas_ok (s : surroundings) (rdata : pjsip_rx_data) : Prop :=
  d_role (s_dlg s) = PJSIP_ROLE_UAS /\
  forall x, s_tsxs s !! rd_tsx rdata = Some x -> t_role x = PJSIP_ROLE_UAS /\ m_id (t_method x) = PJSIP_INVITE_METHOD.

Inductive reachable : world -> Prop :=
  | Reach_uac s sdp options usage st w : surroundings_ok s ->
      pjsip_inv_create_uac s sdp options usage = (st, Some w) -> reachable w
  | Reach_uas s rdata sdp options usage st w : surroundings_ok s -> uas_ok s rdata ->
      pjsip_inv_create_uas s rdata sdp options usage = (st, Some w) -> reachable w
  | Reach_step w a oracle w' : reachable w -> arrival_ok w a oracle ->
      handle cfg is_reliable uri_cmp a oracle w = Ok tt w' -> reachable w'.

Lemma start_ok s tsxs i : surroundings_ok s -> (forall t x, tsxs !! t = Some x -> tsx_wf (s_tds s) x) ->
  (forall t, s_next s <= t -> tsxs !! t = None) -> sess_ok i (d_role (s_dlg s)) tsxs (s_tds s) 0 -> inv_ok (start s tsxs i).
Proof. intros [] H1 H2 H3. by split. Qed.

Lemma new_session_ok role options m t dr tsxs tds : (forall k, m = Some k -> neg_wf k) ->
  (forall t', t = Some t' -> exists x, tsxs !! t' = Some x /\ m_id (t_method x) = PJSIP_INVITE_METHOD /\ dr = PJSIP_ROLE_UAS) ->
  sess_ok (new_session role options m t) dr tsxs tds 0.
Proof.
  intros Hm Ht. split; cbn; try done.
  - destruct m; [by apply Hm|done].
  - intros t' E. destruct (Ht t' E) as (x & Ex & Em & ->). by exists x.
Qed.

Lemma created_uac_ok s o options usage st w : surroundings_ok s -> pjsip_inv_create_uac s o options usage = (st, Some w) -> inv_ok w.
Proof.
  intros H. unfold pjsip_inv_create_uac. destruct (negb (_.1 =? PJ_SUCCESS)); [done|]. destruct (negb _); [done|].
  intros E. injection E as _ <-. apply start_ok; [done|by apply su_tsxs|by apply su_fresh_tsx|]. apply new_session_ok; [|done].
  intros k. destruct o as [l|]; [|done]. destruct (neg_create_w_local_offer l) as [st' r] eqn:Er. cbn. intros ->.
  by eapply neg_create_local_wf.
Qed.

Lemma set_data_wf tds x v : tsx_wf tds x -> tsx_wf tds (set_t_data (Some v) x).
Proof.
  unfold tsx_wf. cbn. intros [H0 H1]. split; [done|]. destruct (t_role x); [|done]. destruct H1 as (H1 & H2 & H3).
  split; [done|]. split; [done|]. intros Em. split; [by eexists|by apply H3].
Qed.

Lemma uas_neg_wf (o l : option sdp) (k : neg) :
  (match o, l with
   | Some o, _ => neg_create_w_remote_offer l o | None, Some l => neg_create_w_local_offer l | None, None => (PJ_SUCCESS, None)
   end).2 = Some k -> neg_wf k.
Proof.
  destruct o as [o|].
  - destruct (neg_create_w_remote_offer l o) as [st' r] eqn:Er. cbn. intros ->. by eapply neg_create_remote_wf.
  - destruct l as [l|]; [|done]. destruct (neg_create_w_local_offer l) as [st' r] eqn:Er. cbn. intros ->. by eapply neg_create_local_wf.
Qed.

Lemma created_uas_ok s rdata o options usage st w : surroundings_ok s -> uas_ok s rdata ->
  pjsip_inv_create_uas s rdata o options usage = (st, Some w) -> inv_ok w.
Proof.
  intros H [Hd Hx]. unfold pjsip_inv_create_uas. destruct (rd_line rdata) as [m|]; [|done].
  destruct (s_tsxs s !! rd_tsx rdata) as [x|] eqn:Ex; [|done]. destruct (Hx x eq_refl) as [_ Em]. destruct (negb _); [done|]. destruct (negb _); [done|].
  destruct (negb (_.1 =? PJ_SUCCESS)); [done|]. destruct (negb _); [done|]. intros E. injection E as _ <-. apply start_ok; [done| | |].
  - intros t y Ey. destruct (decide (t = rd_tsx rdata)) as [->|Hn].
    + rewrite lookup_insert_eq in Ey. injection Ey as <-. apply set_data_wf. by eapply su_tsxs.
    + rewrite lookup_insert_ne in Ey by done. by eapply su_tsxs.
  - intros t Ht. rewrite lookup_insert_ne; [by apply su_fresh_tsx|]. intros <-. by rewrite (su_fresh_tsx s H) in Ex.
  - apply new_session_ok; [intros k; apply uas_neg_wf|]. intros t' [= <-]. eexists. split; [apply lookup_insert_eq|]. by split.
Qed.

Lemma reachable_inv w : reachable w -> inv_ok w.
Proof.
  induction 1 as [s sdp options usage st w Hs E|s rdata sdp options usage st w Hs Hu E|w a oracle w' _ IH Ha E].
  - by eapply created_uac_ok.
  - by eapply created_uas_ok.
  - pose proof (arrive_ok a oracle w IH Ha) as H. unfold handle in E. unfold wp in H. rewrite E in H. apply H.
Qed.
End Run.
