(* ===== verification/InvFunc.v ===== *)
(** * INVITE sessions: what operations do

    A total triple [runs m Q w]: [m] returns, and [Q] holds of what it returns.  The rules
    execute an operation symbolically, on a world whose fields are read by hypotheses. *)

From S2P Require Import Prelude SipTypes PjStr Sdp SdpNeg SipTargets InvData InvExt InvOps InvCalls InvHandlers.

Section Runs.
Context {N : Negotiator}.

Definition runs {A} (m : M A) (Q : A -> world -> Prop) (w : world) : Prop :=
  match m w with Ok a w' => Q a w' | Crash _ _ => False end.

Lemma runs_ok {A} (m : M A) (Q : A -> world -> Prop) w : runs m Q w -> exists a w', m w = Ok a w' /\ Q a w'.
Proof. unfold runs. destruct (m w) as [a w'|]; [by exists a, w'|done]. Qed.
Lemma runs_mono {A} (m : M A) (P Q : A -> world -> Prop) w : runs m P w -> (forall a w', P a w' -> Q a w') -> runs m Q w.
Proof. unfold runs. destruct (m w); auto. Qed.

Lemma runs_bind {A B} (m : M A) (k : A -> M B) Q w : runs m (fun a w1 => runs (k a) Q w1) w -> runs (bind m k) Q w.
Proof. unfold runs, bind. by destruct (m w). Qed.
Lemma runs_eq {A} (m : M A) a w1 (Q : A -> world -> Prop) w : m w = Ok a w1 -> Q a w1 -> runs m Q w.
Proof. unfold runs. by intros ->. Qed.
Lemma runs_ret {A} (a : A) Q w : Q a w -> runs (ret a) Q w.
Proof. done. Qed.
Lemma runs_skip Q w : Q tt w -> runs skip Q w.
Proof. done. Qed.
Lemma runs_get {A} (f : pjsip_inv_session -> A) Q w : Q (f (w_inv w)) w -> runs (get f) Q w.
Proof. done. Qed.
Lemma runs_dlg {A} (f : pjsip_dialog -> A) Q w : Q (f (w_dlg w)) w -> runs (dlg f) Q w.
Proof. done. Qed.
Lemma runs_put f Q w : Q tt (mk_world (f (w_inv w)) (w_dlg w) (w_tsxs w) (w_tds w) (w_next w) (w_oracle w) (w_log w)) -> runs (put f) Q w.
Proof. done. Qed.
Lemma runs_dlg_put f Q w : Q tt (mk_world (w_inv w) (f (w_dlg w)) (w_tsxs w) (w_tds w) (w_next w) (w_oracle w) (w_log w)) -> runs (dlg_put f) Q w.
Proof. done. Qed.
Lemma runs_log e Q w : Q tt (mk_world (w_inv w) (w_dlg w) (w_tsxs w) (w_tds w) (w_next w) (w_oracle w) (w_log w ++ [e])) -> runs (log e) Q w.
Proof. done. Qed.
Lemma runs_ask Q w :
  Q (hd no_answer (w_oracle w)) (mk_world (w_inv w) (w_dlg w) (w_tsxs w) (w_tds w) (w_next w) (tl (w_oracle w)) (w_log w)) -> runs ask Q w.
Proof. done. Qed.
Lemma runs_tsx_get t x (Q : inv_tsx -> world -> Prop) w : w_tsxs w !! t = Some x -> Q x w -> runs (tsx_get t) Q w.
Proof. unfold runs, tsx_get. by intros ->. Qed.
Lemma runs_tsx_put t x f (Q : unit -> world -> Prop) w : w_tsxs w !! t = Some x ->
  Q tt (mk_world (w_inv w) (w_dlg w) (<[t := f x]> (w_tsxs w)) (w_tds w) (w_next w) (w_oracle w) (w_log w)) -> runs (tsx_put t f) Q w.
Proof. unfold runs, tsx_put. by intros ->. Qed.
Lemma runs_td_get td d (Q : pjsip_tx_data -> world -> Prop) w : w_tds w !! td = Some d -> Q d w -> runs (td_get td) Q w.
Proof. unfold runs, td_get. by intros ->. Qed.
Lemma runs_td_put td d f (Q : unit -> world -> Prop) w : w_tds w !! td = Some d ->
  Q tt (mk_world (w_inv w) (w_dlg w) (w_tsxs w) (<[td := f d]> (w_tds w)) (w_next w) (w_oracle w) (w_log w)) -> runs (td_put td f) Q w.
Proof. unfold runs, td_put. by intros ->. Qed.
Lemma runs_td_new d Q w :
  Q (w_next w) (mk_world (w_inv w) (w_dlg w) (w_tsxs w) (<[w_next w := d]> (w_tds w)) (w_next w + 1) (w_oracle w) (w_log w)) ->
  runs (td_new d) Q w.
Proof. done. Qed.
Lemma runs_tsx_new x Q w :
  Q (w_next w) (mk_world (w_inv w) (w_dlg w) (<[w_next w := x]> (w_tsxs w)) (w_tds w) (w_next w + 1) (w_oracle w) (w_log w)) ->
  runs (tsx_new x) Q w.
Proof. done. Qed.
Lemma runs_deref {A} c (p : option A) a Q w : p = Some a -> Q a w -> runs (deref c p) Q w.
Proof. by intros ->. Qed.
Lemma runs_when (b : bool) m Q w : (if b then runs m Q w else Q tt w) -> runs (when b m) Q w.
Proof. by destruct b. Qed.
End Runs.

#[global] Arguments runs {N A} m Q w : simpl never.

(** One rule; the conditions and the lookups are left. *)
Ltac sx1 :=
  lazymatch goal with
  | |- runs (bind _ _) _ _ => apply runs_bind
  | |- runs (ret _) _ _ => apply runs_ret
  | |- runs skip _ _ => apply runs_skip
  | |- runs (get _) _ _ => apply runs_get
  | |- runs (dlg _) _ _ => apply runs_dlg
  | |- runs (put _) _ _ => apply runs_put
  | |- runs (dlg_put _) _ _ => apply runs_dlg_put
  | |- runs (log _) _ _ => apply runs_log
  | |- runs ask _ _ => apply runs_ask
  | |- runs (td_new _) _ _ => apply runs_td_new
  | |- runs (tsx_new _) _ _ => apply runs_tsx_new
  | |- runs (when true _) _ _ => apply runs_when
  | |- runs (when false _) _ _ => apply runs_when
  | |- runs (deref _ (Some _)) _ _ => eapply runs_deref; [reflexivity|]
  end; cbn beta iota.

(** Read the fields of the world. *)
Ltac rd := try (progress change (PJ_SUCCESS =? PJ_SUCCESS) with true); cbn [w_inv w_dlg w_tsxs w_tds w_next w_oracle w_log hd tl fst snd
  set_i_state set_i_cancelling set_i_pending_cancel set_i_pending_bye set_i_cause set_i_cause_text set_i_notify set_i_cb_called
  set_i_options set_i_neg set_i_invite_tsx set_i_invite_req set_i_last_answer set_i_last_ack set_i_last_ack_cseq
  set_i_following_fork set_i_ref_cnt
  i_state i_cancelling i_pending_cancel i_pending_bye i_cause i_cause_text i_notify i_cb_called i_role i_options i_neg
  i_sdp_neg_flags i_invite_tsx i_invite_req i_last_answer i_last_ack i_last_ack_cseq i_following_fork i_ref_cnt
  u_state u_status u_src u_remote_tag e_tsx e_src e_prev src_of is_rx t_role t_method t_state t_status t_cseq t_last_tx t_data
  td_line td_uri td_cseq td_to td_branch td_body td_hdrs td_ref td_is_pending set_td_line set_td_uri set_td_cseq set_td_body set_td_hdrs set_td_ref
  d_role d_remote_uri d_remote_tag d_cseq d_secure set_d_cseq m_id pjsip_ack_method pjsip_bye_method pjsip_invite_method
  a_status a_code a_sel a_sdp a_op a_upds a_calls no_answer each negb andb orb is_some app].

Ltac sx := rd; repeat (sx1; rd).

Section Quiet.
Context {N : Negotiator} {Str : PjString} (cfg : inv_config).
Variable nested : input -> M unit.

(** The other parts do nothing else than what they are asked for. *)
Definition quiet (w : world) : Prop := w_oracle w = [].

Lemma runs_callback e (Q : answer -> world -> Prop) w : quiet w ->
  Q no_answer (mk_world (w_inv w) (w_dlg w) (w_tsxs w) (w_tds w) (w_next w) [] (w_log w ++ [e])) -> runs (callback nested e) Q w.
Proof. intros Hq H. unfold callback. sx. rewrite Hq. rd. unfold happen. rd. sx. exact H. Qed.

Lemma runs_callback_if (b : bool) (e : effect) (Q : unit -> world -> Prop) w : quiet w ->
  Q tt (mk_world (w_inv w) (w_dlg w) (w_tsxs w) (w_tds w) (w_next w) [] (w_log w ++ (if b then [e] else []))) ->
  runs (when b (bind (callback nested e) (fun _ => skip))) Q w.
Proof.
  intros Hq H. apply runs_when. destruct b.
  - sx. apply runs_callback; [done|]. sx. exact H.
  - rewrite app_nil_r in H. unfold quiet in Hq. rewrite <- Hq in H. by destruct w.
Qed.

(** The world after a change of state *)
Definition notified (new : pjsip_inv_state) (i : pjsip_inv_session) : bool :=
  i_notify i && negb (bool_decide (new = PJSIP_INV_STATE_CALLING) && has_option (i_cb_called i) (Z.shiftl 1 (inv_state_num PJSIP_INV_STATE_CALLING))).
Definition entered_inv (new : pjsip_inv_state) (i : pjsip_inv_session) : pjsip_inv_session :=
  set_i_cb_called (Z.lor (i_cb_called i) (Z.shiftl 1 (inv_state_num new))) (set_i_state new i).
Definition entered_log (new : pjsip_inv_state) (i : pjsip_inv_session) : list effect :=
  E_set_state (i_state i) new :: (if notified new i then [E_on_state_changed new] else []).
Definition entered (new : pjsip_inv_state) (w : world) : world :=
  mk_world (entered_inv new (w_inv w)) (w_dlg w) (w_tsxs w) (w_tds w) (w_next w) [] (w_log w ++ entered_log new (w_inv w)).

(** Nothing is left to negotiate for a session that is to be confirmed. *)
Definition may_confirm (w : world) : Prop := negotiation_incomplete w = Ok false w.

Lemma runs_set_state new (Q : unit -> world -> Prop) w : quiet w -> new <> PJSIP_INV_STATE_DISCONNECTED ->
  (new = PJSIP_INV_STATE_CONFIRMED -> may_confirm w) -> Q tt (entered new w) -> runs (inv_set_state cfg nested new) Q w.
Proof.
  intros Hq Hn Hc H. unfold inv_set_state. sx.
  assert (K : runs (if bool_decide (new = PJSIP_INV_STATE_CONFIRMED) then negotiation_incomplete else ret false)
    (fun b w' => b = false /\ w' = w) w).
  { case_bool_decide as E; [|by apply runs_ret]. unfold runs. by rewrite (Hc E). }
  eapply runs_mono; [exact K|]. intros b w' [-> ->]. sx. apply runs_callback_if; [exact Hq|]. sx.
  rewrite bool_decide_false by done. sx. unfold entered, entered_inv, entered_log, notified in H. rewrite <- app_assoc. exact H.
Qed.

(** Sending a request that is no INVITE, while nothing else happens: an ACK has no transaction. *)
Lemma runs_send_ack td d m (data : option tsx_inv_data) (Q : Z -> world -> Prop) w : quiet w -> w_tds w !! td = Some d -> td_line d = Req m ->
  m_id m = PJSIP_ACK_METHOD ->
  Q PJ_SUCCESS (mk_world (w_inv w) (w_dlg w) (w_tsxs w) (w_tds w) (w_next w) []
     (w_log w ++ [E_send_request td m (i_role (w_inv w)) (i_state (w_inv w)) (i_cause (w_inv w))])) ->
  runs (pjsip_dlg_send_request nested td data) Q w.
Proof.
  intros Hq Hd Hl Hm H. unfold pjsip_dlg_send_request. sx. eapply runs_td_get; [exact Hd|]. rewrite Hl. sx. rewrite Hq. rd.
  rewrite Hm. rewrite (bool_decide_true (PJSIP_ACK_METHOD = PJSIP_ACK_METHOD)) by done. rd. sx. unfold happen. rd. sx. exact H.
Qed.
End Quiet.
