(* ===== verification/InvSamples.v ===== *)
(** * INVITE sessions: a caller and a callee

    Two sessions with the negotiator of SdpNeg.v, driven through a call. *)

From Stdlib Require Strings.String.
From S2P Require Import Prelude SipTypes PjStr Sdp SdpNeg SdpSamples SipTargets InvData InvNeg InvExt InvOps InvCalls InvHandlers InvCreate.
Import Strings.String.StringSyntax.

#[export] Instance sample_negotiator : Negotiator := session_negotiator ulong32 accept_all [].

Definition no_callbacks : inv_callbacks := mk_callbacks false false false false false false false.
Definition plain_config : inv_config := mk_config no_callbacks false true (Some [lit "INVITE"; lit "ACK"; lit "BYE"]) None None.
Definition unreliable : pjsip_rx_data -> bool := fun _ => false.
Definition same_uri (a b : pjsip_uri) : bool := u_id a =? u_id b.

Definition peer_uri : pjsip_uri := mk_uri Sip [] 1.

Definition sample_dialog (role : pjsip_role_e) : pjsip_dialog :=
  mk_dlg role (Some peer_uri) [] false true 100 [] true 0 empty_tset 0.

(** Messages of the peer *)
Definition response (code : Z) (tag : list Z) (body : option pjsip_msg_body) : pjsip_rx_data :=
  mk_rdata (Rsp code) None 100 pjsip_invite_method tag None body [] None None None None 0.
Definition request (m : pjsip_method) (cseq : Z) (body : option pjsip_msg_body) : pjsip_rx_data :=
  mk_rdata (Req m) (Some peer_uri) cseq m (lit "t1") None body [Contact_uri (Some peer_uri) 0] None None None None 5.

Definition sdp_body (s : pjmedia_sdp_session) : option pjsip_msg_body :=
  Some (mk_body (lit "application") (lit "sdp") (inr s) None).

Definition with_ctype (r : pjsip_rx_data) : pjsip_rx_data :=
  mk_rdata (rd_line r) (rd_uri r) (rd_cseq r) (rd_cseq_method r) (rd_to_tag r) (Some (lit "application", lit "sdp")) (rd_body r)
    (rd_contacts r) (rd_record_route r) (rd_allow r) (rd_supported r) (rd_require r) (rd_tsx r).

Definition fine : answer := no_answer.
Definition with_upds (l : list tsx_upd) : answer := mk_answer PJ_SUCCESS 200 0 None PJSIP_REDIRECT_REJECT l [].

Definition handle0 := handle plain_config unreliable same_uri.

(** ** The caller *)

Definition caller_surroundings : surroundings := mk_surroundings (sample_dialog PJSIP_ROLE_UAC) ∅ ∅ 1.
Definition caller_new : option world := (pjsip_inv_create_uac caller_surroundings (Some theirs) 0 PJ_SUCCESS).2.

(** The INVITE is made and sent; its transaction starts. *)
Definition caller_calls : list (arrival * list answer) :=
  [(Ar_input (In_call Api_invite), []);
   (Ar_input (In_call (Api_send_msg 1)), [with_upds [mk_upd PJSIP_TSX_STATE_CALLING 0 Src_tx_msg None]])].

(** What the peer answers *)
Definition ringing : arrival * list answer :=
  (Ar_input (In_tsx 2 (mk_upd PJSIP_TSX_STATE_PROCEEDING 180 (Src_rx_msg (response 180 (lit "t1") None)) (Some (lit "t1")))), []).
Definition answers_200 : pjsip_rx_data := with_ctype (response 200 (lit "t1") (sdp_body (sample 6 [answer_line]))).
Definition accepted : arrival * list answer :=
  (Ar_input (In_tsx 2 (mk_upd PJSIP_TSX_STATE_TERMINATED 200 (Src_rx_msg answers_200) (Some (lit "t1")))), []).

Fixpoint drive (l : list (arrival * list answer)) (w : option world) : option world :=
  match l, w with
  | (a, o) :: l', Some w => drive l' (match handle0 a o w with Ok _ w' => Some w' | Crash _ _ => None end)
  | _, _ => w
  end.

Definition caller_confirmed : option world := drive (caller_calls ++ [ringing; accepted]) caller_new.

(** ** The callee *)

Definition their_invite : pjsip_rx_data := with_ctype (request pjsip_invite_method 7 (sdp_body theirs)).
Definition callee_tsx : inv_tsx := mk_inv_tsx PJSIP_ROLE_UAS pjsip_invite_method PJSIP_TSX_STATE_NULL 0 7 None None.
Definition callee_surroundings : surroundings := mk_surroundings (sample_dialog PJSIP_ROLE_UAS) {[5 := callee_tsx]} ∅ 6.
Definition callee_new : option world := (pjsip_inv_create_uas callee_surroundings their_invite (Some ours) 0 PJ_SUCCESS).2.

(** The INVITE comes, is answered with 180 and 200, and the call is ended before the ACK. *)
Definition callee_calls : list (arrival * list answer) :=
  [(Ar_input (In_tsx 5 (mk_upd PJSIP_TSX_STATE_TRYING 0 (Src_rx_msg their_invite) None)), []);
   (Ar_input (In_call (Api_initial_answer their_invite 180 None)), []);
   (Ar_input (In_call (Api_send_msg 6)), [with_upds [mk_upd PJSIP_TSX_STATE_PROCEEDING 180 Src_tx_msg None]]);
   (Ar_input (In_call (Api_answer 200 None)), []);
   (Ar_input (In_call (Api_send_msg 6)), [with_upds [mk_upd PJSIP_TSX_STATE_COMPLETED 200 Src_tx_msg None]])].

Definition callee_hangs_up : list (arrival * list answer) :=
  [(Ar_input (In_call (Api_end_session 200)), []); (Ar_input (In_call (Api_send_msg 7)), [])].

Definition their_ack : pjsip_rx_data := request pjsip_ack_method 7 None.

Definition callee_waits : option world := drive (callee_calls ++ callee_hangs_up) callee_new.
Definition callee_confirmed : option world := drive [(Ar_ack their_ack, [])] callee_waits.
