(* ===== verification/InvVerify.v ===== *)
(** * INVITE sessions: what the verification of an incoming INVITE guarantees *)

From Stdlib Require Strings.String.
From S2P Require Import Prelude SipTypes PjStr Sdp SdpNeg SipTargets InvData InvExt InvOps InvCalls InvHandlers InvCreate.
Import Strings.String.StringSyntax.

Section Verify.
Context {N : Negotiator} {Str : PjString} (cfg : inv_config) (has_capability : list Z -> bool).

(** The options the extensions are checked with, and those of the peer *)
Definition own_options (rdata : pjsip_rx_data) (options : Z) : Z :=
  let o := implied PJSIP_INV_REQUIRE_ICE PJSIP_INV_SUPPORT_ICE (normalize_options options) in
  if allows_update rdata then Z.lor o PJSIP_INV_SUPPORT_UPDATE else o.

Definition required_of (rdata : pjsip_rx_data) (o : Z) : Z * list (list Z) :=
  match rd_require rdata with Some v => required_options has_capability o v | None => (0, []) end.

Definition peer_options (rdata : pjsip_rx_data) (o : Z) : Z := Z.lor (supported_options rdata) (required_of rdata o).1.

(** The description the request offers *)
Definition offered (rdata : pjsip_rx_data) (r_sdp : option sdp) : option sdp :=
  match r_sdp, rd_body rdata with
  | Some r, _ => Some r
  | None, Some _ => si_sdp (pjsip_rdata_get_sdp_info rdata)
  | None, None => None
  end.

Record request_ok (rdata : pjsip_rx_data) (options : Z) (r_sdp l_sdp : option sdp) (options' : Z) : Prop := {
  rq_contact : is_Some (request_contact rdata);
  rq_secure : c_disable_secure_dlg_check cfg = false ->
    (exists u, rd_uri rdata = Some u /\ PJSIP_URI_SCHEME_IS_SIPS u = true) -> insecure_routing rdata = false;
  rq_body : r_sdp = None -> is_Some (rd_body rdata) ->
    si_body (pjsip_rdata_get_sdp_info rdata) = true /\ si_sdp_err (pjsip_rdata_get_sdp_info rdata) = PJ_SUCCESS;
  rq_media : forall l r, l_sdp = Some l -> offered rdata r_sdp = Some r ->
    neg_validate l = PJ_SUCCESS /\ exists n n', neg_create_w_remote_offer (Some l) r = (PJ_SUCCESS, Some n) /\
      neg_negotiate n = Some (PJ_SUCCESS, n');
  rq_required : forall v vs, rd_require rdata = Some vs -> In v vs ->
    exists b, required_tag has_capability (own_options rdata options) v = inl b;
  rq_local_100rel : has_option (own_options rdata options) PJSIP_INV_REQUIRE_100REL = true ->
    has_option (peer_options rdata (own_options rdata options)) PJSIP_INV_SUPPORT_100REL = true;
  rq_local_timer : has_option (own_options rdata options) PJSIP_INV_REQUIRE_TIMER = true ->
    has_option (peer_options rdata (own_options rdata options)) PJSIP_INV_SUPPORT_TIMER = true;
  rq_options : let required := (required_of rdata (own_options rdata options)).1 in
    options' = Z.lor (own_options rdata options)
      (Z.lor (Z.land required PJSIP_INV_REQUIRE_100REL) (Z.land required PJSIP_INV_REQUIRE_TIMER))
}.

Definition refusal_codes : list Z :=
  [PJSIP_SC_BAD_REQUEST; PJSIP_SC_UNSUPPORTED_MEDIA_TYPE; PJSIP_SC_BAD_EXTENSION; PJSIP_SC_EXTENSION_REQUIRED;
   PJSIP_SC_TEMPORARILY_UNAVAILABLE; PJSIP_SC_NOT_ACCEPTABLE_HERE].

(** The body has a description that does not parse. *)
Definition unparsable (rdata : pjsip_rx_data) : Prop :=
  is_Some (rd_body rdata) /\ si_body (pjsip_rdata_get_sdp_info rdata) = true /\ si_sdp_err (pjsip_rdata_get_sdp_info rdata) <> PJ_SUCCESS.

(** A refusal has one of the six codes and an error status, but for a description that does
    not parse; a status alone comes from our own description. *)
Definition refusal_ok (rdata : pjsip_rx_data) (r_sdp l_sdp : option sdp) (r : refusal) : Prop :=
  match r with
  | Refuse code st _ => In code refusal_codes /\ (st = PJ_SUCCESS -> r_sdp = None /\ unparsable rdata)
  | Return_status st => st <> PJ_SUCCESS /\ is_Some l_sdp /\ is_Some (offered rdata r_sdp)
  end.

Lemma refusal_status st : In st refusal_codes -> PJSIP_ERRNO_FROM_SIP_STATUS st <> PJ_SUCCESS.
Proof. unfold PJSIP_ERRNO_FROM_SIP_STATUS. cbn. intros H. repeat destruct H as [<-|H]; done. Qed.

Lemma refuse_ok rdata r_sdp l_sdp code hdrs : In code refusal_codes -> 
  refusal_ok rdata r_sdp l_sdp (Refuse code (PJSIP_ERRNO_FROM_SIP_STATUS code) hdrs).
Proof. intros H. split; [done|]. intros E. by apply refusal_status in H. Qed.

Lemma required_all o vs p : required_options has_capability o vs = (p, []) -> forall v, In v vs -> exists b, required_tag has_capability o v = inl b.
Proof.
  revert p. induction vs as [|w vs IH]; intros p E v Hv; [done|]. cbn in E.
  destruct (required_options has_capability o vs) as [q unsupp] eqn:Er.
  destruct (required_tag has_capability o w) as [b|] eqn:Et; [|done]. injection E as <- ->. destruct Hv as [<-|Hv]; eauto.
Qed.

Lemma check_body_cases want rdata l_sdp : match check_body want rdata with
  | inl r => refusal_ok rdata None l_sdp r
  | inr s => s = offered rdata None /\ (is_Some (rd_body rdata) ->
      si_body (pjsip_rdata_get_sdp_info rdata) = true /\ si_sdp_err (pjsip_rdata_get_sdp_info rdata) = PJ_SUCCESS)
  end.
Proof.
  unfold check_body, offered. destruct (rd_body rdata) as [b|] eqn:Ebd; [|split; [done|by intros [? ?]]].
  destruct (si_body _) eqn:Eb; cbn [negb andb]; [|cbn; split; [tauto|done]].
  destruct (Z.eqb_spec (si_sdp_err (pjsip_rdata_get_sdp_info rdata)) PJ_SUCCESS) as [E|E]; cbn [negb]; [by split|].
  split; [cbn; tauto|]. intros _. split; [done|]. split; [by rewrite Ebd|]. by split.
Qed.

Lemma check_media_cases want rdata r_sdp l r : offered rdata r_sdp = r -> match check_media want l r with
  | Some (Some x) => refusal_ok rdata r_sdp l x
  | Some None => forall l' r', l = Some l' -> r = Some r' -> neg_validate l' = PJ_SUCCESS /\
      exists n n', neg_create_w_remote_offer (Some l') r' = (PJ_SUCCESS, Some n) /\ neg_negotiate n = Some (PJ_SUCCESS, n')
  | None => True
  end.
Proof.
  intros Hr. unfold check_media. destruct l as [l|]; [|done]. destruct r as [r|]; [|done].
  destruct (Z.eqb_spec (neg_validate l) PJ_SUCCESS) as [E|E]; cbn [negb]; [|by split; rewrite ?Hr].
  pose proof (neg_create_remote_made (Some l) r) as Hm. destruct (neg_create_w_remote_offer (Some l) r) as [st [n|]] eqn:Ec; cbn in Hm.
  - destruct (Z.eqb_spec st PJ_SUCCESS) as [->|Es]; cbn [negb]; [|by split; rewrite ?Hr].
    destruct (neg_negotiate n) as [[st n']|] eqn:En; [|done]. destruct (Z.eqb_spec st PJ_SUCCESS) as [->|Es]; [|split; [cbn; tauto|done]].
    intros l' r' [= <-] [= <-]. split; [done|]. by exists n, n'.
  - split; [|by rewrite Hr]. intros ->. by destruct (Hm eq_refl).
Qed.

Lemma check_first_cases rdata r_sdp l_sdp : match or_else (check_contact rdata) (check_secure_request cfg rdata) with
  | Some r => refusal_ok rdata r_sdp l_sdp r
  | None => is_Some (request_contact rdata) /\ (c_disable_secure_dlg_check cfg = false ->
      (exists u, rd_uri rdata = Some u /\ PJSIP_URI_SCHEME_IS_SIPS u = true) -> insecure_routing rdata = false)
  end.
Proof.
  unfold check_contact, check_secure_request. destruct (request_contact rdata) as [u|]; cbn [or_else]; [|apply refuse_ok; cbn; tauto].
  destruct (_ && _ && _) eqn:E; [split; [cbn; tauto|done]|]. split; [by eexists|]. intros Hd (v & Hv & Hs). rewrite Hd, Hv, Hs in E. exact E.
Qed.

Lemma check_extensions_cases want rdata r_sdp l_sdp o : let o1 := if allows_update rdata then Z.lor o PJSIP_INV_SUPPORT_UPDATE else o in
  let '(r, options') := check_extensions cfg has_capability want rdata o in
  match r with
  | Some r => refusal_ok rdata r_sdp l_sdp r
  | None => (forall v vs, rd_require rdata = Some vs -> In v vs -> exists b, required_tag has_capability o1 v = inl b) /\
      (has_option o1 PJSIP_INV_REQUIRE_100REL = true -> has_option (peer_options rdata o1) PJSIP_INV_SUPPORT_100REL = true) /\
      (has_option o1 PJSIP_INV_REQUIRE_TIMER = true -> has_option (peer_options rdata o1) PJSIP_INV_SUPPORT_TIMER = true) /\
      options' = Z.lor o1 (Z.lor (Z.land (required_of rdata o1).1 PJSIP_INV_REQUIRE_100REL)
        (Z.land (required_of rdata o1).1 PJSIP_INV_REQUIRE_TIMER))
  end.
Proof.
  cbn zeta. unfold check_extensions. set (o1 := if allows_update rdata then _ else _). unfold peer_options.
  change (match rd_require rdata with Some v => required_options has_capability o1 v | None => (0, []) end) with (required_of rdata o1).
  destruct (required_of rdata o1) as [required unsupp] eqn:Er. cbn [fst].
  destruct unsupp as [|u us]; cbn [check_required or_else]; [|apply refuse_ok; cbn; tauto]. unfold check_local_required.
  destruct (_ || _) eqn:El; [apply refuse_ok; cbn; tauto|]. apply orb_false_iff in El as [E1 E2].
  split; [|split; [|split; [|done]]].
  - intros v vs Ev. unfold required_of in Er. rewrite Ev in Er. by eapply required_all.
  - intros H. rewrite H in E1. by apply negb_false_iff in E1.
  - intros H. rewrite H in E2. by apply negb_false_iff in E2.
Qed.

Lemma verify_checks_cases want rdata options r_sdp l_sdp :
  match verify_checks cfg has_capability want rdata options r_sdp l_sdp with
  | Some (Some r, _) => refusal_ok rdata r_sdp l_sdp r
  | Some (None, o) => request_ok rdata options r_sdp l_sdp o
  | None => True
  end.
Proof.
  unfold verify_checks. pose proof (check_first_cases rdata r_sdp l_sdp) as H1. destruct (or_else _ _) as [r|]; [done|]. destruct H1 as [H1 H2].
  pose proof (check_body_cases want rdata l_sdp) as Hb.
  assert (Hs : match (match r_sdp with Some r => inr (Some r) | None => check_body want rdata end) with
    | inl r => refusal_ok rdata r_sdp l_sdp r
    | inr s => s = offered rdata r_sdp /\ (r_sdp = None -> is_Some (rd_body rdata) ->
        si_body (pjsip_rdata_get_sdp_info rdata) = true /\ si_sdp_err (pjsip_rdata_get_sdp_info rdata) = PJ_SUCCESS)
    end).
  { destruct r_sdp as [r|]; [by split|]. destruct (check_body want rdata); [done|]. destruct Hb. by split. }
  destruct (match r_sdp with Some r => _ | None => _ end) as [r|s]; [done|]. destruct Hs as [-> Hs].
  pose proof (check_media_cases want rdata r_sdp l_sdp (offered rdata r_sdp) eq_refl) as Hm. destruct (check_media _ _ _) as [[r|]|]; [done| |done].
  pose proof (check_extensions_cases want rdata r_sdp l_sdp (implied PJSIP_INV_REQUIRE_ICE PJSIP_INV_SUPPORT_ICE (normalize_options options))) as He.
  cbn zeta in He. destruct (check_extensions _ _ _ _ _) as [[r|] o]; [done|]. destruct He as (H3 & H4 & H5 & H6). by split.
Qed.

End Verify.
