(* ===== verification/InvProps.v ===== *)
(** * INVITE sessions: properties *)

From S2P Require Import Prelude SipTypes PjStr Sdp SdpNeg SipTargets SipTargetProps InvData InvExt InvOps InvCalls InvHandlers InvCreate InvSafe InvSafeRun InvFunc.

Section Props.
Context {N : Negotiator} {Str : PjString} (cfg : inv_config).
Context (is_reliable : pjsip_rx_data -> bool) (uri_cmp : pjsip_uri -> pjsip_uri -> bool).
Abbreviation runner := (run cfg is_reliable uri_cmp).

(** ** Sessions that are reached *)


(** C3: In every session that is reached a cause is set once it is disconnected, it is
    destroyed exactly once, when its last reference is dropped, its negotiator is well-formed,
    its INVITE transaction is one, and its pending BYE and its last ACK are a BYE and an ACK. *)
Theorem session_invariant w : reachable cfg is_reliable uri_cmp w ->
  (i_state (w_inv w) = PJSIP_INV_STATE_DISCONNECTED -> 0 < i_cause (w_inv w)) /\
  destroyed (w_log w) = (match i_ref_cnt (w_inv w) with Some _ => 0 | None => 1 end)%nat /\
  (forall n, i_ref_cnt (w_inv w) = Some n -> 0 < n) /\
  (forall m, i_neg (w_inv w) = Some m -> neg_wf m) /\
  (forall t, i_invite_tsx (w_inv w) = Some t -> exists x, w_tsxs w !! t = Some x /\ m_id (t_method x) = PJSIP_INVITE_METHOD) /\
  (forall td, i_pending_bye (w_inv w) = Some td -> exists d m, w_tds w !! td = Some d /\ td_line d = Req m /\ m_id m = PJSIP_BYE_METHOD) /\
  (forall td, i_last_ack (w_inv w) = Some td -> exists d m, w_tds w !! td = Some d /\ td_line d = Req m /\ m_id m = PJSIP_ACK_METHOD).
Proof.
  intros H. pose proof (ok_sess _ (reachable_inv _ _ _ _ H)) as []. split; [done|]. split; [|split; [|split; [|split; [|split]]]].
  - destruct (i_ref_cnt (w_inv w)); [by destruct so_ref|done].
  - intros k E. rewrite E in so_ref. by destruct so_ref.
  - intros m E. by rewrite E in so_neg.
  - intros t E. destruct (so_invite t E) as (x & Ex & Em & _). by exists x.
  - intros td E. destruct (so_bye td E) as (d & Ed & m & El & Em). by exists d, m.
  - intros td E. destruct (so_ack td E) as (d & Ed & m & El & Em). by exists d, m.
Qed.


(** ** The ACK of a callee's session *)

Definition negotiated (i : pjsip_inv_session) : Prop := exists m, i_neg i = Some m /\ neg_state_of m = PJMEDIA_SDP_NEG_STATE_DONE.

(** A callee that has sent its 2xx and waits for the ACK *)
Record awaits_ack (w : world) (t : Z) (x : inv_tsx) : Prop := {
  aw_role : i_role (w_inv w) = PJSIP_ROLE_UAS;
  aw_state : i_state (w_inv w) = PJSIP_INV_STATE_CONNECTING;
  aw_invite : i_invite_tsx (w_inv w) = Some t;
  aw_tsx : w_tsxs w !! t = Some x;
  aw_completed : t_state x = PJSIP_TSX_STATE_COMPLETED;
  aw_2xx : Z.quot (t_status x) 100 = 2;
  aw_neg : negotiated (w_inv w);
  aw_answer : forall a, i_last_answer (w_inv w) = Some a -> is_Some (w_tds w !! a)
}.

(** The message [d] after it is released *)
Definition released (p : option Z) (tds : gmap Z pjsip_tx_data) : gmap Z pjsip_tx_data :=
  match p with
  | Some a => match tds !! a with Some d => <[a := set_td_ref (td_ref d - 1) d]> tds | None => tds end
  | None => tds
  end.

Lemma released_line p tds k d : tds !! k = Some d -> exists d', released p tds !! k = Some d' /\ td_line d' = td_line d.
Proof.
  intros E. destruct p as [a|]; cbn; [|by exists d]. destruct (tds !! a) as [da|] eqn:Ea; [|by exists d].
  destruct (decide (k = a)) as [->|Hn]; [|exists d; by rewrite lookup_insert_ne].
  rewrite Ea in E. injection E as ->. eexists. split; [apply lookup_insert_eq|done].
Qed.

Lemma runs_clear_invite (Q : unit -> world -> Prop) w : (forall a, i_last_answer (w_inv w) = Some a -> is_Some (w_tds w !! a)) ->
  Q tt (mk_world (set_i_last_answer None (set_i_invite_tsx None (w_inv w))) (w_dlg w) (w_tsxs w)
    (released (i_last_answer (w_inv w)) (w_tds w)) (w_next w) (w_oracle w) (w_log w)) -> runs clear_invite_tsx Q w.
Proof.
  intros Ha H. unfold clear_invite_tsx, drop_ref. sx. unfold released in H. destruct (i_last_answer (w_inv w)) as [a|] eqn:E.
  - destruct (Ha a eq_refl) as [d Ed]. rewrite Ed in H. sx. eapply runs_td_put; [exact Ed|]. sx. exact H.
  - sx. replace (set_i_last_answer None (set_i_invite_tsx None (w_inv w))) with (set_i_invite_tsx None (w_inv w)) in H; [exact H|].
    unfold set_i_last_answer, set_i_invite_tsx. rd. by rewrite E.
Qed.

Lemma at_least_200 code : Z.quot code 100 = 2 -> 200 <= code.
Proof.
  intros H. destruct (Z.le_gt_cases 200 code) as [|Hlt]; [done|]. pose proof (Z.quot_le_mono code 199 100 ltac:(lia) ltac:(lia)) as K.
  change (Z.quot 199 100) with 1 in K. lia.
Qed.

(** The reports of a transaction that is terminated *)
Definition tsx_report (t : Z) (x : inv_tsx) (i : pjsip_inv_session) : list effect :=
  if cb_on_tsx_state_changed (c_cb cfg) && i_notify i && negb (tsx_is x PJSIP_CANCEL_METHOD && false) then [E_on_tsx_state_changed t] else [].

Definition terminated (status : Z) (x : inv_tsx) : inv_tsx := changed (mk_upd PJSIP_TSX_STATE_TERMINATED status Src_user None) x.

(** The world after the transaction of the answered INVITE is terminated *)
Definition after_terminate (t : Z) (x : inv_tsx) (w : world) : world :=
  mk_world (set_i_last_answer None (set_i_invite_tsx None (w_inv w))) (w_dlg w) (<[t := terminated (t_status x) x]> (w_tsxs w))
    (released (i_last_answer (w_inv w)) (w_tds w)) (w_next w) [] (w_log w ++ tsx_report t x (w_inv w)).

Lemma runs_terminated n t x (Q : unit -> world -> Prop) w : quiet w -> awaits_ack w t x -> Q tt (after_terminate t x w) ->
  runs (runner (S n) (In_tsx t (mk_upd PJSIP_TSX_STATE_TERMINATED (t_status x) Src_user None))) Q w.
Proof.
  intros Hq [] H. cbn [run step]. unfold tsx_changes. sx. eapply runs_tsx_get; [done|]. sx. eapply runs_tsx_put; [done|]. sx.
  unfold mod_inv_on_tsx_state. sx. rewrite aw_state0. cbn [inv_state_handler]. unfold inv_on_state_connecting, is_invite_tsx.
  sx. eapply runs_tsx_get; [apply lookup_insert_eq|]. sx. rewrite aw_invite0, bool_decide_true by done. sx.
  unfold connecting_invite, is_2xx. cbn [t_state t_status]. rewrite aw_2xx0, Z.eqb_refl. sx. unfold clear_if, is_invite_tsx. sx.
  eapply runs_tsx_get; [apply lookup_insert_eq|]. sx. rewrite aw_invite0. cbn [t_state]. rewrite !bool_decide_true by done. sx.
  apply runs_clear_invite; [done|]. sx. eapply runs_tsx_get; [apply lookup_insert_eq|]. sx. apply runs_callback_if; [exact Hq|]. sx.
  eapply runs_tsx_get; [apply lookup_insert_eq|]. sx. rewrite bool_decide_false by done. rewrite andb_false_r. sx. exact H.
Qed.

(** Sending the BYE that waited *)
Lemma runs_send_bye nested td d m (Q : Z -> world -> Prop) w : quiet w -> w_tds w !! td = Some d -> td_line d = Req m ->
  m_id m = PJSIP_BYE_METHOD -> i_state (w_inv w) = PJSIP_INV_STATE_CONFIRMED ->
  (forall w', w_inv w' = w_inv w ->
     w_log w' = w_log w ++ [E_send_request td m (i_role (w_inv w)) PJSIP_INV_STATE_CONFIRMED (i_cause (w_inv w))] -> Q PJ_SUCCESS w') ->
  runs (pjsip_inv_send_msg nested td) Q w.
Proof.
  intros Hq Hd Hl Hm Hs H. unfold pjsip_inv_send_msg. sx. eapply runs_td_get; [exact Hd|]. sx. rewrite Hl. unfold is_method. rewrite Hm.
  rewrite (bool_decide_false (PJSIP_BYE_METHOD = PJSIP_INVITE_METHOD)) by done. sx. unfold bye_must_wait. sx.
  rewrite Hs, (bool_decide_false (PJSIP_INV_STATE_CONFIRMED = PJSIP_INV_STATE_CONNECTING)) by done. rewrite andb_false_r. sx.
  unfold pjsip_dlg_send_request. sx. eapply runs_td_get; [exact Hd|]. rewrite Hl. sx. rewrite Hq, Hm.
  rewrite (bool_decide_false (PJSIP_BYE_METHOD = PJSIP_ACK_METHOD)), (bool_decide_false (PJSIP_BYE_METHOD = PJSIP_CANCEL_METHOD)) by done.
  sx. eapply runs_td_put; [exact Hd|]. rewrite Hq. sx. change (0 =? 0) with true. sx. eapply runs_td_get; [apply lookup_insert_eq|]. sx. unfold happen_to. sx.
  apply H; [done|]. by rewrite Hs.
Qed.

Lemma may_confirm_done w : negotiated (w_inv w) -> (forall t, i_invite_tsx (w_inv w) = Some t -> is_Some (w_tsxs w !! t)) -> may_confirm w.
Proof.
  intros (m & Em & Es) Hi. assert (K : runs negotiation_incomplete (fun b w' => b = false /\ w' = w) w).
  { unfold negotiation_incomplete. sx. destruct (i_invite_tsx (w_inv w)) as [t|].
    - destruct (Hi t eq_refl) as [x Ex]. sx. eapply runs_tsx_get; [exact Ex|]. unfold neg_is, neg_state. sx.
      by rewrite Em, Es, bool_decide_true, andb_false_r.
    - unfold neg_is, neg_state. sx. done. }
  apply runs_ok in K as (b & w' & E & -> & ->). exact E.
Qed.

(** What the ACK brings about *)
Definition acknowledged_log (t : Z) (x : inv_tsx) (i : pjsip_inv_session) (bye : Z) (m : pjsip_method) : list effect :=
  [E_tsx_terminate t (t_status x)] ++ tsx_report t x i ++ entered_log PJSIP_INV_STATE_CONFIRMED i ++
  [E_send_request bye m PJSIP_ROLE_UAS PJSIP_INV_STATE_CONFIRMED (i_cause i)].

Lemma runs_ack t x rdata m n bye d bm w : quiet w -> awaits_ack w t x -> rd_line rdata = Req m -> m_id m = PJSIP_ACK_METHOD ->
  rd_cseq rdata = t_cseq x -> rd_body rdata = None ->
  i_pending_bye (w_inv w) = Some bye -> w_tds w !! bye = Some d -> td_line d = Req bm -> m_id bm = PJSIP_BYE_METHOD ->
  runs (mod_inv_on_rx_request cfg (runner (S n)) rdata) (fun _ w' =>
    i_state (w_inv w') = PJSIP_INV_STATE_CONFIRMED /\ i_pending_bye (w_inv w') = None /\ i_invite_tsx (w_inv w') = None /\
    w_log w' = w_log w ++ acknowledged_log t x (w_inv w) bye bm) w.
Proof.
  intros Hq Ha Hl Hm Hc Hb Hp Hd Hdl Hbm. pose proof Ha as []. unfold mod_inv_on_rx_request. rewrite Hl, Hm. unfold rx_ack. sx.
  rewrite aw_invite0. sx. eapply runs_tsx_get; [done|]. rewrite aw_completed0, Hc, Z.eqb_refl. cbn [state_num].
  change (4 <? 4) with false. change (4 <=? 4) with true. sx. unfold rx_ack_in_time. sx. rewrite aw_state0. cbn [inv_state_num].
  change (4 <? 6) with true. sx. unfold check_sdp, inv_check_sdp_in_incoming_msg. rewrite Hb. sx. unfold neg_is, neg_state. sx.
  destruct aw_neg0 as (m0 & Em & Es). rewrite Em, Es, bool_decide_false by done. sx. rewrite aw_invite0. sx.
  eapply runs_tsx_get; [done|]. sx. unfold pjsip_tsx_terminate. sx. eapply runs_tsx_get; [done|]. rewrite aw_completed0.
  assert (H2 : 200 <= t_status x) by by apply at_least_200.
  rewrite (proj2 (Z.leb_le _ _) H2). cbn [state_num]. change (4 <? 6) with true. sx.
  apply runs_terminated; [exact Hq|split; try done; by exists m0|]. unfold after_terminate. apply runs_clear_invite; [done|]. sx.
  rewrite aw_state0, bool_decide_true by done. sx. apply runs_set_state; [done|done|intros _; apply may_confirm_done; [by exists m0|done]|].
  unfold inv_perform_pending_bye, entered, entered_inv. sx. rewrite Hp. sx.
  destruct (released_line (i_last_answer (w_inv w)) (w_tds w) bye d Hd) as (d' & Ed' & El').
  eapply runs_send_bye; [done|exact Ed'|by rewrite El'|done|done|]. sx. intros w' Ei El. sx. rewrite Ei, El.
  split; [done|]. split; [done|]. split; [done|]. unfold acknowledged_log. rewrite aw_role0, <- !app_assoc. cbn [app].
  unfold entered_log. cbn [app]. reflexivity.
Qed.

Definition ack_of_invite (rdata : pjsip_rx_data) (x : inv_tsx) : Prop :=
  rd_line rdata = Req pjsip_ack_method /\ rd_cseq rdata = t_cseq x /\ rd_body rdata = None.

(** The BYE is kept. *)
Lemma runs_keep_bye nested t x bye d m (Q : Z -> world -> Prop) w : awaits_ack w t x -> w_tds w !! bye = Some d -> td_line d = Req m ->
  m_id m = PJSIP_BYE_METHOD -> i_pending_bye (w_inv w) = None ->
  i_cause (w_inv w) <> PJSIP_SC_REQUEST_TIMEOUT -> i_cause (w_inv w) <> PJSIP_SC_TSX_TRANSPORT_ERROR ->
  Q PJ_SUCCESS (mk_world (set_i_pending_bye (Some bye) (w_inv w)) (w_dlg w) (w_tsxs w) (w_tds w) (w_next w) (w_oracle w) (w_log w)) ->
  runs (pjsip_inv_send_msg nested bye) Q w.
Proof.
  intros [] Hd Hl Hm Hp Hc1 Hc2 H. unfold pjsip_inv_send_msg. sx. eapply runs_td_get; [exact Hd|]. rewrite Hl. unfold is_method. rewrite Hm.
  rewrite (bool_decide_false (PJSIP_BYE_METHOD = PJSIP_INVITE_METHOD)) by done. sx. unfold bye_must_wait, is_method. sx.
  rewrite Hm, aw_role0, aw_state0, !bool_decide_true by done. apply Z.eqb_neq in Hc1, Hc2. rewrite Hc1, Hc2. sx. rewrite Hp. sx. exact H.
Qed.

(** C6: A BYE that the callee sends before its 2xx is acknowledged is kept: nothing is sent.
    The ACK confirms the session, ends the transaction and then sends the BYE. *)
Theorem bye_waits_for_ack w t x rdata bye d m :
  awaits_ack w t x -> ack_of_invite rdata x -> w_tds w !! bye = Some d -> td_line d = Req m -> m_id m = PJSIP_BYE_METHOD ->
  i_pending_bye (w_inv w) = None -> i_cause (w_inv w) <> PJSIP_SC_REQUEST_TIMEOUT -> i_cause (w_inv w) <> PJSIP_SC_TSX_TRANSPORT_ERROR ->
  exists w1 w2,
    handle cfg is_reliable uri_cmp (Ar_input (In_call (Api_send_msg bye))) [] w = Ok tt w1 /\
    w_log w1 = w_log w /\ i_pending_bye (w_inv w1) = Some bye /\
    handle cfg is_reliable uri_cmp (Ar_ack rdata) [] w1 = Ok tt w2 /\
    i_state (w_inv w2) = PJSIP_INV_STATE_CONFIRMED /\ i_pending_bye (w_inv w2) = None /\ i_invite_tsx (w_inv w2) = None /\
    w_log w2 = w_log w1 ++ acknowledged_log t x (w_inv w1) bye m.
Proof.
  intros Ha (Hl & Hcs & Hb) Hd Hdl Hm Hp Hc1 Hc2. pose proof Ha as [].
  set (w1 := mk_world (set_i_pending_bye (Some bye) (w_inv w)) (w_dlg w) (w_tsxs w) (w_tds w) (w_next w) [] (w_log w)).
  assert (K : runs (arrive cfg is_reliable uri_cmp (Ar_input (In_call (Api_send_msg bye))) (run_fuel [])) (fun _ w' => w' = w1) (set_oracle [] w)).
  { change (run_fuel []) with 2%nat. cbn [arrive run step do_call]. unfold send_known, runs. cbn [set_oracle w_tds]. rewrite Hd.
    apply (runs_bind (pjsip_inv_send_msg _ bye)). eapply runs_keep_bye; [|exact Hd|exact Hdl|exact Hm|done|done|done|].
    - by split.
    - sx. reflexivity. }
  apply runs_ok in K as ([] & w1' & E1 & ->). exists w1.
  assert (K2 : runs (arrive cfg is_reliable uri_cmp (Ar_ack rdata) (run_fuel [])) (fun _ w' =>
    i_state (w_inv w') = PJSIP_INV_STATE_CONFIRMED /\ i_pending_bye (w_inv w') = None /\ i_invite_tsx (w_inv w') = None /\
    w_log w' = w_log w1 ++ acknowledged_log t x (w_inv w1) bye m) (set_oracle [] w1)).
  { change (run_fuel []) with 2%nat. cbn [arrive]. apply runs_bind. eapply runs_mono; [eapply runs_ack; try done|].
    intros b w' H. sx. exact H. }
  apply runs_ok in K2 as ([] & w2 & E2 & H). exists w2. unfold handle. split; [exact E1|]. split; [done|]. split; [done|]. split; [exact E2|exact H].
Qed.

(** ** The ACK of a caller's session *)

Definition the_ack (cseq : Z) (dl : pjsip_dialog) : pjsip_tx_data :=
  mk_tdata (Req pjsip_ack_method) (d_remote_uri dl) (if cseq =? -1 then d_cseq dl else cseq) (d_remote_uri dl, d_remote_tag dl) [] None [] 2 false.

Definition with_ack (ack cseq : Z) (i : pjsip_inv_session) : pjsip_inv_session :=
  set_i_last_ack (Some ack) (set_i_last_ack_cseq cseq (set_i_last_ack (Some ack) i)).

Definition ack_sent (ack : Z) (s : pjsip_inv_state) (i : pjsip_inv_session) : effect :=
  E_send_request ack pjsip_ack_method (i_role i) s (i_cause i).

(** The first 2xx: an ACK is made, kept and sent, and confirms the session. *)
Lemma runs_first_ack nested rdata e (Q : Z -> world -> Prop) w : quiet w -> event_rdata e w = Ok rdata w -> i_last_ack (w_inv w) = None ->
  cb_on_send_ack (c_cb cfg) = false -> negotiated (w_inv w) -> i_state (w_inv w) = PJSIP_INV_STATE_CONNECTING ->
  (forall t, i_invite_tsx (w_inv w) = Some t -> is_Some (w_tsxs w !! t)) ->
  Q PJ_SUCCESS (mk_world (entered_inv PJSIP_INV_STATE_CONFIRMED (with_ack (w_next w) (rd_cseq rdata) (w_inv w)))
     (w_dlg w) (w_tsxs w) (<[w_next w := the_ack (rd_cseq rdata) (w_dlg w)]> (w_tds w)) (w_next w + 1) []
     (w_log w ++ [ack_sent (w_next w) PJSIP_INV_STATE_CONNECTING (w_inv w)] ++ entered_log PJSIP_INV_STATE_CONFIRMED (w_inv w))) ->
  runs (inv_send_ack cfg nested e) Q w.
Proof.
  intros Hq He Hl Hcb (m & Em & Es) Hs Ht H. unfold inv_send_ack. apply runs_bind. eapply runs_eq; [exact He|].
  unfold cached_ack. sx. rewrite Hl, Hcb. sx. unfold pjsip_inv_create_ack, drop_ref. sx. rewrite Hl. sx. unfold pjsip_dlg_create_request. sx.
  rewrite Hq. sx. change (PJ_SUCCESS =? PJ_SUCCESS) with true. sx. unfold inv_has_pending_answer. sx. rewrite Em, Es, bool_decide_false by done. sx.
  unfold pjsip_tx_data_add_ref. eapply runs_td_put; [apply lookup_insert_eq|]. sx.
  unfold send_last_ack. sx.
  rewrite insert_insert_eq. eapply runs_send_ack; [done|apply lookup_insert_eq|done|done|]. sx.
  rewrite Hs. cbn [inv_state_num]. change (4 <? 5) with true. sx.
  apply runs_set_state; [done|done|intros _; apply may_confirm_done; [by exists m|done]|]. sx. unfold entered. sx.
  rewrite <- app_assoc. exact H.
Qed.

(** A 2xx that is received again is acknowledged with the same message. *)
Lemma runs_same_ack nested rdata e ack d (Q : Z -> world -> Prop) w : quiet w -> event_rdata e w = Ok rdata w ->
  i_last_ack (w_inv w) = Some ack -> i_last_ack_cseq (w_inv w) = rd_cseq rdata -> w_tds w !! ack = Some d ->
  td_line d = Req pjsip_ack_method -> td_is_pending d = false -> i_state (w_inv w) = PJSIP_INV_STATE_CONFIRMED ->
  Q PJ_SUCCESS (mk_world (w_inv w) (w_dlg w) (w_tsxs w) (<[ack := set_td_ref (td_ref d + 1) d]> (w_tds w)) (w_next w) []
     (w_log w ++ [ack_sent ack PJSIP_INV_STATE_CONFIRMED (w_inv w)])) ->
  runs (inv_send_ack cfg nested e) Q w.
Proof.
  intros Hq He Hl Hc Hd Hdl Hp Hs H. unfold inv_send_ack. apply runs_bind. eapply runs_eq; [exact He|].
  unfold cached_ack. sx. rewrite Hl. sx. eapply runs_td_get; [exact Hd|]. rewrite Hc, Z.eqb_refl, Hp. sx.
  unfold pjsip_tx_data_add_ref. eapply runs_td_put; [exact Hd|]. sx. unfold send_last_ack. sx. rewrite Hl. sx.
  eapply runs_send_ack; [done|apply lookup_insert_eq|done|done|]. sx. rewrite Hs. cbn [inv_state_num]. change (5 <? 5) with false. sx. exact H.
Qed.

(** A caller whose offer was answered in a provisional response *)
Record early_call (w : world) (t : Z) (x : inv_tsx) : Prop := {
  ec_state : i_state (w_inv w) = PJSIP_INV_STATE_EARLY;
  ec_invite : i_invite_tsx (w_inv w) = Some t;
  ec_tsx : w_tsxs w !! t = Some x;
  ec_uac : t_role x = PJSIP_ROLE_UAC;
  ec_method : m_id (t_method x) = PJSIP_INVITE_METHOD;
  ec_neg : negotiated (w_inv w);
  ec_secure : d_secure (w_dlg w) = false;
  ec_ack : i_last_ack (w_inv w) = None;
  ec_answer : i_last_answer (w_inv w) = None
}.

Definition final_response (rdata : pjsip_rx_data) (code : Z) : Prop :=
  rd_line rdata = Rsp code /\ Z.quot code 100 = 2 /\ m_id (rd_cseq_method rdata) = PJSIP_INVITE_METHOD /\
  rd_body rdata = None /\ rd_cseq rdata <> -1.

Definition accepted_log (ack t : Z) (x : inv_tsx) (i : pjsip_inv_session) : list effect :=
  entered_log PJSIP_INV_STATE_CONNECTING i ++ [ack_sent ack PJSIP_INV_STATE_CONNECTING i] ++
  entered_log PJSIP_INV_STATE_CONFIRMED (entered_inv PJSIP_INV_STATE_CONNECTING i) ++ tsx_report t x i.

(** The session and the messages after the 2xx *)
Definition accepted_post (rdata : pjsip_rx_data) (t : Z) (x : inv_tsx) (w w' : world) : Prop :=
  w_inv w' = set_i_invite_tsx None (entered_inv PJSIP_INV_STATE_CONFIRMED
    (with_ack (w_next w) (rd_cseq rdata) (entered_inv PJSIP_INV_STATE_CONNECTING (w_inv w)))) /\
  w_tds w' !! w_next w = Some (the_ack (rd_cseq rdata) (w_dlg w)) /\
  w_log w' = w_log w ++ accepted_log (w_next w) t x (w_inv w).

Lemma runs_accepted n rdata code t x w : quiet w -> early_call w t x -> final_response rdata code -> cb_on_send_ack (c_cb cfg) = false ->
  runs (runner (S n) (In_tsx t (mk_upd PJSIP_TSX_STATE_TERMINATED code (Src_rx_msg rdata) None))) (fun _ => accepted_post rdata t x w) w.
Proof.
  intros Hq [] (Hl & H2 & Hcm & Hb & Hc) Hcb. cbn [run step]. unfold tsx_changes. sx. eapply runs_tsx_get; [done|]. sx.
  eapply runs_tsx_put; [done|]. sx. unfold mod_inv_on_tsx_state. sx. rewrite ec_state0. cbn [inv_state_handler].
  unfold inv_on_state_early, is_invite_tsx. sx. eapply runs_tsx_get; [apply lookup_insert_eq|]. sx. rewrite ec_invite0, bool_decide_true by done. sx.
  unfold early_invite, early_terminated, is_2xx. sx. rewrite H2, Z.eqb_refl. sx.
  apply runs_set_state; [exact Hq|done|done|]. unfold entered. sx. unfold accept_2xx, inv_check_secure_dlg. sx.
  eapply runs_tsx_get; [apply lookup_insert_eq|]. sx. rewrite ec_secure0, andb_false_r. sx. unfold src_rdata. sx.
  unfold handle_timer_response, pjsip_timer_process_resp, timer_call. sx. unfold happen. sx. cbn [PJ_SUCCESS Z.eqb negb andb]. sx.
  unfold check_sdp, inv_check_sdp_in_incoming_msg. cbn [set_rd_tsx rd_body]. rewrite Hb. sx. unfold is_uac. sx.
  rewrite ec_uac0, bool_decide_true by done. sx.
  eapply runs_first_ack; [done|reflexivity|exact ec_ack0|done|exact ec_neg0|done| |].
  { intros t' Et. assert (Some t' = Some t) as [= ->] by (rewrite <- ec_invite0; symmetry; exact Et). sx. by rewrite lookup_insert_eq. }
  unfold entered_inv, with_ack. cbn [set_rd_tsx rd_cseq]. sx. unfold clear_if, is_invite_tsx. sx. eapply runs_tsx_get; [apply lookup_insert_eq|]. sx.
  rewrite ec_invite0, !bool_decide_true by done. sx. unfold clear_invite_tsx, drop_ref. sx. rewrite ec_answer0. sx.
  eapply runs_tsx_get; [apply lookup_insert_eq|]. sx. apply runs_callback_if; [done|]. sx.
  eapply runs_tsx_get; [apply lookup_insert_eq|]. sx. rewrite bool_decide_false, andb_false_r by done. sx.
  split; [done|]. split; [apply lookup_insert_eq|]. sx. unfold accepted_log. rewrite <- !app_assoc.
  unfold tsx_report, tsx_is. sx. rewrite ec_method0, (bool_decide_false (PJSIP_INVITE_METHOD = PJSIP_CANCEL_METHOD)) by done. reflexivity.
Qed.

(** C7: A 2xx without a description to the INVITE of a caller in state EARLY whose offer is
    answered already is acknowledged with the CSeq of the response and confirms the session;
    the same 2xx received again is acknowledged with the same message and changes nothing
    else.  The application leaves the ACK to the session, the dialog is not a secure one, and
    the calls of the other modules succeed. *)
Theorem accepted_call_acknowledged rdata code t x w :
  early_call w t x -> final_response rdata code -> cb_on_send_ack (c_cb cfg) = false ->
  exists w1 w2,
    handle cfg is_reliable uri_cmp (Ar_input (In_tsx t (mk_upd PJSIP_TSX_STATE_TERMINATED code (Src_rx_msg rdata) None))) [] w = Ok tt w1 /\
    i_state (w_inv w1) = PJSIP_INV_STATE_CONFIRMED /\ i_last_ack (w_inv w1) = Some (w_next w) /\
    w_tds w1 !! w_next w = Some (the_ack (rd_cseq rdata) (w_dlg w)) /\ td_cseq (the_ack (rd_cseq rdata) (w_dlg w)) = rd_cseq rdata /\
    w_log w1 = w_log w ++ accepted_log (w_next w) t x (w_inv w) /\
    handle cfg is_reliable uri_cmp (Ar_response rdata) [] w1 = Ok tt w2 /\ w_inv w2 = w_inv w1 /\
    w_log w2 = w_log w1 ++ [ack_sent (w_next w) PJSIP_INV_STATE_CONFIRMED (w_inv w)].
Proof.
  intros Hc Hf Hcb. pose proof Hf as (Hl & H2 & Hcm & _ & Hn).
  assert (K : runs (arrive cfg is_reliable uri_cmp (Ar_input (In_tsx t (mk_upd PJSIP_TSX_STATE_TERMINATED code (Src_rx_msg rdata) None)))
    (run_fuel [])) (fun _ => accepted_post rdata t x w) (set_oracle [] w)).
  { change (run_fuel []) with 2%nat. cbn [arrive]. eapply runs_mono; [apply (runs_accepted 2 rdata code t x (set_oracle [] w)); [done| |done|done]|].
    - destruct Hc. by split.
    - intros a w' H. exact H. }
  apply runs_ok in K as ([] & w1 & E1 & Hi & Ha & Hlog). exists w1.
  assert (K2 : runs (arrive cfg is_reliable uri_cmp (Ar_response rdata) (run_fuel [])) (fun _ w2 => w_inv w2 = w_inv w1 /\
    w_log w2 = w_log w1 ++ [ack_sent (w_next w) PJSIP_INV_STATE_CONFIRMED (w_inv w)]) (set_oracle [] w1)).
  { change (run_fuel []) with 2%nat. cbn [arrive]. unfold mod_inv_on_rx_response. rewrite Hl, H2, Hcm, bool_decide_true by done.
    change (2 =? 2) with true. unfold set_oracle. sx. rewrite Hi. unfold entered_inv, with_ack. sx.
    eapply runs_same_ack; [done|reflexivity|sx; by rewrite ?Hi|sx; by rewrite ?Hi|sx; exact Ha|done|done|sx; by rewrite ?Hi|].
    sx. split; [by rewrite ?Hi|]. by rewrite ?Hi. }
  apply runs_ok in K2 as ([] & w2 & E2 & Hi2 & Hl2). exists w2. unfold handle. split; [exact E1|]. rewrite Hi.
  split; [done|]. split; [done|]. split; [done|]. split; [cbn; destruct (Z.eqb_spec (rd_cseq rdata) (-1)); done|].
  split; [done|]. split; [exact E2|]. by rewrite Hi2, Hi.
Qed.
End Props.
