(* ===== verification/InvWitness.v ===== *)
(** * INVITE sessions: the properties at the sample calls *)

From Stdlib Require Strings.String.
From S2P Require Import Prelude SipTypes PjStr Sdp SdpNeg SdpSamples SipTargets InvData InvNeg InvExt InvOps InvCalls InvHandlers InvCreate InvSafe InvSafeRun InvSamples InvVerify InvProps.
Import Strings.String.StringSyntax.

(** ** Arrivals that may come, decided *)

Definition call_okb (c : api_call) : bool :=
  match c with Api_end_session code => 100 <=? code | Api_terminate code _ => 300 <=? code | _ => true end.
Definition answer_okb (a : answer) : bool := (100 <=? a_code a) && forallb call_okb (a_calls a).
Definition arrival_okb (w : world) (a : arrival) (oracle : list answer) : bool :=
  forallb answer_okb oracle &&
  match a with
  | Ar_input (In_tsx t u) =>
      match w_tsxs w !! t with Some x => legal_upd x u && negb (peer_invite_at w x) | None => false end
  | Ar_input (In_call c) => call_okb c
  | Ar_request m _ => negb (peer_invite_at w (mk_inv_tsx PJSIP_ROLE_UAS m PJSIP_TSX_STATE_NULL 0 0 None None))
  | _ => true
  end.

Lemma call_okb_ok c : call_okb c = true -> call_ok c.
Proof. destruct c; cbn; try done; apply Z.leb_le. Qed.

Lemma answer_okb_ok a : answer_okb a = true -> answer_ok a.
Proof.
  intros H. apply andb_true_iff in H as [H1 H2]. split; [by apply Z.leb_le|]. rewrite forallb_forall in H2.
  apply List.Forall_forall. intros c Hc. by apply call_okb_ok, H2.
Qed.

Lemma arrival_okb_ok w a oracle : arrival_okb w a oracle = true -> arrival_ok w a oracle.
Proof.
  intros H. apply andb_true_iff in H as [Ho Ha]. split.
  { apply List.Forall_forall. intros x Hx. rewrite forallb_forall in Ho. by apply answer_okb_ok, Ho. }
  destruct a as [[t u|c]|m r|r|r]; try done.
  - cbn. destruct (w_tsxs w !! t) as [x|]; [|done]. apply andb_true_iff in Ha as [H1 H2]. exists x. split; [done|]. split; [done|].
    by apply negb_true_iff.
  - by apply call_okb_ok.
  - intros (H1 & H2 & H3). apply negb_true_iff in Ha. unfold peer_invite_at in Ha. cbn in Ha. by rewrite H1, H2, H3 in Ha.
Qed.

Fixpoint drive_ok (l : list (arrival * list answer)) (w : world) : bool :=
  match l with
  | [] => true
  | (a, o) :: l' => arrival_okb w a o && match handle0 a o w with Ok _ w' => drive_ok l' w' | Crash _ _ => false end
  end.

Lemma drive_reachable l w w' : reachable plain_config unreliable same_uri w -> drive_ok l w = true -> drive l (Some w) = Some w' ->
  reachable plain_config unreliable same_uri w'.
Proof.
  revert w. induction l as [|[a o] l IH]; intros w H Hd E; cbn in *; [by injection E as <-|].
  apply andb_true_iff in Hd as [H1 H2]. destruct (handle0 a o w) as [[] w1|] eqn:Eh; [|done].
  eapply IH; [|exact H2|exact E]. eapply Reach_step; [exact H|by apply arrival_okb_ok|exact Eh].
Qed.

(** ** The two sessions *)

Lemma caller_surroundings_ok : surroundings_ok caller_surroundings.
Proof. by split. Qed.

Lemma callee_surroundings_ok : surroundings_ok callee_surroundings.
Proof.
  split; cbn; [|intros t Ht; apply lookup_singleton_ne; lia|done].
  intros t x E. apply lookup_singleton_Some in E as [<- <-]. split; [done|]. by intros td.
Qed.

Definition reaches (start : option world) (l : list (arrival * list answer)) (w : world) : Prop :=
  exists w0, start = Some w0 /\ drive_ok l w0 = true /\ drive l (Some w0) = Some w.

Lemma caller_reaches l w : reaches caller_new l w -> reachable plain_config unreliable same_uri w.
Proof.
  intros (w0 & E & Hd & H). eapply drive_reachable; [|exact Hd|exact H].
  unfold caller_new in E. destruct (pjsip_inv_create_uac caller_surroundings (Some theirs) 0 PJ_SUCCESS) as [st o] eqn:Ec. cbn in E. subst o.
  eapply Reach_uac; [apply caller_surroundings_ok|exact Ec].
Qed.

Lemma callee_uas_ok : uas_ok callee_surroundings their_invite.
Proof. split; [done|]. intros x E. cbn in E. apply lookup_singleton_Some in E as [_ <-]. by split. Qed.

Lemma callee_reaches l w : reaches callee_new l w -> reachable plain_config unreliable same_uri w.
Proof.
  intros (w0 & E & Hd & H). eapply drive_reachable; [|exact Hd|exact H].
  unfold callee_new in E. destruct (pjsip_inv_create_uas callee_surroundings their_invite (Some ours) 0 PJ_SUCCESS) as [st o] eqn:Ec.
  cbn in E. subst o. eapply Reach_uas; [apply callee_surroundings_ok|apply callee_uas_ok|exact Ec].
Qed.

(** A world, as it is computed *)
Definition the (o : option world) : world :=
  match o with Some w => w | None => mk_world (new_session PJSIP_ROLE_UAC 0 None None) (sample_dialog PJSIP_ROLE_UAC) ∅ ∅ 1 [] [] end.

Lemma reaches_the start l : match start with Some w0 => drive_ok l w0 | None => false end = true ->
  match drive l start with Some _ => true | None => false end = true -> reaches start l (the (drive l start)).
Proof.
  destruct start as [w0|]; [|done]. intros H1 H2. exists w0. split; [done|]. split; [done|]. by destruct (drive l (Some w0)).
Qed.

Definition ringing_caller : world := the (drive (caller_calls ++ [ringing]) caller_new).

Lemma ringing_caller_reachable : reachable plain_config unreliable same_uri ringing_caller.
Proof. eapply caller_reaches, reaches_the; vm_compute; reflexivity. Qed.

Definition waiting_callee : world := the (drive (callee_calls ++ callee_hangs_up) callee_new).

Lemma waiting_callee_reachable : reachable plain_config unreliable same_uri waiting_callee.
Proof. eapply callee_reaches, reaches_the; vm_compute; reflexivity. Qed.

(** ** Witnesses *)


Lemma session_invariant_witness :
  w_log waiting_callee <> [] /\ i_invite_tsx (w_inv waiting_callee) = Some 5 /\
  exists x, w_tsxs waiting_callee !! 5 = Some x /\ m_id (t_method x) = PJSIP_INVITE_METHOD.
Proof.
  destruct (session_invariant plain_config unreliable same_uri waiting_callee waiting_callee_reachable) as (_ & _ & _ & _ & H & _).
  assert (E : i_invite_tsx (w_inv waiting_callee) = Some 5) by (vm_compute; reflexivity).
  split; [|split; [exact E|exact (H 5 E)]]. intros K. assert (L : length (w_log waiting_callee) = 0%nat) by (rewrite K; reflexivity).
  revert L. vm_compute. discriminate.
Defined.

Definition cancelling_caller : world :=
  the (drive (caller_calls ++ [ringing; (Ar_input (In_call (Api_end_session 603)), [fine])]) caller_new).

Lemma cancelling_caller_reachable : reachable plain_config unreliable same_uri cancelling_caller.
Proof. eapply caller_reaches, reaches_the; vm_compute; reflexivity. Qed.


(** The callee has answered with 200 and made a BYE. *)
Definition answered_callee : world :=
  the (drive (callee_calls ++ [(Ar_input (In_call (Api_end_session 200)), [])]) callee_new).

Definition answered_tsx : inv_tsx := match w_tsxs answered_callee !! 5 with Some x => x | None => callee_tsx end.
Definition answered_bye : pjsip_tx_data :=
  match w_tds answered_callee !! 7 with Some d => d | None => mk_tdata (Req pjsip_bye_method) None 0 (None, []) [] None [] 1 false end.

(** Tests whose values are booleans *)
Lemma lookup_there {A} (m : gmap Z A) k d : match m !! k with Some _ => true | None => false end = true ->
  m !! k = Some (match m !! k with Some x => x | None => d end).
Proof. by destruct (m !! k). Qed.

Lemma negotiated_there w :
  match i_neg (w_inv w) with Some m => bool_decide (neg_state_of m = PJMEDIA_SDP_NEG_STATE_DONE) | None => false end = true ->
  negotiated (w_inv w).
Proof. intros H. unfold negotiated. destruct (i_neg (w_inv w)) as [m|]; [|done]. exists m. split; [done|]. by apply bool_decide_eq_true in H. Qed.

Lemma answer_there w :
  match i_last_answer (w_inv w) with Some a => match w_tds w !! a with Some _ => true | None => false end | None => true end = true ->
  forall a, i_last_answer (w_inv w) = Some a -> is_Some (w_tds w !! a).
Proof. intros H a E. rewrite E in H. destruct (w_tds w !! a); [by eexists|done]. Qed.

Lemma bye_waits_for_ack_witness :
  exists w1 w2, handle plain_config unreliable same_uri (Ar_input (In_call (Api_send_msg 7))) [] answered_callee = Ok tt w1 /\
    w_log w1 = w_log answered_callee /\ i_pending_bye (w_inv w1) = Some 7 /\
    handle plain_config unreliable same_uri (Ar_ack their_ack) [] w1 = Ok tt w2 /\ i_state (w_inv w2) = PJSIP_INV_STATE_CONFIRMED /\
    i_pending_bye (w_inv w2) = None /\ i_invite_tsx (w_inv w2) = None /\
    w_log w2 = w_log w1 ++ acknowledged_log plain_config 5 answered_tsx (w_inv w1) 7 pjsip_bye_method.
Proof.
  apply (bye_waits_for_ack plain_config unreliable same_uri answered_callee 5 answered_tsx their_ack 7 answered_bye pjsip_bye_method).
  - split; [vm_compute; reflexivity|vm_compute; reflexivity|vm_compute; reflexivity|apply lookup_there; vm_compute; reflexivity|
      vm_compute; reflexivity|vm_compute; reflexivity| |].
    + apply negotiated_there. vm_compute. reflexivity.
    + apply answer_there. vm_compute. reflexivity.
  - split; [reflexivity|]. split; [vm_compute; reflexivity|reflexivity].
  - apply lookup_there. vm_compute. reflexivity.
  - vm_compute. reflexivity.
  - reflexivity.
  - vm_compute. reflexivity.
  - vm_compute. discriminate.
  - vm_compute. discriminate.
Defined.

(** The caller's offer is answered with 183, and the call with a 200 without a description. *)
Definition progress : arrival * list answer :=
  (Ar_input (In_tsx 2 (mk_upd PJSIP_TSX_STATE_PROCEEDING 183
     (Src_rx_msg (with_ctype (response 183 (lit "t1") (sdp_body (sample 6 [answer_line]))))) (Some (lit "t1")))), []).
Definition early_caller : world := the (drive (caller_calls ++ [progress]) caller_new).
Definition early_tsx : inv_tsx := match w_tsxs early_caller !! 2 with Some x => x | None => callee_tsx end.
Definition plain_200 : pjsip_rx_data := response 200 (lit "t1") None.

Lemma accepted_call_acknowledged_witness :
  exists w1 w2,
    handle plain_config unreliable same_uri (Ar_input (In_tsx 2 (mk_upd PJSIP_TSX_STATE_TERMINATED 200 (Src_rx_msg plain_200) None))) [] early_caller = Ok tt w1 /\
    i_state (w_inv w1) = PJSIP_INV_STATE_CONFIRMED /\ i_last_ack (w_inv w1) = Some (w_next early_caller) /\
    w_tds w1 !! w_next early_caller = Some (the_ack (rd_cseq plain_200) (w_dlg early_caller)) /\ td_cseq (the_ack (rd_cseq plain_200) (w_dlg early_caller)) = rd_cseq plain_200 /\
    w_log w1 = w_log early_caller ++ accepted_log plain_config (w_next early_caller) 2 early_tsx (w_inv early_caller) /\
    handle plain_config unreliable same_uri (Ar_response plain_200) [] w1 = Ok tt w2 /\ w_inv w2 = w_inv w1 /\
    w_log w2 = w_log w1 ++ [ack_sent (w_next early_caller) PJSIP_INV_STATE_CONFIRMED (w_inv early_caller)].
Proof.
  refine (accepted_call_acknowledged plain_config unreliable same_uri plain_200 200 2 early_tsx early_caller _ _ _).
  - split; [vm_compute; reflexivity|vm_compute; reflexivity|apply lookup_there; vm_compute; reflexivity|vm_compute; reflexivity|
      vm_compute; reflexivity|apply negotiated_there; vm_compute; reflexivity|vm_compute; reflexivity|vm_compute; reflexivity|
      vm_compute; reflexivity].
  - split; [reflexivity|]. split; [reflexivity|]. split; [reflexivity|]. split; [reflexivity|]. vm_compute. discriminate.
  - reflexivity.
Defined.

(** An INVITE with an offer, and one that requires an extension nobody has *)
Definition no_capability : list Z -> bool := fun _ => false.
Definition with_require (v : list (list Z)) (r : pjsip_rx_data) : pjsip_rx_data :=
  mk_rdata (rd_line r) (rd_uri r) (rd_cseq r) (rd_cseq_method r) (rd_to_tag r) (rd_ctype r) (rd_body r)
    (rd_contacts r) (rd_record_route r) (rd_allow r) (rd_supported r) (Some v) (rd_tsx r).


(** Without a wanted response a description that does not parse passes. *)
Example unparsable_passes :
  pjsip_inv_verify_request3 plain_config no_capability false PJ_SUCCESS
    (with_ctype (request pjsip_invite_method 7 (Some (mk_body (lit "application") (lit "sdp") (inl PJ_EINVAL) None)))) 0 None (Some ours) =
  Some (PJ_SUCCESS, 0, None).
Proof. vm_compute. reflexivity. Qed.

(** A call that is ended while the application is asked about a redirection makes a CANCEL for
    an INVITE that has a final response and never had a provisional one. *)
Definition asking_config : inv_config := mk_config (mk_callbacks true true true true true true true) false true None None None.
Definition moved_302 : pjsip_rx_data :=
  mk_rdata (Rsp 302) None 100 pjsip_invite_method (lit "t1") None None
    [Contact_uri (Some (mk_uri Sip [] 2)) 0; Contact_uri (Some (mk_uri Sip [] 3)) 0] None None None None 0.
Definition ends_when_asked : answer := mk_answer PJ_SUCCESS 200 0 None PJSIP_REDIRECT_REJECT [] [Api_end_session 603].

Example cancel_after_redirection :
  match handle asking_config unreliable same_uri
    (Ar_input (In_tsx 2 (mk_upd PJSIP_TSX_STATE_COMPLETED 302 (Src_rx_msg moved_302) (Some (lit "t1"))))) [ends_when_asked; fine]
    (the (drive caller_calls caller_new)) with
  | Ok _ w => List.find (fun e => match e with E_create_cancel _ => true | _ => false end) (w_log w)
  | Crash _ _ => None
  end = Some (E_create_cancel 302).
Proof. vm_compute. reflexivity. Qed.
