(* ===== verification/SessTimer.v ===== *)
(** * Session timers (pjsip/src/pjsip-ua/sip_timer.c)

    The parts of RFC 4028 in an INVITE session: the interval and the refresher are agreed
    in the requests and responses, one party refreshes the session, the other ends it when
    no refresh comes.  Of the session the timers see its options, the state of its
    negotiator, whether a re-INVITE is in progress, and whether the peer allows UPDATE. *)

From Stdlib Require Strings.String.
From S2P Require Import Prelude SipTypes PjStr SdpNeg InvData InvCreate.
Import Strings.String.StringSyntax.

Definition ABS_MIN_SE : Z := 90.
Definition REFRESHER_EXPIRE_TIMER_ID : Z := 2.
Definition PJSIP_SESS_TIMER_DEF_SE : Z := 1800.
Definition PJSIP_SESS_TIMER_RETRY_DELAY : Z := 10.
Definition PJSIP_INV_ALWAYS_USE_TIMER : Z := 128.
Definition PJSIP_EINVALIDSTATUS : Z := 171030.
Definition PJSIP_EMISSINGHDR : Z := 171050.

Inductive timer_refresher := TR_UNKNOWN | TR_UAC | TR_UAS.

#[global] Instance timer_refresher_eq_dec : EqDecision timer_refresher.
Proof. solve_decision. Defined.

(** Intervals are unsigned, in seconds. *)
Record pjsip_timer_setting := mk_setting { min_se : Z; sess_expires : Z }.

(** An entry is its id; whether it is in the heap is part of the session below.  The time of
    the last refresh is only logged. *)
Record pjsip_timer := mk_timer {
  tm_active : bool;
  tm_setting : pjsip_timer_setting;
  tm_refresher : timer_refresher;
  tm_id : Z;                       (* timer.id *)
  tm_use_update : bool;
  tm_with_sdp : bool;
  tm_role : pjsip_role_e;
  tm_refresh_tdata : option Z;
  tm_expire_id : Z                 (* expire_timer.id *)
}.

Definition set_tm_active b t := mk_timer b (tm_setting t) (tm_refresher t) (tm_id t) (tm_use_update t) (tm_with_sdp t)
  (tm_role t) (tm_refresh_tdata t) (tm_expire_id t).
Definition set_tm_setting s t := mk_timer (tm_active t) s (tm_refresher t) (tm_id t) (tm_use_update t) (tm_with_sdp t)
  (tm_role t) (tm_refresh_tdata t) (tm_expire_id t).
Definition set_tm_refresher r role t := mk_timer (tm_active t) (tm_setting t) r (tm_id t) (tm_use_update t) (tm_with_sdp t)
  role (tm_refresh_tdata t) (tm_expire_id t).
Definition set_tm_id i t := mk_timer (tm_active t) (tm_setting t) (tm_refresher t) i (tm_use_update t) (tm_with_sdp t)
  (tm_role t) (tm_refresh_tdata t) (tm_expire_id t).
Definition set_tm_update u sdp t := mk_timer (tm_active t) (tm_setting t) (tm_refresher t) (tm_id t) u sdp
  (tm_role t) (tm_refresh_tdata t) (tm_expire_id t).
Definition set_tm_tdata td t := mk_timer (tm_active t) (tm_setting t) (tm_refresher t) (tm_id t) (tm_use_update t) (tm_with_sdp t)
  (tm_role t) td (tm_expire_id t).
Definition set_tm_expire_id i t := mk_timer (tm_active t) (tm_setting t) (tm_refresher t) (tm_id t) (tm_use_update t) (tm_with_sdp t)
  (tm_role t) (tm_refresh_tdata t) i.

(** ** Messages

    The Session-Expires headers with their refresher parameter, the Min-SE headers, and the
    values of the first Supported and the first Require header *)
Record tm_msg := mk_tm_msg {
  m_line : pjsip_msg_line;
  m_cseq_method : pjsip_method;
  m_se : list (Z * list Z);
  m_min_se : list Z;
  m_supported : option (list (list Z));
  m_require : option (list (list Z))
}.

Definition set_m_se l m := mk_tm_msg (m_line m) (m_cseq_method m) l (m_min_se m) (m_supported m) (m_require m).
Definition set_m_min_se l m := mk_tm_msg (m_line m) (m_cseq_method m) (m_se m) l (m_supported m) (m_require m).
Definition set_m_require r m := mk_tm_msg (m_line m) (m_cseq_method m) (m_se m) (m_min_se m) (m_supported m) r.

(** ** The session *)

Inductive tm_effect :=
  | E_refresh (td : Z) (by_update with_offer : bool) (m : tm_msg)   (* a refresh request is sent *)
  | E_end (status : Z)                                              (* the session is ended with this status *)
  | E_restart (m : tm_msg).                                         (* the INVITE is sent again *)

(** The two entries are in the timer heap when they have an expiry time. *)
Record tm_sess := mk_tm_sess {
  s_options : Z;
  s_timer : option pjsip_timer;
  s_neg : pjmedia_sdp_neg_state;
  s_invite_tsx : bool;             (* inv->invite_tsx is not NULL *)
  s_remote_update : bool;          (* the peer has allowed UPDATE *)
  s_established : bool;            (* the state is CONNECTING or CONFIRMED *)
  s_invite_req : option tm_msg;
  s_now : Z;
  s_refresh_at : option Z;         (* of timer *)
  s_expire_at : option Z;          (* of expire_timer *)
  s_log : list tm_effect
}.

Definition set_s_timer t s := mk_tm_sess (s_options s) (Some t) (s_neg s) (s_invite_tsx s) (s_remote_update s) (s_established s)
  (s_invite_req s) (s_now s) (s_refresh_at s) (s_expire_at s) (s_log s).
Definition set_s_refresh_at a s := mk_tm_sess (s_options s) (s_timer s) (s_neg s) (s_invite_tsx s) (s_remote_update s)
  (s_established s) (s_invite_req s) (s_now s) a (s_expire_at s) (s_log s).
Definition set_s_expire_at a s := mk_tm_sess (s_options s) (s_timer s) (s_neg s) (s_invite_tsx s) (s_remote_update s)
  (s_established s) (s_invite_req s) (s_now s) (s_refresh_at s) a (s_log s).
Definition set_s_neg n tsx s := mk_tm_sess (s_options s) (s_timer s) n tsx (s_remote_update s) (s_established s)
  (s_invite_req s) (s_now s) (s_refresh_at s) (s_expire_at s) (s_log s).
Definition set_s_req m s := mk_tm_sess (s_options s) (s_timer s) (s_neg s) (s_invite_tsx s) (s_remote_update s)
  (s_established s) (Some m) (s_now s) (s_refresh_at s) (s_expire_at s) (s_log s).
Definition set_s_now n s := mk_tm_sess (s_options s) (s_timer s) (s_neg s) (s_invite_tsx s) (s_remote_update s)
  (s_established s) (s_invite_req s) n (s_refresh_at s) (s_expire_at s) (s_log s).
Definition tm_log e s := mk_tm_sess (s_options s) (s_timer s) (s_neg s) (s_invite_tsx s) (s_remote_update s)
  (s_established s) (s_invite_req s) (s_now s) (s_refresh_at s) (s_expire_at s) (s_log s ++ [e]).

(** pjsip_endpt_schedule_timer refuses an entry that is in the heap. *)
Definition schedule (at_ : option Z) (now delay : Z) : option Z := match at_ with Some a => Some a | None => Some (now + delay) end.

(** What the session answers: the status of a refresh request, of the offer of a
    re-INVITE, of the end of the session, and of sending, the address of the message, and
    the state of the negotiator and of the INVITE transaction after it *)
Record tm_env := mk_tm_env {
  ev_request : Z; ev_offer : Z; ev_end : Z; ev_send : Z; ev_td : option Z;
  ev_neg : pjmedia_sdp_neg_state; ev_invite_tsx : bool
}.

Section Timer.
Context {Str : PjString}.

Definition STR_UAC : list Z := lit "uac".
Definition STR_UAS : list Z := lit "uas".
Definition STR_TIMER : list Z := lit "timer".

Definition as_refresher (t : pjsip_timer) : bool :=
  (bool_decide (tm_refresher t = TR_UAC) && bool_decide (tm_role t = PJSIP_ROLE_UAC)) ||
  (bool_decide (tm_refresher t = TR_UAS) && bool_decide (tm_role t = PJSIP_ROLE_UAS)).

(** ** Creation *)

Definition pjsip_timer_setting_default : pjsip_timer_setting := mk_setting ABS_MIN_SE PJSIP_SESS_TIMER_DEF_SE.

(** A structure that is zeroed; role 0 is the UAC. *)
Definition zero_timer (s : pjsip_timer_setting) : pjsip_timer := mk_timer false s TR_UNKNOWN 0 false false PJSIP_ROLE_UAC None 0.

Definition pjsip_timer_init_session (setting : option pjsip_timer_setting) (s : tm_sess) : Z * tm_sess :=
  match setting with
  | Some st =>
      if min_se st <? ABS_MIN_SE then (PJ_ETOOSMALL, set_s_timer (zero_timer (mk_setting 0 0)) s)
      else if sess_expires st <? min_se st then (PJ_EINVAL, set_s_timer (zero_timer (mk_setting 0 0)) s)
      else (PJ_SUCCESS, set_s_timer (zero_timer st) s)
  | None => (PJ_SUCCESS, set_s_timer (zero_timer pjsip_timer_setting_default) s)
  end.

(** [if (inv->timer == NULL) pjsip_timer_init_session(inv, NULL);] *)
Definition timer_of (s : tm_sess) : pjsip_timer :=
  match s_timer s with Some t => t | None => zero_timer pjsip_timer_setting_default end.

(** ** Headers *)

Definition refresher_param (r : timer_refresher) : list Z :=
  match r with TR_UNKNOWN => [] | TR_UAC => STR_UAC | TR_UAS => STR_UAS end.

Definition add_timer_headers (t : pjsip_timer) (add_se add_min_se : bool) (m : tm_msg) : tm_msg :=
  let m := if add_se then set_m_se (m_se m ++ [(sess_expires (tm_setting t), refresher_param (tm_refresher t))]) m else m in
  if add_min_se then set_m_min_se (m_min_se m ++ [min_se (tm_setting t)]) m else m.

(** ** Starting and stopping *)

Definition stop_timer (t : pjsip_timer) (s : tm_sess) : tm_sess :=
  let s := if negb (tm_id t =? 0) then set_s_refresh_at None s else s in
  let t := if negb (tm_id t =? 0) then set_tm_id 0 t else t in
  if negb (tm_expire_id t =? 0) then set_s_timer (set_tm_expire_id 0 t) (set_s_expire_at None s)
  else set_s_timer t s.

(** Initialising an entry that is in the heap leaves the heap with a stale pointer: [None].
    The subtraction of 32 is in a [long]. *)
Definition start_timer (s : tm_sess) : option tm_sess :=
  match s_timer s with
  | None => None
  | Some t =>
      let s := stop_timer t s in
      let t := set_tm_id 0 (set_tm_expire_id 0 t) in
      let use_update := s_remote_update s in
      let t := set_tm_update use_update (if use_update then tm_with_sdp t else true) t in
      match s_refresh_at s with
      | Some _ => None
      | None =>
          let t := set_tm_id 1 t in
          let se := sess_expires (tm_setting t) in
          if as_refresher t then
            match s_expire_at s with
            | Some _ => None
            | None =>
                let t := set_tm_expire_id REFRESHER_EXPIRE_TIMER_ID t in
                let s := set_s_expire_at (schedule (s_expire_at s) (s_now s) se) s in
                Some (set_s_timer t (set_s_refresh_at (schedule (s_refresh_at s) (s_now s) (se / 2)) s))
            end
          else
            Some (set_s_timer t (set_s_refresh_at (schedule (s_refresh_at s) (s_now s) (Z.max (se - 32) (se - se / 3))) s))
      end
  end.

Definition pjsip_timer_end_session (s : tm_sess) : tm_sess :=
  match s_timer s with Some t => stop_timer (set_tm_active false t) (set_s_timer (set_tm_active false t) s) | None => s end.

(** ** Requests that are sent *)

(** The role of the party is kept when the direction of the requests changes. *)
Definition pjsip_timer_update_req (m : tm_msg) (s : tm_sess) : tm_msg * tm_sess :=
  if negb (has_option (s_options s) PJSIP_INV_SUPPORT_TIMER) then (m, s)
  else
    let t := timer_of s in
    let t := match tm_refresher t with
             | TR_UNKNOWN => t
             | _ => set_tm_refresher (if as_refresher t then TR_UAC else TR_UAS) PJSIP_ROLE_UAC t
             end in
    (add_timer_headers t true true m, set_s_timer t s).

(** A refresh request before its headers *)
Definition refresh_msg (by_update : bool) (supported : option (list (list Z))) : tm_msg :=
  let method := if by_update then pjsip_update_method else pjsip_invite_method in
  mk_tm_msg (Req method) method [] [] supported None.

(** The peer has not answered, or is not heard of: the session ends with a 408.  Ending
    an established session stops the timers. *)
Definition end_session (status : Z) (env : tm_env) (s : tm_sess) : tm_sess :=
  let s := if s_established s then pjsip_timer_end_session s else s in
  if ev_end env =? PJ_SUCCESS then tm_log (E_end status) s else s.

(** pjsip_inv_update, or pjsip_inv_invite and the offer of the negotiator, for a refresh *)
Definition make_refresh (by_update : bool) (supported : option (list (list Z))) (env : tm_env) (s : tm_sess) :
  Z * option tm_msg * tm_sess :=
  if negb (ev_request env =? PJ_SUCCESS) then (ev_request env, None, s)
  else
    let '(m, s) := pjsip_timer_update_req (refresh_msg by_update supported) s in
    let s := set_s_neg (ev_neg env) (ev_invite_tsx env) s in
    if by_update then (PJ_SUCCESS, Some m, s) else (ev_offer env, Some m, s).

(** [is_expire] tells which entry it is called with. *)
Definition timer_cb (supported : option (list (list Z))) (env : tm_env) (is_expire : bool) (s : tm_sess) : option tm_sess :=
  match s_timer s with
  | None => None
  | Some t =>
      let refresher := as_refresher t in
      let entry_id := if is_expire then tm_expire_id t else tm_id t in
      if refresher && negb (entry_id =? REFRESHER_EXPIRE_TIMER_ID) then
        let t := set_tm_id 0 t in
        let done := bool_decide (s_neg s = PJMEDIA_SDP_NEG_STATE_DONE) in
        if (negb (tm_use_update t) && (s_invite_tsx s || negb done)) || (tm_use_update t && tm_with_sdp t && negb done) then
          Some (set_s_timer (set_tm_id 1 t) (set_s_refresh_at (schedule (s_refresh_at s) (s_now s) 1) s))
        else
          let '(status, m, s) := make_refresh (tm_use_update t) supported env (set_s_timer t s) in
          match m with
          | Some m =>
              if status =? PJ_SUCCESS then
                let s := set_s_timer (set_tm_tdata (ev_td env) (timer_of s)) s in
                Some (if ev_send env =? PJ_SUCCESS
                      then tm_log (E_refresh (default 0 (ev_td env)) (tm_use_update t) (negb (tm_use_update t) || tm_with_sdp t) m) s
                      else s)
              else Some s
          | None => Some s
          end
      else
        let t := if refresher then set_tm_expire_id 0 t else set_tm_id 0 t in
        let s := end_session PJSIP_SC_REQUEST_TIMEOUT env (set_s_timer t s) in
        match ev_td env with
        | Some td => if ev_end env =? PJ_SUCCESS then Some (set_s_timer (set_tm_tdata (Some td) (timer_of s)) s) else Some s
        | None => Some s
        end
  end.

(** An entry that is due leaves the heap before its callback is called. *)
Definition fire (supported : option (list (list Z))) (env : tm_env) (is_expire : bool) (s : tm_sess) : option tm_sess :=
  timer_cb supported env is_expire (if is_expire then set_s_expire_at None s else set_s_refresh_at None s).

(** ** Responses that are received *)

Definition is_update (m : pjsip_method) : bool := pjsip_method_cmp m pjsip_update_method.
Definition is_invite (m : pjsip_method) : bool := bool_decide (m_id m = PJSIP_INVITE_METHOD).

(** The INVITE is sent again, with the headers of the new interval. *)
Definition retry_invite (m : tm_msg) (s : tm_sess) : option tm_sess :=
  match m_min_se m, s_timer s, s_invite_req s with
  | min :: _, Some t, Some req =>
      let setting := tm_setting t in
      let min := Z.max min (min_se setting) in
      let t := set_tm_setting (mk_setting min (if sess_expires setting <? min then min else sess_expires setting)) t in
      let req := add_timer_headers t true true (set_m_se (tail (m_se req)) (set_m_min_se (tail (m_min_se req)) req)) in
      Some (tm_log (E_restart req) (set_s_req req (set_s_timer t s)))
  | _, _, _ => None
  end.

(** What a 2xx says of the interval *)
Definition accept_interval (se : option (Z * list Z)) (st : pjsip_timer_setting) : pjsip_timer_setting :=
  match se with
  | Some (v, _) =>
      let st := if (v <? min_se st) && (ABS_MIN_SE <=? v) then mk_setting v v else st in
      if (v <=? sess_expires st) && (min_se st <=? v) then mk_setting (min_se st) v else st
  | None => st
  end.

Definition param_is (se : option (Z * list Z)) (v : list Z) : bool :=
  match se with Some (_, r) => pj_stricmp r v =? 0 | None => false end.

(** The party that a 2xx makes the refresher *)
Definition resp_refresher (se : option (Z * list Z)) : timer_refresher :=
  if param_is se STR_UAC then TR_UAC else if param_is se STR_UAS then TR_UAS else TR_UAC.

Definition accept_resp (se : option (Z * list Z)) (s : tm_sess) : option tm_sess :=
  let t := timer_of s in
  let t := set_tm_setting (accept_interval se (tm_setting t)) t in
  start_timer (set_s_timer (set_tm_active true (set_tm_refresher (resp_refresher se) PJSIP_ROLE_UAC t)) s).

(** The status, the SIP status when it is set, and the session *)
Definition pjsip_timer_process_resp (supported : option (list (list Z))) (env : tm_env) (m : tm_msg) (s : tm_sess) :
  option (Z * option Z * tm_sess) :=
  let code := msg_status (m_line m) in
  if negb (has_option (s_options s) PJSIP_INV_SUPPORT_TIMER) then
    Some (if code =? PJSIP_SC_SESSION_TIMER_TOO_SMALL then PJSIP_EINVALIDSTATUS else PJ_SUCCESS, None, s)
  else if negb (is_invite (m_cseq_method m)) && negb (is_update (m_cseq_method m)) then Some (PJ_SUCCESS, None, s)
  else if code =? PJSIP_SC_SESSION_TIMER_TOO_SMALL then
    match m_min_se m with
    | [] => Some (PJSIP_EMISSINGHDR, None, pjsip_timer_end_session s)
    | _ => (fun s => (PJ_SUCCESS, None, s)) <$> retry_invite m s
    end
  else if Z.quot code 100 =? 2 then
    match head (m_se m) with
    | None =>
        if has_option (s_options s) PJSIP_INV_REQUIRE_TIMER then
          Some (PJSIP_ERRNO_FROM_SIP_STATUS PJSIP_SC_EXTENSION_REQUIRED, Some PJSIP_SC_EXTENSION_REQUIRED, pjsip_timer_end_session s)
        else if negb (has_option (s_options s) PJSIP_INV_ALWAYS_USE_TIMER) then Some (PJ_SUCCESS, None, pjsip_timer_end_session s)
        else (fun s => (PJ_SUCCESS, None, s)) <$> accept_resp None s
    | se => (fun s => (PJ_SUCCESS, None, s)) <$> accept_resp se s
    end
  else if is_update (m_cseq_method m) && (400 <=? code) && (code <? 600) then
    match s_timer s with
    | None => None
    | Some t =>
        if (tm_id t =? 0) && tm_use_update t && negb (tm_with_sdp t) then
          (fun s => (PJ_SUCCESS, None, s)) <$> timer_cb supported env false (set_s_timer (set_tm_update (tm_use_update t) true t) s)
        else Some (PJ_SUCCESS, None, s)
    end
  else Some (PJ_SUCCESS, None, s).

(** A refresh request has failed in transaction [last_tx]. *)
Definition pjsip_timer_handle_refresh_error (env : tm_env) (is_tsx_event : bool) (last_tx : option Z) (st_code : Z) (s : tm_sess) : Z * tm_sess :=
  if negb (has_option (s_options s) PJSIP_INV_SUPPORT_TIMER) then (PJ_SUCCESS, s)
  else
    match s_timer s with
    | Some t =>
        if tm_active t && as_refresher t && is_tsx_event && bool_decide (tm_refresh_tdata t = last_tx) then
          if (st_code =? PJSIP_SC_TSX_TRANSPORT_ERROR) && (0 <=? PJSIP_SESS_TIMER_RETRY_DELAY) then
            (PJ_SUCCESS, set_s_timer (set_tm_id 1 t)
               (set_s_refresh_at (schedule (s_refresh_at s) (s_now s) PJSIP_SESS_TIMER_RETRY_DELAY) s))
          else (PJ_SUCCESS, end_session st_code env s)
        else (PJ_SUCCESS, s)
    | None => (PJ_SUCCESS, s)
    end.

(** ** Requests that are received *)

(** The party that a request makes the refresher, with the roles of this transaction.
    A party that is known is kept. *)
Definition req_refresher (se : option (Z * list Z)) (m : tm_msg) (t : pjsip_timer) : timer_refresher :=
  if param_is se STR_UAC then TR_UAC
  else if param_is se STR_UAS then TR_UAS
  else
    match tm_refresher t with
    | TR_UNKNOWN =>
        let uac_supports := match m_supported m with Some l => existsb (fun v => pj_stricmp v STR_TIMER =? 0) l | None => false end in
        if uac_supports && match se with Some _ => true | None => false end then TR_UAC else TR_UAS
    | _ => if as_refresher t then TR_UAS else TR_UAC
    end.

Definition pjsip_timer_process_req (m : tm_msg) (s : tm_sess) : Z * option Z * tm_sess :=
  if negb (has_option (s_options s) PJSIP_INV_SUPPORT_TIMER) then (PJ_SUCCESS, None, s)
  else if negb (match m_line m with Req r => is_invite r | Rsp _ => false end) && negb (is_update (m_cseq_method m)) then (PJ_SUCCESS, None, s)
  else
    let se := head (m_se m) in
    if match se with None => true | Some _ => false end &&
       (Z.land (s_options s) (Z.lor PJSIP_INV_REQUIRE_TIMER PJSIP_INV_ALWAYS_USE_TIMER) =? 0)
    then (PJ_SUCCESS, None, pjsip_timer_end_session s)
    else
      let t := timer_of s in
      let setting := tm_setting t in
      let min := match head (m_min_se m) with Some v => Z.max v (min_se setting) | None => min_se setting end in
      let small := match se with Some (v, _) => v <? min | None => false end in
      if small then
        (PJSIP_ERRNO_FROM_SIP_STATUS PJSIP_SC_SESSION_TIMER_TOO_SMALL, Some PJSIP_SC_SESSION_TIMER_TOO_SMALL, set_s_timer t s)
      else
        let v := match se with
                 | Some (v, _) => v
                 | None => if sess_expires setting <? min then min else sess_expires setting
                 end in
        let t := set_tm_setting (mk_setting (min_se setting) v) t in
        (PJ_SUCCESS, None, set_s_timer (set_tm_active true (set_tm_refresher (req_refresher se m t) PJSIP_ROLE_UAS t)) s).

(** The header is taken to have the tag when one of its values is another. *)
Definition require_timer (m : tm_msg) : tm_msg :=
  match m_require m with
  | None => set_m_require (Some [STR_TIMER]) m
  | Some l => if existsb (fun v => negb (pj_stricmp v STR_TIMER =? 0)) l then m else set_m_require (Some (l ++ [STR_TIMER])) m
  end.

Definition pjsip_timer_update_resp (m : tm_msg) (s : tm_sess) : option (tm_msg * tm_sess) :=
  if negb (has_option (s_options s) PJSIP_INV_SUPPORT_TIMER) then Some (m, s)
  else if Z.quot (msg_status (m_line m)) 100 =? 2 then
    match s_timer s with
    | Some t =>
        if tm_active t then
          let m := add_timer_headers t true false m in
          let m := if bool_decide (tm_refresher t = TR_UAC) then require_timer m else m in
          (fun s => (m, s)) <$> start_timer s
        else Some (m, s)
    | None => Some (m, s)
    end
  else if msg_status (m_line m) =? PJSIP_SC_SESSION_TIMER_TOO_SMALL then
    match s_timer s with Some t => Some (add_timer_headers t false true m, s) | None => None end
  else Some (m, s).
End Timer.
