(* ===== verification/SessTimerProps.v ===== *)
(** * Session timers: theorems

    The timers of one session in every state it reaches; what an exchange of a request and
    its 2xx makes of the timers of both parties; rounds of refreshes; and a retry after a 422. *)

From Stdlib Require Strings.String.
From S2P Require Import Prelude SipTypes PjStr SdpNeg InvData InvCreate SessTimer.
Import Strings.String.StringSyntax.

Section Props.
Context {Str : PjString}.

(** ** Entries and their ids *)

Definition setting_ok (st : pjsip_timer_setting) : Prop := ABS_MIN_SE <= min_se st <= sess_expires st.

Definition armed (id : Z) (at_ : option Z) : Z := match at_ with Some _ => id | None => 0 end.

(** An entry is in the heap exactly when it has an id. *)
Definition sync (t : pjsip_timer) (s : tm_sess) : Prop :=
  tm_id t = armed 1 (s_refresh_at s) /\ tm_expire_id t = armed REFRESHER_EXPIRE_TIMER_ID (s_expire_at s).

Definition unarmed (t : pjsip_timer) (s : tm_sess) : Prop := sync t s /\ s_refresh_at s = None /\ s_expire_at s = None.

(** Without its timer structure a session has no entry; with it, the second entry is only
    in the heap of a refresher. *)
Definition timer_inv (s : tm_sess) : Prop :=
  match s_timer s with
  | Some t => setting_ok (tm_setting t) /\ sync t s /\ (s_expire_at s = None \/ as_refresher t = true)
  | None => s_refresh_at s = None /\ s_expire_at s = None
  end.

Lemma default_ok : setting_ok pjsip_timer_setting_default.
Proof. done. Qed.

Definition stopped (t : pjsip_timer) (s : tm_sess) : tm_sess :=
  set_s_timer (set_tm_expire_id 0 (set_tm_id 0 t)) (set_s_expire_at None (set_s_refresh_at None s)).

Lemma stop_timer_eq t s : sync t s -> stop_timer t s = stopped t s.
Proof.
  destruct t as [ac st r id uu ws ro td ei], s as [o tm n ts ru es iq nw ra ea lg].
  unfold sync, stop_timer, stopped, armed. cbn. intros [-> ->]. by destruct ra, ea.
Qed.

(** The timers of a party from now on *)
Definition started (t : pjsip_timer) (s : tm_sess) : tm_sess :=
  let use_update := s_remote_update s in
  let t' := set_tm_update use_update (if use_update then tm_with_sdp t else true) t in
  let se := sess_expires (tm_setting t) in
  if as_refresher t then
    set_s_timer (set_tm_expire_id REFRESHER_EXPIRE_TIMER_ID (set_tm_id 1 t'))
      (set_s_expire_at (Some (s_now s + se)) (set_s_refresh_at (Some (s_now s + se / 2)) s))
  else
    set_s_timer (set_tm_expire_id 0 (set_tm_id 1 t'))
      (set_s_expire_at None (set_s_refresh_at (Some (s_now s + Z.max (se - 32) (se - se / 3))) s)).

Lemma start_timer_eq t s : s_timer s = Some t -> sync t s -> start_timer s = Some (started t s).
Proof.
  intros E H. unfold start_timer. rewrite E, stop_timer_eq by done.
  destruct t as [ac st r id uu ws ro td ei], s as [o tm n ts ru es iq nw ra ea lg]. unfold started, stopped. cbn.
  unfold as_refresher. cbn. by destruct (_ || _).
Qed.

Lemma started_inv t s : setting_ok (tm_setting t) -> timer_inv (started t s).
Proof.
  destruct t as [ac st r id uu ws ro td ei], s as [o tm n ts ru es iq nw ra ea lg]. unfold started, timer_inv.
  destruct (as_refresher _) eqn:Er; unfold as_refresher in *; cbn in *; intros; (split; [done|]; split; [by split|]); by auto.
Qed.

Lemma stopped_inv t s : setting_ok (tm_setting t) -> timer_inv (stopped t s).
Proof. intros H. unfold timer_inv, stopped. cbn. split; [done|]. split; [by split|]. by left. Qed.

Lemma end_session_inv s : timer_inv s -> timer_inv (pjsip_timer_end_session s).
Proof.
  unfold pjsip_timer_end_session. intros H. unfold timer_inv in H. destruct (s_timer s) as [t|] eqn:E; [|by unfold timer_inv; rewrite E].
  destruct H as (H1 & [H2 H3] & _). rewrite stop_timer_eq by done. by apply stopped_inv.
Qed.

Lemma ended_inv status env s : timer_inv s -> timer_inv (end_session status env s).
Proof.
  intros H. unfold end_session. destruct (s_established s), (ev_end env =? PJ_SUCCESS); try done; by apply end_session_inv in H.
Qed.

Lemma timer_of_ok s : timer_inv s -> setting_ok (tm_setting (timer_of s)) /\ sync (timer_of s) s /\
  (s_expire_at s = None \/ as_refresher (timer_of s) = true).
Proof.
  unfold timer_inv, timer_of. destruct (s_timer s) as [t|]; [done|]. intros [H1 H2].
  split; [apply default_ok|]. split; [split; by rewrite ?H1, ?H2|by left].
Qed.

Definition known (r : timer_refresher) : bool := match r with TR_UNKNOWN => false | _ => true end.

(** The party is kept by a request that is sent. *)
Lemma turned_refresher t : known (tm_refresher t) = true ->
  as_refresher (set_tm_refresher (if as_refresher t then TR_UAC else TR_UAS) PJSIP_ROLE_UAC t) = as_refresher t.
Proof. by destruct t as [ac st [] id uu ws [] td ei]. Qed.

(** The timer after pjsip_timer_update_req *)
Definition requesting (t : pjsip_timer) : pjsip_timer :=
  if known (tm_refresher t) then set_tm_refresher (if as_refresher t then TR_UAC else TR_UAS) PJSIP_ROLE_UAC t else t.

Lemma update_req_eq m s : has_option (s_options s) PJSIP_INV_SUPPORT_TIMER = true ->
  pjsip_timer_update_req m s = (add_timer_headers (requesting (timer_of s)) true true m, set_s_timer (requesting (timer_of s)) s).
Proof. intros H. unfold pjsip_timer_update_req, requesting. rewrite H. cbn [negb]. by destruct (tm_refresher (timer_of s)). Qed.

Lemma requesting_refresher t : as_refresher (requesting t) = as_refresher t.
Proof. unfold requesting. destruct (known _) eqn:E; [by apply turned_refresher|done]. Qed.

Lemma requesting_same t : tm_setting (requesting t) = tm_setting t /\ tm_id (requesting t) = tm_id t /\
  tm_expire_id (requesting t) = tm_expire_id t /\ tm_use_update (requesting t) = tm_use_update t /\ tm_with_sdp (requesting t) = tm_with_sdp t.
Proof. unfold requesting. by destruct (known _). Qed.

Lemma update_req_inv m s : timer_inv s -> timer_inv (pjsip_timer_update_req m s).2.
Proof.
  intros H. destruct (has_option (s_options s) PJSIP_INV_SUPPORT_TIMER) eqn:E; [|unfold pjsip_timer_update_req; by rewrite E].
  rewrite update_req_eq by done. apply timer_of_ok in H as (H1 & [H2 H3] & H4). unfold timer_inv. cbn.
  rewrite requesting_refresher. destruct (requesting_same (timer_of s)) as (-> & E2 & E3 & _).
  split; [done|]. split; [|done]. split; cbn; by rewrite ?E2, ?E3.
Qed.

(** ** Every operation keeps the invariant *)

(** What a callback runs on: an entry that has fired is out of the heap and keeps its id. *)
Definition fired (is_expire : bool) (s : tm_sess) : Prop :=
  exists t, s_timer s = Some t /\ setting_ok (tm_setting t) /\
  (if is_expire then tm_expire_id t = REFRESHER_EXPIRE_TIMER_ID /\ s_expire_at s = None /\ tm_id t = armed 1 (s_refresh_at s) /\ as_refresher t = true
   else s_refresh_at s = None /\ (tm_id t = 0 \/ tm_id t = 1) /\ tm_expire_id t = armed REFRESHER_EXPIRE_TIMER_ID (s_expire_at s) /\
        (s_expire_at s = None \/ as_refresher t = true)).

Lemma tdata_inv td s : timer_inv s -> s_timer s <> None -> timer_inv (set_s_timer (set_tm_tdata td (timer_of s)) s).
Proof. unfold timer_inv, timer_of. by destruct (s_timer s) as [[ac st r id uu ws ro tda ei]|]. Qed.

Lemma log_inv e s : timer_inv s -> timer_inv (tm_log e s).
Proof. done. Qed.

Lemma make_refresh_inv by_update supported env s : timer_inv s -> s_timer s <> None ->
  let r := make_refresh by_update supported env s in timer_inv r.2 /\ s_timer r.2 <> None.
Proof.
  intros H Hn. unfold make_refresh. destruct (negb _); [done|]. destruct (pjsip_timer_update_req _ s) as [m s'] eqn:E.
  pose proof (update_req_inv (refresh_msg by_update supported) s H) as K. rewrite E in K. cbn in K.
  assert (s_timer s' <> None) as Hs.
  { unfold pjsip_timer_update_req in E. by destruct (negb (has_option _ _)); injection E as _ <-. }
  destruct by_update; cbn; by split.
Qed.

(** The session ends because its timer has fired. *)
Lemma ended_by_timer env s : timer_inv s -> s_timer s <> None ->
  let s2 := end_session PJSIP_SC_REQUEST_TIMEOUT env s in
  exists s', match ev_td env with
             | Some td => if ev_end env =? PJ_SUCCESS then Some (set_s_timer (set_tm_tdata (Some td) (timer_of s2)) s2) else Some s2
             | None => Some s2
             end = Some s' /\ timer_inv s'.
Proof.
  intros K Hn s2. assert (timer_inv s2) as K2 by by apply ended_inv. assert (s_timer s2 <> None) as Hn2.
  { unfold s2, end_session, pjsip_timer_end_session. destruct (s_timer s) as [t|] eqn:E; [|done]. clear K K2.
    destruct (s_established s), (ev_end env =? PJ_SUCCESS); cbn; rewrite ?E; try done; unfold stop_timer; cbn; by repeat destruct (negb _). }
  destruct (ev_td env); [destruct (ev_end env =? _)|]; eexists; (split; [reflexivity|]); by try apply tdata_inv.
Qed.

Lemma timer_cb_inv supported env is_expire s : fired is_expire s ->
  exists s', timer_cb supported env is_expire s = Some s' /\ timer_inv s'.
Proof.
  intros (t & E & Hs & H). unfold timer_cb. rewrite E. destruct is_expire.
  - destruct H as (H1 & H2 & H3 & H4). rewrite H4, H1. cbn [negb andb Z.eqb].
    set (s1 := set_s_timer (set_tm_expire_id 0 t) s). assert (timer_inv s1) as K1.
    { unfold timer_inv, s1. cbn. split; [done|]. split; [|by left]. split; cbn; [done|by rewrite H2]. }
    by apply ended_by_timer.
  - destruct H as (H1 & H2 & H3 & H4).
    assert ((tm_id t =? REFRESHER_EXPIRE_TIMER_ID) = false) as Hi by (destruct H2 as [-> | ->]; done). rewrite Hi. rewrite andb_true_r.
    destruct (as_refresher t) eqn:Er.
    + set (t0 := set_tm_id 0 t). destruct (_ || _).
      * eexists. split; [reflexivity|]. rewrite H1. unfold timer_inv. cbn. split; [done|]. split; [by split|by right].
      * set (s1 := set_s_timer t0 s). assert (timer_inv s1) as K1.
        { unfold timer_inv, s1. cbn. split; [done|]. split; [|by right]. split; cbn; [by rewrite H1|done]. }
        destruct (make_refresh_inv (tm_use_update t0) supported env s1 K1) as [K2 Hn]; [done|].
        destruct (make_refresh _ _ _ s1) as [[st m] s2]. cbn in K2, Hn. destruct m as [m|]; [destruct (st =? _)|].
        -- eexists. split; [reflexivity|]. destruct (ev_send env =? _); [apply log_inv|]; by apply tdata_inv.
        -- by exists s2.
        -- by exists s2.
    + set (s1 := set_s_timer (set_tm_id 0 t) s). assert (timer_inv s1) as K1.
      { unfold timer_inv, s1. cbn. split; [done|]. split; [|by destruct H4; [left|]]. split; cbn; [by rewrite H1|done]. }
      by apply ended_by_timer.
Qed.

Lemma accept_interval_ok se st : setting_ok st -> setting_ok (accept_interval se st).
Proof.
  unfold setting_ok, accept_interval. intros H. destruct se as [[v r]|]; [|done].
  repeat (match goal with |- context [?a <? ?b] => destruct (Z.ltb_spec a b) | |- context [?a <=? ?b] => destruct (Z.leb_spec a b) end;
    cbn [andb min_se sess_expires]); lia.
Qed.

(** A 2xx starts the timers. *)
Lemma accept_resp_eq se s : timer_inv s ->
  accept_resp se s = Some (started (set_tm_active true (set_tm_refresher (resp_refresher se) PJSIP_ROLE_UAC
    (set_tm_setting (accept_interval se (tm_setting (timer_of s))) (timer_of s))))
    (set_s_timer (set_tm_active true (set_tm_refresher (resp_refresher se) PJSIP_ROLE_UAC
    (set_tm_setting (accept_interval se (tm_setting (timer_of s))) (timer_of s)))) s)).
Proof. intros H. apply timer_of_ok in H as (_ & [H2 H3] & _). unfold accept_resp. apply start_timer_eq; [done|by split]. Qed.

Lemma accept_resp_inv se s : timer_inv s -> exists s', accept_resp se s = Some s' /\ timer_inv s'.
Proof.
  intros H. eexists. split; [by apply accept_resp_eq|]. apply started_inv. cbn. apply accept_interval_ok. by apply timer_of_ok in H as [? _].
Qed.

Lemma retry_invite_inv m s s' : timer_inv s -> retry_invite m s = Some s' -> timer_inv s'.
Proof.
  unfold retry_invite, timer_inv. destruct (m_min_se m) as [|v l]; [done|]. destruct (s_timer s) as [t|]; [|done].
  destruct (s_invite_req s); [|done]. intros ([H1 H2] & H3 & H4) [= <-]. cbn. split; [|by split]. unfold setting_ok. cbn.
  destruct (Z.ltb_spec (sess_expires (tm_setting t)) (Z.max v (min_se (tm_setting t)))); lia.
Qed.

(** A response answers a request, which has made the structure; a 422 answers the INVITE. *)
Definition resp_ok (m : tm_msg) (s : tm_sess) : Prop :=
  s_timer s <> None /\ (msg_status (m_line m) = PJSIP_SC_SESSION_TIMER_TOO_SMALL -> s_invite_req s <> None).

Lemma process_resp_inv supported env m s : timer_inv s -> resp_ok m s ->
  exists st code s', pjsip_timer_process_resp supported env m s = Some (st, code, s') /\ timer_inv s'.
Proof.
  intros H [Hn Hr]. unfold pjsip_timer_process_resp. destruct (negb (has_option _ _)); [by eexists _, _, _|].
  destruct (_ && _); [by eexists _, _, _|]. destruct (Z.eqb_spec (msg_status (m_line m)) PJSIP_SC_SESSION_TIMER_TOO_SMALL) as [E|_].
  { destruct (m_min_se m) as [|v l] eqn:Em; [eexists _, _, _; split; [done|by apply end_session_inv]|].
    specialize (Hr E). destruct (retry_invite m s) as [s'|] eqn:Ei.
    - eexists _, _, _. split; [done|]. by eapply retry_invite_inv.
    - unfold retry_invite in Ei. rewrite Em in Ei. by destruct (s_timer s), (s_invite_req s). }
  destruct (_ =? 2).
  { assert (forall se, exists st code s', ((fun s => (PJ_SUCCESS, @None Z, s)) <$> accept_resp se s) = Some (st, code, s') /\ timer_inv s') as K.
    { intros se. destruct (accept_resp_inv se s H) as (s' & -> & Hs). by eexists _, _, _. }
    destruct (head (m_se m)) as [p|]; [apply K|]. destruct (has_option _ _); [eexists _, _, _; split; [done|by apply end_session_inv]|].
    destruct (negb _); [eexists _, _, _; split; [done|by apply end_session_inv]|]. apply K. }
  destruct (_ && _); [|by eexists _, _, _]. destruct (s_timer s) as [t|] eqn:E; [|done].
  destruct (tm_id t =? 0) eqn:Ei; cbn [andb]; [|by eexists _, _, _]. destruct (_ && _); [|by eexists _, _, _].
  apply Z.eqb_eq in Ei. unfold timer_inv in H. rewrite E in H. destruct H as (H1 & [H2 H3] & H4). rewrite Ei in H2.
  destruct (timer_cb_inv supported env false (set_s_timer (set_tm_update (tm_use_update t) true t) s)) as (s' & -> & Hs); [|by eexists _, _, _].
  eexists. split; [done|]. split; [done|]. cbn. split; [by destruct (s_refresh_at s)|]. split; [by left|]. by split.
Qed.

(** After a request and before its response the refresher may be the other party. *)
Definition entries_ok (s : tm_sess) : Prop :=
  match s_timer s with
  | Some t => setting_ok (tm_setting t) /\ sync t s
  | None => s_refresh_at s = None /\ s_expire_at s = None
  end.

Lemma timer_inv_entries s : timer_inv s <-> entries_ok s /\ (s_expire_at s = None \/ as_refresher (timer_of s) = true).
Proof. unfold timer_inv, entries_ok, timer_of. destruct (s_timer s); tauto. Qed.

Definition min_interval (m : tm_msg) (st : pjsip_timer_setting) : Z :=
  match head (m_min_se m) with Some v => Z.max v (min_se st) | None => min_se st end.

Lemma process_req_entries m s : timer_inv s -> entries_ok (pjsip_timer_process_req m s).2.
Proof.
  intros H. pose proof (proj1 (timer_inv_entries s) H) as [He _]. unfold pjsip_timer_process_req.
  destruct (negb (has_option _ _)); [done|]. destruct (_ && _); [done|].
  destruct (_ && _); [by apply end_session_inv, timer_inv_entries in H as [? _]|]. pose proof (timer_of_ok s H) as (H1 & [H2 H3] & _).
  cbn zeta. change (match head (m_min_se m) with Some v => Z.max v (min_se (tm_setting (timer_of s))) | None => min_se (tm_setting (timer_of s)) end)
    with (min_interval m (tm_setting (timer_of s))).
  assert (min_se (tm_setting (timer_of s)) <= min_interval m (tm_setting (timer_of s))) by (unfold min_interval; destruct (head (m_min_se m)); lia).
  destruct H1 as [H11 H12]. destruct (head (m_se m)) as [[v r]|]; [destruct (Z.ltb_spec v (min_interval m (tm_setting (timer_of s))))|];
    unfold entries_ok; cbn; (split; [unfold setting_ok; cbn|by split]); [lia|lia|]. by destruct (Z.ltb_spec (sess_expires (tm_setting (timer_of s)))
      (min_interval m (tm_setting (timer_of s)))); lia.
Qed.

Lemma update_resp_inv m s : entries_ok s -> s_timer s <> None \/ msg_status (m_line m) <> PJSIP_SC_SESSION_TIMER_TOO_SMALL ->
  exists m' s', pjsip_timer_update_resp m s = Some (m', s') /\ entries_ok s' /\ (timer_inv s -> timer_inv s') /\
    (has_option (s_options s) PJSIP_INV_SUPPORT_TIMER = true -> Z.quot (msg_status (m_line m)) 100 = 2 -> tm_active (timer_of s) = true ->
     timer_inv s').
Proof.
  intros H Hn. unfold pjsip_timer_update_resp. destruct (has_option (s_options s) _) eqn:Eo; cbn [negb]; [|by eexists _, _].
  destruct (Z.eqb_spec (Z.quot (msg_status (m_line m)) 100) 2) as [E2|E2].
  - unfold entries_ok in H. unfold timer_of. destruct (s_timer s) as [t|] eqn:E; [|eexists _, _; split; [reflexivity|]; unfold entries_ok; rewrite E; done].
    destruct (tm_active t); [|eexists _, _; split; [reflexivity|]; unfold entries_ok; rewrite E; done]. destruct H as [H1 H2].
    rewrite (start_timer_eq t s E H2). cbn. eexists _, _. split; [reflexivity|]. pose proof (started_inv t s H1) as K.
    split; [by apply timer_inv_entries in K as [? _]|done].
  - destruct (Z.eqb_spec (msg_status (m_line m)) PJSIP_SC_SESSION_TIMER_TOO_SMALL) as [E|]; [|by eexists _, _].
    destruct (s_timer s) eqn:Et; [by eexists _, _|]. by destruct Hn.
Qed.

Lemma refresh_error_inv env is_tsx last_tx st_code s : timer_inv s ->
  timer_inv (pjsip_timer_handle_refresh_error env is_tsx last_tx st_code s).2.
Proof.
  intros H. unfold pjsip_timer_handle_refresh_error. destruct (negb _); [done|]. destruct (s_timer s) as [t|] eqn:E; [|done].
  destruct (tm_active t && as_refresher t && is_tsx && bool_decide (tm_refresh_tdata t = last_tx)); [|done].
  destruct ((st_code =? _) && _); cbn [snd]; [|by apply ended_inv].
  unfold timer_inv in *. rewrite E in H. destruct H as (H1 & [H2 H3] & H4). cbn. split; [done|].
  split; [split; cbn; [by destruct (s_refresh_at s)|done]|exact H4].
Qed.

(** ** What happens to a session *)

Inductive tm_event :=
  | Ev_session (n : pjmedia_sdp_neg_state) (invite_tsx remote_update established : bool)
  | Ev_time (now : Z)
  | Ev_fire (env : tm_env) (is_expire : bool)
  | Ev_sends (m : tm_msg)
  | Ev_saves (m : tm_msg)                    (* inv->invite_req *)
  | Ev_response (env : tm_env) (m : tm_msg)
  | Ev_request (m : tm_msg)
  | Ev_sends_response (rsp : tm_msg)
  | Ev_answer (m rsp : tm_msg)               (* a request and its 2xx at once *)
  | Ev_error (env : tm_env) (is_tsx_event : bool) (last_tx : option Z) (st_code : Z)
  | Ev_end.

Definition set_session n tsx upd est (s : tm_sess) : tm_sess := mk_tm_sess (s_options s) (s_timer s) n tsx upd est
  (s_invite_req s) (s_now s) (s_refresh_at s) (s_expire_at s) (s_log s).

Definition tm_step (supported : option (list (list Z))) (e : tm_event) (s : tm_sess) : option tm_sess :=
  match e with
  | Ev_session n tsx upd est => Some (set_session n tsx upd est s)
  | Ev_time now => Some (set_s_now now s)
  | Ev_fire env is_expire => fire supported env is_expire s
  | Ev_sends m => Some (pjsip_timer_update_req m s).2
  | Ev_saves m => Some (set_s_req m s)
  | Ev_response env m => snd <$> pjsip_timer_process_resp supported env m s
  | Ev_request m => Some (pjsip_timer_process_req m s).2
  | Ev_sends_response rsp => snd <$> pjsip_timer_update_resp rsp s
  | Ev_answer m rsp =>
      let '(st, _, s') := pjsip_timer_process_req m s in
      if st =? PJ_SUCCESS then snd <$> pjsip_timer_update_resp rsp s' else Some s'
  | Ev_error env is_tsx last_tx code => Some (pjsip_timer_handle_refresh_error env is_tsx last_tx code s).2
  | Ev_end => Some (pjsip_timer_end_session s)
  end.

(** A request that is accepted takes the refresh over when it names its sender as the
    refresher while the expiry entry of this party, the refresher so far, runs. *)
Definition takes_over (m : tm_msg) (s : tm_sess) : Prop :=
  s_expire_at s <> None /\ param_is (head (m_se m)) STR_UAC = true /\ (pjsip_timer_process_req m s).1.1 = PJ_SUCCESS.

(** An entry fires when it is in the heap and due.  A request that takes the refresh over
    is answered by its 2xx at once ([Ev_answer]): the code changes the refresher before it
    knows the answer, and the entries only with it. *)
Definition event_ok (e : tm_event) (s : tm_sess) : Prop :=
  match e with
  | Ev_fire _ is_expire => exists a, (if is_expire then s_expire_at s else s_refresh_at s) = Some a /\ a <= s_now s
  | Ev_response _ m => resp_ok m s
  | Ev_request m => ~ takes_over m s
  | Ev_sends_response rsp => s_timer s <> None \/ msg_status (m_line rsp) <> PJSIP_SC_SESSION_TIMER_TOO_SMALL
  | Ev_answer _ rsp => Z.quot (msg_status (m_line rsp)) 100 = 2
  | _ => True
  end.

Lemma fire_inv supported env (is_expire : bool) s a : timer_inv s -> (if is_expire then s_expire_at s else s_refresh_at s) = Some a ->
  exists s', fire supported env is_expire s = Some s' /\ timer_inv s'.
Proof.
  intros H E. apply timer_cb_inv. unfold timer_inv in H. unfold fired. destruct is_expire; cbn.
  - destruct (s_timer s) as [t|]; [|destruct H; congruence]. destruct H as (H1 & [H2 H3] & [H4|H4]); [congruence|].
    exists t. rewrite E in H3. by split.
  - destruct (s_timer s) as [t|]; [|destruct H; congruence]. destruct H as (H1 & [H2 H3] & H4). rewrite E in H2.
    exists t. split; [done|]. split; [done|]. split; [done|]. split; [by right|]. by split.
Qed.

Lemma process_req_cases m s : timer_inv s -> let s' := (pjsip_timer_process_req m s).2 in
  timer_inv s' \/ (pjsip_timer_process_req m s).1.1 = PJ_SUCCESS /\ has_option (s_options s') PJSIP_INV_SUPPORT_TIMER = true /\ tm_active (timer_of s') = true.
Proof.
  intros H. unfold pjsip_timer_process_req. destruct (has_option (s_options s) _) eqn:Eo; cbn [negb]; [|by left].
  destruct (_ && _); [by left|]. destruct (_ && _); [left; by apply end_session_inv|]. cbn zeta.
  destruct (match head (m_se m) with Some _ => _ | None => false end); [left|by right].
  apply timer_of_ok in H as (H1 & H2 & H3). unfold timer_inv. cbn. by split.
Qed.

(** A request that does not take the refresh over keeps the refresher at its expiry entry. *)
Lemma process_req_keeps m s : timer_inv s -> ~ takes_over m s -> timer_inv (pjsip_timer_process_req m s).2.
Proof.
  intros H Hn. apply timer_inv_entries. split; [by apply process_req_entries|].
  pose proof (proj1 (timer_inv_entries s) H) as [_ Hr]. revert Hn. unfold takes_over, pjsip_timer_process_req.
  destruct (has_option (s_options s) _); cbn [negb]; [|done]. destruct (_ && _); [done|].
  destruct (_ && _); [intros _; by apply end_session_inv, timer_inv_entries in H as [_ ?]|]. cbn zeta.
  destruct (match head (m_se m) with Some _ => _ | None => false end); cbn; [done|].
  intros Hn. destruct Hr as [Hr|Hr]; [by left|]. destruct (s_expire_at s) as [a|] eqn:Ea; [right|by left].
  unfold req_refresher. destruct (param_is (head (m_se m)) STR_UAC) eqn:Ep; [destruct Hn; split_and!; first [done|exact Ep]|].
  destruct (param_is (head (m_se m)) STR_UAS); [done|].
  change (tm_refresher (set_tm_setting _ _)) with (tm_refresher (timer_of s)).
  change (as_refresher (set_tm_setting _ _)) with (as_refresher (timer_of s)).
  rewrite Hr. destruct (tm_refresher (timer_of s)) eqn:E; [|done..].
  unfold as_refresher in Hr. rewrite E in Hr. by destruct (tm_role _).
Qed.

Lemma step_inv supported e s : timer_inv s -> event_ok e s -> exists s', tm_step supported e s = Some s' /\ timer_inv s'.
Proof.
  intros H He. destruct e; cbn in He |- *; try (eexists; split; [reflexivity|exact H]).
  - destruct He as (a & Ha & _). by eapply fire_inv.
  - eexists. split; [reflexivity|by apply update_req_inv].
  - destruct (process_resp_inv supported env m s H He) as (st & code & s' & -> & Hs). by exists s'.
  - eexists. split; [reflexivity|by apply process_req_keeps].
  - destruct (update_resp_inv rsp s) as (m' & s' & -> & _ & Hs & _); [by apply timer_inv_entries in H as [? _]|done|]. exists s'. by split; [|apply Hs].
  - pose proof (process_req_entries m s H) as K. pose proof (process_req_cases m s H) as C.
    destruct (pjsip_timer_process_req m s) as [[st code] s1] eqn:E. cbn in K, C. destruct (Z.eqb_spec st PJ_SUCCESS) as [->|Hst].
    + destruct (update_resp_inv rsp s1 K) as (m' & s' & -> & _ & Hs1 & Hs2); [right; intros E'; by rewrite E' in He|]. exists s'.
      split; [done|]. destruct C as [C|(_ & C1 & C2)]; [by apply Hs1|by apply Hs2].
    + exists s1. split; [done|]. by destruct C as [C|[C _]].
  - eexists. split; [reflexivity|by apply refresh_error_inv].
  - eexists. split; [reflexivity|by apply end_session_inv].
Qed.

Inductive tm_reachable (supported : option (list (list Z))) : tm_sess -> Prop :=
  | Tm_init s setting : s_timer s = None -> s_refresh_at s = None -> s_expire_at s = None ->
      (pjsip_timer_init_session setting s).1 = PJ_SUCCESS -> tm_reachable supported (pjsip_timer_init_session setting s).2
  | Tm_step s e s' : tm_reachable supported s -> event_ok e s -> tm_step supported e s = Some s' -> tm_reachable supported s'.

Lemma init_inv setting s : s_refresh_at s = None -> s_expire_at s = None ->
  (pjsip_timer_init_session setting s).1 = PJ_SUCCESS -> timer_inv (pjsip_timer_init_session setting s).2.
Proof.
  intros H1 H2. unfold pjsip_timer_init_session. destruct setting as [st|].
  - destruct (Z.ltb_spec (min_se st) ABS_MIN_SE); [done|]. destruct (Z.ltb_spec (sess_expires st) (min_se st)); [done|]. intros _.
    unfold timer_inv. cbn. split; [by split|]. split; [split; cbn; by rewrite ?H1, ?H2|by left].
  - intros _. unfold timer_inv. cbn. split; [done|]. split; [split; cbn; by rewrite ?H1, ?H2|by left].
Qed.

Lemma tm_reachable_inv supported s : tm_reachable supported s -> timer_inv s.
Proof.
  induction 1 as [s setting _ H1 H2 H3|s e s' _ IH He E]; [by apply init_inv|].
  destruct (step_inv supported e s IH He) as (s1 & E1 & H1). congruence.
Qed.

(** C11: In every state that is reached the interval is at least 90 seconds and the minimum, an
    entry is in the heap exactly when it has an id, the expiry of a refresh runs only at the
    refresher; and what happens ([event_ok]) is handled, no entry being initialised in the heap.
    The conditions: entries fire when they are in the heap and due; a response that is received
    finds the timer its request made, and a 422 the INVITE it answers; a 422 that is sent finds
    the timer; and a request that takes the refresh over
    from this party while its expiry entry runs is accepted by a 2xx at once.  When such a
    request is refused, or answered later, the expiry entry runs at a party that is no longer
    the refresher: [refused_request_ends_session] below. *)
Theorem session_timers_safe supported s : tm_reachable supported s ->
  (forall t, s_timer s = Some t -> ABS_MIN_SE <= min_se (tm_setting t) <= sess_expires (tm_setting t) /\
     (tm_id t <> 0 <-> s_refresh_at s <> None) /\ (tm_expire_id t <> 0 <-> s_expire_at s <> None) /\
     (s_expire_at s <> None -> as_refresher t = true)) /\
  (forall e, event_ok e s -> exists s', tm_step supported e s = Some s' /\ tm_reachable supported s').
Proof.
  intros H. pose proof (tm_reachable_inv supported s H) as K. split.
  - intros t E. unfold timer_inv in K. rewrite E in K. destruct K as (K1 & [-> ->] & K3). split; [exact K1|].
    destruct (s_refresh_at s), (s_expire_at s); cbn; repeat split; try done; by destruct K3.
  - intros e He. destruct (step_inv supported e s K He) as (s' & E & _). exists s'. split; [done|]. by eapply Tm_step.
Qed.

(** ** An exchange of a request and its response *)

(** The timers of a party, from the time [since] on *)
Definition runs_as (refresher : bool) (se since : Z) (s : tm_sess) : Prop :=
  exists t, s_timer s = Some t /\ tm_active t = true /\ as_refresher t = refresher /\ known (tm_refresher t) = true /\
  setting_ok (tm_setting t) /\ sess_expires (tm_setting t) = se /\ sync t s /\
  s_refresh_at s = Some (since + if refresher then se / 2 else Z.max (se - 32) (se - se / 3)) /\
  s_expire_at s = if refresher then Some (since + se) else None.

Lemma started_runs t s : setting_ok (tm_setting t) -> tm_active t = true -> known (tm_refresher t) = true ->
  runs_as (as_refresher t) (sess_expires (tm_setting t)) (s_now s) (started t s).
Proof.
  destruct t as [ac st r id uu ws ro td ei], s as [o tm n ts ru es iq nw ra ea lg]. unfold started, runs_as.
  destruct (as_refresher _) eqn:Er; unfold as_refresher in *; cbn in *; intros H1 H2 H3;
    (eexists; split; [reflexivity|]; split; [done|]; split; [exact Er|]; split; [done|]; split; [exact H1|]; by repeat split).
Qed.

(** The refresh comes before the other party gives up. *)
Lemma refresh_in_time se : ABS_MIN_SE <= se -> 0 < se / 2 < Z.max (se - 32) (se - se / 3).
Proof. unfold ABS_MIN_SE. intros H. assert (se - se / 3 <= Z.max (se - 32) (se - se / 3)) by lia. Z.to_euclidean_division_equations. lia. Qed.

Lemma stricmp_eqb a b : (pj_stricmp a b =? 0) = bool_decide (map Hash.pj_tolower a = map Hash.pj_tolower b).
Proof. destruct (Z.eqb_spec (pj_stricmp a b) 0) as [E|E]; rewrite pj_stricmp_0 in E; symmetry; [by apply bool_decide_true|by apply bool_decide_false]. Qed.

Lemma param_uac v r : param_is (Some (v, refresher_param r)) STR_UAC = bool_decide (r = TR_UAC).
Proof. unfold param_is. rewrite stricmp_eqb. by destruct r. Qed.
Lemma param_uas v r : param_is (Some (v, refresher_param r)) STR_UAS = bool_decide (r = TR_UAS).
Proof. unfold param_is. rewrite stricmp_eqb. by destruct r. Qed.

Definition supports (s : tm_sess) : Prop := has_option (s_options s) PJSIP_INV_SUPPORT_TIMER = true.
Definition timed (r : pjsip_method) : Prop := is_invite r || is_update r = true.

(** A message of the party with timer [t] *)
Record carries (r : pjsip_method) (t : pjsip_timer) (m : tm_msg) : Prop := {
  ca_line : m_line m = Req r;
  ca_method : m_cseq_method m = r;
  ca_se : m_se m = [(sess_expires (tm_setting t), refresher_param (tm_refresher t))];
  ca_min : m_min_se m = [min_se (tm_setting t)]
}.

Definition same (s s' : tm_sess) : Prop := s_options s' = s_options s /\ s_neg s' = s_neg s /\ s_invite_tsx s' = s_invite_tsx s /\
  s_now s' = s_now s /\ s_log s' = s_log s.

Lemma started_same t s : same s (started t s).
Proof. unfold started. by destruct (as_refresher t). Qed.

(** The timer of the callee after a request of the caller [t] *)
Definition requested (m : tm_msg) (t tb : pjsip_timer) : pjsip_timer :=
  let tb := set_tm_setting (mk_setting (min_se (tm_setting tb)) (sess_expires (tm_setting t))) tb in
  set_tm_active true (set_tm_refresher (req_refresher (head (m_se m)) m tb) PJSIP_ROLE_UAS tb).

Lemma process_req_eq r t m b : setting_ok (tm_setting t) -> supports b -> timed r -> carries r t m ->
  pjsip_timer_process_req m b =
  if sess_expires (tm_setting t) <? min_se (tm_setting (timer_of b)) then
    (PJSIP_ERRNO_FROM_SIP_STATUS PJSIP_SC_SESSION_TIMER_TOO_SMALL, Some PJSIP_SC_SESSION_TIMER_TOO_SMALL, set_s_timer (timer_of b) b)
  else (PJ_SUCCESS, None, set_s_timer (requested m t (timer_of b)) b).
Proof.
  intros [_ H1] H2 H3 []. unfold pjsip_timer_process_req, requested. rewrite H2, ca_line0, ca_method0, ca_se0, ca_min0. cbn [negb head andb].
  rewrite <- negb_orb. unfold timed in H3. rewrite H3. cbn [negb].
  destruct (Z.ltb_spec (sess_expires (tm_setting t)) (Z.max (min_se (tm_setting t)) (min_se (tm_setting (timer_of b)))));
    destruct (Z.ltb_spec (sess_expires (tm_setting t)) (min_se (tm_setting (timer_of b)))); done || lia.
Qed.

Lemma req_refresher_known v r m tb : known (req_refresher (Some (v, refresher_param r)) m tb) = true /\
  (known r = true -> req_refresher (Some (v, refresher_param r)) m tb = r).
Proof.
  unfold req_refresher. rewrite param_uac, param_uas. destruct r; cbn; [|by split..].
  split; [|done]. destruct (tm_refresher tb); [destruct (_ && _)|destruct (as_refresher tb)..]; done.
Qed.

(** The response to a message, before its headers *)
Definition response_to (m : tm_msg) (code : Z) : tm_msg := mk_tm_msg (Rsp code) (m_cseq_method m) [] [] None None.

(** The callee handles the request [m] and answers it, and the caller handles the answer. *)
Definition exchange supported (env : tm_env) (m : tm_msg) (code : Z) (a b : tm_sess) : option (tm_sess * tm_sess) :=
  let '(st, _, b1) := pjsip_timer_process_req m b in
  if negb (st =? PJ_SUCCESS) then None
  else
    match pjsip_timer_update_resp (response_to m code) b1 with
    | Some (rsp, b2) =>
        match pjsip_timer_process_resp supported env rsp a with Some (_, _, a2) => Some (a2, b2) | None => None end
    | None => None
    end.

Lemma require_timer_se m : m_se (require_timer m) = m_se m /\ m_line (require_timer m) = m_line m /\
  m_cseq_method (require_timer m) = m_cseq_method m.
Proof. unfold require_timer. destruct (m_require m); [|done]. by destruct (existsb _ _). Qed.

(** What the 2xx of the callee with timer [t] says *)
Lemma update_resp_eq m code t b : supports b -> s_timer b = Some t -> sync t b -> tm_active t = true -> Z.quot code 100 = 2 ->
  exists rsp, pjsip_timer_update_resp (response_to m code) b = Some (rsp, started t b) /\ m_line rsp = Rsp code /\
    m_cseq_method rsp = m_cseq_method m /\ m_se rsp = [(sess_expires (tm_setting t), refresher_param (tm_refresher t))].
Proof.
  intros H1 H2 H3 H4 H5. unfold pjsip_timer_update_resp. rewrite H1. cbn [negb response_to m_line msg_status].
  rewrite H5, H2, H4, (start_timer_eq t b H2 H3). cbn [Z.eqb Pos.eqb fmap option_fmap option_map]. eexists. split; [reflexivity|].
  destruct (bool_decide (tm_refresher t = TR_UAC)); [|done].
  by destruct (require_timer_se (add_timer_headers t true false (response_to m code))) as (-> & -> & ->).
Qed.

Lemma process_resp_eq supported env rsp code r v ref a : supports a -> timer_inv a -> timed r -> Z.quot code 100 = 2 ->
  m_line rsp = Rsp code -> m_cseq_method rsp = r -> m_se rsp = [(v, refresher_param ref)] -> known ref = true ->
  v = sess_expires (tm_setting (timer_of a)) ->
  exists t, pjsip_timer_process_resp supported env rsp a = Some (PJ_SUCCESS, None, started t (set_s_timer t a)) /\
    setting_ok (tm_setting t) /\ sess_expires (tm_setting t) = v /\ tm_active t = true /\ tm_refresher t = ref /\ tm_role t = PJSIP_ROLE_UAC.
Proof.
  intros H1 H2 H3 H4 H5 H6 H7 H8 ->. unfold pjsip_timer_process_resp. rewrite H1, H5, H6, H7. cbn [negb msg_status head].
  rewrite <- negb_orb. unfold timed in H3. rewrite H3. cbn [negb].
  destruct (Z.eqb_spec code PJSIP_SC_SESSION_TIMER_TOO_SMALL) as [->|_]; [done|]. rewrite H4. cbn [Z.eqb Pos.eqb].
  rewrite accept_resp_eq by done. cbn [fmap option_fmap option_map].
  apply timer_of_ok in H2 as (K & _). pose proof (accept_interval_ok (Some (sess_expires (tm_setting (timer_of a)), refresher_param ref)) _ K) as K2.
  eexists. split; [reflexivity|]. cbn. split; [exact K2|]. split; [|split; [done|split; [|done]]].
  - destruct K as [K3 K4]. cbn. destruct (Z.ltb_spec (sess_expires (tm_setting (timer_of a))) (min_se (tm_setting (timer_of a)))); [lia|]. cbn.
    by rewrite Z.leb_refl, (proj2 (Z.leb_le _ _) K4).
  - unfold resp_refresher. rewrite param_uac, param_uas. by destruct ref.
Qed.

Lemma exchange_core supported env r m code a b : supports a -> supports b -> timer_inv a -> timer_inv b -> s_timer a <> None ->
  timed r -> carries r (timer_of a) m -> Z.quot code 100 = 2 ->
  min_se (tm_setting (timer_of b)) <= sess_expires (tm_setting (timer_of a)) ->
  exists a2 b2 ref, exchange supported env m code a b = Some (a2, b2) /\ known ref = true /\
    (known (tm_refresher (timer_of a)) = true -> ref = tm_refresher (timer_of a)) /\
    runs_as (bool_decide (ref = TR_UAC)) (sess_expires (tm_setting (timer_of a))) (s_now a) a2 /\
    runs_as (bool_decide (ref = TR_UAS)) (sess_expires (tm_setting (timer_of a))) (s_now b) b2 /\ same a a2 /\ same b b2.
Proof.
  intros Ha Hb Ia Ib Hn Hr Hc H2 Hm. pose proof (timer_of_ok a Ia) as (Ka & _). pose proof (timer_of_ok b Ib) as ([Kb _] & Sb & _).
  unfold exchange. rewrite (process_req_eq r (timer_of a) m b Ka Hb Hr Hc), (proj2 (Z.ltb_ge _ _) Hm). cbn [Z.eqb PJ_SUCCESS negb].
  set (tb := requested m (timer_of a) (timer_of b)). pose proof Hc as [_ Hcm Hse _].
  destruct (update_resp_eq m code tb (set_s_timer tb b)) as (rsp & -> & E1 & E2 & E3); [done..|].
  pose proof (req_refresher_known (sess_expires (tm_setting (timer_of a))) (tm_refresher (timer_of a)) m
    (set_tm_setting (mk_setting (min_se (tm_setting (timer_of b))) (sess_expires (tm_setting (timer_of a)))) (timer_of b))) as [K1 K2].
  assert (tm_refresher tb = req_refresher (Some (sess_expires (tm_setting (timer_of a)), refresher_param (tm_refresher (timer_of a)))) m
    (set_tm_setting (mk_setting (min_se (tm_setting (timer_of b))) (sess_expires (tm_setting (timer_of a)))) (timer_of b))) as Er
    by (unfold tb, requested; cbn; by rewrite Hse).
  rewrite <- Er in K1, K2.
  destruct (process_resp_eq supported env rsp code r (sess_expires (tm_setting tb)) (tm_refresher tb) a) as (t & -> & T1 & T2 & T3 & T4 & T5);
    try done; [by rewrite E2|].
  eexists _, _, (tm_refresher tb). split; [reflexivity|]. split; [done|]. split; [done|].
  pose proof (started_runs t (set_s_timer t a) T1 T3) as R1. rewrite T4, T2 in R1. specialize (R1 K1).
  pose proof (started_runs tb (set_s_timer tb b)) as R2. specialize (R2 (conj Kb Hm) eq_refl K1).
  assert (as_refresher t = bool_decide (tm_refresher tb = TR_UAC)) as A1.
  { unfold as_refresher. rewrite T4, T5. by destruct (tm_refresher tb). }
  assert (as_refresher tb = bool_decide (tm_refresher tb = TR_UAS)) as A2.
  { unfold as_refresher. change (tm_role tb) with PJSIP_ROLE_UAS. by destruct (tm_refresher tb). }
  rewrite A1 in R1. rewrite A2 in R2. split; [exact R1|]. split; [exact R2|]. split; [apply (started_same t (set_s_timer t a))|apply (started_same tb (set_s_timer tb b))].
Qed.

Record fresh_request (r : pjsip_method) (m : tm_msg) : Prop := {
  fr_line : m_line m = Req r; fr_method : m_cseq_method m = r; fr_se : m_se m = []; fr_min : m_min_se m = []
}.

Lemma request_carries r req s : supports s -> fresh_request r req ->
  let p := pjsip_timer_update_req req s in carries r (timer_of p.2) p.1 /\ s_timer p.2 <> None /\ same s p.2 /\
  tm_setting (timer_of p.2) = tm_setting (timer_of s).
Proof.
  intros H []. rewrite update_req_eq by done. cbn zeta. cbn [fst snd timer_of s_timer set_s_timer].
  split; [|split; [done|split; [done|by destruct (requesting_same (timer_of s)) as (-> & _)]]].
  split; cbn; [done|done|by rewrite fr_se0|by rewrite fr_min0].
Qed.

Lemma same_supports s s' : same s s' -> supports s -> supports s'.
Proof. intros (E & _) H. unfold supports. by rewrite E. Qed.

Lemma known_sides ref : known ref = true -> bool_decide (ref = TR_UAS) = negb (bool_decide (ref = TR_UAC)).
Proof. by destruct ref. Qed.

(** C10: A request with session timers is either refused with 422, when the minimum of the callee
    is above the interval of the caller, or its 2xx makes both parties use this interval, and
    exactly one of them is the refresher: it refreshes before the other one gives up. *)
Theorem exchange_agrees supported env r req m code a a1 b :
  tm_reachable supported a -> tm_reachable supported b -> supports a -> supports b -> timed r -> fresh_request r req ->
  Z.quot code 100 = 2 -> pjsip_timer_update_req req a = (m, a1) ->
  (exists a2 b2 refresher, let se := sess_expires (tm_setting (timer_of a)) in
     exchange supported env m code a1 b = Some (a2, b2) /\
     runs_as refresher se (s_now a) a2 /\ runs_as (negb refresher) se (s_now b) b2 /\
     ABS_MIN_SE <= se /\ se / 2 < Z.max (se - 32) (se - se / 3)) \/
  (sess_expires (tm_setting (timer_of a)) < min_se (tm_setting (timer_of b)) /\
   (pjsip_timer_process_req m b).1 =
     (PJSIP_ERRNO_FROM_SIP_STATUS PJSIP_SC_SESSION_TIMER_TOO_SMALL, Some PJSIP_SC_SESSION_TIMER_TOO_SMALL)).
Proof.
  intros Ra Rb Ha Hb Hr Hf H2 E. apply tm_reachable_inv in Ra, Rb. pose proof (request_carries r req a Ha Hf) as (K1 & K2 & K3 & K4).
  pose proof (update_req_inv req a Ra) as K5. rewrite E in K1, K2, K3, K4, K5. cbn [fst snd] in *. pose proof (timer_of_ok a Ra) as ([K6 K7] & _).
  destruct (Z.lt_ge_cases (sess_expires (tm_setting (timer_of a))) (min_se (tm_setting (timer_of b)))) as [Hl|Hl].
  - right. split; [done|]. rewrite (process_req_eq r (timer_of a1) m b); [|by rewrite K4; split|done..].
    by rewrite K4, (proj2 (Z.ltb_lt _ _) Hl).
  - left. destruct (exchange_core supported env r m code a1 b) as (a2 & b2 & ref & X & Kn & _ & R1 & R2 & _);
      [by eapply same_supports|done|done|done|done|done|done|done|by rewrite K4|].
    rewrite K4 in R1, R2. destruct K3 as (_ & _ & _ & Kt & _). rewrite Kt in R1.
    exists a2, b2, (bool_decide (ref = TR_UAC)). split; [exact X|]. split; [exact R1|]. split; [by rewrite <- known_sides|].
    assert (ABS_MIN_SE <= sess_expires (tm_setting (timer_of a))) by lia. split; [done|]. by apply refresh_in_time.
Qed.

(** ** Refreshes *)

(** The refresher [a] refreshes when its entry is due, unless the other party has given up
    before; the offer it may make is answered with the response. *)
Definition refresh_round supported (env : tm_env) (p : tm_sess * tm_sess) : option (tm_sess * tm_sess) :=
  match s_refresh_at p.1, s_refresh_at p.2 with
  | Some due, Some limit =>
      if limit <=? due then None
      else
        match fire supported env false (set_s_now due p.1) with
        | Some a1 =>
            match last (s_log a1) with
            | Some (E_refresh _ _ _ m) =>
                match exchange supported env m 200 a1 (set_s_now due p.2) with
                | Some (a2, b2) => Some (set_s_neg PJMEDIA_SDP_NEG_STATE_DONE false a2, b2)
                | None => None
                end
            | _ => None
            end
        | None => None
        end
  | _, _ => None
  end.

Fixpoint refresh_rounds supported (env : tm_env) (n : nat) (p : tm_sess * tm_sess) : option (tm_sess * tm_sess) :=
  match n with
  | O => Some p
  | S n' => match refresh_round supported env p with Some p' => refresh_rounds supported env n' p' | None => None end
  end.

Definition env_fine (env : tm_env) : Prop := ev_request env = PJ_SUCCESS /\ ev_offer env = PJ_SUCCESS /\ ev_send env = PJ_SUCCESS.

Lemma timed_refresh (by_update : bool) : timed (if by_update then pjsip_update_method else pjsip_invite_method).
Proof.
  unfold timed. destruct by_update; [|done]. apply orb_true_iff. right. unfold is_update, pjsip_method_cmp.
  rewrite bool_decide_true by done. apply orb_true_iff. right. by apply Z.eqb_eq, pj_strcmp_0.
Qed.

Lemma fire_refresh supported env se since a : runs_as true se since a -> supports a -> env_fine env ->
  s_neg a = PJMEDIA_SDP_NEG_STATE_DONE -> s_invite_tsx a = false ->
  exists a1 r td u o m, fire supported env false a = Some a1 /\ s_log a1 = s_log a ++ [E_refresh td u o m] /\ timed r /\
    carries r (timer_of a1) m /\ timer_inv a1 /\ s_timer a1 <> None /\ s_options a1 = s_options a /\ s_now a1 = s_now a /\
    sess_expires (tm_setting (timer_of a1)) = se /\ tm_refresher (timer_of a1) = TR_UAC.
Proof.
  intros (t & E1 & E2 & E3 & E4 & E5 & E6 & [E7 E8] & E9 & E10) Hs (G1 & G2 & G3) Hd Hi.
  unfold fire, timer_cb. cbn [set_s_refresh_at s_timer]. rewrite E1, E3, E7, E9. cbn [armed].
  change (1 =? REFRESHER_EXPIRE_TIMER_ID) with false. cbn [negb andb]. cbn [s_neg s_invite_tsx set_s_refresh_at]. rewrite Hd, Hi.
  rewrite bool_decide_true by done. cbn [negb orb]. rewrite !andb_false_r. cbn [orb].
  unfold make_refresh. rewrite G1. cbn [Z.eqb PJ_SUCCESS negb]. change (tm_use_update (set_tm_id 0 t)) with (tm_use_update t).
  rewrite update_req_eq by exact Hs. cbn [timer_of s_timer set_s_timer]. set (t1 := requesting (set_tm_id 0 t)).
  pose proof (requesting_same (set_tm_id 0 t)) as (S1 & S2 & S3 & _). fold t1 in S1, S2, S3. cbn in S1, S2, S3.
  assert (as_refresher t1 = true) as S4 by by unfold t1; rewrite requesting_refresher.
  assert (tm_refresher t1 = TR_UAC) as S5.
  { unfold t1, requesting. change (tm_refresher (set_tm_id 0 t)) with (tm_refresher t). rewrite E4.
    change (as_refresher (set_tm_id 0 t)) with (as_refresher t). by rewrite E3. }
  exists (tm_log (E_refresh (default 0 (ev_td env)) (tm_use_update t) (negb (tm_use_update t) || tm_with_sdp t)
            (add_timer_headers t1 true true (refresh_msg (tm_use_update t) supported)))
     (set_s_timer (set_tm_tdata (ev_td env) t1) (set_s_neg (ev_neg env) (ev_invite_tsx env) (set_s_refresh_at None a)))),
    (if tm_use_update t then pjsip_update_method else pjsip_invite_method). eexists _, _, _, _.
  rewrite G2, G3. split; [by destruct (tm_use_update t)|]. split; [reflexivity|]. split; [apply timed_refresh|].
  split; [by split|]. split; [|by rewrite <- E6, <- S1].
  unfold timer_inv. cbn. rewrite S1. split; [done|]. split; [|by right]. split; cbn; by rewrite ?S2, ?S3.
Qed.

Lemma runs_inv (refresher : bool) se since s : runs_as refresher se since s -> timer_inv s.
Proof.
  intros (t & E1 & _ & E3 & _ & E5 & _ & E7 & _ & E10). unfold timer_inv. rewrite E1. split; [done|]. split; [done|].
  destruct refresher; [by right|by left].
Qed.

Lemma timer_of_now n s : timer_of (set_s_now n s) = timer_of s.
Proof. done. Qed.

(** The two parties after a round at the time [since] *)
Definition in_step (se since : Z) (a b : tm_sess) : Prop :=
  runs_as true se since a /\ runs_as false se since b /\ supports a /\ supports b /\
  s_neg a = PJMEDIA_SDP_NEG_STATE_DONE /\ s_invite_tsx a = false.

Lemma round_in_step supported env se since a b : env_fine env -> in_step se since a b ->
  exists a2 b2 td u o m, refresh_round supported env (a, b) = Some (a2, b2) /\ in_step se (since + se / 2) a2 b2 /\
    s_log a2 = s_log a ++ [E_refresh td u o m] /\ s_log b2 = s_log b.
Proof.
  intros He (Ha & Hb & Sa & Sb & Hd & Hi). unfold refresh_round. cbn [fst snd].
  pose proof Ha as (ta & A1 & A2 & A3 & A4 & A5 & A6 & A7 & A8 & A9). pose proof Hb as (tb & B1 & B2 & B3 & B4 & B5 & B6 & B7 & B8 & B9).
  assert (ABS_MIN_SE <= se) as Hse by (destruct A5; lia). pose proof (refresh_in_time se Hse) as Ht.
  rewrite A8, B8. destruct (Z.leb_spec (since + Z.max (se - 32) (se - se / 3)) (since + se / 2)); [lia|].
  set (now := since + se / 2). destruct (fire_refresh supported env se since (set_s_now now a)) as
    (a1 & r & td & u & o & m & -> & F1 & F2 & F3 & F4 & F5 & F6 & F7 & F8 & F9); [exact Ha|done|done|done|done|].
  rewrite F1, last_snoc.
  destruct (exchange_core supported env r m 200 a1 (set_s_now now b)) as (a2 & b2 & ref & -> & X1 & X2 & X3 & X4 & X5 & X6);
    [unfold supports; by rewrite F6|done|done|by eapply runs_inv|done|done|done|done| |].
  { rewrite timer_of_now. unfold timer_of at 1. rewrite B1, F8. destruct B5; lia. }
  rewrite F9 in X2. rewrite (X2 eq_refl) in X3, X4. rewrite F8, F7 in X3. rewrite F8 in X4. cbn [s_now set_s_now] in X3, X4.
  exists (set_s_neg PJMEDIA_SDP_NEG_STATE_DONE false a2), b2, td, u, o, m. split; [done|].
  destruct X5 as (O1 & _ & _ & _ & L1), X6 as (O2 & _ & _ & _ & L2). split; [|cbn; by rewrite L1, L2, F1].
  split; [exact X3|]. split; [exact X4|]. unfold supports. cbn. rewrite O1, O2, F6. by repeat split.
Qed.

(** C9: Two parties that have agreed on the timers keep the session alive: any number of
    refreshes takes place, each after half of the interval and before the other party's
    timer, without either party ending the session. *)
Theorem refreshes_keep_session supported env n se since a b : env_fine env -> in_step se since a b ->
  exists a' b' refreshes, refresh_rounds supported env n (a, b) = Some (a', b') /\
    in_step se (since + Z.of_nat n * (se / 2)) a' b' /\ s_log b' = s_log b /\ s_log a' = s_log a ++ refreshes /\
    length refreshes = n /\ forall e, In e refreshes -> exists td u o m, e = E_refresh td u o m.
Proof.
  intros He. revert since a b. induction n as [|n IH]; intros since a b H.
  - exists a, b, []. rewrite Z.mul_0_l, Z.add_0_r, app_nil_r. by repeat split; try apply H.
  - destruct (round_in_step supported env se since a b He H) as (a1 & b1 & td & u & o & m & E & H1 & L1 & L2). cbn [refresh_rounds]. rewrite E.
    destruct (IH _ a1 b1 H1) as (a' & b' & l & -> & H2 & L3 & L4 & L5 & L6). exists a', b', (E_refresh td u o m :: l).
    split; [done|]. split; [by replace (since + Z.of_nat (S n) * (se / 2)) with (since + se / 2 + Z.of_nat n * (se / 2)) by lia|].
    split; [by rewrite L3|]. split; [by rewrite L4, L1, <- app_assoc|]. split; [cbn; by rewrite L5|].
    intros e [<-|He']; [by eexists _, _, _, _|by apply L6].
Qed.

(** ** Too small an interval *)

Lemma retry_invite_eq rsp v l t req s : m_min_se rsp = v :: l -> s_timer s = Some t -> s_invite_req s = Some req ->
  min_se (tm_setting t) <= v -> sess_expires (tm_setting t) < v ->
  retry_invite rsp s =
    (let t2 := set_tm_setting (mk_setting v v) t in
     let req2 := add_timer_headers t2 true true (set_m_se (tail (m_se req)) (set_m_min_se (tail (m_min_se req)) req)) in
     Some (tm_log (E_restart req2) (set_s_req req2 (set_s_timer t2 s)))).
Proof.
  intros E1 E2 E3 H1 H2. unfold retry_invite. rewrite E1, E2, E3. replace (Z.max v (min_se (tm_setting t))) with v by lia.
  by rewrite (proj2 (Z.ltb_lt _ _) H2).
Qed.

(** C12: An INVITE whose interval is below the minimum of the callee is refused with this
    minimum, sent again with it, and then accepted: both parties run the timers. *)
Theorem too_small_retried supported env req a b m a1 st code b1 :
  tm_reachable supported a -> tm_reachable supported b -> supports a -> supports b -> fresh_request pjsip_invite_method req ->
  pjsip_timer_update_req req a = (m, a1) -> pjsip_timer_process_req m b = (st, code, b1) -> st <> PJ_SUCCESS ->
  exists rsp a2 m2 a3 b3 refresher, let se := min_se (tm_setting (timer_of b)) in
    pjsip_timer_update_resp (response_to m PJSIP_SC_SESSION_TIMER_TOO_SMALL) b1 = Some (rsp, b1) /\
    pjsip_timer_process_resp supported env rsp (set_s_req m a1) = Some (PJ_SUCCESS, None, a2) /\
    s_log a2 = s_log a ++ [E_restart m2] /\
    exchange supported env m2 200 a2 b1 = Some (a3, b3) /\
    runs_as refresher se (s_now a) a3 /\ runs_as (negb refresher) se (s_now b) b3.
Proof.
  intros Ra Rb Ha Hb Hf E Ep Hst. apply tm_reachable_inv in Ra, Rb.
  pose proof (request_carries _ req a Ha Hf) as (K1 & K2 & K3 & K4). pose proof (update_req_inv req a Ra) as K5.
  rewrite E in K1, K2, K3, K4, K5. cbn [fst snd] in *. pose proof (timer_of_ok a1 K5) as ([K6 K7] & _). pose proof (timer_of_ok b Rb) as ([K8 K9] & _).
  assert (timed pjsip_invite_method) as Ht by done.
  rewrite (process_req_eq _ (timer_of a1) m b) in Ep by done. destruct (Z.ltb_spec (sess_expires (tm_setting (timer_of a1))) (min_se (tm_setting (timer_of b)))) as [Hl|];
    [|injection Ep as <- _ _; done]. injection Ep as <- <- <-. clear Hst. set (b1 := set_s_timer (timer_of b) b).
  unfold pjsip_timer_update_resp. assert (supports b1) as Hb1 by exact Hb. rewrite Hb1. cbn -[PJSIP_SC_SESSION_TIMER_TOO_SMALL Z.quot b1].
  change (Z.quot PJSIP_SC_SESSION_TIMER_TOO_SMALL 100 =? 2) with false. cbn [Z.eqb]. rewrite Z.eqb_refl. change (s_timer b1) with (Some (timer_of b)).
  destruct (s_timer a1) as [t|] eqn:Et; [|done]. assert (timer_of a1 = t) as Etm by (unfold timer_of; by rewrite Et). rewrite Etm in *.
  set (low := min_se (tm_setting (timer_of b))) in *.
  set (t2 := set_tm_setting (mk_setting low low) t).
  set (m2 := add_timer_headers t2 true true (set_m_se (tail (m_se m)) (set_m_min_se (tail (m_min_se m)) m))).
  set (a2 := tm_log (E_restart m2) (set_s_req m2 (set_s_timer t2 (set_s_req m a1)))).
  assert (carries pjsip_invite_method (timer_of a2) m2) as C2.
  { destruct K1. split; cbn; [done|done|by rewrite ca_se0|by rewrite ca_min0]. }
  assert (timer_inv a2) as I2.
  { unfold timer_inv in *. rewrite Et in K5. destruct K5 as (_ & I1 & I3). unfold a2. cbn. split; [split; cbn; lia|]. by split. }
  assert (timer_inv b1) as I3 by (apply timer_of_ok in Rb as (? & ? & ?); unfold timer_inv, b1; cbn; by split).
  destruct (exchange_core supported env pjsip_invite_method m2 200 a2 b1) as (a3 & b3 & ref & X & Kn & _ & R1 & R2 & _); try done;
    [unfold supports; cbn; destruct K3 as (-> & _); exact Ha|].
  eexists _, a2, m2, a3, b3, (bool_decide (ref = TR_UAC)). split; [reflexivity|]. split.
  - unfold pjsip_timer_process_resp. cbn [m_line m_cseq_method add_timer_headers set_m_min_se msg_status].
    destruct K1. assert (supports (set_s_req m a1)) as Hs by (unfold supports; cbn; destruct K3 as (-> & _); exact Ha). rewrite Hs.
    cbn [negb]. cbn [response_to m_cseq_method]. rewrite ca_method0. change (is_invite pjsip_invite_method) with true. cbn [negb andb].
    rewrite Z.eqb_refl, (retry_invite_eq _ low [] t m); [|done|done|done|lia|done]. done.
  - split; [destruct K3 as (_ & _ & _ & _ & El); cbn; by rewrite El|]. split; [exact X|]. rewrite <- known_sides by done.
    change (sess_expires (tm_setting (timer_of a2))) with low in R1, R2. split; [|exact R2].
    replace (s_now a) with (s_now a2); [exact R1|]. destruct K3 as (_ & _ & _ & En & _). cbn. by rewrite En.
Qed.
End Props.

(** ** Two phones *)

#[local] Existing Instance plain_strings.

Definition phone (setting : pjsip_timer_setting) : tm_sess :=
  (pjsip_timer_init_session (Some setting)
     (mk_tm_sess PJSIP_INV_SUPPORT_TIMER None PJMEDIA_SDP_NEG_STATE_DONE false true true None 0 None None [])).2.

Definition fine_env : tm_env := mk_tm_env PJ_SUCCESS PJ_SUCCESS PJ_SUCCESS PJ_SUCCESS (Some 7) PJMEDIA_SDP_NEG_STATE_DONE false.
Definition first_invite : tm_msg := mk_tm_msg (Req pjsip_invite_method) pjsip_invite_method [] [] (Some [STR_TIMER]) None.
Definition half_hour : pjsip_timer_setting := mk_setting 90 1800.

Lemma phone_reachable setting supported : ABS_MIN_SE <= min_se setting <= sess_expires setting -> tm_reachable supported (phone setting).
Proof.
  intros [H1 H2]. apply Tm_init; [done..|]. unfold pjsip_timer_init_session.
  by rewrite (proj2 (Z.ltb_ge _ _) H1), (proj2 (Z.ltb_ge _ _) H2).
Qed.

Definition accepting : tm_msg := mk_tm_msg (Rsp 200) pjsip_invite_method [(1800, STR_UAS)] [] None None.

Lemma session_timers_safe_witness :
  exists s', tm_step None (Ev_response fine_env accepting) (phone half_hour) = Some s' /\ tm_reachable None s'.
Proof.
  apply (proj2 (session_timers_safe None (phone half_hour) (phone_reachable half_hour None ltac:(by vm_compute)))).
  split; [done|]. intros H. by vm_compute in H.
Defined.

Lemma exchange_agrees_witness :
  exists a2 b2 refresher,
    exchange None fine_env (pjsip_timer_update_req first_invite (phone half_hour)).1 200
      (pjsip_timer_update_req first_invite (phone half_hour)).2 (phone (mk_setting 120 600)) = Some (a2, b2) /\
    runs_as refresher 1800 0 a2 /\ runs_as (negb refresher) 1800 0 b2.
Proof.
  destruct (exchange_agrees None fine_env pjsip_invite_method first_invite (pjsip_timer_update_req first_invite (phone half_hour)).1 200
    (phone half_hour) (pjsip_timer_update_req first_invite (phone half_hour)).2 (phone (mk_setting 120 600))) as [(a2 & b2 & r & H)|[H _]];
    [by apply phone_reachable|by apply phone_reachable|done|done|done|done|done|done| |by vm_compute in H].
  exists a2, b2, r. destruct H as (H1 & H2 & H3 & _). split; [exact H1|]. split; [exact H2|exact H3].
Defined.

Definition refresher_timer : pjsip_timer := mk_timer true half_hour TR_UAC 1 true false PJSIP_ROLE_UAC None 2.
Definition refreshee_timer : pjsip_timer := mk_timer true half_hour TR_UAC 1 true false PJSIP_ROLE_UAS None 0.
Definition refresher_phone : tm_sess := mk_tm_sess PJSIP_INV_SUPPORT_TIMER (Some refresher_timer) PJMEDIA_SDP_NEG_STATE_DONE false true true
  None 0 (Some 900) (Some 1800) [].
Definition refreshee_phone : tm_sess := mk_tm_sess PJSIP_INV_SUPPORT_TIMER (Some refreshee_timer) PJMEDIA_SDP_NEG_STATE_DONE false true true
  None 0 (Some 1768) None [].

Lemma phones_in_step : in_step 1800 0 refresher_phone refreshee_phone.
Proof.
  split; [exists refresher_timer|split; [exists refreshee_timer|by repeat split]];
    (split; [done|]; split; [done|]; split; [done|]; split; [done|]; split; [done|]; split; [done|]; split; [by split|by split]).
Qed.

Lemma refreshes_keep_session_witness :
  exists a' b' l, refresh_rounds None fine_env 3 (refresher_phone, refreshee_phone) = Some (a', b') /\
    in_step 1800 2700 a' b' /\ s_log b' = [] /\ s_log a' = l /\ length l = 3%nat.
Proof.
  destruct (refreshes_keep_session None fine_env 3 1800 0 refresher_phone refreshee_phone) as (a' & b' & l & H1 & H2 & H3 & H4 & H5 & _);
    [by split|apply phones_in_step|]. exists a', b', l. split; [exact H1|]. split; [exact H2|]. split; [exact H3|]. split; [exact H4|exact H5].
Defined.

Lemma too_small_retried_witness :
  exists m2 a2 a3 b3 refresher,
    s_log a2 = [E_restart m2] /\
    exchange None fine_env m2 200 a2 (phone (mk_setting 3600 3600)) = Some (a3, b3) /\
    runs_as refresher 3600 0 a3 /\ runs_as (negb refresher) 3600 0 b3.
Proof.
  destruct (too_small_retried None fine_env first_invite (phone half_hour) (phone (mk_setting 3600 3600))
    (pjsip_timer_update_req first_invite (phone half_hour)).1 (pjsip_timer_update_req first_invite (phone half_hour)).2
    (PJSIP_ERRNO_FROM_SIP_STATUS PJSIP_SC_SESSION_TIMER_TOO_SMALL) (Some PJSIP_SC_SESSION_TIMER_TOO_SMALL) (phone (mk_setting 3600 3600)))
    as (rsp & a2 & m2 & a3 & b3 & r & _ & _ & H1 & H2 & H3 & H4);
    [by apply phone_reachable|by apply phone_reachable|done|done|done|done|by vm_compute|done|]. exists m2, a2, a3, b3, r.
  split; [exact H1|]. split; [exact H2|]. split; [exact H3|exact H4].
Defined.

(** ** A refused request that names the other refresher

    The peer of the refresher asks for the refresh with an UPDATE that is refused with 488.
    The refresher no longer takes itself for one: when its refresh is due, after half of
    the interval, it ends the session with 408. *)

Definition taking_over : tm_msg := mk_tm_msg (Req pjsip_update_method) pjsip_update_method [(1800, STR_UAC)] [] None None.

Example refused_request_ends_session :
  let s := (pjsip_timer_process_req taking_over refresher_phone).2 in
  takes_over taking_over refresher_phone /\
  s_expire_at s = Some 1800 /\ as_refresher (timer_of s) = false /\
  option_map s_log (fire None fine_env false (set_s_now 900 s)) = Some [E_end PJSIP_SC_REQUEST_TIMEOUT].
Proof. by vm_compute. Qed.
