(* ===== verification/SipAuth.v ===== *)
(** * SIP digest authentication (pjsip/src/pjsip/sip_auth_client.c and sip_auth_server.c)

    The digest of RFC 2617; the client, which answers the challenges of 401 and 407
    responses from its credentials and keeps the nonce counts of each realm; and the server,
    which makes challenges and verifies requests.  The headers are not cached
    (PJSIP_AUTH_HEADER_CACHING is 0) and qop is supported, as in config.h; whether the client
    authenticates the next request by itself (PJSIP_AUTH_AUTO_SEND_NEXT) is an argument. *)

From Stdlib Require Strings.String.
From S2P Require Import Prelude Hash PjStr Words Digest Md5.
Import Strings.String.StringSyntax.

Definition PJSIP_MD5STRLEN : Z := 32.
Definition PJSIP_MAX_URL_SIZE : Z := 256.
Definition PJSIP_MAX_STALE_COUNT : Z := 3.
Definition PASSWD_MASK : Z := 0x000F.
Definition EXT_MASK : Z := 0x00F0.
Definition PJSIP_CRED_DATA_PLAIN_PASSWD : Z := 0.
Definition PJSIP_CRED_DATA_DIGEST : Z := 1.
Definition PJSIP_CRED_DATA_EXT_AKA : Z := 16.

Definition PJSIP_EINVALIDSTATUS : Z := 171030.
Definition PJSIP_EURITOOLONG : Z := 171043.
Definition PJSIP_EFAILEDCREDENTIAL : Z := 171100.
Definition PJSIP_ENOCREDENTIAL : Z := 171101.
Definition PJSIP_EINVALIDALGORITHM : Z := 171102.
Definition PJSIP_EINVALIDQOP : Z := 171103.
Definition PJSIP_EINVALIDAUTHSCHEME : Z := 171104.
Definition PJSIP_EAUTHNOPREVCHAL : Z := 171105.
Definition PJSIP_EAUTHNOAUTH : Z := 171106.
Definition PJSIP_EAUTHINVALIDDIGEST : Z := 171110.
Definition PJSIP_EAUTHSTALECOUNT : Z := 171111.
Definition PJSIP_EAUTHINAKACRED : Z := 171113.
Definition PJSIP_EAUTHNOCHAL : Z := 171114.
Definition PJSIP_SC_FORBIDDEN : Z := 403.

Definition pjsip_DIGEST_STR : list Z := lit "Digest".
Definition pjsip_MD5_STR : list Z := lit "md5".
Definition pjsip_AUTH_STR : list Z := lit "auth".
Definition pjsip_AKAv1_MD5_STR : list Z := lit "AKAv1-MD5".

(** ** Data *)

Record pjsip_cred_info := mk_cred_info {
  ci_realm : list Z; ci_scheme : list Z; ci_username : list Z; ci_data_type : Z; ci_data : list Z;
  ci_aka : list Z * list Z * list Z        (* k, op, amf *)
}.

Record pjsip_digest_challenge := mk_chal {
  dc_realm : list Z; dc_domain : list Z; dc_nonce : list Z; dc_opaque : list Z; dc_stale : bool;
  dc_algorithm : list Z; dc_qop : list Z
}.

(** [wa_proxy]: the header is Proxy-Authenticate, not WWW-Authenticate *)
Record pjsip_www_authenticate_hdr := mk_www { wa_proxy : bool; wa_scheme : list Z; wa_chal : pjsip_digest_challenge }.

Record pjsip_digest_credential := mk_dig {
  dg_realm : list Z; dg_username : list Z; dg_nonce : list Z; dg_uri : list Z; dg_response : list Z;
  dg_algorithm : list Z; dg_cnonce : list Z; dg_opaque : list Z; dg_qop : list Z; dg_nc : list Z
}.

Record pjsip_authorization_hdr := mk_az { az_proxy : bool; az_scheme : list Z; az_cred : pjsip_digest_credential }.

Inductive pjsip_auth_qop_type := PJSIP_AUTH_QOP_NONE | PJSIP_AUTH_QOP_AUTH | PJSIP_AUTH_QOP_AUTH_INT | PJSIP_AUTH_QOP_UNKNOWN.

Record pjsip_cached_auth := mk_cached {
  ca_realm : list Z; ca_is_proxy : bool; ca_qop_value : pjsip_auth_qop_type; ca_stale_cnt : Z; ca_nc : Z;
  ca_cnonce : list Z; ca_last_chal : option pjsip_www_authenticate_hdr
}.

Definition set_ca_stale n c := mk_cached (ca_realm c) (ca_is_proxy c) (ca_qop_value c) n (ca_nc c) (ca_cnonce c) (ca_last_chal c).
Definition set_ca_qop q c := mk_cached (ca_realm c) (ca_is_proxy c) q (ca_stale_cnt c) (ca_nc c) (ca_cnonce c) (ca_last_chal c).
Definition set_ca_chal nc ch c := mk_cached (ca_realm c) (ca_is_proxy c) (ca_qop_value c) (ca_stale_cnt c) nc (ca_cnonce c) ch.

Record pjsip_auth_clt_pref := mk_pref { pf_initial_auth : bool; pf_algorithm : list Z }.

Record pjsip_auth_clt_sess := mk_clt {
  cl_pref : pjsip_auth_clt_pref; cl_creds : list pjsip_cred_info; cl_cached : list pjsip_cached_auth
}.

Definition set_cl_cached l s := mk_clt (cl_pref s) (cl_creds s) l.

(** A request: the name of its method, its URI as it is printed (empty when it is too
    long), its Authorization and Proxy-Authorization headers, the branch of its Via *)
Record auth_request := mk_areq {
  rq_method : list Z; rq_uri : list Z; rq_auth : list pjsip_authorization_hdr; rq_branch : list Z; rq_auth_retry : bool; rq_ref : Z
}.

Definition set_rq_auth l r := mk_areq (rq_method r) (rq_uri r) l (rq_branch r) (rq_auth_retry r) (rq_ref r).

Section Auth.
Context {Str : PjString}.
Context (garbage : list Z)          (* what the stack holds where the MD5 context is put *).
Context (aka_cb : pjsip_digest_challenge -> pjsip_cred_info -> list Z -> pjsip_digest_credential -> Z * pjsip_digest_credential).
Context (auto_send_next : bool).

(** ** Credentials *)

Definition then_cmp (r1 r2 : Z) : Z := if r1 =? 0 then r2 else r1.

Definition pjsip_cred_info_cmp (c1 c2 : pjsip_cred_info) : Z :=
  then_cmp (pj_strcmp (ci_realm c1) (ci_realm c2))
  (then_cmp (pj_strcmp (ci_scheme c1) (ci_scheme c2))
  (then_cmp (pj_strcmp (ci_username c1) (ci_username c2))
  (then_cmp (pj_strcmp (ci_data c1) (ci_data c2))
  (then_cmp (if ci_data_type c1 =? ci_data_type c2 then 0 else 1)
  (if Z.land (ci_data_type c1) EXT_MASK =? PJSIP_CRED_DATA_EXT_AKA then
     then_cmp (pj_strcmp (ci_aka c1).1.1 (ci_aka c2).1.1)
     (then_cmp (pj_strcmp (ci_aka c1).1.2 (ci_aka c2).1.2) (pj_strcmp (ci_aka c1).2 (ci_aka c2).2))
   else 0))))).

(** ** The digest *)

(** Lower-case digits *)
Definition pj_hex_digit (v : Z) : Z := if v <? 10 then v + 48 else v + 87.
Definition pj_val_to_hex_digit (v : Z) : list Z := [pj_hex_digit (Z.shiftr (Z.land v 0xF0) 4); pj_hex_digit (Z.land v 0x0F)].

Definition digest2str (digest : list Z) : list Z := concat (map pj_val_to_hex_digit digest).

(** ha1 of a password is computed, one that is given has 32 characters; anything else
    leaves ha1 undefined. *)
Definition create_ha1 (realm : list Z) (cred_info : pjsip_cred_info) : option (list Z) :=
  let passwd := Z.land (ci_data_type cred_info) PASSWD_MASK in
  if passwd =? PJSIP_CRED_DATA_PLAIN_PASSWD then
    let pms := pj_md5_init garbage in
    pms ← pj_md5_update pms (ci_username cred_info);
    pms ← pj_md5_update pms [58];
    pms ← pj_md5_update pms realm;
    pms ← pj_md5_update pms [58];
    pms ← pj_md5_update pms (ci_data cred_info);
    '(_, digest) ← pj_md5_final pms;
    Some (digest2str digest)
  else if passwd =? PJSIP_CRED_DATA_DIGEST then
    if zlen (ci_data cred_info) =? 32 then Some (ci_data cred_info) else None
  else None.

Definition create_ha2 (method uri : list Z) : option (list Z) :=
  let pms := pj_md5_init garbage in
  pms ← pj_md5_update pms method;
  pms ← pj_md5_update pms [58];
  pms ← pj_md5_update pms uri;
  '(_, digest) ← pj_md5_final pms;
  Some (digest2str digest).

(** An empty [qop] stands for NULL too. *)
Definition pjsip_auth_create_digest (nonce nc cnonce qop uri realm : list Z) (cred_info : pjsip_cred_info) (method : list Z) :
  option (list Z) :=
  ha1 ← create_ha1 realm cred_info;
  ha2 ← create_ha2 method uri;
  let pms := pj_md5_init garbage in
  pms ← pj_md5_update pms ha1;
  pms ← pj_md5_update pms [58];
  pms ← pj_md5_update pms nonce;
  pms ← (if negb (zlen qop =? 0) then
           pms ← pj_md5_update pms [58];
           pms ← pj_md5_update pms nc;
           pms ← pj_md5_update pms [58];
           pms ← pj_md5_update pms cnonce;
           pms ← pj_md5_update pms [58];
           pj_md5_update pms qop
         else Some pms);
  pms ← pj_md5_update pms [58];
  pms ← pj_md5_update pms ha2;
  '(_, digest) ← pj_md5_final pms;
  Some (digest2str digest).

(** ** Responding to a challenge *)

(** "auth" before a quote, a comma or the end *)
Fixpoint find_auth (s : list Z) : bool :=
  match s with
  | [] => false
  | a :: s1 =>
      if a =? 0 then false
      else
        match s1 with
        | u :: t :: h :: s4 =>
            if (a =? 97) && (u =? 117) && (t =? 116) && (h =? 104) then
              match s4 with [] => true | e :: _ => (e =? 34) || (e =? 44) || (e =? 0) || find_auth s4 end
            else find_auth s1
        | _ => find_auth s1
        end
  end.

Definition has_auth_qop (qop_offer : list Z) : bool := find_auth (map pj_tolower qop_offer).

(** pj_ansi_snprintf with "%08u" *)
Fixpoint decimal_digits (fuel : nat) (val : Z) : list Z :=
  match fuel with
  | O => []
  | S fuel' => decimal_digits fuel' (val / 10) ++ [val mod 10 + 48]
  end.

(** Eight digits, or as many as the number has: a 32-bit number has ten at most. *)
Definition print_nc (nc : Z) : list Z :=
  if nc <? 100000000 then decimal_digits 8 nc else if nc <? 1000000000 then decimal_digits 9 nc else decimal_digits 10 nc.

Definition is_aka (c : pjsip_cred_info) : bool := Z.land (ci_data_type c) EXT_MASK =? PJSIP_CRED_DATA_EXT_AKA.

Definition dummy_cnonce : list Z := lit "b39971".

(** The status and the credential, which is only used when it is PJ_SUCCESS; [None] is an
    undefined digest. *)
Definition respond_digest (chal : pjsip_digest_challenge) (uri : list Z) (cred_info : pjsip_cred_info) (cnonce : list Z) (nc : Z)
    (method : list Z) : option (Z * pjsip_digest_credential) :=
  let cred := mk_dig (dc_realm chal) (ci_username cred_info) (dc_nonce chal) uri [] (dc_algorithm chal) [] (dc_opaque chal) [] [] in
  let respond qop nc cnonce :=
    let cred := mk_dig (dc_realm chal) (ci_username cred_info) (dc_nonce chal) uri [] (dc_algorithm chal) cnonce (dc_opaque chal) qop nc in
    if is_aka cred_info then Some (aka_cb chal cred_info method cred)
    else
      response ← pjsip_auth_create_digest (dc_nonce chal) nc cnonce qop uri (dc_realm chal) cred_info method;
      Some (PJ_SUCCESS, mk_dig (dc_realm chal) (ci_username cred_info) (dc_nonce chal) uri response (dc_algorithm chal) cnonce
                          (dc_opaque chal) qop nc) in
  if negb (zlen (dc_algorithm chal) =? 0) && negb (pj_stricmp (dc_algorithm chal) pjsip_MD5_STR =? 0) &&
     negb (pj_stricmp (dc_algorithm chal) pjsip_AKAv1_MD5_STR =? 0)
  then Some (PJSIP_EINVALIDALGORITHM, cred)
  else if zlen (dc_qop chal) =? 0 then respond [] [] []
  else if has_auth_qop (dc_qop chal) then
    respond pjsip_AUTH_STR (print_nc nc) (if zlen cnonce =? 0 then dummy_cnonce else cnonce)
  else Some (PJSIP_EINVALIDQOP, cred).

Definition same_challenge (d1 d2 : pjsip_digest_challenge) : bool :=
  (pj_strcmp (dc_domain d1) (dc_domain d2) =? 0) && (pj_strcmp (dc_realm d1) (dc_realm d2) =? 0) &&
  (pj_strcmp (dc_nonce d1) (dc_nonce d2) =? 0) && (pj_strcmp (dc_opaque d1) (dc_opaque d2) =? 0) &&
  (pj_strcmp (dc_algorithm d1) (dc_algorithm d2) =? 0) && (pj_strcmp (dc_qop d1) (dc_qop d2) =? 0).

(** [unique]: what pj_create_unique_string makes.  [None]: there is no last challenge. *)
Definition update_digest_session (unique : list Z) (c : pjsip_cached_auth) (hdr : pjsip_www_authenticate_hdr) : option pjsip_cached_auth :=
  let chal := wa_chal hdr in
  if zlen (dc_qop chal) =? 0 then
    Some (if auto_send_next then
            match ca_last_chal c with
            | Some l => if (pj_stricmp (wa_scheme hdr) (lit "digest") =? 0) && same_challenge (wa_chal l) chal then c
                        else set_ca_chal (ca_nc c) (Some hdr) c
            | None => set_ca_chal (ca_nc c) (Some hdr) c
            end
          else c)
  else if zlen (ca_cnonce c) =? 0 then
    Some (mk_cached (if zlen (ca_realm c) =? 0 then dc_realm chal else ca_realm c) (ca_is_proxy c) (ca_qop_value c) (ca_stale_cnt c)
            1 unique (Some hdr))
  else
    match ca_last_chal c with
    | None => None
    | Some l =>
        let d := wa_chal l in
        if pj_strcmp (dc_nonce chal) (dc_nonce d) =? 0 then Some (set_ca_chal (u32 (ca_nc c + 1)) (Some l) c)
        else
          let d := mk_chal (dc_realm d) (dc_domain d) (dc_nonce chal)
                     (if pj_strcmp (dc_opaque d) (dc_opaque chal) =? 0 then dc_opaque d else dc_opaque chal)
                     (dc_stale d) (dc_algorithm d) (dc_qop d) in
          Some (set_ca_chal 1 (Some (mk_www (wa_proxy l) (wa_scheme l) d)) c)
    end.

(** ** The client session *)

Definition find_cached_auth (sess : pjsip_auth_clt_sess) (realm : list Z) : option (nat * pjsip_cached_auth) :=
  list_find (fun c => pj_stricmp (ca_realm c) realm = 0) (cl_cached sess).

Definition is_wildcard (c : pjsip_cred_info) : bool := match ci_realm c with [42] => true | _ => false end.

(** The first credential of the realm, or else the last one with the realm "*" *)
Definition auth_find_cred (sess : pjsip_auth_clt_sess) (realm : list Z) : option pjsip_cred_info :=
  match List.find (fun c => pj_stricmp (ci_realm c) realm =? 0) (cl_creds sess) with
  | Some c => Some c
  | None => last (List.filter is_wildcard (cl_creds sess))
  end.

(** The initial session of a zeroed structure *)
Definition pjsip_auth_clt_init : pjsip_auth_clt_sess := mk_clt (mk_pref false []) [] [].

Definition pjsip_auth_clt_clone (rhs : pjsip_auth_clt_sess) : pjsip_auth_clt_sess :=
  mk_clt (cl_pref pjsip_auth_clt_init)
    (map (fun c => mk_cred_info (ci_realm c) (ci_scheme c) (ci_username c) (ci_data_type c) (ci_data c) ([], [], [])) (cl_creds rhs)) [].

(** AKA is not in the build: its first credential ends the loop, which leaves the array of
    a session that had credentials undefined ([None]). *)
Definition pjsip_auth_clt_set_credentials (c : list pjsip_cred_info) (sess : pjsip_auth_clt_sess) : Z * option pjsip_auth_clt_sess :=
  if existsb is_aka c then (PJSIP_EAUTHINAKACRED, match cl_creds sess with [] => Some sess | _ => None end)
  else (PJ_SUCCESS, Some (mk_clt (cl_pref sess) c (cl_cached sess))).

Definition pjsip_auth_clt_set_prefs (p : pjsip_auth_clt_pref) (sess : pjsip_auth_clt_sess) : pjsip_auth_clt_sess :=
  mk_clt p (cl_creds sess) (cl_cached sess).
Definition pjsip_auth_clt_get_prefs (sess : pjsip_auth_clt_sess) : pjsip_auth_clt_pref := cl_pref sess.

(** The status, the header when it is PJ_SUCCESS, and the cached authentication *)
Definition auth_respond (unique : list Z) (hdr : pjsip_www_authenticate_hdr) (uri : list Z) (cred_info : pjsip_cred_info)
    (method : list Z) (c : pjsip_cached_auth) : option (Z * option pjsip_authorization_hdr * pjsip_cached_auth) :=
  if zlen uri <? 1 then Some (PJSIP_EURITOOLONG, None, c)
  else if negb (pj_stricmp (wa_scheme hdr) pjsip_DIGEST_STR =? 0) then Some (PJSIP_EINVALIDAUTHSCHEME, None, c)
  else
    c ← update_digest_session unique c hdr;
    '(status, cred) ← respond_digest (wa_chal hdr) uri cred_info (ca_cnonce c) (ca_nc c) method;
    if negb (status =? PJ_SUCCESS) then Some (status, None, c)
    else
      let c := if negb (zlen (dc_qop (wa_chal hdr)) =? 0) then
                 match ca_qop_value c with
                 | PJSIP_AUTH_QOP_NONE =>
                     set_ca_qop (if pj_strcmp (dg_qop cred) pjsip_AUTH_STR =? 0 then PJSIP_AUTH_QOP_AUTH else PJSIP_AUTH_QOP_UNKNOWN) c
                 | _ => c
                 end
               else c in
      Some (PJ_SUCCESS, Some (mk_az (wa_proxy hdr) pjsip_DIGEST_STR cred), c).

(** ** The next request *)

(** With the last challenge of the realm; the status is not looked at. *)
Definition new_auth_for_req (unique : list Z) (req : auth_request) (sess : pjsip_auth_clt_sess) (c : pjsip_cached_auth) :
  option (auth_request * pjsip_cached_auth) :=
  match ca_last_chal c with
  | None => Some (req, c)                        (* PJSIP_EAUTHNOPREVCHAL *)
  | Some chal =>
      match auth_find_cred sess (ca_realm c) with
      | None => Some (req, c)                    (* PJSIP_ENOCREDENTIAL *)
      | Some cred =>
          '(status, h, c) ← auth_respond unique chal (rq_uri req) cred (rq_method req) c;
          Some (match h with Some h => set_rq_auth (rq_auth req ++ [h]) req | None => req end, c)
      end
  end.

Definition get_header_for_realm (l : list pjsip_authorization_hdr) (realm : list Z) : option (nat * pjsip_authorization_hdr) :=
  list_find (fun h => pj_stricmp (dg_realm (az_cred h)) realm = 0) l.

(** The loop over the cached authentications: the status, the request, what is to be added
    to it, and the authentications.  A status ends it. *)
Fixpoint init_cached (unique : list Z) (sess : pjsip_auth_clt_sess) (req : auth_request) (added : list pjsip_authorization_hdr)
    (l : list pjsip_cached_auth) : option (Z * auth_request * list pjsip_authorization_hdr * list pjsip_cached_auth) :=
  match l with
  | [] => Some (PJ_SUCCESS, req, added, [])
  | c :: l' =>
      let c := set_ca_stale 0 c in
      let next req added c :=
        '(status, req, added, l') ← init_cached unique sess req added l';
        Some (status, req, added, c :: l') in
      match ca_qop_value c with
      | PJSIP_AUTH_QOP_NONE =>
          if auto_send_next then '(req, c) ← new_auth_for_req unique req sess c; next req added c else next req added c
      | PJSIP_AUTH_QOP_AUTH =>
          if auto_send_next then
            match ca_last_chal c with
            | None => None
            | Some chal =>
                match auth_find_cred sess (ca_realm c) with
                | None => next req added c
                | Some cred =>
                    '(status, h, c) ← auth_respond unique chal (rq_uri req) cred (rq_method req) c;
                    match h with
                    | Some h => next req (added ++ [h]) c
                    | None => Some (status, req, added, c :: l')
                    end
                end
            end
          else next req added c
      | _ => next req added c
      end
  end.

(** Each credential gets the header of its realm, or an empty one. *)
Fixpoint initial_auth (algorithm : list Z) (req : auth_request) (added : list pjsip_authorization_hdr) (creds : list pjsip_cred_info) : auth_request :=
  match creds with
  | [] => req
  | c :: creds' =>
      match get_header_for_realm added (ci_realm c) with
      | Some (i, h) => initial_auth algorithm (set_rq_auth (rq_auth req ++ [h]) req) (take i added ++ drop (S i) added) creds'
      | None =>
          let h := mk_az false (ci_scheme c) (mk_dig (ci_realm c) (ci_username c) [] (rq_uri req) [] algorithm [] [] [] []) in
          initial_auth algorithm (set_rq_auth (rq_auth req ++ [h]) req) added creds'
      end
  end.

Definition pjsip_auth_clt_init_req (unique : list Z) (sess : pjsip_auth_clt_sess) (req : auth_request) :
  option (Z * auth_request * pjsip_auth_clt_sess) :=
  '(status, req, added, l) ← init_cached unique sess req [] (cl_cached sess);
  let sess := set_cl_cached l sess in
  if negb (status =? PJ_SUCCESS) then Some (status, req, sess)
  else if negb (pf_initial_auth (cl_pref sess)) then Some (PJ_SUCCESS, set_rq_auth (rq_auth req ++ added) req, sess)
  else if (zlen (rq_uri req) <? 1) || (PJSIP_MAX_URL_SIZE <=? zlen (rq_uri req)) then Some (PJSIP_EURITOOLONG, req, sess)
  else Some (PJ_SUCCESS, initial_auth (pf_algorithm (cl_pref sess)) req added (cl_creds sess), sess).

(** ** A request that is challenged *)

(** The header that was sent for the realm, the ones before and the ones behind it.  Empty
    ones for the realm are removed on the way. *)
Fixpoint find_sent (hchal : pjsip_www_authenticate_hdr) (before l : list pjsip_authorization_hdr) :
  list pjsip_authorization_hdr * option (pjsip_authorization_hdr * list pjsip_authorization_hdr) :=
  match l with
  | [] => (before, None)
  | h :: l' =>
      if Bool.eqb (wa_proxy hchal) (az_proxy h) && (pj_stricmp (dc_realm (wa_chal hchal)) (dg_realm (az_cred h)) =? 0) then
        if (pj_stricmp (az_scheme h) pjsip_DIGEST_STR =? 0) && (zlen (dg_response (az_cred h)) =? 0) then find_sent hchal before l'
        else (before, Some (h, l'))
      else find_sent hchal (before ++ [h]) l'
  end.

Definition process_auth (unique : list Z) (hchal : pjsip_www_authenticate_hdr) (req : auth_request) (sess : pjsip_auth_clt_sess)
    (c : pjsip_cached_auth) : option (Z * option pjsip_authorization_hdr * auth_request * pjsip_cached_auth) :=
  let respond req c :=
    match auth_find_cred sess (dc_realm (wa_chal hchal)) with
    | None => Some (PJSIP_ENOCREDENTIAL, None, req, c)
    | Some cred =>
        '(status, h, c) ← auth_respond unique hchal (rq_uri req) cred (rq_method req) c;
        Some (status, h, req, c)
    end in
  match find_sent hchal [] (rq_auth req) with
  | (l, None) => respond (set_rq_auth l req) c
  | (l, Some (sent, l')) =>
      let stale := dc_stale (wa_chal hchal) || negb (pj_strcmp (dc_nonce (wa_chal hchal)) (dg_nonce (az_cred sent)) =? 0) in
      if negb stale then Some (PJSIP_EFAILEDCREDENTIAL, None, set_rq_auth (l ++ sent :: l') req, c)
      else
        let c := set_ca_stale (ca_stale_cnt c + 1) c in
        if PJSIP_MAX_STALE_COUNT <=? ca_stale_cnt c then Some (PJSIP_EAUTHSTALECOUNT, None, set_rq_auth (l ++ sent :: l') req, c)
        else respond (set_rq_auth (l ++ l') req) c
  end.

(** The authentication of the realm, a new one when there is none *)
Definition cached_for (hchal : pjsip_www_authenticate_hdr) (sess : pjsip_auth_clt_sess) : nat * pjsip_cached_auth * pjsip_auth_clt_sess :=
  match find_cached_auth sess (dc_realm (wa_chal hchal)) with
  | Some (i, c) => (i, c, sess)
  | None =>
      let c := mk_cached (dc_realm (wa_chal hchal)) (wa_proxy hchal) PJSIP_AUTH_QOP_NONE 0 0 [] None in
      (length (cl_cached sess), c, set_cl_cached (cl_cached sess ++ [c]) sess)
  end.

(** The loop over the challenges, each with the unique string that is made for it *)
Fixpoint answer_challenges (hdrs : list (pjsip_www_authenticate_hdr * list Z)) (sess : pjsip_auth_clt_sess) (req : auth_request) :
  option (Z * auth_request * pjsip_auth_clt_sess) :=
  match hdrs with
  | [] => Some (PJ_SUCCESS, req, sess)
  | (hchal, unique) :: hdrs' =>
      let '(i, c, sess) := cached_for hchal sess in
      '(status, h, req, c) ← process_auth unique hchal req sess c;
      let sess := set_cl_cached (<[i := c]> (cl_cached sess)) sess in
      match h with
      | Some h => answer_challenges hdrs' sess (set_rq_auth (rq_auth req ++ [h]) req)
      | None => Some (status, req, sess)
      end
  end.

(** [code]: the status of the response, [hdrs] its challenges.  The Via branch is removed and
    the request counted; the strict route that is put back is not part of the model. *)
Definition pjsip_auth_clt_reinit_req (code : Z) (hdrs : list (pjsip_www_authenticate_hdr * list Z)) (sess : pjsip_auth_clt_sess)
    (req : auth_request) : option (Z * auth_request * pjsip_auth_clt_sess) :=
  if negb ((code =? 401) || (code =? 407)) then Some (PJSIP_EINVALIDSTATUS, req, sess) else
  let req := mk_areq (rq_method req) (rq_uri req) (rq_auth req) (rq_branch req) false (rq_ref req) in
  '(status, req, sess) ← answer_challenges hdrs sess req;
  if negb (status =? PJ_SUCCESS) then Some (status, req, sess)
  else
    match hdrs with
    | [] => Some (PJSIP_EAUTHNOCHAL, req, sess)
    | _ => Some (PJ_SUCCESS, mk_areq (rq_method req) (rq_uri req) (rq_auth req) [] true (rq_ref req + 1), sess)
    end.

(** ** The server *)

Record pjsip_auth_srv := mk_srv { sv_realm : list Z; sv_is_proxy : bool }.

Definition PJSIP_AUTH_SRV_IS_PROXY : Z := 1.
Definition pjsip_auth_srv_init (realm : list Z) (options : Z) : pjsip_auth_srv :=
  mk_srv realm (negb (Z.land options PJSIP_AUTH_SRV_IS_PROXY =? 0)).
Definition pjsip_auth_srv_init2 (realm : list Z) (options : Z) : pjsip_auth_srv :=
  mk_srv realm (negb (Z.land options PJSIP_AUTH_SRV_IS_PROXY =? 0)).

(** [lookup]: either function of the application, for the realm of the server *)
Definition pjsip_auth_verify (hdr : pjsip_authorization_hdr) (method : list Z) (cred_info : pjsip_cred_info) : option Z :=
  if pj_stricmp (az_scheme hdr) pjsip_DIGEST_STR =? 0 then
    let dig := az_cred hdr in
    if negb (pj_strcmp (dg_username dig) (ci_username cred_info) =? 0) then Some PJ_EINVALIDOP
    else if negb (pj_strcmp (dg_realm dig) (ci_realm cred_info) =? 0) then Some PJ_EINVALIDOP
    else
      digest ← pjsip_auth_create_digest (dg_nonce dig) (dg_nc dig) (dg_cnonce dig) (dg_qop dig) (dg_uri dig) (ci_realm cred_info)
                 cred_info method;
      Some (if pj_stricmp digest (dg_response dig) =? 0 then PJ_SUCCESS else PJSIP_EAUTHINVALIDDIGEST)
  else Some PJSIP_EINVALIDAUTHSCHEME.

(** The status, and the code of the response *)
Definition pjsip_auth_srv_verify (srv : pjsip_auth_srv) (lookup : list Z -> Z * pjsip_cred_info) (req : auth_request) : option (Z * Z) :=
  let challenge := if sv_is_proxy srv then 407 else 401 in
  match List.find (fun h => Bool.eqb (az_proxy h) (sv_is_proxy srv) && (pj_stricmp (dg_realm (az_cred h)) (sv_realm srv) =? 0)) (rq_auth req) with
  | None => Some (PJSIP_EAUTHNOAUTH, challenge)
  | Some h =>
      if negb (pj_stricmp (az_scheme h) pjsip_DIGEST_STR =? 0) then Some (PJSIP_EINVALIDAUTHSCHEME, challenge)
      else
        let '(status, cred_info) := lookup (dg_username (az_cred h)) in
        if negb (status =? PJ_SUCCESS) then Some (status, PJSIP_SC_FORBIDDEN)
        else
          status ← pjsip_auth_verify h (rq_method req) cred_info;
          Some (status, if status =? PJ_SUCCESS then 200 else PJSIP_SC_FORBIDDEN)
  end.

(** [random]: what is made for a nonce or an opaque that is not given *)
Definition pjsip_auth_srv_challenge (srv : pjsip_auth_srv) (qop nonce opaque : option (list Z)) (random1 random2 : list Z) (stale : bool) :
  pjsip_www_authenticate_hdr :=
  mk_www (sv_is_proxy srv) pjsip_DIGEST_STR
    (mk_chal (sv_realm srv) [] (default random1 nonce) (default random2 opaque) stale pjsip_MD5_STR (default [] qop)).
End Auth.
