(* ===== verification/SipAuthProps.v ===== *)
(** * SIP digest authentication: theorems

    The digest is that of RFC 2617; a server accepts exactly the requests with it; what a
    client answers to a challenge is accepted; the nonce counts of a nonce are 1, 2, 3, ...;
    and a client does not answer challenges of a realm without end. *)

From Stdlib Require Strings.String.
From S2P Require Import Prelude Hash PjStr Words Digest Md5 Md5Props SipAuth.
Import Strings.String.StringSyntax.

Section Props.
Context {Str : PjString} (garbage : list Z).
Context (aka_cb : pjsip_digest_challenge -> pjsip_cred_info -> list Z -> pjsip_digest_credential -> Z * pjsip_digest_credential).
Context (auto_send_next : bool).
Hypothesis garbage_length : length garbage = 64%nat.

(** ** The digest of RFC 2617 *)

Definition short (s : list Z) : Prop := zlen s < 2 ^ 29.

Definition colon : list Z := [58].
Definition hex_md5 (s : list Z) : list Z := digest2str (md5_reference s).

Definition rfc2617_ha1 (realm : list Z) (c : pjsip_cred_info) : list Z :=
  if Z.land (ci_data_type c) PASSWD_MASK =? PJSIP_CRED_DATA_PLAIN_PASSWD
  then hex_md5 (ci_username c ++ colon ++ realm ++ colon ++ ci_data c) else ci_data c.

Definition rfc2617_digest (nonce nc cnonce qop uri realm : list Z) (c : pjsip_cred_info) (method : list Z) : list Z :=
  hex_md5 (rfc2617_ha1 realm c ++ colon ++ nonce ++
    match qop with [] => [] | _ => colon ++ nc ++ colon ++ cnonce ++ colon ++ qop end ++
    colon ++ hex_md5 (method ++ colon ++ uri)).

(** A password, or the 32 characters of its digest *)
Definition cred_ok (c : pjsip_cred_info) : Prop :=
  (Z.land (ci_data_type c) PASSWD_MASK = PJSIP_CRED_DATA_PLAIN_PASSWD \/
   Z.land (ci_data_type c) PASSWD_MASK = PJSIP_CRED_DATA_DIGEST /\ zlen (ci_data c) = 32) /\
  short (ci_username c) /\ short (ci_data c).

Lemma digest2str_length l : length (digest2str l) = (2 * length l)%nat.
Proof. unfold digest2str. induction l as [|x l IH]; [done|]. cbn. rewrite IH. lia. Qed.

Lemma hex_md5_length s : zlen (hex_md5 s) = 32.
Proof. unfold zlen, hex_md5. by rewrite digest2str_length, md5_reference_length. Qed.

Lemma hex_md5_short s : short (hex_md5 s).
Proof. unfold short. by rewrite hex_md5_length. Qed.

(** A sequence of updates and the end, next to md5_correct *)
Ltac md5_chain H :=
  cbn [md5_feed] in H;
  repeat match type of H with context [pj_md5_update ?c ?d] =>
    destruct (pj_md5_update c d); cbn [mbind option_bind] in H |- *; [|done] end;
  rewrite H; cbn [mbind option_bind concat app]; rewrite ?app_nil_r.

Lemma create_ha2_eq method uri : short method -> short uri -> create_ha2 garbage method uri = Some (hex_md5 (method ++ colon ++ uri)).
Proof.
  intros H1 H2. unfold create_ha2. pose proof (md5_correct garbage [method; [58]; uri] garbage_length) as H.
  specialize (H ltac:(by repeat constructor)). cbn zeta. md5_chain H. done.
Qed.

Lemma create_ha1_eq realm c : cred_ok c -> short realm -> create_ha1 garbage realm c = Some (rfc2617_ha1 realm c).
Proof.
  intros (Ht & Hu & Hd) Hr. unfold create_ha1, rfc2617_ha1. cbn zeta. destruct Ht as [->|[-> Hl]]; cbn [Z.eqb PJSIP_CRED_DATA_PLAIN_PASSWD].
  - pose proof (md5_correct garbage [ci_username c; [58]; realm; [58]; ci_data c] garbage_length) as H.
    specialize (H ltac:(by repeat constructor)). md5_chain H. done.
  - by rewrite Hl.
Qed.

Lemma ha1_short realm c : cred_ok c -> short (rfc2617_ha1 realm c).
Proof. intros (_ & _ & Hd). unfold rfc2617_ha1. destruct (_ =? _); [apply hex_md5_short|done]. Qed.

Lemma create_digest_eq nonce nc cnonce qop uri realm c method : cred_ok c ->
  Forall short [nonce; nc; cnonce; qop; uri; realm; method] ->
  pjsip_auth_create_digest garbage nonce nc cnonce qop uri realm c method = Some (rfc2617_digest nonce nc cnonce qop uri realm c method).
Proof.
  intros Hc Hs. repeat (apply Forall_cons in Hs as [? Hs]). unfold pjsip_auth_create_digest.
  rewrite create_ha1_eq, create_ha2_eq by done. cbn [mbind option_bind]. pose proof (ha1_short realm c Hc) as Hh1.
  pose proof (hex_md5_short (method ++ colon ++ uri)) as Hh2. unfold rfc2617_digest.
  set (ha1 := rfc2617_ha1 realm c) in *. set (ha2 := hex_md5 (method ++ colon ++ uri)) in *. destruct qop as [|q qop].
  - pose proof (md5_correct garbage [ha1; [58]; nonce; [58]; ha2] garbage_length) as Hmd.
    specialize (Hmd ltac:(by repeat constructor)). cbn zeta. change (zlen (@nil Z) =? 0) with true. cbn [negb]. md5_chain Hmd. done.
  - pose proof (md5_correct garbage [ha1; [58]; nonce; [58]; nc; [58]; cnonce; [58]; q :: qop; [58]; ha2] garbage_length) as Hmd.
    specialize (Hmd ltac:(by repeat constructor)). cbn zeta. replace (zlen (q :: qop) =? 0) with false by (unfold zlen; symmetry; apply Z.eqb_neq; cbn; lia).
    cbn [negb]. md5_chain Hmd. unfold hex_md5, colon. by rewrite <- !app_assoc.
Qed.

(** ** The server *)

Lemma stricmp_refl s : (pj_stricmp s s =? 0) = true.
Proof. by apply Z.eqb_eq, pj_stricmp_0. Qed.
Lemma strcmp_refl s : (pj_strcmp s s =? 0) = true.
Proof. by apply Z.eqb_eq, pj_strcmp_0. Qed.

(** The header for the realm of a server *)
Definition for_server (srv : pjsip_auth_srv) (h : pjsip_authorization_hdr) : bool :=
  Bool.eqb (az_proxy h) (sv_is_proxy srv) && (pj_stricmp (dg_realm (az_cred h)) (sv_realm srv) =? 0).

Definition dig_short (d : pjsip_digest_credential) : Prop :=
  Forall short [dg_nonce d; dg_nc d; dg_cnonce d; dg_qop d; dg_uri d; dg_realm d].

(** What the credential must be for the method *)
Definition digest_matches (d : pjsip_digest_credential) (c : pjsip_cred_info) (method : list Z) : Prop :=
  dg_username d = ci_username c /\ dg_realm d = ci_realm c /\
  map pj_tolower (rfc2617_digest (dg_nonce d) (dg_nc d) (dg_cnonce d) (dg_qop d) (dg_uri d) (ci_realm c) c method) =
  map pj_tolower (dg_response d).

Lemma verify_eq h c method : cred_ok c -> dig_short (az_cred h) -> short method -> pj_stricmp (az_scheme h) pjsip_DIGEST_STR = 0 ->
  exists st, pjsip_auth_verify garbage h method c = Some st /\ (st = PJ_SUCCESS <-> digest_matches (az_cred h) c method).
Proof.
  intros Hc Hd Hm Hs. unfold pjsip_auth_verify, digest_matches. rewrite Hs. cbn [Z.eqb].
  destruct (Z.eqb_spec (pj_strcmp (dg_username (az_cred h)) (ci_username c)) 0) as [Eu|Eu]; cbn [negb].
  2: { exists PJ_EINVALIDOP. split; [done|]. split; [done|]. intros (E & _). by rewrite pj_strcmp_0 in Eu. }
  destruct (Z.eqb_spec (pj_strcmp (dg_realm (az_cred h)) (ci_realm c)) 0) as [Er|Er]; cbn [negb].
  2: { exists PJ_EINVALIDOP. split; [done|]. split; [done|]. intros (_ & E & _). by rewrite pj_strcmp_0 in Er. }
  apply pj_strcmp_0 in Eu, Er. unfold dig_short in Hd. rewrite Er in Hd. repeat (apply Forall_cons in Hd as [? Hd]).
  rewrite create_digest_eq; [|done|by repeat constructor]. cbn [mbind option_bind]. eexists. split; [reflexivity|].
  rewrite <- pj_stricmp_0. destruct (Z.eqb_spec (pj_stricmp (rfc2617_digest (dg_nonce (az_cred h)) (dg_nc (az_cred h)) (dg_cnonce (az_cred h))
    (dg_qop (az_cred h)) (dg_uri (az_cred h)) (ci_realm c) c method) (dg_response (az_cred h))) 0) as [->|Hn]; [done|].
  split; [done|]. by intros (_ & _ & ?).
Qed.

(** C14: A server accepts a request exactly when the first header for its realm is a digest
    with the name and the realm of a credential it finds, and with the response that RFC 2617
    computes from this credential; all other requests are answered by 401 (407) or 403. *)
Theorem server_accepts srv lookup req :
  (forall name c, lookup name = (PJ_SUCCESS, c) -> cred_ok c) -> Forall (fun h => dig_short (az_cred h)) (rq_auth req) ->
  short (rq_method req) ->
  exists st code, pjsip_auth_srv_verify garbage srv lookup req = Some (st, code) /\
    (st = PJ_SUCCESS <-> exists h c, List.find (for_server srv) (rq_auth req) = Some h /\
       pj_stricmp (az_scheme h) pjsip_DIGEST_STR = 0 /\ lookup (dg_username (az_cred h)) = (PJ_SUCCESS, c) /\
       digest_matches (az_cred h) c (rq_method req)) /\
    (st = PJ_SUCCESS -> code = 200) /\ (st <> PJ_SUCCESS -> code = (if sv_is_proxy srv then 407 else 401) \/ code = 403).
Proof.
  intros Hl Hd Hm. unfold pjsip_auth_srv_verify. fold (for_server srv). destruct (List.find (for_server srv) (rq_auth req)) as [h|] eqn:Ef.
  2: { eexists _, _. split; [reflexivity|]. split; [split; [done|by intros (h & c & ? & _)]|]. split; [done|by left]. }
  destruct (Z.eqb_spec (pj_stricmp (az_scheme h) pjsip_DIGEST_STR) 0) as [Es|Es]; cbn [negb].
  2: { eexists _, _. split; [reflexivity|]. split; [split; [done|by intros (h' & c & [= <-] & ? & _)]|]. split; [done|by left]. }
  destruct (lookup (dg_username (az_cred h))) as [st c] eqn:Ec. destruct (Z.eqb_spec st PJ_SUCCESS) as [->|Est]; cbn [negb].
  2: { eexists _, _. split; [reflexivity|]. split; [|split; [done|by right]]. split; [done|].
       intros (h' & c' & [= <-] & _ & E & _). rewrite Ec in E. by injection E. }
  apply find_some in Ef as [Hin _]. rewrite List.Forall_forall in Hd.
  destruct (verify_eq h c (rq_method req)) as (st & -> & Hst); [by eapply Hl|by apply Hd|done|done|]. cbn [mbind option_bind].
  eexists _, _. split; [reflexivity|]. split; [|split].
  - rewrite Hst. split; [intros H; by exists h, c|]. intros (h' & c' & [= <-] & _ & E & H). rewrite Ec in E. by injection E as <-.
  - by intros ->.
  - intros H. right. by rewrite (proj2 (Z.eqb_neq _ _) H).
Qed.
(** ** What a client answers *)

Lemma decimal_digits_length f n : length (decimal_digits f n) = f.
Proof. revert n. induction f as [|f IH]; intros n; [done|]. cbn. rewrite length_app, IH. cbn. lia. Qed.

Lemma print_nc_short n : short (print_nc n).
Proof. unfold short, zlen, print_nc. destruct (_ <? _); [|destruct (_ <? _)]; rewrite decimal_digits_length; lia. Qed.

Lemma digits_value_app s t acc : forallb pj_isdigit s = true -> digits_value acc (s ++ t) = digits_value (digits_value acc s) t.
Proof.
  revert acc. induction s as [|c s IH]; intros acc; [done|]. cbn. destruct (pj_isdigit c); [|done]. cbn. apply IH.
Qed.

Lemma decimal_digits_digits f n : forallb pj_isdigit (decimal_digits f n) = true.
Proof.
  revert n. induction f as [|f IH]; intros n; [done|]. cbn. rewrite forallb_app, IH. cbn. unfold pj_isdigit.
  pose proof (Z.mod_pos_bound n 10). repeat (rewrite (proj2 (Z.leb_le _ _)) by lia). done.
Qed.

Lemma decimal_digits_value f n : 0 <= n < 10 ^ Z.of_nat f -> digits_value 0 (decimal_digits f n) = n.
Proof.
  revert n. induction f as [|f IH]; intros n Hn; [change (10 ^ Z.of_nat 0) with 1 in Hn; cbn; lia|].
  rewrite Nat2Z.inj_succ, Z.pow_succ_r in Hn by lia. cbn [decimal_digits]. rewrite digits_value_app by apply decimal_digits_digits.
  rewrite IH by (split; [apply Z.div_pos; lia|apply Z.div_lt_upper_bound; lia]). pose proof (Z.mod_pos_bound n 10). cbn. unfold pj_isdigit.
  repeat (rewrite (proj2 (Z.leb_le _ _)) by lia). cbn. pose proof (Z.div_mod n 10). lia.
Qed.

(** The printed count is the number. *)
Lemma print_nc_value n : 0 <= n < 2 ^ 32 -> digits_value 0 (print_nc n) = n.
Proof.
  intros Hn. unfold print_nc. destruct (Z.ltb_spec n 100000000); [|destruct (Z.ltb_spec n 1000000000)]; apply decimal_digits_value; lia.
Qed.

Definition chal_short (ch : pjsip_digest_challenge) : Prop := short (dc_realm ch) /\ short (dc_nonce ch).

(** The parts qop, nc and cnonce of an answer *)
Definition chosen (ch : pjsip_digest_challenge) (cnonce : list Z) (nc : Z) : list Z * list Z * list Z :=
  if zlen (dc_qop ch) =? 0 then ([], [], []) else (pjsip_AUTH_STR, print_nc nc, if zlen cnonce =? 0 then dummy_cnonce else cnonce).

Definition answer (ch : pjsip_digest_challenge) (uri : list Z) (c : pjsip_cred_info) (cnonce : list Z) (nc : Z) (method : list Z) : pjsip_digest_credential :=
  let '(qop, nc, cnonce) := chosen ch cnonce nc in
  mk_dig (dc_realm ch) (ci_username c) (dc_nonce ch) uri (rfc2617_digest (dc_nonce ch) nc cnonce qop uri (dc_realm ch) c method)
    (dc_algorithm ch) cnonce (dc_opaque ch) qop nc.

Definition algorithm_ok (ch : pjsip_digest_challenge) : bool :=
  (zlen (dc_algorithm ch) =? 0) || (pj_stricmp (dc_algorithm ch) pjsip_MD5_STR =? 0) || (pj_stricmp (dc_algorithm ch) pjsip_AKAv1_MD5_STR =? 0).
Definition qop_ok (ch : pjsip_digest_challenge) : bool := (zlen (dc_qop ch) =? 0) || has_auth_qop (dc_qop ch).

Lemma chosen_short ch cnonce nc : short cnonce -> Forall short [(chosen ch cnonce nc).1.1; (chosen ch cnonce nc).1.2; (chosen ch cnonce nc).2].
Proof.
  intros Hc. unfold chosen. destruct (_ =? 0); [by repeat constructor|]. cbn. repeat constructor; [apply print_nc_short|].
  by destruct (_ =? 0).
Qed.

Lemma respond_cases ch uri c cnonce nc method : cred_ok c -> chal_short ch -> short uri -> short cnonce -> short method ->
  exists st d, respond_digest garbage aka_cb ch uri c cnonce nc method = Some (st, d) /\
    (is_aka c = false -> st = PJ_SUCCESS -> d = answer ch uri c cnonce nc method) /\
    (is_aka c = false -> algorithm_ok ch = true -> qop_ok ch = true -> st = PJ_SUCCESS).
Proof.
  intros Hc (Hr & Hn) Hu Hcn Hm. unfold respond_digest, algorithm_ok, qop_ok, answer.
  pose proof (chosen_short ch cnonce nc Hcn) as Hch. unfold chosen in *. cbn zeta.
  rewrite <- !negb_orb. destruct (_ || _ || _); cbn [negb]; [|by eexists _, _].
  destruct (zlen (dc_qop ch) =? 0); cbn [orb] in *.
  - destruct (is_aka c); [destruct (aka_cb _ _ _ _); by eexists _, _|]. rewrite create_digest_eq by (done || by repeat constructor).
    by eexists _, _.
  - destruct (has_auth_qop (dc_qop ch)); [|by eexists _, _]. destruct (is_aka c); [destruct (aka_cb _ _ _ _); by eexists _, _|].
    repeat (apply Forall_cons in Hch as [? Hch]). rewrite create_digest_eq by (done || by repeat constructor). by eexists _, _.
Qed.

(** ** The invariant of a client *)

Record cached_ok (ca : pjsip_cached_auth) : Prop := {
  co_cnonce : short (ca_cnonce ca);
  co_stale : 0 <= ca_stale_cnt ca;
  co_last : ca_cnonce ca <> [] \/ ca_qop_value ca <> PJSIP_AUTH_QOP_NONE -> exists h, ca_last_chal ca = Some h;
  co_chal : forall h, ca_last_chal ca = Some h -> chal_short (wa_chal h)
}.

Record sess_ok (s : pjsip_auth_clt_sess) : Prop := {
  so_creds : Forall cred_ok (cl_creds s);
  so_cached : Forall cached_ok (cl_cached s)
}.

Definition req_ok (r : auth_request) : Prop := short (rq_uri r) /\ short (rq_method r).

Lemma zlen_is_nil (s : list Z) : (zlen s =? 0) = true <-> s = [].
Proof. destruct s; unfold zlen; cbn; split; try done. Qed.

(** What an update leaves as it is, and what it makes sure of *)
Record updated (unique : list Z) (h : pjsip_www_authenticate_hdr) (ca ca' : pjsip_cached_auth) : Prop := {
  up_ok : cached_ok ca';
  up_stale : ca_stale_cnt ca' = ca_stale_cnt ca;
  up_qop : ca_qop_value ca' = ca_qop_value ca;
  up_realm : map pj_tolower (ca_realm ca) = map pj_tolower (dc_realm (wa_chal h)) -> ca_realm ca' = ca_realm ca;
  up_last : dc_qop (wa_chal h) <> [] -> exists l, ca_last_chal ca' = Some l
}.

Lemma digest_update_ok unique ca h : cached_ok ca -> chal_short (wa_chal h) -> short unique ->
  exists ca', update_digest_session auto_send_next unique ca h = Some ca' /\ updated unique h ca ca'.
Proof.
  intros [Hcn Hst Hl Hch] Hh Hu. unfold update_digest_session. cbn zeta. destruct (zlen (dc_qop (wa_chal h)) =? 0) eqn:Eq.
  { apply zlen_is_nil in Eq. eexists. split; [reflexivity|].
    assert (Hsame : updated unique h ca ca) by by (split; [split| | | |]).
    assert (Hset : updated unique h ca (set_ca_chal (ca_nc ca) (Some h) ca)).
    { split; [split| | | |]; try done; cbn; [by eexists|]. by intros ? [= <-]. }
    destruct auto_send_next; [|done]. destruct (ca_last_chal ca); [|done]. by destruct (_ && _). }
  destruct (zlen (ca_cnonce ca) =? 0) eqn:Ec.
  { eexists. split; [reflexivity|]. split; [split| | | |]; cbn; try done; [by eexists|by intros ? [= <-]| |by eexists].
    destruct (zlen (ca_realm ca) =? 0) eqn:Er; [|done]. apply zlen_is_nil in Er. rewrite Er. intros H. symmetry in H.
    by apply fmap_nil_inv in H. }
  destruct Hl as [l El]; [left; intros H; apply zlen_is_nil in H; congruence|]. rewrite El. specialize (Hch l El).
  destruct (pj_strcmp (dc_nonce _) _ =? 0); (eexists; split; [reflexivity|]); (split; [split| | | |]); cbn; try done; try by eexists.
  - by intros ? [= <-].
  - intros ? [= <-]. by destruct Hch, Hh.
Qed.

(** What answering a challenge does: the status, the header, and the authentication *)
Lemma respond_ok unique h uri c method ca : cached_ok ca -> chal_short (wa_chal h) -> short unique -> cred_ok c -> short uri -> short method ->
  exists st o ca', auth_respond garbage aka_cb auto_send_next unique h uri c method ca = Some (st, o, ca') /\
    cached_ok ca' /\ ca_stale_cnt ca' = ca_stale_cnt ca /\
    (map pj_tolower (ca_realm ca) = map pj_tolower (dc_realm (wa_chal h)) -> ca_realm ca' = ca_realm ca) /\
    (is_Some o <-> st = PJ_SUCCESS) /\
    (is_aka c = false -> forall a, o = Some a -> exists cu, update_digest_session auto_send_next unique ca h = Some cu /\
       a = mk_az (wa_proxy h) pjsip_DIGEST_STR (answer (wa_chal h) uri c (ca_cnonce cu) (ca_nc cu) method)) /\
    (is_aka c = false -> uri <> [] -> map pj_tolower (wa_scheme h) = map pj_tolower pjsip_DIGEST_STR ->
       algorithm_ok (wa_chal h) = true -> qop_ok (wa_chal h) = true -> is_Some o).
Proof.
  intros Hca Hh Hq Hc Hu Hm. unfold auth_respond. destruct (Z.ltb_spec (zlen uri) 1) as [Hz|Hz].
  { eexists _, _, _. split; [reflexivity|]. split_and!; try done; try (by split; [intros [? ?]|]). intros _ Hn.
    destruct uri; [done|]. unfold zlen in Hz. cbn in Hz. lia. }
  destruct (Z.eqb_spec (pj_stricmp (wa_scheme h) pjsip_DIGEST_STR) 0) as [Es|Es]; cbn [negb].
  2: { eexists _, _, _. split; [reflexivity|]. split_and!; try done; try (by split; [intros [? ?]|]). intros _ _ H. by rewrite <- pj_stricmp_0 in H. }
  destruct (digest_update_ok unique ca h Hca Hh Hq) as (cu & Eu & [Hok Hst Hqv Hr Hl]). rewrite Eu. cbn [mbind option_bind].
  destruct (respond_cases (wa_chal h) uri c (ca_cnonce cu) (ca_nc cu) method) as (st & d & -> & Hd & Hs); try done; [apply Hok|].
  cbn [mbind option_bind]. destruct (Z.eqb_spec st PJ_SUCCESS) as [->|Hne]; cbn [negb].
  2: { eexists _, _, _. split; [reflexivity|]. split_and!; try done; try (by split; [intros [? ?]|]). intros. exfalso. by apply Hne, Hs. }
  eexists _, _, _. split; [reflexivity|]. split; [|split_and!; try done].
  - destruct (zlen (dc_qop (wa_chal h)) =? 0) eqn:Eq; cbn [negb]; [done|].
    assert (Hlast : exists l, ca_last_chal cu = Some l) by (apply Hl; intros H; apply zlen_is_nil in H; congruence).
    destruct (ca_qop_value cu); [|done..]. destruct Hok. by split.
  - destruct (negb _); [|done]. by destruct (ca_qop_value cu).
  - intros H. rewrite <- (Hr H). destruct (negb _); [|done]. by destruct (ca_qop_value cu).
  - intros Ha a [= <-]. exists cu. split; [done|]. by rewrite (Hd Ha eq_refl).
Qed.

(** ** Processing a challenge *)

(** A header of the request that answers a challenge *)
Definition answers (hchal : pjsip_www_authenticate_hdr) (h : pjsip_authorization_hdr) : bool :=
  Bool.eqb (wa_proxy hchal) (az_proxy h) && (pj_stricmp (dc_realm (wa_chal hchal)) (dg_realm (az_cred h)) =? 0).
Definition is_empty_auth (h : pjsip_authorization_hdr) : bool :=
  (pj_stricmp (az_scheme h) pjsip_DIGEST_STR =? 0) && (zlen (dg_response (az_cred h)) =? 0).
Definition others (hchal : pjsip_www_authenticate_hdr) : list pjsip_authorization_hdr -> list pjsip_authorization_hdr :=
  List.filter (fun h => negb (answers hchal h)).

Lemma find_sent_spec hchal l : forall before,
  match find_sent hchal before l with
  | (b, None) => b = before ++ others hchal l /\ Forall (fun h => answers hchal h = true -> is_empty_auth h = true) l
  | (b, Some (h, l')) => exists l1, l = l1 ++ h :: l' /\ b = before ++ others hchal l1 /\ answers hchal h = true /\ is_empty_auth h = false /\
      Forall (fun h => answers hchal h = true -> is_empty_auth h = true) l1
  end.
Proof.
  induction l as [|h l IH]; intros before; cbn [find_sent]; [by rewrite app_nil_r|]. fold (answers hchal h) (is_empty_auth h).
  destruct (answers hchal h) eqn:Ea; [destruct (is_empty_auth h) eqn:Ee|].
  - specialize (IH before). destruct (find_sent hchal before l) as [b [[h' l']|]].
    + destruct IH as (l1 & -> & -> & H). exists (h :: l1). cbn. rewrite Ea. split_and!; try done; try apply H. constructor; [done|apply H].
    + cbn. rewrite Ea. split; [apply IH|]. constructor; [done|apply IH].
  - exists []. cbn. by rewrite app_nil_r.
  - specialize (IH (before ++ [h])). destruct (find_sent hchal (before ++ [h]) l) as [b [[h' l']|]].
    + destruct IH as (l1 & -> & -> & H). exists (h :: l1). cbn. rewrite Ea, <- app_assoc. split_and!; try done; try apply H.
      constructor; [congruence|apply H].
    + cbn. rewrite Ea. destruct IH as [-> H]. rewrite <- app_assoc. split; [done|]. constructor; [congruence|done].
Qed.

Definition same_realm (ca : pjsip_cached_auth) (hchal : pjsip_www_authenticate_hdr) : Prop :=
  map pj_tolower (ca_realm ca) = map pj_tolower (dc_realm (wa_chal hchal)).

Definition has_answer (hchal : pjsip_www_authenticate_hdr) (l : list pjsip_authorization_hdr) : Prop :=
  exists h, In h l /\ answers hchal h = true /\ is_empty_auth h = false.

(** The header is the answer of the credential of the realm. *)
Definition header_ok sess (hchal : pjsip_www_authenticate_hdr) (req : auth_request) (a : pjsip_authorization_hdr) : Prop :=
  exists c cnonce nc, auth_find_cred sess (dc_realm (wa_chal hchal)) = Some c /\ short cnonce /\
    a = mk_az (wa_proxy hchal) pjsip_DIGEST_STR (answer (wa_chal hchal) (rq_uri req) c cnonce nc (rq_method req)).

(** A challenge the client can answer *)
Definition answerable sess (hchal : pjsip_www_authenticate_hdr) (req : auth_request) : Prop :=
  is_Some (auth_find_cred sess (dc_realm (wa_chal hchal))) /\ rq_uri req <> [] /\
  map pj_tolower (wa_scheme hchal) = map pj_tolower pjsip_DIGEST_STR /\ algorithm_ok (wa_chal hchal) = true /\ qop_ok (wa_chal hchal) = true.

Definition no_aka (sess : pjsip_auth_clt_sess) : Prop := Forall (fun c => is_aka c = false) (cl_creds sess).

(** All answers of the request that are not empty are out of date, and the realm's count
    leaves another try. *)
Definition may_retry (hchal : pjsip_www_authenticate_hdr) (req : auth_request) (count : Z) : Prop :=
  forall h, In h (rq_auth req) -> answers hchal h = true -> is_empty_auth h = false ->
    (dc_stale (wa_chal hchal) = true \/ dc_nonce (wa_chal hchal) <> dg_nonce (az_cred h)) /\ count + 1 < PJSIP_MAX_STALE_COUNT.

Record processed sess (hchal : pjsip_www_authenticate_hdr) (req req' : auth_request) (ca ca' : pjsip_cached_auth) (o : option pjsip_authorization_hdr) : Prop := {
  pr_ok : cached_ok ca';
  pr_req : rq_uri req' = rq_uri req /\ rq_method req' = rq_method req;
  pr_realm : ca_realm ca' = ca_realm ca;
  pr_stale : ca_stale_cnt ca <= ca_stale_cnt ca';
  pr_bound : is_Some o -> ca_stale_cnt ca < PJSIP_MAX_STALE_COUNT -> ca_stale_cnt ca' < PJSIP_MAX_STALE_COUNT;
  pr_retry : is_Some o -> has_answer hchal (rq_auth req) -> ca_stale_cnt ca' = ca_stale_cnt ca + 1;
  pr_others : forall h, In h (rq_auth req) -> answers hchal h = false -> In h (rq_auth req');
  pr_removed : is_Some o -> (length (List.filter (answers hchal) (rq_auth req)) <= 1)%nat -> Forall (fun h => answers hchal h = false) (rq_auth req');
  pr_header : no_aka sess -> forall a, o = Some a -> header_ok sess hchal req a;
  pr_success : no_aka sess -> answerable sess hchal req -> may_retry hchal req (ca_stale_cnt ca) -> is_Some o
}.

Lemma others_in hchal l h : In h l -> answers hchal h = false -> In h (others hchal l).
Proof. intros Hin Ha. apply filter_In. by rewrite Ha. Qed.

Lemma set_stale_ok n ca : cached_ok ca -> 0 <= n -> cached_ok (set_ca_stale n ca).
Proof. intros [] ?. by split. Qed.

(** The credential that is found is one of the session. *)
Lemma find_cred_in sess realm c : auth_find_cred sess realm = Some c -> In c (cl_creds sess).
Proof.
  unfold auth_find_cred. destruct (List.find _ _) as [c'|] eqn:E; [intros [= <-]; by apply find_some in E as [? _]|].
  intros H. apply last_Some_elem_of in H. apply list_elem_of_In in H. by apply filter_In in H as [? _].
Qed.

(** The part behind the checks of an earlier answer *)
Lemma answer_part unique hchal req sess l ca : sess_ok sess -> cached_ok ca -> req_ok req -> chal_short (wa_chal hchal) -> short unique ->
  same_realm ca hchal ->
  exists st o ca',
    match auth_find_cred sess (dc_realm (wa_chal hchal)) with
    | None => Some (PJSIP_ENOCREDENTIAL, None, set_rq_auth l req, ca)
    | Some cred =>
        '(status, h, c) ← auth_respond garbage aka_cb auto_send_next unique hchal (rq_uri (set_rq_auth l req)) cred (rq_method (set_rq_auth l req)) ca;
        Some (status, h, set_rq_auth l req, c)
    end = Some (st, o, set_rq_auth l req, ca') /\
    (is_Some o <-> st = PJ_SUCCESS) /\ cached_ok ca' /\ ca_realm ca' = ca_realm ca /\ ca_stale_cnt ca' = ca_stale_cnt ca /\
    (no_aka sess -> forall a, o = Some a -> header_ok sess hchal req a) /\
    (no_aka sess -> answerable sess hchal req -> is_Some o).
Proof.
  intros [Hs _] Hca [Hu Hm] Hh Hq Hr. unfold header_ok, answerable, no_aka. rewrite List.Forall_forall in Hs.
  destruct (auth_find_cred sess (dc_realm (wa_chal hchal))) as [c|] eqn:Ec.
  2: { eexists _, _, _. split; [reflexivity|]. split_and!; try done. by intros _ ([? ?] & _). }
  pose proof (find_cred_in _ _ _ Ec) as Hc.
  destruct (respond_ok unique hchal (rq_uri req) c (rq_method req) ca Hca Hh Hq (Hs c Hc) Hu Hm) as (st & o & ca' & E & Hok & Hst & Hre & Ho & Ha & Hsome).
  cbn [set_rq_auth rq_uri rq_method]. rewrite E. cbn [mbind option_bind]. eexists _, _, _. split; [reflexivity|].
  split_and!; try done; [by apply Hre| |].
  - intros Hn a Eo. rewrite List.Forall_forall in Hn. destruct (Ha (Hn c Hc) a Eo) as (cu & Eu & ->). exists c, (ca_cnonce cu), (ca_nc cu). split_and!; try done.
    destruct (digest_update_ok unique ca hchal Hca Hh Hq) as (cu' & Eu' & [Hok' _ _ _ _]). rewrite Eu in Eu'. injection Eu' as <-. apply Hok'.
  - intros Hn (_ & ? & ? & ? & ?). rewrite List.Forall_forall in Hn. by apply Hsome; [apply Hn| | | |].
Qed.

Lemma filter_none {A} (f : A -> bool) l : List.filter f l = [] -> Forall (fun x => f x = false) l.
Proof. induction l as [|x l IH]; cbn; [done|]. destruct (f x) eqn:E; [done|]. intros H. constructor; [done|by apply IH]. Qed.

Lemma others_none hchal l : Forall (fun h => answers hchal h = false) (others hchal l).
Proof. apply List.Forall_forall. intros h Hin. apply filter_In in Hin as [_ H]. by destruct (answers hchal h). Qed.

Lemma others_split hchal l1 h l' h' : answers hchal h = true -> In h' (l1 ++ h :: l') -> answers hchal h' = false ->
  In h' (others hchal l1 ++ l').
Proof.
  intros Ha Hin Hn. apply in_app_or in Hin as [Hin|[<-|Hin]]; [|congruence|]; apply in_or_app; [left; by apply others_in|by right].
Qed.

Lemma one_answer hchal l1 h l' : answers hchal h = true -> (length (List.filter (answers hchal) (l1 ++ h :: l')) <= 1)%nat ->
  Forall (fun h => answers hchal h = false) (others hchal l1 ++ l').
Proof.
  intros Ha Hlen. apply Forall_app. split; [apply others_none|]. apply filter_none. rewrite List.filter_app in Hlen. cbn in Hlen.
  rewrite Ha, length_app in Hlen. cbn in Hlen. destruct (List.filter (answers hchal) l'); [done|]. cbn in Hlen. lia.
Qed.

Lemma process_ok unique hchal req sess ca : sess_ok sess -> cached_ok ca -> req_ok req -> chal_short (wa_chal hchal) -> short unique ->
  same_realm ca hchal ->
  exists st o req' ca', process_auth garbage aka_cb auto_send_next unique hchal req sess ca = Some (st, o, req', ca') /\
    processed sess hchal req req' ca ca' o /\ (is_Some o <-> st = PJ_SUCCESS).
Proof.
  intros Hs Hca Hreq Hh Hq Hr. unfold process_auth. pose proof (find_sent_spec hchal (rq_auth req) []) as Hf.
  assert (Hno : ~ is_Some (@None pjsip_authorization_hdr)) by (intros [? ?]; done).
  destruct (find_sent hchal [] (rq_auth req)) as [b [[h l']|]]; cbn [app] in Hf.
  - destruct Hf as (l1 & El & -> & Ha & He & H1). assert (Hinh : In h (rq_auth req)) by (rewrite El; apply in_or_app; right; by left).
    assert (Hin2 : forall h', In h' (rq_auth req) -> answers hchal h' = false -> In h' (others hchal l1 ++ h :: l')).
    { intros h' Hi Hn. rewrite El in Hi. apply (others_split hchal l1 h l' h' Ha) in Hi; [|done].
      apply in_app_or in Hi as [Hi|Hi]; apply in_or_app; [by left|right; by right]. }
    cbn zeta. destruct (_ || _) eqn:Estale; cbn [negb].
    2: { apply orb_false_iff in Estale as [E1 E2]. apply negb_false_iff, Z.eqb_eq, pj_strcmp_0 in E2.
         eexists _, _, _, _. split; [reflexivity|]. split; [|by split]. split; try done.
         intros _ _ Hm. destruct (Hm h Hinh Ha He) as [[?|?] _]; congruence. }
    pose proof (set_stale_ok (ca_stale_cnt ca + 1) ca Hca ltac:(destruct Hca; lia)) as Hca'.
    destruct (Z.leb_spec PJSIP_MAX_STALE_COUNT (ca_stale_cnt (set_ca_stale (ca_stale_cnt ca + 1) ca))) as [Hmax|Hmax]; cbn in Hmax.
    { eexists _, _, _, _. split; [reflexivity|]. split; [|by split]. split; try done; [cbn; lia|].
      intros _ _ Hm. destruct (Hm h Hinh Ha He) as [_ ?]. lia. }
    destruct (answer_part unique hchal req sess (others hchal l1 ++ l') _ Hs Hca' Hreq Hh Hq Hr) as (st & o & ca' & -> & Ho & Hok & Hre & Hst & Hhd & Hsu).
    eexists _, _, _, _. split; [reflexivity|]. split; [|done]. cbn in Hre, Hst. split; try done; try (rewrite Hst; lia).
    + intros h' Hi Hn. rewrite El in Hi. by apply (others_split hchal l1 h l' h' Ha).
    + intros _ Hlen. rewrite El in Hlen. by apply (one_answer hchal l1 h l').
    + intros ? ? _. by apply Hsu.
  - destruct Hf as [-> Hf]. rewrite List.Forall_forall in Hf.
    destruct (answer_part unique hchal req sess (others hchal (rq_auth req)) _ Hs Hca Hreq Hh Hq Hr) as (st & o & ca' & -> & Ho & Hok & Hre & Hst & Hhd & Hsu).
    eexists _, _, _, _. split; [reflexivity|]. split; [|done]. split; try done; try (rewrite Hst; lia).
    + intros _ (h & Hin & Ha & He). rewrite (Hf h Hin Ha) in He. done.
    + intros h' Hin Hn. by apply others_in.
    + intros _ _. apply others_none.
    + intros ? ? _. by apply Hsu.
Qed.

(** ** The authentication of a realm *)

Lemma list_find_insert {A} (P : A -> Prop) `{forall x, Decision (P x)} l i c c' : l !! i = Some c -> (P c <-> P c') ->
  list_find P (<[i:=c']> l) = match list_find P l with Some (j, x) => Some (j, if decide (j = i) then c' else x) | None => None end.
Proof.
  revert i. induction l as [|x l IH]; intros [|i] Hl Hp; simpl in *; try done.
  - injection Hl as <-. destruct (decide (P x)), (decide (P c')); [done|tauto|tauto|]. by destruct (list_find P l) as [[j y]|].
  - destruct (decide (P x)); [done|]. rewrite (IH i Hl Hp). destruct (list_find P l) as [[j y]|]; [|done]. cbn.
    destruct (decide (j = i)), (decide (S j = S i)); congruence.
Qed.

Lemma list_find_last {A} (P : A -> Prop) `{forall x, Decision (P x)} l c :
  list_find P (l ++ [c]) = match list_find P l with Some y => Some y | None => if decide (P c) then Some (length l, c) else None end.
Proof.
  induction l as [|x l IH]; cbn; [by destruct (decide (P c))|]. destruct (decide (P x)); [done|]. rewrite IH.
  destruct (list_find P l) as [[j y]|]; [done|]. by destruct (decide (P c)).
Qed.

Definition stale_for (sess : pjsip_auth_clt_sess) (realm : list Z) : Z :=
  match find_cached_auth sess realm with Some (_, c) => ca_stale_cnt c | None => 0 end.

(** Two names of one realm find the same authentication. *)
Lemma find_cached_same sess r r' : map pj_tolower r = map pj_tolower r' -> find_cached_auth sess r = find_cached_auth sess r'.
Proof.
  intros H. unfold find_cached_auth. apply list_find_ext. intros c. by rewrite !pj_stricmp_0, H.
Qed.

Lemma stale_for_same sess r r' : map pj_tolower r = map pj_tolower r' -> stale_for sess r = stale_for sess r'.
Proof. intros H. unfold stale_for. by rewrite (find_cached_same sess r r' H). Qed.

(** The authentication of the challenge's realm, and the session with it *)
Lemma cached_for_ok hchal sess : sess_ok sess -> exists i c sess',
  cached_for hchal sess = (i, c, sess') /\ sess_ok sess' /\ cl_creds sess' = cl_creds sess /\ cached_ok c /\ same_realm c hchal /\
  cl_cached sess' !! i = Some c /\ find_cached_auth sess' (dc_realm (wa_chal hchal)) = Some (i, c) /\
  (forall r, stale_for sess' r = stale_for sess r).
Proof.
  intros [Hcr Hca]. unfold cached_for. destruct (find_cached_auth sess (dc_realm (wa_chal hchal))) as [[i c]|] eqn:E.
  - eexists _, _, _. split; [reflexivity|]. pose proof E as E'. unfold find_cached_auth in E'. apply list_find_Some in E' as (El & Ep & _).
    apply pj_stricmp_0 in Ep. split_and!; try done. rewrite Forall_lookup in Hca. by apply (Hca i).
  - set (c := mk_cached _ _ _ _ _ _ _). assert (Hc : cached_ok c) by (split; cbn; try done; by intros [?|?]).
    eexists _, _, _. split; [reflexivity|].
    assert (Hp : pj_stricmp (ca_realm c) (dc_realm (wa_chal hchal)) = 0) by (by apply pj_stricmp_0).
    split_and!; try done.
    + split; [done|]. cbn. apply Forall_app. split; [done|]. by constructor.
    + cbn. by rewrite lookup_app_r, Nat.sub_diag by done.
    + unfold find_cached_auth in *. cbn. rewrite list_find_last, E. by rewrite decide_True.
    + intros r. unfold stale_for, find_cached_auth. cbn. rewrite list_find_last. destruct (list_find _ (cl_cached sess)); [done|].
      by destruct (decide _).
Qed.

(** Storing what became of it *)
Lemma store_ok hchal sess i c c' : sess_ok sess -> cached_ok c' -> cl_cached sess !! i = Some c -> ca_realm c' = ca_realm c -> same_realm c hchal ->
  find_cached_auth sess (dc_realm (wa_chal hchal)) = Some (i, c) ->
  sess_ok (set_cl_cached (<[i:=c']> (cl_cached sess)) sess) /\
  (forall r, stale_for (set_cl_cached (<[i:=c']> (cl_cached sess)) sess) r =
     if decide (map pj_tolower r = map pj_tolower (dc_realm (wa_chal hchal))) then ca_stale_cnt c' else stale_for sess r).
Proof.
  intros [Hcr Hca] Hc Hl Hr Hs Hf. split; [split; [done|]; cbn; by apply Forall_insert|]. intros r. unfold stale_for at 1, find_cached_auth. cbn.
  rewrite (list_find_insert _ _ i c c' Hl) by by rewrite Hr. fold (find_cached_auth sess r). destruct (decide _) as [Ed|Ed].
  - rewrite (find_cached_same sess _ _ Ed), Hf. by rewrite decide_True.
  - unfold stale_for. destruct (find_cached_auth sess r) as [[j x]|] eqn:E; [|done]. destruct (decide (j = i)) as [->|]; [|done].
    exfalso. unfold find_cached_auth in E. apply list_find_Some in E as (El & Ep & _). rewrite Hl in El. injection El as <-.
    apply pj_stricmp_0 in Ep. unfold same_realm in Hs. congruence.
Qed.

(** ** One challenge of a response *)

(** The session and the request behind it *)
Record step sess (hchal : pjsip_www_authenticate_hdr) (req req' : auth_request) (c c' : pjsip_cached_auth) o sess' : Prop := {
  st_processed : processed sess hchal req req' c c' o;
  st_sess : sess_ok sess';
  st_creds : cl_creds sess' = cl_creds sess;
  st_before : ca_stale_cnt c = stale_for sess (dc_realm (wa_chal hchal));
  st_after : forall r, stale_for sess' r =
    if decide (map pj_tolower r = map pj_tolower (dc_realm (wa_chal hchal))) then ca_stale_cnt c' else stale_for sess r
}.

(** What is looked up depends on the credentials only. *)
Lemma processed_creds sess sess' hchal req req' c c' o : cl_creds sess' = cl_creds sess -> processed sess hchal req req' c c' o ->
  processed sess' hchal req req' c c' o.
Proof.
  intros E [? ? ? ? ? ? ? ? Hh Hs]. assert (Ef : forall r, auth_find_cred sess' r = auth_find_cred sess r) by (intros r; unfold auth_find_cred; by rewrite E).
  split; try done.
  - intros Hn a Ho. unfold no_aka in Hn. rewrite E in Hn. destruct (Hh Hn a Ho) as (x & n & k & Hx). exists x, n, k. by rewrite Ef.
  - intros Hn Ha. unfold no_aka in Hn. unfold answerable in Ha. rewrite E in Hn. rewrite Ef in Ha. by apply Hs.
Qed.

Lemma step_ok unique hchal sess req : sess_ok sess -> req_ok req -> chal_short (wa_chal hchal) -> short unique ->
  exists i c sess0 st o req' c', cached_for hchal sess = (i, c, sess0) /\
    process_auth garbage aka_cb auto_send_next unique hchal req sess0 c = Some (st, o, req', c') /\ (is_Some o <-> st = PJ_SUCCESS) /\
    step sess hchal req req' c c' o (set_cl_cached (<[i:=c']> (cl_cached sess0)) sess0).
Proof.
  intros Hs Hreq Hh Hq. destruct (cached_for_ok hchal sess Hs) as (i & c & sess0 & E & Hs0 & Ecr & Hc & Hr & Hl & Hf & Hst).
  destruct (process_ok unique hchal req sess0 c Hs0 Hc Hreq Hh Hq Hr) as (st & o & req' & c' & Ep & Hp & Ho).
  destruct (store_ok hchal sess0 i c c' Hs0 (pr_ok _ _ _ _ _ _ _ Hp) Hl (pr_realm _ _ _ _ _ _ _ Hp) Hr Hf) as [Hs' Hst'].
  exists i, c, sess0, st, o, req', c'. split_and!; try done. split; try done.
  - by apply (processed_creds sess0).
  - rewrite <- Hst. unfold stale_for. by rewrite Hf.
  - intros r. by rewrite Hst', Hst.
Qed.

(** ** Challenges to one target: a realm, of the server or of a proxy *)

Definition same_target (k hchal : pjsip_www_authenticate_hdr) : Prop :=
  wa_proxy k = wa_proxy hchal /\ map pj_tolower (dc_realm (wa_chal k)) = map pj_tolower (dc_realm (wa_chal hchal)).

Lemma answers_iff k h : answers k h = true <->
  wa_proxy k = az_proxy h /\ map pj_tolower (dc_realm (wa_chal k)) = map pj_tolower (dg_realm (az_cred h)).
Proof. unfold answers. by rewrite andb_true_iff, Bool.eqb_true_iff, Z.eqb_eq, pj_stricmp_0. Qed.

Lemma header_answers sess k hchal req a : header_ok sess hchal req a -> same_target k hchal -> answers k a = true /\ is_empty_auth a = false.
Proof.
  intros (c & cnonce & nc & _ & _ & ->) [E1 E2]. unfold answer, is_empty_auth. destruct (chosen _ _ _) as [[qop n] cn]. cbn. split.
  - by apply answers_iff.
  - unfold rfc2617_digest. rewrite hex_md5_length. apply andb_false_r.
Qed.

Definition realm_of (k : pjsip_www_authenticate_hdr) : list Z := dc_realm (wa_chal k).

(** What any number of answered challenges do for a target *)
Record progress (k : pjsip_www_authenticate_hdr) sess (req : auth_request) sess' (req' : auth_request) : Prop := {
  pg_answer : has_answer k (rq_auth req) -> has_answer k (rq_auth req');
  pg_stale : stale_for sess (realm_of k) <= stale_for sess' (realm_of k);
  pg_bound : stale_for sess (realm_of k) < PJSIP_MAX_STALE_COUNT -> stale_for sess' (realm_of k) < PJSIP_MAX_STALE_COUNT
}.

Lemma progress_trans k s1 r1 s2 r2 s3 r3 : progress k s1 r1 s2 r2 -> progress k s2 r2 s3 r3 -> progress k s1 r1 s3 r3.
Proof. intros [] []. split; [tauto|lia|tauto]. Qed.

Lemma has_answer_in k l h : In h l -> answers k h = true -> is_empty_auth h = false -> has_answer k l.
Proof. intros. by exists h. Qed.

Lemma step_progress k sess hchal req req' c c' a sess' : no_aka sess -> step sess hchal req req' c c' (Some a) sess' ->
  let req2 := set_rq_auth (rq_auth req' ++ [a]) req' in
  progress k sess req sess' req2 /\
  (same_target k hchal -> has_answer k (rq_auth req2) /\
     (has_answer k (rq_auth req) -> stale_for sess' (realm_of k) = stale_for sess (realm_of k) + 1)).
Proof.
  intros Hn [[Hok _ _ Hst Hb Hre Hot _ Hhd _] _ _ Hbe Haf]. cbn zeta.
  pose proof (Hhd Hn a eq_refl) as Ha. assert (Hsome : is_Some (Some a)) by done.
  assert (Hnew : same_target k hchal -> has_answer k (rq_auth req' ++ [a])).
  { intros Ht. destruct (header_answers _ _ _ _ _ Ha Ht). apply (has_answer_in k _ a); [apply in_or_app; right; by left|done|done]. }
  pose proof (Haf (realm_of k)) as Hk. destruct (decide _) as [Er|Er].
  - pose proof (stale_for_same sess _ _ Er) as Hk2. rewrite <- Hbe in Hk2.
    split; [split; rewrite ?Hk, ?Hk2; [|done|by apply Hb]|]; rewrite ?Hk, ?Hk2.
    + intros (h & Hin & Ha1 & He). destruct (answers hchal h) eqn:Eh.
      * apply Hnew. apply answers_iff in Ha1 as [H1 H2]. apply answers_iff in Eh as [H3 H4]. split; [congruence|done].
      * apply (has_answer_in k _ h); [apply in_or_app; left; by apply Hot|done|done].
    + intros Ht. split; [by apply Hnew|]. intros (h & Hin & Ha1 & He). apply Hre; [done|]. exists h. split_and!; try done.
      destruct Ht as [Ht1 Ht2]. apply answers_iff in Ha1 as [H1 H2]. apply answers_iff. split; congruence.
  - split; [split; rewrite ?Hk; [|done|done]|].
    + intros (h & Hin & Hk' & He). apply (has_answer_in k _ h); [|done|done]. apply in_or_app. left. apply Hot; [done|].
      destruct (answers hchal h) eqn:Eh; [|done]. apply answers_iff in Hk' as [H1 H2]. apply answers_iff in Eh as [H3 H4]. unfold realm_of in Er. congruence.
    + intros [_ ?]. done.
Qed.

(** Strings short enough for the digest *)
Definition hdr_short (h : pjsip_www_authenticate_hdr * list Z) : Prop := chal_short (wa_chal h.1) /\ short h.2.

Lemma challenges_ok hdrs : forall sess req, sess_ok sess -> req_ok req -> Forall hdr_short hdrs ->
  exists st req' sess', answer_challenges garbage aka_cb auto_send_next hdrs sess req = Some (st, req', sess') /\
    sess_ok sess' /\ cl_creds sess' = cl_creds sess /\ rq_uri req' = rq_uri req /\ rq_method req' = rq_method req /\
    (no_aka sess -> st = PJ_SUCCESS -> forall k, progress k sess req sess' req' /\
       (Exists (fun h => same_target k h.1) hdrs -> has_answer k (rq_auth req') /\
          (has_answer k (rq_auth req) -> stale_for sess (realm_of k) + 1 <= stale_for sess' (realm_of k)))).
Proof.
  induction hdrs as [|[hchal unique] hdrs IH]; intros sess req Hs Hreq Hh; cbn [answer_challenges].
  { eexists _, _, _. split; [reflexivity|]. split_and!; try done. intros _ _ k. split; [by split|]. intros H. by apply Exists_nil in H. }
  apply Forall_cons in Hh as [[Hch Hun] Hh]. cbn in Hch, Hun.
  destruct (step_ok unique hchal sess req Hs Hreq Hch Hun) as (i & c & sess0 & st & o & req' & c' & -> & -> & Ho & Hstep).
  cbn [mbind option_bind]. set (sess1 := set_cl_cached _ _) in *. pose proof (st_sess _ _ _ _ _ _ _ _ Hstep) as Hs1.
  pose proof (st_creds _ _ _ _ _ _ _ _ Hstep) as Ecr. destruct (pr_req _ _ _ _ _ _ _ (st_processed _ _ _ _ _ _ _ _ Hstep)) as [Eu Em].
  destruct o as [a|].
  2: { eexists _, _, _. split; [reflexivity|]. split_and!; try done. intros _ Hst. apply Ho in Hst as [? ?]. done. }
  destruct (IH sess1 (set_rq_auth (rq_auth req' ++ [a]) req') Hs1) as (st' & req2 & sess2 & -> & Hs2 & Ecr2 & Eu2 & Em2 & Hp).
  { destruct Hreq. split; cbn; congruence. } { done. }
  cbn in Eu2, Em2. eexists _, _, _. split; [reflexivity|]. split_and!; try congruence. intros Hn Hst k.
  destruct (step_progress k sess hchal req req' c c' a sess1 Hn Hstep) as [Hp1 Ht1].
  assert (Hn1 : no_aka sess1) by (unfold no_aka; by rewrite Ecr). destruct (Hp Hn1 Hst k) as [Hp2 Ht2].
  split; [by apply (progress_trans k _ _ _ _ _ _ Hp1)|]. intros Hex. destruct Hp1 as [Ha1 Hs1' _], Hp2 as [Ha2 Hs2' _].
  apply Exists_cons in Hex as [Ht|Ht]; cbn in Ht.
  - destruct (Ht1 Ht) as [Hans Hinc]. split; [by apply Ha2|]. intros H. specialize (Hinc H). lia.
  - destruct (Ht2 Ht) as [Hans Hinc]. split; [done|]. intros H. specialize (Hinc (Ha1 H)). lia.
Qed.

(** ** The requests of a session *)

Lemma reinit_ok code hdrs sess req : sess_ok sess -> req_ok req -> Forall hdr_short hdrs ->
  exists st req' sess', pjsip_auth_clt_reinit_req garbage aka_cb auto_send_next code hdrs sess req = Some (st, req', sess') /\
    sess_ok sess' /\ cl_creds sess' = cl_creds sess /\ rq_uri req' = rq_uri req /\ rq_method req' = rq_method req /\
    (no_aka sess -> st = PJ_SUCCESS -> forall k, progress k sess req sess' req' /\
       (Exists (fun h => same_target k h.1) hdrs -> has_answer k (rq_auth req') /\
          (has_answer k (rq_auth req) -> stale_for sess (realm_of k) + 1 <= stale_for sess' (realm_of k)))).
Proof.
  intros Hs Hreq Hh. unfold pjsip_auth_clt_reinit_req. destruct (negb _); [by eexists _, _, _|].
  destruct (challenges_ok hdrs sess (mk_areq (rq_method req) (rq_uri req) (rq_auth req) (rq_branch req) false (rq_ref req)) Hs Hreq Hh)
    as (st & req' & sess' & -> & Hs' & Ecr & Eu & Em & Hp). cbn [mbind option_bind]. cbn in Eu, Em.
  destruct (Z.eqb_spec st PJ_SUCCESS) as [->|Hne]; cbn [negb]; [|by eexists _, _, _].
  destruct hdrs as [|h hdrs]; eexists _, _, _; (split; [reflexivity|]); split_and!; try done.
  intros Hn _ k. destruct (Hp Hn eq_refl k) as [[] Ht]. split; [by split|done].
Qed.

Lemma respond_stored unique h uri c method ca : cached_ok ca -> ca_last_chal ca = Some h -> short unique -> cred_ok c -> short uri -> short method ->
  exists st o ca', auth_respond garbage aka_cb auto_send_next unique h uri c method ca = Some (st, o, ca') /\ cached_ok ca' /\
    ca_stale_cnt ca' = ca_stale_cnt ca /\ (is_Some o <-> st = PJ_SUCCESS).
Proof.
  intros Hca El Hu Hc Huri Hm. destruct (respond_ok unique h uri c method ca Hca (co_chal _ Hca h El) Hu Hc Huri Hm) as (st & o & ca' & -> & ? & ? & _ & ? & _).
  by eexists _, _, _.
Qed.

Lemma init_cached_ok unique sess l : sess_ok sess -> short unique -> Forall cached_ok l -> forall req added, req_ok req ->
  exists st req' added' l', init_cached garbage aka_cb auto_send_next unique sess req added l = Some (st, req', added', l') /\
    Forall cached_ok l' /\ rq_uri req' = rq_uri req /\ rq_method req' = rq_method req /\
    (st = PJ_SUCCESS -> Forall (fun c => ca_stale_cnt c = 0) l').
Proof.
  intros Hs Hq. induction l as [|c l IH]; intros Hl req added Hreq; cbn [init_cached]; [by eexists _, _, _, _|].
  apply Forall_cons in Hl as [Hc Hl]. specialize (IH Hl). pose proof (set_stale_ok 0 c Hc ltac:(lia)) as Hc0.
  assert (Hnext : forall req' added' c', rq_uri req' = rq_uri req -> rq_method req' = rq_method req -> cached_ok c' -> ca_stale_cnt c' = 0 ->
    exists st r2 a2 l2, ('(status, req, added, l') ← init_cached garbage aka_cb auto_send_next unique sess req' added' l;
                         Some (status, req, added, c' :: l')) = Some (st, r2, a2, l2) /\
      Forall cached_ok l2 /\ rq_uri r2 = rq_uri req /\ rq_method r2 = rq_method req /\ (st = PJ_SUCCESS -> Forall (fun c => ca_stale_cnt c = 0) l2)).
  { intros r a c' Eu Em Hc' Hst. destruct (IH r a) as (st & r2 & a2 & l2 & -> & Hl2 & Eu2 & Em2 & Hz).
    { destruct Hreq. split; congruence. }
    cbn [mbind option_bind]. eexists _, _, _, _. split; [reflexivity|]. split_and!; try congruence; [by constructor|]. intros E. constructor; [done|by apply Hz]. }
  set (c0 := set_ca_stale 0 c) in *. destruct Hs as [Hcr _]. rewrite List.Forall_forall in Hcr. destruct Hreq as [Hu Hm].
  destruct (ca_qop_value c0) eqn:Eqop; [| |by apply Hnext..].
  - destruct auto_send_next eqn:Eauto; [|by apply Hnext]. unfold new_auth_for_req.
    destruct (ca_last_chal c0) as [h|] eqn:El; [|cbn [mbind option_bind]; by apply Hnext].
    destruct (auth_find_cred sess (ca_realm c0)) as [cr|] eqn:Ecr; [|cbn [mbind option_bind]; by apply Hnext].
    destruct (respond_stored unique h (rq_uri req) cr (rq_method req) c0 Hc0 El Hq (Hcr cr (find_cred_in _ _ _ Ecr)) Hu Hm) as (st & o & c2 & E & Hc2 & Hst & Ho).
    rewrite Eauto in E. rewrite E. cbn [mbind option_bind]. apply Hnext; try done; by destruct o.
  - destruct auto_send_next eqn:Eauto; [|by apply Hnext].
    destruct (co_last c0 Hc0) as [h El]; [right; by rewrite Eqop|]. rewrite El.
    destruct (auth_find_cred sess (ca_realm c0)) as [cr|] eqn:Ecr; [|by apply Hnext].
    destruct (respond_stored unique h (rq_uri req) cr (rq_method req) c0 Hc0 El Hq (Hcr cr (find_cred_in _ _ _ Ecr)) Hu Hm) as (st & o & c2 & E & Hc2 & Hst & Ho).
    rewrite Eauto in E. rewrite E. cbn [mbind option_bind]. destruct o as [a|]; [by apply Hnext|].
    eexists _, _, _, _. split; [reflexivity|]. split_and!; try done; [by constructor|]. intros Hs. apply Ho in Hs as [? ?]. done.
Qed.

Lemma initial_auth_keeps alg creds : forall req added,
  rq_uri (initial_auth alg req added creds) = rq_uri req /\ rq_method (initial_auth alg req added creds) = rq_method req.
Proof.
  induction creds as [|c creds IH]; intros req added; [done|]. cbn [initial_auth]. by destruct (get_header_for_realm added _) as [[i h]|];
    rewrite (proj1 (IH _ _)), (proj2 (IH _ _)).
Qed.

Lemma fresh_stale sess r : Forall (fun c => ca_stale_cnt c = 0) (cl_cached sess) -> stale_for sess r = 0.
Proof.
  intros H. unfold stale_for. destruct (find_cached_auth sess r) as [[i c]|] eqn:E; [|done]. apply list_find_Some in E as (El & _).
  rewrite Forall_lookup in H. by apply (H i).
Qed.

Lemma init_req_ok unique sess req : sess_ok sess -> short unique -> req_ok req ->
  exists st req' sess', pjsip_auth_clt_init_req garbage aka_cb auto_send_next unique sess req = Some (st, req', sess') /\
    sess_ok sess' /\ cl_creds sess' = cl_creds sess /\ rq_uri req' = rq_uri req /\ rq_method req' = rq_method req /\
    (st = PJ_SUCCESS -> forall r, stale_for sess' r = 0).
Proof.
  intros Hs Hq Hreq. unfold pjsip_auth_clt_init_req.
  destruct (init_cached_ok unique sess (cl_cached sess) Hs Hq (so_cached _ Hs) req [] Hreq) as (st & req' & added & l & -> & Hl & Eu & Em & Hz).
  cbn [mbind option_bind]. assert (Hs' : sess_ok (set_cl_cached l sess)) by (split; [apply Hs|done]).
  destruct (Z.eqb_spec st PJ_SUCCESS) as [->|Hne]; cbn [negb]; [|by eexists _, _, _].
  assert (Hz' : forall r, stale_for (set_cl_cached l sess) r = 0) by (intros r; apply fresh_stale; by apply Hz).
  destruct (negb _); [by eexists _, _, _|]. destruct (_ || _); [by eexists _, _, _|].
  destruct (initial_auth_keeps (pf_algorithm (cl_pref (set_cl_cached l sess))) (cl_creds (set_cl_cached l sess)) req' added) as [E1 E2].
  eexists _, _, _. split; [reflexivity|]. split_and!; try done; congruence.
Qed.

(** A client with usable credentials never computes an undefined digest and never follows
    a missing challenge: in any session that keeps the invariant, the preparation of a request
    and the answer to any challenges give a result, keep the invariant, and change neither
    the credentials nor the method and the URI of the request. *)
Theorem auth_client_safe unique code hdrs sess req : sess_ok sess -> req_ok req -> short unique -> Forall hdr_short hdrs ->
  (exists st req' sess', pjsip_auth_clt_init_req garbage aka_cb auto_send_next unique sess req = Some (st, req', sess') /\
     sess_ok sess' /\ cl_creds sess' = cl_creds sess /\ req_ok req') /\
  (exists st req' sess', pjsip_auth_clt_reinit_req garbage aka_cb auto_send_next code hdrs sess req = Some (st, req', sess') /\
     sess_ok sess' /\ cl_creds sess' = cl_creds sess /\ req_ok req').
Proof.
  intros Hs Hreq Hq Hh. split.
  - destruct (init_req_ok unique sess req Hs Hq Hreq) as (st & req' & sess' & E & Hs' & Ec & Eu & Em & _).
    exists st, req', sess'. split_and!; try done. destruct Hreq. split; congruence.
  - destruct (reinit_ok code hdrs sess req Hs Hreq Hh) as (st & req' & sess' & E & Hs' & Ec & Eu & Em & _).
    exists st, req', sess'. split_and!; try done. destruct Hreq. split; congruence.
Qed.

(** A request that is sent again for each response of a list, as long as it can be *)
Fixpoint retry (responses : list (Z * list (pjsip_www_authenticate_hdr * list Z))) (sess : pjsip_auth_clt_sess) (req : auth_request) :
    option (Z * auth_request * pjsip_auth_clt_sess) :=
  match responses with
  | [] => Some (PJ_SUCCESS, req, sess)
  | (code, hdrs) :: rest =>
      '(st, req, sess) ← pjsip_auth_clt_reinit_req garbage aka_cb auto_send_next code hdrs sess req;
      if st =? PJ_SUCCESS then retry rest sess req else Some (st, req, sess)
  end.

Definition targets (k : pjsip_www_authenticate_hdr) (resp : Z * list (pjsip_www_authenticate_hdr * list Z)) : Prop :=
  Forall hdr_short resp.2 /\ Exists (fun h => same_target k h.1) resp.2.

(** Each response to a request that had an answer counts. *)
Lemma retry_counts k responses : Forall (targets k) responses -> forall sess req req' sess', sess_ok sess -> no_aka sess -> req_ok req ->
  has_answer k (rq_auth req) -> stale_for sess (realm_of k) < PJSIP_MAX_STALE_COUNT ->
  retry responses sess req = Some (PJ_SUCCESS, req', sess') ->
  stale_for sess (realm_of k) + Z.of_nat (length responses) < PJSIP_MAX_STALE_COUNT.
Proof.
  induction 1 as [|[code hdrs] responses [Hh Hex] _ IH]; intros sess req req' sess' Hs Hn Hreq Ha Hb; cbn [retry length]; [lia|].
  destruct (reinit_ok code hdrs sess req Hs Hreq Hh) as (st & req2 & sess2 & -> & Hs2 & Ecr & Eu & Em & Hp). cbn [mbind option_bind].
  destruct (Z.eqb_spec st PJ_SUCCESS) as [->|Hne]; [|by intros [= ->]].
  destruct (Hp Hn eq_refl k) as [[_ _ Hb2] Ht]. destruct (Ht Hex) as [Ha2 Hinc]. specialize (Hinc Ha). intros Hr.
  assert (Hn2 : no_aka sess2) by (unfold no_aka; by rewrite Ecr).
  assert (Hreq2 : req_ok req2) by (destruct Hreq; split; congruence).
  specialize (IH sess2 req2 req' sess' Hs2 Hn2 Hreq2 Ha2 (Hb2 Hb) Hr). lia.
Qed.

(** C15: A client answers the challenges of one realm for a request PJSIP_MAX_STALE_COUNT
    times at most, whatever nonces and stale flags the server sends and whatever other
    challenges its responses carry: a request that was prepared and then sent again for a
    list of responses that all challenge the realm was sent again three times at most. *)
Theorem retries_bounded unique k responses sess req req1 sess1 req' sess' : sess_ok sess -> no_aka sess -> req_ok req -> short unique ->
  Forall (targets k) responses ->
  pjsip_auth_clt_init_req garbage aka_cb auto_send_next unique sess req = Some (PJ_SUCCESS, req1, sess1) ->
  retry responses sess1 req1 = Some (PJ_SUCCESS, req', sess') ->
  Z.of_nat (length responses) <= PJSIP_MAX_STALE_COUNT.
Proof.
  intros Hs Hn Hreq Hq Ht Ei Hr. destruct (init_req_ok unique sess req Hs Hq Hreq) as (st & r1 & s1 & E & Hs1 & Ecr & Eu & Em & Hz).
  rewrite Ei in E. injection E as <- <- <-. specialize (Hz eq_refl (realm_of k)).
  destruct Ht as [|[code hdrs] responses [Hh Hex] Ht]; [done|]. cbn [retry length] in *.
  destruct (reinit_ok code hdrs sess1 req1 Hs1) as (st & r2 & s2 & E2 & Hs2 & Ecr2 & Eu2 & Em2 & Hp); [destruct Hreq; split; congruence|done|].
  rewrite E2 in Hr. cbn [mbind option_bind] in Hr. destruct (Z.eqb_spec st PJ_SUCCESS) as [->|Hne]; [|congruence].
  assert (Hn1 : no_aka sess1) by (unfold no_aka; by rewrite Ecr). destruct (Hp Hn1 eq_refl k) as [[_ Hst Hb] Hans].
  destruct (Hans Hex) as [Ha _]. rewrite Hz in Hst, Hb.
  assert (Hc := retry_counts k responses Ht s2 r2 req' sess' Hs2 ltac:(unfold no_aka; by rewrite Ecr2) ltac:(destruct Hreq; split; congruence)
    Ha ltac:(apply Hb; done) Hr). lia.
Qed.

(** ** What the server says to the answer *)

(** The server knows the password, or its digest, under its own realm. *)
Record same_secret (realm : list Z) (c c' : pjsip_cred_info) : Prop := {
  ss_username : ci_username c' = ci_username c;
  ss_realm : ci_realm c' = realm;
  ss_type : ci_data_type c' = ci_data_type c;
  ss_data : ci_data c' = ci_data c
}.

Lemma same_digest realm c c' nonce nc cnonce qop uri realm' method : same_secret realm c c' ->
  rfc2617_digest nonce nc cnonce qop uri realm' c' method = rfc2617_digest nonce nc cnonce qop uri realm' c method.
Proof. intros [Hu _ Ht Hd]. unfold rfc2617_digest, rfc2617_ha1. by rewrite Hu, Ht, Hd. Qed.

Lemma same_cred_ok realm c c' : same_secret realm c c' -> cred_ok c -> cred_ok c'.
Proof. intros [Hu _ Ht Hd]. unfold cred_ok. by rewrite Hu, Ht, Hd. Qed.

Lemma find_app_none {A} (f : A -> bool) l a : Forall (fun x => f x = false) l -> f a = true -> List.find f (l ++ [a]) = Some a.
Proof. induction 1 as [|x l Hx _ IH]; cbn; intros Ha; [by rewrite Ha|rewrite Hx; by apply IH]. Qed.

Lemma for_server_answers srv qop nonce opaque r1 r2 stale h :
  for_server srv h = answers (pjsip_auth_srv_challenge srv qop nonce opaque r1 r2 stale) h.
Proof.
  apply eq_true_iff_eq. rewrite answers_iff. unfold for_server. rewrite andb_true_iff, Bool.eqb_true_iff, Z.eqb_eq, pj_stricmp_0. cbn.
  by split; intros [-> ->].
Qed.

Lemma answer_short ch uri c cnonce nc method : chal_short ch -> short uri -> short cnonce -> dig_short (answer ch uri c cnonce nc method).
Proof.
  intros [Hr Hn] Hu Hc. pose proof (chosen_short ch cnonce nc Hc) as Hall. unfold answer, dig_short. destruct (chosen _ _ _) as [[q n] cn].
  cbn in *. repeat (apply Forall_cons in Hall as [? Hall]). by repeat constructor.
Qed.

Lemma answer_accepted srv lookup req l c c' ch cnonce nc : cred_ok c -> chal_short ch -> req_ok req -> short cnonce ->
  lookup (ci_username c) = (PJ_SUCCESS, c') -> same_secret (sv_realm srv) c c' -> dc_realm ch = sv_realm srv ->
  let a := mk_az (sv_is_proxy srv) pjsip_DIGEST_STR (answer ch (rq_uri req) c cnonce nc (rq_method req)) in
  rq_auth req = l ++ [a] -> Forall (fun h => for_server srv h = false) l ->
  pjsip_auth_srv_verify garbage srv lookup req = Some (PJ_SUCCESS, 200).
Proof.
  intros Hc Hch [Hu Hm] Hcn Hl Hs Hr a Ea Hno. unfold pjsip_auth_srv_verify. fold (for_server srv).
  pose proof (answer_short ch (rq_uri req) c cnonce nc (rq_method req) Hch Hu Hcn) as Hd. fold (az_cred a) in Hd.
  assert (Hf : for_server srv a = true).
  { unfold for_server. apply andb_true_iff. split; [apply Bool.eqb_true_iff; done|]. apply Z.eqb_eq, pj_stricmp_0. unfold a, answer.
    destruct (chosen _ _ _) as [[q n] cn]. cbn. by rewrite Hr. }
  rewrite Ea, (find_app_none _ l a Hno Hf). change (az_scheme a) with pjsip_DIGEST_STR. rewrite stricmp_refl. cbn [negb].
  assert (En : dg_username (az_cred a) = ci_username c) by (unfold a, answer; by destruct (chosen _ _ _) as [[q n] cn]).
  rewrite En, Hl. cbn [Z.eqb negb]. destruct (verify_eq a c' (rq_method req)) as (st & -> & Hst).
  { by apply (same_cred_ok (sv_realm srv) c). } { done. } { done. } { by apply pj_stricmp_0. }
  cbn [mbind option_bind]. assert (st = PJ_SUCCESS) as ->; [|done]. apply Hst. split_and!.
  - by rewrite En, (ss_username _ _ _ Hs).
  - rewrite (ss_realm _ _ _ Hs). unfold a, answer. by destruct (chosen _ _ _) as [[q n] cn].
  - rewrite (ss_realm _ _ _ Hs), (same_digest _ _ _ _ _ _ _ _ _ _ Hs). unfold a, answer. destruct (chosen _ _ _) as [[q n] cn]. cbn. by rewrite Hr.
Qed.

(** C13: What a client answers is accepted: when a server challenges a request, and the client
    has a credential for the realm whose name and secret the server knows, the client's next
    request is accepted with 200, with and without qop.  This covers the second and the
    third answer too, when the nonce is new or the server says that the old one is stale. *)
Theorem challenge_answered srv lookup qop nonce opaque r1 r2 stale unique sess req c c' :
  let hchal := pjsip_auth_srv_challenge srv qop nonce opaque r1 r2 stale in
  sess_ok sess -> no_aka sess -> req_ok req -> rq_uri req <> [] -> hdr_short (hchal, unique) -> qop_ok (wa_chal hchal) = true ->
  auth_find_cred sess (sv_realm srv) = Some c -> lookup (ci_username c) = (PJ_SUCCESS, c') -> same_secret (sv_realm srv) c c' ->
  (length (List.filter (answers hchal) (rq_auth req)) <= 1)%nat -> may_retry hchal req (stale_for sess (sv_realm srv)) ->
  exists req' sess',
    pjsip_auth_clt_reinit_req garbage aka_cb auto_send_next (if sv_is_proxy srv then 407 else 401) [(hchal, unique)] sess req = Some (PJ_SUCCESS, req', sess') /\
    pjsip_auth_srv_verify garbage srv lookup req' = Some (PJ_SUCCESS, 200).
Proof.
  intros hchal Hs Hn Hreq Hu [Hch Hq] Hqop Hf Hl Hss Hlen Hm. cbn in Hch, Hq. unfold pjsip_auth_clt_reinit_req.
  replace (negb _) with false by by destruct (sv_is_proxy srv). cbn zeta. set (req0 := mk_areq _ _ _ _ _ _). assert (Hreq0 : req_ok req0) by done. cbn [answer_challenges].
  destruct (step_ok unique hchal sess req0 Hs Hreq0 Hch Hq) as (i & ca & sess0 & st & o & req' & ca' & -> & -> & Ho & [Hpr _ _ Hbe _]).
  assert (Hf' : auth_find_cred sess (dc_realm (wa_chal hchal)) = Some c) by exact Hf.
  destruct Hpr as [_ [Eu Em] _ _ _ _ _ Hrm Hhd Hsu]. destruct (Hsu Hn) as [a ->].
  { unfold answerable. rewrite Hf'. split_and!; try done. unfold algorithm_ok. cbn [hchal pjsip_auth_srv_challenge wa_chal dc_algorithm].
    by rewrite stricmp_refl, orb_true_r. }
  { by rewrite Hbe. }
  cbn [mbind option_bind]. cbn [Z.eqb negb]. eexists _, _. split; [reflexivity|].
  destruct (Hhd Hn a eq_refl) as (c0 & cnonce & nc & Ec & Hcn & ->). cbn [hchal pjsip_auth_srv_challenge wa_chal dc_realm] in Ec.
  assert (c0 = c) as -> by (change (dc_realm (wa_chal hchal)) with (sv_realm srv) in Ec; congruence).
  pose proof (so_creds _ Hs) as Hcr. rewrite List.Forall_forall in Hcr.
  specialize (Hrm ltac:(done) Hlen). apply (answer_accepted srv lookup _ (rq_auth req') c c' (wa_chal hchal) cnonce nc); try done.
  - by apply Hcr, (find_cred_in sess (sv_realm srv)).
  - split; cbn; [rewrite Eu; apply Hreq|rewrite Em; apply Hreq].
  - cbn [rq_auth rq_uri rq_method set_rq_auth]. by rewrite Eu, Em.
  - eapply Forall_impl; [exact Hrm|]. intros h Hh. by rewrite (for_server_answers srv qop nonce opaque r1 r2 stale).
Qed.

(** ** Nonce counts *)

(** The answers to challenges, each for a request with its own URI and method *)
Fixpoint answer_all (unique : list Z) (c : pjsip_cred_info) (l : list (pjsip_www_authenticate_hdr * list Z * list Z)) (ca : pjsip_cached_auth) :
    option (list pjsip_authorization_hdr) :=
  match l with
  | [] => Some []
  | (h, uri, method) :: l' =>
      '(_, o, ca) ← auth_respond garbage aka_cb auto_send_next unique h uri c method ca;
      a ← o;
      rest ← answer_all unique c l' ca;
      Some (a :: rest)
  end.

(** A challenge with qop, for a request with a URI *)
Definition counted_challenge (q : pjsip_www_authenticate_hdr * list Z * list Z) : Prop :=
  let '(h, uri, method) := q in
  dc_qop (wa_chal h) <> [] /\ qop_ok (wa_chal h) = true /\ algorithm_ok (wa_chal h) = true /\
  map pj_tolower (wa_scheme h) = map pj_tolower pjsip_DIGEST_STR /\ chal_short (wa_chal h) /\ uri <> [] /\ short uri /\ short method.

Definition nonce_of (q : pjsip_www_authenticate_hdr * list Z * list Z) : list Z := dc_nonce (wa_chal q.1.1).

(** The counts of RFC 2617 for a row of nonces: how often the nonce has been used in a row,
    the answers before included: [prev] was used [n] times. *)
Fixpoint uses (prev : option (list Z)) (n : Z) (nonces : list (list Z)) : list Z :=
  match nonces with
  | [] => []
  | x :: l => let n' := if bool_decide (prev = Some x) then n + 1 else 1 in n' :: uses (Some x) n' l
  end.

(** The authentication after [n] answers in a row to the nonce [prev], with a cnonce; before
    the first answer it has none. *)
Definition counted (prev : option (list Z)) (cnonce : list Z) (n : Z) (ca : pjsip_cached_auth) : Prop :=
  match prev with
  | None => ca_cnonce ca = []
  | Some x => ca_cnonce ca = cnonce /\ ca_nc ca = n /\ exists h, ca_last_chal ca = Some h /\ dc_nonce (wa_chal h) = x
  end.

Lemma update_counts prev cnonce unique n ca h cu : counted prev cnonce n ca -> 0 <= n < 2 ^ 32 - 1 -> cnonce <> [] ->
  (prev = None -> cnonce = unique) -> dc_qop (wa_chal h) <> [] -> update_digest_session auto_send_next unique ca h = Some cu ->
  counted (Some (dc_nonce (wa_chal h))) cnonce (if bool_decide (prev = Some (dc_nonce (wa_chal h))) then n + 1 else 1) cu.
Proof.
  intros Hc Hn Hu Hnone Hq. unfold update_digest_session. cbn zeta. destruct (zlen (dc_qop (wa_chal h)) =? 0) eqn:Eq; [by apply zlen_is_nil in Eq|].
  destruct prev as [x|]; cbn [counted] in *.
  - destruct Hc as (Ec & Enc & l & El & Enl). destruct (zlen (ca_cnonce ca) =? 0) eqn:Ez; [apply zlen_is_nil in Ez; congruence|]. rewrite El.
    destruct (Z.eqb_spec (pj_strcmp (dc_nonce (wa_chal h)) (dc_nonce (wa_chal l))) 0) as [Es|Es]; intros [= <-]; cbn.
    + apply pj_strcmp_0 in Es. rewrite bool_decide_true by congruence. split_and!; try done; [rewrite Enc; unfold u32; apply Z.mod_small; lia|].
      exists l. split; [done|congruence].
    + rewrite bool_decide_false by (intros [= E1]; apply Es, pj_strcmp_0; congruence). split_and!; try done. by eexists.
  - rewrite Hc. intros [= <-]. cbn. split_and!; try done; [by rewrite Hnone|]. by eexists.
Qed.

(** Answering leaves the counts as the update made them. *)
Lemma respond_counts prev cnonce unique n h uri c method ca st a ca' cu :
  auth_respond garbage aka_cb auto_send_next unique h uri c method ca = Some (st, Some a, ca') ->
  update_digest_session auto_send_next unique ca h = Some cu -> counted prev cnonce n cu -> counted prev cnonce n ca'.
Proof.
  unfold auth_respond. destruct (_ <? _); [done|]. destruct (negb _); [done|]. intros H Hu Hc. rewrite Hu in H. cbn [mbind option_bind] in H.
  destruct (respond_digest _ _ _ _ _ _ _ _) as [[st' d]|]; [|done]. cbn [mbind option_bind] in H. destruct (negb _); [done|].
  injection H as <- <- <-. destruct (negb _); [|done]. destruct (ca_qop_value cu); by destruct prev.
Qed.

Lemma answer_all_counts unique cnonce c l : cred_ok c -> is_aka c = false -> short unique -> cnonce <> [] -> unique <> [] ->
  Forall counted_challenge l ->
  forall prev n ca, cached_ok ca -> counted prev cnonce n ca -> (prev = None -> cnonce = unique) -> 0 <= n -> n + Z.of_nat (length l) < 2 ^ 32 - 1 ->
  exists hs, answer_all unique c l ca = Some hs /\
    map (fun a => digits_value 0 (dg_nc (az_cred a))) hs = uses prev n (map nonce_of l) /\
    map (fun a => dg_nonce (az_cred a)) hs = map nonce_of l /\ Forall (fun a => dg_cnonce (az_cred a) = cnonce) hs.
Proof.
  intros Hc Haka Hs Hcn Hu. induction 1 as [|[[h uri] method] l (Hq & Hqop & Halg & Hsch & Hch & Hne & Huri & Hm) _ IH];
    intros prev n ca Hca Hct Hnone Hn Hlen; cbn [answer_all]; [by exists []|]. cbn [length] in Hlen.
  destruct (respond_ok unique h uri c method ca Hca Hch Hs Hc Huri Hm) as (st & o & ca' & E & Hok & _ & _ & _ & Ha & Hsome). rewrite E.
  cbn [mbind option_bind]. destruct (Hsome Haka Hne Hsch Halg Hqop) as [a ->]. destruct (Ha Haka a eq_refl) as (cu & Ecu & Eqa). cbn [mbind option_bind].
  assert (Hcu := update_counts prev cnonce unique n ca h cu Hct ltac:(lia) Hcn Hnone Hq Ecu).
  set (n' := if bool_decide (prev = Some (dc_nonce (wa_chal h))) then n + 1 else 1) in *. assert (Hn' : 1 <= n' <= n + 1) by (unfold n'; case_bool_decide; lia).
  destruct (IH _ n' ca' Hok (respond_counts _ _ _ _ _ _ _ _ _ _ _ _ _ E Ecu Hcu) ltac:(done) ltac:(lia) ltac:(lia)) as (hs & -> & H1 & H2 & H3).
  cbn [mbind option_bind]. eexists. split; [reflexivity|]. change (uses prev n (map nonce_of ((h, uri, method) :: l)))
    with (n' :: uses (Some (dc_nonce (wa_chal h))) n' (map nonce_of l)). cbn [map]. rewrite H1, H2.
  destruct Hcu as (Ecn & Enc & _). rewrite Eqa. unfold answer, chosen. rewrite Ecn, Enc.
  destruct (zlen (dc_qop (wa_chal h)) =? 0) eqn:Ez; [by apply zlen_is_nil in Ez|]. destruct (zlen cnonce =? 0) eqn:Ez'; [by apply zlen_is_nil in Ez'|].
  clearbody n'. cbn. split_and!; try done; [|by constructor]. f_equal. apply print_nc_value. lia.
Qed.

(** Under one nonce in a row the counts go up by one. *)
Lemma uses_same x l : forall n k v, (forall i, (i <= k)%nat -> l !! i = Some x) -> uses (Some x) n l !! k = Some v -> v = n + 1 + Z.of_nat k.
Proof.
  induction l as [|y l IH]; intros n k v Hx; cbn [uses]; [done|]. assert (y = x) as -> by (specialize (Hx 0%nat ltac:(lia)); by injection Hx).
  rewrite bool_decide_true by done. destruct k as [|k]; cbn [lookup list_lookup]; [intros [= <-]; lia|]. intros Hv.
  rewrite (IH (n + 1) k v); [lia| |exact Hv]. intros i Hi. apply (Hx (S i)). lia.
Qed.

Lemma uses_run x l : forall prev n j k v w, (forall i, (j <= i <= k)%nat -> l !! i = Some x) -> (j < k)%nat ->
  uses prev n l !! j = Some v -> uses prev n l !! k = Some w -> v < w.
Proof.
  induction l as [|y l IH]; intros prev n j k v w Hx Hjk; cbn [uses]; [done|]. set (n' := if bool_decide _ then _ else _).
  destruct k as [|k]; [lia|]. destruct j as [|j]; cbn [lookup list_lookup].
  - intros [= <-] Hw. assert (y = x) as -> by (specialize (Hx 0%nat ltac:(lia)); by injection Hx).
    rewrite (uses_same x l n' k w); [lia| |exact Hw]. intros i Hi. apply (Hx (S i)). lia.
  - intros Hv Hw. apply (IH (Some y) n' j k v w); [|lia|done|done]. intros i Hi. apply (Hx (S i)). lia.
Qed.

(** C16: The nonce counts: whatever nonces the challenges have, each answer carries the count
    of its use of the nonce in a row, 1 for a new nonce and one more for the nonce of the
    answer before, and the cnonce that was made for the first answer of all; so no two answers
    under a nonce that is not replaced between them have the same count.  The authentication
    may be new or have been used before; with qop, for less than 2^32 - 1 answers, and the
    count is read as the decimal number that the client prints. *)
Theorem nonce_counts prev n cnonce unique c l ca : cred_ok c -> is_aka c = false -> short unique -> unique <> [] -> cnonce <> [] ->
  Forall counted_challenge l -> cached_ok ca -> counted prev cnonce n ca -> (prev = None -> cnonce = unique) ->
  0 <= n -> n + Z.of_nat (length l) < 2 ^ 32 - 1 ->
  exists hs, answer_all unique c l ca = Some hs /\
    map (fun a => digits_value 0 (dg_nc (az_cred a))) hs = uses prev n (map nonce_of l) /\
    map (fun a => dg_nonce (az_cred a)) hs = map nonce_of l /\ Forall (fun a => dg_cnonce (az_cred a) = cnonce) hs /\
    (forall j k x a b, (forall i, (j <= i <= k)%nat -> map nonce_of l !! i = Some x) -> (j < k)%nat ->
       hs !! j = Some a -> hs !! k = Some b -> dg_nc (az_cred a) <> dg_nc (az_cred b)).
Proof.
  intros Hc Haka Hs Hu Hcn Hl Hca Hct Hnone Hn Hlen.
  destruct (answer_all_counts unique cnonce c l Hc Haka Hs Hcn Hu Hl prev n ca Hca Hct Hnone Hn Hlen) as (hs & E & H1 & H2 & H3).
  exists hs. split_and!; try done. intros j k x a b Hx Hjk Hj Hk Enc.
  assert (Hlt : digits_value 0 (dg_nc (az_cred a)) < digits_value 0 (dg_nc (az_cred b))); [|rewrite Enc in Hlt; lia].
  eapply (uses_run x (map nonce_of l) prev n j k); [exact Hx|done| |].
  - rewrite <- H1. rewrite list_lookup_fmap. by rewrite Hj.
  - rewrite <- H1. rewrite list_lookup_fmap. by rewrite Hk.
Qed.
End Props.

(** ** The theorems at work *)

Definition w_garbage : list Z := replicate 64 0.
Definition w_aka (_ : pjsip_digest_challenge) (_ : pjsip_cred_info) (_ : list Z) (d : pjsip_digest_credential) : Z * pjsip_digest_credential :=
  (PJSIP_EAUTHINAKACRED, d).
Definition w_srv : pjsip_auth_srv := mk_srv (lit "example.org") false.
Definition w_cred : pjsip_cred_info := mk_cred_info (lit "*") (lit "digest") (lit "alice") PJSIP_CRED_DATA_PLAIN_PASSWD (lit "secret") ([], [], []).
Definition w_account : pjsip_cred_info := mk_cred_info (lit "example.org") (lit "digest") (lit "alice") PJSIP_CRED_DATA_PLAIN_PASSWD (lit "secret") ([], [], []).
Definition w_lookup (name : list Z) : Z * pjsip_cred_info := if bool_decide (name = lit "alice") then (PJ_SUCCESS, w_account) else (PJ_ENOTFOUND, w_account).
Definition w_sess : pjsip_auth_clt_sess := mk_clt (mk_pref false []) [w_cred] [].
Definition w_req : auth_request := mk_areq (lit "REGISTER") (lit "sip:example.org") [] (lit "z9hG4bK1") false 1.
Definition w_chal (nonce : list Z) (stale : bool) : pjsip_www_authenticate_hdr :=
  pjsip_auth_srv_challenge w_srv (Some (lit "auth")) (Some nonce) None (lit "r1") (lit "r2") stale.

Lemma w_cred_ok : cred_ok w_cred.
Proof. split; [by left|done]. Qed.
Lemma w_sess_ok : sess_ok w_sess.
Proof. split; [constructor; [apply w_cred_ok|done]|done]. Qed.
Lemma w_no_aka : no_aka w_sess.
Proof. by constructor. Qed.
Lemma w_req_ok : req_ok w_req.
Proof. done. Qed.

Definition w_header : pjsip_authorization_hdr :=
  mk_az false (lit "Digest") (mk_dig (lit "example.org") (lit "alice") (lit "n1") (lit "sip:example.org") (lit "bad") [] (lit "c1") [] (lit "auth") (lit "1")).
Definition w_sent : auth_request := set_rq_auth [w_header] w_req.

Lemma server_accepts_witness : exists st code,
  @pjsip_auth_srv_verify plain_strings w_garbage w_srv w_lookup w_sent = Some (st, code) /\
  (st = PJ_SUCCESS <-> exists h c, List.find (@for_server plain_strings w_srv) (rq_auth w_sent) = Some h /\
     @pj_stricmp plain_strings (az_scheme h) pjsip_DIGEST_STR = 0 /\ w_lookup (dg_username (az_cred h)) = (PJ_SUCCESS, c) /\
     digest_matches (az_cred h) c (rq_method w_sent)) /\
  (st = PJ_SUCCESS -> code = 200) /\ (st <> PJ_SUCCESS -> code = (if sv_is_proxy w_srv then 407 else 401) \/ code = 403).
Proof.
  apply (@server_accepts plain_strings w_garbage); [done| |by repeat constructor|done].
  intros name c. unfold w_lookup. destruct (bool_decide _); [|done]. intros [= <-]. split; [by left|done].
Defined.

Definition w_responses : list (Z * list (pjsip_www_authenticate_hdr * list Z)) :=
  [(401, [(w_chal (lit "n1") false, lit "u1")]); (401, [(w_chal (lit "n2") true, lit "u2")]); (401, [(w_chal (lit "n3") true, lit "u3")])].

Lemma retries_bounded_witness : Z.of_nat (length w_responses) <= PJSIP_MAX_STALE_COUNT.
Proof.
  eapply (@retries_bounded plain_strings w_garbage w_aka false ltac:(done) (lit "u") (w_chal [] false) w_responses w_sess w_req);
    [apply w_sess_ok|apply w_no_aka|apply w_req_ok|done| |vm_compute; reflexivity|vm_compute; reflexivity].
  repeat (constructor; [split; [by repeat constructor|by repeat constructor]|]). constructor.
Defined.

Lemma challenge_answered_witness : exists req' sess',
  @pjsip_auth_clt_reinit_req plain_strings w_garbage w_aka false 401 [(w_chal (lit "n1") false, lit "u")] w_sess w_req = Some (PJ_SUCCESS, req', sess') /\
  @pjsip_auth_srv_verify plain_strings w_garbage w_srv w_lookup req' = Some (PJ_SUCCESS, 200).
Proof.
  apply (@challenge_answered plain_strings w_garbage w_aka false ltac:(done) w_srv w_lookup (Some (lit "auth")) (Some (lit "n1")) None (lit "r1") (lit "r2") false
    (lit "u") w_sess w_req w_cred w_account); [apply w_sess_ok|apply w_no_aka|apply w_req_ok|done|by repeat constructor|done|done|done|done| |].
  - cbn. lia.
  - by intros h [].
Defined.

Definition w_requests : list (pjsip_www_authenticate_hdr * list Z * list Z) :=
  [(w_chal (lit "n1") false, lit "sip:a", lit "INVITE"); (w_chal (lit "n1") false, lit "sip:a", lit "BYE");
   (w_chal (lit "n2") true, lit "sip:b", lit "OPTIONS"); (w_chal (lit "n2") false, lit "sip:b", lit "OPTIONS")].

Lemma nonce_counts_witness : exists hs,
  @answer_all plain_strings w_garbage w_aka false (lit "u1") w_cred w_requests (mk_cached [] false PJSIP_AUTH_QOP_NONE 0 0 [] None) = Some hs /\
  map (fun a => digits_value 0 (dg_nc (az_cred a))) hs = [1; 2; 1; 2].
Proof.
  destruct (@nonce_counts plain_strings w_garbage w_aka false ltac:(done) None 0 (lit "u1") (lit "u1") w_cred w_requests
    (mk_cached [] false PJSIP_AUTH_QOP_NONE 0 0 [] None)) as (hs & E & H & _); [apply w_cred_ok|done|done|done|done| | |done|done|done|done|].
  - repeat (constructor; [by repeat split|]). constructor.
  - split; cbn; try done; by intros [?|?].
  - exists hs. split; [exact E|exact H].
Defined.
