(* ===== verification/SipUri.v ===== *)
(** * SIP URIs: comparison (pjsip/src/pjsip/sip_uri.c)

    The parameter lists, the comparison of sip and sips URIs and of name-addresses.  On
    URIs that have no parameters but those with a field of their own, the comparison is the
    equality of [url_key]. *)

From S2P Require Import Prelude Hash PjStr.

Inductive pjsip_uri_context_e :=
  | PJSIP_URI_IN_REQ_URI | PJSIP_URI_IN_FROMTO_HDR | PJSIP_URI_IN_CONTACT_HDR | PJSIP_URI_IN_ROUTING_HDR | PJSIP_URI_IN_OTHER.

Definition PJSIP_ECMPSCHEME : Z := 171080.
Definition PJSIP_ECMPUSER : Z := 171081.
Definition PJSIP_ECMPPASSWD : Z := 171082.
Definition PJSIP_ECMPHOST : Z := 171083.
Definition PJSIP_ECMPPORT : Z := 171084.
Definition PJSIP_ECMPTRANSPORTPRM : Z := 171085.
Definition PJSIP_ECMPTTLPARAM : Z := 171086.
Definition PJSIP_ECMPUSERPARAM : Z := 171087.
Definition PJSIP_ECMPMETHODPARAM : Z := 171088.
Definition PJSIP_ECMPMADDRPARAM : Z := 171089.
Definition PJSIP_ECMPOTHERPARAM : Z := 171090.
Definition PJSIP_ECMPHEADERPARAM : Z := 171091.

Record pjsip_param := mk_param { p_name : list Z; p_value : list Z }.

(** [u_sips] tells which of the two tables of functions [vptr] is. *)
Record pjsip_sip_uri := mk_sip_uri {
  u_sips : bool; u_user : list Z; u_passwd : list Z; u_host : list Z; u_port : Z; u_user_param : list Z;
  u_method_param : list Z; u_transport_param : list Z; u_ttl_param : Z; u_lr_param : Z; u_maddr_param : list Z;
  u_other_param : list pjsip_param; u_header_param : list pjsip_param
}.

Definition set_other_param (l : list pjsip_param) (u : pjsip_sip_uri) : pjsip_sip_uri :=
  mk_sip_uri (u_sips u) (u_user u) (u_passwd u) (u_host u) (u_port u) (u_user_param u) (u_method_param u)
    (u_transport_param u) (u_ttl_param u) (u_lr_param u) (u_maddr_param u) l (u_header_param u).

Section Compare.
Context {Str : PjString}.

Fixpoint pjsip_param_find (l : list pjsip_param) (name : list Z) : option pjsip_param :=
  match l with
  | [] => None
  | p :: l' => if pj_stricmp (p_name p) name =? 0 then Some p else pjsip_param_find l' name
  end.

(** The loop over the first list *)
Fixpoint param_cmp_loop (l1 l2 : list pjsip_param) (ig_nf : Z) : Z :=
  match l1 with
  | [] => 0
  | p1 :: l1' =>
      match pjsip_param_find l2 (p_name p1) with
      | Some p2 =>
          let rc := pj_stricmp (p_value p1) (p_value p2) in
          if negb (rc =? 0) then rc else param_cmp_loop l1' l2 ig_nf
      | None => if Z.land ig_nf 1 =? 0 then 1 else param_cmp_loop l1' l2 ig_nf
      end
  end.

Definition pjsip_param_cmp (l1 l2 : list pjsip_param) (ig_nf : Z) : Z :=
  if (Z.land ig_nf 1 =? 0) && negb (Nat.eqb (length l1) (length l2)) then 1 else param_cmp_loop l1 l2 ig_nf.

(** Whether the context is one of the headers *)
Definition in_fromto (c : pjsip_uri_context_e) : bool := match c with PJSIP_URI_IN_FROMTO_HDR => true | _ => false end.
Definition in_routing (c : pjsip_uri_context_e) : bool := match c with PJSIP_URI_IN_ROUTING_HDR => true | _ => false end.
Definition in_other (c : pjsip_uri_context_e) : bool := match c with PJSIP_URI_IN_OTHER => true | _ => false end.

(** The URI headers: each of the first one must be in the second. *)
Fixpoint header_params_cmp (l1 l2 : list pjsip_param) : Z :=
  match l1 with
  | [] => PJ_SUCCESS
  | p1 :: l1' =>
      match pjsip_param_find l2 (p_name p1) with
      | Some p2 => if negb (pj_stricmp (p_value p1) (p_value p2) =? 0) then PJSIP_ECMPHEADERPARAM else header_params_cmp l1' l2
      | None => PJSIP_ECMPHEADERPARAM
      end
  end.

Definition pjsip_url_compare (context : pjsip_uri_context_e) (url1 url2 : pjsip_sip_uri) : Z :=
  if negb (Bool.eqb (u_sips url1) (u_sips url2)) then PJSIP_ECMPSCHEME
  else if negb (pj_strcmp (u_user url1) (u_user url2) =? 0) then PJSIP_ECMPUSER
  else if negb (pj_strcmp (u_passwd url1) (u_passwd url2) =? 0) then PJSIP_ECMPPASSWD
  else if negb (pj_stricmp (u_host url1) (u_host url2) =? 0) then PJSIP_ECMPHOST
  else if negb (in_fromto context) && negb (u_port url1 =? u_port url2) then PJSIP_ECMPPORT
  else if negb (in_fromto context) && negb (pj_stricmp (u_transport_param url1) (u_transport_param url2) =? 0) then PJSIP_ECMPTRANSPORTPRM
  else if negb (in_fromto context) && negb (in_routing context) && negb (u_ttl_param url1 =? u_ttl_param url2) then PJSIP_ECMPTTLPARAM
  else if negb (pj_stricmp (u_user_param url1) (u_user_param url2) =? 0) then PJSIP_ECMPUSERPARAM
  else if in_other context && negb (pj_stricmp (u_method_param url1) (u_method_param url2) =? 0) then PJSIP_ECMPMETHODPARAM
  else if negb (in_fromto context) && negb (pj_stricmp (u_maddr_param url1) (u_maddr_param url2) =? 0) then PJSIP_ECMPMADDRPARAM
  else if negb (pjsip_param_cmp (u_other_param url1) (u_other_param url2) 1 =? 0) then PJSIP_ECMPOTHERPARAM
  else header_params_cmp (u_header_param url1) (u_header_param url2).

(** Two name-addresses: [url_cmp] is the result of the comparison of their URIs. *)
Definition pjsip_name_addr_compare (display1 display2 : list Z) (url_cmp : Z) : Z :=
  if negb (pj_strcmp display1 display2 =? 0) then -1 else url_cmp.

(** ** Contacts without other parameters *)

(** What is compared in a Contact header *)
Definition url_key (u : pjsip_sip_uri) :=
  (u_sips u, u_user u, u_passwd u, map pj_tolower (u_host u), u_port u, map pj_tolower (u_transport_param u), u_ttl_param u,
   map pj_tolower (u_user_param u), map pj_tolower (u_maddr_param u)).

(** No parameter but those with a field, and no headers *)
Definition plain_url (u : pjsip_sip_uri) : Prop := u_other_param u = [] /\ u_header_param u = [].

(** An extension parameter of one of the two is ignored. *)
Lemma url_compare_key p u1 u2 : plain_url u1 -> plain_url u2 ->
  pjsip_url_compare PJSIP_URI_IN_CONTACT_HDR (set_other_param p u1) u2 = 0 <-> url_key u1 = url_key u2.
Proof.
  intros [H1 H2] [H3 H4]. unfold pjsip_url_compare, url_key. cbn.
  assert (Hp : pjsip_param_cmp p (u_other_param u2) 1 = 0).
  { rewrite H3. unfold pjsip_param_cmp. cbn. by induction p. }
  rewrite Hp, H2. cbn.
  destruct (Bool.eqb (u_sips u1) (u_sips u2)) eqn:E1; [apply Bool.eqb_prop in E1|apply Bool.eqb_false_iff in E1]; cbn; [|split; [done|congruence]].
  destruct (Z.eqb_spec (pj_strcmp (u_user u1) (u_user u2)) 0) as [E2|E2]; rewrite pj_strcmp_0 in E2; cbn; [|split; [done|congruence]].
  destruct (Z.eqb_spec (pj_strcmp (u_passwd u1) (u_passwd u2)) 0) as [E3|E3]; rewrite pj_strcmp_0 in E3; cbn; [|split; [done|congruence]].
  destruct (Z.eqb_spec (pj_stricmp (u_host u1) (u_host u2)) 0) as [E4|E4]; rewrite pj_stricmp_0 in E4; cbn; [|split; [done|congruence]].
  destruct (Z.eqb_spec (u_port u1) (u_port u2)) as [E5|E5]; cbn; [|split; [done|congruence]].
  destruct (Z.eqb_spec (pj_stricmp (u_transport_param u1) (u_transport_param u2)) 0) as [E6|E6]; rewrite pj_stricmp_0 in E6; cbn; [|split; [done|congruence]].
  destruct (Z.eqb_spec (u_ttl_param u1) (u_ttl_param u2)) as [E7|E7]; cbn; [|split; [done|congruence]].
  destruct (Z.eqb_spec (pj_stricmp (u_user_param u1) (u_user_param u2)) 0) as [E8|E8]; rewrite pj_stricmp_0 in E8; cbn; [|split; [done|congruence]].
  destruct (Z.eqb_spec (pj_stricmp (u_maddr_param u1) (u_maddr_param u2)) 0) as [E9|E9]; rewrite pj_stricmp_0 in E9; cbn; [|split; [done|congruence]].
  split; [congruence|done].
Qed.
End Compare.

(** The comparison is not transitive: a URI without a parameter is equal to URIs that
    differ in it. *)
#[local] Existing Instance plain_strings.
Import Strings.String.StringSyntax.

Definition sip_url (host : list Z) (other : list pjsip_param) : pjsip_sip_uri :=
  mk_sip_uri false [] [] host 0 [] [] [] (-1) 0 [] other [].

Example url_compare_not_transitive :
  let u l := sip_url (lit "a") l in
  let p v := [mk_param (lit "x") v] in
  let cmp := pjsip_url_compare PJSIP_URI_IN_CONTACT_HDR in
  (cmp (u (p (lit "1"))) (u []) = 0 /\ cmp (u []) (u (p (lit "2"))) = 0) /\ cmp (u (p (lit "1"))) (u (p (lit "2"))) = PJSIP_ECMPOTHERPARAM.
Proof. by vm_compute. Qed.

(** The headers of the second URI are not looked for in the first. *)
Example url_headers_one_way :
  let u l := mk_sip_uri false [] [] (lit "a") 0 [] [] [] (-1) 0 [] [] l in
  let h := [mk_param (lit "Subject") (lit "x")] in
  pjsip_url_compare PJSIP_URI_IN_CONTACT_HDR (u []) (u h) = 0 /\
  pjsip_url_compare PJSIP_URI_IN_CONTACT_HDR (u h) (u []) = PJSIP_ECMPHEADERPARAM.
Proof. by vm_compute. Qed.
