(* ===== verification/SipReg.v ===== *)
(** * Client registrations (pjsip/src/pjsip-ua/sip_reg.c)

    A registration makes REGISTER requests for its contacts and the ones to be removed, sends
    them one at a time, answers challenges and intervals that are too brief, refreshes before
    the expiration, and is freed when the application has destroyed it and nothing uses it.

    The callbacks of the application call the registration again, and a request that is sent
    may come back with its result before the function returns.  A world holds a list of
    answers; each call of the endpoint or of the application takes one, which names the calls
    and the event that take place inside.  They run with a fuel above the number of answers,
    as every nesting takes one.  Times are whole seconds of one clock. *)

From Stdlib Require Strings.String.
From S2P Require Import Prelude Hash PjStr SipTypes SipAuth SipUri.
Import Strings.String.StringSyntax.

Definition NOEXP : Z := 0x1FFFFFFF.
Definition REFRESH_TIMER : Z := 1.
Definition DELAY_BEFORE_REFRESH : Z := 5.
Definition PJSIP_REGC_MAX_CONTACT : nat := 10.
Definition PJSIP_REGC_EXPIRATION_NOT_SPECIFIED : Z := 0xFFFFFFFF.
Definition UNSPECIFIED_MIN_EXPIRES : Z := 3601.
Definition PJSIP_EBUSY : Z := 171001.
Definition PJSIP_EINVALIDURI : Z := 171039.
Definition PJSIP_SC_UNAUTHORIZED : Z := 401.
Definition PJSIP_SC_PROXY_AUTHENTICATION_REQUIRED : Z := 407.
Definition PJSIP_SC_INTERVAL_TOO_BRIEF : Z := 423.

(** ** Data *)

Section Data.
Context {Uri : Type}.

(** A Contact header: the display name, the URI without the parameter x-uid, this parameter,
    and the parameter expires, -1 when there is none *)
Record contact_hdr := mk_contact { h_display : list Z; h_uri : Uri; h_xuid : option (list Z); h_expires : Z }.

Definition set_h_expires e h := mk_contact (h_display h) (h_uri h) (h_xuid h) e.
Definition set_h_xuid x h := mk_contact (h_display h) (h_uri h) x (h_expires h).

(** The Contact headers of a request; Star is "*" *)
Inductive reg_contact := Star | Contact (h : contact_hdr).

Definition rc_expires (c : reg_contact) : Z := match c with Star => -1 | Contact h => h_expires h end.

Record reg_msg := mk_reg_msg {
  rm_contacts : list reg_contact; rm_expires : option Z; rm_cseq : Z; rm_routes : list (list Z); rm_hdrs : list (list Z);
  rm_auth : auth_request
}.

Definition set_rm_contacts l m := mk_reg_msg l (rm_expires m) (rm_cseq m) (rm_routes m) (rm_hdrs m) (rm_auth m).
Definition set_rm_cseq n m := mk_reg_msg (rm_contacts m) (rm_expires m) n (rm_routes m) (rm_hdrs m) (rm_auth m).
Definition set_rm_auth a m := mk_reg_msg (rm_contacts m) (rm_expires m) (rm_cseq m) (rm_routes m) (rm_hdrs m) a.

(** A response: its Contact headers, Expires, Min-Expires, and its challenges, each with
    the unique string that is made when it is answered *)
Record reg_rsp := mk_reg_rsp {
  rs_contacts : list contact_hdr; rs_expires : option Z; rs_min_expires : option Z; rs_chals : list (pjsip_www_authenticate_hdr * list Z)
}.

(** The end of a transaction: its status, the message if there is one, the transport *)
Record tsx_event := mk_tsx_event { ev_status : Z; ev_rx : option reg_rsp; ev_transport : option Z }.

Inductive regc_op := REGC_IDLE | REGC_REGISTERING | REGC_UNREGISTERING.

(** [rg_cb], [rg_tsx_cb]: the callback is not NULL; [rg_timer]: when the entry in the timer
    heap expires *)
Record pjsip_regc := mk_regc {
  rg_delete_flag : bool; rg_has_tsx : bool; rg_busy_ctr : Z; rg_current_op : regc_op; rg_add_xuid : bool;
  rg_cb : bool; rg_tsx_cb : bool; rg_srv_url : list Z; rg_cseq : Z;
  rg_contacts : list contact_hdr; rg_removed : list contact_hdr;
  rg_expires_hdr : option Z; rg_expires : Z; rg_expires_requested : Z; rg_delay : Z;
  rg_routes : list (list Z); rg_hdrs : list (list Z);
  rg_auth : pjsip_auth_clt_sess; rg_auto_reg : bool; rg_next_reg : Z;
  rg_timer_id : Z; rg_timer : option Z; rg_last_transport : option Z
}.

(** What the application calls: the functions of sip_regc.h; [C_send i] sends the i-th of
    the requests that were made for it. *)
Inductive app_call :=
  | C_register (autoreg : bool) | C_unregister | C_unregister_all | C_send (i : nat)
  | C_update_contact (l : list (option (contact_hdr * list Z))) | C_update_expires (e : Z) | C_set_delay (d : Z)
  | C_set_route_set (l : list (list Z)) | C_add_headers (l : list (list Z))
  | C_set_credentials (l : list pjsip_cred_info) | C_set_prefs (p : pjsip_auth_clt_pref)
  | C_set_tsx_cb (b : bool) | C_release_transport | C_destroy.

(** What a call of the endpoint or the application brings: the status of the creation of a
    request; the status of sending it, the event that comes before it returns, and the
    transport; the calls of a callback, and the contacts that the transaction callback asks
    for; the unique string for the authentication *)
Record answer := mk_answer {
  an_create : Z; an_status : Z; an_event : option tsx_event; an_tp : option Z;
  an_calls : list app_call; an_contacts : option (list (option (contact_hdr * list Z))); an_unique : list Z
}.

Definition no_answer : answer := mk_answer 0 0 None None [] None [].

(** [E_callback]: the status, the code, the expiration, and whether it ends a registration;
    [E_sent]: a request goes to the endpoint *)
Inductive effect :=
  | E_callback (status code expiration : Z) (contact_cnt : nat) (is_unreg : bool)
  | E_tsx_callback (code : Z)
  | E_sent (m : reg_msg)
  | E_released
  | E_freed.

(** [w_freed]: the memory of the registration is given back; [w_pending]: the requests whose
    transactions have not ended; [w_made]: the requests made for the application;
    [w_failing]: how many calls of the endpoint that are going to fail are running *)
Record world := mk_world {
  w_regc : pjsip_regc; w_freed : bool; w_released : bool; w_pending : list reg_msg; w_made : list reg_msg;
  w_failing : Z; w_answers : list answer; w_now : Z; w_log : list effect
}.

(** Why an operation does not return: it uses freed memory, reads a message from an event
    without one, follows an undefined value of the authentication, nests deeper than the
    fuel, the application uses what it has destroyed or sends a request it does not have,
    or, in a watched run, sends out of a callback that runs in a call that fails *)
Inductive reg_stop := Freed | No_rdata | Bad_auth | No_fuel | Misuse | Failing_send.

Inductive result (A : Type) := Ok (x : A) (w : world) | Stop (s : reg_stop).
Arguments Ok {A} x w.
Arguments Stop {A} s.

Definition M (A : Type) : Type := world -> result A.
Definition ret {A} (x : A) : M A := fun w => Ok x w.
Definition bind {A B} (m : M A) (f : A -> M B) : M B := fun w => match m w with Ok x w' => f x w' | Stop s => Stop s end.
Definition stop {A} (s : reg_stop) : M A := fun _ => Stop s.
End Data.

Arguments contact_hdr Uri : clear implicits.
Arguments reg_contact Uri : clear implicits.
Arguments reg_msg Uri : clear implicits.
Arguments reg_rsp Uri : clear implicits.
Arguments tsx_event Uri : clear implicits.
Arguments pjsip_regc Uri : clear implicits.
Arguments app_call Uri : clear implicits.
Arguments answer Uri : clear implicits.
Arguments effect Uri : clear implicits.
Arguments world Uri : clear implicits.
Arguments result Uri A : clear implicits.
Arguments M Uri A : clear implicits.
Arguments Ok {Uri A} x w.
Arguments Stop {Uri A} s.

Declare Scope reg_scope.
Notation "x ← y ; z" := (bind y (fun x => z))
  (at level 20, y at level 100, z at level 200, only parsing) : reg_scope.
Notation "x ;; z" := (bind x (fun _ => z))
  (at level 100, z at level 200, only parsing, right associativity) : reg_scope.
#[global] Open Scope reg_scope.

Section Reg.
Context {Str : PjString} {Uri : Type}.
(** pjsip_uri_cmp of the URIs of two headers, without their display names, gives 0; the URI
    is a sip or sips URI *)
Context (uri_cmp : contact_hdr Uri -> contact_hdr Uri -> bool) (is_sip : Uri -> bool).
(** pjsip_cfg()->regc.check_contact; long has 64 bits *)
Context (check_contact wide_long : bool).
(** Runs are those of the code without [watch]; with it, a run ends when the application
    sends out of a callback that runs in a call that fails, so that theorems can tell the
    runs in which it does. *)
Context (watch : bool).
Context (garbage : list Z).
Context (aka_cb : pjsip_digest_challenge -> pjsip_cred_info -> list Z -> pjsip_digest_credential -> Z * pjsip_digest_credential).
Context (auto_send_next : bool).

Implicit Types (w : world Uri) (r : pjsip_regc Uri) (m : reg_msg Uri).

(** ** The world *)

Definition set_regc r w := mk_world r (w_freed w) (w_released w) (w_pending w) (w_made w) (w_failing w) (w_answers w) (w_now w) (w_log w).
Definition set_freed w := mk_world (w_regc w) true (w_released w) (w_pending w) (w_made w) (w_failing w) (w_answers w) (w_now w) (w_log w).
Definition set_released w := mk_world (w_regc w) (w_freed w) true (w_pending w) (w_made w) (w_failing w) (w_answers w) (w_now w) (w_log w).
Definition set_pending l w := mk_world (w_regc w) (w_freed w) (w_released w) l (w_made w) (w_failing w) (w_answers w) (w_now w) (w_log w).
Definition set_made l w := mk_world (w_regc w) (w_freed w) (w_released w) (w_pending w) l (w_failing w) (w_answers w) (w_now w) (w_log w).
Definition set_failing n w := mk_world (w_regc w) (w_freed w) (w_released w) (w_pending w) (w_made w) n (w_answers w) (w_now w) (w_log w).
Definition set_answers l w := mk_world (w_regc w) (w_freed w) (w_released w) (w_pending w) (w_made w) (w_failing w) l (w_now w) (w_log w).
Definition set_now t w := mk_world (w_regc w) (w_freed w) (w_released w) (w_pending w) (w_made w) (w_failing w) (w_answers w) t (w_log w).
Definition add_log e w := mk_world (w_regc w) (w_freed w) (w_released w) (w_pending w) (w_made w) (w_failing w) (w_answers w) (w_now w) (w_log w ++ [e]).

(** The memory of a registration is only read and written before it is freed. *)
Definition get : M Uri (pjsip_regc Uri) := fun w => if w_freed w then Stop Freed else Ok (w_regc w) w.
Definition modify (f : pjsip_regc Uri -> pjsip_regc Uri) : M Uri unit := fun w =>
  if w_freed w then Stop Freed else Ok tt (set_regc (f (w_regc w)) w).
Definition upd (f : world Uri -> world Uri) : M Uri unit := fun w => Ok tt (f w).
Definition asks {A} (f : world Uri -> A) : M Uri A := fun w => Ok (f w) w.
Definition log (e : effect Uri) : M Uri unit := upd (add_log e).

Definition pop : M Uri (answer Uri) := fun w =>
  match w_answers w with [] => Ok no_answer w | a :: l => Ok a (set_answers l w) end.

(** ** Fields *)

Definition set_flags delete cb r := mk_regc delete (rg_has_tsx r) (rg_busy_ctr r) (rg_current_op r) (rg_add_xuid r) cb (rg_tsx_cb r) (rg_srv_url r)
  (rg_cseq r) (rg_contacts r) (rg_removed r) (rg_expires_hdr r) (rg_expires r) (rg_expires_requested r) (rg_delay r) (rg_routes r) (rg_hdrs r)
  (rg_auth r) (rg_auto_reg r) (rg_next_reg r) (rg_timer_id r) (rg_timer r) (rg_last_transport r).
Definition set_has_tsx b r := mk_regc (rg_delete_flag r) b (rg_busy_ctr r) (rg_current_op r) (rg_add_xuid r) (rg_cb r) (rg_tsx_cb r) (rg_srv_url r)
  (rg_cseq r) (rg_contacts r) (rg_removed r) (rg_expires_hdr r) (rg_expires r) (rg_expires_requested r) (rg_delay r) (rg_routes r) (rg_hdrs r)
  (rg_auth r) (rg_auto_reg r) (rg_next_reg r) (rg_timer_id r) (rg_timer r) (rg_last_transport r).
Definition set_busy n r := mk_regc (rg_delete_flag r) (rg_has_tsx r) n (rg_current_op r) (rg_add_xuid r) (rg_cb r) (rg_tsx_cb r) (rg_srv_url r)
  (rg_cseq r) (rg_contacts r) (rg_removed r) (rg_expires_hdr r) (rg_expires r) (rg_expires_requested r) (rg_delay r) (rg_routes r) (rg_hdrs r)
  (rg_auth r) (rg_auto_reg r) (rg_next_reg r) (rg_timer_id r) (rg_timer r) (rg_last_transport r).
Definition set_op op r := mk_regc (rg_delete_flag r) (rg_has_tsx r) (rg_busy_ctr r) op (rg_add_xuid r) (rg_cb r) (rg_tsx_cb r) (rg_srv_url r)
  (rg_cseq r) (rg_contacts r) (rg_removed r) (rg_expires_hdr r) (rg_expires r) (rg_expires_requested r) (rg_delay r) (rg_routes r) (rg_hdrs r)
  (rg_auth r) (rg_auto_reg r) (rg_next_reg r) (rg_timer_id r) (rg_timer r) (rg_last_transport r).
Definition set_tsx_cb b r := mk_regc (rg_delete_flag r) (rg_has_tsx r) (rg_busy_ctr r) (rg_current_op r) (rg_add_xuid r) (rg_cb r) b (rg_srv_url r)
  (rg_cseq r) (rg_contacts r) (rg_removed r) (rg_expires_hdr r) (rg_expires r) (rg_expires_requested r) (rg_delay r) (rg_routes r) (rg_hdrs r)
  (rg_auth r) (rg_auto_reg r) (rg_next_reg r) (rg_timer_id r) (rg_timer r) (rg_last_transport r).
Definition set_cseq n r := mk_regc (rg_delete_flag r) (rg_has_tsx r) (rg_busy_ctr r) (rg_current_op r) (rg_add_xuid r) (rg_cb r) (rg_tsx_cb r) (rg_srv_url r)
  n (rg_contacts r) (rg_removed r) (rg_expires_hdr r) (rg_expires r) (rg_expires_requested r) (rg_delay r) (rg_routes r) (rg_hdrs r)
  (rg_auth r) (rg_auto_reg r) (rg_next_reg r) (rg_timer_id r) (rg_timer r) (rg_last_transport r).
Definition set_lists (contacts removed : list (contact_hdr Uri)) (r : pjsip_regc Uri) := mk_regc (rg_delete_flag r) (rg_has_tsx r) (rg_busy_ctr r) (rg_current_op r) (rg_add_xuid r) (rg_cb r) (rg_tsx_cb r)
  (rg_srv_url r) (rg_cseq r) contacts removed (rg_expires_hdr r) (rg_expires r) (rg_expires_requested r) (rg_delay r) (rg_routes r) (rg_hdrs r)
  (rg_auth r) (rg_auto_reg r) (rg_next_reg r) (rg_timer_id r) (rg_timer r) (rg_last_transport r).
Definition set_expires_hdr e r := mk_regc (rg_delete_flag r) (rg_has_tsx r) (rg_busy_ctr r) (rg_current_op r) (rg_add_xuid r) (rg_cb r) (rg_tsx_cb r)
  (rg_srv_url r) (rg_cseq r) (rg_contacts r) (rg_removed r) e (rg_expires r) (rg_expires_requested r) (rg_delay r) (rg_routes r) (rg_hdrs r)
  (rg_auth r) (rg_auto_reg r) (rg_next_reg r) (rg_timer_id r) (rg_timer r) (rg_last_transport r).
Definition set_rg_expires e r := mk_regc (rg_delete_flag r) (rg_has_tsx r) (rg_busy_ctr r) (rg_current_op r) (rg_add_xuid r) (rg_cb r) (rg_tsx_cb r)
  (rg_srv_url r) (rg_cseq r) (rg_contacts r) (rg_removed r) (rg_expires_hdr r) e (rg_expires_requested r) (rg_delay r) (rg_routes r) (rg_hdrs r)
  (rg_auth r) (rg_auto_reg r) (rg_next_reg r) (rg_timer_id r) (rg_timer r) (rg_last_transport r).
Definition set_requested e r := mk_regc (rg_delete_flag r) (rg_has_tsx r) (rg_busy_ctr r) (rg_current_op r) (rg_add_xuid r) (rg_cb r) (rg_tsx_cb r)
  (rg_srv_url r) (rg_cseq r) (rg_contacts r) (rg_removed r) (rg_expires_hdr r) (rg_expires r) e (rg_delay r) (rg_routes r) (rg_hdrs r)
  (rg_auth r) (rg_auto_reg r) (rg_next_reg r) (rg_timer_id r) (rg_timer r) (rg_last_transport r).
Definition set_delay d r := mk_regc (rg_delete_flag r) (rg_has_tsx r) (rg_busy_ctr r) (rg_current_op r) (rg_add_xuid r) (rg_cb r) (rg_tsx_cb r)
  (rg_srv_url r) (rg_cseq r) (rg_contacts r) (rg_removed r) (rg_expires_hdr r) (rg_expires r) (rg_expires_requested r) d (rg_routes r) (rg_hdrs r)
  (rg_auth r) (rg_auto_reg r) (rg_next_reg r) (rg_timer_id r) (rg_timer r) (rg_last_transport r).
Definition set_routes routes hdrs r := mk_regc (rg_delete_flag r) (rg_has_tsx r) (rg_busy_ctr r) (rg_current_op r) (rg_add_xuid r) (rg_cb r) (rg_tsx_cb r)
  (rg_srv_url r) (rg_cseq r) (rg_contacts r) (rg_removed r) (rg_expires_hdr r) (rg_expires r) (rg_expires_requested r) (rg_delay r) routes hdrs
  (rg_auth r) (rg_auto_reg r) (rg_next_reg r) (rg_timer_id r) (rg_timer r) (rg_last_transport r).
Definition set_auth a r := mk_regc (rg_delete_flag r) (rg_has_tsx r) (rg_busy_ctr r) (rg_current_op r) (rg_add_xuid r) (rg_cb r) (rg_tsx_cb r)
  (rg_srv_url r) (rg_cseq r) (rg_contacts r) (rg_removed r) (rg_expires_hdr r) (rg_expires r) (rg_expires_requested r) (rg_delay r) (rg_routes r) (rg_hdrs r)
  a (rg_auto_reg r) (rg_next_reg r) (rg_timer_id r) (rg_timer r) (rg_last_transport r).
Definition set_auto_reg b r := mk_regc (rg_delete_flag r) (rg_has_tsx r) (rg_busy_ctr r) (rg_current_op r) (rg_add_xuid r) (rg_cb r) (rg_tsx_cb r)
  (rg_srv_url r) (rg_cseq r) (rg_contacts r) (rg_removed r) (rg_expires_hdr r) (rg_expires r) (rg_expires_requested r) (rg_delay r) (rg_routes r) (rg_hdrs r)
  (rg_auth r) b (rg_next_reg r) (rg_timer_id r) (rg_timer r) (rg_last_transport r).
Definition set_next_reg t r := mk_regc (rg_delete_flag r) (rg_has_tsx r) (rg_busy_ctr r) (rg_current_op r) (rg_add_xuid r) (rg_cb r) (rg_tsx_cb r)
  (rg_srv_url r) (rg_cseq r) (rg_contacts r) (rg_removed r) (rg_expires_hdr r) (rg_expires r) (rg_expires_requested r) (rg_delay r) (rg_routes r) (rg_hdrs r)
  (rg_auth r) (rg_auto_reg r) t (rg_timer_id r) (rg_timer r) (rg_last_transport r).
Definition set_timer id t r := mk_regc (rg_delete_flag r) (rg_has_tsx r) (rg_busy_ctr r) (rg_current_op r) (rg_add_xuid r) (rg_cb r) (rg_tsx_cb r)
  (rg_srv_url r) (rg_cseq r) (rg_contacts r) (rg_removed r) (rg_expires_hdr r) (rg_expires r) (rg_expires_requested r) (rg_delay r) (rg_routes r) (rg_hdrs r)
  (rg_auth r) (rg_auto_reg r) (rg_next_reg r) id t (rg_last_transport r).
Definition set_transport t r := mk_regc (rg_delete_flag r) (rg_has_tsx r) (rg_busy_ctr r) (rg_current_op r) (rg_add_xuid r) (rg_cb r) (rg_tsx_cb r)
  (rg_srv_url r) (rg_cseq r) (rg_contacts r) (rg_removed r) (rg_expires_hdr r) (rg_expires r) (rg_expires_requested r) (rg_delay r) (rg_routes r) (rg_hdrs r)
  (rg_auth r) (rg_auto_reg r) (rg_next_reg r) (rg_timer_id r) (rg_timer r) t.

(** ** Contacts and settings *)

(** pjsip_uri_cmp of the name-addresses of two headers gives 0. *)
Definition contact_cmp (h1 h2 : contact_hdr Uri) : bool :=
  pjsip_name_addr_compare (h_display h1) (h_display h2) (if uri_cmp h1 h2 then 0 else 1) =? 0.

(** The loop over the new contacts: the status, the contacts, and the removed ones *)
Fixpoint add_contacts (xuid : bool) (l : list (option (contact_hdr Uri * list Z))) (contacts removed : list (contact_hdr Uri)) :
    Z * list (contact_hdr Uri) * list (contact_hdr Uri) :=
  match l with
  | [] => (PJ_SUCCESS, contacts, removed)
  | None :: _ => (PJSIP_EINVALIDURI, contacts, removed)
  | Some (hdr, unique) :: l' =>
      let removed := match list_find (fun h => contact_cmp h hdr = true) removed with
                     | Some (i, _) => take i removed ++ drop (S i) removed
                     | None => removed
                     end in
      let hdr := if xuid && is_sip (h_uri hdr) then set_h_xuid (Some unique) hdr else hdr in
      add_contacts xuid l' (contacts ++ [hdr]) removed
  end.

Definition set_contact (l : list (option (contact_hdr Uri * list Z))) r : Z * pjsip_regc Uri :=
  let '(status, contacts, removed) := add_contacts (rg_add_xuid r) l [] (map (set_h_expires 0) (rg_removed r ++ rg_contacts r)) in
  (status, set_lists contacts removed r).

Definition set_expires (expires : Z) r : pjsip_regc Uri :=
  set_expires_hdr (if expires =? rg_expires r then None else Some (i32 expires)) r.

Definition pjsip_regc_create (xuid : bool) : pjsip_regc Uri :=
  mk_regc false false 0 REGC_IDLE xuid true false [] 0 [] [] None PJSIP_REGC_EXPIRATION_NOT_SPECIFIED 0 0 [] []
    pjsip_auth_clt_init false 0 0 None None.

(** The three URLs are what they are parsed to; [rand]: what pj_rand gives *)
Definition pjsip_regc_init (srv_url from_url to_url : option (list Z)) (contacts : list (option (contact_hdr Uri * list Z))) (expires rand : Z) r :
    Z * pjsip_regc Uri :=
  if expires =? 0 then (PJ_EINVAL, r)
  else
    match srv_url, from_url, to_url with
    | Some srv_url, Some _, Some _ =>
        let r := mk_regc (rg_delete_flag r) (rg_has_tsx r) (rg_busy_ctr r) (rg_current_op r) (rg_add_xuid r) (rg_cb r) (rg_tsx_cb r) srv_url
          (rg_cseq r) (rg_contacts r) (rg_removed r) (rg_expires_hdr r) (rg_expires r) (rg_expires_requested r) (rg_delay r) (rg_routes r) (rg_hdrs r)
          (rg_auth r) (rg_auto_reg r) (rg_next_reg r) (rg_timer_id r) (rg_timer r) (rg_last_transport r) in
        let '(status, r) := set_contact contacts r in
        if negb (status =? PJ_SUCCESS) then (status, r)
        else (PJ_SUCCESS, set_cseq (rand mod 0xFFFF) (set_delay DELAY_BEFORE_REFRESH (set_expires expires r)))
    | _, _, _ => (PJSIP_EINVALIDURI, r)
    end.

Definition pjsip_regc_update_contact (l : list (option (contact_hdr Uri * list Z))) : M Uri Z :=
  r ← get;
  let '(status, r) := set_contact l r in
  modify (fun _ => r) ;; ret status.

Definition pjsip_regc_update_expires (expires : Z) : M Uri Z := modify (set_expires expires) ;; ret PJ_SUCCESS.

(** The whole array is undefined when a credential is refused and there were some. *)
Definition pjsip_regc_set_credentials (l : list pjsip_cred_info) : M Uri Z :=
  r ← get;
  match pjsip_auth_clt_set_credentials l (rg_auth r) with
  | (status, Some a) => modify (set_auth a) ;; ret status
  | (_, None) => stop Bad_auth
  end.

Definition pjsip_regc_set_prefs (p : pjsip_auth_clt_pref) : M Uri Z :=
  modify (fun r => set_auth (pjsip_auth_clt_set_prefs p (rg_auth r)) r) ;; ret PJ_SUCCESS.
Definition pjsip_regc_set_route_set (l : list (list Z)) : M Uri Z := modify (fun r => set_routes l (rg_hdrs r) r) ;; ret PJ_SUCCESS.
Definition pjsip_regc_add_headers (l : list (list Z)) : M Uri Z := modify (fun r => set_routes (rg_routes r) (rg_hdrs r ++ l) r) ;; ret PJ_SUCCESS.
Definition pjsip_regc_release_transport : M Uri Z := modify (set_transport None) ;; ret PJ_SUCCESS.
Definition pjsip_regc_set_reg_tsx_cb (b : bool) : M Uri Z := modify (set_tsx_cb b) ;; ret PJ_SUCCESS.

(** The state of the registration: busy, the interval, and the time of the next one *)
Definition pjsip_regc_get_info (now : Z) r : bool * bool * Z * Z :=
  (negb (rg_busy_ctr r =? 0) || rg_has_tsx r, rg_auto_reg r, i32 (rg_expires r),
   if rg_has_tsx r then 0 else if negb (rg_auto_reg r) then 0
   else if rg_expires r =? PJSIP_REGC_EXPIRATION_NOT_SPECIFIED then i32 (rg_expires r) else rg_next_reg r - now).

Definition cancel_timer r : pjsip_regc Uri := if negb (rg_timer_id r =? 0) then set_timer 0 None r else r.

(** ** Destruction *)

Definition pjsip_regc_destroy : M Uri unit :=
  r ← get;
  if rg_has_tsx r || negb (rg_busy_ctr r =? 0) then modify (set_flags true false)
  else
    modify (fun r => cancel_timer (set_transport None r)) ;;
    upd set_freed ;; log E_freed.

(** pj_atomic_dec_and_get(busy_ctr)==0 && _delete_flag *)
Definition leave : M Uri unit :=
  modify (fun r => set_busy (rg_busy_ctr r - 1) r) ;;
  r ← get;
  if (rg_busy_ctr r =? 0) && rg_delete_flag r then pjsip_regc_destroy else ret tt.

Definition enter : M Uri unit := modify (fun r => set_busy (rg_busy_ctr r + 1) r).

(** ** Making requests *)

Definition register_request (r : pjsip_regc Uri) : auth_request := mk_areq (lit "REGISTER") (rg_srv_url r) [] [] false 1.

(** The status of the authentication is not looked at. *)
Definition create_request : M Uri (Z * reg_msg Uri) :=
  a ← pop;
  r ← get;
  let m := mk_reg_msg [] None (rg_cseq r) (rg_routes r) (rg_hdrs r) (register_request r) in
  if negb (an_create a =? PJ_SUCCESS) then ret (an_create a, m)
  else
    match pjsip_auth_clt_init_req garbage aka_cb auto_send_next (an_unique a) (rg_auth r) (register_request r) with
    | None => stop Bad_auth
    | Some (_, req, s) => modify (set_auth s) ;; ret (PJ_SUCCESS, set_rm_auth req m)
    end.

Definition all_contacts r : list (reg_contact Uri) := map Contact (rg_contacts r ++ rg_removed r).
Definition clear_removed r : pjsip_regc Uri := set_lists (rg_contacts r) [] r.
Definition set_rm_expires e m : reg_msg Uri := mk_reg_msg (rm_contacts m) e (rm_cseq m) (rm_routes m) (rm_hdrs m) (rm_auth m).

Definition pjsip_regc_register (autoreg : bool) : M Uri (Z * option (reg_msg Uri)) :=
  modify (set_requested 1) ;;
  x ← create_request;
  let '(status, m) := x in
  if negb (status =? PJ_SUCCESS) then ret (status, None)
  else
    r ← get;
    let m := set_rm_expires (rg_expires_hdr r) (set_rm_contacts (all_contacts r) m) in
    modify (fun r => set_auto_reg autoreg (cancel_timer (clear_removed r))) ;;
    ret (PJ_SUCCESS, Some m).

Definition pjsip_regc_unregister : M Uri (Z * option (reg_msg Uri)) :=
  modify (fun r => set_requested 0 (cancel_timer r)) ;;
  x ← create_request;
  let '(status, m) := x in
  if negb (status =? PJ_SUCCESS) then ret (status, None)
  else
    r ← get;
    let m := set_rm_expires (Some 0) (set_rm_contacts (all_contacts r) m) in
    modify clear_removed ;;
    ret (PJ_SUCCESS, Some m).

Definition pjsip_regc_unregister_all : M Uri (Z * option (reg_msg Uri)) :=
  modify cancel_timer ;;
  x ← create_request;
  let '(status, m) := x in
  if negb (status =? PJ_SUCCESS) then ret (status, None)
  else
    modify clear_removed ;;
    ret (PJ_SUCCESS, Some (set_rm_expires (Some 0) (set_rm_contacts [Star] m))).

(** ** The refresh timer *)

(** An unsigned 32-bit value as a long *)
Definition to_long (x : Z) : Z := if wide_long then x else i32 x.

Definition refresh_delay (expiration : Z) r : Z :=
  let delay := to_long (u32 (expiration - rg_delay r)) in
  let delay := if negb (rg_expires r =? PJSIP_REGC_EXPIRATION_NOT_SPECIFIED) && (i32 (rg_expires r) <? delay)
               then to_long (rg_expires r) else delay in
  if delay <? DELAY_BEFORE_REFRESH then DELAY_BEFORE_REFRESH else delay.

Definition schedule_registration (expiration : Z) : M Uri unit :=
  r ← get;
  if rg_auto_reg r && (0 <? expiration) then
    now ← asks w_now;
    let delay := refresh_delay expiration r in
    modify (fun r => set_next_reg (now + delay) (set_timer REFRESH_TIMER (Some (now + delay)) r))
  else ret tt.

Definition pjsip_regc_set_delay_before_refresh (delay : Z) : M Uri Z :=
  r ← get;
  if rg_expires r <? delay then ret PJ_ETOOBIG
  else if rg_delay r =? delay then ret PJ_SUCCESS
  else
    modify (set_delay delay) ;;
    (if negb (rg_timer_id r =? 0) then modify (set_timer 0 None) ;; schedule_registration (i32 (rg_expires r)) else ret tt) ;;
    ret PJ_SUCCESS.

(** ** The expiration in a response *)

Definition same_xuid (h1 h2 : contact_hdr Uri) : bool :=
  is_sip (h_uri h1) && is_sip (h_uri h2) &&
  match h_xuid h1, h_xuid h2 with Some x, Some y => pj_strcmp x y =? 0 | _, _ => false end.

Definition contact_matches (xuid : bool) (theirs ours : contact_hdr Uri) : bool :=
  (check_contact && uri_cmp theirs ours) || (xuid && same_xuid theirs ours).

(** Whether one of the contacts is ours, and the lowest expiration of these *)
Fixpoint our_expiration (xuid : bool) (ours : list (contact_hdr Uri)) (has_our : bool) (expiration : Z) (contacts : list (contact_hdr Uri)) : bool * Z :=
  match contacts with
  | [] => (has_our, expiration)
  | c :: contacts' =>
      if existsb (contact_matches xuid c) ours then
        our_expiration xuid ours true (if (0 <=? h_expires c) && (h_expires c <? expiration) then h_expires c else expiration) contacts'
      else our_expiration xuid ours has_our expiration contacts'
  end.

Definition from_headers (expires : option Z) r : Z :=
  match expires, rg_expires_hdr r with
  | Some e, _ => e
  | None, Some e => e
  | None, None => 3600
  end.

(** The expiration, and the contacts of the response *)
Definition calculate_response_expiration r (rsp : reg_rsp Uri) : Z * list (contact_hdr Uri) :=
  let contacts := take PJSIP_REGC_MAX_CONTACT (rs_contacts rsp) in
  match rg_current_op r with
  | REGC_REGISTERING =>
      let '(has_our, expiration) :=
        if check_contact || rg_add_xuid r then our_expiration (rg_add_xuid r) (rg_contacts r) false NOEXP contacts else (false, NOEXP) in
      let expiration := if has_our && (expiration =? NOEXP) then from_headers (rs_expires rsp) r else expiration in
      let expiration :=
        if expiration =? NOEXP then
          match contacts with
          | c :: _ => if Nat.eqb (length contacts) (length (rg_contacts r)) && (0 <=? h_expires c) then h_expires c
                      else from_headers (rs_expires rsp) r
          | [] => from_headers (rs_expires rsp) r
          end
        else expiration in
      (expiration, contacts)
  | _ => (0, contacts)
  end.

(** ** Sending and the callbacks *)

(** What runs inside a call: calls of the application, or the end of a transaction *)
Inductive inner := N_calls (l : list (app_call Uri)) | N_event (m : reg_msg Uri) (e : tsx_event Uri).

Section Nested.
Context (nested : inner -> M Uri unit).

Definition run_calls (l : list (app_call Uri)) : M Uri unit := match l with [] => ret tt | _ => nested (N_calls l) end.

Definition call_callback (status code expiration : Z) (contact_cnt : nat) (is_unreg : bool) : M Uri unit :=
  r ← get;
  if negb (rg_cb r) then ret tt
  else
    log (E_callback status code (if 0 <=? expiration then expiration else i32 (rg_expires_requested r)) contact_cnt is_unreg) ;;
    a ← pop;
    run_calls (an_calls a).

Definition update_transport (t : option Z) : M Uri unit :=
  modify (fun r => if bool_decide (t = rg_last_transport r) then r else set_transport t r).

Definition is_unregister m : bool := match rm_expires m with Some e => e =? 0 | None => false end.

(** The event, if any, that takes place before pjsip_endpt_send_request returns.  A call that
    succeeds without one leaves a transaction. *)
Definition pjsip_endpt_send_request (m : reg_msg Uri) : M Uri (answer Uri) :=
  a ← pop;
  log (E_sent m) ;;
  match an_event a with
  | Some e =>
      (if an_status a =? PJ_SUCCESS then nested (N_event m e)
       else upd (fun w => set_failing (w_failing w + 1) w) ;; nested (N_event m e) ;; upd (fun w => set_failing (w_failing w - 1) w)) ;;
      ret a
  | None => (if an_status a =? PJ_SUCCESS then upd (fun w => set_pending (w_pending w ++ [m]) w) else ret tt) ;; ret a
  end.

Definition pjsip_regc_send (m : reg_msg Uri) : M Uri Z :=
  enter ;;
  r ← get;
  if rg_has_tsx r then modify (fun r => set_busy (rg_busy_ctr r - 1) r) ;; ret PJSIP_EBUSY
  else
    let m := set_rm_cseq (rg_cseq r + 1) m in
    modify (fun r =>
      let r := set_op (if is_unregister m then REGC_UNREGISTERING else REGC_REGISTERING) (set_has_tsx true (set_cseq (rg_cseq r + 1) r)) in
      match rm_expires m with Some e => if negb (e =? 0) then set_requested (u32 e) r else r | None => r end) ;;
    a ← pjsip_endpt_send_request m;
    let status := an_status a in
    (if negb (status =? PJ_SUCCESS) then modify (set_has_tsx false) else update_transport (an_tp a)) ;;
    leave ;;
    ret status.

(** The contacts of a request that is sent again: those that do not remove a binding are
    replaced by the ones that are registered now, and the removed ones follow. *)
Fixpoint replace_contacts (kept l new : list (reg_contact Uri)) : list (reg_contact Uri) :=
  match l with
  | [] => kept ++ new
  | c :: l' =>
      if negb (rc_expires c =? 0) then
        if existsb (fun c => negb (rc_expires c =? 0)) l' then replace_contacts kept l' new
        else kept ++ new ++ l'
      else replace_contacts (kept ++ [c]) l' new
  end.

Definition status_class (code : Z) : Z := Z.quot code 100.

(** The transaction callback of the application; whether it has updated the contacts *)
Definition call_tsx_cb (code : Z) : M Uri bool :=
  r ← get;
  match rg_current_op r with
  | REGC_REGISTERING =>
      if negb (rg_delete_flag r) && rg_tsx_cb r then
        log (E_tsx_callback code) ;;
        a ← pop;
        run_calls (an_calls a) ;;
        match an_contacts a with
        | Some l =>
            modify (fun r => if status_class code =? 2 then r
                             else set_lists (List.filter (fun h => negb (h_expires h =? -1)) (rg_contacts r)) (rg_removed r) r) ;;
            _ ← pjsip_regc_update_contact l;
            ret true
        | None => ret false
        end
      else ret false
  | _ => ret false
  end.

Definition get_rdata (e : tsx_event Uri) : M Uri (reg_rsp Uri) := match ev_rx e with Some rsp => ret rsp | None => stop No_rdata end.

(** 401 and 407 *)
Definition on_challenge (m : reg_msg Uri) (e : tsx_event Uri) (update_contact : bool) : M Uri unit :=
  rsp ← get_rdata e;
  r ← get;
  let is_unreg := match rg_current_op r with REGC_UNREGISTERING => true | _ => false end in
  modify (set_op REGC_IDLE) ;;
  let m := if update_contact then set_rm_contacts (replace_contacts [] (rm_contacts m) (all_contacts r)) m else m in
  (if update_contact then modify clear_removed else ret tt) ;;
  x ← match pjsip_auth_clt_reinit_req garbage aka_cb auto_send_next (ev_status e) (rs_chals rsp) (rg_auth r) (rm_auth m) with
      | None => stop Bad_auth
      | Some (status, req, s) => modify (set_auth s) ;; ret (status, set_rm_auth req m)
      end;
  let '(status, m) := x in
  status ← (if status =? PJ_SUCCESS then pjsip_regc_send m else ret status);
  if negb (status =? PJ_SUCCESS) then
    r ← get;
    if negb (rg_delete_flag r) then call_callback status (ev_status e) (-1) 0 is_unreg else ret tt
  else ret tt.

(** Any other end: the expiration, the refresh, and the callback *)
Definition on_final (e : tsx_event Uri) : M Uri unit :=
  x ← (if status_class (ev_status e) =? 2 then
         rsp ← get_rdata e;
         r ← get;
         let '(expiration, contacts) := calculate_response_expiration r rsp in
         schedule_registration expiration ;; ret (expiration, length contacts)
       else ret (NOEXP, O));
  let '(expiration, contact_cnt) := x in
  let expiration := if expiration =? NOEXP then -1 else expiration in
  r ← get;
  let is_unreg := match rg_current_op r with REGC_UNREGISTERING => true | _ => false end in
  modify (fun r => set_op REGC_IDLE (set_rg_expires (u32 expiration) r)) ;;
  call_callback PJ_SUCCESS (ev_status e) expiration contact_cnt is_unreg.

(** The expiration to ask for after a 423 *)
Definition min_expires (rsp : reg_rsp Uri) r : option Z :=
  let min_exp :=
    match rs_min_expires rsp with
    | Some me => Some me
    | None => match rg_expires_hdr r with Some e => if e =? UNSPECIFIED_MIN_EXPIRES then None else Some UNSPECIFIED_MIN_EXPIRES
                                        | None => Some UNSPECIFIED_MIN_EXPIRES end
    end in
  match min_exp, rg_expires_hdr r with
  | Some me, Some e => if me <=? e then None else Some me
  | _, _ => min_exp
  end.

(** 423 to a registration *)
Definition on_too_brief (e : tsx_event Uri) : M Uri unit :=
  rsp ← get_rdata e;
  modify (set_op REGC_IDLE) ;;
  r ← get;
  match min_expires rsp r with
  | None => on_final e
  | Some min_exp =>
      modify (set_expires (u32 min_exp)) ;;
      x ← pjsip_regc_register (rg_auto_reg r);
      let '(status, om) := x in
      status ← match om with Some m => pjsip_regc_send m | None => ret status end;
      if negb (status =? PJ_SUCCESS) then
        r ← get;
        if negb (rg_delete_flag r) then call_callback status (ev_status e) (-1) 0 false else ret tt
      else ret tt
  end.

Definition regc_tsx_callback (m : reg_msg Uri) (e : tsx_event Uri) : M Uri unit :=
  enter ;;
  modify (set_has_tsx false) ;;
  update_transport (ev_transport e) ;;
  update_contact ← call_tsx_cb (ev_status e);
  r ← get;
  (if (ev_status e =? PJSIP_SC_PROXY_AUTHENTICATION_REQUIRED) || (ev_status e =? PJSIP_SC_UNAUTHORIZED) then on_challenge m e update_contact
   else if rg_delete_flag r then modify (set_op REGC_IDLE)
   else if (ev_status e =? PJSIP_SC_INTERVAL_TOO_BRIEF) && match rg_current_op r with REGC_REGISTERING => true | _ => false end then on_too_brief e
   else on_final e) ;;
  leave.

Definition regc_refresh_timer_cb : M Uri unit :=
  enter ;;
  modify (fun r => set_timer 0 (rg_timer r) r) ;;
  x ← pjsip_regc_register true;
  let '(status, om) := x in
  status ← match om with Some m => pjsip_regc_send m | None => ret status end;
  r ← get;
  (if negb (status =? PJ_SUCCESS) && rg_cb r then call_callback status 400 (-1) 0 false else ret tt) ;;
  leave.

(** ** The application *)

Definition keep (x : Z * option (reg_msg Uri)) : M Uri unit :=
  match x.2 with Some m => upd (fun w => set_made (w_made w ++ [m]) w) | None => ret tt end.

Definition drop_status (m : M Uri Z) : M Uri unit := _ ← m; ret tt.

(** An application that has destroyed its registration does not use it any more. *)
Definition app_run (c : app_call Uri) : M Uri unit :=
  released ← asks w_released;
  if (released : bool) then stop Misuse
  else
    match c with
    | C_register autoreg => x ← pjsip_regc_register autoreg; keep x
    | C_unregister => x ← pjsip_regc_unregister; keep x
    | C_unregister_all => x ← pjsip_regc_unregister_all; keep x
    | C_send i =>
        made ← asks w_made;
        failing ← asks w_failing;
        match (made : list (reg_msg Uri)) !! i with
        | None => stop Misuse
        | Some m =>
            if watch && negb (failing =? 0) then stop Failing_send
            else upd (fun w => set_made (take i (w_made w) ++ drop (S i) (w_made w)) w) ;; drop_status (pjsip_regc_send m)
        end
    | C_update_contact l => drop_status (pjsip_regc_update_contact l)
    | C_update_expires e => drop_status (pjsip_regc_update_expires e)
    | C_set_delay d => drop_status (pjsip_regc_set_delay_before_refresh d)
    | C_set_route_set l => drop_status (pjsip_regc_set_route_set l)
    | C_add_headers l => drop_status (pjsip_regc_add_headers l)
    | C_set_credentials l => drop_status (pjsip_regc_set_credentials l)
    | C_set_prefs p => drop_status (pjsip_regc_set_prefs p)
    | C_set_tsx_cb b => drop_status (pjsip_regc_set_reg_tsx_cb b)
    | C_release_transport => drop_status pjsip_regc_release_transport
    | C_destroy => upd set_released ;; log E_released ;; pjsip_regc_destroy
    end.

Fixpoint app_all (l : list (app_call Uri)) : M Uri unit := match l with [] => ret tt | c :: l' => app_run c ;; app_all l' end.
End Nested.

(** ** Runs *)

Fixpoint run (fuel : nat) (n : inner) : M Uri unit :=
  match fuel with
  | O => stop No_fuel
  | S fuel' =>
      match n with
      | N_calls l => app_all (run fuel') l
      | N_event m e => regc_tsx_callback (run fuel') m e
      end
  end.

Definition run_fuel (answers : list (answer Uri)) : nat := S (length answers).

(** What happens to a registration from outside: the application calls it, the time passes,
    its timer expires, a transaction ends *)
Inductive event := Ev_calls (l : list (app_call Uri)) | Ev_time (t : Z) | Ev_timer | Ev_tsx (i : nat) (e : tsx_event Uri).

(** The timer callback finds an entry that the heap has removed. *)
Definition fire_timer (nested : inner -> M Uri unit) : M Uri unit := fun w =>
  match rg_timer (w_regc w) with
  | Some t => if t <=? w_now w then (modify (fun r => set_timer (rg_timer_id r) None r) ;; regc_refresh_timer_cb nested) w else Ok tt w
  | None => Ok tt w
  end.

Definition handle (answers : list (answer Uri)) (ev : event) : M Uri unit :=
  upd (set_answers answers) ;;
  match ev with
  | Ev_calls l => run (run_fuel answers) (N_calls l)
  | Ev_time t => upd (fun w => set_now (Z.max t (w_now w)) w)
  | Ev_timer => fire_timer (run (run_fuel answers))
  | Ev_tsx i e =>
      pending ← asks w_pending;
      match (pending : list (reg_msg Uri)) !! i with
      | None => ret tt
      | Some m =>
          upd (fun w => set_pending (take i (w_pending w) ++ drop (S i) (w_pending w)) w) ;;
          run (run_fuel answers) (N_event m e)
      end
  end.

Fixpoint history (l : list (list (answer Uri) * event)) : M Uri unit :=
  match l with [] => ret tt | (answers, ev) :: l' => handle answers ev ;; history l' end.

Definition initial (r : pjsip_regc Uri) : world Uri := mk_world r false false [] [] 0 [] 0 [].
End Reg.
