(* ===== verification/SipRegSafe.v ===== *)
(** * Client registrations: the invariant

    A registration is never used after it is freed, it is freed when the application has
    destroyed it and no transaction is left, the application hears nothing after that, and
    the nested calls end.  [after] says what every function leaves behind; the functions
    are in the order of the code. *)

From S2P Require Import Prelude Hash PjStr SipTypes SipAuth SipAuthProps SipReg.

Section Safe.
Context {Str : PjString} {Uri : Type} (uri_cmp : contact_hdr Uri -> contact_hdr Uri -> bool) (is_sip : Uri -> bool).
Context (check_contact wide_long : bool) (garbage : list Z).
Context (aka_cb : pjsip_digest_challenge -> pjsip_cred_info -> list Z -> pjsip_digest_credential -> Z * pjsip_digest_credential).
Context (auto_send_next : bool).
Hypothesis garbage_length : length garbage = 64%nat.

Implicit Types (w : world Uri) (r : pjsip_regc Uri) (m : reg_msg Uri).

(** ** What comes from outside *)

Definition call_ok (c : app_call Uri) : Prop :=
  match c with C_set_credentials l => Forall (fun c => cred_ok c /\ is_aka c = false) l | _ => True end.

(** The end of a transaction: a message, whose challenges have short strings, or a local
    status, 408, 502 or 503, which is none of those that need one *)
Definition local_code (code : Z) : Prop := code <> 401 /\ code <> 407 /\ code <> 423 /\ status_class code <> 2.
Definition event_ok (e : tsx_event Uri) : Prop :=
  match ev_rx e with Some rsp => Forall hdr_short (rs_chals rsp) | None => local_code (ev_status e) end.

(** A call that fails reports a local status first, if anything. *)
Definition answer_ok (a : answer Uri) : Prop :=
  short (an_unique a) /\ Forall call_ok (an_calls a) /\
  forall e, an_event a = Some e -> event_ok e /\ (an_status a <> PJ_SUCCESS -> ev_rx e = None).

Definition msg_ok m : Prop := req_ok (rm_auth m).

(** ** The log *)

(** No callback after the application has destroyed the registration *)
Fixpoint quiet (released : bool) (l : list (effect Uri)) : bool :=
  match l with
  | [] => true
  | E_released :: l' => quiet true l'
  | E_callback _ _ _ _ _ :: l' | E_tsx_callback _ :: l' => negb released && quiet released l'
  | _ :: l' => quiet released l'
  end.

Definition is_released (e : effect Uri) : bool := match e with E_released => true | _ => false end.
Definition is_freed (e : effect Uri) : bool := match e with E_freed => true | _ => false end.
Definition is_callback (e : effect Uri) : bool := match e with E_callback _ _ _ _ _ | E_tsx_callback _ => true | _ => false end.
Definition frees (l : list (effect Uri)) : nat := length (List.filter is_freed l).

Lemma quiet_app b l e : quiet b (l ++ [e]) = quiet b l && (negb (is_callback e) || negb (b || existsb is_released l)).
Proof.
  revert b. induction l as [|x l IH]; intros b; cbn.
  - destruct e; cbn; rewrite ?orb_false_r, ?andb_true_r; done.
  - destruct x; cbn; rewrite IH; rewrite ?orb_true_r; try done; by rewrite ?andb_assoc.
Qed.

(** ** The invariant *)

Record log_ok w : Prop := {
  lg_quiet : quiet false (w_log w) = true;
  lg_released : existsb is_released (w_log w) = w_released w;
  lg_freed : frees (w_log w) = if w_freed w then 1%nat else 0%nat
}.

(** [b]: how many calls of the registration are running *)
Record base (b : Z) w : Prop := {
  bs_freed : w_freed w = false;
  bs_busy : rg_busy_ctr (w_regc w) = b;
  bs_flag : rg_delete_flag (w_regc w) = w_released w;
  bs_cb : w_released w = true -> rg_cb (w_regc w) = false;
  bs_timer : rg_timer_id (w_regc w) = 0 <-> rg_timer (w_regc w) = None;
  bs_auth : sess_ok (rg_auth (w_regc w));
  bs_no_aka : no_aka (rg_auth (w_regc w));
  bs_url : short (rg_srv_url (w_regc w));
  bs_pending : Forall msg_ok (w_pending w);
  bs_made : Forall msg_ok (w_made w);
  bs_answers : Forall answer_ok (w_answers w);
  bs_failing : 0 <= w_failing w;
  bs_log : log_ok w
}.

(** There is a transaction exactly when the registration has one. *)
Definition tsx_ok w : Prop := length (w_pending w) = if rg_has_tsx (w_regc w) then 1%nat else 0%nat.

(** What every operation keeps *)
Record frame w w' : Prop := {
  fr_answers : (length (w_answers w') <= length (w_answers w))%nat;
  fr_failing : w_failing w' = w_failing w;
  fr_pending : 0 < w_failing w -> w_pending w' = w_pending w
}.

Lemma frame_refl w : frame w w.
Proof. by split. Qed.
Lemma frame_trans w1 w2 w3 : frame w1 w2 -> frame w2 w3 -> frame w1 w3.
Proof. intros [H1 H2 H3] [H4 H5 H6]. split; [lia|congruence|]. intros H. rewrite H6 by (by rewrite H2). by apply H3. Qed.

(** Between calls a registration that is destroyed waits for its transaction. *)
Record alive (b : Z) w : Prop := {
  al_base : base b w;
  al_tsx : tsx_ok w;
  al_wait : b = 0 -> w_released w = true -> rg_has_tsx (w_regc w) = true
}.

Record dead w : Prop := {
  dd_freed : w_freed w = true;
  dd_released : w_released w = true;
  dd_pending : w_pending w = [];
  dd_timer : rg_timer (w_regc w) = None;
  dd_log : log_ok w
}.

Definition after (b : Z) w w' : Prop := frame w w' /\ (alive b w' \/ b = 0 /\ dead w').

(** ** The logic *)

Definition wp {A} (m : M Uri A) (Q : A -> world Uri -> Prop) w : Prop :=
  match m w with Ok a w' => Q a w' | Stop (Misuse | Failing_send) => True | Stop _ => False end.

Lemma reg_wp_bind {A B} (m : M Uri A) (f : A -> M Uri B) Q w : wp m (fun a => wp (f a) Q) w -> wp (bind m f) Q w.
Proof. unfold wp, bind. by destruct (m w). Qed.

Lemma reg_wp_mono {A} (m : M Uri A) (Q1 Q2 : A -> world Uri -> Prop) w : wp m Q1 w -> (forall a w', Q1 a w' -> Q2 a w') -> wp m Q2 w.
Proof. unfold wp. destruct (m w); [auto|done]. Qed.

Lemma reg_wp_seq {A B} (m : M Uri A) (f : A -> M Uri B) Q1 Q2 w :
  wp m Q1 w -> (forall a w', Q1 a w' -> wp (f a) Q2 w') -> wp (bind m f) Q2 w.
Proof. intros H Hf. apply reg_wp_bind. by apply (reg_wp_mono m Q1). Qed.

Lemma reg_wp_get b w Q : base b w -> Q (w_regc w) w -> wp get Q w.
Proof. intros [Hf _ _ _ _ _ _ _ _ _ _ _ _] HQ. unfold wp, get. by rewrite Hf. Qed.

Lemma wp_modify b f w Q : base b w -> Q tt (set_regc (f (w_regc w)) w) -> wp (modify f) Q w.
Proof. intros [Hf _ _ _ _ _ _ _ _ _ _ _ _] HQ. unfold wp, modify. by rewrite Hf. Qed.

(** An update that touches nothing the invariant speaks of *)
Definition harmless (f : pjsip_regc Uri -> pjsip_regc Uri) : Prop := forall r,
  let r' := f r in
  rg_busy_ctr r' = rg_busy_ctr r /\ rg_delete_flag r' = rg_delete_flag r /\ rg_cb r' = rg_cb r /\
  rg_has_tsx r' = rg_has_tsx r /\ rg_auth r' = rg_auth r /\ rg_srv_url r' = rg_srv_url r /\
  ((rg_timer_id r = 0 <-> rg_timer r = None) -> (rg_timer_id r' = 0 <-> rg_timer r' = None)).

Lemma harmless_base b f w : harmless f -> base b w -> base b (set_regc (f (w_regc w)) w).
Proof.
  intros Hf []. destruct (Hf (w_regc w)) as (H1 & H2 & H3 & H4 & H5 & H6 & H7). split; cbn; rewrite ?H1, ?H2, ?H3, ?H5, ?H6; try done; [tauto|by destruct bs_log0].
Qed.

Lemma harmless_tsx f w : harmless f -> tsx_ok w -> tsx_ok (set_regc (f (w_regc w)) w).
Proof. intros Hf H. destruct (Hf (w_regc w)) as (_ & _ & _ & H4 & _). unfold tsx_ok in *. cbn. by rewrite H4. Qed.

Lemma harmless_alive b f w : harmless f -> alive b w -> alive b (set_regc (f (w_regc w)) w).
Proof.
  intros Hf [Hb Ht Hw]. split; [by apply harmless_base|by apply harmless_tsx|]. cbn. destruct (Hf (w_regc w)) as (_ & _ & _ & H4 & _). by rewrite H4.
Qed.

Lemma frame_regc r w w' : frame w w' -> frame w (set_regc r w').
Proof. intros []. by split. Qed.

(** ** Steps that leave the transaction and the application alone *)

Record calm (b : Z) w w' : Prop := {
  cm_alive : alive b w';
  cm_frame : frame w w';
  cm_pending : w_pending w' = w_pending w;
  cm_released : w_released w' = w_released w
}.

Lemma calm_refl b w : alive b w -> calm b w w.
Proof. intros H. split; [done|apply frame_refl|done|done]. Qed.

Lemma calm_trans b w1 w2 w3 : calm b w1 w2 -> calm b w2 w3 -> calm b w1 w3.
Proof. intros [] []. split; [done|by apply (frame_trans w1 w2)|congruence|congruence]. Qed.

Ltac harmless := try intros ?; cbn; split_and!; try done; try tauto.

Lemma calm_modify b f w : harmless f -> alive b w -> wp (modify f) (fun _ w' => calm b w w' /\ w' = set_regc (f (w_regc w)) w) w.
Proof.
  intros Hf Hw. apply (wp_modify b); [apply Hw|]. split; [|done]. split; [by apply harmless_alive|by apply frame_regc, frame_refl|done|done].
Qed.

Lemma calm_then {A B} b (m : M Uri A) (f : A -> M Uri B) Q w : wp m (fun _ w' => calm b w w') w ->
  (forall a w', calm b w w' -> wp (f a) (fun x w'' => calm b w' w'' /\ Q x) w') -> wp (bind m f) (fun x w'' => calm b w w'' /\ Q x) w.
Proof.
  intros H Hf. apply (reg_wp_seq _ _ (fun _ w' => calm b w w')); [done|]. intros a w' Hw. apply (reg_wp_mono _ _ _ _ (Hf a w' Hw)).
  intros x w'' [H1 H2]. split; [by apply (calm_trans b w w')|done].
Qed.

Lemma calm_status b f w : harmless f -> alive b w -> wp (modify f ;; ret PJ_SUCCESS) (fun _ w' => calm b w w') w.
Proof. intros Hf Hw. apply (reg_wp_seq _ _ _ _ _ (calm_modify b f w Hf Hw)). by intros ? w' [H _]. Qed.

Lemma set_contact_harmless l : harmless (fun r => (set_contact uri_cmp is_sip l r).2).
Proof. intros r. unfold set_contact. destruct (add_contacts _ _ _ _ _ _) as [[st c] rm]. harmless. Qed.

Lemma update_contact_ok b l w : alive b w -> wp (pjsip_regc_update_contact uri_cmp is_sip l) (fun _ w' => calm b w w') w.
Proof.
  intros Hw. unfold pjsip_regc_update_contact. apply reg_wp_bind, (reg_wp_get b); [apply Hw|].
  pose proof (set_contact_harmless l) as Hf. destruct (set_contact uri_cmp is_sip l (w_regc w)) as [st r'] eqn:E.
  apply reg_wp_bind, (wp_modify b); [apply Hw|]. unfold wp, ret. replace r' with ((fun r => (set_contact uri_cmp is_sip l r).2) (w_regc w)) by by rewrite E.
  split; [by apply (harmless_alive b (fun r => (set_contact uri_cmp is_sip l r).2))|by apply frame_regc, frame_refl|done|done].
Qed.

(** Updates of the authentication *)
Lemma set_auth_alive b a w : alive b w -> sess_ok a -> no_aka a -> alive b (set_regc (set_auth a (w_regc w)) w).
Proof. intros [[] Ht Hw] Ha Hn. split; [|done|done]. split; try done. by destruct bs_log0. Qed.

Lemma set_credentials_ok b l w : alive b w -> Forall (fun c => cred_ok c /\ is_aka c = false) l ->
  wp (pjsip_regc_set_credentials l) (fun _ w' => calm b w w') w.
Proof.
  intros Hw Hl. unfold pjsip_regc_set_credentials. apply reg_wp_bind, (reg_wp_get b); [apply Hw|]. unfold pjsip_auth_clt_set_credentials.
  assert (Hno : existsb is_aka l = false).
  { induction Hl as [|c l [_ Hc] _ IH]; cbn; [done|]. by rewrite Hc. }
  rewrite Hno. apply reg_wp_bind, (wp_modify b); [apply Hw|]. unfold wp, ret. destruct (bs_auth _ _ (al_base _ _ Hw)) as [_ Hca].
  split; [|by apply frame_regc, frame_refl|done|done]. apply set_auth_alive; [done| |].
  - split; [|done]. cbn. eapply Forall_impl; [exact Hl|]. by intros c [].
  - unfold no_aka. cbn. eapply Forall_impl; [exact Hl|]. by intros c [].
Qed.

Lemma set_prefs_ok b p w : alive b w -> wp (pjsip_regc_set_prefs p) (fun _ w' => calm b w w') w.
Proof.
  intros Hw. unfold pjsip_regc_set_prefs. apply reg_wp_bind, (wp_modify b); [apply Hw|]. unfold wp, ret.
  destruct (bs_auth _ _ (al_base _ _ Hw)). pose proof (bs_no_aka _ _ (al_base _ _ Hw)) as Hn.
  split; [|by apply frame_regc, frame_refl|done|done]. by apply set_auth_alive.
Qed.

(** ** Making requests *)

Lemma pop_ok b w : base b w -> wp pop (fun a w' => answer_ok a /\ (exists l, w' = set_answers l w) /\ base b w' /\ frame w w' /\
  (an_calls a <> [] \/ is_Some (an_event a) -> (length (w_answers w') < length (w_answers w))%nat)) w.
Proof.
  intros H. unfold wp, pop. destruct (w_answers w) as [|a l] eqn:E.
  - split; [split; [done|split; [constructor|done]]|]. split; [exists []; destruct w; cbn in E; by subst|]. split; [done|].
    split; [apply frame_refl|]. by intros [?|[? ?]].
  - destruct H. rewrite E in bs_answers0. apply Forall_cons in bs_answers0 as [Ha Hl]. split_and!; try done; [by exists l| | |cbn; lia].
    + split; try done. by destruct bs_log0.
    + split; try done. cbn. rewrite E. cbn. lia.
Qed.

Lemma answers_alive b l w : alive b w -> base b (set_answers l w) -> alive b (set_answers l w).
Proof. intros [_ Ht Hw] Hb. by split. Qed.

Lemma create_request_ok b w : alive b w ->
  wp (create_request garbage aka_cb auto_send_next) (fun x w' => calm b w w' /\ msg_ok x.2) w.
Proof.
  intros Hw. unfold create_request. apply (reg_wp_seq _ _ _ _ _ (pop_ok b w (al_base _ _ Hw))).
  intros a w1 ((Hu & _) & [l ->] & Hb & Hfr & _). pose proof (answers_alive b l w Hw Hb) as Hw1.
  assert (Hc : calm b w (set_answers l w)) by (by split). apply reg_wp_bind, (reg_wp_get b); [done|]. cbn zeta.
  assert (Hreq : req_ok (register_request (w_regc w))) by (split; [apply (bs_url _ _ Hb)|done]).
  destruct (negb _); [by unfold wp, ret|]. cbn [w_regc set_answers].
  destruct (init_req_ok garbage aka_cb auto_send_next garbage_length (an_unique a) (rg_auth (w_regc w)) (register_request (w_regc w))
    (bs_auth _ _ Hb) Hu Hreq) as (st & req & s' & -> & Hs & Ecr & Eu & Em & _).
  apply reg_wp_bind, (wp_modify b); [done|]. unfold wp, ret. split; [|split; cbn; [rewrite Eu|rewrite Em]; apply Hreq].
  apply (calm_trans b w _ _ Hc). split; [|by apply frame_regc, frame_refl|done|done]. apply set_auth_alive; [done|done|].
  unfold no_aka. rewrite Ecr. apply (bs_no_aka _ _ Hb).
Qed.

Lemma cancel_timer_harmless : harmless (@cancel_timer Uri).
Proof. intros r. unfold cancel_timer. destruct (negb _); harmless. Qed.

Lemma harmless_comp f g : harmless f -> harmless g -> harmless (fun r => f (g r)).
Proof.
  intros Hf Hg r. destruct (Hg r) as (H1 & H2 & H3 & H4 & H5 & H6 & H7), (Hf (g r)) as (F1 & F2 & F3 & F4 & F5 & F6 & F7). cbn zeta.
  split_and!; try congruence. tauto.
Qed.

(** The three kinds of requests: an update before, and one behind the creation *)
Lemma make_request_ok b f g (k : pjsip_regc Uri -> reg_msg Uri -> reg_msg Uri) w : harmless f -> harmless g ->
  (forall r m, rm_auth (k r m) = rm_auth m) -> alive b w ->
  wp (modify f ;; x ← create_request garbage aka_cb auto_send_next;
      let '(status, m) := x in
      if negb (status =? PJ_SUCCESS) then ret (status, None)
      else r ← get; modify g ;; ret (PJ_SUCCESS, Some (k r m)))
    (fun x w' => calm b w w' /\ forall m, x.2 = Some m -> msg_ok m) w.
Proof.
  intros Hf Hg Hk Hw. apply (reg_wp_seq _ _ _ _ _ (calm_modify b f w Hf Hw)). intros _ w1 [Hc1 _].
  apply (reg_wp_seq _ _ _ _ _ (create_request_ok b w1 (cm_alive _ _ _ Hc1))). intros [st m] w2 [Hc2 Hm]. cbn in Hm.
  pose proof (calm_trans b w w1 w2 Hc1 Hc2) as Hc. destruct (negb _); [by unfold wp, ret|].
  apply reg_wp_bind, (reg_wp_get b); [apply Hc|]. apply (reg_wp_seq _ _ _ _ _ (calm_modify b g w2 Hg (cm_alive _ _ _ Hc))).
  intros _ w3 [Hc3 _]. unfold wp, ret. split; [by apply (calm_trans b w w2)|]. intros m' [= <-]. unfold msg_ok. by rewrite Hk.
Qed.

Lemma register_ok b autoreg w : alive b w ->
  wp (pjsip_regc_register garbage aka_cb auto_send_next autoreg) (fun x w' => calm b w w' /\ forall m, x.2 = Some m -> msg_ok m) w.
Proof.
  apply (make_request_ok b (set_requested 1) (fun r => set_auto_reg autoreg (cancel_timer (clear_removed r)))
    (fun r m => set_rm_expires (rg_expires_hdr r) (set_rm_contacts (all_contacts r) m))); [harmless| |done].
  apply (harmless_comp (set_auto_reg autoreg) (fun r => cancel_timer (clear_removed r))); [harmless|].
  apply (harmless_comp cancel_timer clear_removed); [apply cancel_timer_harmless|harmless].
Qed.

Lemma unregister_ok b w : alive b w ->
  wp (pjsip_regc_unregister garbage aka_cb auto_send_next) (fun x w' => calm b w w' /\ forall m, x.2 = Some m -> msg_ok m) w.
Proof.
  apply (make_request_ok b (fun r => set_requested 0 (cancel_timer r)) clear_removed
    (fun r m => set_rm_expires (Some 0) (set_rm_contacts (all_contacts r) m))); [|harmless|done].
  apply (harmless_comp (set_requested 0) cancel_timer); [harmless|apply cancel_timer_harmless].
Qed.

Lemma unregister_all_ok b w : alive b w ->
  wp (pjsip_regc_unregister_all garbage aka_cb auto_send_next) (fun x w' => calm b w w' /\ forall m, x.2 = Some m -> msg_ok m) w.
Proof.
  intros Hw. unfold pjsip_regc_unregister_all. apply (reg_wp_seq _ _ _ _ _ (calm_modify b _ w cancel_timer_harmless Hw)). intros _ w1 [Hc1 _].
  apply (reg_wp_seq _ _ _ _ _ (create_request_ok b w1 (cm_alive _ _ _ Hc1))). intros [st m] w2 [Hc2 Hm]. cbn in Hm.
  pose proof (calm_trans b w w1 w2 Hc1 Hc2) as Hc. destruct (negb _); [by unfold wp, ret|].
  apply (reg_wp_seq _ _ _ _ _ (calm_modify b (@clear_removed Uri) w2 ltac:(harmless) (cm_alive _ _ _ Hc))).
  intros _ w3 [Hc3 _]. unfold wp, ret. split; [by apply (calm_trans b w w2)|]. by intros m' [= <-].
Qed.

(** ** The timer *)

Lemma reg_schedule_ok b e w : alive b w -> wp (schedule_registration wide_long e) (fun _ w' => calm b w w') w.
Proof.
  intros Hw. unfold schedule_registration. apply reg_wp_bind, (reg_wp_get b); [apply Hw|]. destruct (_ && _); [|by apply calm_refl].
  unfold asks. apply reg_wp_bind. unfold wp at 1. cbn zeta.
  refine (reg_wp_mono _ _ _ _ (calm_modify b _ w _ Hw) _); [harmless|by intros ? ? []]. 
Qed.

Lemma set_delay_ok b d w : alive b w -> wp (pjsip_regc_set_delay_before_refresh wide_long d) (fun _ w' => calm b w w') w.
Proof.
  intros Hw. unfold pjsip_regc_set_delay_before_refresh. apply reg_wp_bind, (reg_wp_get b); [apply Hw|].
  destruct (_ <? _); [by apply calm_refl|]. destruct (_ =? _); [by apply calm_refl|].
  apply (reg_wp_seq _ _ _ _ _ (calm_modify b (set_delay d) w ltac:(harmless) Hw)). intros _ w1 [Hc1 _].
  apply (reg_wp_seq _ _ (fun _ w' => calm b w w')); [|by intros].
  destruct (negb _); [|done]. apply (reg_wp_seq _ _ _ _ _ (calm_modify b (set_timer 0 None) w1 ltac:(harmless) (cm_alive _ _ _ Hc1))).
  intros _ w2 [Hc2 _]. apply (reg_wp_mono _ _ _ _ (reg_schedule_ok b _ w2 (cm_alive _ _ _ Hc2))). intros _ w3 Hc3.
  apply (calm_trans b w w1); [done|]. by apply (calm_trans b w1 w2).
Qed.

(** ** Leaving and destroying *)

Lemma log_add e w : log_ok w -> is_released e = false -> is_freed e = false -> (is_callback e = true -> w_released w = false) -> log_ok (add_log e w).
Proof.
  intros [Hq Hr Hf] E1 E2 E3. split; cbn.
  - rewrite quiet_app, Hq. cbn. destruct (is_callback e); [|done]. by rewrite Hr, E3.
  - by rewrite existsb_app, Hr; cbn; rewrite E1, !orb_false_r.
  - unfold frees in *. by rewrite List.filter_app, length_app, Hf; cbn; rewrite E2, Nat.add_0_r.
Qed.

Lemma base_log b e w : base b w -> is_released e = false -> is_freed e = false -> (is_callback e = true -> w_released w = false) -> base b (add_log e w).
Proof. intros [] ? ? ?. split; try done. by apply log_add. Qed.

Lemma busy_base b n w : base b w -> base n (set_regc (set_busy n (w_regc w)) w).
Proof. intros []. split; try done. by destruct bs_log0. Qed.

(** Freeing a registration that is not busy *)
Lemma destroy_ok b w : base b w -> tsx_ok w -> w_released w = true -> 0 <= b ->
  wp pjsip_regc_destroy (fun _ w' => after b w w' /\ (0 < b -> alive b w')) w.
Proof.
  intros Hb Ht Hr Hb0. unfold pjsip_regc_destroy. apply reg_wp_bind, (reg_wp_get b); [done|].
  destruct (rg_has_tsx (w_regc w)) eqn:Eh; cbn [orb].
  2: destruct (Z.eqb_spec (rg_busy_ctr (w_regc w)) 0) as [E0|E0]; cbn [negb].
  2: { apply reg_wp_bind, (wp_modify b); [done|]. unfold wp, bind, log, upd. cbn. rewrite (bs_busy _ _ Hb) in E0. subst b.
       split; [|lia]. split; [by split|]. right. split; [done|]. unfold tsx_ok in Ht. rewrite Eh in Ht.
       pose proof (bs_log _ _ Hb) as [Hq Hl Hf]. split; cbn; try done.
       - destruct (w_pending w); [done|cbn in Ht; lia].
       - unfold cancel_timer. cbn. destruct (Z.eqb_spec (rg_timer_id (w_regc w)) 0) as [E|E]; cbn; [by apply (bs_timer _ _ Hb)|done].
       - rewrite (bs_freed _ _ Hb) in Hf. split; cbn.
         + by rewrite quiet_app, Hq.
         + by rewrite existsb_app, Hl; cbn; rewrite orb_false_r.
         + unfold frees in *. by rewrite List.filter_app, length_app, Hf. }
  all: apply (wp_modify b); [done|].
  all: assert (Hal : alive b (set_regc (set_flags true false (w_regc w)) w)).
  1,3: split; [destruct Hb; split; try done; by destruct bs_log0|done|]; cbn; intros E; try done; by rewrite (bs_busy _ _ Hb) in E0.
  all: split; [split; [by apply frame_regc, frame_refl|by left]|done].
Qed.

(** The end of a function: the counter goes back to [b]. *)
Lemma leave_ok b w : base (b + 1) w -> tsx_ok w -> 0 <= b -> wp leave (fun _ w' => after b w w') w.
Proof.
  intros Hb Ht Hb0. unfold leave. apply reg_wp_bind, (wp_modify (b + 1)); [done|]. rewrite (bs_busy _ _ Hb). replace (b + 1 - 1) with b by lia.
  pose proof (busy_base (b + 1) b w Hb) as Hb1. set (w1 := set_regc _ w) in *. apply reg_wp_bind, (reg_wp_get b); [done|].
  assert (Hf : frame w w1) by by apply frame_regc, frame_refl. rewrite (bs_busy _ _ Hb1), (bs_flag _ _ Hb1).
  destruct (Z.eqb_spec b 0) as [->|Hne]; cbn [andb].
  - destruct (w_released w1) eqn:Er.
    + apply (reg_wp_mono _ _ _ _ (destroy_ok 0 w1 Hb1 Ht Er ltac:(lia))). intros _ w2 [[Hf2 H2] _]. split; [by apply (frame_trans w w1)|done].
    + split; [done|]. left. split; [done|done|]. intros _. rewrite Er. done.
  - split; [done|]. left. by split.
Qed.

Lemma enter_ok b w : base b w -> wp enter (fun _ w' => w' = set_regc (set_busy (b + 1) (w_regc w)) w /\ base (b + 1) w' /\ frame w w') w.
Proof.
  intros Hb. unfold enter. apply (wp_modify b); [done|]. rewrite (bs_busy _ _ Hb). split_and!; [done|by apply (busy_base b)|by apply frame_regc, frame_refl].
Qed.

(** Inside of a function nothing is freed. *)
Lemma after_pos b w w' : 0 < b -> after b w w' -> alive b w' /\ frame w w'.
Proof. intros Hb [Hf [H|[-> _]]]; [done|lia]. Qed.

(** ** Calls of the application and events inside of a function *)

Section Nested.
Context (n : nat) (nested : @inner Uri -> M Uri unit).

(** With fewer than [n] answers left *)
Record nested_ok : Prop := {
  nc_calls : forall b l w, 0 < b -> alive b w -> (length (w_answers w) < n)%nat -> Forall call_ok l ->
    wp (nested (N_calls l)) (fun _ w' => alive b w' /\ frame w w') w;
  nc_event : forall b m e w, 0 < b -> base b w -> w_pending w = [] -> msg_ok m -> event_ok e ->
    (0 < w_failing w -> ev_rx e = None) -> (length (w_answers w) < n)%nat ->
    wp (nested (N_event m e)) (fun _ w' => alive b w' /\ frame w w') w
}.
Hypothesis Hnested : nested_ok.

Lemma reg_run_calls_ok b a w0 w : 0 < b -> alive b w -> answer_ok a -> (length (w_answers w0) <= n)%nat ->
  (an_calls a <> [] \/ is_Some (an_event a) -> (length (w_answers w) < length (w_answers w0))%nat) ->
  wp (run_calls nested (an_calls a)) (fun _ w' => alive b w' /\ frame w w') w.
Proof.
  intros Hb Hw (_ & Hc & _) Hn Hlt. unfold run_calls. destruct (an_calls a) as [|c l] eqn:E; [split; [done|apply frame_refl]|].
  apply (nc_calls Hnested); try done. assert (c :: l <> []) by done. specialize (Hlt ltac:(by left)). lia.
Qed.

Lemma call_callback_ok b st code e cnt u w : 0 < b -> alive b w -> (length (w_answers w) <= n)%nat ->
  wp (call_callback nested st code e cnt u) (fun _ w' => alive b w' /\ frame w w') w.
Proof.
  intros Hb Hw Hn. unfold call_callback. apply reg_wp_bind, (reg_wp_get b); [apply Hw|]. destruct (rg_cb (w_regc w)) eqn:Ecb; cbn [negb].
  2: split; [done|apply frame_refl].
  assert (Hr : w_released w = false).
  { destruct (w_released w) eqn:E; [|done]. rewrite (bs_cb _ _ (al_base _ _ Hw) E) in Ecb. done. }
  apply reg_wp_bind. unfold log, upd, wp at 1. set (w1 := add_log _ w).
  assert (Hw1 : alive b w1) by (destruct Hw; split; [by apply base_log|done|done]).
  apply (reg_wp_seq _ _ _ _ _ (pop_ok b w1 (al_base _ _ Hw1))). intros a w2 (Ha & [l ->] & Hb2 & Hf & Hlt).
  refine (reg_wp_mono _ _ _ _ (reg_run_calls_ok b a w1 _ Hb (answers_alive b l w1 Hw1 Hb2) Ha Hn Hlt) _).
  intros _ w3 [H3 Hf3]. split; [done|]. apply (frame_trans w (set_answers l w1)); [destruct Hf; by split|done].
Qed.

Lemma update_transport_harmless t : harmless (fun r => if bool_decide (t = rg_last_transport r) then r else set_transport t r).
Proof. intros r. destruct (bool_decide _); harmless. Qed.

Lemma update_transport_ok b t w : alive b w -> wp (update_transport t) (fun _ w' => alive b w' /\ frame w w') w.
Proof.
  intros Hw. apply (reg_wp_mono _ _ _ _ (calm_modify b _ w (update_transport_harmless t) Hw)). by intros _ w' [[] _].
Qed.

(** *** Sending *)

(** The request to the endpoint: afterwards either there is a transaction and the call has
    succeeded, or an event has come in between, or it has failed. *)
Lemma send_request_ok b m w : 0 < b -> base b w -> w_pending w = [] -> rg_has_tsx (w_regc w) = true -> w_failing w = 0 -> msg_ok m ->
  (length (w_answers w) <= n)%nat ->
  wp (pjsip_endpt_send_request nested m) (fun a w' => base b w' /\ frame w w' /\
    (if an_status a =? PJ_SUCCESS then tsx_ok w' else w_pending w' = [])) w.
Proof.
  intros Hb Hw Hp Ht H0 Hm Hn. unfold pjsip_endpt_send_request. apply (reg_wp_seq _ _ _ _ _ (pop_ok b w Hw)).
  intros a w1 (Ha & [l ->] & Hb1 & Hf1 & Hlt). apply reg_wp_bind. unfold log, upd, wp at 1. set (w2 := add_log _ _).
  assert (Hb2 : base b w2) by (by apply base_log). assert (Hf2 : frame w w2) by (destruct Hf1; by split).
  destruct (an_event a) as [e|] eqn:Ee.
  - destruct Ha as (_ & _ & He). destruct (He e Ee) as [Hev Hloc]. specialize (Hlt ltac:(by right)). destruct (Z.eqb_spec (an_status a) PJ_SUCCESS) as [Es|Es].
    + assert (H := nc_event Hnested b m e w2 Hb Hb2 Hp Hm Hev ltac:(cbn; lia) ltac:(cbn in *; lia)).
      apply (reg_wp_seq _ _ _ _ _ H). intros _ w3 [H3 Hf3]. unfold wp, ret. rewrite Es. split_and!; [apply H3|by apply (frame_trans w w2)|apply H3].
    + apply reg_wp_bind, reg_wp_bind. unfold wp at 1. set (w3 := set_failing _ w2).
      assert (Hb3 : base b w3) by (destruct Hb2; split; try done; [cbn; lia|by destruct bs_log0]).
      assert (H := nc_event Hnested b m e w3 Hb Hb3 Hp Hm Hev ltac:(by intros _; apply Hloc) ltac:(cbn in *; lia)).
      apply (reg_wp_seq _ _ _ _ _ H). intros _ w4 [H4 [Hf41 Hf42 Hf43]]. unfold wp, ret. rewrite (proj2 (Z.eqb_neq _ _) Es).
      cbn in Hf41, Hf42, Hf43. rewrite H0 in Hf42, Hf43. split_and!.
      * destruct (al_base _ _ H4). split; try done; [cbn; lia|by destruct bs_log0].
      * destruct Hf2 as [Ha1 _ _]. split; cbn in *; [lia|lia|lia].
      * cbn. rewrite Hf43 by lia. done.
  - destruct (Z.eqb_spec (an_status a) PJ_SUCCESS) as [Es|Es].
    + unfold wp, bind, upd, ret. rewrite Es. split_and!.
      * destruct Hb2. split; try done; [cbn; rewrite Hp; by constructor|by destruct bs_log0].
      * destruct Hf2. split; cbn in *; try done. lia.
      * unfold tsx_ok. cbn. by rewrite Hp, Ht.
    + unfold wp, bind, ret. rewrite (proj2 (Z.eqb_neq _ _) Es). by split_and!.
Qed.

Lemma send_ok b m w : 0 <= b -> alive b w -> w_failing w = 0 -> msg_ok m -> (length (w_answers w) <= n)%nat ->
  wp (pjsip_regc_send nested m) (fun _ w' => after b w w') w.
Proof.
  intros Hb Hw H0 Hm Hn. unfold pjsip_regc_send. apply (reg_wp_seq _ _ _ _ _ (enter_ok b w (al_base _ _ Hw))). intros _ w1 (Ew1 & Hb1 & Hf1).
  assert (Ht1 : tsx_ok w1) by (rewrite Ew1; apply Hw). apply reg_wp_bind, (reg_wp_get (b + 1)); [done|].
  destruct (rg_has_tsx (w_regc w1)) eqn:Eh.
  { apply reg_wp_bind, (wp_modify (b + 1)); [done|]. unfold wp, ret. rewrite (bs_busy _ _ Hb1). replace (b + 1 - 1) with b by lia.
    split; [by apply frame_regc|]. left. split; [by apply (busy_base (b + 1))|done|]. intros _ _. exact Eh. }
  cbn zeta. apply reg_wp_bind, (wp_modify (b + 1)); [done|]. set (w2 := set_regc _ w1). set (m' := set_rm_cseq _ m) in *.
  assert (Hp1 : w_pending w1 = []) by (unfold tsx_ok in Ht1; rewrite Eh in Ht1; destruct (w_pending w1); [done|cbn in Ht1; lia]).
  assert (Hbt : base (b + 1) w2 /\ rg_has_tsx (w_regc w2) = true).
  { unfold w2. destruct Hb1. destruct (rm_expires m') as [e|]; [destruct (negb _)|]; (split; [|done]); split; try done; by destruct bs_log0. }
  destruct Hbt as [Hb2 Ht2]. assert (Hf2 : frame w w2) by by apply frame_regc.
  apply (reg_wp_seq _ _ _ _ _ (send_request_ok (b + 1) m' w2 ltac:(lia) Hb2 Hp1 Ht2 ltac:(rewrite <- H0; apply Hf2) Hm ltac:(destruct Hf2; cbn in *; lia))).
  intros a w3 (Hb3 & Hf3 & Hc). assert (Hf3' := frame_trans _ _ _ Hf2 Hf3).
  apply (reg_wp_seq _ _ (fun _ w4 => base (b + 1) w4 /\ tsx_ok w4 /\ frame w w4)).
  - destruct (an_status a =? PJ_SUCCESS) eqn:Es; cbn [negb].
    + refine (reg_wp_mono _ _ _ _ (update_transport_ok (b + 1) (an_tp a) w3 _) _); [split; [done|done|lia]|].
      intros _ w4 [[H4 H4' _] Hf4]. split_and!; [done|done|by apply (frame_trans w w3)].
    + apply (wp_modify (b + 1)); [done|]. split_and!.
      * destruct Hb3. split; try done. by destruct bs_log0.
      * unfold tsx_ok. cbn. by rewrite Hc.
      * by apply frame_regc.
  - intros _ w4 (Hb4 & Ht4 & Hf4). apply (reg_wp_seq _ _ _ _ _ (leave_ok b w4 Hb4 Ht4 Hb)). intros _ w5 [Hf5 H5]. unfold wp, ret.
    split; [by apply (frame_trans w w4)|done].
Qed.

(** *** The end of a transaction *)

#[local] Abbreviation in_b b w m := (wp m (fun _ w' => alive b w' /\ frame w w') w).

Lemma alive_then {A B} b (m : M Uri A) (f : A -> M Uri B) w : in_b b w m ->
  (forall a w', alive b w' -> frame w w' -> in_b b w' (f a)) -> in_b b w (bind m f).
Proof.
  intros H Hf. apply (reg_wp_seq _ _ _ _ _ H). intros a w' [H1 H2]. apply (reg_wp_mono _ _ _ _ (Hf a w' H1 H2)).
  intros _ w'' [H3 H4]. split; [done|]. by apply (frame_trans w w').
Qed.

Lemma alive_ret {A} b (x : A) w : alive b w -> in_b b w (ret x).
Proof. intros H. split; [done|apply frame_refl]. Qed.

Lemma calm_in {A} b (m : M Uri A) w : wp m (fun _ w' => calm b w w') w -> in_b b w m.
Proof. intros H. apply (reg_wp_mono _ _ _ _ H). by intros _ w' []. Qed.

Lemma modify_in b f w : harmless f -> alive b w -> in_b b w (modify f).
Proof. intros Hf Hw. apply calm_in, (reg_wp_mono _ _ _ _ (calm_modify b f w Hf Hw)). by intros _ w' []. Qed.

Lemma filter_harmless (p : bool) : harmless (fun r => if p then r else set_lists (List.filter (fun h => negb (h_expires h =? -1)) (rg_contacts r)) (rg_removed r) r).
Proof. intros r. destruct p; harmless. Qed.

Lemma call_tsx_cb_ok b code w : 0 < b -> alive b w -> (length (w_answers w) <= n)%nat -> in_b b w (call_tsx_cb uri_cmp is_sip nested code).
Proof.
  intros Hb Hw Hn. unfold call_tsx_cb. apply reg_wp_bind, (reg_wp_get b); [apply Hw|].
  destruct (rg_current_op (w_regc w)); try by apply alive_ret.
  destruct (rg_delete_flag (w_regc w)) eqn:Ed; [by apply alive_ret|]. destruct (rg_tsx_cb (w_regc w)); [|by apply alive_ret]. cbn [negb andb].
  assert (Hr : w_released w = false) by by rewrite <- (bs_flag _ _ (al_base _ _ Hw)).
  apply reg_wp_bind. unfold log, upd, wp at 1. set (w1 := add_log _ w).
  assert (Hw1 : alive b w1) by (destruct Hw; split; [by apply base_log|done|done]).
  apply (reg_wp_seq _ _ _ _ _ (pop_ok b w1 (al_base _ _ Hw1))). intros a w2 (Ha & [l ->] & Hb2 & Hf & Hlt).
  assert (Hf' : frame w (set_answers l w1)) by (destruct Hf; by split). pose proof (answers_alive b l w1 Hw1 Hb2) as Hw2.
  apply (reg_wp_seq _ _ _ _ _ (reg_run_calls_ok b a w1 _ Hb Hw2 Ha Hn Hlt)). intros _ w3 [H3 Hf3].
  pose proof (frame_trans _ _ _ Hf' Hf3) as Hf3'. destruct (an_contacts a) as [lc|]; [|by split].
  apply (reg_wp_seq _ _ _ _ _ (modify_in b _ w3 (filter_harmless _) H3)). intros _ w4 [H4 Hf4].
  apply (reg_wp_seq _ _ _ _ _ (update_contact_ok b lc w4 H4)). intros _ w5 [H5 Hf5 _ _]. split; [done|].
  apply (frame_trans w w3); [done|]. by apply (frame_trans w3 w4).
Qed.

Lemma send_in b m w : 0 < b -> alive b w -> w_failing w = 0 -> msg_ok m -> (length (w_answers w) <= n)%nat -> in_b b w (pjsip_regc_send nested m).
Proof.
  intros Hb Hw H0 Hm Hn. apply (reg_wp_mono _ _ _ _ (send_ok b m w ltac:(lia) Hw H0 Hm Hn)). intros _ w' H. by apply after_pos.
Qed.

(** What a failed request is reported with *)
Lemma report_ok b st code u w : 0 < b -> alive b w -> (length (w_answers w) <= n)%nat ->
  in_b b w (if negb (st =? PJ_SUCCESS) then
              r ← get;
              if negb (rg_delete_flag r) then call_callback nested st code (-1) 0 u else ret tt
            else ret tt).
Proof.
  intros Hb Hw Hn. destruct (negb (st =? _)); [|by apply alive_ret]. apply reg_wp_bind, (reg_wp_get b); [apply Hw|].
  destruct (negb _); [by apply call_callback_ok|by apply alive_ret].
Qed.

Lemma msg_contacts_ok l m : msg_ok m -> msg_ok (set_rm_contacts l m).
Proof. done. Qed.

Lemma answers_le w w' : frame w w' -> (length (w_answers w) <= n)%nat -> (length (w_answers w') <= n)%nat.
Proof. intros [H _ _] ?. lia. Qed.

Lemma failing_0 w w' : frame w w' -> w_failing w = 0 -> w_failing w' = 0.
Proof. intros [_ H _] ?. congruence. Qed.

Lemma on_challenge_ok b m e u w : 0 < b -> alive b w -> w_failing w = 0 -> msg_ok m -> event_ok e -> is_Some (ev_rx e) ->
  (length (w_answers w) <= n)%nat -> in_b b w (on_challenge garbage aka_cb auto_send_next nested m e u).
Proof.
  intros Hb Hw H0 Hm He [rsp Erx] Hn. unfold on_challenge, get_rdata. unfold event_ok in He. rewrite Erx in *.
  apply reg_wp_bind. unfold wp at 1, ret at 1. apply reg_wp_bind, (reg_wp_get b); [apply Hw|]. cbn zeta.
  apply alive_then; [by apply modify_in; [harmless|]|]. intros _ w1 Hw1 Hf1.
  set (m1 := if u then set_rm_contacts _ m else m). assert (Hm1 : msg_ok m1) by (unfold m1; by destruct u).
  apply (reg_wp_seq _ _ (fun _ w2 => alive b w2 /\ frame w1 w2)).
  { destruct u; [by apply modify_in; [harmless|]|by apply alive_ret]. }
  intros _ w2 [Hw2 Hf2]. assert (Hf2' := frame_trans _ _ _ Hf1 Hf2).
  destruct (bs_auth _ _ (al_base _ _ Hw)) as [Hcr Hca].
  destruct (reinit_ok garbage aka_cb auto_send_next garbage_length (ev_status e) (rs_chals rsp) (rg_auth (w_regc w)) (rm_auth m1)
    (bs_auth _ _ (al_base _ _ Hw)) Hm1 He) as (st & req & s' & -> & Hs & Ecr & Eu & Em & _).
  assert (Hm2 : msg_ok (set_rm_auth req m1)) by (destruct Hm1; split; cbn; congruence).
  apply reg_wp_bind, reg_wp_bind, (wp_modify b); [apply Hw2|]. unfold wp at 1, ret at 1.
  assert (Hw3 : alive b (set_regc (set_auth s' (w_regc w2)) w2)).
  { apply set_auth_alive; [done|done|]. unfold no_aka. rewrite Ecr. apply (bs_no_aka _ _ (al_base _ _ Hw)). }
  set (w3 := set_regc _ w2) in *. assert (Hf3 : frame w w3) by by apply frame_regc.
  apply (reg_wp_mono _ (fun _ w' => alive b w' /\ frame w3 w')).
  2: { intros _ w' [? ?]. split; [done|]. apply (frame_trans w1 w3); [|done]. by apply frame_regc. }
  apply alive_then.
  - destruct (st =? PJ_SUCCESS); [|by apply alive_ret]. apply send_in; try done; [by apply (failing_0 w)|by apply (answers_le w)].
  - intros st' w4 Hw4 Hf4. apply report_ok; try done. apply (answers_le w3); [done|]. by apply (answers_le w).
Qed.

Lemma on_final_ok b e w : 0 < b -> alive b w -> event_ok e -> (length (w_answers w) <= n)%nat ->
  in_b b w (on_final uri_cmp is_sip check_contact wide_long nested e).
Proof.
  intros Hb Hw He Hn. unfold on_final. apply alive_then.
  - destruct (status_class (ev_status e) =? 2) eqn:Ec; [|by apply alive_ret]. apply Z.eqb_eq in Ec. unfold get_rdata, event_ok, local_code in *.
    destruct (ev_rx e) as [rsp|]; [|by destruct He as (_ & _ & _ & He)]. apply reg_wp_bind. unfold wp at 1, ret at 1. apply reg_wp_bind, (reg_wp_get b); [apply Hw|].
    destruct (calculate_response_expiration _ _ _ _ _) as [ex cs]. apply alive_then; [by apply calm_in, reg_schedule_ok|].
    intros _ w1 Hw1 _. by apply alive_ret.
  - intros [ex cnt] w1 Hw1 Hf1. cbn zeta. apply reg_wp_bind, (reg_wp_get b); [apply Hw1|]. apply alive_then; [by apply modify_in; [harmless|]|].
    intros _ w2 Hw2 Hf2. apply call_callback_ok; try done. apply (answers_le w1); [done|]. by apply (answers_le w).
Qed.

Lemma on_too_brief_ok b e w : 0 < b -> alive b w -> w_failing w = 0 -> event_ok e -> is_Some (ev_rx e) -> (length (w_answers w) <= n)%nat ->
  in_b b w (on_too_brief uri_cmp is_sip check_contact wide_long garbage aka_cb auto_send_next nested e).
Proof.
  intros Hb Hw H0 He [rsp Erx] Hn. unfold on_too_brief. unfold get_rdata at 1. rewrite Erx. apply reg_wp_bind. unfold wp at 1, ret at 1.
  apply alive_then; [by apply modify_in; [harmless|]|]. intros _ w1 Hw1 Hf1. apply reg_wp_bind, (reg_wp_get b); [apply Hw1|].
  destruct (min_expires rsp (w_regc w1)) as [me|]; [|apply on_final_ok; try done; by apply (answers_le w)].
  apply alive_then; [apply modify_in; [|done]; intros r; unfold set_expires; harmless|]. intros _ w2 Hw2 Hf2.
  pose proof (frame_trans _ _ _ Hf1 Hf2) as Hf2'.
  apply (reg_wp_seq _ _ _ _ _ (register_ok b _ w2 Hw2)). intros [st om] w3 [[Hw3 Hf3 _ _] Hm]. cbn in Hm.
  apply (reg_wp_mono _ (fun _ w' => alive b w' /\ frame w3 w')); [|intros _ w' [? ?]; split; [done|]; by apply (frame_trans w2 w3)].
  pose proof (frame_trans _ _ _ Hf2' Hf3) as Hf3'. apply alive_then.
  - destruct om as [m|]; [|by apply alive_ret]. apply send_in; try done; [by apply (failing_0 w)|by apply Hm|by apply (answers_le w)].
  - intros st' w4 Hw4 Hf4. apply report_ok; try done. apply (answers_le w3); [done|]. by apply (answers_le w).
Qed.

(** The callback starts with a transaction that is over. *)
Lemma tsx_callback_ok b m e w : 0 <= b -> base b w -> w_pending w = [] -> msg_ok m -> event_ok e -> (0 < w_failing w -> ev_rx e = None) ->
  (length (w_answers w) <= n)%nat ->
  wp (regc_tsx_callback uri_cmp is_sip check_contact wide_long garbage aka_cb auto_send_next nested m e) (fun _ w' => after b w w') w.
Proof.
  intros Hb Hw Hp Hm He Hloc Hn. unfold regc_tsx_callback. apply (reg_wp_seq _ _ _ _ _ (enter_ok b w Hw)). intros _ w1 (Ew1 & Hb1 & Hf1).
  apply reg_wp_bind, (wp_modify (b + 1)); [done|]. set (w2 := set_regc _ w1).
  assert (Hw2 : alive (b + 1) w2).
  { split; [|unfold tsx_ok, w2; cbn; rewrite Ew1; cbn; by rewrite Hp|lia]. destruct Hb1. split; try done. by destruct bs_log0. }
  assert (Hf2 : frame w w2) by by apply frame_regc. assert (Hb' : 0 < b + 1) by lia.
  apply (reg_wp_seq _ _ (fun _ w3 => alive (b + 1) w3 /\ frame w2 w3)).
  - by apply update_transport_ok.
  - intros _ w3 [Hw3 Hf3]. pose proof (frame_trans _ _ _ Hf2 Hf3) as Hf3'.
    apply (reg_wp_seq _ _ _ _ _ (call_tsx_cb_ok (b + 1) (ev_status e) w3 Hb' Hw3 (answers_le _ _ Hf3' Hn))). intros u w4 [Hw4 Hf4].
    pose proof (frame_trans _ _ _ Hf3' Hf4) as Hf4'. pose proof (answers_le _ _ Hf4' Hn) as Hn4.
    apply reg_wp_bind, (reg_wp_get (b + 1)); [apply Hw4|].
    assert (Hrx : ev_status e = 401 \/ ev_status e = 407 \/ ev_status e = 423 -> is_Some (ev_rx e) /\ w_failing w4 = 0).
    { intros Hc. unfold event_ok, local_code in He. destruct (ev_rx e) as [rsp|]; [|lia]. split; [done|].
      rewrite (fr_failing _ _ Hf4'). destruct (Z.eq_dec (w_failing w) 0); [done|]. pose proof (bs_failing _ _ Hw). specialize (Hloc ltac:(lia)). done. }
    apply (reg_wp_seq _ _ (fun _ w5 => alive (b + 1) w5 /\ frame w4 w5)).
    + destruct ((ev_status e =? PJSIP_SC_PROXY_AUTHENTICATION_REQUIRED) || (ev_status e =? PJSIP_SC_UNAUTHORIZED)) eqn:Ec.
      { apply orb_true_iff in Ec. rewrite !Z.eqb_eq in Ec. unfold PJSIP_SC_PROXY_AUTHENTICATION_REQUIRED, PJSIP_SC_UNAUTHORIZED in Ec.
        destruct Hrx as [? ?]; [tauto|]. by apply on_challenge_ok. }
      destruct (rg_delete_flag (w_regc w4)); [by apply modify_in; [harmless|]|].
      destruct ((ev_status e =? PJSIP_SC_INTERVAL_TOO_BRIEF) && _) eqn:Ec2; [|by apply on_final_ok].
      apply andb_true_iff in Ec2 as [Ec2 _]. apply Z.eqb_eq in Ec2. destruct Hrx as [? ?]; [tauto|]. by apply on_too_brief_ok.
    + intros _ w5 [Hw5 Hf5]. apply (reg_wp_mono _ _ _ _ (leave_ok b w5 (al_base _ _ Hw5) (al_tsx _ _ Hw5) Hb)). intros _ w6 [Hf6 H6].
      split; [|done]. apply (frame_trans w w4); [done|]. by apply (frame_trans w4 w5).
Qed.

(** The refresh timer, whose entry the heap has taken out *)
Lemma refresh_ok b w : 0 <= b -> alive b w -> w_failing w = 0 -> (length (w_answers w) <= n)%nat ->
  wp (modify (fun r => set_timer (rg_timer_id r) None r) ;; regc_refresh_timer_cb garbage aka_cb auto_send_next nested) (fun _ w' => after b w w') w.
Proof.
  intros Hb Hw H0 Hn. unfold regc_refresh_timer_cb. apply reg_wp_bind, (wp_modify b); [apply Hw|]. apply reg_wp_bind.
  unfold enter, modify at 1, wp at 1. cbn. rewrite (bs_freed _ _ (al_base _ _ Hw)). apply reg_wp_bind. unfold modify at 1, wp at 1. cbn.
  rewrite (bs_freed _ _ (al_base _ _ Hw)). set (w1 := set_regc _ _). assert (Hb' : 0 < b + 1) by lia.
  assert (Hw1 : alive (b + 1) w1).
  { destruct Hw as [[] Ht Hwait]. split; [split; try done; [cbn; lia|by destruct bs_log0]|done|lia]. }
  assert (Hf1 : frame w w1) by by split.
  apply (reg_wp_seq _ _ _ _ _ (register_ok (b + 1) true w1 Hw1)). intros [st om] w2 [[Hw2 Hf2 _ _] Hm]. cbn in Hm.
  pose proof (frame_trans _ _ _ Hf1 Hf2) as Hf2'.
  apply (reg_wp_seq _ _ (fun _ w3 => alive (b + 1) w3 /\ frame w2 w3)).
  - destruct om as [m|]; [|by apply alive_ret]. apply send_in; try done; [by apply (failing_0 w)|by apply Hm|by apply (answers_le w)].
  - intros st' w3 [Hw3 Hf3]. apply reg_wp_bind, (reg_wp_get (b + 1)); [apply Hw3|]. pose proof (frame_trans _ _ _ Hf2' Hf3) as Hf3'.
    apply (reg_wp_seq _ _ (fun _ w4 => alive (b + 1) w4 /\ frame w3 w4)).
    + destruct (_ && _); [|by apply alive_ret]. apply call_callback_ok; try done. by apply (answers_le w).
    + intros _ w4 [Hw4 Hf4]. apply (reg_wp_mono _ _ _ _ (leave_ok b w4 (al_base _ _ Hw4) (al_tsx _ _ Hw4) Hb)). intros _ w5 [Hf5 H5].
      split; [|done]. apply (frame_trans w w3); [done|]. by apply (frame_trans w3 w4).
Qed.

(** *** The application *)

#[local] Abbreviation app_run' := (app_run uri_cmp is_sip wide_long true garbage aka_cb auto_send_next nested).
#[local] Abbreviation app_all' := (app_all uri_cmp is_sip wide_long true garbage aka_cb auto_send_next nested).

Lemma calm_after {A} b (m : M Uri A) w : wp m (fun _ w' => calm b w w') w -> wp m (fun _ w' => after b w w') w.
Proof. intros H. apply (reg_wp_mono _ _ _ _ H). intros _ w' []. split; [done|by left]. Qed.

Lemma drop_ok b (m : M Uri Z) w : wp m (fun _ w' => calm b w w') w -> wp (drop_status m) (fun _ w' => after b w w') w.
Proof. intros H. unfold drop_status. apply (reg_wp_seq _ _ _ _ _ H). intros _ w' []. split; [done|by left]. Qed.

(** A request that was made is kept for the application. *)
Lemma keep_ok b (m : M Uri (Z * option (reg_msg Uri))) w : wp m (fun x w' => calm b w w' /\ forall m, x.2 = Some m -> msg_ok m) w ->
  wp (x ← m; keep x) (fun _ w' => after b w w') w.
Proof.
  intros H. apply (reg_wp_seq _ _ _ _ _ H). intros [st om] w' [[[Hb Ht Hw] Hf _ _] Hm]. unfold keep. cbn in *. destruct om as [m'|].
  - unfold wp, upd. split; [destruct Hf; by split|]. left. split; [|done|done]. destruct Hb. split; try done; [|by destruct bs_log0].
    cbn. apply Forall_app. split; [done|]. constructor; [by apply Hm|done].
  - split; [done|]. by left.
Qed.

Lemma destroy_call_ok b w : 0 <= b -> alive b w -> w_released w = false ->
  wp (upd set_released ;; log E_released ;; pjsip_regc_destroy) (fun _ w' => after b w w') w.
Proof.
  intros Hb Hw Hr. apply reg_wp_bind. unfold wp at 1, upd at 1. apply reg_wp_bind. unfold wp at 1, log, upd. set (w1 := add_log _ _).
  (* the flag is not set yet: the steps of pjsip_regc_destroy are followed here *)
  unfold pjsip_regc_destroy. destruct Hw as [Hbw Ht Hwait]. pose proof Hbw as []. unfold wp, bind, get, modify.
  assert (Hlog : log_ok w1).
  { destruct bs_log0 as [Hq Hl Hf]. rewrite bs_freed0 in Hf. split; cbn; rewrite ?bs_freed0.
    - rewrite quiet_app, Hq. done.
    - by rewrite existsb_app, Hl; cbn; rewrite orb_true_r.
    - unfold frees in *. by rewrite List.filter_app, length_app, Hf. }
  assert (Hf1 : w_freed w1 = false) by done. rewrite Hf1.
  destruct (rg_has_tsx (w_regc w1)) eqn:Eh; cbn [orb]; [|destruct (Z.eqb_spec (rg_busy_ctr (w_regc w1)) 0) as [E0|E0]; cbn [negb]]; rewrite Hf1.
  1,3: split; [by split|]; left; split; [split; try done; by destruct Hlog|done|]; intros Eb _.
  1: exact Eh.
  all: try (exfalso; apply E0; cbn; congruence).
  cbn in E0, Eh. unfold upd, log. split; [by split|]. right. split; [congruence|]. unfold tsx_ok in Ht. rewrite Eh in Ht.
  destruct Hlog as [Hq Hl Hf]. split; cbn; try done.
  - destruct (w_pending w); [done|cbn in Ht; lia].
  - unfold cancel_timer. cbn. destruct (Z.eqb_spec (rg_timer_id (w_regc w)) 0) as [E|E]; cbn; [by apply bs_timer0|done].
  - rewrite Hf1 in Hf. split; cbn; change (w_log w ++ [E_released]) with (w_log w1).
    + by rewrite quiet_app, Hq.
    + by rewrite existsb_app, Hl.
    + unfold frees in *. by rewrite List.filter_app, length_app, Hf.
Qed.

Lemma app_run_ok b c w : 0 <= b -> alive b w \/ b = 0 /\ dead w -> call_ok c -> (length (w_answers w) <= n)%nat ->
  wp (app_run' c) (fun _ w' => after b w w') w.
Proof.
  intros Hb Hw Hc Hn. unfold app_run. apply reg_wp_bind. unfold wp at 1, asks at 1. destruct (w_released w) eqn:Er; [done|].
  destruct Hw as [Hw|[_ Hd]]; [|by rewrite (dd_released _ Hd) in Er].
  destruct c; try (apply drop_ok); try (apply keep_ok); try (by apply calm_status; [harmless|]).
  - by apply register_ok.
  - by apply unregister_ok.
  - by apply unregister_all_ok.
  - apply reg_wp_bind. unfold wp at 1, asks at 1. apply reg_wp_bind. unfold wp at 1, asks at 1.
    destruct (w_made w !! i) as [m|] eqn:Em; [|done]. destruct (Z.eqb_spec (w_failing w) 0) as [E0|E0]; cbn [negb andb]; [|done].
    apply reg_wp_bind. unfold wp at 1, upd at 1. set (w1 := set_made _ w).
    assert (Hm : msg_ok m) by (pose proof (bs_made _ _ (al_base _ _ Hw)) as Hmade; rewrite Forall_lookup in Hmade; by apply (Hmade i)).
    assert (Hw1 : alive b w1).
    { destruct Hw as [[] Ht Hwait]. split; [|done|done]. split; try done; [|by destruct bs_log0]. cbn.
      apply Forall_app. split; [by apply Forall_take|by apply Forall_drop]. }
    unfold drop_status. apply (reg_wp_seq _ _ _ _ _ (send_ok b m w1 Hb Hw1 E0 Hm Hn)). intros _ w2 [[H1 H2 H3] H]. split; [by split|done].
  - by apply update_contact_ok.
  - by apply set_delay_ok.
  - by apply set_credentials_ok.
  - by apply set_prefs_ok.
  - by apply destroy_call_ok.
Qed.

Lemma app_all_ok b l : 0 <= b -> Forall call_ok l -> forall w, alive b w \/ b = 0 /\ dead w -> (length (w_answers w) <= n)%nat ->
  wp (app_all' l) (fun _ w' => after b w w') w.
Proof.
  intros Hb. induction 1 as [|c l Hc _ IH]; intros w Hw Hn; cbn [app_all]; [by split; [apply frame_refl|]|].
  apply (reg_wp_seq _ _ _ _ _ (app_run_ok b c w Hb Hw Hc Hn)). intros _ w1 [Hf1 H1].
  apply (reg_wp_mono _ _ _ _ (IH w1 H1 (answers_le _ _ Hf1 Hn))). intros _ w2 [Hf2 H2]. split; [by apply (frame_trans w w1)|done].
Qed.
End Nested.

(** ** Runs *)

#[local] Abbreviation run' := (run uri_cmp is_sip check_contact wide_long true garbage aka_cb auto_send_next).

Lemma run_nested fuel : nested_ok fuel (run' fuel).
Proof.
  induction fuel as [|fuel IH]; split; intros; [lia|lia| |]; cbn [run].
  - refine (reg_wp_mono _ _ _ _ (app_all_ok fuel _ IH b l _ _ w _ _) _); [lia|done|by left|lia|]. intros _ w' Ha. by apply after_pos.
  - refine (reg_wp_mono _ _ _ _ (tsx_callback_ok fuel _ IH b m e w _ _ _ _ _ _ _) _); try done; [lia|lia|]. intros _ w' Ha. by apply after_pos.
Qed.

(** What comes from outside *)
Definition input_ok (x : list (answer Uri) * event) : Prop :=
  Forall answer_ok x.1 /\ match x.2 with Ev_calls l => Forall call_ok l | Ev_tsx _ e => event_ok e | _ => True end.

(** Between two inputs *)
Definition good w : Prop := w_failing w = 0 /\ (alive 0 w \/ dead w).

Lemma good_after w w' : w_failing w = 0 -> after 0 w w' -> good w'.
Proof. intros H0 [Hf H]. split; [by rewrite (fr_failing _ _ Hf)|]. destruct H as [H|[_ H]]; [by left|by right]. Qed.

Lemma set_answers_ok l w : Forall answer_ok l -> alive 0 w \/ dead w -> alive 0 (set_answers l w) \/ dead (set_answers l w).
Proof.
  intros Hl [[[] Ht Hwait]|[]]; [left|right].
  - split; [|done|done]. split; try done. by destruct bs_log0.
  - split; try done. by destruct dd_log0.
Qed.

Lemma handle_ok x w : input_ok x -> good w ->
  wp (handle uri_cmp is_sip check_contact wide_long true garbage aka_cb auto_send_next x.1 x.2) (fun _ w' => good w') w.
Proof.
  destruct x as [answers ev]. intros [Ha Hx] [H0 Hw]. cbn in Ha, Hx |- *. unfold handle. apply reg_wp_bind. unfold wp at 1, upd at 1.
  set (w1 := set_answers answers w). pose proof (set_answers_ok answers w Ha Hw) as Hw1. fold w1 in Hw1.
  assert (Hn : (length (w_answers w1) <= length answers)%nat) by done. pose proof (run_nested (length answers)) as Hnest. destruct ev as [l|t| |i e].
  - cbn [run run_fuel]. refine (reg_wp_mono _ _ _ _ (app_all_ok _ _ Hnest 0 l _ Hx w1 _ Hn) _); [lia|destruct Hw1; [by left|by right]|]. intros _ w' H. by apply (good_after w1).
  - unfold wp, upd. split; [done|]. destruct Hw1 as [[[] Ht Hwait]|[]]; [left|right].
    + split; [|done|done]. split; try done. by destruct bs_log0.
    + split; try done. by destruct dd_log0.
  - unfold fire_timer, wp at 1. destruct (rg_timer (w_regc w1)) as [t|] eqn:Et; [|by split].
    destruct (t <=? w_now w1); [|by split]. destruct Hw1 as [Hw1|Hd]; [|by rewrite (dd_timer _ Hd) in Et].
    assert (Hn' : (length (w_answers w1) <= S (length answers))%nat) by lia.
    refine (reg_wp_mono _ _ _ _ (refresh_ok (S (length answers)) _ (run_nested _) 0 w1 _ Hw1 H0 Hn') _); [lia|]. intros _ w' H. by apply (good_after w1).
  - apply reg_wp_bind. unfold wp at 1, asks at 1. destruct (w_pending w1 !! i) as [m|] eqn:Em; [|by split].
    destruct Hw1 as [Hw1|Hd]; [|by rewrite (dd_pending _ Hd) in Em]. apply reg_wp_bind. unfold wp at 1, upd at 1. set (w2 := set_pending _ w1).
    pose proof (al_base _ _ Hw1) as Hb1. pose proof (al_tsx _ _ Hw1) as Ht1.
    assert (Hm : msg_ok m) by (pose proof (bs_pending _ _ Hb1) as Hp; rewrite Forall_lookup in Hp; by apply (Hp i)).
    assert (Hp2 : w_pending w2 = []).
    { unfold tsx_ok in Ht1. change (take i (w_pending w1) ++ drop (S i) (w_pending w1) = []). apply lookup_lt_Some in Em as Hi. destruct (rg_has_tsx (w_regc w1)); [|lia].
      destruct (w_pending w1) as [|m1 [|? ?]]; cbn in Ht1, Hi; try lia. destruct i; [done|lia]. }
    assert (Hb2 : base 0 w2) by (destruct Hb1; split; try done; [by rewrite Hp2|by destruct bs_log0]).
    cbn [run run_fuel].
    refine (reg_wp_mono _ _ _ _ (tsx_callback_ok _ _ Hnest 0 m e w2 _ Hb2 Hp2 Hm Hx _ Hn) _); [lia|cbn; lia|]. intros _ w' H. by apply (good_after w2).
Qed.

Lemma history_ok l : Forall input_ok l -> forall w, good w ->
  wp (history uri_cmp is_sip check_contact wide_long true garbage aka_cb auto_send_next l) (fun _ w' => good w') w.
Proof.
  induction 1 as [|[a ev] l Hx _ IH]; intros w Hw; cbn [history]; [done|]. apply (reg_wp_seq _ _ _ _ _ (handle_ok (a, ev) w Hx Hw)).
  intros _ w' Hw'. by apply IH.
Qed.
End Safe.

(** ** Watched runs

    A run that is watched is the run of the code, unless it ends because the application
    sends out of a callback that runs in a call that fails. *)

Section Watched.
Context {Str : PjString} {Uri : Type} (uri_cmp : contact_hdr Uri -> contact_hdr Uri -> bool) (is_sip : Uri -> bool).
Context (check_contact wide_long : bool) (garbage : list Z).
Context (aka_cb : pjsip_digest_challenge -> pjsip_cred_info -> list Z -> pjsip_digest_credential -> Z * pjsip_digest_credential).
Context (auto_send_next : bool).

Definition watched {A} (m1 m2 : M Uri A) : Prop := forall w, m1 w = Stop Failing_send \/ m1 w = m2 w.

Lemma watched_refl {A} (m : M Uri A) : watched m m.
Proof. intros w. by right. Qed.

Lemma watched_bind {A B} (m1 m2 : M Uri A) (k1 k2 : A -> M Uri B) :
  watched m1 m2 -> (forall a, watched (k1 a) (k2 a)) -> watched (bind m1 k1) (bind m2 k2).
Proof.
  intros Hm Hk w. unfold bind. destruct (Hm w) as [-> | ->]; [by left|]. destruct (m2 w) as [a w'|]; [apply Hk|by right].
Qed.

(** Follows two copies of a function that differ in what runs inside *)
Ltac watch_tac := repeat first
  [ apply watched_refl
  | apply watched_bind; [|intros]
  | match goal with H : forall _, watched _ _ |- _ => apply H end
  | match goal with |- watched (match ?x with _ => _ end) _ => destruct x end ].

Section Nested.
Context (n1 n2 : @inner Uri -> M Uri unit) (Hn : forall i, watched (n1 i) (n2 i)).

Lemma watched_calls l : watched (run_calls n1 l) (run_calls n2 l).
Proof. unfold run_calls. watch_tac. Qed.

Lemma watched_callback st code e cnt u : watched (call_callback n1 st code e cnt u) (call_callback n2 st code e cnt u).
Proof. unfold call_callback. watch_tac. apply watched_calls. Qed.

Lemma watched_send m : watched (pjsip_regc_send n1 m) (pjsip_regc_send n2 m).
Proof. unfold pjsip_regc_send, pjsip_endpt_send_request. watch_tac. Qed.

Lemma watched_event m e :
  watched (regc_tsx_callback uri_cmp is_sip check_contact wide_long garbage aka_cb auto_send_next n1 m e)
          (regc_tsx_callback uri_cmp is_sip check_contact wide_long garbage aka_cb auto_send_next n2 m e).
Proof.
  pose proof watched_callback as Hc. pose proof watched_send as Hs.
  unfold regc_tsx_callback, call_tsx_cb, on_challenge, on_too_brief, on_final.
  watch_tac; try apply watched_calls; try apply Hc; try apply Hs.
Qed.

Lemma watched_refresh :
  watched (regc_refresh_timer_cb garbage aka_cb auto_send_next n1) (regc_refresh_timer_cb garbage aka_cb auto_send_next n2).
Proof.
  pose proof watched_callback as Hc. pose proof watched_send as Hs. unfold regc_refresh_timer_cb.
  watch_tac; try apply watched_calls; try apply Hc; try apply Hs.
Qed.

Lemma watched_app l :
  watched (app_all uri_cmp is_sip wide_long true garbage aka_cb auto_send_next n1 l)
          (app_all uri_cmp is_sip wide_long false garbage aka_cb auto_send_next n2 l).
Proof.
  induction l as [|c l IH]; cbn [app_all]; [apply watched_refl|]. apply watched_bind; [|done]. unfold app_run.
  apply watched_bind; [apply watched_refl|intros released]. destruct released; [apply watched_refl|].
  destruct c; try apply watched_refl. apply watched_bind; [apply watched_refl|intros made].
  apply watched_bind; [apply watched_refl|intros failing]. destruct (made !! i); [|apply watched_refl].
  destruct (true && negb (failing =? 0)); [by left|]. cbn [andb]. unfold drop_status. watch_tac.
Qed.
End Nested.

Lemma watched_run fuel i :
  watched (run uri_cmp is_sip check_contact wide_long true garbage aka_cb auto_send_next fuel i)
          (run uri_cmp is_sip check_contact wide_long false garbage aka_cb auto_send_next fuel i).
Proof.
  revert i. induction fuel as [|fuel IH]; intros i; cbn [run]; [apply watched_refl|].
  destruct i; [by apply watched_app|by apply watched_event].
Qed.

Lemma watched_history l :
  watched (history uri_cmp is_sip check_contact wide_long true garbage aka_cb auto_send_next l)
          (history uri_cmp is_sip check_contact wide_long false garbage aka_cb auto_send_next l).
Proof.
  induction l as [|[answers ev] l IH]; cbn [history]; [apply watched_refl|]. apply watched_bind; [|done]. unfold handle.
  apply watched_bind; [apply watched_refl|intros _]. destruct ev; [apply watched_run|apply watched_refl| |].
  - intros w. unfold fire_timer. destruct (rg_timer (w_regc w)) as [t|]; [|by right]. destruct (t <=? w_now w); [|by right].
    apply (watched_bind _ _ _ _ (watched_refl _)). intros _. apply watched_refresh, watched_run.
  - apply watched_bind; [apply watched_refl|intros pending]. destruct (pending !! i); [|apply watched_refl].
    apply watched_bind; [apply watched_refl|intros _]. apply watched_run.
Qed.
End Watched.
