(* ===== verification/SipRegProps.v ===== *)
(** * Client registrations: theorems

    A registration is never used after it is freed and its calls end; the bindings at a
    registrar become the contacts of the registration; it is refreshed before it expires. *)

From Stdlib Require Strings.String.
From S2P Require Import Prelude Hash PjStr SipTypes SipAuth SipAuthProps SipUri SipReg SipRegSafe.
Import Strings.String.StringSyntax.

(** ** Safety *)

Section Safety.
Context {Str : PjString} {Uri : Type} (uri_cmp : contact_hdr Uri -> contact_hdr Uri -> bool) (is_sip : Uri -> bool).
Context (check_contact wide_long : bool) (garbage : list Z).
Context (aka_cb : pjsip_digest_challenge -> pjsip_cred_info -> list Z -> pjsip_digest_credential -> Z * pjsip_digest_credential).
Context (auto_send_next : bool).
Hypothesis garbage_length : length garbage = 64%nat.

Lemma init_fields srv contacts expires rand xuid r :
  pjsip_regc_init uri_cmp is_sip (Some srv) (Some []) (Some []) contacts expires rand (pjsip_regc_create xuid) = (PJ_SUCCESS, r) ->
  rg_delete_flag r = false /\ rg_has_tsx r = false /\ rg_busy_ctr r = 0 /\ rg_timer_id r = 0 /\ rg_timer r = None /\
  rg_auth r = pjsip_auth_clt_init /\ rg_srv_url r = srv.
Proof.
  unfold pjsip_regc_init. destruct (expires =? 0); [done|]. cbn. unfold set_contact. cbn.
  destruct (add_contacts _ _ _ _ _ _) as [[st c] rm]. cbn. destruct (Z.eqb_spec st PJ_SUCCESS); cbn [negb]; [|by intros [= ? _]].
  intros [= <-]. by unfold set_expires.
Qed.

Lemma initial_good r srv : rg_delete_flag r = false -> rg_has_tsx r = false -> rg_busy_ctr r = 0 -> rg_timer_id r = 0 -> rg_timer r = None ->
  rg_auth r = pjsip_auth_clt_init -> rg_srv_url r = srv -> short srv -> good (initial r : world Uri).
Proof.
  intros H1 H2 H3 H4 H5 H6 H7 Hs. split; [done|]. left. split; [split; cbn; try done; try congruence|unfold tsx_ok; cbn; by rewrite H2|done].
  all: rewrite ?H4, ?H5, ?H6, ?H7; try done; by repeat constructor.
Qed.

(** The application sends out of a callback that runs in a call that fails. *)
Definition sends_in_failure (l : list (list (answer Uri) * event)) (w : world Uri) : Prop :=
  history uri_cmp is_sip check_contact wide_long true garbage aka_cb auto_send_next l w = Stop Failing_send.

(** C17: A registration can be called, its requests answered, its timer fired and its
    transactions ended in any order, with the calls of the application also out of its
    callbacks, and with results that come back before a request is sent: nothing is used after
    it is freed, no message is read from an event without one, and the nested calls end.
    There is one transaction at most; when the application has destroyed the registration it
    hears nothing more, and the memory is freed exactly once, as soon as no transaction is
    left.  The conditions: the application does not send out of a callback that runs in a call
    that fails ([sends_in_failure]; [send_out_of_failure_freed] shows the use after free), the
    run stopping there ([Misuse]) if it uses what it has destroyed or sends a request twice;
    the ends of transactions and the answers of the endpoint are as documented ([input_ok]: a
    401, 407, 423 or 2xx comes with its message, a call that fails reports a local status);
    and the credentials are those of Digest authentication. *)
Theorem registration_safe srv contacts expires rand xuid r l :
  pjsip_regc_init uri_cmp is_sip (Some srv) (Some []) (Some []) contacts expires rand (pjsip_regc_create xuid) = (PJ_SUCCESS, r) ->
  short srv -> Forall input_ok l -> ~ sends_in_failure l (initial r) ->
  match history uri_cmp is_sip check_contact wide_long false garbage aka_cb auto_send_next l (initial r) with
  | Ok _ w =>
      (length (w_pending w) <= 1)%nat /\ quiet false (w_log w) = true /\
      frees (w_log w) = (if w_freed w then 1%nat else 0%nat) /\
      (w_freed w = true <-> w_released w = true /\ w_pending w = [])
  | Stop s => s = Misuse
  end.
Proof.
  intros Hi Hs Hl Hn. destruct (init_fields _ _ _ _ _ _ Hi) as (H1 & H2 & H3 & H4 & H5 & H6 & H7).
  pose proof (initial_good r srv H1 H2 H3 H4 H5 H6 H7 Hs) as Hg.
  pose proof (history_ok uri_cmp is_sip check_contact wide_long garbage aka_cb auto_send_next garbage_length l Hl _ Hg) as H.
  destruct (watched_history uri_cmp is_sip check_contact wide_long garbage aka_cb auto_send_next l (initial r)) as [E|<-]; [done|].
  unfold sends_in_failure in Hn. unfold wp in H. destruct (history _ _ _ _ _ _ _ _ l (initial r)) as [[] w|[]]; try done.
  destruct H as [_ [[[] Ht Hw]|[Hf Hr Hp Htm [Hq Hrl Hfr]]]].
  - destruct bs_log as [Hq Hrl Hfr]. unfold tsx_ok in Ht. split_and!; [rewrite Ht; by destruct (rg_has_tsx (w_regc w)); lia|done|done|]. rewrite bs_freed. split; [done|].
    intros [E1 E2]. specialize (Hw eq_refl E1). rewrite Hw, E2 in Ht. done.
  - rewrite Hp. split_and!; [cbn; lia|done|done|]. by rewrite Hf.
Qed.
End Safety.

(** ** The bindings at the registrar *)

Section Bindings.
Context {Str : PjString} (is_sip : pjsip_sip_uri -> bool) (garbage : list Z).
Context (aka_cb : pjsip_digest_challenge -> pjsip_cred_info -> list Z -> pjsip_digest_credential -> Z * pjsip_digest_credential).
Context (auto_send_next : bool).

(** *** Contacts that are SIP URIs *)

Implicit Types (r : pjsip_regc pjsip_sip_uri).

(** The URI as it is sent, and pjsip_uri_cmp of two of them *)
Definition with_xuid (h : contact_hdr pjsip_sip_uri) : pjsip_sip_uri :=
  set_other_param (u_other_param (h_uri h) ++ match h_xuid h with Some x => [mk_param (lit "x-uid") x] | None => [] end) (h_uri h).
Definition sip_uri_cmp (h1 h2 : contact_hdr pjsip_sip_uri) : bool :=
  pjsip_url_compare PJSIP_URI_IN_CONTACT_HDR (with_xuid h1) (with_xuid h2) =? 0.

(** No display name, a URI whose parameters all have a field, and no x-uid *)
Definition plain_contact (h : contact_hdr pjsip_sip_uri) : Prop := h_display h = [] /\ plain_url (h_uri h) /\ h_xuid h = None.

#[local] Abbreviation K := (bool * list Z * list Z * list Z * Z * list Z * Z * list Z * list Z)%type.
Definition hkey (h : contact_hdr pjsip_sip_uri) : K := url_key (h_uri h).
Definition keys (l : list (contact_hdr pjsip_sip_uri)) : list K := map hkey l.

Lemma cmp_key h1 h2 : plain_contact h1 -> plain_contact h2 -> contact_cmp sip_uri_cmp h1 h2 = true <-> hkey h1 = hkey h2.
Proof.
  intros (Hd1 & Hp1 & Hx1) (Hd2 & Hp2 & Hx2). unfold contact_cmp, pjsip_name_addr_compare. rewrite Hd1, Hd2.
  rewrite (proj2 (Z.eqb_eq _ _) (proj2 (pj_strcmp_0 [] []) eq_refl)). cbn [negb].
  assert (Hw : forall h, h_xuid h = None -> with_xuid h = set_other_param (u_other_param (h_uri h)) (h_uri h)).
  { intros h Hx. unfold with_xuid. by rewrite Hx, app_nil_r. }
  unfold hkey. rewrite <- (url_compare_key (u_other_param (h_uri h1)) _ _ Hp1 Hp2). unfold sip_uri_cmp.
  rewrite (Hw h1 Hx1), (Hw h2 Hx2).
  assert (set_other_param (u_other_param (h_uri h2)) (h_uri h2) = h_uri h2) as -> by by destruct (h_uri h2).
  destruct (Z.eqb_spec (pjsip_url_compare PJSIP_URI_IN_CONTACT_HDR (set_other_param (u_other_param (h_uri h1)) (h_uri h1)) (h_uri h2)) 0); cbn; split; done.
Qed.

(** A registrar (RFC 3261, 10.3): every contact of a REGISTER is bound or, when its expiration
    is 0, removed; "*" removes all. *)
Definition effective (default : option Z) (h : contact_hdr pjsip_sip_uri) : Z :=
  if 0 <=? h_expires h then h_expires h else match default with Some e => e | None => 3600 end.
Definition bind_one (default : option Z) (b : list K) (c : reg_contact pjsip_sip_uri) : list K :=
  match c with
  | Star => []
  | Contact h =>
      let b := List.filter (fun k => negb (bool_decide (k = hkey h))) b in
      if effective default h =? 0 then b else b ++ [hkey h]
  end.
Definition registrar (b : list K) (m : reg_msg pjsip_sip_uri) : list K := fold_left (bind_one (rm_expires m)) (rm_contacts m) b.

(** A contact to register and one whose binding is to be removed *)
Definition to_add (h : contact_hdr pjsip_sip_uri) : Prop := plain_contact h /\ h_expires h <> 0.
Definition to_remove (h : contact_hdr pjsip_sip_uri) : Prop := plain_contact h /\ h_expires h = 0.

(** The contacts of the registration are to be registered, the removed ones to be removed, and
    no URI is twice in the two lists.  No x-uid is added. *)
Record lists_ok (r : pjsip_regc pjsip_sip_uri) : Prop := {
  lo_xuid : rg_add_xuid r = false;
  lo_nodup : NoDup (keys (rg_contacts r ++ rg_removed r));
  lo_contacts : Forall to_add (rg_contacts r);
  lo_removed : Forall to_remove (rg_removed r)
}.

(** The registration knows every binding. *)
Definition covered (b : list K) (r : pjsip_regc pjsip_sip_uri) : Prop := forall k, k ∈ b -> k ∈ keys (rg_contacts r ++ rg_removed r).

(** The contacts of an update: valid (they are parsed), to register, and each once *)
Definition update_ok (l : list (contact_hdr pjsip_sip_uri * list Z)) : Prop :=
  NoDup (keys (map fst l)) /\ Forall to_add (map fst l).

Lemma keys_app l1 l2 : keys (l1 ++ l2) = keys l1 ++ keys l2.
Proof. apply map_app. Qed.

Lemma remove_found h rm i h0 : plain_contact h -> Forall plain_contact rm -> NoDup (keys rm) -> list_find (fun x => contact_cmp sip_uri_cmp x h = true) rm = Some (i, h0) ->
  let rm1 := take i rm ++ drop (S i) rm in
  NoDup (keys rm1) /\ (forall k, k ∈ keys rm1 <-> k ∈ keys rm /\ k <> hkey h) /\ (forall P, Forall P rm -> Forall P rm1).
Proof.
  intros Hp0 Hprm Hn Hf. cbn zeta. apply list_find_Some in Hf as (Hl & Hc & _).
  apply cmp_key in Hc; [|by apply (Forall_lookup_1 _ _ _ _ Hprm Hl)|done].
  rewrite <- delete_take_drop. pose proof (delete_Permutation rm i h0 Hl) as Hp.
  assert (Hk : keys rm ≡ₚ hkey h0 :: keys (delete i rm)) by (unfold keys at 1; rewrite Hp at 1; done).
  rewrite Hk in Hn. apply NoDup_cons in Hn as [Hnot Hn]. split; [done|]. split.
  - intros k. rewrite Hk, elem_of_cons. unfold hkey in *. rewrite <- Hc. split; [|by intros [[->|?] Hne]].
    intros Hin. split; [by right|]. by intros ->.
  - intros P. rewrite Hp at 1. intros H. by apply Forall_cons in H as [_ H].
Qed.

Lemma not_found h rm : plain_contact h -> Forall plain_contact rm -> list_find (fun x => contact_cmp sip_uri_cmp x h = true) rm = None -> hkey h ∉ keys rm.
Proof.
  intros Hp Hprm Hf Hin. apply list_find_None in Hf. unfold keys in Hin. apply list_elem_of_In, in_map_iff in Hin as (x & E & Hin).
  rewrite List.Forall_forall in Hf, Hprm. apply (Hf x Hin). apply cmp_key; [by apply Hprm|done|done].
Qed.

Lemma add_contacts_spec l : forall c rm, Forall to_add (map fst l) -> NoDup (keys rm) -> Forall to_remove rm ->
  exists rm', add_contacts sip_uri_cmp is_sip false (map Some l) c rm = (PJ_SUCCESS, c ++ map fst l, rm') /\
    NoDup (keys rm') /\ (forall k, k ∈ keys rm' <-> k ∈ keys rm /\ k ∉ keys (map fst l)) /\ Forall to_remove rm'.
Proof.
  induction l as [|[h u] l IH]; intros c rm Hl Hrm Hz; cbn [map add_contacts fst andb] in *.
  { exists rm. rewrite app_nil_r. split_and!; try done. intros k. split; [|by intros []]. intros H. split; [done|]. apply not_elem_of_nil. }
  apply Forall_cons in Hl as [[Hh _] Hl].
  assert (Hp : Forall plain_contact rm) by (eapply Forall_impl; [exact Hz|by intros ? []]).
  set (rm1 := match list_find _ rm with Some (i, _) => take i rm ++ drop (S i) rm | None => rm end).
  assert (Hrm1 : NoDup (keys rm1) /\ (forall k, k ∈ keys rm1 <-> k ∈ keys rm /\ k <> hkey h) /\ Forall to_remove rm1).
  { unfold rm1. destruct (list_find _ rm) as [[i h0]|] eqn:Ef.
    - destruct (remove_found h rm i h0 Hh Hp Hrm Ef) as (H1 & H2 & H3). split_and!; try done. by apply H3.
    - apply not_found in Ef; [|done..]. split_and!; try done. intros k. split; [|by intros []]. intros Hin. split; [done|]. by intros ->. }
  destruct Hrm1 as (Hn1 & Hin1 & Hz1).
  destruct (IH (c ++ [h]) rm1 Hl Hn1 Hz1) as (rm' & E & Hn' & Hin' & Hz2). exists rm'. rewrite <- app_assoc in E. split; [exact E|].
  split_and!; try done. intros k. rewrite Hin', Hin1. cbn. rewrite not_elem_of_cons. tauto.
Qed.

Lemma set_contact_spec l r : lists_ok r -> update_ok l ->
  exists r', set_contact sip_uri_cmp is_sip (map Some l) r = (PJ_SUCCESS, r') /\ lists_ok r' /\ rg_contacts r' = map fst l /\
    (forall b, covered b r -> covered b r') /\ rg_expires_hdr r' = rg_expires_hdr r.
Proof.
  intros [Hx Hn Hc Hr] [Hl He]. unfold set_contact. rewrite Hx. set (rm := map (set_h_expires 0) (rg_removed r ++ rg_contacts r)).
  assert (Ek : keys rm = keys (rg_removed r ++ rg_contacts r)) by (unfold rm, keys; rewrite map_map; by apply map_ext).
  assert (Hrm : NoDup (keys rm)).
  { rewrite Ek. rewrite keys_app in Hn |- *. by rewrite (Permutation_app_comm (keys (rg_removed r))). }
  assert (Hz : Forall to_remove rm).
  { apply Forall_map, Forall_app. split; (eapply Forall_impl; [eassumption|]); intros h [Hp _]; by split. }
  destruct (add_contacts_spec l [] rm He Hrm Hz) as (rm' & -> & Hn' & Hin & Hz').
  eexists. split; [reflexivity|]. split; [|split; [done|split; [|done]]].
  - split; cbn; [done| |done|done]. rewrite keys_app. apply NoDup_app. split; [done|]. split; [|done].
    intros k Hk Hk'. apply Hin in Hk' as [_ Hk']. done.
  - intros b Hb k Hk. specialize (Hb k Hk). cbn. rewrite keys_app. apply elem_of_app.
    destruct (decide (k ∈ keys (map fst l))) as [Hd|Hd]; [by left|right]. apply Hin. split; [|done]. rewrite Ek.
    rewrite !keys_app in Hb |- *. apply elem_of_app. apply elem_of_app in Hb. tauto.
Qed.

Fixpoint updates (us : list (list (contact_hdr pjsip_sip_uri * list Z))) (r : pjsip_regc pjsip_sip_uri) : pjsip_regc pjsip_sip_uri :=
  match us with [] => r | l :: us' => updates us' (set_contact sip_uri_cmp is_sip (map Some l) r).2 end.

(** The contacts of the last update *)
Definition last_update (us : list (list (contact_hdr pjsip_sip_uri * list Z))) r : list (contact_hdr pjsip_sip_uri) :=
  match last us with Some l => map fst l | None => rg_contacts r end.

Lemma updates_spec us b : Forall update_ok us -> forall r, lists_ok r -> covered b r ->
  lists_ok (updates us r) /\ covered b (updates us r) /\ rg_expires_hdr (updates us r) = rg_expires_hdr r /\
  rg_contacts (updates us r) = last_update us r.
Proof.
  induction 1 as [|l us Hl _ IH]; intros r Hr Hb; [done|]. cbn [updates].
  destruct (set_contact_spec l r Hr Hl) as (r' & -> & Hr' & Ec & Hb' & Ee). cbn. rewrite <- Ee.
  destruct (IH r' Hr' (Hb' _ Hb)) as (H1 & H2 & H3 & H4). split_and!; try done.
  rewrite H4. unfold last_update. rewrite last_cons. by destruct (last us).
Qed.

(** What the registrar makes of contacts to add, and of contacts to remove *)
Lemma registrar_adds d l : Forall (fun h => effective d h <> 0) l -> forall b k,
  k ∈ fold_left (bind_one d) (map Contact l) b <-> k ∈ b \/ k ∈ keys l.
Proof.
  induction 1 as [|h l Hh _ IH]; intros b k; cbn [map fold_left keys]; [rewrite elem_of_nil; tauto|].
  rewrite IH. cbn [bind_one]. rewrite (proj2 (Z.eqb_neq _ _) Hh), elem_of_app, list_elem_of_singleton.
  change (keys (h :: l)) with (hkey h :: keys l). rewrite elem_of_cons.
  rewrite !list_elem_of_In, filter_In, negb_true_iff, bool_decide_eq_false. destruct (decide (k = hkey h)); tauto.
Qed.

Lemma registrar_removes d l : Forall (fun h => effective d h = 0) l -> forall b k,
  k ∈ fold_left (bind_one d) (map Contact l) b <-> k ∈ b /\ k ∉ keys l.
Proof.
  induction 1 as [|h l Hh _ IH]; intros b k; cbn [map fold_left keys].
  - split; [|by intros []]. intros Hk. split; [done|apply not_elem_of_nil].
  - rewrite IH. cbn [bind_one]. rewrite (proj2 (Z.eqb_eq _ _) Hh), not_elem_of_cons.
    rewrite !list_elem_of_In, filter_In, negb_true_iff, bool_decide_eq_false. tauto.
Qed.

(** The request, and what is left of the lists *)
Lemma bind_ok {A B} (m : M pjsip_sip_uri A) (f : A -> M pjsip_sip_uri B) (w w' : world pjsip_sip_uri) y : bind m f w = Ok y w' -> exists x w1, m w = Ok x w1 /\ f x w1 = Ok y w'.
Proof. unfold bind. destruct (m w) as [x w1|]; [|done]. by exists x, w1. Qed.

Lemma modify_inv f (w w' : world pjsip_sip_uri) y : modify f w = Ok y w' -> w' = set_regc (f (w_regc w)) w.
Proof. unfold modify. destruct (w_freed w); [done|]. by intros [= _ <-]. Qed.

Lemma get_inv (w w' : world pjsip_sip_uri) r : get w = Ok r w' -> r = w_regc w /\ w' = w.
Proof. unfold get. destruct (w_freed w); [done|]. by intros [= <- <-]. Qed.

Lemma pop_inv (w w' : world pjsip_sip_uri) a : pop w = Ok a w' -> w_regc w' = w_regc w.
Proof. unfold pop. destruct (w_answers w); by intros [= <- <-]. Qed.

Lemma create_request_inv (w w' : world pjsip_sip_uri) st m : create_request garbage aka_cb auto_send_next w = Ok (st, m) w' ->
  exists a, w_regc w' = set_auth a (w_regc w).
Proof.
  unfold create_request. intros H. apply bind_ok in H as (a & w1 & Hp & H). apply pop_inv in Hp. apply bind_ok in H as (r & w2 & Hg & H).
  apply get_inv in Hg as [-> ->]. destruct (negb _).
  - injection H as _ _ <-. exists (rg_auth (w_regc w)). rewrite Hp. by destruct (w_regc w).
  - destruct (pjsip_auth_clt_init_req _ _ _ _ _ _) as [[[s req] au]|]; [|done]. apply bind_ok in H as (u & w3 & Hm & H). apply modify_inv in Hm as ->.
    injection H as _ _ <-. exists au. cbn. by rewrite Hp.
Qed.

Lemma register_request_eq autoreg (w : world pjsip_sip_uri) m w' : pjsip_regc_register garbage aka_cb auto_send_next autoreg w = Ok (PJ_SUCCESS, Some m) w' ->
  rm_contacts m = all_contacts (w_regc w) /\ rm_expires m = rg_expires_hdr (w_regc w) /\
  rg_contacts (w_regc w') = rg_contacts (w_regc w) /\ rg_removed (w_regc w') = [] /\ rg_add_xuid (w_regc w') = rg_add_xuid (w_regc w).
Proof.
  unfold pjsip_regc_register. intros H. apply bind_ok in H as (u & w1 & Hm & H). apply modify_inv in Hm as ->.
  apply bind_ok in H as ([st m0] & w2 & Hc & H). apply create_request_inv in Hc as [au Hc]. cbn in Hc. destruct (negb _); [done|].
  apply bind_ok in H as (r & w3 & Hg & H). apply get_inv in Hg as [-> ->]. apply bind_ok in H as (u' & w4 & Hm & H). apply modify_inv in Hm as ->.
  injection H as <- <-. cbn. rewrite Hc. cbn. unfold cancel_timer. by destruct (negb _).
Qed.

(** C18: The bindings at the registrar become the contacts of the registration: after any
    number of updates of the contacts the next REGISTER adds every contact of the last update
    and removes every binding that is not one any more, so that a registrar that takes it has
    exactly the contacts; and again after the next updates.  The conditions: every update
    succeeds with valid contacts, each URI once and no expiration of 0; the contacts are sip or
    sips URIs without display name, x-uid, other parameters or headers ([plain_contact]; on
    these pjsip_uri_cmp is an equality, which it is not in general:
    [SipUri.url_compare_not_transitive]); the registration knows all bindings ([covered]; it
    forgets those to remove when it makes the request, so not after a REGISTER that fails);
    and the expiration asked for is not 0.  Contacts that differ in their display name alone
    are an exception that the source has: [display_name_unbinds]. *)
Theorem bindings_reconciled us r b autoreg (w : world pjsip_sip_uri) m w' : lists_ok r -> covered b r -> Forall update_ok us ->
  w_regc w = updates us r -> rg_expires_hdr r <> Some 0 ->
  pjsip_regc_register garbage aka_cb auto_send_next autoreg w = Ok (PJ_SUCCESS, Some m) w' ->
  rg_contacts (w_regc w') = last_update us r /\
  (forall k, k ∈ registrar b m <-> k ∈ keys (last_update us r)) /\
  lists_ok (w_regc w') /\ covered (registrar b m) (w_regc w').
Proof.
  intros Hr Hb Hus Ew He Hreg. destruct (updates_spec us b Hus r Hr Hb) as ([Hxu Hn Hc Hz] & Hb2 & Ee & El). rewrite <- El, <- Ew in *.
  destruct (register_request_eq autoreg w m w' Hreg) as (Em & Ex & Ec & Er & Exu).
  assert (Hmain : forall k, k ∈ registrar b m <-> k ∈ keys (rg_contacts (w_regc w))).
  { intros k. unfold registrar. rewrite Em, Ex, Ee. unfold all_contacts. rewrite map_app, fold_left_app.
    rewrite registrar_removes, registrar_adds.
    - rewrite keys_app in Hn. apply NoDup_app in Hn as (_ & Hd & _). specialize (Hd k). specialize (Hb2 k). rewrite keys_app, elem_of_app in Hb2. tauto.
    - eapply Forall_impl; [exact Hc|]. intros h [_ Hh]. unfold effective. destruct (0 <=? h_expires h); [done|].
      destruct (rg_expires_hdr r); congruence.
    - eapply Forall_impl; [exact Hz|]. intros h [_ Hh]. unfold effective. by rewrite Hh. }
  split; [done|]. split; [done|]. split.
  - split; rewrite ?Er, ?Ec, ?Exu, ?app_nil_r; [done| |done|by constructor]. rewrite keys_app in Hn. by apply NoDup_app in Hn as (? & _ & _).
  - intros k Hk. apply Hmain in Hk. by rewrite Er, Ec, app_nil_r.
Qed.
End Bindings.

(** ** Refreshes *)

Section Refresh.
Context {Str : PjString} {Uri : Type} (uri_cmp : contact_hdr Uri -> contact_hdr Uri -> bool) (is_sip : Uri -> bool).
Context (check_contact wide_long watch : bool) (garbage : list Z).
Context (aka_cb : pjsip_digest_challenge -> pjsip_cred_info -> list Z -> pjsip_digest_credential -> Z * pjsip_digest_credential).
Context (auto_send_next : bool).
Hypothesis garbage_length : length garbage = 64%nat.

(** A grant of 5 seconds or more above the delay is refreshed before the delay begins. *)
Lemma refresh_delay_bounds e (r : pjsip_regc Uri) : 0 <= rg_delay r -> rg_delay r + DELAY_BEFORE_REFRESH <= e < 2 ^ 31 ->
  rg_expires r = PJSIP_REGC_EXPIRATION_NOT_SPECIFIED \/ 0 <= rg_expires r < 2 ^ 31 ->
  DELAY_BEFORE_REFRESH <= refresh_delay wide_long e r <= e - rg_delay r.
Proof.
  intros Hd He Hx. unfold refresh_delay, DELAY_BEFORE_REFRESH in *. cbn zeta.
  assert (Hl : forall x, 0 <= x < 2 ^ 31 -> to_long wide_long (u32 x) = x /\ to_long wide_long x = x /\ i32 x = x).
  { intros x Hxr. assert (u32 x = x) as -> by (unfold u32; rewrite Z.mod_small; lia).
    assert (i32 x = x) by (unfold i32; rewrite Z.mod_small; lia). unfold to_long. by destruct wide_long. }
  destruct (Hl (e - rg_delay r) ltac:(lia)) as (-> & _). destruct Hx as [->|Hx].
  - rewrite Z.eqb_refl. cbn [negb andb]. destruct (Z.ltb_spec (e - rg_delay r) 5); lia.
  - destruct (Hl _ Hx) as (_ & -> & ->). destruct (negb _ && _) eqn:E.
    + apply andb_true_iff in E as [_ E]. apply Z.ltb_lt in E. destruct (Z.ltb_spec (rg_expires r) 5); lia.
    + destruct (Z.ltb_spec (e - rg_delay r) 5); lia.
Qed.

(** What a refresh does not change *)
Definition settings (r : pjsip_regc Uri) := (rg_contacts r, rg_add_xuid r, rg_expires_hdr r, rg_delay r).

(** A registration that is refreshed by itself, in [b] calls *)
Record automatic (b : Z) (w : world Uri) : Prop := {
  rd_freed : w_freed w = false;
  rd_flag : rg_delete_flag (w_regc w) = false;
  rd_busy : rg_busy_ctr (w_regc w) = b;
  rd_tsx_cb : rg_tsx_cb (w_regc w) = false;
  rd_auto : rg_auto_reg (w_regc w) = true;
  rd_delay : 0 <= rg_delay (w_regc w);
  rd_expires : rg_expires (w_regc w) = PJSIP_REGC_EXPIRATION_NOT_SPECIFIED \/ 0 <= rg_expires (w_regc w) < 2 ^ 31;
  rd_hdr : rg_expires_hdr (w_regc w) <> Some 0;
  rd_auth : sess_ok (rg_auth (w_regc w));
  rd_url : short (rg_srv_url (w_regc w))
}.

(** It is registered until [until], and its timer expires before. *)
Record registered (until : Z) (w : world Uri) : Prop := {
  rs_auto : automatic 0 w;
  rs_tsx : rg_has_tsx (w_regc w) = false;
  rs_pending : w_pending w = [];
  rs_timer : exists t, rg_timer (w_regc w) = Some t /\ t <= until - rg_delay (w_regc w)
}.

(** Its request is on the way. *)
Record refreshing (b : Z) (m : reg_msg Uri) (w : world Uri) : Prop := {
  rf_auto : automatic b w;
  rf_tsx : rg_has_tsx (w_regc w) = true;
  rf_pending : w_pending w = [m];
  rf_op : rg_current_op (w_regc w) = REGC_REGISTERING
}.

#[local] Abbreviation handle' := (handle uri_cmp is_sip check_contact wide_long watch garbage aka_cb auto_send_next).

(** *** One step after the other *)

Lemma bind_eq {A B} (m : M Uri A) (f : A -> M Uri B) (w w' : world Uri) x : m w = Ok x w' -> bind m f w = f x w'.
Proof. intros H. unfold bind. by rewrite H. Qed.

Lemma modify_eq f (w : world Uri) : w_freed w = false -> modify f w = Ok tt (set_regc (f (w_regc w)) w).
Proof. intros H. unfold modify. by rewrite H. Qed.

Lemma get_eq (w : world Uri) : w_freed w = false -> get w = Ok (w_regc w) w.
Proof. intros H. unfold get. by rewrite H. Qed.

Lemma pop_eq a l (w : world Uri) : w_answers w = a :: l -> pop w = Ok a (set_answers l w).
Proof. intros H. unfold pop. by rewrite H. Qed.

(** An update of the registration that keeps it automatic *)
Definition gentle (f : pjsip_regc Uri -> pjsip_regc Uri) : Prop := forall r,
  let r' := f r in
  rg_delete_flag r' = rg_delete_flag r /\ rg_busy_ctr r' = rg_busy_ctr r /\ rg_tsx_cb r' = rg_tsx_cb r /\
  rg_auto_reg r' = rg_auto_reg r /\ rg_delay r' = rg_delay r /\ rg_expires r' = rg_expires r /\ rg_expires_hdr r' = rg_expires_hdr r /\
  rg_auth r' = rg_auth r /\ rg_srv_url r' = rg_srv_url r.

Lemma gentle_automatic b f w : gentle f -> automatic b w -> automatic b (set_regc (f (w_regc w)) w).
Proof.
  intros Hf []. destruct (Hf (w_regc w)) as (H1 & H2 & H3 & H4 & H5 & H6 & H7 & H8 & H9).
  split; cbn; rewrite ?H1, ?H2, ?H3, ?H4, ?H5, ?H6, ?H7, ?H8, ?H9; done.
Qed.

Lemma busy_automatic b b' w : automatic b w -> automatic b' (set_regc (set_busy b' (w_regc w)) w).
Proof. intros []. by split. Qed.

Lemma auth_automatic b s w : automatic b w -> sess_ok s -> automatic b (set_regc (set_auth s (w_regc w)) w).
Proof. intros [] ?. by split. Qed.

Lemma enter_eq b (w : world Uri) : automatic b w -> enter w = Ok tt (set_regc (set_busy (b + 1) (w_regc w)) w).
Proof. intros H. unfold enter. rewrite modify_eq by apply H. by rewrite (rd_busy _ _ H). Qed.

Lemma leave_eq b (w : world Uri) : automatic (b + 1) w -> leave w = Ok tt (set_regc (set_busy b (w_regc w)) w).
Proof.
  intros H. unfold leave. erewrite bind_eq by (apply modify_eq, H). erewrite bind_eq by (apply get_eq; cbn; apply H).
  cbn. rewrite (rd_flag _ _ H), andb_false_r, (rd_busy _ _ H). by replace (b + 1 - 1) with b by lia.
Qed.

Lemma create_request_eq b a l w : automatic b w -> w_answers w = a :: l -> an_create a = 0 -> short (an_unique a) ->
  exists m s, create_request garbage aka_cb auto_send_next w = Ok (PJ_SUCCESS, m) (set_regc (set_auth s (w_regc w)) (set_answers l w)) /\ sess_ok s.
Proof.
  intros H Ea Hc Hu. unfold create_request. rewrite (bind_eq _ _ _ _ _ (pop_eq a l w Ea)). erewrite bind_eq by (apply get_eq; apply H).
  rewrite Hc. cbn [Z.eqb negb PJ_SUCCESS].
  destruct (init_req_ok garbage aka_cb auto_send_next garbage_length (an_unique a) (rg_auth (w_regc w)) (register_request (w_regc w)))
    as (st & req & s & E & Hs & _); [apply H|done|split; [apply (rd_url _ _ H)|done]|].
  change (w_regc (set_answers l w)) with (w_regc w). rewrite E. erewrite bind_eq by (apply modify_eq; apply H). by eexists _, s.
Qed.

Lemma register_eq b a l w : automatic b w -> w_answers w = a :: l -> an_create a = 0 -> short (an_unique a) ->
  exists m w', pjsip_regc_register garbage aka_cb auto_send_next true w = Ok (PJ_SUCCESS, Some m) w' /\
    rm_contacts m = all_contacts (w_regc w) /\ rm_expires m = rg_expires_hdr (w_regc w) /\
    automatic b w' /\ w_answers w' = l /\ w_pending w' = w_pending w /\ rg_has_tsx (w_regc w') = rg_has_tsx (w_regc w) /\
    rg_cseq (w_regc w') = rg_cseq (w_regc w) /\ settings (w_regc w') = settings (w_regc w) /\ w_now w' = w_now w.
Proof.
  intros H Ea Hc Hu. unfold pjsip_regc_register. erewrite bind_eq by (apply modify_eq, H).
  set (w1 := set_regc _ w). assert (H1 : automatic b w1) by (by apply (gentle_automatic b (set_requested 1))).
  destruct (create_request_eq b a l w1 H1 Ea Hc Hu) as (m & s & E & Hs). rewrite (bind_eq _ _ _ _ _ E). cbn [Z.eqb negb PJ_SUCCESS].
  set (w2 := set_regc _ (set_answers l w1)). assert (H2 : automatic b w2) by (destruct H1; by split).
  erewrite bind_eq by (apply get_eq, H2). erewrite bind_eq by (apply modify_eq, H2). set (w3 := set_regc _ w2).
  eexists _, w3. split; [reflexivity|]. split; [done|]. split; [done|]. split; [|unfold w3, cancel_timer; cbn; by destruct (negb _)].
  destruct H2. unfold w3, cancel_timer. cbn. by destruct (negb _); split.
Qed.

Lemma send_eq b a l m w : automatic b w -> rg_has_tsx (w_regc w) = false -> w_pending w = [] -> w_answers w = a :: l ->
  an_status a = 0 -> an_event a = None -> rm_expires m <> Some 0 -> forall nested,
  exists w', pjsip_regc_send nested m w = Ok 0 w' /\ refreshing b (set_rm_cseq (rg_cseq (w_regc w) + 1) m) w' /\
    settings (w_regc w') = settings (w_regc w) /\ w_now w' = w_now w.
Proof.
  intros H Ht Hp Ea Hs He Hx nested. unfold pjsip_regc_send. rewrite (bind_eq _ _ _ _ _ (enter_eq b w H)). set (w1 := set_regc _ w).
  assert (H1 : automatic (b + 1) w1) by by apply (busy_automatic b).
  erewrite bind_eq by (apply get_eq, H1). change (rg_has_tsx (w_regc w1)) with (rg_has_tsx (w_regc w)). rewrite Ht. cbn zeta.
  set (m' := set_rm_cseq _ m). erewrite bind_eq by (apply modify_eq, H1).
  assert (Hun : is_unregister m' = false).
  { unfold is_unregister. change (rm_expires m') with (rm_expires m). destruct (rm_expires m) as [e|]; [|done]. apply Z.eqb_neq. congruence. }
  rewrite Hun. set (w2 := set_regc _ w1).
  assert (H2 : automatic (b + 1) w2 /\ rg_has_tsx (w_regc w2) = true /\ rg_current_op (w_regc w2) = REGC_REGISTERING /\ settings (w_regc w2) = settings (w_regc w)).
  { destruct H1. unfold w2. destruct (rm_expires m') as [e|]; [destruct (negb _)|]; (split; [by split|done]). }
  destruct H2 as (H2 & Ht2 & Hop2 & Hset2). unfold pjsip_endpt_send_request at 1.
  assert (Hsend : (a0 ← pop; log (E_sent m') ;;
    match an_event a0 with
    | Some e =>
        (if an_status a0 =? PJ_SUCCESS then nested (N_event m' e)
         else upd (fun w => set_failing (w_failing w + 1) w) ;; nested (N_event m' e) ;; upd (fun w => set_failing (w_failing w - 1) w)) ;; ret a0
    | None => (if an_status a0 =? PJ_SUCCESS then upd (fun w => set_pending (w_pending w ++ [m']) w) else ret tt) ;; ret a0
    end) w2 = Ok a (set_pending [m'] (add_log (E_sent m') (set_answers l w2)))).
  { rewrite (bind_eq _ _ _ _ _ (pop_eq a l w2 Ea)). erewrite bind_eq by reflexivity. rewrite He, Hs. cbn [Z.eqb PJ_SUCCESS].
    erewrite bind_eq by reflexivity. unfold ret. cbn. by rewrite Hp. }
  rewrite (bind_eq _ _ _ _ _ Hsend). cbn zeta. rewrite Hs. cbn [Z.eqb negb PJ_SUCCESS]. set (w3 := set_pending _ _).
  assert (H3 : automatic (b + 1) w3) by (destruct H2; by split). unfold update_transport. erewrite bind_eq by (apply modify_eq, H3).
  set (w4 := set_regc _ w3).
  assert (H4 : automatic (b + 1) w4 /\ rg_has_tsx (w_regc w4) = true /\ rg_current_op (w_regc w4) = REGC_REGISTERING /\ settings (w_regc w4) = settings (w_regc w)).
  { unfold w4. cbn. destruct (bool_decide _); (split; [destruct H3; by split|done]). }
  destruct H4 as (H4 & Ht4 & Hop4 & Hset4). rewrite (bind_eq _ _ _ _ _ (leave_eq b w4 H4)). eexists. split; [reflexivity|].
  split; [|done]. split; [by apply (busy_automatic (b + 1))|done|done|done].
Qed.

(** The timer sends a REGISTER with the contacts. *)
Lemma timer_sends until w a1 a2 t : registered until w -> rg_timer (w_regc w) = Some t ->
  an_create a1 = 0 -> short (an_unique a1) -> an_status a2 = 0 -> an_event a2 = None ->
  exists w1 m, handle' [a1; a2] Ev_timer (set_now t w) = Ok tt w1 /\ refreshing 0 m w1 /\ rm_contacts m = all_contacts (w_regc w) /\
    rm_cseq m = rg_cseq (w_regc w) + 1 /\ settings (w_regc w1) = settings (w_regc w) /\ w_now w1 = t.
Proof.
  intros [Ha Ht Hp _] Et Hc Hu Hs He. unfold handle. erewrite bind_eq by reflexivity. set (w0 := set_answers _ _). unfold fire_timer.
  change (rg_timer (w_regc w0)) with (rg_timer (w_regc w)). rewrite Et. change (w_now w0) with t. rewrite Z.leb_refl.
  assert (H0 : automatic 0 w0) by (destruct Ha; by split). erewrite bind_eq by (apply modify_eq, H0). set (w1 := set_regc _ w0).
  assert (H1 : automatic 0 w1) by (destruct H0; by split). unfold regc_refresh_timer_cb. rewrite (bind_eq _ _ _ _ _ (enter_eq 0 w1 H1)).
  set (w2 := set_regc _ w1). assert (H2 : automatic (0 + 1) w2) by by apply (busy_automatic 0).
  erewrite bind_eq by (apply modify_eq, H2). set (w3 := set_regc _ w2). assert (H3 : automatic (0 + 1) w3) by (destruct H2; by split).
  destruct (register_eq (0 + 1) a1 [a2] w3 H3 eq_refl Hc Hu) as (m & w4 & E & Em & Ex & H4 & Ea4 & Ep4 & Et4 & Ec4 & Es4 & En4).
  rewrite (bind_eq _ _ _ _ _ E). assert (Hx : rm_expires m <> Some 0) by (rewrite Ex; apply (rd_hdr _ _ Ha)).
  destruct (send_eq (0 + 1) a2 [] m w4 H4) with (nested := run uri_cmp is_sip check_contact wide_long watch garbage aka_cb auto_send_next (run_fuel [a1; a2]))
    as (w5 & E5 & [H5 Ht5 Hp5 Hop5] & Es5 & En5); [by rewrite Et4|by rewrite Ep4|done|done|done|done|].
  rewrite (bind_eq _ _ _ _ _ E5). erewrite bind_eq by (apply get_eq, H5). cbn [Z.eqb negb andb PJ_SUCCESS]. erewrite bind_eq by reflexivity.
  rewrite (leave_eq 0 w5 H5). eexists _, _. split; [reflexivity|]. split; [split; [by apply (busy_automatic (0 + 1))|done|done|done]|].
  split; [exact Em|]. split; [cbn; by rewrite Ec4|]. split; [|cbn; by rewrite En5, En4]. cbn. unfold settings in *. cbn in *. congruence.
Qed.

(** The callback of the application, which takes no call with it *)
Lemma callback_eq b st code e cnt u (w : world Uri) nested : automatic b w -> w_answers w = [] ->
  exists l, call_callback nested st code e cnt u w = Ok tt (if rg_cb (w_regc w) then add_log l w else w).
Proof.
  intros H Ea. unfold call_callback. erewrite bind_eq by (apply get_eq, H). destruct (rg_cb (w_regc w)); cbn [negb]; [|by exists E_freed].
  eexists. erewrite bind_eq by reflexivity. unfold pop. erewrite bind_eq; [|cbn; by rewrite Ea]. reflexivity.
Qed.

(** A 2xx: the expiration is taken over, and the timer set. *)
Lemma final_eq b rsp tp e (w : world Uri) nested : automatic b w -> rg_current_op (w_regc w) = REGC_REGISTERING -> w_answers w = [] ->
  (calculate_response_expiration uri_cmp is_sip check_contact (w_regc w) rsp).1 = e -> rg_delay (w_regc w) + DELAY_BEFORE_REFRESH <= e < NOEXP ->
  exists w', on_final uri_cmp is_sip check_contact wide_long nested (mk_tsx_event 200 (Some rsp) tp) w = Ok tt w' /\
    automatic b w' /\ rg_has_tsx (w_regc w') = rg_has_tsx (w_regc w) /\ w_pending w' = w_pending w /\ w_now w' = w_now w /\
    settings (w_regc w') = settings (w_regc w) /\ exists t, rg_timer (w_regc w') = Some t /\ t <= w_now w + e - rg_delay (w_regc w).
Proof.
  intros H Hop Ea Hcalc He. assert (Hb31 : NOEXP < 2 ^ 31) by done.
  destruct (calculate_response_expiration uri_cmp is_sip check_contact (w_regc w) rsp) as [e' cs] eqn:Ec. cbn in Hcalc. subst e'.
  pose proof (refresh_delay_bounds e (w_regc w) (rd_delay _ _ H) ltac:(lia) (rd_expires _ _ H)) as Hd.
  set (now := w_now w) in *. set (d := refresh_delay wide_long e (w_regc w)) in *.
  set (w1 := set_regc (set_next_reg (now + d) (set_timer REFRESH_TIMER (Some (now + d)) (w_regc w))) w).
  assert (Hx : (rsp0 ← get_rdata (mk_tsx_event 200 (Some rsp) tp); r ← get;
      let '(expiration, contacts) := calculate_response_expiration uri_cmp is_sip check_contact r rsp0 in
      schedule_registration wide_long expiration ;; ret (expiration, length contacts)) w = Ok (e, length cs) w1).
  { erewrite bind_eq by reflexivity. erewrite bind_eq by (apply get_eq, H). rewrite Ec.
    assert (Hsch : schedule_registration wide_long e w = Ok tt w1).
    { unfold schedule_registration. erewrite bind_eq by (apply get_eq, H). rewrite (rd_auto _ _ H). cbn [andb].
      replace (0 <? e) with true by (symmetry; apply Z.ltb_lt; pose proof (rd_delay _ _ H); unfold DELAY_BEFORE_REFRESH in He; lia).
      erewrite bind_eq by reflexivity. cbn zeta. by rewrite modify_eq by apply H. }
    by rewrite (bind_eq _ _ _ _ _ Hsch). }
  assert (H1 : automatic b w1) by (destruct H; by split). unfold on_final. change (status_class _ =? 2) with true. cbn [ev_status]. rewrite (bind_eq _ _ _ _ _ Hx). cbn zeta.
  replace (e =? NOEXP) with false by (symmetry; apply Z.eqb_neq; lia). erewrite bind_eq by (apply get_eq, H1). erewrite bind_eq by (apply modify_eq, H1).
  set (w2 := set_regc _ w1).
  assert (H2 : automatic b w2).
  { destruct H1. split; try done. right. cbn. unfold u32. pose proof (rd_delay _ _ H). unfold DELAY_BEFORE_REFRESH in He. rewrite Z.mod_small; lia. }
  destruct (callback_eq b PJ_SUCCESS 200 e (length cs) (match rg_current_op (w_regc w1) with REGC_UNREGISTERING => true | _ => false end) w2 nested H2 Ea) as [lg E].
  eexists. split; [exact E|]. destruct (rg_cb (w_regc w2)).
  - split; [destruct H2; by split|]. split_and!; try done. exists (now + d). split; [done|lia].
  - split_and!; try done. exists (now + d). split; [done|lia].
Qed.

(** What the calculations read is the settings and the operation. *)
Lemma calc_settings (r r' : pjsip_regc Uri) rsp : settings r' = settings r -> rg_current_op r' = rg_current_op r ->
  calculate_response_expiration uri_cmp is_sip check_contact r' rsp = calculate_response_expiration uri_cmp is_sip check_contact r rsp.
Proof.
  unfold settings. intros Hs Ho. injection Hs as E1 E2 E3 E4. unfold calculate_response_expiration, from_headers. by rewrite Ho, E1, E2, E3.
Qed.

Lemma settings_delay (r r' : pjsip_regc Uri) : settings r' = settings r -> rg_delay r' = rg_delay r.
Proof. unfold settings. intros Hs. by injection Hs. Qed.

(** The 2xx to it sets the timer for the next refresh, before the new expiration. *)
Lemma refresh_granted m w rsp tp e now : refreshing 0 m w ->
  (calculate_response_expiration uri_cmp is_sip check_contact (w_regc w) rsp).1 = e ->
  rg_delay (w_regc w) + DELAY_BEFORE_REFRESH <= e < NOEXP ->
  exists w1, handle' [] (Ev_tsx 0 (mk_tsx_event 200 (Some rsp) tp)) (set_now now w) = Ok tt w1 /\ registered (now + e) w1 /\
    w_now w1 = now /\ settings (w_regc w1) = settings (w_regc w).
Proof.
  intros [Ha Ht Hp Hop] Hcalc He. unfold handle. erewrite bind_eq by reflexivity. set (w0 := set_answers _ _).
  erewrite bind_eq by reflexivity. change (w_pending w0) with (w_pending w). rewrite Hp. cbn [lookup list_lookup]. erewrite bind_eq by reflexivity.
  set (w1 := set_pending _ w0). assert (H1 : automatic 0 w1) by (destruct Ha; by split). assert (Hp1 : w_pending w1 = []) by (unfold w1, w0; cbn; by rewrite Hp).
  cbn [run run_fuel length]. unfold regc_tsx_callback. rewrite (bind_eq _ _ _ _ _ (enter_eq 0 w1 H1)). set (w2 := set_regc _ w1).
  assert (H2 : automatic (0 + 1) w2) by by apply (busy_automatic 0). erewrite bind_eq by (apply modify_eq, H2). set (w3 := set_regc _ w2).
  assert (H3 : automatic (0 + 1) w3) by (destruct H2; by split). unfold update_transport. erewrite bind_eq by (apply modify_eq, H3).
  set (w4 := set_regc _ w3).
  assert (H4 : automatic (0 + 1) w4 /\ rg_has_tsx (w_regc w4) = false /\ rg_current_op (w_regc w4) = REGC_REGISTERING /\
    settings (w_regc w4) = settings (w_regc w)).
  { unfold w4. cbn. destruct (bool_decide _); (split; [destruct H3; by split|done]). }
  destruct H4 as (H4 & Ht4 & Hop4 & Hs4).
  assert (Hcb : forall nested, call_tsx_cb uri_cmp is_sip nested 200 w4 = Ok false w4).
  { intros nested. unfold call_tsx_cb. erewrite bind_eq by (apply get_eq, H4). by rewrite Hop4, (rd_tsx_cb _ _ H4), andb_false_r. }
  rewrite (bind_eq _ _ _ _ _ (Hcb _)). erewrite bind_eq by (apply get_eq, H4). cbn [ev_status]. rewrite (rd_flag _ _ H4).
  change ((200 =? PJSIP_SC_PROXY_AUTHENTICATION_REQUIRED) || (200 =? PJSIP_SC_UNAUTHORIZED)) with false.
  change (200 =? PJSIP_SC_INTERVAL_TOO_BRIEF) with false. cbn [andb].
  assert (Hcalc4 : calculate_response_expiration uri_cmp is_sip check_contact (w_regc w4) rsp =
    calculate_response_expiration uri_cmp is_sip check_contact (w_regc w) rsp).
  { apply calc_settings; [exact Hs4|by rewrite Hop4, Hop]. }
  pose proof (settings_delay _ _ Hs4) as Hd4.
  destruct (final_eq (0 + 1) rsp tp e w4 (fun _ => stop No_fuel) H4 Hop4 eq_refl) as (w5 & E5 & H5 & Ht5 & Hp5 & Hn5 & Hs5 & t & Et & Hle).
  { by rewrite Hcalc4. } { by rewrite Hd4. }
  rewrite (bind_eq _ _ _ _ _ E5), (leave_eq 0 w5 H5). eexists. split; [reflexivity|]. split; [|split; [by cbn; rewrite Hn5|exact (eq_trans Hs5 Hs4)]].
  split; [by apply (busy_automatic (0 + 1))|exact (eq_trans Ht5 Ht4)|exact (eq_trans Hp5 Hp1)|]. exists t. split; [done|]. cbn.
  rewrite (settings_delay _ _ Hs5). exact Hle.
Qed.

(** *** Any number of refreshes *)

(** One refresh: the answers to its request, the response, when it comes, and its expiration *)
Record round := mk_round { ro_create : answer Uri; ro_send : answer Uri; ro_rsp : reg_rsp Uri; ro_transport : option Z; ro_when : Z; ro_expires : Z }.

(** Each refresh is sent before the registration has expired, by the delay at least, with the
    contacts and the next CSeq, and its response makes the next one. *)
Fixpoint kept (until : Z) (l : list round) (w : world Uri) : Prop :=
  registered until w /\
  match l with
  | [] => True
  | x :: l' =>
      exists t w1 m w2, rg_timer (w_regc w) = Some t /\ t <= until - rg_delay (w_regc w) /\
        handle' [ro_create x; ro_send x] Ev_timer (set_now t w) = Ok tt w1 /\ w_pending w1 = [m] /\
        rm_contacts m = all_contacts (w_regc w) /\ rm_cseq m = rg_cseq (w_regc w) + 1 /\
        let now := Z.max t (ro_when x) in
        handle' [] (Ev_tsx 0 (mk_tsx_event 200 (Some (ro_rsp x)) (ro_transport x))) (set_now now w1) = Ok tt w2 /\
        kept (now + ro_expires x) l' w2
  end.

(** The requests can be made and sent; the response grants a time that is 5 seconds longer
    than the delay at least. *)
Definition round_ok (r : pjsip_regc Uri) (x : round) : Prop :=
  an_create (ro_create x) = 0 /\ short (an_unique (ro_create x)) /\ an_status (ro_send x) = 0 /\ an_event (ro_send x) = None /\
  (calculate_response_expiration uri_cmp is_sip check_contact (set_op REGC_REGISTERING r) (ro_rsp x)).1 = ro_expires x /\
  rg_delay r + DELAY_BEFORE_REFRESH <= ro_expires x < NOEXP.

Lemma round_settings r r' x : settings r' = settings r -> round_ok r x -> round_ok r' x.
Proof.
  intros Hs (H1 & H2 & H3 & H4 & Hc & Hd). rewrite <- (settings_delay _ _ Hs) in Hd. split_and!; try done; [|apply Hd..].
  rewrite <- Hc. f_equal. by apply calc_settings.
Qed.

(** C19: A registration with automatic refreshes is kept: each refresh is sent before the
    registration has expired, at least the delay of pjsip_regc_set_delay_before_refresh
    earlier, with all contacts and the next CSeq, and a 2xx to it sets the timer for the
    next one, for any number of refreshes.  The conditions: it is registered and its timer
    runs, the application has set no transaction callback ([automatic]), every request can be
    made and is taken by the endpoint, every response is a 2xx whose expiration exceeds the
    delay by 5 seconds at least ([round_ok]; [refresh_delay_wraps] shows what a shorter grant
    does), and the timer expires when it is due. *)
Theorem registration_kept l until w : registered until w -> Forall (round_ok (w_regc w)) l -> kept until l w.
Proof.
  intros Hw Hl. revert until w Hw Hl. induction l as [|x l IH]; intros u w Hw Hl; [done|]. split; [done|].
  apply Forall_cons in Hl as [(Hc & Hu & Hs & He & Hcalc & Hgr) Hl]. destruct (rs_timer _ _ Hw) as (t & Et & Hle).
  destruct (timer_sends u w _ _ t Hw Et Hc Hu Hs He) as (w1 & m & E1 & Hr1 & Em & Ecs & Es1 & En1).
  assert (Hcalc1 : (calculate_response_expiration uri_cmp is_sip check_contact (w_regc w1) (ro_rsp x)).1 = ro_expires x).
  { rewrite <- Hcalc. f_equal. apply calc_settings; [exact Es1|apply (rf_op _ _ _ Hr1)]. }
  pose proof (settings_delay _ _ Es1) as Hd1.
  destruct (refresh_granted m w1 (ro_rsp x) (ro_transport x) (ro_expires x) (Z.max t (ro_when x)) Hr1 Hcalc1) as (w2 & E2 & Hr2 & En2 & Es2); [by rewrite Hd1|].
  exists t, w1, m, w2. split_and!; try done; [apply Hr1|]. cbn zeta. split; [exact E2|]. apply IH; [done|].
  eapply Forall_impl; [exact Hl|]. intros y. apply round_settings. congruence.
Qed.
End Refresh.

(** ** The theorems at work *)

#[local] Existing Instance plain_strings.

Definition w_cmp (h1 h2 : contact_hdr (list Z)) : bool := bool_decide (h_uri h1 = h_uri h2).
Definition w_is_sip (_ : list Z) : bool := true.
Definition w_contact (s : list Z) : contact_hdr (list Z) := mk_contact [] s None (-1).
Definition w_new (l : list (list Z)) : list (option (contact_hdr (list Z) * list Z)) := map (fun s => Some (w_contact s, [])) l.
Definition w_regc0 : pjsip_regc (list Z) :=
  (pjsip_regc_init w_cmp w_is_sip (Some (lit "sip:example.org")) (Some []) (Some []) (w_new [lit "sip:a"; lit "sip:b"]) 3600 7 (pjsip_regc_create false)).2.
Definition w_rsp (e : Z) : reg_rsp (list Z) := mk_reg_rsp [mk_contact [] (lit "sip:a") None e; mk_contact [] (lit "sip:b") None e] None None [].
#[local] Abbreviation w_history watch := (@history plain_strings (list Z) w_cmp w_is_sip true true watch w_garbage w_aka false).

(** A registration that is made, granted, refreshed by its timer, and destroyed by the
    callback of the last response *)
Definition w_inputs : list (list (answer (list Z)) * event (Uri := list Z)) :=
  [([], Ev_calls [C_register true; C_send 0]); ([], Ev_tsx 0 (mk_tsx_event 200 (Some (w_rsp 60)) None)); ([], Ev_time 55); ([], Ev_timer);
   ([mk_answer 0 0 None None [C_destroy] None []], Ev_tsx 0 (mk_tsx_event 503 None None))].

Lemma w_init : pjsip_regc_init w_cmp w_is_sip (Some (lit "sip:example.org")) (Some []) (Some []) (w_new [lit "sip:a"; lit "sip:b"]) 3600 7
  (pjsip_regc_create false) = (PJ_SUCCESS, w_regc0).
Proof. vm_compute. reflexivity. Qed.

Lemma registration_safe_witness :
  match w_history false w_inputs (initial w_regc0) with
  | Ok _ w =>
      (length (w_pending w) <= 1)%nat /\ quiet false (w_log w) = true /\
      frees (w_log w) = (if w_freed w then 1%nat else 0%nat) /\
      (w_freed w = true <-> w_released w = true /\ w_pending w = [])
  | Stop s => s = Misuse
  end.
Proof.
  apply (@registration_safe plain_strings (list Z) w_cmp w_is_sip true true w_garbage w_aka false ltac:(done)
    (lit "sip:example.org") (w_new [lit "sip:a"; lit "sip:b"]) 3600 7 false w_regc0 w_inputs w_init).
  - done.
  - repeat (constructor; [split; [by repeat (constructor; [repeat constructor; try done; intros e He; discriminate He|])|by repeat constructor]|]). constructor.
  - vm_compute. discriminate.
Defined.

(** It ends with the memory given back. *)
Example registration_destroyed :
  match w_history false w_inputs (initial w_regc0) with Ok _ w => w_freed w && (Z.of_nat (length (w_log w)) =? 6) | Stop _ => false end = true.
Proof. vm_compute. reflexivity. Qed.

(** A send that fails after the callback has sent another request forgets the transaction of
    that one: the registration is destroyed while it runs, and used when it ends. *)
Example send_out_of_failure_freed :
  let unreachable := mk_answer 0 1 (Some (mk_tsx_event 503 None None)) None [] None [] in
  let retry := mk_answer 0 0 None None [C_register false; C_send 0] None [] in
  let l := [([no_answer; unreachable; retry; no_answer; no_answer], Ev_calls [C_register false; C_send 0]); ([], Ev_calls [C_destroy]);
            ([], Ev_tsx 0 (mk_tsx_event 200 (Some (w_rsp 60)) None))] in
  w_history false l (initial w_regc0) = Stop Freed /\ w_history true l (initial w_regc0) = Stop Failing_send.
Proof. vm_compute. by split. Qed.

(** The contacts become the second of the two and a third: the request removes the first. *)
Definition u_url (host : list Z) : pjsip_sip_uri := mk_sip_uri false [] [] host 0 [] [] [] (-1) 0 [] [] [].
Definition u_contact (display host : list Z) : contact_hdr pjsip_sip_uri := mk_contact display (u_url host) None (-1).
Definition u_is_sip (_ : pjsip_sip_uri) : bool := true.
Definition u_regc (l : list (contact_hdr pjsip_sip_uri)) : pjsip_regc pjsip_sip_uri :=
  (pjsip_regc_init sip_uri_cmp u_is_sip (Some (lit "sip:example.org")) (Some []) (Some []) (map (fun h => Some (h, [])) l) 3600 7
     (pjsip_regc_create false)).2.
Definition u_bound : list (contact_hdr pjsip_sip_uri) := [u_contact [] (lit "a"); u_contact [] (lit "b")].
Definition u_us : list (list (contact_hdr pjsip_sip_uri * list Z)) := [[(u_contact [] (lit "B"), []); (u_contact [] (lit "c"), [])]].
(** The request after the updates [us] of a registration of [l], and the registration then *)
Definition u_registering l us : result pjsip_sip_uri (Z * option (reg_msg pjsip_sip_uri)) :=
  pjsip_regc_register w_garbage w_aka false true (initial (updates u_is_sip us (u_regc l))).
Definition u_request l us : reg_msg pjsip_sip_uri :=
  match u_registering l us with Ok (_, Some m) _ => m | _ => mk_reg_msg [] None 0 [] [] w_req end.
Definition u_after l us : world pjsip_sip_uri := match u_registering l us with Ok _ w => w | Stop _ => initial (u_regc l) end.

Lemma bindings_reconciled_witness :
  rg_contacts (w_regc (u_after u_bound u_us)) = last_update u_us (u_regc u_bound) /\
  (forall k, k ∈ registrar (keys u_bound) (u_request u_bound u_us) <-> k ∈ keys (last_update u_us (u_regc u_bound))) /\
  lists_ok (w_regc (u_after u_bound u_us)) /\ covered (registrar (keys u_bound) (u_request u_bound u_us)) (w_regc (u_after u_bound u_us)).
Proof.
  apply (@bindings_reconciled plain_strings u_is_sip w_garbage w_aka false) with (autoreg := true) (w := initial (updates u_is_sip u_us (u_regc u_bound))).
  - split; [done| |by repeat constructor|by constructor]. apply (bool_decide_unpack (NoDup _)). vm_compute. constructor.
  - intros k Hk. exact Hk.
  - constructor; [|done]. split; [apply (bool_decide_unpack (NoDup _)); vm_compute; constructor|by repeat constructor].
  - reflexivity.
  - done.
  - vm_compute. reflexivity.
Defined.

(** The display name of a contact is changed: the source compares it with the URI, so that
    the request adds the contact and then removes its binding. *)
Example display_name_unbinds :
  let l := [u_contact [] (lit "a")] in
  let us := [[(u_contact (lit "Alice") (lit "a"), [])]] in
  last_update us (u_regc l) = [u_contact (lit "Alice") (lit "a")] /\
  map (fun c => match c with Contact h => (h_display h, h_expires h) | Star => ([], -1) end) (rm_contacts (u_request l us)) =
    [(lit "Alice", -1); ([], 0)] /\
  registrar (keys l) (u_request l us) = [].
Proof. vm_compute. by split_and!. Qed.

(** With x-uid the contact that stays is given a new one: by the rules of comparison it is
    another URI than the one that is bound, which the request does not remove. *)
Example xuid_leaves_binding :
  let h x := mk_contact [] (u_url (lit "a")) (Some x) (-1) in
  let r := set_lists [h (lit "1")] [] (pjsip_regc_create true) in
  let r' := (set_contact sip_uri_cmp u_is_sip [Some (u_contact [] (lit "a"), lit "2")] r).2 in
  rg_contacts r' = [h (lit "2")] /\ rg_removed r' = [] /\ sip_uri_cmp (h (lit "1")) (h (lit "2")) = false.
Proof. by vm_compute. Qed.

(** Registered until 60, with a delay of 5 seconds *)
Definition w_granted : world (list Z) := initial (set_timer REFRESH_TIMER (Some 55) (set_auto_reg true w_regc0)).
Definition w_round (e : Z) : round (Uri := list Z) := mk_round no_answer no_answer (w_rsp e) None (100 + e) e.

Lemma w_registered : registered 60 w_granted.
Proof.
  split; [by split; try done; left|done|done|by exists 55].
Qed.

Lemma registration_kept_witness :
  @kept plain_strings (list Z) w_cmp w_is_sip true true true w_garbage w_aka false 60 [w_round 60; w_round 3600] w_granted.
Proof.
  apply (@registration_kept plain_strings (list Z) w_cmp w_is_sip true true true w_garbage w_aka false ltac:(done)); [apply w_registered|].
  repeat (constructor; [by repeat split; vm_compute|]). constructor.
Defined.

(** After an unregistration the first refresh of a new registration comes after 5 seconds,
    and a grant that is shorter than the delay is refreshed after 136 years, where long has
    64 bits. *)
Example refresh_delay_capped : refresh_delay true 3600 (set_rg_expires 0 w_regc0) = 5.
Proof. vm_compute. reflexivity. Qed.
Example refresh_delay_wraps : refresh_delay true 3 w_regc0 = 2 ^ 32 - 2.
Proof. vm_compute. reflexivity. Qed.
